(* ===== verification/_CoqProject ===== *)
-Q . S2P
Prelude.v
PyDict.v
PyList.v
PyInt.v
KVSpec.v
FreeQueue.v
PyStr.v
PyText.v
PyFloat.v
PyRandom.v
GambitConfig.v
Request.v
KVHash.v
BlockPool.v
KVManagers.v
KVTables.v
KVCoordinator.v
KVCacheInv.v
KVCacheOps.v
KVHits.v
KVCacheManager.v
KVCacheProps.v
KVService.v
RequestQueue.v
EncoderCache.v
TraceTree.v
Outputs.v
Scheduler.v
Schedule.v
SchedulerUpdate.v
SchedulerLaws.v
SchedulerInv.v
SchedulerSteps.v
SchedulerPass.v
SchedulerSafe.v
SchedulerOps.v
SchedulerHarvest.v
ScoreOrder.v
SchedulerRuns.v
SchedulerSample.v
EngineCore.v
EngineInv.v
Tournament.v
SampleRun.v
GambitSearch.v
EngineStep.v
Ngram.v
Offload.v
OffloadInv.v
OffloadLru.v
OffloadConnector.v
OffloadTransfers.v
OffloadWorker.v
KVConfig.v
KVSizing.v
KVGrouping.v
KVTensors.v
Detokenizer.v
Logprobs.v
RequestOutput.v
ParallelSampling.v
FrontStats.v
OutputProcessor.v
Numpy.v
BlockTable.v
Sampling.v
BatchUpdate.v
InputBatch.v
ReorderBatch.v
InputBatchInv.v
InputBatchOps.v
ReorderProps.v
ProcessorProps.v
WorkerStates.v
WorkerInv.v
WorkerStep.v
WorkerStart.v
ModelInputs.v
StepInputs.v
Bookkeeping.v
