(* ===== verification/Prelude.v ===== *)
(** * Gambit on vLLM: scheduling, KV cache and search

    Gambit prunes and branches the reasoning traces of a language model while
    they are generated.  It is built into vLLM: the engine core
    (src/vllm/v1/engine/core.py) drives a scheduler, which hands the blocks of a
    KV cache to requests, and after each model step it scores traces, stops the
    worst and branches the best.  This development models that program (below
    src/vllm; the paths in the files' headers are relative to src) as functions
    on explicit state and proves what each part promises the next.

    ** Conventions

    This file has what all others share.  A call that may raise has a value in
    [result]; assertions, missing keys and bad indices raise as in Python, so a
    theorem that a call returns [Ok] says none of them can happen.  The state of
    an object is a record that its methods take and return, updated with the
    notation [x <| field := v |>]; a method keeps its name where the name is
    free.  Objects that several parts hold (requests, cache blocks) live in a
    store, and the parts hold addresses.  PyDict (insertion-ordered
    dictionaries), PyList (slices, stable sort), PyInt, PyStr, PyFloat (binary64,
    computed exactly by the Standard Library's SpecFloat) and PyRandom model what
    the code uses of the language.  Sets whose iteration order Python leaves open
    are [gset]s, walked in the order of [elements]; no theorem depends on it.

    ** Parts

    - Search (engine/core.py, engine/trace_tree.py, config/gambit.py):
      GambitConfig, TraceTree, EngineCore.  [Engine] is the state of
      [EngineCore]; a step is schedule, execute, record scores, take decisions
      (hard floor, tournament of fill and swap rounds, or threshold), force
      stops, finalize.  EngineInv has its invariant [engine_ok], Tournament what a decision
      does to the traces; GambitSearch and EngineStep have the theorems.
      SampleRun makes concrete runs on a small scheduler.
    - Requests and messages (v1/request.py, sched/utils.py, sched/output.py,
      outputs.py, engine/__init__.py): Request, Outputs.
    - KV cache (v1/core): KVSpec (kv_cache_interface.py), FreeQueue and KVHash
      (kv_cache_utils.py), BlockPool, KVManagers
      (single_type_kv_cache_manager.py), KVCoordinator, KVCacheManager, in the
      order they call each other.  KVTables and KVCacheInv tie reference counts
      to block tables; KVCacheOps, KVHits, KVCacheProps have the operations'
      theorems, KVService the promise to the scheduler.
    - KV-cache sizing (second half of kv_cache_utils.py): KVConfig has
      the definitions (memory checks, groups of layers, tensors of each worker),
      KVSizing, KVGrouping and KVTensors the theorems and concrete models.
    - Scheduler (v1/core/sched, encoder_cache_manager.py): RequestQueue,
      EncoderCache, Scheduler (state and operations between steps), Schedule (a
      step), SchedulerUpdate (the model's answer).  ScoreOrder states the Gambit
      ranking in terms of scores and arrival times alone.  SchedulerInv to
      SchedulerHarvest show that each keeps the invariant; SchedulerRuns has the
      theorems on runs, SchedulerSample a run they are instantiated on.
    - Drafts (v1/spec_decode/ngram_proposer.py): Ngram.
    - Off-loading (v1/kv_offload, offloading_connector.py): Offload (the CPU
      backend, the LRU and ARC managers), OffloadConnector (the scheduler's and
      the worker's half); OffloadInv has the contract of a manager and that LRU keeps
      it, OffloadLru, OffloadTransfers and OffloadWorker have the theorems.
    - Front end (detokenizer.py, output_processor.py, parallel_sampling.py,
      logprobs.py of v1/engine; outputs.py, logprobs.py, v1/metrics/stats.py):
      Detokenizer, Logprobs, RequestOutput (outputs, their merge, the collector),
      ParallelSampling, FrontStats, OutputProcessor ([process_outputs] and
      [abort_requests]), each with its theorems.
      Texts are lists of code points (PyText).
    - Model runner (v1/worker: block_table.py, gpu_input_batch.py, gpu_model_runner.py;
      v1/sample/logits_processor; sampling_params.py): Sampling, Numpy, BlockTable,
      BatchUpdate (update builder and built-in logits processors), InputBatch (the
      persistent batch, [Row] by [Row]), ReorderBatch, WorkerStates ([_update_states]),
      ModelInputs ([_prepare_inputs]), Bookkeeping ([_bookkeeping_sync], the capture of
      hidden states and the step scorer's calls).  InputBatchInv says what a row stands
      for; InputBatchOps, ReorderProps and ProcessorProps have the operations' lemmas,
      WorkerInv the runner's invariant, WorkerStep a whole step, WorkerStart the empty
      runner, concrete steps and the theorems on the batch alone, StepInputs the
      theorems on the model's inputs.

    ** Interfaces

    A part is verified against a class, and the part behind the class is
    verified to implement it.  [SchedulerInterface] with [SchedulerLaws] is what
    the engine sees: frame conditions, which its theorems need.  The scheduler model
    is an instance (SchedulerLaws.v), so the engine's theorems hold of it.  What its calls
    do is stated apart, as a refinement of a scheduler of ids in two queues (SchedulerRuns.v).
    [OffloadingManager] with [OffloadingLaws] is what the connector sees; the LRU manager
    is an instance, the ARC manager is not, since its touch can raise.
    [RequestQueue] has the first-come and the priority queue as instances.
    Left as parameters, because their code is not here or is I/O: the executor
    and its scores, KV and encoder connectors ([KVConnector], [ECConnector]), the grammar
    back end ([StructuredOutput], whose laws say that it does not raise), the
    device copies ([OffloadingHandler]), tokenizers ([Tokenizers]), tensor rows
    ([TensorRows]), the trained scorer ([StepScorer]), the random generator ([PyRandom], with
    documented ranges), float summation ([PySum]), and the hash function.  Prefix
    caching needs that the hash function does not collide; this is a hypothesis
    of the theorems on cached content, and sample_hash in KVHash.v satisfies it.

    ** What is shown

    - The scheduler, for text requests under the first-come and the Gambit
      policy, with prefix caching, without speculation, LoRA and connectors: in every run
      no call raises, queues, statuses and blocks agree, a step stays in its
      budget, Gambit keeps the highest scores (without NaN), no request is lost,
      each client is sent exactly one output per request with new tokens, an abort takes
      exactly its requests out, and every call refines that of an abstract scheduler.
    - The search: a decision step returns, keeps the invariant and releases what
      it was asked to decide; each kind of decision prunes and branches exactly
      the traces its rule names; a child inherits its parent's tokens, and what a failed
      child leaves behind is exact; forced stops, boundaries, finalization, an idle step
      and reset.
    - The KV cache: block queue as a list, allocation least recently used first,
      reference counts equal occurrences in block tables, no leaks, a request
      is admitted or refused as a whole, cached prefixes are the longest; for text
      requests equal hashes are equal prefixes and incremental hashing equals hashing at once.
    - Off-loading: the promise is the longest run of blocks that can be loaded, loads pin
      and release their blocks, a store under the LRU policy copies exactly the missing
      blocks, evictions follow the policy and spare blocks in use, transfers are reported once.  N-gram search equals its
      specification.
    - KV-cache sizing: the estimate is the longest length that fits, the groups
      partition the layers, all workers get the same blocks and their tensors fit,
      and a longest request fits where all layers have one specification.
    - The front end: for requests of one sample, engine outputs become exactly the
      expected request outputs, in the right queue or list, and the engine is told which a
      stop string ended; streamed texts add up to the text but for as many characters as a
      stop string may take, however tokens are cut into updates; a collector loses
      nothing; samples are put together in order or streamed at once; flat log
      probabilities read as lists.
    - The model runner: with a well-formed message its batch mirrors the scheduler, row
      by row (but for the masks of allowed tokens); the model gets the scheduled tokens with their positions and slots, drafts
      meet their logits, tokens left on the device are patched in; samples reach their
      requests; the hidden states kept for the scorer are the requests' own (with asynchronous
      scheduling none are asked for), a branch is scored on its whole trace and no two traces
      share a history; condensing and reordering only move requests and tell
      the logits processors, which follow; block tables are lists of blocks.

    Where the code does not do what it means to, a theorem states what it does;
    the notes at those theorems say so (forced stops, reset, idle steps, multimodal tails,
    refused requests, drafts after a skipped request, the ARC policy's stores,
    memory for exactly one longest request, scores lost in a merge,
    scoring with asynchronous scheduling).

    ** Fuel

    A loop that is not structural takes a fuel argument.  The running and the
    waiting loop of a step get the number of running and of waiting requests,
    and each turn uses one up or stops; when a turn evicts others, the evicted
    come from the end of the list.  [drain] of a heap gets its length, sifting a heap gets
    its length, the hashing loops the number of tokens and of features, the walk
    over free blocks their number, the n-gram search twice the number of tokens
    (each turn moves on or shortens the current match), evictions the
    number of blocks missing, the search for a length the size of the interval.  [abort_requests]
    of the front end has Python's recursion limit.  No theorem assumes that fuel sufficed: what
    is proved returns [Ok] with the full result.

    ** Not modelled

    Processes, sockets and threads around the engine core; the forward pass,
    kernels, compilation and distributed back ends, which are tensor programs or
    network code; HTTP serving and argument parsing; multimodal processors and
    grammar engines from third-party packages; training scripts.  Within the
    parts modelled: log messages, timing, tracing and metrics export; in the
    runner multi-modal rotary positions, micro-batches, attention metadata, log
    probabilities, the offsets of random generators and the proposer of drafts.  The theorems on the scheduler leave out the priority
    policy, multimodal and speculative requests and connectors, though the
    definitions cover them. *)

From stdpp Require Export base tactics list gmap strings pretty.
From Stdlib Require Export ZArith Lia.

#[local] Open Scope Z_scope.

(** The lemmas that automate dictionary and tree reasoning. *)
Create HintDb dict.
Create HintDb gambit.

(** ** Python exceptions and the error monad

    A Python call either returns a value or raises.  The state of an operation
    is threaded explicitly: an operation on a state [S] that can raise has the
    type [S -> result (A * S)]. *)

Inductive exn :=
| AssertionError
| KeyError
| IndexError
| ValueError
| TypeError
| RuntimeError
| NotImplementedError
| OverflowError
| AttributeError
| StopIteration
| ZeroDivisionError.

#[export] Instance exn_eq_dec : EqDecision exn.
Proof. solve_decision. Defined.

Inductive result (A : Type) :=
| Ok (a : A)
| Raise (e : exn).
Arguments Ok {A} a.
Arguments Raise {A} e.

#[export] Instance result_ret : MRet result := fun A a => Ok a.
#[export] Instance result_bind : MBind result :=
  fun A B f m => match m with Ok a => f a | Raise e => Raise e end.
#[export] Instance result_fmap : FMap result :=
  fun A B f m => match m with Ok a => Ok (f a) | Raise e => Raise e end.

(** [assert b]. *)
Definition py_assert (b : bool) : result unit :=
  if b then Ok tt else Raise AssertionError.

(** A partial read that raises [e] when there is nothing to read. *)
Definition or_raise {A} (e : exn) (o : option A) : result A :=
  match o with Some a => Ok a | None => Raise e end.

(** A [for] loop over a list whose body updates a state and may raise. *)
Fixpoint for_each {A S} (body : A -> S -> result S) (l : list A) (s : S) : result S :=
  match l with
  | [] => Ok s
  | x :: l' => s' ← body x s; for_each body l' s'
  end.

(** A [for] loop that also collects one value per iteration. *)
Fixpoint for_collect {A B S} (body : A -> S -> result (B * S)) (l : list A) (s : S)
    : result (list B * S) :=
  match l with
  | [] => Ok ([], s)
  | x :: l' =>
      '(b, s1) ← body x s;
      '(bs, s2) ← for_collect body l' s1;
      Ok (b :: bs, s2)
  end.

Lemma bind_Ok_inv {A B} (m : result A) (f : A -> result B) b :
  (m ≫= f) = Ok b -> exists a, m = Ok a /\ f a = Ok b.
Proof. destruct m; cbn; [eauto | discriminate]. Qed.

Lemma py_assert_Ok b u : py_assert b = Ok u -> b = true.
Proof. destruct b; [done | discriminate]. Qed.

Lemma or_raise_Ok {A} e (o : option A) a : or_raise e o = Ok a -> o = Some a.
Proof. destruct o; cbn; congruence. Qed.

(** Splits every [Ok] equation about a bind in the context into its steps. *)
Ltac inv_ok :=
  repeat match goal with
  | H : Ok _ = Ok _ |- _ => injection H; clear H; intros; subst
  | H : (_, _) = (_, _) |- _ => injection H; clear H; intros; subst
  | H : Raise _ = Ok _ |- _ => discriminate H
  | H : Ok _ = Raise _ |- _ => discriminate H
  | H : (_ ≫= _) = Ok _ |- _ =>
      let x := fresh "r" in let H1 := fresh "Hr" in
      apply bind_Ok_inv in H; destruct H as (x & H1 & H)
  | H : py_assert _ = Ok _ |- _ => apply py_assert_Ok in H
  | H : or_raise _ _ = Ok _ |- _ => apply or_raise_Ok in H
  | H : context [let '(_, _) := ?p in _] |- _ => is_var p; destruct p; cbn in H
  end.

(** Runs the binds whose first computation has become an [Ok], leaving everything
    else as it is. *)
Ltac bind_ok := cbv beta iota delta [mbind result_bind].

(** Invariants go through a [for] loop. *)
Lemma for_each_inv {A S} (P : S -> Prop) (body : A -> S -> result S) l s s' :
  (forall x s0 s1, x ∈ l -> P s0 -> body x s0 = Ok s1 -> P s1) ->
  P s -> for_each body l s = Ok s' -> P s'.
Proof.
  revert s; induction l as [|x l IH]; intros s Hstep Hs H; cbn in H; inv_ok; [done|].
  eapply IH; [| |exact H].
  - intros y s0 s1 Hy. apply Hstep. by right.
  - eapply Hstep; [by left | exact Hs | exact Hr].
Qed.

Lemma for_each_app {A S} (body : A -> S -> result S) l1 l2 s :
  for_each body (l1 ++ l2) s = for_each body l1 s ≫= for_each body l2.
Proof.
  revert s; induction l1 as [|x l1 IH]; intros s; cbn; [done|].
  destruct (body x s) as [s1|e]; cbn; [apply IH | done].
Qed.

(** A comprehension whose steps return. *)
Lemma mapM_cons_ok {A B} (f : A -> result B) x xs y ys :
  f x = Ok y -> mapM f xs = Ok ys -> mapM f (x :: xs) = Ok (y :: ys).
Proof. intros Hx Hxs. cbn. rewrite Hx. cbn. by rewrite Hxs. Qed.

(** A map that returns is pointwise. *)
Lemma mapM_Ok {A B} (f : A -> result B) l k : mapM f l = Ok k <-> Forall2 (fun x y => f x = Ok y) l k.
Proof.
  split.
  - revert k. induction l as [|x l IH]; intros k Hr; [by injection Hr as <-|].
    cbn in Hr. apply bind_Ok_inv in Hr as (y & Hy & Hr). apply bind_Ok_inv in Hr as (ys & Hys & [= <-]).
    constructor; [done | by apply IH].
  - induction 1 as [|x y l k Hx _ IH]; [done | by apply mapM_cons_ok].
Qed.

Lemma for_collect_cons_ok {A B S} (body : A -> S -> result (B * S)) x l s y s1 ys s2 :
  body x s = Ok (y, s1) -> for_collect body l s1 = Ok (ys, s2) -> for_collect body (x :: l) s = Ok (y :: ys, s2).
Proof. intros Hx Hl. cbn. rewrite Hx. cbn. by rewrite Hl. Qed.

Lemma for_each_cons_ok {A S} (body : A -> S -> result S) x l s s1 s2 :
  body x s = Ok s1 -> for_each body l s1 = Ok s2 -> for_each body (x :: l) s = Ok s2.
Proof. intros Hx Hl. cbn. by rewrite Hx. Qed.

(** ** Field update

    [x <| f := v |>] is the record [x] with the field [f] replaced by [v].  A
    record type opts in with an [Eta] instance, the identity written field by
    field; the updater of one field is that identity with the projection
    abstracted out. *)

Class Eta (R : Type) := eta : R -> R.
Class FieldUpdate {R T : Type} (field : R -> T) := update_field : (T -> T) -> R -> R.

Ltac derive_update field :=
  match type of field with
  | ?R -> _ =>
      let inst := constr:(_ : Eta R) in
      let body := eval hnf in inst in
      match eval pattern field in body with
      | ?hole _ =>
          let upd := constr:(fun g => hole (fun r => g (field r))) in
          let upd := eval cbv beta in upd in
          exact upd
      end
  end.

#[export] Hint Extern 0 (FieldUpdate ?field) => derive_update field : typeclass_instances.
Arguments update_field {R T} field {_} / g r.

Notation "x <| f := v |>" := (update_field f (fun _ => v) x)
  (at level 12, f at level 10, v at level 200, left associativity).
