(* ===== verification/PyDict.v ===== *)
(** * Python dictionaries

    A [dict] keeps its keys in insertion order and the code iterates over it in
    that order, so a dictionary is an association list: assignment updates an
    existing entry in place and appends a new one, deletion removes the entry.
    The laws give the finite-map view of it, and [dict_ok] (no key twice) is
    the invariant every operation preserves. *)

From S2P Require Import Prelude.

Section Dict.
Context {K V : Type} `{EqDecision K}.
Implicit Types (k : K) (v : V).

Definition dict : Type := list (K * V).

Fixpoint dget k (d : dict) : option V :=
  match d with
  | [] => None
  | (k', v) :: d' => if decide (k = k') then Some v else dget k d'
  end.

Fixpoint dset k v (d : dict) : dict :=
  match d with
  | [] => [(k, v)]
  | (k', v') :: d' => if decide (k = k') then (k', v) :: d' else (k', v') :: dset k v d'
  end.

Fixpoint ddel k (d : dict) : dict :=
  match d with
  | [] => []
  | (k', v') :: d' => if decide (k = k') then d' else (k', v') :: ddel k d'
  end.

Fixpoint dalter (f : V -> V) k (d : dict) : dict :=
  match d with
  | [] => []
  | (k', v') :: d' => if decide (k = k') then (k', f v') :: d' else (k', v') :: dalter f k d'
  end.

Definition dkeys (d : dict) : list K := d.*1.
Definition dvalues (d : dict) : list V := d.*2.
Definition dmem k (d : dict) : bool := match dget k d with Some _ => true | None => false end.
Definition dget_or k (dflt : V) (d : dict) : V := match dget k d with Some v => v | None => dflt end.

(** [d.setdefault(k, v)]: the dictionary afterwards. *)
Definition dsetdefault k v (d : dict) : dict := if dmem k d then d else dset k v d.

(** [OrderedDict.move_to_end(k)], for a key that is present. *)
Definition dmove_to_end k (d : dict) : option dict :=
  match dget k d with Some v => Some (ddel k d ++ [(k, v)]) | None => None end.

Definition dict_ok (d : dict) : Prop := NoDup (dkeys d).

Lemma dmem_true k d : dmem k d = true <-> is_Some (dget k d).
Proof.
  unfold dmem. destruct (dget k d) as [v|]; (split; [intros H|intros [? [=]]]); [by exists v | done | done].
Qed.

Lemma dmem_false k d : dmem k d = false <-> dget k d = None.
Proof. unfold dmem. by destruct (dget k d). Qed.

Lemma dget_dset k k' v d : dget k (dset k' v d) = if decide (k = k') then Some v else dget k d.
Proof.
  induction d as [|[k0 v0] d IH]; cbn; [by repeat case_decide|].
  destruct (decide (k' = k0)) as [->|Hne]; cbn.
  - by repeat case_decide.
  - rewrite IH. repeat case_decide; congruence.
Qed.

Lemma dget_dset_eq k v d : dget k (dset k v d) = Some v.
Proof. rewrite dget_dset. by case_decide. Qed.

Lemma dget_dset_ne k k' v d : k <> k' -> dget k (dset k' v d) = dget k d.
Proof. intros. rewrite dget_dset. by case_decide. Qed.

Lemma dget_dalter f k k' d :
  dget k (dalter f k' d) = if decide (k = k') then f <$> dget k d else dget k d.
Proof.
  induction d as [|[k0 v0] d IH]; cbn; [by case_decide|].
  destruct (decide (k' = k0)) as [->|Hne]; cbn; rewrite ?IH;
    repeat case_decide; subst; cbn; congruence.
Qed.

Lemma dget_None k d : dget k d = None <-> k ∉ dkeys d.
Proof.
  unfold dkeys. induction d as [|[k0 v0] d IH]; cbn.
  - split; intros; [apply not_elem_of_nil | done].
  - rewrite not_elem_of_cons, <- IH. case_decide; split; naive_solver.
Qed.

Lemma dget_is_Some k d : is_Some (dget k d) <-> k ∈ dkeys d.
Proof.
  rewrite <- not_eq_None_Some, dget_None.
  destruct (decide (k ∈ dkeys d)); naive_solver.
Qed.

Lemma elem_of_dkeys k d v : dget k d = Some v -> k ∈ dkeys d.
Proof. intros H. apply dget_is_Some. by exists v. Qed.

Lemma dget_elem_of k v d : dget k d = Some v -> (k, v) ∈ d.
Proof.
  induction d as [|[k0 v0] d IH]; cbn; [done|].
  case_decide; [injection 1; intros; subst; by left | right; auto].
Qed.

Lemma elem_of_dget k v d : dict_ok d -> (k, v) ∈ d -> dget k d = Some v.
Proof.
  unfold dict_ok, dkeys. induction d as [|[k0 v0] d IH]; cbn; [by intros _ ?%elem_of_nil|].
  rewrite NoDup_cons, elem_of_cons. intros [Hnot Hnd] [[= -> ->]|Hin]; [by case_decide|].
  case_decide; [subst|auto]. contradict Hnot. by apply (list_elem_of_fmap_2 fst _ (k0, v)).
Qed.

Lemma dget_ddel_ne k k' d : k <> k' -> dget k (ddel k' d) = dget k d.
Proof.
  intros Hne. induction d as [|[k0 v0] d IH]; cbn; [done|].
  repeat (case_decide; cbn); congruence.
Qed.

Lemma dkeys_dset_mem k v d : k ∈ dkeys d -> dkeys (dset k v d) = dkeys d.
Proof.
  unfold dkeys. induction d as [|[k0 v0] d IH]; cbn; [by intros ?%elem_of_nil|].
  rewrite elem_of_cons. intros Hin. case_decide; cbn; [done|]. f_equal. naive_solver.
Qed.

Lemma dset_new k v d : k ∉ dkeys d -> dset k v d = d ++ [(k, v)].
Proof.
  unfold dkeys. induction d as [|[k0 v0] d IH]; cbn; [done|].
  rewrite not_elem_of_cons. intros [? ?]. case_decide; [done|]. f_equal. auto.
Qed.

Lemma dkeys_dset_new k v d : k ∉ dkeys d -> dkeys (dset k v d) = dkeys d ++ [k].
Proof. intros. rewrite dset_new by done. unfold dkeys. by rewrite fmap_app. Qed.

Lemma elem_of_dkeys_dset k k' v d : k ∈ dkeys (dset k' v d) <-> k = k' \/ k ∈ dkeys d.
Proof.
  rewrite <- !dget_is_Some, dget_dset. case_decide; subst; split; eauto; naive_solver.
Qed.

Lemma dkeys_dalter f k d : dkeys (dalter f k d) = dkeys d.
Proof.
  unfold dkeys. induction d as [|[k0 v0] d IH]; cbn; [done|]. case_decide; cbn; congruence.
Qed.

Lemma dalter_id f k d : dget k d = None -> dalter f k d = d.
Proof.
  induction d as [|[k0 v0] d IH]; cbn; [done|]. case_decide; [done|]. intros. f_equal. auto.
Qed.

Lemma dict_ok_nil : dict_ok [].
Proof. apply NoDup_nil_2. Qed.

Lemma dict_ok_dset k v d : dict_ok d -> dict_ok (dset k v d).
Proof.
  unfold dict_ok. intros Hd. destruct (decide (k ∈ dkeys d)).
  - by rewrite dkeys_dset_mem.
  - rewrite dkeys_dset_new by done. apply NoDup_app. split; [done|].
    split; [|apply NoDup_singleton]. intros x Hx ->%list_elem_of_singleton. done.
Qed.

Lemma dict_ok_dalter f k d : dict_ok d -> dict_ok (dalter f k d).
Proof. unfold dict_ok. by rewrite dkeys_dalter. Qed.

Lemma elem_of_dkeys_ddel_1 k k' d : k ∈ dkeys (ddel k' d) -> k ∈ dkeys d.
Proof.
  unfold dkeys. induction d as [|[k0 v0] d IH]; cbn; [done|].
  case_decide; cbn; rewrite ?elem_of_cons; naive_solver.
Qed.

Lemma dict_ok_ddel k d : dict_ok d -> dict_ok (ddel k d).
Proof.
  unfold dict_ok, dkeys. induction d as [|[k0 v0] d IH]; cbn; [done|].
  rewrite NoDup_cons. intros [Hn Hd]. case_decide; cbn; [done|].
  rewrite NoDup_cons. split; [|auto]. contradict Hn. by eapply elem_of_dkeys_ddel_1.
Qed.

Lemma dget_ddel_eq k d : dict_ok d -> dget k (ddel k d) = None.
Proof.
  intros Hd. apply dget_None. unfold dict_ok, dkeys in *.
  induction d as [|[k0 v0] d IH]; cbn; [apply not_elem_of_nil|].
  cbn in Hd. rewrite NoDup_cons in Hd. destruct Hd as [Hn Hd].
  case_decide; cbn; subst; [done|]. rewrite not_elem_of_cons; auto.
Qed.

Lemma ddel_absent k d : k ∉ dkeys d -> ddel k d = d.
Proof.
  unfold dkeys. induction d as [|[k0 v0] d IH]; cbn; [done|].
  rewrite not_elem_of_cons. intros [? ?]. case_decide; [done|]. f_equal. auto.
Qed.

Lemma ddel_Permutation k v d : dget k d = Some v -> (k, v) :: ddel k d ≡ₚ d.
Proof.
  induction d as [|[k0 v0] d IH]; cbn; [done|].
  case_decide; [by intros [= ->]; subst|]. intros Hk.
  rewrite perm_swap. by rewrite IH.
Qed.

Lemma dict_ok_setdefault k v d : dict_ok d -> dict_ok (dsetdefault k v d).
Proof. unfold dsetdefault. destruct (dmem k d); auto using dict_ok_dset. Qed.

Lemma dget_setdefault k k' v d :
  dget k (dsetdefault k' v d)
  = if decide (k = k') then Some (dget_or k' v d) else dget k d.
Proof.
  unfold dsetdefault, dmem, dget_or. destruct (dget k' d) eqn:E.
  - case_decide; subst; done.
  - apply dget_dset.
Qed.

End Dict.

Arguments dict : clear implicits.
Arguments dkeys : simpl never.
Arguments dvalues : simpl never.
Arguments dict_ok : simpl never.

#[export] Hint Resolve dict_ok_nil dict_ok_dset dict_ok_dalter dict_ok_ddel
  dict_ok_setdefault : dict.
#[export] Hint Rewrite @dget_dset_eq @dkeys_dalter : dict.

(** Values mapped through a function, in place. *)
Definition dmap {K A B} (f : A -> B) (d : dict K A) : dict K B := (fun p => (p.1, f p.2)) <$> d.

Lemma dget_dmap {K A B} `{EqDecision K} (f : A -> B) k (d : dict K A) :
  dget k (dmap f d) = f <$> dget k d.
Proof.
  unfold dmap. induction d as [|[k0 v0] d IH]; cbn; [done|]. case_decide; [done|]. apply IH.
Qed.

Lemma dkeys_dmap {K A B} (f : A -> B) (d : dict K A) : dkeys (dmap f d) = dkeys d.
Proof.
  unfold dkeys, dmap. rewrite <- list_fmap_compose. by apply list_fmap_ext; intros ? [].
Qed.
