(* ===== verification/PyList.v ===== *)
(** * Python lists

    Slices with Python's treatment of negative and out-of-range bounds, and
    [list.sort(key=...)].  CPython's sort compares keys with [<] only, is stable
    and, when [<] is a strict weak order on the keys at hand, its result is the
    unique stable arrangement; [stable_sort] computes that arrangement by
    insertion. *)

From S2P Require Import Prelude.
From stdpp Require Import sorting.
#[local] Open Scope Z_scope.

(** ** Slices *)

(** The position a slice bound [n] denotes in a list of length [len]. *)
Definition slice_pos (n : Z) (len : nat) : nat :=
  Z.to_nat (if n <? 0 then Z.max 0 (Z.of_nat len + n) else Z.min n (Z.of_nat len)).

(** [l[:n]], [l[n:]] and [l[a:b]]. *)
Definition slice_to {A} (n : Z) (l : list A) : list A := take (slice_pos n (length l)) l.
Definition slice_from {A} (n : Z) (l : list A) : list A := drop (slice_pos n (length l)) l.
Definition slice {A} (a b : Z) (l : list A) : list A :=
  drop (slice_pos a (length l)) (take (slice_pos b (length l)) l).

(** [l[n]] with a negative index counted from the end. *)
Definition py_index {A} (l : list A) (n : Z) : result A :=
  let i := if n <? 0 then Z.of_nat (length l) + n else n in
  if (i <? 0) || (Z.of_nat (length l) <=? i) then Raise IndexError
  else or_raise IndexError (l !! Z.to_nat i).

(** [l[n] = x]. *)
Definition py_setitem {A} (n : Z) (x : A) (l : list A) : result (list A) :=
  let i := if n <? 0 then Z.of_nat (length l) + n else n in
  if (i <? 0) || (Z.of_nat (length l) <=? i) then Raise IndexError
  else Ok (<[Z.to_nat i := x]> l).

(** [len(l)]. *)
Definition py_len {A} (l : list A) : Z := Z.of_nat (length l).

(** [range(a, b)]. *)
Definition py_range (a b : Z) : list Z := seqZ a (b - a).

(** [islice(l, start, stop, step)], [stop] absent meaning the end. *)
Definition islice {A} (l : list A) (start : Z) (stop : option Z) (step : Z) : list A :=
  let last := match stop with Some n => Z.min n (py_len l) | None => py_len l end in
  omap (fun i => l !! Z.to_nat i) (List.filter (fun i => (i - start) mod step =? 0) (py_range start last)).

Lemma slice_pos_le n len : (slice_pos n len <= len)%nat.
Proof. unfold slice_pos. case_match; lia. Qed.

Lemma slice_split {A} n (l : list A) : slice_to n l ++ slice_from n l = l.
Proof. apply take_drop. Qed.

Lemma slice_to_sublist {A} n (l : list A) : slice_to n l `sublist_of` l.
Proof. apply sublist_take. Qed.

Lemma slice_from_sublist {A} n (l : list A) : slice_from n l `sublist_of` l.
Proof. apply sublist_drop. Qed.

Lemma elem_of_sublist {A} (x : A) l1 l2 : l1 `sublist_of` l2 -> x ∈ l1 -> x ∈ l2.
Proof. intros Hs Hx. by eapply elem_of_submseteq, sublist_submseteq. Qed.

(** A slice with bounds in range. *)
Lemma slice_in {A} a b (l : list A) :
  0 <= a <= b -> b <= py_len l -> slice a b l = drop (Z.to_nat a) (take (Z.to_nat b) l).
Proof.
  unfold slice, slice_pos, py_len. intros Ha Hb.
  destruct (Z.ltb_spec a 0), (Z.ltb_spec b 0); try lia.
  by rewrite !Z.min_l by lia.
Qed.

Lemma slice_from_in {A} a (l : list A) : 0 <= a -> slice_from a l = drop (Z.to_nat a) l.
Proof.
  intros Ha. unfold slice_from, slice_pos. destruct (Z.ltb_spec a 0); [lia|].
  destruct (decide (a <= Z.of_nat (length l))); [by rewrite Z.min_l by lia|].
  rewrite !drop_ge by lia. done.
Qed.

Lemma py_index_in {A} (l : list A) i : 0 <= i < py_len l -> py_index l i = or_raise IndexError (l !! Z.to_nat i).
Proof.
  unfold py_len, py_index. intros Hi. destruct (Z.ltb_spec i 0); [lia|].
  destruct (Z.ltb_spec i 0); [lia|]. destruct (Z.leb_spec (Z.of_nat (length l)) i); [lia | done].
Qed.

Lemma py_setitem_in {A} (l : list A) i x : 0 <= i < py_len l -> py_setitem i x l = Ok (<[Z.to_nat i := x]> l).
Proof.
  unfold py_len, py_setitem. intros Hi. destruct (Z.ltb_spec i 0); [lia|].
  destruct (Z.ltb_spec i 0); [lia|]. destruct (Z.leb_spec (Z.of_nat (length l)) i); [lia | done].
Qed.

Lemma py_index_Some {A} (l : list A) n x : 0 <= n -> l !! Z.to_nat n = Some x -> py_index l n = Ok x.
Proof.
  intros Hn Hx. rewrite py_index_in; [by rewrite Hx|]. apply lookup_lt_Some in Hx. unfold py_len. lia.
Qed.
Lemma length_slice_to {A} n (l : list A) :
  0 <= n -> py_len (slice_to n l) = Z.min n (py_len l).
Proof.
  intros. unfold slice_to, py_len. rewrite length_take. unfold slice_pos. case_match; lia.
Qed.

Lemma length_slice_from_neg {A} k (l : list A) :
  0 < k -> py_len (slice_from (- k) l) = Z.min k (py_len l).
Proof.
  intros. unfold slice_from, py_len. rewrite length_drop. unfold slice_pos. case_match; lia.
Qed.

Lemma length_slice_to_neg {A} k (l : list A) :
  0 < k -> py_len (slice_to (- k) l) = Z.max 0 (py_len l - k).
Proof.
  intros. unfold slice_to, py_len. rewrite length_take. unfold slice_pos. case_match; lia.
Qed.

(** ** Strict weak orders

    [SWO P lt]: the comparison [lt] is a strict weak order on the keys that
    satisfy [P] (for floats, the ones that are not NaN). *)

Class SWO {K} (P : K -> Prop) (lt : K -> K -> bool) : Prop := {
  swo_irrefl : forall a, P a -> lt a a = false;
  swo_trans : forall a b c, P a -> P b -> P c -> lt a b = true -> lt b c = true -> lt a c = true;
  swo_neg_trans : forall a b c, P a -> P b -> P c ->
    lt a b = false -> lt b c = false -> lt a c = false;
}.

Lemma swo_asym {K} (P : K -> Prop) (lt : K -> K -> bool) `{!SWO P lt} a b :
  P a -> P b -> lt a b = true -> lt b a = false.
Proof.
  intros Ha Hb Hab. destruct (lt b a) eqn:Hba; [|done].
  pose proof (swo_irrefl a Ha) as Hirr. by rewrite (swo_trans a b a) in Hirr.
Qed.

(** ** The stable sort *)

Section Sort.
Context {A K : Type} (lt : K -> K -> bool) (key : A -> K).

Fixpoint sort_insert (x : A) (l : list A) : list A :=
  match l with
  | [] => [x]
  | y :: l' => if lt (key y) (key x) then y :: sort_insert x l' else x :: y :: l'
  end.

Fixpoint stable_sort (l : list A) : list A :=
  match l with
  | [] => []
  | x :: l' => sort_insert x (stable_sort l')
  end.

Definition sorted_by : list A -> Prop :=
  StronglySorted (fun x y => lt (key y) (key x) = false).

Lemma sort_insert_Permutation x l : sort_insert x l ≡ₚ x :: l.
Proof.
  induction l as [|y l IH]; cbn; [done|]. case_match; [|done]. rewrite IH. apply perm_swap.
Qed.

Lemma stable_sort_Permutation l : stable_sort l ≡ₚ l.
Proof. induction l as [|x l IH]; cbn; [done|]. by rewrite sort_insert_Permutation, IH. Qed.

Lemma elem_of_stable_sort x l : x ∈ stable_sort l <-> x ∈ l.
Proof. by rewrite stable_sort_Permutation. Qed.

Lemma length_stable_sort l : length (stable_sort l) = length l.
Proof. by rewrite stable_sort_Permutation. Qed.

Section Ordered.
Context (P : K -> Prop) `{!SWO P lt}.

Lemma sort_insert_sorted x l :
  P (key x) -> Forall (fun y => P (key y)) l -> sorted_by l -> sorted_by (sort_insert x l).
Proof.
  intros Hx. induction l as [|y l IH]; cbn; intros Hl Hs; [repeat constructor|].
  inversion Hl as [|?? Hy Hl']; subst.
  apply StronglySorted_inv in Hs as [Hs Hall].
  destruct (lt (key y) (key x)) eqn:E.
  - constructor; [by apply IH|]. rewrite Forall_forall in *. intros z Hz.
    rewrite sort_insert_Permutation, elem_of_cons in Hz. destruct Hz as [->|Hz]; [|auto].
    by apply (swo_asym P).
  - constructor; [by constructor|]. constructor; [done|].
    rewrite Forall_forall in *. intros z Hz. eapply swo_neg_trans; eauto.
Qed.

Lemma stable_sort_sorted l :
  Forall (fun y => P (key y)) l -> sorted_by (stable_sort l).
Proof.
  induction 1 as [|x l Hx Hl IH]; cbn; [constructor|].
  apply sort_insert_sorted; [done| |done]. by rewrite stable_sort_Permutation.
Qed.

(** The items with one key keep the order they had. *)
Definition same_key (k : K) (x : A) : bool := negb (lt (key x) k) && negb (lt k (key x)).

Lemma sort_insert_stable k x l :
  P k -> P (key x) -> Forall (fun y => P (key y)) l -> sorted_by l ->
  List.filter (same_key k) (sort_insert x l) = List.filter (same_key k) (x :: l).
Proof.
  intros Hk Hx. induction l as [|y l IH]; intros Hl Hs; [done|].
  inversion Hl as [|?? Hy Hl']; subst. apply StronglySorted_inv in Hs as [Hs Hall].
  cbn [sort_insert]. destruct (lt (key y) (key x)) eqn:E; [|done].
  cbn [List.filter] in *. rewrite IH by done.
  destruct (same_key k x) eqn:Ex, (same_key k y) eqn:Ey; try done.
  unfold same_key in *. apply andb_true_iff in Ex as [_ Ex], Ey as [Ey _].
  apply negb_true_iff in Ex, Ey. by rewrite (swo_neg_trans (key y) k (key x)) in E.
Qed.

Lemma stable_sort_stable k l :
  P k -> Forall (fun y => P (key y)) l ->
  List.filter (same_key k) (stable_sort l) = List.filter (same_key k) l.
Proof.
  intros Hk. induction 1 as [|x l Hx Hl IH]; [done|]. cbn [stable_sort].
  rewrite sort_insert_stable; auto using stable_sort_sorted.
  - cbn. by rewrite IH.
  - by rewrite stable_sort_Permutation.
Qed.

End Ordered.

Lemma sorted_by_app l1 l2 x y :
  sorted_by (l1 ++ l2) -> x ∈ l1 -> y ∈ l2 -> lt (key y) (key x) = false.
Proof.
  unfold sorted_by. induction l1 as [|z l1 IH]; cbn; [by intros _ ?%elem_of_nil|].
  intros [Hs Hall]%StronglySorted_inv [->|Hx]%elem_of_cons Hy; [|auto].
  rewrite Forall_forall in Hall. apply Hall. apply elem_of_app. by right.
Qed.

Lemma sorted_by_sublist l1 l2 : l1 `sublist_of` l2 -> sorted_by l2 -> sorted_by l1.
Proof.
  unfold sorted_by. induction 1 as [|x l1 l2 Hsub IH|x l1 l2 Hsub IH]; intros Hs; [done| |].
  - apply StronglySorted_inv in Hs as [Hs Hall]. constructor; [auto|].
    rewrite Forall_forall in *. intros y Hy. apply Hall.
    by eapply elem_of_submseteq, sublist_submseteq.
  - apply StronglySorted_inv in Hs as [Hs Hall]. auto.
Qed.

End Sort.

(** Filtering by a boolean test, as a comprehension does. *)
Lemma elem_of_list_bfilter {A} (f : A -> bool) x l :
  x ∈ List.filter f l <-> f x = true /\ x ∈ l.
Proof. rewrite !list_elem_of_In, filter_In. tauto. Qed.

Lemma bfilter_sublist {A} (f : A -> bool) (l : list A) : List.filter f l `sublist_of` l.
Proof. induction l as [|x l IH]; cbn; [constructor|]. case_match; by constructor. Qed.

Lemma bfilter_NoDup {A} (f : A -> bool) (l : list A) : NoDup l -> NoDup (List.filter f l).
Proof. intros. eapply sublist_NoDup; eauto using bfilter_sublist. Qed.

Lemma bfilter_all {A} (f : A -> bool) (l : list A) :
  (forall x, x ∈ l -> f x = true) -> List.filter f l = l.
Proof.
  induction l as [|x l IH]; cbn; intros Hf; [done|]. rewrite Hf by by left.
  f_equal. apply IH. intros y Hy. apply Hf. by right.
Qed.

Lemma bfilter_and_sublist {A} (f g : A -> bool) (l : list A) :
  List.filter (fun x => f x && g x) l `sublist_of` List.filter g l.
Proof.
  induction l as [|x l IH]; cbn; [constructor|].
  destruct (f x), (g x); cbn; first [exact IH | by constructor].
Qed.

Lemma Forall2_impl_in {A B} (P Q : A -> B -> Prop) l k :
  Forall2 P l k -> (forall x y, x ∈ l -> P x y -> Q x y) -> Forall2 Q l k.
Proof. induction 1 as [|x y l k Hxy Hf IH]; intros HQ; constructor; [apply HQ; [by left|done] | apply IH; intros; apply HQ; [by right|done]]. Qed.

Lemma omap_map {A B C} (f : B -> option C) (g : A -> B) (l : list A) : omap f (g <$> l) = omap (fun x => f (g x)) l.
Proof. induction l as [|x l IH]; [done|]. cbn. by rewrite IH. Qed.
