(* ===== verification/PyInt.v ===== *)
(** * Integer arithmetic of Python

    Python's integers are unbounded, and [//] and [%] round towards minus
    infinity, as [Z.div] and [Z.modulo] do; both raise on a zero divisor.
    [cdiv] is vllm/utils/math_utils.py's ceiling division. *)

From S2P Require Import Prelude.
#[local] Open Scope Z_scope.

Definition py_floordiv (a b : Z) : result Z := if b =? 0 then Raise ZeroDivisionError else Ok (a / b).
Definition py_mod (a b : Z) : result Z := if b =? 0 then Raise ZeroDivisionError else Ok (a mod b).

Definition cdiv (a b : Z) : result Z := q ← py_floordiv a (- b); Ok (- q).

(** [sum], and [max] and [min] of a non-empty iterable. *)
Definition int_sum (l : list Z) : Z := foldr Z.add 0 l.
Definition py_max (l : list Z) : result Z :=
  match l with [] => Raise ValueError | x :: l => Ok (fold_left Z.max l x) end.
Definition py_min (l : list Z) : result Z :=
  match l with [] => Raise ValueError | x :: l => Ok (fold_left Z.min l x) end.

Lemma py_floordiv_ok a b : b <> 0 -> py_floordiv a b = Ok (a / b).
Proof. intros. unfold py_floordiv. by destruct (Z.eqb_spec b 0). Qed.
Lemma py_mod_ok a b : b <> 0 -> py_mod a b = Ok (a mod b).
Proof. intros. unfold py_mod. by destruct (Z.eqb_spec b 0). Qed.

(** The value of [cdiv] for a positive divisor. *)
Definition ceil_div (a b : Z) : Z := (a + b - 1) / b.

Lemma cdiv_ok a b : 0 < b -> cdiv a b = Ok (ceil_div a b).
Proof.
  intros Hb. unfold cdiv. rewrite py_floordiv_ok by lia. bind_ok. f_equal.
  unfold ceil_div. Z.to_euclidean_division_equations. nia.
Qed.

(** [ceil_div a b] is the least number of [b]s that covers [a]. *)
Lemma ceil_div_le a b n : 0 < b -> ceil_div a b <= n <-> a <= n * b.
Proof.
  intros Hb. unfold ceil_div. split; intros H.
  - pose proof (Z.mul_div_le (a + b - 1) b Hb). pose proof (Z.mod_pos_bound (a + b - 1) b Hb).
    pose proof (Z.div_mod (a + b - 1) b). nia.
  - apply Z.lt_succ_r, Z.div_lt_upper_bound; lia.
Qed.

Lemma ceil_div_bound a b : 0 < b -> a <= ceil_div a b * b.
Proof. intros. by apply ceil_div_le. Qed.
Lemma ceil_div_nonneg a b : 0 < b -> 0 <= a -> 0 <= ceil_div a b.
Proof. intros. unfold ceil_div. apply Z.div_pos; lia. Qed.
Lemma ceil_div_mono a a' b : 0 < b -> a <= a' -> ceil_div a b <= ceil_div a' b.
Proof. intros. unfold ceil_div. apply Z.div_le_mono; lia. Qed.
Lemma div_le_ceil a b : 0 < b -> a / b <= ceil_div a b.
Proof. intros. unfold ceil_div. apply Z.div_le_mono; lia. Qed.

(** Every [f]-th number of a range. *)
Lemma filter_every f start n :
  0 < f ->
  List.filter (fun i => (i - start) mod f =? 0) (seqZ start (Z.of_nat n))
  = (fun k => start + k * f) <$> seqZ 0 (ceil_div (Z.of_nat n) f).
Proof.
  intros Hf. induction n as [|n IH].
  - unfold ceil_div. rewrite Z.add_0_l. replace ((f - 1) / f) with 0 by (symmetry; apply Z.div_small; lia). done.
  - rewrite seqZ_S, List.filter_app, IH. cbn [List.filter]. replace (start + Z.of_nat n - start) with (Z.of_nat n) by lia.
    assert (Hc : ceil_div (Z.of_nat (S n)) f = Z.of_nat n / f + 1).
    { unfold ceil_div. replace (Z.of_nat (S n) + f - 1) with (Z.of_nat n + 1 * f) by lia. by rewrite Z.div_add by lia. }
    destruct (Z.eqb_spec (Z.of_nat n mod f) 0) as [Hz|Hz].
    + assert (Hn : ceil_div (Z.of_nat n) f = Z.of_nat n / f).
      { unfold ceil_div. pose proof (Z.div_mod (Z.of_nat n) f ltac:(lia)). symmetry. apply (Z.div_unique _ _ _ (f - 1)); lia. }
      rewrite Hc, Hn, (seqZ_app 0 _ 1) by (try apply Z.div_pos; lia). rewrite fmap_app. f_equal.
      rewrite (seqZ_cons _ 1), seqZ_nil by lia. cbn. f_equal. pose proof (Z.div_mod (Z.of_nat n) f). lia.
    + assert (Hn : ceil_div (Z.of_nat n) f = Z.of_nat n / f + 1).
      { unfold ceil_div. pose proof (Z.div_mod (Z.of_nat n) f ltac:(lia)). pose proof (Z.mod_pos_bound (Z.of_nat n) f Hf).
        symmetry. apply (Z.div_unique _ _ _ (Z.of_nat n mod f - 1)); lia. }
      rewrite Hc, Hn, app_nil_r. done.
Qed.

Lemma int_sum_cons x l : int_sum (x :: l) = x + int_sum l.
Proof. done. Qed.
Lemma int_sum_app l1 l2 : int_sum (l1 ++ l2) = int_sum l1 + int_sum l2.
Proof. unfold int_sum. induction l1 as [|x l1 IH]; cbn; lia. Qed.
Lemma int_sum_nonneg l : Forall (Z.le 0) l -> 0 <= int_sum l.
Proof. unfold int_sum. induction 1; cbn; lia. Qed.

Lemma py_max_spec l m : py_max l = Ok m -> m ∈ l /\ Forall (fun x => x <= m) l.
Proof.
  destruct l as [|x l]; [done|]. intros [= <-]. revert x.
  induction l as [|y l IH]; intros x; cbn [fold_left]; [split; [by left | by repeat constructor]|].
  destruct (IH (Z.max x y)) as [h1 h2]. inversion h2 as [|? ? h3 h4]; subst. split.
  - apply elem_of_cons in h1 as [->|?]; [|by right; right].
    destruct (Z.max_spec x y) as [[_ ->]|[_ ->]]; [right; by left | by left].
  - constructor; [lia|]. by constructor; [lia|].
Qed.

Lemma py_min_spec l m : py_min l = Ok m -> m ∈ l /\ Forall (fun x => m <= x) l.
Proof.
  destruct l as [|x l]; [done|]. intros [= <-]. revert x.
  induction l as [|y l IH]; intros x; cbn [fold_left]; [split; [by left | by repeat constructor]|].
  destruct (IH (Z.min x y)) as [h1 h2]. inversion h2 as [|? ? h3 h4]; subst. split.
  - apply elem_of_cons in h1 as [->|?]; [|by right; right].
    destruct (Z.min_spec x y) as [[_ ->]|[_ ->]]; [by left | right; by left].
  - constructor; [lia|]. by constructor; [lia|].
Qed.
