(* ===== verification/KVSpec.v ===== *)
(** * KV-cache specifications of layers

    vllm/v1/kv_cache_interface.py: the format of the cache of one layer, page
    sizes, the memory a request can need at most, and the merging of the
    specifications of the layers of a group.  torch's element size of a dtype is
    the parameter [get_dtype_size]; dtypes are their names. *)

From S2P Require Import Prelude PyDict PyList PyInt.
#[local] Open Scope Z_scope.

(** ** Specifications *)

(** The fields of [AttentionSpec], with the block size it inherits. *)
Record AttentionSpec := mkAttentionSpec {
  att_block_size : Z;
  num_kv_heads : Z;
  head_size : Z;
  dtype : string;
}.

(** The classes of layers. *)
Inductive LayerSpec :=
| FullAttentionSpec (a : AttentionSpec) (sliding_window attention_chunk_size : option Z)
| MLAAttentionSpec (a : AttentionSpec) (sliding_window attention_chunk_size : option Z)
    (cache_dtype_str : option string)
| ChunkedLocalAttentionSpec (a : AttentionSpec) (attention_chunk_size : Z)
| SlidingWindowSpec (a : AttentionSpec) (sliding_window : Z)
| MambaSpec (block_size : Z) (shapes : list (list Z)) (dtypes : list string)
    (page_size_padded : option Z) (mamba_type : string) (num_speculative_blocks : Z)
| EncoderOnlyAttentionSpec (a : AttentionSpec)
| CrossAttentionSpec (a : AttentionSpec).

(** A group has the specification of its layers, or [UniformTypeKVCacheSpecs]
    over layers of one type. *)
Inductive KVCacheSpec :=
| LayerKVCacheSpec (s : LayerSpec)
| UniformTypeKVCacheSpecs (block_size : Z) (kv_cache_specs : dict string LayerSpec).

#[export] Instance AttentionSpec_eq_dec : EqDecision AttentionSpec.
Proof. solve_decision. Defined.
#[export] Instance LayerSpec_eq_dec : EqDecision LayerSpec.
Proof. solve_decision. Defined.

Definition layer_block_size (s : LayerSpec) : Z :=
  match s with
  | FullAttentionSpec a _ _ | MLAAttentionSpec a _ _ _ | ChunkedLocalAttentionSpec a _
  | SlidingWindowSpec a _ | EncoderOnlyAttentionSpec a | CrossAttentionSpec a => att_block_size a
  | MambaSpec b _ _ _ _ _ => b
  end.
Definition spec_block_size (s : KVCacheSpec) : Z :=
  match s with LayerKVCacheSpec s => layer_block_size s | UniformTypeKVCacheSpecs b _ => b end.

(** [isinstance(spec, FullAttentionSpec)]: the MLA class is a subclass. *)
Definition is_full_attention (s : LayerSpec) : bool :=
  match s with FullAttentionSpec _ _ _ | MLAAttentionSpec _ _ _ _ => true | _ => false end.
Definition is_mla (s : LayerSpec) : bool := match s with MLAAttentionSpec _ _ _ _ => true | _ => false end.
Definition is_sliding_window (s : LayerSpec) : bool := match s with SlidingWindowSpec _ _ => true | _ => false end.
Definition is_chunked_local (s : LayerSpec) : bool := match s with ChunkedLocalAttentionSpec _ _ => true | _ => false end.

(** ** Configuration values *)

Record VllmConfig := mkVllmConfig {
  max_model_len : Z;
  decode_context_parallel_size : Z;
  max_num_batched_tokens : Z;
  max_num_encoder_input_tokens : Z;
  disable_hybrid_kv_cache_manager : bool;
  num_gpu_blocks_override : option Z;
}.

#[export] Instance eta_VllmConfig : Eta VllmConfig := fun c =>
  mkVllmConfig (max_model_len c) (decode_context_parallel_size c) (max_num_batched_tokens c)
    (max_num_encoder_input_tokens c) (disable_hybrid_kv_cache_manager c) (num_gpu_blocks_override c).

Section Sizes.
Context (get_dtype_size : string -> Z).

(** *** Page sizes *)

Definition attention_page_size (a : AttentionSpec) : Z :=
  2 * att_block_size a * num_kv_heads a * head_size a * get_dtype_size (dtype a).

Definition mla_page_size (a : AttentionSpec) (cache_dtype_str : option string) : Z :=
  if bool_decide (cache_dtype_str = Some "fp8_ds_mla") then att_block_size a * 656
  else att_block_size a * num_kv_heads a * head_size a * get_dtype_size (dtype a).

Definition mamba_state_size (shapes : list (list Z)) (dtypes : list string) : Z :=
  int_sum (zip_with (fun shape dtype => foldr Z.mul 1 shape * get_dtype_size dtype) shapes dtypes).

Definition page_size_bytes (s : LayerSpec) : result Z :=
  match s with
  | FullAttentionSpec a _ _ | ChunkedLocalAttentionSpec a _ | SlidingWindowSpec a _
  | EncoderOnlyAttentionSpec a | CrossAttentionSpec a => Ok (attention_page_size a)
  | MLAAttentionSpec a _ _ c => Ok (mla_page_size a c)
  | MambaSpec _ shapes dtypes page_size_padded _ _ =>
      let page_size := mamba_state_size shapes dtypes in
      match page_size_padded with
      | Some padded => _ ← py_assert (page_size <=? padded); Ok padded
      | None => Ok page_size
      end
  end.

Definition group_page_size_bytes (s : KVCacheSpec) : result Z :=
  match s with
  | LayerKVCacheSpec s => page_size_bytes s
  | UniformTypeKVCacheSpecs _ specs => sizes ← mapM page_size_bytes (dvalues specs); Ok (int_sum sizes)
  end.

(** *** Memory of one request *)

Definition pages (num_tokens extra : Z) (s : LayerSpec) : result Z :=
  n ← cdiv num_tokens (layer_block_size s); size ← page_size_bytes s; Ok ((n + extra) * size).

Definition full_max_memory (c : VllmConfig) (s : LayerSpec) : result Z :=
  len ← (if 1 <? decode_context_parallel_size c
         then cdiv (max_model_len c) (decode_context_parallel_size c) else Ok (max_model_len c));
  pages len 0 s.

Definition chunked_max_memory (c : VllmConfig) (attention_chunk_size : Z) (s : LayerSpec) : result Z :=
  pages (Z.min (attention_chunk_size + max_num_batched_tokens c) (max_model_len c)) 0 s.

Definition sliding_max_memory (c : VllmConfig) (sliding_window : Z) (s : LayerSpec) : result Z :=
  _ ← py_assert (decode_context_parallel_size c =? 1);
  pages (Z.min (sliding_window - 1 + max_num_batched_tokens c) (max_model_len c)) 1 s.

Definition mamba_max_memory (c : VllmConfig) (s : LayerSpec) : result Z := pages (max_model_len c) 0 s.

Definition cross_max_memory (c : VllmConfig) (s : LayerSpec) : result Z :=
  pages (max_num_encoder_input_tokens c) 0 s.

Definition layer_max_memory_usage_bytes (c : VllmConfig) (s : LayerSpec) : result Z :=
  match s with
  | FullAttentionSpec _ _ _ | MLAAttentionSpec _ _ _ _ => full_max_memory c s
  | ChunkedLocalAttentionSpec _ attention_chunk_size => chunked_max_memory c attention_chunk_size s
  | SlidingWindowSpec _ sliding_window => sliding_max_memory c sliding_window s
  | MambaSpec _ _ _ _ _ _ => mamba_max_memory c s
  | EncoderOnlyAttentionSpec _ => Ok 0
  | CrossAttentionSpec _ => cross_max_memory c s
  end.

Definition spec_max_memory_usage_bytes (c : VllmConfig) (s : KVCacheSpec) : result Z :=
  match s with
  | LayerKVCacheSpec s => layer_max_memory_usage_bytes c s
  | UniformTypeKVCacheSpecs _ specs =>
      counts ← mapM (fun s => m ← layer_max_memory_usage_bytes c s; size ← page_size_bytes s; cdiv m size)
                 (dvalues specs);
      max_num_pages ← py_max counts;
      size ← group_page_size_bytes s;
      Ok (max_num_pages * size)
  end.

End Sizes.

(** ** Merging the layers of a group *)

(** [merge_window_sizes] of the set of the given sizes. *)
Definition merge_window_sizes (sizes : list Z) : result (option Z) :=
  match remove_dups sizes with
  | [] => Ok None
  | [x] => Ok (Some x)
  | _ => Raise ValueError
  end.

Definition layer_sliding_window (s : LayerSpec) : option Z :=
  match s with FullAttentionSpec _ w _ | MLAAttentionSpec _ w _ _ => w | _ => None end.
Definition layer_attention_chunk_size (s : LayerSpec) : option Z :=
  match s with FullAttentionSpec _ _ c | MLAAttentionSpec _ _ c _ => c | _ => None end.
Definition layer_cache_dtype_str (s : LayerSpec) : option string :=
  match s with MLAAttentionSpec _ _ _ c => c | _ => None end.
Definition layer_attention (s : LayerSpec) : option AttentionSpec :=
  match s with
  | FullAttentionSpec a _ _ | MLAAttentionSpec a _ _ _ | ChunkedLocalAttentionSpec a _
  | SlidingWindowSpec a _ | EncoderOnlyAttentionSpec a | CrossAttentionSpec a => Some a
  | MambaSpec _ _ _ _ _ _ => None
  end.

Definition is_some {A} (o : option A) : bool := match o with Some _ => true | None => false end.

(** [FullAttentionSpec.merge], for a first layer with attention fields [a]. *)
Definition merge_full (a : AttentionSpec) (specs : list LayerSpec) : result LayerSpec :=
  _ ← py_assert (forallb is_full_attention specs);
  _ ← py_assert (negb (existsb is_mla specs));
  sliding_window ← merge_window_sizes (omap layer_sliding_window specs);
  attention_chunk_size ← merge_window_sizes (omap layer_attention_chunk_size specs);
  _ ← py_assert (forallb (fun s => bool_decide (layer_attention s = Some a)) specs);
  _ ← py_assert (negb (is_some sliding_window && is_some attention_chunk_size));
  Ok (FullAttentionSpec a sliding_window attention_chunk_size).

(** [MLAAttentionSpec.merge]. *)
Definition merge_mla (a : AttentionSpec) (specs : list LayerSpec) : result LayerSpec :=
  _ ← py_assert (forallb is_mla specs);
  match remove_dups (layer_cache_dtype_str <$> specs) with
  | [c] => Ok (MLAAttentionSpec a None None c)
  | _ => Raise AssertionError
  end.

(** [specs[0].merge(specs)]. *)
Definition merge (specs : list LayerSpec) : result LayerSpec :=
  match specs with
  | [] => Raise IndexError
  | FullAttentionSpec a _ _ :: _ => merge_full a specs
  | MLAAttentionSpec a _ _ _ :: _ => merge_mla a specs
  | s :: rest => if forallb (fun s' => bool_decide (s' = s)) rest then Ok s else Raise AssertionError
  end.

(** ** Layers of one type *)

(** The case analysis of [is_uniform_type]: whether [s] is of the type of [one]. *)
Definition same_type (one s : LayerSpec) : result bool :=
  match one with
  | FullAttentionSpec _ _ _ | MLAAttentionSpec _ _ _ _ => Ok (is_full_attention s)
  | CrossAttentionSpec _ => Ok (match s with CrossAttentionSpec _ => true | _ => false end)
  | SlidingWindowSpec _ w => Ok (match s with SlidingWindowSpec _ w' => w' =? w | _ => false end)
  | ChunkedLocalAttentionSpec _ c => Ok (match s with ChunkedLocalAttentionSpec _ c' => c' =? c | _ => false end)
  | MambaSpec _ _ _ _ _ n => Ok (match s with MambaSpec _ _ _ _ _ n' => n' =? n | _ => false end)
  | EncoderOnlyAttentionSpec _ => Raise NotImplementedError
  end.

(** [UniformTypeKVCacheSpecs.is_uniform_type]. *)
Definition is_uniform_type (kv_cache_specs : dict string LayerSpec) : result bool :=
  if (1 <? py_len (remove_dups (layer_block_size <$> dvalues kv_cache_specs))) then Ok false
  else
    one_spec ← or_raise StopIteration (head (dvalues kv_cache_specs));
    tests ← mapM (same_type one_spec) (dvalues kv_cache_specs);
    Ok (forallb (fun b => b) tests).

(** [UniformTypeKVCacheSpecs.from_specs]. *)
Definition from_specs (kv_cache_specs : dict string LayerSpec) : result (option KVCacheSpec) :=
  b ← is_uniform_type kv_cache_specs;
  if (b : bool) then
    one_spec ← or_raise StopIteration (head (dvalues kv_cache_specs));
    Ok (Some (UniformTypeKVCacheSpecs (layer_block_size one_spec) kv_cache_specs))
  else Ok None.

(** ** Configurations *)

Record KVCacheTensor := mkKVCacheTensor { tensor_size : Z; shared_by : list string }.
Record KVCacheGroupSpec := mkKVCacheGroupSpec { layer_names : list string; kv_cache_spec : KVCacheSpec }.
Record KVCacheConfig := mkKVCacheConfig {
  num_blocks : Z;
  kv_cache_tensors : list KVCacheTensor;
  kv_cache_groups : list KVCacheGroupSpec;
}.

#[export] Instance eta_KVCacheConfig : Eta KVCacheConfig := fun c =>
  mkKVCacheConfig (num_blocks c) (kv_cache_tensors c) (kv_cache_groups c).
