(* ===== verification/FreeQueue.v ===== *)
(** * The queue of free KV-cache blocks

    [KVCacheBlock] and [FreeKVCacheBlockQueue] of vllm/v1/core/kv_cache_utils.py.
    The blocks are shared, mutable objects: they live in a store indexed by
    address.  A real block sits at its block id; the fake head and tail of the
    doubly linked list, which both carry the block id -1, sit at -1 and -2.  The
    operations assign the links the way the code does, and the theorems relate
    them to a list: what is at the front is evicted first. *)

From S2P Require Import Prelude PyList.
#[local] Open Scope Z_scope.

Record KVCacheBlock := mkKVCacheBlock {
  block_id : Z;
  ref_cnt : Z;
  block_hash : option string;
  prev_free_block : option Z;
  next_free_block : option Z;
  is_null : bool;
}.

#[export] Instance eta_KVCacheBlock : Eta KVCacheBlock := fun b =>
  mkKVCacheBlock (block_id b) (ref_cnt b) (block_hash b) (prev_free_block b) (next_free_block b)
    (is_null b).

(** [KVCacheBlock(block_id)]. *)
Definition new_block (id : Z) : KVCacheBlock :=
  {| block_id := id; ref_cnt := 0; block_hash := None; prev_free_block := None;
     next_free_block := None; is_null := false |}.

Definition fake_free_list_head : Z := -1.
Definition fake_free_list_tail : Z := -2.

(** The store of block objects and the queue's counter. *)
Record FreeQueue := mkFreeQueue {
  objs : gmap Z KVCacheBlock;
  num_free_blocks : Z;
}.

#[export] Instance eta_FreeQueue : Eta FreeQueue := fun q => mkFreeQueue (objs q) (num_free_blocks q).

Definition blk (q : FreeQueue) (a : Z) : KVCacheBlock := default (new_block a) (objs q !! a).
Definition update_blk (a : Z) (f : KVCacheBlock -> KVCacheBlock) (q : FreeQueue) : FreeQueue :=
  q <| objs := <[a := f (blk q a)]> (objs q) |>.

Definition prv (q : FreeQueue) (a : Z) : option Z := prev_free_block (blk q a).
Definition nxt (q : FreeQueue) (a : Z) : option Z := next_free_block (blk q a).
Definition set_prev (a : Z) (p : option Z) : FreeQueue -> FreeQueue :=
  update_blk a (fun b => b <| prev_free_block := p |>).
Definition set_next (a : Z) (p : option Z) : FreeQueue -> FreeQueue :=
  update_blk a (fun b => b <| next_free_block := p |>).

(** ** Operations *)

(** One iteration of the constructor's loop. *)
Definition link_one (n i : Z) (q : FreeQueue) : FreeQueue :=
  let q := if 0 <? i then set_prev i (Some (i - 1)) q else q in
  if i <? n - 1 then set_next i (Some (i + 1)) q else q.

(** [FreeKVCacheBlockQueue([KVCacheBlock(i) for i in range(n)])]. *)
Definition new_queue (n : Z) : FreeQueue :=
  let q := {| objs := list_to_map ((fun i => (i, new_block i)) <$> py_range 0 n);
              num_free_blocks := n |} in
  let q := fold_left (fun q i => link_one n i q) (py_range 0 n) q in
  let q := update_blk fake_free_list_head (fun _ => new_block (-1)) q in
  let q := update_blk fake_free_list_tail (fun _ => new_block (-1)) q in
  if 0 <? n then
    let q := set_next fake_free_list_head (Some 0) q in
    let q := set_prev 0 (Some fake_free_list_head) q in
    let q := set_prev fake_free_list_tail (Some (n - 1)) q in
    set_next (n - 1) (Some fake_free_list_tail) q
  else
    let q := set_next fake_free_list_head (Some fake_free_list_tail) q in
    set_prev fake_free_list_tail (Some fake_free_list_head) q.

Definition popleft (q : FreeQueue) : result (Z * FreeQueue) :=
  match nxt q fake_free_list_head with
  | None => _ ← py_assert (num_free_blocks q =? 0); Raise ValueError
  | Some first_block =>
      if first_block =? fake_free_list_tail then
        _ ← py_assert (num_free_blocks q =? 0); Raise ValueError
      else match nxt q first_block with
      | None => Raise RuntimeError
      | Some second =>
          let q := set_next fake_free_list_head (Some second) q in
          let q := set_prev second (Some fake_free_list_head) q in
          let q := set_next first_block None (set_prev first_block None q) in
          Ok (first_block, q <| num_free_blocks := num_free_blocks q - 1 |>)
      end
  end.

(** The loop of [popleft_n]: the blocks taken and the block after them. *)
Fixpoint pop_loop (n : nat) (curr : option Z) (q : FreeQueue)
    : result (list Z * option Z * FreeQueue) :=
  match n with
  | O => Ok ([], curr, q)
  | S n' =>
      last_block ← or_raise AssertionError curr;
      let next := nxt q last_block in
      let q := set_next last_block None (set_prev last_block None q) in
      '(ret, curr, q) ← pop_loop n' next q;
      Ok (last_block :: ret, curr, q)
  end.

Definition popleft_n (n : Z) (q : FreeQueue) : result (list Z * FreeQueue) :=
  if n =? 0 then Ok ([], q)
  else
    _ ← py_assert (n <=? num_free_blocks q);
    let q := q <| num_free_blocks := num_free_blocks q - n |> in
    '(ret, curr, q) ← pop_loop (Z.to_nat n) (nxt q fake_free_list_head) q;
    Ok (ret, match curr with
             | Some c => set_prev c (Some fake_free_list_head)
                           (set_next fake_free_list_head (Some c) q)
             | None => q
             end).

Definition remove (b : Z) (q : FreeQueue) : result FreeQueue :=
  match prv q b, nxt q b with
  | Some p, Some n =>
      let q := set_next p (Some n) q in
      let q := set_prev n (Some p) q in
      let q := set_next b None (set_prev b None q) in
      Ok (q <| num_free_blocks := num_free_blocks q - 1 |>)
  | _, _ => Raise RuntimeError
  end.

Definition append (b : Z) (q : FreeQueue) : result FreeQueue :=
  last_block ← or_raise RuntimeError (prv q fake_free_list_tail);
  let q := set_next last_block (Some b) q in
  let q := set_prev b (Some last_block) q in
  let q := set_next b (Some fake_free_list_tail) q in
  let q := set_prev fake_free_list_tail (Some b) q in
  Ok (q <| num_free_blocks := num_free_blocks q + 1 |>).

(** The loop of [append_n]: chains the blocks and returns the last one. *)
Fixpoint chain_loop (bs : list Z) (last : Z) (q : FreeQueue) : Z * FreeQueue :=
  match bs with
  | [] => (last, q)
  | b :: bs => chain_loop bs b (set_next last (Some b) (set_prev b (Some last) q))
  end.

Definition append_n (bs : list Z) (q : FreeQueue) : result FreeQueue :=
  match bs with
  | [] => Ok q
  | _ =>
      last_block ← or_raise AssertionError (prv q fake_free_list_tail);
      let '(last_block, q) := chain_loop bs last_block q in
      let q := set_next last_block (Some fake_free_list_tail) q in
      let q := set_prev fake_free_list_tail (Some last_block) q in
      Ok (q <| num_free_blocks := num_free_blocks q + py_len bs |>)
  end.

(** The walk of [get_all_free_blocks]; [fuel] bounds the number of blocks. *)
Fixpoint walk (fuel : nat) (curr : Z) (q : FreeQueue) : option (list Z) :=
  match nxt q curr with
  | None => Some []
  | Some next => match fuel with
                 | O => None
                 | S fuel => cons curr <$> walk fuel next q
                 end
  end.

Definition get_all_free_blocks (fuel : nat) (q : FreeQueue) : result (option (list Z)) :=
  first ← or_raise RuntimeError (nxt q fake_free_list_head);
  Ok (walk fuel first q).

(** ** Neighbours in a list *)

Fixpoint succ_in (l : list Z) (c : Z) : option Z :=
  match l with
  | a :: ((b :: _) as l') => if decide (c = a) then Some b else succ_in l' c
  | _ => None
  end.

Fixpoint pred_in (l : list Z) (c : Z) : option Z :=
  match l with
  | a :: ((b :: _) as l') => if decide (c = b) then Some a else pred_in l' c
  | _ => None
  end.

Lemma succ_in_cons a b l c :
  succ_in (a :: b :: l) c = if decide (c = a) then Some b else succ_in (b :: l) c.
Proof. done. Qed.
Lemma pred_in_cons a b l c :
  pred_in (a :: b :: l) c = if decide (c = b) then Some a else pred_in (b :: l) c.
Proof. done. Qed.

Lemma succ_in_app l1 a l2 c :
  succ_in (l1 ++ a :: l2) c
  = match succ_in (l1 ++ [a]) c with Some d => Some d | None => succ_in (a :: l2) c end.
Proof.
  induction l1 as [|x l1 IH]; [done|]. destruct l1 as [|y l1]; cbn [app] in *.
  - cbn [succ_in]. by case_decide.
  - rewrite !succ_in_cons. by case_decide.
Qed.

Lemma pred_in_app l1 a l2 c :
  pred_in (l1 ++ a :: l2) c
  = match pred_in (l1 ++ [a]) c with Some d => Some d | None => pred_in (a :: l2) c end.
Proof.
  induction l1 as [|x l1 IH]; [done|]. destruct l1 as [|y l1]; cbn [app] in *.
  - cbn [pred_in]. by case_decide.
  - rewrite !pred_in_cons. by case_decide.
Qed.

Lemma succ_in_None l a c : c ∉ l -> succ_in (l ++ [a]) c = None.
Proof.
  induction l as [|x l IH]; [done|]. rewrite not_elem_of_cons. intros [Hx Hl].
  destruct l as [|y l]; cbn [app] in *; rewrite succ_in_cons, decide_False by done; auto.
Qed.

Lemma pred_in_None a l c : c ∉ l -> pred_in (a :: l) c = None.
Proof.
  revert a. induction l as [|x l IH]; intros a; [done|]. rewrite not_elem_of_cons. intros [Hx Hl].
  rewrite pred_in_cons, decide_False by done. by apply IH.
Qed.

(** What [succ_in] and [pred_in] give lies in the list. *)
Lemma succ_in_elem l c d : succ_in l c = Some d -> c ∈ l /\ d ∈ l.
Proof.
  induction l as [|a [|b l] IH]; [done..|]. rewrite succ_in_cons. case_decide as Hc.
  - intros [= <-]. subst. split; [by left | by right; left].
  - intros [??]%IH. split; by right.
Qed.

Lemma pred_in_elem l c d : pred_in l c = Some d -> c ∈ l /\ d ∈ l.
Proof.
  induction l as [|a [|b l] IH]; [done..|]. rewrite pred_in_cons. case_decide as Hc.
  - intros [= <-]. subst. split; [by right; left | by left].
  - intros [??]%IH. split; by right.
Qed.

Lemma succ_in_seqZ m n c :
  0 <= n -> succ_in (seqZ m n) c = if decide (m <= c < m + n - 1) then Some (c + 1) else None.
Proof.
  intros Hn. revert m. pattern n. apply natlike_ind; [| |done]; clear n Hn.
  - intros m. rewrite decide_False by lia. done.
  - intros n Hn IH m. rewrite seqZ_cons by lia. replace (Z.pred (Z.succ n)) with n by lia.
    destruct (decide (n = 0)) as [->|Hne]; [cbn; rewrite decide_False by lia; done|].
    specialize (IH (Z.succ m)). rewrite (seqZ_cons (Z.succ m) n) in IH |- * by lia. rewrite succ_in_cons.
    destruct (decide (c = m)) as [->|]; [rewrite decide_True by lia; f_equal; lia|].
    rewrite IH. repeat case_decide; try done; lia.
Qed.

Lemma pred_in_seqZ m n c :
  0 <= n -> pred_in (seqZ m n) c = if decide (m < c < m + n) then Some (c - 1) else None.
Proof.
  intros Hn. revert m. pattern n. apply natlike_ind; [| |done]; clear n Hn.
  - intros m. rewrite decide_False by lia. done.
  - intros n Hn IH m. rewrite seqZ_cons by lia. replace (Z.pred (Z.succ n)) with n by lia.
    destruct (decide (n = 0)) as [->|Hne]; [cbn; rewrite decide_False by lia; done|].
    specialize (IH (Z.succ m)). rewrite (seqZ_cons (Z.succ m) n) in IH |- * by lia. rewrite pred_in_cons.
    destruct (decide (c = Z.succ m)) as [->|]; [rewrite decide_True by lia; f_equal; lia|].
    rewrite IH. repeat case_decide; try done; lia.
Qed.

(** ** Reading after writing *)

Lemma blk_update a f q b : blk (update_blk a f q) b = if decide (b = a) then f (blk q a) else blk q b.
Proof.
  unfold blk, update_blk. cbn. destruct (decide (b = a)) as [->|].
  - by rewrite lookup_insert_eq.
  - by rewrite lookup_insert_ne.
Qed.

Lemma nxt_set_next a p q b : nxt (set_next a p q) b = if decide (b = a) then p else nxt q b.
Proof. unfold nxt, set_next. rewrite blk_update. by case_decide. Qed.
Lemma nxt_set_prev a p q b : nxt (set_prev a p q) b = nxt q b.
Proof. unfold nxt, set_prev. rewrite blk_update. case_decide; by subst. Qed.
Lemma prv_set_prev a p q b : prv (set_prev a p q) b = if decide (b = a) then p else prv q b.
Proof. unfold prv, set_prev. rewrite blk_update. by case_decide. Qed.
Lemma prv_set_next a p q b : prv (set_next a p q) b = prv q b.
Proof. unfold prv, set_next. rewrite blk_update. case_decide; by subst. Qed.
Lemma nxt_num q k b : nxt (q <| num_free_blocks := k |>) b = nxt q b.
Proof. done. Qed.
Lemma prv_num q k b : prv (q <| num_free_blocks := k |>) b = prv q b.
Proof. done. Qed.

Create HintDb links.
#[export] Hint Rewrite nxt_set_next nxt_set_prev prv_set_prev prv_set_next nxt_num prv_num : links.

(** What the queue's operations leave alone: everything but the links. *)
Definition data (b : KVCacheBlock) : KVCacheBlock :=
  b <| prev_free_block := None |> <| next_free_block := None |>.
Definition same_data (q q' : FreeQueue) : Prop := forall a, data (blk q' a) = data (blk q a).

Lemma same_data_refl q : same_data q q.
Proof. done. Qed.
Lemma same_data_trans q1 q2 q3 : same_data q1 q2 -> same_data q2 q3 -> same_data q1 q3.
Proof. unfold same_data. intros h1 h2 a. by rewrite h2. Qed.
Lemma same_data_next a p q : same_data q (set_next a p q).
Proof. intros b. unfold set_next. rewrite blk_update. case_decide; by subst. Qed.
Lemma same_data_prev a p q : same_data q (set_prev a p q).
Proof. intros b. unfold set_prev. rewrite blk_update. case_decide; by subst. Qed.
Lemma same_data_num k q : same_data q (q <| num_free_blocks := k |>).
Proof. done. Qed.

(** Peels the writes off the target of a [same_data] goal. *)
Ltac solve_same_data :=
  repeat first
    [ apply same_data_refl
    | eassumption
    | eapply same_data_trans; [|apply same_data_num]
    | eapply same_data_trans; [|apply same_data_next]
    | eapply same_data_trans; [|apply same_data_prev] ].

(** ** The list a queue represents *)

Definition spine (l : list Z) : list Z := fake_free_list_head :: l ++ [fake_free_list_tail].

(** The links are exactly those of the list between the fake head and tail, no
    other block is linked, and the counter is right. *)
Record queue_repr (q : FreeQueue) (l : list Z) : Prop := {
  qr_nodup : NoDup (spine l);
  qr_next : forall a, nxt q a = succ_in (spine l) a;
  qr_prev : forall a, prv q a = pred_in (spine l) a;
  qr_num : num_free_blocks q = py_len l;
}.

Lemma spine_fresh l a :
  NoDup (spine l) -> a ∈ l -> a <> fake_free_list_head /\ a <> fake_free_list_tail.
Proof.
  unfold spine. rewrite NoDup_cons, NoDup_app, elem_of_app. intros [h1 (_ & h2 & _)] Ha. split.
  - intros ->. tauto.
  - intros ->. apply (h2 _ Ha). by left.
Qed.

Lemma spine_NoDup l :
  NoDup (spine l) <-> NoDup l /\ fake_free_list_head ∉ l /\ fake_free_list_tail ∉ l.
Proof.
  unfold spine. rewrite NoDup_cons, NoDup_app, not_elem_of_app. split.
  - intros [[h1 _] (h2 & h3 & _)]. split; [done|]. split; [done|]. intros Hin.
    apply (h3 _ Hin). by left.
  - intros (h1 & h2 & h3). split.
    + split; [done|]. by apply not_elem_of_cons; split; [|apply not_elem_of_nil].
    + split; [done|]. split; [|apply NoDup_singleton]. intros x Hx [->|?%elem_of_nil]%elem_of_cons; done.
Qed.

(** Cutting [x] out between its neighbours. *)
Lemma succ_in_cut l1 a x l2 c :
  NoDup (l1 ++ a :: x :: l2) -> c <> x -> 
  succ_in (l1 ++ a :: l2) c
  = if decide (c = a) then match l2 with b :: _ => Some b | [] => None end
    else succ_in (l1 ++ a :: x :: l2) c.
Proof.
  intros Hnd Hx. rewrite (succ_in_app l1 a l2), (succ_in_app l1 a (x :: l2)).
  apply NoDup_app in Hnd as (_ & Hd & _).
  destruct (decide (c = a)) as [->|Ha].
  - rewrite succ_in_None by (intros Hin; apply (Hd _ Hin); by left).
    destruct l2; [done|]. by rewrite succ_in_cons, decide_True.
  - rewrite succ_in_cons, decide_False by done.
    destruct (succ_in (l1 ++ [a]) c); [done|]. destruct l2 as [|b l2]; [done|].
    by rewrite !succ_in_cons, !(decide_False (P := c = _)) by done.
Qed.

Lemma pred_in_cut l1 a x b l2 c :
  NoDup (l1 ++ a :: x :: b :: l2) -> c <> x ->
  pred_in (l1 ++ a :: b :: l2) c
  = if decide (c = b) then Some a else pred_in (l1 ++ a :: x :: b :: l2) c.
Proof.
  intros Hnd Hx. rewrite (pred_in_app l1 a (b :: l2)), (pred_in_app l1 a (x :: b :: l2)).
  rewrite !pred_in_cons. destruct (decide (c = b)) as [->|Hb].
  - destruct (pred_in (l1 ++ [a]) b) as [d|] eqn:E; [|done]. exfalso.
    apply pred_in_elem in E as [E _].
    apply NoDup_app in Hnd as (_ & Hd & Hnd). apply NoDup_cons in Hnd as [Hna _].
    apply elem_of_app in E as [E|E].
    + apply (Hd _ E). right. right. by left.
    + apply list_elem_of_singleton in E as ->. apply Hna. right. by left.
  - rewrite !(decide_False (P := c = x)) by done. done.
Qed.

(** Unlinking a block of the middle of the spine, as [popleft] and [remove] do. *)
Definition unlink (p x n : Z) (q : FreeQueue) : FreeQueue :=
  set_next x None (set_prev x None (set_prev n (Some p) (set_next p (Some n) q))).

Lemma unlink_spec l1 p x n l2 q :
  NoDup (l1 ++ p :: x :: n :: l2) ->
  (forall a, nxt q a = succ_in (l1 ++ p :: x :: n :: l2) a) ->
  (forall a, prv q a = pred_in (l1 ++ p :: x :: n :: l2) a) ->
  (forall a, nxt (unlink p x n q) a = succ_in (l1 ++ p :: n :: l2) a) /\
  (forall a, prv (unlink p x n q) a = pred_in (l1 ++ p :: n :: l2) a) /\
  same_data q (unlink p x n q).
Proof.
  intros Hnd Hn Hp. unfold unlink.
  assert (Hx : x ∉ l1 ++ p :: n :: l2).
  { replace (p :: x :: n :: l2) with ([p] ++ x :: n :: l2) in Hnd by done.
    rewrite app_assoc in Hnd. apply NoDup_app in Hnd as (_ & Hd & Hnd).
    apply NoDup_cons in Hnd as [Hxn _]. change (p :: n :: l2) with ([p] ++ n :: l2).
    rewrite app_assoc, elem_of_app. intros [Hin|Hin]; [|done]. apply (Hd _ Hin). by left. }
  split; [|split; [|solve_same_data]]; intros a; autorewrite with links.
  - destruct (decide (a = x)) as [->|Hax].
    + destruct (succ_in (l1 ++ p :: n :: l2) x) eqn:E; [|done]. by apply succ_in_elem in E as [??].
    + rewrite (succ_in_cut l1 p x (n :: l2)) by done. by rewrite Hn.
  - destruct (decide (a = x)) as [->|Hax].
    + destruct (pred_in (l1 ++ p :: n :: l2) x) eqn:E; [|done]. by apply pred_in_elem in E as [??].
    + rewrite (pred_in_cut l1 p x n l2) by done. by rewrite Hp.
Qed.

(** The neighbours of a member of the spine. *)
Lemma succ_in_mid l1 a b l2 : a ∉ l1 -> succ_in (l1 ++ a :: b :: l2) a = Some b.
Proof. intros Ha. by rewrite succ_in_app, succ_in_None, succ_in_cons, decide_True. Qed.

Lemma pred_in_mid l1 a b l2 : NoDup (l1 ++ a :: b :: l2) -> pred_in (l1 ++ a :: b :: l2) b = Some a.
Proof.
  intros Hnd. rewrite pred_in_app, pred_in_cons, decide_True by done.
  destruct (pred_in (l1 ++ [a]) b) eqn:E; [|done]. apply pred_in_elem in E as [E _]. exfalso.
  change (a :: b :: l2) with ([a] ++ b :: l2) in Hnd. rewrite app_assoc in Hnd.
  apply NoDup_app in Hnd as (_ & Hd & _). apply (Hd _ E). by left.
Qed.

Lemma unlink_queue q l l' k p x n l1 l2 :
  queue_repr q l -> spine l = l1 ++ p :: x :: n :: l2 -> spine l' = l1 ++ p :: n :: l2 ->
  py_len l' = py_len l - 1 -> k = num_free_blocks q - 1 ->
  queue_repr (unlink p x n q <| num_free_blocks := k |>) l' /\
  same_data q (unlink p x n q <| num_free_blocks := k |>).
Proof.
  intros [h1 h2 h3 h4] Hs Hs' Hlen ->. rewrite Hs in h1, h2, h3.
  destruct (unlink_spec l1 p x n l2 q h1 h2 h3) as (u1 & u2 & u3).
  split; [|exact u3]. split; rewrite ?Hs'; [|exact u1|exact u2|cbn; lia].
  eapply sublist_NoDup; [exact h1|]. apply sublist_app; [done|]. apply sublist_skip, sublist_cons.
  done.
Qed.

(** The block before the [i]-th member and the block after it. *)
Lemma spine_split l1 x l2 : exists L1 p n L2,
  fake_free_list_head :: l1 = L1 ++ [p] /\ l2 ++ [fake_free_list_tail] = n :: L2 /\
  spine (l1 ++ x :: l2) = L1 ++ p :: x :: n :: L2 /\ spine (l1 ++ l2) = L1 ++ p :: n :: L2.
Proof.
  destruct (exists_last (l := fake_free_list_head :: l1)) as (L1 & p & Hp); [done|].
  destruct (l2 ++ [fake_free_list_tail]) as [|n L2] eqn:Hn; [by destruct l2|].
  exists L1, p, n, L2. split; [done|]. split; [done|]. unfold spine.
  rewrite <- !app_assoc, app_comm_cons, Hp. cbn [app]. rewrite Hn.
  rewrite (app_comm_cons l1 (n :: L2)), Hp, <- !app_assoc. done.
Qed.

Lemma remove_repr q l1 x l2 :
  queue_repr q (l1 ++ x :: l2) ->
  exists q', remove x q = Ok q' /\ queue_repr q' (l1 ++ l2) /\ same_data q q'.
Proof.
  intros Hq. destruct (spine_split l1 x l2) as (L1 & p & n & L2 & _ & _ & Hs & Hs').
  pose proof (qr_nodup _ _ Hq) as Hnd. rewrite Hs in Hnd.
  unfold remove. rewrite (qr_prev _ _ Hq), (qr_next _ _ Hq), Hs, pred_in_mid by done.
  change (p :: x :: n :: L2) with ([p] ++ x :: n :: L2) at 1. rewrite app_assoc, succ_in_mid.
  2:{ change (p :: x :: n :: L2) with ([p] ++ x :: n :: L2) in Hnd. rewrite app_assoc in Hnd.
      apply NoDup_app in Hnd as (_ & Hd & _). intros Hin. apply (Hd _ Hin). by left. }
  eexists. split; [reflexivity|].
  apply (unlink_queue q (l1 ++ x :: l2) (l1 ++ l2) _ p x n L1 L2); try done.
  unfold py_len. rewrite !length_app. cbn. lia.
Qed.

Lemma remove_absent q l x : queue_repr q l -> x ∉ l -> remove x q = Raise RuntimeError.
Proof.
  intros Hq Hx. unfold remove. destruct (prv q x) as [p|] eqn:Hp; [|done].
  destruct (nxt q x) as [n|] eqn:Hn; [|done]. exfalso.
  rewrite (qr_prev _ _ Hq) in Hp. rewrite (qr_next _ _ Hq) in Hn.
  assert (Hx1 : x ∈ l ++ [fake_free_list_tail]).
  { apply dec_stable. intros Hni. unfold spine in Hp. by rewrite pred_in_None in Hp. }
  assert (Hx2 : x ∈ fake_free_list_head :: l).
  { apply dec_stable. intros Hni. unfold spine in Hn. rewrite app_comm_cons in Hn.
    by rewrite succ_in_None in Hn. }
  apply elem_of_app in Hx1 as [?|Hx1]; [done|]. apply list_elem_of_singleton in Hx1 as ->.
  apply elem_of_cons in Hx2 as [?|?]; [done|].
  pose proof (qr_nodup _ _ Hq) as Hnd. apply spine_NoDup in Hnd. tauto.
Qed.

Lemma popleft_repr q x l :
  queue_repr q (x :: l) ->
  exists q', popleft q = Ok (x, q') /\ queue_repr q' l /\ same_data q q'.
Proof.
  intros Hq. destruct (spine_split [] x l) as (L1 & p & n & L2 & Hp & Hn & Hs & Hs').
  assert (L1 = [] /\ p = fake_free_list_head) as [-> ->].
  { destruct L1 as [|z L1]; [by injection Hp as ->|]. injection Hp as _ Hp. by destruct L1. }
  pose proof (qr_nodup _ _ Hq) as Hnd. cbn [app] in *.
  assert (Hx : x <> fake_free_list_tail) by (apply (spine_fresh (x :: l)); [done | by left]).
  unfold popleft. rewrite (qr_next _ _ Hq), Hs, succ_in_cons, decide_True by done.
  destruct (Z.eqb_spec x fake_free_list_tail); [done|].
  assert (Hxh : x <> fake_free_list_head) by (apply (spine_fresh (x :: l)); [done | by left]).
  rewrite (qr_next _ _ Hq), Hs, !succ_in_cons, decide_False, decide_True by done.
  eexists. split; [reflexivity|].
  apply (unlink_queue q (x :: l) l _ fake_free_list_head x n [] L2); try done.
  unfold py_len. cbn. lia.
Qed.

Lemma popleft_empty q : queue_repr q [] -> popleft q = Raise ValueError.
Proof. intros Hq. unfold popleft. rewrite (qr_next _ _ Hq), (qr_num _ _ Hq). done. Qed.

(** *** Appending *)

Lemma succ_in_is_Some l a c : c ∈ l -> is_Some (succ_in (l ++ [a]) c).
Proof.
  induction l as [|x l IH]; [by intros ?%elem_of_nil|]. intros [->|Hc]%elem_of_cons.
  - destruct l; cbn [app]; rewrite succ_in_cons, decide_True by done; by eexists.
  - destruct l; [by apply elem_of_nil in Hc|]. cbn [app] in *. rewrite succ_in_cons.
    case_decide; [by eexists | by apply IH].
Qed.

Lemma pred_in_is_Some a l c : c ∈ l -> is_Some (pred_in (a :: l) c).
Proof.
  revert a. induction l as [|x l IH]; intros a; [by intros ?%elem_of_nil|]. intros Hc.
  rewrite pred_in_cons. case_decide; [by eexists|]. apply elem_of_cons in Hc as [?|?]; [done|auto].
Qed.

(** Adding links from the last block through [bs] to the tail. *)
Lemma append_links q q' l bs L p :
  queue_repr q l -> NoDup (spine (l ++ bs)) -> fake_free_list_head :: l = L ++ [p] ->
  (forall c, nxt q' c = match succ_in (p :: bs ++ [fake_free_list_tail]) c with
                        | Some d => Some d | None => nxt q c end) ->
  (forall c, prv q' c = match pred_in (p :: bs ++ [fake_free_list_tail]) c with
                        | Some d => Some d | None => prv q c end) ->
  num_free_blocks q' = num_free_blocks q + py_len bs -> queue_repr q' (l ++ bs).
Proof.
  intros Hq Hnd HL Hn Hp Hk.
  assert (Hs : spine (l ++ bs) = L ++ p :: bs ++ [fake_free_list_tail]).
  { unfold spine. rewrite <- (app_assoc l bs), (app_comm_cons l (bs ++ _)), HL, <- (app_assoc L).
    reflexivity. }
  assert (Hs0 : spine l = L ++ p :: [fake_free_list_tail]).
  { unfold spine. rewrite (app_comm_cons l [_]), HL, <- (app_assoc L). reflexivity. }
  rewrite Hs in Hnd. split; rewrite ?Hs; [done| | |].
  - intros c. rewrite Hn, (qr_next _ _ Hq), Hs0, (succ_in_app L p (bs ++ _)), (succ_in_app L p [_]).
    destruct (succ_in (p :: bs ++ [_]) c) as [d|] eqn:E.
    + rewrite succ_in_None; [done|]. intros Hc. apply NoDup_app in Hnd as (_ & Hd & _).
      apply (Hd c Hc). by apply succ_in_elem in E as [E _].
    + destruct (succ_in (L ++ [p]) c); [done|]. rewrite succ_in_cons. case_decide as Hc; [|done].
      subst. rewrite app_comm_cons in E.
      destruct (succ_in_is_Some (p :: bs) fake_free_list_tail p) as [d Hd]; [by left | congruence].
  - intros c. rewrite Hp, (qr_prev _ _ Hq), Hs0, (pred_in_app L p (bs ++ _)), (pred_in_app L p [_]).
    destruct (pred_in (p :: bs ++ [_]) c) as [d|] eqn:E.
    + destruct (pred_in (L ++ [p]) c) as [d'|] eqn:E'; [|done]. exfalso.
      apply pred_in_elem in E' as [E' _].
      assert (Hc : c ∈ bs ++ [fake_free_list_tail]).
      { apply dec_stable. intros Hni. by rewrite pred_in_None in E. }
      change (p :: bs ++ [fake_free_list_tail]) with ([p] ++ bs ++ [fake_free_list_tail]) in Hnd.
      rewrite app_assoc in Hnd. apply NoDup_app in Hnd as (_ & Hd & _). by apply (Hd c).
    + destruct (pred_in (L ++ [p]) c); [done|]. rewrite pred_in_cons. case_decide as Hc; [|done].
      subst. destruct (pred_in_is_Some p (bs ++ [fake_free_list_tail]) fake_free_list_tail) as [d Hd];
        [|congruence]. apply elem_of_app. right. by left.
  - rewrite Hk, (qr_num _ _ Hq). unfold py_len. rewrite length_app. lia.
Qed.

Lemma last_of_spine q l : queue_repr q l ->
  exists L p, fake_free_list_head :: l = L ++ [p] /\ prv q fake_free_list_tail = Some p.
Proof.
  intros Hq. destruct (exists_last (l := fake_free_list_head :: l)) as (L & p & HL); [done|].
  exists L, p. split; [done|]. rewrite (qr_prev _ _ Hq). pose proof (qr_nodup _ _ Hq) as Hnd.
  unfold spine in *. rewrite app_comm_cons, HL, <- app_assoc in *. by apply pred_in_mid.
Qed.

Lemma append_repr q l b :
  queue_repr q l -> NoDup (spine (l ++ [b])) ->
  exists q', append b q = Ok q' /\ queue_repr q' (l ++ [b]) /\ same_data q q'.
Proof.
  intros Hq Hnd. destruct (last_of_spine q l Hq) as (L & p & HL & Hp).
  assert (Hb : b <> p /\ b <> fake_free_list_tail /\ p <> fake_free_list_tail).
  { unfold spine in Hnd. rewrite app_comm_cons, app_comm_cons, HL, <- !app_assoc in Hnd.
    cbn [app] in Hnd. apply NoDup_app in Hnd as (_ & _ & Hnd).
    apply NoDup_cons in Hnd as [h1 [h2 _]%NoDup_cons]. rewrite !elem_of_cons in *.
    split_and!; intros ->; naive_solver. }
  destruct Hb as (hb1 & hb2 & hb3).
  unfold append. rewrite Hp. cbn [or_raise]. bind_ok. eexists. split; [reflexivity|].
  split; [|solve_same_data].
  apply (append_links q _ l [b] L p); try done; intros c; autorewrite with links; cbn [app succ_in pred_in].
  - by destruct (decide (c = b)), (decide (c = p)); subst.
  - by destruct (decide (c = b)), (decide (c = fake_free_list_tail)); subst.
Qed.

Lemma chain_loop_links bs last q :
  NoDup (last :: bs) ->
  exists L last' q', chain_loop bs last q = (last', q') /\ last :: bs = L ++ [last'] /\
    (forall c, nxt q' c = match succ_in (last :: bs) c with Some d => Some d | None => nxt q c end) /\
    (forall c, prv q' c = match pred_in (last :: bs) c with Some d => Some d | None => prv q c end) /\
    num_free_blocks q' = num_free_blocks q /\ same_data q q'.
Proof.
  revert last q. induction bs as [|b bs IH]; intros last q Hnd; cbn [chain_loop].
  { exists [], last, q. done. }
  apply NoDup_cons in Hnd as [Hlast Hnd].
  destruct (IH b (set_next last (Some b) (set_prev b (Some last) q)) Hnd)
    as (L & last' & q' & Hr & HL & Hn & Hp & Hk & Hd).
  exists (last :: L), last', q'. rewrite HL. split; [done|]. split; [done|].
  rewrite <- HL. split; [|split; [|split; [done|]]].
  - intros c. rewrite Hn, succ_in_cons. autorewrite with links. case_decide as Hc; [subst|done].
    destruct (succ_in (b :: bs) last) eqn:E; [|done]. by apply succ_in_elem in E as [E _].
  - intros c. rewrite Hp, pred_in_cons. autorewrite with links. case_decide as Hc; [subst|done].
    rewrite pred_in_None; [done|]. by apply NoDup_cons in Hnd as [? _].
  - eapply same_data_trans; [|exact Hd]. solve_same_data.
Qed.

Lemma append_n_repr q l bs :
  queue_repr q l -> NoDup (spine (l ++ bs)) ->
  exists q', append_n bs q = Ok q' /\ queue_repr q' (l ++ bs) /\ same_data q q'.
Proof.
  intros Hq Hnd. unfold append_n. destruct bs as [|b0 bs0] eqn:Ebs.
  { exists q. rewrite app_nil_r. done. }
  rewrite <- Ebs in *. destruct (last_of_spine q l Hq) as (L & p & HL & Hp).
  rewrite Hp. cbn [or_raise]. bind_ok.
  assert (Hspine : NoDup (p :: bs ++ [fake_free_list_tail])).
  { unfold spine in Hnd. rewrite <- (app_assoc l bs), (app_comm_cons l (bs ++ _)), HL, <- (app_assoc L) in Hnd.
    by apply NoDup_app in Hnd as (_ & _ & Hnd). }
  rewrite app_comm_cons in Hspine.
  apply NoDup_app in Hspine as (Hpb & Htail & _).
  destruct (chain_loop_links bs p q Hpb) as (L' & last' & q' & Hr & HL' & Hn & Hp' & Hk & Hd).
  rewrite Hr. eexists. split; [reflexivity|]. split; [|solve_same_data].
  assert (Hl : last' ∉ L' /\ last' <> fake_free_list_tail).
  { split.
    - rewrite HL' in Hpb. apply NoDup_app in Hpb as (_ & h & _). intros Hin. apply (h _ Hin). by left.
    - intros ->. apply (Htail fake_free_list_tail); [rewrite HL'; apply elem_of_app; right|]; by left. }
  destruct Hl as [hl1 hl2].
  apply (append_links q _ l bs L p); try done; [..|cbn; by rewrite Hk];
    intros c; autorewrite with links; rewrite ?Hn, ?Hp', app_comm_cons, HL', <- (app_assoc L').
  - cbn [app]. rewrite (succ_in_app L' last' [_]), succ_in_cons. case_decide as Hc; [subst|].
    + by rewrite succ_in_None.
    + by destruct (succ_in (L' ++ [last']) c).
  - cbn [app]. rewrite (pred_in_app L' last' [_]), pred_in_cons. case_decide as Hc; [subst|].
    + destruct (pred_in (L' ++ [last']) fake_free_list_tail) eqn:E; [|done].
      apply pred_in_elem in E as [E _]. rewrite <- HL' in E. destruct (Htail _ E). by left.
    + by destruct (pred_in (L' ++ [last']) c).
Qed.

(** *** Popping several *)

Lemma pop_loop_links ks n rest q :
  NoDup (ks ++ n :: rest) ->
  (forall a, a ∈ ks -> nxt q a = succ_in (ks ++ n :: rest) a) ->
  exists q', pop_loop (length ks) (head (ks ++ [n])) q = Ok (ks, Some n, q') /\
    (forall a, nxt q' a = if decide (a ∈ ks) then None else nxt q a) /\
    (forall a, prv q' a = if decide (a ∈ ks) then None else prv q a) /\
    num_free_blocks q' = num_free_blocks q /\ same_data q q'.
Proof.
  revert q. induction ks as [|k ks IH]; intros q Hnd Hk; cbn [length pop_loop app head].
  { exists q. do 3 (split; [done|]). done. }
  bind_ok. cbn [or_raise]. bind_ok.
  set (q1 := set_next k None (set_prev k None q)).
  assert (Hsucc : nxt q k = head (ks ++ [n])).
  { rewrite Hk by by left. cbn [app]. destruct ks as [|k' ks]; cbn [app];
      by rewrite succ_in_cons, decide_True. }
  cbn [app] in Hnd. apply NoDup_cons in Hnd as [Hkn Hnd].
  destruct (IH q1) as (q' & Hr & Hn & Hp & Hnum & Hd); [done| |].
  { intros a Ha. unfold q1. autorewrite with links. rewrite decide_False.
    - rewrite Hk by by right. cbn [app]. destruct ks as [|k' ks]; [by apply elem_of_nil in Ha|].
      cbn [app]. rewrite succ_in_cons, decide_False; [done|]. intros ->. apply Hkn.
      apply elem_of_app. by left.
    - intros ->. apply Hkn. apply elem_of_app. by left. }
  rewrite Hsucc, Hr. exists q'. split; [done|]. split; [|split; [|split; [done|]]].
  - intros a. rewrite Hn. unfold q1. autorewrite with links.
    repeat case_decide; set_solver.
  - intros a. rewrite Hp. unfold q1. autorewrite with links.
    repeat case_decide; set_solver.
  - eapply same_data_trans; [|exact Hd]. unfold q1. solve_same_data.
Qed.

Lemma popleft_n_repr q l k :
  queue_repr q l -> 0 <= k <= py_len l ->
  exists q', popleft_n k q = Ok (take (Z.to_nat k) l, q') /\
    queue_repr q' (drop (Z.to_nat k) l) /\ same_data q q'.
Proof.
  intros Hq Hk. unfold popleft_n. destruct (Z.eqb_spec k 0) as [->|Hk0].
  { exists q. done. }
  rewrite (qr_num _ _ Hq). replace (k <=? py_len l) with true by (symmetry; apply Z.leb_le; lia).
  cbn [py_assert]. bind_ok. set (q0 := q <| num_free_blocks := _ |>).
  set (ks := take (Z.to_nat k) l). set (rs := drop (Z.to_nat k) l).
  assert (Hl : l = ks ++ rs) by (symmetry; apply take_drop).
  assert (Hlen : length ks = Z.to_nat k) by (unfold ks, py_len in *; rewrite length_take; lia).
  destruct (rs ++ [fake_free_list_tail]) as [|n R] eqn:HR; [by destruct rs|].
  assert (Hs : spine l = fake_free_list_head :: ks ++ n :: R).
  { unfold spine. by rewrite Hl, <- (app_assoc ks), HR. }
  assert (Hs' : spine rs = fake_free_list_head :: n :: R) by (unfold spine; by rewrite HR).
  pose proof (qr_nodup _ _ Hq) as Hnd. rewrite Hs in Hnd.
  pose proof Hnd as [HH Hnd']%NoDup_cons.
  assert (Hhead : nxt q0 fake_free_list_head = head (ks ++ [n])).
  { change (nxt q0 fake_free_list_head) with (nxt q fake_free_list_head).
    rewrite (qr_next _ _ Hq), Hs. destruct ks; cbn [app]; by rewrite succ_in_cons, decide_True. }
  destruct (pop_loop_links ks n R q0 Hnd') as (q' & Hr & Hn & Hp & Hnum & Hd).
  { intros a Ha. change (nxt q0 a) with (nxt q a). rewrite (qr_next _ _ Hq), Hs.
    destruct ks as [|k' ks']; [by apply elem_of_nil in Ha|]. cbn [app]. rewrite succ_in_cons, decide_False; [done|].
    intros ->. apply HH. apply elem_of_app. by left. }
  rewrite Hhead, <- Hlen, Hr. bind_ok. eexists. split; [reflexivity|]. split.
  2:{ eapply same_data_trans; [apply (same_data_trans _ q0); [apply same_data_num | exact Hd]|].
      solve_same_data. }
  assert (Hout : forall a, a ∈ ks -> a ∉ fake_free_list_head :: n :: R).
  { intros a Ha. apply NoDup_app in Hnd' as (_ & h & _). rewrite elem_of_cons. intros [->|Hin].
    - apply HH. apply elem_of_app. by left.
    - by apply (h a). }
  split; rewrite ?Hs'.
  - eapply sublist_NoDup; [exact Hnd|]. apply sublist_skip, sublist_inserts_l. done.
  - intros a. autorewrite with links. rewrite Hn. rewrite succ_in_cons.
    case_decide as Ha; [done|]. change (nxt q0 a) with (nxt q a).
    destruct (decide (a ∈ ks)) as [Hin|Hin].
    + destruct (succ_in (n :: R) a) eqn:E; [|done]. apply succ_in_elem in E as [E _].
      destruct (Hout a Hin). by right.
    + rewrite (qr_next _ _ Hq), Hs. destruct ks as [|k' ks'].
      * cbn [app]. by rewrite succ_in_cons, decide_False.
      * cbn [app]. rewrite succ_in_cons, decide_False by done.
        change (k' :: ks' ++ n :: R) with ((k' :: ks') ++ n :: R). rewrite (succ_in_app (k' :: ks')).
        by rewrite succ_in_None.
  - intros a. autorewrite with links. rewrite Hp, pred_in_cons.
    case_decide as Ha; [done|]. change (prv q0 a) with (prv q a).
    destruct (decide (a ∈ ks)) as [Hin|Hin].
    + rewrite pred_in_None; [done|]. intros Hr'. destruct (Hout a Hin). by right; right.
    + rewrite (qr_prev _ _ Hq), Hs.
      rewrite app_comm_cons, (pred_in_app _ n R).
      destruct (pred_in ((fake_free_list_head :: ks) ++ [n]) a) eqn:E; [|done].
      exfalso. assert (Hc : a ∈ ks ++ [n]).
      { apply dec_stable. intros Hni. cbn [app] in E. by rewrite pred_in_None in E. }
      rewrite elem_of_app, list_elem_of_singleton in Hc. tauto.
  - cbn. rewrite Hnum. unfold q0, py_len in *. cbn. rewrite Hl, length_app. lia.
Qed.

Lemma popleft_n_short q l k :
  queue_repr q l -> py_len l < k -> popleft_n k q = Raise AssertionError.
Proof.
  intros Hq Hk. unfold popleft_n, py_len in *. destruct (Z.eqb_spec k 0); [lia|].
  rewrite (qr_num _ _ Hq). unfold py_len. by replace (k <=? Z.of_nat (length l)) with false by lia.
Qed.

(** *** The walk and the constructor *)

Lemma walk_suffix q l pre rest :
  queue_repr q l -> spine l = pre ++ rest ++ [fake_free_list_tail] -> pre <> [] ->
  forall fuel, (length rest <= fuel)%nat ->
  walk fuel (default fake_free_list_tail (head rest)) q = Some rest.
Proof.
  intros Hq. revert pre. induction rest as [|x rest IH]; intros pre Hs Hpre fuel Hfuel; cbn [head default].
  - assert (Ht : nxt q fake_free_list_tail = None).
    { pose proof (qr_nodup _ _ Hq) as Hnd. rewrite (qr_next _ _ Hq). rewrite Hs in *. cbn [app] in *.
      rewrite succ_in_None; [done|]. intros Hin. apply NoDup_app in Hnd as (_ & h & _).
      apply (h _ Hin). by left. }
    destruct fuel; cbn [walk]; by rewrite Ht.
  - assert (Hx : nxt q x = Some (default fake_free_list_tail (head rest))).
    { pose proof (qr_nodup _ _ Hq) as Hnd. rewrite (qr_next _ _ Hq). rewrite Hs in *. cbn [app] in *.
      assert (Hpx : x ∉ pre).
      { intros Hin. apply NoDup_app in Hnd as (_ & h & _). apply (h _ Hin). by left. }
      destruct rest; cbn [app head default]; by rewrite succ_in_mid. }
    destruct fuel as [|fuel]; [cbn in Hfuel; lia|].
    change (walk (S fuel) x q = Some (x :: rest)). cbn [walk]. rewrite Hx.
    rewrite (IH (pre ++ [x])); [done| |by destruct pre|cbn in Hfuel; lia].
    by rewrite Hs, <- (app_assoc pre).
Qed.

Lemma get_all_free_blocks_repr q l fuel :
  queue_repr q l -> (length l <= fuel)%nat -> get_all_free_blocks fuel q = Ok (Some l).
Proof.
  intros Hq Hf. unfold get_all_free_blocks.
  assert (Hh : nxt q fake_free_list_head = Some (default fake_free_list_tail (head l))).
  { rewrite (qr_next _ _ Hq). unfold spine. destruct l; cbn [app head default];
      by rewrite succ_in_cons, decide_True. }
  rewrite Hh. cbn [or_raise]. bind_ok.
  by rewrite (walk_suffix q l [fake_free_list_head] l).
Qed.

(** The links the constructor's loop writes. *)
Lemma link_loop n ids q :
  let q' := fold_left (fun q i => link_one n i q) ids q in
  (forall a, nxt q' a = if decide (a ∈ ids /\ a < n - 1) then Some (a + 1) else nxt q a) /\
  (forall a, prv q' a = if decide (a ∈ ids /\ 0 < a) then Some (a - 1) else prv q a) /\
  num_free_blocks q' = num_free_blocks q.
Proof.
  revert q. induction ids as [|i ids IH]; intros q; cbn [fold_left].
  { split; [|split; [|done]]; intros a; rewrite decide_False; try done;
      intros [?%elem_of_nil _]; done. }
  destruct (IH (link_one n i q)) as (h1 & h2 & h3).
  assert (Hn : forall a, nxt (link_one n i q) a = if decide (a = i /\ a < n - 1) then Some (a + 1) else nxt q a).
  { intros a. unfold link_one. destruct (Z.ltb_spec 0 i), (Z.ltb_spec i (n - 1));
      autorewrite with links; repeat case_decide; subst; try done; lia. }
  assert (Hp : forall a, prv (link_one n i q) a = if decide (a = i /\ 0 < a) then Some (a - 1) else prv q a).
  { intros a. unfold link_one. destruct (Z.ltb_spec 0 i), (Z.ltb_spec i (n - 1));
      autorewrite with links; repeat case_decide; subst; try done; lia. }
  split; [|split].
  - intros a. rewrite h1, Hn. repeat case_decide; try done; rewrite elem_of_cons in *; naive_solver.
  - intros a. rewrite h2, Hp. repeat case_decide; try done; rewrite elem_of_cons in *; naive_solver.
  - rewrite h3. unfold link_one. by repeat case_match.
Qed.

Lemma elem_of_py_range a b x : x ∈ py_range a b <-> a <= x < b.
Proof. unfold py_range. rewrite elem_of_seqZ. lia. Qed.

Lemma py_len_py_range n : 0 <= n -> py_len (py_range 0 n) = n.
Proof. intros. unfold py_len, py_range. rewrite length_seqZ. lia. Qed.

Lemma seqZ_last n : 0 < n -> seqZ 0 n = seqZ 0 (n - 1) ++ [n - 1].
Proof.
  intros Hn. replace n with ((n - 1) + 1) at 1 by lia. rewrite seqZ_app by lia. done.
Qed.

Lemma spine_range_succ n a :
  0 < n -> succ_in (spine (py_range 0 n)) a =
    if decide (a = fake_free_list_head) then Some 0
    else if decide (a = n - 1) then Some fake_free_list_tail
    else if decide (0 <= a < n - 1) then Some (a + 1) else None.
Proof.
  intros Hpos. unfold spine, py_range. rewrite Z.sub_0_r.
  pose proof (seqZ_last n Hpos) as Hsp.
  pose proof (succ_in_seqZ 0 n a ltac:(lia)) as Hz. rewrite (seqZ_cons 0 n) in * by lia. cbn [app].
  rewrite succ_in_cons. destruct (decide (a = fake_free_list_head)); [done|].
  rewrite app_comm_cons, <- (seqZ_cons 0 n) in * by lia. rewrite Hsp in *.
  rewrite <- (app_assoc _ [n - 1]). cbn [app].
  rewrite succ_in_app, Hz, succ_in_cons. repeat case_decide; try done; lia.
Qed.

Lemma spine_range_pred n a :
  0 < n -> pred_in (spine (py_range 0 n)) a =
    if decide (a = fake_free_list_tail) then Some (n - 1)
    else if decide (a = 0) then Some fake_free_list_head
    else if decide (0 < a < n) then Some (a - 1) else None.
Proof.
  intros Hpos. unfold spine, py_range. rewrite Z.sub_0_r.
  pose proof (seqZ_last n Hpos) as Hsp.
  pose proof (pred_in_seqZ 0 n a ltac:(lia)) as Hz. rewrite (seqZ_cons 0 n) in * by lia. cbn [app].
  rewrite pred_in_cons.
  destruct (decide (a = 0)) as [->|Ha0]; [repeat case_decide; try done; lia|].
  rewrite app_comm_cons, <- (seqZ_cons 0 n) in * by lia. rewrite Hsp in *.
  rewrite <- (app_assoc _ [n - 1]). cbn [app].
  rewrite pred_in_app, Hz, pred_in_cons. unfold fake_free_list_tail in *.
  repeat case_decide; try done; lia.
Qed.

(** The fields of the constructor's blocks before the fake ones are linked. *)
Lemma fresh_objs n a :
  let q := {| objs := list_to_map ((fun i => (i, new_block i)) <$> py_range 0 n);
              num_free_blocks := n |} in blk q a = new_block a.
Proof.
  unfold blk. cbn. destruct (list_to_map _ !! a) as [b|] eqn:E; [|done].
  by apply elem_of_list_to_map_2, list_elem_of_fmap in E as (i & [= -> ->] & _).
Qed.

(** A new queue holds blank blocks. *)
Lemma new_queue_data n a : 0 < n ->
  let o := blk (new_queue n) a in ref_cnt o = 0 /\ block_hash o = None /\ is_null o = false.
Proof.
  intros Hn. cbv zeta.
  assert (Hblank : forall o o', data o' = data o -> ref_cnt o = 0 /\ block_hash o = None /\ is_null o = false ->
    ref_cnt o' = 0 /\ block_hash o' = None /\ is_null o' = false).
  { intros [] []. cbn. unfold data. cbn. by intros [= -> -> -> ->]. }
  unfold new_queue. rewrite (proj2 (Z.ltb_lt 0 n) Hn).
  pose proof (fresh_objs n) as Hf. cbv zeta in Hf. set (q0 := mkFreeQueue _ n) in *.
  assert (Hloop : forall ids q, same_data q (fold_left (fun q i => link_one n i q) ids q)).
  { induction ids as [|i ids IH]; intros q; cbn [fold_left]; [apply same_data_refl|].
    eapply same_data_trans; [|apply IH]. unfold link_one. repeat case_match; solve_same_data. }
  set (q1 := fold_left _ _ q0).
  set (q2 := update_blk fake_free_list_tail _ _).
  assert (Hd : same_data q2 (set_next (n - 1) (Some fake_free_list_tail) (set_prev fake_free_list_tail (Some (n - 1))
    (set_prev 0 (Some fake_free_list_head) (set_next fake_free_list_head (Some 0) q2))))) by solve_same_data.
  apply (Hblank _ _ (Hd a)). unfold q2. rewrite !blk_update.
  destruct (decide (a = fake_free_list_tail)); [done|]. destruct (decide (a = fake_free_list_head)); [done|].
  apply (Hblank _ _ (Hloop _ q0 a)). by rewrite Hf.
Qed.

Lemma new_queue_repr n : 0 < n -> queue_repr (new_queue n) (py_range 0 n).
Proof.
  intros Hn. unfold new_queue. rewrite (proj2 (Z.ltb_lt 0 n) Hn).
  pose proof (fresh_objs n) as Hf. cbv zeta in Hf.
  set (q0 := mkFreeQueue _ n) in *.
  assert (Hq0 : forall a, nxt q0 a = None /\ prv q0 a = None).
  { intros a. unfold nxt, prv. by rewrite Hf. }
  destruct (link_loop n (py_range 0 n) q0) as (h1 & h2 & h3).
  set (q1 := fold_left _ _ _) in *. clearbody q1.
  assert (Hun : forall a b q, nxt (update_blk a (fun _ => new_block (-1)) q) b
            = if decide (b = a) then None else nxt q b).
  { intros a b q. unfold nxt. rewrite blk_update. by case_decide. }
  assert (Hup : forall a b q, prv (update_blk a (fun _ => new_block (-1)) q) b
            = if decide (b = a) then None else prv q b).
  { intros a b q. unfold prv. rewrite blk_update. by case_decide. }
  cbv zeta in *.
  split.
  - apply spine_NoDup. rewrite !elem_of_py_range. unfold fake_free_list_head, fake_free_list_tail.
    split; [apply NoDup_seqZ | lia].
  - intros a. autorewrite with links. rewrite !Hun, h1, (proj1 (Hq0 _)), spine_range_succ by done.
    unfold fake_free_list_head, fake_free_list_tail.
    repeat case_decide; try done; rewrite ?elem_of_py_range in *; try lia; f_equal; lia.
  - intros a. autorewrite with links. rewrite !Hup, h2, (proj2 (Hq0 _)), spine_range_pred by done.
    unfold fake_free_list_head, fake_free_list_tail.
    repeat case_decide; try done; rewrite ?elem_of_py_range in *; try lia; f_equal; lia.
  - rewrite py_len_py_range by lia. exact h3.
Qed.

(** ** Refinement *)

(** Removing a member by identity. *)
Definition without (b : Z) (l : list Z) : list Z := List.filter (fun x => negb (x =? b)) l.

Lemma without_absent b l : b ∉ l -> without b l = l.
Proof.
  induction l as [|x l IH]; [done|]. rewrite not_elem_of_cons. intros [Hx Hl].
  unfold without in *. cbn. destruct (Z.eqb_spec x b); [by subst|]. cbn. by rewrite IH.
Qed.

Lemma elem_of_without x b l : x ∈ without b l <-> x ∈ l /\ x <> b.
Proof.
  unfold without. rewrite elem_of_list_bfilter, negb_true_iff, Z.eqb_neq. tauto.
Qed.

Lemma without_mid b l1 l2 : NoDup (l1 ++ b :: l2) -> without b (l1 ++ b :: l2) = l1 ++ l2.
Proof.
  intros Hnd. unfold without. rewrite List.filter_app. cbn. rewrite Z.eqb_refl. cbn.
  fold (without b l1) (without b l2).
  apply NoDup_app in Hnd as (_ & h1 & [h2 _]%NoDup_cons).
  rewrite !without_absent; [done|done|]. intros Hin. apply (h1 _ Hin). by left.
Qed.

(** C39: The linked queue is a list: on a queue that represents [l], every operation returns what
    the list operation returns, leaves a queue that represents the list it leaves, and touches
    nothing of the blocks but their links.  What the list cannot do raises: popping
    from an empty queue, popping too many, removing a block that is not in the queue. *)
Theorem free_queue_refines q l :
  queue_repr q l ->
  match l with
  | [] => popleft q = Raise ValueError
  | x :: l' => exists q', popleft q = Ok (x, q') /\ queue_repr q' l' /\ same_data q q'
  end /\
  (forall n, 0 <= n ->
     if n <=? py_len l
     then exists q', popleft_n n q = Ok (take (Z.to_nat n) l, q') /\
            queue_repr q' (drop (Z.to_nat n) l) /\ same_data q q'
     else popleft_n n q = Raise AssertionError) /\
  (forall b, if decide (b ∈ l)
     then exists q', remove b q = Ok q' /\ queue_repr q' (without b l) /\ same_data q q'
     else remove b q = Raise RuntimeError) /\
  (forall b, NoDup (spine (l ++ [b])) ->
     exists q', append b q = Ok q' /\ queue_repr q' (l ++ [b]) /\ same_data q q') /\
  (forall bs, NoDup (spine (l ++ bs)) ->
     exists q', append_n bs q = Ok q' /\ queue_repr q' (l ++ bs) /\ same_data q q') /\
  get_all_free_blocks (length l) q = Ok (Some l).
Proof.
  intros Hq. split; [|split; [|split; [|split; [|split]]]].
  - destruct l; [by apply popleft_empty | by apply popleft_repr].
  - intros n Hn. destruct (Z.leb_spec n (py_len l)).
    + by apply popleft_n_repr.
    + by apply (popleft_n_short _ l).
  - intros b. case_decide as Hb; [|by apply (remove_absent _ l)].
    apply list_elem_of_split in Hb as (l1 & l2 & ->).
    rewrite without_mid by (by eapply spine_NoDup, qr_nodup). by apply remove_repr.
  - intros b. by apply append_repr.
  - intros bs. by apply append_n_repr.
  - by apply get_all_free_blocks_repr.
Qed.

(** A new queue of [n] blocks represents the block ids in order. *)
Theorem new_queue_in_order n :
  0 < n -> queue_repr (new_queue n) (py_range 0 n) /\
    get_all_free_blocks (Z.to_nat n) (new_queue n) = Ok (Some (py_range 0 n)).
Proof.
  intros Hn. pose proof (new_queue_repr n Hn) as Hq. split; [exact Hq|].
  apply get_all_free_blocks_repr; [exact Hq|]. unfold py_range. rewrite length_seqZ. lia.
Qed.

Lemma new_queue_in_order_witness :
  0 < 3 /\ get_all_free_blocks 3 (new_queue 3) = Ok (Some [0; 1; 2]).
Proof.
  split; [reflexivity|]. exact (proj2 (new_queue_in_order 3 eq_refl)).
Defined.

Lemma free_queue_refines_witness :
  queue_repr (new_queue 3) (py_range 0 3) /\
  exists q, remove 1 (new_queue 3) = Ok q /\ queue_repr q [0; 2].
Proof.
  assert (Hq : queue_repr (new_queue 3) (py_range 0 3)) by (apply new_queue_repr; reflexivity).
  split; [exact Hq|].
  destruct (free_queue_refines (new_queue 3) (py_range 0 3) Hq) as (_ & _ & Hr & _).
  specialize (Hr 1). rewrite decide_True in Hr by (apply elem_of_py_range; lia).
  destruct Hr as (q & H & Hq' & _). exists q. split; [exact H | exact Hq'].
Defined.
