(* ===== verification/PyStr.v ===== *)
(** * Python strings

    The substring test [sub in s], [startswith], and the decimal rendering of
    an int inside an f-string, with the facts that make identifiers built from
    them unambiguous. *)

From S2P Require Import Prelude.
From Stdlib Require Import Ascii.
#[local] Open Scope Z_scope.

(** A value the code types [int | str]: a stop reason is a stop token's id or a
    text. *)
Inductive int_or_str := IntOf (z : Z) | StrOf (s : string).

#[export] Instance int_or_str_eq_dec : EqDecision int_or_str.
Proof. solve_decision. Defined.

(** [s.startswith(p)]. *)
Fixpoint startswith (p s : string) : bool :=
  match p, s with
  | EmptyString, _ => true
  | String c p', String c' s' => if decide (c = c') then startswith p' s' else false
  | String _ _, EmptyString => false
  end.

(** [sub in s]. *)
Fixpoint py_contains (sub s : string) : bool :=
  startswith sub s ||
  match s with
  | EmptyString => false
  | String _ s' => py_contains sub s'
  end.

(** The character [c] does not occur in [s]. *)
Fixpoint no_char (c : ascii) (s : string) : Prop :=
  match s with
  | EmptyString => True
  | String c' s' => c <> c' /\ no_char c s'
  end.

(** [f"{n}"] for an int. *)
Definition str_of_Z (n : Z) : string := pretty n.

Lemma startswith_iff p s : startswith p s = true <-> exists t, s = p +:+ t.
Proof.
  revert s; induction p as [|c p IH]; intros s; cbn; [by split; eauto|].
  destruct s as [|c' s]; [split; [done | by intros [? ?]]|].
  case_decide as Hc; subst.
  - rewrite IH. split; intros [t Ht]; exists t; [by rewrite Ht | by injection Ht].
  - split; [done|]. intros [t Ht]. by injection Ht as ->.
Qed.

Lemma py_contains_iff sub s : py_contains sub s = true <-> exists a b, s = a +:+ sub +:+ b.
Proof.
  induction s as [|c s IH]; cbn; rewrite orb_true_iff, startswith_iff.
  - split; [|by intros ([|] & b & H); [left; exists b|]].
    intros [[t Ht]|]; [|done]. by exists "", t.
  - rewrite IH. split.
    + intros [[t Ht]|(a & b & ->)]; [by exists "", t | by exists (String c a), b].
    + intros ([|c' a] & b & H); [left; eauto|]. cbn in H. injection H as -> ->. eauto.
Qed.

Lemma no_char_app c s1 s2 : no_char c (s1 +:+ s2) <-> no_char c s1 /\ no_char c s2.
Proof. induction s1 as [|c' s1 IH]; simpl; [tauto|]. rewrite IH. tauto. Qed.

Lemma no_char_contains c s : no_char c s -> py_contains (String c EmptyString) s = false.
Proof.
  induction s as [|c' s IH]; cbn; [done|]. intros [Hc Hs]. rewrite IH by done.
  by case_decide.
Qed.

(** A string is cut at the first occurrence of a separator in one way only. *)
Lemma first_sep_inj c a a' b b' :
  no_char c a -> no_char c a' ->
  a +:+ String c b = a' +:+ String c b' -> a = a' /\ b = b'.
Proof.
  revert a'; induction a as [|x a IH]; intros [|x' a']; cbn; intros Ha Ha' H.
  - by injection H.
  - injection H as -> _. by destruct Ha'.
  - injection H as -> _. by destruct Ha.
  - injection H as -> H. apply IH in H as [-> ->]; tauto.
Qed.

Lemma pretty_N_go_no_char c x s :
  (forall d, c <> pretty_N_char d) -> no_char c s -> no_char c (pretty_N_go x s).
Proof.
  intros Hc. revert s. induction (N.lt_wf_0 x) as [x _ IH]; intros s Hs.
  assert (x = 0 \/ 0 < x)%N as [->|Hx] by lia; [by rewrite pretty_N_go_0|].
  rewrite pretty_N_go_step by done. apply IH; [by apply N.div_lt|]. by split.
Qed.

Lemma str_of_Z_no_underscore n : no_char "_"%char (str_of_Z n).
Proof.
  assert (Hd : forall d, "_"%char <> pretty_N_char d).
  { intros d. unfold pretty_N_char. by repeat case_match. }
  unfold str_of_Z, pretty, pretty_Z. destruct n as [|p|p]; cbn; try done.
  - unfold pretty, pretty_positive, pretty, pretty_N. case_decide; [done|].
    by apply pretty_N_go_no_char.
  - split; [done|]. unfold pretty, pretty_positive, pretty, pretty_N. case_decide; [done|].
    by apply pretty_N_go_no_char.
Qed.

Lemma str_of_Z_inj n m : str_of_Z n = str_of_Z m -> n = m.
Proof. apply pretty_Z_inj. Qed.

Lemma append_cancel_l p s t : p +:+ s = p +:+ t -> s = t.
Proof. induction p as [|c p IH]; cbn; [done|]. intros [= H]. auto. Qed.
