(* ===== verification/PyText.v ===== *)
(** * Python texts

    Model output is arbitrary Unicode, so a text the front end builds is the list
    of its code points; slices and concatenation are those of lists (PyList).
    This file has the searches: [startswith], [endswith], [in], [find] with a
    start, and [join], with the specification of [find]. *)

From S2P Require Import Prelude PyList.
#[local] Open Scope Z_scope.

Abbreviation text := (list Z).

(** The replacement character U+FFFD. *)
Definition replacement_char : text := [65533].
Definition space : text := [32].

Fixpoint text_startswith (p s : text) : bool :=
  match p, s with
  | [], _ => true
  | c :: p', c' :: s' => (c =? c') && text_startswith p' s'
  | _ :: _, [] => false
  end.

Definition text_endswith (p s : text) : bool := text_startswith (rev p) (rev s).

(** The first place from [i] on where [sub] occurs; [s] starts at place [i]. *)
Fixpoint find_here (sub s : text) (i : Z) : Z :=
  if text_startswith sub s then i
  else match s with [] => -1 | _ :: s' => find_here sub s' (i + 1) end.

(** [s.find(sub, start)]. *)
Definition text_find (sub : text) (start : Z) (s : text) : Z :=
  if py_len s <? start then -1
  else let k := slice_pos start (length s) in find_here sub (drop k s) (Z.of_nat k).

(** [sub in s]. *)
Definition text_in (sub s : text) : bool := negb (text_find sub 0 s =? -1).

(** [sep.join(l)]. *)
Fixpoint text_join (sep : text) (l : list text) : text :=
  match l with
  | [] => []
  | [x] => x
  | x :: l' => x ++ sep ++ text_join sep l'
  end.

(** The code points of an ASCII string. *)
Definition text_of_string (s : string) : text := (fun c => Z.of_N (Ascii.N_of_ascii c)) <$> String.list_ascii_of_string s.

(** ** Occurrences *)

(** [sub] occurs in [s] at place [i]. *)
Definition occurs_at (sub s : text) (i : Z) : Prop := exists a b, s = a ++ sub ++ b /\ py_len a = i.

Lemma text_startswith_iff p s : text_startswith p s = true <-> exists t, s = p ++ t.
Proof.
  revert s; induction p as [|c p IH]; intros [|c' s]; cbn.
  - by split; eauto.
  - by split; eauto.
  - split; [done|]. by intros [? [=]].
  - rewrite andb_true_iff, IH, Z.eqb_eq. split; [intros [-> [t ->]]; eauto|]. intros [t [= -> ->]]. eauto.
Qed.

Lemma occurs_at_nil sub s : occurs_at sub s 0 <-> text_startswith sub s = true.
Proof.
  rewrite text_startswith_iff. unfold occurs_at, py_len. split.
  - intros ([|] & b & -> & Ha); [by exists b | by cbn in Ha].
  - intros [t ->]. by exists [], t.
Qed.

Lemma occurs_at_cons sub c s i : 0 <= i -> occurs_at sub (c :: s) (i + 1) <-> occurs_at sub s i.
Proof.
  unfold occurs_at, py_len. intros Hi. split.
  - intros ([|c' a] & b & Hs & Ha); cbn in *; [lia|]. injection Hs as -> ->. exists a, b. split; [done | lia].
  - intros (a & b & -> & Ha). exists (c :: a), b. cbn. split; [done | lia].
Qed.

Lemma occurs_at_bound sub s i : occurs_at sub s i -> 0 <= i /\ i + py_len sub <= py_len s.
Proof. intros (a & b & -> & <-). unfold py_len. rewrite !length_app. lia. Qed.

Lemma occurs_at_app sub s t i : occurs_at sub s i -> occurs_at sub (s ++ t) i.
Proof. intros (a & b & -> & Ha). exists a, (b ++ t). by rewrite <- !(assoc_L (++)). Qed.

(** An occurrence that ends within the first part is one of the first part. *)
Lemma occurs_at_app_inv sub s t i :
  i + py_len sub <= py_len s -> occurs_at sub (s ++ t) i -> occurs_at sub s i.
Proof.
  unfold occurs_at, py_len. intros Hi (a & b & Hs & Ha).
  exists a, (take (length s - length a - length sub) b). split; [|done].
  rewrite (assoc_L (++)) in Hs. apply (f_equal (take (length s))) in Hs.
  rewrite take_app_length, take_app_ge, length_app in Hs by (rewrite length_app; lia).
  rewrite (assoc_L (++)).
  by replace (length s - length a - length sub)%nat with (length s - (length a + length sub))%nat by lia.
Qed.

Lemma occurs_at_drop sub s k i :
  Z.of_nat k <= py_len s -> Z.of_nat k <= i -> occurs_at sub s i <-> occurs_at sub (drop k s) (i - Z.of_nat k).
Proof.
  revert s i; induction k as [|k IH]; intros s i Hk Hi; [by rewrite drop_0, Z.sub_0_r|].
  destruct s as [|c s]; [by unfold py_len in Hk; cbn in Hk; lia|]. cbn [drop].
  replace i with ((i - 1) + 1) at 1 by lia. rewrite occurs_at_cons by lia.
  rewrite IH by (unfold py_len in *; cbn in Hk; lia). by replace (i - Z.of_nat (S k)) with (i - 1 - Z.of_nat k) by lia.
Qed.

Lemma find_here_spec sub s i :
  0 <= i ->
  (find_here sub s i = -1 /\ forall j, ~ occurs_at sub s j) \/
  exists j, find_here sub s i = i + j /\ occurs_at sub s j /\ forall k, occurs_at sub s k -> j <= k.
Proof.
  revert i; induction s as [|c s IH]; intros i Hi; cbn [find_here];
    destruct (text_startswith sub _) eqn:Hp.
  1, 3: right; exists 0; rewrite occurs_at_nil; split_and!; [lia | done | intros k Hk%occurs_at_bound; lia].
  - left. split; [done|]. intros j Hj. pose proof (occurs_at_bound _ _ _ Hj) as [Hj0 Hlen].
    assert (j = 0) as -> by (unfold py_len in *; cbn in Hlen; lia). apply occurs_at_nil in Hj. congruence.
  - assert (Hstep : forall j, occurs_at sub (c :: s) j -> 1 <= j /\ occurs_at sub s (j - 1)).
    { intros j Hj. pose proof (occurs_at_bound _ _ _ Hj) as [Hj0 _].
      assert (j = 0 \/ 1 <= j) as [->|H1] by lia; [apply occurs_at_nil in Hj; congruence|].
      split; [done|]. apply (occurs_at_cons _ c); [lia|]. by rewrite Z.sub_add. }
    destruct (IH (i + 1) ltac:(lia)) as [[Hf Hno]|(j & Hf & Hj & Hmin)].
    + left. split; [done|]. intros j [_ Hj]%Hstep. by apply Hno in Hj.
    + right. exists (j + 1). pose proof (occurs_at_bound _ _ _ Hj) as [Hj0 _]. split_and!; [lia | |].
      * by apply occurs_at_cons.
      * intros k [_ Hk%Hmin]%Hstep. lia.
Qed.

(** [find] returns the least place from [start] on where the text occurs; a
    negative start counts from the end and is cut off at the beginning. *)
Definition find_start (start : Z) (s : text) : Z := Z.of_nat (slice_pos start (length s)).

Lemma text_find_spec sub start s :
  start <= py_len s ->
  (text_find sub start s = -1 /\ forall j, find_start start s <= j -> ~ occurs_at sub s j) \/
  (find_start start s <= text_find sub start s /\ occurs_at sub s (text_find sub start s) /\
   forall k, find_start start s <= k -> occurs_at sub s k -> text_find sub start s <= k).
Proof.
  intros Hs. unfold text_find, find_start. destruct (Z.ltb_spec (py_len s) start); [lia|].
  set (k := slice_pos start (length s)).
  assert (Hk : Z.of_nat k <= py_len s) by (pose proof (slice_pos_le start (length s)); unfold py_len; lia).
  destruct (find_here_spec sub (drop k s) (Z.of_nat k) ltac:(lia)) as [[Hf Hno]|(j & Hf & Hj & Hmin)]; rewrite Hf.
  - left. split; [done|]. intros j Hkj Hj. apply (Hno (j - Z.of_nat k)). by apply occurs_at_drop.
  - right. pose proof (occurs_at_bound _ _ _ Hj) as [Hj0 _]. split_and!; [lia| |].
    + apply (occurs_at_drop _ _ k); [done | lia |]. by replace (Z.of_nat k + j - Z.of_nat k) with j by lia.
    + intros i Hki Hi. apply (occurs_at_drop _ _ k) in Hi; [|done..]. apply Hmin in Hi. lia.
Qed.

Lemma text_in_iff sub s : text_in sub s = true <-> exists i, occurs_at sub s i.
Proof.
  unfold text_in. destruct (text_find_spec sub 0 s ltac:(unfold py_len; lia)) as [[Hf Hno]|(Hle & Hf & _)].
  - rewrite Hf. split; [done|]. intros [i Hi]. pose proof (occurs_at_bound _ _ _ Hi) as [Hi0 _].
    exfalso. apply (Hno i); [unfold find_start, slice_pos; cbn; lia | done].
  - rewrite negb_true_iff. split; [eauto|]. intros _. apply Z.eqb_neq. unfold find_start in Hle. lia.
Qed.

Example find_clips : (fun start => text_find [2; 3] start [1; 2; 3; 2; 3]) <$> [-9; 2; -1; 6] = [1; 3; -1; -1].
Proof. reflexivity. Qed.
