(* ===== verification/PyFloat.v ===== *)
(** * Python floats

    A Python [float] is an IEEE 754 binary64 number.  The Standard Library's
    [SpecFloat] gives its arithmetic exactly, as computable functions on
    [spec_float]; this file instantiates it at 53 bits of precision, adds the
    comparisons the code uses, and proves that [<] is a strict weak order on
    the numbers that are not NaN.

    [sum] over floats differs between the interpreters the project supports
    ([requires-python = ">=3.10,<3.14"]): plain left-to-right addition up to
    3.11, Neumaier's compensated addition from 3.12 on.  [PySum] is the
    interface, with one instance for each. *)

From S2P Require Import Prelude PyList.
From Stdlib Require Export SpecFloat.
#[local] Open Scope Z_scope.

Abbreviation float := spec_float.

Definition fprec : Z := 53.
Definition femax : Z := 1024.

Definition fadd : float -> float -> float := SFadd fprec femax.
Definition fsub : float -> float -> float := SFsub fprec femax.
Definition fmul : float -> float -> float := SFmul fprec femax.
Definition fdiv : float -> float -> float := SFdiv fprec femax.
Definition fopp : float -> float := SFopp.
Definition fabs : float -> float := SFabs.
Definition flt : float -> float -> bool := SFltb.
Definition fle : float -> float -> bool := SFleb.
Definition feq : float -> float -> bool := SFeqb.

Definition fzero : float := S754_zero false.
Definition is_nan (x : float) : bool := match x with S754_nan => true | _ => false end.
Definition is_finite (x : float) : bool :=
  match x with S754_zero _ | S754_finite _ _ _ => true | _ => false end.

(** [float(n)] for an int, rounded to nearest even. *)
Definition float_of_Z (n : Z) : float := binary_normalize fprec femax n 0 false.

(** The float nearest to [m * 2^e]. *)
Definition float_of_bits (m e : Z) : float := binary_normalize fprec femax m e false.

(** [int(x)]: truncation towards zero. *)
Definition py_int (x : float) : result Z :=
  match x with
  | S754_nan => Raise ValueError
  | S754_infinity _ => Raise OverflowError
  | S754_zero _ => Ok 0
  | S754_finite s m e =>
      let n := if 0 <=? e then Zpos m * 2 ^ e else Zpos m / 2 ^ (- e) in Ok (if s then - n else n)
  end.

Definition not_nan (x : float) : Prop := is_nan x = false.

#[export] Instance float_eq_dec : EqDecision float.
Proof. solve_decision. Defined.

(** ** The order *)

(** A number's place in the order: sign class, exponent, mantissa. *)
Definition float_rank (x : float) : Z * Z * Z :=
  match x with
  | S754_infinity true => (-2, 0, 0)
  | S754_finite true m e => (-1, - e, - Z.pos m)
  | S754_zero _ => (0, 0, 0)
  | S754_finite false m e => (1, e, Z.pos m)
  | S754_infinity false => (2, 0, 0)
  | S754_nan => (0, 0, 0)
  end.

Definition rank_lt (a b : Z * Z * Z) : Prop :=
  a.1.1 < b.1.1 \/ a.1.1 = b.1.1 /\ (a.1.2 < b.1.2 \/ a.1.2 = b.1.2 /\ a.2 < b.2).

Lemma flt_rank x y :
  not_nan x -> not_nan y -> flt x y = true <-> rank_lt (float_rank x) (float_rank y).
Proof.
  unfold not_nan, flt, SFltb, rank_lt.
  destruct x as [sx|[]| |[] mx ex], y as [sy|[]| |[] my ey]; cbn; intros; try done;
    try (split; [done | lia]); try (split; [lia | done]);
    destruct (Z.compare_spec ex ey) as [->| |];
    try change (Pos.compare_cont Eq mx my) with (mx ?= my)%positive;
    try destruct (Pos.compare_spec mx my) as [->| |]; cbn; split; intros; try done; lia.
Qed.

#[export] Instance flt_swo : SWO not_nan flt.
Proof.
  assert (Hf : forall a b, not_nan a -> not_nan b ->
            flt a b = false <-> ~ rank_lt (float_rank a) (float_rank b)).
  { intros a b Ha Hb. rewrite <- flt_rank by done. by destruct (flt a b). }
  split.
  - intros a Ha. apply Hf; [done..|]. unfold rank_lt. lia.
  - intros a b c Ha Hb Hc. rewrite !flt_rank by done. unfold rank_lt. lia.
  - intros a b c Ha Hb Hc. rewrite !Hf by done. unfold rank_lt. lia.
Qed.

Lemma not_nan_fopp x : not_nan x -> not_nan (fopp x).
Proof. by destruct x. Qed.

(** Negation reverses the order: sorting by [-x] sorts by descending [x]. *)
Lemma flt_fopp x y : not_nan x -> not_nan y -> flt (fopp x) (fopp y) = flt y x.
Proof.
  intros Hx Hy. apply eq_true_iff_eq.
  rewrite !flt_rank by auto using not_nan_fopp. unfold rank_lt.
  destruct x as [sx|[]| |[] mx ex], y as [sy|[]| |[] my ey]; cbn; try done; lia.
Qed.

Lemma flt_nan_l x : flt S754_nan x = false.
Proof. done. Qed.

Lemma flt_nan_r x : flt x S754_nan = false.
Proof. by destruct x as [|[]| |[]]. Qed.

(** ** [sum] *)

Class PySum := py_sum : list float -> float.

(** Up to CPython 3.11.  The running total starts at the int 0, which the
    first addition converts. *)
Definition sum_plain (l : list float) : float :=
  match l with
  | [] => fzero
  | x :: l' => fold_left fadd l' (fadd fzero x)
  end.

(** From CPython 3.12: a total and a running compensation. *)
Definition neumaier_add (tc : float * float) (x : float) : float * float :=
  let '(total, c) := tc in
  let t := fadd total x in
  if fle (fabs x) (fabs total)
  then (t, fadd c (fadd (fsub total t) x))
  else (t, fadd c (fadd (fsub x t) total)).

Definition sum_neumaier (l : list float) : float :=
  match l with
  | [] => fzero
  | x :: l' =>
      let '(total, c) := fold_left neumaier_add l' (fadd fzero x, fzero) in
      if negb (feq c fzero) && is_finite c then fadd total c else total
  end.

Definition cpython_3_11 : PySum := sum_plain.
Definition cpython_3_12 : PySum := sum_neumaier.

(** [sum(l) / len(l)]. *)
Definition py_mean `{PySum} (l : list float) : float := fdiv (py_sum l) (float_of_Z (py_len l)).
