(* ===== verification/PyRandom.v ===== *)
(** * Python's random module

    [random.randint] and [random.sample] draw from a generator whose state is
    threaded through the calls.  The generator is a parameter; its laws are the
    documented ranges: [randint a b] lies in [a, b], and [sample(l, k)] takes
    the items at [k] distinct positions of [l]. *)

From S2P Require Import Prelude PyList.
#[local] Open Scope Z_scope.

Class PyRandom (G : Type) := {
  randint : Z -> Z -> G -> Z * G;
  sample_positions : nat -> nat -> G -> list nat * G;
}.

Class PyRandomLaws (G : Type) `{PyRandom G} : Prop := {
  randint_bounds : forall a b g, a <= b -> a <= (randint a b g).1 <= b;
  sample_positions_ok : forall n k g, (k <= n)%nat ->
    let ps := (sample_positions n k g).1 in
    NoDup ps /\ length ps = k /\ Forall (fun p => (p < n)%nat) ps;
}.

(** [random.sample(l, k)]. *)
Definition py_sample {A G} `{PyRandom G} (l : list A) (k : Z) (g : G) : result (list A * G) :=
  if (k <? 0) || (py_len l <? k) then Raise ValueError
  else
    let '(ps, g') := sample_positions (length l) (Z.to_nat k) g in
    Ok (omap (fun p => l !! p) ps, g').

Lemma omap_lookup_length {A} (l : list A) ps :
  Forall (fun p => (p < length l)%nat) ps -> length (omap (fun p => l !! p) ps) = length ps.
Proof.
  induction 1 as [|p ps Hp _ IH]; [done|]. cbn.
  apply lookup_lt_is_Some in Hp as [x ->]. cbn. by rewrite IH.
Qed.

Lemma omap_lookup_NoDup {A} (l : list A) ps :
  NoDup l -> NoDup ps -> NoDup (omap (fun p => l !! p) ps).
Proof.
  intros Hl. induction 1 as [|p ps Hp _ IH]; [constructor|]. cbn.
  destruct (l !! p) as [x|] eqn:E; [|done]. constructor; [|done].
  intros (q & Hq & Hx)%list_elem_of_omap. apply Hp.
  by rewrite (NoDup_lookup l p q x).
Qed.

(** A sample succeeds within range, has the requested size, repeats nothing and
    stays within the population. *)
Lemma py_sample_ok {A G} `{PyRandomLaws G} (l : list A) k g :
  NoDup l -> 0 <= k <= py_len l ->
  exists s g', py_sample l k g = Ok (s, g') /\ NoDup s /\ py_len s = k /\
    forall x, x ∈ s -> x ∈ l.
Proof.
  intros Hl Hk. unfold py_sample, py_len in *.
  destruct (Z.ltb_spec k 0); [lia|]. destruct (Z.ltb_spec (Z.of_nat (length l)) k); [lia|]. cbn.
  pose proof (sample_positions_ok (length l) (Z.to_nat k) g ltac:(lia)) as (Hnd & Hlen & Hlt).
  destruct (sample_positions _ _ g) as [ps g']. cbn in *. eexists _, _. split; [done|].
  split; [by apply omap_lookup_NoDup|]. rewrite omap_lookup_length by done. split; [lia|].
  intros x (p & _ & Hx)%list_elem_of_omap. by eapply list_elem_of_lookup_2.
Qed.

(** A generator that always answers with the first choices. *)
Definition first_choices : PyRandom unit :=
  {| randint := fun a _ g => (a, g); sample_positions := fun _ k g => (seq 0 k, g) |}.

Lemma first_choices_laws : @PyRandomLaws unit first_choices.
Proof.
  split; cbn; [lia|]. intros n k _ Hk. split; [apply NoDup_seq|]. split; [apply length_seq|].
  apply Forall_forall. intros p Hp%elem_of_seq. lia.
Qed.
