(* ===== verification/GambitConfig.v ===== *)
(** * Gambit configuration

    [vllm/config/gambit.py]: the parameters of the search with their defaults,
    and the scan of the tokenizer's vocabulary that fixes which token ids count
    as a reasoning-step boundary.  [compute_hash] (the [str] of the tuple of all
    fields) is not modelled: it needs Python's shortest-float printing. *)

From S2P Require Import Prelude PyDict PyList PyStr PyFloat.
From Stdlib Require Import Ascii.
#[local] Open Scope Z_scope.

Record GambitConfig := mkGambitConfig {
  enable : bool;
  step_scorer_path : option string;
  stop_thinking_tokenID : option Z;
  double_new_line_tokenID : option (list Z);
  scoring_stride : Z;
  record_score_history : bool;
  collect_hidden_states_for_mining : bool;
  enable_branching : bool;
  tournament_mode : bool;
  tournament_capacity : Z;
  tournament_swap_k : Z;
  tournament_check_interval : Z;
  tournament_warmup_tokens : Z;
  tournament_hard_floor : float;
  tournament_branch_random : bool;
  stop_after_completed_traces : Z;
  theta_branch : float;
  theta_prune : float;
  max_branches_per_trace : Z;
  max_total_traces : Z;
  branch_cooldown_steps : Z;
  branch_temperature_boost : float;
  min_tokens_before_branch : Z;
  min_tokens_before_prune : Z;
}.

#[export] Instance eta_GambitConfig : Eta GambitConfig := fun c =>
  mkGambitConfig (enable c) (step_scorer_path c) (stop_thinking_tokenID c)
    (double_new_line_tokenID c) (scoring_stride c) (record_score_history c)
    (collect_hidden_states_for_mining c) (enable_branching c) (tournament_mode c)
    (tournament_capacity c) (tournament_swap_k c) (tournament_check_interval c)
    (tournament_warmup_tokens c) (tournament_hard_floor c) (tournament_branch_random c)
    (stop_after_completed_traces c) (theta_branch c) (theta_prune c)
    (max_branches_per_trace c) (max_total_traces c) (branch_cooldown_steps c)
    (branch_temperature_boost c) (min_tokens_before_branch c) (min_tokens_before_prune c).

(** The binary64 values of the decimal literals 0.1, 0.75, 0.15 and 1.0. *)
Definition lit_0_1 : float := float_of_bits 7205759403792794 (-56).
Definition lit_0_75 : float := float_of_bits 3 (-2).
Definition lit_0_15 : float := float_of_bits 5404319552844595 (-55).
Definition lit_1_0 : float := float_of_Z 1.

Definition default_config : GambitConfig := {|
  enable := false;
  step_scorer_path := None;
  stop_thinking_tokenID := None;
  double_new_line_tokenID := None;
  scoring_stride := 0;
  record_score_history := true;
  collect_hidden_states_for_mining := false;
  enable_branching := false;
  tournament_mode := true;
  tournament_capacity := 256;
  tournament_swap_k := 16;
  tournament_check_interval := 200;
  tournament_warmup_tokens := 12000;
  tournament_hard_floor := lit_0_1;
  tournament_branch_random := false;
  stop_after_completed_traces := 0;
  theta_branch := lit_0_75;
  theta_prune := lit_0_15;
  max_branches_per_trace := 2;
  max_total_traces := 64;
  branch_cooldown_steps := 200;
  branch_temperature_boost := lit_1_0;
  min_tokens_before_branch := 4000;
  min_tokens_before_prune := 4000;
|}.

(** ** Boundary tokens

    The tokenizer is the transformers library's; the scan uses its vocabulary
    size, its decoding of a single id and its table of added tokens. *)
Record Tokenizer := {
  vocab_size : Z;
  decode : Z -> string;
  added_tokens_encoder : dict string Z;
}.

Definition newline : string := String (ascii_of_nat 10) EmptyString.
Definition double_newline : string := newline +:+ newline.

Definition set_gambit_token_ids (c : GambitConfig) (tok : Tokenizer) : GambitConfig :=
  let matching_tokens :=
    List.filter (fun p => py_contains double_newline p.2)
      ((fun token_id => (token_id, decode tok token_id)) <$> py_range 0 (vocab_size tok)) in
  c <| double_new_line_tokenID := Some (matching_tokens.*1) |>
    <| stop_thinking_tokenID := dget "</think>" (added_tokens_encoder tok) |>.

(** The capacity both modes pass to the trace tree. *)
Definition config_capacity (c : GambitConfig) : Z :=
  if tournament_mode c then tournament_capacity c else max_total_traces c.

Lemma lit_0_1_bits : lit_0_1 = S754_finite false 7205759403792794 (-56).
Proof. reflexivity. Qed.

(** The boundary ids are exactly the vocabulary ids whose text holds two
    newlines in a row, in increasing order and without repetition. *)
Lemma set_gambit_token_ids_spec c tok ids :
  double_new_line_tokenID (set_gambit_token_ids c tok) = Some ids ->
  NoDup ids /\
  forall t, t ∈ ids <->
    0 <= t < vocab_size tok /\ exists a b, decode tok t = a +:+ double_newline +:+ b.
Proof.
  intros [= <-].
  set (f := fun token_id => (token_id, decode tok token_id)).
  assert (Hfst : forall l, (List.filter (fun p => py_contains double_newline p.2) (f <$> l)).*1
                 = List.filter (fun t => py_contains double_newline (decode tok t)) l).
  { induction l as [|x l IH]; cbn; [done|]. case_match; cbn; by rewrite IH. }
  rewrite Hfst. split.
  - apply bfilter_NoDup, NoDup_seqZ.
  - intros t. rewrite elem_of_list_bfilter, py_contains_iff. unfold py_range.
    rewrite elem_of_seqZ. intuition lia.
Qed.
