(* ===== verification/Request.v ===== *)
(** * Requests

    [vllm/v1/request.py], the sampling parameters the engine reads
    ([vllm/sampling_params.py]), the prompt length helper of [vllm/utils], and
    [vllm/v1/core/sched/utils.py].

    Payloads the engine only carries along (trace headers, connector
    parameters, grammar keys, the untouched sampling parameters) are opaque
    strings.  A request's block hasher is a closure over the request; here the
    request holds a flag saying that it has one, and the hasher is an argument
    of the operations that call it. *)

From S2P Require Import Prelude PyDict PyList PyStr PyText PyFloat.
#[local] Open Scope Z_scope.

Abbreviation opaque := string (only parsing).
Abbreviation BlockHash := string (only parsing).

(** ** Sampling parameters *)

Inductive RequestOutputKind := CUMULATIVE | DELTA | FINAL_ONLY.

#[export] Instance output_kind_eq_dec : EqDecision RequestOutputKind.
Proof. solve_decision. Defined.

Record StructuredOutputsParams := mkStructuredOutputsParams {
  all_constraints_none : bool;
  so_payload : opaque;
}.

(** [stop: str | list[str] | None]. *)
Inductive StopStrings := StopNone | StopStr (s : text) | StopList (l : list text).

Record SamplingParams := mkSamplingParams {
  n : Z;
  best_of : option Z;
  real_n : option Z;
  presence_penalty : float;
  frequency_penalty : float;
  repetition_penalty : float;
  temperature : option float;
  top_p : float;
  top_k : Z;
  min_p : float;
  seed : option Z;
  sp_stop : StopStrings;
  stop_token_ids : option (list Z);
  ignore_eos : bool;
  sp_max_tokens : option Z;
  min_tokens : Z;
  logprobs : option Z;
  prompt_logprobs : option Z;
  include_stop_str_in_output : bool;
  detokenize : bool;
  skip_special_tokens : bool;
  spaces_between_special_tokens : bool;
  output_kind : RequestOutputKind;
  structured_outputs : option StructuredOutputsParams;
  extra_args : option (dict string opaque);
  truncate_prompt_tokens : option Z;
  output_text_buffer_length : Z;
  all_stop_token_ids : gset Z;
  logit_bias : option (dict Z float);
  allowed_token_ids : option (list Z);
  bad_words : option (list text);
  bad_words_token_ids : option (list (list Z));
  other_params : opaque;
}.

#[export] Instance eta_SamplingParams : Eta SamplingParams := fun p =>
  mkSamplingParams (n p) (best_of p) (real_n p) (presence_penalty p) (frequency_penalty p) (repetition_penalty p)
    (temperature p) (top_p p) (top_k p) (min_p p) (seed p) (sp_stop p) (stop_token_ids p) (ignore_eos p)
    (sp_max_tokens p) (min_tokens p) (logprobs p) (prompt_logprobs p)
    (include_stop_str_in_output p) (detokenize p) (skip_special_tokens p)
    (spaces_between_special_tokens p) (output_kind p) (structured_outputs p) (extra_args p)
    (truncate_prompt_tokens p) (output_text_buffer_length p) (all_stop_token_ids p) (logit_bias p)
    (allowed_token_ids p) (bad_words p) (bad_words_token_ids p) (other_params p).

(** [StructuredOutputRequest.from_sampling_params]. *)
Definition structured_output_from (sp : option SamplingParams) : option StructuredOutputsParams :=
  match sp with
  | None => None
  | Some p =>
      match structured_outputs p with
      | Some so => if all_constraints_none so then None else Some so
      | None => None
      end
  end.

(** ** Status *)

Inductive RequestStatus :=
| WAITING
| WAITING_FOR_FSM
| WAITING_FOR_REMOTE_KVS
| RUNNING
| PREEMPTED
| FINISHED_STOPPED
| FINISHED_LENGTH_CAPPED
| FINISHED_ABORTED
| FINISHED_IGNORED.

#[export] Instance request_status_eq_dec : EqDecision RequestStatus.
Proof. solve_decision. Defined.

(** The [enum.auto()] values. *)
Definition status_value (s : RequestStatus) : Z :=
  match s with
  | WAITING => 1 | WAITING_FOR_FSM => 2 | WAITING_FOR_REMOTE_KVS => 3 | RUNNING => 4
  | PREEMPTED => 5 | FINISHED_STOPPED => 6 | FINISHED_LENGTH_CAPPED => 7
  | FINISHED_ABORTED => 8 | FINISHED_IGNORED => 9
  end.

Definition status_is_finished (s : RequestStatus) : bool :=
  status_value PREEMPTED <? status_value s.

(** [status.name]. *)
Definition status_name (s : RequestStatus) : string :=
  match s with
  | WAITING => "WAITING" | WAITING_FOR_FSM => "WAITING_FOR_FSM"
  | WAITING_FOR_REMOTE_KVS => "WAITING_FOR_REMOTE_KVS" | RUNNING => "RUNNING"
  | PREEMPTED => "PREEMPTED" | FINISHED_STOPPED => "FINISHED_STOPPED"
  | FINISHED_LENGTH_CAPPED => "FINISHED_LENGTH_CAPPED"
  | FINISHED_ABORTED => "FINISHED_ABORTED" | FINISHED_IGNORED => "FINISHED_IGNORED"
  end.

Inductive FinishReason := STOP | LENGTH | ABORT.

#[export] Instance finish_reason_eq_dec : EqDecision FinishReason.
Proof. solve_decision. Defined.

(** [_FINISHED_REASON_MAP.get(status)]. *)
Definition status_finished_reason (s : RequestStatus) : option FinishReason :=
  match s with
  | FINISHED_STOPPED => Some STOP
  | FINISHED_LENGTH_CAPPED => Some LENGTH
  | FINISHED_ABORTED => Some ABORT
  | FINISHED_IGNORED => Some LENGTH
  | _ => None
  end.

Inductive EngineCoreEventType := QUEUED | SCHEDULED | PREEMPTED_EVENT.

(** ** The request *)

Record MultiModalFeature := mkMultiModalFeature {
  identifier : string;
  mm_offset : Z;
  mm_length : Z;
}.

Record LoRARequest := mkLoRARequest { lora_name : string; lora_int_id : Z }.

Record Request := mkRequest {
  request_id : string;
  client_index : Z;
  priority : Z;
  sampling_params : option SamplingParams;
  pooling_params : option opaque;
  eos_token_id : option Z;
  lora_request : option LoRARequest;
  structured_output_request : option StructuredOutputsParams;
  arrival_time : float;
  status : RequestStatus;
  events : list (EngineCoreEventType * float);
  stop_reason : option int_or_str;
  kv_transfer_params : option opaque;
  trace_avg_score : option float;
  max_tokens : Z;
  prompt_token_ids : option (list Z);
  prompt_embeds : option (list string);
  num_prompt_tokens : Z;
  output_token_ids : list Z;
  all_token_ids : list Z;
  num_output_placeholders : Z;
  spec_token_ids : list Z;
  num_computed_tokens : Z;
  cache_salt : option string;
  mm_features : list MultiModalFeature;
  trace_headers : option opaque;
  num_cached_tokens : Z;
  num_nans_in_logits : Z;
  num_preemptions : Z;
  block_hashes : list BlockHash;
  has_block_hasher : bool;
}.

#[export] Instance eta_Request : Eta Request := fun r =>
  mkRequest (request_id r) (client_index r) (priority r) (sampling_params r) (pooling_params r)
    (eos_token_id r) (lora_request r) (structured_output_request r) (arrival_time r) (status r)
    (events r) (stop_reason r) (kv_transfer_params r) (trace_avg_score r) (max_tokens r)
    (prompt_token_ids r) (prompt_embeds r) (num_prompt_tokens r) (output_token_ids r)
    (all_token_ids r) (num_output_placeholders r) (spec_token_ids r) (num_computed_tokens r)
    (cache_salt r) (mm_features r) (trace_headers r) (num_cached_tokens r)
    (num_nans_in_logits r) (num_preemptions r) (block_hashes r) (has_block_hasher r).

(** [length_from_prompt_token_ids_or_embeds]. *)
Definition prompt_length (ids : option (list Z)) (embeds : option (list string)) : result Z :=
  match ids, embeds with
  | None, None => Raise ValueError
  | None, Some e => Ok (py_len e)
  | Some l, None => Ok (py_len l)
  | Some l, Some e => if py_len e =? py_len l then Ok (py_len l) else Raise ValueError
  end.

Definition num_tokens (r : Request) : Z := py_len (all_token_ids r).
Definition num_tokens_with_spec (r : Request) : Z :=
  py_len (all_token_ids r) + py_len (spec_token_ids r).
Definition num_output_tokens (r : Request) : Z := py_len (output_token_ids r).
Definition has_encoder_inputs (r : Request) : bool := 0 <? py_len (mm_features r).
Definition use_structured_output (r : Request) : bool :=
  bool_decide (is_Some (structured_output_request r)).
Definition is_finished (r : Request) : bool := status_is_finished (status r).
Definition get_finished_reason (r : Request) : option FinishReason :=
  status_finished_reason (status r).

(** [get_num_encoder_tokens]: an index past the end fails the assertion. *)
Definition get_num_encoder_tokens (r : Request) (input_id : Z) : result Z :=
  _ ← py_assert (input_id <? py_len (mm_features r));
  f ← py_index (mm_features r) input_id;
  Ok (mm_length f).

Definition record_event (ty : EngineCoreEventType) (timestamp : float) (r : Request) : Request :=
  r <| events := events r ++ [(ty, timestamp)] |>.

Definition take_events (r : Request) : option (list (EngineCoreEventType * float)) * Request :=
  match events r with
  | [] => (None, r)
  | l => (Some l, r <| events := [] |>)
  end.

(** The constructor's keyword arguments. *)
Record RequestArgs := mkRequestArgs {
  ra_request_id : string;
  ra_prompt_token_ids : option (list Z);
  ra_sampling_params : option SamplingParams;
  ra_pooling_params : option opaque;
  ra_eos_token_id : option Z;
  ra_client_index : Z;
  ra_arrival_time : option float;
  ra_prompt_embeds : option (list string);
  ra_mm_features : option (list MultiModalFeature);
  ra_lora_request : option LoRARequest;
  ra_cache_salt : option string;
  ra_priority : Z;
  ra_trace_headers : option opaque;
  ra_trace_avg_score : option float;
}.

(** [EngineCoreRequest] (vllm/v1/engine/__init__.py), what the front end sends. *)
Record EngineCoreRequest := mkEngineCoreRequest {
  ecr_request_id : string;
  ecr_prompt_token_ids : option (list Z);
  ecr_mm_features : option (list MultiModalFeature);
  ecr_sampling_params : option SamplingParams;
  ecr_pooling_params : option opaque;
  ecr_eos_token_id : option Z;
  ecr_arrival_time : float;
  ecr_lora_request : option LoRARequest;
  ecr_cache_salt : option string;
  ecr_data_parallel_rank : option Z;
  ecr_prompt_embeds : option (list string);
  ecr_client_index : Z;
  ecr_current_wave : Z;
  ecr_priority : Z;
  ecr_trace_headers : option opaque;
}.

Section Hasher.
(** The block hasher given to the constructor, and the clock. *)
Context (block_hasher : option (Request -> result (list BlockHash))) (now : float).

(** The token budget, initial status and connector parameters, by request kind. *)
Definition init_limits (a : RequestArgs) : result (Z * RequestStatus * option opaque) :=
  match ra_pooling_params a, ra_sampling_params a with
  | Some _, _ => Ok (1, WAITING, None)
  | None, Some sp =>
      mt ← or_raise AssertionError (sp_max_tokens sp);
      let st := match structured_output_from (Some sp) with
                | Some _ => WAITING_FOR_FSM | None => WAITING end in
      Ok (mt, st, extra_args sp ≫= dget "kv_transfer_params")
  | None, None => Raise ValueError
  end.

Definition new_request (a : RequestArgs) : result Request :=
  '(mt, st, kvp) ← init_limits a;
  npt ← prompt_length (ra_prompt_token_ids a) (ra_prompt_embeds a);
  let r := {|
    request_id := ra_request_id a; client_index := ra_client_index a; priority := ra_priority a;
    sampling_params := ra_sampling_params a; pooling_params := ra_pooling_params a;
    eos_token_id := ra_eos_token_id a; lora_request := ra_lora_request a;
    structured_output_request := structured_output_from (ra_sampling_params a);
    arrival_time := default now (ra_arrival_time a);
    status := st; events := []; stop_reason := None; kv_transfer_params := kvp;
    trace_avg_score := ra_trace_avg_score a; max_tokens := mt;
    prompt_token_ids := ra_prompt_token_ids a; prompt_embeds := ra_prompt_embeds a;
    num_prompt_tokens := npt; output_token_ids := [];
    all_token_ids := match ra_prompt_token_ids a with
                     | Some ids => ids | None => replicate (Z.to_nat npt) 0 end;
    num_output_placeholders := 0; spec_token_ids := []; num_computed_tokens := 0;
    cache_salt := ra_cache_salt a; mm_features := default [] (ra_mm_features a);
    trace_headers := ra_trace_headers a; num_cached_tokens := -1; num_nans_in_logits := 0;
    num_preemptions := 0; block_hashes := [];
    has_block_hasher := bool_decide (is_Some block_hasher) |} in
  match block_hasher with
  | Some h => hs ← h r; Ok (r <| block_hashes := hs |>)
  | None => Ok r
  end.

Definition from_engine_core_request (r : EngineCoreRequest) : result Request :=
  new_request {|
    ra_request_id := ecr_request_id r; ra_prompt_token_ids := ecr_prompt_token_ids r;
    ra_sampling_params := ecr_sampling_params r; ra_pooling_params := ecr_pooling_params r;
    ra_eos_token_id := ecr_eos_token_id r; ra_client_index := ecr_client_index r;
    ra_arrival_time := Some (ecr_arrival_time r); ra_prompt_embeds := ecr_prompt_embeds r;
    ra_mm_features := ecr_mm_features r; ra_lora_request := ecr_lora_request r;
    ra_cache_salt := ecr_cache_salt r; ra_priority := ecr_priority r;
    ra_trace_headers := ecr_trace_headers r; ra_trace_avg_score := None |}.

(** [self.block_hashes.extend(self.get_hash_new_full_blocks())]. *)
Definition extend_block_hashes (r : Request) : result Request :=
  match has_block_hasher r, block_hasher with
  | true, Some h => hs ← h r; Ok (r <| block_hashes := block_hashes r ++ hs |>)
  | _, _ => Ok r
  end.

Definition append_output_token_ids (token_ids : list Z) (r : Request) : result Request :=
  extend_block_hashes
    (r <| output_token_ids := output_token_ids r ++ token_ids |>
       <| all_token_ids := all_token_ids r ++ token_ids |>).

End Hasher.

(** ** Stop conditions *)

(** [check_stop]: the updated request and the verdict.  [pooled] says whether a
    pooler output is present. *)
Definition check_stop (r : Request) (max_model_len : Z) (pooled : bool) : result (bool * Request) :=
  match pooling_params r with
  | Some _ =>
      Ok (if pooled then (true, r <| status := FINISHED_STOPPED |>) else (false, r))
  | None =>
      sp ← or_raise AssertionError (sampling_params r);
      if num_output_tokens r <? min_tokens sp then Ok (false, r)
      else
        last_token_id ← py_index (output_token_ids r) (-1);
        if negb (ignore_eos sp) && bool_decide (Some last_token_id = eos_token_id r) then
          Ok (true, r <| status := FINISHED_STOPPED |>)
        else if bool_decide (last_token_id ∈ default [] (stop_token_ids sp)) then
          Ok (true, r <| status := FINISHED_STOPPED |>
                      <| stop_reason := Some (IntOf last_token_id) |>)
        else if (max_model_len <=? num_tokens r) || (max_tokens r <=? num_output_tokens r) then
          Ok (true, r <| status := FINISHED_LENGTH_CAPPED |>)
        else Ok (false, r)
  end.

(** [remove_all]: the two paths of the code. *)
Fixpoint remove_first {A} `{EqDecision A} (x : A) (l : list A) : list A :=
  match l with
  | [] => []
  | y :: l' => if decide (x = y) then l' else y :: remove_first x l'
  end.

Definition remove_all {A} `{Countable A} (lst : list A) (items_to_remove : gset A) : list A :=
  match elements items_to_remove with
  | [] => lst
  | [item] => remove_first item lst
  | _ => List.filter (fun item => bool_decide (item ∉ items_to_remove)) lst
  end.

(** ** Properties *)

#[export] Instance eta_RequestArgs : Eta RequestArgs := fun a =>
  mkRequestArgs (ra_request_id a) (ra_prompt_token_ids a) (ra_sampling_params a)
    (ra_pooling_params a) (ra_eos_token_id a) (ra_client_index a) (ra_arrival_time a)
    (ra_prompt_embeds a) (ra_mm_features a) (ra_lora_request a) (ra_cache_salt a)
    (ra_priority a) (ra_trace_headers a) (ra_trace_avg_score a).

Lemma py_index_last {A} (l : list A) (x : A) : py_index (l ++ [x]) (-1) = Ok x.
Proof.
  unfold py_index. rewrite length_app. cbn [length].
  replace (-1 <? 0) with true by done.
  destruct (Z.ltb_spec (Z.of_nat (length l + 1) + -1) 0); [lia|].
  destruct (Z.leb_spec (Z.of_nat (length l + 1)) (Z.of_nat (length l + 1) + -1)); [lia|].
  cbn. replace (Z.to_nat _) with (length l) by lia. by rewrite list_lookup_middle.
Qed.

Lemma status_finished_reason_is_Some st :
  status_is_finished st = bool_decide (is_Some (status_finished_reason st)).
Proof. by destruct st. Qed.

(** What [check_stop] may change of a request. *)
Definition same_but_verdict (r r' : Request) : Prop :=
  r' = r <| status := status r' |> <| stop_reason := stop_reason r' |>.

Lemma same_but_verdict_refl r : same_but_verdict r r.
Proof. by destruct r. Qed.
#[export] Hint Resolve same_but_verdict_refl : gambit.

Lemma check_stop_frame r mml pooled b r' :
  check_stop r mml pooled = Ok (b, r') -> same_but_verdict r r'.
Proof.
  unfold check_stop, same_but_verdict. intros H.
  destruct r; repeat (case_match; inv_ok); done.
Qed.

Lemma check_stop_finished r mml pooled b r' :
  check_stop r mml pooled = Ok (b, r') ->
  if b then status r' = FINISHED_STOPPED \/ status r' = FINISHED_LENGTH_CAPPED else r' = r.
Proof.
  unfold check_stop. intros H. repeat (case_match; inv_ok); cbn; auto.
Qed.

(** The verdict alone. *)
Lemma check_stop_verdict r mml sp out last :
  pooling_params r = None -> sampling_params r = Some sp -> output_token_ids r = out ++ [last] ->
  exists b r', check_stop r mml false = Ok (b, r') /\
    (b = true <-> min_tokens sp <= num_output_tokens r /\
       (ignore_eos sp = false /\ Some last = eos_token_id r \/
        last ∈ default [] (stop_token_ids sp) \/
        mml <= num_tokens r \/ max_tokens r <= num_output_tokens r)).
Proof.
  intros Hp Hs Hout. unfold check_stop. rewrite Hp, Hs. cbn. rewrite Hout, py_index_last. cbn.
  destruct (Z.ltb_spec (num_output_tokens r) (min_tokens sp)) as [Hmin|Hmin].
  { eexists _, _. split; [reflexivity|]. split; [done | lia]. }
  destruct (ignore_eos sp), (bool_decide_reflect (Some last = eos_token_id r)),
    (bool_decide_reflect (last ∈ default [] (stop_token_ids sp))), (Z.leb_spec mml (num_tokens r)),
    (Z.leb_spec (max_tokens r) (num_output_tokens r));
    cbn; eexists _, _; (split; [reflexivity|]); (split; [intros ?; try done; auto 8 | try done]);
    intros (_ & [[? ?]|[?|[?|?]]]); first [done | lia].
Qed.

(** [check_stop] on an unfinished sampling request that has produced a last token never
    raises, and its verdict is exactly this: nothing below the minimum number of output tokens;
    otherwise end-of-sequence, then a stop token, then the length limits.  A request that
    stops gets a finished status with a finish reason, and nothing but the
    status and the stop reason changes. *)
Theorem check_stop_spec r mml sp out last :
  pooling_params r = None -> sampling_params r = Some sp ->
  output_token_ids r = out ++ [last] -> is_finished r = false ->
  let enough := min_tokens sp <=? num_output_tokens r in
  let eos := negb (ignore_eos sp) && bool_decide (Some last = eos_token_id r) in
  let stop := bool_decide (last ∈ default [] (stop_token_ids sp)) in
  let capped := (mml <=? num_tokens r) || (max_tokens r <=? num_output_tokens r) in
  exists b r', check_stop r mml false = Ok (b, r') /\
    b = enough && (eos || stop || capped) /\
    is_finished r' = b /\ b = bool_decide (is_Some (get_finished_reason r')) /\
    (b = true -> get_finished_reason r' = Some (if eos || stop then STOP else LENGTH)) /\
    stop_reason r' = (if enough && negb eos && stop then Some (IntOf last) else stop_reason r) /\
    same_but_verdict r r'.
Proof.
  intros Hp Hs Hout Hfin enough eos stop capped.
  assert (He : (num_output_tokens r <? min_tokens sp) = negb enough).
  { subst enough. destruct (Z.ltb_spec (num_output_tokens r) (min_tokens sp)),
      (Z.leb_spec (min_tokens sp) (num_output_tokens r)); lia || done. }
  unfold check_stop. rewrite Hp, Hs. cbn. rewrite He, Hout, py_index_last. cbn.
  unfold get_finished_reason, is_finished in *.
  fold eos stop capped. destruct enough, eos, stop, capped; cbn;
    eexists _, _; split; try reflexivity; cbn; rewrite ?Hfin;
    repeat split; auto with gambit; try discriminate; rewrite <-?status_finished_reason_is_Some; auto;
    unfold same_but_verdict; cbn; by rewrite Hout.
Qed.

(** The token lists of a request: what it knows is the prompt (zeros when
    there are only embeddings) followed by its output. *)
Definition prompt_of (r : Request) : list Z :=
  default (replicate (Z.to_nat (num_prompt_tokens r)) 0) (prompt_token_ids r).

Definition tokens_ok (r : Request) : Prop :=
  all_token_ids r = prompt_of r ++ output_token_ids r /\ py_len (prompt_of r) = num_prompt_tokens r.

Lemma tokens_ok_num_tokens r :
  tokens_ok r -> num_tokens r = num_prompt_tokens r + num_output_tokens r.
Proof.
  intros [Ha Hl]. unfold num_tokens, num_output_tokens, py_len in *.
  rewrite Ha, length_app. lia.
Qed.

Lemma extend_block_hashes_frame h r r' :
  extend_block_hashes h r = Ok r' -> r' = r <| block_hashes := block_hashes r' |>.
Proof.
  unfold extend_block_hashes. intros H. destruct r; repeat (case_match; inv_ok); done.
Qed.

Lemma prompt_length_nonneg ids emb npt : prompt_length ids emb = Ok npt -> 0 <= npt.
Proof. unfold prompt_length, py_len. intros H. repeat case_match; inv_ok; lia. Qed.

Lemma new_request_tokens h now a r : new_request h now a = Ok r -> tokens_ok r.
Proof.
  unfold new_request. intros H. inv_ok.
  match goal with H : prompt_length _ _ = Ok _ |- _ =>
    pose proof (prompt_length_nonneg _ _ _ H) as Hn; rename H into Hl end.
  assert (Hlen : py_len (default (replicate (Z.to_nat r1) 0) (ra_prompt_token_ids a)) = r1).
  { unfold prompt_length, py_len in *. repeat case_match; inv_ok; cbn;
      rewrite ?length_replicate; try lia. }
  repeat case_match; inv_ok; unfold tokens_ok, prompt_of; cbn in *; simplify_eq;
    rewrite ?app_nil_r; split; auto.
Qed.

Lemma new_request_fields h now a r :
  new_request h now a = Ok r ->
  request_id r = ra_request_id a /\ sampling_params r = ra_sampling_params a /\
  output_token_ids r = [] /\
  forall ids, ra_prompt_token_ids a = Some ids -> all_token_ids r = ids.
Proof.
  unfold new_request. intros H. inv_ok. repeat (case_match; inv_ok); cbn;
    repeat split; try done; intros ids Hids; by simplify_eq.
Qed.

Lemma append_output_tokens h ids r r' :
  append_output_token_ids h ids r = Ok r' -> tokens_ok r ->
  tokens_ok r' /\ output_token_ids r' = output_token_ids r ++ ids.
Proof.
  unfold append_output_token_ids. intros ->%extend_block_hashes_frame [Ha Hl].
  unfold tokens_ok, prompt_of in *; cbn in *. by rewrite Ha, app_assoc.
Qed.

Lemma remove_first_filter {A} `{EqDecision A} (x : A) (l : list A) :
  NoDup l -> remove_first x l = List.filter (fun y => bool_decide (y <> x)) l.
Proof.
  induction 1 as [|y l Hy Hl IH]; cbn; [done|]. destruct (decide (x = y)) as [->|Hne].
  - rewrite bool_decide_eq_false_2 by auto. symmetry. clear IH Hl.
    induction l as [|z l IHl]; cbn; [done|].
    rewrite bool_decide_eq_true_2 by (intros ->; apply Hy; by left).
    f_equal. apply IHl. intros ?; apply Hy; by right.
  - rewrite bool_decide_eq_true_2 by auto. by rewrite IH.
Qed.

Lemma filter_ext_in' {A} (f g : A -> bool) (l : list A) :
  (forall x, x ∈ l -> f x = g x) -> List.filter f l = List.filter g l.
Proof.
  induction l as [|x l IH]; cbn; intros Heq; [done|].
  rewrite Heq, IH; [done| |by left]. intros y Hy; apply Heq; by right.
Qed.

Lemma remove_all_filter {A} `{Countable A} (l : list A) (X : gset A) :
  NoDup l -> remove_all l X = List.filter (fun y => bool_decide (y ∉ X)) l.
Proof.
  intros Hl. unfold remove_all. destruct (elements X) as [|x [|y xs]] eqn:E; [| |done].
  - apply elements_empty_inv in E. symmetry.
    rewrite (filter_ext_in' _ (fun _ => true)); [by induction l; cbn; [|inversion Hl; subst; rewrite IHl]|].
    intros z _. apply bool_decide_eq_true_2. set_solver.
  - rewrite remove_first_filter by done. apply filter_ext_in'. intros z _.
    apply bool_decide_ext. rewrite <-elem_of_elements, E. set_solver.
Qed.

(** From construction on, a request's token list is its prompt followed by its output:
    whatever lists of tokens are appended, [num_tokens] is the prompt's length
    plus the number of output tokens and the output is the appended lists in order. *)
Theorem request_tokens h now a r (appended : list (list Z)) r' :
  new_request h now a = Ok r ->
  for_each (append_output_token_ids h) appended r = Ok r' ->
  all_token_ids r' = prompt_of r' ++ output_token_ids r' /\
  output_token_ids r' = concat appended /\
  num_tokens r' = num_prompt_tokens r' + num_output_tokens r'.
Proof.
  intros Hnew Happ.
  assert (Hout : output_token_ids r = []).
  { unfold new_request in Hnew. inv_ok. repeat case_match; by inv_ok. }
  pose proof (new_request_tokens _ _ _ _ Hnew) as Hok. clear Hnew.
  enough (tokens_ok r' /\ output_token_ids r' = output_token_ids r ++ concat appended) as [H1 H2].
  { rewrite Hout in H2. split; [apply H1|]. split; [done|]. by apply tokens_ok_num_tokens. }
  clear Hout. revert r Hok Happ. induction appended as [|l ls IH]; intros r Hok H; cbn in H; inv_ok.
  - by rewrite app_nil_r.
  - destruct (append_output_tokens _ _ _ _ Hr Hok) as [Hok' Ho].
    destruct (IH _ Hok' H) as [? He]. split; [done|]. rewrite He, Ho. cbn. by rewrite app_assoc.
Qed.

(** Both paths of [remove_all], the in-place removal of a single item and the comprehension,
    drop exactly the items of the set from a list without duplicates and keep the order. *)
Theorem remove_all_spec {A} `{Countable A} (l : list A) (X : gset A) :
  NoDup l ->
  remove_all l X `sublist_of` l /\ forall x, x ∈ remove_all l X <-> x ∈ l /\ x ∉ X.
Proof.
  intros Hl. rewrite remove_all_filter by done. split; [apply bfilter_sublist|].
  intros x. rewrite elem_of_list_bfilter, bool_decide_eq_true. tauto.
Qed.

(** ** Witnesses *)

Definition sample_params : SamplingParams :=
  {| n := 1; best_of := None; real_n := None; presence_penalty := fzero; frequency_penalty := fzero;
     repetition_penalty := float_of_Z 1; temperature := None; top_p := float_of_Z 1; top_k := 0; min_p := fzero; seed := None; sp_stop := StopNone; stop_token_ids := Some [7]; ignore_eos := false;
     sp_max_tokens := Some 16; min_tokens := 1; logprobs := None; prompt_logprobs := None;
     include_stop_str_in_output := false; detokenize := true; skip_special_tokens := true;
     spaces_between_special_tokens := true; output_kind := DELTA; structured_outputs := None; extra_args := None;
     truncate_prompt_tokens := None; output_text_buffer_length := 0; all_stop_token_ids := {[7]}; logit_bias := None;
     allowed_token_ids := None; bad_words := None; bad_words_token_ids := None; other_params := "" |}.

Definition sample_args : RequestArgs :=
  {| ra_request_id := "cmpl-0"; ra_prompt_token_ids := Some [11; 12; 13];
     ra_sampling_params := Some sample_params; ra_pooling_params := None;
     ra_eos_token_id := Some 2; ra_client_index := 0; ra_arrival_time := None;
     ra_prompt_embeds := None; ra_mm_features := None; ra_lora_request := None;
     ra_cache_salt := None; ra_priority := 0; ra_trace_headers := None;
     ra_trace_avg_score := None |}.

Definition sample_request (out : list Z) : option Request :=
  match new_request None fzero sample_args ≫= append_output_token_ids None out with
  | Ok r => Some r | Raise _ => None
  end.

Lemma check_stop_spec_witness :
  exists r, sample_request [5; 7] = Some r /\
    exists b r', check_stop r 100 false = Ok (b, r') /\ b = true /\
      stop_reason r' = Some (IntOf 7) /\ get_finished_reason r' = Some STOP.
Proof.
  eexists. split; [reflexivity|].
  match goal with |- exists b r', check_stop ?r _ _ = _ /\ _ =>
    destruct (check_stop_spec r 100 sample_params [5] 7 eq_refl eq_refl eq_refl eq_refl)
      as (b & r' & H & Hb & _ & _ & Hr & Hs & _) end.
  exists b, r'. split; [exact H|]. rewrite Hb. split; [reflexivity|].
  split; [exact Hs | rewrite Hr by exact Hb; reflexivity].
Defined.

Lemma request_tokens_witness :
  exists r r', new_request None fzero sample_args = Ok r /\
    for_each (append_output_token_ids None) [[5]; [6; 7]] r = Ok r' /\ num_tokens r' = 6.
Proof.
  eexists _, _. split; [reflexivity|]. split; [reflexivity|].
  exact (proj2 (proj2 (request_tokens None fzero sample_args _ [[5]; [6; 7]] _ eq_refl eq_refl))).
Defined.

Lemma remove_all_spec_witness :
  NoDup [1; 2; 3] /\ remove_all [1; 2; 3] {[ 2 ]} = [1; 3] /\ 2 ∉ remove_all [1; 2; 3] {[ 2 ]}.
Proof.
  assert (HN : NoDup [1; 2; 3]) by (apply (bool_decide_unpack _); reflexivity).
  split; [done|]. split; [reflexivity|].
  rewrite (proj2 (remove_all_spec [1; 2; 3] {[ 2 ]} HN)). set_solver.
Defined.
