(* ===== verification/KVHash.v ===== *)
(** * Block hashes for prefix caching

    The hashing part of vllm/v1/core/kv_cache_utils.py: keys of the block cache,
    the extra keys of a block, the chained hash of a block and the hasher a
    request carries.  The hash function is a parameter, as in the code; what the
    cache needs of it (no collisions, and never the seed or the empty string) is
    a hypothesis of the theorems that use it. *)

From S2P Require Import Prelude PyDict PyList PyStr PyFloat Request.
From Stdlib Require Import Ascii.
#[local] Open Scope Z_scope.

(** ** Keys of the block cache *)

Definition byte_char (z : Z) : ascii := ascii_of_N (Z.to_N (z mod 256)).

(** [group_id.to_bytes(4, "big", signed=False)]. *)
Definition to_bytes4 (g : Z) : result string :=
  if (g <? 0) || (2 ^ 32 <=? g) then Raise OverflowError
  else Ok (String (byte_char (Z.shiftr g 24)) (String (byte_char (Z.shiftr g 16))
          (String (byte_char (Z.shiftr g 8)) (String (byte_char g) EmptyString)))).

(** [int.from_bytes(b, "big", signed=False)]. *)
Fixpoint from_bytes_acc (acc : Z) (b : string) : Z :=
  match b with
  | EmptyString => acc
  | String c b => from_bytes_acc (acc * 256 + Z.of_N (N_of_ascii c)) b
  end.
Definition from_bytes (b : string) : Z := from_bytes_acc 0 b.

Definition make_block_hash_with_group_id (block_hash : BlockHash) (group_id : Z) : result string :=
  b ← to_bytes4 group_id; Ok (block_hash +:+ b).

(** [key[:-4]] and [key[-4:]]. *)
Definition get_block_hash (key : string) : BlockHash :=
  String.substring 0 (String.length key - 4) key.
Definition get_group_id (key : string) : Z :=
  from_bytes (String.substring (String.length key - 4) 4 key).

Inductive ExternalBlockHash := HashBytes (b : BlockHash) | HashInt (i : Z).

(** [use_int] is VLLM_KV_EVENTS_USE_INT_BLOCK_HASHES. *)
Definition maybe_convert_block_hash (use_int : bool) (hash_bytes : BlockHash) : ExternalBlockHash :=
  if use_int then HashInt (Z.land (from_bytes hash_bytes) (Z.shiftl 1 64 - 1)) else HashBytes hash_bytes.

(** ** Extra keys *)

(** The strings and byte strings that occur among the extra keys. *)
Inductive ExtraKey := KeyStr (s : string) | KeyBytes (b : string).

Definition need_extra_keys (r : Request) : bool :=
  (0 <? py_len (mm_features r)) || bool_decide (is_Some (lora_request r))
  || bool_decide (is_Some (cache_salt r)).

(** The [while] loop of [_gen_mm_extra_hash_keys].  Every turn that does not
    leave the loop moves to the next feature, so the number of features is fuel
    enough. *)
Fixpoint mm_loop (fuel : nat) (feats : list MultiModalFeature) (start_token_idx end_token_idx : Z)
    (curr_mm_idx : Z) : list ExtraKey * Z :=
  match fuel with
  | O => ([], curr_mm_idx)
  | S fuel =>
      match feats !! Z.to_nat curr_mm_idx with
      | None => ([], curr_mm_idx)
      | Some f =>
          if mm_offset f <? end_token_idx then
            if mm_offset f + mm_length f <? start_token_idx then
              mm_loop fuel feats start_token_idx end_token_idx (curr_mm_idx + 1)
            else if mm_offset f + mm_length f <=? end_token_idx then
              let '(keys, i) := mm_loop fuel feats start_token_idx end_token_idx (curr_mm_idx + 1) in
              (KeyStr (identifier f) :: keys, i)
            else ([KeyStr (identifier f)], curr_mm_idx)
          else ([], curr_mm_idx)
      end
  end.

Definition gen_mm_extra_hash_keys (r : Request) (start_token_idx end_token_idx start_mm_idx : Z)
    : result (list ExtraKey * Z) :=
  match last (mm_features r) with
  | None => Ok ([], start_mm_idx)
  | Some last_pos =>
      if mm_offset last_pos + mm_length last_pos <? start_token_idx then Ok ([], start_mm_idx)
      else
        let n := py_len (mm_features r) in
        start_mm_idx ← (if start_mm_idx <? 0
                        then _ ← py_assert (- start_mm_idx <=? n); Ok (n + start_mm_idx)
                        else Ok start_mm_idx);
        Ok (mm_loop (length (mm_features r)) (mm_features r) start_token_idx end_token_idx start_mm_idx)
  end.

Definition gen_lora_extra_hash_keys (r : Request) : list ExtraKey :=
  match lora_request r with Some l => [KeyStr (lora_name l)] | None => [] end.

(** The bytes of the slice of the embedding tensor, row after row. *)
Definition gen_prompt_embeds_extra_hash_keys (r : Request) (start_token_idx end_token_idx : Z)
    : list ExtraKey :=
  match prompt_embeds r with
  | Some rows => [KeyBytes (String.concat "" (slice start_token_idx end_token_idx rows))]
  | None => []
  end.

Definition cache_salt_keys (r : Request) (start_token_idx : Z) : list ExtraKey :=
  match cache_salt r with
  | Some s => if (start_token_idx =? 0) && negb (String.eqb s "") then [KeyStr s] else []
  | None => []
  end.

Definition generate_block_hash_extra_keys (r : Request)
    (start_token_idx end_token_idx start_mm_idx : Z) : result (option (list ExtraKey) * Z) :=
  '(mm_extra_keys, new_start_mm_idx) ←
    gen_mm_extra_hash_keys r start_token_idx end_token_idx start_mm_idx;
  let extra_keys := gen_lora_extra_hash_keys r ++ mm_extra_keys ++
    cache_salt_keys r start_token_idx ++
    gen_prompt_embeds_extra_hash_keys r start_token_idx end_token_idx in
  Ok (match extra_keys with [] => None | _ => Some extra_keys end, new_start_mm_idx).

(** ** Chained block hashes *)

Abbreviation HashInput := (string * list Z * option (list ExtraKey))%type.

Section Hash.
Context (hash_function : HashInput -> BlockHash) (NONE_HASH : BlockHash) (block_size : Z).

Definition hash_block_tokens (parent_block_hash : option BlockHash) (curr_block_token_ids : list Z)
    (extra_keys : option (list ExtraKey)) : BlockHash :=
  let parent := match parent_block_hash with
                | Some h => if String.eqb h "" then NONE_HASH else h
                | None => NONE_HASH
                end in
  hash_function (parent, curr_block_token_ids, extra_keys).

(** The [while True] loop of the hasher: one turn per full block. *)
Fixpoint hash_loop (fuel : nat) (r : Request) (start_token_idx curr_mm_idx : Z)
    (prev_block_hash_value : option BlockHash) : result (list BlockHash) :=
  match fuel with
  | O => Ok []
  | S fuel =>
      let end_token_idx := start_token_idx + block_size in
      if num_tokens r <? end_token_idx then Ok []
      else
        '(extra_keys, curr_mm_idx) ←
          generate_block_hash_extra_keys r start_token_idx end_token_idx curr_mm_idx;
        let block_tokens := slice start_token_idx end_token_idx (all_token_ids r) in
        let block_hash := hash_block_tokens prev_block_hash_value block_tokens extra_keys in
        rest ← hash_loop fuel r end_token_idx curr_mm_idx (Some block_hash);
        Ok (block_hash :: rest)
  end.

(** [get_request_block_hasher(block_size, caching_hash_fn)], applied to a
    request.  The number of tokens bounds the number of blocks. *)
Definition request_block_hasher (r : Request) : result (list BlockHash) :=
  let start_token_idx := py_len (block_hashes r) * block_size in
  if num_tokens r <? start_token_idx + block_size then Ok []
  else
    let curr_mm_idx := if 0 <? start_token_idx then -1 else 0 in
    hash_loop (S (length (all_token_ids r))) r start_token_idx curr_mm_idx (last (block_hashes r)).

End Hash.

(** ** Packing and unpacking keys *)

Lemma append_cons c h b : String c h +:+ b = String c (h +:+ b).
Proof. done. Qed.

Lemma substring_prefix h b : String.substring 0 (String.length h) (h +:+ b) = h.
Proof.
  induction h as [|c h IH]; [by destruct b|]. rewrite append_cons. cbn. by rewrite IH.
Qed.

Lemma substring_suffix h b n : String.substring (String.length h) n (h +:+ b) = String.substring 0 n b.
Proof. induction h as [|c h IH]; [done|]. rewrite append_cons. cbn. exact IH. Qed.

Lemma length_append (a b : string) : String.length (a +:+ b) = (String.length a + String.length b)%nat.
Proof. induction a as [|c a IH]; [done|]. rewrite append_cons. cbn. by rewrite IH. Qed.

Lemma byte_char_value z : Z.of_N (N_of_ascii (byte_char z)) = z mod 256.
Proof.
  unfold byte_char. pose proof (Z.mod_pos_bound z 256 ltac:(lia)). rewrite N_ascii_embedding; lia.
Qed.

Lemma to_bytes4_spec g :
  0 <= g < 2 ^ 32 -> exists b, to_bytes4 g = Ok b /\ String.length b = 4%nat /\ from_bytes b = g.
Proof.
  intros Hg. unfold to_bytes4. destruct (Z.ltb_spec g 0); [lia|].
  destruct (Z.leb_spec (2 ^ 32) g); [lia|]. cbn [orb]. eexists. split; [reflexivity|].
  split; [done|]. unfold from_bytes. cbn [from_bytes_acc]. rewrite !byte_char_value, !Z.shiftr_div_pow2 by lia.
  change (2 ^ 24) with 16777216. change (2 ^ 16) with 65536. change (2 ^ 8) with 256.
  change (2 ^ 32) with 4294967296 in *. Z.to_euclidean_division_equations. lia.
Qed.

(** Packing a block hash and a group id that fits in four bytes gives a key from which both
    are recovered, so keys of different hashes or groups differ; a group id out of range raises. *)
Theorem block_key_roundtrip h g :
  if (0 <=? g) && (g <? 2 ^ 32)
  then exists k, make_block_hash_with_group_id h g = Ok k /\ get_block_hash k = h /\ get_group_id k = g
  else make_block_hash_with_group_id h g = Raise OverflowError.
Proof.
  unfold make_block_hash_with_group_id.
  destruct (Z.leb_spec 0 g), (Z.ltb_spec g (2 ^ 32)); cbn [andb].
  1:{ destruct (to_bytes4_spec g) as (b & Hb & Hl & Hv); [lia|]. rewrite Hb. bind_ok.
      eexists. split; [reflexivity|]. unfold get_block_hash, get_group_id.
      rewrite length_append, Hl. replace (String.length h + 4 - 4)%nat with (String.length h) by lia.
      rewrite substring_prefix, substring_suffix. split; [done|].
      rewrite <- Hv. f_equal. do 5 (destruct b as [|? b]; [done|]). done. }
  all: unfold to_bytes4; destruct (Z.ltb_spec g 0), (Z.leb_spec (2 ^ 32) g); try lia; done.
Qed.

Lemma make_key_inj h1 g1 h2 g2 k :
  make_block_hash_with_group_id h1 g1 = Ok k -> make_block_hash_with_group_id h2 g2 = Ok k ->
  h1 = h2 /\ g1 = g2.
Proof.
  assert (Hspec : forall h g k, make_block_hash_with_group_id h g = Ok k ->
    get_block_hash k = h /\ get_group_id k = g).
  { clear. intros h g k Hk. unfold make_block_hash_with_group_id in Hk. inv_ok.
    assert (Hg : 0 <= g < 2 ^ 32).
    { unfold to_bytes4 in Hr. destruct (Z.ltb_spec g 0), (Z.leb_spec (2 ^ 32) g); try done. }
    destruct (to_bytes4_spec g Hg) as (b & Hb & Hl & Hv). rewrite Hb in Hr. injection Hr as ->.
    unfold get_block_hash, get_group_id. rewrite length_append, Hl.
    replace (String.length h + 4 - 4)%nat with (String.length h) by lia.
    rewrite substring_prefix, substring_suffix. split; [done|]. rewrite <- Hv. f_equal.
    by do 5 (destruct r as [|? r]; [done|]). }
  intros [<- <-]%Hspec [-> ->]%Hspec. done.
Qed.

(** ** The hash chain of a text request *)

Section Chain.
Context (hash_function : HashInput -> BlockHash) (NONE_HASH : BlockHash) (block_size : Z).
Hypothesis Hbs : 0 < block_size.
Abbreviation hasher := (request_block_hasher hash_function NONE_HASH block_size).
Abbreviation hash_loop := (hash_loop hash_function NONE_HASH block_size).

(** The tokens and the extra keys of block [i]. *)
Definition block_tokens (r : Request) (i : nat) : list Z :=
  slice (Z.of_nat i * block_size) (Z.of_nat (S i) * block_size) (all_token_ids r).

Definition block_keys (r : Request) (i : nat) : option (list ExtraKey) :=
  let start := Z.of_nat i * block_size in
  let keys := gen_lora_extra_hash_keys r ++ cache_salt_keys r start ++
        gen_prompt_embeds_extra_hash_keys r start (Z.of_nat (S i) * block_size) in
  match keys with [] => None | _ => Some keys end.

(** The hashes of the first [n] blocks, from scratch: each block is hashed with
    its predecessor's hash. *)
Fixpoint hash_chain (r : Request) (n : nat) : list BlockHash :=
  match n with
  | O => []
  | S i => hash_chain r i ++ [hash_block_tokens hash_function NONE_HASH (last (hash_chain r i))
                               (block_tokens r i) (block_keys r i)]
  end.

Definition num_full_blocks (r : Request) : nat := Z.to_nat (num_tokens r / block_size).

Lemma length_hash_chain r n : length (hash_chain r n) = n.
Proof. induction n as [|n IH]; cbn; [done|]. rewrite length_app, IH. cbn. lia. Qed.

Lemma hash_chain_prefix r k n : (k <= n)%nat -> exists t, hash_chain r n = hash_chain r k ++ t.
Proof.
  induction 1 as [|n _ [t IH]]; [exists []; by rewrite app_nil_r|]. cbn [hash_chain].
  rewrite IH, <- app_assoc. by eexists.
Qed.

Lemma extra_keys_text r i idx :
  mm_features r = [] ->
  generate_block_hash_extra_keys r (Z.of_nat i * block_size) (Z.of_nat i * block_size + block_size) idx
  = Ok (block_keys r i, idx).
Proof.
  intros Hmm. unfold generate_block_hash_extra_keys, gen_mm_extra_hash_keys. rewrite Hmm.
  cbn [last]. bind_ok. cbn [app]. unfold block_keys.
  by replace (Z.of_nat (S i) * block_size) with (Z.of_nat i * block_size + block_size) by lia.
Qed.

(** The loop computes what is missing of the chain, given enough fuel. *)
Lemma hash_loop_chain r k fuel idx :
  mm_features r = [] -> (k <= num_full_blocks r)%nat -> (num_full_blocks r - k < fuel)%nat ->
  hash_loop fuel r (Z.of_nat k * block_size) idx (last (hash_chain r k))
  = Ok (drop k (hash_chain r (num_full_blocks r))).
Proof.
  intros Hmm. revert k idx. induction fuel as [|fuel IH]; intros k idx Hk Hf; [lia|].
  cbn [KVHash.hash_loop].
  assert (Hn : num_tokens r <? Z.of_nat k * block_size + block_size
               = bool_decide (k = num_full_blocks r)).
  { unfold num_full_blocks in *. pose proof (Z.div_pos (num_tokens r) block_size).
    assert (0 <= num_tokens r) by (unfold num_tokens, py_len; lia).
    pose proof (Z.mul_div_le (num_tokens r) block_size Hbs).
    pose proof (Z.mul_succ_div_gt (num_tokens r) block_size Hbs).
    case_bool_decide; [apply Z.ltb_lt; subst; nia | apply Z.ltb_ge; nia]. }
  rewrite Hn. case_bool_decide as Hkn.
  { subst. by rewrite drop_ge by (rewrite length_hash_chain; lia). }
  rewrite extra_keys_text by done. bind_ok.
  replace (Z.of_nat k * block_size + block_size) with (Z.of_nat (S k) * block_size) by lia.
  change (slice _ _ _) with (block_tokens r k).
  set (h := hash_block_tokens _ _ _ _ _).
  assert (Hc : hash_chain r (S k) = hash_chain r k ++ [h]) by done.
  specialize (IH (S k) idx). rewrite Hc, last_snoc in IH. rewrite IH by lia. bind_ok. f_equal.
  destruct (hash_chain_prefix r (S k) (num_full_blocks r)) as [t Ht]; [lia|].
  rewrite Ht, Hc, (drop_app_length' (hash_chain r k ++ [h]) t (S k))
    by (rewrite length_app, length_hash_chain; cbn; lia).
  by rewrite <- app_assoc, (drop_app_length' (hash_chain r k)) by (by rewrite length_hash_chain).
Qed.

Lemma num_full_blocks_le r : (num_full_blocks r <= length (all_token_ids r))%nat.
Proof.
  unfold num_full_blocks, num_tokens, py_len.
  assert (Z.of_nat (length (all_token_ids r)) / block_size <= Z.of_nat (length (all_token_ids r)))
    by (apply Z.div_le_upper_bound; nia). lia.
Qed.

(** From a prefix of the chain, the hasher returns the rest of it. *)
Lemma hasher_chain r k :
  mm_features r = [] -> (k <= num_full_blocks r)%nat -> block_hashes r = hash_chain r k ->
  hasher r = Ok (drop k (hash_chain r (num_full_blocks r))).
Proof.
  intros Hmm Hk Hb. unfold request_block_hasher.
  assert (Hs : py_len (block_hashes r) * block_size = Z.of_nat k * block_size).
  { rewrite Hb. unfold py_len. by rewrite length_hash_chain. }
  rewrite Hs. pose proof (num_full_blocks_le r).
  pose proof (hash_loop_chain r k (S (length (all_token_ids r)))
    (if 0 <? Z.of_nat k * block_size then -1 else 0) Hmm Hk ltac:(lia)) as Hl.
  rewrite Hb. destruct (Z.ltb_spec (num_tokens r) (Z.of_nat k * block_size + block_size)) as [Hlt|];
    [|exact Hl].
  cbn [KVHash.hash_loop] in Hl. by rewrite (proj2 (Z.ltb_lt _ _) Hlt) in Hl.
Qed.

(** Appending tokens does not change the blocks that were full. *)
Lemma hash_chain_stable r r' t n :
  all_token_ids r' = all_token_ids r ++ t -> lora_request r' = lora_request r ->
  cache_salt r' = cache_salt r -> prompt_embeds r' = prompt_embeds r ->
  Z.of_nat n * block_size <= num_tokens r -> hash_chain r' n = hash_chain r n.
Proof.
  intros Ht Hl Hs He. induction n as [|n IH]; intros Hn; [done|]. cbn [hash_chain].
  rewrite IH by lia. do 2 f_equal. unfold hash_block_tokens. do 2 f_equal.
  - f_equal. unfold block_tokens.
    rewrite !slice_in by (unfold num_tokens, py_len in *; rewrite ?Ht, ?length_app; nia).
    rewrite Ht, take_app_le; [done|]. unfold num_tokens, py_len in Hn. lia.
  - unfold block_keys, gen_lora_extra_hash_keys, cache_salt_keys, gen_prompt_embeds_extra_hash_keys.
    by rewrite Hl, Hs, He.
Qed.

(** A request whose hashes are those of the full blocks of its tokens. *)
Record chain_ok (r : Request) : Prop := {
  co_text : mm_features r = [];
  co_hasher : has_block_hasher r = true;
  co_hashes : block_hashes r = hash_chain r (num_full_blocks r);
}.

Lemma num_full_blocks_tokens r : Z.of_nat (num_full_blocks r) * block_size <= num_tokens r.
Proof.
  assert (0 <= num_tokens r) by (unfold num_tokens, py_len; lia). unfold num_full_blocks.
  pose proof (Z.div_pos (num_tokens r) block_size). pose proof (Z.mul_div_le (num_tokens r) block_size Hbs).
  nia.
Qed.

(** The chain does not look at the hashes the request carries. *)
Lemma hash_chain_hashes r hs n : hash_chain (r <| block_hashes := hs |>) n = hash_chain r n.
Proof. induction n as [|n IH]; [done|]. cbn [hash_chain]. by rewrite IH. Qed.

Lemma append_chain_ok ids r :
  chain_ok r -> exists r', append_output_token_ids (Some hasher) ids r = Ok r' /\ chain_ok r' /\
    all_token_ids r' = all_token_ids r ++ ids.
Proof.
  intros [h1 h2 h3]. unfold append_output_token_ids.
  set (r1 := r <| output_token_ids := output_token_ids r ++ ids |>
               <| all_token_ids := all_token_ids r ++ ids |>).
  assert (Hle : (num_full_blocks r <= num_full_blocks r1)%nat).
  { unfold num_full_blocks, num_tokens, py_len, r1. cbn. rewrite length_app.
    apply Z2Nat.inj_le; [apply Z.div_pos; lia..|]. apply Z.div_le_mono; lia. }
  assert (Hst : block_hashes r1 = hash_chain r1 (num_full_blocks r)).
  { change (block_hashes r1) with (block_hashes r). rewrite h3. symmetry.
    apply (hash_chain_stable r r1 ids); try done. apply num_full_blocks_tokens. }
  unfold extend_block_hashes. change (has_block_hasher r1) with (has_block_hasher r). rewrite h2.
  rewrite (hasher_chain r1 (num_full_blocks r)) by done. bind_ok.
  eexists. split; [reflexivity|]. split; [|done].
  split; [exact h1 | exact h2 |]. rewrite hash_chain_hashes.
  change (num_full_blocks (r1 <| block_hashes := _ |>)) with (num_full_blocks r1).
  change (block_hashes r ++ drop (num_full_blocks r) (hash_chain r1 (num_full_blocks r1))
          = hash_chain r1 (num_full_blocks r1)).
  assert (Heq : block_hashes r = hash_chain r1 (num_full_blocks r)) by exact Hst.
  rewrite Heq.
  destruct (hash_chain_prefix r1 _ _ Hle) as [t ->].
  by rewrite drop_app_length' by (by rewrite length_hash_chain).
Qed.

Lemma new_request_chain_ok now a r :
  new_request (Some hasher) now a = Ok r -> mm_features r = [] -> chain_ok r.
Proof.
  unfold new_request. intros Hr Hmm. inv_ok. cbn -[request_block_hasher] in *.
  match goal with H : hasher ?x = Ok _ |- _ => set (rq := x) in * end.
  rewrite (hasher_chain rq 0) in * by (done || lia). inv_ok.
  match goal with |- chain_ok ?x =>
    change x with (rq <| block_hashes := hash_chain rq (num_full_blocks rq) |>) end.
  split; [exact Hmm | done |]. rewrite hash_chain_hashes. done.
Qed.

(** Hashing is incremental: a text request built with a hasher and extended by any lists of
    tokens never raises, and at every point its block hashes are those of all its full blocks
    computed from scratch. *)
Theorem block_hashes_incremental now a r (appended : list (list Z)) :
  new_request (Some hasher) now a = Ok r -> mm_features r = [] ->
  exists r', for_each (append_output_token_ids (Some hasher)) appended r = Ok r' /\
    all_token_ids r' = all_token_ids r ++ concat appended /\
    block_hashes r' = hash_chain r' (num_full_blocks r').
Proof.
  intros Hr Hmm. pose proof (new_request_chain_ok now a r Hr Hmm) as Hok. clear Hr Hmm.
  revert r Hok. induction appended as [|ids l IH]; intros r Hok; cbn [for_each concat].
  { exists r. rewrite app_nil_r. split; [done|]. split; [done | apply Hok]. }
  destruct (append_chain_ok ids r Hok) as (r1 & Hr1 & Hok1 & Ht1). rewrite Hr1. bind_ok.
  destruct (IH r1 Hok1) as (r2 & Hr2 & Ht2 & Hh2). exists r2. split; [done|].
  split; [by rewrite Ht2, Ht1, app_assoc | done].
Qed.

(** *** Soundness of a shared hash *)

Definition chain_node (r : Request) (i : nat) : BlockHash :=
  hash_block_tokens hash_function NONE_HASH (last (hash_chain r i)) (block_tokens r i) (block_keys r i).

Lemma hash_chain_lookup r n i h :
  hash_chain r n !! i = Some h -> (i < n)%nat /\ h = chain_node r i.
Proof.
  induction n as [|n IH]; cbn [hash_chain]; [done|].
  rewrite lookup_app_Some, length_hash_chain. intros [Hl|[Hi Hl]].
  - destruct (IH Hl). split; [lia | done].
  - apply list_lookup_singleton_Some in Hl as [? <-]. assert (i = n) as -> by lia. split; [lia | done].
Qed.

Lemma hash_chain_at r n i : (i < n)%nat -> hash_chain r n !! i = Some (chain_node r i).
Proof.
  intros Hi. destruct (lookup_lt_is_Some_2 (hash_chain r n) i) as [h Hh]; [by rewrite length_hash_chain|].
  rewrite Hh. by apply hash_chain_lookup in Hh as [_ ->].
Qed.

(** The first [i] blocks of tokens, one after the other. *)
Lemma block_tokens_prefix r i :
  (i <= num_full_blocks r)%nat ->
  take (Z.to_nat (Z.of_nat i * block_size)) (all_token_ids r) = concat (block_tokens r <$> seq 0 i).
Proof.
  pose proof (num_full_blocks_tokens r) as Hn. induction i as [|i IH]; intros Hi; [by rewrite Z.mul_0_l|].
  rewrite seq_S, fmap_app, concat_app, <- IH by lia. cbn [fmap list_fmap concat].
  rewrite app_nil_r. unfold block_tokens. rewrite slice_in by (unfold num_tokens in Hn; nia).
  rewrite <- (take_drop (Z.to_nat (Z.of_nat i * block_size))
    (take (Z.to_nat (Z.of_nat (S i) * block_size)) (all_token_ids r))) at 1.
  f_equal. rewrite take_take. f_equal. nia.
Qed.

Hypothesis Hinj : Inj eq eq hash_function.
Hypothesis Hseed : forall x, hash_function x <> NONE_HASH.
Hypothesis Hnonempty : forall x, hash_function x <> EmptyString.

Lemma chain_node_parent r i : chain_node r i = hash_function
  (match i with O => NONE_HASH | S i' => chain_node r i' end, block_tokens r i, block_keys r i).
Proof.
  unfold chain_node at 1, hash_block_tokens. destruct i as [|i]; [done|].
  cbn [hash_chain]. rewrite last_snoc. change (hash_block_tokens _ _ _ _ _) with (chain_node r i).
  destruct (String.eqb_spec (chain_node r i) ""); [|done].
  exfalso. unfold chain_node, hash_block_tokens in e. by apply Hnonempty in e.
Qed.

Lemma chain_node_inj r1 r2 i j :
  chain_node r1 i = chain_node r2 j ->
  i = j /\ forall k, (k <= i)%nat ->
    block_tokens r1 k = block_tokens r2 k /\ block_keys r1 k = block_keys r2 k.
Proof.
  revert j. induction i as [|i IH]; intros [|j];
    rewrite (chain_node_parent r1), (chain_node_parent r2); intros Heq;
    apply (inj hash_function), pair_eq in Heq as [[Hp Ht]%pair_eq Hk].
  - split; [done|]. intros k Hk'. by assert (k = 0%nat) as -> by lia.
  - symmetry in Hp. rewrite chain_node_parent in Hp. by apply Hseed in Hp.
  - rewrite chain_node_parent in Hp. by apply Hseed in Hp.
  - destruct (IH j Hp) as [-> Hall]. split; [done|]. intros k Hk'.
    destruct (decide (k = S j)) as [->|]; [done|]. apply Hall. lia.
Qed.

Lemma chain_node_same r1 r2 i :
  (forall k, (k <= i)%nat -> block_tokens r1 k = block_tokens r2 k /\ block_keys r1 k = block_keys r2 k) ->
  chain_node r1 i = chain_node r2 i.
Proof.
  induction i as [|i IH]; intros Hall; rewrite (chain_node_parent r1), (chain_node_parent r2);
    destruct (Hall _ (Nat.le_refl _)) as [-> ->]; [done|]. rewrite IH; [done|]. intros k Hk. apply Hall. lia.
Qed.

(** A text request as the hasher makes it: built with the hasher, and extended by any lists of generated tokens. *)
Definition hashed_request (r : Request) : Prop :=
  exists now a r0 appended, new_request (Some hasher) now a = Ok r0 /\ mm_features r0 = [] /\
    for_each (append_output_token_ids (Some hasher)) appended r0 = Ok r.

Lemma hashed_request_ok r : hashed_request r -> chain_ok r.
Proof.
  intros (now & a & r0 & appended & Hr & Hmm & Happ). pose proof (new_request_chain_ok now a r0 Hr Hmm) as Hok. clear Hr Hmm.
  revert r0 Hok Happ. induction appended as [|ids l IH]; intros r0 Hok Happ; [by injection Happ as <-|].
  cbn [for_each] in Happ. destruct (append_chain_ok ids r0 Hok) as (r1 & Hr1 & Hok1 & _). rewrite Hr1 in Happ.
  by apply (IH r1).
Qed.

(** The requests agree on the tokens of the blocks up to block [i], and on what the code mixes into their hashes. *)
Definition same_prefix (r1 r2 : Request) (i : nat) : Prop :=
  take (Z.to_nat (Z.of_nat (S i) * block_size)) (all_token_ids r1)
  = take (Z.to_nat (Z.of_nat (S i) * block_size)) (all_token_ids r2) /\
  forall k idx, (k <= i)%nat ->
    generate_block_hash_extra_keys r1 (Z.of_nat k * block_size) (Z.of_nat k * block_size + block_size) idx
    = generate_block_hash_extra_keys r2 (Z.of_nat k * block_size) (Z.of_nat k * block_size + block_size) idx.

Lemma same_prefix_blocks r1 r2 i :
  chain_ok r1 -> chain_ok r2 -> (i < num_full_blocks r1)%nat -> (i < num_full_blocks r2)%nat ->
  same_prefix r1 r2 i <->
  forall k, (k <= i)%nat -> block_tokens r1 k = block_tokens r2 k /\ block_keys r1 k = block_keys r2 k.
Proof.
  intros [Hm1 _ _] [Hm2 _ _] Hi1 Hi2. pose proof (num_full_blocks_tokens r1). pose proof (num_full_blocks_tokens r2).
  unfold num_tokens, py_len in *. split.
  - intros [Ht Hk] k Hle. split.
    + unfold block_tokens. rewrite !slice_in by (unfold py_len; nia).
      apply (f_equal (take (Z.to_nat (Z.of_nat (S k) * block_size)))) in Ht. rewrite !take_take, !Nat.min_l in Ht by nia. by rewrite Ht.
    + specialize (Hk k 0 Hle). rewrite !extra_keys_text in Hk by done. by injection Hk.
  - intros Hall. split.
    + rewrite !block_tokens_prefix by lia. f_equal. apply list_fmap_ext. intros k x Hk.
      apply lookup_seq in Hk as [-> Hk]. apply Hall. lia.
    + intros k idx Hle. rewrite !extra_keys_text by done. by destruct (Hall k Hle) as [_ ->].
Qed.

(** C40: Sharing by hash is sound and complete for text requests, if the hash function has no collisions and
    never yields the seed or the empty string. A request built and extended with the hasher has a hash for each full
    block. A hash that two requests share is at the same position in both, and up to and including that block
    they agree on every token and on the extra keys of every block; and where they agree so far the hashes are the same. *)
Theorem prefix_hash_sound r1 r2 :
  hashed_request r1 -> hashed_request r2 ->
  py_len (block_hashes r1) = num_tokens r1 / block_size /\
  (forall i j h, block_hashes r1 !! i = Some h -> block_hashes r2 !! j = Some h -> i = j /\ same_prefix r1 r2 i) /\
  forall i h, block_hashes r1 !! i = Some h -> Z.of_nat (S i) * block_size <= num_tokens r2 -> same_prefix r1 r2 i ->
    block_hashes r2 !! i = Some h.
Proof.
  intros Hr1%hashed_request_ok Hr2%hashed_request_ok. pose proof (same_prefix_blocks r1 r2) as Hsame.
  pose proof Hr1 as [_ _ H1]. pose proof Hr2 as [_ _ H2]. split; [|split].
  - unfold py_len. rewrite H1, length_hash_chain. unfold num_full_blocks. rewrite Z2Nat.id; [done|].
    apply Z.div_pos; [unfold num_tokens, py_len; lia | done].
  - rewrite H1, H2. intros i j h [Hi ->]%hash_chain_lookup [Hj Hh]%hash_chain_lookup.
    destruct (chain_node_inj r1 r2 i j Hh) as [<- Hall]. split; [done|]. by apply Hsame.
  - rewrite H1, H2. intros i h [Hi ->]%hash_chain_lookup Hlen Hpre.
    assert (Hi2 : (i < num_full_blocks r2)%nat).
    { unfold num_full_blocks. assert (Z.of_nat (S i) <= num_tokens r2 / block_size) by (apply Z.div_le_lower_bound; lia). lia. }
    rewrite (chain_node_same r1 r2 i) by (by apply Hsame). by apply hash_chain_at.
Qed.

End Chain.

(** ** Concrete runs *)

#[export] Instance extra_key_eq_dec : EqDecision ExtraKey.
Proof. solve_decision. Defined.
#[export] Instance extra_key_countable : Countable ExtraKey.
Proof.
  apply (inj_countable' (fun k => match k with KeyStr s => inl s | KeyBytes b => inr b end)
    (fun x => match x with inl s => KeyStr s | inr b => KeyBytes b end)). by intros [].
Defined.

(** A hash function without collisions. *)
Definition sample_hash (x : HashInput) : BlockHash := String "h" (pretty (Npos (encode x))).

#[export] Instance sample_hash_inj : Inj eq eq sample_hash.
Proof.
  unfold sample_hash. intros x y [= Hxy]. apply (inj pretty) in Hxy. injection Hxy as Hxy.
  by apply (inj encode) in Hxy.
Qed.

Definition prompt_args (tokens : list Z) : RequestArgs := sample_args <| ra_prompt_token_ids := Some tokens |>.
Definition text_request hasher (tokens : list Z) : result Request := new_request hasher fzero (prompt_args tokens).

Lemma block_key_roundtrip_check :
  make_block_hash_with_group_id "ab" 258
  = Ok ("ab" +:+ String (byte_char 0) (String (byte_char 0) (String (byte_char 1) (String (byte_char 2) "")))).
Proof. reflexivity. Qed.

Lemma block_hashes_incremental_witness :
  let hasher := request_block_hasher sample_hash "seed" 4 in
  exists r r', new_request (Some hasher) fzero sample_args = Ok r /\
    for_each (append_output_token_ids (Some hasher)) [[5]; [6; 7]] r = Ok r' /\
    length (block_hashes r') = 1%nat.
Proof.
  intros hasher. eexists. 
  destruct (block_hashes_incremental sample_hash "seed" 4 eq_refl fzero sample_args _ [[5]; [6; 7]]
    eq_refl eq_refl) as (r' & Hr & Ht & Hh).
  exists r'. split; [reflexivity|]. split; [exact Hr|]. rewrite Hh, length_hash_chain.
  unfold num_full_blocks, num_tokens. rewrite Ht. reflexivity.
Defined.

Lemma prefix_hash_sound_witness :
  let hasher := Some (request_block_hasher sample_hash "seed" 2) in
  exists r1 r2 h, text_request hasher [1; 2; 3; 4; 5] = Ok r1 /\
    (r ← text_request hasher [1; 2]; append_output_token_ids hasher [3; 4; 6] r) = Ok r2 /\
    block_hashes r1 !! 1%nat = Some h /\ block_hashes r2 !! 1%nat = Some h /\ same_prefix 2 r1 r2 1.
Proof.
  intros hasher. destruct (text_request hasher [1; 2; 3; 4; 5]) as [r1|] eqn:E1; [|discriminate E1].
  destruct (text_request hasher [1; 2]) as [r0|] eqn:E0; [|discriminate E0].
  destruct (append_output_token_ids hasher [3; 4; 6] r0) as [r2|] eqn:E2;
    [|injection E0 as <-; discriminate E2].
  destruct (prefix_hash_sound sample_hash "seed" 2 eq_refl sample_hash_inj ltac:(discriminate) ltac:(discriminate) r1 r2) as (_ & Hs & _).
  - exists fzero, (prompt_args [1; 2; 3; 4; 5]), r1, []. split; [exact E1|]. split; [by injection E1 as <- | done].
  - exists fzero, (prompt_args [1; 2]), r0, [[3; 4; 6]]. split; [exact E0|]. split; [by injection E0 as <-|].
    cbn [for_each]. change (append_output_token_ids (Some _) [3; 4; 6] r0) with (append_output_token_ids hasher [3; 4; 6] r0). by rewrite E2.
  - assert (Hh : exists h, block_hashes r1 !! 1%nat = Some h /\ block_hashes r2 !! 1%nat = Some h).
    { injection E1 as <-. injection E0 as <-. injection E2 as <-. eexists. split; reflexivity. }
    destruct Hh as (h & Hh1 & Hh2). exists r1, r2, h. split; [reflexivity|]. split; [exact E2|]. split; [exact Hh1|].
    split; [exact Hh2|]. exact (proj2 (Hs 1%nat 1%nat h Hh1 Hh2)).
Defined.

(** *** Images in the block that generation completes *)

(** A prompt of seven tokens with an image at token 4 and one at token 6; blocks of four. *)
Definition image_args (first : string) (tokens : list Z) : RequestArgs :=
  sample_args <| ra_prompt_token_ids := Some tokens |>
    <| ra_mm_features := Some [ {| identifier := first; mm_offset := 4; mm_length := 1 |};
                                {| identifier := "tail"; mm_offset := 6; mm_length := 1 |} ] |>.

(** Incremental hashing of multimodal requests is not sound: when generation completes a block
    that holds two images of the prompt, only the last image enters its hash, so two
    requests that differ in the other image get the same hashes, although hashing the
    same tokens as one prompt tells them apart for any hash function without collisions. *)
Theorem mm_tail_collision (hash_function : HashInput -> BlockHash) (NONE_HASH : BlockHash) :
  Inj eq eq hash_function ->
  let hasher := Some (request_block_hasher hash_function NONE_HASH 4) in
  let generated first := r ← new_request hasher fzero (image_args first [1; 2; 3; 4; 5; 6; 7]);
                         append_output_token_ids hasher [8] r in
  let prompted first := new_request hasher fzero (image_args first [1; 2; 3; 4; 5; 6; 7; 8]) in
  exists ra rb pa pb, generated "a"%string = Ok ra /\ generated "b"%string = Ok rb /\
    prompted "a"%string = Ok pa /\ prompted "b"%string = Ok pb /\
    all_token_ids ra = all_token_ids pa /\ mm_features ra <> mm_features rb /\
    block_hashes ra = block_hashes rb /\ block_hashes pa <> block_hashes pb.
Proof.
  intros Hinj hasher generated prompted. eexists _, _, _, _.
  do 4 (split; [cbn; reflexivity|]). split; [reflexivity|]. split; [discriminate|].
  split; [reflexivity|]. cbn. intros [= Heq]. apply (inj hash_function) in Heq. congruence.
Qed.

Lemma mm_tail_collision_witness :
  exists ra rb, all_token_ids ra = [1; 2; 3; 4; 5; 6; 7; 8] /\ block_hashes ra = block_hashes rb /\
    mm_features ra <> mm_features rb.
Proof.
  destruct (mm_tail_collision sample_hash "seed" sample_hash_inj)
    as (ra & rb & pa & pb & Ha & Hb & Hpa & _ & Ht & Hm & Hh & _).
  exists ra, rb. split; [|split; [exact Hh | exact Hm]].
  rewrite Ht. injection Hpa as <-. reflexivity.
Defined.
