(* ===== verification/BlockPool.v ===== *)
(** * The pool of KV-cache blocks

    vllm/v1/core/block_pool.py: the map from block hashes to cached blocks and
    the pool that allocates, shares, frees and evicts blocks.  Blocks are objects
    of [FreeQueue]'s store; a real block is named by its block id, which is also
    its address.  VLLM_KV_EVENTS_USE_INT_BLOCK_HASHES is the parameter
    [use_int_hashes]. *)

From S2P Require Import Prelude PyDict PyList FreeQueue PyStr PyFloat Request KVHash.
#[local] Open Scope Z_scope.

(** ** [BlockHashToBlockMap] *)

Inductive KVCacheBlocksEntry :=
| OneBlock (b : Z)
| ManyBlocks (d : dict Z Z).

Abbreviation BlockHashToBlockMap := (gmap string KVCacheBlocksEntry).

Definition get_one_block (key : string) (m : BlockHashToBlockMap) : result (option Z) :=
  match m !! key with
  | None => Ok None
  | Some (OneBlock b) => Ok (Some b)
  | Some (ManyBlocks d) => b ← or_raise StopIteration (head (dvalues d)); Ok (Some b)
  end.

Definition insert_block (key : string) (b : Z) (m : BlockHashToBlockMap) : BlockHashToBlockMap :=
  match m !! key with
  | None => <[key := OneBlock b]> m
  | Some (OneBlock b0) => <[key := ManyBlocks (dset b b (dset b0 b0 []))]> m
  | Some (ManyBlocks d) => <[key := ManyBlocks (dset b b d)]> m
  end.

Definition pop_block (key : string) (block_id : Z) (m : BlockHashToBlockMap)
    : option Z * BlockHashToBlockMap :=
  match m !! key with
  | None => (None, m)
  | Some (OneBlock b) => if b =? block_id then (Some b, delete key m) else (None, m)
  | Some (ManyBlocks d) =>
      let d' := ddel block_id d in
      (dget block_id d, match d' with [] => delete key m | _ => <[key := ManyBlocks d']> m end)
  end.

(** ** Events *)

Inductive KVCacheEvent :=
| BlockStored (block_hashes : list ExternalBlockHash) (parent_block_hash : option ExternalBlockHash)
    (token_ids : list Z) (block_size : Z) (lora_id : option Z)
| BlockRemoved (block_hashes : list ExternalBlockHash)
| AllBlocksCleared.

(** ** The pool *)

Record BlockPool := mkBlockPool {
  num_gpu_blocks : Z;
  enable_caching : bool;
  free_block_queue : FreeQueue;
  cached_block_hash_to_block : BlockHashToBlockMap;
  null_block : Z;
  enable_kv_cache_events : bool;
  kv_event_queue : list KVCacheEvent;
}.

#[export] Instance eta_BlockPool : Eta BlockPool := fun p =>
  mkBlockPool (num_gpu_blocks p) (enable_caching p) (free_block_queue p)
    (cached_block_hash_to_block p) (null_block p) (enable_kv_cache_events p) (kv_event_queue p).

(** The block object of a pool. *)
Definition block (p : BlockPool) (b : Z) : KVCacheBlock := blk (free_block_queue p) b.
Definition set_block (b : Z) (f : KVCacheBlock -> KVCacheBlock) (p : BlockPool) : BlockPool :=
  p <| free_block_queue := update_blk b f (free_block_queue p) |>.

Definition new_pool (num_gpu_blocks : Z) (enable_caching enable_kv_cache_events : bool)
    : result BlockPool :=
  _ ← py_assert (0 <? num_gpu_blocks);
  '(null, q) ← popleft (new_queue num_gpu_blocks);
  let q := update_blk null (fun b => b <| is_null := true |>) q in
  Ok {| num_gpu_blocks := num_gpu_blocks; enable_caching := enable_caching; free_block_queue := q;
        cached_block_hash_to_block := ∅; null_block := null;
        enable_kv_cache_events := enable_kv_cache_events; kv_event_queue := [] |}.

Definition get_num_free_blocks (p : BlockPool) : Z := num_free_blocks (free_block_queue p).

(** [get_cached_block]: one cached block per group, or nothing. *)
Fixpoint get_cached_block (block_hash : BlockHash) (kv_cache_group_ids : list Z) (p : BlockPool)
    : result (option (list Z)) :=
  match kv_cache_group_ids with
  | [] => Ok (Some [])
  | g :: gs =>
      key ← make_block_hash_with_group_id block_hash g;
      ob ← get_one_block key (cached_block_hash_to_block p);
      match ob with
      | None => Ok None
      | Some b => rest ← get_cached_block block_hash gs p; Ok (option_map (cons b) rest)
      end
  end.

Section Pool.
Context (use_int_hashes : bool).
Abbreviation convert := (maybe_convert_block_hash use_int_hashes).

(** One iteration of [cache_full_blocks]. *)
Definition cache_one (kv_cache_group_id : Z) (x : Z * option BlockHash) (p : BlockPool)
    : result BlockPool :=
  let '(b, oh) := x in
  _ ← py_assert (bool_decide (block_hash (block p b) = None));
  bh ← or_raise IndexError oh;
  key ← make_block_hash_with_group_id bh kv_cache_group_id;
  let p := set_block b (fun o => o <| block_hash := Some key |>) p in
  Ok (p <| cached_block_hash_to_block := insert_block key b (cached_block_hash_to_block p) |>).

(** The event of [cache_full_blocks]. *)
Definition stored_event (request : Request) (blocks : list Z) (num_cached_blocks num_full_blocks block_size : Z)
    (p : BlockPool) : result BlockPool :=
  if enable_kv_cache_events p then
    parent ← (if num_cached_blocks =? 0 then Ok None
              else
                parent_block ← py_index blocks (num_cached_blocks - 1);
                h ← or_raise AssertionError (block_hash (block p parent_block));
                Ok (Some (convert (get_block_hash h))));
    let new_hashes := convert <$> take (length (slice num_cached_blocks num_full_blocks blocks))
                        (slice_from num_cached_blocks (Request.block_hashes request)) in
    Ok (p <| kv_event_queue := kv_event_queue p ++
           [BlockStored new_hashes parent
              (slice (num_cached_blocks * block_size) (num_full_blocks * block_size) (all_token_ids request))
              block_size (lora_int_id <$> lora_request request)] |>)
  else Ok p.

Definition cache_full_blocks (request : Request) (blocks : list Z)
    (num_cached_blocks num_full_blocks block_size kv_cache_group_id : Z) (p : BlockPool)
    : result BlockPool :=
  if num_full_blocks <=? num_cached_blocks then Ok p
  else
    let new_full_blocks := slice num_cached_blocks num_full_blocks blocks in
    _ ← py_assert (num_full_blocks <=? py_len (Request.block_hashes request));
    let new_block_hashes := slice_from num_cached_blocks (Request.block_hashes request) in
    p ← for_each (cache_one kv_cache_group_id)
          (imap (fun i b => (b, new_block_hashes !! i)) new_full_blocks) p;
    stored_event request blocks num_cached_blocks num_full_blocks block_size p.

(** [_maybe_evict_cached_block]. *)
Definition maybe_evict_cached_block (b : Z) (p : BlockPool) : bool * BlockPool :=
  match block_hash (block p b) with
  | None => (false, p)
  | Some h =>
      match pop_block h b (cached_block_hash_to_block p) with
      | (None, m) => (false, p <| cached_block_hash_to_block := m |>)
      | (Some _, m) =>
          let p := set_block b (fun o => o <| block_hash := None |>)
                     (p <| cached_block_hash_to_block := m |>) in
          (true, if enable_kv_cache_events p
                 then p <| kv_event_queue := kv_event_queue p ++ [BlockRemoved [convert (get_block_hash h)]] |>
                 else p)
      end
  end.

(** One iteration of [get_new_blocks]. *)
Definition take_one (b : Z) (p : BlockPool) : result BlockPool :=
  let p := if enable_caching p then snd (maybe_evict_cached_block b p) else p in
  _ ← py_assert (ref_cnt (block p b) =? 0);
  Ok (set_block b (fun o => o <| ref_cnt := ref_cnt o + 1 |>) p).

Definition get_new_blocks (num_blocks : Z) (p : BlockPool) : result (list Z * BlockPool) :=
  if get_num_free_blocks p <? num_blocks then Raise ValueError
  else
    '(ret, q) ← popleft_n num_blocks (free_block_queue p);
    p ← for_each take_one ret (p <| free_block_queue := q |>);
    Ok (ret, p).

Definition touch_one (b : Z) (p : BlockPool) : result BlockPool :=
  q ← (if (ref_cnt (block p b) =? 0) && negb (is_null (block p b))
       then remove b (free_block_queue p) else Ok (free_block_queue p));
  Ok (set_block b (fun o => o <| ref_cnt := ref_cnt o + 1 |>) (p <| free_block_queue := q |>)).

Definition touch (blocks : list (list Z)) (p : BlockPool) : result BlockPool :=
  for_each (for_each touch_one) blocks p.

Definition release_one (b : Z) (p : BlockPool) : BlockPool :=
  set_block b (fun o => o <| ref_cnt := ref_cnt o - 1 |>) p.

Definition free_blocks (ordered_blocks : list Z) (p : BlockPool) : result BlockPool :=
  let p := fold_left (fun p b => release_one b p) ordered_blocks p in
  q ← append_n (List.filter (fun b => (ref_cnt (block p b) =? 0) && negb (is_null (block p b)))
                  ordered_blocks) (free_block_queue p);
  Ok (p <| free_block_queue := q |>).

(** All blocks of the pool. *)
Definition all_blocks (p : BlockPool) : list Z := py_range 0 (num_gpu_blocks p).

Definition reset_prefix_cache (p : BlockPool) : bool * BlockPool :=
  let num_used_blocks := num_gpu_blocks p - get_num_free_blocks p in
  if negb (num_used_blocks =? 1) then (false, p)
  else
    let p := p <| cached_block_hash_to_block := ∅ |> in
    let p := fold_left (fun p b => set_block b (fun o => o <| block_hash := None |>) p) (all_blocks p) p in
    (true, if enable_kv_cache_events p
           then p <| kv_event_queue := kv_event_queue p ++ [AllBlocksCleared] |> else p).

Definition get_usage (p : BlockPool) : float :=
  let total_gpu_blocks := num_gpu_blocks p - 1 in
  if total_gpu_blocks =? 0 then fzero
  else fsub (float_of_Z 1) (fdiv (float_of_Z (get_num_free_blocks p)) (float_of_Z total_gpu_blocks)).

Definition take_events (p : BlockPool) : list KVCacheEvent * BlockPool :=
  if negb (enable_kv_cache_events p) then ([], p)
  else (kv_event_queue p, p <| kv_event_queue := [] |>).

End Pool.

(** ** The map from hashes to blocks *)

(** The blocks cached under a key, first to be returned first. *)
Definition cached (m : BlockHashToBlockMap) (key : string) : list Z :=
  match m !! key with
  | None => []
  | Some (OneBlock b) => [b]
  | Some (ManyBlocks d) => dvalues d
  end.

(** Inner dictionaries are non-empty and map every block id to itself. *)
Definition entry_ok (c : KVCacheBlocksEntry) : Prop :=
  match c with
  | OneBlock _ => True
  | ManyBlocks d => d <> [] /\ dict_ok d /\ forall k v, (k, v) ∈ d -> k = v
  end.
Definition map_ok (m : BlockHashToBlockMap) : Prop := map_Forall (fun _ => entry_ok) m.

Lemma map_ok_empty : map_ok ∅.
Proof. apply map_Forall_empty. Qed.

Lemma entry_values d x :
  entry_ok (ManyBlocks d) -> x ∈ dvalues d <-> dget x d = Some x.
Proof.
  intros (_ & Hok & Hid). unfold dvalues. rewrite list_elem_of_fmap. split.
  - intros ([k v] & -> & Hin). cbn. pose proof (Hid k v Hin). subst. by apply elem_of_dget.
  - intros Hx. exists (x, x). split; [done | by apply dget_elem_of].
Qed.

Lemma get_one_block_spec key m :
  map_ok m -> get_one_block key m = Ok (head (cached m key)).
Proof.
  intros Hm. unfold get_one_block, cached. destruct (m !! key) as [[b|d]|] eqn:E; try done.
  destruct (Hm key _ E) as (Hd & _). by destruct d as [|[k v] d].
Qed.

Lemma entry_ok_dset b d :
  dict_ok d -> (forall k v, (k, v) ∈ d -> k = v) -> entry_ok (ManyBlocks (dset b b d)).
Proof.
  intros Hok Hid. split; [|split; [by apply dict_ok_dset|]].
  - destruct d as [|[k v] d]; cbn; [done|]. by case_decide.
  - intros k v Hkv. apply elem_of_dget in Hkv; [|by apply dict_ok_dset].
    rewrite dget_dset in Hkv. case_decide; [congruence|]. by apply Hid, dget_elem_of.
Qed.

Lemma insert_block_spec key b m :
  map_ok m -> map_ok (insert_block key b m) /\
  forall k x, x ∈ cached (insert_block key b m) k <-> x ∈ cached m k \/ k = key /\ x = b.
Proof.
  intros Hm. unfold insert_block.
  assert (Hins : forall c, entry_ok c -> map_ok (<[key := c]> m)) by (intros; by apply map_Forall_insert_2).
  assert (Hoth : forall c k x, k <> key -> x ∈ cached (<[key := c]> m) k <-> x ∈ cached m k \/ k = key /\ x = b).
  { intros c k x Hk. unfold cached. rewrite lookup_insert_ne by done. tauto. }
  assert (Hnew : forall c, cached (<[key := c]> m) key
    = match c with OneBlock b => [b] | ManyBlocks d => dvalues d end)
    by (intros c; unfold cached; by rewrite lookup_insert_eq).
  assert (Hsame : forall d x, entry_ok (ManyBlocks (dset b b d)) -> dict_ok d ->
    x ∈ dvalues (dset b b d) <-> dget x d = Some x \/ x = b).
  { intros d x He Hd. rewrite entry_values by done. rewrite dget_dset. case_decide; [naive_solver|].
    split; [by left | by intros [?|?]]. }
  destruct (m !! key) as [[b0|d]|] eqn:E.
  - assert (He : entry_ok (ManyBlocks (dset b b (dset b0 b0 [])))).
    { apply entry_ok_dset; [apply dict_ok_dset, dict_ok_nil|]. cbn.
      by intros k v [[= -> ->]|?%elem_of_nil]%elem_of_cons. }
    split; [by apply Hins|]. intros k x. destruct (decide (k = key)) as [->|Hk]; [|by apply Hoth].
    assert (Hc : cached m key = [b0]) by (unfold cached; by rewrite E).
    rewrite Hnew, Hc, Hsame, list_elem_of_singleton by (done || apply dict_ok_dset, dict_ok_nil).
    cbn. case_decide; naive_solver.
  - destruct (Hm key _ E) as (Hd & Hok & Hid).
    assert (He : entry_ok (ManyBlocks (dset b b d))) by (by apply entry_ok_dset).
    split; [by apply Hins|]. intros k x. destruct (decide (k = key)) as [->|Hk]; [|by apply Hoth].
    assert (Hc : cached m key = dvalues d) by (unfold cached; by rewrite E).
    rewrite Hnew, Hc, Hsame, entry_values by done. tauto.
  - split; [by apply Hins|]. intros k x. destruct (decide (k = key)) as [->|Hk]; [|by apply Hoth].
    assert (Hc : cached m key = []) by (unfold cached; by rewrite E).
    rewrite Hnew, Hc, list_elem_of_singleton.
    split; [by right | intros [?%elem_of_nil|[_ ?]]; done].
Qed.

Lemma pop_block_spec key b m :
  map_ok m ->
  (pop_block key b m).1 = (if decide (b ∈ cached m key) then Some b else None) /\
  map_ok (pop_block key b m).2 /\
  forall k x, x ∈ cached (pop_block key b m).2 k <-> x ∈ cached m k /\ ~ (k = key /\ x = b).
Proof.
  intros Hm. unfold pop_block.
  assert (Hdel : forall k x, x ∈ cached (delete key m) k <-> k <> key /\ x ∈ cached m k).
  { intros k x. unfold cached. destruct (decide (k = key)) as [->|Hk].
    - rewrite lookup_delete_eq. split; [by intros ?%elem_of_nil | naive_solver].
    - rewrite lookup_delete_ne by done. tauto. }
  destruct (m !! key) as [[b0|d]|] eqn:E.
  - assert (Hc : cached m key = [b0]) by (unfold cached; by rewrite E).
    destruct (Z.eqb_spec b0 b) as [->|Hb]; cbn [fst snd].
    + rewrite Hc, decide_True by by left. split; [done|]. split; [by apply map_Forall_delete|].
      intros k x. rewrite Hdel. destruct (decide (k = key)) as [->|]; [|tauto].
      rewrite Hc, list_elem_of_singleton. tauto.
    + rewrite Hc, decide_False by (by intros ->%list_elem_of_singleton). split; [done|]. split; [done|].
      intros k x. split; [|tauto]. intros Hx. split; [done|]. intros [-> ->].
      rewrite Hc in Hx. by apply list_elem_of_singleton in Hx.
  - pose proof (Hm key _ E) as He. destruct He as (Hd & Hok & Hid).
    assert (He : entry_ok (ManyBlocks d)) by done.
    assert (Hc : cached m key = dvalues d) by (unfold cached; by rewrite E).
    assert (Hdd : forall k v, (k, v) ∈ ddel b d -> k = v).
    { intros k v Hkv. apply Hid. apply elem_of_dget in Hkv; [|by apply dict_ok_ddel].
      destruct (decide (k = b)) as [->|Hne]; [by rewrite dget_ddel_eq in Hkv|].
      rewrite dget_ddel_ne in Hkv by done. by apply dget_elem_of. }
    cbn [fst]. split.
    { rewrite Hc. case_decide as Hin; [by apply (entry_values d b He)|].
      destruct (dget b d) as [v|] eqn:Ev; [|done]. exfalso. apply Hin, entry_values; [done|].
      pose proof (Hid b v (dget_elem_of _ _ _ Ev)). congruence. }
    assert (Hmem : forall x, dget x (ddel b d) = Some x <-> x ∈ dvalues d /\ x <> b).
    { intros x. rewrite entry_values by done. destruct (decide (x = b)) as [->|Hne].
      - rewrite dget_ddel_eq by done. naive_solver.
      - rewrite dget_ddel_ne by done. tauto. }
    destruct (ddel b d) as [|p d'] eqn:Ed; cbn [snd].
    + split; [by apply map_Forall_delete|]. intros k x. rewrite Hdel.
      destruct (decide (k = key)) as [->|]; [|tauto]. rewrite Hc. pose proof (Hmem x) as Hx. cbn in Hx.
      naive_solver.
    + assert (He' : entry_ok (ManyBlocks (p :: d'))).
      { split; [done|]. rewrite <- Ed. split; [by apply dict_ok_ddel | by rewrite Ed]. }
      split; [by apply map_Forall_insert_2|]. intros k x. unfold cached at 1.
      destruct (decide (k = key)) as [->|].
      * rewrite lookup_insert_eq, entry_values, Hmem, Hc by done. naive_solver.
      * rewrite lookup_insert_ne by done. fold (cached m k). naive_solver.
  - cbn [fst snd]. assert (Hc : cached m key = []) by (unfold cached; by rewrite E).
    rewrite Hc, decide_False by apply not_elem_of_nil. split; [done|]. split; [done|].
    intros k x. split; [|tauto]. intros Hx. split; [done|]. intros [-> ->]. rewrite Hc in Hx.
    by apply elem_of_nil in Hx.
Qed.

(** ** The invariant *)

Definition refs (p : BlockPool) (b : Z) : Z := ref_cnt (block p b).
Definition hash_of (p : BlockPool) (b : Z) : option string := block_hash (block p b).

(** The blocks of the pool, without the null block. *)
Definition real (p : BlockPool) (b : Z) : Prop := 0 < b < num_gpu_blocks p.

(** [free] is the queue, in eviction order, and [pend] are blocks without
    references that an operation in progress holds outside the queue. *)
Record pool_but (p : BlockPool) (free pend : list Z) : Prop := {
  po_queue : queue_repr (free_block_queue p) free;
  po_null : null_block p = 0 /\ 0 < num_gpu_blocks p;
  po_flags : forall b, is_null (block p b) = bool_decide (b = 0);
  po_nodup : NoDup (free ++ pend);
  po_free : forall b, b ∈ free ++ pend <-> real p b /\ refs p b = 0;
  po_refs : forall b, real p b -> 0 <= refs p b;
  po_map : map_ok (cached_block_hash_to_block p);
  po_hash : forall key b, b ∈ cached (cached_block_hash_to_block p) key <->
    real p b /\ hash_of p b = Some key;
}.
Definition pool_ok (p : BlockPool) (free : list Z) : Prop := pool_but p free [].

(** The configuration of a pool. *)
Definition same_shape (p p' : BlockPool) : Prop :=
  num_gpu_blocks p' = num_gpu_blocks p /\ null_block p' = null_block p /\
  enable_caching p' = enable_caching p /\ enable_kv_cache_events p' = enable_kv_cache_events p.

Lemma same_shape_refl p : same_shape p p.
Proof. done. Qed.
Lemma same_shape_trans p1 p2 p3 : same_shape p1 p2 -> same_shape p2 p3 -> same_shape p1 p3.
Proof. unfold same_shape. intros (? & ? & ? & ?) (? & ? & ? & ?). repeat split; congruence. Qed.
#[export] Hint Resolve same_shape_refl : gambit.

Lemma real_shape p p' b : same_shape p p' -> real p' b <-> real p b.
Proof. intros (Hn & _). unfold real. by rewrite Hn. Qed.

(** Changing data of a block leaves the queue alone. *)
Lemma queue_repr_update q l b f :
  (forall o, prev_free_block (f o) = prev_free_block o /\ next_free_block (f o) = next_free_block o) ->
  queue_repr q l -> queue_repr (update_blk b f q) l.
Proof.
  intros Hf [h1 h2 h3 h4]. split; [done| | |done]; intros a.
  - rewrite <- h2. unfold nxt. rewrite blk_update. case_decide; subst; [apply Hf | done].
  - rewrite <- h3. unfold prv. rewrite blk_update. case_decide; subst; [apply Hf | done].
Qed.

Lemma block_set b f p x : block (set_block b f p) x = if decide (x = b) then f (block p b) else block p x.
Proof. apply blk_update. Qed.

(** The blocks of a pool whose queue was relinked. *)
Lemma relink_block p q b :
  same_data (free_block_queue p) q ->
  refs (p <| free_block_queue := q |>) b = refs p b /\
  hash_of (p <| free_block_queue := q |>) b = hash_of p b /\
  is_null (block (p <| free_block_queue := q |>) b) = is_null (block p b).
Proof.
  intros Hd. specialize (Hd b). unfold refs, hash_of, block. cbn.
  destruct (blk q b), (blk (free_block_queue p) b). cbn in *. unfold data in Hd. cbn in Hd.
  by injection Hd as -> -> -> ->.
Qed.

Lemma pool_relink p q free pend free' pend' :
  pool_but p free pend -> same_data (free_block_queue p) q -> queue_repr q free' ->
  free' ++ pend' ≡ₚ free ++ pend -> pool_but (p <| free_block_queue := q |>) free' pend'.
Proof.
  intros [h1 h2 h3 h4 h5 h6 h7 h8] Hd Hq Hperm.
  assert (Hb : forall b, refs (p <| free_block_queue := q |>) b = refs p b /\
    hash_of (p <| free_block_queue := q |>) b = hash_of p b /\
    is_null (block (p <| free_block_queue := q |>) b) = is_null (block p b))
    by (intros; by apply relink_block).
  split; try done.
  - intros b. destruct (Hb b) as (_ & _ & ->). apply h3.
  - by rewrite Hperm.
  - intros b. rewrite Hperm. destruct (Hb b) as (-> & _ & _). apply h5.
  - intros b. destruct (Hb b) as (-> & _ & _). apply h6.
  - intros key b. destruct (Hb b) as (_ & -> & _). apply h8.
Qed.

(** Changes of reference counts only. *)
Record data_only (p p' : BlockPool) : Prop := {
  dn_shape : same_shape p p';
  dn_queue : forall l, queue_repr (free_block_queue p) l -> queue_repr (free_block_queue p') l;
  dn_map : cached_block_hash_to_block p' = cached_block_hash_to_block p;
  dn_null : forall b, is_null (block p' b) = is_null (block p b);
  dn_hash : forall b, hash_of p' b = hash_of p b;
}.

Lemma data_only_refl p : data_only p p.
Proof. by split. Qed.
Lemma data_only_trans p1 p2 p3 : data_only p1 p2 -> data_only p2 p3 -> data_only p1 p3.
Proof.
  intros [a1 a2 a3 a4 a5] [b1 b2 b3 b4 b5]. split; try congruence; eauto using same_shape_trans.
Qed.

Lemma set_ref_data b r p : data_only p (set_block b (fun o => o <| ref_cnt := r |>) p).
Proof.
  split; try done.
  - intros l. by apply queue_repr_update.
  - intros x. rewrite block_set. by destruct (decide (x = b)); subst.
  - intros x. unfold hash_of. rewrite block_set. by destruct (decide (x = b)); subst.
Qed.

Lemma refs_set_ref b r p x :
  refs (set_block b (fun o => o <| ref_cnt := r |>) p) x = if decide (x = b) then r else refs p x.
Proof. unfold refs. rewrite block_set. by destruct (decide (x = b)). Qed.

Lemma pool_set_refs p p' free pend pend' :
  pool_but p free pend -> data_only p p' -> NoDup (free ++ pend') ->
  (forall b, b ∈ free ++ pend' <-> real p b /\ refs p' b = 0) ->
  (forall b, real p b -> 0 <= refs p' b) -> pool_but p' free pend'.
Proof.
  intros [h1 h2 h3 h4 h5 h6 h7 h8] [d1 d2 d3 d4 d5] Hnd Hfree Hge.
  pose proof (real_shape p p') as Hreal. destruct (d1) as (e1 & e2 & _).
  split; [by apply d2 | by rewrite e1, e2 | | done | | | by rewrite d3 |].
  - intros b. by rewrite d4.
  - intros b. by rewrite Hreal.
  - intros b. rewrite Hreal by done. apply Hge.
  - intros key b. by rewrite d3, Hreal, d5.
Qed.

(** A block outside the queue gets one more reference. *)
Lemma pool_inc p free pend b :
  pool_but p free pend -> b ∉ free ->
  let p' := set_block b (fun o => o <| ref_cnt := ref_cnt o + 1 |>) p in
  pool_but p' free (without b pend) /\ data_only p p' /\
  forall x, refs p' x = (if decide (x = b) then 1 else 0) + refs p x.
Proof.
  intros Hp Hb p'.
  assert (Hp' : p' = set_block b (fun o => o <| ref_cnt := refs p b + 1 |>) p) by done.
  clearbody p'. subst p'. pose proof (set_ref_data b (refs p b + 1) p) as Hd.
  assert (Hr : forall x, refs (set_block b (fun o => o <| ref_cnt := refs p b + 1 |>) p) x
    = (if decide (x = b) then 1 else 0) + refs p x).
  { intros x. rewrite refs_set_ref. destruct (decide (x = b)); subst; lia. }
  split; [|done]. apply (pool_set_refs p _ free pend); [done|done| | |].
  - pose proof (po_nodup _ _ _ Hp) as Hnd. apply NoDup_app in Hnd as (n1 & n2 & n3).
    apply NoDup_app. split; [done|]. split; [|by apply bfilter_NoDup].
    intros x Hx [Hx' _]%elem_of_without. by apply (n2 x).
  - intros x. pose proof (po_free _ _ _ Hp x) as Hx. rewrite Hr, elem_of_app, elem_of_without in *.
    pose proof (po_refs _ _ _ Hp x) as Hge. destruct (decide (x = b)) as [->|Hne]; [|tauto].
    split; [tauto | intros [Hb' ?]; specialize (Hge Hb'); lia].
  - intros x Hx. rewrite Hr. pose proof (po_refs _ _ _ Hp x Hx). destruct (decide (x = b)); lia.
Qed.

Section PoolProofs.
Context (use_int_hashes : bool).
Abbreviation maybe_evict_cached_block := (maybe_evict_cached_block use_int_hashes).
Abbreviation take_one := (take_one use_int_hashes).
Abbreviation get_new_blocks := (get_new_blocks use_int_hashes).

(** Eviction takes the block's hash off the block and off the map. *)
Lemma evict_spec p free pend b :
  pool_but p free pend -> real p b ->
  pool_but (maybe_evict_cached_block b p).2 free pend /\
  same_shape p (maybe_evict_cached_block b p).2 /\
  (maybe_evict_cached_block b p).1 = bool_decide (is_Some (hash_of p b)) /\
  (forall x, refs (maybe_evict_cached_block b p).2 x = refs p x) /\
  (forall x, hash_of (maybe_evict_cached_block b p).2 x = if decide (x = b) then None else hash_of p x).
Proof.
  intros Hp Hb. pose proof Hp as [h1 h2 h3 h4 h5 h6 h7 h8]. unfold BlockPool.maybe_evict_cached_block.
  destruct (block_hash (block p b)) as [h|] eqn:Eh.
  2:{ cbn [fst snd]. split; [done|]. split; [done|]. unfold hash_of. rewrite Eh.
      split; [by rewrite bool_decide_eq_false_2 by (by intros [? ?])|]. split; [done|].
      intros x. case_decide; by subst. }
  destruct (pop_block_spec h b (cached_block_hash_to_block p) h7) as (q1 & q2 & q3).
  rewrite decide_True in q1 by (apply h8; split; [done | exact Eh]).
  destruct (pop_block h b (cached_block_hash_to_block p)) as [ob m]. cbn [fst snd] in *. subst ob.
  set (p1 := set_block b _ _).
  assert (Hblk : forall x, block p1 x = if decide (x = b) then block p b <| block_hash := None |> else block p x).
  { intros x. unfold p1. by rewrite block_set. }
  assert (Hp1 : pool_but p1 free pend).
  { split; try done.
    - unfold p1, set_block. cbn. by apply queue_repr_update.
    - intros x. rewrite Hblk. case_decide; subst; apply h3.
    - intros x. rewrite h5. unfold refs. rewrite Hblk. by case_decide; subst.
    - intros x Hx. unfold refs. rewrite Hblk. case_decide; subst; by apply h6.
    - intros key x. unfold p1 at 1. cbn. rewrite q3, h8. unfold hash_of. rewrite Hblk.
      change (real p1 x) with (real p x). case_decide as Hx; [subst x|naive_solver].
      cbn. rewrite Eh. naive_solver. }
  assert (Hout : forall x, refs p1 x = refs p x /\ hash_of p1 x = if decide (x = b) then None else hash_of p x).
  { intros x. unfold refs, hash_of. rewrite Hblk. by case_decide; subst. }
  assert (Hev : true = bool_decide (is_Some (hash_of p b))).
  { unfold hash_of. rewrite Eh. by rewrite bool_decide_eq_true_2 by (by eexists). }
  case_match; cbn [fst snd].
  - split; [by destruct Hp1|]. split; [done|]. split; [done|]. split; intros x; apply Hout.
  - split; [done|]. split; [done|]. split; [done|]. split; intros x; apply Hout.
Qed.

Lemma take_one_spec p free pend b :
  pool_but p free (b :: pend) ->
  exists p', take_one b p = Ok p' /\ pool_but p' free pend /\ same_shape p p' /\
    (forall x, refs p' x = if decide (x = b) then 1 else refs p x) /\
    (forall x, hash_of p' x = if decide (x = b /\ enable_caching p = true) then None else hash_of p x).
Proof.
  intros Hp. unfold BlockPool.take_one.
  assert (Hb : real p b /\ refs p b = 0) by (apply (po_free _ _ _ Hp), elem_of_app; right; by left).
  destruct Hb as [Hb Hr0].
  set (p1 := if enable_caching p then _ else p).
  assert (H1 : pool_but p1 free (b :: pend) /\ same_shape p p1 /\ (forall x, refs p1 x = refs p x) /\
    forall x, hash_of p1 x = if decide (x = b /\ enable_caching p = true) then None else hash_of p x).
  { unfold p1. destruct (enable_caching p).
    - destruct (evict_spec p free (b :: pend) b Hp Hb) as (e1 & e2 & _ & e4 & e5).
      split; [done|]. split; [done|]. split; [done|]. intros x. rewrite e5.
      repeat case_decide; try done; tauto.
    - split; [done|]. split; [done|]. split; [done|]. intros x. by rewrite decide_False by (by intros [_ ?]). }
  clearbody p1. destruct H1 as (Hp1 & Hs1 & Hr1 & Hh1).
  change (ref_cnt (block p1 b)) with (refs p1 b). rewrite Hr1, Hr0. cbn [Z.eqb py_assert]. bind_ok.
  eexists. split; [reflexivity|].
  pose proof (po_nodup _ _ _ Hp1) as Hnd. rewrite <- Permutation_middle in Hnd.
  apply NoDup_cons in Hnd as [Hbn Hnd]. rewrite not_elem_of_app in Hbn. destruct Hbn as [Hbf Hbp].
  destruct (pool_inc p1 free (b :: pend) b Hp1 Hbf) as (Hp' & Hd & Hr').
  replace (without b (b :: pend)) with pend in Hp'
    by (symmetry; apply (without_mid b [] pend); apply NoDup_app in Hnd as (_ & _ & ?); by apply NoDup_cons).
  split; [done|]. split; [eapply same_shape_trans; [done | apply Hd]|]. split; intros x.
  - rewrite Hr', Hr1. destruct (decide (x = b)); [subst; lia | done].
  - by rewrite (dn_hash _ _ Hd), Hh1.
Qed.

Lemma take_loop p free ks pend :
  pool_but p free (ks ++ pend) ->
  exists p', for_each take_one ks p = Ok p' /\ pool_but p' free pend /\ same_shape p p' /\
    (forall x, refs p' x = if decide (x ∈ ks) then 1 else refs p x) /\
    (forall x, hash_of p' x = if decide (x ∈ ks /\ enable_caching p = true) then None else hash_of p x).
Proof.
  revert p. induction ks as [|k ks IH]; intros p Hp; cbn [for_each app] in *.
  { exists p. split; [done|]. split; [done|]. split; [done|].
    split; intros x; [by rewrite decide_False by apply not_elem_of_nil|].
    rewrite decide_False; [done|]. intros [Hx _]. by apply elem_of_nil in Hx. }
  destruct (take_one_spec p free (ks ++ pend) k Hp) as (p1 & Hr1 & Hp1 & Hs1 & Hf1 & Hh1).
  rewrite Hr1. bind_ok. destruct (IH p1 Hp1) as (p2 & Hr2 & Hp2 & Hs2 & Hf2 & Hh2).
  exists p2. split; [done|]. split; [done|]. split; [by eapply same_shape_trans|].
  assert (Hec : enable_caching p1 = enable_caching p) by apply Hs1.
  split; intros x.
  - rewrite Hf2, Hf1.
    destruct (decide (x ∈ ks)), (decide (x = k)), (decide (x ∈ k :: ks)); try done;
      rewrite elem_of_cons in *; tauto.
  - rewrite Hh2, Hh1, Hec.
    destruct (decide (x ∈ ks /\ enable_caching p = true)), (decide (x = k /\ enable_caching p = true)),
      (decide (x ∈ k :: ks /\ enable_caching p = true)); try done; rewrite elem_of_cons in *; tauto.
Qed.

Lemma get_new_blocks_inv p free n :
  pool_ok p free -> 0 <= n <= py_len free ->
  exists p', get_new_blocks n p = Ok (take (Z.to_nat n) free, p') /\
    pool_ok p' (drop (Z.to_nat n) free) /\ same_shape p p' /\
    (forall x, refs p' x = if decide (x ∈ take (Z.to_nat n) free) then 1 else refs p x) /\
    (forall x, hash_of p' x = if decide (x ∈ take (Z.to_nat n) free /\ enable_caching p = true)
                              then None else hash_of p x).
Proof.
  intros Hp Hn. unfold BlockPool.get_new_blocks, get_num_free_blocks.
  rewrite (qr_num _ _ (po_queue _ _ _ Hp)). destruct (Z.ltb_spec (py_len free) n); [lia|].
  destruct (popleft_n_repr _ _ n (po_queue _ _ _ Hp) Hn) as (q & Hq & Hqr & Hd). rewrite Hq. bind_ok.
  set (ks := take (Z.to_nat n) free) in *. set (rest := drop (Z.to_nat n) free) in *.
  assert (Hp1 : pool_but (p <| free_block_queue := q |>) rest (ks ++ [])).
  { apply (pool_relink p q free []); try done. rewrite !app_nil_r, <- (take_drop (Z.to_nat n) free).
    apply Permutation_app_comm. }
  destruct (take_loop _ rest ks [] Hp1) as (p' & Hr & Hp' & Hs & Hf & Hh). rewrite Hr.
  exists p'. split; [done|]. split; [done|]. split; [done|].
  split; intros x; destruct (relink_block p q x Hd) as (Hrx & Hhx & _).
  - by rewrite Hf, Hrx.
  - by rewrite Hh, Hhx.
Qed.

End PoolProofs.

(** *** Sharing *)

(** How often a block occurs in a list. *)
Definition occ (b : Z) (l : list Z) : Z := Z.of_nat (count_occ Z.eq_dec l b).

Lemma occ_cons b x l : occ b (x :: l) = (if decide (b = x) then 1 else 0) + occ b l.
Proof. unfold occ. cbn. destruct (Z.eq_dec x b), (decide (b = x)); subst; try done; lia. Qed.
Lemma occ_app b l1 l2 : occ b (l1 ++ l2) = occ b l1 + occ b l2.
Proof. unfold occ. rewrite count_occ_app. lia. Qed.
Lemma occ_nonneg b l : 0 <= occ b l.
Proof. unfold occ. lia. Qed.
Lemma occ_pos b l : b ∈ l <-> 0 < occ b l.
Proof. unfold occ. rewrite list_elem_of_In, (count_occ_In Z.eq_dec). lia. Qed.
Lemma occ_absent b l : b ∉ l -> occ b l = 0.
Proof. intros Hb. pose proof (occ_nonneg b l). pose proof (occ_pos b l). destruct (decide (0 < occ b l)); [tauto|lia]. Qed.
Lemma occ_NoDup b l : NoDup l -> occ b l <= 1.
Proof.
  intros Hl. unfold occ. apply NoDup_ListNoDup in Hl. rewrite (NoDup_count_occ Z.eq_dec) in Hl.
  specialize (Hl b). lia.
Qed.

(** A block an operation may name: a real one or the null block. *)
Definition block_of (p : BlockPool) (b : Z) : Prop := real p b \/ b = 0.

Lemma touch_one_spec p free b :
  pool_ok p free -> block_of p b ->
  exists p', touch_one b p = Ok p' /\ pool_ok p' (without b free) /\ same_shape p p' /\
    (forall x, refs p' x = (if decide (x = b) then 1 else 0) + refs p x) /\
    (forall x, hash_of p' x = hash_of p x).
Proof.
  intros Hp Hb. unfold touch_one. rewrite (po_flags _ _ _ Hp b).
  pose proof (po_nodup _ _ _ Hp) as Hnd. rewrite app_nil_r in Hnd.
  assert (Hfree : (ref_cnt (block p b) =? 0) && negb (bool_decide (b = 0)) = bool_decide (b ∈ free)).
  { pose proof (po_free _ _ _ Hp b) as Hf. rewrite app_nil_r in Hf. unfold refs, real in *.
    destruct (Z.eqb_spec (ref_cnt (block p b)) 0), (bool_decide_reflect (b = 0)); cbn; symmetry;
      (apply bool_decide_eq_true_2 || apply bool_decide_eq_false_2); unfold block_of, real in Hb;
      rewrite Hf; intuition lia. }
  rewrite Hfree. clear Hfree. case_bool_decide as Hin.
  - pose proof Hin as (l1 & l2 & Hl)%list_elem_of_split. subst free.
    rewrite without_mid by done. pose proof (po_queue _ _ _ Hp) as Hq.
    destruct (remove_repr _ l1 b l2 Hq) as (q & Hr & Hq' & Hd). rewrite Hr. bind_ok.
    set (p1 := p <| free_block_queue := q |>).
    assert (Hp1 : pool_but p1 (l1 ++ l2) [b]).
    { apply (pool_relink p q (l1 ++ b :: l2) []); try done. rewrite app_nil_r.
      rewrite <- (Permutation_middle l1 l2). by rewrite Permutation_app_comm. }
    assert (Hbn : b ∉ l1 ++ l2).
    { rewrite <- Permutation_middle in Hnd. by apply NoDup_cons in Hnd as [? _]. }
    destruct (pool_inc p1 (l1 ++ l2) [b] b Hp1 Hbn) as (Hp' & Hd' & Hr').
    replace (without b [b]) with (@nil Z) in Hp' by (symmetry; apply (without_mid b [] []), NoDup_singleton).
    eexists. split; [reflexivity|]. split; [exact Hp'|]. split; [apply Hd'|].
    split; intros x; destruct (relink_block p q x Hd) as (Hx1 & Hx2 & _).
    + by rewrite Hr', <- Hx1.
    + by rewrite (dn_hash _ _ Hd').
  - bind_ok. rewrite without_absent by done. eexists. split; [reflexivity|].
    assert (Hp1 : p <| free_block_queue := free_block_queue p |> = p) by (by destruct p). rewrite Hp1.
    destruct (pool_inc p free [] b Hp Hin) as (Hp' & Hd' & Hr').
    split; [exact Hp'|]. split; [apply Hd'|]. split; [exact Hr' | apply Hd'].
Qed.

Lemma for_each_concat {A S} (body : A -> S -> result S) ls s :
  for_each (for_each body) ls s = for_each body (concat ls) s.
Proof.
  revert s. induction ls as [|l ls IH]; intros s; cbn [for_each concat]; [done|].
  rewrite for_each_app. destruct (for_each body l s); cbn; [apply IH | done].
Qed.

(** The queue without the blocks that were touched. *)
Definition untouched (bs free : list Z) : list Z := List.filter (fun x => bool_decide (x ∉ bs)) free.

Lemma touch_loop p free bs :
  pool_ok p free -> (forall b, b ∈ bs -> block_of p b) ->
  exists p', for_each touch_one bs p = Ok p' /\ pool_ok p' (untouched bs free) /\ same_shape p p' /\
    (forall x, refs p' x = refs p x + occ x bs) /\ (forall x, hash_of p' x = hash_of p x).
Proof.
  revert p free. induction bs as [|b bs IH]; intros p free Hp Hbs; cbn [for_each].
  { exists p. split; [done|]. split.
    - unfold untouched. rewrite bfilter_all; [done|].
      intros y _. apply bool_decide_eq_true_2, not_elem_of_nil.
    - split; [done|]. split; intros x; [unfold occ; cbn; lia | done]. }
  destruct (touch_one_spec p free b Hp) as (p1 & Hr1 & Hp1 & Hs1 & Hf1 & Hh1); [apply Hbs; by left|].
  rewrite Hr1. bind_ok.
  destruct (IH p1 (without b free) Hp1) as (p2 & Hr2 & Hp2 & Hs2 & Hf2 & Hh2).
  { intros x Hx. destruct (Hbs x) as [?| ->]; [by right | left | by right].
    by apply (real_shape p p1). }
  exists p2. split; [done|]. split; [|split; [by eapply same_shape_trans|split]].
  - replace (untouched (b :: bs) free) with (untouched bs (without b free)); [done|].
    unfold untouched, without. clear. induction free as [|y free IH]; [done|]. cbn.
    destruct (Z.eqb_spec y b) as [->|Hne]; cbn.
    + rewrite bool_decide_eq_false_2 by (intros Hn; apply Hn; by left). exact IH.
    + rewrite IH. erewrite bool_decide_ext; [done|]. rewrite not_elem_of_cons. tauto.
  - intros x. rewrite Hf2, Hf1, occ_cons. lia.
  - intros x. by rewrite Hh2, Hh1.
Qed.

(** *** Freeing *)

Lemma release_loop p bs :
  data_only p (fold_left (fun p b => release_one b p) bs p) /\
  forall x, refs (fold_left (fun p b => release_one b p) bs p) x = refs p x - occ x bs.
Proof.
  revert p. induction bs as [|b bs IH]; intros p; cbn [fold_left].
  { split; [apply data_only_refl|]. intros x. unfold occ. cbn. lia. }
  destruct (IH (release_one b p)) as [h1 h2].
  change (release_one b p) with (set_block b (fun o => o <| ref_cnt := refs p b - 1 |>) p) in *.
  split; [by eapply data_only_trans; [apply set_ref_data|]|].
  intros x. rewrite h2, refs_set_ref, occ_cons. destruct (decide (x = b)); subst; lia.
Qed.

(** The blocks a release leaves without references, in the order of the list. *)
Definition released (p : BlockPool) (bs : list Z) : list Z :=
  List.filter (fun b => (refs p b =? occ b bs) && negb (b =? 0)) bs.

Lemma occ_filter_ne b bs : b <> 0 -> occ b bs <= occ b (List.filter (fun b => negb (b =? 0)) bs).
Proof.
  intros Hb. induction bs as [|y bs IH]; [done|]. cbn [List.filter].
  destruct (Z.eqb_spec y 0); cbn [negb]; rewrite !occ_cons; case_decide; subst; lia.
Qed.

Lemma free_blocks_spec p free bs :
  pool_ok p free -> NoDup (List.filter (fun b => negb (b =? 0)) bs) ->
  (forall b, b ∈ bs -> b = 0 \/ real p b /\ 0 < refs p b) ->
  exists p', free_blocks bs p = Ok p' /\ pool_ok p' (free ++ released p bs) /\ same_shape p p' /\
    (forall x, refs p' x = refs p x - occ x bs) /\ (forall x, hash_of p' x = hash_of p x).
Proof.
  intros Hp Hnd Hbs. unfold free_blocks.
  destruct (release_loop p bs) as [Hd Hr]. set (p1 := fold_left _ bs p) in *. clearbody p1.
  assert (Hz : List.filter (fun b => (ref_cnt (block p1 b) =? 0) && negb (is_null (block p1 b))) bs
               = released p bs).
  { apply filter_ext_in'. intros b _. change (ref_cnt (block p1 b)) with (refs p1 b).
    rewrite Hr, (dn_null _ _ Hd), (po_flags _ _ _ Hp). f_equal.
    - destruct (Z.eqb_spec (refs p b - occ b bs) 0), (Z.eqb_spec (refs p b) (occ b bs)); lia || done.
    - by destruct (bool_decide_reflect (b = 0)), (Z.eqb_spec b 0). }
  rewrite Hz. pose proof (po_nodup _ _ _ Hp) as Hndf. rewrite app_nil_r in Hndf.
  assert (Hrel : forall b, b ∈ released p bs <-> b ∈ bs /\ real p b /\ refs p1 b = 0).
  { intros b. unfold released. rewrite elem_of_list_bfilter, andb_true_iff, negb_true_iff, Z.eqb_eq, Z.eqb_neq, Hr.
    split; [intros [[? ?] Hin] | intros (Hin & [? ?] & ?); split; [lia | done]].
    destruct (Hbs b Hin) as [?|[? ?]]; [done|]. split; [done|]. split; [done | lia]. }
  assert (Hndr : NoDup (released p bs)).
  { eapply sublist_NoDup; [exact Hnd|]. apply (bfilter_and_sublist (fun b => refs p b =? occ b bs)). }
  assert (Hnd2 : NoDup (free ++ released p bs)).
  { apply NoDup_app. split; [done|]. split; [|done]. intros x Hx [Hin _]%Hrel.
    pose proof (po_free _ _ _ Hp x) as Hfx. rewrite app_nil_r in Hfx. apply Hfx in Hx as [? ?].
    destruct (Hbs x Hin) as [->|[_ ?]]; [unfold real in *|]; lia. }
  assert (Hp1 : pool_but p1 free (released p bs)).
  { apply (pool_set_refs p p1 free []); try done.
    - intros b. pose proof (po_free _ _ _ Hp b) as Hfb. rewrite app_nil_r in Hfb.
      rewrite elem_of_app, Hrel, Hfb, Hr. pose proof (occ_pos b bs). pose proof (occ_nonneg b bs).
      pose proof (po_refs _ _ _ Hp b). destruct (decide (b ∈ bs)) as [Hin|Hin].
      + destruct (Hbs b Hin) as [->|[? ?]]; [unfold real; lia|]. intuition lia.
      + rewrite (occ_absent b bs Hin). intuition lia.
    - intros b Hb. rewrite Hr. pose proof (po_refs _ _ _ Hp b Hb).
      destruct (decide (b ∈ bs)) as [Hin|Hin]; [|rewrite (occ_absent b bs Hin); lia].
      destruct (Hbs b Hin) as [->|[_ ?]]; [unfold real in Hb; lia|].
      assert (occ b bs <= 1); [|lia].
      transitivity (occ b (List.filter (fun b => negb (b =? 0)) bs)); [|by apply occ_NoDup].
      assert (Hb0 : b <> 0) by (unfold real in Hb; lia). by apply occ_filter_ne. }
  pose proof (po_queue _ _ _ Hp1) as Hq.
  destruct (append_n_repr _ free (released p bs) Hq) as (q & Ha & Hq' & Hdq).
  { apply spine_NoDup. split; [done|]. pose proof (po_free _ _ _ Hp1) as Hf.
    rewrite !Hf. unfold real, fake_free_list_head, fake_free_list_tail. lia. }
  rewrite Ha. bind_ok. eexists. split; [reflexivity|]. split.
  { apply (pool_relink p1 q free (released p bs)); try done. by rewrite app_nil_r. }
  split; [apply Hd|]. split; intros x; destruct (relink_block p1 q x Hdq) as (Hx1 & Hx2 & _).
  - by rewrite Hx1.
  - rewrite Hx2. apply (dn_hash _ _ Hd).
Qed.

(** *** Caching *)

Section Caching.
Context (use_int_hashes : bool) (g : Z) (gb : string) (Hgb : to_bytes4 g = Ok gb).

Lemma cache_one_spec p free b h :
  pool_ok p free -> real p b -> hash_of p b = None ->
  exists p', cache_one g (b, Some h) p = Ok p' /\ pool_ok p' free /\ same_shape p p' /\
    kv_event_queue p' = kv_event_queue p /\ (forall x, refs p' x = refs p x) /\
    (forall x, hash_of p' x = if decide (x = b) then Some (h +:+ gb) else hash_of p x).
Proof.
  intros Hp Hb Hn. unfold cache_one, make_block_hash_with_group_id.
  change (block_hash (block p b)) with (hash_of p b).
  rewrite Hn, bool_decide_eq_true_2 by done. bind_ok. rewrite Hgb. bind_ok.
  eexists. split; [reflexivity|]. match goal with |- pool_ok ?q _ /\ _ => set (p' := q) end.
  assert (Hblk : forall x, block p' x = if decide (x = b) then block p b <| block_hash := Some (h +:+ gb) |> else block p x).
  { intros x. unfold p'. cbn. unfold block. cbn. rewrite blk_update. by destruct (decide (x = b)). }
  assert (Hout : forall x, refs p' x = refs p x /\
    hash_of p' x = if decide (x = b) then Some (h +:+ gb) else hash_of p x).
  { intros x. unfold refs, hash_of. rewrite Hblk. destruct (decide (x = b)); by subst. }
  split; [|split; [done|split; [done|split; intros x; apply Hout]]].
  destruct Hp as [h1 h2 h3 h4 h5 h6 h7 h8].
  destruct (insert_block_spec (h +:+ gb) b (cached_block_hash_to_block p) h7) as [i1 i2].
  split; try done.
  - unfold p'. cbn. by apply queue_repr_update.
  - intros x. rewrite Hblk. destruct (decide (x = b)); subst; apply h3.
  - intros x. rewrite h5. by destruct (Hout x) as [-> _].
  - intros x Hx. destruct (Hout x) as [-> _]. by apply h6.
  - intros key x. unfold p' at 1. cbn. rewrite i2, h8. destruct (Hout x) as [_ ->].
    change (real p' x) with (real p x). destruct (decide (x = b)) as [->|]; [|naive_solver].
    rewrite Hn. naive_solver.
Qed.

Lemma cache_loop p free bs hs :
  pool_ok p free -> length bs = length hs -> NoDup bs ->
  (forall b, b ∈ bs -> real p b /\ hash_of p b = None) ->
  exists p', for_each (cache_one g) (zip bs (Some <$> hs)) p = Ok p' /\ pool_ok p' free /\
    same_shape p p' /\ kv_event_queue p' = kv_event_queue p /\ (forall x, refs p' x = refs p x) /\
    (forall x, x ∉ bs -> hash_of p' x = hash_of p x) /\
    Forall2 (fun b h => hash_of p' b = Some (h +:+ gb)) bs hs.
Proof.
  revert p hs. induction bs as [|b bs IH]; intros p [|h hs] Hp Hlen Hnd Hbs; try done; cbn [zip fmap list_fmap for_each zip_with].
  { exists p. split; [done|]. split; [done|]. split; [done|]. split; [done|]. split; [done|].
    split; [done | constructor]. }
  apply NoDup_cons in Hnd as [Hnb Hnd].
  destruct (Hbs b) as [Hb Hn]; [by left|].
  destruct (cache_one_spec p free b h Hp Hb Hn) as (p1 & Hr1 & Hp1 & Hs1 & Hq1 & Hf1 & Hh1).
  rewrite Hr1. bind_ok.
  destruct (IH p1 hs) as (p2 & Hr2 & Hp2 & Hs2 & Hq2 & Hf2 & Hh2 & Hall); [done | naive_solver | done | |].
  { intros x Hx. rewrite (real_shape p p1), Hh1 by done. rewrite decide_False by congruence. apply Hbs. by right. }
  exists p2. split; [done|]. split; [done|]. split; [by eapply same_shape_trans|]. split; [congruence|].
  split; [intros x; by rewrite Hf2, Hf1|]. split.
  - intros x [Hx Hxb]%not_elem_of_cons. by rewrite Hh2, Hh1, decide_False.
  - constructor; [|done]. by rewrite Hh2, Hh1, decide_True.
Qed.

Lemma imap_zip {A B} (bs : list A) (hs : list B) :
  (length bs <= length hs)%nat ->
  imap (fun i b => (b, hs !! i)) bs = zip bs (Some <$> take (length bs) hs).
Proof.
  revert hs. induction bs as [|b bs IH]; intros [|h hs] Hl; cbn in *; try done; [lia|].
  f_equal. rewrite <- IH by lia. by apply imap_ext.
Qed.

(** The new full blocks of a request and their hashes. *)
Definition new_hashes (r : Request) (blocks : list Z) (num_cached_blocks num_full_blocks : Z) : list BlockHash :=
  take (length (slice num_cached_blocks num_full_blocks blocks))
    (slice_from num_cached_blocks (Request.block_hashes r)).

Lemma cache_full_blocks_inv p free r blocks nc nf block_size :
  pool_ok p free -> 0 <= nc <= nf -> nf <= py_len (Request.block_hashes r) -> nf <= py_len blocks ->
  NoDup (slice nc nf blocks) ->
  (forall b, b ∈ slice nc nf blocks -> real p b /\ hash_of p b = None) ->
  (enable_kv_cache_events p = true -> 0 < nc -> forall b, blocks !! Z.to_nat (nc - 1) = Some b ->
    is_Some (hash_of p b) /\ b ∉ slice nc nf blocks) ->
  exists p', cache_full_blocks use_int_hashes r blocks nc nf block_size g p = Ok p' /\ pool_ok p' free /\
    same_shape p p' /\ (forall x, refs p' x = refs p x) /\
    (forall x, x ∉ slice nc nf blocks -> hash_of p' x = hash_of p x) /\
    Forall2 (fun b h => hash_of p' b = Some (h +:+ gb)) (slice nc nf blocks) (new_hashes r blocks nc nf).
Proof.
  intros Hp Hn Hh Hl Hnd Hnew Hpar. unfold cache_full_blocks.
  destruct (Z.leb_spec nf nc) as [Hle|Hlt].
  { exists p. replace nf with nc by lia. unfold new_hashes. rewrite slice_in, drop_ge by (try rewrite length_take; lia).
    split; [done|]. split; [done|]. split; [done|]. split; [done|]. split; [done | constructor]. }
  destruct (Z.leb_spec nf (py_len (Request.block_hashes r))); [|lia]. cbn [py_assert]. bind_ok.
  set (bs := slice nc nf blocks) in *.
  assert (Hlb : length bs = Z.to_nat (nf - nc)).
  { unfold bs. rewrite slice_in, length_drop, length_take by lia. unfold py_len in *. lia. }
  assert (Hlh : (length bs <= length (slice_from nc (Request.block_hashes r)))%nat).
  { rewrite slice_from_in, length_drop by lia. unfold py_len in *. lia. }
  rewrite imap_zip by done.
  change (take (length bs) (slice_from nc (Request.block_hashes r))) with (new_hashes r blocks nc nf).
  destruct (cache_loop p free bs (new_hashes r blocks nc nf) Hp) as (p1 & Hr & Hp1 & Hs1 & _ & Hf1 & Hh1 & Hall);
    [unfold new_hashes; fold bs; rewrite length_take; lia | done | done |].
  rewrite Hr. bind_ok. unfold stored_event. destruct (enable_kv_cache_events p1) eqn:Eev.
  2:{ exists p1. split; [done|]. split; [done|]. by repeat (split; [done|]). }
  assert (Hparent : exists parent, (if nc =? 0 then Ok None
      else parent_block ← py_index blocks (nc - 1);
           h ← or_raise AssertionError (block_hash (block p1 parent_block));
           Ok (Some (maybe_convert_block_hash use_int_hashes (get_block_hash h)))) = Ok parent).
  { destruct (Z.eqb_spec nc 0); [by eexists|].
    destruct (lookup_lt_is_Some_2 blocks (Z.to_nat (nc - 1))) as [b Hb]; [unfold py_len in *; lia|].
    rewrite (py_index_Some _ _ b) by (lia || done). bind_ok.
    assert (Hev : enable_kv_cache_events p = true) by (destruct Hs1 as (_ & _ & _ & <-); done).
    destruct (Hpar Hev ltac:(lia) b Hb) as [[k Hk] Hnb].
    change (block_hash (block p1 b)) with (hash_of p1 b). rewrite (Hh1 b Hnb), Hk. bind_ok. by eexists. }
  destruct Hparent as [parent ->]. bind_ok. eexists. split; [reflexivity|].
  split; [by destruct Hp1|]. split; [done|]. by repeat split.
Qed.

End Caching.

(** *** Looking up *)

Lemma get_cached_block_spec p free h gs :
  pool_ok p free -> Forall (fun g => 0 <= g < 2 ^ 32) gs ->
  exists o, get_cached_block h gs p = Ok o /\
  match o with
  | Some bs => Forall2 (fun g b => exists key, make_block_hash_with_group_id h g = Ok key /\
                 real p b /\ hash_of p b = Some key) gs bs
  | None => exists g key, g ∈ gs /\ make_block_hash_with_group_id h g = Ok key /\
              forall b, real p b -> hash_of p b <> Some key
  end.
Proof.
  intros Hp Hgs. induction Hgs as [|g gs Hg Hgs IH]; cbn [get_cached_block].
  { exists (Some []). split; [done | constructor]. }
  destruct (to_bytes4_spec g Hg) as (gb & Hgb & _ & _).
  assert (Hk : make_block_hash_with_group_id h g = Ok (h +:+ gb))
    by (unfold make_block_hash_with_group_id; rewrite Hgb; by bind_ok).
  rewrite Hk. bind_ok. rewrite get_one_block_spec by apply (po_map _ _ _ Hp). bind_ok.
  destruct (cached (cached_block_hash_to_block p) (h +:+ gb)) as [|b l] eqn:Ec; cbn [head].
  { exists None. split; [done|]. exists g, (h +:+ gb). split; [by left|]. split; [done|].
    intros b Hb Hh. assert (Hin : b ∈ cached (cached_block_hash_to_block p) (h +:+ gb)) by (by apply (po_hash _ _ _ Hp)).
    rewrite Ec in Hin. by apply elem_of_nil in Hin. }
  destruct IH as (o & Ho & Hspec). rewrite Ho. bind_ok. eexists. split; [reflexivity|].
  destruct o as [bs|]; cbn [option_map].
  - constructor; [|done]. exists (h +:+ gb). split; [done|]. apply (po_hash _ _ _ Hp). rewrite Ec. by left.
  - destruct Hspec as (g' & key & Hin & Hrest). exists g', key. split; [by right | done].
Qed.

(** *** Creation and reset *)

Lemma new_pool_inv n caching events :
  0 < n -> exists p, new_pool n caching events = Ok p /\ pool_ok p (py_range 1 n) /\
    num_gpu_blocks p = n /\ enable_caching p = caching /\ enable_kv_cache_events p = events /\
    (forall b, refs p b = 0) /\ (forall b, hash_of p b = None).
Proof.
  intros Hn. unfold new_pool. destruct (Z.ltb_spec 0 n); [|lia]. cbn [py_assert]. bind_ok.
  assert (Hfresh : forall b, ref_cnt (blk (new_queue n) b) = 0 /\ block_hash (blk (new_queue n) b) = None /\
    is_null (blk (new_queue n) b) = false).
  { intros b. by apply new_queue_data. }
  pose proof (new_queue_repr n Hn) as Hq.
  assert (Hcons : py_range 0 n = 0 :: py_range 1 n).
  { unfold py_range. replace (n - 0) with (Z.succ (n - 1)) by lia. rewrite seqZ_cons by lia.
    f_equal. f_equal; lia. }
  rewrite Hcons in Hq. destruct (popleft_repr _ _ _ Hq) as (q & Hr & Hq' & Hd). rewrite Hr. bind_ok.
  eexists. split; [reflexivity|].
  match goal with |- pool_ok ?q _ /\ _ => set (p := q) end.
  assert (Hblk : forall x, refs p x = 0 /\ hash_of p x = None /\ is_null (block p x) = bool_decide (x = 0)).
  { intros x. destruct (Hfresh x) as (e1 & e2 & e3). specialize (Hd x). unfold refs, hash_of, block, p. cbn.
    rewrite blk_update. unfold data in Hd. destruct (decide (x = 0)) as [->|Hx].
    - destruct (blk q 0), (blk (new_queue n) 0). cbn in *. by injection Hd as -> -> -> ->.
    - destruct (blk q x), (blk (new_queue n) x). cbn in *. injection Hd as -> -> -> ->.
      rewrite bool_decide_eq_false_2 by done. done. }
  split; [|repeat split; intros; apply Hblk]. split; try done.
  - unfold p. cbn. by apply queue_repr_update.
  - intros x. apply Hblk.
  - rewrite app_nil_r. apply NoDup_seqZ.
  - intros x. rewrite app_nil_r, elem_of_py_range. unfold real, p at 1. cbn. pose proof (Hblk x). naive_solver lia.
  - intros x _. by destruct (Hblk x) as [-> _].
  - intros key x. destruct (Hblk x) as (_ & -> & _). unfold p. cbn. unfold cached. rewrite lookup_empty.
    split; [by intros ?%elem_of_nil | by intros [_ ?]].
Qed.

Lemma clear_hashes_loop bs p :
  let p' := fold_left (fun p b => set_block b (fun o => o <| block_hash := None |>) p) bs p in
  same_shape p p' /\ (forall l, queue_repr (free_block_queue p) l -> queue_repr (free_block_queue p') l) /\
  cached_block_hash_to_block p' = cached_block_hash_to_block p /\
  (forall x, is_null (block p' x) = is_null (block p x) /\ refs p' x = refs p x) /\
  (forall x, hash_of p' x = if decide (x ∈ bs) then None else hash_of p x).
Proof.
  revert p. induction bs as [|b bs IH]; intros p; cbn [fold_left].
  { cbv zeta. split; [done|]. split; [done|]. split; [done|]. split; [done|].
    intros x. by rewrite decide_False by apply not_elem_of_nil. }
  destruct (IH (set_block b (fun o => o <| block_hash := None |>) p)) as (h1 & h2 & h3 & h4 & h5).
  cbv zeta in *. split; [done|]. split; [intros l Hl; by apply h2, queue_repr_update|]. split; [done|]. split.
  - intros x. destruct (h4 x) as [-> ->]. unfold refs. rewrite block_set. by destruct (decide (x = b)); subst.
  - intros x. rewrite h5. unfold hash_of. rewrite block_set.
    destruct (decide (x ∈ bs)), (decide (x = b)), (decide (x ∈ b :: bs)); try done;
      rewrite elem_of_cons in *; tauto.
Qed.

(** All real blocks are in the queue. *)
Lemma all_free_iff p free :
  pool_ok p free -> py_len free = num_gpu_blocks p - 1 <-> forall b, real p b -> refs p b = 0.
Proof.
  intros Hp. destruct (po_null _ _ _ Hp) as [_ Hn]. pose proof (po_nodup _ _ _ Hp) as Hnd.
  pose proof (po_free _ _ _ Hp) as Hf. rewrite app_nil_r in Hnd.
  set (ids := py_range 1 (num_gpu_blocks p)).
  assert (Hids : forall b, b ∈ ids <-> real p b) by (intros b; unfold ids, real; rewrite elem_of_py_range; lia).
  assert (Hli : py_len ids = num_gpu_blocks p - 1) by (unfold ids, py_range, py_len; rewrite length_seqZ; lia).
  assert (Hsub : free ⊆+ ids).
  { apply NoDup_submseteq; [done|]. intros b Hb. apply Hids. specialize (Hf b). rewrite app_nil_r in Hf. tauto. }
  split.
  - intros Hl b Hb. assert (Hperm : free ≡ₚ ids).
    { apply submseteq_length_Permutation; [done|]. unfold py_len in *. lia. }
    apply Hids in Hb. rewrite <- Hperm in Hb. specialize (Hf b). rewrite app_nil_r in Hf. tauto.
  - intros Hall. rewrite <- Hli. unfold py_len. f_equal. apply Permutation_length, NoDup_Permutation; [done|apply NoDup_seqZ|].
    intros b. rewrite Hids. specialize (Hf b). specialize (Hall b). rewrite app_nil_r in Hf. tauto.
Qed.

Lemma reset_prefix_cache_inv p free :
  pool_ok p free ->
  (reset_prefix_cache p).1 = bool_decide (py_len free = num_gpu_blocks p - 1) /\
  pool_ok (reset_prefix_cache p).2 free /\ same_shape p (reset_prefix_cache p).2 /\
  (forall b, refs (reset_prefix_cache p).2 b = refs p b) /\
  (forall b, block_of p b -> hash_of (reset_prefix_cache p).2 b =
    if (reset_prefix_cache p).1 then None else hash_of p b).
Proof.
  intros Hp. unfold reset_prefix_cache, get_num_free_blocks. rewrite (qr_num _ _ (po_queue _ _ _ Hp)).
  destruct (Z.eqb_spec (num_gpu_blocks p - py_len free) 1); cbn [negb fst snd].
  2:{ rewrite bool_decide_eq_false_2 by lia. done. }
  rewrite bool_decide_eq_true_2 by lia. split; [done|].
  set (p0 := p <| cached_block_hash_to_block := ∅ |>).
  destruct (clear_hashes_loop (all_blocks p0) p0) as (h1 & h2 & h3 & h4 & h5).
  set (p1 := fold_left _ _ p0) in *. clearbody p1.
  assert (Hh : forall b, block_of p b -> hash_of p1 b = None).
  { intros b Hb. rewrite h5, decide_True; [done|]. destruct (po_null _ _ _ Hp).
    unfold all_blocks. rewrite elem_of_py_range. unfold block_of, real in Hb. cbn. lia. }
  assert (Hp1 : pool_ok p1 free).
  { destruct Hp as [q1 q2 q3 q4 q5 q6 q7 q8]. destruct h1 as (e1 & e2 & _). cbn in e1, e2.
    assert (Hreal : forall b, real p1 b <-> real p b) by (intros b; unfold real; by rewrite e1).
    split; [by apply h2 | by rewrite e1, e2 | | done | | | rewrite h3; apply map_ok_empty |].
    - intros b. destruct (h4 b) as [-> _]. apply q3.
    - intros b. destruct (h4 b) as [_ ->]. rewrite Hreal. apply q5.
    - intros b Hb. destruct (h4 b) as [_ ->]. by apply q6, Hreal.
    - intros key b. rewrite h3. unfold p0, cached. cbn. rewrite lookup_empty.
      split; [by intros ?%elem_of_nil|]. intros [Hb Hk]. rewrite Hh in Hk; [done | by left; apply Hreal]. }
  assert (Hr : forall b, refs p1 b = refs p b) by (intros b; apply h4).
  case_match; [split; [by destruct Hp1|]|split; [done|]]; done.
Qed.

(** ** Claims *)

(** Allocating [n] blocks takes the [n] blocks that have waited longest in the queue, gives each
    one reference, drops their cached hashes when caching is on, leaves every other block alone and
    keeps the pool consistent; when fewer than [n] blocks are free it raises ValueError. *)
Theorem get_new_blocks_lru use_int_hashes p free n :
  pool_ok p free -> 0 <= n ->
  let got := take (Z.to_nat n) free in
  if py_len free <? n then get_new_blocks use_int_hashes n p = Raise ValueError
  else exists p', get_new_blocks use_int_hashes n p = Ok (got, p') /\ py_len got = n /\
    pool_ok p' (drop (Z.to_nat n) free) /\
    (forall b, refs p' b = if decide (b ∈ got) then 1 else refs p b) /\
    (forall b, hash_of p' b = if decide (b ∈ got /\ enable_caching p = true) then None else hash_of p b).
Proof.
  intros Hp Hn got. destruct (Z.ltb_spec (py_len free) n) as [Hlt|Hle].
  - unfold get_new_blocks, get_num_free_blocks. rewrite (qr_num _ _ (po_queue _ _ _ Hp)).
    by rewrite (proj2 (Z.ltb_lt _ _) Hlt).
  - destruct (get_new_blocks_inv use_int_hashes p free n Hp) as (p' & Hr & Hp' & _ & Hf & Hh); [lia|].
    exists p'. split; [done|]. split; [|done]. unfold got, py_len in *. rewrite length_take. lia.
Qed.

(** Sharing and releasing blocks: [touch] gives every block one reference and takes the free ones
    out of the queue; freeing the same blocks again restores every reference count and puts the
    blocks nobody else holds at the end of the queue, in the given order, still cached. *)
Theorem touch_free_roundtrip p free bs :
  pool_ok p free -> NoDup bs -> Forall (real p) bs ->
  exists p1 p2, touch [bs] p = Ok p1 /\ free_blocks bs p1 = Ok p2 /\
    pool_ok p1 (untouched bs free) /\ (forall b, b ∈ bs -> 0 < refs p1 b) /\
    pool_ok p2 (untouched bs free ++ List.filter (fun b => refs p b =? 0) bs) /\
    (forall b, refs p2 b = refs p b) /\ (forall b, hash_of p2 b = hash_of p b).
Proof.
  intros Hp Hnd Hbs. rewrite Forall_forall in Hbs.
  destruct (touch_loop p free bs Hp) as (p1 & Hr1 & Hp1 & Hs1 & Hf1 & Hh1); [intros b Hb; left; by apply Hbs|].
  assert (Hpos : forall b, b ∈ bs -> 0 < refs p1 b).
  { intros b Hb. rewrite Hf1. pose proof (po_refs _ _ _ Hp b (Hbs b Hb)). apply occ_pos in Hb. lia. }
  destruct (free_blocks_spec p1 (untouched bs free) bs Hp1) as (p2 & Hr2 & Hp2 & Hs2 & Hf2 & Hh2).
  { by apply bfilter_NoDup. }
  { intros b Hb. right. split; [by apply (real_shape p p1), Hbs | by apply Hpos]. }
  exists p1, p2. split; [unfold touch; cbn [for_each]; rewrite Hr1; by bind_ok|]. split; [done|].
  split; [done|]. split; [done|]. split; [|split; intros b; [rewrite Hf2, Hf1; lia | by rewrite Hh2]].
  replace (List.filter _ bs) with (released p1 bs); [done|]. apply filter_ext_in'. intros b Hb.
  rewrite Hf1. pose proof (Hbs b Hb) as Hb0. unfold real in Hb0.
  destruct (Z.eqb_spec b 0); [lia|]. rewrite andb_true_r.
  destruct (Z.eqb_spec (refs p b + occ b bs) (occ b bs)), (Z.eqb_spec (refs p b) 0); lia || done.
Qed.

(** After the full blocks of a request are cached, looking up the hash of any of them finds a
    block carrying exactly that key, and reference counts and the queue are unchanged; blocks that
    were not passed keep the hashes they had. *)
Theorem cache_then_hit use_int_hashes g p free r blocks nc nf block_size :
  pool_ok p free -> 0 <= g < 2 ^ 32 -> 0 <= nc <= nf -> nf <= py_len (Request.block_hashes r) ->
  nf <= py_len blocks -> NoDup blocks -> Forall (real p) blocks ->
  (forall i b, blocks !! i = Some b -> is_Some (hash_of p b) <-> Z.of_nat i < nc) ->
  exists p', cache_full_blocks use_int_hashes r blocks nc nf block_size g p = Ok p' /\ pool_ok p' free /\
    (forall b, refs p' b = refs p b) /\ (forall b, b ∉ slice nc nf blocks -> hash_of p' b = hash_of p b) /\
    forall i h b, nc <= Z.of_nat i < nf -> Request.block_hashes r !! i = Some h -> blocks !! i = Some b ->
      exists key b', make_block_hash_with_group_id h g = Ok key /\ hash_of p' b = Some key /\
        get_cached_block h [g] p' = Ok (Some [b']) /\ hash_of p' b' = Some key.
Proof.
  intros Hp Hg Hn Hh Hl Hnd Hreal Hcached. rewrite Forall_forall in Hreal.
  destruct (to_bytes4_spec g Hg) as (gb & Hgb & _ & _).
  assert (Hsl : slice nc nf blocks = drop (Z.to_nat nc) (take (Z.to_nat nf) blocks)) by (apply slice_in; lia).
  assert (Hat : forall b, b ∈ slice nc nf blocks -> exists i, blocks !! i = Some b /\ nc <= Z.of_nat i < nf).
  { intros b (i & Hi)%list_elem_of_lookup. rewrite Hsl, lookup_drop in Hi. apply lookup_take_Some in Hi as [Hi ?].
    eexists. split; [exact Hi | lia]. }
  destruct (cache_full_blocks_inv use_int_hashes g gb Hgb p free r blocks nc nf block_size Hp Hn Hh Hl)
    as (p' & Hr & Hp' & Hs & Hf & Hother & Hall).
  - rewrite Hsl. eapply sublist_NoDup; [exact Hnd|]. etrans; [apply sublist_drop | apply sublist_take].
  - intros b Hb. destruct (Hat b Hb) as (i & Hi & ?).
    split; [apply Hreal; by eapply list_elem_of_lookup_2|]. specialize (Hcached i b Hi).
    destruct (hash_of p b); [|done]. assert (Z.of_nat i < nc) by (apply Hcached; by eexists). lia.
  - intros _ Hnc b Hb. split; [apply (Hcached _ _ Hb); lia|]. intros (i & Hi & ?)%Hat.
    pose proof (NoDup_lookup _ _ _ _ Hnd Hb Hi). lia.
  - exists p'. split; [done|]. split; [done|]. split; [done|]. split; [done|].
    intros i h b Hi Hhi Hbi.
    assert (Hk : make_block_hash_with_group_id h g = Ok (h +:+ gb))
      by (unfold make_block_hash_with_group_id; rewrite Hgb; by bind_ok).
    assert (Hb : hash_of p' b = Some (h +:+ gb)).
    { refine (Forall2_lookup_lr _ _ _ (i - Z.to_nat nc) b h Hall _ _).
      - rewrite Hsl, lookup_drop, lookup_take_lt by lia. replace (Z.to_nat nc + (i - Z.to_nat nc))%nat with i by lia. done.
      - unfold new_hashes. rewrite lookup_take_lt, slice_from_in, lookup_drop by
          (rewrite ?Hsl, ?length_drop, ?length_take; unfold py_len in *; lia).
        replace (Z.to_nat nc + (i - Z.to_nat nc))%nat with i by lia. done. }
    destruct (get_cached_block_spec p' free h [g] Hp') as (o & Ho & Hspec); [by constructor|].
    destruct o as [bs|].
    + inversion Hspec as [|? b' ? bs' (key & Hkey & _ & Hb') Hnil]; subst. inversion Hnil; subst.
      rewrite Hk in Hkey. injection Hkey as <-. by exists (h +:+ gb), b'.
    + destruct Hspec as (g' & key & Hin%list_elem_of_singleton & Hkey & Hnone). subst g'.
      rewrite Hk in Hkey. injection Hkey as <-. exfalso. apply (Hnone b); [|done].
      apply (real_shape p p'); [done|]. apply Hreal. by eapply list_elem_of_lookup_2.
Qed.

(** ** Concrete runs *)

Lemma get_new_blocks_lru_witness :
  exists p p', new_pool 6 true false = Ok p /\ get_new_blocks true 2 p = Ok ([1; 2], p') /\
    get_new_blocks true 6 p = Raise ValueError.
Proof.
  destruct (new_pool_inv 6 true false eq_refl) as (p & Hr & Hp & _).
  destruct (get_new_blocks_lru true p _ 2 Hp ltac:(lia)) as (p' & Hg & _).
  exists p, p'. split; [exact Hr|]. split; [exact Hg|].
  exact (get_new_blocks_lru true p _ 6 Hp ltac:(lia)).
Defined.

Lemma touch_free_roundtrip_witness :
  exists p p1 p2, new_pool 6 true false = Ok p /\ touch [[4; 2]] p = Ok p1 /\
    free_blocks [4; 2] p1 = Ok p2 /\ pool_ok p2 [1; 3; 5; 4; 2].
Proof.
  destruct (new_pool_inv 6 true false eq_refl) as (p & Hr & Hp & Hn & _ & _ & Hf & _).
  destruct (touch_free_roundtrip p _ [4; 2] Hp) as (p1 & p2 & h1 & h2 & _ & _ & h3 & _).
  { repeat constructor; rewrite ?list_elem_of_singleton; [done | by apply not_elem_of_nil]. }
  { repeat constructor; unfold real; rewrite ?Hn; lia. }
  exists p, p1, p2. split; [exact Hr|]. split; [exact h1|]. split; [exact h2|].
  cbn [List.filter] in h3. rewrite !Hf in h3. exact h3.
Defined.

Lemma cache_then_hit_witness :
  exists r p p' h b, new_request (Some (request_block_hasher sample_hash "seed" 2)) fzero
      (sample_args <| ra_prompt_token_ids := Some [1; 2; 3; 4; 5] |>) = Ok r /\
    new_pool 6 true false = Ok p /\ cache_full_blocks true r [3; 4] 0 2 2 0 p = Ok p' /\
    Request.block_hashes r !! 1%nat = Some h /\ get_cached_block h [0] p' = Ok (Some [b]).
Proof.
  destruct (new_pool_inv 6 true false eq_refl) as (p & Hr & Hp & Hn & _ & _ & _ & Hh).
  destruct (new_request (Some (request_block_hasher sample_hash "seed" 2)) fzero
    (sample_args <| ra_prompt_token_ids := Some [1; 2; 3; 4; 5] |>)) as [r|e] eqn:E; [|vm_compute in E; discriminate E].
  assert (Hl : py_len (Request.block_hashes r) = 2).
  { assert (Hm : (r ← new_request (Some (request_block_hasher sample_hash "seed" 2)) fzero
      (sample_args <| ra_prompt_token_ids := Some [1; 2; 3; 4; 5] |>); Ok (py_len (Request.block_hashes r))) = Ok 2)
      by (vm_compute; reflexivity).
    rewrite E in Hm. by injection Hm. }
  destruct (lookup_lt_is_Some_2 (Request.block_hashes r) 1) as [h Hhi]; [unfold py_len in Hl; lia|].
  destruct (cache_then_hit true 0 p _ r [3; 4] 0 2 2 Hp) as (p' & Hc & _ & _ & _ & Hhit); try lia; try done.
  { repeat constructor; rewrite ?list_elem_of_singleton; [done | by apply not_elem_of_nil]. }
  { repeat constructor; unfold real; rewrite ?Hn; lia. }
  { intros i b _. rewrite Hh. split; [by intros [? ?] | lia]. }
  destruct (Hhit 1%nat h 4 ltac:(lia) Hhi eq_refl) as (key & b & _ & _ & Hget & _).
  exists r, p, p', h, b. done.
Defined.
