(* ===== verification/KVManagers.v ===== *)
(** * Managers of one type of attention layer

    vllm/v1/core/single_type_kv_cache_manager.py: per attention type, the block
    tables of the requests, the allocation and release of blocks, and the search
    for the longest cached prefix.  A manager shares its pool with the others, so
    its operations thread manager and pool.  [req_to_blocks] is a defaultdict:
    reading a missing request stores an empty table for it. *)

From S2P Require Import Prelude PyDict PyList PyInt KVSpec FreeQueue Request KVHash BlockPool.
#[local] Open Scope Z_scope.

(** ** State *)

Inductive ManagerClass :=
| FullAttentionManager
| SlidingWindowManager
| ChunkedLocalAttentionManager
| MambaManager
| CrossAttentionManager.

#[export] Instance ManagerClass_eq_dec : EqDecision ManagerClass.
Proof. solve_decision. Defined.

Record SingleTypeKVCacheManager := mkManager {
  manager_class : ManagerClass;
  block_size : Z;
  mgr_spec : LayerSpec;
  req_to_blocks : dict string (list Z);
  num_cached_block : dict string Z;
  kv_cache_group_id : Z;
}.
Abbreviation Manager := SingleTypeKVCacheManager.

#[export] Instance eta_Manager : Eta Manager := fun m =>
  mkManager (manager_class m) (block_size m) (mgr_spec m) (req_to_blocks m) (num_cached_block m)
    (kv_cache_group_id m).

(** [spec_manager_map]. *)
Definition spec_manager_map (s : LayerSpec) : result ManagerClass :=
  match s with
  | FullAttentionSpec _ _ _ | MLAAttentionSpec _ _ _ _ => Ok FullAttentionManager
  | SlidingWindowSpec _ _ => Ok SlidingWindowManager
  | ChunkedLocalAttentionSpec _ _ => Ok ChunkedLocalAttentionManager
  | MambaSpec _ _ _ _ _ _ => Ok MambaManager
  | CrossAttentionSpec _ => Ok CrossAttentionManager
  | EncoderOnlyAttentionSpec _ => Raise KeyError
  end.

Definition get_manager_for_kv_cache_spec (s : LayerSpec) (kv_cache_group_id dcp_world_size : Z)
    : result Manager :=
  cls ← spec_manager_map s;
  Ok {| manager_class := cls;
        block_size := if 1 <? dcp_world_size then layer_block_size s * dcp_world_size else layer_block_size s;
        mgr_spec := s; req_to_blocks := []; num_cached_block := [];
        kv_cache_group_id := kv_cache_group_id |}.

(** ** Tables *)

(** [self.req_to_blocks[request_id]]: the table and the manager after the read. *)
Definition read_table (request_id : string) (m : Manager) : list Z * Manager :=
  (dget_or request_id [] (req_to_blocks m),
   m <| req_to_blocks := dsetdefault request_id [] (req_to_blocks m) |>).
Definition write_table (request_id : string) (blocks : list Z) (m : Manager) : Manager :=
  m <| req_to_blocks := dset request_id blocks (req_to_blocks m) |>.

(** The extra slots a Mamba layer keeps for speculative tokens. *)
Definition with_speculative (m : Manager) (num_tokens : Z) : Z :=
  match manager_class m, mgr_spec m with
  | MambaManager, MambaSpec block_size _ _ _ _ num_speculative_blocks =>
      if 0 <? num_speculative_blocks then num_tokens + block_size * num_speculative_blocks else num_tokens
  | _, _ => num_tokens
  end.

(** A computed block that is in the free queue. *)
Definition evictable (p : BlockPool) (b : Z) : bool :=
  (ref_cnt (block p b) =? 0) && negb (is_null (block p b)).

Definition get_num_blocks_to_allocate (request_id : string) (num_tokens : Z)
    (new_computed_blocks : list Z) (m : Manager) (p : BlockPool) : result (Z * Manager) :=
  num_required_blocks ← cdiv (with_speculative m num_tokens) (block_size m);
  let '(blocks, m) := read_table request_id m in
  let num_new_blocks := num_required_blocks - py_len new_computed_blocks - py_len blocks in
  Ok (num_new_blocks + py_len (List.filter (evictable p) new_computed_blocks), m).

Definition save_new_computed_blocks (request_id : string) (new_computed_blocks : list Z) (m : Manager)
    : result Manager :=
  match manager_class m with
  | CrossAttentionManager => _ ← py_assert (py_len new_computed_blocks =? 0); Ok m
  | _ =>
      if dmem request_id (num_cached_block m) then
        _ ← py_assert (py_len new_computed_blocks =? 0); Ok m
      else
        let '(req_blocks, m) := read_table request_id m in
        _ ← py_assert (py_len req_blocks =? 0);
        let m := write_table request_id (req_blocks ++ new_computed_blocks) m in
        Ok (m <| num_cached_block := dset request_id (py_len new_computed_blocks) (num_cached_block m) |>)
  end.

(** The counts of [get_num_common_prefix_blocks]. *)
Fixpoint common_prefix (p : BlockPool) (num_requests : Z) (blocks : list Z) : Z :=
  match blocks with
  | [] => 0
  | b :: blocks => if ref_cnt (block p b) =? num_requests then 1 + common_prefix p num_requests blocks else 0
  end.

Definition get_num_common_prefix_blocks (running_request_id : string) (m : Manager) (p : BlockPool)
    : Z * Manager :=
  match manager_class m with
  | FullAttentionManager =>
      let '(blocks, m) := read_table running_request_id m in
      (common_prefix p (py_len (req_to_blocks m)) blocks, m)
  | _ => (0, m)
  end.

(** [get_num_skipped_tokens] of a sliding window, of a local chunk and by default. *)
Definition window_skipped_tokens (sliding_window num_computed_tokens : Z) : Z :=
  num_computed_tokens - sliding_window + 1.
Definition chunk_skipped_tokens (attention_chunk_size num_computed_tokens : Z) : result Z :=
  n ← py_floordiv num_computed_tokens attention_chunk_size; Ok (n * attention_chunk_size).

Definition get_num_skipped_tokens (m : Manager) (num_computed_tokens : Z) : result Z :=
  match manager_class m, mgr_spec m with
  | SlidingWindowManager, SlidingWindowSpec _ sliding_window => Ok (window_skipped_tokens sliding_window num_computed_tokens)
  | ChunkedLocalAttentionManager, ChunkedLocalAttentionSpec _ attention_chunk_size =>
      chunk_skipped_tokens attention_chunk_size num_computed_tokens
  | _, _ => Ok 0
  end.

(** The loop of [remove_skipped_blocks], from block [n - 1] down. *)
Fixpoint skip_loop (null : Z) (n : nat) (blocks removed_blocks : list Z) : result (list Z * list Z) :=
  match n with
  | O => Ok (blocks, removed_blocks)
  | S i =>
      b ← or_raise IndexError (blocks !! i);
      if b =? null then Ok (blocks, removed_blocks)
      else skip_loop null i (<[i := null]> blocks) (removed_blocks ++ [b])
  end.

Section Manager.
Context (use_int_hashes : bool).

Definition allocate_new_blocks (request_id : string) (num_tokens : Z) (m : Manager) (p : BlockPool)
    : result (list Z * Manager * BlockPool) :=
  let '(req_blocks, m) := read_table request_id m in
  num_required_blocks ← cdiv (with_speculative m num_tokens) (block_size m);
  let num_new_blocks := num_required_blocks - py_len req_blocks in
  if num_new_blocks <=? 0 then Ok ([], m, p)
  else
    '(new_blocks, p) ← get_new_blocks use_int_hashes num_new_blocks p;
    Ok (new_blocks, write_table request_id (req_blocks ++ new_blocks) m, p).

Definition cache_blocks (request : Request) (num_tokens : Z) (m : Manager) (p : BlockPool)
    : result (Manager * BlockPool) :=
  match manager_class m with
  | CrossAttentionManager => Raise ValueError
  | _ =>
      let rid := request_id request in
      let num_cached_blocks := dget_or rid 0 (num_cached_block m) in
      num_full_blocks ← py_floordiv num_tokens (block_size m);
      if num_full_blocks <=? num_cached_blocks then Ok (m, p)
      else
        let '(blocks, m) := read_table rid m in
        p ← cache_full_blocks use_int_hashes request blocks num_cached_blocks num_full_blocks
              (block_size m) (kv_cache_group_id m) p;
        Ok (m <| num_cached_block := dset rid num_full_blocks (num_cached_block m) |>, p)
  end.

End Manager.

Definition free (request_id : string) (m : Manager) (p : BlockPool) : result (Manager * BlockPool) :=
  let req_blocks := dget_or request_id [] (req_to_blocks m) in
  let m := m <| req_to_blocks := ddel request_id (req_to_blocks m) |> in
  p ← free_blocks (rev req_blocks) p;
  Ok (m <| num_cached_block := ddel request_id (num_cached_block m) |>, p).

Definition remove_skipped_blocks (request_id : string) (num_computed_tokens : Z) (m : Manager) (p : BlockPool)
    : result (Manager * BlockPool) :=
  num_skipped_tokens ← get_num_skipped_tokens m num_computed_tokens;
  if num_skipped_tokens <=? 0 then Ok (m, p)
  else
    num_skipped_blocks ← py_floordiv num_skipped_tokens (block_size m);
    let '(blocks, m) := read_table request_id m in
    '(blocks, removed_blocks) ← skip_loop (null_block p) (Z.to_nat num_skipped_blocks) blocks [];
    p ← free_blocks removed_blocks p;
    Ok (write_table request_id blocks m, p).

(** ** The longest cached prefix *)

(** [for computed, cached in zip(computed_blocks, cached_block)] with an append. *)
Fixpoint append_each (computed : list (list Z)) (cached : list Z) : list (list Z) :=
  match computed, cached with
  | c :: computed, b :: cached => (c ++ [b]) :: append_each computed cached
  | _, _ => computed
  end.
(** ... and with [computed[i] = cached]. *)
Fixpoint set_each (i : nat) (computed : list (list Z)) (cached : list Z) : list (list Z) :=
  match computed, cached with
  | c :: computed, b :: cached => <[i := b]> c :: set_each i computed cached
  | _, _ => computed
  end.

(** [list.pop()]. *)
Definition py_pop (l : list Z) : result (list Z) :=
  match l with [] => Raise IndexError | _ => Ok (removelast l) end.

(** The last matched block is dropped for eagle. *)
Definition eagle_pop (use_eagle : bool) (computed : list (list Z)) : result (list (list Z)) :=
  if use_eagle then
    first ← or_raise IndexError (head computed);
    match first with [] => Ok computed | _ => mapM py_pop computed end
  else Ok computed.

Section Hit.
Context (p : BlockPool) (kv_cache_group_ids : list Z).

(** A truthy result of [get_cached_block]. *)
Definition cached_in_all (h : BlockHash) : result (option (list Z)) :=
  o ← get_cached_block h kv_cache_group_ids p;
  Ok (match o with Some (b :: bs) => Some (b :: bs) | _ => None end).

Fixpoint full_hit_loop (block_hashes : list BlockHash) (computed : list (list Z)) : result (list (list Z)) :=
  match block_hashes with
  | [] => Ok computed
  | h :: hs =>
      o ← cached_in_all h;
      match o with
      | Some cached => full_hit_loop hs (append_each computed cached)
      | None => Ok computed
      end
  end.

(** The loop over [range(i, i + n)]. *)
Fixpoint local_hit_loop (block_hashes : list BlockHash) (n i : nat) (computed : list (list Z))
    : result (list (list Z)) :=
  match n with
  | O => Ok computed
  | S n =>
      h ← or_raise IndexError (block_hashes !! i);
      o ← cached_in_all h;
      match o with
      | Some cached => local_hit_loop block_hashes n (S i) (append_each computed cached)
      | None => Ok computed
      end
  end.

(** The search from the right, at block [n - 1]: the tables, the length of the
    current run of hits, and whether a long enough run was found. *)
Fixpoint window_hit_loop (needed : Z) (block_hashes : list BlockHash) (n : nat)
    (num_contiguous_blocks : Z) (computed : list (list Z)) : result (list (list Z) * Z * bool) :=
  match n with
  | O => Ok (computed, num_contiguous_blocks, false)
  | S i =>
      h ← or_raise IndexError (block_hashes !! i);
      o ← cached_in_all h;
      match o with
      | Some cached =>
          let computed := set_each i computed cached in
          let k := num_contiguous_blocks + 1 in
          if needed <=? k then Ok (take (Z.to_nat (Z.of_nat i + k)) <$> computed, k, true)
          else window_hit_loop needed block_hashes i k computed
      | None => window_hit_loop needed block_hashes i 0 computed
      end
  end.

(** The search for the last cached block, at block [n - 1]. *)
Fixpoint mamba_hit_loop (block_hashes : list BlockHash) (n : nat) (computed : list (list Z))
    : result (list (list Z)) :=
  match n with
  | O => Ok computed
  | S i =>
      h ← or_raise IndexError (block_hashes !! i);
      o ← cached_in_all h;
      match o with
      | Some cached => Ok (append_each ((fun c => c ++ replicate i (null_block p)) <$> computed) cached)
      | None => mamba_hit_loop block_hashes i computed
      end
  end.

End Hit.

(** *** One search per manager class *)

Section Find.
Context (block_hashes : list BlockHash) (max_length : Z) (kv_cache_group_ids : list Z) (p : BlockPool).

(** [[x] * n] for every group. *)
Definition for_groups (l : list Z) : list (list Z) := replicate (length kv_cache_group_ids) l.

Definition full_attention_find (spec : LayerSpec) (use_eagle : bool) (dcp_world_size : Z)
    : result (list (list Z)) :=
  _ ← py_assert (is_full_attention spec || is_chunked_local spec);
  let block_size := if 1 <? dcp_world_size then layer_block_size spec * dcp_world_size
                    else layer_block_size spec in
  max_num_blocks ← py_floordiv max_length block_size;
  _ ← (if max_num_blocks <? 0 then Raise ValueError else Ok tt);
  computed ← full_hit_loop p kv_cache_group_ids (take (Z.to_nat max_num_blocks) block_hashes) (for_groups []);
  eagle_pop use_eagle computed.

Definition sliding_window_find (spec : LayerSpec) (use_eagle : bool) (dcp_world_size : Z)
    : result (list (list Z)) :=
  match spec with
  | SlidingWindowSpec a sliding_window =>
      _ ← py_assert (dcp_world_size =? 1);
      contiguous ← cdiv (sliding_window - 1) (att_block_size a);
      let contiguous := if use_eagle then contiguous + 1 else contiguous in
      max_num_blocks ← py_floordiv max_length (att_block_size a);
      let nulls := replicate (Z.to_nat max_num_blocks) (null_block p) in
      '(computed, num_contiguous_blocks, match_found) ←
        window_hit_loop p kv_cache_group_ids contiguous block_hashes (Z.to_nat max_num_blocks) 0
          (for_groups nulls);
      eagle_pop use_eagle (if (match_found : bool) then computed
                           else take (Z.to_nat num_contiguous_blocks) <$> computed)
  | _ => Raise AssertionError
  end.

Definition chunked_local_find (spec : LayerSpec) (use_eagle : bool) (dcp_world_size : Z)
    : result (list (list Z)) :=
  match spec with
  | ChunkedLocalAttentionSpec a attention_chunk_size =>
      _ ← py_assert (negb use_eagle);
      _ ← py_assert (dcp_world_size =? 1);
      max_num_blocks ← py_floordiv max_length (att_block_size a);
      start ← (if 0 <? max_length
               then n ← py_floordiv max_length attention_chunk_size; Ok (n * attention_chunk_size)
               else Ok 0);
      start_block ← py_floordiv start (att_block_size a);
      let nulls := replicate (Z.to_nat start_block) (null_block p) in
      local_hit_loop p kv_cache_group_ids block_hashes (Z.to_nat (max_num_blocks - start_block))
        (Z.to_nat start_block) (for_groups nulls)
  | _ => Raise AssertionError
  end.

Definition mamba_find (spec : LayerSpec) (dcp_world_size : Z) : result (list (list Z)) :=
  match spec with
  | MambaSpec block_size _ _ _ _ _ =>
      _ ← py_assert (dcp_world_size =? 1);
      max_num_blocks ← py_floordiv max_length block_size;
      mamba_hit_loop p kv_cache_group_ids block_hashes (Z.to_nat max_num_blocks) (for_groups [])
  | _ => Raise AssertionError
  end.

Definition cross_attention_find (spec : LayerSpec) : result (list (list Z)) :=
  match spec with CrossAttentionSpec _ => Raise NotImplementedError | _ => Raise AssertionError end.

(** [cls.find_longest_cache_hit]. *)
Definition find_longest_cache_hit (cls : ManagerClass) (spec : LayerSpec) (use_eagle : bool)
    (dcp_world_size : Z) : result (list (list Z)) :=
  match cls with
  | FullAttentionManager => full_attention_find spec use_eagle dcp_world_size
  | SlidingWindowManager => sliding_window_find spec use_eagle dcp_world_size
  | ChunkedLocalAttentionManager => chunked_local_find spec use_eagle dcp_world_size
  | MambaManager => mamba_find spec dcp_world_size
  | CrossAttentionManager => cross_attention_find spec
  end.

End Find.
