(* ===== verification/KVTables.v ===== *)
(** * Block tables and reference counts

    The invariant that ties a manager's block tables to the pool: a block's
    reference count is the number of its occurrences in all tables.  [others] is
    what the rest of the system holds. *)

From S2P Require Import Prelude PyDict PyList PyInt KVSpec FreeQueue Request KVHash BlockPool KVManagers.
#[local] Open Scope Z_scope.

(** ** Occurrences in tables *)

Definition occ_tables (b : Z) (d : dict string (list Z)) : Z := occ b (concat (dvalues d)).
Definition held (m : Manager) (b : Z) : Z := occ_tables b (req_to_blocks m).

Lemma occ_tables_cons b k l d : occ_tables b ((k, l) :: d) = occ b l + occ_tables b d.
Proof. unfold occ_tables, dvalues. cbn. apply occ_app. Qed.

Lemma occ_tables_nonneg b d : 0 <= occ_tables b d.
Proof. apply occ_nonneg. Qed.

Lemma occ_nil b : occ b [] = 0.
Proof. done. Qed.

Lemma occ_tables_dset b k l d :
  occ_tables b (dset k l d) = occ_tables b d - occ b (dget_or k [] d) + occ b l.
Proof.
  unfold dget_or. induction d as [|[k0 l0] d IH]; cbn [dset dget].
  - rewrite occ_tables_cons, occ_nil. lia.
  - destruct (decide (k = k0)); rewrite !occ_tables_cons; [lia|]. rewrite IH. lia.
Qed.

Lemma occ_tables_ddel b k d : occ_tables b (ddel k d) = occ_tables b d - occ b (dget_or k [] d).
Proof.
  unfold dget_or. induction d as [|[k0 l0] d IH]; cbn [ddel dget].
  - rewrite occ_nil. lia.
  - destruct (decide (k = k0)); rewrite !occ_tables_cons; [lia|]. rewrite IH. lia.
Qed.

Lemma occ_tables_setdefault b k d : occ_tables b (dsetdefault k [] d) = occ_tables b d.
Proof.
  unfold dsetdefault. destruct (dmem k d) eqn:E; [done|]. apply dmem_false in E.
  rewrite occ_tables_dset. unfold dget_or. rewrite E, occ_nil. lia.
Qed.

Lemma occ_le_tables b k d : occ b (dget_or k [] d) <= occ_tables b d.
Proof. pose proof (occ_tables_ddel b k d). pose proof (occ_tables_nonneg b (ddel k d)). lia. Qed.

Lemma occ_rev b l : occ b (rev l) = occ b l.
Proof. unfold occ. f_equal. apply (Permutation_count_occ Z.eq_dec). symmetry. apply Permutation_rev. Qed.

Lemma occ_nonnull b l :
  occ b (List.filter (fun b => negb (b =? 0)) l) = if decide (b = 0) then 0 else occ b l.
Proof.
  induction l as [|x l IH]; cbn [List.filter]; [by case_decide|].
  destruct (Z.eqb_spec x 0) as [Hx|Hx]; cbn [negb]; rewrite !occ_cons, IH;
    destruct (decide (b = 0)), (decide (b = x)); lia.
Qed.

Lemma occ_NoDup_iff l : NoDup l <-> forall b, occ b l <= 1.
Proof.
  rewrite NoDup_ListNoDup, (NoDup_count_occ Z.eq_dec). unfold occ. split; intros H b; specialize (H b); lia.
Qed.

Lemma occ_drop_take b i j l : occ b (drop i (take j l)) <= occ b l.
Proof.
  assert (Hd : forall i l, occ b (drop i l) <= occ b l).
  { clear. intros i l. pose proof (f_equal (occ b) (take_drop i l)) as H. rewrite occ_app in H.
    pose proof (occ_nonneg b (take i l)). lia. }
  etrans; [apply Hd|]. pose proof (f_equal (occ b) (take_drop j l)) as H. rewrite occ_app in H.
  pose proof (occ_nonneg b (drop j l)). lia.
Qed.

Lemma occ_once b l i j : occ b l <= 1 -> l !! i = Some b -> l !! j = Some b -> i = j.
Proof.
  intros Ho Hi Hj. destruct (decide (i = j)) as [|Hne]; [done|]. exfalso.
  assert (H2 : forall i j, (i < j)%nat -> l !! i = Some b -> l !! j = Some b -> 2 <= occ b l).
  { clear. intros i j Hij Hi Hj. rewrite <- (take_drop (S i) l), occ_app.
    assert (b ∈ take (S i) l) by (apply list_elem_of_lookup; exists i; by rewrite lookup_take_lt by lia).
    assert (b ∈ drop (S i) l).
    { apply list_elem_of_lookup. exists (j - S i)%nat. rewrite lookup_drop. by replace (S i + (j - S i))%nat with j by lia. }
    apply occ_pos in H, H0. lia. }
  destruct (decide (i < j)%nat); [specialize (H2 i j ltac:(done) Hi Hj)|specialize (H2 j i ltac:(lia) Hj Hi)]; lia.
Qed.

(** ** The invariant of one manager *)

(** A table names blocks of the pool, and no block twice but the null block. *)
Definition table_ok (p : BlockPool) (l : list Z) : Prop :=
  (forall b, b ∈ l -> block_of p b) /\ forall b, b <> 0 -> occ b l <= 1.

Record mgr_ok (others : Z -> Z) (m : Manager) (p : BlockPool) (free : list Z) : Prop := {
  mo_pool : pool_ok p free;
  mo_dict : dict_ok (req_to_blocks m) /\ dict_ok (num_cached_block m);
  mo_tables : forall k l, dget k (req_to_blocks m) = Some l -> table_ok p l;
  mo_refs : forall b, real p b -> refs p b = others b + held m b;
  mo_others : forall b, 0 <= others b;
}.

Lemma table_ok_nil p : table_ok p [].
Proof. split; [by intros b ?%elem_of_nil | intros; rewrite occ_nil; lia]. Qed.

Lemma mgr_table others m p free k : mgr_ok others m p free -> table_ok p (dget_or k [] (req_to_blocks m)).
Proof.
  intros Hm. unfold dget_or. destruct (dget k (req_to_blocks m)) eqn:E; [by eapply mo_tables|apply table_ok_nil].
Qed.

Lemma block_of_shape p p' b : same_shape p p' -> block_of p' b <-> block_of p b.
Proof. intros Hs. unfold block_of. by rewrite (real_shape p p'). Qed.

Lemma table_ok_shape p p' l : same_shape p p' -> table_ok p l -> table_ok p' l.
Proof. intros Hs [h1 h2]. split; [|done]. intros b Hb. apply (block_of_shape p p'); auto. Qed.

(** A manager whose table of [k] became [l]. *)
Lemma mgr_write others m p free p' free' k l m' :
  mgr_ok others m p free -> same_shape p p' -> pool_ok p' free' -> table_ok p' l ->
  req_to_blocks m' = dset k l (req_to_blocks m) -> dict_ok (num_cached_block m') ->
  (forall b, real p b -> refs p' b = refs p b - occ b (dget_or k [] (req_to_blocks m)) + occ b l) ->
  mgr_ok others m' p' free'.
Proof.
  intros [h1 h2 h3 h4 h5] Hs Hp' Hl Hreq Hcd Hr. split; try done.
  - split; [|done]. rewrite Hreq. by apply dict_ok_dset, h2.
  - intros k' l'. rewrite Hreq, dget_dset. destruct (decide (k' = k)); [by intros [= <-]|].
    intros Hk. eapply table_ok_shape; [exact Hs|]. by eapply h3.
  - intros b Hb. apply (real_shape p p') in Hb; [|done]. rewrite Hr, h4 by done.
    unfold held. rewrite Hreq, occ_tables_dset. lia.
Qed.

(** Reading a table changes nothing that the invariant sees. *)
Lemma mgr_read others m p free k : mgr_ok others m p free -> mgr_ok others (read_table k m).2 p free.
Proof.
  intros [h1 h2 h3 h4 h5]. split; try done.
  - split; [by apply dict_ok_setdefault, h2 | apply h2].
  - intros k' l'. cbn. rewrite dget_setdefault. destruct (decide (k' = k)); [|apply h3].
    intros [= <-]. unfold dget_or. destruct (dget k (req_to_blocks m)) eqn:E; [by eapply h3|apply table_ok_nil].
  - intros b Hb. rewrite h4 by done. unfold held. cbn. by rewrite occ_tables_setdefault.
Qed.

Lemma dset_setdefault k (l : list Z) (d : dict string (list Z)) : dset k l (dsetdefault k [] d) = dset k l d.
Proof.
  unfold dsetdefault, dmem. destruct (dget k d) eqn:E; [done|]. induction d as [|[k0 l0] d IH]; cbn in *.
  - by rewrite decide_True.
  - destruct (decide (k = k0)); [done|]. cbn. rewrite decide_False by done. f_equal. by apply IH.
Qed.

Lemma dget_or_setdefault k k' (d : dict string (list Z)) :
  dget_or k' [] (dsetdefault k [] d) = dget_or k' [] d.
Proof.
  unfold dget_or at 1. rewrite dget_setdefault. destruct (decide (k' = k)) as [->|]; [done|].
  unfold dget_or. done.
Qed.

(** ** Operations keep the invariant *)

Definition same_config (m m' : Manager) : Prop :=
  manager_class m' = manager_class m /\ block_size m' = block_size m /\
  mgr_spec m' = mgr_spec m /\ kv_cache_group_id m' = kv_cache_group_id m.

Lemma same_config_trans m1 m2 m3 : same_config m1 m2 -> same_config m2 m3 -> same_config m1 m3.
Proof. unfold same_config. intros (? & ? & ? & ?) (? & ? & ? & ?). repeat split; congruence. Qed.

(** The table of a request. *)
Definition table (k : string) (m : Manager) : list Z := dget_or k [] (req_to_blocks m).

Lemma block_of_real p b : block_of p b -> b <> 0 -> real p b.
Proof. intros [?|?]; done. Qed.

(** Blocks of a table can be released. *)
Lemma releasable others m p free k bs :
  mgr_ok others m p free -> (forall b, b <> 0 -> occ b bs <= occ b (table k m)) ->
  NoDup (List.filter (fun b => negb (b =? 0)) bs) /\ forall b, b ∈ bs -> b = 0 \/ real p b /\ 0 < refs p b.
Proof.
  intros Hm Hle. destruct (mgr_table _ _ _ _ k Hm) as [Hof Hone]. fold (table k m) in *. split.
  - apply occ_NoDup_iff. intros b. rewrite occ_nonnull. destruct (decide (b = 0)); [lia|].
    pose proof (Hle b). pose proof (Hone b). lia.
  - intros b Hb. destruct (decide (b = 0)) as [|Hb0]; [by left|right].
    apply occ_pos in Hb. pose proof (Hle b Hb0).
    assert (Hin : b ∈ table k m) by (apply occ_pos; lia).
    assert (Hr : real p b) by (apply block_of_real; auto).
    split; [done|]. rewrite (mo_refs _ _ _ _ Hm) by done. pose proof (mo_others _ _ _ _ Hm b).
    pose proof (occ_le_tables b k (req_to_blocks m)). unfold held. fold (table k m) in *. lia.
Qed.

Lemma free_inv others m p free k :
  mgr_ok others m p free ->
  exists m' p', KVManagers.free k m p = Ok (m', p') /\ mgr_ok others m' p' (free ++ released p (rev (table k m))) /\
    same_shape p p' /\ same_config m m' /\ req_to_blocks m' = ddel k (req_to_blocks m) /\
    num_cached_block m' = ddel k (num_cached_block m) /\
    (forall b, refs p' b = refs p b - occ b (table k m)) /\ (forall b, hash_of p' b = hash_of p b).
Proof.
  intros Hm. unfold KVManagers.free. fold (table k m).
  destruct (releasable others m p free k (rev (table k m)) Hm) as [Hnd Hpos].
  { intros b _. rewrite occ_rev. lia. }
  destruct (free_blocks_spec p free (rev (table k m)) (mo_pool _ _ _ _ Hm) Hnd Hpos) as (p' & Hr & Hp' & Hs & Hf & Hh).
  rewrite Hr. bind_ok. eexists _, p'. split; [reflexivity|].
  assert (Hf' : forall b, refs p' b = refs p b - occ b (table k m)) by (intros b; by rewrite Hf, occ_rev).
  split; [|done]. destruct Hm as [h1 h2 h3 h4 h5]. split; try done.
  - cbn. split; apply dict_ok_ddel; apply h2.
  - cbn. intros k' l Hk'. destruct (decide (k' = k)) as [->|Hne].
    + rewrite dget_ddel_eq in Hk' by apply h2. done.
    + rewrite dget_ddel_ne in Hk' by done. eapply table_ok_shape; [exact Hs|]. by eapply h3.
  - intros b Hb. apply (real_shape p p') in Hb; [|done]. rewrite Hf', h4 by done. unfold held. cbn.
    rewrite occ_tables_ddel. unfold table. lia.
Qed.

(** The loop over skipped blocks takes each block before the [n]th out of the
    table, down to the first null block. *)
Lemma skip_loop_inv n l acc :
  (n <= length l)%nat ->
  exists l' rem, skip_loop 0 n l acc = Ok (l', acc ++ rem) /\ length l' = length l /\
    (forall b, b <> 0 -> occ b l' + occ b rem = occ b l) /\ 0 ∉ rem /\
    (forall i, (n <= i)%nat -> l' !! i = l !! i) /\
    (forall i b, l' !! i = Some b -> b = 0 \/ l !! i = Some b).
Proof.
  revert l acc. induction n as [|i IH]; intros l acc Hn; cbn [skip_loop].
  { exists l, []. rewrite app_nil_r. split; [done|]. split; [done|]. split; [intros; rewrite occ_nil; lia|].
    split; [apply not_elem_of_nil|]. split; [done|]. by right. }
  destruct (lookup_lt_is_Some_2 l i) as [b Hb]; [lia|]. rewrite Hb. cbn [or_raise]. bind_ok.
  destruct (Z.eqb_spec b 0) as [->|Hb0].
  { exists l, []. rewrite app_nil_r. split; [done|]. split; [done|]. split; [intros; rewrite occ_nil; lia|].
    split; [apply not_elem_of_nil|]. split; [done|]. by right. }
  destruct (IH (<[i := 0]> l) (acc ++ [b])) as (l' & rem & Hr & Hl & Hocc & H0 & Hge & Hsub).
  { rewrite length_insert. lia. }
  rewrite length_insert in Hl. exists l', (b :: rem). rewrite Hr. split; [by rewrite <- app_assoc|].
  split; [done|]. split; [|split; [|split]].
  - intros x Hx. rewrite occ_cons. specialize (Hocc x Hx).
    assert (Hins : occ x (<[i := 0]> l) = occ x l - if decide (x = b) then 1 else 0).
    { apply list_elem_of_split_length in Hb as (l1 & l2 & -> & ->).
      rewrite insert_app_r_alt by lia. rewrite Nat.sub_diag. cbn [list_insert insert].
      rewrite !occ_app, !occ_cons. destruct (decide (x = 0)), (decide (x = b)); lia. }
    lia.
  - rewrite not_elem_of_cons. done.
  - intros j Hj. rewrite Hge by lia. rewrite list_lookup_insert_ne by lia. done.
  - intros j x Hj. destruct (Hsub j x Hj) as [?|Hx]; [by left|].
    destruct (decide (j = i)) as [->|]; [|rewrite list_lookup_insert_ne in Hx by lia; by right].
    rewrite list_lookup_insert_eq in Hx by lia. left. by injection Hx.
Qed.

Lemma remove_skipped_inv others m p free k n num_computed_tokens :
  mgr_ok others m p free -> 0 < block_size m -> get_num_skipped_tokens m num_computed_tokens = Ok n ->
  n / block_size m <= py_len (table k m) ->
  exists m' p' free', remove_skipped_blocks k num_computed_tokens m p = Ok (m', p') /\
    mgr_ok others m' p' free' /\ same_shape p p' /\ same_config m m' /\
    num_cached_block m' = num_cached_block m /\
    length (table k m') = length (table k m) /\
    (forall i b, table k m' !! i = Some b -> table k m !! i = Some b \/ b = 0 /\ Z.of_nat i < n / block_size m) /\
    (forall k', k' <> k -> dget k' (req_to_blocks m') = dget k' (req_to_blocks m)) /\
    (exists rem, 0 ∉ rem /\ (forall b, b ∈ rem -> b ∈ table k m) /\ forall b, refs p' b = refs p b - occ b rem) /\
    (forall b, hash_of p' b = hash_of p b) /\ (length free <= length free')%nat.
Proof.
  intros Hm Hbs Hn Hlen. unfold remove_skipped_blocks. rewrite Hn. bind_ok.
  destruct (Z.leb_spec n 0).
  { exists m, p, free. split; [done|]. split; [done|]. split; [done|]. split; [done|]. split; [done|]. split; [done|].
    split; [by left|]. split; [done|]. split; [|done]. exists []. split; [apply not_elem_of_nil|].
    split; [by intros b ?%elem_of_nil|]. intros b. rewrite occ_nil. lia. }
  rewrite py_floordiv_ok by lia. bind_ok. unfold read_table. fold (table k m).
  destruct (po_null _ _ _ (mo_pool _ _ _ _ Hm)) as [Hnull _]. rewrite Hnull.
  pose proof (Z.div_pos n (block_size m) ltac:(lia) Hbs).
  destruct (skip_loop_inv (Z.to_nat (n / block_size m)) (table k m) []) as (l' & rem & Hr & Hl & Hocc & Hz & Hge & Hsub);
    [unfold py_len in *; lia|].
  rewrite Hr. bind_ok. cbn [app].
  assert (Hle : forall b, b <> 0 -> occ b rem <= occ b (table k m)).
  { intros b Hb. specialize (Hocc b Hb). pose proof (occ_nonneg b l'). lia. }
  destruct (releasable others m p free k rem Hm Hle) as [Hnd Hpos].
  destruct (free_blocks_spec p free rem (mo_pool _ _ _ _ Hm) Hnd Hpos) as (p' & Hr' & Hp' & Hs & Hf & Hh).
  rewrite Hr'. bind_ok. eexists _, p', _. split; [reflexivity|].
  assert (Hin : forall b, b ∈ rem -> b ∈ table k m).
  { intros b Hb. destruct (decide (b = 0)) as [->|Hb0]; [done|]. apply occ_pos. apply occ_pos in Hb. specialize (Hle b Hb0). lia. }
  assert (Hreq : req_to_blocks (write_table k l' (m <| req_to_blocks := dsetdefault k [] (req_to_blocks m) |>))
    = dset k l' (req_to_blocks m)) by apply dset_setdefault.
  split.
  { eapply (mgr_write others m p free p' _ k l'); [exact Hm | exact Hs | exact Hp' | | exact Hreq | apply Hm |].
    - destruct (mgr_table _ _ _ _ k Hm) as [Hof Hone]. fold (table k m) in *. split.
      + intros b Hb. apply (block_of_shape p p'); [done|].
        apply list_elem_of_lookup in Hb as (i & Hi). destruct (Hsub i b Hi) as [->|Hi'];
          [by right | apply Hof; by eapply list_elem_of_lookup_2].
      + intros b Hb. specialize (Hocc b Hb). specialize (Hone b Hb). pose proof (occ_nonneg b rem). lia.
    - intros b Hb. rewrite Hf. fold (table k m). assert (Hb0 : b <> 0) by (unfold real in Hb; lia).
      specialize (Hocc b Hb0). lia. }
  split; [done|]. split; [done|]. split; [done|].
  assert (Ht : table k (write_table k l' (m <| req_to_blocks := dsetdefault k [] (req_to_blocks m) |>)) = l').
  { unfold table. rewrite Hreq. unfold dget_or. by rewrite dget_dset_eq. }
  rewrite Ht. split; [done|]. split; [|split; [|split; [by exists rem|split; [done|rewrite length_app; lia]]]].
  - intros i b Hi. destruct (decide (Z.to_nat (n / block_size m) <= i)%nat) as [Hi'|Hi'].
    + left. by rewrite <- Hge.
    + destruct (Hsub i b Hi) as [->|?]; [right; split; [done | lia] | by left].
  - intros k' Hk. rewrite Hreq. by apply dget_dset_ne.
Qed.

(** ** Blocks that a request has not filled yet *)

(** How many blocks of a request are cached. *)
Definition num_cached (k : string) (m : Manager) : Z := dget_or k 0 (num_cached_block m).

(** A block that one table holds and nobody can find in the cache. *)
Definition unshared (p : BlockPool) (b : Z) : Prop := real p b /\ hash_of p b = None /\ refs p b = 1.

(** With caching, the blocks of a table after its cached ones are unshared. *)
Definition cache_ok (m : Manager) (p : BlockPool) : Prop :=
  enable_caching p = true -> forall k, 0 <= num_cached k m /\
    forall i b, table k m !! i = Some b -> num_cached k m <= Z.of_nat i -> unshared p b.

(** What an operation of one manager leaves to the holders of [others]. *)
Definition frame (others : Z -> Z) (p p' : BlockPool) : Prop :=
  same_shape p p' /\ forall b, 0 < others b -> unshared p b -> unshared p' b.

Definition mgr_inv (others : Z -> Z) (m : Manager) (p : BlockPool) (free : list Z) : Prop :=
  mgr_ok others m p free /\ cache_ok m p.

Lemma frame_refl others p : frame others p p.
Proof. by split. Qed.

Lemma frame_trans others p1 p2 p3 : frame others p1 p2 -> frame others p2 p3 -> frame others p1 p3.
Proof. intros [s1 f1] [s2 f2]. split; [by eapply same_shape_trans | eauto]. Qed.

(** An unshared block of a table occurs nowhere else. *)
Lemma unshared_own others m p free k b :
  mgr_ok others m p free -> unshared p b -> b ∈ table k m ->
  others b = 0 /\ occ b (table k m) = 1 /\ forall k', k' <> k -> occ b (table k' m) = 0.
Proof.
  intros Hm (Hb & _ & Hr) Hin. rewrite (mo_refs _ _ _ _ Hm) in Hr by done.
  pose proof (mo_others _ _ _ _ Hm b). apply occ_pos in Hin.
  pose proof (occ_le_tables b k (req_to_blocks m)). unfold held in Hr. fold (table k m) in *.
  split; [lia|]. split; [lia|]. intros k' Hk'.
  pose proof (occ_tables_ddel b k (req_to_blocks m)) as Hd. fold (table k m) in Hd.
  pose proof (occ_le_tables b k' (ddel k (req_to_blocks m))) as Hk. unfold dget_or in Hk.
  rewrite dget_ddel_ne in Hk by done. fold (table k' m) in Hk.
  pose proof (occ_nonneg b (table k' m)). unfold table, dget_or in *. lia.
Qed.

Lemma unshared_others others m p free k b :
  mgr_ok others m p free -> unshared p b -> 0 < others b -> occ b (table k m) = 0.
Proof.
  intros Hm (Hb & _ & Hr) Ho. rewrite (mo_refs _ _ _ _ Hm) in Hr by done.
  pose proof (occ_le_tables b k (req_to_blocks m)). pose proof (occ_nonneg b (table k m)).
  unfold held, table in *. lia.
Qed.

(** Blocks whose count and hash did not change stay unshared. *)
Lemma unshared_same p p' b :
  same_shape p p' -> refs p' b = refs p b -> hash_of p' b = hash_of p b -> unshared p b -> unshared p' b.
Proof. intros Hs Hr Hh (h1 & h2 & h3). split; [by apply (real_shape p p')|]. split; congruence. Qed.

(** *** Release *)

Lemma free_keeps others m p free k :
  mgr_inv others m p free ->
  exists m' p' free', KVManagers.free k m p = Ok (m', p') /\ mgr_inv others m' p' free' /\
    frame others p p' /\ same_config m m' /\ req_to_blocks m' = ddel k (req_to_blocks m) /\
    num_cached_block m' = ddel k (num_cached_block m) /\
    (forall b, hash_of p' b = hash_of p b) /\ (length free <= length free')%nat.
Proof.
  intros [Hm Hc]. destruct (free_inv others m p free k Hm) as (m' & p' & Hr & Hm' & Hs & Hcfg & Ht & Hn & Hf & Hh).
  exists m', p', (free ++ released p (rev (table k m))). split; [done|].
  assert (Hkeep : forall b, unshared p b -> occ b (table k m) = 0 -> unshared p' b).
  { intros b Hb Ho. apply (unshared_same p); [done | rewrite Hf; lia | apply Hh | done]. }
  split; [split; [done|] | split; [split; [done|]|]].
  - intros Hec. destruct Hs as (_ & _ & Hec' & _). rewrite Hec' in Hec. specialize (Hc Hec).
    intros k'. destruct (Hc k') as [Hc0 Hck]. unfold num_cached, table. rewrite Ht, Hn. unfold dget_or.
    destruct (decide (k' = k)) as [->|Hne].
    + rewrite (dget_ddel_eq k (req_to_blocks m)) by apply Hm.
      rewrite (dget_ddel_eq k (num_cached_block m)) by apply Hm.
      split; [lia|]. intros i b Hi. by rewrite lookup_nil in Hi.
    + rewrite !dget_ddel_ne by done. split; [done|]. intros i b Hi Hle.
      assert (Hu : unshared p b) by (by apply (Hck i)). apply Hkeep; [done|].
      eapply (unshared_own others m p free k'); [done | done | by eapply list_elem_of_lookup_2 | done].
  - intros b Hb Hu. apply Hkeep; [done|]. by eapply unshared_others.
  - split; [done|]. split; [done|]. split; [done|]. split; [done|]. rewrite length_app. lia.
Qed.

(** *** Skipped blocks *)

Lemma skip_keeps others m p free k n num_computed_tokens :
  mgr_inv others m p free -> 0 < block_size m -> get_num_skipped_tokens m num_computed_tokens = Ok n ->
  n / block_size m <= py_len (table k m) ->
  (enable_caching p = true -> n / block_size m <= num_cached k m) ->
  exists m' p' free', remove_skipped_blocks k num_computed_tokens m p = Ok (m', p') /\
    mgr_inv others m' p' free' /\ frame others p p' /\ same_config m m' /\
    num_cached_block m' = num_cached_block m /\ length (table k m') = length (table k m) /\
    (forall i b, table k m' !! i = Some b -> table k m !! i = Some b \/ b = 0 /\ Z.of_nat i < n / block_size m) /\
    (forall b, hash_of p' b = hash_of p b) /\ (length free <= length free')%nat /\
    (forall b, refs p' b <= refs p b).
Proof.
  intros [Hm Hc] Hbs Hn Hlen Hcl.
  destruct (remove_skipped_inv others m p free k n num_computed_tokens Hm Hbs Hn Hlen)
    as (m' & p' & free' & Hr & Hm' & Hs & Hcfg & Hnc & Hl & Ht & Hoth & (rem & Hz & Hrem & Hf) & Hh & Hfl).
  exists m', p', free'. split; [done|].
  assert (Hkeep : forall b, unshared p b -> b ∉ rem -> unshared p' b).
  { intros b Hb Ho. apply (unshared_same p); [done | rewrite Hf, occ_absent by done; lia | apply Hh | done]. }
  split; [split; [done|] | split; [split; [done|]|]].
  - intros Hec. pose proof Hs as (_ & _ & Hec' & _). rewrite Hec' in Hec. specialize (Hc Hec). specialize (Hcl Hec).
    intros k'. unfold num_cached. rewrite Hnc. fold (num_cached k' m). destruct (Hc k') as [Hc0 Hck].
    split; [done|]. intros i b Hi Hle. destruct (decide (k' = k)) as [->|Hne].
    + destruct (Ht i b Hi) as [Hi'|[-> ?]]; [|lia]. assert (Hu : unshared p b) by (by apply (Hck i)).
      apply Hkeep; [done|]. intros Hin.
      pose proof (mo_refs _ _ _ _ Hm' b ltac:(apply (real_shape p p'); [done | apply Hu])) as Hr'.
      rewrite Hf in Hr'. destruct Hu as (_ & _ & Hu). apply occ_pos in Hin.
      pose proof (mo_others _ _ _ _ Hm' b). pose proof (occ_le_tables b k (req_to_blocks m')) as Hle'.
      fold (table k m') in Hle'. apply list_elem_of_lookup_2, occ_pos in Hi. unfold held in Hr'. lia.
    + assert (Htk : table k' m' = table k' m) by (unfold table, dget_or; by rewrite Hoth).
      rewrite Htk in Hi. assert (Hu : unshared p b) by (by apply (Hck i)). apply Hkeep; [done|]. intros Hin%Hrem.
      apply list_elem_of_lookup_2 in Hi.
      destruct (unshared_own others m p free k' b Hm Hu Hi) as (_ & _ & Ho).
      specialize (Ho k ltac:(done)). apply occ_pos in Hin. lia.
  - intros b Hb Hu. apply Hkeep; [done|]. intros Hin%Hrem%occ_pos.
    pose proof (unshared_others others m p free k b Hm Hu Hb). lia.
  - split; [done|]. split; [done|]. split; [done|]. split; [done|]. split; [done|]. split; [done|].
    intros b. rewrite Hf. pose proof (occ_nonneg b rem). lia.
Qed.

(** *** Allocation *)

Section Allocate.
Context (use_int_hashes : bool).

(** The blocks a manager is short of for a number of tokens. *)
Definition shortfall (k : string) (num_tokens : Z) (m : Manager) : Z :=
  ceil_div (with_speculative m num_tokens) (block_size m) - py_len (table k m).

Lemma allocate_keeps others m p free k num_tokens :
  mgr_inv others m p free -> 0 < block_size m -> shortfall k num_tokens m <= py_len free ->
  let new := take (Z.to_nat (shortfall k num_tokens m)) free in
  exists m' p' free', allocate_new_blocks use_int_hashes k num_tokens m p = Ok (new, m', p') /\
    mgr_inv others m' p' free' /\ frame others p p' /\ same_config m m' /\
    num_cached_block m' = num_cached_block m /\ table k m' = table k m ++ new /\
    py_len free' = py_len free - Z.max 0 (shortfall k num_tokens m).
Proof.
  intros [Hm Hc] Hbs Hlen new. unfold allocate_new_blocks, read_table. cbn zeta. fold (table k m).
  set (m1 := m <| req_to_blocks := _ |>).
  rewrite cdiv_ok by done. bind_ok.
  change (ceil_div (with_speculative m1 num_tokens) (block_size m1) - py_len (table k m))
    with (shortfall k num_tokens m). subst m1.
  destruct (Z.leb_spec (shortfall k num_tokens m) 0) as [Hle|Hlt].
  { assert (Hnew : new = []) by (unfold new; replace (Z.to_nat _) with 0%nat by lia; done). rewrite Hnew, app_nil_r.
    eexists _, p, free. split; [reflexivity|]. split; [split|].
    - by apply mgr_read.
    - intros Hec k'. unfold table. cbn. rewrite dget_or_setdefault. by apply (Hc Hec k').
    - split; [apply frame_refl|]. split; [done|]. split; [done|]. split; [|lia]. unfold table. cbn.
      by rewrite dget_or_setdefault. }
  destruct (get_new_blocks_inv use_int_hashes p free (shortfall k num_tokens m) (mo_pool _ _ _ _ Hm))
    as (p' & Hr & Hp' & Hs & Hf & Hh); [lia|]. fold new in Hr, Hf, Hh.
  rewrite Hr. bind_ok. eexists _, p', _. split; [reflexivity|].
  assert (Hfree : forall b, b ∈ new -> real p b /\ refs p b = 0).
  { intros b Hb. apply (po_free _ _ _ (mo_pool _ _ _ _ Hm)). rewrite app_nil_r. by eapply elem_of_sublist; [apply sublist_take|]. }
  assert (Hnd : NoDup new).
  { pose proof (po_nodup _ _ _ (mo_pool _ _ _ _ Hm)) as Hn. rewrite app_nil_r in Hn.
    eapply sublist_NoDup; [exact Hn | apply sublist_take]. }
  assert (Hkeep : forall b, unshared p b -> unshared p' b).
  { intros b Hu. pose proof Hu as (_ & _ & Hu1).
    assert (b ∉ new) by (intros [_ ?]%Hfree; lia).
    apply (unshared_same p); [done | by rewrite Hf, decide_False | rewrite Hh, decide_False by tauto; done | done]. }
  set (m' := write_table _ _ _).
  assert (Hreq : req_to_blocks m' = dset k (table k m ++ new) (req_to_blocks m)) by apply dset_setdefault.
  assert (Hocc : forall b, real p b -> refs p' b = refs p b - occ b (table k m) + occ b (table k m ++ new)).
  { intros b Hb. rewrite Hf, occ_app. destruct (decide (b ∈ new)) as [Hin|Hin].
    - destruct (Hfree b Hin) as [_ ->]. apply occ_pos in Hin. pose proof (proj1 (occ_NoDup_iff new) Hnd b). lia.
    - rewrite (occ_absent b new Hin). lia. }
  assert (Ht : table k m' = table k m ++ new) by (unfold table; rewrite Hreq; unfold dget_or; by rewrite dget_dset_eq).
  split; [split|].
  - eapply (mgr_write others m p free p' _ k (table k m ++ new) m'); try done.
    + destruct (mgr_table _ _ _ _ k Hm) as [Hof Hone]. fold (table k m) in *. split.
      * intros b Hb. apply (block_of_shape p p'); [done|]. apply elem_of_app in Hb as [Hb|Hb]; [by apply Hof|].
        left. by apply Hfree.
      * intros b Hb. rewrite occ_app. specialize (Hone b Hb). destruct (decide (b ∈ new)) as [Hin|Hin].
        -- destruct (Hfree b Hin) as [Hb' Hr0]. rewrite (mo_refs _ _ _ _ Hm) in Hr0 by done.
           pose proof (mo_others _ _ _ _ Hm b). pose proof (occ_le_tables b k (req_to_blocks m)).
           pose proof (proj1 (occ_NoDup_iff new) Hnd b). unfold held, table in *. lia.
        -- rewrite (occ_absent b new Hin). lia.
    + apply Hm.
  - intros Hec. pose proof Hs as (_ & _ & Hec' & _). rewrite Hec' in Hec. specialize (Hc Hec).
    intros k'. destruct (Hc k') as [Hc0 Hck]. split; [done|]. change (num_cached k' m') with (num_cached k' m).
    intros i b Hi Hle. destruct (decide (k' = k)) as [->|Hne].
    + rewrite Ht in Hi. apply lookup_app_Some in Hi as [Hi|[_ Hi]]; [apply Hkeep; by apply (Hck i)|].
      apply list_elem_of_lookup_2 in Hi. destruct (Hfree b Hi) as [Hb _].
      split; [by apply (real_shape p p')|]. split; [by rewrite Hh, decide_True | by rewrite Hf, decide_True].
    + apply Hkeep, (Hck i); [|done]. unfold table in *. rewrite Hreq in Hi. unfold dget_or in *.
      by rewrite dget_dset_ne in Hi.
  - split; [split; [done | eauto]|]. split; [done|]. split; [done|]. split; [done|].
    unfold py_len in *. rewrite length_drop. lia.
Qed.

End Allocate.

(** *** Hits *)

Lemma mgr_ok_ext others others' m p free :
  (forall b, others b = others' b) -> mgr_ok others m p free -> mgr_ok others' m p free.
Proof.
  intros He [h1 h2 h3 h4 h5]. split; try done; intros b; [intros Hb|]; rewrite <- He; auto.
Qed.

(** The references a touch took for [hits] become the table's. *)
Lemma save_keeps others m p free k hits :
  mgr_inv (fun b => others b + occ b hits) m p free -> (forall b, 0 <= others b) -> table_ok p hits ->
  manager_class m <> CrossAttentionManager -> table k m = [] -> dget k (num_cached_block m) = None ->
  exists m', save_new_computed_blocks k hits m = Ok m' /\ mgr_inv others m' p free /\ same_config m m' /\
    table k m' = hits /\ num_cached k m' = py_len hits.
Proof.
  intros [Hm Hc] Ho Hh Hcls Ht Hk. unfold save_new_computed_blocks.
  assert (Hbody : (if dmem k (num_cached_block m) then _ ← py_assert (py_len hits =? 0); Ok m
    else let '(req_blocks, m) := read_table k m in
      _ ← py_assert (py_len req_blocks =? 0);
      let m := write_table k (req_blocks ++ hits) m in
      Ok (m <| num_cached_block := dset k (py_len hits) (num_cached_block m) |>))
    = Ok (write_table k hits (read_table k m).2
            <| num_cached_block := dset k (py_len hits) (num_cached_block m) |>)).
  { rewrite (proj2 (dmem_false _ _) Hk). unfold read_table. fold (table k m). by rewrite Ht. }
  exists (write_table k hits (read_table k m).2 <| num_cached_block := dset k (py_len hits) (num_cached_block m) |>).
  set (m' := update_field _ _ _) in *.
  split; [destruct (manager_class m); done|].
  assert (Hreq : req_to_blocks m' = dset k hits (req_to_blocks m)) by apply dset_setdefault.
  assert (Hnc : num_cached_block m' = dset k (py_len hits) (num_cached_block m)) by done.
  assert (Htk : table k m' = hits) by (unfold table; rewrite Hreq; unfold dget_or; by rewrite dget_dset_eq).
  split; [split|].
  - destruct Hm as [h1 [h2 h2'] h3 h4 h5]. split; try done.
    + rewrite Hreq, Hnc. split; by apply dict_ok_dset.
    + intros k' l'. rewrite Hreq, dget_dset. destruct (decide (k' = k)); [by intros [= <-] | apply h3].
    + intros b Hb. rewrite h4 by done. unfold held. rewrite Hreq, occ_tables_dset. fold (table k m).
      rewrite Ht, occ_nil. lia.
  - intros Hec k'. unfold num_cached. rewrite Hnc. destruct (decide (k' = k)) as [->|Hne].
    + rewrite Htk. unfold dget_or. rewrite dget_dset_eq. split; [unfold py_len; lia|].
      intros i b Hi%lookup_lt_Some. unfold py_len. lia.
    + destruct (Hc Hec k') as [Hc0 Hck]. unfold dget_or. rewrite dget_dset_ne by done.
      split; [done|]. intros i b Hi. apply Hck. revert Hi. unfold table. rewrite Hreq. unfold dget_or.
      by rewrite dget_dset_ne.
  - split; [done|]. split; [done|]. unfold num_cached. rewrite Hnc. unfold dget_or. by rewrite dget_dset_eq.
Qed.

(** *** Caching *)

Section CacheBlocks.
Context (use_int_hashes : bool).

Lemma cache_keeps others m p free r num_tokens :
  mgr_inv others m p free -> 0 < block_size m -> 0 <= num_tokens -> enable_caching p = true ->
  enable_kv_cache_events p = false -> manager_class m <> CrossAttentionManager ->
  0 <= kv_cache_group_id m < 2 ^ 32 ->
  num_tokens / block_size m <= py_len (Request.block_hashes r) ->
  num_tokens / block_size m <= py_len (table (request_id r) m) ->
  exists m' p', cache_blocks use_int_hashes r num_tokens m p = Ok (m', p') /\ mgr_inv others m' p' free /\
    frame others p p' /\ same_config m m' /\ (forall k, table k m' = table k m) /\
    num_cached (request_id r) m' = Z.max (num_cached (request_id r) m) (num_tokens / block_size m) /\
    (forall k, k <> request_id r -> num_cached k m' = num_cached k m) /\
    (forall b, refs p' b = refs p b).
Proof.
  intros [Hm Hc] Hbs Hn Hec Hev Hcls Hg Hlh Hlt. set (k := request_id r) in *. unfold cache_blocks.
  destruct (Hc Hec k) as [Hc0 Hck]. set (full := num_tokens / block_size m) in *.
  assert (Hfull0 : 0 <= full) by (apply Z.div_pos; lia).
  destruct (to_bytes4_spec (kv_cache_group_id m) Hg) as (gb & Hgb & _ & _).
  assert (Hbody : exists m' p', (num_full_blocks ← py_floordiv num_tokens (block_size m);
      if num_full_blocks <=? num_cached k m then Ok (m, p)
      else
        p ← cache_full_blocks use_int_hashes r (table k m) (num_cached k m) num_full_blocks
              (block_size m) (kv_cache_group_id m) p;
        Ok ((read_table k m).2 <| num_cached_block := dset k num_full_blocks (num_cached_block m) |>, p))
      = Ok (m', p') /\
    mgr_inv others m' p' free /\
    frame others p p' /\ same_config m m' /\ (forall k, table k m' = table k m) /\
    num_cached k m' = Z.max (num_cached k m) full /\
    (forall k', k' <> k -> num_cached k' m' = num_cached k' m) /\ (forall b, refs p' b = refs p b)).
  2:{ destruct Hbody as (m' & p' & Hr & Hrest). exists m', p'. split; [|done]. fold k. by destruct (manager_class m). }
  rewrite py_floordiv_ok by lia. bind_ok. fold full.
  destruct (Z.leb_spec full (num_cached k m)) as [Hle|Hgt].
  { exists m, p. split; [done|]. split; [done|]. split; [apply frame_refl|]. split; [done|]. split; [done|].
    split; [lia|done]. }
  assert (Hsl : slice (num_cached k m) full (table k m)
    = drop (Z.to_nat (num_cached k m)) (take (Z.to_nat full) (table k m))) by (apply slice_in; lia).
  assert (Hin : forall b, b ∈ slice (num_cached k m) full (table k m) -> b ∈ table k m /\ unshared p b).
  { intros b. rewrite Hsl. intros (i & Hi)%list_elem_of_lookup. rewrite lookup_drop in Hi.
    apply lookup_take_Some in Hi as [Hi ?]. split; [by eapply list_elem_of_lookup_2|].
    eapply Hck; [exact Hi | lia]. }
  destruct (cache_full_blocks_inv use_int_hashes (kv_cache_group_id m) gb Hgb p free r (table k m)
    (num_cached k m) full (block_size m)) as (p' & Hr & Hp' & Hs & Hf & Hh & _); [apply Hm | lia | done | done | | | |].
  { apply occ_NoDup_iff. intros b. destruct (decide (b ∈ slice (num_cached k m) full (table k m))) as [Hb|Hb];
      [|rewrite occ_absent by done; lia].
    destruct (Hin b Hb) as [Hbt Hu]. destruct (unshared_own others m p free k b Hm Hu Hbt) as (_ & Ho & _).
    rewrite <- Ho, Hsl. apply occ_drop_take. }
  { intros b Hb. destruct (Hin b Hb) as [_ (? & ? & _)]. done. }
  { rewrite Hev. done. }
  rewrite Hr. bind_ok. eexists _, p'. split; [reflexivity|]. set (m' := update_field _ _ _).
  assert (Hreq : req_to_blocks m' = dsetdefault k [] (req_to_blocks m)) by done.
  assert (Ht : forall k', table k' m' = table k' m) by (intros; unfold table; by rewrite Hreq, dget_or_setdefault).
  assert (Hnc : num_cached_block m' = dset k full (num_cached_block m)) by done.
  assert (Hkeep : forall b, unshared p b -> occ b (table k m) = 0 -> unshared p' b).
  { intros b Hu Hz. apply (unshared_same p); [done | apply Hf | apply Hh | done].
    intros [Hb%occ_pos _]%Hin. lia. }
  split; [split|].
  - pose proof (mgr_read others m p free k Hm) as [h1 h2 h3 h4 h5]. split; try done.
    + split; [apply h2|]. rewrite Hnc. apply dict_ok_dset, Hm.
    + intros k' l Hl. eapply table_ok_shape; [exact Hs|]. by apply (h3 k').
    + intros b Hb. rewrite Hf. apply (h4 b). by apply (real_shape p p').
  - intros _ k'. rewrite Ht. unfold num_cached. rewrite Hnc. destruct (decide (k' = k)) as [->|Hne].
    + unfold dget_or. rewrite dget_dset_eq. split; [done|]. intros i b Hi Hle.
      assert (Hu : unshared p b) by (apply (Hck i b Hi); lia).
      apply (unshared_same p); [done | apply Hf | apply Hh | done]. rewrite Hsl.
      intros (j & Hj)%list_elem_of_lookup. rewrite lookup_drop in Hj. apply lookup_take_Some in Hj as [Hj ?].
      assert (b <> 0) by (destruct Hu as [Hb _]; unfold real in Hb; lia).
      assert (i = (Z.to_nat (num_cached k m) + j)%nat); [|lia].
      destruct (mgr_table _ _ _ _ k Hm) as [_ Hone]. fold (table k m) in Hone. specialize (Hone b ltac:(done)).
      by apply (occ_once b (table k m)).
    + unfold dget_or. rewrite dget_dset_ne by done. fold (num_cached k' m). destruct (Hc Hec k') as [Hc0' Hck'].
      split; [done|]. intros i b Hi Hle. assert (Hu : unshared p b) by (by apply (Hck' i)).
      apply Hkeep; [done|]. apply list_elem_of_lookup_2 in Hi.
      destruct (unshared_own others m p free k' b Hm Hu Hi) as (_ & _ & Ho). by apply Ho.
  - split; [split; [done|]|].
    + intros b Hb Hu. apply Hkeep; [done|]. by eapply unshared_others.
    + split; [done|]. split; [done|]. unfold num_cached. rewrite Hnc. unfold dget_or. rewrite dget_dset_eq.
      split; [unfold num_cached, dget_or in Hgt; lia|]. split; [|done].
      intros k' Hk'. by rewrite dget_dset_ne.
Qed.

End CacheBlocks.

(** ** Common prefix blocks *)

(** Asking how many blocks an unknown request needs leaves an empty table for it (the tables are a
    defaultdict), also when the allocation then fails; it is counted as a request with cache, so a
    prefix block that every request shared before is no longer counted as common. *)
Theorem refused_request_hides_prefix m p running new num_tokens b l :
  manager_class m = FullAttentionManager -> table running m = b :: l -> 0 < block_size m ->
  dget running (req_to_blocks m) = Some (b :: l) -> dget new (req_to_blocks m) = None ->
  refs p b = py_len (req_to_blocks m) ->
  0 < (get_num_common_prefix_blocks running m p).1 /\
  exists n m', get_num_blocks_to_allocate new num_tokens [] m p = Ok (n, m') /\ table new m' = [] /\
    (get_num_common_prefix_blocks running m' p).1 = 0.
Proof.
  intros Hcls Ht Hbs Hr Hn Hrefs.
  assert (Hset : forall (k : string) d, is_Some (dget k d) -> dsetdefault k ([] : list Z) d = d).
  { intros k d [v Hv]. unfold dsetdefault, dmem. by rewrite Hv. }
  assert (Hpos : forall q n l', 0 <= common_prefix q n l') by (induction l' as [|x l' IH]; cbn; [lia|]; destruct (_ =? _); lia).
  split.
  - unfold get_num_common_prefix_blocks. rewrite Hcls. cbn. rewrite Hset by (by rewrite Hr). fold (table running m).
    rewrite Ht. cbn. change (ref_cnt (block p b)) with (refs p b). rewrite Hrefs, Z.eqb_refl.
    pose proof (Hpos p (py_len (req_to_blocks m)) l). lia.
  - unfold get_num_blocks_to_allocate. rewrite cdiv_ok by done. bind_ok. cbn. eexists _, _. split; [reflexivity|].
    split; [unfold table; cbn; rewrite dget_or_setdefault; unfold dget_or; by rewrite Hn|].
    unfold get_num_common_prefix_blocks. cbn. rewrite Hcls. cbn. rewrite dget_or_setdefault. fold (table running m).
    rewrite Hset, Ht. cbn.
    + change (ref_cnt (block p b)) with (refs p b). rewrite Hrefs.
      assert (Hl : py_len (dsetdefault new [] (req_to_blocks m)) = py_len (req_to_blocks m) + 1).
      { unfold dsetdefault, dmem. rewrite Hn. rewrite dset_new by (by apply dget_None). unfold py_len.
        rewrite length_app. cbn. lia. }
      rewrite Hl. by destruct (Z.eqb_spec (py_len (req_to_blocks m)) (py_len (req_to_blocks m) + 1)); [lia|].
    + rewrite dget_setdefault. destruct (decide (running = new)) as [->|]; [congruence | by rewrite Hr].
Qed.

Lemma refused_request_hides_prefix_witness :
  exists p p', new_pool 6 true false = Ok p /\ get_new_blocks true 1 p = Ok ([1], p') /\
    let m := {| manager_class := FullAttentionManager; block_size := 2;
                mgr_spec := FullAttentionSpec (mkAttentionSpec 2 1 1 "bfloat16") None None;
                req_to_blocks := [("a", [1])]; num_cached_block := []; kv_cache_group_id := 0 |} in
    (get_num_common_prefix_blocks "a" m p').1 = 1 /\
    exists n m', get_num_blocks_to_allocate "b" 100 [] m p' = Ok (n, m') /\
      (get_num_common_prefix_blocks "a" m' p').1 = 0.
Proof.
  destruct (new_pool_inv 6 true false eq_refl) as (p & Hr & Hp & _).
  destruct (get_new_blocks_inv true p _ 1 Hp ltac:(done)) as (p' & Hg & _ & _ & Hf & _).
  exists p, p'. split; [exact Hr|]. split; [exact Hg|]. intros m.
  destruct (refused_request_hides_prefix m p' "a" "b" 100 1 [] eq_refl eq_refl eq_refl eq_refl eq_refl) as (_ & n & m' & h1 & _ & h2).
  - rewrite Hf. reflexivity.
  - split; [|exists n, m'; by split].
    change ((if refs p' 1 =? 1 then 1 + 0 else 0) = 1). by rewrite Hf.
Defined.
