(* ===== verification/KVCoordinator.v ===== *)
(** * The coordinator of the cache groups

    vllm/v1/core/kv_cache_coordinator.py: one manager per cache group on one
    shared pool, the operations over all groups, and the longest prefix that every
    group has cached. *)

From S2P Require Import Prelude PyDict PyList PyInt KVSpec FreeQueue Request KVHash BlockPool KVManagers.
From S2P Require Import KVTables.
#[local] Open Scope Z_scope.

(** ** State *)

(** What [verify_and_split_kv_cache_groups] computes. *)
Record HybridGroups := mkHybridGroups {
  full_attention_group_ids : list Z;
  other_group_ids : list Z;
  full_attention_spec : LayerSpec;
  other_spec : LayerSpec;
  other_attention_cls : ManagerClass;
  full_attn_first : bool;
}.

Inductive CoordinatorClass :=
| KVCacheCoordinatorNoPrefixCache
| UnitaryKVCacheCoordinator (kv_cache_spec : LayerSpec)
| HybridKVCacheCoordinator (groups : HybridGroups).

Record KVCacheCoordinator := mkCoordinator {
  coordinator_class : CoordinatorClass;
  coord_enable_caching : bool;
  use_eagle : bool;
  dcp_world_size : Z;
  block_pool : BlockPool;
  single_type_managers : list Manager;
}.
Abbreviation Coordinator := KVCacheCoordinator.

#[export] Instance eta_Coordinator : Eta Coordinator := fun c =>
  mkCoordinator (coordinator_class c) (coord_enable_caching c) (use_eagle c) (dcp_world_size c)
    (block_pool c) (single_type_managers c).

(** ** Construction *)

(** The specification of a group; the managers know layer specifications only. *)
Definition group_layer_spec (g : KVCacheGroupSpec) : result LayerSpec :=
  match kv_cache_spec g with
  | LayerKVCacheSpec s => Ok s
  | UniformTypeKVCacheSpecs _ _ => Raise KeyError
  end.

Fixpoint make_managers (i dcp_world_size : Z) (specs : list LayerSpec) : result (list Manager) :=
  match specs with
  | [] => Ok []
  | s :: specs =>
      m ← get_manager_for_kv_cache_spec s i dcp_world_size;
      ms ← make_managers (i + 1) dcp_world_size specs;
      Ok (m :: ms)
  end.

(** The loop of [verify_and_split_kv_cache_groups]: the two specifications and
    the two lists of group ids. *)
Fixpoint split_groups (i : Z) (specs : list LayerSpec) (full other : option LayerSpec) (fs os : list Z)
    : result (option LayerSpec * option LayerSpec * list Z * list Z) :=
  match specs with
  | [] => Ok (full, other, fs, os)
  | s :: specs =>
      if is_full_attention s then
        _ ← py_assert (match full with None => true | Some s0 => bool_decide (s0 = s) end);
        split_groups (i + 1) specs (Some (default s full)) other (fs ++ [i]) os
      else
        _ ← py_assert (match other with None => true | Some s0 => bool_decide (s0 = s) end);
        split_groups (i + 1) specs full (Some (default s other)) fs (os ++ [i])
  end.

Definition verify_and_split_kv_cache_groups (enable_caching : bool) (specs : list LayerSpec)
    : result HybridGroups :=
  '(full, other, fs, os) ← split_groups 0 specs None None [] [];
  full ← or_raise AssertionError full;
  other ← or_raise AssertionError other;
  cls ← spec_manager_map other;
  _ ← (if (enable_caching : bool) then
         divisible ← py_mod (layer_block_size other) (layer_block_size full);
         py_assert (divisible =? 0)
       else Ok tt);
  max_f ← py_max fs; min_f ← py_min fs; max_o ← py_max os; min_o ← py_min os;
  first ← (if max_f <? min_o then Ok true else if max_o <? min_f then Ok false else Raise ValueError);
  Ok (mkHybridGroups fs os full other cls first).

(** [get_kv_cache_coordinator]. *)
Definition get_kv_cache_coordinator (c : KVCacheConfig) (use_eagle enable_caching enable_kv_cache_events : bool)
    (dcp_world_size : Z) : result Coordinator :=
  pool ← new_pool (num_blocks c) enable_caching enable_kv_cache_events;
  specs ← mapM group_layer_spec (kv_cache_groups c);
  ms ← make_managers 0 dcp_world_size specs;
  cls ← (if negb enable_caching then Ok KVCacheCoordinatorNoPrefixCache
         else match specs with
              | [s] => Ok (UnitaryKVCacheCoordinator s)
              | _ =>
                  _ ← py_assert (dcp_world_size =? 1);
                  g ← verify_and_split_kv_cache_groups enable_caching specs;
                  Ok (HybridKVCacheCoordinator g)
              end);
  Ok {| coordinator_class := cls; coord_enable_caching := enable_caching; use_eagle := use_eagle;
        dcp_world_size := dcp_world_size; block_pool := pool; single_type_managers := ms |}.

(** ** Loops over the managers *)

(** [for i, manager in enumerate(managers)]: each operation may change its
    manager and the shared pool, and yields a value. *)
Fixpoint managers_loop {A} (f : Z -> Manager -> BlockPool -> result (A * Manager * BlockPool)) (i : Z)
    (ms : list Manager) (p : BlockPool) : result (list A * list Manager * BlockPool) :=
  match ms with
  | [] => Ok ([], [], p)
  | m :: ms =>
      '(a, m, p) ← f i m p;
      '(rest, ms, p) ← managers_loop f (i + 1) ms p;
      Ok (a :: rest, m :: ms, p)
  end.

Definition over_managers {A} (f : Z -> Manager -> BlockPool -> result (A * Manager * BlockPool))
    (c : Coordinator) : result (list A * Coordinator) :=
  '(rest, ms, p) ← managers_loop f 0 (single_type_managers c) (block_pool c);
  Ok (rest, c <| single_type_managers := ms |> <| block_pool := p |>).

Definition is_cross (m : Manager) : bool := bool_decide (manager_class m = CrossAttentionManager).

Definition coord_num_blocks_to_allocate (request_id : string) (num_tokens : Z)
    (new_computed_blocks : list (list Z)) (num_encoder_tokens : Z) (c : Coordinator)
    : result (Z * Coordinator) :=
  '(ns, c) ← over_managers (fun i m p =>
    if is_cross m then
      '(n, m) ← get_num_blocks_to_allocate request_id num_encoder_tokens [] m p; Ok (n, m, p)
    else
      blocks ← py_index new_computed_blocks i;
      '(n, m) ← get_num_blocks_to_allocate request_id num_tokens blocks m p; Ok (n, m, p)) c;
  Ok (int_sum ns, c).

Definition coord_save_new_computed_blocks (request_id : string) (new_computed_blocks : list (list Z))
    (c : Coordinator) : result Coordinator :=
  '(_, c) ← over_managers (fun i m p =>
    blocks ← py_index new_computed_blocks i;
    m ← save_new_computed_blocks request_id blocks m; Ok (tt, m, p)) c;
  Ok c.

Definition coord_free (request_id : string) (c : Coordinator) : result Coordinator :=
  '(_, c) ← over_managers (fun _ m p => '(m, p) ← KVManagers.free request_id m p; Ok (tt, m, p)) c;
  Ok c.

Definition coord_remove_skipped_blocks (request_id : string) (num_computed_tokens : Z) (c : Coordinator)
    : result Coordinator :=
  '(_, c) ← over_managers (fun _ m p =>
    '(m, p) ← remove_skipped_blocks request_id num_computed_tokens m p; Ok (tt, m, p)) c;
  Ok c.

Definition coord_get_num_common_prefix_blocks (running_request_id : string) (c : Coordinator)
    : result (list Z * Coordinator) :=
  match coordinator_class c with
  | KVCacheCoordinatorNoPrefixCache => Ok (replicate (length (single_type_managers c)) 0, c)
  | _ => over_managers (fun _ m p =>
           let '(n, m) := KVManagers.get_num_common_prefix_blocks running_request_id m p in Ok (n, m, p)) c
  end.

Definition coord_get_blocks (request_id : string) (c : Coordinator) : list (list Z) :=
  table request_id <$> single_type_managers c.

Section Coordinator.
Context (use_int_hashes : bool).

Definition coord_allocate_new_blocks (request_id : string) (num_tokens num_encoder_tokens : Z)
    (c : Coordinator) : result (list (list Z) * Coordinator) :=
  over_managers (fun _ m p =>
    allocate_new_blocks use_int_hashes request_id (if is_cross m then num_encoder_tokens else num_tokens) m p) c.

Definition coord_cache_blocks (request : Request) (num_computed_tokens : Z) (c : Coordinator)
    : result Coordinator :=
  '(_, c) ← over_managers (fun _ m p =>
    '(m, p) ← cache_blocks use_int_hashes request num_computed_tokens m p; Ok (tt, m, p)) c;
  Ok c.

End Coordinator.

(** ** The longest cached prefix *)

(** [del blocks[n:]] for every group. *)
Definition truncate_each (n : Z) (blocks : list (list Z)) : list (list Z) := slice_to n <$> blocks.

Definition coord_find_longest_cache_hit (block_hashes : list BlockHash) (max_cache_hit_length : Z)
    (c : Coordinator) : result (list (list Z) * Z) :=
  let p := block_pool c in
  match coordinator_class c with
  | KVCacheCoordinatorNoPrefixCache => Ok (replicate (length (single_type_managers c)) [], 0)
  | UnitaryKVCacheCoordinator spec =>
      m ← or_raise IndexError (head (single_type_managers c));
      hit_blocks ← find_longest_cache_hit block_hashes max_cache_hit_length [0] p (manager_class m) spec
                     (use_eagle c) (dcp_world_size c);
      first ← or_raise IndexError (head hit_blocks);
      let block_size := if 1 <? dcp_world_size c then layer_block_size spec * dcp_world_size c
                        else layer_block_size spec in
      Ok (hit_blocks, py_len first * block_size)
  | HybridKVCacheCoordinator g =>
      let full_size := layer_block_size (full_attention_spec g) in
      hit_full ← find_longest_cache_hit block_hashes max_cache_hit_length (full_attention_group_ids g) p
                   FullAttentionManager (full_attention_spec g) (use_eagle c) 1;
      first_full ← or_raise IndexError (head hit_full);
      hit_other ← find_longest_cache_hit block_hashes (py_len first_full * full_size) (other_group_ids g) p
                    (other_attention_cls g) (other_spec g) (use_eagle c) 1;
      first_other ← or_raise IndexError (head hit_other);
      let hit_length := py_len first_other * layer_block_size (other_spec g) in
      rem ← py_mod hit_length full_size;
      _ ← py_assert (rem =? 0);
      n ← py_floordiv hit_length full_size;
      let hit_full := truncate_each n hit_full in
      Ok (if full_attn_first g then hit_full ++ hit_other else hit_other ++ hit_full, hit_length)
  end.
