(* ===== verification/KVCacheInv.v ===== *)
(** * The invariant of all cache groups

    Every real block's reference count is the number of its occurrences in the
    tables of all managers; an operation over the managers keeps this, because the
    step of one manager leaves the blocks of the others alone. *)

From S2P Require Import Prelude PyDict PyList PyInt KVSpec FreeQueue Request KVHash BlockPool.
From S2P Require Import KVManagers KVTables KVCoordinator.
#[local] Open Scope Z_scope.

(** What the tables of some managers hold of a block. *)
Definition held_all (ms : list Manager) (b : Z) : Z := int_sum ((fun m => held m b) <$> ms).

Lemma held_all_cons m ms b : held_all (m :: ms) b = held m b + held_all ms b.
Proof. done. Qed.

Lemma held_nonneg m b : 0 <= held m b.
Proof. apply occ_tables_nonneg. Qed.

Lemma held_all_nonneg ms b : 0 <= held_all ms b.
Proof. apply int_sum_nonneg, Forall_fmap, Forall_true. intros m. apply held_nonneg. Qed.

Lemma held_in m ms b : m ∈ ms -> held m b <= held_all ms b.
Proof.
  induction ms as [|x ms IH]; [by intros ?%elem_of_nil|]. rewrite held_all_cons.
  intros [->|Hin]%elem_of_cons.
  - pose proof (held_all_nonneg ms b). lia.
  - pose proof (held_nonneg x b). pose proof (IH Hin). lia.
Qed.

Lemma held_table m k b : b ∈ table k m -> 0 < held m b.
Proof.
  intros Hb%occ_pos. pose proof (occ_le_tables b k (req_to_blocks m)). unfold held, table in *. lia.
Qed.

(** The part of the invariant that is a manager's own. *)
Record own_ok (m : Manager) (p : BlockPool) : Prop := {
  own_dict : dict_ok (req_to_blocks m) /\ dict_ok (num_cached_block m);
  own_tables : forall k l, dget k (req_to_blocks m) = Some l -> table_ok p l;
  own_cache : cache_ok m p;
}.

Record sys_inv (base : Z -> Z) (ms : list Manager) (p : BlockPool) (free : list Z) : Prop := {
  sy_pool : pool_ok p free;
  sy_base : forall b, 0 <= base b;
  sy_refs : forall b, real p b -> refs p b = base b + held_all ms b;
  sy_own : Forall (fun m => own_ok m p) ms;
}.

Lemma sys_ext base base' ms p free :
  (forall b, base b = base' b) -> sys_inv base ms p free -> sys_inv base' ms p free.
Proof. intros He [h1 h2 h3 h4]. split; try done; intros b; [|intros Hb]; rewrite <- He; auto. Qed.

Lemma own_frame others m p p' :
  frame others p p' -> (forall b, 0 < held m b -> 0 < others b) -> own_ok m p -> own_ok m p'.
Proof.
  intros [Hs Hf] Ho [h1 h2 h3]. split; [done| |].
  - intros k l Hk. eapply table_ok_shape; [exact Hs | by eapply h2].
  - intros Hec k. pose proof Hs as (_ & _ & Hec' & _). rewrite Hec' in Hec.
    destruct (h3 Hec k) as [Hc Hu]. split; [done|]. intros i b Hi Hle.
    apply Hf; [|by apply (Hu i)]. apply Ho. eapply held_table, list_elem_of_lookup_2, Hi.
Qed.

(** The invariant seen by the first manager. *)
Lemma sys_head base m ms p free :
  sys_inv base (m :: ms) p free -> mgr_inv (fun b => base b + held_all ms b) m p free.
Proof.
  intros [h1 h2 h3 h4]. inversion h4 as [|? ? [o1 o2 o3] ?]; subst. split; [split; try done|done].
  - intros b Hb. rewrite h3 by done. rewrite held_all_cons. cbn beta. lia.
  - intros b. pose proof (h2 b). pose proof (held_all_nonneg ms b). lia.
Qed.

(** ... and by the rest, once the first has made its step. *)
Lemma sys_tail base m m' ms p p' free free' give :
  sys_inv (fun b => base b + give b) (m :: ms) p free ->
  mgr_inv (fun b => base b + held_all ms b) m' p' free' -> (forall b, 0 <= base b) ->
  frame (fun b => base b + held_all ms b) p p' ->
  sys_inv (fun b => base b + held m' b) ms p' free'.
Proof.
  intros [h1 h2 h3 h4] [Hm Hc] Hb Hf. split.
  - apply Hm.
  - intros b. pose proof (Hb b). pose proof (held_nonneg m' b). lia.
  - intros b Hr. rewrite (mo_refs _ _ _ _ Hm) by done. cbn beta. lia.
  - inversion h4 as [|? ? _ h5]; subst.
    rewrite Forall_forall in h5 |- *. intros m0 Hin. eapply own_frame; [exact Hf | | by apply h5].
    intros b Hh. pose proof (Hb b). pose proof (held_in m0 ms b Hin). lia.
Qed.

(** ** Operations over all managers *)

Section Loop.
Context {A : Type} (f : Z -> Manager -> BlockPool -> result (A * Manager * BlockPool)).
(** What each manager is given of the references that are not in a table yet,
    how many free blocks it may use, and what holds before and after its step. *)
Context (give : Z -> Z -> Z) (cost : Z -> Manager -> Z) (p0 : BlockPool).
Context (pre : Z -> Manager -> Prop) (post : Z -> A -> Manager -> Manager -> Prop).
Context (rel : BlockPool -> BlockPool -> Prop).
Hypothesis rel_refl : forall p, rel p p.
Hypothesis rel_trans : forall p1 p2 p3, rel p1 p2 -> rel p2 p3 -> rel p1 p3.
Hypothesis give_nonneg : forall i b, 0 <= give i b.
Hypothesis step_ok : forall i others m p free,
  mgr_inv (fun b => others b + give i b) m p free -> (forall b, 0 <= others b) -> same_shape p0 p ->
  pre i m -> cost i m <= py_len free ->
  exists a m' p' free', f i m p = Ok (a, m', p') /\ mgr_inv others m' p' free' /\ frame others p p' /\
    post i a m m' /\ rel p p' /\ py_len free - Z.max 0 (cost i m) <= py_len free'.

Fixpoint give_all (i : Z) (ms : list Manager) (b : Z) : Z :=
  match ms with [] => 0 | _ :: ms => give i b + give_all (i + 1) ms b end.
Fixpoint cost_all (i : Z) (ms : list Manager) : Z :=
  match ms with [] => 0 | m :: ms => Z.max 0 (cost i m) + cost_all (i + 1) ms end.
Fixpoint pre_all (i : Z) (ms : list Manager) : Prop :=
  match ms with [] => True | m :: ms => pre i m /\ pre_all (i + 1) ms end.
Fixpoint post_all (i : Z) (rs : list A) (ms ms' : list Manager) : Prop :=
  match rs, ms, ms' with
  | [], [], [] => True
  | a :: rs, m :: ms, m' :: ms' => post i a m m' /\ post_all (i + 1) rs ms ms'
  | _, _, _ => False
  end.

Lemma give_all_nonneg i ms b : 0 <= give_all i ms b.
Proof. revert i. induction ms as [|m ms IH]; intros i; cbn; [lia|]. pose proof (give_nonneg i b). pose proof (IH (i + 1)). lia. Qed.
Lemma cost_all_nonneg i ms : 0 <= cost_all i ms.
Proof. revert i. induction ms as [|m ms IH]; intros i; cbn; [lia|]. pose proof (IH (i + 1)). lia. Qed.

Lemma managers_loop_ok base i ms p free :
  sys_inv (fun b => base b + give_all i ms b) ms p free -> (forall b, 0 <= base b) -> same_shape p0 p ->
  pre_all i ms -> cost_all i ms <= py_len free ->
  exists rs ms' p' free', managers_loop f i ms p = Ok (rs, ms', p') /\ sys_inv base ms' p' free' /\
    frame base p p' /\ post_all i rs ms ms' /\ rel p p' /\ py_len free - cost_all i ms <= py_len free'.
Proof.
  revert base i p free. induction ms as [|m ms IH]; intros base i p free Hsys Hb Hs Hpre Hcost; cbn [managers_loop] in *.
  { exists [], [], p, free. split; [done|]. split; [|split; [apply frame_refl|split; [done|split; [done | cbn; lia]]]].
    eapply sys_ext; [|exact Hsys]. intros b. cbn. lia. }
  cbn [give_all cost_all pre_all] in *. destruct Hpre as [Hpre Hpres].
  set (base1 := fun b => base b + give_all (i + 1) ms b).
  assert (Hb1 : forall b, 0 <= base1 b) by (intros b; unfold base1; pose proof (Hb b); pose proof (give_all_nonneg (i + 1) ms b); lia).
  assert (Hsys1 : sys_inv (fun b => base1 b + give i b) (m :: ms) p free).
  { eapply sys_ext; [|exact Hsys]. intros b. unfold base1. cbn beta. lia. }
  pose proof (cost_all_nonneg (i + 1) ms).
  destruct (step_ok i (fun b => base1 b + held_all ms b) m p free) as (a & m1 & p1 & free1 & Hr & Hm1 & Hf1 & Hpost & Hrel & Hl1);
    [|intros b; pose proof (Hb1 b); pose proof (held_all_nonneg ms b); lia|done|done|lia|].
  { destruct (sys_head _ _ _ _ _ Hsys1) as [Hm Hc]. split; [|done]. eapply mgr_ok_ext; [|exact Hm]. intros b. cbn beta. lia. }
  rewrite Hr. bind_ok.
  assert (Hsys2 : sys_inv (fun b => base1 b + held m1 b) ms p1 free1) by (by eapply sys_tail).
  destruct (IH (fun b => base b + held m1 b) (i + 1) p1 free1) as (rs & ms' & p' & free' & Hr' & Hsys' & Hf' & Hposts & Hrel' & Hl').
  { eapply sys_ext; [|exact Hsys2]. intros b. unfold base1. cbn beta. lia. }
  { intros b. pose proof (Hb b). pose proof (held_nonneg m1 b). lia. }
  { eapply same_shape_trans; [exact Hs | apply Hf1]. }
  { done. }
  { lia. }
  unfold mbind, result_bind in Hr'. rewrite Hr'. exists (a :: rs), (m1 :: ms'), p', free'. split; [done|].
  assert (Hfb : frame base p p').
  { eapply frame_trans.
    - destruct Hf1 as [? Hf1]. split; [done|]. intros b Hbb. apply Hf1. unfold base1.
      pose proof (give_all_nonneg (i + 1) ms b). pose proof (held_all_nonneg ms b). lia.
    - destruct Hf' as [? Hf']. split; [done|]. intros b Hbb. apply Hf'. pose proof (held_nonneg m1 b). lia. }
  split; [|split; [done|split; [done|split; [by eapply rel_trans | lia]]]].
  destruct Hsys' as [s1 s2 s3 s4]. split; [done|done| |].
  - intros b Hrb. rewrite s3 by done. rewrite held_all_cons. cbn beta. lia.
  - constructor; [|done]. destruct Hm1 as [Hm1 Hc1]. eapply own_frame; [exact Hf' | |].
    + intros b Hh. pose proof (Hb b). lia.
    + destruct Hm1 as [t1 t2 t3 t4 t5]. by split.
Qed.

End Loop.

Lemma give_all_zero i ms b : give_all (fun _ _ => 0) i ms b = 0.
Proof. revert i. induction ms as [|m ms IH]; intros i; cbn; [done|]. by rewrite IH. Qed.

Lemma post_all_lookup {A} (post : Z -> A -> Manager -> Manager -> Prop) i rs ms ms' j m :
  post_all post i rs ms ms' -> ms !! j = Some m ->
  exists a m', rs !! j = Some a /\ ms' !! j = Some m' /\ post (i + Z.of_nat j) a m m'.
Proof.
  revert i j ms ms'. induction rs as [|a rs IH]; intros i j [|m0 ms] [|m' ms'] H Hj; try done.
  destruct H as [H Hs]. destruct j as [|j]; cbn in *.
  - injection Hj as ->. rewrite Z.add_0_r. by exists a, m'.
  - destruct (IH (i + 1) j ms ms' Hs Hj) as (a' & m2 & h1 & h2 & h3). exists a', m2.
    replace (i + Z.of_nat (S j)) with (i + 1 + Z.of_nat j) by lia. done.
Qed.

Lemma post_all_length {A} (post : Z -> A -> Manager -> Manager -> Prop) i rs ms ms' :
  post_all post i rs ms ms' -> length rs = length ms /\ length ms' = length ms.
Proof.
  revert i ms ms'. induction rs as [|a rs IH]; intros i [|m0 ms] [|m' ms'] H; try done.
  destruct H as [_ H]. apply IH in H. cbn. lia.
Qed.

Lemma pre_all_intro (pre : Z -> Manager -> Prop) i ms :
  (forall j m, ms !! j = Some m -> pre (i + Z.of_nat j) m) -> pre_all pre i ms.
Proof.
  revert i. induction ms as [|m ms IH]; intros i H; cbn; [done|]. split.
  - specialize (H 0%nat m eq_refl). by rewrite Z.add_0_r in H.
  - apply IH. intros j m' Hj. specialize (H (S j) m' Hj). by replace (i + 1 + Z.of_nat j) with (i + Z.of_nat (S j)) by lia.
Qed.

(** The condition on a manager's configuration. *)
Definition config_ok (p : BlockPool) (m : Manager) : Prop :=
  0 < block_size m /\ (enable_caching p = true -> manager_class m <> CrossAttentionManager /\
    0 <= kv_cache_group_id m < 2 ^ 32) /\ 0 < layer_block_size (mgr_spec m).

Lemma config_ok_same p p' m m' :
  same_shape p p' -> same_config m m' -> config_ok p m -> config_ok p' m'.
Proof.
  intros (_ & _ & Hec & _) (h1 & h2 & h3 & h4) [? ?]. unfold config_ok. rewrite Hec, h1, h2, h3, h4. done.
Qed.

Definition coord_inv (c : Coordinator) (free : list Z) : Prop :=
  sys_inv (fun _ => 0) (single_type_managers c) (block_pool c) free /\
  Forall (config_ok (block_pool c)) (single_type_managers c).

(** The managers of a coordinator before and after an operation. *)
Definition each_manager (c c' : Coordinator) (post : Z -> Manager -> Manager -> Prop) : Prop :=
  length (single_type_managers c') = length (single_type_managers c) /\
  forall j m, single_type_managers c !! j = Some m ->
    exists m', single_type_managers c' !! j = Some m' /\ post (Z.of_nat j) m m'.

Lemma over_managers_ok {A} f (cost : Z -> Manager -> Z) (pre : Z -> Manager -> Prop)
    (post : Z -> A -> Manager -> Manager -> Prop) (rel : BlockPool -> BlockPool -> Prop) c free :
  (forall p, rel p p) -> (forall p1 p2 p3, rel p1 p2 -> rel p2 p3 -> rel p1 p3) ->
  (forall i others m p free,
    mgr_inv others m p free -> same_shape (block_pool c) p -> pre i m -> config_ok p m -> cost i m <= py_len free ->
    exists a m' p' free', f i m p = Ok (a, m', p') /\ mgr_inv others m' p' free' /\ frame others p p' /\
      same_config m m' /\ post i a m m' /\ rel p p' /\ py_len free - Z.max 0 (cost i m) <= py_len free') ->
  coord_inv c free -> (forall j m, single_type_managers c !! j = Some m -> pre (Z.of_nat j) m) ->
  cost_all cost 0 (single_type_managers c) <= py_len free ->
  exists rs c' free', over_managers f c = Ok (rs, c') /\ coord_inv c' free' /\
    c' = c <| single_type_managers := single_type_managers c' |> <| block_pool := block_pool c' |> /\
    same_shape (block_pool c) (block_pool c') /\ rel (block_pool c) (block_pool c') /\
    py_len free - cost_all cost 0 (single_type_managers c) <= py_len free' /\
    length rs = length (single_type_managers c) /\
    each_manager c c' (fun i m m' => same_config m m' /\ exists a, rs !! Z.to_nat i = Some a /\ post i a m m').
Proof.
  intros Hrefl Htrans Hstep [Hsys Hcfg] Hpre Hcost.
  set (pre' := fun i m => pre i m /\ config_ok (block_pool c) m).
  set (post' := fun i a m m' => same_config m m' /\ post i a m m').
  destruct (managers_loop_ok f (fun _ _ => 0) cost (block_pool c) pre' post' rel Hrefl Htrans ltac:(done))
    with (base := fun _ : Z => 0) (i := 0) (ms := single_type_managers c) (p := block_pool c) (free := free)
    as (rs & ms' & p' & free' & Hr & Hsys' & Hf & Hpost & Hrel & Hl); try done.
  - intros i others m p fr Hm Ho Hs [Hp Hc] Hle.
    destruct (Hstep i others m p fr) as (a & m' & p' & fr' & h1 & h2 & h3 & h4 & h5 & h6 & h7); try done.
    + destruct Hm as [Hm ?]. split; [|done]. eapply mgr_ok_ext; [|exact Hm]. intros b. cbn. lia.
    + eapply config_ok_same; [exact Hs | | exact Hc]. done.
    + exists a, m', p', fr'. done.
  - eapply sys_ext; [|exact Hsys]. intros b. cbn beta. rewrite give_all_zero. lia.
  - apply pre_all_intro. intros j m Hj. split; [by apply (Hpre j)|].
    rewrite Forall_forall in Hcfg. apply Hcfg. by eapply list_elem_of_lookup_2.
  - destruct (post_all_length _ _ _ _ _ Hpost) as [Hlr Hlm].
    unfold over_managers. rewrite Hr. bind_ok. eexists rs, _, free'. split; [reflexivity|]. cbn.
    split; [split; [done|]|].
    + cbn. apply Forall_lookup. intros j m' Hm'. apply lookup_lt_Some in Hm' as Hlt. rewrite Hlm in Hlt.
      destruct (lookup_lt_is_Some_2 _ _ Hlt) as [m Hm].
      destruct (post_all_lookup _ _ _ _ _ _ _ Hpost Hm) as (a & m2 & _ & Hm2 & Hsc & _).
      rewrite Hm2 in Hm'. injection Hm' as <-. eapply config_ok_same; [apply Hf | exact Hsc|].
      rewrite Forall_forall in Hcfg. apply Hcfg. by eapply list_elem_of_lookup_2.
    + split; [by destruct c|]. split; [apply Hf|]. split; [done|]. split; [done|]. split; [done|]. split; [done|].
      intros j m Hm. destruct (post_all_lookup _ _ _ _ _ _ _ Hpost Hm) as (a & m2 & Ha & Hm2 & Hsc & Hp).
      exists m2. split; [done|]. split; [done|]. exists a. rewrite Nat2Z.id. done.
Qed.
