(* ===== verification/KVCacheOps.v ===== *)
(** * The coordinator's operations keep the invariant

    The operations of KVCoordinator over all managers, each with what it does to
    every manager's tables. *)

From S2P Require Import Prelude PyDict PyList PyInt KVSpec FreeQueue Request KVHash BlockPool.
From S2P Require Import KVManagers KVTables KVCoordinator KVCacheInv.
#[local] Open Scope Z_scope.

(** ** Release *)

Definition same_hashes (p p' : BlockPool) : Prop := forall b, hash_of p' b = hash_of p b.

Lemma same_hashes_trans p1 p2 p3 : same_hashes p1 p2 -> same_hashes p2 p3 -> same_hashes p1 p3.
Proof. intros h1 h2 b. by rewrite h2. Qed.

Lemma cost_all_free ms i : cost_all (fun _ _ => 0) i ms = 0.
Proof. revert i. induction ms as [|m ms IH]; intros i; cbn; [done|]. by rewrite IH. Qed.

Lemma coord_free_ok k c free :
  coord_inv c free ->
  exists c' free', coord_free k c = Ok c' /\ coord_inv c' free' /\
    c' = c <| single_type_managers := single_type_managers c' |> <| block_pool := block_pool c' |> /\
    same_shape (block_pool c) (block_pool c') /\ same_hashes (block_pool c) (block_pool c') /\
    each_manager c c' (fun _ m m' => same_config m m' /\ req_to_blocks m' = ddel k (req_to_blocks m) /\
      num_cached_block m' = ddel k (num_cached_block m)).
Proof.
  intros Hc. unfold coord_free.
  destruct (over_managers_ok (fun _ m p => '(m, p) ← KVManagers.free k m p; Ok (tt, m, p)) (fun _ _ => 0)
    (fun _ _ => True) (fun _ _ m m' => req_to_blocks m' = ddel k (req_to_blocks m) /\
      num_cached_block m' = ddel k (num_cached_block m)) same_hashes c free ltac:(done) same_hashes_trans)
    as (rs & c' & free' & Hr & Hc' & Heq & Hs & Hh & _ & _ & [Hl He]); try done.
  - intros i others m p fr Hm _ _ _ _.
    destruct (free_keeps others m p fr k Hm) as (m' & p' & fr' & h1 & h2 & h3 & h4 & h5 & h6 & h7 & h8).
    exists tt, m', p', fr'. rewrite h1. bind_ok. split; [done|]. split; [done|]. split; [done|]. split; [done|].
    split; [done|]. split; [done|]. unfold py_len. lia.
  - rewrite cost_all_free. unfold py_len. lia.
  - exists c', free'. rewrite Hr. bind_ok. split; [done|]. split; [done|]. split; [done|]. split; [done|].
    split; [done|]. split; [done|]. intros j m Hj. destruct (He j m Hj) as (m' & Hm' & Hcfg & a & _ & Hp).
    by exists m'.
Qed.

(** ** Skipped blocks *)

(** The blocks a manager may skip are in the table and, with caching, cached. *)
Definition skippable (p : BlockPool) (k : string) (num_computed_tokens : Z) (m : Manager) : Prop :=
  exists n, get_num_skipped_tokens m num_computed_tokens = Ok n /\ n / block_size m <= py_len (table k m) /\
    (enable_caching p = true -> n / block_size m <= num_cached k m).

Lemma coord_remove_skipped_ok k n c free :
  coord_inv c free -> Forall (skippable (block_pool c) k n) (single_type_managers c) ->
  exists c' free', coord_remove_skipped_blocks k n c = Ok c' /\ coord_inv c' free' /\
    c' = c <| single_type_managers := single_type_managers c' |> <| block_pool := block_pool c' |> /\
    same_shape (block_pool c) (block_pool c') /\ same_hashes (block_pool c) (block_pool c') /\
    each_manager c c' (fun _ m m' => same_config m m' /\ num_cached_block m' = num_cached_block m /\
      length (table k m') = length (table k m) /\
      forall i b, table k m' !! i = Some b -> table k m !! i = Some b \/ b = 0).
Proof.
  intros Hc Hskip. rewrite Forall_forall in Hskip. unfold coord_remove_skipped_blocks.
  destruct (over_managers_ok (fun _ m p => '(m, p) ← remove_skipped_blocks k n m p; Ok (tt, m, p)) (fun _ _ => 0)
    (fun _ m => skippable (block_pool c) k n m) (fun _ _ m m' => num_cached_block m' = num_cached_block m /\
      length (table k m') = length (table k m) /\
      forall i b, table k m' !! i = Some b -> table k m !! i = Some b \/ b = 0) same_hashes c free ltac:(done) same_hashes_trans)
    as (rs & c' & free' & Hr & Hc' & Heq & Hs & Hh & _ & _ & [Hl He]); try done.
  - intros i others m p fr Hm Hsh (s & Hs & Hl & Hcl) [Hbs _] _.
    destruct (skip_keeps others m p fr k s n Hm Hbs Hs Hl) as (m' & p' & fr' & h1 & h2 & h3 & h4 & h5 & h6 & h7 & h8 & h9 & _).
    { destruct Hsh as (_ & _ & -> & _). done. }
    exists tt, m', p', fr'. rewrite h1. bind_ok. split; [done|]. split; [done|]. split; [done|]. split; [done|].
    split; [|split; [done|unfold py_len; lia]]. split; [done|]. split; [done|]. intros j b Hj.
    destruct (h7 j b Hj) as [?|[? _]]; auto.
  - intros j m Hj. apply Hskip. by eapply list_elem_of_lookup_2.
  - rewrite cost_all_free. unfold py_len. lia.
  - exists c', free'. rewrite Hr. bind_ok. split; [done|]. split; [done|]. split; [done|]. split; [done|].
    split; [done|]. split; [done|]. intros j m Hj. destruct (He j m Hj) as (m' & Hm' & Hcfg & a & _ & Hp).
    by exists m'.
Qed.

(** ** Counting *)

Definition tokens_for (m : Manager) (num_tokens num_encoder_tokens : Z) : Z :=
  if is_cross m then num_encoder_tokens else num_tokens.

(** The blocks a manager needs beside its table and its hits. *)
Definition needed (k : string) (num_tokens num_encoder_tokens : Z) (hits : list Z) (m : Manager) : Z :=
  shortfall k (tokens_for m num_tokens num_encoder_tokens) m - (if is_cross m then 0 else py_len hits).
Definition num_evictable (p : BlockPool) (hits : list Z) (m : Manager) : Z :=
  if is_cross m then 0 else py_len (List.filter (evictable p) hits).

Lemma count_loop k n e hits p i ms :
  Forall (fun m => 0 < block_size m) ms -> length hits = (Z.to_nat i + length ms)%nat -> 0 <= i ->
  managers_loop (fun i m p =>
    if is_cross m then
      '(n, m) ← get_num_blocks_to_allocate k e [] m p; Ok (n, m, p)
    else
      blocks ← py_index hits i;
      '(n, m) ← get_num_blocks_to_allocate k n blocks m p; Ok (n, m, p)) i ms p
  = Ok (zip_with (fun h m => needed k n e h m + num_evictable p h m) (drop (Z.to_nat i) hits) ms,
        (fun m => (read_table k m).2) <$> ms, p).
Proof.
  revert i. induction ms as [|m ms IH]; intros i Hbs Hl Hi; cbn [managers_loop].
  { cbn in Hl. by rewrite drop_ge by lia. }
  apply Forall_cons in Hbs as [Hb Hbs]. cbn [length] in Hl.
  destruct (lookup_lt_is_Some_2 hits (Z.to_nat i)) as [h Hh]; [lia|].
  rewrite (drop_S _ h) by done. cbn [zip_with fmap list_fmap].
  assert (Hnum : forall tokens blocks, get_num_blocks_to_allocate k tokens blocks m p
    = Ok (shortfall k tokens m - py_len blocks + py_len (List.filter (evictable p) blocks), (read_table k m).2)).
  { intros. unfold get_num_blocks_to_allocate. rewrite cdiv_ok by done. bind_ok. unfold read_table, shortfall.
    cbn. fold (table k m). do 2 f_equal. lia. }
  assert (Hrest : managers_loop (fun i m p =>
    if is_cross m then '(n, m) ← get_num_blocks_to_allocate k e [] m p; Ok (n, m, p)
    else blocks ← py_index hits i; '(n, m) ← get_num_blocks_to_allocate k n blocks m p; Ok (n, m, p)) (i + 1) ms p
    = Ok (zip_with (fun h m => needed k n e h m + num_evictable p h m) (drop (S (Z.to_nat i)) hits) ms,
        (fun m => (read_table k m).2) <$> ms, p)).
  { rewrite (IH (i + 1)) by (done || lia). by replace (Z.to_nat (i + 1)) with (S (Z.to_nat i)) by lia. }
  unfold needed, num_evictable, tokens_for in *. destruct (is_cross m) eqn:Hx.
  - rewrite Hnum. bind_ok. unfold mbind, result_bind in Hrest. rewrite Hrest. cbn. repeat f_equal; unfold py_len; cbn; lia.
  - rewrite (py_index_Some hits i h) by done. bind_ok. rewrite Hnum.
    unfold mbind, result_bind in Hrest. rewrite Hrest. done.
Qed.

Lemma coord_read_inv k c free :
  coord_inv c free ->
  coord_inv (c <| single_type_managers := (fun m => (read_table k m).2) <$> single_type_managers c |>) free.
Proof.
  intros [[h1 h2 h3 h4] Hcfg]. split; [split; try done|].
  - intros b Hb. rewrite h3 by done. cbn. f_equal. unfold held_all. rewrite <- list_fmap_compose. f_equal.
    apply list_fmap_ext. intros _ m _. unfold held. cbn. by rewrite occ_tables_setdefault.
  - cbn. apply Forall_fmap. eapply Forall_impl; [exact h4|]. intros m [[o1 o1'] o2 o3]. split.
    + cbn. split; [by apply dict_ok_setdefault | done].
    + intros k' l'. cbn. rewrite dget_setdefault. destruct (decide (k' = k)); [|apply o2].
      intros [= <-]. unfold dget_or. destruct (dget k (req_to_blocks m)) eqn:E; [by eapply o2|apply table_ok_nil].
    + intros Hec k'. unfold table. cbn. rewrite dget_or_setdefault. by apply o3.
  - cbn. apply Forall_fmap. eapply Forall_impl; [exact Hcfg|]. done.
Qed.

Definition num_needed (k : string) (n e : Z) (hits : list (list Z)) (c : Coordinator) : Z :=
  int_sum (zip_with (fun h m => needed k n e h m + num_evictable (block_pool c) h m) hits (single_type_managers c)).

Lemma coord_num_blocks_ok k n e hits c free :
  coord_inv c free -> length hits = length (single_type_managers c) ->
  coord_num_blocks_to_allocate k n hits e c
  = Ok (num_needed k n e hits c,
        c <| single_type_managers := (fun m => (read_table k m).2) <$> single_type_managers c |>).
Proof.
  intros [_ Hcfg] Hl. unfold coord_num_blocks_to_allocate, over_managers.
  rewrite count_loop; [bind_ok; by destruct c| |done|done].
  eapply Forall_impl; [exact Hcfg|]. by intros m [? _].
Qed.

(** ** Hits *)

(** Hits are blocks of the pool that carry a hash, each once. *)
Record hits_ok (p : BlockPool) (hits : list (list Z)) : Prop := {
  hit_blocks : forall b, b ∈ concat hits -> block_of p b;
  hit_once : forall b, b <> 0 -> occ b (concat hits) <= 1;
  hit_hashed : forall b, b ∈ concat hits -> b <> 0 -> is_Some (hash_of p b);
}.

Lemma hits_ok_nil p n : hits_ok p (replicate n []).
Proof.
  assert (He : concat (replicate n ([] : list Z)) = []) by (induction n; done).
  split; rewrite He; [by intros b ?%elem_of_nil | intros; rewrite occ_nil; lia | by intros b ?%elem_of_nil].
Qed.

Lemma hits_ok_same p p' hits : same_shape p p' -> same_hashes p p' -> hits_ok p hits -> hits_ok p' hits.
Proof.
  intros Hs Hh [h1 h2 h3]. split; [|done|].
  - intros b Hb. apply (block_of_shape p p'); auto.
  - intros b Hb Hb0. rewrite Hh. auto.
Qed.

Lemma bfilter_filter {A} (f g : A -> bool) l :
  List.filter f (List.filter g l) = List.filter (fun x => f x && g x) l.
Proof.
  induction l as [|x l IH]; cbn; [done|]. destruct (g x); cbn; rewrite IH;
    [by rewrite andb_true_r | by rewrite andb_false_r].
Qed.

Lemma untouched_length p free bs :
  pool_ok p free -> (forall b, b ∈ bs -> block_of p b) -> (forall b, b <> 0 -> occ b bs <= 1) ->
  py_len (untouched bs free) = py_len free - py_len (List.filter (evictable p) bs).
Proof.
  intros Hp Hof Hone.
  pose proof (po_nodup _ _ _ Hp) as Hnd. rewrite app_nil_r in Hnd.
  assert (Hperm : List.filter (fun b => bool_decide (b ∈ bs)) free ≡ₚ List.filter (evictable p) bs).
  { apply NoDup_Permutation; [by apply bfilter_NoDup| |].
    - apply occ_NoDup_iff. intros b.
      replace (List.filter (evictable p) bs)
        with (List.filter (evictable p) (List.filter (fun b => negb (b =? 0)) bs)).
      + assert (Hle : forall l, occ b (List.filter (evictable p) l) <= occ b l).
        { clear. induction l as [|x l IH]; cbn; [lia|]. destruct (evictable p x); rewrite ?occ_cons; case_decide; lia. }
        etrans; [apply Hle|]. rewrite occ_nonnull. destruct (decide (b = 0)); [lia|]. by apply Hone.
      + rewrite bfilter_filter. apply filter_ext_in'. intros x _. unfold evictable.
        rewrite (po_flags _ _ _ Hp). destruct (Z.eqb_spec x 0) as [->|Hx]; cbn.
        * rewrite bool_decide_eq_true_2 by done. by destruct (ref_cnt (block p 0) =? 0).
        * rewrite bool_decide_eq_false_2 by done. by destruct (ref_cnt (block p x) =? 0).
    - intros b. rewrite !elem_of_list_bfilter. pose proof (po_free _ _ _ Hp b) as Hf. rewrite app_nil_r in Hf.
      rewrite bool_decide_eq_true, Hf. unfold evictable. rewrite (po_flags _ _ _ Hp).
      rewrite andb_true_iff, Z.eqb_eq, negb_true_iff, bool_decide_eq_false. unfold refs. split.
      + intros (Hin & Hr & H0). unfold real in Hr. split; [split; [done | lia] | done].
      + intros [[H0 Hb] Hin]. split; [done|]. split; [|done]. by apply block_of_real; [apply Hof|]. }
  apply Permutation_length in Hperm. unfold py_len. rewrite <- Hperm. unfold untouched. clear.
  induction free as [|x l IH]; cbn; [lia|]. destruct (decide (x ∈ bs)) as [Hx|Hx].
  - rewrite bool_decide_eq_false_2 by tauto. rewrite bool_decide_eq_true_2 by done. cbn [length]. lia.
  - rewrite bool_decide_eq_true_2 by done. rewrite bool_decide_eq_false_2 by done. cbn [length]. lia.
Qed.

Lemma touch_sys base ms p free hits :
  sys_inv base ms p free -> hits_ok p hits ->
  exists p', touch hits p = Ok p' /\
    sys_inv (fun b => base b + occ b (concat hits)) ms p' (untouched (concat hits) free) /\
    same_shape p p' /\ same_hashes p p' /\
    py_len (untouched (concat hits) free) = py_len free - py_len (List.filter (evictable p) (concat hits)).
Proof.
  intros [h1 h2 h3 h4] [g1 g2 g3]. unfold touch. rewrite for_each_concat.
  destruct (touch_loop p free (concat hits) h1 g1) as (p' & Hr & Hp' & Hs & Hf & Hh).
  exists p'. split; [done|]. split; [|split; [done|split; [done|by apply untouched_length]]].
  split; [done| | |].
  - intros b. pose proof (h2 b). pose proof (occ_nonneg b (concat hits)). lia.
  - intros b Hb. apply (real_shape p p') in Hb; [|done]. rewrite Hf, h3 by done. lia.
  - eapply Forall_impl; [exact h4|]. intros m Hm. eapply (own_frame (held m) m p p'); [|done|done].
    split; [done|]. intros b _ Hu. pose proof Hu as (Hb & Hn & _). apply (unshared_same p); [done| |apply Hh|done].
    rewrite Hf. rewrite occ_absent; [lia|]. intros Hin. assert (b <> 0) by (unfold real in Hb; lia).
    destruct (g3 b Hin) as [? ?]; [done|]. congruence.
Qed.

(** A request that has no table and no cached count yet. *)
Definition fresh_request (k : string) (m : Manager) : Prop :=
  table k m = [] /\ dget k (num_cached_block m) = None /\ manager_class m <> CrossAttentionManager.

Lemma concat_give hits : forall (ms : list Manager) i b, 0 <= i -> length hits = (Z.to_nat i + length ms)%nat ->
  give_all (fun i b => occ b (default [] (hits !! Z.to_nat i))) i ms b = occ b (concat (drop (Z.to_nat i) hits)).
Proof.
  induction ms as [|m ms IH]; intros i b Hi Hl; cbn [give_all length] in *.
  - rewrite drop_ge by lia. done.
  - destruct (lookup_lt_is_Some_2 hits (Z.to_nat i)) as [h Hh]; [lia|].
    rewrite (drop_S _ h), Hh by done. cbn [concat default]. rewrite occ_app, IH by lia.
    by replace (Z.to_nat (i + 1)) with (S (Z.to_nat i)) by lia.
Qed.

Lemma coord_save_ok k hits c free :
  sys_inv (fun b => 0 + occ b (concat hits)) (single_type_managers c) (block_pool c) free ->
  Forall (config_ok (block_pool c)) (single_type_managers c) -> hits_ok (block_pool c) hits ->
  length hits = length (single_type_managers c) -> Forall (fresh_request k) (single_type_managers c) ->
  exists c' free', coord_save_new_computed_blocks k hits c = Ok c' /\ coord_inv c' free' /\
    py_len free <= py_len free' /\
    c' = c <| single_type_managers := single_type_managers c' |> <| block_pool := block_pool c |> /\
    each_manager c c' (fun i m m' => same_config m m' /\ table k m' = default [] (hits !! Z.to_nat i) /\
      num_cached k m' = py_len (table k m')).
Proof.
  intros Hsys Hcfg Hh Hl Hfresh. rewrite Forall_forall in Hfresh, Hcfg.
  set (give := fun (i b : Z) => occ b (default [] (hits !! Z.to_nat i))).
  set (post := fun i (_ : unit) m m' => same_config m m' /\ table k m' = default [] (hits !! Z.to_nat i) /\
      num_cached k m' = py_len (table k m')).
  destruct (managers_loop_ok (fun i m p => blocks ← py_index hits i; m ← save_new_computed_blocks k blocks m; Ok (tt, m, p))
    give (fun _ _ => 0) (block_pool c) (fun i m => fresh_request k m /\ is_Some (hits !! Z.to_nat i) /\ 0 <= i) post
    (fun p p' => p' = p) ltac:(done) ltac:(congruence) ltac:(intros; apply occ_nonneg))
    with (base := fun _ : Z => 0) (i := 0) (ms := single_type_managers c) (p := block_pool c) (free := free)
    as (rs & ms' & p' & free' & Hr & Hsys' & _ & Hpost & -> & Hlen); try done.
  - intros i others m p fr Hm Ho Hs ((Ht & Hn & Hx) & [h Hi] & Hi0) _. rewrite (py_index_Some hits i h) by done. bind_ok.
    unfold give in Hm. rewrite Hi in Hm. cbn [default] in Hm.
    assert (Hin : forall b, b ∈ h -> b ∈ concat hits).
    { intros b Hb. apply list_elem_of_In, in_concat. exists h. split; apply list_elem_of_In; [by eapply list_elem_of_lookup_2 | done]. }
    destruct (save_keeps others m p fr k h Hm Ho) as (m' & h1 & h2 & h3 & h4 & h5); [|done|done|done|].
    + split.
      * intros b Hb. apply (block_of_shape (block_pool c) p); [done|]. apply (hit_blocks _ _ Hh). auto.
      * intros b Hb. etrans; [|by apply (hit_once _ _ Hh b)].
        apply list_elem_of_split_length in Hi as (l1 & l2 & -> & _). rewrite concat_app. cbn [concat].
        rewrite !occ_app. pose proof (occ_nonneg b (concat l1)). pose proof (occ_nonneg b (concat l2)). lia.
    + rewrite h1. exists tt, m', p, fr. split; [done|]. split; [done|]. split; [apply frame_refl|].
      split; [|split; [done|lia]]. unfold post. rewrite Hi. cbn [default]. rewrite h4. done.
  - eapply sys_ext; [|exact Hsys]. intros b. cbn beta. unfold give. rewrite concat_give by (cbn; lia). done.
  - apply pre_all_intro. intros j m Hj. split; [apply Hfresh; by eapply list_elem_of_lookup_2|].
    split; [|lia]. rewrite Z.add_0_l, Nat2Z.id. apply lookup_lt_is_Some_2. apply lookup_lt_Some in Hj. lia.
  - rewrite cost_all_free. unfold py_len. lia.
  - unfold coord_save_new_computed_blocks, over_managers. unfold mbind, result_bind in Hr |- *. rewrite Hr.
    rewrite cost_all_free in Hlen. destruct (post_all_length _ _ _ _ _ Hpost) as [_ Hlm].
    eexists _, free'. split; [reflexivity|]. cbn. split; [split; [done|]|].
    + apply Forall_lookup. intros j m' Hm'. apply lookup_lt_Some in Hm' as Hlt. cbn in Hm', Hlt |- *. rewrite Hlm in Hlt.
      destruct (lookup_lt_is_Some_2 _ _ Hlt) as [m Hm].
      destruct (post_all_lookup _ _ _ _ _ _ _ Hpost Hm) as (a & m2 & _ & Hm2 & Hsc & _).
      rewrite Hm2 in Hm'. injection Hm' as <-. eapply config_ok_same; [| exact Hsc|]; [done|].
      apply Hcfg. by eapply list_elem_of_lookup_2.
    + split; [lia|]. split; [by destruct c|]. split; [done|]. intros j m Hm.
      destruct (post_all_lookup _ _ _ _ _ _ _ Hpost Hm) as (a & m2 & _ & Hm2 & Hp).
      exists m2. split; [done|]. by rewrite Z.add_0_l in Hp.
Qed.

(** ** Allocation and caching *)

Section Slots.
Context (use_int_hashes : bool).

Lemma coord_allocate_ok k n e c free :
  coord_inv c free ->
  cost_all (fun _ m => shortfall k (tokens_for m n e) m) 0 (single_type_managers c) <= py_len free ->
  exists new c' free', coord_allocate_new_blocks use_int_hashes k n e c = Ok (new, c') /\ coord_inv c' free' /\
    c' = c <| single_type_managers := single_type_managers c' |> <| block_pool := block_pool c' |> /\
    same_shape (block_pool c) (block_pool c') /\ length new = length (single_type_managers c) /\
    each_manager c c' (fun i m m' => same_config m m' /\ num_cached_block m' = num_cached_block m /\
      exists l, new !! Z.to_nat i = Some l /\ table k m' = table k m ++ l /\
        py_len l = Z.max 0 (shortfall k (tokens_for m n e) m)).
Proof.
  intros Hc Hcost. unfold coord_allocate_new_blocks.
  destruct (over_managers_ok (fun _ m p => allocate_new_blocks use_int_hashes k (if is_cross m then e else n) m p)
    (fun _ m => shortfall k (tokens_for m n e) m) (fun _ _ => True)
    (fun _ l m m' => num_cached_block m' = num_cached_block m /\ table k m' = table k m ++ l /\
        py_len l = Z.max 0 (shortfall k (tokens_for m n e) m)) (fun _ _ => True) c free)
    as (rs & c' & free' & Hr & Hc' & Heq & Hs & _ & _ & Hlr & [Hl He]); try done.
  - intros i others m p fr Hm _ _ [Hbs _] Hle.
    destruct (allocate_keeps use_int_hashes others m p fr k (tokens_for m n e) Hm Hbs Hle)
      as (m' & p' & fr' & h1 & h2 & h3 & h4 & h5 & h6 & h7).
    eexists _, m', p', fr'. split; [exact h1|]. split; [done|]. split; [done|]. split; [done|].
    split; [|split; [done|lia]]. split; [done|]. split; [done|]. unfold py_len in *. rewrite length_take. lia.
  - exists rs, c', free'. split; [done|]. split; [done|]. split; [done|]. split; [done|]. split; [done|].
    split; [done|]. intros j m Hj. destruct (He j m Hj) as (m' & Hm' & Hcfg & a & Ha & Hp1 & Hp2 & Hp3).
    exists m'. split; [done|]. split; [done|]. split; [done|]. by exists a.
Qed.

Lemma coord_cache_ok r n c free :
  coord_inv c free -> enable_caching (block_pool c) = true -> enable_kv_cache_events (block_pool c) = false ->
  0 <= n ->
  Forall (fun m => n / block_size m <= py_len (Request.block_hashes r) /\
    n / block_size m <= py_len (table (request_id r) m)) (single_type_managers c) ->
  exists c' free', coord_cache_blocks use_int_hashes r n c = Ok c' /\ coord_inv c' free' /\
    c' = c <| single_type_managers := single_type_managers c' |> <| block_pool := block_pool c' |> /\
    same_shape (block_pool c) (block_pool c') /\
    each_manager c c' (fun _ m m' => same_config m m' /\ (forall k, table k m' = table k m) /\
      num_cached (request_id r) m' = Z.max (num_cached (request_id r) m) (n / block_size m)).
Proof.
  intros Hc Hec Hev Hn Hpre. rewrite Forall_forall in Hpre. unfold coord_cache_blocks.
  destruct (over_managers_ok (fun _ m p => '(m, p) ← cache_blocks use_int_hashes r n m p; Ok (tt, m, p)) (fun _ _ => 0)
    (fun _ m => n / block_size m <= py_len (Request.block_hashes r) /\ n / block_size m <= py_len (table (request_id r) m))
    (fun _ _ m m' => (forall k, table k m' = table k m) /\
      num_cached (request_id r) m' = Z.max (num_cached (request_id r) m) (n / block_size m)) (fun _ _ => True) c free)
    as (rs & c' & free' & Hr & Hc' & Heq & Hs & _ & _ & _ & [Hl He]); try done.
  - intros i others m p fr Hm (_ & _ & Hs & Hsv) [Hlh Hlt] [Hbs [Hcl _]] _. rewrite Hec in Hs. rewrite Hev in Hsv.
    destruct (Hcl Hs) as [Hcls Hg].
    destruct (cache_keeps use_int_hashes others m p fr r n Hm Hbs Hn Hs Hsv Hcls Hg Hlh Hlt)
      as (m' & p' & h1 & h2 & h3 & h4 & h5 & h6 & h7 & h8).
    exists tt, m', p', fr. rewrite h1. bind_ok. split; [done|]. split; [done|]. split; [done|]. split; [done|].
    split; [done|]. split; [done|lia].
  - intros j m Hj. apply Hpre. by eapply list_elem_of_lookup_2.
  - rewrite cost_all_free. unfold py_len. lia.
  - exists c', free'. rewrite Hr. bind_ok. split; [done|]. split; [done|]. split; [done|]. split; [done|].
    split; [done|]. intros j m Hj. destruct (He j m Hj) as (m' & Hm' & Hcfg & a & _ & Hp). by exists m'.
Qed.

End Slots.
