(* ===== verification/KVHits.v ===== *)
(** * The longest cached prefix

    What [find_longest_cache_hit] finds: for full attention the longest prefix of
    the block hashes that is cached in every group, for a sliding window the
    longest prefix whose last window is cached. *)

From S2P Require Import Prelude PyDict PyList PyInt KVSpec FreeQueue Request KVHash BlockPool.
From S2P Require Import KVManagers KVTables KVCoordinator KVCacheInv KVCacheOps.
#[local] Open Scope Z_scope.

(** ** Cached blocks *)

(** Block [b] carries the key of hash [h] in group [g]. *)
Definition has_key (p : BlockPool) (h : BlockHash) (g b : Z) : Prop :=
  exists key, make_block_hash_with_group_id h g = Ok key /\ real p b /\ hash_of p b = Some key.

(** Hash [h] is cached in every group. *)
Definition cached_everywhere (p : BlockPool) (gs : list Z) (h : BlockHash) : Prop :=
  forall g, g ∈ gs -> exists b, has_key p h g b.

Definition groups_ok (gs : list Z) : Prop := gs <> [] /\ Forall (fun g => 0 <= g < 2 ^ 32) gs.

Lemma has_key_inj p h1 h2 g1 g2 b : has_key p h1 g1 b -> has_key p h2 g2 b -> h1 = h2 /\ g1 = g2.
Proof. intros (k1 & e1 & _ & f1) (k2 & e2 & _ & f2). rewrite f1 in f2. injection f2 as <-. by eapply make_key_inj. Qed.

Lemma cached_in_all_spec p free gs h :
  pool_ok p free -> groups_ok gs ->
  (exists bs, cached_in_all p gs h = Ok (Some bs) /\ Forall2 (has_key p h) gs bs) \/
  cached_in_all p gs h = Ok None /\ ~ cached_everywhere p gs h.
Proof.
  intros Hp [Hne Hgs]. unfold cached_in_all.
  destruct (get_cached_block_spec p free h gs Hp Hgs) as (o & Ho & Hspec). rewrite Ho. bind_ok.
  destruct o as [bs|].
  - left. exists bs. destruct bs as [|b bs]; [inversion Hspec; by subst|]. done.
  - right. split; [done|]. intros Hall. destruct Hspec as (g & key & Hg & Hk & Hnone).
    destruct (Hall g Hg) as (b & key' & Hk' & Hb & Hh). rewrite Hk in Hk'. injection Hk' as <-. by apply (Hnone b).
Qed.

Lemma hit_everywhere p gs h bs : Forall2 (has_key p h) gs bs -> cached_everywhere p gs h.
Proof.
  intros H g Hg. apply list_elem_of_lookup in Hg as (i & Hi).
  destruct (Forall2_lookup_l _ _ _ _ _ H Hi) as (b & _ & Hb). by exists b.
Qed.

(** ** Full attention *)

(** The lists of a hit: in group [g], the block of each hash of [hs]. *)
Definition hit_lists (p : BlockPool) (gs : list Z) (hs : list BlockHash) (res : list (list Z)) : Prop :=
  Forall2 (fun g l => Forall2 (fun h b => has_key p h g b) hs l) gs res.

Lemma append_each_hits p gs hs res h bs :
  hit_lists p gs hs res -> Forall2 (has_key p h) gs bs -> hit_lists p gs (hs ++ [h]) (append_each res bs).
Proof.
  intros H. revert bs. induction H as [|g l gs res Hl H IH]; intros bs Hbs; inversion Hbs as [|? b ? bs' Hb Hbs']; subst; cbn.
  - constructor.
  - constructor; [|by apply IH]. apply Forall2_app; [done|]. by repeat constructor.
Qed.

Lemma full_hit_loop_spec p free gs hs pre res :
  pool_ok p free -> groups_ok gs -> hit_lists p gs pre res ->
  exists n res', full_hit_loop p gs hs res = Ok res' /\ (n <= length hs)%nat /\
    hit_lists p gs (pre ++ take n hs) res' /\
    forall h, hs !! n = Some h -> ~ cached_everywhere p gs h.
Proof.
  intros Hp Hgs. revert pre res. induction hs as [|h hs IH]; intros pre res Hres; cbn [full_hit_loop].
  { exists 0%nat, res. rewrite app_nil_r. done. }
  destruct (cached_in_all_spec p free gs h Hp Hgs) as [(bs & Hr & Hbs)|[Hr Hno]]; rewrite Hr; bind_ok.
  - destruct (IH (pre ++ [h]) (append_each res bs)) as (n & res' & Hr' & Hn & Hh & Hmax).
    { by apply append_each_hits. }
    exists (S n), res'. split; [done|]. split; [cbn; lia|]. split; [by rewrite <- app_assoc in Hh|]. done.
  - exists 0%nat, res. split; [done|]. split; [lia|]. rewrite app_nil_r. split; [done|]. by intros h' [= <-].
Qed.

Lemma hit_lists_nil p gs : hit_lists p gs [] (replicate (length gs) []).
Proof. unfold hit_lists. induction gs as [|g gs IH]; cbn; constructor; [constructor | exact IH]. Qed.

Lemma full_attention_hit p free gs block_hashes max_length spec :
  pool_ok p free -> groups_ok gs -> is_full_attention spec = true -> 0 < layer_block_size spec -> 0 <= max_length ->
  exists n res, find_longest_cache_hit block_hashes max_length gs p FullAttentionManager spec false 1 = Ok res /\
    hit_lists p gs (take n block_hashes) res /\ (n <= length block_hashes)%nat /\
    Z.of_nat n * layer_block_size spec <= max_length /\
    forall h, block_hashes !! n = Some h -> Z.of_nat (S n) * layer_block_size spec <= max_length ->
      ~ cached_everywhere p gs h.
Proof.
  intros Hp Hgs Hspec Hbs Hmax. unfold find_longest_cache_hit, full_attention_find, for_groups. rewrite Hspec. cbn [orb py_assert]. bind_ok.
  change (1 <? 1) with false. cbn iota. rewrite py_floordiv_ok by lia. bind_ok.
  pose proof (Z.div_pos max_length _ Hmax Hbs) as Hpos.
  destruct (Z.ltb_spec (max_length / layer_block_size spec) 0); [lia|].
  set (N := max_length / layer_block_size spec) in *.
  destruct (full_hit_loop_spec p free gs (take (Z.to_nat N) block_hashes) [] _ Hp Hgs (hit_lists_nil p gs))
    as (n & res & Hr & Hn & Hh & Hnext).
  rewrite Hr. bind_ok. exists n, res. split; [done|]. rewrite length_take in Hn. cbn [app] in Hh.
  rewrite take_take, Nat.min_l in Hh by lia. split; [done|]. split; [lia|].
  assert (HN : forall m, m <= N <-> m * layer_block_size spec <= max_length).
  { intros m. unfold N. pose proof (Z.mul_div_le max_length (layer_block_size spec) Hbs).
    split; [nia|]. intros. apply Z.div_le_lower_bound; lia. }
  split; [apply HN; lia|]. intros h Hh' Hle. apply Hnext. rewrite lookup_take_lt; [done|].
  apply HN in Hle. lia.
Qed.

(** The blocks of a hit are distinct and carry hashes. *)
Lemma hit_lists_ok p gs hs res :
  NoDup gs -> NoDup hs -> hit_lists p gs hs res -> hits_ok p res.
Proof.
  intros Hgs Hhs H.
  assert (Hin : forall b, b ∈ concat res -> exists g h, g ∈ gs /\ has_key p h g b).
  { clear Hgs Hhs. intros b. induction H as [|g l gs res Hl H IH]; cbn [concat]; [by intros ?%elem_of_nil|].
    intros [Hb|Hb]%elem_of_app.
    - apply list_elem_of_lookup in Hb as (i & Hi). destruct (Forall2_lookup_r _ _ _ _ _ Hl Hi) as (h & _ & Hk).
      exists g, h. split; [by left | done].
    - destruct (IH Hb) as (g' & h & ? & ?). exists g', h. split; [by right | done]. }
  split.
  - intros b (g & h & _ & key & _ & Hb & _)%Hin. by left.
  - intros b _. apply occ_NoDup. clear Hin. induction H as [|g l gs res Hl H IH]; cbn [concat]; [apply NoDup_nil_2|].
    apply NoDup_cons in Hgs as [Hg Hgs]. apply NoDup_app. split; [|split; [|by apply IH]].
    + apply NoDup_alt. intros i j x Hi Hj.
      destruct (Forall2_lookup_r _ _ _ _ _ Hl Hi) as (h1 & e1 & k1).
      destruct (Forall2_lookup_r _ _ _ _ _ Hl Hj) as (h2 & e2 & k2).
      destruct (has_key_inj p h1 h2 g g x k1 k2) as [-> _]. by eapply NoDup_lookup.
    + intros x Hx Hx'. apply list_elem_of_lookup in Hx as (i & Hi).
      destruct (Forall2_lookup_r _ _ _ _ _ Hl Hi) as (h1 & _ & k1).
      apply list_elem_of_In, in_concat in Hx' as (l' & Hl' & Hx'). apply list_elem_of_In in Hl', Hx'.
      apply list_elem_of_lookup in Hl' as (j & Hj). destruct (Forall2_lookup_r _ _ _ _ _ H Hj) as (g' & Hg' & Hl2).
      apply list_elem_of_lookup in Hx' as (i' & Hi'). destruct (Forall2_lookup_r _ _ _ _ _ Hl2 Hi') as (h2 & _ & k2).
      destruct (has_key_inj p h1 h2 g g' x k1 k2) as [_ ->]. apply Hg. by eapply list_elem_of_lookup_2.
  - intros b (g & h & _ & key & _ & _ & Hk)%Hin _. by exists key.
Qed.

(** ** Sliding window *)

(** The table of one group while the window search stands before block [n], with
    the run [n, n + k) found: blocks before [n] are untouched. *)
Definition window_run (p : BlockPool) (hs : list BlockHash) (N n k : nat) (g : Z) (l : list Z) : Prop :=
  length l = N /\ (forall i, (i < n)%nat -> l !! i = Some (null_block p)) /\
  forall i, (n <= i < n + k)%nat -> exists h b, hs !! i = Some h /\ l !! i = Some b /\ has_key p h g b.

(** All blocks of the last [needed] of the first [L] are cached. *)
Definition window_cached (p : BlockPool) (gs : list Z) (hs : list BlockHash) (needed L : nat) : Prop :=
  forall i, (L - needed <= i < L)%nat -> exists h, hs !! i = Some h /\ cached_everywhere p gs h.

(** The lists of a window hit of length [L]: cached blocks in the window, null
    blocks before it. *)
Definition window_lists (p : BlockPool) (gs : list Z) (hs : list BlockHash) (needed L : nat) (res : list (list Z)) : Prop :=
  Forall2 (fun g l => length l = L /\
    (forall i, (i < L - needed)%nat -> l !! i = Some (null_block p)) /\
    forall i, (L - needed <= i < L)%nat -> exists h b, hs !! i = Some h /\ l !! i = Some b /\ has_key p h g b) gs res.

Lemma window_run_step p hs N n k g l h b :
  window_run p hs N (S n) k g l -> (S n <= N)%nat -> hs !! n = Some h -> has_key p h g b ->
  window_run p hs N n (S k) g (<[n := b]> l).
Proof.
  intros (h1 & h2 & h3) HN Hh Hb. split; [by rewrite length_insert|]. split.
  - intros i Hi. rewrite list_lookup_insert_ne by lia. apply h2. lia.
  - intros i Hi. destruct (decide (i = n)) as [->|Hne].
    + exists h, b. rewrite list_lookup_insert_eq by lia. done.
    + rewrite list_lookup_insert_ne by lia. apply h3. lia.
Qed.

Lemma set_each_run p hs N n k gs res h bs :
  Forall2 (window_run p hs N (S n) k) gs res -> (S n <= N)%nat -> hs !! n = Some h ->
  Forall2 (has_key p h) gs bs -> Forall2 (window_run p hs N n (S k)) gs (set_each n res bs).
Proof.
  intros H HN Hh. revert bs. induction H as [|g l gs res Hl H IH]; intros bs Hbs; inversion Hbs; subst; cbn.
  - constructor.
  - constructor; [by eapply window_run_step | by apply IH].
Qed.

Lemma run_window p gs hs needed N n k res :
  Forall2 (window_run p hs N n k) gs res -> (n + k <= N)%nat -> (n + k - needed = n)%nat ->
  window_lists p gs hs needed (n + k) (take (n + k) <$> res).
Proof.
  intros H HN Hk. unfold window_lists. apply Forall2_fmap_r. eapply Forall2_impl; [exact H|].
  intros g l (h1 & h2 & h3). split; [rewrite length_take; lia|]. rewrite Hk. split.
  - intros i Hi. rewrite lookup_take_lt by lia. apply h2. lia.
  - intros i Hi. rewrite lookup_take_lt by lia. by apply h3.
Qed.

Lemma run_cached p gs hs needed N n k res :
  Forall2 (window_run p hs N n k) gs res -> (n + k - needed = n)%nat ->
  gs <> [] -> (N <= length hs)%nat -> (n + k <= N)%nat -> window_cached p gs hs needed (n + k).
Proof.
  intros H Hk Hne HN Hle i Hi. rewrite Hk in Hi. destruct (lookup_lt_is_Some_2 hs i) as [h Hh]; [lia|].
  exists h. split; [done|]. intros g Hg. apply list_elem_of_lookup in Hg as (j & Hj).
  destruct (Forall2_lookup_l _ _ _ _ _ H Hj) as (l & _ & _ & _ & Hr).
  destruct (Hr i Hi) as (h' & b & Hh' & _ & Hb). rewrite Hh in Hh'. injection Hh' as <-. by exists b.
Qed.

Lemma window_hit_loop_spec p free gs hs needed N n k res :
  pool_ok p free -> groups_ok gs -> (N <= length hs)%nat -> (n + k <= N)%nat -> (k < needed)%nat ->
  Forall2 (window_run p hs N n k) gs res ->
  (forall L, (n + k < L <= N)%nat -> ~ window_cached p gs hs needed L) ->
  exists L k' res' found, window_hit_loop p gs (Z.of_nat needed) hs n (Z.of_nat k) res = Ok (res', Z.of_nat k', found) /\
    (L <= N)%nat /\ (found = false -> L = k') /\
    window_lists p gs hs needed L (if found then res' else take k' <$> res') /\
    window_cached p gs hs needed L /\ forall L', (L < L' <= N)%nat -> ~ window_cached p gs hs needed L'.
Proof.
  intros Hp Hgs HN. revert k res. induction n as [|n IH]; intros k res Hle Hk Hres Hmax; cbn [window_hit_loop].
  { exists k, k, res, false. split; [done|]. split; [lia|]. split; [done|].
    split; [apply (run_window p gs hs needed N 0 k); [done|lia|lia]|].
    split; [|done]. apply (run_cached p gs hs needed N 0 k res); try done; [lia | apply Hgs]. }
  destruct (lookup_lt_is_Some_2 hs n) as [h Hh]; [lia|]. rewrite Hh. cbn [or_raise]. bind_ok.
  destruct (cached_in_all_spec p free gs h Hp Hgs) as [(bs & Hr & Hbs)|[Hr Hno]]; rewrite Hr; bind_ok.
  - pose proof (set_each_run _ _ _ _ _ _ _ _ _ Hres ltac:(lia) Hh Hbs) as Hres'.
    destruct (Z.leb_spec (Z.of_nat needed) (Z.of_nat k + 1)).
    + assert (Hkn : needed = S k) by lia. exists (n + S k)%nat, (S k), (take (n + S k) <$> set_each n res bs), true.
      split; [do 3 f_equal; [|lia]; replace (Z.to_nat (Z.of_nat n + (Z.of_nat k + 1))) with (n + S k)%nat by lia; done|].
      split; [lia|]. split; [done|]. split; [apply (run_window p gs hs needed N n (S k)); [done|lia|lia]|].
      split; [apply (run_cached p gs hs needed N n (S k) (set_each n res bs)); try done; [lia|apply Hgs|lia]|].
      intros L' HL'. apply Hmax. lia.
    + replace (Z.of_nat k + 1) with (Z.of_nat (S k)) by lia.
      apply IH; [lia|lia|done|]. intros L' HL'. apply Hmax. lia.
  - apply (IH 0%nat); [lia|lia| |].
    + eapply Forall2_impl; [exact Hres|]. intros g l (h1 & h2 & _). split; [done|]. split; [intros; apply h2; lia|lia].
    + intros L' HL' Hc. destruct (decide (S n + k < L')%nat); [by apply (Hmax L'); [lia|]|].
      destruct (Hc n) as (h' & Hh' & Hev); [lia|]. rewrite Hh in Hh'. injection Hh' as <-. done.
Qed.

(** For a sliding window the search returns the longest prefix (within [max_length]) whose last
    window of blocks is cached in every group: cached blocks in the window, null blocks before it. *)
Theorem sliding_window_hit p free gs block_hashes max_length a w :
  pool_ok p free -> groups_ok gs -> 0 < att_block_size a -> 1 < w -> 0 <= max_length ->
  max_length / att_block_size a <= py_len block_hashes ->
  let N := Z.to_nat (max_length / att_block_size a) in
  let needed := Z.to_nat (ceil_div (w - 1) (att_block_size a)) in
  exists L res, find_longest_cache_hit block_hashes max_length gs p SlidingWindowManager (SlidingWindowSpec a w) false 1 = Ok res /\
    window_lists p gs block_hashes needed L res /\ window_cached p gs block_hashes needed L /\ (L <= N)%nat /\
    forall L', (L < L' <= N)%nat -> ~ window_cached p gs block_hashes needed L'.
Proof.
  intros Hp Hgs Hbs Hw Hmax Hlen N needed. unfold find_longest_cache_hit, sliding_window_find, for_groups. cbn [py_assert]. change (1 =? 1) with true.
  cbn [py_assert]. bind_ok. rewrite cdiv_ok by done. bind_ok. rewrite py_floordiv_ok by lia. bind_ok.
  pose proof (Z.div_pos max_length _ Hmax Hbs) as Hpos. fold N.
  pose proof (ceil_div_bound (w - 1) (att_block_size a) Hbs) as Hcb.
  assert (Hneed : 0 < ceil_div (w - 1) (att_block_size a)) by nia.
  replace (ceil_div (w - 1) (att_block_size a)) with (Z.of_nat needed) by lia.
  destruct (window_hit_loop_spec p free gs block_hashes needed N N 0 (replicate (length gs) (replicate N (null_block p))) Hp Hgs)
    as (L & k' & res & found & Hr & HL & Hfk & Hlists & Hc & Hmx); [unfold N, py_len in *; lia | lia | lia | | lia|].
  { clear. induction gs as [|g gs IH]; cbn; constructor; [|done]. split; [apply length_replicate|].
    split; [intros i Hi; by apply lookup_replicate_2 | lia]. }
  change (Z.of_nat 0) with 0 in Hr. rewrite Hr. bind_ok. cbn [eagle_pop]. rewrite Nat2Z.id.
  exists L, (if found then res else take k' <$> res). split; [by destruct found|]. done.
Qed.

(** ** A concrete search *)

Lemma sliding_window_hit_witness :
  exists r p L res, cache_full_blocks true r [3; 4] 0 2 2 0 p = Ok res /\
    exists blocks, find_longest_cache_hit (Request.block_hashes r) 5 [0] res SlidingWindowManager
      (SlidingWindowSpec (mkAttentionSpec 2 1 1 "bfloat16") 3) false 1 = Ok blocks /\ (L <= 2)%nat.
Proof.
  destruct (new_pool_inv 6 true false eq_refl) as (p & _ & Hp & Hn & _ & Hev & _ & Hh).
  destruct (new_request (Some (request_block_hasher sample_hash "seed" 2)) PyFloat.fzero
    (sample_args <| ra_prompt_token_ids := Some [1; 2; 3; 4; 5] |>)) as [r|e] eqn:E; [|vm_compute in E; discriminate E].
  assert (Hl : py_len (Request.block_hashes r) = 2).
  { assert (Hm : (r ← new_request (Some (request_block_hasher sample_hash "seed" 2)) PyFloat.fzero
      (sample_args <| ra_prompt_token_ids := Some [1; 2; 3; 4; 5] |>); Ok (py_len (Request.block_hashes r))) = Ok 2)
      by (vm_compute; reflexivity).
    rewrite E in Hm. by injection Hm. }
  destruct (to_bytes4_spec 0 ltac:(lia)) as (gb & Hgb & _ & _).
  destruct (cache_full_blocks_inv true 0 gb Hgb p _ r [3; 4] 0 2 2 Hp ltac:(lia)) as (p' & Hr & Hp' & _).
  - lia.
  - unfold py_len. cbn. lia.
  - apply (bool_decide_unpack _). vm_compute. exact I.
  - intros b Hb. split; [|apply Hh]. unfold real. rewrite Hn.
    assert (b = 3 \/ b = 4) as [->| ->]; [|lia|lia].
    change (slice 0 2 [3; 4]) with [3; 4] in Hb. apply elem_of_cons in Hb as [->|Hb%list_elem_of_singleton]; auto.
  - rewrite Hev. discriminate.
  - destruct (sliding_window_hit p' _ [0] (Request.block_hashes r) 5 (mkAttentionSpec 2 1 1 "bfloat16") 3 Hp')
      as (L & res & Hres & _ & _ & HL & _); [split; [done|by repeat constructor] | done | lia | lia | |].
    + rewrite Hl. vm_compute. discriminate.
    + exists r, p, L, p'. split; [exact Hr|]. exists res. split; [exact Hres | exact HL].
Defined.
