(* ===== verification/KVCacheManager.v ===== *)
(** * The KV-cache manager

    vllm/v1/core/kv_cache_manager.py: what the scheduler calls to find cached
    prefixes, to give requests slots, and to take them back.  Block lists that the
    code passes by reference are read where they are used. *)

From S2P Require Import Prelude PyDict PyList PyInt KVSpec FreeQueue PyFloat Request KVHash BlockPool.
From S2P Require Import KVManagers KVTables KVCoordinator.
#[local] Open Scope Z_scope.

(** ** [KVCacheBlocks]

    The manager has one empty value that it hands out for allocations without
    blocks and recognises by identity. *)

Inductive KVCacheBlocks :=
| EmptyKVCacheBlocks
| MkKVCacheBlocks (blocks : list (list Z)).

(** [b.blocks], for a manager of [n] groups. *)
Definition blocks_of (n : nat) (b : KVCacheBlocks) : list (list Z) :=
  match b with EmptyKVCacheBlocks => replicate n [] | MkKVCacheBlocks l => l end.

(** A list of lists that is true for [any]. *)
Definition any_block (blocks : list (list Z)) : bool := existsb (fun l => negb (py_len l =? 0)) blocks.

Definition create_kv_cache_blocks (blocks : list (list Z)) : KVCacheBlocks :=
  if any_block blocks then MkKVCacheBlocks blocks else EmptyKVCacheBlocks.

Definition blocks_add (n : nat) (a b : KVCacheBlocks) : KVCacheBlocks :=
  MkKVCacheBlocks (zip_with app (blocks_of n a) (blocks_of n b)).

(** [get_block_ids(allow_none)]. *)
Definition get_block_ids (n : nat) (allow_none : bool) (b : KVCacheBlocks) : option (list (list Z)) :=
  if allow_none && forallb (fun g => py_len g =? 0) (blocks_of n b) then None else Some (blocks_of n b).

Definition get_unhashed_block_ids (n : nat) (p : BlockPool) (b : KVCacheBlocks) : result (list Z) :=
  match blocks_of n b with
  | [group] => Ok (List.filter (fun x => bool_decide (block_hash (block p x) = None)) group)
  | _ => Raise AssertionError
  end.

Definition new_empty (n : nat) (b : KVCacheBlocks) : KVCacheBlocks :=
  MkKVCacheBlocks (replicate (length (blocks_of n b)) []).

(** ** Statistics *)

Record PrefixCacheStats := mkPrefixCacheStats {
  stats_reset : bool;
  stats_requests : Z;
  stats_queries : Z;
  stats_hits : Z;
  preempted_requests : Z;
  preempted_queries : Z;
  preempted_hits : Z;
}.

#[export] Instance eta_PrefixCacheStats : Eta PrefixCacheStats := fun s =>
  mkPrefixCacheStats (stats_reset s) (stats_requests s) (stats_queries s) (stats_hits s)
    (preempted_requests s) (preempted_queries s) (preempted_hits s).

Definition new_stats : PrefixCacheStats := mkPrefixCacheStats false 0 0 0 0 0 0.

Definition stats_record (num_tokens num_hits : Z) (preempted : bool) (s : PrefixCacheStats) : PrefixCacheStats :=
  if preempted then
    s <| preempted_requests := preempted_requests s + 1 |>
      <| preempted_queries := preempted_queries s + num_tokens |>
      <| preempted_hits := preempted_hits s + num_hits |>
  else
    s <| stats_requests := stats_requests s + 1 |> <| stats_queries := stats_queries s + num_tokens |>
      <| stats_hits := stats_hits s + num_hits |>.

(** ** The manager *)

Record KVCacheManager := mkKVCacheManager {
  kv_max_model_len : Z;
  kv_enable_caching : bool;
  log_stats : bool;
  prefix_cache_stats : option PrefixCacheStats;
  kv_block_size : option Z;
  coordinator : Coordinator;
  num_kv_cache_groups : nat;
}.

#[export] Instance eta_KVCacheManager : Eta KVCacheManager := fun k =>
  mkKVCacheManager (kv_max_model_len k) (kv_enable_caching k) (log_stats k) (prefix_cache_stats k)
    (kv_block_size k) (coordinator k) (num_kv_cache_groups k).

Definition new_kv_cache_manager (c : KVCacheConfig) (max_model_len : Z)
    (enable_caching use_eagle log_stats enable_kv_cache_events : bool) (dcp_world_size : Z)
    : result KVCacheManager :=
  block_size ← (if enable_caching then
      match remove_dups ((fun g => spec_block_size (kv_cache_spec g)) <$> kv_cache_groups c) with
      | [size] =>
          if 1 <? dcp_world_size then
            _ ← py_assert (py_len (kv_cache_groups c) =? 1); Ok (Some (size * dcp_world_size))
          else Ok (Some size)
      | _ => Raise AssertionError
      end
    else Ok None);
  coord ← get_kv_cache_coordinator c use_eagle enable_caching enable_kv_cache_events dcp_world_size;
  Ok {| kv_max_model_len := max_model_len; kv_enable_caching := enable_caching; log_stats := log_stats;
        prefix_cache_stats := if log_stats then Some new_stats else None; kv_block_size := block_size;
        coordinator := coord; num_kv_cache_groups := length (kv_cache_groups c) |}.

Definition kv_pool (k : KVCacheManager) : BlockPool := block_pool (coordinator k).
Definition with_pool (p : BlockPool) (k : KVCacheManager) : KVCacheManager :=
  k <| coordinator := coordinator k <| block_pool := p |> |>.

Definition usage (k : KVCacheManager) : float := get_usage (kv_pool k).

Definition make_prefix_cache_stats (k : KVCacheManager) : option PrefixCacheStats * KVCacheManager :=
  if negb (log_stats k) then (None, k)
  else (prefix_cache_stats k, k <| prefix_cache_stats := Some new_stats |>).

(** [request.sampling_params is not None and ... prompt_logprobs is not None]. *)
Definition wants_prompt_logprobs (r : Request) : bool :=
  match sampling_params r with
  | Some sp => bool_decide (is_Some (prompt_logprobs sp))
  | None => false
  end.

Definition get_computed_blocks (r : Request) (k : KVCacheManager)
    : result (KVCacheBlocks * Z * KVCacheManager) :=
  if negb (kv_enable_caching k) || wants_prompt_logprobs r then Ok (EmptyKVCacheBlocks, 0, k)
  else
    let max_cache_hit_length := num_tokens r - 1 in
    '(computed_blocks, num_new_computed_tokens) ←
      coord_find_longest_cache_hit (Request.block_hashes r) max_cache_hit_length (coordinator k);
    k ← (if log_stats k then
           stats ← or_raise AssertionError (prefix_cache_stats k);
           Ok (k <| prefix_cache_stats :=
                 Some (stats_record (num_tokens r) num_new_computed_tokens (0 <? num_preemptions r) stats) |>)
         else Ok k);
    Ok (create_kv_cache_blocks computed_blocks, num_new_computed_tokens, k).

Section KVCache.
Context (use_int_hashes : bool).

Definition allocate_slots (r : Request) (num_new_tokens num_new_computed_tokens : Z)
    (new_computed_blocks : option KVCacheBlocks) (num_lookahead_tokens : Z) (delay_cache_blocks : bool)
    (num_encoder_tokens : Z) (k : KVCacheManager) : result (option KVCacheBlocks * KVCacheManager) :=
  if num_new_tokens =? 0 then Raise ValueError
  else
    let rid := request_id r in
    let new_computed := default EmptyKVCacheBlocks new_computed_blocks in
    let new_computed_block_list := blocks_of (num_kv_cache_groups k) new_computed in
    c ← coord_remove_skipped_blocks rid (num_computed_tokens r) (coordinator k);
    let num_computed_tokens := num_computed_tokens r + num_new_computed_tokens in
    let num_tokens_need_slot :=
      Z.min (num_computed_tokens + num_new_tokens + num_lookahead_tokens) (kv_max_model_len k) in
    '(num_blocks_to_allocate, c) ←
      coord_num_blocks_to_allocate rid num_tokens_need_slot new_computed_block_list num_encoder_tokens c;
    if get_num_free_blocks (block_pool c) <? num_blocks_to_allocate then Ok (None, k <| coordinator := c |>)
    else
      c ← (if kv_enable_caching k then
             p ← touch new_computed_block_list (block_pool c); Ok (c <| block_pool := p |>)
           else _ ← py_assert (negb (any_block new_computed_block_list)); Ok c);
      c ← (match new_computed with
           | EmptyKVCacheBlocks => Ok c
           | MkKVCacheBlocks _ => coord_save_new_computed_blocks rid new_computed_block_list c
           end);
      '(new_blocks, c) ← coord_allocate_new_blocks use_int_hashes rid num_tokens_need_slot num_encoder_tokens c;
      if negb (kv_enable_caching k) || delay_cache_blocks
      then Ok (Some (create_kv_cache_blocks new_blocks), k <| coordinator := c |>)
      else
        let num_tokens_to_cache := Z.min (num_computed_tokens + num_new_tokens) (num_tokens r) in
        c ← coord_cache_blocks use_int_hashes r num_tokens_to_cache c;
        Ok (Some (create_kv_cache_blocks new_blocks), k <| coordinator := c |>).

Definition kv_cache_blocks (r : Request) (num_computed_tokens : Z) (k : KVCacheManager) : result KVCacheManager :=
  if kv_enable_caching k then
    c ← coord_cache_blocks use_int_hashes r num_computed_tokens (coordinator k);
    Ok (k <| coordinator := c |>)
  else Ok k.

End KVCache.

Definition kv_free (r : Request) (k : KVCacheManager) : result KVCacheManager :=
  c ← coord_free (request_id r) (coordinator k); Ok (k <| coordinator := c |>).

Definition kv_reset_prefix_cache (k : KVCacheManager) : result (bool * KVCacheManager) :=
  let '(done, p) := reset_prefix_cache (kv_pool k) in
  let k := with_pool p k in
  if negb done then Ok (false, k)
  else if log_stats k then
    stats ← or_raise AssertionError (prefix_cache_stats k);
    Ok (true, k <| prefix_cache_stats := Some (stats <| stats_reset := true |>) |>)
  else Ok (true, k).

Definition kv_get_num_common_prefix_blocks (running_request_id : string) (k : KVCacheManager)
    : result (list Z * KVCacheManager) :=
  '(ns, c) ← coord_get_num_common_prefix_blocks running_request_id (coordinator k);
  Ok (ns, k <| coordinator := c |>).

Definition kv_take_events (k : KVCacheManager) : list KVCacheEvent * KVCacheManager :=
  let '(events, p) := take_events (kv_pool k) in (events, with_pool p k).

Definition get_blocks (rid : string) (k : KVCacheManager) : KVCacheBlocks :=
  create_kv_cache_blocks (coord_get_blocks rid (coordinator k)).

Definition kv_get_block_ids (rid : string) (k : KVCacheManager) : list (list Z) :=
  blocks_of (num_kv_cache_groups k) (get_blocks rid k).
