(* ===== verification/KVCacheProps.v ===== *)
(** * Properties of the KV-cache manager

    Giving slots to a request, finding its cached prefix and taking its blocks
    back, on a manager whose tables account for every reference. *)

From S2P Require Import Prelude PyDict PyList PyInt KVSpec FreeQueue PyFloat Request KVHash BlockPool.
From S2P Require Import KVManagers KVTables KVCoordinator KVCacheInv KVCacheOps KVHits KVCacheManager.
#[local] Open Scope Z_scope.

Definition managers (k : KVCacheManager) : list Manager := single_type_managers (coordinator k).

(** The invariant: tables and reference counts agree, the configuration is sound;
    cache events are off. *)
Record kv_inv (k : KVCacheManager) (free : list Z) : Prop := {
  kv_coord : coord_inv (coordinator k) free;
  kv_caching : kv_enable_caching k = enable_caching (kv_pool k);
  kv_events : enable_kv_cache_events (kv_pool k) = false;
  kv_groups : num_kv_cache_groups k = length (managers k);
}.

Lemma kv_inv_coord k free c' free' :
  kv_inv k free -> coord_inv c' free' -> same_shape (kv_pool k) (block_pool c') ->
  length (single_type_managers c') = length (managers k) ->
  kv_inv (k <| coordinator := c' |>) free'.
Proof.
  intros [h1 h2 h3 h4] Hc (_ & _ & s3 & s4) Hl. split; cbn; [done| | |].
  - rewrite h2. unfold kv_pool. cbn. by rewrite s3.
  - unfold kv_pool in *. cbn. by rewrite s4.
  - by rewrite h4, <- Hl.
Qed.

Lemma any_block_false l : any_block l = false -> l = replicate (length l) [].
Proof.
  unfold any_block. induction l as [|x l IH]; cbn; [done|]. rewrite orb_false_iff, negb_false_iff, Z.eqb_eq.
  intros [Hx Hl]. f_equal; [|by apply IH]. unfold py_len in Hx. destruct x; cbn in *; [done|lia].
Qed.

Lemma blocks_of_create n l : length l = n -> blocks_of n (create_kv_cache_blocks l) = l.
Proof.
  intros <-. unfold create_kv_cache_blocks. destruct (any_block l) eqn:E; cbn; [done|].
  symmetry. by apply any_block_false.
Qed.

(** No group has more blocks than it needs, or none needs any. *)
Definition aligned (k : string) (slots enc : Z) (hits : list (list Z)) (ms : list Manager) : Prop :=
  (forall j h m, hits !! j = Some h -> ms !! j = Some m -> 0 <= needed k slots enc h m) \/
  (forall j h m, hits !! j = Some h -> ms !! j = Some m -> needed k slots enc h m <= 0).

(** The hits offered to [allocate_slots]: none, or valid ones for a new request. *)
Definition hits_valid (k : KVCacheManager) (rid : string) (b : KVCacheBlocks) : Prop :=
  match b with
  | EmptyKVCacheBlocks => True
  | MkKVCacheBlocks hits => kv_enable_caching k = true /\ length hits = length (managers k) /\
      hits_ok (kv_pool k) hits /\ Forall (fresh_request rid) (managers k)
  end.

(** After an operation each manager has its old configuration and, for a request,
    a table that satisfies [post]. *)
Lemma each_manager_trans c1 c2 c3 P Q (R : Z -> Manager -> Manager -> Prop) :
  each_manager c1 c2 P -> each_manager c2 c3 Q ->
  (forall i m1 m2 m3, single_type_managers c1 !! Z.to_nat i = Some m1 -> P i m1 m2 -> Q i m2 m3 -> R i m1 m3) ->
  each_manager c1 c3 R.
Proof.
  intros [l1 h1] [l2 h2] HR. split; [congruence|]. intros j m Hj.
  destruct (h1 j m Hj) as (m2 & Hj2 & Hp). destruct (h2 j m2 Hj2) as (m3 & Hj3 & Hq).
  exists m3. split; [done|]. eapply HR; [|done|done]. by rewrite Nat2Z.id.
Qed.

(** *** The cost of an allocation *)

Lemma cost_all_sum (f : Manager -> Z) i ms : cost_all (fun _ m => f m) i ms = int_sum ((fun m => Z.max 0 (f m)) <$> ms).
Proof. revert i. induction ms as [|m ms IH]; intros i; cbn; [done|]. by rewrite IH. Qed.

Lemma filter_concat_len (f : Z -> bool) (ls : list (list Z)) :
  py_len (List.filter f (concat ls)) = int_sum ((fun l => py_len (List.filter f l)) <$> ls).
Proof.
  induction ls as [|l ls IH]; cbn [concat fmap list_fmap]; [done|].
  rewrite List.filter_app, int_sum_cons, <- IH. unfold py_len. rewrite length_app. lia.
Qed.

(** What is left after the hits are taken covers the new blocks. *)
Lemma slots_enough p rid slots enc hits ms n :
  length hits = length ms -> aligned rid slots enc hits ms -> (forall m, m ∈ ms -> is_cross m = true -> any_block hits = false) ->
  int_sum (zip_with (fun h m => needed rid slots enc h m + num_evictable p h m) hits ms) <= n ->
  int_sum ((fun l => py_len (List.filter (evictable p) l)) <$> hits) <= n ->
  int_sum (zip_with (fun h m => Z.max 0 (needed rid slots enc h m)) hits ms)
    <= n - int_sum ((fun l => py_len (List.filter (evictable p) l)) <$> hits).
Proof.
  intros Hl Hal Hx Hn He.
  assert (Hev : forall j h m, hits !! j = Some h -> ms !! j = Some m ->
    num_evictable p h m = py_len (List.filter (evictable p) h)).
  { intros j h m Hh Hm. unfold num_evictable. destruct (is_cross m) eqn:E; [|done].
    pose proof (Hx m ltac:(by eapply list_elem_of_lookup_2) E) as Hh0.
    rewrite (any_block_false hits) in Hh by done. apply lookup_replicate in Hh as [-> _]. done. }
  destruct Hal as [Hal|Hal].
  - assert (Heq : int_sum (zip_with (fun h m => Z.max 0 (needed rid slots enc h m)) hits ms)
      + int_sum ((fun l => py_len (List.filter (evictable p) l)) <$> hits)
      = int_sum (zip_with (fun h m => needed rid slots enc h m + num_evictable p h m) hits ms)); [|lia].
    clear Hn He Hx n. revert ms Hl Hal Hev. induction hits as [|h hits IH]; intros [|m ms] Hl Hal Hev; try done.
    cbn [zip_with fmap list_fmap]. rewrite !int_sum_cons. cbn in Hl.
    rewrite <- (IH ms); [|lia|intros j; apply (Hal (S j))|intros j; apply (Hev (S j))].
    rewrite (Hev 0%nat h m eq_refl eq_refl). pose proof (Hal 0%nat h m eq_refl eq_refl). lia.
  - assert (Hz : int_sum (zip_with (fun h m => Z.max 0 (needed rid slots enc h m)) hits ms) = 0); [|lia].
    clear Hn He Hx Hev n. revert ms Hl Hal. induction hits as [|h hits IH]; intros [|m ms] Hl Hal; try done.
    cbn [zip_with]. rewrite int_sum_cons. cbn in Hl. rewrite IH; [|lia|intros j; apply (Hal (S j))]. pose proof (Hal 0%nat h m eq_refl eq_refl). lia.
Qed.

(** *** Taking the hits *)

(** The part of [allocate_slots] that touches the hits and saves them. *)
Definition take_hits (caching : bool) (n : nat) (rid : string) (b : KVCacheBlocks) (c : Coordinator)
    : result Coordinator :=
  let hits := blocks_of n b in
  c ← (if caching then p ← touch hits (block_pool c); Ok (c <| block_pool := p |>)
       else _ ← py_assert (negb (any_block hits)); Ok c);
  match b with
  | EmptyKVCacheBlocks => Ok c
  | MkKVCacheBlocks _ => coord_save_new_computed_blocks rid hits c
  end.

Lemma concat_nils n : concat (replicate n ([] : list Z)) = [].
Proof. induction n; done. Qed.

Lemma no_blocks n : any_block (replicate n []) = false.
Proof. induction n; done. Qed.

(** A coordinator whose pool changed under the same tables. *)
Lemma coord_repool c p' free' :
  sys_inv (fun _ => 0) (single_type_managers c) p' free' -> same_shape (block_pool c) p' ->
  Forall (config_ok (block_pool c)) (single_type_managers c) -> coord_inv (c <| block_pool := p' |>) free'.
Proof.
  intros Hs Hsh Hcfg. split; [done|]. cbn. eapply Forall_impl; [exact Hcfg|]. intros m Hm.
  by apply (config_ok_same (block_pool c) p' m m).
Qed.

Lemma take_hits_ok rid b c free n :
  coord_inv c free -> n = length (single_type_managers c) ->
  (match b with
   | EmptyKVCacheBlocks => True
   | MkKVCacheBlocks hits => enable_caching (block_pool c) = true /\ length hits = n /\
       hits_ok (block_pool c) hits /\ Forall (fresh_request rid) (single_type_managers c)
   end) ->
  exists c' free', take_hits (enable_caching (block_pool c)) n rid b c = Ok c' /\ coord_inv c' free' /\
    c' = c <| single_type_managers := single_type_managers c' |> <| block_pool := block_pool c' |> /\
    same_shape (block_pool c) (block_pool c') /\
    py_len free - int_sum ((fun l => py_len (List.filter (evictable (block_pool c)) l)) <$> blocks_of n b) <= py_len free' /\
    each_manager c c' (fun i m m' => same_config m m' /\
      exists h, blocks_of n b !! Z.to_nat i = Some h /\ table rid m' = table rid m ++ h /\
        num_cached rid m' = num_cached rid m + py_len h).
Proof.
  intros [Hsys Hcfg] Hn Hb. unfold take_hits.
  assert (Hok : hits_ok (block_pool c) (blocks_of n b)) by (destruct b; [apply hits_ok_nil | apply Hb]).
  rewrite <- filter_concat_len. destruct b as [|hits]; cbn [blocks_of] in *.
  - rewrite no_blocks, concat_nils. cbn [negb py_assert].
    assert (Hnil : for_each (for_each touch_one) (replicate n []) (block_pool c) = Ok (block_pool c)).
    { clear. induction n as [|n IH]; cbn; [done|]. exact IH. }
    exists c, free. split.
    { destruct (enable_caching (block_pool c)); [|done]. unfold touch. rewrite Hnil. bind_ok. by destruct c. }
    split; [done|]. split; [by destruct c|]. split; [done|]. split; [cbn; unfold py_len; cbn; lia|].
    split; [done|]. intros j m Hj. exists m. split; [done|]. split; [done|]. exists []. rewrite Nat2Z.id, app_nil_r.
    split; [apply lookup_replicate; split; [done|]; apply lookup_lt_Some in Hj; lia|]. split; [done|].
    unfold py_len. cbn. lia.
  - destruct Hb as (Hec & Hl & _ & Hfresh). rewrite Hec.
    destruct (touch_sys (fun _ => 0) _ _ _ hits Hsys Hok) as (p' & Hr & Hsys' & Hs & Hh & Hlen).
    rewrite Hr. bind_ok.
    destruct (coord_save_ok rid hits (c <| block_pool := p' |>) (untouched (concat hits) free))
      as (c' & free' & Hr' & Hc' & Hlen' & Heq & Hlm & He); try done.
    + cbn. eapply Forall_impl; [exact Hcfg|]. intros m Hm. by apply (config_ok_same (block_pool c) p' m m).
    + by eapply hits_ok_same.
    + cbn. congruence.
    + exists c', free'. split; [done|]. split; [done|]. rewrite Heq. cbn. split; [by destruct c|]. split; [done|].
      split; [lia|]. split; [done|]. intros j m Hj. destruct (He j m Hj) as (m' & Hm' & Hcf & Ht & Hnc).
      rewrite Forall_forall in Hfresh. destruct (Hfresh m) as (Ht0 & Hn0 & _); [by eapply list_elem_of_lookup_2|].
      exists m'. split; [done|]. split; [done|]. rewrite Nat2Z.id in *.
      destruct (lookup_lt_is_Some_2 hits j) as [h Hhj]; [apply lookup_lt_Some in Hj; lia|].
      exists h. rewrite Hhj in Ht. cbn [default] in Ht. split; [done|]. rewrite Ht0. split; [done|].
      rewrite Hnc, Ht. unfold num_cached, dget_or. rewrite Hn0. cbn. lia.
Qed.

(** *** Slots *)

(** The tokens that must have slots. *)
Definition slots_for (r : Request) (num_new_tokens num_new_computed_tokens num_lookahead_tokens : Z)
    (k : KVCacheManager) : Z :=
  Z.min (num_computed_tokens r + num_new_computed_tokens + num_new_tokens + num_lookahead_tokens) (kv_max_model_len k).

(** The tokens that are cached at the end. *)
Definition cached_for (r : Request) (num_new_tokens num_new_computed_tokens : Z) : Z :=
  Z.min (num_computed_tokens r + num_new_computed_tokens + num_new_tokens) (num_tokens r).

(** What [allocate_slots] relies on. *)
Record allocatable (k : KVCacheManager) (r : Request) (num_new_tokens num_new_computed_tokens : Z)
    (b : KVCacheBlocks) (num_lookahead_tokens : Z) (delay : bool) (enc : Z) : Prop := {
  al_new : 0 < num_new_tokens;
  al_skip : Forall (skippable (kv_pool k) (request_id r) (num_computed_tokens r)) (managers k);
  al_hits : hits_valid k (request_id r) b;
  al_aligned : aligned (request_id r) (slots_for r num_new_tokens num_new_computed_tokens num_lookahead_tokens k) enc
    (blocks_of (length (managers k)) b) (managers k);
  al_cache : kv_enable_caching k = true -> delay = false ->
    let n := cached_for r num_new_tokens num_new_computed_tokens in
    0 <= n <= slots_for r num_new_tokens num_new_computed_tokens num_lookahead_tokens k /\
    Forall (fun m => n / block_size m <= py_len (Request.block_hashes r)) (managers k);
}.

(** The number of blocks a table needs for the tokens. *)
Definition required (slots enc : Z) (m : Manager) : Z :=
  ceil_div (with_speculative m (tokens_for m slots enc)) (block_size m).

Lemma required_ge p slots enc m :
  config_ok p m -> is_cross m = false -> slots / block_size m <= required slots enc m.
Proof.
  intros (Hbs & _ & Hls) Hx. unfold required, tokens_for. rewrite Hx. etrans; [by apply div_le_ceil|].
  apply ceil_div_mono; [done|]. unfold with_speculative. destruct (manager_class m), (mgr_spec m); try lia.
  cbn in Hls. destruct (Z.ltb_spec 0 num_speculative_blocks); nia.
Qed.

Lemma required_same slots enc m m' : same_config m m' -> required slots enc m' = required slots enc m.
Proof.
  intros (h1 & h2 & h3 & h4). unfold required, tokens_for, is_cross, with_speculative. by rewrite h1, h2, h3.
Qed.

(** The outcome for one group: its table grew by the hits and the new blocks and
    covers the tokens. *)
Definition slots_given (rid : string) (slots enc : Z) (hits new : list (list Z)) (i : Z) (m m' : Manager) : Prop :=
  same_config m m' /\ exists t h l, hits !! Z.to_nat i = Some h /\ new !! Z.to_nat i = Some l /\
    table rid m' = t ++ h ++ l /\ length t = length (table rid m) /\
    required slots enc m <= py_len (table rid m') /\ py_len l = Z.max 0 (required slots enc m - py_len t - py_len h).

Section Slots.
Context (use_int_hashes : bool).

Lemma hits_lookup n b c j m :
  n = length (single_type_managers c) ->
  (match b with EmptyKVCacheBlocks => True | MkKVCacheBlocks hits => length hits = n end) ->
  single_type_managers c !! j = Some m -> exists h, blocks_of n b !! j = Some h.
Proof.
  intros -> Hb Hj%lookup_lt_Some. destruct b as [|hits]; cbn [blocks_of].
  - exists []. by apply lookup_replicate.
  - apply lookup_lt_is_Some_2. lia.
Qed.

(** The hits of a cross-attention manager are empty. *)
Lemma cross_no_hits rid b c n :
  (match b with
   | EmptyKVCacheBlocks => True
   | MkKVCacheBlocks hits => Forall (fresh_request rid) (single_type_managers c)
   end) ->
  forall m, m ∈ single_type_managers c -> is_cross m = true -> any_block (blocks_of n b) = false.
Proof.
  intros Hb m Hm Hx. destruct b as [|hits]; cbn [blocks_of]; [apply no_blocks|].
  rewrite Forall_forall in Hb. destruct (Hb m Hm) as (_ & _ & Hne).
  unfold is_cross in Hx. by apply bool_decide_eq_true in Hx.
Qed.

Lemma shortfall_after rid slots enc h m m1 (Hx : is_cross m = true -> h = []) :
  same_config m m1 -> table rid m1 = table rid m ++ h ->
  shortfall rid (tokens_for m1 slots enc) m1 = needed rid slots enc h m.
Proof.
  intros Hc Ht. pose proof (required_same slots enc m m1 Hc) as Hr. unfold required in Hr.
  unfold shortfall, needed, shortfall. rewrite Hr, Ht. unfold py_len. rewrite length_app.
  destruct (is_cross m); [rewrite Hx by done; cbn; lia | lia].
Qed.

(** The rest of [allocate_slots], once there are enough free blocks. *)
Lemma give_slots_ok rid slots enc b c free n :
  coord_inv c free -> n = length (single_type_managers c) ->
  (match b with
   | EmptyKVCacheBlocks => True
   | MkKVCacheBlocks hits => enable_caching (block_pool c) = true /\ length hits = n /\
       hits_ok (block_pool c) hits /\ Forall (fresh_request rid) (single_type_managers c)
   end) ->
  aligned rid slots enc (blocks_of n b) (single_type_managers c) ->
  num_needed rid slots enc (blocks_of n b) c <= py_len free ->
  exists c1 new c2 free', take_hits (enable_caching (block_pool c)) n rid b c = Ok c1 /\
    coord_allocate_new_blocks use_int_hashes rid slots enc c1 = Ok (new, c2) /\ coord_inv c2 free' /\
    c2 = c <| single_type_managers := single_type_managers c2 |> <| block_pool := block_pool c2 |> /\
    same_shape (block_pool c) (block_pool c2) /\ length new = n /\
    each_manager c c2 (fun i m m' => slots_given rid slots enc (blocks_of n b) new i m m').
Proof.
  intros Hc Hn Hb Hal Hneed.
  destruct (take_hits_ok rid b c free n Hc Hn Hb) as (c1 & free1 & Hr1 & Hc1 & Heq1 & Hs1 & Hlen1 & He1).
  assert (Hlen : length (blocks_of n b) = n) by (destruct b; cbn; [apply length_replicate | apply Hb]).
  assert (Hcross : forall m, m ∈ single_type_managers c -> is_cross m = true -> any_block (blocks_of n b) = false).
  { apply (cross_no_hits rid). destruct b; [done | apply Hb]. }
  assert (Hxh : forall j h m, blocks_of n b !! j = Some h -> single_type_managers c !! j = Some m ->
    is_cross m = true -> h = []).
  { intros j h m Hh Hm Hx. rewrite (any_block_false (blocks_of n b)) in Hh
      by (eapply Hcross; [by eapply list_elem_of_lookup_2 | done]).
    by apply lookup_replicate in Hh as [-> _]. }
  assert (Hcost : cost_all (fun _ m => shortfall rid (tokens_for m slots enc) m) 0 (single_type_managers c1) <= py_len free1).
  { rewrite cost_all_sum.
    replace (_ <$> single_type_managers c1)
      with (zip_with (fun h m => Z.max 0 (needed rid slots enc h m)) (blocks_of n b) (single_type_managers c)).
    - etrans; [|exact Hlen1]. apply slots_enough; [congruence | done | exact Hcross | exact Hneed |].
      destruct Hc as [[Hp _ _ _] _]. rewrite <- filter_concat_len.
      assert (Hok : hits_ok (block_pool c) (blocks_of n b)) by (destruct b; [apply hits_ok_nil | apply Hb]).
      pose proof (untouched_length _ _ _ Hp (hit_blocks _ _ Hok) (hit_once _ _ Hok)). unfold py_len in *. lia.
    - destruct He1 as [Hlm He1]. apply list_eq. intros j. rewrite list_lookup_fmap, lookup_zip_with.
      destruct (single_type_managers c !! j) as [m|] eqn:Hm.
      + destruct (He1 j m Hm) as (m1 & Hm1 & Hcf & h & Hh & Ht & _). rewrite Nat2Z.id in Hh.
        rewrite Hm1, Hh. cbn. rewrite (shortfall_after rid slots enc h m m1); [done| |done|done].
        intros Hx. by apply (Hxh j h m).
      + apply lookup_ge_None in Hm. rewrite (lookup_ge_None_2 (single_type_managers c1)) by lia.
        by destruct (blocks_of n b !! j). }
  destruct (coord_allocate_ok use_int_hashes rid slots enc c1 free1 Hc1 Hcost)
    as (new & c2 & free2 & Hr2 & Hc2 & Heq2 & Hs2 & Hln & He2).
  exists c1, new, c2, free2. split; [done|]. split; [done|]. split; [done|].
  split; [rewrite Heq2, Heq1; by destruct c|]. split; [by eapply same_shape_trans|].
  split; [destruct He1; congruence|]. eapply each_manager_trans; [exact He1 | exact He2|].
  intros i m m1 m2 Hm (Hcf1 & h & Hh & Ht1 & _) (Hcf2 & _ & l & Hl & Ht2 & Hll).
  split; [by eapply same_config_trans|]. exists (table rid m), h, l. split; [done|]. split; [done|].
  rewrite Ht2, Ht1, <- app_assoc. split; [done|]. split; [done|].
  rewrite (shortfall_after rid slots enc h m m1) in Hll; [|by apply (Hxh (Z.to_nat i) h m)|done|done].
  unfold needed, shortfall in Hll. fold (required slots enc m) in Hll. unfold py_len in *. rewrite !length_app.
  destruct (is_cross m) eqn:Hx; [rewrite (Hxh (Z.to_nat i) h m) in * by done; cbn in *; lia | lia].
Qed.

(** *** The whole operation *)

Lemma skipped_facts k n c1 :
  each_manager (coordinator k) c1 (fun _ m m' => same_config m m' /\ num_cached_block m' = num_cached_block m /\
    length (table n m') = length (table n m) /\
    forall i b, table n m' !! i = Some b -> table n m !! i = Some b \/ b = 0) ->
  (Forall (fresh_request n) (managers k) -> Forall (fresh_request n) (single_type_managers c1)) /\
  (forall slots enc hits, aligned n slots enc hits (managers k) -> aligned n slots enc hits (single_type_managers c1)).
Proof.
  intros [Hl He].
  assert (Hback : forall j m1, single_type_managers c1 !! j = Some m1 -> exists m, managers k !! j = Some m /\
    same_config m m1 /\ num_cached_block m1 = num_cached_block m /\ length (table n m1) = length (table n m)).
  { intros j m1 Hj. destruct (lookup_lt_is_Some_2 (managers k) j) as [m Hm].
    { apply lookup_lt_Some in Hj. unfold managers. lia. }
    destruct (He j m Hm) as (m' & Hm' & h1 & h2 & h3 & _). rewrite Hj in Hm'. injection Hm' as <-. by exists m. }
  split.
  - rewrite !Forall_lookup. intros Hf j m1 Hj. destruct (Hback j m1 Hj) as (m & Hm & (e1 & _) & e2 & e3).
    destruct (Hf j m Hm) as (f1 & f2 & f3). split; [apply nil_length_inv; by rewrite e3, f1|].
    rewrite e1, e2. done.
  - intros slots enc hits Hal.
    assert (Hneed : forall j h m1, hits !! j = Some h -> single_type_managers c1 !! j = Some m1 ->
      exists m, managers k !! j = Some m /\ needed n slots enc h m1 = needed n slots enc h m).
    { intros j h m1 _ Hm1. destruct (Hback j m1 Hm1) as (m & Hm & Hcf & _ & e3). exists m. split; [done|].
      pose proof (required_same slots enc m m1 Hcf) as Hr. destruct Hcf as (e1 & _).
      unfold needed, shortfall. fold (required slots enc m) (required slots enc m1).
      unfold is_cross. rewrite Hr, e1. unfold py_len. rewrite e3. done. }
    destruct Hal as [Hal|Hal]; [left|right]; intros j h m1 Hh Hm1; destruct (Hneed j h m1 Hh Hm1) as (m & Hm & ->);
      by eapply Hal.
Qed.

(** The hits offered are valid for the coordinator after the skip. *)
Lemma hits_after_skip k rid b c1 :
  hits_valid k rid b -> kv_enable_caching k = enable_caching (kv_pool k) ->
  same_shape (kv_pool k) (block_pool c1) -> same_hashes (kv_pool k) (block_pool c1) ->
  length (single_type_managers c1) = length (managers k) ->
  (Forall (fresh_request rid) (managers k) -> Forall (fresh_request rid) (single_type_managers c1)) ->
  match b with
  | EmptyKVCacheBlocks => True
  | MkKVCacheBlocks hits => enable_caching (block_pool c1) = true /\ length hits = length (managers k) /\
      hits_ok (block_pool c1) hits /\ Forall (fresh_request rid) (single_type_managers c1)
  end.
Proof.
  intros Hv Hec Hs Hh Hl Hf. destruct b as [|hits]; [done|]. destruct Hv as (v1 & v2 & v3 & v4).
  split; [destruct Hs as (_ & _ & -> & _); congruence|]. split; [done|]. split; [by eapply hits_ok_same | auto].
Qed.

Lemma table_read k k' m : table k' (read_table k m).2 = table k' m.
Proof. unfold table. cbn. apply dget_or_setdefault. Qed.

Lemma needed_read k slots enc h m : needed k slots enc h (read_table k m).2 = needed k slots enc h m.
Proof. unfold needed, shortfall. by rewrite table_read. Qed.

Lemma num_needed_read k slots enc hits c :
  num_needed k slots enc hits (c <| single_type_managers := (fun m => (read_table k m).2) <$> single_type_managers c |>)
  = num_needed k slots enc hits c.
Proof.
  unfold num_needed. f_equal.
  transitivity (zip_with (fun h m => needed k slots enc h m + num_evictable (block_pool c) h m) hits
    ((fun m => (read_table k m).2) <$> single_type_managers c)); [done|].
  rewrite zip_with_fmap_r. apply zip_with_ext; [|done..].
  intros h m. f_equal. apply needed_read.
Qed.

Lemma aligned_read k slots enc hits ms :
  aligned k slots enc hits ms -> aligned k slots enc hits ((fun m => (read_table k m).2) <$> ms).
Proof.
  intros [H|H]; [left|right]; intros j h m Hh; rewrite list_lookup_fmap; intros (m0 & Hm & ->)%fmap_Some;
    pose proof (needed_read k slots enc h m0) as ->; by eapply H.
Qed.

Lemma fresh_read k ms : Forall (fresh_request k) ms -> Forall (fresh_request k) ((fun m => (read_table k m).2) <$> ms).
Proof.
  intros H. apply Forall_fmap. eapply Forall_impl; [exact H|]. intros m (h1 & h2 & h3).
  unfold compose. split; [by rewrite table_read | done].
Qed.

(** The last part of [allocate_slots]: caching what is computed. *)
Lemma finish_slots_ok r n slots enc c hits new c0 free :
  coord_inv c free -> enable_caching (block_pool c) = true -> enable_kv_cache_events (block_pool c) = false ->
  0 <= n <= slots -> Forall (config_ok (block_pool c)) (single_type_managers c0) ->
  Forall (fun m => n / block_size m <= py_len (Request.block_hashes r)) (single_type_managers c0) ->
  each_manager c0 c (slots_given (request_id r) slots enc hits new) ->
  exists c' free', coord_cache_blocks use_int_hashes r n c = Ok c' /\ coord_inv c' free' /\
    same_shape (block_pool c) (block_pool c') /\
    each_manager c0 c' (slots_given (request_id r) slots enc hits new).
Proof.
  intros Hc Hec Hev Hn Hcfg Hbh Hg. rewrite Forall_forall in Hcfg, Hbh. pose proof Hg as [Hlg Heg].
  destruct (coord_cache_ok use_int_hashes r n c free Hc Hec Hev) as (c' & free' & Hr & Hc' & _ & Hs & He); [lia| |].
  - apply Forall_lookup. intros j m' Hm'. destruct (lookup_lt_is_Some_2 (single_type_managers c0) j) as [m Hm].
    { apply lookup_lt_Some in Hm'. lia. }
    destruct (Heg j m Hm) as (m2 & Hm2 & Hcf & t & h & l & _ & _ & _ & _ & Hreq & _).
    rewrite Hm' in Hm2. injection Hm2 as <-. apply list_elem_of_lookup_2 in Hm. pose proof Hcf as (_ & -> & _).
    split; [by apply Hbh|]. etrans; [|exact Hreq]. pose proof (Hcfg m Hm) as Hcm.
    etrans; [|apply (required_ge (block_pool c)); [done|]].
    + apply Z.div_le_mono; [apply Hcm | lia].
    + unfold is_cross. apply bool_decide_eq_false_2. by apply Hcm.
  - exists c', free'. split; [done|]. split; [done|]. split; [done|].
    eapply each_manager_trans; [exact Hg | exact He|].
    intros i m1 m2 m3 _ (s1 & t & h & l & h1 & h2 & h3 & h4 & h5 & h6) (s2 & Ht & _).
    split; [by eapply same_config_trans|]. exists t, h, l. by rewrite Ht.
Qed.

Lemma allocate_slots_ok k r free num_new_tokens num_new_computed_tokens ob num_lookahead_tokens delay enc :
  let b := default EmptyKVCacheBlocks ob in
  let rid := request_id r in
  let slots := slots_for r num_new_tokens num_new_computed_tokens num_lookahead_tokens k in
  let hits := blocks_of (length (managers k)) b in
  kv_inv k free -> allocatable k r num_new_tokens num_new_computed_tokens b num_lookahead_tokens delay enc ->
  exists c1 res k' free', coord_remove_skipped_blocks rid (num_computed_tokens r) (coordinator k) = Ok c1 /\
    allocate_slots use_int_hashes r num_new_tokens num_new_computed_tokens ob num_lookahead_tokens delay enc k
      = Ok (res, k') /\ kv_inv k' free' /\
    if get_num_free_blocks (block_pool c1) <? num_needed rid slots enc hits c1
    then res = None /\ each_manager (coordinator k) (coordinator k') (fun _ m m' =>
           same_config m m' /\ length (table rid m') = length (table rid m))
    else exists new, blocks_of (length (managers k)) <$> res = Some new /\ length new = length (managers k) /\
      each_manager (coordinator k) (coordinator k') (slots_given rid slots enc hits new).
Proof.
  intros b rid slots hits [Hc Hec Hev Hng] [Hnew Hskip Hhits Hal Hcache].
  destruct (coord_remove_skipped_ok rid (num_computed_tokens r) (coordinator k) free Hc Hskip)
    as (c1 & free1 & Hr1 & Hc1 & Heq1 & Hs1 & Hh1 & He1).
  destruct (skipped_facts k rid c1 He1) as [Hfresh1 Hal1].
  assert (Hl1 : length (single_type_managers c1) = length (managers k)) by apply He1.
  pose proof (hits_after_skip k rid b c1 Hhits Hec Hs1 Hh1 Hl1 Hfresh1) as Hb1.
  assert (Hlh : length hits = length (single_type_managers c1)).
  { unfold hits. rewrite Hl1. destruct b; cbn; [apply length_replicate | apply Hb1]. }
  pose proof (coord_num_blocks_ok rid slots enc hits c1 free1 Hc1 Hlh) as Hr2.
  pose proof (coord_read_inv rid c1 free1 Hc1) as Hc2.
  set (c2 := c1 <| single_type_managers := _ |>) in *.
  exists c1. unfold allocate_slots. destruct (Z.eqb_spec num_new_tokens 0); [lia|]. cbn zeta.
  fold rid b. rewrite Hng. fold hits. rewrite Hr1. bind_ok. fold (slots_for r num_new_tokens num_new_computed_tokens num_lookahead_tokens k).
  fold slots. rewrite Hr2. bind_ok. change (block_pool c2) with (block_pool c1).
  assert (He2 : each_manager (coordinator k) c2 (fun _ m m' => same_config m m' /\ length (table rid m') = length (table rid m))).
  { eapply (each_manager_trans _ c1 c2 _ (fun _ m m' => m' = (read_table rid m).2)); [exact He1| |].
    - split; [cbn; by rewrite length_fmap|]. intros j m Hm. exists (read_table rid m).2. cbn.
      by rewrite list_lookup_fmap, Hm.
    - intros i m m1 m2 _ (h1 & _ & h2 & _) ->. split; [done|]. unfold table in *. cbn. by rewrite dget_or_setdefault. }
  destruct (Z.ltb_spec (get_num_free_blocks (block_pool c1)) (num_needed rid slots enc hits c1)) as [Hlt|Hge].
  { eexists None, _, free1. split; [done|]. split; [done|]. split; [|done].
    apply (kv_inv_coord k free); [by split | done | exact Hs1 | cbn; by rewrite length_fmap]. }
  assert (Hcaching : kv_enable_caching k = enable_caching (block_pool c2)) by (rewrite Hec; symmetry; apply Hs1).
  destruct (give_slots_ok rid slots enc b c2 free1 (length (managers k)) Hc2)
    as (c3 & new & c4 & free4 & Hr3 & Hr4 & Hc4 & _ & Hs4 & Hln & He4).
  { cbn. rewrite length_fmap. congruence. }
  { destruct b; [done|]. destruct Hb1 as (b1 & b2 & b3 & b4). split; [done|]. split; [done|]. split; [done|].
    by apply fresh_read. }
  { by apply aligned_read, Hal1. }
  { unfold c2. rewrite num_needed_read. unfold get_num_free_blocks in Hge.
    destruct Hc1 as [[Hp1 _ _ _] _]. by rewrite (qr_num _ _ (po_queue _ _ _ Hp1)) in Hge. }
  assert (Heg : each_manager (coordinator k) c4 (slots_given rid slots enc hits new)).
  { eapply each_manager_trans; [exact He2 | exact He4|].
    intros i m1 m2 m3 _ (s1 & e1) (s2 & t & h & l & h1 & h2 & h3 & h4 & h5 & h6).
    split; [by eapply same_config_trans|]. exists t, h, l. rewrite (required_same slots enc m1 m2 s1) in *.
    split; [done|]. split; [done|]. split; [done|]. split; [congruence|done]. }
  unfold take_hits in Hr3. fold hits in Hr3. rewrite <- Hcaching in Hr3. apply bind_Ok_inv in Hr3 as (cm & Hrm & Hr3).
  change (block_pool c2) with (block_pool c1) in Hrm.
  unfold mbind, result_bind in Hrm |- *. rewrite Hrm.
  replace (match b with EmptyKVCacheBlocks => Ok cm | MkKVCacheBlocks _ => coord_save_new_computed_blocks rid hits cm end)
    with (Ok c3) by (destruct b; done).
  rewrite Hr4. fold (cached_for r num_new_tokens num_new_computed_tokens).
  assert (Hshape : same_shape (kv_pool k) (block_pool c4)) by (eapply same_shape_trans; [exact Hs1 | exact Hs4]).
  assert (Hkv : kv_inv k free) by (by split).
  destruct (negb (kv_enable_caching k) || delay) eqn:Eb.
  { eexists (Some _), _, free4. split; [done|]. split; [reflexivity|].
    split; [apply (kv_inv_coord k free); [done | done | done | apply Heg]|].
    exists new. cbn. rewrite blocks_of_create by done. done. }
  apply orb_false_iff in Eb as [Ec%negb_false_iff Ed]. destruct (Hcache Ec Ed) as [Hrange Hbh].
  destruct Hshape as (q1 & q2 & q3 & q4). destruct Hc as [_ Hcfg].
  destruct (finish_slots_ok r (cached_for r num_new_tokens num_new_computed_tokens) slots enc c4 hits new (coordinator k) free4)
    as (c5 & free5 & Hr5 & Hc5 & Hs5 & He5); [done|congruence|congruence|done| |done|done|].
  { eapply Forall_impl; [exact Hcfg|]. intros m Hm. apply (config_ok_same (kv_pool k) _ m m); [|done|done]. done. }
  rewrite Hr5. eexists (Some _), _, free5. split; [done|]. split; [reflexivity|].
  split; [apply (kv_inv_coord k free); [done | done | | apply He5]|].
  { eapply same_shape_trans; [|exact Hs5]. done. }
  exists new. cbn. rewrite blocks_of_create by done. done.
Qed.

End Slots.

(** *** Creation *)

Lemma make_managers_ok i dcp specs ms :
  make_managers i dcp specs = Ok ms -> 0 <= i -> 0 < dcp -> Forall (fun s => 0 < layer_block_size s) specs ->
  length ms = length specs /\
  Forall (fun m => req_to_blocks m = [] /\ num_cached_block m = [] /\ 0 < block_size m /\ 0 < layer_block_size (mgr_spec m) /\
    0 <= kv_cache_group_id m < i + py_len specs /\
    (manager_class m = CrossAttentionManager -> exists a, CrossAttentionSpec a ∈ specs)) ms.
Proof.
  revert i ms. induction specs as [|s specs IH]; intros i ms H Hi Hd Hs; cbn [make_managers] in H.
  { injection H as <-. done. }
  apply bind_Ok_inv in H as (m & Hm & H). apply bind_Ok_inv in H as (ms' & Hms & [= <-]).
  apply Forall_cons in Hs as [Hs Hss]. destruct (IH _ _ Hms ltac:(lia) Hd Hss) as [Hl Hall].
  split; [cbn; by rewrite Hl|]. constructor.
  - unfold get_manager_for_kv_cache_spec in Hm. apply bind_Ok_inv in Hm as (cls & Hcls & [= <-]). cbn.
    split; [done|]. split; [done|]. split; [destruct (1 <? dcp); nia|]. split; [done|].
    split; [unfold py_len; cbn; lia|]. intros ->. destruct s; try done. eexists. by left.
  - eapply Forall_impl; [exact Hall|]. cbn beta. intros m0 (h1 & h2 & h3 & h4 & h5 & h6).
    split; [done|]. split; [done|]. split; [done|]. split; [done|]. split; [unfold py_len in *; cbn; lia|].
    intros Hc. destruct (h6 Hc) as [a Ha]. exists a. by right.
Qed.

(** The layer specifications of a configuration. *)
Definition specs_ok (c : KVCacheConfig) (caching : bool) : Prop :=
  0 < num_blocks c /\ py_len (kv_cache_groups c) < 2 ^ 32 /\
  Forall (fun g => exists s, kv_cache_spec g = LayerKVCacheSpec s /\ 0 < layer_block_size s /\
    (caching = true -> forall a, s <> CrossAttentionSpec a)) (kv_cache_groups c).

Lemma mapM_cons_inv {A B} (f : A -> result B) x l ys :
  mapM f (x :: l) = Ok ys -> exists y ys', f x = Ok y /\ mapM f l = Ok ys' /\ ys = y :: ys'.
Proof.
  cbn. intros H. apply bind_Ok_inv in H as (y & Hy & H). apply bind_Ok_inv in H as (ys' & Hys & [= <-]). by exists y, ys'.
Qed.

Lemma group_specs c caching specs :
  specs_ok c caching -> mapM group_layer_spec (kv_cache_groups c) = Ok specs ->
  length specs = length (kv_cache_groups c) /\ Forall (fun s => 0 < layer_block_size s) specs /\
  (caching = true -> forall a, CrossAttentionSpec a ∉ specs).
Proof.
  intros (_ & _ & Hg). revert specs. induction Hg as [|g gs (s & Hs & Hb & Hc) Hg IH]; intros specs H.
  { injection H as <-. split; [done|]. split; [done|]. intros _ a. apply not_elem_of_nil. }
  apply mapM_cons_inv in H as (s' & ss & Hs' & Hss & ->).
  unfold group_layer_spec in Hs'. rewrite Hs in Hs'. injection Hs' as <-. destruct (IH ss Hss) as (h1 & h2 & h3). cbn.
  split; [by rewrite h1|]. split; [by constructor|]. intros Hca a. apply not_elem_of_cons.
  split; [|by apply h3]. intros He. by apply (Hc Hca a).
Qed.

Lemma new_kv_cache_manager_ok c len caching eagle log dcp k :
  new_kv_cache_manager c len caching eagle log false dcp = Ok k -> specs_ok c caching -> 0 < dcp ->
  kv_inv k (py_range 1 (num_blocks c)) /\
  Forall (fun m => req_to_blocks m = [] /\ num_cached_block m = []) (managers k) /\
  (forall b, hash_of (kv_pool k) b = None) /\ num_gpu_blocks (kv_pool k) = num_blocks c.
Proof.
  intros H Hc Hd. unfold new_kv_cache_manager in H. apply bind_Ok_inv in H as (bs & _ & H).
  apply bind_Ok_inv in H as (co & Hco & [= <-]). unfold get_kv_cache_coordinator in Hco.
  destruct (new_pool_inv (num_blocks c) caching false) as (p & Hp & Hok & Hn & Hca & Hev & Hrefs & Hh); [apply Hc|].
  rewrite Hp in Hco. apply bind_Ok_inv in Hco as (p0 & [= <-] & Hco). apply bind_Ok_inv in Hco as (specs & Hspecs & Hco).
  apply bind_Ok_inv in Hco as (ms & Hms & Hco). apply bind_Ok_inv in Hco as (cls & _ & [= <-]).
  destruct (group_specs c caching specs Hc Hspecs) as (Hl & Hb & Hx).
  destruct (make_managers_ok 0 dcp specs ms Hms ltac:(lia) Hd Hb) as [Hlm Hall].
  unfold kv_pool, managers. cbn. split; [|split; [|done]].
  - split; unfold kv_pool, managers; cbn; [|done|done|congruence]. split; cbn.
    + split; [done|done| |].
      * intros b _. rewrite Hrefs. unfold held_all. clear -Hall. induction Hall as [|m ms (h1 & _) _ IH]; cbn; [done|].
        unfold held at 1. rewrite h1. exact IH.
      * eapply Forall_impl; [exact Hall|]. intros m (h1 & h2 & _). split; rewrite ?h1, ?h2; [split; apply dict_ok_nil|done|].
        intros _ k. unfold num_cached, table. rewrite h1, h2. cbn. split; [lia|]. intros i b Hi. by rewrite lookup_nil in Hi.
    + eapply Forall_impl; [exact Hall|]. intros m (_ & _ & h3 & h4 & h5 & h6). split; [done|]. split; [|done].
      rewrite Hca. intros Hcach. split.
      * intros Hcr. destruct (h6 Hcr) as [a Ha]. by apply (Hx Hcach a).
      * destruct Hc as (_ & Hlt & _). unfold py_len in *. lia.
  - eapply Forall_impl; [exact Hall|]. by intros m (h1 & h2 & _).
Qed.

(** *** Taking blocks back *)

Lemma kv_free_ok r k free :
  kv_inv k free ->
  exists k' free', kv_free r k = Ok k' /\ kv_inv k' free' /\ same_shape (kv_pool k) (kv_pool k') /\
    each_manager (coordinator k) (coordinator k') (fun _ m m' => same_config m m' /\
      req_to_blocks m' = ddel (request_id r) (req_to_blocks m) /\
      num_cached_block m' = ddel (request_id r) (num_cached_block m)).
Proof.
  intros Hk. destruct (coord_free_ok (request_id r) _ _ (kv_coord _ _ Hk)) as (c' & free' & Hr & Hc' & _ & Hs & _ & He).
  unfold kv_free. rewrite Hr. bind_ok. eexists _, free'. split; [reflexivity|].
  split; [apply (kv_inv_coord k free); [done | done | done | apply He]|]. done.
Qed.

(** The requests that have a table. *)
Definition tracked (k : KVCacheManager) (rid : string) : Prop :=
  exists m, m ∈ managers k /\ rid ∈ dkeys (req_to_blocks m).

Lemma kv_free_loop rs k free :
  kv_inv k free ->
  exists k' free', for_each (fun r k => kv_free r k) rs k = Ok k' /\ kv_inv k' free' /\
    same_shape (kv_pool k) (kv_pool k') /\
    forall rid, tracked k' rid -> tracked k rid /\ rid ∉ (request_id <$> rs).
Proof.
  revert k free. induction rs as [|r rs IH]; intros k free Hk; cbn [for_each].
  { exists k, free. split; [done|]. split; [done|]. split; [done|]. intros rid Hr. split; [done | apply not_elem_of_nil]. }
  destruct (kv_free_ok r k free Hk) as (k1 & free1 & Hr1 & Hk1 & Hs1 & [Hl He]). rewrite Hr1. bind_ok.
  destruct (IH k1 free1 Hk1) as (k2 & free2 & Hr2 & Hk2 & Hs2 & Ht).
  exists k2, free2. split; [done|]. split; [done|]. split; [by eapply same_shape_trans|].
  intros rid Hrid. destruct (Ht rid Hrid) as [(m1 & Hm1 & Hkey) Hnot].
  apply list_elem_of_lookup in Hm1 as (j & Hj). unfold managers in Hj.
  destruct (lookup_lt_is_Some_2 (managers k) j) as [m Hm]; [apply lookup_lt_Some in Hj; unfold managers; lia|].
  destruct (He j m Hm) as (m' & Hm' & _ & Hreq & _). rewrite Hj in Hm'. injection Hm' as <-. rewrite Hreq in Hkey.
  split.
  - exists m. split; [by eapply list_elem_of_lookup_2|]. by eapply elem_of_dkeys_ddel_1.
  - cbn. rewrite not_elem_of_cons. split; [|done]. intros ->.
    destruct (kv_coord _ _ Hk) as [[_ _ _ Hown] _]. rewrite Forall_lookup in Hown.
    apply dget_is_Some in Hkey. rewrite dget_ddel_eq in Hkey by apply (Hown j m Hm). by destruct Hkey.
Qed.

(** When every request that holds a table is freed, in any order, no block leaks: all blocks but
    the null block are free again and the prefix cache can be reset. *)
Theorem free_all_no_leak rs k free :
  kv_inv k free -> (forall rid, tracked k rid -> rid ∈ (request_id <$> rs)) ->
  log_stats k = false ->
  exists k', for_each (fun r k => kv_free r k) rs k = Ok k' /\
    get_num_free_blocks (kv_pool k') = num_gpu_blocks (kv_pool k) - 1 /\
    exists k'', kv_reset_prefix_cache k' = Ok (true, k'').
Proof.
  intros Hk Hall Hlog. destruct (kv_free_loop rs k free Hk) as (k' & free' & Hr & Hk' & Hs & Ht).
  exists k'. split; [done|]. destruct (kv_coord _ _ Hk') as [[Hp _ Hrefs _] _].
  change (block_pool (coordinator k')) with (kv_pool k') in Hp, Hrefs.
  assert (Hnone : forall b, real (kv_pool k') b -> refs (kv_pool k') b = 0).
  { intros b Hb. rewrite Hrefs by done. rewrite Z.add_0_l. unfold held_all.
    assert (Hz : Forall (fun m => held m b = 0) (managers k')).
    { rewrite Forall_forall. intros m Hm. destruct (req_to_blocks m) as [|[rid l] d] eqn:E.
      - unfold held. rewrite E. done.
      - destruct (Ht rid) as [Hrid Hnot]; [|by apply Hall in Hrid].
        exists m. split; [done|]. rewrite E. unfold dkeys. cbn. by left. }
    clear Hrefs. unfold managers in Hz. induction Hz as [|m ms Hm _ IH]; [done|]. cbn [fmap list_fmap]. rewrite int_sum_cons, Hm.
    exact IH. }
  apply (all_free_iff (kv_pool k') free' Hp) in Hnone. split.
  - unfold get_num_free_blocks. rewrite (qr_num _ _ (po_queue _ _ _ Hp)), Hnone. destruct Hs as (-> & _). done.
  - destruct (reset_prefix_cache_inv (kv_pool k') free' Hp) as (Hd & _).
    rewrite bool_decide_eq_true_2 in Hd by done. unfold kv_reset_prefix_cache.
    destruct (reset_prefix_cache (kv_pool k')) as [d p]. cbn in Hd. subst d. cbn [negb].
    assert (Hlog' : log_stats (with_pool p k') = log_stats k).
    { clear -Hr. revert k Hr. induction rs as [|r rs IH]; intros k Hr; cbn in Hr; [by injection Hr as ->|].
      apply bind_Ok_inv in Hr as (k1 & Hr1 & Hr). rewrite (IH k1 Hr). unfold kv_free in Hr1. inv_ok. done. }
    rewrite Hlog', Hlog. by eexists.
Qed.

(** *** Admitting a request *)

(** A manager of one full-attention group with prefix caching. *)
Record unitary_full (k : KVCacheManager) (m : Manager) (spec : LayerSpec) : Prop := {
  uf_class : coordinator_class (coordinator k) = UnitaryKVCacheCoordinator spec;
  uf_managers : managers k = [m];
  uf_manager : manager_class m = FullAttentionManager /\ mgr_spec m = spec /\ block_size m = layer_block_size spec;
  uf_spec : is_full_attention spec = true;
  uf_plain : use_eagle (coordinator k) = false /\ dcp_world_size (coordinator k) = 1;
  uf_caching : kv_enable_caching k = true;
  uf_stats : log_stats k = true -> is_Some (prefix_cache_stats k);
}.

(** A request that is new to the manager and has the hashes of its full blocks. *)
Record new_to (k : KVCacheManager) (m : Manager) (r : Request) : Prop := {
  nt_fresh : fresh_request (request_id r) m;
  nt_computed : num_computed_tokens r = 0;
  nt_plain : wants_prompt_logprobs r = false;
  nt_tokens : 0 < num_tokens r <= kv_max_model_len k;
  nt_hashes : py_len (Request.block_hashes r) = num_tokens r / block_size m;
  nt_distinct : NoDup (Request.block_hashes r);
}.

Lemma get_computed_blocks_ok k m spec r free :
  kv_inv k free -> unitary_full k m spec -> new_to k m r ->
  exists n l k1, get_computed_blocks r k = Ok (create_kv_cache_blocks [l], Z.of_nat n * block_size m, k1) /\
    kv_inv k1 free /\ coordinator k1 = coordinator k /\ kv_max_model_len k1 = kv_max_model_len k /\
    kv_enable_caching k1 = true /\
    hit_lists (kv_pool k) [0] (take n (Request.block_hashes r)) [l] /\ (n <= length (Request.block_hashes r))%nat /\
    Z.of_nat n * block_size m < num_tokens r /\
    forall h, Request.block_hashes r !! n = Some h -> Z.of_nat (S n) * block_size m < num_tokens r ->
      ~ cached_everywhere (kv_pool k) [0] h.
Proof.
  intros Hk [u1 u2 [u3 [u4 u5]] u6 [u7 u8] u9 u10] [n1 n2 n3 n4 n5 n6].
  destruct (kv_coord _ _ Hk) as [[Hp _ _ _] Hcfg]. fold (managers k) in Hcfg. rewrite u2 in Hcfg.
  apply Forall_singleton in Hcfg as (Hbs & _ & _). rewrite u5 in *.
  assert (Hg : groups_ok [0]) by (split; [done | by repeat constructor]).
  destruct (full_attention_hit (kv_pool k) free [0] (Request.block_hashes r) (num_tokens r - 1) spec Hp Hg u6 Hbs ltac:(lia))
    as (n & res & Hr & Hl & Hn & Hle & Hmax).
  assert (Hres : exists l, res = [l]) by (unfold hit_lists in Hl; inversion Hl as [|? l ? ? ? Hnil]; inversion Hnil; subst; by exists l).
  destruct Hres as [l ->].
  assert (Hlen : py_len l = Z.of_nat n).
  { unfold hit_lists in Hl. inversion Hl as [|? ? ? ? Hl0 _]; subst. apply Forall2_length in Hl0.
    rewrite length_take in Hl0. unfold py_len. lia. }
  unfold get_computed_blocks. rewrite u9, n3. cbn [negb orb]. unfold coord_find_longest_cache_hit.
  rewrite u1. unfold managers in u2. rewrite u2. cbn [head or_raise]. bind_ok. rewrite u3, u7, u8.
  fold (kv_pool k). rewrite Hr. cbn [head or_raise]. change (1 <? 1) with false. cbn iota. rewrite Hlen.
  assert (Hrest : forall k1, coordinator k1 = coordinator k -> kv_max_model_len k1 = kv_max_model_len k ->
    kv_enable_caching k1 = kv_enable_caching k -> num_kv_cache_groups k1 = num_kv_cache_groups k -> kv_inv k1 free).
  { intros k1 e1 e2 e3 e4. destruct Hk as [h1 h2 h3 h4]. unfold kv_pool, managers in *.
    split; unfold kv_pool, managers; rewrite ?e1; try done; congruence. }
  destruct (log_stats k) eqn:Els.
  - destruct (u10 eq_refl) as [st Hst]. rewrite Hst. cbn [or_raise]. eexists n, l, _. split; [reflexivity|].
    split; [by apply Hrest|]. split; [done|]. split; [done|]. split; [done|]. split; [done|]. split; [done|].
    split; [lia|]. intros h Hh Hlt. apply Hmax; [done|lia].
  - eexists n, l, k. split; [reflexivity|]. split; [done|]. split; [done|]. split; [done|]. split; [done|].
    split; [done|]. split; [done|]. split; [lia|]. intros h Hh Hlt. apply Hmax; [done|lia].
Qed.

(** The hits of a new request are what [allocate_slots] expects. *)
Lemma hits_allocatable k m spec r free n l k1 num_new_tokens :
  kv_inv k free -> unitary_full k m spec -> new_to k m r ->
  coordinator k1 = coordinator k -> kv_max_model_len k1 = kv_max_model_len k -> kv_enable_caching k1 = true ->
  hit_lists (kv_pool k) [0] (take n (Request.block_hashes r)) [l] -> (n <= length (Request.block_hashes r))%nat ->
  0 < num_new_tokens <= num_tokens r - Z.of_nat n * block_size m ->
  slots_for r num_new_tokens (Z.of_nat n * block_size m) 0 k1 = Z.of_nat n * block_size m + num_new_tokens /\
  allocatable k1 r num_new_tokens (Z.of_nat n * block_size m) (create_kv_cache_blocks [l]) 0 false 0.
Proof.
  intros Hk [u1 u2 [u3 [u4 u5]] u6 [u7 u8] u9 u10] [n1 n2 n3 n4 n5 n6] Hco Hml Hca Hl Hn Hnew.
  assert (Hm1 : managers k1 = [m]) by (unfold managers in *; congruence).
  assert (Hp1 : kv_pool k1 = kv_pool k) by (unfold kv_pool; congruence).
  destruct (kv_coord _ _ Hk) as [[Hp _ _ _] Hcfg]. fold (managers k) in Hcfg. rewrite u2 in Hcfg.
  rewrite Forall_singleton in Hcfg. pose proof Hcfg as (Hbs & Hcls & _).
  assert (Hlen : py_len l = Z.of_nat n).
  { unfold hit_lists in Hl. inversion Hl as [|? ? ? ? Hl0 _]; subst. apply Forall2_length in Hl0.
    rewrite length_take in Hl0. unfold py_len. lia. }
  assert (Hslots : slots_for r num_new_tokens (Z.of_nat n * block_size m) 0 k1 = Z.of_nat n * block_size m + num_new_tokens).
  { unfold slots_for. rewrite Hml. lia. }
  split; [exact Hslots|]. pose proof n1 as (Ht & Hnc & _).
  split; [lia| | | |].
  - rewrite Hm1. constructor; [|done]. exists 0. unfold get_num_skipped_tokens. rewrite u3. split; [done|].
    rewrite Z.div_0_l by lia. rewrite Ht. split; [by vm_compute|]. intros _. unfold num_cached, dget_or. by rewrite Hnc.
  - unfold create_kv_cache_blocks. destruct (any_block [l]); [|done]. cbn. rewrite Hm1, Hp1.
    split; [done|]. split; [done|]. split; [|by constructor].
    apply (hit_lists_ok _ [0] (take n (Request.block_hashes r))); [apply NoDup_singleton | | done].
    eapply sublist_NoDup; [exact n6 | apply sublist_take].
  - rewrite Hm1. cbn [length]. rewrite blocks_of_create by done. destruct (Z.le_ge_cases 0
      (needed (request_id r) (slots_for r num_new_tokens (Z.of_nat n * block_size m) 0 k1) 0 l m)); [left|right];
      intros [|j] h m0; try done; intros [= <-] [= <-]; done.
  - intros _ _. cbn zeta. unfold cached_for. rewrite Hslots, n2. split; [lia|]. rewrite Hm1. constructor; [|done].
    rewrite n5. apply Z.div_le_mono; lia.
Qed.

(** A new request on a manager with one full-attention group: [get_computed_blocks] returns the
    longest prefix of its block hashes that is cached and leaves at least one token to compute, and
    [allocate_slots] on those hits never raises; it either returns None and keeps the invariant, or
    gives the request a table that starts with the hits and covers every token. *)
Theorem admit_request use_int_hashes k m spec r free num_new_tokens :
  kv_inv k free -> unitary_full k m spec -> new_to k m r ->
  exists n l b k1, get_computed_blocks r k = Ok (b, Z.of_nat n * block_size m, k1) /\
    hit_lists (kv_pool k) [0] (take n (Request.block_hashes r)) [l] /\
    Z.of_nat n * block_size m < num_tokens r /\
    (forall h, Request.block_hashes r !! n = Some h -> Z.of_nat (S n) * block_size m < num_tokens r ->
      ~ cached_everywhere (kv_pool k) [0] h) /\
    (0 < num_new_tokens <= num_tokens r - Z.of_nat n * block_size m ->
     exists res k2 free', allocate_slots use_int_hashes r num_new_tokens (Z.of_nat n * block_size m) (Some b) 0 false 0 k1
         = Ok (res, k2) /\ kv_inv k2 free' /\
       (is_Some res -> exists m' new, managers k2 = [m'] /\ table (request_id r) m' = l ++ new /\
          Z.of_nat n * block_size m + num_new_tokens <= py_len (table (request_id r) m') * block_size m)).
Proof.
  intros Hk Hu Hr. destruct (get_computed_blocks_ok k m spec r free Hk Hu Hr)
    as (n & l & k1 & Hget & Hk1 & Hco & Hml & Hca & Hl & Hn & Hlt & Hmax).
  exists n, l, (create_kv_cache_blocks [l]), k1. split; [done|]. split; [done|]. split; [done|]. split; [done|].
  intros Hnew. destruct Hu as [u1 u2 [u3 [u4 u5]] u6 [u7 u8] u9 u10]. destruct Hr as [n1 n2 n3 n4 n5 n6].
  assert (Hm1 : managers k1 = [m]) by (unfold managers in *; congruence).
  assert (Hp1 : kv_pool k1 = kv_pool k) by (unfold kv_pool; congruence).
  destruct (kv_coord _ _ Hk) as [[Hp _ _ _] Hcfg]. fold (managers k) in Hcfg. rewrite u2 in Hcfg.
  rewrite Forall_singleton in Hcfg. pose proof Hcfg as (Hbs & Hcls & _).
  assert (Hlen : py_len l = Z.of_nat n).
  { unfold hit_lists in Hl. inversion Hl as [|? ? ? ? Hl0 _]; subst. apply Forall2_length in Hl0.
    rewrite length_take in Hl0. unfold py_len. lia. }
  set (b := create_kv_cache_blocks [l]).
  assert (Hbl : blocks_of 1 b = [l]) by (by apply blocks_of_create).
  pose proof n1 as (Ht & Hnc & _).
  assert (Hreq : forall slots, required slots 0 m = ceil_div slots (block_size m)).
  { intros slots. unfold required, tokens_for, with_speculative, is_cross. rewrite u3. done. }
  destruct (hits_allocatable k m spec r free n l k1 num_new_tokens) as [Hslots Hal]; try done.
  destruct (allocate_slots_ok use_int_hashes k1 r free num_new_tokens (Z.of_nat n * block_size m) (Some b) 0 false 0 Hk1 Hal)
    as (c1 & res & k2 & free' & _ & Hrun & Hk2 & Hout).
  exists res, k2, free'. split; [done|]. split; [done|]. intros [rb ->]. cbn zeta in Hout.
  match type of Hout with if ?x then _ else _ => destruct x end; [by destruct Hout as [[=] _]|].
  destruct Hout as (new & Hnew' & Hln & [Hlm He]). fold (managers k1) in Hlm, He. cbn [default] in He.
  rewrite Hm1 in Hlm, He, Hln. destruct (He 0%nat m eq_refl) as (m' & Hm' & _ & t & h & l' & Hh & _ & Htab & Htl & Hrq & _).
  cbn [length] in Hh. cbn in Hh. rewrite Hbl in Hh. injection Hh as <-.
  fold (managers k2) in Hlm, Hm'. destruct (managers k2) as [|m2 [|]] eqn:Em2; try done. injection Hm' as ->.
  rewrite Ht in Htl. destruct t; [|done]. exists m', l'. split; [done|]. split; [exact Htab|].
  rewrite Hslots, Hreq in Hrq. pose proof (ceil_div_bound (Z.of_nat n * block_size m + num_new_tokens) (block_size m) Hbs). nia.
Qed.

(** C38: [allocate_slots] rejects zero new tokens with ValueError.  Under the invariant, and for arguments as the scheduler passes
    them ([allocatable]: a positive number of tokens; hits that are cached blocks, for a request without a table; not one group with
    more blocks than it needs and another with fewer; blocks to skip that are in the table and cached; hashes for the tokens to be cached),
    it returns and keeps the invariant: if the groups together need more blocks than are free
    it returns None and every table keeps its length; else every group's table is extended by the
    hits and by exactly the missing new blocks, which it returns, and covers the requested tokens. *)
Theorem allocate_slots_outcome use_int_hashes k r free num_new_tokens num_new_computed_tokens ob
    num_lookahead_tokens delay enc :
  let b := default EmptyKVCacheBlocks ob in
  let rid := request_id r in
  let slots := slots_for r num_new_tokens num_new_computed_tokens num_lookahead_tokens k in
  let hits := blocks_of (length (managers k)) b in
  let run := allocate_slots use_int_hashes r num_new_tokens num_new_computed_tokens ob num_lookahead_tokens delay enc k in
  (num_new_tokens = 0 -> run = Raise ValueError) /\
  (kv_inv k free -> allocatable k r num_new_tokens num_new_computed_tokens b num_lookahead_tokens delay enc ->
   exists c1 res k' free', coord_remove_skipped_blocks rid (num_computed_tokens r) (coordinator k) = Ok c1 /\
    run = Ok (res, k') /\ kv_inv k' free' /\
    if get_num_free_blocks (block_pool c1) <? num_needed rid slots enc hits c1
    then res = None /\ each_manager (coordinator k) (coordinator k') (fun _ m m' =>
           same_config m m' /\ length (table rid m') = length (table rid m))
    else exists new, blocks_of (length (managers k)) <$> res = Some new /\ length new = length (managers k) /\
      each_manager (coordinator k) (coordinator k') (slots_given rid slots enc hits new)).
Proof.
  cbv zeta. split; [by intros ->|]. intros Hk Hal. by apply (allocate_slots_ok use_int_hashes k r free).
Qed.

(** ** A concrete manager *)

Definition sample_full_spec : LayerSpec := FullAttentionSpec (mkAttentionSpec 2 1 1 "bfloat16") None None.

Definition sample_kv_config : KVCacheConfig :=
  {| num_blocks := 6; kv_cache_tensors := [];
     kv_cache_groups := [mkKVCacheGroupSpec ["layer.0"] (LayerKVCacheSpec sample_full_spec)] |}.

Definition sample_kv_request : result Request :=
  new_request (Some (request_block_hasher sample_hash "seed" 2)) fzero
    (sample_args <| ra_prompt_token_ids := Some [1; 2; 3; 4; 5] |>).

Lemma sample_kv_setup :
  exists k m r, new_kv_cache_manager sample_kv_config 16 true false false false 1 = Ok k /\
    sample_kv_request = Ok r /\ kv_inv k (py_range 1 6) /\ unitary_full k m sample_full_spec /\
    new_to k m r /\ log_stats k = false /\ managers k = [m] /\ block_size m = 2 /\ num_tokens r = 5 /\
    req_to_blocks m = [] /\ kv_max_model_len k = 16.
Proof.
  destruct (new_kv_cache_manager sample_kv_config 16 true false false false 1) as [k|e] eqn:Ek;
    [|vm_compute in Ek; discriminate Ek].
  destruct sample_kv_request as [r|e] eqn:Er; [|vm_compute in Er; discriminate Er].
  destruct (new_kv_cache_manager_ok _ _ _ _ _ _ _ Ek) as (Hk & Hm & _); [|lia|].
  { split; [done|]. split; [done|]. constructor; [|done]. by exists sample_full_spec. }
  assert (Hkm : exists m, managers k = [m] /\ unitary_full k m sample_full_spec /\ block_size m = 2 /\
    kv_max_model_len k = 16 /\ log_stats k = false).
  { vm_compute in Ek. injection Ek as <-. eexists. split; [reflexivity|]. split; [|done]. split; try done. }
  destruct Hkm as (m & Hms & Hu & Hb & Hlen & Hlog). rewrite Hms, Forall_singleton in Hm. destruct Hm as [Hm1 Hm2].
  assert (Hrf : num_computed_tokens r = 0 /\ wants_prompt_logprobs r = false /\ num_tokens r = 5 /\
    py_len (Request.block_hashes r) = 2 /\ bool_decide (NoDup (Request.block_hashes r)) = true).
  { assert (Hr : (r ← sample_kv_request; Ok (num_computed_tokens r, wants_prompt_logprobs r, num_tokens r,
      py_len (Request.block_hashes r), bool_decide (NoDup (Request.block_hashes r)))) = Ok (0, false, 5, 2, true))
      by (vm_compute; reflexivity).
    rewrite Er in Hr. by injection Hr. }
  destruct Hrf as (r1 & r2 & r3 & r4 & r5%bool_decide_eq_true).
  exists k, m, r. split; [done|]. split; [done|]. split; [exact Hk|]. split; [done|].
  split; [|done]. split; try done.
  - split; [unfold table; by rewrite Hm1|]. rewrite Hm2. split; [done|]. destruct Hu as [_ _ [-> _] _ _ _ _]. done.
  - rewrite r3, Hlen. lia.
  - by rewrite r4, r3, Hb.
Qed.

Lemma admit_request_witness :
  exists k r b n k1 res k2, new_kv_cache_manager sample_kv_config 16 true false false false 1 = Ok k /\
    sample_kv_request = Ok r /\ get_computed_blocks r k = Ok (b, n, k1) /\
    allocate_slots true r 1 n (Some b) 0 false 0 k1 = Ok (res, k2).
Proof.
  destruct sample_kv_setup as (k & m & r & Ek & Er & Hk & Hu & Hn & _ & _ & Hb & Ht & _).
  destruct (admit_request true k m sample_full_spec r _ 1 Hk Hu Hn) as (n & l & b & k1 & Hg & _ & Hlt & _ & Hal).
  destruct Hal as (res & k2 & free' & Hr & _); [lia|].
  exists k, r, b, (Z.of_nat n * block_size m), k1, res, k2. done.
Defined.

Lemma sample_allocatable k m r :
  unitary_full k m sample_full_spec -> new_to k m r -> managers k = [m] -> block_size m = 2 -> num_tokens r = 5 -> kv_max_model_len k = 16 ->
  forall x, x = 3 \/ x = 12 -> allocatable k r x 0 EmptyKVCacheBlocks 0 true 0.
Proof.
  intros Hu Hn Hms Hb Ht Hlen x Hx. destruct Hn as [n1 n2 n3 n4 n5 n6]. pose proof n1 as (Htab & Hnc & _). destruct Hu as [_ _ [u3 _] _ _ _ _].
  split; [lia| |done| |done].
  - rewrite Hms. constructor; [|done]. exists 0. unfold get_num_skipped_tokens. rewrite u3. split; [done|].
    rewrite Hb, Htab. split; [by vm_compute|]. intros _. unfold num_cached, dget_or. by rewrite Hnc.
  - left. intros [|[|j]] h m0; rewrite Hms; cbn; [|done..]. intros [= <-] [= <-].
    assert (Hs : slots_for r x 0 0 k = x) by (unfold slots_for; rewrite n2, Hlen; lia).
    rewrite Hs. unfold needed, shortfall. rewrite Htab, Hb. unfold tokens_for, with_speculative, is_cross.
    rewrite u3. by destruct Hx as [-> | ->]; vm_compute.
Qed.

(** The request's first allocation. *)
Lemma sample_allocated :
  exists k r k' free', new_kv_cache_manager sample_kv_config 16 true false false false 1 = Ok k /\
    sample_kv_request = Ok r /\ kv_inv k' free' /\ num_gpu_blocks (kv_pool k') = 6 /\ log_stats k' = false /\
    (forall rid, tracked k' rid <-> rid = request_id r) /\
    exists res, allocate_slots true r 3 0 None 0 true 0 k = Ok (res, k').
Proof.
  destruct sample_kv_setup as (k & m & r & Ek & Er & Hk & Hu & Hn & _ & Hms & Hb & Ht & Hreq & Hlen).
  destruct (allocate_slots_ok true k r _ 3 0 None 0 true 0 Hk) as (c1 & res & k' & free' & _ & Hr & Hk' & _).
  - apply sample_allocatable with (m := m); auto.
  - assert (Hrun : (k ← new_kv_cache_manager sample_kv_config 16 true false false false 1; r ← sample_kv_request;
      '(_, k') ← allocate_slots true r 3 0 None 0 true 0 k;
      Ok ((fun m => dkeys (req_to_blocks m)) <$> managers k', num_gpu_blocks (kv_pool k'), log_stats k', request_id r))
      = Ok ([["cmpl-0"]], 6, false, "cmpl-0")) by (vm_compute; reflexivity).
    rewrite Ek, Er in Hrun. cbv beta iota delta [mbind result_bind] in Hrun. rewrite Hr in Hrun.
    injection Hrun as Hkeys Hnum Hlog Hid.
    exists k, r, k', free'. split; [done|]. split; [done|]. split; [done|]. split; [done|]. split; [done|].
    split; [|by exists res]. destruct (managers k') as [|m' [|]] eqn:Em; try done. injection Hkeys as Hkeys.
    unfold tracked. rewrite Em. intros rid. split.
    + intros (m0 & ->%list_elem_of_singleton & Hrid). rewrite Hkeys, <- Hid in Hrid. by apply list_elem_of_singleton in Hrid.
    + intros ->. exists m'. split; [by left|]. rewrite Hkeys, <- Hid. by left.
Qed.

Lemma free_all_no_leak_witness :
  exists r k k', num_gpu_blocks (kv_pool k) = 6 /\ tracked k (request_id r) /\
    for_each (fun r k => kv_free r k) [r] k = Ok k' /\ get_num_free_blocks (kv_pool k') = 5.
Proof.
  destruct sample_allocated as (k0 & r & k & free & _ & _ & Hk & Hn & Hlog & Ht & _).
  destruct (free_all_no_leak [r] k free Hk) as (k' & Hf & Hfree & _); [|exact Hlog|].
  - intros rid Hrid. rewrite (proj1 (Ht rid) Hrid). by left.
  - pose proof (proj2 (Ht (request_id r)) eq_refl) as Htr. exists r, k, k'. rewrite Hn in Hfree. split; [exact Hn|]. split; [exact Htr|]. split; [exact Hf | exact Hfree].
Defined.

(** A request with the same first four tokens, and the manager after the first one's allocation. *)
Definition sample_second : result (KVCacheManager * Request) :=
  k ← new_kv_cache_manager sample_kv_config 16 true false false false 1;
  r ← sample_kv_request;
  '(b, n, k) ← get_computed_blocks r k;
  '(_, k) ← allocate_slots true r 5 n (Some b) 0 false 0 k;
  r ← new_request (Some (request_block_hasher sample_hash "seed" 2)) fzero
        (sample_args <| ra_request_id := "second" |> <| ra_prompt_token_ids := Some [1; 2; 3; 4; 6] |>);
  Ok (k, r).

Lemma sample_second_facts k r : sample_second = Ok (k, r) ->
  exists m, unitary_full k m sample_full_spec /\ new_to k m r /\ block_size m = 2 /\ num_tokens r = 5.
Proof.
  assert (Hfacts : ('(k, r) ← sample_second; Ok (coordinator_class (coordinator k), use_eagle (coordinator k),
      dcp_world_size (coordinator k), kv_enable_caching k, log_stats k, kv_max_model_len k,
      (fun m => (manager_class m, mgr_spec m, block_size m, table (request_id r) m, dget (request_id r) (num_cached_block m))) <$> managers k,
      (num_computed_tokens r, wants_prompt_logprobs r, num_tokens r, py_len (Request.block_hashes r), bool_decide (NoDup (Request.block_hashes r)))))
    = Ok (UnitaryKVCacheCoordinator sample_full_spec, false, 1, true, false, 16,
        [(FullAttentionManager, sample_full_spec, 2, [], None)], (0, false, 5, 2, true))) by (vm_compute; reflexivity).
  intros E. revert Hfacts. rewrite E. clear E. cbn [mbind result_bind]. intros [= f1 f2 f3 f4 f5 f6 f7 f8 f9 f10 f11 f12].
  destruct (managers k) as [|m [|]] eqn:Em; try done. injection f7 as g1 g2 g3 g4 g5.
  apply bool_decide_eq_true in f12. exists m. split; [split; try done; by rewrite f5|]. split; [|done].
  split; [split; [done | split; [done | by rewrite g1]] | done | done | lia | | done]. by rewrite f11, f10, g3.
Qed.

Lemma sample_second_inv : exists k r free, sample_second = Ok (k, r) /\ kv_inv k free.
Proof.
  destruct sample_kv_setup as (k & m & r & Ek & Er & Hk & Hu & Hn & _ & _ & Hb & Ht & _ & _).
  destruct (admit_request true k m sample_full_spec r _ 5 Hk Hu Hn) as (n & l & b & k1 & Hg & _ & Hlt & _ & Hal).
  assert (Hn0 : (k ← new_kv_cache_manager sample_kv_config 16 true false false false 1; r ← sample_kv_request;
    '(_, n, _) ← get_computed_blocks r k; Ok n) = Ok 0) by (vm_compute; reflexivity).
  rewrite Ek, Er in Hn0. cbn [mbind result_bind] in Hn0. rewrite Hg in Hn0. cbn [mbind result_bind] in Hn0. injection Hn0 as Hn0.
  destruct Hal as (res & k2 & free' & Hr & Hk2 & _); [lia|]. unfold sample_second.
  assert (Hreq : match new_request (Some (request_block_hasher sample_hash "seed" 2)) fzero
    (sample_args <| ra_request_id := "second" |> <| ra_prompt_token_ids := Some [1; 2; 3; 4; 6] |>) with Ok _ => true | _ => false end = true)
    by (vm_compute; reflexivity).
  rewrite Ek, Er. cbn [mbind result_bind]. rewrite Hg. cbn [mbind result_bind]. rewrite Hr. cbn [mbind result_bind].
  destruct (new_request _ _ _) as [r2|]; [|discriminate Hreq]. cbn [mbind result_bind]. exists k2, r2, free'. by split.
Qed.

Lemma allocate_slots_outcome_witness :
  (exists k r k', new_kv_cache_manager sample_kv_config 16 true false false false 1 = Ok k /\ sample_kv_request = Ok r /\
    allocate_slots true r 12 0 None 0 true 0 k = Ok (None, k')) /\
  exists k r b k1 new k2, sample_second = Ok (k, r) /\ get_computed_blocks r k = Ok (b, 4, k1) /\
    allocate_slots true r 1 4 (Some b) 0 false 0 k1 = Ok (Some new, k2) /\
    exists m', managers k2 = [m'] /\ py_len (table "second" m') = 3.
Proof.
  split.
  - destruct sample_kv_setup as (k & m & r & Ek & Er & Hk & Hu & Hn & _ & Hms & Hb & Ht & Hreq & Hlen).
    destruct (proj2 (allocate_slots_outcome true k r _ 12 0 None 0 true 0) Hk) as (c1 & res & k' & free' & _ & Hr & _).
    { apply sample_allocatable with (m := m); auto. }
    assert (Hrun : (k ← new_kv_cache_manager sample_kv_config 16 true false false false 1; r ← sample_kv_request;
      '(res, _) ← allocate_slots true r 12 0 None 0 true 0 k; Ok (bool_decide (res = None))) = Ok true) by (vm_compute; reflexivity).
    rewrite Ek, Er in Hrun. cbn [mbind result_bind] in Hrun. rewrite Hr in Hrun. injection Hrun as ->%bool_decide_eq_true.
    by exists k, r, k'.
  - destruct sample_second_inv as (k & r & free & E & Hk). destruct (sample_second_facts k r E) as (m & Hu & Hn & Hb & Ht).
    destruct (get_computed_blocks_ok k m _ r free Hk Hu Hn) as (n & l & k1 & Hg & Hk1 & Hco & Hml & Hca & Hl & Hle & Hlt & _).
    assert (Hrun : ('(k, r) ← sample_second; '(b, n, k1) ← get_computed_blocks r k; '(res, k2) ← allocate_slots true r 1 n (Some b) 0 false 0 k1;
      Ok (n, bool_decide (is_Some res), (fun m => py_len (table "second" m)) <$> managers k2)) = Ok (4, true, [3])) by (vm_compute; reflexivity).
    rewrite E in Hrun. cbn [mbind result_bind] in Hrun. rewrite Hg in Hrun. cbn [mbind result_bind] in Hrun.
    assert (Hn4 : Z.of_nat n * block_size m = 4) by (apply bind_Ok_inv in Hrun as ([] & _ & [= Hn4 _ _]); exact Hn4).
    destruct (hits_allocatable k m _ r free n l k1 1 Hk Hu Hn Hco Hml Hca Hl Hle) as [_ Hal]; [lia|]. rewrite Hn4 in *.
    destruct (proj2 (allocate_slots_outcome true k1 r free 1 4 (Some (create_kv_cache_blocks [l])) 0 false 0) Hk1 Hal)
      as (c1 & res & k2 & free2 & _ & Hr & _).
    rewrite Hr in Hrun. injection Hrun as [new ->]%bool_decide_eq_true Hlens.
    exists k, r, (create_kv_cache_blocks [l]), k1, new, k2. split; [exact E|]. split; [exact Hg|]. split; [exact Hr|].
    clear -Hlens. destruct (managers k2) as [|m2 [|]]; try done. injection Hlens as Hlen2. by exists m2.
Defined.
