(* ===== verification/KVService.v ===== *)
(** * What the KV-cache manager gives the scheduler

    The promise the scheduler is verified against, for a manager of one
    full-attention group with or without prefix caching: a good manager stays
    good, its operations do not raise, and they touch no other request's
    blocks. *)

From S2P Require Import Prelude PyDict PyList PyInt KVSpec FreeQueue PyFloat Request KVHash BlockPool.
From S2P Require Import KVManagers KVTables KVCoordinator KVCacheInv KVCacheOps KVHits KVCacheManager KVCacheProps.
#[local] Open Scope Z_scope.

(** ** Frames: what an operation on one request leaves alone *)

(** The manager keeps its configuration and the entries of the other requests. *)
Definition touches (rid : string) (m m' : Manager) : Prop :=
  same_config m m' /\ forall k, k <> rid ->
    dget k (req_to_blocks m') = dget k (req_to_blocks m) /\
    dget k (num_cached_block m') = dget k (num_cached_block m).

#[export] Instance touches_preorder rid : PreOrder (touches rid).
Proof.
  split; [by intros m|]. intros m1 m2 m3 [s1 h1] [s2 h2]. split; [by eapply same_config_trans|].
  intros k Hk. destruct (h1 k Hk), (h2 k Hk). split; congruence.
Qed.

Record coord_frame (rid : string) (c c' : Coordinator) : Prop := {
  cf_class : coordinator_class c' = coordinator_class c;
  cf_eagle : use_eagle c' = use_eagle c;
  cf_dcp : dcp_world_size c' = dcp_world_size c;
  cf_managers : Forall2 (touches rid) (single_type_managers c) (single_type_managers c');
}.

#[export] Instance coord_frame_preorder rid : PreOrder (coord_frame rid).
Proof.
  split; [by intros c|]. intros c1 c2 c3 [a1 a2 a3 a4] [b1 b2 b3 b4]. split; [congruence..|]. by etrans.
Qed.

Lemma coord_frame_pool rid c p : coord_frame rid c (c <| block_pool := p |>).
Proof. by split. Qed.

(** A relation between each manager before and after goes through the loop. *)
Lemma over_managers_rel {A} (R : Manager -> Manager -> Prop)
    (f : Z -> Manager -> BlockPool -> result (A * Manager * BlockPool)) c r c' :
  (forall i m p a m' p', f i m p = Ok (a, m', p') -> R m m') -> over_managers f c = Ok (r, c') ->
  c' = c <| single_type_managers := single_type_managers c' |> <| block_pool := block_pool c' |> /\
  Forall2 R (single_type_managers c) (single_type_managers c').
Proof.
  intros Hf. unfold over_managers.
  assert (Hl : forall ms i p r ms' p', managers_loop f i ms p = Ok (r, ms', p') -> Forall2 R ms ms').
  { induction ms as [|m ms IH]; intros i p r' ms' p' H; cbn in H; inv_ok; [constructor|].
    constructor; [by eapply Hf | by eapply IH]. }
  intros H. inv_ok. cbn. split; [by destruct c | by eapply Hl].
Qed.

Lemma over_managers_frame {A} rid (f : Z -> Manager -> BlockPool -> result (A * Manager * BlockPool)) c r c' :
  (forall i m p a m' p', f i m p = Ok (a, m', p') -> touches rid m m') ->
  over_managers f c = Ok (r, c') -> coord_frame rid c c'.
Proof. intros Hf H. destruct (over_managers_rel _ _ _ _ _ Hf H) as [-> Hl]. by split. Qed.

(** The counts of cached blocks stay. *)
Definition same_counts (c c' : Coordinator) : Prop :=
  num_cached_block <$> single_type_managers c' = num_cached_block <$> single_type_managers c.

Lemma over_managers_counts {A} rid (f : Z -> Manager -> BlockPool -> result (A * Manager * BlockPool)) c r c' :
  (forall i m p a m' p', f i m p = Ok (a, m', p') ->
     touches rid m m' /\ num_cached_block m' = num_cached_block m) ->
  over_managers f c = Ok (r, c') -> coord_frame rid c c' /\ same_counts c c'.
Proof.
  intros Hf H. split.
  - eapply over_managers_frame; [|exact H]. intros. by eapply Hf.
  - destruct (over_managers_rel (fun m m' => num_cached_block m' = num_cached_block m) f c r c') as [_ Hl]; [|done|].
    + intros. by eapply Hf.
    + unfold same_counts. induction Hl; cbn; congruence.
Qed.

Lemma dget_dsetdefault_ne {V} k k' (v : V) d : k <> k' -> dget k (dsetdefault (K := string) k' v d) = dget k d.
Proof. intros. unfold dsetdefault. destruct (dmem k' d); [done|]. by apply dget_dset_ne. Qed.

(** Writes under the request's own id touch nothing else. *)
Ltac solve_touches :=
  split; [by repeat split|]; intros ? ?; cbn;
  split; rewrite ?dget_dset_ne by done; rewrite ?dget_dsetdefault_ne by done; done.

Lemma skipped_touches rid n m p m' p' : remove_skipped_blocks rid n m p = Ok (m', p') ->
  touches rid m m' /\ num_cached_block m' = num_cached_block m.
Proof.
  unfold remove_skipped_blocks, read_table. intros H. inv_ok. destruct (_ <=? 0); inv_ok; [by split|].
  split; [|done]. solve_touches.
Qed.

Lemma get_num_touches rid n l m p x m' : get_num_blocks_to_allocate rid n l m p = Ok (x, m') ->
  touches rid m m' /\ num_cached_block m' = num_cached_block m.
Proof. unfold get_num_blocks_to_allocate, read_table. intros H. inv_ok. split; [|done]. solve_touches. Qed.

Lemma save_touches rid l m m' : save_new_computed_blocks rid l m = Ok m' -> touches rid m m'.
Proof.
  unfold save_new_computed_blocks, read_table. intros H. destruct (manager_class m), (dmem rid (num_cached_block m)); inv_ok;
    solve_touches.
Qed.

Lemma allocate_touches use_int rid n m p l m' p' : allocate_new_blocks use_int rid n m p = Ok (l, m', p') -> touches rid m m'.
Proof.
  unfold allocate_new_blocks, read_table. intros H. inv_ok. destruct (_ <=? 0); inv_ok; solve_touches.
Qed.

Lemma cache_touches use_int r n m p m' p' : cache_blocks use_int r n m p = Ok (m', p') -> touches (request_id r) m m'.
Proof.
  unfold cache_blocks, read_table. intros H. destruct (manager_class m); inv_ok;
    destruct (_ <=? _); inv_ok; solve_touches.
Qed.

Lemma skipped_frame rid n c c' : coord_remove_skipped_blocks rid n c = Ok c' ->
  coord_frame rid c c' /\ same_counts c c'.
Proof.
  unfold coord_remove_skipped_blocks. intros H. inv_ok. eapply over_managers_counts; [|exact Hr].
  cbn beta. intros i m p a m' p' H. inv_ok. by eapply skipped_touches.
Qed.

Lemma coord_num_frame rid n l enc c x c' : coord_num_blocks_to_allocate rid n l enc c = Ok (x, c') ->
  coord_frame rid c c' /\ same_counts c c'.
Proof.
  unfold coord_num_blocks_to_allocate. intros H. inv_ok. eapply over_managers_counts; [|exact Hr].
  cbn beta. intros i m p a m' p' H. destruct (is_cross m); inv_ok; by eapply get_num_touches.
Qed.

Lemma save_frame rid l c c' : coord_save_new_computed_blocks rid l c = Ok c' -> coord_frame rid c c'.
Proof.
  unfold coord_save_new_computed_blocks. intros H. inv_ok. eapply over_managers_frame; [|exact Hr].
  cbn beta. intros i m p a m' p' H. inv_ok. by eapply save_touches.
Qed.

Lemma allocate_new_frame use_int rid n enc c l c' :
  coord_allocate_new_blocks use_int rid n enc c = Ok (l, c') -> coord_frame rid c c'.
Proof.
  unfold coord_allocate_new_blocks. intros H. eapply over_managers_frame; [|exact H].
  cbn beta. intros i m p a m' p' Hm. apply allocate_touches in Hm. exact Hm.
Qed.

Lemma cache_frame use_int r n c c' : coord_cache_blocks use_int r n c = Ok c' -> coord_frame (request_id r) c c'.
Proof.
  unfold coord_cache_blocks. intros H. inv_ok. eapply over_managers_frame; [|exact Hr].
  cbn beta. intros i m p a m' p' H. inv_ok. by eapply cache_touches.
Qed.

Lemma free_frame rid c c' : coord_free rid c = Ok c' -> coord_frame rid c c'.
Proof.
  unfold coord_free. intros H. inv_ok. eapply over_managers_frame; [|exact Hr].
  cbn beta. intros i m p a m' p' H. inv_ok. unfold KVManagers.free in *. inv_ok. split; [by repeat split|].
  intros k Hk. cbn. by rewrite !dget_ddel_ne.
Qed.

(** Allocation touches the request's entries only, and a refusal leaves its
    count of cached blocks. *)
Lemma allocate_slots_frame use_int r n nc ob la delay enc k res k' :
  allocate_slots use_int r n nc ob la delay enc k = Ok (res, k') ->
  coord_frame (request_id r) (coordinator k) (coordinator k') /\
  k' = k <| coordinator := coordinator k' |> /\
  (res = None -> same_counts (coordinator k) (coordinator k')).
Proof.
  unfold allocate_slots. intros H. destruct (n =? 0); [discriminate H|]. cbn zeta in H.
  apply bind_Ok_inv in H as (c1 & H1 & H). apply skipped_frame in H1 as [F1 S1].
  apply bind_Ok_inv in H as ([x c2] & H2 & H). apply coord_num_frame in H2 as [F2 S2].
  destruct (_ <? _).
  { inv_ok. cbn. split; [by etrans|]. split; [by destruct k|]. intros _. unfold same_counts in *. congruence. }
  apply bind_Ok_inv in H as (c3 & H3 & H).
  assert (F3 : coord_frame (request_id r) c2 c3).
  { destruct (kv_enable_caching k); inv_ok; [apply coord_frame_pool | done]. }
  apply bind_Ok_inv in H as (c4 & H4 & H).
  assert (F4 : coord_frame (request_id r) c3 c4).
  { destruct (default _ ob); inv_ok; [done | by eapply save_frame]. }
  apply bind_Ok_inv in H as ([l c5] & H5 & H). apply allocate_new_frame in H5 as F5.
  assert (F : coord_frame (request_id r) (coordinator k) c5) by (do 4 (etrans; [eassumption|]); done).
  destruct (_ || _); inv_ok; cbn.
  - split; [done|]. split; [by destruct k | done].
  - split; [etrans; [exact F | by eapply cache_frame]|]. split; [by destruct k | done].
Qed.

(** ** A good manager *)

Record kv_single (k : KVCacheManager) (m : Manager) (spec : LayerSpec) : Prop := {
  ks_managers : managers k = [m];
  ks_manager : manager_class m = FullAttentionManager /\ mgr_spec m = spec /\ block_size m = layer_block_size spec;
  ks_spec : is_full_attention spec = true;
  ks_plain : use_eagle (coordinator k) = false /\ dcp_world_size (coordinator k) = 1;
  ks_class : kv_enable_caching k = true -> coordinator_class (coordinator k) = UnitaryKVCacheCoordinator spec;
  ks_stats : log_stats k = true -> is_Some (prefix_cache_stats k);
}.

(** [kv_good len bs k]: the manager serves requests of up to [len] tokens in
    blocks of [bs] tokens. *)
Definition kv_good (len bs : Z) (k : KVCacheManager) : Prop :=
  exists free m spec, kv_inv k free /\ kv_single k m spec /\ block_size m = bs /\ kv_max_model_len k = len.

(** A request that has no blocks yet. *)
Definition kv_fresh (k : KVCacheManager) (rid : string) : Prop := Forall (fresh_request rid) (managers k).

(** What an operation on one request leaves of the manager. *)
Record kv_frame (rid : string) (k k' : KVCacheManager) : Prop := {
  kf_coord : coord_frame rid (coordinator k) (coordinator k');
  kf_len : kv_max_model_len k' = kv_max_model_len k;
  kf_caching : kv_enable_caching k' = kv_enable_caching k;
  kf_log : log_stats k' = log_stats k;
  kf_stats : is_Some (prefix_cache_stats k) -> is_Some (prefix_cache_stats k');
}.

#[export] Instance kv_frame_preorder rid : PreOrder (kv_frame rid).
Proof.
  split; [by intros k|]. intros k1 k2 k3 [a1 a2 a3 a4 a5] [b1 b2 b3 b4 b5].
  split; [by etrans | congruence.. | auto].
Qed.

Lemma kv_frame_single rid k k' m spec :
  kv_frame rid k k' -> kv_single k m spec -> exists m', kv_single k' m' spec /\ block_size m' = block_size m /\ touches rid m m'.
Proof.
  intros [[c1 c2 c3 c4] f1 f2 f3 f4] [s1 (s2 & s3 & s4) s5 [s6 s7] s8 s9]. unfold managers in *. rewrite s1 in c4.
  inversion c4 as [|? m' ? ? Ht Hnil Heq]; subst. inversion Hnil; subst. pose proof Ht as [(e1 & e2 & e3 & e4) _].
  exists m'. split; [|done]. split; unfold managers; try congruence.
  - split; [congruence|]. split; congruence.
  - split; congruence.
  - intros Hc. rewrite c1. apply s8. congruence.
  - intros Hlog. apply f4, s9. congruence.
Qed.

Lemma kv_good_frame rid k k' free' len bs :
  kv_frame rid k k' -> kv_inv k' free' -> kv_good len bs k -> kv_good len bs k'.
Proof.
  intros Hf Hk (free & m & spec & _ & Hs & Hb & Hl). destruct (kv_frame_single _ _ _ _ _ Hf Hs) as (m' & Hs' & Hb' & _).
  exists free', m', spec. split; [done|]. split; [done|]. split; [congruence|]. rewrite (kf_len _ _ _ Hf). done.
Qed.

(** Other requests keep what they have. *)
Lemma kv_frame_fresh rid k k' rid' : kv_frame rid k k' -> rid' <> rid -> kv_fresh k rid' -> kv_fresh k' rid'.
Proof.
  intros [[_ _ _ Hm] _ _ _ _] Hne Hf. unfold kv_fresh, managers in *.
  induction Hm as [|m m' ms ms' [(h1 & _) Ht] _ IH]; [constructor|]. inversion Hf as [|? ? (f1 & f2 & f3) Hf']; subst.
  constructor; [|by apply IH]. destruct (Ht rid' Hne) as [e1 e2]. unfold fresh_request, table, dget_or in *.
  rewrite e1, e2, h1. done.
Qed.

Lemma kv_frame_tracked rid k k' rid' : kv_frame rid k k' -> rid' <> rid -> tracked k' rid' -> tracked k rid'.
Proof.
  intros [[_ _ _ Hm] _ _ _ _] Hne (m' & Hm' & Hk). unfold tracked, managers in *.
  apply list_elem_of_lookup in Hm' as (i & Hi). destruct (Forall2_lookup_r _ _ _ _ _ Hm Hi) as (m & Hm0 & _ & Ht).
  exists m. split; [by eapply list_elem_of_lookup_2|]. apply dget_is_Some. destruct (Ht rid' Hne) as [<- _].
  by apply dget_is_Some.
Qed.

(** ** The operations *)

(** Without hits, a request that fits can be given slots. *)
Lemma plain_allocatable k free m spec r num_new_tokens la :
  kv_inv k free -> kv_single k m spec -> 0 < num_new_tokens -> 0 <= la -> 0 <= num_computed_tokens r ->
  num_computed_tokens r + num_new_tokens <= num_tokens r <= kv_max_model_len k ->
  (kv_enable_caching k = true -> num_tokens r / block_size m <= py_len (Request.block_hashes r)) ->
  allocatable k r num_new_tokens 0 EmptyKVCacheBlocks la false 0.
Proof.
  intros Hk [s1 (s2 & s3 & s4) s5 _ _ _] Hn Hla Hc Hle Hh.
  destruct (kv_coord _ _ Hk) as [[_ _ _ Hown] Hcfg]. fold (managers k) in Hcfg, Hown. rewrite s1 in Hcfg, Hown.
  rewrite Forall_singleton in Hcfg, Hown. destruct Hcfg as (Hbs & _). split; [done| |done| |].
  - rewrite s1. constructor; [|done]. exists 0. unfold get_num_skipped_tokens. rewrite s2. split; [done|].
    rewrite Z.div_0_l by lia. split; [unfold py_len; lia|]. intros Hca. by apply (own_cache _ _ Hown).
  - rewrite s1. cbn [length blocks_of replicate].
    destruct (Z.le_ge_cases 0 (needed (request_id r) (slots_for r num_new_tokens 0 la k) 0 [] m)); [left|right];
      intros [|j] h m0; try done; intros [= <-] [= <-]; done.
  - intros Hca _. cbn zeta. unfold cached_for, slots_for. split; [lia|]. rewrite s1. constructor; [|done].
    etrans; [|by apply Hh]. apply Z.div_le_mono; lia.
Qed.

Section Promises.
Context (use_int_hashes : bool) (len bs : Z).

Lemma allocate_outcome k r free n nc ob la enc :
  kv_good len bs k -> kv_inv k free -> allocatable k r n nc (default EmptyKVCacheBlocks ob) la false enc ->
  exists res k', allocate_slots use_int_hashes r n nc ob la false enc k = Ok (res, k') /\ kv_good len bs k' /\
    kv_frame (request_id r) k k' /\ (res = None -> kv_fresh k (request_id r) -> kv_fresh k' (request_id r)).
Proof.
  intros Hg Hk Hal.
  destruct (allocate_slots_ok use_int_hashes k r free n nc ob la false enc Hk Hal) as (c1 & res & k' & free' & _ & Hr & Hk' & Hout).
  exists res, k'. split; [exact Hr|]. destruct (allocate_slots_frame _ _ _ _ _ _ _ _ _ _ _ Hr) as (Hf & Hk0 & Hnone).
  assert (Hkf : kv_frame (request_id r) k k') by (rewrite Hk0; by split).
  split; [by eapply kv_good_frame|]. split; [done|]. intros -> Hfr. specialize (Hnone eq_refl).
  cbn zeta in Hout. match type of Hout with if ?x then _ else _ => destruct x end; [|by destruct Hout as (? & [=] & _)].
  destruct Hout as [_ [Hl He]]. unfold kv_fresh, managers, same_counts in *. apply Forall_lookup. intros j m' Hm'.
  destruct (lookup_lt_is_Some_2 (single_type_managers (coordinator k)) j) as [m Hm]; [apply lookup_lt_Some in Hm'; lia|].
  destruct (He j m Hm) as (m2 & Hm2 & (h1 & _) & Hlen). rewrite Hm' in Hm2. injection Hm2 as <-.
  rewrite Forall_lookup in Hfr. destruct (Hfr j m Hm) as (f1 & f2 & f3).
  apply (f_equal (fun l => l !! j)) in Hnone. rewrite !list_lookup_fmap, Hm, Hm' in Hnone. injection Hnone as Hnone.
  split; [|split; [by rewrite Hnone | by rewrite h1]]. rewrite f1 in Hlen. by destruct (table (request_id r) m').
Qed.

(** Slots for a request that runs. *)
Lemma allocate_running k r n la :
  kv_good len bs k -> 0 < n -> 0 <= la -> 0 <= num_computed_tokens r ->
  num_computed_tokens r + n <= num_tokens r <= len ->
  num_tokens r / bs <= py_len (Request.block_hashes r) ->
  exists res k', allocate_slots use_int_hashes r n 0 None la false 0 k = Ok (res, k') /\ kv_good len bs k' /\
    kv_frame (request_id r) k k'.
Proof.
  intros Hg Hn Hla Hc Hle Hh. pose proof Hg as (free & m & spec & Hk & Hs & Hb & Hl).
  destruct (allocate_outcome k r free n 0 None la 0 Hg Hk) as (res & k' & Hr & Hg' & Hf & _).
  - eapply plain_allocatable; try done; [by rewrite Hl | by rewrite Hb].
  - by exists res, k'.
Qed.

(** A waiting request: what is cached of it, and slots for the rest. *)
Lemma admit_waiting k r :
  kv_good len bs k -> kv_fresh k (request_id r) -> num_computed_tokens r = 0 -> 0 < num_tokens r <= len ->
  py_len (Request.block_hashes r) = num_tokens r / bs -> NoDup (Request.block_hashes r) ->
  exists b nc k1, get_computed_blocks r k = Ok (b, nc, k1) /\ 0 <= nc < num_tokens r /\
    kv_good len bs k1 /\ kv_frame (request_id r) k k1 /\ coordinator k1 = coordinator k /\
    forall n, 0 < n <= num_tokens r - nc ->
      exists res k2, allocate_slots use_int_hashes r n nc (Some b) 0 false 0 k1 = Ok (res, k2) /\ kv_good len bs k2 /\
        kv_frame (request_id r) k1 k2 /\ (res = None -> kv_fresh k2 (request_id r)).
Proof.
  intros Hg Hfr Hc Ht Hh Hnd. pose proof Hg as (free & m & spec & Hk & Hs & Hb & Hl).
  destruct (negb (kv_enable_caching k) || wants_prompt_logprobs r) eqn:Ep.
  - exists EmptyKVCacheBlocks, 0, k. unfold get_computed_blocks. rewrite Ep. split; [done|]. split; [lia|].
    split; [done|]. split; [done|]. split; [done|]. intros n Hn.
    destruct (allocate_outcome k r free n 0 (Some EmptyKVCacheBlocks) 0 0 Hg Hk) as (res & k2 & Hr & Hg2 & Hf2 & Hn2).
    + eapply plain_allocatable; try done; [lia..|]. intros _. rewrite Hb. lia.
    + exists res, k2. split; [done|]. split; [done|]. split; [done|]. intros Hres. by apply Hn2.
  - apply orb_false_iff in Ep as [Eca%negb_false_iff Elp]. pose proof Hs as [s1 (s2 & s3 & s4) s5 s6 s7 s8].
    assert (Hu : unitary_full k m spec) by (split; auto).
    assert (Hn : new_to k m r).
    { unfold kv_fresh in Hfr. rewrite s1, Forall_singleton in Hfr. split; try done; [by rewrite Hl | by rewrite Hb]. }
    destruct (get_computed_blocks_ok k m spec r free Hk Hu Hn)
      as (n & l & k1 & Hget & Hk1 & Hco & Hml & Hca & Hhit & Hnl & Hlt & _).
    assert (Hbs : 0 < bs).
    { destruct (kv_coord _ _ Hk) as [_ Hcfg]. fold (managers k) in Hcfg. rewrite s1, Forall_singleton in Hcfg.
      rewrite <- Hb. apply Hcfg. }
    assert (Hst : log_stats k1 = log_stats k /\ (is_Some (prefix_cache_stats k) -> is_Some (prefix_cache_stats k1))).
    { unfold get_computed_blocks in Hget. rewrite Eca, Elp in Hget. cbn [negb orb] in Hget. inv_ok.
      destruct (log_stats k) eqn:E; inv_ok; done. }
    assert (Hf1 : kv_frame (request_id r) k k1).
    { destruct Hst as [h1 h2]. split; [by rewrite Hco | done | congruence | done | done]. }
    assert (Hg1 : kv_good len bs k1) by (by eapply kv_good_frame).
    rewrite Hb in *. exists (create_kv_cache_blocks [l]), (Z.of_nat n * bs), k1.
    split; [done|]. split; [nia|]. split; [done|]. split; [done|]. split; [done|]. intros x Hx. rewrite <- Hb in Hx.
    destruct (hits_allocatable k m spec r free n l k1 x Hk Hu Hn Hco Hml Hca Hhit Hnl Hx) as [_ Hal].
    destruct (allocate_outcome k1 r free x (Z.of_nat n * bs) (Some (create_kv_cache_blocks [l])) 0 0 Hg1 Hk1) as (res & k2 & Hr & Hg2 & Hf2 & Hn2).
    + cbn [default]. by rewrite <- Hb.
    + exists res, k2. split; [done|]. split; [done|]. split; [done|]. intros Hres. apply Hn2; [done|].
      unfold kv_fresh, managers. by rewrite Hco.
Qed.

(** Taking a request's blocks back. *)
Lemma release_request k r :
  kv_good len bs k ->
  exists k', kv_free r k = Ok k' /\ kv_good len bs k' /\ kv_frame (request_id r) k k' /\
    kv_fresh k' (request_id r) /\ ~ tracked k' (request_id r).
Proof.
  intros Hg. pose proof Hg as (free & m & spec & Hk & Hs & Hb & Hl).
  destruct (kv_free_ok r k free Hk) as (k' & free' & Hr & Hk' & _ & He). exists k'. split; [done|].
  assert (Hf : kv_frame (request_id r) k k').
  { unfold kv_free in Hr. inv_ok. match goal with H : coord_free _ _ = _ |- _ => apply free_frame in H end. by split. }
  split; [by eapply kv_good_frame|]. split; [done|]. destruct Hs as [s1 (s2 & _) _ _ _ _].
  destruct He as [Hl' He]. unfold kv_fresh, tracked, managers in *. rewrite s1 in He, Hl'.
  destruct (He 0%nat m eq_refl) as (m' & Hm' & (h1 & _) & h2 & h3).
  destruct (single_type_managers (coordinator k')) as [|m0 [|]]; try done. injection Hm' as ->.
  destruct (kv_coord _ _ Hk) as [[_ _ _ Hown] _]. rewrite s1, Forall_singleton in Hown.
  destruct (own_dict _ _ Hown) as [d1 d2].
  assert (Hd : dget (request_id r) (req_to_blocks m') = None) by (rewrite h2; by apply dget_ddel_eq). split.
  - constructor; [|done]. split; [unfold table, dget_or; by rewrite Hd|]. split; [rewrite h3; by apply dget_ddel_eq | by rewrite h1, s2].
  - intros (m1 & ->%list_elem_of_singleton & Hkey). apply dget_is_Some in Hkey. rewrite Hd in Hkey. by destruct Hkey.
Qed.

(** The common prefix of a request that is running. *)
Lemma common_prefix_ok k rid :
  kv_good len bs k -> exists ns k', kv_get_num_common_prefix_blocks rid k = Ok (ns, k') /\ kv_good len bs k' /\ kv_frame rid k k'.
Proof.
  intros Hg. pose proof Hg as (free & m & spec & Hk & Hs & Hb & Hl). unfold kv_get_num_common_prefix_blocks, coord_get_num_common_prefix_blocks.
  assert (Hread : exists ns c', over_managers (fun _ m p => let '(n, m) := get_num_common_prefix_blocks rid m p in Ok (n, m, p)) (coordinator k)
      = Ok (ns, c') /\ c' = coordinator k <| single_type_managers := (fun m => (read_table rid m).2) <$> single_type_managers (coordinator k) |>).
  { unfold over_managers. pose proof (ks_managers _ _ _ Hs) as s1. unfold managers in s1. rewrite s1. cbn.
    unfold get_num_common_prefix_blocks.
    destruct (ks_manager _ _ _ Hs) as (Hcl & _). clear -Hcl. destruct m as [cl ? ? ? ? ?]. cbn in Hcl. subst cl.
    eexists _, _. split; reflexivity. }
  set (c' := coordinator k <| single_type_managers := (fun m => (read_table rid m).2) <$> single_type_managers (coordinator k) |>) in *.
  assert (Hf : kv_frame rid k (k <| coordinator := c' |>)).
  { split; try done. split; try done. cbn. apply Forall2_fmap_r, Forall_Forall2_diag, Forall_true. intros x. solve_touches. }
  assert (Hg' : kv_good len bs (k <| coordinator := c' |>)).
  { eapply kv_good_frame; [done| |done]. apply (kv_inv_coord k free); try done; [apply coord_read_inv, Hk|].
    cbn. by rewrite length_fmap. }
  destruct (coordinator_class (coordinator k)); [by eexists _, k; destruct k|..];
    destruct Hread as (ns & ? & -> & ->); by eexists _, _.
Qed.

End Promises.

(** ** A new manager *)

(** One group of full-attention layers. *)
Definition one_full_group (c : KVCacheConfig) (bs : Z) : Prop :=
  exists g a w ch, kv_cache_groups c = [g] /\ kv_cache_spec g = LayerKVCacheSpec (FullAttentionSpec a w ch) /\
    layer_block_size (FullAttentionSpec a w ch) = bs /\ 0 < bs /\ 0 < num_blocks c.

Lemma new_manager_good c len bs caching log k :
  new_kv_cache_manager c len caching false log false 1 = Ok k -> one_full_group c bs ->
  kv_good len bs k /\ (forall rid, kv_fresh k rid) /\ log_stats k = log /\ kv_enable_caching k = caching.
Proof.
  intros Hk (g & a & w & ch & Hg & Hsp & Hb & Hbs & Hn).
  destruct (new_kv_cache_manager_ok _ _ _ _ _ _ _ Hk) as (Hinv & Hm & _ & _); [|lia|].
  { split; [done|]. split; [rewrite Hg; done|]. rewrite Hg. constructor; [|done]. exists (FullAttentionSpec a w ch). by rewrite Hb. }
  unfold new_kv_cache_manager in Hk. apply bind_Ok_inv in Hk as (bs' & _ & Hk). apply bind_Ok_inv in Hk as (co & Hco & Hk).
  unfold get_kv_cache_coordinator in Hco. apply bind_Ok_inv in Hco as (pool & _ & Hco). rewrite Hg in Hco. cbn in Hco.
  unfold group_layer_spec in Hco. rewrite Hsp in Hco. cbn in Hco.
  assert (Hms : exists m, managers k = [m] /\ manager_class m = FullAttentionManager /\ mgr_spec m = FullAttentionSpec a w ch /\
    block_size m = bs /\ use_eagle (coordinator k) = false /\ dcp_world_size (coordinator k) = 1 /\
    (kv_enable_caching k = true -> coordinator_class (coordinator k) = UnitaryKVCacheCoordinator (FullAttentionSpec a w ch)) /\
    log_stats k = log /\ kv_enable_caching k = caching /\ kv_max_model_len k = len /\
    prefix_cache_stats k = if log then Some new_stats else None).
  { destruct caching; cbn in Hco; injection Hco as <-; injection Hk as <-; eexists; (split; [reflexivity|]); done. }
  destruct Hms as (m & e1 & e2 & e3 & e4 & e5 & e6 & e7 & e8 & e9 & e10 & e11). rewrite e1, Forall_singleton in Hm. destruct Hm as [Hm1 Hm2].
  split; [|split; [|done]].
  - exists (py_range 1 (num_blocks c)), m, (FullAttentionSpec a w ch). split; [done|]. split; [|done].
    split; try done. { by rewrite e4. } intros Hl. rewrite e11. rewrite e8 in Hl. by rewrite Hl.
  - intros rid. unfold kv_fresh. rewrite e1. constructor; [|done]. unfold fresh_request, table. rewrite Hm1, Hm2, e2. done.
Qed.
