(* ===== verification/RequestQueue.v ===== *)
(** * Request queues

    vllm/v1/core/sched/request_queue.py: the waiting queue of the scheduler, as
    the abstract class [RequestQueue] and its two implementations.  A queue
    holds references to request objects (addresses); an operation that reads a
    request is given the object.  The priority queue keeps a binary heap with
    [heapq], whose algorithms are written out: it orders tuples
    [(priority, arrival_time, request)], and comparing two different requests
    raises TypeError because [Request] defines no order. *)

From S2P Require Import Prelude PyDict PyList PyFloat Request.
#[local] Open Scope Z_scope.

Inductive SchedulingPolicy := FCFS | PRIORITY | GAMBIT.

#[export] Instance policy_eq_dec : EqDecision SchedulingPolicy.
Proof. solve_decision. Defined.

(** The address of a request object. *)
Abbreviation addr := Z (only parsing).

(** ** The abstract class *)

Class RequestQueue (Q : Type) := {
  rq_create : SchedulingPolicy -> option Q;
  add_request : addr -> Request -> Q -> result Q;
  pop_request : Q -> result (addr * Q);
  peek_request : Q -> result addr;
  prepend_request : addr -> Request -> Q -> result Q;
  prepend_requests : (addr -> result Request) -> Q -> Q -> result Q;
  remove_request : addr -> Q -> result Q;
  remove_requests : list addr -> Q -> result Q;
  rq_len : Q -> Z;
  rq_iter : Q -> result (list addr);
}.

(** [bool(queue)]. *)
Definition rq_nonempty {Q} `{RequestQueue Q} (q : Q) : bool := 0 <? rq_len q.

(** [__reversed__] of both classes. *)
Definition rq_reversed {Q} `{RequestQueue Q} (q : Q) : result (list addr) :=
  l ← rq_iter q; Ok (rev l).

(** ** First come, first served *)

Definition FCFSRequestQueue : Type := list addr.

(** [deque.remove] raises ValueError when the value is missing. *)
Definition fcfs_remove (a : addr) (q : FCFSRequestQueue) : result FCFSRequestQueue :=
  if bool_decide (a ∈ q) then Ok (remove_first a q) else Raise ValueError.

Definition fcfs_remove_requests (l : list addr) (q : FCFSRequestQueue) : FCFSRequestQueue :=
  List.filter (fun a => bool_decide (a ∉ (list_to_set l : gset Z))) q.

(** [extendleft]: each item in turn is put at the front. *)
Definition extendleft (l : list addr) (q : FCFSRequestQueue) : FCFSRequestQueue :=
  fold_left (fun q a => a :: q) l q.

Definition fcfs_pop (q : FCFSRequestQueue) : result (addr * FCFSRequestQueue) :=
  match q with [] => Raise IndexError | a :: q => Ok (a, q) end.

#[export] Instance fcfs_queue : RequestQueue FCFSRequestQueue := {|
  rq_create := fun policy => match policy with PRIORITY => None | _ => Some [] end;
  add_request := fun a _ q => Ok (q ++ [a]);
  pop_request := fcfs_pop;
  peek_request := fun q => '(a, _) ← fcfs_pop q; Ok a;
  prepend_request := fun a _ q => Ok (a :: q);
  prepend_requests := fun _ requests q => Ok (extendleft (rev requests) q);
  remove_request := fcfs_remove;
  remove_requests := fun l q => Ok (fcfs_remove_requests l q);
  rq_len := py_len;
  rq_iter := fun q => Ok q;
|}.

(** ** [heapq] *)

Section Heapq.
Context {A : Type} (lt : A -> A -> result bool).

(** [_siftdown(heap, startpos, pos)]: [newitem], to be put at [pos], moves up
    while it is less than its parent; [pos] turns at most. *)
Fixpoint siftdown (startpos fuel : nat) (heap : list A) (newitem : A) (pos : nat) : result (list A) :=
  match fuel with
  | S fuel =>
      if (startpos <? pos)%nat then
        let parentpos := ((pos - 1) / 2)%nat in
        parent ← or_raise IndexError (heap !! parentpos);
        less ← lt newitem parent;
        if (less : bool) then siftdown startpos fuel (<[pos := parent]> heap) newitem parentpos
        else Ok (<[pos := newitem]> heap)
      else Ok (<[pos := newitem]> heap)
  | O => Ok (<[pos := newitem]> heap)
  end.

(** The smaller child of [pos], if it has one. *)
Definition smaller_child (heap : list A) (pos : nat) : result (option nat) :=
  let childpos := (2 * pos + 1)%nat in
  match heap !! childpos, heap !! S childpos with
  | None, _ => Ok None
  | Some _, None => Ok (Some childpos)
  | Some l, Some r => less ← lt l r; Ok (Some (if (less : bool) then childpos else S childpos))
  end.

(** The loop of [_siftup]: the smaller children move up until a leaf is free. *)
Fixpoint siftup_loop (fuel : nat) (heap : list A) (pos : nat) : result (list A * nat) :=
  match fuel with
  | O => Ok (heap, pos)
  | S fuel =>
      c ← smaller_child heap pos;
      match c with
      | None => Ok (heap, pos)
      | Some childpos =>
          child ← or_raise IndexError (heap !! childpos);
          siftup_loop fuel (<[pos := child]> heap) childpos
      end
  end.

(** [_siftup(heap, pos)]: the item at [pos] is put into the free leaf and
    sifted down from there, not above [pos]. *)
Definition siftup (heap : list A) (pos : nat) : result (list A) :=
  newitem ← or_raise IndexError (heap !! pos);
  '(heap, leaf) ← siftup_loop (length heap) heap pos;
  siftdown pos leaf heap newitem leaf.

Definition heappush (x : A) (heap : list A) : result (list A) :=
  siftdown 0 (length heap) (heap ++ [x]) x (length heap).

Definition heappop (heap : list A) : result (A * list A) :=
  match rev heap with
  | [] => Raise IndexError
  | lastelt :: rest =>
      match rev rest with
      | [] => Ok (lastelt, [])
      | returnitem :: heap => heap ← siftup (lastelt :: heap) 0; Ok (returnitem, heap)
      end
  end.

(** [heapify]: every inner position in reverse, [for i in reversed(range(n//2))]. *)
Fixpoint heapify_loop (n : nat) (heap : list A) : result (list A) :=
  match n with
  | O => Ok heap
  | S i => heap ← siftup heap i; heapify_loop i heap
  end.
Definition heapify (heap : list A) : result (list A) := heapify_loop (length heap / 2) heap.

(** Popping until the heap is empty. *)
Fixpoint drain (fuel : nat) (heap : list A) : result (list A) :=
  match fuel, heap with
  | S fuel, _ :: _ => '(x, heap) ← heappop heap; l ← drain fuel heap; Ok (x :: l)
  | _, _ => Ok []
  end.

End Heapq.

(** ** By priority *)

Record HeapEntry := mkHeapEntry {
  he_priority : Z;
  he_arrival_time : float;
  he_request : addr;
}.

(** Tuple comparison: the first component that differs decides. *)
Definition entry_lt (a b : HeapEntry) : result bool :=
  if negb (he_priority a =? he_priority b) then Ok (he_priority a <? he_priority b)
  else if negb (feq (he_arrival_time a) (he_arrival_time b)) then
    Ok (flt (he_arrival_time a) (he_arrival_time b))
  else if he_request a =? he_request b then Ok false
  else Raise TypeError.

Definition PriorityRequestQueue : Type := list HeapEntry.

Definition priority_add (a : addr) (r : Request) (q : PriorityRequestQueue) : result PriorityRequestQueue :=
  heappush entry_lt (mkHeapEntry (priority r) (arrival_time r) a) q.

Definition priority_pop (q : PriorityRequestQueue) : result (addr * PriorityRequestQueue) :=
  '(e, q) ← heappop entry_lt q; Ok (he_request e, q).

Definition priority_iter (q : PriorityRequestQueue) : result (list addr) :=
  l ← drain entry_lt (length q) q; Ok (List.map he_request l).

#[export] Instance priority_queue : RequestQueue PriorityRequestQueue := {|
  rq_create := fun policy => match policy with PRIORITY => Some [] | _ => None end;
  add_request := priority_add;
  pop_request := priority_pop;
  peek_request := fun q => e ← or_raise IndexError (head q); Ok (he_request e);
  prepend_request := priority_add;
  prepend_requests := fun deref requests q =>
    l ← priority_iter requests;
    for_each (fun a q => r ← deref a; priority_add a r q) l q;
  remove_request := fun a q =>
    heapify entry_lt (List.filter (fun e => negb (he_request e =? a)) q);
  remove_requests := fun l q =>
    heapify entry_lt (List.filter (fun e => bool_decide (he_request e ∉ (list_to_set l : gset Z))) q);
  rq_len := py_len;
  rq_iter := priority_iter;
|}.
