(* ===== verification/EncoderCache.v ===== *)
(** * The encoder cache

    vllm/v1/core/encoder_cache_manager.py: the bookkeeping of multimodal encoder
    outputs, shared between requests by content hash.  The set of input ids that
    [free] walks through is listed in ascending order. *)

From S2P Require Import Prelude PyDict PyList PyInt PyStr PyFloat Request.
#[local] Open Scope Z_scope.

Record EncoderCacheManager := mkEncoderCacheManager {
  cache_size : Z;
  num_free_slots : Z;
  num_freeable_slots : Z;
  mm_cached : dict string (gset string);
  freeable : dict string Z;
  freed : list string;
}.

#[export] Instance eta_EncoderCacheManager : Eta EncoderCacheManager := fun m =>
  mkEncoderCacheManager (cache_size m) (num_free_slots m) (num_freeable_slots m) (mm_cached m)
    (freeable m) (freed m).

Definition new_encoder_cache (cache_size : Z) : EncoderCacheManager :=
  mkEncoderCacheManager cache_size cache_size cache_size [] [] [].

(** [request.mm_features[input_id].identifier]. *)
Definition mm_hash (r : Request) (input_id : Z) : result string :=
  f ← py_index (mm_features r) input_id; Ok (identifier f).

Definition check_and_update_cache (r : Request) (input_id : Z) (m : EncoderCacheManager)
    : result (bool * EncoderCacheManager) :=
  h ← mm_hash r input_id;
  match dget h (mm_cached m) with
  | None => Ok (false, m)
  | Some refs =>
      m ← (if bool_decide (refs = ∅) then
             num_tokens ← or_raise KeyError (dget h (freeable m));
             Ok (m <| freeable := ddel h (freeable m) |>
                   <| num_freeable_slots := num_freeable_slots m - num_tokens |>)
           else Ok m);
      Ok (true, m <| mm_cached := dset h ({[request_id r]} ∪ refs) (mm_cached m) |>)
  end.

(** The eviction loop: [popitem(last=False)] until [num_tokens] slots are free. *)
Fixpoint evict_loop (num_tokens : Z) (entries : dict string Z) (m : EncoderCacheManager)
    : result EncoderCacheManager :=
  if num_free_slots m <? num_tokens then
    match entries with
    | [] => Raise KeyError
    | (h, num_free_token) :: entries =>
        _ ← or_raise KeyError (dget h (mm_cached m));
        evict_loop num_tokens entries
          (m <| freeable := entries |> <| mm_cached := ddel h (mm_cached m) |>
             <| freed := freed m ++ [h] |> <| num_free_slots := num_free_slots m + num_free_token |>)
    end
  else Ok m.

Definition can_allocate (r : Request) (input_id encoder_compute_budget num_tokens_to_schedule : Z)
    (m : EncoderCacheManager) : result (bool * EncoderCacheManager) :=
  num_tokens ← get_num_encoder_tokens r input_id;
  if encoder_compute_budget <? num_tokens then Ok (false, m)
  else
    let num_tokens := num_tokens + num_tokens_to_schedule in
    if num_tokens <=? num_free_slots m then Ok (true, m)
    else if num_freeable_slots m <? num_tokens then Ok (false, m)
    else m ← evict_loop num_tokens (freeable m) m; Ok (true, m).

Definition mm_allocate (r : Request) (input_id : Z) (m : EncoderCacheManager) : result EncoderCacheManager :=
  h ← mm_hash r input_id;
  let refs := dget_or h ∅ (mm_cached m) in
  num_encoder_tokens ← get_num_encoder_tokens r input_id;
  _ ← py_assert (num_encoder_tokens <=? num_free_slots m);
  _ ← py_assert (num_encoder_tokens <=? num_freeable_slots m);
  Ok (m <| mm_cached := dset h ({[request_id r]} ∪ refs) (mm_cached m) |>
        <| num_free_slots := num_free_slots m - num_encoder_tokens |>
        <| num_freeable_slots := num_freeable_slots m - num_encoder_tokens |>).

Definition get_cached_input_ids (r : Request) (m : EncoderCacheManager) : list Z :=
  List.filter (fun i => match mm_hash r i with Ok h => dmem h (mm_cached m) | Raise _ => false end)
    (py_range 0 (py_len (mm_features r))).

Definition free_encoder_input (r : Request) (input_id : Z) (m : EncoderCacheManager)
    : result EncoderCacheManager :=
  h ← mm_hash r input_id;
  let refs := dget_or h ∅ (mm_cached m) in
  if bool_decide (refs = ∅) then Ok m
  else
    let refs := refs ∖ {[request_id r]} in
    let m := m <| mm_cached := dset h refs (mm_cached m) |> in
    if bool_decide (refs = ∅) then
      num_tokens ← get_num_encoder_tokens r input_id;
      Ok (m <| freeable := dset h num_tokens (freeable m) |>
            <| num_freeable_slots := num_freeable_slots m + num_tokens |>)
    else Ok m.

Definition mm_free (r : Request) (m : EncoderCacheManager) : result EncoderCacheManager :=
  for_each (free_encoder_input r) (get_cached_input_ids r m) m.

Definition get_freed_mm_hashes (m : EncoderCacheManager) : list string * EncoderCacheManager :=
  (freed m, m <| freed := [] |>).

(** ** Budgets

    [max_tokens_by_modality] is what the multimodal registry reports for the
    model, [None] for a text model. *)

Record EncoderBudgetConfig := mkEncoderBudgetConfig {
  disable_chunked_mm_input : bool;
  max_num_batched_tokens : Z;
  max_num_encoder_input_tokens : Z;
  encoder_cache_size : Z;
}.

Definition compute_text_encoder_budget : Z * Z := (0, 0).

Definition compute_mm_encoder_budget (c : EncoderBudgetConfig) (max_tokens_by_modality : dict string Z)
    : result (Z * Z) :=
  match dvalues max_tokens_by_modality with
  | [] => Ok (0, 0)
  | values =>
      max_tokens_per_mm_item ← py_max values;
      if disable_chunked_mm_input c && (max_num_batched_tokens c <? max_tokens_per_mm_item)
      then Raise ValueError
      else Ok (Z.max (max_num_encoder_input_tokens c) max_tokens_per_mm_item,
               Z.max (encoder_cache_size c) max_tokens_per_mm_item)
  end.

Definition compute_encoder_budget (c : EncoderBudgetConfig) (max_tokens_by_modality : option (dict string Z))
    : result (Z * Z) :=
  match max_tokens_by_modality with
  | Some d => compute_mm_encoder_budget c d
  | None => Ok compute_text_encoder_budget
  end.
