(* ===== verification/TraceTree.v ===== *)
(** * The trace tree

    [vllm/v1/engine/trace_tree.py]: the logical topology of the search.  A
    [TraceTree] maps request ids to [TraceNode]s; every method of the class is a
    definition here.  Nodes are mutable objects that only the [nodes] table
    refers to, so a mutation of a node is an update of the table at its key.
    The only place where that matters is [add_branch], which mutates the parent
    after storing the child: with equal ids the mutated parent is no longer in
    the table. *)

From S2P Require Import Prelude PyDict PyList PyStr PyFloat.
#[local] Open Scope Z_scope.

(** ** Nodes *)

Record TraceNode := mkTraceNode {
  req_id : string;
  parent_id : option string;
  branch_depth : Z;
  created_at_step : Z;
  last_branch_step : Z;
  branch_parent_output_len : Z;
  score_history : list float;
  is_active : bool;
  is_completed : bool;
  is_pruned : bool;
  children : list string;
  output_text : option string;
  output_token_ids : option (list Z);
  output_token_count : Z;
  finish_reason : option string;
  stop_reason : option int_or_str;
  final_score : option float;
}.

#[export] Instance eta_TraceNode : Eta TraceNode := fun n =>
  mkTraceNode (req_id n) (parent_id n) (branch_depth n) (created_at_step n)
    (last_branch_step n) (branch_parent_output_len n) (score_history n) (is_active n)
    (is_completed n) (is_pruned n) (children n) (output_text n) (output_token_ids n)
    (output_token_count n) (finish_reason n) (stop_reason n) (final_score n).

(** The dataclass constructor with the given fields and defaults elsewhere. *)
Definition new_node (rid : string) (parent : option string) (depth step plen : Z)
    (hist : list float) : TraceNode := {|
  req_id := rid; parent_id := parent; branch_depth := depth; created_at_step := step;
  last_branch_step := -1; branch_parent_output_len := plen; score_history := hist;
  is_active := true; is_completed := false; is_pruned := false; children := [];
  output_text := None; output_token_ids := None; output_token_count := 0;
  finish_reason := None; stop_reason := None; final_score := None;
|}.

Definition latest_score (n : TraceNode) : option float := last (score_history n).

Definition avg_score `{PySum} (n : TraceNode) : option float :=
  match score_history n with [] => None | l => Some (py_mean l) end.

Definition node_record_score (score : float) (n : TraceNode) : TraceNode :=
  n <| score_history := score_history n ++ [score] |>.

(** The keyword arguments of [set_output] and [mark_completed]. *)
Record Output := mkOutput {
  out_text : option string;
  out_token_ids : option (list Z);
  out_finish_reason : option string;
  out_stop_reason : option int_or_str;
  out_final_score : option float;
}.

(** [len(ids) if ids else 0]. *)
Definition opt_len {A} (o : option (list A)) : Z :=
  match o with Some l => py_len l | None => 0 end.

Definition set_output (o : Output) (n : TraceNode) : TraceNode :=
  n <| output_text := out_text o |>
    <| output_token_ids := out_token_ids o |>
    <| output_token_count := opt_len (out_token_ids o) |>
    <| finish_reason := out_finish_reason o |>
    <| stop_reason := out_stop_reason o |>
    <| final_score := out_final_score o |>.

(** The status flags, and the parent's bookkeeping of a new child. *)
Definition set_flags (act comp prun : bool) (n : TraceNode) : TraceNode :=
  n <| is_active := act |> <| is_completed := comp |> <| is_pruned := prun |>.

Definition add_child (child_req_id : string) (step : Z) (n : TraceNode) : TraceNode :=
  n <| children := children n ++ [child_req_id] |> <| last_branch_step := step |>.

(** ** The tree *)

Record TraceTree := mkTraceTree {
  max_traces : Z;
  branch_cooldown_steps : Z;
  min_tokens_before_branch : Z;
  nodes : dict string TraceNode;
  root_ids : gset string;
  branch_counter : Z;
  current_step : Z;
  lineage_cache : dict string (gset string);
}.

#[export] Instance eta_TraceTree : Eta TraceTree := fun t =>
  mkTraceTree (max_traces t) (branch_cooldown_steps t) (min_tokens_before_branch t) (nodes t)
    (root_ids t) (branch_counter t) (current_step t) (lineage_cache t).

Definition new_tree (maxt cooldown min_tokens : Z) : TraceTree := {|
  max_traces := maxt; branch_cooldown_steps := cooldown;
  min_tokens_before_branch := min_tokens; nodes := []; root_ids := ∅;
  branch_counter := 0; current_step := 0; lineage_cache := [];
|}.

(** A change of the node table only. *)
Definition with_nodes (ns : dict string TraceNode) (t : TraceTree) : TraceTree :=
  t <| nodes := ns |>.

Definition invalidate_lineage_cache (t : TraceTree) : TraceTree := t <| lineage_cache := [] |>.

Definition add_root (rid : string) (t : TraceTree) : TraceTree :=
  invalidate_lineage_cache
    (t <| nodes := dset rid (new_node rid None 0 (current_step t) 0 []) (nodes t) |>
       <| root_ids := {[rid]} ∪ root_ids t |>).

Definition add_branch (parent_req_id child_req_id : string) (plen : Z) (t : TraceTree)
    : option TraceNode * TraceTree :=
  match dget parent_req_id (nodes t) with
  | None => (None, t)
  | Some parent =>
      let child := new_node child_req_id (Some parent_req_id) (branch_depth parent + 1)
                     (current_step t) plen (score_history parent) in
      let nodes1 := dset child_req_id child (nodes t) in
      let nodes2 :=
        if decide (child_req_id = parent_req_id) then nodes1
        else dalter (add_child child_req_id (current_step t)) parent_req_id nodes1 in
      (Some child, invalidate_lineage_cache
        (t <| nodes := nodes2 |> <| branch_counter := branch_counter t + 1 |>))
  end.

Definition mark_completed (rid : string) (o : Output) (t : TraceTree) : TraceTree :=
  with_nodes
    (dalter (fun n => set_output o (set_flags false true (is_pruned n) n)) rid (nodes t)) t.

Definition mark_pruned (rid : string) (t : TraceTree) : TraceTree :=
  with_nodes (dalter (fun n => set_flags false (is_completed n) true n) rid (nodes t)) t.

(** [sum(1 for node in self.nodes.values() if p(node))]. *)
Definition count_nodes (p : TraceNode -> bool) (ns : dict string TraceNode) : Z :=
  py_len (List.filter p (dvalues ns)).

Definition get_active_count (t : TraceTree) : Z := count_nodes is_active (nodes t).
Definition get_completed_count (t : TraceTree) : Z := count_nodes is_completed (nodes t).
Definition can_branch (t : TraceTree) : bool := get_active_count t <? max_traces t.

Definition can_trace_branch (rid : string) (num_tokens_generated : Z) (t : TraceTree) : bool :=
  match dget rid (nodes t) with
  | None => false
  | Some node =>
      if negb (is_active node) then false
      else if negb (can_branch t) then false
      else if num_tokens_generated <? min_tokens_before_branch t then false
      else if (0 <=? last_branch_step node) &&
              (current_step t - last_branch_step node <? branch_cooldown_steps t) then false
      else true
  end.

Definition record_score (rid : string) (score : float) (t : TraceTree) : TraceTree :=
  with_nodes (dalter (node_record_score score) rid (nodes t)) t.

Definition get_score `{PySum} (rid : string) (t : TraceTree) : option float :=
  match dget rid (nodes t) with Some node => avg_score node | None => None end.

Definition get_node (rid : string) (t : TraceTree) : option TraceNode := dget rid (nodes t).

Definition increment_step (t : TraceTree) : TraceTree :=
  t <| current_step := current_step t + 1 |>.

(** [f"gambit_{counter}_{parent}"]. *)
Definition branch_id (counter : Z) (parent_req_id : string) : string :=
  "gambit_" +:+ str_of_Z counter +:+ "_" +:+ parent_req_id.

Definition generate_branch_id (parent_req_id : string) (t : TraceTree) : string :=
  branch_id (branch_counter t) parent_req_id.

Definition remove_trace (rid : string) (t : TraceTree) : TraceTree :=
  if dmem rid (nodes t) then
    invalidate_lineage_cache
      (t <| nodes := ddel rid (nodes t) |> <| root_ids := root_ids t ∖ {[rid]} |>)
  else t.

(** [req_id in tree] and [len(tree)]. *)
Definition contains (rid : string) (t : TraceTree) : bool := dmem rid (nodes t).
Definition tree_len (t : TraceTree) : Z := py_len (nodes t).

(** ** Statistics and export *)

Record Stats := mkStats {
  st_total_nodes : Z;
  st_active_count : Z;
  st_completed_count : Z;
  st_pruned_count : Z;
  st_max_depth : Z;
  st_num_roots : Z;
  st_branch_counter : Z;
  st_current_step : Z;
}.

(** One iteration of the counting loop over [self.nodes.values()]. *)
Definition stats_step (acc : Z * Z * Z * Z) (node : TraceNode) : Z * Z * Z * Z :=
  let '(active_count, completed_count, pruned_count, max_depth) := acc in
  ((if is_active node then active_count + 1 else active_count),
   (if is_completed node then completed_count + 1 else completed_count),
   (if is_pruned node then pruned_count + 1 else pruned_count),
   Z.max max_depth (branch_depth node)).

Definition get_stats (t : TraceTree) : Stats :=
  let '(active_count, completed_count, pruned_count, max_depth) :=
    fold_left stats_step (dvalues (nodes t)) (0, 0, 0, 0) in
  {| st_total_nodes := py_len (nodes t);
     st_active_count := active_count; st_completed_count := completed_count;
     st_pruned_count := pruned_count; st_max_depth := max_depth;
     st_num_roots := Z.of_nat (size (root_ids t));
     st_branch_counter := branch_counter t; st_current_step := current_step t |}.

(** An exported node: the node's fields and its two derived scores.  The
    dictionary leaves [output_text] out. *)
Record NodeData := mkNodeData {
  nd_req_id : string;
  nd_parent_id : option string;
  nd_branch_depth : Z;
  nd_created_at_step : Z;
  nd_last_branch_step : Z;
  nd_branch_parent_output_len : Z;
  nd_score_history : list float;
  nd_latest_score : option float;
  nd_avg_score : option float;
  nd_is_active : bool;
  nd_is_completed : bool;
  nd_is_pruned : bool;
  nd_children : list string;
  nd_output_token_count : Z;
  nd_output_token_ids : option (list Z);
  nd_finish_reason : option string;
  nd_stop_reason : option int_or_str;
  nd_final_score : option float;
}.

Definition node_data `{PySum} (n : TraceNode) : NodeData := {|
  nd_req_id := req_id n; nd_parent_id := parent_id n; nd_branch_depth := branch_depth n;
  nd_created_at_step := created_at_step n; nd_last_branch_step := last_branch_step n;
  nd_branch_parent_output_len := branch_parent_output_len n;
  nd_score_history := score_history n; nd_latest_score := latest_score n;
  nd_avg_score := avg_score n; nd_is_active := is_active n;
  nd_is_completed := is_completed n; nd_is_pruned := is_pruned n;
  nd_children := children n; nd_output_token_count := output_token_count n;
  nd_output_token_ids := output_token_ids n; nd_finish_reason := finish_reason n;
  nd_stop_reason := stop_reason n; nd_final_score := final_score n;
|}.

Record CompletedTrace := mkCompletedTrace {
  ct_req_id : string;
  ct_parent_id : option string;
  ct_branch_depth : Z;
  ct_output_text : string;
  ct_output_token_count : Z;
  ct_final_score : option float;
  ct_finish_reason : option string;
  ct_stop_reason : option int_or_str;
}.

Definition completed_trace (n : TraceNode) : option CompletedTrace :=
  if is_completed n then
    match output_text n with
    | Some text => Some {|
        ct_req_id := req_id n; ct_parent_id := parent_id n; ct_branch_depth := branch_depth n;
        ct_output_text := text; ct_output_token_count := output_token_count n;
        ct_final_score := final_score n; ct_finish_reason := finish_reason n;
        ct_stop_reason := stop_reason n |}
    | None => None
    end
  else None.

Record TreeExport := mkTreeExport {
  ex_stats : Stats;
  ex_nodes : dict string NodeData;
  ex_roots : list string;
  ex_completed_traces : list CompletedTrace;
}.

(** [list(self.root_ids)] lists a set, in no specified order. *)
Definition export_tree `{PySum} (t : TraceTree) : TreeExport := {|
  ex_stats := get_stats t;
  ex_nodes := dmap node_data (nodes t);
  ex_roots := elements (root_ids t);
  ex_completed_traces := omap completed_trace (dvalues (nodes t));
|}.

Record NodeMetadata := mkNodeMetadata {
  md_parent_id : option string;
  md_branch_depth : Z;
  md_is_branch : bool;
  md_branch_parent_output_len : Z;
  md_score_history : list float;
  md_avg_score : option float;
  md_is_completed : bool;
  md_is_pruned : bool;
}.

Definition get_node_metadata `{PySum} (rid : string) (t : TraceTree) : option NodeMetadata :=
  match dget rid (nodes t) with
  | None => None
  | Some node => Some {|
      md_parent_id := parent_id node; md_branch_depth := branch_depth node;
      md_is_branch := bool_decide (is_Some (parent_id node));
      md_branch_parent_output_len := branch_parent_output_len node;
      md_score_history := score_history node; md_avg_score := avg_score node;
      md_is_completed := is_completed node; md_is_pruned := is_pruned node |}
  end.

(** ** The invariant *)

(** A finished trace is not active; a node is stored under its own id. *)
Record node_ok (t : TraceTree) (k : string) (n : TraceNode) : Prop := {
  node_key : req_id n = k;
  node_done : is_completed n || is_pruned n = true -> is_active n = false;
  node_depth : 0 <= branch_depth n;
  node_steps : created_at_step n <= current_step t /\ -1 <= last_branch_step n <= current_step t;
  node_link :
    match parent_id n with
    | None => branch_depth n = 0
    | Some p => exists pn, dget p (nodes t) = Some pn /\
        branch_depth n = branch_depth pn + 1 /\ k ∈ children pn
    end;
}.

Record tree_ok (t : TraceTree) : Prop := {
  ok_dict : dict_ok (nodes t);
  ok_step : 0 <= current_step t;
  ok_nodes : forall k n, dget k (nodes t) = Some n -> node_ok t k n;
  ok_roots : forall k, k ∈ root_ids t ->
    exists n, dget k (nodes t) = Some n /\ parent_id n = None;
  ok_ids : forall c p, branch_id c p ∈ dkeys (nodes t) -> c < branch_counter t;
}.

(** A request id chosen outside the engine does not look like a branch id. *)
Definition external_id (rid : string) : Prop := forall c p, rid <> branch_id c p.

(** ** Counting lemmas *)

Lemma count_nodes_nonneg p ns : 0 <= count_nodes p ns.
Proof. unfold count_nodes, py_len. lia. Qed.

Lemma count_nodes_cons p k n ns :
  count_nodes p ((k, n) :: ns) = (if p n then 1 else 0) + count_nodes p ns.
Proof.
  unfold count_nodes, py_len, dvalues. cbn [fmap list_fmap List.filter snd].
  destruct (p n); cbn [length]; lia.
Qed.

Lemma count_nodes_dset_new p k n ns :
  dget k ns = None -> count_nodes p (dset k n ns) = count_nodes p ns + (if p n then 1 else 0).
Proof.
  induction ns as [|[k' n'] ns IH]; cbn [dset dget]; intros Hk.
  { rewrite count_nodes_cons. change (count_nodes p []) with 0. lia. }
  case_decide; [done|]. rewrite !count_nodes_cons, IH by done. lia.
Qed.

Lemma count_nodes_dalter p f k n ns :
  dget k ns = Some n ->
  count_nodes p (dalter f k ns)
  = count_nodes p ns - (if p n then 1 else 0) + (if p (f n) then 1 else 0).
Proof.
  induction ns as [|[k' n'] ns IH]; cbn [dalter dget]; [done|]. intros Hk.
  case_decide as Hd.
  - injection Hk as ->. rewrite !count_nodes_cons. lia.
  - rewrite !count_nodes_cons, IH by done. lia.
Qed.

(** A mutation that keeps a test keeps its count. *)
Lemma count_nodes_dalter_same p f k ns :
  (forall n, p (f n) = p n) -> count_nodes p (dalter f k ns) = count_nodes p ns.
Proof.
  intros Hf. destruct (dget k ns) as [n|] eqn:E.
  - rewrite (count_nodes_dalter p f k n) by done. rewrite Hf. lia.
  - by rewrite dalter_id.
Qed.

Lemma count_nodes_pos p k n ns : dget k ns = Some n -> p n = true -> 0 < count_nodes p ns.
Proof.
  induction ns as [|[k' n'] ns IH]; cbn [dget]; [done|]. rewrite count_nodes_cons.
  intros Hk Hp. pose proof (count_nodes_nonneg p ns).
  case_decide; [injection Hk as ->; rewrite Hp; lia|]. case_match; naive_solver lia.
Qed.

Lemma count_nodes_zero p k n ns :
  count_nodes p ns = 0 -> dget k ns = Some n -> p n = false.
Proof.
  intros H0 Hk. destruct (p n) eqn:E; [|done].
  pose proof (count_nodes_pos p k n ns Hk E). lia.
Qed.

Lemma active_mark_pruned rid n t :
  dget rid (nodes t) = Some n ->
  get_active_count (mark_pruned rid t) = get_active_count t - (if is_active n then 1 else 0).
Proof.
  intros Hn. unfold get_active_count, mark_pruned, with_nodes. cbn.
  rewrite (count_nodes_dalter _ _ _ n) by done. cbn. lia.
Qed.

Lemma active_mark_pruned_le rid t : get_active_count (mark_pruned rid t) <= get_active_count t.
Proof.
  destruct (dget rid (nodes t)) as [n|] eqn:E.
  - rewrite (active_mark_pruned rid n) by done. case_match; lia.
  - unfold mark_pruned, get_active_count. cbn. by rewrite dalter_id.
Qed.

Lemma active_add_branch p c plen t n t' :
  add_branch p c plen t = (Some n, t') -> dget c (nodes t) = None ->
  get_active_count t' = get_active_count t + 1.
Proof.
  unfold add_branch. destruct (dget p (nodes t)) as [pn|] eqn:E; [|done].
  intros [= _ <-] Hc. unfold get_active_count. cbn.
  case_decide as Hd; rewrite ?count_nodes_dalter_same by done;
    by rewrite count_nodes_dset_new.
Qed.

Lemma active_add_root rid t :
  dget rid (nodes t) = None -> get_active_count (add_root rid t) = get_active_count t + 1.
Proof. intros. unfold get_active_count, add_root. cbn. by rewrite count_nodes_dset_new. Qed.

Lemma active_record_score rid s t :
  get_active_count (record_score rid s t) = get_active_count t.
Proof. unfold get_active_count, record_score. cbn. by apply count_nodes_dalter_same. Qed.

Lemma completed_mark_pruned rid t :
  get_completed_count (mark_pruned rid t) = get_completed_count t.
Proof. unfold get_completed_count, mark_pruned. cbn. by apply count_nodes_dalter_same. Qed.

(** ** Branch ids *)

Lemma branch_id_inj c c' p p' : branch_id c p = branch_id c' p' -> c = c' /\ p = p'.
Proof.
  unfold branch_id. intros H%append_cancel_l.
  apply first_sep_inj in H as [Hc ->]; [|apply str_of_Z_no_underscore..].
  split; [by apply str_of_Z_inj | done].
Qed.

Lemma branch_id_startswith c p : startswith "gambit_" (branch_id c p) = true.
Proof. apply startswith_iff. by eexists. Qed.

Lemma external_not_gambit rid : startswith "gambit_" rid = false -> external_id rid.
Proof. intros H c p ->. by rewrite branch_id_startswith in H. Qed.

(** A generated id is new in a well-formed tree. *)
Lemma generate_branch_id_new p t : tree_ok t -> dget (generate_branch_id p t) (nodes t) = None.
Proof.
  intros Ht. apply dget_None. intros Hin. apply (ok_ids t Ht) in Hin. lia.
Qed.

(** ** Every operation preserves the invariant *)

(** A mutation that leaves the topology alone. *)
Record topo_same (f : TraceNode -> TraceNode) : Prop := {
  ts_req_id : forall n, req_id (f n) = req_id n;
  ts_parent : forall n, parent_id (f n) = parent_id n;
  ts_depth : forall n, branch_depth (f n) = branch_depth n;
  ts_created : forall n, created_at_step (f n) = created_at_step n;
  ts_last : forall n, last_branch_step (f n) = last_branch_step n;
  ts_children : forall n, children (f n) = children n;
  ts_done : forall n, (is_completed n || is_pruned n = true -> is_active n = false) ->
    is_completed (f n) || is_pruned (f n) = true -> is_active (f n) = false;
}.

Lemma topo_same_ok f k t :
  topo_same f -> tree_ok t -> tree_ok (with_nodes (dalter f k (nodes t)) t).
Proof.
  intros Hf [Hd Hs Hn Hr Hi]. destruct Hf as [f1 f2 f3 f4 f5 f6 f7].
  split; cbn; auto with dict.
  - intros k' n'. rewrite dget_dalter. intros Hk'.
    assert (exists n, dget k' (nodes t) = Some n /\ (n' = n \/ n' = f n)) as (n & Hk & Hor).
    { case_decide; [|eauto]. destruct (dget k' (nodes t)) as [n|]; [|done].
      injection Hk' as <-. eauto. }
    destruct (Hn k' n Hk) as [h1 h2 hd h3 h4].
    assert (Hlink : match parent_id n with
      | None => branch_depth n = 0
      | Some p => exists pn, dget p (dalter f k (nodes t)) = Some pn /\
          branch_depth n = branch_depth pn + 1 /\ k' ∈ children pn end).
    { destruct (parent_id n) as [p|]; [|done]. destruct h4 as (pn & Hp & Hdep & Hch).
      rewrite dget_dalter, Hp. destruct (decide (p = k)); cbn;
        [exists (f pn); by rewrite f3, f6 | by exists pn]. }
    destruct Hor as [->| ->]; split; cbn; rewrite ?f1, ?f2, ?f3, ?f4, ?f5; auto.
  - intros k' Hk'. destruct (Hr k' Hk') as (n & Hk & Hp). rewrite dget_dalter, Hk.
    case_decide; [exists (f n); by rewrite f2 | eauto].
  - intros c p. rewrite dkeys_dalter. apply Hi.
Qed.

Lemma topo_same_flags_pruned : topo_same (fun n => set_flags false (is_completed n) true n).
Proof. by split. Qed.

Lemma topo_same_completed o :
  topo_same (fun n => set_output o (set_flags false true (is_pruned n) n)).
Proof. by split. Qed.

Lemma topo_same_output o : topo_same (set_output o).
Proof. split; cbn; auto. Qed.

Lemma topo_same_score s : topo_same (node_record_score s).
Proof. split; cbn; auto. Qed.

#[export] Hint Resolve topo_same_flags_pruned topo_same_completed topo_same_output
  topo_same_score : gambit.

Lemma mark_pruned_ok rid t : tree_ok t -> tree_ok (mark_pruned rid t).
Proof. apply topo_same_ok; auto with gambit. Qed.

Lemma mark_completed_ok rid o t : tree_ok t -> tree_ok (mark_completed rid o t).
Proof. apply topo_same_ok; auto with gambit. Qed.

Lemma record_score_ok rid s t : tree_ok t -> tree_ok (record_score rid s t).
Proof. apply topo_same_ok; auto with gambit. Qed.

Lemma new_tree_ok m c k : tree_ok (new_tree m c k).
Proof.
  split; cbn; [apply dict_ok_nil | lia | done | set_solver |].
  intros ? ? Hin. by apply not_elem_of_nil in Hin.
Qed.

Lemma increment_step_ok t : tree_ok t -> tree_ok (increment_step t).
Proof.
  intros [Hd Hs Hn Hr Hi]. split; cbn; auto; [lia|].
  intros k n Hk. destruct (Hn k n Hk) as [h1 h2 hd h3 h4]. split; cbn; auto. lia.
Qed.

(** Nobody's parent link points at an id that is not in the table. *)
Lemma parent_present k n p t :
  tree_ok t -> dget k (nodes t) = Some n -> parent_id n = Some p -> is_Some (dget p (nodes t)).
Proof.
  intros Ht Hk Hp. pose proof (node_link _ _ _ (ok_nodes t Ht k n Hk)) as Hl.
  rewrite Hp in Hl. destruct Hl as (pn & -> & _). by eexists.
Qed.

Lemma add_root_ok rid t :
  tree_ok t -> dget rid (nodes t) = None -> external_id rid -> tree_ok (add_root rid t).
Proof.
  intros Ht Hnew Hext. pose proof Ht as [Hd Hs Hn Hr Hi].
  split; cbn; auto with dict.
  - intros k n. rewrite dget_dset. case_decide as Hk; [subst|].
    + intros [= <-]. split; cbn; auto; lia.
    + intros Hkn. destruct (Hn k n Hkn) as [h1 h2 hd h3 h4]. split; cbn; auto.
      destruct (parent_id n) as [p|] eqn:Ep; [|done]. destruct h4 as (pn & Hp & Hrest).
      exists pn. rewrite dget_dset_ne; [done|]. congruence.
  - intros k Hk. rewrite dget_dset. case_decide; [by eexists|]. apply Hr. set_solver.
  - intros c p. rewrite elem_of_dkeys_dset. intros [He|Hin]; [|by eapply Hi].
    by destruct (Hext c p).
Qed.

(** The child [add_branch] stores. *)
Definition child_node (p c : string) (plen : Z) (pn : TraceNode) (t : TraceTree) : TraceNode :=
  new_node c (Some p) (branch_depth pn + 1) (current_step t) plen (score_history pn).

Lemma dget_add_branch p c plen t pn k :
  dget p (nodes t) = Some pn -> c <> p ->
  dget k (nodes (add_branch p c plen t).2)
  = if decide (k = p) then Some (add_child c (current_step t) pn)
    else if decide (k = c) then Some (child_node p c plen pn t)
    else dget k (nodes t).
Proof.
  intros Hp Hcp. unfold add_branch. rewrite Hp. cbn.
  rewrite decide_False by done. rewrite dget_dalter, dget_dset.
  destruct (decide (k = p)) as [->|]; [|done].
  rewrite decide_False by done. by rewrite Hp.
Qed.

(** What was in the table is still there, with the same link and more children. *)
Lemma add_branch_kept p c plen t pn q qn :
  dget p (nodes t) = Some pn -> dget c (nodes t) = None -> dget q (nodes t) = Some qn ->
  exists qn', dget q (nodes (add_branch p c plen t).2) = Some qn' /\
    branch_depth qn' = branch_depth qn /\ parent_id qn' = parent_id qn /\
    (forall x, x ∈ children qn -> x ∈ children qn').
Proof.
  intros Hp Hc Hq. rewrite (dget_add_branch p c plen t pn) by congruence.
  destruct (decide (q = p)) as [->|]; [|destruct (decide (q = c)) as [->|]].
  - rewrite Hp in Hq. injection Hq as <-. eexists. split; [done|]. cbn.
    repeat split; [done..|]. intros x Hx. apply elem_of_app. by left.
  - congruence.
  - by exists qn.
Qed.

Lemma add_branch_node_ok p c plen t pn k n :
  tree_ok t -> dget p (nodes t) = Some pn -> dget c (nodes t) = None ->
  dget k (nodes (add_branch p c plen t).2) = Some n ->
  node_ok (add_branch p c plen t).2 k n.
Proof.
  intros Ht Hp Hc Hk. pose proof (ok_step t Ht) as Hstep.
  assert (Hcs : current_step (add_branch p c plen t).2 = current_step t)
    by (unfold add_branch; by rewrite Hp).
  assert (Hold : forall k' n', dget k' (nodes t) = Some n' ->
    match parent_id n' with
    | None => branch_depth n' = 0
    | Some q => exists qn, dget q (nodes (add_branch p c plen t).2) = Some qn /\
        branch_depth n' = branch_depth qn + 1 /\ k' ∈ children qn
    end).
  { intros k' n' Hk'. pose proof (node_link _ _ _ (ok_nodes t Ht k' n' Hk')) as Hl.
    destruct (parent_id n') as [q|]; [|done]. destruct Hl as (qn & Hq & Hdq & Hch).
    destruct (add_branch_kept p c plen t pn q qn Hp Hc Hq) as (qn' & ? & ? & ? & ?).
    exists qn'. split; [done|]. split; [congruence | auto]. }
  pose proof (dget_add_branch p c plen t pn p Hp ltac:(congruence)) as Hgp.
  rewrite decide_True in Hgp by done.
  rewrite (dget_add_branch p c plen t pn) in Hk by congruence.
  destruct (decide (k = p)) as [->|]; [|destruct (decide (k = c)) as [->|]].
  - injection Hk as <-. destruct (ok_nodes t Ht p pn Hp) as [h1 h2 hd h3 _].
    split; cbn; rewrite ?Hcs; auto; [lia|]. by apply Hold.
  - injection Hk as <-. pose proof (node_depth _ _ _ (ok_nodes t Ht p pn Hp)).
    split; cbn; rewrite ?Hcs; auto; [lia..|].
    exists (add_child c (current_step t) pn). split; [done|]. cbn. split; [done|].
    apply elem_of_app. right. by apply list_elem_of_singleton.
  - destruct (ok_nodes t Ht k n Hk) as [h1 h2 hd h3 _]. split; rewrite ?Hcs; auto.
    by apply Hold.
Qed.

Lemma add_branch_ok p plen t :
  tree_ok t -> tree_ok (add_branch p (generate_branch_id p t) plen t).2.
Proof.
  intros Ht. pose proof (generate_branch_id_new p t Ht) as Hnew.
  destruct (dget p (nodes t)) as [pn|] eqn:Ep; [|by unfold add_branch; rewrite Ep].
  split.
  - unfold add_branch. rewrite Ep. cbn. pose proof (ok_dict t Ht).
    case_decide; auto with dict.
  - unfold add_branch. rewrite Ep. apply (ok_step t Ht).
  - intros k n. by apply (add_branch_node_ok _ _ _ _ pn).
  - intros k Hk. assert (Hk' : k ∈ root_ids t) by (revert Hk; unfold add_branch; by rewrite Ep).
    destruct (ok_roots t Ht k Hk') as (n & Hkn & Hn).
    destruct (add_branch_kept p _ plen t pn k n Ep Hnew Hkn) as (n' & ? & ? & ? & ?).
    exists n'. split; congruence.
  - intros c q Hin. apply dget_is_Some in Hin as [n Hin].
    assert (Hc : branch_counter (add_branch p (generate_branch_id p t) plen t).2
                 = branch_counter t + 1) by (unfold add_branch; by rewrite Ep).
    rewrite Hc. rewrite (dget_add_branch _ _ _ _ pn) in Hin by congruence.
    destruct (decide (branch_id c q = p)) as [Hq|].
    + apply elem_of_dkeys in Ep. rewrite <- Hq in Ep. apply (ok_ids t Ht) in Ep. lia.
    + destruct (decide _) as [He|]; [apply branch_id_inj in He as [-> _]; lia|].
      apply elem_of_dkeys, (ok_ids t Ht) in Hin. lia.
Qed.

(** Removing a trace that has no child in the table. *)
Lemma remove_trace_ok rid t :
  tree_ok t ->
  (forall k n, dget k (nodes t) = Some n -> parent_id n <> Some rid) ->
  tree_ok (remove_trace rid t).
Proof.
  intros Ht Hnc. unfold remove_trace. destruct (dmem rid (nodes t)) eqn:Hm; [|done].
  destruct Ht as [Hd Hs Hn Hr Hi].
  assert (Hget : forall k n, dget k (ddel rid (nodes t)) = Some n ->
            k <> rid /\ dget k (nodes t) = Some n).
  { intros k n Hk. destruct (decide (k = rid)) as [->|Hne].
    - by rewrite dget_ddel_eq in Hk.
    - by rewrite dget_ddel_ne in Hk. }
  split; cbn; auto with dict.
  - intros k n Hk. apply Hget in Hk as [Hne Hk]. destruct (Hn k n Hk) as [h1 h2 hd h3 h4].
    split; cbn; auto. specialize (Hnc k n Hk).
    destruct (parent_id n) as [q|]; [|done]. destruct h4 as (qn & Hq & Hrest).
    exists qn. rewrite dget_ddel_ne; [done|]. congruence.
  - intros k [Hk Hne]%elem_of_difference. rewrite not_elem_of_singleton in Hne.
    destruct (Hr k Hk) as (n & Hkn & Hp). exists n. by rewrite dget_ddel_ne.
  - intros c p Hin. eapply Hi, elem_of_dkeys_ddel_1, Hin.
Qed.

#[export] Hint Resolve mark_pruned_ok mark_completed_ok record_score_ok new_tree_ok
  increment_step_ok add_branch_ok : gambit.

(** ** Reachable trees

    The transitions the engine makes on a tree. *)
Inductive tree_step : TraceTree -> TraceTree -> Prop :=
| step_root rid t :
    contains rid t = false -> external_id rid -> tree_step t (add_root rid t)
| step_branch p plen t :
    tree_step t (add_branch p (generate_branch_id p t) plen t).2
| step_completed rid o t : tree_step t (mark_completed rid o t)
| step_pruned rid t : tree_step t (mark_pruned rid t)
| step_score rid s t : tree_step t (record_score rid s t)
| step_tick t : tree_step t (increment_step t)
| step_remove rid t :
    (forall k n, dget k (nodes t) = Some n -> parent_id n <> Some rid) ->
    tree_step t (remove_trace rid t).

Definition reachable (m c k : Z) (t : TraceTree) : Prop := rtc tree_step (new_tree m c k) t.

(** The [n]-th ancestor of a trace. *)
Fixpoint ancestor (n : nat) (rid : string) (t : TraceTree) : option string :=
  match n with
  | O => Some rid
  | S n' =>
      match dget rid (nodes t) with
      | Some node => match parent_id node with Some p => ancestor n' p t | None => None end
      | None => None
      end
  end.

Lemma tree_step_ok t t' : tree_step t t' -> tree_ok t -> tree_ok t'.
Proof.
  induction 1; intros Ht; auto with gambit.
  - apply add_root_ok; auto. by apply dmem_false.
  - by apply remove_trace_ok.
Qed.

Lemma ancestor_root t k n :
  tree_ok t -> dget k (nodes t) = Some n ->
  exists r rn, ancestor (Z.to_nat (branch_depth n)) k t = Some r /\
    dget r (nodes t) = Some rn /\ parent_id rn = None.
Proof.
  intros Ht. remember (Z.to_nat (branch_depth n)) as d eqn:Hd.
  revert k n Hd. induction d as [|d IH]; intros k n Hd Hk;
    destruct (ok_nodes t Ht k n Hk) as [_ _ hd _ hl]; destruct (parent_id n) as [p|] eqn:Ep.
  - destruct hl as (pn & Hp & Hdp & _).
    pose proof (node_depth _ _ _ (ok_nodes t Ht p pn Hp)). lia.
  - by exists k, n.
  - destruct hl as (pn & Hp & Hdp & _). cbn. rewrite Hk, Ep. apply (IH p pn); [lia|done].
  - lia.
Qed.

Lemma tree_steps_ok t t' : rtc tree_step t t' -> tree_ok t -> tree_ok t'.
Proof. induction 1; eauto using tree_step_ok. Qed.

Lemma count_nodes_fold (p : TraceNode -> bool) (f : Z -> TraceNode -> Z) ns acc :
  (forall a n, f a n = if p n then a + 1 else a) ->
  fold_left f (dvalues ns) acc = acc + count_nodes p ns.
Proof.
  intros Hf. revert acc. induction ns as [|[k n] ns IH]; intros acc.
  - change (count_nodes p []) with 0. unfold dvalues. cbn. lia.
  - rewrite count_nodes_cons. unfold dvalues in *. cbn. rewrite Hf, IH. destruct (p n); lia.
Qed.

(** The one-pass loop computes the four folds separately. *)
Lemma stats_fold l a c q d :
  fold_left stats_step l (a, c, q, d)
  = (fold_left (fun a n => if is_active n then a + 1 else a) l a,
     fold_left (fun a n => if is_completed n then a + 1 else a) l c,
     fold_left (fun a n => if is_pruned n then a + 1 else a) l q,
     fold_left (fun d n => Z.max d (branch_depth n)) l d).
Proof. revert a c q d. induction l as [|n l IH]; intros a c q d; cbn; [done|]. apply IH. Qed.

Lemma fold_max_ge l d : d <= fold_left (fun d n => Z.max d (branch_depth n)) l d.
Proof.
  revert d. induction l as [|x l IH]; intros d; cbn; [lia|].
  specialize (IH (Z.max d (branch_depth x))). lia.
Qed.

Lemma fold_max_bound l d n :
  n ∈ l -> branch_depth n <= fold_left (fun d n => Z.max d (branch_depth n)) l d.
Proof.
  revert d. induction l as [|x l IH]; intros d; cbn; [by intros ?%elem_of_nil|].
  intros [->|Hin]%elem_of_cons; [|auto].
  pose proof (fold_max_ge l (Z.max d (branch_depth x))). lia.
Qed.

(** ** Theorems *)

(** every tree the engine can reach from an empty one is well formed: ids
    are unique and index their own nodes, completed and pruned traces are
    inactive, a branch's parent is in the table, one level up, and lists it as
    a child, and no branch id with a counter still to come is taken. *)
Theorem reachable_tree_ok m c k t : reachable m c k t -> tree_ok t.
Proof. intros Hr. eapply tree_steps_ok; [exact Hr | apply new_tree_ok]. Qed.

(** in a reachable tree the parent chain of every trace ends, after exactly
    [branch_depth] steps, at a root. *)
Theorem lineage_reaches_root m c k t rid n :
  reachable m c k t -> dget rid (nodes t) = Some n ->
  exists r rn, ancestor (Z.to_nat (branch_depth n)) rid t = Some r /\
    dget r (nodes t) = Some rn /\ parent_id rn = None.
Proof.
  intros Hr. apply ancestor_root. eapply tree_steps_ok; [exact Hr | apply new_tree_ok].
Qed.

(** Branching under the generated id adds exactly one trace, and no
    existing one is overwritten: the id is free, the child is active, one level
    below the parent and starts with the parent's score history, the parent
    records the child and the current step, the other traces and the completed
    count are unchanged, the active count and the branch counter grow by one. *)
Theorem add_branch_fresh p plen t pn :
  tree_ok t -> dget p (nodes t) = Some pn ->
  let c := generate_branch_id p t in
  let t' := (add_branch p c plen t).2 in
  dget c (nodes t) = None /\
  dget c (nodes t') = Some (child_node p c plen pn t) /\
  dget p (nodes t') = Some (add_child c (current_step t) pn) /\
  (forall k, k <> p -> k <> c -> dget k (nodes t') = dget k (nodes t)) /\
  get_active_count t' = get_active_count t + 1 /\
  get_completed_count t' = get_completed_count t /\
  branch_counter t' = branch_counter t + 1.
Proof.
  intros Ht Hp c t'. pose proof (generate_branch_id_new p t Ht) as Hnew. fold c in Hnew.
  assert (Hcp : c <> p) by congruence.
  pose proof (fun k => dget_add_branch p c plen t pn k Hp Hcp) as Hget. fold t' in Hget.
  split; [done|]. split; [by rewrite Hget, decide_False, decide_True by done|].
  split; [by rewrite Hget, decide_True by done|].
  split; [intros k ? ?; by rewrite Hget, !decide_False by done|].
  assert (Hab : add_branch p c plen t = (Some (child_node p c plen pn t), t'))
    by (subst t'; unfold add_branch; by rewrite Hp).
  split; [by eapply active_add_branch|]. revert Hab. unfold add_branch. rewrite Hp.
  rewrite decide_False by done. intros [= <-]. split; [|done].
  unfold get_completed_count. cbn.
  rewrite count_nodes_dalter_same, count_nodes_dset_new by done. cbn. lia.
Qed.

(** A trace passes the branching gate exactly when it is in the tree and
    active, the active count is under the budget, it has generated the minimum
    number of tokens, and either it never branched or its cooldown is over. *)
Theorem can_trace_branch_iff rid ntok t :
  can_trace_branch rid ntok t = true <->
  exists n, dget rid (nodes t) = Some n /\ is_active n = true /\
    get_active_count t < max_traces t /\ min_tokens_before_branch t <= ntok /\
    (last_branch_step n < 0 \/ branch_cooldown_steps t <= current_step t - last_branch_step n).
Proof.
  unfold can_trace_branch, can_branch. destruct (dget rid (nodes t)) as [n|].
  - destruct (is_active n) eqn:Ea; cbn; [|split; [done|naive_solver]].
    destruct (Z.ltb_spec (get_active_count t) (max_traces t)); cbn;
      [|split; [done | intros (? & [= <-] & ? & ? & ?); lia]].
    destruct (Z.ltb_spec ntok (min_tokens_before_branch t));
      [split; [done | intros (? & [= <-] & ? & ? & ? & ?); lia]|].
    destruct (Z.leb_spec 0 (last_branch_step n)), (Z.ltb_spec
      (current_step t - last_branch_step n) (branch_cooldown_steps t)); cbn; split; intros; try done;
      try (exists n; intuition lia);
      match goal with H : exists _, _ |- _ => destruct H as (? & [= <-] & ? & ? & ? & ?); lia end.
  - split; [done | intros (? & ? & ?); done].
Qed.

(** The single counting loop of [get_stats] agrees with [get_active_count]
    and [get_completed_count], and its maximum depth bounds every trace. *)
Theorem get_stats_agrees t :
  st_active_count (get_stats t) = get_active_count t /\
  st_completed_count (get_stats t) = get_completed_count t /\
  st_pruned_count (get_stats t) = count_nodes is_pruned (nodes t) /\
  st_total_nodes (get_stats t) = tree_len t /\
  forall k n, dget k (nodes t) = Some n -> branch_depth n <= st_max_depth (get_stats t).
Proof.
  unfold get_stats. rewrite stats_fold. cbn.
  rewrite !(count_nodes_fold _ _ _ _ (fun _ _ => eq_refl)). repeat split.
  intros k n Hk. apply fold_max_bound. unfold dvalues.
  apply (list_elem_of_fmap_2 snd _ (k, n)). by apply dget_elem_of.
Qed.

(** The export reports every trace of the tree under its id with its current
    fields, and its list of completed traces holds exactly the completed ones
    that have an output text. *)
Theorem export_tree_faithful `{PySum} t :
  (forall rid, dget rid (ex_nodes (export_tree t)) = node_data <$> dget rid (nodes t)) /\
  (forall rid, rid ∈ ex_roots (export_tree t) <-> rid ∈ root_ids t) /\
  (forall ct, ct ∈ ex_completed_traces (export_tree t) <->
     exists rid n text, (rid, n) ∈ nodes t /\ is_completed n = true /\
       output_text n = Some text /\ completed_trace n = Some ct).
Proof.
  split; [intros; apply dget_dmap|]. split; [intros; cbn; apply elem_of_elements|].
  intros ct. cbn. rewrite list_elem_of_omap. unfold dvalues. split.
  - intros (n & ([rid n'] & -> & Hin)%list_elem_of_fmap & Hct). cbn in Hct.
    pose proof Hct as Hct'. unfold completed_trace in Hct'.
    destruct (is_completed n') eqn:Ec; [|done].
    destruct (output_text n') as [text|] eqn:Et; [|done]. by exists rid, n', text.
  - intros (rid & n & text & Hin & _ & _ & Hct). exists n. split; [|done].
    by apply (list_elem_of_fmap_2 snd _ (rid, n)).
Qed.

(** ** Witnesses *)

(** A root and a branch of it, reached by the engine's steps. *)
Definition demo_root : TraceTree := add_root "0_q" (new_tree 4 0 0).
Definition demo_tree : TraceTree :=
  (add_branch "0_q" (generate_branch_id "0_q" demo_root) 3 demo_root).2.

Lemma demo_reachable : reachable 4 0 0 demo_tree.
Proof.
  apply rtc_l with demo_root; [|apply rtc_once; apply (step_branch "0_q" 3)].
  apply step_root; [reflexivity | by apply external_not_gambit].
Qed.

Lemma reachable_tree_ok_witness : tree_ok demo_tree /\ get_active_count demo_tree = 2.
Proof. split; [apply (reachable_tree_ok 4 0 0); apply demo_reachable | reflexivity]. Defined.

Lemma lineage_reaches_root_witness :
  exists r rn, ancestor 1 "gambit_0_0_q" demo_tree = Some r /\
    dget r (nodes demo_tree) = Some rn /\ parent_id rn = None.
Proof.
  apply (lineage_reaches_root 4 0 0 demo_tree "gambit_0_0_q"
    (new_node "gambit_0_0_q" (Some "0_q") 1 0 3 [])); [apply demo_reachable | reflexivity].
Defined.

Lemma add_branch_fresh_witness :
  dget "gambit_1_0_q" (nodes (add_branch "0_q" "gambit_1_0_q" 7 demo_tree).2)
  = Some (new_node "gambit_1_0_q" (Some "0_q") 1 0 7 []).
Proof.
  destruct (add_branch_fresh "0_q" 7 demo_tree
    (add_child "gambit_0_0_q" 0 (new_node "0_q" None 0 0 0 []))) as (_ & Hc & _);
    [eapply tree_steps_ok; [apply demo_reachable | apply new_tree_ok] | reflexivity | exact Hc].
Defined.
