(* ===== verification/Outputs.v ===== *)
(** * What the scheduler, the model runner and the engine exchange

    [vllm/v1/core/sched/output.py], the data classes of [vllm/v1/outputs.py] and
    [vllm/v1/engine/__init__.py], and the scheduler's interface to the engine
    ([vllm/v1/core/sched/interface.py]) as a class, with the laws the engine
    relies on.  Tensors and connector metadata are opaque strings. *)

From S2P Require Import Prelude PyDict PyList PyStr PyFloat Request KVCacheManager TraceTree.
#[local] Open Scope Z_scope.

(** ** Scheduler output *)

Record NewRequestData := mkNewRequestData {
  nrd_req_id : string;
  nrd_prompt_token_ids : option (list Z);
  nrd_mm_features : list MultiModalFeature;
  nrd_sampling_params : option SamplingParams;
  nrd_pooling_params : option opaque;
  nrd_block_ids : list (list Z);
  nrd_num_computed_tokens : Z;
  nrd_lora_request : option LoRARequest;
  nrd_prompt_embeds : option (list string);
}.

Definition from_request (r : Request) (block_ids : list (list Z)) : NewRequestData := {|
  nrd_req_id := request_id r; nrd_prompt_token_ids := prompt_token_ids r;
  nrd_mm_features := mm_features r; nrd_sampling_params := sampling_params r;
  nrd_pooling_params := pooling_params r; nrd_block_ids := block_ids;
  nrd_num_computed_tokens := num_computed_tokens r; nrd_lora_request := lora_request r;
  nrd_prompt_embeds := prompt_embeds r |}.

Record CachedRequestData := mkCachedRequestData {
  crd_req_ids : list string;
  crd_resumed_req_ids : gset string;
  crd_new_token_ids : list (list Z);
  crd_all_token_ids : dict string (list Z);
  crd_new_block_ids : list (option (list (list Z)));
  crd_num_computed_tokens : list Z;
  crd_num_output_tokens : list Z;
}.

Definition make_empty : CachedRequestData := {|
  crd_req_ids := []; crd_resumed_req_ids := ∅; crd_new_token_ids := [];
  crd_all_token_ids := []; crd_new_block_ids := []; crd_num_computed_tokens := [];
  crd_num_output_tokens := [] |}.

Definition num_reqs (c : CachedRequestData) : Z := py_len (crd_req_ids c).

Definition resumed_from_preemption (c : CachedRequestData) : list bool :=
  (fun rid => bool_decide (rid ∈ crd_resumed_req_ids c)) <$> crd_req_ids c.

Record SchedulerOutput := mkSchedulerOutput {
  scheduled_new_reqs : list NewRequestData;
  scheduled_cached_reqs : CachedRequestData;
  num_scheduled_tokens : dict string Z;
  total_num_scheduled_tokens : Z;
  scheduled_spec_decode_tokens : dict string (list Z);
  scheduled_encoder_inputs : dict string (list Z);
  num_common_prefix_blocks : list Z;
  so_finished_req_ids : gset string;
  free_encoder_mm_hashes : list string;
  pending_structured_output_tokens : bool;
  kv_connector_metadata : option opaque;
  ec_connector_metadata : option opaque;
}.

#[export] Instance eta_SchedulerOutput : Eta SchedulerOutput := fun s =>
  mkSchedulerOutput (scheduled_new_reqs s) (scheduled_cached_reqs s) (num_scheduled_tokens s)
    (total_num_scheduled_tokens s) (scheduled_spec_decode_tokens s) (scheduled_encoder_inputs s)
    (num_common_prefix_blocks s) (so_finished_req_ids s) (free_encoder_mm_hashes s)
    (pending_structured_output_tokens s) (kv_connector_metadata s) (ec_connector_metadata s).

Record GrammarOutput := mkGrammarOutput {
  structured_output_request_ids : list string;
  grammar_bitmask : opaque;
}.

(** ** Model runner output *)

(** Arrays indexed by their first axis, one opaque row each. *)
Record LogprobsLists := mkLogprobsLists {
  logprob_token_ids : list opaque;
  lp_logprobs : list opaque;
  sampled_token_ranks : list opaque;
  cu_num_generated_tokens : option (list Z);
}.

(** [LogprobsLists.slice]; an empty [cu_num_generated_tokens] is falsy. *)
Definition logprobs_slice (lp : LogprobsLists) (start_req_idx end_req_idx : Z)
    : result LogprobsLists :=
  let rows a b cu := {|
    logprob_token_ids := slice a b (logprob_token_ids lp);
    lp_logprobs := slice a b (lp_logprobs lp);
    sampled_token_ranks := slice a b (sampled_token_ranks lp);
    cu_num_generated_tokens := cu |} in
  match cu_num_generated_tokens lp with
  | Some ((_ :: _) as cu) =>
      a ← py_index cu start_req_idx;
      b ← py_index cu end_req_idx;
      Ok (rows a b (Some ((fun cu_num => cu_num - a) <$> slice start_req_idx (end_req_idx + 1) cu)))
  | _ => Ok (rows start_req_idx end_req_idx None)
  end.

Record KVConnectorOutput := mkKVConnectorOutput {
  finished_sending : option (gset string);
  finished_recving : option (gset string);
  kv_connector_stats : option opaque;
  invalid_block_ids : gset Z;
  expected_finished_count : Z;
}.

(** [not s] for an optional set. *)
Definition no_items {A} `{Countable A} (o : option (gset A)) : bool :=
  bool_decide (default ∅ o = ∅).

Definition kv_output_is_empty (o : KVConnectorOutput) : bool :=
  no_items (finished_sending o) && no_items (finished_recving o) &&
  bool_decide (kv_connector_stats o = None) && bool_decide (invalid_block_ids o = ∅).

Record ModelRunnerOutput := mkModelRunnerOutput {
  mro_req_ids : list string;
  req_id_to_index : dict string Z;
  sampled_token_ids : list (list Z);
  mro_logprobs : option LogprobsLists;
  prompt_logprobs_dict : dict string (option opaque);
  pooler_output : list (option opaque);
  kv_connector_output : option KVConnectorOutput;
  mro_num_nans_in_logits : option (dict string Z);
}.

#[export] Instance eta_ModelRunnerOutput : Eta ModelRunnerOutput := fun m =>
  mkModelRunnerOutput (mro_req_ids m) (req_id_to_index m) (sampled_token_ids m) (mro_logprobs m)
    (prompt_logprobs_dict m) (pooler_output m) (kv_connector_output m) (mro_num_nans_in_logits m).

Definition EMPTY_MODEL_RUNNER_OUTPUT : ModelRunnerOutput := {|
  mro_req_ids := []; req_id_to_index := []; sampled_token_ids := []; mro_logprobs := None;
  prompt_logprobs_dict := []; pooler_output := []; kv_connector_output := None;
  mro_num_nans_in_logits := None |}.

Definition make_empty_encoder_model_runner_output (so : SchedulerOutput) : ModelRunnerOutput :=
  match num_scheduled_tokens so with
  | [] => EMPTY_MODEL_RUNNER_OUTPUT
  | ns => {|
      mro_req_ids := dkeys ns;
      req_id_to_index := fold_left (fun d p => dset p.2 (Z.of_nat p.1) d)
        (imap (fun i rid => (i, rid)) (dkeys ns)) [];
      sampled_token_ids := (fun _ => [0]) <$> dkeys ns; mro_logprobs := None;
      prompt_logprobs_dict := []; pooler_output := (fun _ => None) <$> dkeys ns;
      kv_connector_output := None; mro_num_nans_in_logits := None |}
  end.

Record DraftTokenIds := mkDraftTokenIds {
  dt_req_ids : list string;
  draft_token_ids : list (list Z);
}.

(** ** Engine output *)

Record EngineCoreOutput := mkEngineCoreOutput {
  eco_request_id : string;
  new_token_ids : list Z;
  new_logprobs : option LogprobsLists;
  new_prompt_logprobs_tensors : option opaque;
  pooling_output : option opaque;
  eco_finish_reason : option FinishReason;
  eco_stop_reason : option int_or_str;
  eco_final_score : option float;
  eco_score_history : option (list float);
  eco_events : option (list (EngineCoreEventType * float));
  eco_kv_transfer_params : option opaque;
  eco_trace_headers : option opaque;
  eco_num_cached_tokens : Z;
  eco_num_nans_in_logits : Z;
}.

#[export] Instance eta_EngineCoreOutput : Eta EngineCoreOutput := fun o =>
  mkEngineCoreOutput (eco_request_id o) (new_token_ids o) (new_logprobs o)
    (new_prompt_logprobs_tensors o) (pooling_output o) (eco_finish_reason o) (eco_stop_reason o)
    (eco_final_score o) (eco_score_history o) (eco_events o) (eco_kv_transfer_params o)
    (eco_trace_headers o) (eco_num_cached_tokens o) (eco_num_nans_in_logits o).

Definition eco_finished (o : EngineCoreOutput) : bool := bool_decide (is_Some (eco_finish_reason o)).

(** The tree export with what [get_gambit_tree_export] adds to it. *)
Record GambitExport := mkGambitExport {
  ge_stats : Stats;
  ge_scheduler_active_count : Z;
  ge_nodes : dict string (NodeData * option (list float));
  ge_roots : list string;
  ge_completed_traces : list CompletedTrace;
}.

(** [SpecDecodingStats] (vllm/v1/spec_decode/metrics.py). *)
Record SpecDecodingStats := mkSpecDecodingStats {
  num_spec_tokens : Z;
  num_drafts : Z;
  num_draft_tokens : Z;
  num_accepted_tokens : Z;
  num_accepted_tokens_per_pos : list Z;
}.

Definition new_spec_stats (num_spec_tokens : Z) : SpecDecodingStats :=
  mkSpecDecodingStats num_spec_tokens 0 0 0 (replicate (Z.to_nat num_spec_tokens) 0).

Definition observe_draft (num_draft num_accepted : Z) (st : SpecDecodingStats) : result SpecDecodingStats :=
  _ ← py_assert (num_accepted <=? num_spec_tokens st);
  per_pos ← for_each (fun i l => x ← py_index l i; py_setitem i (x + 1) l)
              (py_range 0 num_accepted) (num_accepted_tokens_per_pos st);
  Ok {| num_spec_tokens := num_spec_tokens st; num_drafts := num_drafts st + 1;
        num_draft_tokens := num_draft_tokens st + num_draft;
        num_accepted_tokens := num_accepted_tokens st + num_accepted;
        num_accepted_tokens_per_pos := per_pos |}.

(** [SchedulerStats] (vllm/v1/metrics/stats.py); the fields the scheduler leaves
    at their defaults are omitted. *)
Record SchedulerStats := mkSchedulerStats {
  num_running_reqs : Z;
  num_waiting_reqs : Z;
  kv_cache_usage : float;
  ss_prefix_cache_stats : PrefixCacheStats;
  ss_connector_prefix_cache_stats : option PrefixCacheStats;
  ss_spec_decoding_stats : option SpecDecodingStats;
  ss_kv_connector_stats : option opaque;
}.

Record EngineCoreOutputs := mkEngineCoreOutputs {
  outputs : list EngineCoreOutput;
  scheduler_stats : option SchedulerStats;
  finished_requests : option (gset string);
  gambit_tree_export : option GambitExport;
}.

#[export] Instance eta_EngineCoreOutputs : Eta EngineCoreOutputs := fun o =>
  mkEngineCoreOutputs (outputs o) (scheduler_stats o) (finished_requests o) (gambit_tree_export o).

Definition engine_core_outputs (outs : list EngineCoreOutput) : EngineCoreOutputs :=
  {| outputs := outs; scheduler_stats := None; finished_requests := None;
     gambit_tree_export := None |}.

(** ** The scheduler, as the engine sees it *)

Class SchedulerInterface (S : Type) := {
  sched_request : string -> S -> option Request;
  sched_num_waiting : S -> Z;
  sched_num_running : S -> Z;
  sched_has_requests : S -> bool;
  sched_finished_req_ids : S -> gset string;
  sched_schedule : S -> result (SchedulerOutput * S);
  sched_grammar_bitmask : SchedulerOutput -> S -> option GrammarOutput;
  sched_update_from_output : SchedulerOutput -> ModelRunnerOutput ->
    dict string (option float) -> option (dict string (list float)) -> S ->
    result (dict Z EngineCoreOutputs * S);
  sched_add_request : Request -> S -> result S;
  sched_finish_requests : list string -> RequestStatus -> S -> result S;
  sched_mark_stop_reason : list string -> string -> S -> S;
  sched_update_trace_scores : dict string float -> S -> S;
  sched_update_draft_token_ids : DraftTokenIds -> S -> result S;
}.

(** What the engine relies on. *)
Class SchedulerLaws (S : Type) `{SchedulerInterface S} : Prop := {
  law_add_request : forall r s, exists s', sched_add_request r s = Ok s' /\
    sched_num_running s' = sched_num_running s /\
    sched_num_waiting s' = sched_num_waiting s + 1 /\
    sched_finished_req_ids s' = sched_finished_req_ids s /\
    (exists r', sched_request (request_id r) s' = Some r' /\
       all_token_ids r' = all_token_ids r /\ sampling_params r' = sampling_params r) /\
    (forall k, k <> request_id r -> sched_request k s' = sched_request k s);
  law_mark_stop_reason : forall ids reason s k,
    (fun r => r <| Request.stop_reason := None |>) <$> sched_request k (sched_mark_stop_reason ids reason s)
    = (fun r => r <| Request.stop_reason := None |>) <$> sched_request k s;
  law_update_trace_scores : forall scores s k,
    (fun r => r <| trace_avg_score := None |>) <$> sched_request k (sched_update_trace_scores scores s)
    = (fun r => r <| trace_avg_score := None |>) <$> sched_request k s;
}.
