(* ===== verification/Scheduler.v ===== *)
(** * The scheduler: state and bookkeeping

    vllm/v1/core/sched/scheduler.py.  Requests are mutable objects that the
    scheduler reaches through [requests], [running] and the waiting queue, so
    the state has a store of request objects and these collections hold
    addresses; two requests are equal when they are the same object.  This file
    has the state, the services the scheduler calls (as classes), and the
    operations on single requests.  Scores, clocks and stats are read through
    the state. *)

From S2P Require Import Prelude PyDict PyList PyInt KVSpec PyStr PyFloat Request BlockPool.
From S2P Require Import KVManagers KVCoordinator KVCacheManager RequestQueue EncoderCache TraceTree Outputs.
#[local] Open Scope Z_scope.

(** ** Services

    The scheduler side of [KVConnectorBase_V1], of [ECConnectorBase] and of
    [StructuredOutputManager]: abstract classes whose implementation is chosen
    by configuration. *)

Class KVConnector (C : Type) := {
  kc_supports_hma : C -> bool;
  kc_get_num_new_matched_tokens : Request -> Z -> C -> result (option Z * bool * C);
  kc_update_state_after_alloc : Request -> list (list Z) -> Z -> C -> result C;
  kc_build_connector_meta : SchedulerOutput -> C -> result (opaque * C);
  kc_update_connector_output : KVConnectorOutput -> C -> result C;
  kc_request_finished : Request -> list Z -> C -> result (bool * option opaque * C);
  kc_request_finished_all_groups : Request -> list (list Z) -> C -> result (bool * option opaque * C);
  kc_take_events : C -> result (list KVCacheEvent * C);
  kc_get_kv_connector_stats : C -> result (option opaque * C);
  kc_aggregate_stats : opaque -> opaque -> opaque;
}.

Class ECConnector (E : Type) := {
  ec_has_caches : Request -> E -> result (list bool);
  ec_update_state_after_alloc : Request -> Z -> E -> result E;
  ec_build_connector_meta : SchedulerOutput -> E -> result (opaque * E);
}.

(** [som_grammar_ready r]: the request's grammar has been compiled. *)
Class StructuredOutput (M : Type) := {
  som_grammar_ready : Request -> M -> bool * M;
  som_should_advance : Request -> M -> bool * M;
  som_accept_tokens : Request -> list Z -> M -> result M;
  som_validate_tokens : Request -> list Z -> M -> result (list Z);
  som_grammar_bitmask : (string -> option Request) -> list string -> dict string (list Z) -> M -> opaque;
}.

(** ** Configuration *)

Record SchedulerConfig := mkSchedulerConfig {
  policy : SchedulingPolicy;
  async_scheduling : bool;
  max_num_running_reqs : Z;
  max_num_scheduled_tokens : Z;
  sched_max_model_len : Z;
  long_prefill_token_threshold : Z;
  chunked_prefill_enabled : bool;
  disable_chunked_mm : bool;
  max_num_encoder_tokens : Z;
  encoder_compute_limit : Z;
  sched_block_size : Z;
  max_loras : option Z;
  is_encoder_decoder : bool;
  use_pp : bool;
  log_sched_stats : bool;
  num_lookahead_tokens : Z;
  max_spec_tokens : Z;
}.

Section Scheduler.
Context {Q C E M : Type} `{RequestQueue Q, KVConnector C, ECConnector E, StructuredOutput M}.

(** ** State *)

Record Scheduler := mkScheduler {
  store : gmap Z Request;
  requests : dict string addr;
  waiting : Q;
  running : list addr;
  finished_req_ids : gset string;
  finished_req_ids_dict : option (dict Z (gset string));
  prev_step_scheduled_req_ids : gset string;
  finished_recving_kv_req_ids : gset string;
  failed_recving_kv_req_ids : gset string;
  kv_cache_manager : KVCacheManager;
  encoder_cache_manager : EncoderCacheManager;
  connector : option C;
  connector_prefix_cache_stats : option PrefixCacheStats;
  ec_connector : option E;
  structured_output_manager : M;
  sched_trace_scores : dict string float;
  pending_pruned_outputs : dict Z (list EngineCoreOutput);
  published : list (list KVCacheEvent);
  clock : Z;
}.

#[global] Instance eta_Scheduler : Eta Scheduler := fun s =>
  mkScheduler (store s) (requests s) (waiting s) (running s) (finished_req_ids s)
    (finished_req_ids_dict s) (prev_step_scheduled_req_ids s) (finished_recving_kv_req_ids s)
    (failed_recving_kv_req_ids s) (kv_cache_manager s) (encoder_cache_manager s) (connector s)
    (connector_prefix_cache_stats s) (ec_connector s) (structured_output_manager s)
    (sched_trace_scores s) (pending_pruned_outputs s) (published s) (clock s).

(** [__init__], from what the configuration builds: the managers, and the
    connectors if there are any. *)
Definition new_scheduler (policy : SchedulingPolicy) (log_stats include_finished_set : bool) (cache_size : Z)
    (k : KVCacheManager) (c : option C) (e : option E) (m : M) : result Scheduler :=
  q ← or_raise ValueError (rq_create policy);
  Ok {| store := ∅; requests := []; waiting := q; running := []; finished_req_ids := ∅;
        finished_req_ids_dict := if include_finished_set then Some [] else None;
        prev_step_scheduled_req_ids := ∅; finished_recving_kv_req_ids := ∅; failed_recving_kv_req_ids := ∅;
        kv_cache_manager := k; encoder_cache_manager := new_encoder_cache cache_size; connector := c;
        connector_prefix_cache_stats := if bool_decide (is_Some c) && log_stats then Some new_stats else None;
        ec_connector := e; structured_output_manager := m; sched_trace_scores := [];
        pending_pruned_outputs := []; published := []; clock := 0 |}.

(** The object at an address; every address the scheduler holds has one. *)
Definition no_request : Request :=
  mkRequest "" 0 0 None None None None None fzero WAITING [] None None None 0 None None 0 [] [] 0 [] 0
    None [] None 0 0 0 [] false.
Definition req (s : Scheduler) (a : addr) : Request := default no_request (store s !! a).

(** Mutation of one object. *)
Definition update_req (a : addr) (f : Request -> Request) (s : Scheduler) : Scheduler :=
  s <| store := alter f a (store s) |>.

(** [self.requests.get(req_id)]. *)
Definition find_request (rid : string) (s : Scheduler) : option addr := dget rid (requests s).

(** An address that nothing in the scheduler refers to. *)
Definition fresh_addr (s : Scheduler) (in_waiting : list addr) : addr :=
  1 + foldr Z.max 0 (elements (dom (store s)) ++ dvalues (requests s) ++ running s ++ in_waiting).

(** ** Scores *)

Definition get_request_score (s : Scheduler) (r : Request) : float :=
  match trace_avg_score r with
  | Some x => x
  | None => dget_or (request_id r) fzero (sched_trace_scores s)
  end.

(** The sort key [(-score, arrival_time)] and the comparison of two keys. *)
Definition score_key (s : Scheduler) (a : addr) : float * float :=
  (fopp (get_request_score s (req s a)), arrival_time (req s a)).
Definition score_key_lt (x y : float * float) : bool :=
  if feq x.1 y.1 then flt x.2 y.2 else flt x.1 y.1.

Definition order_running_by_score (s : Scheduler) : Scheduler :=
  s <| running := stable_sort score_key_lt (score_key s) (running s) |>.

Definition sched_update_scores (scores : dict string float) (s : Scheduler) : Scheduler :=
  fold_left (fun s p =>
    let s := s <| sched_trace_scores := dset p.1 p.2 (sched_trace_scores s) |> in
    match find_request p.1 s with
    | Some a => update_req a (fun r => r <| trace_avg_score := Some p.2 |>) s
    | None => s
    end) scores s.

(** ** Freeing requests *)

Definition kv_update {A} (f : KVCacheManager -> result (A * KVCacheManager)) (s : Scheduler)
    : result (A * Scheduler) :=
  '(a, k) ← f (kv_cache_manager s); Ok (a, s <| kv_cache_manager := k |>).

Definition kv_free_request (r : Request) (s : Scheduler) : result Scheduler :=
  k ← kv_free r (kv_cache_manager s); Ok (s <| kv_cache_manager := k |>).

Definition encoder_free (r : Request) (s : Scheduler) : result Scheduler :=
  m ← mm_free r (encoder_cache_manager s); Ok (s <| encoder_cache_manager := m |>).

(** [_connector_finished]. *)
Definition connector_finished (r : Request) (s : Scheduler) : result (bool * option opaque * Scheduler) :=
  match connector s with
  | None => Ok (false, None, s)
  | Some c =>
      let block_ids := kv_get_block_ids (request_id r) (kv_cache_manager s) in
      '(delay, params, c) ←
        (if kc_supports_hma c then kc_request_finished_all_groups r block_ids c
         else
           _ ← py_assert (Nat.eqb (num_kv_cache_groups (kv_cache_manager s)) 1);
           first ← py_index block_ids 0;
           kc_request_finished r first c);
      Ok (delay, params, s <| connector := Some c |>)
  end.

(** [_free_blocks]. *)
Definition free_blocks_of (a : addr) (s : Scheduler) : result Scheduler :=
  let r := req s a in
  _ ← py_assert (is_finished r);
  s ← kv_free_request r s;
  _ ← or_raise KeyError (find_request (request_id r) s);
  Ok (s <| requests := ddel (request_id r) (requests s) |>).

(** A [defaultdict(set)]: [d[k].add(x)]. *)
Definition add_to_set (k : Z) (x : string) (d : dict Z (gset string)) : dict Z (gset string) :=
  dset k ({[x]} ∪ dget_or k ∅ d) d.

(** [_free_request]. *)
Definition free_request (a : addr) (s : Scheduler) : result (option opaque * Scheduler) :=
  let r := req s a in
  _ ← py_assert (is_finished r);
  '(delay_free_blocks, kv_xfer_params, s) ← connector_finished r s;
  s ← encoder_free r s;
  let s := s <| finished_req_ids := {[request_id r]} ∪ finished_req_ids s |>
             <| finished_req_ids_dict := add_to_set (client_index r) (request_id r) <$> finished_req_ids_dict s |> in
  s ← (if (delay_free_blocks : bool) then Ok s else free_blocks_of a s);
  Ok (kv_xfer_params, s).

(** *** The Gambit policy stops the running request with the lowest score *)

Definition pruned_output (r : Request) (score : option float) : EngineCoreOutput := {|
  eco_request_id := request_id r; new_token_ids := []; new_logprobs := None;
  new_prompt_logprobs_tensors := None; pooling_output := None;
  eco_finish_reason := status_finished_reason (status r); eco_stop_reason := Request.stop_reason r;
  eco_final_score := score; eco_score_history := None; eco_events := None;
  eco_kv_transfer_params := None; eco_trace_headers := trace_headers r;
  eco_num_cached_tokens := num_cached_tokens r; eco_num_nans_in_logits := num_nans_in_logits r |}.

Definition stop_lowest_running (s : Scheduler) : result (option addr * Scheduler) :=
  match rev (running s) with
  | [] => Ok (None, s)
  | victim :: rest =>
      let s := update_req victim (fun r => r <| Request.stop_reason := Some (StrOf "pruned") |>
                                             <| status := FINISHED_ABORTED |>)
                 (s <| running := rev rest |>) in
      let r := req s victim in
      let score := match trace_avg_score r with
                   | Some x => Some x | None => dget (request_id r) (sched_trace_scores s) end in
      let s := s <| pending_pruned_outputs :=
        dset (client_index r) (dget_or (client_index r) [] (pending_pruned_outputs s) ++ [pruned_output r score])
          (pending_pruned_outputs s) |> in
      '(_, s) ← free_request victim s;
      Ok (Some victim, s)
  end.

(** ** Requests from outside *)

Section Clock.
(** The readings of [time.monotonic()]. *)
Context (time_monotonic : Z -> float) (cfg : SchedulerConfig).

Definition read_clock (s : Scheduler) : float * Scheduler :=
  (time_monotonic (clock s), s <| clock := clock s + 1 |>).

(** [add_request]: the object comes into the scheduler's reach. *)
Definition sched_add (r : Request) (s : Scheduler) : result Scheduler :=
  in_waiting ← rq_iter (waiting s);
  let a := fresh_addr s in_waiting in
  let s := s <| store := <[a := r]> (store s) |> in
  q ← add_request a r (waiting s);
  let s := s <| waiting := q |> <| requests := dset (request_id r) a (requests s) |> in
  if log_sched_stats cfg then
    let '(t, s) := read_clock s in Ok (update_req a (record_event QUEUED t) s)
  else Ok s.
End Clock.

(** Removing requests from [running] and from the waiting queue, if there are any. *)
Definition drop_running (l : list addr) (s : Scheduler) : Scheduler :=
  match l with
  | [] => s
  | _ => s <| running := remove_all (running s) (list_to_set l) |>
  end.
Definition drop_waiting (l : list addr) (s : Scheduler) : result Scheduler :=
  match l with
  | [] => Ok s
  | _ => q ← remove_requests l (waiting s); Ok (s <| waiting := q |>)
  end.

(** The live requests among the ids. *)
Definition valid_requests (ids : list string) (s : Scheduler) : list addr :=
  List.filter (fun a => negb (is_finished (req s a))) (omap (fun rid => find_request rid s) ids).

Definition sched_finish (request_ids : list string) (finished_status : RequestStatus) (s : Scheduler)
    : result Scheduler :=
  _ ← py_assert (status_is_finished finished_status);
  let ids := elements (list_to_set request_ids : gset string) in
  let valid := valid_requests ids s in
  let is_running a := bool_decide (status (req s a) = RUNNING) in
  let s := drop_running (List.filter is_running valid) s in
  s ← drop_waiting (List.filter (fun a => negb (is_running a)) valid) s;
  for_each (fun a s =>
    '(_, s) ← free_request a (update_req a (fun r => r <| status := finished_status |>) s); Ok s) valid s.

Definition sched_mark (request_ids : list string) (reason : string) (s : Scheduler) : Scheduler :=
  fold_left (fun s rid =>
    match find_request rid s with
    | Some a => if is_finished (req s a) then s
                else update_req a (fun r => r <| Request.stop_reason := Some (StrOf reason) |>) s
    | None => s
    end) request_ids s.

Definition sched_update_drafts (d : DraftTokenIds) (s : Scheduler) : result Scheduler :=
  for_each (fun p s =>
    match find_request p.1 s with
    | None => Ok s
    | Some a =>
        let r := req s a in
        if is_finished r then Ok s
        else
          let '(advance, m) := som_should_advance r (structured_output_manager s) in
          let s := s <| structured_output_manager := m |> in
          toks ← (if (advance : bool) then som_validate_tokens r p.2 m else Ok p.2);
          Ok (update_req a (fun r => r <| spec_token_ids := toks |>) s)
    end) (zip (dt_req_ids d) (draft_token_ids d)) s.

Definition get_request_counts (s : Scheduler) : Z * Z := (py_len (running s), rq_len (waiting s)).
Definition get_num_unfinished_requests (s : Scheduler) : Z := rq_len (waiting s) + py_len (running s).
Definition has_finished_requests (s : Scheduler) : bool := bool_decide (finished_req_ids s <> ∅).
Definition has_requests (s : Scheduler) : bool :=
  (0 <? get_num_unfinished_requests s) || has_finished_requests s.
Definition sched_reset_prefix_cache (s : Scheduler) : result (bool * Scheduler) :=
  kv_update kv_reset_prefix_cache s.

Definition get_grammar_bitmask (so : SchedulerOutput) (s : Scheduler) : option GrammarOutput :=
  let lookup rid := req s <$> find_request rid s in
  let ids := List.filter (fun rid => match lookup rid with
                                     | Some r => use_structured_output r | None => false end)
               (dkeys (num_scheduled_tokens so)) in
  match ids with
  | [] => None
  | _ => Some {| structured_output_request_ids := ids;
                 grammar_bitmask := som_grammar_bitmask lookup ids (scheduled_spec_decode_tokens so)
                                      (structured_output_manager s) |}
  end.

End Scheduler.

Arguments Scheduler Q C E M : clear implicits.
