(* ===== verification/Schedule.v ===== *)
(** * One scheduling step

    [Scheduler.schedule] of vllm/v1/core/sched/scheduler.py, with
    [AsyncScheduler._update_after_schedule].  The local variables of the method
    are a record that its loops pass along; a loop turn says whether the loop
    goes on. *)

From S2P Require Import Prelude PyDict PyList PyInt KVSpec PyStr PyFloat Request BlockPool.
From S2P Require Import KVManagers KVCoordinator KVCacheManager RequestQueue EncoderCache TraceTree Outputs.
From S2P Require Import Scheduler.
#[local] Open Scope Z_scope.

Section Schedule.
Context {Q C E M : Type} `{RequestQueue Q, KVConnector C, ECConnector E, StructuredOutput M}.
Context (use_int_hashes : bool) (time_monotonic : Z -> float) (cfg : SchedulerConfig).
Implicit Types (s : Scheduler Q C E M).

(** The local variables of [schedule]. *)
Record Pass := mkPass {
  sched : Scheduler Q C E M;
  scheduled_new : list addr;
  scheduled_resumed : list addr;
  scheduled_running : list addr;
  preempted : list addr;
  req_to_new_blocks : dict string KVCacheBlocks;
  num_scheduled : dict string Z;
  token_budget : Z;
  encoder_inputs : dict string (list Z);
  encoder_budget : Z;
  spec_decode_tokens : dict string (list Z);
  req_index : Z;
  scheduled_loras : gset Z;
  skipped : Q;
  timestamp : float;
}.

#[global] Instance eta_Pass : Eta Pass := fun p =>
  mkPass (sched p) (scheduled_new p) (scheduled_resumed p) (scheduled_running p) (preempted p)
    (req_to_new_blocks p) (num_scheduled p) (token_budget p) (encoder_inputs p) (encoder_budget p)
    (spec_decode_tokens p) (req_index p) (scheduled_loras p) (skipped p) (timestamp p).

Definition on_sched (f : Scheduler Q C E M -> Scheduler Q C E M) (p : Pass) : Pass :=
  p <| sched := f (sched p) |>.

(** [pass_req p a]: the object at [a]. *)
Definition pass_req (p : Pass) (a : addr) : Request := req (sched p) a.

(** ** Encoder inputs *)

Record EncoderPlan := mkEncoderPlan {
  to_schedule : list Z;
  plan_tokens : Z;
  plan_budget : Z;
  external_load : list Z;
}.

#[global] Instance eta_EncoderPlan : Eta EncoderPlan := fun pl =>
  mkEncoderPlan (to_schedule pl) (plan_tokens pl) (plan_budget pl) (external_load pl).

(** The loop of [_try_schedule_encoder_inputs] over the features from [i] on. *)
Fixpoint encoder_loop (r : Request) (num_computed : Z) (remote : option (list bool))
    (i : Z) (feats : list MultiModalFeature) (hashes : gset string) (num_tokens_to_schedule : Z)
    (pl : EncoderPlan) (m : EncoderCacheManager) : result (EncoderPlan * EncoderCacheManager) :=
  match feats with
  | [] => Ok (pl, m)
  | f :: feats =>
      let start_pos := mm_offset f in
      let num_encoder_tokens := mm_length f in
      let rest := encoder_loop r num_computed remote (i + 1) feats in
      let before_input := pl <| plan_tokens := start_pos - num_computed |> in
      if num_computed + plan_tokens pl <=? start_pos then Ok (pl, m)
      else if is_encoder_decoder cfg && (0 <? num_computed) then
        _ ← py_assert (start_pos =? 0); rest hashes num_tokens_to_schedule pl m
      else if start_pos + num_encoder_tokens <=? num_computed then
        rest hashes num_tokens_to_schedule pl m
      else
        '(skip, m) ← (if is_encoder_decoder cfg then Ok (false, m)
                      else if bool_decide (identifier f ∈ hashes) then Ok (true, m)
                      else check_and_update_cache r i m);
        if (skip : bool) then rest hashes num_tokens_to_schedule pl m
        else if disable_chunked_mm cfg && (num_computed <? start_pos) &&
                (num_computed + plan_tokens pl <? start_pos + num_encoder_tokens)
        then Ok (before_input, m)
        else
          '(fits, m) ← can_allocate r i (plan_budget pl) num_tokens_to_schedule m;
          if negb fits then
            Ok (if num_computed <? start_pos then before_input else pl <| plan_tokens := 0 |>, m)
          else
            is_remote ← (match remote with Some l => py_index l i | None => Ok false end);
            let hashes := {[identifier f]} ∪ hashes in
            let num_tokens_to_schedule := num_tokens_to_schedule + num_encoder_tokens in
            if (is_remote : bool) then
              rest hashes num_tokens_to_schedule (pl <| external_load := external_load pl ++ [i] |>) m
            else
              rest hashes num_tokens_to_schedule
                (pl <| plan_budget := plan_budget pl - num_encoder_tokens |>
                    <| to_schedule := to_schedule pl ++ [i] |>) m
  end.

Definition try_schedule_encoder_inputs (r : Request) (num_computed num_new_tokens budget : Z) (s : Scheduler Q C E M)
    : result (EncoderPlan * Scheduler Q C E M) :=
  let nothing := mkEncoderPlan [] num_new_tokens budget [] in
  if (num_new_tokens =? 0) || negb (has_encoder_inputs r) then Ok (nothing, s)
  else
    remote ← (match ec_connector s with
              | Some e => l ← ec_has_caches r e; Ok (Some l)
              | None => Ok None
              end);
    '(pl, m) ← encoder_loop r num_computed remote 0 (mm_features r) ∅ 0 nothing (encoder_cache_manager s);
    Ok (pl, s <| encoder_cache_manager := m |>).

(** The plan of a request, when it has encoder inputs. *)
Definition plan_encoder (a : addr) (num_computed num_new_tokens : Z) (p : Pass) : result (EncoderPlan * Pass) :=
  let r := pass_req p a in
  if has_encoder_inputs r then
    '(pl, s) ← try_schedule_encoder_inputs r num_computed num_new_tokens (encoder_budget p) (sched p);
    Ok (pl, p <| sched := s |>)
  else Ok (mkEncoderPlan [] num_new_tokens (encoder_budget p) [], p).

(** What both loops do with the plan once the request is scheduled. *)
Definition commit_encoder (a : addr) (pl : EncoderPlan) (p : Pass) : result Pass :=
  let r := pass_req p a in
  let alloc i s := m ← mm_allocate r i (encoder_cache_manager s); Ok (s <| encoder_cache_manager := m |>) in
  p ← (match to_schedule pl with
       | [] => Ok p
       | l => s ← for_each alloc l (sched p);
              Ok (p <| sched := s |> <| encoder_inputs := dset (request_id r) l (encoder_inputs p) |>
                    <| encoder_budget := plan_budget pl |>)
       end);
  s ← for_each (fun i s =>
         s ← alloc i s;
         match ec_connector s with
         | Some e => e ← ec_update_state_after_alloc r i e; Ok (s <| ec_connector := Some e |>)
         | None => Ok s
         end) (external_load pl) (sched p);
  Ok (p <| sched := s |>).

(** ** Running requests *)

(** The tokens a running request may be given, before encoder inputs. *)
Definition new_tokens_running (r : Request) (budget : Z) : Z :=
  let n := num_tokens_with_spec r + num_output_placeholders r - num_computed_tokens r in
  let t := long_prefill_token_threshold cfg in
  let n := if (0 <? t) && (t <? n) then t else n in
  let n := Z.min n budget in
  let max_total_tokens := Z.min (num_prompt_tokens r + max_tokens r) (sched_max_model_len cfg) in
  Z.min n (max_total_tokens - 1 - num_computed_tokens r).

(** Tuple comparison of [(priority, arrival_time)]. *)
Definition later_key (a b : Z * float) : bool :=
  if negb (a.1 =? b.1) then b.1 <? a.1
  else if feq a.2 b.2 then false else flt b.2 a.2.
Definition priority_key (p : Pass) (a : addr) : Z * float := (priority (pass_req p a), arrival_time (pass_req p a)).

(** [max(self.running, key=...)]: the first of the greatest. *)
Definition lowest_priority (p : Pass) : result addr :=
  match running (sched p) with
  | [] => Raise ValueError
  | a :: l => Ok (fold_left (fun best b =>
      if later_key (priority_key p b) (priority_key p best) then b else best) l a)
  end.

(** Takes a preempted request's share of this step back. *)
Definition unschedule (a : addr) (p : Pass) : result Pass :=
  if bool_decide (a ∈ scheduled_running p) then
    let r := pass_req p a in
    let rid := request_id r in
    n ← or_raise KeyError (dget rid (num_scheduled p));
    _ ← or_raise KeyError (dget rid (req_to_new_blocks p));
    tokens ← for_each (fun i acc => x ← get_num_encoder_tokens r i; Ok (acc + x))
               (dget_or rid [] (encoder_inputs p)) 0;
    Ok (p <| scheduled_running := remove_first a (scheduled_running p) |>
          <| token_budget := token_budget p + n |>
          <| req_to_new_blocks := ddel rid (req_to_new_blocks p) |>
          <| num_scheduled := ddel rid (num_scheduled p) |>
          <| spec_decode_tokens := ddel rid (spec_decode_tokens p) |>
          <| encoder_inputs := ddel rid (encoder_inputs p) |>
          <| encoder_budget := encoder_budget p + tokens |>
          <| req_index := req_index p - 1 |>)
  else Ok p.

(** The request to preempt: by priority, or the last running one. *)
Definition take_victim (p : Pass) : result (addr * Pass) :=
  if bool_decide (policy cfg = PRIORITY) then
    a ← lowest_priority p;
    p ← unschedule a (on_sched (fun s => s <| running := remove_first a (running s) |>) p);
    Ok (a, p)
  else
    match rev (running (sched p)) with
    | [] => Raise IndexError
    | a :: rest => Ok (a, on_sched (fun s => s <| running := rev rest |>) p)
    end.

(** The state of a request that lost its blocks. *)
Definition preempted_request (t : float) (r : Request) : Request :=
  let r := r <| status := PREEMPTED |> <| num_computed_tokens := 0 |>
             <| num_preemptions := num_preemptions r + 1 |> in
  if log_sched_stats cfg then record_event PREEMPTED_EVENT t r else r.

Definition preempt (a : addr) (p : Pass) : result Pass :=
  let r := pass_req p a in
  s ← kv_free_request r (sched p);
  s ← encoder_free r s;
  let s := update_req a (preempted_request (timestamp p)) s in
  q ← prepend_request a (req s a) (waiting s);
  Ok (p <| sched := s <| waiting := q |> |> <| preempted := preempted p ++ [a] |>).

(** [while True]: allocate, or make room and try again.  Every further turn has
    taken a request out of [running]. *)
Fixpoint allocate_or_preempt (fuel : nat) (a : addr) (num_new_tokens : Z) (p : Pass)
    : result (option KVCacheBlocks * Pass) :=
  match fuel with
  | O => Ok (None, p)
  | S fuel =>
      '(new_blocks, s) ← kv_update (allocate_slots use_int_hashes (pass_req p a) num_new_tokens 0 None
                                      (num_lookahead_tokens cfg) false 0) (sched p);
      let p := p <| sched := s |> in
      match new_blocks with
      | Some b => Ok (Some b, p)
      | None =>
          if bool_decide (policy cfg = GAMBIT) then
            '(stopped, s) ← stop_lowest_running s;
            let p := p <| sched := s |> in
            match stopped with
            | None => Ok (None, p)
            | Some v => if v =? a then Ok (None, p) else allocate_or_preempt fuel a num_new_tokens p
            end
          else
            '(v, p) ← take_victim p;
            p ← preempt v p;
            if v =? a then Ok (None, p) else allocate_or_preempt fuel a num_new_tokens p
      end
  end.

(** [request.spec_token_ids[:k]]; the request starts over without draft tokens. *)
Definition schedule_spec (a : addr) (num_new_tokens : Z) (p : Pass) : Pass :=
  let r := pass_req p a in
  match spec_token_ids r with
  | [] => p
  | drafts =>
      let k := num_new_tokens + num_computed_tokens r - num_tokens r in
      let p := if 0 <? k then p <| spec_decode_tokens := dset (request_id r) (slice_to k drafts) (spec_decode_tokens p) |>
               else p in
      on_sched (update_req a (fun r => r <| spec_token_ids := [] |>)) p
  end.

(** One turn over the running requests: the new state, and whether the loop goes on. *)
Definition running_turn (p : Pass) : result (bool * Pass) :=
  a ← py_index (running (sched p)) (req_index p);
  '(pl, p) ← plan_encoder a (num_computed_tokens (pass_req p a))
               (new_tokens_running (pass_req p a) (token_budget p)) p;
  let num_new_tokens := plan_tokens pl in
  if num_new_tokens =? 0 then Ok (true, p <| req_index := req_index p + 1 |>)
  else
    '(new_blocks, p) ← allocate_or_preempt (length (running (sched p))) a num_new_tokens p;
    match new_blocks with
    | None => Ok (false, p)
    | Some b =>
        let rid := request_id (pass_req p a) in
        let p := p <| scheduled_running := scheduled_running p ++ [a] |>
                   <| req_to_new_blocks := dset rid b (req_to_new_blocks p) |>
                   <| num_scheduled := dset rid num_new_tokens (num_scheduled p) |>
                   <| token_budget := token_budget p - num_new_tokens |>
                   <| req_index := req_index p + 1 |> in
        p ← commit_encoder a pl (schedule_spec a num_new_tokens p);
        Ok (true, p)
    end.

Fixpoint running_loop (fuel : nat) (p : Pass) : result Pass :=
  match fuel with
  | O => Ok p
  | S fuel =>
      if (req_index p <? py_len (running (sched p))) && (0 <? token_budget p) then
        '(go, p) ← running_turn p;
        if (go : bool) then running_loop fuel p else Ok p
      else Ok p
  end.

Definition schedule_running (p : Pass) : result Pass :=
  running_loop (length (running (sched p))) p.

(** ** Waiting requests *)

(** [request.lora_request.lora_int_id]. *)
Definition lora_id (r : Request) : option Z := lora_int_id <$> lora_request r.

(** The adapters of the requests scheduled so far. *)
Definition collect_loras (p : Pass) : result Pass :=
  match max_loras cfg with
  | None => Ok p
  | Some limit =>
      let ids := omap (fun a => x ← lora_id (pass_req p a); if 0 <? x then Some x else None) (scheduled_running p) in
      let loras : gset Z := list_to_set ids in
      _ ← py_assert (Z.of_nat (size loras) <=? limit);
      Ok (p <| scheduled_loras := loras |>)
  end.

Definition exceeds_loras (r : Request) (p : Pass) : bool :=
  match max_loras cfg, lora_id r with
  | Some limit, Some x => (Z.of_nat (size (scheduled_loras p)) =? limit) && bool_decide (x ∉ scheduled_loras p)
  | _, _ => false
  end.

(** The head of the waiting queue is set aside. *)
Definition skip_request (a : addr) (p : Pass) : result Pass :=
  '(_, q) ← pop_request (waiting (sched p));
  sk ← prepend_request a (pass_req p a) (skipped p);
  Ok (on_sched (fun s => s <| waiting := q |>) p <| skipped := sk |>).

(** [_update_waiting_for_remote_kv]. *)
Definition update_waiting_for_remote_kv (a : addr) (s : Scheduler Q C E M) : result (bool * Scheduler Q C E M) :=
  _ ← py_assert (bool_decide (is_Some (connector s)));
  let r := req s a in
  let rid := request_id r in
  if negb (bool_decide (rid ∈ finished_recving_kv_req_ids s)) then Ok (false, s)
  else
    s ← (if bool_decide (rid ∈ failed_recving_kv_req_ids s) then
           k ← (if negb (num_computed_tokens r =? 0)
                then kv_cache_blocks use_int_hashes r (num_computed_tokens r) (kv_cache_manager s)
                else kv_free r (kv_cache_manager s));
           Ok (s <| kv_cache_manager := k |>
                 <| failed_recving_kv_req_ids := failed_recving_kv_req_ids s ∖ {[rid]} |>)
         else
           block_ids ← (match kv_get_block_ids rid (kv_cache_manager s) with
                        | [l] => Ok l | _ => Raise ValueError end);
           let n := Z.min (py_len block_ids * sched_block_size cfg) (num_tokens r) in
           let n := if n =? num_tokens r then n - 1 else n in
           k ← kv_cache_blocks use_int_hashes r n (kv_cache_manager s);
           Ok (update_req a (fun r => r <| num_computed_tokens := n |>) (s <| kv_cache_manager := k |>)));
    Ok (true, s <| finished_recving_kv_req_ids := finished_recving_kv_req_ids s ∖ {[rid]} |>).

(** The tests for requests that cannot be scheduled yet: [false] sets the
    request aside. *)
Definition ready (a : addr) (p : Pass) : result (bool * Pass) :=
  let r := pass_req p a in
  let set_waiting := on_sched (update_req a (fun r => r <| status := WAITING |>)) in
  '(ok, p) ← (if bool_decide (status r = WAITING_FOR_REMOTE_KVS) then
       '(is_ready, s) ← update_waiting_for_remote_kv a (sched p);
       let p := p <| sched := s |> in
       Ok (is_ready, if (is_ready : bool) then set_waiting p else p)
     else Ok (true, p));
  if negb ok then Ok (false, p)
  else
    let r := pass_req p a in
    let '(ok, p) :=
      if bool_decide (status r = WAITING_FOR_FSM) then
        let '(compiled, m) := som_grammar_ready r (structured_output_manager (sched p)) in
        let p := on_sched (fun s => s <| structured_output_manager := m |>) p in
        if use_structured_output r && compiled then (true, set_waiting p) else (false, p)
      else (true, p) in
    Ok (ok && negb (exceeds_loras r p), p).

(** What is already computed for a waiting request: the cached blocks, the
    tokens they hold, the tokens a connector holds, and whether those are
    loaded asynchronously. *)
Record Computed := mkComputed {
  new_computed_blocks : KVCacheBlocks;
  local_tokens : Z;
  external_tokens : Z;
  load_async : bool;
  computed_tokens : Z;
}.

(** [None] when the connector cannot tell yet. *)
Definition already_computed (a : addr) (p : Pass) : result (option Computed * Pass) :=
  let r := pass_req p a in
  if num_computed_tokens r =? 0 then
    '(blocks, n, k) ← get_computed_blocks r (kv_cache_manager (sched p));
    let p := on_sched (fun s => s <| kv_cache_manager := k |>) p in
    match connector (sched p) with
    | None => Ok (Some (mkComputed blocks n 0 false n), p)
    | Some c =>
        '(ext, async, c) ← kc_get_num_new_matched_tokens r n c;
        let p := on_sched (fun s => s <| connector := Some c |>) p in
        Ok (option_map (fun e => mkComputed blocks n e async (n + e)) ext, p)
    end
  else Ok (Some (mkComputed EmptyKVCacheBlocks 0 0 false (num_computed_tokens r)), p).

(** How many tokens to give a waiting request. *)
Inductive Share :=
| Aside
| Halt
| Tokens (pl : EncoderPlan).

Definition waiting_share (a : addr) (c : Computed) (p : Pass) : result (Share * Pass) :=
  let r := pass_req p a in
  if load_async c then
    _ ← py_assert (0 <? external_tokens c);
    Ok (Tokens (mkEncoderPlan [] 0 (encoder_budget p) []), p)
  else
    let n := num_tokens r - computed_tokens c in
    let t := long_prefill_token_threshold cfg in
    let n := if (0 <? t) && (t <? n) then t else n in
    if negb (chunked_prefill_enabled cfg) && (token_budget p <? n) then Ok (Aside, p)
    else
      let n := Z.min n (token_budget p) in
      _ ← py_assert (0 <? n);
      '(pl, p) ← plan_encoder a (computed_tokens c) n p;
      Ok (if has_encoder_inputs r && (plan_tokens pl =? 0) then Halt else Tokens pl, p).

(** The slots of a waiting request. *)
Definition allocate_waiting (a : addr) (c : Computed) (num_new_tokens : Z) (p : Pass)
    : result (option KVCacheBlocks * Pass) :=
  let r := pass_req p a in
  let lookahead := if num_computed_tokens r =? 0 then 0 else num_lookahead_tokens cfg in
  let enc := if is_encoder_decoder cfg && has_encoder_inputs r then max_num_encoder_tokens cfg else 0 in
  '(b, s) ← kv_update (allocate_slots use_int_hashes r (num_new_tokens + external_tokens c) (local_tokens c)
                         (Some (new_computed_blocks c)) lookahead (load_async c) enc) (sched p);
  Ok (b, p <| sched := s |>).

(** The connector learns of the allocation. *)
Definition notify_connector (a : addr) (c : Computed) (new_blocks : KVCacheBlocks) (s : Scheduler Q C E M)
    : result (Scheduler Q C E M) :=
  match connector s with
  | None => Ok s
  | Some kc =>
      let r := req s a in
      let n := num_kv_cache_groups (kv_cache_manager s) in
      kc ← kc_update_state_after_alloc r (blocks_of n (blocks_add n (new_computed_blocks c) new_blocks))
             (external_tokens c) kc;
      Ok (s <| connector := Some kc |>
            <| connector_prefix_cache_stats :=
                 stats_record (num_tokens r) (external_tokens c) (0 <? num_preemptions r)
                 <$> connector_prefix_cache_stats s |>)
  end.

(** A waiting request that got its slots joins the running ones. *)
Definition start_running (a : addr) (c : Computed) (pl : EncoderPlan) (p : Pass) : result Pass :=
  let p := p <| req_index := req_index p + 1 |> in
  let p := on_sched (fun s =>
    let s := s <| running := running s ++ [a] |> in
    if log_sched_stats cfg then update_req a (record_event SCHEDULED (timestamp p)) s else s) p in
  let r := pass_req p a in
  p ← (match status r with
       | WAITING => Ok (p <| scheduled_new := scheduled_new p ++ [a] |>)
       | PREEMPTED => Ok (p <| scheduled_resumed := scheduled_resumed p ++ [a] |>)
       | _ => Raise RuntimeError
       end);
  let rid := request_id r in
  let p := (match max_loras cfg, lora_id r with
            | Some _, Some x => p <| scheduled_loras := {[x]} ∪ scheduled_loras p |>
            | _, _ => p
            end)
    <| req_to_new_blocks := dset rid (get_blocks rid (kv_cache_manager (sched p))) (req_to_new_blocks p) |>
    <| num_scheduled := dset rid (plan_tokens pl) (num_scheduled p) |>
    <| token_budget := token_budget p - plan_tokens pl |> in
  let p := on_sched (update_req a (fun r =>
    r <| status := RUNNING |> <| num_computed_tokens := computed_tokens c |>
      <| num_cached_tokens := if num_cached_tokens r <? 0 then computed_tokens c else num_cached_tokens r |>)) p in
  commit_encoder a pl p.

(** One turn over the waiting requests. *)
Definition waiting_turn (p : Pass) : result (bool * Pass) :=
  if py_len (running (sched p)) =? max_num_running_reqs cfg then Ok (false, p)
  else
    a ← peek_request (waiting (sched p));
    '(ok, p) ← ready a p;
    if negb ok then p ← skip_request a p; Ok (true, p)
    else
      '(oc, p) ← already_computed a p;
      match oc with
      | None => p ← skip_request a p; Ok (true, p)
      | Some c =>
          '(share, p) ← waiting_share a c p;
          match share with
          | Aside => p ← skip_request a p; Ok (true, p)
          | Halt => Ok (false, p)
          | Tokens pl =>
              '(b, p) ← allocate_waiting a c (plan_tokens pl) p;
              match b with
              | None => Ok (false, p)
              | Some new_blocks =>
                  s ← notify_connector a c new_blocks (sched p);
                  '(a, q) ← pop_request (waiting s);
                  let p := p <| sched := s <| waiting := q |> |> in
                  if load_async c then
                    sk ← prepend_request a (pass_req p a) (skipped p);
                    Ok (true, on_sched (update_req a (fun r => r <| status := WAITING_FOR_REMOTE_KVS |>)) p
                                <| skipped := sk |>)
                  else p ← start_running a c pl p; Ok (true, p)
              end
          end
      end.

Fixpoint waiting_loop (fuel : nat) (p : Pass) : result Pass :=
  match fuel with
  | O => Ok p
  | S fuel =>
      if rq_nonempty (waiting (sched p)) && (0 <? token_budget p) then
        '(go, p) ← waiting_turn p;
        if (go : bool) then waiting_loop fuel p else Ok p
      else Ok p
  end.

(** Every turn that goes on takes a request out of the queue. *)
Definition schedule_waiting (p : Pass) : result Pass :=
  match preempted p with
  | [] => waiting_loop (Z.to_nat (rq_len (waiting (sched p)))) p
  | _ => Ok p
  end.

(** The requests set aside go back to the head of the queue. *)
Definition put_back (p : Pass) : result Pass :=
  if rq_nonempty (skipped p) then
    q ← prepend_requests (fun a => Ok (pass_req p a)) (skipped p) (waiting (sched p));
    Ok (on_sched (fun s => s <| waiting := q |>) p)
  else Ok p.

(** ** Wrapping up *)

(** [_make_cached_request_data]: one entry per request, resumed requests after
    the running ones. *)
Definition cached_entry (p : Pass) (resumed : bool) (a : addr) (d : CachedRequestData) : result CachedRequestData :=
  let s := sched p in
  let r := req s a in
  let rid := request_id r in
  n ← or_raise KeyError (dget rid (num_scheduled p));
  let num_tokens := n - py_len (dget_or rid [] (spec_decode_tokens p)) in
  let in_prev := bool_decide (rid ∈ prev_step_scheduled_req_ids s) in
  _ ← py_assert (negb (resumed && in_prev));
  blocks ← or_raise KeyError (dget rid (req_to_new_blocks p));
  Ok {| crd_req_ids := crd_req_ids d ++ [rid];
        crd_resumed_req_ids := if resumed then {[rid]} ∪ crd_resumed_req_ids d else crd_resumed_req_ids d;
        crd_new_token_ids := if use_pp cfg
          then crd_new_token_ids d ++
                 [slice (num_computed_tokens r) (num_computed_tokens r + num_tokens) (all_token_ids r)]
          else crd_new_token_ids d;
        crd_all_token_ids := if in_prev then crd_all_token_ids d
          else dset rid (slice_to (num_computed_tokens r + num_tokens) (all_token_ids r)) (crd_all_token_ids d);
        crd_new_block_ids := crd_new_block_ids d ++
          [get_block_ids (num_kv_cache_groups (kv_cache_manager s)) true blocks];
        crd_num_computed_tokens := crd_num_computed_tokens d ++ [num_computed_tokens r];
        crd_num_output_tokens := crd_num_output_tokens d ++ [num_output_tokens r + num_output_placeholders r] |}.

Definition make_cached_request_data (p : Pass) : result CachedRequestData :=
  d ← for_each (cached_entry p false) (scheduled_running p) make_empty;
  for_each (cached_entry p true) (scheduled_resumed p) d.

Definition new_request_data (p : Pass) (a : addr) : result NewRequestData :=
  let r := pass_req p a in
  blocks ← or_raise KeyError (dget (request_id r) (req_to_new_blocks p));
  Ok (from_request r (blocks_of (num_kv_cache_groups (kv_cache_manager (sched p))) blocks)).

(** [_free_encoder_inputs]. *)
Definition free_encoder_inputs (a : addr) (s : Scheduler Q C E M) : result (Scheduler Q C E M) :=
  let r := req s a in
  m ← for_each (fun i m =>
        f ← py_index (mm_features r) i;
        if (is_encoder_decoder cfg && (0 <? num_computed_tokens r)) ||
           (mm_offset f + mm_length f <=? num_computed_tokens r)
        then free_encoder_input r i m else Ok m)
      (get_cached_input_ids r (encoder_cache_manager s)) (encoder_cache_manager s);
  Ok (s <| encoder_cache_manager := m |>).

(** [_update_after_schedule] of both classes. *)
Definition advance_computed (x : string * Z) (s : Scheduler Q C E M) : result (Scheduler Q C E M) :=
  a ← or_raise KeyError (find_request x.1 s);
  let s := update_req a (fun r => r <| num_computed_tokens := num_computed_tokens r + x.2 |>) s in
  if has_encoder_inputs (req s a) then free_encoder_inputs a s else Ok s.

(** The asynchronous scheduler reserves a placeholder for a token to come. *)
Definition add_placeholder (x : string * Z) (st : bool * Scheduler Q C E M) : result (bool * Scheduler Q C E M) :=
  let '(pending, s) := st in
  a ← or_raise KeyError (find_request x.1 s);
  let r := req s a in
  Ok (pending || (use_structured_output r && (0 <? num_output_placeholders r)),
      if num_computed_tokens r =? num_tokens r + num_output_placeholders r
      then update_req a (fun r => r <| num_output_placeholders := num_output_placeholders r + 1 |>) s else s).

Definition update_after_schedule (so : SchedulerOutput) (s : Scheduler Q C E M)
    : result (SchedulerOutput * Scheduler Q C E M) :=
  s ← for_each advance_computed (num_scheduled_tokens so) s;
  let s := s <| finished_req_ids := ∅ |> in
  if async_scheduling cfg then
    '(pending, s) ← for_each add_placeholder (num_scheduled_tokens so) (false, s);
    Ok (so <| pending_structured_output_tokens := pending |>, s)
  else Ok (so, s).

Definition start_pass (s : Scheduler Q C E M) : result Pass :=
  let '(t, s) := read_clock time_monotonic s in
  let s := if bool_decide (policy cfg = GAMBIT) then order_running_by_score s else s in
  q ← or_raise ValueError (rq_create (policy cfg));
  Ok {| sched := s; scheduled_new := []; scheduled_resumed := []; scheduled_running := []; preempted := [];
        req_to_new_blocks := []; num_scheduled := []; token_budget := max_num_scheduled_tokens cfg;
        encoder_inputs := []; encoder_budget := encoder_compute_limit cfg; spec_decode_tokens := [];
        req_index := 0; scheduled_loras := ∅; skipped := q; timestamp := t |}.

(** The assertions on the finished plan. *)
Definition constraints (p : Pass) : bool :=
  (int_sum (dvalues (num_scheduled p)) <=? max_num_scheduled_tokens cfg) && (0 <=? token_budget p) &&
  (py_len (running (sched p)) <=? max_num_running_reqs cfg) &&
  (py_len (scheduled_new p) + py_len (scheduled_resumed p) + py_len (scheduled_running p)
     <=? py_len (running (sched p))).

(** The output of the step, before the connectors add their metadata. *)
Definition make_output (p : Pass) : result (SchedulerOutput * Scheduler Q C E M) :=
  '(common, s) ← (match running (sched p) with
     | [] => Ok (replicate (num_kv_cache_groups (kv_cache_manager (sched p))) 0, sched p)
     | a :: _ => kv_update (kv_get_num_common_prefix_blocks (request_id (pass_req p a))) (sched p)
     end);
  let p := p <| sched := s |> in
  '(new_data, _) ← for_collect (fun a u => d ← new_request_data p a; Ok (d, u)) (scheduled_new p) tt;
  cached ← make_cached_request_data p;
  let s := s <| prev_step_scheduled_req_ids := list_to_set (dkeys (num_scheduled p)) |> in
  let '(mm_hashes, m) := get_freed_mm_hashes (encoder_cache_manager s) in
  let s := s <| encoder_cache_manager := m |> in
  Ok ({| scheduled_new_reqs := new_data; scheduled_cached_reqs := cached;
         num_scheduled_tokens := num_scheduled p;
         total_num_scheduled_tokens := int_sum (dvalues (num_scheduled p));
         scheduled_spec_decode_tokens := spec_decode_tokens p; scheduled_encoder_inputs := encoder_inputs p;
         num_common_prefix_blocks := common; so_finished_req_ids := finished_req_ids s;
         free_encoder_mm_hashes := mm_hashes; pending_structured_output_tokens := false;
         kv_connector_metadata := None; ec_connector_metadata := None |}, s).

Definition add_metadata (so : SchedulerOutput) (s : Scheduler Q C E M)
    : result (SchedulerOutput * Scheduler Q C E M) :=
  '(so, s) ← (match connector s with
     | Some c => '(meta, c) ← kc_build_connector_meta so c;
                 Ok (so <| kv_connector_metadata := Some meta |>, s <| connector := Some c |>)
     | None => Ok (so, s)
     end);
  match ec_connector s with
  | Some e => '(meta, e) ← ec_build_connector_meta so e;
              Ok (so <| ec_connector_metadata := Some meta |>, s <| ec_connector := Some e |>)
  | None => Ok (so, s)
  end.

(** Which requests get how many tokens. *)
Definition plan_step (s : Scheduler Q C E M) : result Pass :=
  p ← start_pass s;
  p ← schedule_running p;
  p ← collect_loras p;
  p ← schedule_waiting p;
  put_back p.

Definition schedule (s : Scheduler Q C E M) : result (SchedulerOutput * Scheduler Q C E M) :=
  p ← plan_step s;
  _ ← py_assert (constraints p);
  '(so, s) ← make_output p;
  '(so, s) ← add_metadata so s;
  update_after_schedule so s.

End Schedule.

Arguments Pass Q C E M : clear implicits.
