(* ===== verification/SchedulerUpdate.v ===== *)
(** * The scheduler after a model step

    [Scheduler.update_from_output] of vllm/v1/core/sched/scheduler.py with the
    asynchronous scheduler's override, the recovery from failed KV loads, and
    the scheduler as an implementation of the engine's [SchedulerInterface]. *)

From S2P Require Import Prelude PyDict PyList PyInt KVSpec PyStr PyFloat Request BlockPool.
From S2P Require Import KVManagers KVCoordinator KVCacheManager RequestQueue EncoderCache TraceTree Outputs.
From S2P Require Import Scheduler Schedule.
#[local] Open Scope Z_scope.

Section Update.
Context {Q C E M : Type} `{RequestQueue Q, KVConnector C, ECConnector E, StructuredOutput M}.
Context (use_int_hashes : bool) (time_monotonic : Z -> float) (cfg : SchedulerConfig).
Context (block_hasher : option (Request -> result (list BlockHash))).
Implicit Types (s : Scheduler Q C E M).

(** ** New tokens of one request *)

(** [_update_request_with_output]: tokens are appended until one stops the
    request; the tokens kept, the verdict, and the request. *)
Fixpoint append_until_stop (taken new_token_ids : list Z) (r : Request) : result (list Z * bool * Request) :=
  match new_token_ids with
  | [] => Ok (taken, false, r)
  | t :: rest =>
      r ← append_output_token_ids block_hasher [t] r;
      '(stopped, r) ← check_stop r (sched_max_model_len cfg) false;
      if (stopped : bool) then Ok (taken ++ [t], true, r) else append_until_stop (taken ++ [t]) rest r
  end.

Definition update_request_with_output (a : addr) (new_token_ids : list Z) (s : Scheduler Q C E M)
    : result (list Z * bool * Scheduler Q C E M) :=
  let before := status (req s a) in
  '(toks, stopped, r) ← append_until_stop [] new_token_ids (req s a);
  let s := update_req a (fun _ => r) s in
  if async_scheduling cfg then
    let s := update_req a (fun r => r <| num_output_placeholders := num_output_placeholders r - py_len toks |>) s in
    let r := req s a in
    _ ← py_assert (0 <=? num_output_placeholders r);
    if bool_decide (before = RUNNING) then
      k ← kv_cache_blocks use_int_hashes r (num_computed_tokens r - num_output_placeholders r) (kv_cache_manager s);
      Ok (toks, stopped, s <| kv_cache_manager := k |>)
    else Ok (toks, stopped, s)
  else Ok (toks, stopped, s).

(** ** One scheduled request *)

(** The local variables of [update_from_output]. *)
Record Harvest := mkHarvest {
  hv_sched : Scheduler Q C E M;
  hv_outputs : dict Z (list EngineCoreOutput);
  hv_spec_stats : option SpecDecodingStats;
  stopped_running : list addr;
  stopped_preempted : list addr;
}.

#[global] Instance eta_Harvest : Eta Harvest := fun h =>
  mkHarvest (hv_sched h) (hv_outputs h) (hv_spec_stats h) (stopped_running h) (stopped_preempted h).

Definition make_spec_decoding_stats (st : option SpecDecodingStats) (num_draft num_accepted : Z)
    : result (option SpecDecodingStats) :=
  if negb (log_sched_stats cfg) then Ok None
  else st ← observe_draft num_draft num_accepted (default (new_spec_stats (max_spec_tokens cfg)) st); Ok (Some st).

(** Rejected draft tokens are no longer computed. *)
Definition reject_drafts (a : addr) (drafts generated : list Z) (h : Harvest) : result Harvest :=
  match drafts with
  | [] => Ok h
  | _ =>
      let num_accepted := py_len generated - 1 in
      let num_rejected := py_len drafts - num_accepted in
      st ← make_spec_decoding_stats (hv_spec_stats h) (py_len drafts) num_accepted;
      Ok (h <| hv_sched := update_req a (fun r => r <| num_computed_tokens := num_computed_tokens r - num_rejected |>)
                             (hv_sched h) |>
            <| hv_spec_stats := st |>)
  end.

(** A stopped request is freed, and noted for removal from its queue. *)
Definition finish_stopped (a : addr) (stopped : bool) (before : RequestStatus) (h : Harvest)
    : result (option opaque * Harvest) :=
  if stopped then
    '(params, s) ← free_request a (hv_sched h);
    let h := h <| hv_sched := s |> in
    Ok (params, if bool_decide (before = RUNNING) then h <| stopped_running := stopped_running h ++ [a] |>
                else h <| stopped_preempted := stopped_preempted h ++ [a] |>)
  else Ok (None, h).

(** The grammar sees the new tokens. *)
Definition advance_grammar (a : addr) (toks : list Z) (s : Scheduler Q C E M) : result (Scheduler Q C E M) :=
  match toks with
  | [] => Ok s
  | _ =>
      let r := req s a in
      let '(advance, m) := som_should_advance r (structured_output_manager s) in
      let s := s <| structured_output_manager := m |> in
      if (advance : bool) then
        _ ← py_assert (use_structured_output r);
        m ← som_accept_tokens r toks m;
        Ok (s <| structured_output_manager := m |>)
      else Ok s
  end.

Section Step.
Context (so : SchedulerOutput) (mo : ModelRunnerOutput).
Context (final_trace_scores : option (dict string (option float))).
Context (trace_score_histories : option (dict string (list float))).

(** The logprobs row of a request that asked for logprobs. *)
Definition sample_logprobs (r : Request) (req_idx : Z) : result (option LogprobsLists) :=
  match sampling_params r, mro_logprobs mo with
  | Some sp, Some lp => if bool_decide (is_Some (logprobs sp))
                        then row ← logprobs_slice lp req_idx (req_idx + 1); Ok (Some row) else Ok None
  | _, _ => Ok None
  end.

(** The output for the front end, when there is something to tell. *)
Definition emit_output (rid : string) (a : addr) (toks : list Z) (lp : option LogprobsLists)
    (pooled params : option opaque) (h : Harvest) : result Harvest :=
  let r := req (hv_sched h) a in
  let prompt_lp := mjoin (dget rid (prompt_logprobs_dict mo)) in
  let finish_reason := get_finished_reason r in
  let final {A} (d : option A) : option A := match finish_reason with Some _ => d | None => None end in
  if negb (py_len toks =? 0) || bool_decide (is_Some pooled) || bool_decide (is_Some params) then
    let '(evs, r') := Request.take_events r in
    let o := {|
      eco_request_id := rid; new_token_ids := toks; new_logprobs := lp;
      new_prompt_logprobs_tensors := prompt_lp; pooling_output := pooled;
      eco_finish_reason := finish_reason; eco_stop_reason := Request.stop_reason r;
      eco_final_score := final (mjoin (final_trace_scores ≫= dget rid));
      eco_score_history := final (trace_score_histories ≫= dget rid); eco_events := evs;
      eco_kv_transfer_params := params; eco_trace_headers := trace_headers r;
      eco_num_cached_tokens := num_cached_tokens r; eco_num_nans_in_logits := num_nans_in_logits r |} in
    let client := client_index r in
    Ok (h <| hv_sched := update_req a (fun _ => r') (hv_sched h) |>
          <| hv_outputs := dset client (dget_or client [] (hv_outputs h) ++ [o]) (hv_outputs h) |>)
  else
    _ ← py_assert (bool_decide (prompt_lp = None));
    Ok h.

(** The body of the loop over the scheduled requests. *)
Definition harvest_one (failed : gset string) (x : string * Z) (h : Harvest) : result Harvest :=
  let rid := x.1 in
  _ ← py_assert (0 <? x.2);
  if bool_decide (rid ∈ failed) then Ok h
  else
    match find_request rid (hv_sched h) with
    | None => Ok h
    | Some a =>
        req_idx ← or_raise KeyError (dget rid (req_id_to_index mo));
        generated ← (match sampled_token_ids mo with [] => Ok [] | l => py_index l req_idx end);
        h ← reject_drafts a (dget_or rid [] (scheduled_spec_decode_tokens so)) generated h;
        let before := status (req (hv_sched h) a) in
        '(toks, stopped, s) ← (match generated with
           | [] => Ok ([], false, hv_sched h)
           | _ => update_request_with_output a generated (hv_sched h)
           end);
        '(pooled, stopped, s) ← (match pooler_output mo with
           | [] => Ok (None, stopped, s)
           | l =>
               pooled ← py_index l req_idx;
               '(stopped, r) ← check_stop (req s a) (sched_max_model_len cfg) (bool_decide (is_Some pooled));
               Ok (pooled, stopped, update_req a (fun _ => r) s)
           end);
        '(params, h) ← finish_stopped a stopped before (h <| hv_sched := s |>);
        lp ← sample_logprobs (req (hv_sched h) a) req_idx;
        s ← advance_grammar a toks (hv_sched h);
        let s := match mro_num_nans_in_logits mo ≫= dget rid with
                 | Some n => update_req a (fun r => r <| num_nans_in_logits := n |>) s
                 | None => s
                 end in
        emit_output rid a toks lp pooled params (h <| hv_sched := s |>)
    end.
End Step.

(** ** Failed KV loads *)

(** The scan of one request's blocks.  [cut]: the request has already been cut
    at its first invalid block; [hit]: it has an invalid block. *)
Record Scan := mkScan {
  marked : gset Z;
  cut : option Z;
  hit : bool;
}.

Fixpoint scan_blocks (invalid : gset Z) (idx : Z) (ids : list Z) (sc : Scan) : Scan :=
  match ids with
  | [] => sc
  | b :: ids =>
      let sc := if bool_decide (b ∉ invalid) then sc
                else if bool_decide (b ∈ marked sc) then mkScan (marked sc) (cut sc) true
                else mkScan ({[b]} ∪ marked sc)
                       (match cut sc with Some i => Some i | None => Some idx end) true in
      scan_blocks invalid (idx + 1) ids sc
  end.

(** The tokens of a request that may sit in externally loaded blocks. *)
Definition loaded_tokens (r : Request) (block_ids : list Z) (s : Scheduler Q C E M) : Z :=
  if bool_decide (status r = WAITING_FOR_REMOTE_KVS) then
    if bool_decide (request_id r ∈ failed_recving_kv_req_ids s) then num_computed_tokens r
    else py_len block_ids * sched_block_size cfg
  else num_cached_tokens r.

(** One request of [_update_requests_with_invalid_blocks]; the accumulator is
    the affected ids, the affected tokens and the marked blocks. *)
Definition invalidate_one (invalid : gset Z) (a : addr) (acc : gset string * Z * gset Z * Scheduler Q C E M)
    : result (gset string * Z * gset Z * Scheduler Q C E M) :=
  let '(affected, total, mk, s) := acc in
  let r := req s a in
  ids ← (match kv_get_block_ids (request_id r) (kv_cache_manager s) with
         | [l] => Ok l | _ => Raise ValueError end);
  let n := loaded_tokens r ids s in
  num_blocks ← py_floordiv (n + sched_block_size cfg - 1) (sched_block_size cfg);
  let sc := scan_blocks invalid 0 (take (Z.to_nat num_blocks) ids) (mkScan mk None false) in
  if hit sc then
    let '(tokens, lost) := match cut sc with
      | Some idx => (idx * sched_block_size cfg, n - idx * sched_block_size cfg)
      | None => (num_cached_tokens r, num_computed_tokens r - num_cached_tokens r)
      end in
    Ok ({[request_id r]} ∪ affected, total + lost, marked sc,
        update_req a (fun r => r <| num_computed_tokens := tokens |>) s)
  else Ok (affected, total, marked sc, s).

Definition update_requests_with_invalid_blocks (l : list addr) (invalid : gset Z) (s : Scheduler Q C E M)
    : result (gset string * Z * Scheduler Q C E M) :=
  '(affected, total, _, s) ← for_each (invalidate_one invalid) l (∅, 0, ∅, s);
  Ok (affected, total, s).

Definition handle_invalid_blocks (invalid : gset Z) (s : Scheduler Q C E M)
    : result (gset string * Scheduler Q C E M) :=
  queue ← rq_iter (waiting s);
  let async := List.filter (fun a => bool_decide (status (req s a) = WAITING_FOR_REMOTE_KVS)) queue in
  '(async_affected, _, s) ← update_requests_with_invalid_blocks async invalid s;
  let s := s <| failed_recving_kv_req_ids := failed_recving_kv_req_ids s ∪ async_affected |> in
  '(sync_affected, _, s) ← update_requests_with_invalid_blocks (running s) invalid s;
  Ok (sync_affected, s).

(** [_update_from_kv_xfer_finished]. *)
Definition update_from_kv_xfer_finished (o : KVConnectorOutput) (s : Scheduler Q C E M)
    : result (Scheduler Q C E M) :=
  s ← (match connector s with
       | Some c => c ← kc_update_connector_output o c; Ok (s <| connector := Some c |>)
       | None => Ok s
       end);
  let s := s <| finished_recving_kv_req_ids := finished_recving_kv_req_ids s ∪ default ∅ (finished_recving o) |> in
  for_each (fun rid s =>
    a ← or_raise AssertionError (find_request rid s);
    free_blocks_of a s) (elements (default ∅ (finished_sending o))) s.

(** ** The outputs of the step *)

Definition publish_events (s : Scheduler Q C E M) : result (Scheduler Q C E M) :=
  let '(evs, k) := kv_take_events (kv_cache_manager s) in
  let s := s <| kv_cache_manager := k |> in
  '(evs, s) ← (match connector s with
     | Some c => '(more, c) ← kc_take_events c; Ok (evs ++ more, s <| connector := Some c |>)
     | None => Ok (evs, s)
     end);
  match evs with
  | [] => Ok s
  | _ => Ok (s <| published := published s ++ [evs] |>)
  end.

(** The outputs of pruned requests join those of their client. *)
Definition add_pruned (pruned : dict Z (list EngineCoreOutput)) (ecos : dict Z EngineCoreOutputs)
    : dict Z EngineCoreOutputs :=
  fold_left (fun d p =>
    match p.2 with
    | [] => d
    | l => let eco := dget_or p.1 (engine_core_outputs []) d in
           dset p.1 (eco <| outputs := outputs eco ++ l |>) d
    end) pruned ecos.

Definition add_finished (fin : dict Z (gset string)) (ecos : dict Z EngineCoreOutputs) : dict Z EngineCoreOutputs :=
  fold_left (fun d p =>
    dset p.1 (dget_or p.1 (engine_core_outputs []) d <| finished_requests := Some p.2 |>) d) fin ecos.

Definition sched_make_stats (spec : option SpecDecodingStats) (kv_stats : option opaque) (s : Scheduler Q C E M)
    : result (option SchedulerStats * Scheduler Q C E M) :=
  if negb (log_sched_stats cfg) then Ok (None, s)
  else
    let '(st, k) := make_prefix_cache_stats (kv_cache_manager s) in
    let s := s <| kv_cache_manager := k |> in
    prefix ← or_raise AssertionError st;
    let conn := connector_prefix_cache_stats s in
    let s := s <| connector_prefix_cache_stats := (fun _ => new_stats) <$> conn |> in
    Ok (Some {| num_running_reqs := py_len (running s); num_waiting_reqs := rq_len (waiting s);
                kv_cache_usage := usage (kv_cache_manager s); ss_prefix_cache_stats := prefix;
                ss_connector_prefix_cache_stats := conn; ss_spec_decoding_stats := spec;
                ss_kv_connector_stats := kv_stats |}, s).

(** The stats go to the first client, or to client 0. *)
Definition add_stats (st : option SchedulerStats) (ecos : dict Z EngineCoreOutputs) : dict Z EngineCoreOutputs :=
  match st, ecos with
  | None, _ => ecos
  | Some _, [] => [(0, engine_core_outputs [] <| scheduler_stats := st |>)]
  | Some _, (k, eco) :: rest => (k, eco <| scheduler_stats := st |>) :: rest
  end.

(** The connector's own statistics join those of the worker. *)
Definition connector_stats (mo : ModelRunnerOutput) (s : Scheduler Q C E M)
    : result (option opaque * Scheduler Q C E M) :=
  let stats := kv_connector_output mo ≫= kv_connector_stats in
  match stats, connector s with
  | Some st, Some c =>
      '(own, c) ← kc_get_kv_connector_stats c;
      Ok (Some (match own with Some x => kc_aggregate_stats (C := C) st x | None => st end),
          s <| connector := Some c |>)
  | _, _ => Ok (stats, s)
  end.

Definition sched_update_output (so : SchedulerOutput) (mo : ModelRunnerOutput)
    (final_trace_scores : option (dict string (option float)))
    (trace_score_histories : option (dict string (list float))) (s : Scheduler Q C E M)
    : result (dict Z EngineCoreOutputs * Scheduler Q C E M) :=
  '(kv_stats, s) ← connector_stats mo s;
  let invalid := from_option invalid_block_ids ∅ (kv_connector_output mo) in
  '(failed, s) ← (if bool_decide (invalid = ∅) then Ok (∅, s) else handle_invalid_blocks invalid s);
  h ← for_each (harvest_one so mo final_trace_scores trace_score_histories failed) (num_scheduled_tokens so)
        (mkHarvest s [] None [] []);
  let s := drop_running (stopped_running h) (hv_sched h) in
  s ← drop_waiting (stopped_preempted h) s;
  s ← (match kv_connector_output mo with
       | Some o => update_from_kv_xfer_finished o s
       | None => Ok s
       end);
  s ← publish_events s;
  let ecos := add_pruned (pending_pruned_outputs s) (dmap engine_core_outputs (hv_outputs h)) in
  let s := s <| pending_pruned_outputs := [] |> in
  let '(ecos, s) := match finished_req_ids_dict s with
                    | Some fin => (add_finished fin ecos, s <| finished_req_ids_dict := Some [] |>)
                    | None => (ecos, s)
                    end in
  '(st, s) ← sched_make_stats (hv_spec_stats h) kv_stats s;
  Ok (add_stats st ecos, s).

End Update.

(** ** The engine's view *)

(** The scheduler of one configuration. *)
Definition scheduler_interface {Q C E M : Type} `{RequestQueue Q, KVConnector C, ECConnector E, StructuredOutput M}
    (use_int_hashes : bool) (time_monotonic : Z -> float) (cfg : SchedulerConfig)
    (block_hasher : option (Request -> result (list BlockHash))) : SchedulerInterface (Scheduler Q C E M) := {|
  sched_request := fun rid s => option_map (req s) (find_request rid s);
  sched_num_waiting := fun s => rq_len (waiting s);
  sched_num_running := fun s => py_len (running s);
  sched_has_requests := has_requests;
  sched_finished_req_ids := Scheduler.finished_req_ids;
  sched_schedule := schedule use_int_hashes time_monotonic cfg;
  sched_grammar_bitmask := get_grammar_bitmask;
  sched_update_from_output := fun so mo scores histories =>
    sched_update_output use_int_hashes cfg block_hasher so mo (Some scores) histories;
  sched_add_request := sched_add time_monotonic cfg;
  sched_finish_requests := sched_finish;
  sched_mark_stop_reason := sched_mark;
  sched_update_trace_scores := sched_update_scores;
  sched_update_draft_token_ids := sched_update_drafts;
|}.
