(* ===== verification/SchedulerLaws.v ===== *)
(** * The scheduler keeps the engine's laws

    The scheduler with a first-come queue, which the Gambit policy uses, is an
    implementation of the interface the engine is verified against: whatever
    the engine's theorems say of a scheduler with [SchedulerLaws] holds of it. *)

From S2P Require Import Prelude PyDict PyList PyInt KVSpec PyStr PyFloat Request BlockPool.
From S2P Require Import KVManagers KVCoordinator KVCacheManager RequestQueue EncoderCache TraceTree Outputs.
From S2P Require Import Scheduler Schedule SchedulerUpdate.
#[local] Open Scope Z_scope.

Lemma foldr_max_ge l x : x ∈ l -> x <= foldr Z.max 0 l.
Proof.
  induction l as [|y l IH]; cbn; [by intros ?%elem_of_nil|]. rewrite elem_of_cons.
  intros [->|Hx%IH]; lia.
Qed.

Section Objects.
Context {Q C E M : Type}.
Implicit Types (s : Scheduler Q C E M).

Lemma fresh_addr_ne s l a :
  a ∈ dvalues (requests s) \/ a ∈ running s \/ a ∈ l \/ is_Some (store s !! a) -> a <> fresh_addr s l.
Proof.
  intros Ha Heq. assert (a <= foldr Z.max 0 (elements (dom (store s)) ++ dvalues (requests s) ++ running s ++ l)).
  { apply foldr_max_ge. rewrite !elem_of_app, elem_of_elements, elem_of_dom. tauto. }
  unfold fresh_addr in *. lia.
Qed.

Lemma req_update s a b f :
  req (update_req a f s) b = if decide (a = b) then match store s !! b with Some r => f r | None => no_request end
                             else req s b.
Proof.
  unfold req, update_req. cbn. destruct (decide (a = b)) as [<-|Hne].
  - rewrite lookup_alter_eq. by destruct (store s !! a).
  - by rewrite lookup_alter_ne.
Qed.

Lemma req_update_ne s a b f : a <> b -> req (update_req a f s) b = req s b.
Proof. intros. rewrite req_update. by case_decide. Qed.

(** A mutation that a view cannot see leaves the view of every request alone. *)
Lemma view_update {B} (g : Request -> B) s a b f :
  (forall r, g (f r) = g r) -> g (req (update_req a f s) b) = g (req s b).
Proof.
  intros Hf. rewrite req_update. case_decide as Heq; [|done]. unfold req.
  destruct (store s !! b); cbn; [apply Hf | done].
Qed.

Lemma find_in_values s rid a : find_request rid s = Some a -> a ∈ dvalues (requests s).
Proof.
  intros Ha%dget_elem_of. unfold dvalues. apply list_elem_of_fmap. by exists (rid, a).
Qed.

End Objects.

Section Laws.
Context {C E M : Type} `{KVConnector C, ECConnector E, StructuredOutput M}.
Context (use_int_hashes : bool) (time_monotonic : Z -> float) (cfg : SchedulerConfig).
Context (block_hasher : option (Request -> result (list BlockHash))).

Abbreviation sched_t := (Scheduler FCFSRequestQueue C E M).

#[local] Instance iface : SchedulerInterface sched_t :=
  scheduler_interface use_int_hashes time_monotonic cfg block_hasher.

Lemma sched_mark_views {B} (g : Request -> B) ids reason (s : sched_t) :
  (forall r x, g (r <| Request.stop_reason := x |>) = g r) ->
  requests (sched_mark ids reason s) = requests s /\ forall a, g (req (sched_mark ids reason s) a) = g (req s a).
Proof.
  intros Hg. unfold sched_mark. revert s. induction ids as [|rid ids IH]; intros s; [done|]. cbn [fold_left].
  destruct (find_request rid s) as [b|]; [|apply IH]. destruct (is_finished (req s b)); [apply IH|].
  destruct (IH (update_req b (fun r => r <| Request.stop_reason := Some (StrOf reason) |>) s)) as [Hr Hv].
  split; [rewrite Hr; done|]. intros a. rewrite Hv. by apply view_update.
Qed.

Lemma sched_update_scores_views {B} (g : Request -> B) scores (s : sched_t) :
  (forall r x, g (r <| trace_avg_score := x |>) = g r) ->
  requests (sched_update_scores scores s) = requests s /\
  forall a, g (req (sched_update_scores scores s) a) = g (req s a).
Proof.
  intros Hg. unfold sched_update_scores. revert s. induction scores as [|[rid x] scores IH]; intros s; [done|].
  cbn [fold_left].
  set (s1 := s <| sched_trace_scores := _ |>). change (find_request (rid, x).1 s1) with (find_request rid s).
  destruct (find_request rid s) as [b|]; [|apply (IH s1)].
  destruct (IH (update_req b (fun r => r <| trace_avg_score := Some (rid, x).2 |>) s1)) as [Hr Hv].
  split; [rewrite Hr; done|]. intros a. rewrite Hv. by rewrite view_update.
Qed.

(** Adding a request to a first-come queue. *)
Lemma sched_add_fcfs r (s : sched_t) :
  let a := fresh_addr s (waiting s) in
  exists s' r', sched_add time_monotonic cfg r s = Ok s' /\
    requests s' = dset (request_id r) a (requests s) /\ waiting s' = waiting s ++ [a] /\
    running s' = running s /\ Scheduler.finished_req_ids s' = Scheduler.finished_req_ids s /\
    store s' = <[a := r']> (store s) /\ kv_cache_manager s' = kv_cache_manager s /\
    encoder_cache_manager s' = encoder_cache_manager s /\
    r' <| events := events r |> = r.
Proof.
  cbn zeta. unfold sched_add. cbn. destruct (log_sched_stats cfg).
  - eexists _, _. split; [done|]. cbn. repeat (split; [done|]). split.
    + unfold update_req. cbn. by rewrite alter_insert_eq.
    + split; [done|]. split; [done|]. by destruct r.
  - eexists _, r. split; [done|]. cbn. repeat (split; [done|]). by destruct r.
Qed.

(** The scheduler with a first-come queue has the laws the engine's theorems rest on: adding succeeds and leaves the other
    requests alone, marking and scoring touch nothing else. What the calls do is in SchedulerRuns. *)
#[export] Instance scheduler_keeps_engine_laws : SchedulerLaws sched_t.
Proof.
  split.
  - intros r s. destruct (sched_add_fcfs r s) as (s' & r' & Hs & Hreq & Hw & Hrun & Hf & Hst & _ & _ & Hev).
    exists s'. split; [exact Hs|]. cbn. rewrite Hrun, Hw. split; [done|].
    split; [unfold py_len; rewrite length_app; cbn; lia|]. split; [done|]. unfold find_request. rewrite Hreq. split.
    + exists r'. rewrite dget_dset_eq. cbn. unfold req. rewrite Hst, lookup_insert_eq. split; [done|].
      rewrite <- Hev. by destruct r'.
    + intros k Hk. rewrite dget_dset_ne by done. destruct (dget k (requests s)) as [b|] eqn:Hb; [|done]. cbn.
      f_equal. unfold req. rewrite Hst, lookup_insert_ne; [done|].
      symmetry. apply fresh_addr_ne. left. by eapply find_in_values.
  - intros ids reason s k. cbn.
    destruct (sched_mark_views (fun r => r <| Request.stop_reason := None |>) ids reason s) as [Hr Hv]; [done|].
    unfold find_request. rewrite Hr. destruct (dget k (requests s)) as [a|]; [|done]. cbn. f_equal. apply Hv.
  - intros scores s k. cbn.
    destruct (sched_update_scores_views (fun r => r <| trace_avg_score := None |>) scores s) as [Hr Hv]; [done|].
    unfold find_request. rewrite Hr. destruct (dget k (requests s)) as [a|]; [|done]. cbn. f_equal. apply Hv.
Qed.

End Laws.
