(* ===== verification/SchedulerInv.v ===== *)
(** * The scheduler's invariant

    For text requests under the first-come and the Gambit policy, without
    speculative decoding and without connectors: every request the scheduler
    knows is in exactly one of its queues, statuses and blocks agree with the
    queue, and its KV manager is good.  This file has the invariant and the
    operations on single requests: giving slots, preempting, stopping. *)

From S2P Require Import Prelude PyDict PyList PyInt KVSpec PyStr PyFloat Request BlockPool.
From S2P Require Import KVManagers KVCoordinator KVCacheManager KVCacheProps KVService.
From S2P Require Import RequestQueue EncoderCache TraceTree Outputs Scheduler Schedule SchedulerLaws.
#[local] Open Scope Z_scope.

(** The configurations covered. *)
Record config_text (cfg : SchedulerConfig) : Prop := {
  ct_policy : policy cfg <> PRIORITY;
  ct_sync : async_scheduling cfg = false;
  ct_loras : max_loras cfg = None;
  ct_lookahead : 0 <= num_lookahead_tokens cfg;
  ct_budget : 0 <= max_num_scheduled_tokens cfg;
}.

(** A text request that still has room to generate; [bs] is the block size. *)
Record request_ok (len bs : Z) (r : Request) : Prop := {
  ro_text : mm_features r = [];
  ro_nodraft : spec_token_ids r = [] /\ num_output_placeholders r = 0;
  ro_room : 0 < num_tokens r < len;
  ro_limit : num_tokens r < num_prompt_tokens r + max_tokens r;
  ro_computed : 0 <= num_computed_tokens r <= num_tokens r;
  ro_hashes : py_len (Request.block_hashes r) = num_tokens r / bs /\ NoDup (Request.block_hashes r);
}.

Definition waiting_status (st : RequestStatus) : Prop :=
  st = WAITING \/ st = WAITING_FOR_FSM \/ st = PREEMPTED.

Section Inv.
Context {C E M : Type} `{KVConnector C, ECConnector E, StructuredOutput M}.
Context (cfg : SchedulerConfig) (bs : Z).

Abbreviation sched_t := (Scheduler FCFSRequestQueue C E M).
Abbreviation len := (sched_max_model_len cfg).
Implicit Types (s : sched_t) (aside : list Z).

(** The id of the request at an address. *)
Definition rid_of s (a : Z) : string := request_id (req s a).

(** [aside]: requests that a pass has set aside. *)
Record sched_ok s aside : Prop := {
  so_kv : kv_good len bs (kv_cache_manager s);
  so_plain : connector s = None /\ ec_connector s = None;
  so_nodup : NoDup (running s ++ waiting s ++ aside);
  so_dict : dict_ok (requests s);
  so_live : forall a, a ∈ running s ++ waiting s ++ aside <-> a ∈ dvalues (requests s);
  so_obj : forall rid a, find_request rid s = Some a -> rid_of s a = rid /\ request_ok len bs (req s a);
  so_running : forall a, a ∈ running s -> status (req s a) = RUNNING;
  so_waiting : forall a, a ∈ waiting s ++ aside -> waiting_status (status (req s a)) /\
    num_computed_tokens (req s a) = 0 /\ kv_fresh (kv_cache_manager s) (rid_of s a);
  so_unknown : forall rid, find_request rid s = None -> kv_fresh (kv_cache_manager s) rid;
  so_limit : py_len (running s) <= max_num_running_reqs cfg;
  so_log : log_stats (kv_cache_manager s) = log_sched_stats cfg;
}.

(** A resumed request was not scheduled in the previous step. *)
Definition prev_ok s aside : Prop :=
  forall a, a ∈ waiting s ++ aside -> status (req s a) = PREEMPTED -> rid_of s a ∉ prev_step_scheduled_req_ids s.

(** ** Facts *)

Lemma dvalues_find s a : dict_ok (requests s) -> a ∈ dvalues (requests s) -> exists rid, find_request rid s = Some a.
Proof.
  intros Hd Ha. unfold dvalues in Ha. apply list_elem_of_fmap in Ha as ([rid b] & -> & Hin). exists rid.
  by apply elem_of_dget.
Qed.

(** A request in a queue is registered under its id. *)
Lemma ok_find s aside a :
  sched_ok s aside -> a ∈ running s ++ waiting s ++ aside ->
  find_request (rid_of s a) s = Some a /\ request_ok len bs (req s a).
Proof.
  intros Hs Ha. apply (so_live _ _ Hs) in Ha. destruct (dvalues_find s a (so_dict _ _ Hs) Ha) as [rid Hr].
  destruct (so_obj _ _ Hs _ _ Hr) as [<- Hok]. done.
Qed.

Lemma ok_inj s aside a b :
  sched_ok s aside -> a ∈ running s ++ waiting s ++ aside -> b ∈ running s ++ waiting s ++ aside ->
  rid_of s a = rid_of s b -> a = b.
Proof.
  intros Hs Ha Hb He. destruct (ok_find _ _ _ Hs Ha) as [Hfa _], (ok_find _ _ _ Hs Hb) as [Hfb _]. congruence.
Qed.

Lemma find_live s aside rid a : sched_ok s aside -> find_request rid s = Some a -> a ∈ running s ++ waiting s ++ aside.
Proof. intros Hs Hf. apply (so_live _ _ Hs). by eapply find_in_values. Qed.

(** Objects that satisfy the invariant exist. *)
Lemma ok_stored s a : request_ok len bs (req s a) -> store s !! a = Some (req s a).
Proof.
  intros Hr. unfold req in *. destruct (store s !! a); [done|]. destruct Hr as [_ _ [Ht _] _ _ _]. by vm_compute in Ht.
Qed.

Lemma req_update_eq s a f : request_ok len bs (req s a) -> req (update_req a f s) a = f (req s a).
Proof. intros Hr. rewrite req_update, decide_True by done. by rewrite (ok_stored _ _ Hr). Qed.

(** ** Small changes *)

(** Another manager, that has changed nothing but the entries of one request. *)
Lemma ok_with_kv s aside a k' :
  sched_ok s aside -> a ∈ running s ++ waiting s ++ aside -> kv_good len bs k' ->
  kv_frame (rid_of s a) (kv_cache_manager s) k' -> (a ∈ waiting s ++ aside -> kv_fresh k' (rid_of s a)) ->
  sched_ok (s <| kv_cache_manager := k' |>) aside.
Proof.
  intros Hs Ha Hk Hf Hfr. pose proof Hs as [h1 h2 h3 h4 h5 h6 h7 h8 h9 h10 h11]. split; try done.
  - intros b Hb. destruct (h8 b Hb) as (w1 & w2 & w3). split; [done|]. split; [done|].
    change (kv_fresh k' (rid_of s b)). destruct (decide (rid_of s b = rid_of s a)) as [He|Hne].
    + rewrite He. apply Hfr. rewrite <- (ok_inj s aside b a Hs); [done| |done|done]. apply elem_of_app. by right.
    + by eapply kv_frame_fresh.
  - intros rid Hrid. change (find_request rid s = None) in Hrid. change (kv_fresh k' rid).
    eapply kv_frame_fresh; [exact Hf| |by apply h9]. intros ->. destruct (ok_find s aside a Hs Ha). congruence.
  - change (log_stats k' = log_sched_stats cfg). by rewrite (kf_log _ _ _ Hf).
Qed.

(** A mutation of one live object that keeps its place. *)
Lemma ok_with_req s aside a f :
  sched_ok s aside -> a ∈ running s ++ waiting s ++ aside ->
  request_id (f (req s a)) = rid_of s a -> request_ok len bs (f (req s a)) ->
  (a ∈ running s -> status (f (req s a)) = RUNNING) ->
  (a ∈ waiting s ++ aside -> waiting_status (status (f (req s a))) /\ num_computed_tokens (f (req s a)) = 0) ->
  sched_ok (update_req a f s) aside.
Proof.
  intros Hs Ha Hid Hok Hrun Hwait. destruct (ok_find _ _ _ Hs Ha) as [Hfa Hra].
  pose proof Hs as [h1 h2 h3 h4 h5 h6 h7 h8 h9 h10 h11].
  assert (Heq : forall b, req (update_req a f s) b = if decide (a = b) then f (req s a) else req s b).
  { intros b. rewrite req_update. case_decide as Hab; [subst b|done]. by rewrite (ok_stored _ _ Hra). }
  assert (Hrid : forall b, rid_of (update_req a f s) b = rid_of s b).
  { intros b. unfold rid_of. rewrite Heq. case_decide as Hab; [by subst b | done]. }
  split; try done.
  - intros rid b Hb. rewrite Hrid, Heq. change (find_request rid s = Some b) in Hb. destruct (h6 rid b Hb).
    case_decide; [by subst b|done].
  - intros b Hb. rewrite Heq. case_decide as Hab; [subst b; by apply Hrun | by apply h7].
  - intros b Hb. rewrite Hrid, Heq. destruct (h8 b Hb) as (w1 & w2 & w3).
    case_decide as Hab; [subst b; by destruct (Hwait Hb) | done].
Qed.

(** The last running request moves to the head of the queue. *)
Lemma ok_requeue s aside rest a f :
  sched_ok s aside -> running s = rest ++ [a] -> kv_fresh (kv_cache_manager s) (rid_of s a) ->
  request_id (f (req s a)) = rid_of s a -> request_ok len bs (f (req s a)) ->
  waiting_status (status (f (req s a))) -> num_computed_tokens (f (req s a)) = 0 ->
  sched_ok (update_req a f s <| running := rest |> <| waiting := a :: waiting s |>) aside.
Proof.
  intros Hs Hr Hfr Hid Hok Hst Hc.
  assert (Ha : a ∈ running s ++ waiting s ++ aside) by (rewrite Hr, !elem_of_app, list_elem_of_singleton; tauto).
  assert (Hmem : forall b, b ∈ rest ++ (a :: waiting s) ++ aside <-> b ∈ running s ++ waiting s ++ aside).
  { intros b. rewrite Hr, !elem_of_app, elem_of_cons, list_elem_of_singleton. tauto. }
  pose proof (so_nodup _ _ Hs) as Hnd. rewrite Hr, <- app_assoc in Hnd.
  assert (Hrest : a ∉ rest).
  { intros Hin. apply NoDup_app in Hnd as (_ & Hd & _). apply (Hd a Hin). cbn. left. }
  destruct (ok_find _ _ _ Hs Ha) as [Hfa Hra]. pose proof Hs as [h1 h2 h3 h4 h5 h6 h7 h8 h9 h10 h11].
  assert (Heq : forall b, req (update_req a f s) b = if decide (a = b) then f (req s a) else req s b).
  { intros b. rewrite req_update. case_decide as Hab; [subst b|done]. by rewrite (ok_stored _ _ Hra). }
  set (s' := update_req a f s <| running := rest |> <| waiting := a :: waiting s |>).
  assert (Hreq : forall b, req s' b = req (update_req a f s) b) by done.
  assert (Hrid : forall b, rid_of s' b = rid_of s b).
  { intros b. unfold rid_of. rewrite Hreq, Heq. case_decide as Hab; [by subst b | done]. }
  split; try done.
  - intros b. cbn. rewrite Hmem. apply h5.
  - intros rid b Hb. rewrite Hrid, Hreq, Heq. change (find_request rid s = Some b) in Hb. destruct (h6 rid b Hb).
    case_decide; [by subst b|done].
  - intros b Hb. cbn in Hb. rewrite Hreq, Heq. rewrite decide_False by (by intros ->).
    apply h7. rewrite Hr. apply elem_of_app. by left.
  - intros b Hb. rewrite Hrid, Hreq, Heq. case_decide as Hab; [subst b; done|]. apply h8. cbn in Hb.
    apply elem_of_cons in Hb as [->|Hb]; [done|exact Hb].
  - cbn. rewrite Hr in h10. unfold py_len in *. rewrite length_app in h10. cbn in h10. lia.
Qed.

(** A request leaves for good; [l] and [w] are what the queues have left. *)
Lemma ok_remove s aside a l w :
  sched_ok s aside -> running s ++ waiting s ≡ₚ a :: l ++ w ->
  (forall b, b ∈ l -> b ∈ running s) -> (forall b, b ∈ w -> b ∈ waiting s) ->
  kv_fresh (kv_cache_manager s) (rid_of s a) ->
  sched_ok (s <| running := l |> <| waiting := w |> <| requests := ddel (rid_of s a) (requests s) |>) aside.
Proof.
  intros Hs Hperm Hl Hw Hfr.
  assert (Hall : running s ++ waiting s ++ aside ≡ₚ a :: l ++ w ++ aside).
  { rewrite app_assoc, Hperm. cbn. by rewrite app_assoc. }
  assert (Ha : a ∈ running s ++ waiting s ++ aside) by (rewrite Hall; by left).
  destruct (ok_find _ _ _ Hs Ha) as [Hfa Hra]. pose proof Hs as [h1 h2 h3 h4 h5 h6 h7 h8 h9 h10 h11].
  set (s' := s <| running := l |> <| waiting := w |> <| requests := ddel (rid_of s a) (requests s) |>).
  assert (Hfind : forall rid, find_request rid s' = if decide (rid = rid_of s a) then None else find_request rid s).
  { intros rid. unfold find_request, s'. cbn. case_decide as He; [subst; by apply dget_ddel_eq | by apply dget_ddel_ne]. }
  rewrite Hall in h3. apply NoDup_cons in h3 as [Hna Hnd].
  assert (Hd' : dict_ok (requests s')) by (by apply dict_ok_ddel).
  split; try done.
  - intros b. change (b ∈ l ++ w ++ aside <-> b ∈ dvalues (requests s')). split.
    + intros Hb. assert (Hin : b ∈ running s ++ waiting s ++ aside) by (rewrite Hall; by right).
      destruct (ok_find _ _ _ Hs Hin) as [Hfb _]. apply (find_in_values s' (rid_of s b)).
      rewrite Hfind, decide_False; [done|]. intros He. apply Hna. by rewrite <- (ok_inj _ _ b a Hs Hin Ha He).
    + intros Hb. destruct (dvalues_find s' b Hd' Hb) as [rid Hrid]. rewrite Hfind in Hrid. case_decide as He; [done|].
      pose proof (find_live _ _ _ _ Hs Hrid) as Hin. rewrite Hall in Hin. apply elem_of_cons in Hin as [->|Hin]; [|done].
      exfalso. apply He. symmetry. by apply h6.
  - intros rid b Hb. rewrite Hfind in Hb. case_decide; [done|]. by apply h6.
  - intros b Hb. by apply h7, Hl.
  - intros b Hb. apply h8. change (b ∈ w ++ aside) in Hb. rewrite !elem_of_app in *. destruct Hb; auto.
  - intros rid Hrid. rewrite Hfind in Hrid. case_decide as He; [by subst | by apply h9].
  - change (py_len l <= max_num_running_reqs cfg). assert (length l <= length (running s))%nat; [|unfold py_len in *; lia].
    apply submseteq_length, NoDup_submseteq; [by apply NoDup_app in Hnd as (? & _) | done].
Qed.

(** The last running request leaves for good. *)
Lemma ok_drop_last s aside rest a :
  sched_ok s aside -> running s = rest ++ [a] -> kv_fresh (kv_cache_manager s) (rid_of s a) ->
  sched_ok (s <| running := rest |> <| requests := ddel (rid_of s a) (requests s) |>) aside.
Proof.
  intros Hs Hr Hfr. assert (Heq : s <| running := rest |> <| requests := ddel (rid_of s a) (requests s) |>
    = s <| running := rest |> <| waiting := waiting s |> <| requests := ddel (rid_of s a) (requests s) |>) by (by destruct s).
  rewrite Heq. apply ok_remove; try done.
  - rewrite Hr, <- app_assoc. symmetry. apply Permutation_middle.
  - intros b Hb. rewrite Hr. apply elem_of_app. by left.
Qed.

(** A request apart from the fields the invariant does not look at. *)
Definition core_view (r : Request) : Request :=
  r <| Request.stop_reason := None |> <| trace_avg_score := None |> <| events := [] |> <| num_nans_in_logits := 0 |>.

Lemma request_ok_view r r' : core_view r' = core_view r -> request_ok len bs r -> request_ok len bs r'.
Proof.
  intros Hv [h1 h2 h3 h4 h5 h6]. destruct r, r'. unfold core_view in Hv. cbn in Hv. injection Hv. intros. subst. by split.
Qed.

(** Fields, and parts of objects, that the invariant does not look at. *)
Lemma ok_views s s' aside :
  sched_ok s aside -> kv_cache_manager s' = kv_cache_manager s -> connector s' = connector s ->
  ec_connector s' = ec_connector s -> running s' = running s -> waiting s' = waiting s -> requests s' = requests s ->
  (forall b, b ∈ running s ++ waiting s ++ aside -> core_view (req s' b) = core_view (req s b)) -> sched_ok s' aside.
Proof.
  intros Hs e1 e2 e3 e4 e5 e6 e7. pose proof Hs as [h1 h2 h3 h4 h5 h6 h7 h8 h9 h10 h11].
  assert (Hst : forall b, b ∈ running s ++ waiting s ++ aside -> status (req s' b) = status (req s b) /\
    num_computed_tokens (req s' b) = num_computed_tokens (req s b) /\ request_id (req s' b) = request_id (req s b)).
  { intros b Hb. pose proof (e7 b Hb) as Hv. split; [by apply (f_equal status) in Hv|].
    split; [by apply (f_equal num_computed_tokens) in Hv | by apply (f_equal request_id) in Hv]. }
  split; unfold rid_of, find_request in *; rewrite ?e1, ?e2, ?e3, ?e4, ?e5, ?e6; try done.
  - intros rid a Ha. pose proof (find_live _ _ _ _ Hs Ha) as Hin. destruct (Hst a Hin) as (_ & _ & ->).
    destruct (h6 rid a Ha). split; [done|]. by eapply request_ok_view; [apply e7|].
  - intros a Ha. destruct (Hst a) as (-> & _); [apply elem_of_app; by left | by apply h7].
  - intros a Ha. destruct (Hst a) as (-> & -> & ->); [apply elem_of_app; by right | by apply h8].
Qed.

Lemma ok_same s s' aside :
  sched_ok s aside -> kv_cache_manager s' = kv_cache_manager s -> connector s' = connector s ->
  ec_connector s' = ec_connector s -> running s' = running s -> waiting s' = waiting s -> requests s' = requests s ->
  (forall b, b ∈ running s ++ waiting s ++ aside -> req s' b = req s b) -> sched_ok s' aside.
Proof. intros Hs e1 e2 e3 e4 e5 e6 e7. eapply ok_views; try done. intros b Hb. by rewrite e7. Qed.

(** ** What a pass keeps *)

(** A request apart from the fields that scheduling may write. *)
Definition request_view (r : Request) : Request :=
  r <| status := WAITING |> <| events := [] |> <| Request.stop_reason := None |> <| trace_avg_score := None |>
    <| num_computed_tokens := 0 |> <| num_cached_tokens := 0 |> <| spec_token_ids := [] |> <| num_preemptions := 0 |>.

(** A request that is no longer known was stopped, and its client will hear of it. *)
Definition dropped (rid : string) (client : Z) s' : Prop :=
  policy cfg = GAMBIT /\ rid ∈ Scheduler.finished_req_ids s' /\
  exists o, o ∈ dget_or client [] (pending_pruned_outputs s') /\ eco_request_id o = rid /\ eco_finish_reason o = Some ABORT.

Record evolves s s' : Prop := {
  ev_old : forall rid a, find_request rid s' = Some a -> find_request rid s = Some a;
  ev_kept : forall rid a, find_request rid s = Some a ->
    find_request rid s' = Some a \/ dropped rid (client_index (req s a)) s';
  ev_finished : Scheduler.finished_req_ids s ⊆ Scheduler.finished_req_ids s';
  ev_pending : forall c o, o ∈ dget_or c [] (pending_pruned_outputs s) -> o ∈ dget_or c [] (pending_pruned_outputs s');
  ev_view : forall a, request_view (req s' a) = request_view (req s a);
  ev_prev : prev_step_scheduled_req_ids s' = prev_step_scheduled_req_ids s;
  ev_scores : sched_trace_scores s' = sched_trace_scores s /\
    forall a, trace_avg_score (req s' a) = trace_avg_score (req s a);
}.

#[export] Instance evolves_preorder : PreOrder evolves.
Proof.
  split; [intros s; split; auto|].
  intros s1 s2 s3 [a1 a2 a3 a4 a5 a6 [a7 a8]] [b1 b2 b3 b4 b5 b6 [b7 b8]]. split; try (by etrans); auto.
  - intros rid a Hf. destruct (a2 rid a Hf) as [Hf2|(Hp & Hin & o & Ho & Ho2)].
    + destruct (b2 rid a Hf2) as [|Hd]; [by left|]. right. pose proof (a5 a) as Hv. apply (f_equal client_index) in Hv. cbn in Hv. by rewrite <- Hv.
    + right. split; [done|]. split; [set_solver|]. exists o. split; [by apply b4 | done].
  - intros a. etrans; [apply b5 | apply a5].
  - split; [congruence|]. intros a. etrans; [apply b8 | apply a8].
Qed.

(** Changes of other fields than these. *)
Lemma evolves_fields s s' :
  requests s' = requests s -> Scheduler.finished_req_ids s' = Scheduler.finished_req_ids s ->
  pending_pruned_outputs s' = pending_pruned_outputs s -> store s' = store s ->
  prev_step_scheduled_req_ids s' = prev_step_scheduled_req_ids s -> sched_trace_scores s' = sched_trace_scores s ->
  evolves s s'.
Proof.
  intros h1 h2 h3 h4 h5 h6. unfold find_request.
  split; unfold find_request, req; rewrite ?h1, ?h2, ?h3, ?h4; auto.
Qed.

Lemma evolves_update s a f :
  (forall r, request_view (f r) = request_view r /\ trace_avg_score (f r) = trace_avg_score r) -> evolves s (update_req a f s).
Proof.
  intros Hf. split; auto; [| split; [done|]]; intros b; apply view_update; intros r; apply Hf.
Qed.

(** Running requests go from the end of the list; who is not running stays known. *)
Definition shrinks s s' : Prop :=
  running s' `prefix_of` running s /\
  forall rid a, find_request rid s = Some a -> find_request rid s' = Some a \/ a ∈ running s.

#[export] Instance shrinks_preorder : PreOrder shrinks.
Proof.
  split; [intros s; split; auto|]. intros s1 s2 s3 [a1 a2] [b1 b2]. split; [by etrans|]. intros rid a Hf.
  destruct (a2 rid a Hf) as [Hf2|]; [|by right]. destruct (b2 rid a Hf2) as [|Hr]; [by left|right].
  destruct a1 as [l a1]. rewrite a1. apply elem_of_app. by left.
Qed.

(** What making room does; the Gambit policy stops requests for good. *)
Record moves s s' : Prop := {
  mv_evolves : evolves s s';
  mv_shrinks : shrinks s s';
  mv_gone : policy cfg = GAMBIT -> forall a, a ∈ running s -> a ∈ running s' \/ forall rid, find_request rid s' <> Some a;
}.

#[export] Instance moves_preorder : PreOrder moves.
Proof.
  split; [intros s; split; [done..|by left]|]. intros s1 s2 s3 [a1 a2 a3] [b1 b2 b3]. split; [by etrans..|].
  intros Hp a Ha. destruct (a3 Hp a Ha) as [Hr|Hg]; [by apply b3|right]. intros rid Hf. by apply (Hg rid), (ev_old _ _ b1).
Qed.

Lemma moves_fields s s' :
  requests s' = requests s -> Scheduler.finished_req_ids s' = Scheduler.finished_req_ids s ->
  pending_pruned_outputs s' = pending_pruned_outputs s -> store s' = store s ->
  prev_step_scheduled_req_ids s' = prev_step_scheduled_req_ids s -> sched_trace_scores s' = sched_trace_scores s ->
  running s' = running s -> moves s s'.
Proof.
  intros h1 h2 h3 h4 h5 h6 h7. split; [by apply evolves_fields| |rewrite h7; by left]. split; [by rewrite h7|]. intros rid a Hf. left.
  unfold find_request in *. by rewrite h1.
Qed.
End Inv.
