(* ===== verification/SchedulerSteps.v ===== *)
(** * Making room and scheduling running requests

    Preemption, the stop of the lowest running request, and the first loop of
    [schedule], on a scheduler that satisfies its invariant. *)

From S2P Require Import Prelude PyDict PyList PyInt KVSpec PyStr PyFloat Request BlockPool.
From S2P Require Import KVManagers KVCoordinator KVCacheManager KVCacheProps KVService.
From S2P Require Import RequestQueue EncoderCache TraceTree Outputs Scheduler Schedule SchedulerLaws SchedulerInv.
#[local] Open Scope Z_scope.

Section Steps.
Context {C E M : Type} `{KVConnector C, ECConnector E, StructuredOutput M}.
Context (use_int_hashes : bool) (cfg : SchedulerConfig) (bs : Z).
Context (Hcfg : config_text cfg).

Abbreviation sched_t := (Scheduler FCFSRequestQueue C E M).
Abbreviation pass_t := (Pass FCFSRequestQueue C E M).
Abbreviation len := (sched_max_model_len cfg).
Abbreviation sched_ok := (sched_ok cfg bs).
Abbreviation evolves := (evolves cfg).
Abbreviation moves := (moves cfg).
Implicit Types (s : sched_t) (p : pass_t) (aside : list Z).

Lemma encoder_free_text s r : mm_features r = [] -> encoder_free r s = Ok s.
Proof.
  intros Hr. unfold encoder_free, mm_free, get_cached_input_ids. rewrite Hr. cbn. f_equal. by destruct s.
Qed.

(** ** Making room *)

Lemma preempt_ok p s0 aside rest a :
  policy cfg <> GAMBIT -> sched_ok s0 aside -> running s0 = rest ++ [a] -> sched p = s0 <| running := rest |> ->
  exists s', preempt cfg a p = Ok (p <| sched := s' |> <| preempted := preempted p ++ [a] |>) /\
    sched_ok s' aside /\ running s' = rest /\ waiting s' = a :: waiting s0 /\ moves s0 s' /\
    forall b, b <> a -> req s' b = req s0 b.
Proof.
  intros Hpol Hs Hr Hp. assert (Ha : a ∈ running s0) by (rewrite Hr; apply elem_of_app; right; by left).
  assert (Hin : a ∈ running s0 ++ waiting s0 ++ aside) by (apply elem_of_app; by left).
  destruct (ok_find _ _ _ _ _ Hs Hin) as [Hf Hok].
  destruct (release_request len bs (kv_cache_manager s0) (req s0 a) (so_kv _ _ _ _ Hs)) as (k' & Hk & Hg & Hfr & Hfresh & _).
  assert (Hs1 : sched_ok (s0 <| kv_cache_manager := k' |>) aside).
  { apply (ok_with_kv _ _ _ _ a); try done. }
  set (f := preempted_request cfg (timestamp p)).
  exists (update_req a f (s0 <| kv_cache_manager := k' |>) <| running := rest |> <| waiting := a :: waiting s0 |>).
  split.
  - unfold preempt, pass_req. rewrite Hp. change (req (s0 <| running := rest |>) a) with (req s0 a).
    unfold kv_free_request. change (kv_cache_manager (s0 <| running := rest |>)) with (kv_cache_manager s0).
    rewrite Hk. bind_ok. rewrite encoder_free_text by apply Hok. bind_ok. done.
  - assert (Hview : forall r, request_view (f r) = request_view r /\ trace_avg_score (f r) = trace_avg_score r).
    { intros r. unfold f, preempted_request. by destruct (log_sched_stats cfg). }
    split; [|split; [done|split; [done|]]].
    + refine (ok_requeue cfg bs (s0 <| kv_cache_manager := k' |>) aside rest a f Hs1 Hr Hfresh _ _ _ _);
        unfold f, preempted_request; change (req (s0 <| kv_cache_manager := k' |>) a) with (req s0 a).
      * by destruct (log_sched_stats cfg).
      * destruct Hok as [r1 [r2 r3] r4 r5 r6 r7]. destruct (log_sched_stats cfg); split; try done; cbn; unfold num_tokens in *; cbn; lia.
      * destruct (log_sched_stats cfg); right; by right.
      * by destruct (log_sched_stats cfg).
    + split; [split; [etrans; [apply evolves_update; exact Hview | by apply evolves_fields]| |done]|].
      { split; [|by left]. change (rest `prefix_of` running s0). rewrite Hr. by apply prefix_app_r. }
      intros b Hb. exact (req_update_ne (s0 <| kv_cache_manager := k' |>) a b f (not_eq_sym Hb)).
Qed.

Lemma stop_lowest_ok s aside rest v :
  policy cfg = GAMBIT -> sched_ok s aside -> running s = rest ++ [v] ->
  exists s', stop_lowest_running s = Ok (Some v, s') /\ sched_ok s' aside /\ running s' = rest /\
    waiting s' = waiting s /\ moves s s' /\ forall b, b <> v -> req s' b = req s b.
Proof.
  intros Hpol Hs Hr. assert (Hv : v ∈ running s) by (rewrite Hr; apply elem_of_app; right; by left).
  assert (Hin : v ∈ running s ++ waiting s ++ aside) by (apply elem_of_app; by left).
  destruct (ok_find _ _ _ _ _ Hs Hin) as [Hf Hok].
  set (f := fun r => r <| Request.stop_reason := Some (StrOf "pruned") |> <| status := FINISHED_ABORTED |>).
  destruct (release_request len bs (kv_cache_manager s) (f (req s v)) (so_kv _ _ _ _ Hs)) as (k' & Hk & Hg & Hfr & Hfresh & _).
  change (request_id (f (req s v))) with (rid_of s v) in *.
  assert (Hs1 : sched_ok (s <| kv_cache_manager := k' |>) aside).
  { apply (ok_with_kv _ _ _ _ v); try done. }
  pose proof (ok_drop_last _ _ _ _ rest v Hs1 Hr Hfresh) as Hs2.
  unfold stop_lowest_running. rewrite Hr, rev_app_distr. cbn [rev app]. rewrite rev_involutive. fold f.
  set (s1 := update_req v f (s <| running := rest |>)).
  assert (Hreq : req s1 v = f (req s v)) by exact (req_update_eq cfg bs _ v f Hok).
  rewrite Hreq. cbn zeta. set (score := match trace_avg_score (f (req s v)) with Some x => Some x | None => _ end).
  set (out := pruned_output (f (req s v)) score).
  set (s2 := s1 <| pending_pruned_outputs := _ |>).
  unfold free_request. change (req s2 v) with (req s1 v). rewrite Hreq. cbn [is_finished status_is_finished py_assert].
  change (is_finished (f (req s v))) with true. cbn [py_assert]. bind_ok.
  unfold connector_finished. change (connector s2) with (connector s). rewrite (proj1 (so_plain _ _ _ _ Hs)). bind_ok.
  rewrite encoder_free_text by apply Hok. bind_ok.
  set (s3 := s2 <| Scheduler.finished_req_ids := _ |> <| finished_req_ids_dict := _ |>).
  unfold free_blocks_of. change (req s3 v) with (req s1 v). rewrite Hreq.
  change (is_finished (f (req s v))) with true. cbn [py_assert]. bind_ok.
  unfold kv_free_request. change (kv_cache_manager s3) with (kv_cache_manager s). rewrite Hk. bind_ok.
  change (find_request (request_id (f (req s v))) (s3 <| kv_cache_manager := k' |>)) with (find_request (rid_of s v) s).
  rewrite Hf. cbn [or_raise]. bind_ok. eexists. split; [reflexivity|]. split; [|split; [done|split; [done|]]].
  - eapply ok_same; [exact Hs2|done..|]. intros b Hb. change (req s1 b = req s b). unfold s1.
    rewrite req_update_ne; [done|]. intros <-. apply (so_live _ _ _ _ Hs2) in Hb.
    apply dvalues_find in Hb as [rid Hb]; [|apply Hs2]. change (dget rid (ddel (rid_of s v) (requests s)) = Some v) in Hb.
    destruct (decide (rid = rid_of s v)) as [->|Hne].
    + rewrite dget_ddel_eq in Hb by apply Hs. done.
    + rewrite dget_ddel_ne in Hb by done. apply Hne. symmetry. by apply Hs.
  - split; [|intros b Hb; exact (req_update_ne (s <| running := rest |>) v b f (not_eq_sym Hb))]. split; [split| |].
    + intros rid a Ha. change (dget rid (ddel (rid_of s v) (requests s)) = Some a) in Ha.
      destruct (decide (rid = rid_of s v)) as [->|Hne]; [rewrite dget_ddel_eq in Ha by apply Hs; done|].
      by rewrite dget_ddel_ne in Ha.
    + intros rid a Ha. destruct (decide (rid = rid_of s v)) as [->|Hne].
      * right. assert (a = v) as -> by congruence. split; [done|]. split; [apply elem_of_union_l, elem_of_singleton; done|].
        exists out. split; [|done]. change (client_index (f (req s v))) with (client_index (req s v)). cbn [pending_pruned_outputs].
        unfold dget_or at 1. cbn. rewrite dget_dset_eq. apply elem_of_app. right. by left.
      * left. change (dget rid (ddel (rid_of s v) (requests s)) = Some a). by rewrite dget_ddel_ne.
    + cbn. set_solver.
    + intros c o Ho. unfold dget_or at 1. cbn. rewrite dget_dset. case_decide as Hc; [|exact Ho].
      subst c. apply elem_of_app. left. exact Ho.
    + intros a. change (request_view (req s1 a) = request_view (req s a)). unfold s1. by rewrite view_update.
    + done.
    + split; [done|]. intros a. change (trace_avg_score (req s1 a) = trace_avg_score (req s a)). unfold s1.
      by rewrite view_update.
    + split; [change (rest `prefix_of` running s); rewrite Hr; by apply prefix_app_r|]. intros rid a Ha.
      destruct (decide (rid = rid_of s v)) as [->|Hne]; [right; by assert (a = v) as -> by congruence|left].
      change (dget rid (ddel (rid_of s v) (requests s)) = Some a). by rewrite dget_ddel_ne.
    + intros _ a Ha. rewrite Hr in Ha. apply elem_of_app in Ha as [Ha| ->%list_elem_of_singleton]; [by left|right]. intros rid Hf'.
      change (dget rid (ddel (rid_of s v) (requests s)) = Some v) in Hf'. destruct (decide (rid = rid_of s v)) as [->|Hne].
      * rewrite dget_ddel_eq in Hf' by apply Hs. done.
      * rewrite dget_ddel_ne in Hf' by done. apply Hne. symmetry. by apply Hs.
Qed.

(** ** Slots for a running request *)

(** The plan of a pass is what it is apart from the scheduler and the preempted list. *)
Definition same_plan p p' : Prop := p' = p <| sched := sched p' |> <| preempted := preempted p' |>.

#[local] Instance same_plan_preorder : PreOrder same_plan.
Proof.
  split; [by intros []|]. intros [] [] [] h1 h2. unfold same_plan in *. cbn in *. injection h1. injection h2. intros. by subst.
Qed.

Lemma last_victim pre a (post : list Z) :
  post = [] \/
  exists post0 v, post = post0 ++ [v] /\ pre ++ a :: post = (pre ++ a :: post0) ++ [v].
Proof.
  destruct post as [|x post _] using rev_ind; [by left|right].
  exists post, x. split; [done|]. by rewrite <- app_assoc.
Qed.

Lemma allocate_or_preempt_ok fuel aside : forall p pre a post n,
  sched_ok (sched p) aside -> running (sched p) = pre ++ a :: post -> (length post < fuel)%nat ->
  0 < n -> num_computed_tokens (pass_req p a) + n <= num_tokens (pass_req p a) ->
  exists ob p', allocate_or_preempt use_int_hashes cfg fuel a n p = Ok (ob, p') /\ same_plan p p' /\
    sched_ok (sched p') aside /\ moves (sched p) (sched p') /\
    (forall b, b ∉ post -> b <> a \/ is_Some ob -> req (sched p') b = req (sched p) b) /\
    (preempted p' = [] -> preempted p = [] /\ waiting (sched p') = waiting (sched p)) /\
    match ob with
    | Some _ => exists post', post' `prefix_of` post /\ running (sched p') = pre ++ a :: post'
    | None => running (sched p') = pre
    end.
Proof.
  induction fuel as [|fuel IH]; intros p pre a post n Hs Hr Hfuel Hn Hle; [lia|].
  set (s := sched p) in *. assert (Ha : a ∈ running s) by (rewrite Hr; apply elem_of_app; right; by left).
  assert (Hin : a ∈ running s ++ waiting s ++ aside) by (apply elem_of_app; by left).
  destruct (ok_find _ _ _ _ _ Hs Hin) as [Hf Hok]. pose proof Hok as [_ _ r3 r4 r5 [r6 r7]].
  assert (Hpost : forall v, v ∈ post -> v <> a).
  { intros v Hv ->. pose proof (so_nodup _ _ _ _ Hs) as Hnd. rewrite Hr in Hnd. apply NoDup_app in Hnd as (Hnd & _).
    apply NoDup_app in Hnd as (_ & _ & Hnd). apply NoDup_cons in Hnd as [? _]. done. }
  cbn [allocate_or_preempt]. unfold kv_update. fold s.
  destruct (allocate_running use_int_hashes len bs (kv_cache_manager s) (req s a) n (num_lookahead_tokens cfg))
    as (res & k' & Halloc & Hg & Hfr); [apply Hs|done|apply Hcfg|lia| |lia|].
  { unfold pass_req in Hle. fold s in Hle. lia. }
  unfold pass_req at 1. fold s. rewrite Halloc. bind_ok.
  set (s1 := s <| kv_cache_manager := k' |>). set (p1 := p <| sched := s1 |>).
  assert (Hs1 : sched_ok s1 aside).
  { apply (ok_with_kv _ _ _ _ a); try done. intros Hw. exfalso.
    pose proof (so_nodup _ _ _ _ Hs) as Hnd. apply NoDup_app in Hnd as (_ & Hd & _). by apply (Hd a Ha). }
  assert (Hev1 : moves s s1) by (by apply moves_fields).
  assert (Hp1 : same_plan p p1) by (by destruct p).
  destruct res as [b|].
  { exists (Some b), p1. split; [done|]. split; [done|]. split; [done|]. split; [done|]. split; [done|]. split; [done|].
    exists post. done. }
  destruct (last_victim pre a post) as [->|(post0 & v & -> & Hlast)].
  - (* the request itself is the last one *)
    case_bool_decide as Hpol.
    + destruct (stop_lowest_ok s1 aside pre a Hpol Hs1 Hr) as (s2 & Hst & Hs2 & Hr2 & Hw2 & Hev2 & Hreq2).
      rewrite Hst. bind_ok. rewrite Z.eqb_refl. eexists None, _. split; [done|]. split; [by destruct p|].
      split; [done|]. split; [by etrans|]. split; [intros b _ [Hb|[? [=]]]; by rewrite Hreq2|]. split; [done|]. done.
    + unfold take_victim. rewrite bool_decide_eq_false_2 by apply Hcfg. change (running (sched p1)) with (running s).
      rewrite Hr, rev_app_distr. cbn [rev app]. rewrite rev_involutive. bind_ok.
      match goal with |- context [preempt cfg a ?q] =>
        destruct (preempt_ok q s1 aside pre a Hpol Hs1 Hr eq_refl) as (s2 & Hpr & Hs2 & Hr2 & Hw2 & Hev2 & Hreq2) end.
      rewrite Hpr. bind_ok. rewrite Z.eqb_refl. eexists None, _. split; [done|]. split; [by destruct p|].
      split; [done|]. split; [by etrans|]. split; [intros b _ [Hb|[? [=]]]; cbn; by rewrite Hreq2|].
      split; [|done]. cbn. intros Hnil. by apply app_nil in Hnil as [_ ?].
  - (* another request gives way *)
    rewrite Hlast in Hr. assert (Hva : v <> a) by (apply Hpost; apply elem_of_app; right; by left).
    rewrite length_app in Hfuel. cbn in Hfuel.
    assert (Hnext : forall p2, same_plan p p2 -> sched_ok (sched p2) aside -> running (sched p2) = pre ++ a :: post0 ->
      moves s1 (sched p2) -> (forall b, b <> v -> req (sched p2) b = req s1 b) ->
      (preempted p2 = [] -> preempted p = [] /\ waiting (sched p2) = waiting s) ->
      exists ob p', allocate_or_preempt use_int_hashes cfg fuel a n p2 = Ok (ob, p') /\ same_plan p p' /\
        sched_ok (sched p') aside /\ moves s (sched p') /\
        (forall b, b ∉ post0 ++ [v] -> b <> a \/ is_Some ob -> req (sched p') b = req s b) /\
        (preempted p' = [] -> preempted p = [] /\ waiting (sched p') = waiting s) /\
        match ob with
        | Some _ => exists post', post' `prefix_of` post0 ++ [v] /\ running (sched p') = pre ++ a :: post'
        | None => running (sched p') = pre
        end).
    { intros p2 Hp2 Hs2 Hr2 Hev2 Hreq2 Hpre2.
      destruct (IH p2 pre a post0 n Hs2 Hr2 ltac:(lia) Hn) as (ob & p' & Hrun & Hp' & Hs' & Hev' & Hreq' & Hpre' & Hout).
      { unfold pass_req. by rewrite Hreq2. }
      exists ob, p'. split; [done|]. split; [by etrans|]. split; [done|]. split; [by do 2 (etrans; [eassumption|])|].
      split; [|split].
      - intros b Hb Hob. rewrite not_elem_of_app, list_elem_of_singleton in Hb. rewrite Hreq' by tauto. by rewrite Hreq2 by tauto.
      - intros Hnil. destruct (Hpre' Hnil) as [Hnil2 ->]. by apply Hpre2.
      - destruct ob; [|done]. destruct Hout as (post' & Hpref & ->). exists post'. split; [|done]. by apply prefix_app_r. }
    case_bool_decide as Hpol.
    + destruct (stop_lowest_ok s1 aside _ v Hpol Hs1 Hr) as (s2 & Hst & Hs2 & Hr2 & Hw2 & Hev2 & Hreq2).
      rewrite Hst. bind_ok. destruct (Z.eqb_spec v a); [done|]. by apply Hnext; try (by destruct p).
    + unfold take_victim. rewrite bool_decide_eq_false_2 by apply Hcfg. change (running (sched p1)) with (running s).
      rewrite Hr, rev_app_distr. cbn [rev app]. rewrite rev_involutive. bind_ok.
      match goal with |- context [preempt cfg v ?q] =>
        destruct (preempt_ok q s1 aside _ v Hpol Hs1 Hr eq_refl) as (s2 & Hpr & Hs2 & Hr2 & Hw2 & Hev2 & Hreq2) end.
      rewrite Hpr. bind_ok. destruct (Z.eqb_spec v a); [done|]. apply Hnext; try done.
      cbn. intros Hnil. by apply app_nil in Hnil as [_ ?].
Qed.
End Steps.
