(* ===== verification/SchedulerPass.v ===== *)
(** * The passes of a scheduling step

    The two loops of [schedule]: what a pass has given out so far, and that
    every turn keeps it, ends, and does not raise. *)

From S2P Require Import Prelude PyDict PyList PyInt KVSpec PyStr PyFloat Request BlockPool KVManagers KVCoordinator KVCacheManager KVCacheProps KVService RequestQueue EncoderCache TraceTree Outputs Scheduler Schedule SchedulerLaws SchedulerInv SchedulerSteps.
#[local] Open Scope Z_scope.

Section Passes.
Context {C E M : Type} `{KVConnector C, ECConnector E, StructuredOutput M}.
Context (use_int_hashes : bool) (cfg : SchedulerConfig) (bs : Z).
Context (Hcfg : config_text cfg).

Abbreviation sched_t := (Scheduler FCFSRequestQueue C E M).
Abbreviation pass_t := (Pass FCFSRequestQueue C E M).
Abbreviation len := (sched_max_model_len cfg).
Abbreviation sched_ok := (sched_ok cfg bs).
Abbreviation evolves := (evolves cfg).
Implicit Types (s : sched_t) (p : pass_t).

(** The requests scheduled so far. *)
Definition scheduled p : list Z := scheduled_running p ++ scheduled_resumed p ++ scheduled_new p.

(** A request's share: at least one token, and none past its end. *)
Definition has_share p (a : Z) : Prop :=
  exists n, dget (rid_of (sched p) a) (num_scheduled p) = Some n /\ 0 < n /\
    num_computed_tokens (pass_req p a) + n <= num_tokens (pass_req p a) /\
    is_Some (dget (rid_of (sched p) a) (req_to_new_blocks p)).

Record pass_ok s0 p : Prop := {
  po_sched : sched_ok (sched p) (skipped p);
  po_evolves : evolves s0 (sched p);
  po_budget : 0 <= token_budget p /\
    int_sum (dvalues (num_scheduled p)) + token_budget p = max_num_scheduled_tokens cfg;
  po_dict : dict_ok (num_scheduled p);
  po_nodup : NoDup (scheduled p);
  po_sub : forall a, a ∈ scheduled p -> a ∈ running (sched p);
  po_share : forall a, a ∈ scheduled p -> has_share p a;
  po_keys : forall rid, rid ∈ dkeys (num_scheduled p) -> exists a, a ∈ scheduled p /\ rid_of (sched p) a = rid;
  po_nodraft : spec_decode_tokens p = [];
  po_prev : preempted p = [] -> prev_ok (sched p) (skipped p) /\
    forall a, a ∈ scheduled_resumed p -> rid_of (sched p) a ∉ prev_step_scheduled_req_ids (sched p);
}.

Lemma ok_running_in s aside a : a ∈ running s -> a ∈ running s ++ waiting s ++ aside.
Proof. intros. apply elem_of_app. by left. Qed.

(** The scheduler changed, but not the scheduled requests. *)
Lemma pass_ok_sched s0 p p' :
  pass_ok s0 p -> p' = p <| sched := sched p' |> <| preempted := preempted p' |> ->
  sched_ok (sched p') (skipped p) -> evolves (sched p) (sched p') ->
  (forall a, a ∈ scheduled p -> a ∈ running (sched p') /\ req (sched p') a = req (sched p) a) ->
  (preempted p' = [] -> preempted p = [] /\ prev_ok (sched p') (skipped p)) ->
  pass_ok s0 p'.
Proof.
  intros [h1 h2 h3 h4 h5 h6 h7 h8 h9 h10] Hp Hs Hev Hsch Hpre. rewrite Hp.
  assert (Hid : forall a, rid_of (sched p') a = rid_of (sched p) a).
  { intros a. pose proof (ev_view _ _ _ Hev a) as Hv. by apply (f_equal request_id) in Hv. }
  split; try done.
  - cbn. by etrans.
  - intros a Ha. by apply Hsch.
  - intros a Ha. destruct (h7 a Ha) as (n & Hn & Hpos & Hle & Hb). exists n. unfold pass_req in *. cbn.
    rewrite Hid. by rewrite (proj2 (Hsch a Ha)).
  - intros rid Hrid. destruct (h8 rid Hrid) as (a & Ha & He). exists a. split; [done|]. cbn. by rewrite Hid.
  - intros Hnil. destruct (Hpre Hnil) as [Hp0 Hprev]. split; [done|]. intros a Ha. cbn. rewrite Hid, (ev_prev _ _ _ Hev).
    by apply h10.
Qed.

(** Giving [n] tokens to a running request. *)
Lemma int_sum_dset_new d k n : dget k d = None -> int_sum (dvalues (dset (K := string) k n d)) = int_sum (dvalues d) + n.
Proof.
  unfold dvalues. induction d as [|[k' v] d IH]; cbn [dget dset]; [intros _; unfold int_sum; cbn; lia|].
  case_decide; [done|]. intros Hk. rewrite !fmap_cons, !int_sum_cons, IH by done. cbn. lia.
Qed.

Lemma unscheduled_key s0 p a :
  pass_ok s0 p -> a ∈ running (sched p) -> a ∉ scheduled p -> dget (rid_of (sched p) a) (num_scheduled p) = None.
Proof.
  intros Hp Ha Hna. apply dget_None. intros Hin. destruct (po_keys _ _ Hp _ Hin) as (b & Hb & He). apply Hna.
  by rewrite <- (ok_inj _ _ _ _ b a (po_sched _ _ Hp) (ok_running_in _ _ _ (po_sub _ _ Hp _ Hb)) (ok_running_in _ _ _ Ha) He).
Qed.

(** ** Running requests *)

(** The share of a running request is within its own need and the budget. *)
Lemma new_tokens_bounds r budget :
  request_ok len bs r -> 0 < budget ->
  0 <= new_tokens_running cfg r budget <= num_tokens r - num_computed_tokens r /\ new_tokens_running cfg r budget <= budget.
Proof.
  intros [_ [r2 r3] r4 r5 r6 _] Hb. unfold new_tokens_running, num_tokens_with_spec. rewrite r2, r3.
  fold (num_tokens r). change (py_len []) with 0.
  destruct (Z.ltb_spec 0 (long_prefill_token_threshold cfg));
    destruct (Z.ltb_spec (long_prefill_token_threshold cfg) (num_tokens r + 0 + 0 - num_computed_tokens r)); cbn [andb]; lia.
Qed.

Lemma plan_text p a num_computed n :
  mm_features (pass_req p a) = [] ->
  plan_encoder cfg a num_computed n p = Ok (mkEncoderPlan [] n (encoder_budget p) [], p).
Proof. intros Hm. unfold plan_encoder, has_encoder_inputs. by rewrite Hm. Qed.

Lemma commit_text a n b p : commit_encoder a (mkEncoderPlan [] n b []) p = Ok p.
Proof. unfold commit_encoder. cbn. by destruct p. Qed.

(** Invariant of the first loop; [s1] is the scheduler it starts with. *)
Record run_ok s0 s1 p : Prop := {
  rk_pass : pass_ok s0 p;
  rk_start : skipped p = [] /\ scheduled_resumed p = [] /\ scheduled_new p = [];
  rk_index : 0 <= req_index p;
  rk_seen : forall a, a ∈ scheduled_running p -> a ∈ take (Z.to_nat (req_index p)) (running (sched p));
  rk_moves : moves cfg s1 (sched p);
}.

Lemma run_scheduled s0 s1 p : run_ok s0 s1 p -> scheduled p = scheduled_running p.
Proof. intros [_ (_ & h1 & h2) _ _ _]. unfold scheduled. by rewrite h1, h2, !app_nil_r. Qed.

(** The scheduled request joins the plan. *)
Definition give (a n : Z) (b : KVCacheBlocks) p : pass_t :=
  p <| scheduled_running := scheduled_running p ++ [a] |>
    <| req_to_new_blocks := dset (request_id (pass_req p a)) b (req_to_new_blocks p) |>
    <| num_scheduled := dset (request_id (pass_req p a)) n (num_scheduled p) |>
    <| token_budget := token_budget p - n |>
    <| req_index := req_index p + 1 |>.

(** One more request is scheduled. *)
Lemma pass_ok_give s0 p p' a n b :
  pass_ok s0 p -> a ∈ running (sched p) -> a ∉ scheduled p ->
  0 < n <= token_budget p -> num_computed_tokens (pass_req p a) + n <= num_tokens (pass_req p a) ->
  sched p' = sched p -> skipped p' = skipped p -> preempted p' = preempted p -> spec_decode_tokens p' = spec_decode_tokens p ->
  token_budget p' = token_budget p - n ->
  num_scheduled p' = dset (rid_of (sched p) a) n (num_scheduled p) ->
  req_to_new_blocks p' = dset (rid_of (sched p) a) b (req_to_new_blocks p) ->
  scheduled p' ≡ₚ a :: scheduled p ->
  (forall x, x ∈ scheduled_resumed p' -> x ∈ scheduled_resumed p \/
     x = a /\ rid_of (sched p) a ∉ prev_step_scheduled_req_ids (sched p)) ->
  pass_ok s0 p'.
Proof.
  intros Hp Ha Hna Hn Hle e1 e2 e3 e4 e5 e6 e7 Hsch Hres. pose proof (unscheduled_key _ _ _ Hp Ha Hna) as Hkey.
  pose proof Hp as [h1 h2 h3 h4 h5 h6 h7 h8 h9 h10].
  assert (Hother : forall x, x ∈ scheduled p -> rid_of (sched p) x <> rid_of (sched p) a).
  { intros x Hx He. apply Hna. by rewrite <- (ok_inj _ _ _ _ x a h1 (ok_running_in _ _ _ (h6 _ Hx)) (ok_running_in _ _ _ Ha) He). }
  assert (Hin : forall x, x ∈ scheduled p' <-> x = a \/ x ∈ scheduled p) by (intros x; by rewrite Hsch, elem_of_cons).
  split; rewrite ?e1, ?e2, ?e3, ?e5, ?e6; try done.
  - rewrite int_sum_dset_new by done. lia.
  - by apply dict_ok_dset.
  - rewrite Hsch. by constructor.
  - intros x [->|Hx]%Hin; [done | by apply h6].
  - intros x Hx. unfold has_share, pass_req in *. rewrite e1, e6, e7. apply Hin in Hx as [->|Hx].
    + exists n. rewrite !dget_dset_eq. split; [done|]. split; [lia|]. by split.
    + destruct (h7 x Hx) as (m & Hm & Hrest). exists m. rewrite !dget_dset_ne by (by apply Hother). done.
  - intros rid Hrid. apply dget_is_Some in Hrid. rewrite dget_dset in Hrid. case_decide as He.
    + exists a. split; [apply Hin; by left | done].
    + apply dget_is_Some in Hrid. destruct (h8 rid Hrid) as (x & Hx & Hxr). exists x. split; [apply Hin; by right | done].
  - by rewrite e4.
  - intros Hnil. destruct (h10 Hnil) as [Hprev Hr]. split; [done|]. intros x [Hx|[-> Hx]]%Hres; [by apply Hr | done].
Qed.

Lemma elem_of_take_mono (x : Z) i j l : (i <= j)%nat -> x ∈ take i l -> x ∈ take j l.
Proof.
  intros Hij Hx. apply (elem_of_sublist x (take i (take j l))); [apply sublist_take|].
  by rewrite take_take, Nat.min_l by done.
Qed.

Lemma run_ok_index s0 s1 p i : run_ok s0 s1 p -> req_index p <= i -> run_ok s0 s1 (p <| req_index := i |>).
Proof.
  intros [h1 h2 h3 h4 h5] Hi. split; try done; [by destruct h1 | cbn; lia|].
  intros a Ha. eapply elem_of_take_mono; [|by apply h4]. cbn. lia.
Qed.

(** A turn over the request [a], which [pre] comes before. *)
Lemma running_turn_ok s0 s1 p :
  run_ok s0 s1 p -> req_index p < py_len (running (sched p)) -> 0 < token_budget p ->
  exists go p', running_turn use_int_hashes cfg p = Ok (go, p') /\ run_ok s0 s1 p' /\
    (go = true -> req_index p' = req_index p + 1 /\ py_len (running (sched p')) <= py_len (running (sched p))).
Proof.
  intros Hrun Hi Hb. pose proof Hrun as [h1 (h2 & h2r & h2n) h3 h4 h5]. pose proof (po_sched _ _ h1) as Hs.
  set (l := running (sched p)) in *.
  destruct (lookup_lt_is_Some_2 l (Z.to_nat (req_index p))) as [a Ha]; [unfold py_len in Hi; lia|].
  pose proof (take_drop_middle _ _ _ Ha) as Hsplit.
  set (pre := take (Z.to_nat (req_index p)) l) in *. set (post := drop (S (Z.to_nat (req_index p))) l) in *.
  assert (Hain : a ∈ running (sched p)) by (by eapply list_elem_of_lookup_2).
  destruct (ok_find _ _ _ _ _ Hs (ok_running_in _ _ _ Hain)) as [_ Hok].
  assert (Hnd : NoDup l) by (pose proof (so_nodup _ _ _ _ Hs) as Hnd; by apply NoDup_app in Hnd as (? & _)).
  assert (Hpre : a ∉ pre).
  { intros Hin. rewrite <- Hsplit in Hnd. apply NoDup_app in Hnd as (_ & Hd & _). apply (Hd a Hin). by left. }
  assert (Hpost : a ∉ post).
  { rewrite <- Hsplit in Hnd. apply NoDup_app in Hnd as (_ & _ & Hnd). by apply NoDup_cons in Hnd as [? _]. }
  assert (Hlp : Z.of_nat (length pre) = req_index p).
  { unfold pre. rewrite length_take. unfold py_len in Hi. lia. }
  unfold running_turn. fold l. rewrite (py_index_Some l _ a h3 Ha). bind_ok.
  rewrite plan_text by apply Hok. bind_ok. cbn [plan_tokens].
  destruct (new_tokens_bounds (pass_req p a) (token_budget p) Hok Hb) as [Hn Hnb].
  set (n := new_tokens_running cfg (pass_req p a) (token_budget p)) in *.
  destruct (Z.eqb_spec n 0) as [Hz|Hnz].
  { eexists true, _. split; [done|]. split; [apply run_ok_index; [done|lia]|]. intros _. by split. }
  destruct (allocate_or_preempt_ok use_int_hashes cfg bs Hcfg (length l) (skipped p) p pre a post n Hs) as
    (ob & p' & Hal & Hsame & Hs' & Hmv & Hreq & Hpr & Hout); [by rewrite Hsplit| |lia|lia|].
  { rewrite <- Hsplit, length_app. cbn. lia. }
  pose proof (mv_evolves _ _ _ Hmv) as Hev.
  match goal with |- context [allocate_or_preempt use_int_hashes cfg ?k ?x ?m ?q] =>
    change (allocate_or_preempt use_int_hashes cfg k x m q) with (allocate_or_preempt use_int_hashes cfg (length l) a n p) end.
  rewrite Hal. bind_ok.
  assert (Hkeep : forall x, x ∈ pre \/ (x = a /\ is_Some ob) -> req (sched p') x = req (sched p) x).
  { intros x [Hx|[-> Hx]]; [|by apply Hreq; [|by right]].
    apply Hreq; [|left; by intros ->]. intros Hin. rewrite <- Hsplit in Hnd. apply NoDup_app in Hnd as (_ & Hd & _).
    apply (Hd x Hx). by right. }
  assert (Hseen : forall x, x ∈ scheduled p -> x ∈ pre) by (intros x; rewrite (run_scheduled _ _ _ Hrun); apply h4).
  assert (Hprefix : exists post', running (sched p') = pre ++ post' /\ pre ++ post' `prefix_of` l /\ (is_Some ob -> exists q, post' = a :: q)).
  { destruct ob as [b|].
    - destruct Hout as (q & Hq & Hr). exists (a :: q). split; [done|]. split; [|by exists q].
      rewrite <- Hsplit. apply prefix_app, prefix_cons. done.
    - exists []. rewrite app_nil_r. split; [done|]. split; [|by intros [? [=]]]. rewrite <- Hsplit. by apply prefix_app_r. }
  destruct Hprefix as (post' & Hr' & Hpf & Hsome).
  assert (Hp' : pass_ok s0 p').
  { eapply pass_ok_sched; [exact h1 | exact Hsame | done | done | |].
    - intros x Hx. apply Hseen in Hx. split; [rewrite Hr'; apply elem_of_app; by left | apply Hkeep; by left].
    - intros Hnil. destruct (Hpr Hnil) as [Hp0 Hw]. split; [done|]. destruct (po_prev _ _ h1 Hp0) as [Hprev _].
      intros x Hx Hst. rewrite Hw in Hx. assert (Hxr : x ∉ l).
      { intros Hin. pose proof (so_nodup _ _ _ _ Hs) as Hnd'. apply NoDup_app in Hnd' as (_ & Hd & _). by apply (Hd x Hin). }
      assert (Hxe : req (sched p') x = req (sched p) x).
      { apply Hreq; [|left; by intros ->]. intros Hin. apply Hxr. rewrite <- Hsplit. apply elem_of_app. right. by right. }
      unfold rid_of. rewrite Hxe, (ev_prev _ _ _ Hev) in *. by apply Hprev. }
  assert (Hfields : skipped p' = [] /\ scheduled_resumed p' = [] /\ scheduled_new p' = []) by (by rewrite Hsame).
  assert (Hfs : scheduled_running p' = scheduled_running p) by (by rewrite Hsame).
  assert (Hfi : req_index p' = req_index p) by (by rewrite Hsame).
  assert (Hrun' : run_ok s0 s1 p').
  { split; [done| | | |]; rewrite ?Hfi; try done.
    - intros x Hx. rewrite Hr', take_app_length' by lia. apply Hseen. rewrite (run_scheduled _ _ _ Hrun). by rewrite <- Hfs.
    - etrans; [exact h5 | exact Hmv]. }
  destruct ob as [b|]; [|by eexists false, p'].
  destruct (Hsome ltac:(by eexists)) as [q ->].
  assert (Hreqa : req (sched p') a = req (sched p) a) by (apply Hkeep; right; by split).
  assert (Hina : a ∈ running (sched p')) by (rewrite Hr'; apply elem_of_app; right; by left).
  assert (Hg : run_ok s0 s1 (give a n b p')).
  { pose proof Hrun' as [k1 (k2 & k2r & k2n) k3 k4 k5]. split.
    - apply (pass_ok_give s0 p' _ a n b); try done.
      + intros Hin. rewrite (run_scheduled _ _ _ Hrun') in Hin. apply k4 in Hin. rewrite Hr', Hfi, take_app_length' in Hin by lia.
        by apply Hpre.
      + assert (token_budget p' = token_budget p) as -> by (by rewrite Hsame). lia.
      + unfold pass_req. rewrite Hreqa. fold (pass_req p a). lia.
      + rewrite (run_scheduled _ _ _ Hrun'). unfold scheduled. cbn. rewrite k2r, k2n, !app_nil_r.
        apply Permutation_sym, Permutation_cons_append.
      + intros x Hx. by left.
    - done.
    - cbn. lia.
    - cbn. intros x [Hx| ->%list_elem_of_singleton]%elem_of_app.
      + eapply elem_of_take_mono; [|by apply k4]. lia.
      + rewrite Hr', Hfi, Z2Nat.inj_add, <- Hlp, Nat2Z.id by lia. rewrite take_app_ge by lia.
        replace (length pre + Z.to_nat 1 - length pre)%nat with 1%nat by lia. apply elem_of_app. right. cbn. by left.
    - done. }
  assert (Hspec : forall p2 : pass_t, pass_req p2 a = pass_req p a -> schedule_spec a n p2 = p2).
  { intros p2 Hp2. unfold schedule_spec. rewrite Hp2. unfold pass_req. by rewrite (proj1 (ro_nodraft _ _ _ Hok)). }
  fold (give a n b p'). rewrite Hspec by exact Hreqa. rewrite commit_text. bind_ok.
  eexists true, _. split; [done|]. split; [exact Hg|]. intros _. cbn. rewrite Hfi, Hr'. split; [done|].
  unfold py_len. apply prefix_length in Hpf. lia.
Qed.

(** The loop ends for want of budget or of requests, or because nothing could
    make room; the number of running requests is fuel enough. *)
Lemma running_loop_ok s0 s1 fuel : forall p,
  run_ok s0 s1 p -> py_len (running (sched p)) - req_index p <= Z.of_nat fuel ->
  exists p', running_loop use_int_hashes cfg fuel p = Ok p' /\ run_ok s0 s1 p'.
Proof.
  induction fuel as [|fuel IH]; intros p Hp Hf; cbn [running_loop]; [by exists p|].
  destruct (Z.ltb_spec (req_index p) (py_len (running (sched p)))); cbn [andb]; [|by exists p].
  destruct (Z.ltb_spec 0 (token_budget p)); [|by exists p].
  destruct (running_turn_ok s0 s1 p Hp) as ([] & p' & Hr & Hp' & Hgo); [done|done| |]; rewrite Hr; bind_ok.
  - destruct (Hgo eq_refl). apply IH; [done|lia].
  - by exists p'.
Qed.
End Passes.

(** * Scheduling waiting requests

    The second loop of [schedule]: requests are set aside, refused or admitted,
    each turn keeping the invariant of the pass. *)

Section Waiting.
Context {C E M : Type} `{KVConnector C, ECConnector E, StructuredOutput M}.
Context (use_int_hashes : bool) (cfg : SchedulerConfig) (bs : Z).
Context (Hcfg : config_text cfg).

Abbreviation sched_t := (Scheduler FCFSRequestQueue C E M).
Abbreviation pass_t := (Pass FCFSRequestQueue C E M).
Abbreviation len := (sched_max_model_len cfg).
Abbreviation sched_ok := (sched_ok cfg bs).
Abbreviation evolves := (evolves cfg).
Abbreviation pass_ok := (pass_ok cfg bs).
Implicit Types (s : sched_t) (p : pass_t).

(** ** Setting aside *)

Lemma ok_skip s aside a q :
  sched_ok s aside -> waiting s = a :: q -> sched_ok (s <| waiting := q |>) (a :: aside).
Proof.
  intros [h1 h2 h3 h4 h5 h6 h7 h8 h9 h10 h11] Hw.
  assert (Hperm : running s ++ waiting s ++ aside ≡ₚ running s ++ q ++ a :: aside).
  { rewrite Hw. cbn. by rewrite Permutation_middle. }
  assert (Hperm2 : waiting s ++ aside ≡ₚ q ++ a :: aside) by (rewrite Hw; apply Permutation_middle).
  split; try done.
  - change (NoDup (running s ++ q ++ a :: aside)). by rewrite <- Hperm.
  - intros b. change (b ∈ running s ++ q ++ a :: aside <-> b ∈ dvalues (requests s)). rewrite <- Hperm. apply h5.
  - intros b Hb. change (b ∈ q ++ a :: aside) in Hb. rewrite <- Hperm2 in Hb. by apply h8.
Qed.

Lemma skip_ok s0 p a q :
  pass_ok s0 p -> preempted p = [] -> waiting (sched p) = a :: q ->
  exists p', skip_request a p = Ok p' /\ pass_ok s0 p' /\ preempted p' = [] /\
    waiting (sched p') = q /\ running (sched p') = running (sched p) /\ requests (sched p') = requests (sched p).
Proof.
  intros [h1 h2 h3 h4 h5 h6 h7 h8 h9 h10] Hnil Hw. unfold skip_request. cbn. rewrite Hw. cbn.
  eexists. split; [reflexivity|]. split; [|done]. split; try done.
  - by apply ok_skip.
  - by etrans; [|apply evolves_fields].
  - intros _. destruct (h10 Hnil) as [Hprev Hres]. split; [|done]. intros b Hb Hst. apply Hprev; [|done].
    change (b ∈ q ++ a :: skipped p) in Hb. rewrite Hw. by rewrite <- Permutation_middle in Hb.
Qed.

(** ** Readiness *)

(** The head of the queue changes its status at most. *)
Lemma ready_ok s0 p a q :
  pass_ok s0 p -> preempted p = [] -> waiting (sched p) = a :: q ->
  exists ok p', ready use_int_hashes cfg a p = Ok (ok, p') /\ pass_ok s0 p' /\ preempted p' = [] /\
    waiting (sched p') = a :: q /\ running (sched p') = running (sched p) /\
    requests (sched p') = requests (sched p) /\ p' = p <| sched := sched p' |> /\
    (ok = true -> status (req (sched p') a) = WAITING \/ status (req (sched p') a) = PREEMPTED).
Proof.
  intros Hp Hnil Hw. pose proof (po_sched _ _ _ _ Hp) as Hs.
  assert (Haw : a ∈ waiting (sched p) ++ skipped p) by (rewrite Hw; left).
  assert (Hin : a ∈ running (sched p) ++ waiting (sched p) ++ skipped p) by (apply elem_of_app; by right).
  destruct (so_waiting _ _ _ _ Hs a Haw) as (Hst & Hc & Hfr). destruct (ok_find _ _ _ _ _ Hs Hin) as [_ Hok].
  assert (Hlora : forall r p, exceeds_loras cfg r p = false).
  { intros r p0. unfold exceeds_loras. by rewrite (ct_loras _ Hcfg). }
  change (req (sched p) a) with (pass_req p a) in Hst. unfold ready. cbn zeta.
  rewrite bool_decide_eq_false_2 by (by destruct Hst as [->|[->| ->]]). bind_ok. cbn [negb]. case_bool_decide as Hfsm.
  2:{ eexists _, p. rewrite Hlora. split; [reflexivity|]. split; [done|]. split; [done|]. split; [done|]. split; [done|].
      split; [done|]. split; [by destruct p|]. intros _. destruct Hst as [?|[?|?]]; [by left | done | by right]. }
  destruct (som_grammar_ready (pass_req p a) (structured_output_manager (sched p))) as [compiled m].
  set (s1 := sched p <| structured_output_manager := m |>).
  assert (Hs1 : sched_ok s1 (skipped p)) by (by eapply ok_same).
  assert (Hp1 : pass_ok s0 (p <| sched := s1 |>)).
  { eapply pass_ok_sched; [exact Hp | by destruct p | done | by apply evolves_fields | |].
    - intros x Hx. split; [by apply (po_sub _ _ _ _ Hp) | done].
    - intros _. split; [done|]. by apply (po_prev _ _ _ _ Hp). }
  destruct (use_structured_output (pass_req p a) && compiled).
  - set (f := fun r => r <| status := WAITING |>). set (s2 := update_req a f s1).
    assert (Hfa : req s2 a = f (req s1 a)) by exact (req_update_eq cfg bs s1 a f Hok).
    assert (Hs2 : sched_ok s2 (skipped p)).
    { apply ok_with_req; try done.
      - destruct Hok as [r1 r2 r3 r4 r5 r6]. by split.
      - intros Hrun. exfalso. pose proof (so_nodup _ _ _ _ Hs) as Hnd. apply NoDup_app in Hnd as (_ & Hd & _). by apply (Hd a Hrun).
      - intros _. split; [by left | done]. }
    eexists _, (p <| sched := s2 |>). rewrite Hlora. split; [reflexivity|]. split; [|split; [done|]].
    + eapply (pass_ok_sched _ _ _ (p <| sched := s1 |>)); [exact Hp1 | by destruct p | done | | |].
      * apply evolves_update. intros r. done.
      * intros x Hx. split; [by apply (po_sub _ _ _ _ Hp)|]. apply req_update_ne. intros ->.
        pose proof (so_nodup _ _ _ _ Hs) as Hnd. apply NoDup_app in Hnd as (_ & Hd & _).
        apply (Hd x); [by apply (po_sub _ _ _ _ Hp) | done].
      * intros _. split; [done|]. intros b Hb Hstb. change (status (req s2 b) = PREEMPTED) in Hstb.
        change (rid_of s2 b ∉ prev_step_scheduled_req_ids (sched p)). destruct (decide (b = a)) as [->|Hne].
        -- rewrite Hfa in Hstb. done.
        -- assert (Hb' : req s2 b = req (sched p) b) by (apply (req_update_ne s1); congruence).
           unfold rid_of. rewrite Hb' in Hstb |- *.
           by apply (proj1 (po_prev _ _ _ _ Hp Hnil) b).
    + split; [done|]. split; [done|]. split; [done|]. split; [by destruct p|]. intros _. left. change (status (req s2 a) = WAITING). by rewrite Hfa.
  - eexists _, (p <| sched := s1 |>). rewrite Hlora. split; [reflexivity|]. split; [done|]. split; [done|]. split; [done|].
    split; [done|]. split; [done|]. split; [by destruct p|]. done.
Qed.

(** ** Admission *)

(** The head of the queue joins the running requests with its blocks. *)
Lemma ok_admit s aside a q k' f :
  sched_ok s aside -> waiting s = a :: q -> kv_good len bs k' -> kv_frame (rid_of s a) (kv_cache_manager s) k' ->
  request_id (f (req s a)) = rid_of s a -> request_ok len bs (f (req s a)) -> status (f (req s a)) = RUNNING ->
  py_len (running s) < max_num_running_reqs cfg ->
  sched_ok (update_req a f (s <| kv_cache_manager := k' |> <| waiting := q |> <| running := running s ++ [a] |>)) aside.
Proof.
  intros Hs Hw Hk Hfr Hid Hok Hst Hlt.
  assert (Ha : a ∈ running s ++ waiting s ++ aside) by (rewrite Hw, !elem_of_app, elem_of_cons; tauto).
  destruct (ok_find _ _ _ _ _ Hs Ha) as [Hfa Hra]. pose proof Hs as [h1 h2 h3 h4 h5 h6 h7 h8 h9 h10 h11].
  assert (Hperm : running s ++ waiting s ++ aside ≡ₚ (running s ++ [a]) ++ q ++ aside) by (rewrite Hw, <- app_assoc; done).
  pose proof h3 as Hnd. rewrite Hperm, <- app_assoc in Hnd. apply NoDup_app in Hnd as (_ & Hd1 & Hnd).
  cbn in Hnd. apply NoDup_cons in Hnd as [Hna _].
  set (s' := update_req _ _ _).
  assert (Hreq : forall b, req s' b = if decide (a = b) then f (req s a) else req s b).
  { intros b. unfold s'. rewrite req_update. change (store (s <| kv_cache_manager := k' |> <| waiting := q |> <| running := running s ++ [a] |>)) with (store s).
    case_decide as Hab; [subst b|done]. by rewrite (ok_stored _ _ _ _ Hra). }
  assert (Hrid : forall b, rid_of s' b = rid_of s b).
  { intros b. unfold rid_of. rewrite Hreq. case_decide as Hab; [by subst b | done]. }
  split.
  - done.
  - done.
  - change (NoDup ((running s ++ [a]) ++ q ++ aside)). by rewrite <- Hperm.
  - done.
  - intros b. change (b ∈ (running s ++ [a]) ++ q ++ aside <-> b ∈ dvalues (requests s)). rewrite <- Hperm. apply h5.
  - intros rid b Hb. rewrite Hrid, Hreq. change (find_request rid s = Some b) in Hb. destruct (h6 rid b Hb).
    case_decide; [by subst b|done].
  - intros b Hb. rewrite Hreq. case_decide as Hab; [by subst b|]. apply h7.
    change (b ∈ running s ++ [a]) in Hb. apply elem_of_app in Hb as [Hb| ->%list_elem_of_singleton]; done.
  - intros b Hb. change (b ∈ q ++ aside) in Hb. rewrite Hrid, Hreq. assert (Hne : a <> b) by (by intros ->).
    rewrite decide_False by done. assert (Hbw : b ∈ waiting s ++ aside) by (rewrite Hw; by right).
    destruct (h8 b Hbw) as (w1 & w2 & w3). split; [done|]. split; [done|]. change (kv_fresh k' (rid_of s b)).
    eapply kv_frame_fresh; [exact Hfr | | done]. intros He. apply Hne. symmetry. eapply (ok_inj _ _ s aside); try done.
    apply elem_of_app. by right.
  - intros rid Hrid'. change (find_request rid s = None) in Hrid'. change (kv_fresh k' rid).
    eapply kv_frame_fresh; [exact Hfr| |by apply h9]. intros ->. congruence.
  - change (py_len (running s ++ [a]) <= max_num_running_reqs cfg). unfold py_len in *. rewrite length_app. cbn. lia.
  - change (log_stats k' = log_sched_stats cfg). by rewrite (kf_log _ _ _ Hfr).
Qed.

(** The fields that [start_running] writes into the request. *)
Definition admitted (p : pass_t) (nc : Z) (r : Request) : Request :=
  let r := if log_sched_stats cfg then record_event SCHEDULED (timestamp p) r else r in
  r <| status := RUNNING |> <| num_computed_tokens := nc |>
    <| num_cached_tokens := if num_cached_tokens r <? 0 then nc else num_cached_tokens r |>.

Lemma alter_compose_eq {A} (f g : A -> A) (k : Z) (m : gmap Z A) : alter f k (alter g k m) = alter (fun x => f (g x)) k m.
Proof.
  apply map_eq. intros i. destruct (decide (k = i)) as [->|Hne].
  - rewrite !lookup_alter_eq. by destruct (m !! i).
  - by rewrite !lookup_alter_ne.
Qed.

Lemma admit_shape p a q b nc n :
  let r := pass_req p a in
  mm_features r = [] -> (status r = WAITING \/ status r = PREEMPTED) -> max_loras cfg = None ->
  store (sched p) !! a = Some r ->
  let s' := update_req a (admitted p nc) (sched p <| waiting := q |> <| running := running (sched p) ++ [a] |>) in
  exists p', start_running cfg a (mkComputed b nc 0 false nc) (mkEncoderPlan [] n (encoder_budget p) [])
      (p <| sched := sched p <| waiting := q |> |>) = Ok p' /\ sched p' = s' /\
    skipped p' = skipped p /\ preempted p' = preempted p /\ spec_decode_tokens p' = spec_decode_tokens p /\
    token_budget p' = token_budget p - n /\ num_scheduled p' = dset (request_id r) n (num_scheduled p) /\
    (exists bl, req_to_new_blocks p' = dset (request_id r) bl (req_to_new_blocks p)) /\
    scheduled_running p' = scheduled_running p /\
    ((status r = WAITING /\ scheduled_new p' = scheduled_new p ++ [a] /\ scheduled_resumed p' = scheduled_resumed p) \/
     (status r = PREEMPTED /\ scheduled_new p' = scheduled_new p /\ scheduled_resumed p' = scheduled_resumed p ++ [a])).
Proof.
  intros r Hm Hst Hlora Hstore s'. unfold start_running.
  set (p1 := on_sched _ _). cbn beta zeta in p1.
  assert (Hr1 : request_id (pass_req p1 a) = request_id r /\ status (pass_req p1 a) = status r /\ mm_features (pass_req p1 a) = []).
  { unfold p1, pass_req, on_sched. cbn [sched]. destruct (log_sched_stats cfg).
    - unfold req, update_req. cbn. rewrite lookup_alter_eq, Hstore. done.
    - done. }
  destruct Hr1 as (Hid & Hs1 & Hm1). cbn zeta. rewrite Hs1, Hid, Hlora.
  assert (Hfin : forall p2 : pass_t, sched p2 = sched p1 ->
    sched (on_sched (update_req a (fun r => r <| status := RUNNING |> <| num_computed_tokens := nc |>
      <| num_cached_tokens := if num_cached_tokens r <? 0 then nc else num_cached_tokens r |>)) p2) = s').
  { intros p2 Hp2. unfold on_sched. cbn [sched]. rewrite Hp2. unfold p1, on_sched, s', admitted. cbn [sched].
    destruct (log_sched_stats cfg); [|done]. unfold update_req. cbn. by rewrite alter_compose_eq. }
  destruct Hst as [Hst|Hst]; rewrite Hst; bind_ok; cbn [computed_tokens]; rewrite commit_text; eexists; (split; [reflexivity|]);
    (split; [by apply Hfin|]); repeat (split; [reflexivity|]); (split; [by eexists|]); (split; [reflexivity|]).
  - left. done.
  - right. done.
Qed.

Lemma elem_of_weaken_eq {A} {l l' : list A} {x : A} : l' = l -> x ∈ l -> x ∈ l'.
Proof. by intros ->. Qed.

(** Admission keeps the pass; [p] is the pass after the allocation. *)
Lemma admit_ok s0 p a q k' b nc n :
  pass_ok s0 p -> preempted p = [] -> waiting (sched p) = a :: q ->
  (status (req (sched p) a) = WAITING \/ status (req (sched p) a) = PREEMPTED) ->
  kv_good len bs k' -> kv_frame (rid_of (sched p) a) (kv_cache_manager (sched p)) k' ->
  py_len (running (sched p)) < max_num_running_reqs cfg -> 0 <= nc -> 0 < n <= token_budget p ->
  nc + n <= num_tokens (pass_req p a) ->
  exists p', start_running cfg a (mkComputed b nc 0 false nc) (mkEncoderPlan [] n (encoder_budget p) [])
      (p <| sched := sched p <| kv_cache_manager := k' |> <| waiting := q |> |>) = Ok p' /\
    pass_ok s0 p' /\ preempted p' = [] /\ waiting (sched p') = q /\ running (sched p') = running (sched p) ++ [a] /\
    requests (sched p') = requests (sched p).
Proof.
  intros Hp Hnil Hw Hst Hk Hfr Hlt Hnc Hn Hle. pose proof (po_sched _ _ _ _ Hp) as Hs.
  assert (Haw : a ∈ waiting (sched p) ++ skipped p) by (rewrite Hw; left).
  assert (Hin : a ∈ running (sched p) ++ waiting (sched p) ++ skipped p) by (apply elem_of_app; by right).
  destruct (ok_find _ _ _ _ _ Hs Hin) as [_ Hok]. pose proof (ok_stored _ _ _ _ Hok) as Hstored.
  assert (Hnrun : a ∉ running (sched p)).
  { intros Hrun. pose proof (so_nodup _ _ _ _ Hs) as Hnd. apply NoDup_app in Hnd as (_ & Hd & _). by apply (Hd a Hrun). }
  set (p0 := p <| sched := sched p <| kv_cache_manager := k' |> |>).
  destruct (admit_shape p0 a q b nc n) as (p' & Hrun & e1 & e2 & e3 & e4 & e5 & e6 & (bl & e7) & e8 & e9);
    [apply Hok | exact Hst | apply Hcfg | exact Hstored|].
  exists p'. split; [exact Hrun|]. change (pass_req p0 a) with (pass_req p a) in *.
  set (f := admitted p0 nc) in *.
  assert (Hf : request_id (f (req (sched p) a)) = rid_of (sched p) a /\ request_ok len bs (f (req (sched p) a)) /\
    status (f (req (sched p) a)) = RUNNING /\ num_computed_tokens (f (req (sched p) a)) = nc /\
    num_tokens (f (req (sched p) a)) = num_tokens (req (sched p) a)).
  { destruct Hok as [r1 [r2 r3] r4 r5 r6 r7]. unfold f, admitted. destruct (log_sched_stats cfg); (split; [done|]);
      (split; [|done]); split; try done; cbn; unfold num_tokens, pass_req in *; cbn; lia. }
  destruct Hf as (f1 & f2 & f3 & f4 & f5).
  assert (Hs' : sched_ok (sched p') (skipped p)).
  { rewrite e1. exact (ok_admit (sched p) (skipped p) a q k' f Hs Hw Hk Hfr f1 f2 f3 Hlt). }
  assert (Hother : forall x, x <> a -> req (sched p') x = req (sched p) x).
  { intros x Hx. rewrite e1. exact (req_update_ne (sched p0 <| waiting := q |> <| running := running (sched p0) ++ [a] |>) a x f (not_eq_sym Hx)). }
  assert (Ha' : req (sched p') a = f (req (sched p) a)).
  { rewrite e1, req_update, decide_True by done.
    change (store (sched p0 <| waiting := q |> <| running := running (sched p0) ++ [a] |>)) with (store (sched p)). by rewrite Hstored. }
  assert (Hev : evolves (sched p) (sched p')).
  { rewrite e1. etrans; [|apply evolves_update].
    - by apply evolves_fields.
    - intros r. unfold f, admitted. by destruct (log_sched_stats cfg). }
  assert (Hr' : running (sched p') = running (sched p) ++ [a]) by (by rewrite e1).
  set (p1 := p <| sched := sched p' |>).
  assert (Hp1 : pass_ok s0 p1).
  { eapply (pass_ok_sched _ _ s0 p p1 Hp); [by destruct p | done | done | |].
    - intros x Hx. pose proof (po_sub _ _ _ _ Hp x Hx) as Hxr. split.
      { change (x ∈ running (sched p')). apply (elem_of_weaken_eq Hr'). apply elem_of_app. by left. }
      apply Hother. by intros ->.
    - intros _. split; [done|]. intros x Hx Hsx. destruct (decide (x = a)) as [->|Hne].
      + change (status (req (sched p') a) = PREEMPTED) in Hsx. rewrite Ha', f3 in Hsx. done.
      + change (status (req (sched p') x) = PREEMPTED) in Hsx.
        change (rid_of (sched p') x ∉ prev_step_scheduled_req_ids (sched p')). unfold rid_of.
        rewrite Hother in Hsx |- * by done. rewrite (ev_prev _ _ _ Hev). apply (proj1 (po_prev _ _ _ _ Hp Hnil)); [|done].
        assert (Hwq : waiting (sched p') = q) by (by rewrite e1).
        change (x ∈ waiting (sched p') ++ skipped p) in Hx. rewrite Hwq in Hx. rewrite Hw. by right. }
  split; [|split; [by rewrite e3 | split; [by rewrite e1 | split; [done | by rewrite e1]]]].
  apply (pass_ok_give _ _ s0 p1 p' a n bl Hp1); try done.
  - apply (elem_of_weaken_eq Hr'), elem_of_app. right. by left.
  - intros Hsch. change (a ∈ scheduled p) in Hsch. by apply Hnrun, (po_sub _ _ _ _ Hp).
  - change (num_computed_tokens (req (sched p') a) + n <= num_tokens (req (sched p') a)). rewrite Ha', f4, f5. exact Hle.
  - change (rid_of (sched p1) a) with (request_id (req (sched p') a)). rewrite Ha', f1. exact e6.
  - change (rid_of (sched p1) a) with (request_id (req (sched p') a)). rewrite Ha', f1. exact e7.
  - unfold scheduled. change (scheduled_running p1) with (scheduled_running p). rewrite e8.
    change (scheduled_running p0) with (scheduled_running p).
    destruct e9 as [(_ & -> & ->)|(_ & -> & ->)];
      change (scheduled_new p0) with (scheduled_new p1); change (scheduled_resumed p0) with (scheduled_resumed p1).
    + rewrite !app_assoc. apply Permutation_sym, Permutation_cons_append.
    + rewrite <- !app_assoc. cbn. symmetry. rewrite !app_assoc. apply Permutation_middle.
  - intros x Hx. destruct e9 as [(_ & _ & Hres)|(Hpre & _ & Hres)]; rewrite Hres in Hx; [by left|].
    apply elem_of_app in Hx as [Hx| ->%list_elem_of_singleton]; [by left|]. right. split; [done|].
    change (rid_of (sched p1) a) with (request_id (req (sched p') a)). rewrite Ha', f1.
    change (prev_step_scheduled_req_ids (sched p1)) with (prev_step_scheduled_req_ids (sched p')). rewrite (ev_prev _ _ _ Hev).
    by apply (proj1 (po_prev _ _ _ _ Hp Hnil)).
Qed.

(** ** A turn *)

Lemma waiting_turn_ok s0 p a q :
  pass_ok s0 p -> preempted p = [] -> waiting (sched p) = a :: q -> 0 < token_budget p ->
  exists go p', waiting_turn use_int_hashes cfg p = Ok (go, p') /\ pass_ok s0 p' /\ preempted p' = [] /\
    running (sched p) `prefix_of` running (sched p') /\ requests (sched p') = requests (sched p) /\
    (go = true -> waiting (sched p') = q).
Proof.
  intros Hp Hnil Hw Hb. unfold waiting_turn.
  destruct (Z.eqb_spec (py_len (running (sched p))) (max_num_running_reqs cfg)) as [Heq|Hne]; [by eexists false, p|].
  pose proof (so_limit _ _ _ _ (po_sched _ _ _ _ Hp)) as Hlim. cbn [peek_request fcfs_queue]. rewrite Hw. cbn [fcfs_pop]. bind_ok.
  destruct (ready_ok s0 p a q Hp Hnil Hw) as (ok & p1 & Hready & Hp1 & Hnil1 & Hw1 & Hr1 & Hq1 & Hsame1 & Hst1).
  rewrite Hready. bind_ok.
  assert (Hskip : forall p2, pass_ok s0 p2 -> preempted p2 = [] -> waiting (sched p2) = a :: q -> running (sched p2) = running (sched p) ->
    requests (sched p2) = requests (sched p) ->
    exists go p', (p ← skip_request a p2; Ok (true, p)) = Ok (go, p') /\ pass_ok s0 p' /\ preempted p' = [] /\
      running (sched p) `prefix_of` running (sched p') /\ requests (sched p') = requests (sched p) /\
      (go = true -> waiting (sched p') = q)).
  { intros p2 Hp2 Hnil2 Hw2 Hr2 Hq2. destruct (skip_ok s0 p2 a q Hp2 Hnil2 Hw2) as (p3 & -> & Hp3 & Hnil3 & Hw3 & Hr3 & Hq3). bind_ok.
    exists true, p3. rewrite Hr3, Hr2, Hq3, Hq2. done. }
  destruct ok; cbn [negb]; [|by apply Hskip].
  pose proof (po_sched _ _ _ _ Hp1) as Hs1.
  assert (Haw : a ∈ waiting (sched p1) ++ skipped p1) by (rewrite Hw1; left).
  assert (Hin : a ∈ running (sched p1) ++ waiting (sched p1) ++ skipped p1) by (apply elem_of_app; by right).
  destruct (so_waiting _ _ _ _ Hs1 a Haw) as (_ & Hc & Hfr). destruct (ok_find _ _ _ _ _ Hs1 Hin) as [_ Hok].
  pose proof Hok as [r1 _ r4 _ _ [r6 r7]].
  destruct (admit_waiting use_int_hashes len bs (kv_cache_manager (sched p1)) (req (sched p1) a)) as
    (b & nc & k1 & Hget & Hnc & Hg1 & Hf1 & Hco & Halloc); [apply Hs1 | done | done | lia | done | done|].
  unfold already_computed, pass_req. rewrite Hc, Z.eqb_refl, Hget. bind_ok.
  set (p2 := on_sched (fun s => s <| kv_cache_manager := k1 |>) p1).
  change (connector (sched p2)) with (connector (sched p1)). rewrite (proj1 (so_plain _ _ _ _ Hs1)).
  assert (Hs2 : sched_ok (sched p2) (skipped p2)).
  { apply (ok_with_kv _ _ _ _ a); try done. intros _. unfold kv_fresh, managers. rewrite Hco. exact Hfr. }
  assert (Hp2 : pass_ok s0 p2).
  { eapply (pass_ok_sched _ _ s0 p1 p2 Hp1); [by destruct p1 | done | by apply evolves_fields | |].
    - intros x Hx. split; [by apply (po_sub _ _ _ _ Hp1) | done].
    - intros _. split; [done|]. by apply (po_prev _ _ _ _ Hp1). }
  unfold waiting_share. cbn [load_async computed_tokens]. change (pass_req p2 a) with (req (sched p1) a).
  assert (Hb2 : token_budget p2 = token_budget p) by (change (token_budget p2) with (token_budget p1); by rewrite Hsame1).
  rewrite Hb2. set (n0 := num_tokens (req (sched p1) a) - nc).
  set (n1 := if _ && _ then long_prefill_token_threshold cfg else n0).
  assert (Hn1 : 0 < n1 <= n0).
  { unfold n1. destruct (Z.ltb_spec 0 (long_prefill_token_threshold cfg)), (Z.ltb_spec (long_prefill_token_threshold cfg) n0);
      cbn [andb]; unfold n0 in *; lia. }
  destruct (negb (chunked_prefill_enabled cfg) && (token_budget p <? n1)); [bind_ok; by apply Hskip|].
  assert (Hmin : (0 <? Z.min n1 (token_budget p)) = true) by lia. rewrite Hmin. cbn [py_assert]. bind_ok.
  rewrite plan_text by exact r1. bind_ok. unfold has_encoder_inputs. rewrite r1. change (0 <? py_len []) with false. cbn [andb].
  set (n := Z.min n1 (token_budget p)) in *. unfold allocate_waiting, kv_update. change (pass_req p2 a) with (req (sched p1) a).
  rewrite Hc, Z.eqb_refl. unfold has_encoder_inputs. rewrite r1. change (0 <? py_len []) with false. rewrite andb_false_r.
  cbn [plan_tokens external_tokens local_tokens new_computed_blocks load_async]. rewrite Z.add_0_r.
  destruct (Halloc n) as (res & k2 & Hal & Hg2 & Hf2 & Hn2); [unfold n, n0 in *; lia|].
  change (kv_cache_manager (sched p2)) with k1. rewrite Hal. bind_ok. destruct res as [blocks|].
  - set (s2 := sched p2 <| kv_cache_manager := k2 |>). unfold notify_connector.
    change (connector (sched (p2 <| sched := s2 |>))) with (connector (sched p1)). rewrite (proj1 (so_plain _ _ _ _ Hs1)). bind_ok.
    change (sched (p2 <| sched := s2 |>)) with s2. change (waiting s2) with (waiting (sched p1)). rewrite Hw1. cbn [pop_request fcfs_queue fcfs_pop]. bind_ok.
    destruct (admit_ok s0 p2 a q k2 b nc n Hp2 Hnil1 Hw1 (Hst1 eq_refl) Hg2 Hf2) as (p' & Hrun & Hp' & Hnil' & Hw' & Hr' & Hq').
    + change (running (sched p2)) with (running (sched p1)). rewrite Hr1. lia.
    + lia.
    + rewrite Hb2. unfold n. lia.
    + change (pass_req p2 a) with (req (sched p1) a). unfold n, n0 in *. lia.
    + change (running (sched p2)) with (running (sched p1)) in Hr'. rewrite Hr1 in Hr'.
      exists true, p'. split; [|split; [done|split; [done|split; [rewrite Hr'; by apply prefix_app_r|]]]].
      2:{ split; [|done]. rewrite <- Hq1. exact Hq'. }
      match goal with |- context [start_running ?c ?a ?x ?y ?z] => replace (start_running c a x y z) with (Ok p') end. done.
  - eexists false, _. split; [reflexivity|]. split; [|split; [done|split; [|by split]]].
    + eapply (pass_ok_sched _ _ s0 p2 _ Hp2); [by destruct p1 | | by apply evolves_fields | |].
      * apply (ok_with_kv _ _ _ _ a); try done. intros _. by apply Hn2.
      * intros x Hx. split; [by apply (po_sub _ _ _ _ Hp2) | done].
      * intros _. split; [done|]. by apply (po_prev _ _ _ _ Hp2).
    + change (running (sched p) `prefix_of` running (sched p1)). by rewrite Hr1.
Qed.

(** The loop ends when the queue is empty, the budget is spent or no request
    can join; the length of the queue is fuel enough. *)
Lemma waiting_loop_ok s0 fuel : forall p,
  pass_ok s0 p -> preempted p = [] -> py_len (waiting (sched p)) <= Z.of_nat fuel ->
  exists p', waiting_loop use_int_hashes cfg fuel p = Ok p' /\ pass_ok s0 p' /\ preempted p' = [] /\
    running (sched p) `prefix_of` running (sched p') /\ requests (sched p') = requests (sched p).
Proof.
  induction fuel as [|fuel IH]; intros p Hp Hnil Hf; cbn [waiting_loop]; [by exists p|].
  unfold rq_nonempty. cbn [rq_len fcfs_queue]. destruct (waiting (sched p)) as [|a q] eqn:Hw; [by exists p|].
  destruct (Z.ltb_spec 0 (py_len (a :: q))); cbn [andb]; [|by exists p].
  destruct (Z.ltb_spec 0 (token_budget p)); [|by exists p].
  destruct (waiting_turn_ok s0 p a q Hp Hnil Hw) as ([] & p' & Hr & Hp' & Hnil' & Hpf & Hq' & Hgo); [done| |]; rewrite Hr; bind_ok.
  - destruct (IH p' Hp' Hnil') as (p2 & -> & Hp2 & Hnil2 & Hpf2 & Hq2); [rewrite (Hgo eq_refl); unfold py_len in *; cbn in *; lia|].
    exists p2. split; [done|]. split; [done|]. split; [done|]. split; [by etrans | by rewrite Hq2].
  - by exists p'.
Qed.
End Waiting.
