(* ===== verification/SchedulerSafe.v ===== *)
(** * A scheduling step

    The whole of [schedule] for text requests: it starts from the scheduler's
    invariant, runs the two passes, puts back what was set aside, and its
    output accounts for every request. *)

From S2P Require Import Prelude PyDict PyList PyInt KVSpec PyStr PyFloat Request BlockPool.
From S2P Require Import KVManagers KVCoordinator KVCacheManager KVCacheProps KVService.
From S2P Require Import RequestQueue EncoderCache TraceTree Outputs Scheduler Schedule SchedulerLaws SchedulerInv SchedulerSteps.
From S2P Require Import SchedulerPass.
#[local] Open Scope Z_scope.

(** A loop that keeps an invariant under which its body does not raise. *)
Lemma for_each_ok {A S} (P : S -> Prop) (body : A -> S -> result S) l s :
  (forall x s, x ∈ l -> P s -> exists s', body x s = Ok s' /\ P s') -> P s -> exists s', for_each body l s = Ok s' /\ P s'.
Proof.
  revert s. induction l as [|x l IH]; intros s Hb Hs; cbn [for_each]; [by exists s|].
  destruct (Hb x s ltac:(left) Hs) as (s1 & -> & Hs1). bind_ok. apply IH; [|done]. intros y t Hy. apply Hb. by right.
Qed.

Lemma for_collect_ok {A B} (f : A -> result B) l :
  (forall x, x ∈ l -> exists b, f x = Ok b) ->
  exists bs, for_collect (fun a u => d ← f a; Ok (d, u)) l tt = Ok (bs, tt).
Proof.
  induction l as [|x l IH]; intros Hf; cbn [for_collect]; [by eexists|].
  destruct (Hf x ltac:(left)) as [b ->]. destruct IH as [bs Hbs]; [intros; apply Hf; by right|].
  exists (b :: bs). cbn. by rewrite Hbs.
Qed.

Section Step.
Context {C E M : Type} `{KVConnector C, ECConnector E, StructuredOutput M}.
Context (use_int_hashes : bool) (time_monotonic : Z -> float) (cfg : SchedulerConfig) (bs : Z).
Context (Hcfg : config_text cfg).

Abbreviation sched_t := (Scheduler FCFSRequestQueue C E M).
Abbreviation pass_t := (Pass FCFSRequestQueue C E M).
Abbreviation len := (sched_max_model_len cfg).
Abbreviation sched_ok := (sched_ok cfg bs).
Abbreviation evolves := (evolves cfg).
Abbreviation pass_ok := (pass_ok cfg bs).
Implicit Types (s : sched_t) (p : pass_t).

(** ** The start *)

(** The running requests may be put in another order. *)
Lemma ok_permute s aside l :
  sched_ok s aside -> l ≡ₚ running s -> sched_ok (s <| running := l |>) aside.
Proof.
  intros [h1 h2 h3 h4 h5 h6 h7 h8 h9 h10 h11] Hl. split; try done.
  - change (NoDup (l ++ waiting s ++ aside)). by rewrite Hl.
  - intros a. change (a ∈ l ++ waiting s ++ aside <-> a ∈ dvalues (requests s)). rewrite Hl. apply h5.
  - intros a Ha. apply h7. change (a ∈ l) in Ha. by rewrite Hl in Ha.
  - change (py_len l <= max_num_running_reqs cfg). unfold py_len in *. by rewrite Hl.
Qed.

(** The running requests in the order in which a step considers them. *)
Definition ranked s : list Z :=
  if bool_decide (policy cfg = GAMBIT) then stable_sort score_key_lt (score_key s) (running s) else running s.

Lemma start_ok s :
  sched_ok s [] -> prev_ok s [] ->
  exists p, start_pass time_monotonic cfg s = Ok p /\ run_ok cfg bs s (sched p) p /\ preempted p = [] /\
    running (sched p) = ranked s /\ requests (sched p) = requests s.
Proof.
  intros Hs Hprev. unfold start_pass, read_clock. set (s1 := s <| clock := clock s + 1 |>).
  assert (Hs1 : sched_ok s1 []) by (by eapply ok_same).
  set (s2 := if bool_decide (policy cfg = GAMBIT) then order_running_by_score s1 else s1).
  assert (Hs2 : sched_ok s2 [] /\ running s2 = ranked s /\ requests s2 = requests s /\ prev_ok s2 [] /\ evolves s s2).
  { unfold s2, ranked. case_bool_decide; (split; [|split; [done|split; [done|split; [done | by apply evolves_fields]]]]); [|done].
    apply ok_permute; [done | apply stable_sort_Permutation]. }
  destruct Hs2 as (Hs2 & Hrank & Hreqs & Hprev2 & Hev). cbn [rq_create fcfs_queue].
  pose proof (ct_policy _ Hcfg) as Hpol. destruct (policy cfg); [| done |]; bind_ok; cbn [or_raise]; bind_ok; eexists;
    (split; [reflexivity|]); (split; [|done]); split; try done; split; try done; try apply NoDup_nil_2;
    try (intros ? Hin; by apply elem_of_nil in Hin); try (split; [apply Hcfg | done]);
    intros _; (split; [done|]); intros ? Hin; by apply elem_of_nil in Hin.
Qed.

(** ** Putting back *)

Lemma extendleft_rev l q : extendleft (rev l) q = l ++ q.
Proof. unfold extendleft. induction l as [|x l IH]; [done|]. cbn [rev]. by rewrite fold_left_app, IH. Qed.

Lemma put_back_ok s0 p :
  pass_ok s0 p -> exists q, put_back p = Ok (on_sched (fun s => s <| waiting := q |>) p) /\
    q = skipped p ++ waiting (sched p) /\ sched_ok (sched p <| waiting := q |>) [].
Proof.
  intros Hp. pose proof (po_sched _ _ _ _ Hp) as [h1 h2 h3 h4 h5 h6 h7 h8 h9 h10 h11].
  assert (Hperm : running (sched p) ++ waiting (sched p) ++ skipped p ≡ₚ
    running (sched p) ++ (skipped p ++ waiting (sched p)) ++ []).
  { rewrite app_nil_r. by rewrite (Permutation_app_comm (waiting (sched p)) (skipped p)). }
  exists (skipped p ++ waiting (sched p)). split; [|split; [done|]].
  - unfold put_back, rq_nonempty. cbn [rq_len fcfs_queue]. destruct (skipped p) as [|x l] eqn:Hsk.
    + cbn. unfold on_sched. by destruct p as [[] ? ? ? ? ? ? ? ? ? ? ? ? ? ?].
    + destruct (Z.ltb_spec 0 (py_len (x :: l))) as [_|Hneg]; [|unfold py_len in Hneg; cbn in Hneg; lia].
      cbn [prepend_requests fcfs_queue]. bind_ok. by rewrite extendleft_rev.
  - split; try done.
    + change (NoDup (running (sched p) ++ (skipped p ++ waiting (sched p)) ++ [])). by rewrite <- Hperm.
    + intros a. change (a ∈ running (sched p) ++ (skipped p ++ waiting (sched p)) ++ [] <-> a ∈ dvalues (requests (sched p))).
      rewrite <- Hperm. apply h5.
    + intros a Ha. apply h8. change (a ∈ (skipped p ++ waiting (sched p)) ++ []) in Ha.
      rewrite app_nil_r in Ha. by rewrite (Permutation_app_comm (waiting (sched p)) (skipped p)).
Qed.

(** ** The plan *)

(** What a finished plan promises. *)
Record planned s0 p : Prop := {
  pl_sched : sched_ok (sched p) [];
  pl_evolves : evolves s0 (sched p);
  pl_total : int_sum (dvalues (num_scheduled p)) <= max_num_scheduled_tokens cfg /\ 0 <= token_budget p;
  pl_dict : dict_ok (num_scheduled p);
  pl_nodup : NoDup (scheduled p);
  pl_sub : forall a, a ∈ scheduled p -> a ∈ running (sched p);
  pl_share : forall a, a ∈ scheduled p -> has_share p a;
  pl_keys : forall rid, rid ∈ dkeys (num_scheduled p) -> exists a, a ∈ scheduled p /\ rid_of (sched p) a = rid;
  pl_nodraft : spec_decode_tokens p = [];
  pl_order : exists l m, ranked s0 = l ++ m /\ l `prefix_of` running (sched p) /\
    (forall rid a, find_request rid s0 = Some a -> find_request rid (sched p) = Some a \/ a ∈ m) /\
    (policy cfg = GAMBIT -> forall a rid, a ∈ m -> find_request rid (sched p) <> Some a);
  pl_prev : forall a, a ∈ scheduled_resumed p -> rid_of (sched p) a ∉ prev_step_scheduled_req_ids (sched p);
}.

(** The requests that keep their slots are a prefix of the running ones. *)
Lemma kept_prefix s0 s1 s2 aside :
  sched_ok s1 [] -> requests s1 = requests s0 -> moves cfg s1 s2 -> sched_ok s2 aside ->
  exists l m, running s1 = l ++ m /\ l = running s2 /\
    (forall rid a, find_request rid s0 = Some a -> find_request rid s2 = Some a \/ a ∈ m) /\
    (policy cfg = GAMBIT -> forall a rid, a ∈ m -> find_request rid s2 <> Some a).
Proof.
  intros Hs1 Hreq [Hev12 [[m Hm] Hkept] Hgone] Hs2. exists (running s2), m. split; [done|]. split; [done|]. split.
  - intros rid a Hf. destruct (Hkept rid a) as [Hf2|Hr]; [unfold find_request in *; by rewrite Hreq|by left|].
    rewrite Hm in Hr. apply elem_of_app in Hr as [Hr|Hr]; [left|by right].
    destruct (ok_find _ _ s2 aside a Hs2 (ok_running_in _ _ _ Hr)) as [Hf2 _].
    assert (Hrid : rid_of s2 a = rid); [|by rewrite Hrid in Hf2]. pose proof (ev_view _ _ _ Hev12 a) as Hv.
    apply (f_equal request_id) in Hv. unfold rid_of. etrans; [exact Hv|].
    apply (so_obj _ _ _ _ Hs1 rid a). unfold find_request in *. by rewrite Hreq.
  - intros Hp a rid Ha. destruct (Hgone Hp a) as [Hr|Hg]; [rewrite Hm; apply elem_of_app; by right| |by apply Hg].
    exfalso. pose proof (so_nodup _ _ _ _ Hs1) as Hnd. rewrite Hm in Hnd. apply NoDup_app in Hnd as (Hnd & _).
    apply NoDup_app in Hnd as (_ & Hd & _). by apply (Hd a).
Qed.

Lemma plan_step_ok s : sched_ok s [] -> prev_ok s [] ->
  exists p, plan_step use_int_hashes time_monotonic cfg s = Ok p /\ planned s p.
Proof.
  intros Hs Hprev. unfold plan_step. destruct (start_ok s Hs Hprev) as (p0 & -> & Hr0 & Hn0 & Hrank & Hreq0). bind_ok.
  unfold schedule_running.
  destruct (running_loop_ok use_int_hashes cfg bs Hcfg s (sched p0) (length (running (sched p0))) p0 Hr0) as (p1 & Hr & Hr1).
  { pose proof (rk_index _ _ _ _ _ Hr0). unfold py_len. lia. }
  match goal with |- context [running_loop ?u ?c ?n ?x] => replace (running_loop u c n x) with (Ok p1) by exact (eq_sym Hr) end.
  bind_ok. unfold collect_loras. rewrite (ct_loras _ Hcfg). bind_ok.
  pose proof (rk_pass _ _ _ _ _ Hr1) as Hp1.
  assert (Hord : exists l m, ranked s = l ++ m /\ l = running (sched p1) /\
    (forall rid a, find_request rid s = Some a -> find_request rid (sched p1) = Some a \/ a ∈ m) /\
    (policy cfg = GAMBIT -> forall a rid, a ∈ m -> find_request rid (sched p1) <> Some a)).
  { rewrite <- Hrank. apply (kept_prefix s (sched p0) (sched p1) (skipped p1)); [ | done | apply Hr1 | apply Hp1].
    destruct (rk_start _ _ _ _ _ Hr0) as [<- _]. apply Hr0. }
  assert (Hw : exists p2, schedule_waiting use_int_hashes cfg p1 = Ok p2 /\ pass_ok s p2 /\
    running (sched p1) `prefix_of` running (sched p2) /\ requests (sched p2) = requests (sched p1) /\
    forall a, a ∈ scheduled_resumed p2 -> rid_of (sched p2) a ∉ prev_step_scheduled_req_ids (sched p2)).
  { unfold schedule_waiting. destruct (preempted p1) eqn:Hpre.
    - destruct (waiting_loop_ok use_int_hashes cfg bs Hcfg s (Z.to_nat (rq_len (waiting (sched p1)))) p1 Hp1 Hpre) as (p2 & Hr2 & Hp2 & Hn2 & Hpf & Hreq2).
      { cbn [rq_len fcfs_queue]. unfold py_len. lia. }
      exists p2. split; [exact Hr2|]. split; [done|]. split; [done|]. split; [done|]. by apply (po_prev _ _ _ _ Hp2).
    - exists p1. split; [done|]. split; [done|]. split; [done|]. split; [done|]. destruct (rk_start _ _ _ _ _ Hr1) as (_ & -> & _). intros a Ha.
      by apply elem_of_nil in Ha. }
  destruct Hw as (p2 & Hrw & Hp2 & Hpf & Hreq2 & Hres).
  match goal with |- context [schedule_waiting ?u ?c ?x] => replace (schedule_waiting u c x) with (Ok p2) by exact (eq_sym Hrw) end.
  bind_ok. destruct (put_back_ok s p2 Hp2) as (q & Hq & _ & Hsq). eexists. split; [exact Hq|].
  destruct Hp2 as [g1 g2 g3 g4 g5 g6 g7 g8 g9 g10]. split; try done.
  - etrans; [exact g2 | by apply evolves_fields].
  - change (int_sum (dvalues (num_scheduled p2)) <= max_num_scheduled_tokens cfg /\ 0 <= token_budget p2). lia.
  - destruct Hord as (l & m & e1 & e2 & e3 & e4). exists l, m. split; [done|]. split; [by rewrite e2|].
    unfold find_request. change (requests (sched (on_sched _ p2))) with (requests (sched p2)). rewrite Hreq2. done.
Qed.

Lemma constraints_ok s0 p : planned s0 p -> constraints cfg p = true.
Proof.
  intros Hp. unfold constraints. destruct (pl_total _ _ Hp) as [Ht Hb].
  pose proof (so_limit _ _ _ _ (pl_sched _ _ Hp)) as Hl.
  assert (Hsub : py_len (scheduled_new p) + py_len (scheduled_resumed p) + py_len (scheduled_running p) <= py_len (running (sched p))).
  { assert (Hle : (length (scheduled p) <= length (running (sched p)))%nat).
    { apply submseteq_length, NoDup_submseteq; [apply Hp | intros a; apply (pl_sub _ _ Hp)]. }
    unfold scheduled in Hle. rewrite !length_app in Hle. unfold py_len. lia. }
  rewrite !andb_true_iff, !Z.leb_le. done.
Qed.

(** ** The output *)

Lemma cached_entry_ok p resumed a d :
  has_share p a -> (resumed = true -> rid_of (sched p) a ∉ prev_step_scheduled_req_ids (sched p)) ->
  exists d', cached_entry cfg p resumed a d = Ok d'.
Proof.
  intros (n & Hn & _ & _ & [b Hb]) Hprev. unfold cached_entry. cbn zeta.
  change (request_id (req (sched p) a)) with (rid_of (sched p) a). rewrite Hn. cbn [or_raise]. bind_ok.
  assert (Ha : negb (resumed && bool_decide (rid_of (sched p) a ∈ prev_step_scheduled_req_ids (sched p))) = true).
  { destruct resumed; [|done]. rewrite bool_decide_eq_false_2; [done | by apply Hprev]. }
  rewrite Ha, Hb. cbn [py_assert or_raise]. bind_ok. by eexists.
Qed.

Lemma make_cached_ok p :
  (forall a, a ∈ scheduled p -> has_share p a) ->
  (forall a, a ∈ scheduled_resumed p -> rid_of (sched p) a ∉ prev_step_scheduled_req_ids (sched p)) ->
  exists d, make_cached_request_data cfg p = Ok d.
Proof.
  intros Hsh Hres. unfold make_cached_request_data.
  destruct (for_each_ok (fun _ => True) (cached_entry cfg p false) (scheduled_running p) make_empty) as (d & -> & _); [|done|].
  { intros a d Ha _. destruct (cached_entry_ok p false a d) as [d' ->]; [|done|by eexists].
    apply Hsh. unfold scheduled. rewrite !elem_of_app. tauto. }
  bind_ok. destruct (for_each_ok (fun _ => True) (cached_entry cfg p true) (scheduled_resumed p) d) as (d2 & -> & _); [|done|by eexists].
  intros a d2 Ha _. destruct (cached_entry_ok p true a d2) as [d' ->]; [|intros _; by apply Hres|by eexists].
  apply Hsh. unfold scheduled. rewrite !elem_of_app. tauto.
Qed.

Lemma new_data_ok p :
  (forall a, a ∈ scheduled p -> has_share p a) ->
  exists l, for_collect (fun a u => d ← new_request_data p a; Ok (d, u)) (scheduled_new p) tt = Ok (l, tt).
Proof.
  intros Hsh. apply for_collect_ok. intros a Ha. destruct (Hsh a) as (n & _ & _ & _ & [b Hb]).
  { unfold scheduled. rewrite !elem_of_app. tauto. }
  unfold new_request_data. cbn zeta. change (request_id (pass_req p a)) with (rid_of (sched p) a). rewrite Hb.
  cbn [or_raise]. bind_ok. by eexists.
Qed.

(** The common prefix is looked up under the first running request. *)
Lemma common_ok s : sched_ok s [] ->
  exists ns k, (match running s with
      | [] => Ok (replicate (num_kv_cache_groups (kv_cache_manager s)) 0, s)
      | a :: _ => kv_update (kv_get_num_common_prefix_blocks (request_id (req s a))) s
      end) = Ok (ns, s <| kv_cache_manager := k |>) /\ sched_ok (s <| kv_cache_manager := k |>) [].
Proof.
  intros Hs. destruct (running s) as [|a l] eqn:Hr.
  - eexists _, (kv_cache_manager s). assert (Heq : s <| kv_cache_manager := kv_cache_manager s |> = s) by (by destruct s).
    rewrite Heq. done.
  - destruct (common_prefix_ok len bs (kv_cache_manager s) (request_id (req s a)) (so_kv _ _ _ _ Hs)) as (ns & k & Hk & Hg & Hf).
    exists ns, k. unfold kv_update. rewrite Hk. split; [done|].
    assert (Ha : a ∈ running s) by (rewrite Hr; by left). apply (ok_with_kv _ _ _ _ a); try done.
    + apply elem_of_app. by left.
    + intros Hw. exfalso. pose proof (so_nodup _ _ _ _ Hs) as Hnd. apply NoDup_app in Hnd as (_ & Hd & _). by apply (Hd a).
Qed.

(** What the output says of a plan. *)
Record output_of s0 p (so : SchedulerOutput) : Prop := {
  oo_num : num_scheduled_tokens so = num_scheduled p;
  oo_total : total_num_scheduled_tokens so = int_sum (dvalues (num_scheduled p));
  oo_finished : so_finished_req_ids so = Scheduler.finished_req_ids (sched p);
  oo_nodraft : scheduled_spec_decode_tokens so = [];
}.

Lemma make_output_ok s0 p : planned s0 p ->
  exists so s', make_output cfg p = Ok (so, s') /\ output_of s0 p so /\ sched_ok s' [] /\
    running s' = running (sched p) /\ waiting s' = waiting (sched p) /\ requests s' = requests (sched p) /\
    store s' = store (sched p) /\ pending_pruned_outputs s' = pending_pruned_outputs (sched p) /\
    prev_step_scheduled_req_ids s' = list_to_set (dkeys (num_scheduled p)).
Proof.
  intros Hp. unfold make_output. destruct (common_ok (sched p) (pl_sched _ _ Hp)) as (ns & k & Hc & Hk).
  set (s1 := sched p <| kv_cache_manager := k |>) in *.
  match goal with |- context [match running (sched p) with [] => ?x | a :: _ => @?y a end] =>
    replace (match running (sched p) with [] => x | a :: _ => y a end) with (Ok (ns, s1)) by exact (eq_sym Hc) end.
  bind_ok. set (p1 := p <| sched := s1 |>).
  assert (Hsh : forall a, a ∈ scheduled p1 -> has_share p1 a) by (exact (pl_share _ _ Hp)).
  destruct (new_data_ok p1 Hsh) as (l & Hl).
  destruct (make_cached_ok p1 Hsh (pl_prev _ _ Hp)) as (d & Hd).
  unfold mbind, result_bind in Hl |- *. rewrite Hl, Hd. bind_ok.
  destruct (get_freed_mm_hashes _) as [mm m]. eexists _, _. split; [reflexivity|].
  split; [split; try done; apply (pl_nodraft _ _ Hp)|]. split; [|done]. by eapply ok_same.
Qed.

Lemma add_metadata_ok so s : connector s = None -> ec_connector s = None -> add_metadata so s = Ok (so, s).
Proof. intros Hc He. unfold add_metadata. rewrite Hc. bind_ok. by rewrite He. Qed.

(** ** After the step *)

(** What [advance_computed] does to a request. *)
Definition advanced (n : Z) (r : Request) : Request := r <| num_computed_tokens := num_computed_tokens r + n |>.

Lemma advance_one_ok s rid n a :
  sched_ok s [] -> find_request rid s = Some a -> a ∈ running s -> 0 < n ->
  num_computed_tokens (req s a) + n <= num_tokens (req s a) ->
  advance_computed cfg (rid, n) s = Ok (update_req a (advanced n) s) /\ sched_ok (update_req a (advanced n) s) [].
Proof.
  intros Hs Hf Ha Hn Hle. pose proof (ok_running_in s [] a Ha) as Hin. destruct (ok_find _ _ _ _ _ Hs Hin) as [_ Hok].
  assert (Hreq : req (update_req a (advanced n) s) a = advanced n (req s a)) by exact (req_update_eq cfg bs s a _ Hok).
  split.
  - unfold advance_computed. cbn [fst snd]. rewrite Hf. cbn [or_raise]. bind_ok. cbn zeta. fold (advanced n).
    unfold has_encoder_inputs. rewrite Hreq. change (mm_features (advanced n (req s a))) with (mm_features (req s a)).
    by rewrite (ro_text _ _ _ Hok).
  - pose proof Hok as [r1 r2 r3 r4 r5 r6]. apply ok_with_req; try done.
    + split; try done. change (0 <= num_computed_tokens (req s a) + n <= num_tokens (req s a)). lia.
    + intros _. by apply (so_running _ _ _ _ Hs).
    + intros Hw. exfalso. pose proof (so_nodup _ _ _ _ Hs) as Hnd. apply NoDup_app in Hnd as (_ & Hd & _). by apply (Hd a).
Qed.

Lemma advance_ok l : forall s,
  sched_ok s [] -> NoDup l.*1 ->
  (forall rid n, (rid, n) ∈ l -> exists a, find_request rid s = Some a /\ a ∈ running s /\ 0 < n /\
     num_computed_tokens (req s a) + n <= num_tokens (req s a)) ->
  exists s', for_each (advance_computed cfg) l s = Ok s' /\ sched_ok s' [] /\
    s' = s <| store := store s' |> /\
    (forall a, (exists n, n <> 0 /\ (rid_of s a, n) ∈ l /\ find_request (rid_of s a) s = Some a /\ req s' a = advanced n (req s a)) \/
               req s' a = req s a) /\
    (forall rid n a, (rid, n) ∈ l -> find_request rid s = Some a -> req s' a = advanced n (req s a)).
Proof.
  induction l as [|[rid n] l IH]; intros s Hs Hnd Hl; cbn [for_each].
  { exists s. split; [done|]. split; [done|]. split; [by destruct s|]. split; [by right|]. intros ? ? ? Hin. by apply elem_of_nil in Hin. }
  cbn in Hnd. apply NoDup_cons in Hnd as [Hnotin Hnd].
  destruct (Hl rid n ltac:(by left)) as (a & Hf & Ha & Hn & Hle).
  destruct (advance_one_ok s rid n a Hs Hf Ha Hn Hle) as [Hrun Hs1]. rewrite Hrun. bind_ok.
  set (s1 := update_req a (advanced n) s) in *.
  destruct (so_obj _ _ _ _ Hs rid a Hf) as [Hrid Hok].
  assert (Hreqa : req s1 a = advanced n (req s a)) by exact (req_update_eq cfg bs s a _ Hok).
  assert (Hother : forall b, b <> a -> req s1 b = req s b) by (intros b Hb; exact (req_update_ne s a b _ (not_eq_sym Hb))).
  assert (Hid : forall b, rid_of s1 b = rid_of s b).
  { intros b. unfold rid_of. destruct (decide (b = a)) as [->|Hb]; [by rewrite Hreqa | by rewrite Hother]. }
  assert (Hne : forall rid' n' b, (rid', n') ∈ l -> find_request rid' s = Some b -> b <> a).
  { intros rid' n' b Hin Hfb ->. apply Hnotin. destruct (so_obj _ _ _ _ Hs rid' a Hfb) as [<- _]. rewrite Hrid in Hin.
    apply list_elem_of_fmap. by exists (rid, n'). }
  destruct (IH s1 Hs1 Hnd) as (s' & Hr' & Hs' & Hst & Hcase & Hexact).
  { intros rid' n' Hin. destruct (Hl rid' n' ltac:(by right)) as (b & Hfb & Hb & Hn' & Hle').
    exists b. split; [done|]. split; [done|]. split; [done|]. by rewrite Hother by (by eapply Hne). }
  exists s'. split; [exact Hr'|]. split; [done|]. split; [by rewrite Hst|].
  assert (Hafter : req s' a = advanced n (req s a)).
  { destruct (Hcase a) as [(n' & _ & Hin & _ & _)| ->]; [|done]. exfalso. apply Hnotin. rewrite Hid, Hrid in Hin.
    apply list_elem_of_fmap. by exists (rid, n'). }
  split.
  - intros b. destruct (decide (b = a)) as [->|Hb].
    + left. exists n. split; [lia|]. rewrite Hrid. split; [by left|]. done.
    + destruct (Hcase b) as [(n' & Hn' & Hin & Hfb & Hreq)|Hsame].
      * left. exists n'. rewrite Hid in Hin, Hfb. split; [done|]. split; [by right|]. split; [done|]. by rewrite Hreq, Hother.
      * right. by rewrite Hsame, Hother.
  - intros rid' n' b [ [= -> ->] | Hin ]%elem_of_cons Hfb.
    + rewrite Hf in Hfb. by injection Hfb as <-.
    + rewrite (Hexact rid' n' b Hin Hfb). by rewrite Hother by (by eapply Hne).
Qed.

(** What a step promises: the shares, and what becomes of each request. *)
Record step_ok s (so : SchedulerOutput) s' : Prop := {
  st_sched : sched_ok s' [];
  st_prev : prev_ok s' [];
  st_total : total_num_scheduled_tokens so = int_sum (dvalues (num_scheduled_tokens so)) /\
    total_num_scheduled_tokens so <= max_num_scheduled_tokens cfg;
  st_dict : dict_ok (num_scheduled_tokens so);
  st_nodraft : scheduled_spec_decode_tokens so = [];
  st_share : forall rid n, dget rid (num_scheduled_tokens so) = Some n -> 0 < n /\
    exists a, find_request rid s' = Some a /\ a ∈ running s' /\ n <= num_computed_tokens (req s' a) <= num_tokens (req s' a);
  st_old : forall rid a, find_request rid s' = Some a -> find_request rid s = Some a;
  st_kept : forall rid a, find_request rid s = Some a -> find_request rid s' = Some a \/
    (policy cfg = GAMBIT /\ rid ∈ so_finished_req_ids so /\
     exists o, o ∈ dget_or (client_index (req s a)) [] (pending_pruned_outputs s') /\
       eco_request_id o = rid /\ eco_finish_reason o = Some ABORT);
  st_order : exists l m, ranked s = l ++ m /\ l `prefix_of` running s' /\
    (forall rid a, find_request rid s = Some a -> find_request rid s' = Some a \/ a ∈ m) /\
    (policy cfg = GAMBIT -> forall a rid, a ∈ m -> find_request rid s' <> Some a);
  st_view : forall a, request_view (req s' a) = request_view (req s a);
}.

Lemma schedule_ok s : sched_ok s [] -> prev_ok s [] ->
  exists so s', schedule use_int_hashes time_monotonic cfg s = Ok (so, s') /\ step_ok s so s'.
Proof.
  intros Hs Hprev. unfold schedule. destruct (plan_step_ok s Hs Hprev) as (p & -> & Hp). bind_ok.
  rewrite (constraints_ok s p Hp). cbn [py_assert]. bind_ok.
  destruct (make_output_ok s p Hp) as (so & s1 & -> & [o1 o2 o3 o4] & Hs1 & e1 & e2 & e3 & e4 & e5 & e6). bind_ok.
  destruct (so_plain _ _ _ _ Hs1) as [Hc He]. rewrite (add_metadata_ok so s1 Hc He). bind_ok.
  assert (Hreq1 : forall a, req s1 a = req (sched p) a) by (intros a; unfold req; by rewrite e4).
  pose proof (pl_dict _ _ Hp) as Hdict.
  assert (Hshare : forall rid n, dget rid (num_scheduled p) = Some n ->
    exists a, find_request rid s1 = Some a /\ a ∈ running s1 /\ 0 < n /\ num_computed_tokens (req s1 a) + n <= num_tokens (req s1 a)).
  { intros rid n Hn. destruct (pl_keys _ _ Hp rid (elem_of_dkeys _ _ _ Hn)) as (a & Ha & <-).
    destruct (pl_share _ _ Hp a Ha) as (n' & Hn' & Hpos & Hle & _). rewrite Hn in Hn'. injection Hn' as <-.
    exists a. rewrite e1, Hreq1. unfold find_request. rewrite e3. split; [|split; [by apply (pl_sub _ _ Hp)|done]].
    apply (ok_find _ _ _ _ _ (pl_sched _ _ Hp)), ok_running_in, (pl_sub _ _ Hp), Ha. }
  unfold update_after_schedule. rewrite o1, (ct_sync _ Hcfg).
  destruct (advance_ok (num_scheduled p) s1 Hs1 Hdict) as (s2 & Hr2 & Hs2 & Hst2 & Hcase & Hexact).
  { intros rid n Hin. apply Hshare. by apply elem_of_dget. }
  match goal with |- context [for_each ?f ?l ?x] => replace (for_each f l x) with (Ok s2) by exact (eq_sym Hr2) end.
  bind_ok. eexists so, _. split; [reflexivity|].
  set (s' := s2 <| finished_req_ids := ∅ |>).
  assert (Hfind : forall rid, find_request rid s' = find_request rid (sched p)).
  { intros rid. unfold s', find_request. rewrite Hst2. cbn. by rewrite e3. }
  assert (Hrun : running s' = running (sched p)) by (unfold s'; rewrite Hst2; exact e1).
  assert (Hwait : waiting s' = waiting (sched p)) by (unfold s'; rewrite Hst2; exact e2).
  assert (Hview : forall a, request_view (req s2 a) = request_view (req (sched p) a) /\ status (req s2 a) = status (req (sched p) a)).
  { intros a. destruct (Hcase a) as [(n & _ & _ & _ & ->)| ->]; rewrite Hreq1; done. }
  assert (Hs' : sched_ok s' []) by (by eapply ok_same).
  pose proof (pl_evolves _ _ Hp) as [v1 v2 v3 v4 v5 v6 _]. split.
  - done.
  - intros a Ha Hsta Hin. change (status (req s2 a) = PREEMPTED) in Hsta. rewrite (proj2 (Hview a)) in Hsta.
    assert (Hps : prev_step_scheduled_req_ids s' = list_to_set (dkeys (num_scheduled p))) by (unfold s'; rewrite Hst2; exact e6).
    rewrite Hps in Hin. apply elem_of_list_to_set in Hin. destruct (pl_keys _ _ Hp _ Hin) as (b & Hb & Hid).
    assert (Hbr : b ∈ running (sched p)) by (by apply (pl_sub _ _ Hp)).
    assert (Hid' : rid_of s' a = rid_of (sched p) a).
    { unfold rid_of. change (req s' a) with (req s2 a). by apply (f_equal request_id (proj1 (Hview a))). }
    rewrite Hid' in Hid. rewrite Hwait in Ha.
    assert (b = a) as ->. { eapply (ok_inj _ _ (sched p) []); [apply Hp | by apply ok_running_in | apply elem_of_app; by right | done]. }
    pose proof (so_running _ _ _ _ (pl_sched _ _ Hp) a Hbr). congruence.
  - rewrite o2, o1. split; [done|]. apply (pl_total _ _ Hp).
  - by rewrite o1.
  - done.
  - rewrite o1. intros rid n Hn. destruct (Hshare rid n Hn) as (a & Hfa & Hra & Hpos & Hle). split; [done|].
    exists a. change (req s' a) with (req s2 a). rewrite (Hexact rid n a (dget_elem_of _ _ _ Hn) Hfa).
    unfold find_request in Hfa. rewrite e3 in Hfa. rewrite Hfind, Hrun. rewrite e1 in Hra.
    split; [done|]. split; [done|]. cbn. rewrite Hreq1 in Hle |- *.
    destruct (so_obj _ _ _ _ (pl_sched _ _ Hp) rid a Hfa) as [_ [_ _ _ _ Hco _]]. unfold num_tokens in *. cbn in *. lia.
  - intros rid a Hf. rewrite Hfind in Hf. by apply v1.
  - intros rid a Hf. destruct (v2 rid a Hf) as [Hk|(Hpol & Hfin & o & Ho & Hor)]; [left; by rewrite Hfind|].
    right. split; [done|]. rewrite o3. split; [done|]. exists o. split; [|done].
    unfold s'. rewrite Hst2. cbn. by rewrite e5.
  - destruct (pl_order _ _ Hp) as (l & m & w1 & w2 & w3 & w4). exists l, m. rewrite Hrun. setoid_rewrite Hfind. done.
  - intros a. change (req s' a) with (req s2 a). rewrite (proj1 (Hview a)). apply v5.
Qed.
End Step.
