(* ===== verification/SchedulerOps.v ===== *)
(** * The scheduler between two steps

    Freeing a finished request, adding, aborting and marking requests, and
    taking in new scores: each keeps the scheduler's invariant. *)

From S2P Require Import Prelude PyDict PyList PyInt KVSpec PyStr PyFloat Request BlockPool.
From S2P Require Import KVManagers KVCoordinator KVCacheManager KVCacheProps KVService.
From S2P Require Import RequestQueue EncoderCache TraceTree Outputs Scheduler Schedule SchedulerUpdate.
From S2P Require Import SchedulerLaws SchedulerInv SchedulerSteps.
#[local] Open Scope Z_scope.

(** The members of a list outside a set. *)
Definition without (X : gset Z) (l : list Z) : list Z := List.filter (fun b => bool_decide (b ∉ X)) l.

Lemma elem_of_without_ids X l b : b ∈ without X l <-> b ∈ l /\ b ∉ X.
Proof. unfold without. rewrite list_elem_of_In, List.filter_In, <- list_elem_of_In, bool_decide_eq_true. done. Qed.

Lemma without_empty l : without ∅ l = l.
Proof. unfold without. induction l as [|x l IH]; cbn; [done|]. rewrite bool_decide_eq_true_2 by set_solver. by rewrite IH. Qed.

Lemma without_without X Y l : without X (without Y l) = without (Y ∪ X) l.
Proof.
  unfold without. induction l as [|x l IH]; cbn; [done|]. destruct (decide (x ∈ Y)).
  - rewrite (bool_decide_eq_false_2 (x ∉ Y)) by set_solver. rewrite (bool_decide_eq_false_2 (x ∉ Y ∪ X)) by set_solver. done.
  - rewrite (bool_decide_eq_true_2 (x ∉ Y)) by done. cbn. rewrite IH.
    rewrite (bool_decide_ext (x ∉ Y ∪ X) (x ∉ X)) by set_solver. done.
Qed.

Lemma without_ext X Y l : (forall b, b ∈ l -> b ∈ X <-> b ∈ Y) -> without X l = without Y l.
Proof.
  intros Hl. unfold without. induction l as [|x l IH]; cbn; [done|].
  rewrite (bool_decide_ext (x ∉ X) (x ∉ Y)) by (rewrite (Hl x ltac:(left)); done).
  rewrite IH; [done|]. intros b Hb. apply Hl. by right.
Qed.

Lemma without_none X l : (forall b, b ∈ l -> b ∉ X) -> without X l = l.
Proof. intros Hl. rewrite <- (without_empty l) at 2. apply without_ext. intros b Hb. specialize (Hl b Hb). set_solver. Qed.

Lemma without_one a l : NoDup l -> a ∈ l -> l ≡ₚ a :: without {[a]} l.
Proof.
  induction 1 as [|x l Hx Hl IH]; [by intros ?%elem_of_nil|]. rewrite elem_of_cons. intros Ha. unfold without. cbn.
  destruct (decide (x = a)) as [->|Hne].
  - rewrite bool_decide_eq_false_2 by set_solver. fold (without {[a]} l). rewrite without_none; [done|]. set_solver.
  - rewrite bool_decide_eq_true_2 by set_solver. fold (without {[a]} l). destruct Ha as [Ha|Ha]; [congruence|].
    rewrite (IH Ha) at 1. constructor.
Qed.

Lemma NoDup_without X l : NoDup l -> NoDup (without X l).
Proof. rewrite !NoDup_ListNoDup. apply List.NoDup_filter. Qed.

Section Ops.
Context {C E M : Type} `{KVConnector C, ECConnector E, StructuredOutput M}.
Context (cfg : SchedulerConfig) (bs : Z).

Abbreviation sched_t := (Scheduler FCFSRequestQueue C E M).
Abbreviation len := (sched_max_model_len cfg).
Abbreviation sched_ok := (sched_ok cfg bs).
Implicit Types (s : sched_t) (a : Z).

(** ** Freeing *)

(** What [free_request] leaves. *)
Definition freed a (k : KVCacheManager) s : sched_t :=
  s <| Scheduler.finished_req_ids := {[rid_of s a]} ∪ Scheduler.finished_req_ids s |>
    <| finished_req_ids_dict := add_to_set (client_index (req s a)) (rid_of s a) <$> finished_req_ids_dict s |>
    <| kv_cache_manager := k |> <| requests := ddel (rid_of s a) (requests s) |>.

(** The same scheduler with other queues. *)
Definition queues l w s : sched_t := s <| running := l |> <| waiting := w |>.

Lemma free_request_ok s a :
  connector s = None -> kv_good len bs (kv_cache_manager s) -> find_request (rid_of s a) s = Some a ->
  is_finished (req s a) = true -> mm_features (req s a) = [] ->
  exists k, (forall l w, free_request a (queues l w s) = Ok (None, freed a k (queues l w s))) /\ kv_good len bs k /\
    kv_frame (rid_of s a) (kv_cache_manager s) k /\ kv_fresh k (rid_of s a).
Proof.
  intros Hc Hk Hf Hfin Hmm.
  destruct (release_request len bs (kv_cache_manager s) (req s a) Hk) as (k & Hfree & Hg & Hfr & Hfresh & _).
  exists k. split; [|done]. intros l w. unfold free_request. change (req (queues l w s) a) with (req s a).
  rewrite Hfin. cbn [py_assert]. bind_ok.
  unfold connector_finished. change (connector (queues l w s)) with (connector s). rewrite Hc. bind_ok.
  rewrite encoder_free_text by done. bind_ok.
  set (s1 := queues l w s <| Scheduler.finished_req_ids := _ |> <| finished_req_ids_dict := _ |>).
  unfold free_blocks_of. change (req s1 a) with (req s a). rewrite Hfin. cbn [py_assert]. bind_ok.
  unfold kv_free_request. change (kv_cache_manager s1) with (kv_cache_manager s). rewrite Hfree. bind_ok.
  change (find_request (request_id (req s a)) (s1 <| kv_cache_manager := k |>)) with (find_request (rid_of s a) s).
  rewrite Hf. cbn [or_raise]. bind_ok. done.
Qed.

(** A scheduler without some of the entries of its queues. *)
Definition hide (X Y : gset Z) s : sched_t := queues (without X (running s)) (without Y (waiting s)) s.

Lemma hide_empty s : hide ∅ ∅ s = s.
Proof. unfold hide. rewrite !without_empty. by destruct s. Qed.

Lemma hide_hide X Y X' Y' s : hide X Y (hide X' Y' s) = hide (X' ∪ X) (Y' ∪ Y) s.
Proof.
  change (queues (without X (without X' (running s))) (without Y (without Y' (waiting s))) s = hide (X' ∪ X) (Y' ∪ Y) s).
  by rewrite !without_without.
Qed.

(** A live request is finished and freed: without its entries, the queues are
    as they should be. *)
Lemma finish_one_ok s aside a f :
  sched_ok s aside -> a ∈ running s ++ waiting s ->
  request_id (f (req s a)) = rid_of s a -> is_finished (f (req s a)) = true -> mm_features (f (req s a)) = [] ->
  exists k, (forall l w, free_request a (queues l w (update_req a f s)) = Ok (None, freed a k (queues l w (update_req a f s)))) /\
    sched_ok (hide {[a]} {[a]} (freed a k (update_req a f s))) aside.
Proof.
  intros Hs Ha Hid Hfin Hmm. assert (Hin : a ∈ running s ++ waiting s ++ aside) by (rewrite app_assoc; apply elem_of_app; by left).
  destruct (ok_find _ _ _ _ _ Hs Hin) as [Hf Hok]. set (s1 := update_req a f s).
  assert (Hreq : req s1 a = f (req s a)) by exact (req_update_eq cfg bs s a f Hok).
  assert (Hrid : rid_of s1 a = rid_of s a) by (unfold rid_of; by rewrite Hreq).
  destruct (free_request_ok s1 a) as (k & Hfree & Hg & Hfr & Hfresh); try (by rewrite Hreq).
  { apply (so_plain _ _ _ _ Hs). } { apply (so_kv _ _ _ _ Hs). } { by rewrite Hrid. }
  rewrite Hrid in Hfr, Hfresh. exists k. split; [exact Hfree|].
  assert (Hs2 : sched_ok (s <| kv_cache_manager := k |>) aside) by (by eapply ok_with_kv).
  assert (Hnd : NoDup (running s ++ waiting s)).
  { pose proof (so_nodup _ _ _ _ Hs) as Hnd. rewrite app_assoc in Hnd. by apply NoDup_app in Hnd as (? & _). }
  assert (Hs3 : sched_ok (hide {[a]} {[a]} (s <| kv_cache_manager := k |>) <| requests := ddel (rid_of s a) (requests s) |>) aside).
  { refine (ok_remove _ _ _ _ a _ _ Hs2 _ _ _ Hfresh).
    - change (running s ++ waiting s ≡ₚ a :: without {[a]} (running s) ++ without {[a]} (waiting s)).
      rewrite (without_one a _ Hnd Ha) at 1. unfold without. by rewrite List.filter_app.
    - intros b [Hb _]%elem_of_without_ids. exact Hb.
    - intros b [Hb _]%elem_of_without_ids. exact Hb. }
  eapply ok_same; [exact Hs3|try done..].
  - change (ddel (rid_of s1 a) (requests s) = ddel (rid_of s a) (requests s)). by rewrite Hrid.
  - intros b Hb. change (req s1 b = req s b). apply req_update_ne. intros ->.
    change (b ∈ without {[b]} (running s) ++ without {[b]} (waiting s) ++ aside) in Hb.
    rewrite !elem_of_app, !elem_of_without_ids in Hb. destruct Hb as [[_ Hb]|[[_ Hb]|Hb]]; [set_solver..|].
    pose proof (so_nodup _ _ _ _ Hs) as Hnd'. rewrite app_assoc in Hnd'. apply NoDup_app in Hnd' as (_ & Hd & _). by apply (Hd b).
Qed.

(** ** New requests *)

(** A request that may be added. *)
Record addable s (r : Request) : Prop := {
  ad_new : find_request (request_id r) s = None;
  ad_ok : request_ok len bs r;
  ad_status : status r = WAITING \/ status r = WAITING_FOR_FSM;
  ad_start : num_computed_tokens r = 0;
}.

Lemma sched_add_ok (time_monotonic : Z -> float) s r :
  sched_ok s [] -> prev_ok s [] -> addable s r ->
  exists s' a, sched_add time_monotonic cfg r s = Ok s' /\ sched_ok s' [] /\ prev_ok s' [] /\
    requests s' = dset (request_id r) a (requests s) /\ waiting s' = waiting s ++ [a] /\ running s' = running s /\
    core_view (req s' a) = core_view r /\ (forall rid, find_request rid s <> Some a) /\ forall b, b <> a -> req s' b = req s b.
Proof.
  intros Hs Hprev [Hnew Hok Hst Hstart]. set (a := fresh_addr s (waiting s)).
  destruct (sched_add_fcfs time_monotonic cfg r s) as (s' & r' & Hadd & e1 & e2 & e3 & e4 & e5 & e6 & _ & Hev).
  assert (Hplain : connector s' = None /\ ec_connector s' = None /\
    prev_step_scheduled_req_ids s' = prev_step_scheduled_req_ids s).
  { destruct (so_plain _ _ _ _ Hs) as [Hc He]. unfold sched_add in Hadd. cbn in Hadd. destruct (log_sched_stats cfg); inv_ok; done. }
  destruct Hplain as (Hp1 & Hp2 & Hp3). fold a in e1, e2, e5.
  assert (Hother : forall b, b <> a -> req s' b = req s b).
  { intros b Hb. unfold req. rewrite e5. by rewrite lookup_insert_ne. }
  assert (Hra : req s' a = r') by (unfold req; by rewrite e5, lookup_insert_eq).
  assert (Hview : core_view r' = core_view r) by (rewrite <- Hev; by destruct r').
  assert (Hok' : request_ok len bs r') by (by eapply request_ok_view).
  assert (Hid : request_id r' = request_id r) by (by apply (f_equal request_id) in Hview).
  pose proof Hs as [h1 h2 h3 h4 h5 h6 h7 h8 h9 h10 h11]. rewrite app_nil_r in h3.
  assert (Hlive : forall b, b ∈ running s ++ waiting s -> b <> a).
  { intros b Hb. apply fresh_addr_ne. apply elem_of_app in Hb as [Hb|Hb]; [right; by left | right; right; by left]. }
  assert (Hd : dict_ok (requests s')) by (rewrite e1; by apply dict_ok_dset).
  assert (Hfind : forall rid, find_request rid s' = if decide (rid = request_id r) then Some a else find_request rid s).
  { intros rid. unfold find_request. rewrite e1. apply dget_dset. }
  assert (Hids : forall b, b ∈ running s ++ waiting s -> rid_of s b <> request_id r).
  { intros b Hb He. destruct (ok_find _ _ s [] b Hs) as [Hf _]; [by rewrite app_nil_r|]. rewrite He in Hf. congruence. }
  exists s', a. split; [exact Hadd|]. split; [|split; [|rewrite Hra; repeat (split; [done|]); split; [|done]]]; [split| |]; rewrite ?e2, ?e3, ?e6, ?app_nil_r; try done.
  - rewrite app_assoc. apply NoDup_app. split; [done|]. split; [|apply NoDup_singleton].
    intros b Hb ->%list_elem_of_singleton. by apply (Hlive a).
  - intros b. rewrite app_assoc, elem_of_app, list_elem_of_singleton. rewrite app_nil_r in h5. rewrite h5. split.
    + intros [Hb| ->]; [|apply (find_in_values s' (request_id r)); by rewrite Hfind, decide_True].
      destruct (dvalues_find s b h4 Hb) as [rid Hf]. apply (find_in_values s' rid). rewrite Hfind, decide_False; [done|].
      intros ->. congruence.
    + intros Hb. destruct (dvalues_find s' b Hd Hb) as [rid Hf]. rewrite Hfind in Hf. case_decide; [right; congruence|].
      left. by eapply find_in_values.
  - intros rid b Hf. rewrite Hfind in Hf. case_decide as He; [injection Hf as <-; unfold rid_of; rewrite Hra; by rewrite Hid|].
    pose proof (find_live _ _ s [] rid b Hs Hf) as Hb. rewrite app_nil_r in Hb. unfold rid_of. rewrite Hother by (by apply Hlive). by apply h6.
  - intros b Hb. rewrite Hother; [by apply h7|]. apply Hlive, elem_of_app. by left.
  - intros b [Hb| ->%list_elem_of_singleton]%elem_of_app.
    + unfold rid_of. rewrite Hother by (apply Hlive, elem_of_app; by right). apply h8. by rewrite app_nil_r.
    + unfold rid_of. rewrite Hra, Hid. split; [|split].
      * apply (f_equal status) in Hview. change (status r' = status r) in Hview. rewrite Hview. destruct Hst as [->| ->]; [by left | by right; left].
      * apply (f_equal num_computed_tokens) in Hview. cbn in Hview. by rewrite Hview.
      * by apply h9.
  - intros rid Hf. rewrite Hfind in Hf. case_decide; [done|]. by apply h9.
  - intros b Hb Hsb. rewrite e2, app_nil_r in Hb. rewrite Hp3. apply elem_of_app in Hb as [Hb| ->%list_elem_of_singleton].
    + assert (Hne : b <> a) by (apply Hlive, elem_of_app; by right). unfold rid_of in *. rewrite Hother in Hsb |- * by done.
      apply Hprev; [by rewrite app_nil_r | done].
    + rewrite Hra in Hsb. apply (f_equal status) in Hview. change (status r' = status r) in Hview. rewrite Hview in Hsb.
      destruct Hst; congruence.
  - intros rid Hf. apply (find_live _ _ s [] rid a Hs) in Hf. rewrite app_nil_r in Hf. by apply (Hlive a).
Qed.

(** ** Aborting requests *)

Lemma live_unfinished s a : sched_ok s [] -> a ∈ running s ++ waiting s -> is_finished (req s a) = false.
Proof.
  intros Hs [Ha|Ha]%elem_of_app; unfold is_finished; [by rewrite (so_running _ _ _ _ Hs a Ha)|].
  destruct (so_waiting _ _ _ _ Hs a) as ([->|[->| ->]] & _); [by rewrite app_nil_r | done..].
Qed.

Definition finish_body (st : RequestStatus) a s : result sched_t :=
  '(_, s) ← free_request a (update_req a (fun r => r <| status := st |>) s); Ok s.

(** What the loop of [finish_requests] does to the requests it is given. *)
Record finished_all (l : list Z) s s' : Prop := {
  fa_queues : running s' = without (list_to_set l) (running s) /\ waiting s' = without (list_to_set l) (waiting s);
  fa_find : forall rid, find_request rid s' = match find_request rid s with
    | Some a => if bool_decide (a ∈ l) then None else Some a | None => None end;
  fa_finished : Scheduler.finished_req_ids s' = Scheduler.finished_req_ids s ∪ list_to_set (rid_of s <$> l);
  fa_reqs : forall b, b ∉ l -> req s' b = req s b;
  fa_prev : prev_step_scheduled_req_ids s' = prev_step_scheduled_req_ids s;
  fa_pending : pending_pruned_outputs s' = pending_pruned_outputs s;
}.

Lemma finish_loop_ok st l : status_is_finished st = true -> forall s,
  sched_ok s [] -> NoDup l -> (forall a, a ∈ l -> a ∈ running s ++ waiting s) ->
  exists s', for_each (finish_body st) l (hide (list_to_set l) (list_to_set l) s) = Ok s' /\ sched_ok s' [] /\ finished_all l s s'.
Proof.
  intros Hst. induction l as [|a l IH]; intros s Hs Hnd Hl; cbn [for_each list_to_set].
  { exists s. rewrite hide_empty. split; [done|]. split; [done|]. split; rewrite ?without_empty; try done.
    - intros rid. by destruct (find_request rid s).
    - set_solver. }
  apply NoDup_cons in Hnd as [Hna Hnd]. set (f := fun r => r <| status := st |>).
  assert (Ha : a ∈ running s ++ waiting s) by (apply Hl; by left).
  assert (Hin : a ∈ running s ++ waiting s ++ []) by (by rewrite app_nil_r).
  destruct (ok_find _ _ _ _ _ Hs Hin) as [Hfa Hok].
  destruct (finish_one_ok s [] a f Hs Ha) as (k & Hfree & Hs1); [done | done | apply Hok|].
  set (s1 := hide {[a]} {[a]} (freed a k (update_req a f s))) in *.
  assert (Hrid : forall b, rid_of (update_req a f s) b = rid_of s b).
  { intros b. unfold rid_of. apply (view_update request_id). done. }
  assert (Hreq : forall b, b <> a -> req s1 b = req s b) by (intros b Hb; exact (req_update_ne s a b f (not_eq_sym Hb))).
  destruct (IH s1 Hs1 Hnd) as (s' & Hrun & Hs' & [g1 g2 g3 g4 g5 g6]).
  { intros b Hb. assert (b <> a) by (by intros ->).
    change (b ∈ without {[a]} (running s) ++ without {[a]} (waiting s)). specialize (Hl b ltac:(by right)).
    rewrite !elem_of_app, !elem_of_without_ids in *. set_solver. }
  exists s'. split; [|split; [done|]].
  - set (X := {[a]} ∪ list_to_set l).
    assert (Hbody : finish_body st a (hide X X s) = Ok (hide X X (freed a k (update_req a f s)))).
    { change (('(_, s) ← free_request a (queues (without X (running s)) (without X (waiting s)) (update_req a f s)); Ok s)
        = Ok (hide X X (freed a k (update_req a f s)))). by rewrite Hfree. }
    rewrite Hbody. bind_ok. rewrite <- Hrun. f_equal. unfold s1. by rewrite hide_hide.
  - assert (Hfind1 : forall rid, find_request rid s1 = if decide (rid = rid_of s a) then None else find_request rid s).
    { intros rid. change (dget rid (ddel (rid_of (update_req a f s) a) (requests s)) = if decide (rid = rid_of s a) then None else find_request rid s).
      rewrite Hrid. case_decide as He; [subst; apply dget_ddel_eq, Hs | by apply dget_ddel_ne]. }
    split; try done.
    + destruct g1 as [-> ->]. change (running s1) with (without {[a]} (running s)). change (waiting s1) with (without {[a]} (waiting s)).
      by rewrite !without_without.
    + intros rid. rewrite g2, Hfind1. case_decide as He.
      * subst rid. rewrite Hfa. by rewrite bool_decide_eq_true_2 by (by left).
      * destruct (find_request rid s) as [b|] eqn:Hb; [|done]. assert (b <> a).
        { intros ->. apply He. symmetry. by apply (so_obj _ _ _ _ Hs). }
        rewrite (bool_decide_ext (b ∈ a :: l) (b ∈ l)) by set_solver. done.
    + rewrite g3. change (Scheduler.finished_req_ids s1) with ({[rid_of (update_req a f s) a]} ∪ Scheduler.finished_req_ids s).
      rewrite Hrid. cbn. assert (Heq : rid_of s1 <$> l = rid_of s <$> l).
      { apply list_fmap_ext. intros i b Hb. unfold rid_of. rewrite Hreq; [done|]. intros ->. apply Hna. by eapply list_elem_of_lookup_2. }
      rewrite Heq. set_solver.
    + intros b [Hba Hbl]%not_elem_of_cons. by rewrite g4, Hreq.
Qed.

Lemma drop_running_hide l s : NoDup (running s) -> drop_running l s = s <| running := without (list_to_set l) (running s) |>.
Proof.
  intros Hnd. destruct l as [|x l]; cbn [drop_running].
  - cbn [list_to_set]. rewrite without_empty. by destruct s.
  - by rewrite remove_all_filter.
Qed.

Lemma drop_waiting_hide l s : drop_waiting l s = Ok (s <| waiting := without (list_to_set l) (waiting s) |>).
Proof. destruct l as [|x l]; cbn [drop_waiting]; [|done]. cbn [list_to_set]. rewrite without_empty. by destruct s. Qed.

(** The live requests with the given ids. *)
Lemma valid_requests_ok s ids : sched_ok s [] -> NoDup ids ->
  NoDup (valid_requests ids s) /\
  forall a, a ∈ valid_requests ids s <-> exists rid, rid ∈ ids /\ find_request rid s = Some a.
Proof.
  intros Hs Hnd. unfold valid_requests.
  assert (Hall : forall a, a ∈ omap (fun rid => find_request rid s) ids -> negb (is_finished (req s a)) = true).
  { intros a (rid & _ & Hf)%list_elem_of_omap. rewrite live_unfinished; [done|done|].
    pose proof (find_live _ _ _ _ _ _ Hs Hf) as Hin. by rewrite app_nil_r in Hin. }
  assert (Heq : List.filter (fun a => negb (is_finished (req s a))) (omap (fun rid => find_request rid s) ids)
    = omap (fun rid => find_request rid s) ids).
  { revert Hall. generalize (omap (fun rid => find_request rid s) ids). intros l. induction l as [|x l IHl]; intros Hall; cbn; [done|].
    rewrite (Hall x ltac:(left)). f_equal. apply IHl. intros b Hb. apply Hall. by right. }
  rewrite Heq. clear Heq Hall. split; [|intros a; by rewrite list_elem_of_omap].
  induction Hnd as [|rid ids Hrid Hnd IH]; cbn; [constructor|]. destruct (find_request rid s) as [a|] eqn:Hf; [|done].
  apply NoDup_cons. split; [|done]. intros (rid' & Hrid' & Hf')%list_elem_of_omap.
  destruct (so_obj _ _ _ _ Hs _ _ Hf) as [<- _], (so_obj _ _ _ _ Hs _ _ Hf') as [<- _]. done.
Qed.

Lemma sched_finish_shape s ids st : status_is_finished st = true -> sched_ok s [] ->
  let l := valid_requests (elements (list_to_set ids : gset string)) s in
  sched_finish ids st s = for_each (finish_body st) l (hide (list_to_set l) (list_to_set l) s).
Proof.
  intros Hst Hs l. unfold sched_finish. rewrite Hst. cbn [py_assert]. bind_ok. fold l.
  set (R := List.filter (fun a => bool_decide (status (req s a) = RUNNING)) l).
  set (W := List.filter (fun a => negb (bool_decide (status (req s a) = RUNNING))) l).
  assert (HR : forall a, a ∈ R <-> a ∈ l /\ status (req s a) = RUNNING).
  { intros a. unfold R. rewrite !list_elem_of_In, List.filter_In. cbn beta. by rewrite bool_decide_eq_true. }
  assert (HW : forall a, a ∈ W <-> a ∈ l /\ status (req s a) <> RUNNING).
  { intros a. unfold W. rewrite !list_elem_of_In, List.filter_In. cbn beta. by rewrite negb_true_iff, bool_decide_eq_false. }
  pose proof (so_nodup _ _ _ _ Hs) as Hnd. apply NoDup_app in Hnd as (Hnd & _).
  rewrite drop_running_hide by done. rewrite drop_waiting_hide. bind_ok.
  assert (Heq : s <| running := without (list_to_set R) (running s) |> <| waiting := without (list_to_set W) (waiting s) |>
    = hide (list_to_set l) (list_to_set l) s).
  { unfold hide, queues. rewrite (without_ext (list_to_set R) (list_to_set l)), (without_ext (list_to_set W) (list_to_set l)); [done|..].
    - intros b Hb. rewrite !elem_of_list_to_set, HW. split; [tauto|]. intros Hbl. split; [done|].
      destruct (so_waiting _ _ _ _ Hs b) as ([He|[He|He]] & _); [by rewrite app_nil_r | congruence..].
    - intros b Hb. rewrite !elem_of_list_to_set, HR. split; [tauto|]. intros Hbl. split; [done|].
      by apply (so_running _ _ _ _ Hs). }
  change (waiting (s <| running := without (list_to_set R) (running s) |>)) with (waiting s). rewrite Heq. done.
Qed.

Lemma sched_finish_ok s ids st : status_is_finished st = true -> sched_ok s [] -> prev_ok s [] ->
  exists s', sched_finish ids st s = Ok s' /\ sched_ok s' [] /\ prev_ok s' [] /\
    (forall rid, find_request rid s' = if bool_decide (rid ∈ ids) then None else find_request rid s) /\
    (forall rid, rid ∈ Scheduler.finished_req_ids s' <->
       rid ∈ Scheduler.finished_req_ids s \/ rid ∈ ids /\ is_Some (find_request rid s)) /\
    running s' = List.filter (fun a => bool_decide (rid_of s a ∉ ids)) (running s) /\
    waiting s' = List.filter (fun a => bool_decide (rid_of s a ∉ ids)) (waiting s) /\
    forall rid a, find_request rid s' = Some a -> req s' a = req s a.
Proof.
  intros Hst Hs Hprev. rewrite (sched_finish_shape s ids st Hst Hs). set (l := valid_requests _ s).
  destruct (valid_requests_ok s (elements (list_to_set ids : gset string)) Hs) as [Hnd Hval]; [apply NoDup_elements|]. fold l in Hnd, Hval.
  assert (Hids : forall rid, rid ∈ elements (list_to_set ids : gset string) <-> rid ∈ ids).
  { intros rid. by rewrite elem_of_elements, elem_of_list_to_set. }
  setoid_rewrite Hids in Hval.
  destruct (finish_loop_ok st l Hst s Hs Hnd) as (s' & Hrun & Hs' & [[g0 g1] g2 g3 g4 g5 g6]).
  { intros a (rid & _ & Hf)%Hval. pose proof (find_live _ _ _ _ _ _ Hs Hf) as Hin. by rewrite app_nil_r in Hin. }
  assert (Hfind : forall rid, find_request rid s' = if bool_decide (rid ∈ ids) then None else find_request rid s).
  { intros rid. rewrite g2. destruct (find_request rid s) as [a|] eqn:Hf; [|by destruct (bool_decide _)].
    rewrite (bool_decide_ext (a ∈ l) (rid ∈ ids)); [done|]. rewrite Hval. split; [|by exists rid].
    intros (rid' & Hrid' & Hf'). destruct (so_obj _ _ _ _ Hs _ _ Hf) as [<- _], (so_obj _ _ _ _ Hs _ _ Hf') as [<- _]. done. }
  assert (Hreq : forall rid a, find_request rid s' = Some a -> req s' a = req s a).
  { intros rid a Hf. apply g4. rewrite g2 in Hf. destruct (find_request rid s) as [b|]; [|done].
    destruct (bool_decide_reflect (b ∈ l)); [done|]. by injection Hf as <-. }
  assert (Hleft : forall q, (forall b, b ∈ q -> b ∈ running s ++ waiting s) ->
    without (list_to_set l) q = List.filter (fun a => bool_decide (rid_of s a ∉ ids)) q).
  { intros q Hq. unfold without. apply List.filter_ext_in. intros b Hb%list_elem_of_In. apply bool_decide_ext.
    assert (Hin : b ∈ running s ++ waiting s ++ []) by (rewrite app_nil_r; by apply Hq).
    destruct (ok_find _ _ _ _ _ Hs Hin) as [Hf _]. rewrite elem_of_list_to_set, Hval. split; intros Hn Hc; apply Hn; [by exists (rid_of s b)|].
    destruct Hc as (rid & Hr & Hf'). by destruct (so_obj _ _ _ _ Hs _ _ Hf') as [-> _]. }
  exists s'. split; [exact Hrun|]. split; [done|]. split; [|split; [done|split; [|split; [|split; [|done]]]]].
  - intros a Ha Hsa. rewrite g5.
    assert (Ha' : a ∈ waiting s /\ a ∉ (list_to_set l : gset Z)) by (rewrite app_nil_r, g1, elem_of_without_ids in Ha; exact Ha).
    destruct Ha' as [Haw Hal%not_elem_of_list_to_set]. unfold rid_of in *. rewrite g4 in * by done.
    apply Hprev; [by rewrite app_nil_r | done].
  - intros rid. rewrite g3, elem_of_union, elem_of_list_to_set, list_elem_of_fmap. split; (intros [Hin|Hin]; [by left|right]).
    + destruct Hin as (a & -> & (rid' & Hr & Hf)%Hval). destruct (so_obj _ _ _ _ Hs _ _ Hf) as [-> _]. by split; [|exists a].
    + destruct Hin as (Hr & a & Hf). exists a. split; [symmetry; by apply (so_obj _ _ _ _ Hs)|]. apply Hval. by exists rid.
  - rewrite g0. apply Hleft. intros b Hb. apply elem_of_app. by left.
  - rewrite g1. apply Hleft. intros b Hb. apply elem_of_app. by right.
Qed.

(** ** Stop reasons and scores *)

(** Nothing but parts of objects that the invariant does not look at, and scores. *)
Lemma ok_objects s s' :
  sched_ok s [] -> prev_ok s [] -> s' = s <| store := store s' |> <| sched_trace_scores := sched_trace_scores s' |> ->
  (forall b, core_view (req s' b) = core_view (req s b)) -> sched_ok s' [] /\ prev_ok s' [].
Proof.
  intros Hs Hprev He Hv. split.
  - by eapply ok_views; [exact Hs|rewrite He..|].
  - intros a Ha Hsa. assert (Hw : waiting s' = waiting s) by (by rewrite He).
    assert (Hp : prev_step_scheduled_req_ids s' = prev_step_scheduled_req_ids s) by (by rewrite He).
    pose proof (f_equal status (Hv a)) as Hst. pose proof (f_equal request_id (Hv a)) as Hid. cbn in Hst, Hid.
    unfold rid_of. rewrite Hp, Hid. apply Hprev; [by rewrite <- Hw | congruence].
Qed.

Lemma sched_mark_same ids reason s : sched_mark ids reason s = s <| store := store (sched_mark ids reason s) |>.
Proof.
  unfold sched_mark. revert s. induction ids as [|rid ids IH]; intros s; cbn [fold_left]; [by destruct s|].
  destruct (find_request rid s) as [a|]; [|apply IH]. destruct (is_finished (req s a)); [apply IH|].
  etrans; [apply IH|]. done.
Qed.

Lemma sched_mark_ok s ids reason :
  sched_ok s [] -> prev_ok s [] -> sched_ok (sched_mark ids reason s) [] /\ prev_ok (sched_mark ids reason s) [].
Proof.
  intros Hs Hprev. apply (ok_objects s); try done.
  - rewrite sched_mark_same at 1. pose proof (sched_mark_same ids reason s) as Heq.
    assert (Hts : sched_trace_scores (sched_mark ids reason s) = sched_trace_scores s) by (by rewrite Heq). rewrite Hts. by destruct s.
  - apply (proj2 (sched_mark_views core_view ids reason s ltac:(done))).
Qed.

Lemma sched_update_scores_same scores s : sched_update_scores scores s =
  s <| store := store (sched_update_scores scores s) |> <| sched_trace_scores := sched_trace_scores (sched_update_scores scores s) |>.
Proof.
  unfold sched_update_scores. revert s. induction scores as [|p scores IH]; intros s; cbn [fold_left]; [by destruct s|].
  set (s1 := s <| sched_trace_scores := _ |>). destruct (find_request p.1 s1) as [a|]; (etrans; [apply IH|done]).
Qed.

Lemma sched_update_scores_ok s scores :
  sched_ok s [] -> prev_ok s [] -> sched_ok (sched_update_scores scores s) [] /\ prev_ok (sched_update_scores scores s) [].
Proof.
  intros Hs Hprev. apply (ok_objects s); try done.
  - apply sched_update_scores_same.
  - apply (proj2 (sched_update_scores_views core_view scores s ltac:(done))).
Qed.
End Ops.
