(* ===== verification/SchedulerHarvest.v ===== *)
(** * The scheduler takes in the model's output

    [update_from_output] for text requests with prefix caching: each scheduled
    request gets the token the model sampled for it, a request that stops is
    freed, and its client is told. *)

From S2P Require Import Prelude PyDict PyList PyInt KVSpec PyStr PyFloat Request KVHash BlockPool.
From S2P Require Import KVManagers KVCoordinator KVCacheManager KVCacheProps KVService.
From S2P Require Import RequestQueue EncoderCache TraceTree Outputs Scheduler Schedule SchedulerUpdate.
From S2P Require Import SchedulerLaws SchedulerInv SchedulerSteps SchedulerOps.
#[local] Open Scope Z_scope.

(** What the grammar manager promises: it advances only requests with
    structured output, and takes their tokens. *)
Class StructuredOutputLaws (M : Type) `{StructuredOutput M} := {
  law_should_advance : forall r m m', som_should_advance r m = (true, m') ->
    use_structured_output r = true /\ forall toks, exists m2, som_accept_tokens r toks m' = Ok m2;
}.

(** ** One request *)

Section Request.
Context (hash_function : HashInput -> BlockHash) (NONE_HASH : BlockHash) (bs : Z) (cfg : SchedulerConfig).
Hypothesis Hbs : 0 < bs.
Hypothesis Hinj : Inj eq eq hash_function.
Hypothesis Hseed : forall x, hash_function x <> NONE_HASH.
Hypothesis Hnonempty : forall x, hash_function x <> EmptyString.
Abbreviation hasher := (request_block_hasher hash_function NONE_HASH bs).
Abbreviation len := (sched_max_model_len cfg).

(** A request whose limits leave [min_tokens] room, and whose hashes are those
    of its tokens. *)
Record generates (r : Request) : Prop := {
  ge_tokens : tokens_ok r;
  ge_sampling : pooling_params r = None /\ exists sp, sampling_params r = Some sp /\
    min_tokens sp <= max_tokens r /\ num_prompt_tokens r + min_tokens sp <= len;
  ge_chain : chain_ok hash_function NONE_HASH bs r;
}.

Lemma NoDup_hash_chain r n : NoDup (hash_chain hash_function NONE_HASH bs r n).
Proof.
  apply NoDup_alt. intros i j h Hi Hj.
  apply (hash_chain_lookup hash_function NONE_HASH bs) in Hi as [_ Hi], Hj as [_ Hj]. subst h.
  by destruct (chain_node_inj hash_function NONE_HASH bs Hinj Hseed Hnonempty r r i j Hj) as [-> _].
Qed.

Lemma chain_hashes r : chain_ok hash_function NONE_HASH bs r ->
  py_len (Request.block_hashes r) = num_tokens r / bs /\ NoDup (Request.block_hashes r).
Proof.
  intros [_ _ ->]. split; [|apply NoDup_hash_chain]. unfold py_len. rewrite length_hash_chain. unfold num_full_blocks.
  rewrite Z2Nat.id; [done|]. apply Z.div_pos; [unfold num_tokens, py_len; lia | done].
Qed.

(** A text request as the constructor makes it, within the limits. *)
Record text_args (a : RequestArgs) : Prop := {
  ta_prompt : exists ids, ra_prompt_token_ids a = Some ids /\ 0 < py_len ids < len /\
    exists sp mt, ra_sampling_params a = Some sp /\ sp_max_tokens sp = Some mt /\ 0 < mt /\
      min_tokens sp <= mt /\ py_len ids + min_tokens sp <= len;
  ta_text : ra_pooling_params a = None /\ ra_prompt_embeds a = None /\ ra_mm_features a = None;
}.

Lemma new_text_request now a r : new_request (Some hasher) now a = Ok r -> text_args a ->
  request_ok len bs r /\ generates r /\ (status r = WAITING \/ status r = WAITING_FOR_FSM) /\
  num_computed_tokens r = 0 /\ request_id r = ra_request_id a.
Proof.
  intros Hr [(ids & Hids & Hlen & sp & mt & Hsp & Hmt & Hpos & Hmin & Hroom) (Hpool & Hemb & Hmm)].
  pose proof (new_request_tokens _ _ _ _ Hr) as Ht.
  assert (Hf : mm_features r = [] /\ spec_token_ids r = [] /\ num_output_placeholders r = 0 /\ all_token_ids r = ids /\
    num_prompt_tokens r = py_len ids /\ max_tokens r = mt /\ num_computed_tokens r = 0 /\ pooling_params r = None /\
    sampling_params r = Some sp /\ (status r = WAITING \/ status r = WAITING_FOR_FSM) /\ request_id r = ra_request_id a).
  { clear Ht. unfold new_request, init_limits, prompt_length in Hr. rewrite Hids, Hemb, Hpool, Hsp, Hmm, Hmt in Hr. cbn -[request_block_hasher] in Hr.
    inv_ok. cbn. repeat (split; [done|]). split; [|done].
    destruct (structured_outputs sp) as [c|]; [destruct (all_constraints_none c)|]; auto. }
  destruct Hf as (f1 & f2 & f3 & f4 & f5 & f6 & f7 & f8 & f9 & f10 & f11).
  pose proof (new_request_chain_ok _ _ _ Hbs _ _ _ Hr f1) as Hc. pose proof (chain_hashes _ Hc) as Hh.
  assert (Hn : num_tokens r = py_len ids) by (unfold num_tokens; by rewrite f4).
  split; [split; try done; rewrite ?Hn, ?f5, ?f6, ?f7; lia|]. split; [|done]. split; [done| |done].
  split; [done|]. exists sp. by rewrite f6, f5.
Qed.

(** None of this depends on the fields that scheduling and telling may write. *)
Definition fixed_view (r : Request) : Request := core_view (request_view r).

Lemma generates_view r r' : fixed_view r' = fixed_view r -> generates r -> generates r'.
Proof.
  intros Hv [g1 [g2 g3] [g4 g5 g6]].
  assert (He : all_token_ids r' = all_token_ids r ++ [] /\ lora_request r' = lora_request r /\ cache_salt r' = cache_salt r /\
    prompt_embeds r' = prompt_embeds r /\ tokens_ok r' /\ pooling_params r' = None /\ sampling_params r' = sampling_params r /\
    max_tokens r' = max_tokens r /\ num_prompt_tokens r' = num_prompt_tokens r /\ mm_features r' = [] /\
    has_block_hasher r' = true /\ Request.block_hashes r' = Request.block_hashes r).
  { rewrite app_nil_r. clear g3 g6. destruct r, r'. unfold fixed_view, request_view, core_view in Hv. cbn in Hv. injection Hv. intros. subst. done. }
  destruct He as (e1 & e2 & e3 & e4 & e5 & e6 & e7 & e8 & e9 & e10 & e11 & e12).
  assert (Hn : num_full_blocks bs r' = num_full_blocks bs r) by (unfold num_full_blocks, num_tokens; by rewrite e1, app_nil_r).
  split; [done| |].
  - by rewrite e7, e8, e9.
  - split; [done..|]. rewrite e12, g6, Hn. symmetry.
    by apply (hash_chain_stable _ _ _ Hbs r r' []), num_full_blocks_tokens.
Qed.

(** The fields a new token leaves alone. *)
Definition token_view (r : Request) : Request :=
  r <| status := WAITING |> <| Request.stop_reason := None |> <| Request.output_token_ids := [] |> <| all_token_ids := [] |>
    <| Request.block_hashes := [] |>.

Lemma append_one t r :
  generates r -> exists r1, append_output_token_ids (Some hasher) [t] r = Ok r1 /\ chain_ok hash_function NONE_HASH bs r1 /\
    tokens_ok r1 /\ all_token_ids r1 = all_token_ids r ++ [t] /\ Request.output_token_ids r1 = Request.output_token_ids r ++ [t] /\
    token_view r1 = token_view r /\ status r1 = status r.
Proof.
  intros [h1 _ h3]. destruct (append_chain_ok hash_function NONE_HASH bs Hbs [t] r h3) as (r1 & Hr1 & Hc1 & Ht1).
  exists r1. split; [done|]. split; [done|]. destruct (append_output_tokens _ _ _ _ Hr1 h1) as [Hok Hout].
  split; [done|]. split; [done|]. split; [done|]. unfold append_output_token_ids in Hr1.
  apply extend_block_hashes_frame in Hr1. rewrite Hr1. done.
Qed.

(** One token: it is appended, and the request either stops or still has room. *)
Lemma one_token_ok t r :
  request_ok len bs r -> generates r -> is_finished r = false ->
  exists stopped r', append_until_stop cfg (Some hasher) [] [t] r = Ok ([t], stopped, r') /\
    all_token_ids r' = all_token_ids r ++ [t] /\ token_view r' = token_view r /\
    if stopped then is_finished r' = true /\ is_Some (get_finished_reason r')
    else request_ok len bs r' /\ generates r' /\ status r' = status r.
Proof.
  intros Hok Hg Hfin. destruct (append_one t r Hg) as (r1 & Hr1 & Hc1 & Ht1 & Ha1 & Ho1 & Hv1 & Hs1).
  pose proof Hg as [_ [Hpool (sp & Hsp & Hmin & Hroom)] _].
  assert (Hsame : pooling_params r1 = pooling_params r /\ sampling_params r1 = sampling_params r /\ max_tokens r1 = max_tokens r /\
    num_prompt_tokens r1 = num_prompt_tokens r /\ num_computed_tokens r1 = num_computed_tokens r /\
    mm_features r1 = mm_features r /\ spec_token_ids r1 = spec_token_ids r /\ num_output_placeholders r1 = num_output_placeholders r).
  { clear -Hv1. destruct r, r1. unfold token_view in Hv1. cbn in Hv1. injection Hv1. intros. by subst. }
  destruct Hsame as (e1 & e2 & e3 & e4 & e5 & e6 & e7 & e8).
  destruct (check_stop_verdict r1 len sp (Request.output_token_ids r) t) as (b & r2 & Hcheck & Hb); [by rewrite e1 | by rewrite e2 | done|].
  pose proof (check_stop_frame _ _ _ _ _ Hcheck) as Hframe. pose proof (check_stop_finished _ _ _ _ _ Hcheck) as Hverdict.
  exists b, r2. cbn [append_until_stop]. rewrite Hr1. bind_ok. rewrite Hcheck. bind_ok.
  assert (Hall : all_token_ids r2 = all_token_ids r ++ [t]) by (rewrite Hframe; exact Ha1).
  assert (Hview : token_view r2 = token_view r) by (rewrite Hframe, <- Hv1; done).
  split; [by destruct b|]. split; [done|]. split; [done|]. destruct b.
  - unfold get_finished_reason, is_finished. by destruct Hverdict as [->| ->].
  - subst r2. pose proof (tokens_ok_num_tokens r1 Ht1) as Hn1.
    assert (Hlimits : num_tokens r1 < len /\ num_output_tokens r1 < max_tokens r).
    { destruct (Z.lt_ge_cases (num_output_tokens r1) (min_tokens sp)) as [Hlt|Hge]; [rewrite e4 in Hn1; lia|].
      destruct (Z.lt_ge_cases (num_tokens r1) len) as [Hl|Hl]; [|exfalso; enough (false = true) by done; apply Hb; auto].
      destruct (Z.lt_ge_cases (num_output_tokens r1) (max_tokens r1)) as [Hm|Hm]; [rewrite <- e3; lia|].
      exfalso; enough (false = true) by done; apply Hb; auto. }
    destruct Hok as [r1' r2' r3' r4' r5' r6'].
    assert (Hlen : num_tokens r1 = num_tokens r + 1) by (unfold num_tokens, py_len; rewrite Ha1, length_app; cbn; lia).
    split; [|split; [|exact Hs1]].
    + split; [by rewrite e6 | by rewrite e7, e8 | lia | rewrite e3, e4, Hn1, e4; lia | rewrite e5, Hlen; lia | by apply chain_hashes].
    + split; [done| |done]. rewrite e1. split; [done|]. exists sp. by rewrite e2, e3, e4.
Qed.
End Request.

(** ** The scheduled requests *)

(** The tokens the model sampled for a request. *)
Definition generated (mo : ModelRunnerOutput) (rid : string) : list Z :=
  match dget rid (req_id_to_index mo), sampled_token_ids mo with
  | Some i, (_ :: _) as l => match py_index l i with Ok toks => toks | Raise _ => [] end
  | _, _ => []
  end.

(** The model's output for one scheduled text request: a row, with at most one
    token, and no prompt logprobs unless there is a token. *)
Definition row_ok (mo : ModelRunnerOutput) (rid : string) : Prop :=
  exists i, dget rid (req_id_to_index mo) = Some i /\
    (sampled_token_ids mo = [] \/ py_index (sampled_token_ids mo) i = Ok (generated mo rid)) /\
    (length (generated mo rid) <= 1)%nat /\
    (generated mo rid = [] -> mjoin (dget rid (prompt_logprobs_dict mo)) = None).

(** Model output without pooling, connectors, logprobs and NaN counts. *)
Record plain_output (mo : ModelRunnerOutput) : Prop := {
  po_pooler : pooler_output mo = [];
  po_connector : kv_connector_output mo = None;
  po_logprobs : mro_logprobs mo = None;
  po_nans : mro_num_nans_in_logits mo = None;
}.

Lemma without_snoc l a q : without (list_to_set (l ++ [a])) q = without {[a]} (without (list_to_set l) q).
Proof. rewrite without_without. apply without_ext. intros b _. set_solver. Qed.

Section Harvest.
Context {C E M : Type} `{KVConnector C, ECConnector E, StructuredOutput M, !StructuredOutputLaws M}.
Context (use_int_hashes : bool) (cfg : SchedulerConfig).
Context (hash_function : HashInput -> BlockHash) (NONE_HASH : BlockHash) (bs : Z).
Context (Hbs : 0 < bs) (Hinj : Inj eq eq hash_function) (Hseed : forall x, hash_function x <> NONE_HASH).
Context (Hnonempty : forall x, hash_function x <> EmptyString).
Context (Hasync : async_scheduling cfg = false).
Context (so : SchedulerOutput) (mo : ModelRunnerOutput) (Hplain : plain_output mo).
Context (Hdrafts : scheduled_spec_decode_tokens so = []).
Context (scores : option (dict string (option float))) (histories : option (dict string (list float))).

Abbreviation hasher := (request_block_hasher hash_function NONE_HASH bs).
Abbreviation generates := (generates hash_function NONE_HASH bs cfg).
Abbreviation sched_t := (Scheduler FCFSRequestQueue C E M).
Abbreviation harvest_t := (Harvest (Q := FCFSRequestQueue) (C := C) (E := E) (M := M)).
Abbreviation len := (sched_max_model_len cfg).
Abbreviation sched_ok := (sched_ok cfg bs).
Implicit Types (s : sched_t) (h : harvest_t) (a : Z) (rid : string).

(** The queues without the requests that have stopped. *)
Definition seen h : sched_t :=
  hide (list_to_set (stopped_running h)) (list_to_set (stopped_preempted h)) (hv_sched h).

Record harvest_ok h : Prop := {
  hi_sched : sched_ok (seen h) [];
  hi_prev : prev_ok (seen h) [];
  hi_gen : forall rid a, find_request rid (hv_sched h) = Some a -> generates (req (hv_sched h) a);
}.

(** An object replaced by one that looks the same. *)
Lemma replace_view {B} (g : Request -> B) s a r b :
  g r = g (req s a) -> g (req (update_req a (fun _ => r) s) b) = g (req s b).
Proof.
  intros Hg. rewrite req_update. case_decide as Hab; [subst b|done]. unfold req in *. destruct (store s !! a); cbn in *; [done|done].
Qed.

Lemma take_events_view r : core_view (Request.take_events r).2 = core_view r.
Proof. unfold Request.take_events. by destruct (events r). Qed.

Lemma sample_logprobs_none r i : sample_logprobs mo r i = Ok None.
Proof. unfold sample_logprobs. rewrite (po_logprobs _ Hplain). by destruct (sampling_params r). Qed.

(** What the output for the client changes: the grammar, the events of the request, and the outputs. *)
Record told rid a (toks : list Z) h h' : Prop := {
  td_lists : stopped_running h' = stopped_running h /\ stopped_preempted h' = stopped_preempted h;
  td_sched : hv_sched h' = hv_sched h <| structured_output_manager := structured_output_manager (hv_sched h') |>
    <| store := store (hv_sched h') |>;
  td_view : forall b, core_view (req (hv_sched h') b) = core_view (req (hv_sched h) b);
  td_req : forall b, b <> a -> req (hv_sched h') b = req (hv_sched h) b;
  td_new : exists news, Forall2 (fun _ o => eco_request_id o = rid /\ new_token_ids o = toks /\
      eco_finish_reason o = get_finished_reason (req (hv_sched h) a)) (match toks with [] => [] | _ => [rid] end) news /\
    forall c, dget_or c [] (hv_outputs h') =
      dget_or c [] (hv_outputs h) ++ (if decide (client_index (req (hv_sched h) a) = c) then news else []);
}.

Lemma tell_ok rid a toks i h :
  (toks = [] -> mjoin (dget rid (prompt_logprobs_dict mo)) = None) ->
  exists h', (lp ← sample_logprobs mo (req (hv_sched h) a) i;
              s ← advance_grammar a toks (hv_sched h);
              emit_output mo scores histories rid a toks lp None None (h <| hv_sched := s |>)) = Ok h' /\
    told rid a toks h h'.
Proof.
  intros Hpl. rewrite sample_logprobs_none. bind_ok. destruct toks as [|t toks].
  - cbn [advance_grammar]. bind_ok. unfold emit_output. cbn [py_len length Z.of_nat].
    change (py_len [] =? 0) with true. rewrite !bool_decide_eq_false_2 by (by intros [? [=]]). cbn [negb orb].
    rewrite bool_decide_eq_true_2 by (by apply Hpl). cbn [py_assert]. bind_ok. eexists. split; [reflexivity|].
    split; try done; [by destruct h as [[] ? ? ? ?]|]. exists []. split; [done|]. intros c. case_decide; by rewrite app_nil_r.
  - unfold advance_grammar. cbn zeta. destruct (som_should_advance (req (hv_sched h) a) (structured_output_manager (hv_sched h)))
      as [advance m] eqn:Hadv.
    assert (Hgram : exists m', (if advance then
        _ ← py_assert (use_structured_output (req (hv_sched h) a));
        m ← som_accept_tokens (req (hv_sched h) a) (t :: toks) m;
        Ok (hv_sched h <| structured_output_manager := m |>)
      else Ok (hv_sched h <| structured_output_manager := m |>)) = Ok (hv_sched h <| structured_output_manager := m' |>)).
    { destruct advance; [|by eexists]. destruct (law_should_advance _ _ _ Hadv) as [Huse Hacc].
      rewrite Huse. cbn [py_assert]. bind_ok. destruct (Hacc (t :: toks)) as [m2 ->]. bind_ok. by eexists. }
    destruct Hgram as [m' Hgram]. cbn beta iota zeta in Hgram |- *.
    match goal with |- context [if advance then ?x else ?y] =>
      replace (if advance then x else y) with (Ok (A := sched_t) (hv_sched h <| structured_output_manager := m' |>)) by (symmetry; exact Hgram) end.
    bind_ok. set (s := hv_sched h <| structured_output_manager := m' |>). unfold emit_output.
    change (hv_sched (h <| hv_sched := s |>)) with s. change (req s a) with (req (hv_sched h) a).
    change (negb (py_len (t :: toks) =? 0)) with true. cbn [orb]. cbn zeta.
    destruct (Request.take_events (req (hv_sched h) a)) as [evs r'] eqn:Hev.
    pose proof (take_events_view (req (hv_sched h) a)) as Hv. rewrite Hev in Hv. cbn [snd] in Hv.
    eexists. split; [reflexivity|]. split; [done | done | | |].
    + intros b. exact (replace_view core_view s a r' b Hv).
    + intros b Hb. exact (req_update_ne s a b _ (not_eq_sym Hb)).
    + eexists [_]. split; cycle 1.
      * intros c. cbn. unfold dget_or at 1. rewrite dget_dset. destruct (decide (c = client_index (req (hv_sched h) a))) as [->|Hc].
        { rewrite decide_True by done. reflexivity. }
        rewrite decide_False by congruence. by rewrite app_nil_r.
      * by repeat constructor.
Qed.

(** A known request of the client, with a token to tell. *)
Definition speaks (c : Z) (s : sched_t) (rid : string) : bool :=
  match find_request rid s, generated mo rid with
  | Some a, _ :: _ => bool_decide (client_index (req s a) = c)
  | _, _ => false
  end.

(** The output that tells a request's tokens: it has a finish reason exactly when the request is gone. *)
Definition tells (s' : sched_t) (rid : string) (o : EngineCoreOutput) : Prop :=
  eco_request_id o = rid /\ new_token_ids o = generated mo rid /\
  (is_Some (eco_finish_reason o) <-> find_request rid s' = None).

(** What the requests of [L] have become. *)
Record outcome (L : list string) h h' : Prop := {
  oc_other : forall rid, rid ∉ L -> find_request rid (hv_sched h') = find_request rid (hv_sched h);
  oc_known : forall rid a, find_request rid (hv_sched h') = Some a -> find_request rid (hv_sched h) = Some a;
  oc_req : forall b, (forall rid, rid ∈ L -> find_request rid (hv_sched h) <> Some b) ->
    req (hv_sched h') b = req (hv_sched h) b;
  oc_finished : Scheduler.finished_req_ids (hv_sched h) ⊆ Scheduler.finished_req_ids (hv_sched h');
  oc_outputs : forall c, exists news, dget_or c [] (hv_outputs h') = dget_or c [] (hv_outputs h) ++ news /\
    Forall2 (tells (hv_sched h')) (List.filter (speaks c (hv_sched h)) L) news;
  oc_same : running (hv_sched h') = running (hv_sched h) /\ waiting (hv_sched h') = waiting (hv_sched h) /\
    pending_pruned_outputs (hv_sched h') = pending_pruned_outputs (hv_sched h) /\
    prev_step_scheduled_req_ids (hv_sched h') = prev_step_scheduled_req_ids (hv_sched h);
  oc_tokens : forall rid a, rid ∈ L -> find_request rid (hv_sched h) = Some a ->
    all_token_ids (req (hv_sched h') a) = all_token_ids (req (hv_sched h) a) ++ generated mo rid /\
    (find_request rid (hv_sched h') = Some a \/ rid ∈ Scheduler.finished_req_ids (hv_sched h'));
}.

Lemma outcome_nil h : outcome [] h h.
Proof.
  split; try done; [|intros rid a Hrid; by apply elem_of_nil in Hrid].
  intros c. exists []. by rewrite app_nil_r.
Qed.

Lemma outcome_cons rid L h h1 h' :
  harvest_ok h -> rid ∉ L -> outcome [rid] h h1 -> outcome L h1 h' -> outcome (rid :: L) h h'.
Proof.
  intros Hh Hrid [a1 a2 a3 a4 a5 (a6 & a7 & a8 & a9) a10] [b1 b2 b3 b4 b5 (b6 & b7 & b8 & b9) b10].
  assert (Hinj' : forall x y b, find_request x (hv_sched h) = Some b -> find_request y (hv_sched h) = Some b -> x = y).
  { intros x y b Hx Hy. destruct (so_obj _ _ _ _ (hi_sched _ Hh) x b Hx) as [<- _].
    by destruct (so_obj _ _ _ _ (hi_sched _ Hh) y b Hy) as [<- _]. }
  split.
  - intros x [Hx Hx']%not_elem_of_cons. rewrite b1, a1; [done| |done]. by rewrite list_elem_of_singleton.
  - auto.
  - intros b Hb. rewrite b3, a3; [done|..].
    + intros x ->%list_elem_of_singleton. apply Hb. by left.
    + intros x Hx Hf. apply (Hb x); [by right|]. by apply a2.
  - by etrans.
  - intros c. destruct (a5 c) as (n1 & e1 & F1), (b5 c) as (n2 & e2 & F2). exists (n1 ++ n2). rewrite e2, e1, app_assoc.
    split; [done|]. change (rid :: L) with ([rid] ++ L). rewrite List.filter_app. apply Forall2_app.
    + eapply Forall2_impl_in; [exact F1|]. intros x o Hx (t1 & t2 & t3). unfold tells. rewrite b1; [done|].
      apply list_elem_of_In, List.filter_In in Hx as [[<-|[]] _]. done.
    + replace (List.filter (speaks c (hv_sched h)) L) with (List.filter (speaks c (hv_sched h1)) L); [done|].
      apply List.filter_ext_in. intros x Hx%list_elem_of_In. assert (Hxr : x <> rid) by (by intros ->).
      unfold speaks. rewrite a1 by (by rewrite list_elem_of_singleton). destruct (find_request x (hv_sched h)) as [a|] eqn:Hfx; [|done].
      rewrite a3; [done|]. intros y ->%list_elem_of_singleton Hfy. by apply Hxr, (Hinj' x rid a).
  - split; [congruence|]. split; [congruence|]. split; congruence.
  - intros x a [->|Hx]%elem_of_cons Hf.
    + destruct (a10 rid a ltac:(by left) Hf) as (t1 & t2). rewrite (b1 rid Hrid).
      assert (Hreq : req (hv_sched h') a = req (hv_sched h1) a).
      { apply b3. intros y Hy Hfy. apply a2 in Hfy. by rewrite (Hinj' y rid a Hfy Hf) in Hy. }
      rewrite Hreq. split; [done|]. destruct t2; auto.
    + assert (Hxr : x <> rid) by (by intros ->). assert (Hf1 : find_request x (hv_sched h1) = Some a) by (by rewrite a1 by (by rewrite list_elem_of_singleton)).
      assert (Hreq : req (hv_sched h1) a = req (hv_sched h) a).
      { apply a3. intros y ->%list_elem_of_singleton Hfy. by apply Hxr, (Hinj' x rid a). }
      destruct (b10 x a Hx Hf1) as (t1 & t2). rewrite Hreq in t1. done.
Qed.

(** A step that finds nothing to do, or a request without a token. *)
Lemma outcome_same rid h : (forall a, find_request rid (hv_sched h) = Some a -> generated mo rid = []) -> outcome [rid] h h.
Proof.
  intros Hg. split; try done.
  - intros c. exists []. rewrite app_nil_r. split; [done|]. cbn. unfold speaks.
    destruct (find_request rid (hv_sched h)) as [a|]; [by rewrite (Hg a)|done].
  - intros x a ->%list_elem_of_singleton Hf. rewrite (Hg a Hf), app_nil_r. split; [done | by left].
Qed.

(** The invariant survives what the output for the client changes. *)
Lemma told_ok rid a toks h h' : harvest_ok h -> told rid a toks h h' -> harvest_ok h'.
Proof.
  intros [h1 h2 h3] [[l1 l2] ts tv _ _].
  assert (Hseen : seen h' = seen h <| structured_output_manager := structured_output_manager (hv_sched h') |>
    <| store := store (hv_sched h') |>) by (unfold seen; rewrite l1, l2, ts; done).
  assert (Hok : sched_ok (seen h') []) by (eapply ok_views; [exact h1|rewrite Hseen; done..|intros; apply tv]).
  split; [done| |].
  - intros b Hb Hst. assert (Hw : waiting (seen h') = waiting (seen h)) by (by rewrite Hseen).
    assert (Hp : prev_step_scheduled_req_ids (seen h') = prev_step_scheduled_req_ids (seen h)) by (by rewrite Hseen).
    pose proof (f_equal status (tv b)) as Hv. pose proof (f_equal request_id (tv b)) as Hid. cbn in Hv, Hid.
    unfold rid_of. rewrite Hp. change (req (seen h') b) with (req (hv_sched h') b) in *. rewrite Hid.
    change (req (hv_sched h) b) with (req (seen h) b). apply h2; [by rewrite <- Hw|].
    change (status (req (hv_sched h) b) = PREEMPTED). congruence.
  - intros x b Hf. assert (Hf0 : find_request x (hv_sched h) = Some b) by (rewrite ts in Hf; exact Hf).
    specialize (h3 x b Hf0). specialize (tv b).
    eapply generates_view; [done | | exact h3]. unfold fixed_view, request_view. unfold core_view in tv |- *.
    generalize dependent (req (hv_sched h') b). generalize (req (hv_sched h) b). clear.
    intros r r' Hv. destruct r, r'. cbn in *. injection Hv. intros. by subst.
Qed.

Lemma harvest_live h rid a : harvest_ok h -> find_request rid (hv_sched h) = Some a ->
  a ∈ running (seen h) ++ waiting (seen h) /\ rid_of (hv_sched h) a = rid /\ request_ok len bs (req (hv_sched h) a) /\
  generates (req (hv_sched h) a) /\ is_finished (req (hv_sched h) a) = false.
Proof.
  intros [h1 h2 h3] Hf. pose proof (find_live _ _ (seen h) [] rid a h1 Hf) as Hin. rewrite app_nil_r in Hin.
  destruct (so_obj _ _ _ _ h1 rid a Hf) as [Hr Hok]. split; [done|]. split; [done|]. split; [done|]. split; [by eapply h3|].
  exact (live_unfinished _ _ (seen h) a h1 Hin).
Qed.

(** The effect of a token on the request at [a], before its client is told. *)
Record ticked rid a (r : Request) (stopped : bool) h h2 : Prop := {
  tk_ok : harvest_ok h2;
  tk_outputs : hv_outputs h2 = hv_outputs h;
  tk_find : forall x, find_request x (hv_sched h2) = if stopped && bool_decide (x = rid) then None else find_request x (hv_sched h);
  tk_req : req (hv_sched h2) a = r /\ forall b, b <> a -> req (hv_sched h2) b = req (hv_sched h) b;
  tk_finished : Scheduler.finished_req_ids (hv_sched h) ⊆ Scheduler.finished_req_ids (hv_sched h2) /\
    (stopped = true -> rid ∈ Scheduler.finished_req_ids (hv_sched h2));
  tk_same : running (hv_sched h2) = running (hv_sched h) /\ waiting (hv_sched h2) = waiting (hv_sched h) /\
    pending_pruned_outputs (hv_sched h2) = pending_pruned_outputs (hv_sched h) /\
    prev_step_scheduled_req_ids (hv_sched h2) = prev_step_scheduled_req_ids (hv_sched h);
}.

Lemma keep_ok rid a r h :
  harvest_ok h -> find_request rid (hv_sched h) = Some a ->
  token_view r = token_view (req (hv_sched h) a) -> request_ok len bs r -> generates r -> status r = status (req (hv_sched h) a) ->
  ticked rid a r false h (h <| hv_sched := update_req a (fun _ => r) (hv_sched h) |>).
Proof.
  intros Hh Hf Hv Hok Hg Hst. destruct (harvest_live h rid a Hh Hf) as (Hin & Hrid & Hok0 & _ & _). pose proof Hh as [h1 h2 h3].
  pose proof (f_equal request_id Hv) as Hid. pose proof (f_equal num_computed_tokens Hv) as Hnc. cbn in Hid, Hnc.
  assert (Hreq : forall b, req (update_req a (fun _ => r) (hv_sched h)) b = if decide (a = b) then r else req (hv_sched h) b).
  { intros b. rewrite req_update. case_decide; [|done]. subst b. by rewrite (ok_stored _ _ _ _ Hok0). }
  assert (Hs : sched_ok (update_req a (fun _ => r) (seen h)) []).
  { apply ok_with_req; try done.
    - rewrite app_assoc. apply elem_of_app. by left.
    - intros Hr. rewrite Hst. by apply (so_running _ _ _ _ h1).
    - intros Hw. rewrite Hst, Hnc. destruct (so_waiting _ _ _ _ h1 a Hw) as (? & ? & _). done. }
  split; try done; [split; [exact Hs| |]|].
  - intros b Hb Hsb. change (b ∈ waiting (seen h) ++ []) in Hb.
    change (status (req (update_req a (fun _ => r) (hv_sched h)) b) = PREEMPTED) in Hsb.
    change (request_id (req (update_req a (fun _ => r) (hv_sched h)) b) ∉ prev_step_scheduled_req_ids (seen h)).
    rewrite Hreq in Hsb |- *. case_decide as Hab; [subst b; rewrite Hid; rewrite Hst in Hsb|]; by apply (h2 _ Hb).
  - intros x b Hfb. change (find_request x (hv_sched h) = Some b) in Hfb. change (generates (req (update_req a (fun _ => r) (hv_sched h)) b)).
    rewrite Hreq. case_decide; [done|]. by eapply h3.
  - split; [change (req (update_req a (fun _ => r) (hv_sched h)) a = r); by rewrite Hreq, decide_True|].
    intros b Hb. change (req (update_req a (fun _ => r) (hv_sched h)) b = req (hv_sched h) b). by rewrite Hreq, decide_False.
Qed.

Lemma stop_ok rid a r h :
  harvest_ok h -> find_request rid (hv_sched h) = Some a ->
  token_view r = token_view (req (hv_sched h) a) -> is_finished r = true ->
  exists h2, finish_stopped a true (status (req (hv_sched h) a)) (h <| hv_sched := update_req a (fun _ => r) (hv_sched h) |>)
      = Ok (None, h2) /\ ticked rid a r true h h2.
Proof.
  intros Hh Hf Hv Hfin. destruct (harvest_live h rid a Hh Hf) as (Hin & Hrid & Hok0 & _ & _). pose proof Hh as [h1 h2 h3].
  pose proof (f_equal request_id Hv) as Hid. pose proof (f_equal mm_features Hv) as Hmm. cbn in Hid, Hmm.
  destruct (finish_one_ok cfg bs (seen h) [] a (fun _ => r) h1 Hin) as (k & Hfree & Hs); [by rewrite Hid | done | rewrite Hmm; apply Hok0|].
  set (s1 := update_req a (fun _ => r) (hv_sched h)).
  assert (Hreq : forall b, req s1 b = if decide (a = b) then r else req (hv_sched h) b).
  { intros b. unfold s1. rewrite req_update. case_decide; [|done]. subst b. by rewrite (ok_stored _ _ _ _ Hok0). }
  assert (Hfree1 : free_request a s1 = Ok (None, freed a k s1)) by exact (Hfree (running (hv_sched h)) (waiting (hv_sched h))).
  assert (Hrid1 : rid_of s1 a = rid) by (unfold rid_of; rewrite Hreq, decide_True by done; rewrite Hid; exact Hrid).
  unfold finish_stopped. change (hv_sched (h <| hv_sched := s1 |>)) with s1. rewrite Hfree1. bind_ok.
  assert (Hgen : forall h2, hv_sched h2 = freed a k s1 -> sched_ok (seen h2) [] -> seen h2 = hide {[a]} {[a]} (freed a k (update_req a (fun _ => r) (seen h))) ->
    hv_outputs h2 = hv_outputs h -> ticked rid a r true h h2).
  { intros g Hg Hgs Hgseen Hgo. split; rewrite ?Hg; try done.
    - split; [done| |].
      + rewrite Hgseen. intros b Hb Hsb. change (b ∈ without {[a]} (waiting (seen h)) ++ []) in Hb. rewrite app_nil_r in Hb.
        apply elem_of_without_ids in Hb as [Hb Hne]. change (status (req s1 b) = PREEMPTED) in Hsb.
        change (request_id (req s1 b) ∉ prev_step_scheduled_req_ids (seen h)). rewrite Hreq in Hsb |- *.
        rewrite decide_False in * by set_solver. apply (h2 b); [by rewrite app_nil_r | done].
      + intros x b Hfb. rewrite Hg in Hfb |- *. change (dget x (ddel (rid_of s1 a) (requests (hv_sched h))) = Some b) in Hfb.
        change (generates (req s1 b)). rewrite Hrid1 in Hfb. destruct (decide (x = rid)) as [->|Hne].
        { rewrite dget_ddel_eq in Hfb by apply h1. done. }
        rewrite dget_ddel_ne in Hfb by done. rewrite Hreq, decide_False; [by eapply h3|]. intros ->.
        destruct (so_obj _ _ _ _ h1 x b Hfb) as [Hx _]. by rewrite <- Hx in Hne.
    - intros x. change (dget x (ddel (rid_of s1 a) (requests (hv_sched h))) = if true && bool_decide (x = rid) then None else find_request x (hv_sched h)).
      rewrite Hrid1. cbn [andb]. case_bool_decide as Hx; [subst x; apply dget_ddel_eq, h1 | by apply dget_ddel_ne].
    - split; [change (req s1 a = r); by rewrite Hreq, decide_True|].
      intros b Hb. change (req s1 b = req (hv_sched h) b). by rewrite Hreq, decide_False.
    - change (Scheduler.finished_req_ids (hv_sched h) ⊆ {[rid_of s1 a]} ∪ Scheduler.finished_req_ids (hv_sched h) /\
        (true = true -> rid ∈ {[rid_of s1 a]} ∪ Scheduler.finished_req_ids (hv_sched h))). rewrite Hrid1. set_solver. }
  pose proof (so_nodup _ _ _ _ h1) as Hnd. rewrite app_nil_r in Hnd. apply NoDup_app in Hnd as (_ & Hd & _).
  eexists. split; [reflexivity|]. case_bool_decide as Hrun.
  - change (status (req (seen h) a) = RUNNING) in Hrun. assert (Hw : a ∉ waiting (seen h)).
    { intros Hw. destruct (so_waiting _ _ _ _ h1 a) as ([He|[He|He]] & _); [by rewrite app_nil_r | congruence..]. }
    assert (Hseen : seen (h <| hv_sched := freed a k s1 |> <| stopped_running := stopped_running h ++ [a] |>)
      = hide {[a]} {[a]} (freed a k (update_req a (fun _ => r) (seen h)))).
    { change (queues (without (list_to_set (stopped_running h ++ [a])) (running (hv_sched h))) (waiting (seen h)) (freed a k s1)
        = queues (without {[a]} (running (seen h))) (without {[a]} (waiting (seen h))) (freed a k s1)).
      rewrite (without_none {[a]} (waiting (seen h))) by set_solver. by rewrite without_snoc. }
    apply Hgen; [done | exact (eq_ind_r (fun x => sched_ok x []) Hs Hseen) | exact Hseen | done].
  - change (status (req (seen h) a) <> RUNNING) in Hrun. assert (Hr : a ∉ running (seen h)).
    { intros Hr. by apply Hrun, (so_running _ _ _ _ h1). }
    assert (Hseen : seen (h <| hv_sched := freed a k s1 |> <| stopped_preempted := stopped_preempted h ++ [a] |>)
      = hide {[a]} {[a]} (freed a k (update_req a (fun _ => r) (seen h)))).
    { change (queues (running (seen h)) (without (list_to_set (stopped_preempted h ++ [a])) (waiting (hv_sched h))) (freed a k s1)
        = queues (without {[a]} (running (seen h))) (without {[a]} (waiting (seen h))) (freed a k s1)).
      rewrite (without_none {[a]} (running (seen h))) by set_solver. by rewrite without_snoc. }
    apply Hgen; [done | exact (eq_ind_r (fun x => sched_ok x []) Hs Hseen) | exact Hseen | done].
Qed.

(** The effect of a token and of telling the client, together. *)
Lemma ticked_told rid a r stopped t h h2 h' :
  harvest_ok h -> find_request rid (hv_sched h) = Some a -> generated mo rid = [t] ->
  all_token_ids r = all_token_ids (req (hv_sched h) a) ++ [t] -> token_view r = token_view (req (hv_sched h) a) ->
  (is_Some (get_finished_reason r) <-> stopped = true) ->
  ticked rid a r stopped h h2 -> told rid a [t] h2 h' -> harvest_ok h' /\ outcome [rid] h h'.
Proof.
  intros Hh Hf Hgen Htok Hv Hfr [k1 k2 k3 [k4 k4'] [k5 k5'] (k6 & k7 & k8 & k9)] Htold. split; [by eapply told_ok|].
  pose proof Htold as [[l1 l2] ts tv tr (news & tnew & tout)].
  assert (Hfind : forall x, find_request x (hv_sched h') = find_request x (hv_sched h2)) by (intros x; by rewrite ts).
  pose proof (f_equal client_index Hv) as Hcl. cbn in Hcl.
  split.
  - intros x Hx. rewrite Hfind, k3. rewrite list_elem_of_singleton in Hx. by rewrite (bool_decide_eq_false_2 (x = rid)), andb_false_r.
  - intros x b Hb. rewrite Hfind, k3 in Hb. by destruct (stopped && bool_decide (x = rid)).
  - intros b Hb. assert (b <> a) by (intros ->; by apply (Hb rid ltac:(by left))). by rewrite tr, k4'.
  - rewrite ts. exact k5.
  - intros c. rewrite tout, k2, k4, Hcl. eexists. split; [reflexivity|]. cbn. unfold speaks. rewrite Hf, Hgen.
    change (client_index (token_view (req (hv_sched h) a))) with (client_index (req (hv_sched h) a)).
    case_decide as Hc; [rewrite bool_decide_eq_true_2 by done | by rewrite bool_decide_eq_false_2].
    eapply Forall2_impl_in; [exact tnew|]. intros x o ->%list_elem_of_singleton (o1 & o2 & o3). unfold tells. rewrite Hgen.
    split; [done|]. split; [done|]. rewrite o3, k4, Hfr, Hfind, k3, bool_decide_eq_true_2, andb_true_r, Hf by done. by destruct stopped.
  - rewrite ts. done.
  - intros x b ->%list_elem_of_singleton Hb. assert (b = a) as -> by congruence. rewrite Hgen.
    pose proof (f_equal all_token_ids (tv a)) as Hta. cbn in Hta. rewrite Hta, k4, Htok. split; [done|].
    rewrite Hfind, k3, bool_decide_eq_true_2, andb_true_r by done.
    destruct stopped; [right; rewrite ts; by apply k5' | by left].
Qed.

Lemma told_silent rid a h h' : harvest_ok h -> find_request rid (hv_sched h) = Some a -> generated mo rid = [] ->
  told rid a [] h h' -> harvest_ok h' /\ outcome [rid] h h'.
Proof.
  intros Hh Hf Hgen Htold. split; [by eapply told_ok|]. destruct Htold as [[l1 l2] ts tv tr (news & ->%Forall2_nil_inv_l & tout)]. split.
  - intros x _. by rewrite ts.
  - intros x b Hb. by rewrite ts in Hb.
  - intros b Hb. apply tr. intros ->. by apply (Hb rid ltac:(by left)).
  - by rewrite ts.
  - intros c. exists []. rewrite tout. split; [by case_decide|]. cbn. unfold speaks. by rewrite Hgen, Hf.
  - by rewrite ts.
  - intros x b ->%list_elem_of_singleton Hb. assert (b = a) as -> by congruence. rewrite Hgen, app_nil_r.
    pose proof (f_equal all_token_ids (tv a)) as Hta. cbn in Hta. rewrite Hta. split; [done|]. left. by rewrite ts.
Qed.

Lemma row_tokens rid i : dget rid (req_id_to_index mo) = Some i ->
  (sampled_token_ids mo = [] \/ py_index (sampled_token_ids mo) i = Ok (generated mo rid)) ->
  (match sampled_token_ids mo with [] => Ok [] | l => py_index l i end) = Ok (generated mo rid).
Proof.
  intros Hi Hrow. unfold generated in *. rewrite Hi in *. destruct (sampled_token_ids mo); [done|]. destruct Hrow as [|Hrow]; [done|].
  by rewrite Hrow.
Qed.

Lemma harvest_one_ok rid n h : harvest_ok h -> 0 < n -> row_ok mo rid ->
  exists h', harvest_one use_int_hashes cfg (Some hasher) so mo scores histories ∅ (rid, n) h = Ok h' /\
    harvest_ok h' /\ outcome [rid] h h'.
Proof.
  intros Hh Hn (i & Hi & Hrow & Hlen & Hpl). unfold harvest_one. cbn [fst snd].
  assert (Hpos : (0 <? n) = true) by lia. rewrite Hpos. cbn [py_assert]. bind_ok.
  rewrite bool_decide_eq_false_2 by set_solver. destruct (find_request rid (hv_sched h)) as [a|] eqn:Hf.
  2:{ exists h. split; [done|]. split; [done|]. apply outcome_same. intros a. by rewrite Hf. }
  rewrite Hi. cbn [or_raise]. bind_ok. pose proof (row_tokens rid i Hi Hrow) as Hgen.
  match goal with |- context [match sampled_token_ids mo with [] => ?x | z :: l => @?y z l end] =>
    replace (match sampled_token_ids mo with [] => x | z :: l => y z l end) with (Ok (generated mo rid)) by exact (eq_sym Hgen) end.
  bind_ok. unfold dget_or. rewrite Hdrafts. cbn [dget default reject_drafts]. bind_ok.
  rewrite (po_pooler _ Hplain), (po_nans _ Hplain).
  destruct (generated mo rid) as [|t [|]] eqn:Htoks; [| |cbn in Hlen; lia]; bind_ok.
  - cbn [finish_stopped]. bind_ok. set (h2 := h <| hv_sched := hv_sched h |>).
    assert (Hh2 : h2 = h) by (unfold h2; by destruct h). rewrite Hh2.
    destruct (tell_ok rid a [] i h) as (h' & Htell & Htold); [by intros _; apply Hpl|]. exists h'. split; [exact Htell|].
    by eapply told_silent.
  - destruct (harvest_live h rid a Hh Hf) as (_ & _ & Hok & Hg & Hfin).
    destruct (one_token_ok hash_function NONE_HASH bs cfg Hbs Hinj Hseed Hnonempty t _ Hok Hg Hfin) as (stopped & r & Happ & Hall & Hv & Hcase).
    unfold update_request_with_output. rewrite Happ, Hasync. bind_ok.
    assert (Hstep : exists h2, finish_stopped a stopped (status (req (hv_sched h) a)) (h <| hv_sched := update_req a (fun _ => r) (hv_sched h) |>)
      = Ok (None, h2) /\ ticked rid a r stopped h h2 /\ (is_Some (get_finished_reason r) <-> stopped = true)).
    { destruct stopped.
      - destruct Hcase as [Hc1 Hc2]. destruct (stop_ok rid a r h Hh Hf Hv Hc1) as (h2 & Hr & Ht). by exists h2.
      - destruct Hcase as (Hc1 & Hc2 & Hc3). eexists. split; [reflexivity|]. split; [by apply keep_ok|].
        split; [|done]. unfold is_finished in Hfin. rewrite <- Hc3 in Hfin. unfold get_finished_reason. by destruct (status r); intros [? [=]]. }
    destruct Hstep as (h2 & Hfs & Htick & Hreason).
    match goal with |- context [finish_stopped ?x ?y ?z ?w] => replace (finish_stopped x y z w) with (Ok (@None opaque, h2)) by exact (eq_sym Hfs) end.
    bind_ok. destruct (tell_ok rid a [t] i h2) as (h' & Htell & Htold); [done|]. exists h'. split; [exact Htell|].
    by eapply ticked_told.
Qed.

Lemma harvest_loop_ok l : forall h, harvest_ok h -> NoDup l.*1 ->
  (forall rid n, (rid, n) ∈ l -> 0 < n /\ row_ok mo rid) ->
  exists h', for_each (harvest_one use_int_hashes cfg (Some hasher) so mo scores histories ∅) l h = Ok h' /\
    harvest_ok h' /\ outcome l.*1 h h'.
Proof.
  induction l as [|[rid n] l IH]; intros h Hh Hnd Hl; cbn [for_each].
  { exists h. split; [done|]. split; [done | apply outcome_nil]. }
  cbn in Hnd. apply NoDup_cons in Hnd as [Hnotin Hnd]. destruct (Hl rid n ltac:(by left)) as [Hn Hrow].
  destruct (harvest_one_ok rid n h Hh Hn Hrow) as (h1 & Hr1 & Hh1 & Ho1). rewrite Hr1. bind_ok.
  destruct (IH h1 Hh1 Hnd) as (h' & Hr' & Hh' & Ho'); [intros x m Hin; apply (Hl x m); by right|].
  exists h'. split; [exact Hr'|]. split; [done|]. by eapply outcome_cons.
Qed.

(** ** Delivery *)

(** What a client is sent. *)
Definition outputs_to (c : Z) (ecos : dict Z EngineCoreOutputs) : list EngineCoreOutput := from_option outputs [] (dget c ecos).

(** All that a dict of lists holds for a client. *)
Definition held_for {A} (c : Z) (d : dict Z (list A)) : list A := concat (List.filter (fun p => bool_decide (p.1 = c)) d).*2.

Lemma outputs_to_dset c k eco ecos : outputs_to c (dset k eco ecos) = if decide (c = k) then outputs eco else outputs_to c ecos.
Proof. unfold outputs_to. rewrite dget_dset. by case_decide. Qed.

Lemma outputs_to_harvest c outs : outputs_to c (dmap engine_core_outputs outs) = dget_or c [] outs.
Proof. unfold outputs_to, dget_or. rewrite dget_dmap. by destruct (dget c outs). Qed.

Lemma outputs_to_default c k ecos : outputs (dget_or k (engine_core_outputs []) ecos) = outputs_to k ecos /\
  outputs_to c (dset k (dget_or k (engine_core_outputs []) ecos) ecos) = outputs_to c ecos.
Proof.
  assert (Hd : outputs (dget_or k (engine_core_outputs []) ecos) = outputs_to k ecos) by (unfold dget_or, outputs_to; by destruct (dget k ecos)).
  split; [done|]. rewrite outputs_to_dset. case_decide; [by subst c|done].
Qed.

Lemma outputs_to_pruned c pruned : forall ecos, outputs_to c (add_pruned pruned ecos) = outputs_to c ecos ++ held_for c pruned.
Proof.
  unfold add_pruned. induction pruned as [|[k l] pruned IH]; intros ecos; cbn [fold_left fst snd]; [by rewrite app_nil_r|].
  rewrite IH. unfold held_for. cbn [List.filter fst]. case_bool_decide as Hk; cbn [fmap list_fmap concat snd].
  - subst k. rewrite app_assoc. f_equal. destruct l as [|x l]; [by rewrite app_nil_r|]. rewrite outputs_to_dset, decide_True by done.
    by rewrite <- (proj1 (outputs_to_default c c ecos)).
  - f_equal. destruct l as [|x l]; [done|]. by rewrite outputs_to_dset, decide_False.
Qed.

Lemma outputs_to_finished c fin : forall ecos, outputs_to c (add_finished fin ecos) = outputs_to c ecos.
Proof.
  unfold add_finished. induction fin as [|p fin IH]; intros ecos; cbn [fold_left]; [done|]. rewrite IH.
  destruct (outputs_to_default c p.1 ecos) as [h1 h2]. rewrite outputs_to_dset. case_decide; [subst c; exact h1 | done].
Qed.

Lemma outputs_to_stats c st ecos : outputs_to c (add_stats st ecos) = outputs_to c ecos.
Proof.
  unfold add_stats, outputs_to. destruct st as [st|]; [|done]. destruct ecos as [|[k eco] rest]; cbn [dget]; case_decide; done.
Qed.

(** Statistics apart, the manager stays what it is. *)
Lemma ok_kv_stats s k : sched_ok s [] -> coordinator k = coordinator (kv_cache_manager s) ->
  kv_good len bs k -> log_stats k = log_stats (kv_cache_manager s) -> sched_ok (s <| kv_cache_manager := k |>) [].
Proof.
  intros [h1 h2 h3 h4 h5 h6 h7 h8 h9 h10 h11] Hc Hg Hl. split; try done.
  - intros a Ha. destruct (h8 a Ha) as (w1 & w2 & w3). split; [done|]. split; [done|].
    unfold kv_fresh, managers in *. cbn. by rewrite Hc.
  - intros rid Hrid. specialize (h9 rid Hrid). unfold kv_fresh, managers in *. cbn. by rewrite Hc.
  - cbn. congruence.
Qed.

Lemma publish_ok s : sched_ok s [] -> publish_events s = Ok s.
Proof.
  intros Hs. unfold publish_events, kv_take_events. destruct (so_kv _ _ _ _ Hs) as (free & m & spec & Hk & _).
  unfold BlockPool.take_events. rewrite (kv_events _ _ Hk). cbn [negb].
  assert (Heq : s <| kv_cache_manager := with_pool (kv_pool (kv_cache_manager s)) (kv_cache_manager s) |> = s).
  { assert (Hp : with_pool (kv_pool (kv_cache_manager s)) (kv_cache_manager s) = kv_cache_manager s).
    { generalize (kv_cache_manager s) as k. intros k. destruct k. unfold with_pool, kv_pool. cbn. by destruct coordinator. }
    rewrite Hp. by destruct s. }
  rewrite Heq. rewrite (proj1 (so_plain _ _ _ _ Hs)). bind_ok. done.
Qed.

Lemma make_stats_ok s spec st : sched_ok s [] ->
  exists r k conn, sched_make_stats cfg spec st s
      = Ok (r, s <| kv_cache_manager := k |> <| connector_prefix_cache_stats := conn |>) /\
    sched_ok (s <| kv_cache_manager := k |>) [].
Proof.
  intros Hs. unfold sched_make_stats. pose proof (so_log _ _ _ _ Hs) as Hlog. unfold make_prefix_cache_stats. rewrite Hlog.
  destruct (log_sched_stats cfg) eqn:El; cbn [negb].
  - destruct (so_kv _ _ _ _ Hs) as (free & m & spec' & Hk & Hsg & Hb & Hl). pose proof Hsg as [s1 s2 s3 s4 s5 s6].
    destruct (s6 Hlog) as [x Hx]. rewrite Hx. cbn [or_raise]. bind_ok.
    eexists _, (kv_cache_manager s <| prefix_cache_stats := Some new_stats |>), _. split; [reflexivity|].
    apply ok_kv_stats; try done. exists free, m, spec'. split; [|split; [|done]].
    + destruct Hk as [k1 k2 k3 k4]. by split.
    + split; try done.
  - eexists _, (kv_cache_manager s), (connector_prefix_cache_stats s).
    assert (Heq : s <| kv_cache_manager := kv_cache_manager s |> = s) by (by destruct s).
    rewrite Heq. split; [|done]. by destruct s.
Qed.

(** Queues that lose the requests that are no longer known keep the others in order. *)
Definition keep_known (s' s : sched_t) (q : list Z) : list Z :=
  List.filter (fun a => bool_decide (is_Some (find_request (rid_of s a) s'))) q.

Lemma queues_keep_known s s' X Y : sched_ok s [] -> sched_ok s' [] ->
  (forall rid a, find_request rid s' = Some a -> find_request rid s = Some a) ->
  running s' = without X (running s) -> waiting s' = without Y (waiting s) ->
  running s' = keep_known s' s (running s) /\ waiting s' = keep_known s' s (waiting s).
Proof.
  intros Hs Hs' Hold Hr Hw. pose proof (so_nodup _ _ _ _ Hs) as Hnd. rewrite app_nil_r in Hnd. apply NoDup_app in Hnd as (_ & Hd & _).
  assert (Hknown : forall a, a ∈ running s ++ waiting s -> is_Some (find_request (rid_of s a) s') <-> a ∈ running s' ++ waiting s').
  { intros a Ha. destruct (ok_find _ _ s [] a Hs) as [Hf _]; [by rewrite app_nil_r|]. split.
    - intros [b Hb]. pose proof (Hold _ _ Hb) as Hb'. assert (b = a) as -> by congruence.
      pose proof (find_live _ _ _ _ _ _ Hs' Hb) as Hin. by rewrite app_nil_r in Hin.
    - intros Hin. destruct (ok_find _ _ s' [] a Hs') as [Hf' _]; [by rewrite app_nil_r|]. exists a.
      by destruct (so_obj _ _ _ _ Hs _ _ (Hold _ _ Hf')) as [-> _]. }
  split; [rewrite Hr at 1 | rewrite Hw at 1]; unfold without, keep_known; apply List.filter_ext_in; intros a Ha%list_elem_of_In;
    apply bool_decide_ext; (rewrite Hknown by (apply elem_of_app; auto)); rewrite elem_of_app, Hr, Hw, !elem_of_without_ids.
  - split; [by left; split|]. intros [[_ ?]|[Hin _]]; [done|]. by destruct (Hd a).
  - split; [by right; split|]. intros [[Hin _]|[_ ?]]; [|done]. by destruct (Hd a).
Qed.

(** What [update_from_output] promises. *)
Record updated s (ecos : dict Z EngineCoreOutputs) s' : Prop := {
  up_sched : sched_ok s' [];
  up_prev : prev_ok s' [];
  up_gen : forall rid a, find_request rid s' = Some a -> generates (req s' a);
  up_old : forall rid a, find_request rid s' = Some a -> find_request rid s = Some a;
  up_queues : running s' = keep_known s' s (running s) /\ waiting s' = keep_known s' s (waiting s);
  up_unscheduled : forall rid a, rid ∉ dkeys (num_scheduled_tokens so) -> find_request rid s = Some a ->
    find_request rid s' = Some a /\ req s' a = req s a;
  up_tokens : forall rid a, rid ∈ dkeys (num_scheduled_tokens so) -> find_request rid s = Some a ->
    all_token_ids (req s' a) = all_token_ids (req s a) ++ generated mo rid /\
    (find_request rid s' = Some a \/ rid ∈ Scheduler.finished_req_ids s');
  up_outputs : forall c, exists news, outputs_to c ecos = news ++ held_for c (pending_pruned_outputs s) /\
    Forall2 (tells s') (List.filter (speaks c s) (dkeys (num_scheduled_tokens so))) news;
  up_pending : pending_pruned_outputs s' = [];
}.

Lemma update_ok s :
  sched_ok s [] -> prev_ok s [] -> (forall rid a, find_request rid s = Some a -> generates (req s a)) ->
  dict_ok (num_scheduled_tokens so) ->
  (forall rid n, dget rid (num_scheduled_tokens so) = Some n -> 0 < n /\ row_ok mo rid) ->
  exists ecos s', sched_update_output use_int_hashes cfg (Some hasher) so mo scores histories s = Ok (ecos, s') /\ updated s ecos s'.
Proof.
  intros Hs Hprev Hgen Hd Hrows. unfold sched_update_output.
  assert (Hconn : connector_stats mo s = Ok (None, s)) by (unfold connector_stats; by rewrite (po_connector _ Hplain)).
  rewrite Hconn, (po_connector _ Hplain). bind_ok. cbn [from_option]. rewrite bool_decide_eq_true_2 by done. bind_ok.
  assert (Hseen0 : seen (mkHarvest s [] None [] []) = s) by apply hide_empty.
  destruct (harvest_loop_ok (num_scheduled_tokens so) (mkHarvest s [] None [] [])) as (h & Hrun & Hh & Ho).
  { split; rewrite ?Hseen0; try done. } { exact Hd. }
  { intros rid n Hin. apply Hrows. by apply elem_of_dget. }
  match goal with |- context [for_each ?f ?l ?x] => replace (for_each f l x) with (Ok h) by exact (eq_sym Hrun) end.
  bind_ok. destruct Ho as [o1 o2 o3 o4 o5 (o6 & o7 & o8 & o9) o10]. cbn [hv_sched hv_outputs] in *.
  assert (Hnd : NoDup (running (hv_sched h))).
  { rewrite o6. pose proof (so_nodup _ _ _ _ Hs) as Hnd. by apply NoDup_app in Hnd as (? & _). }
  rewrite drop_running_hide by done. rewrite drop_waiting_hide. bind_ok.
  change (hv_sched h <| running := without (list_to_set (stopped_running h)) (running (hv_sched h)) |> <| waiting := _ |>) with (seen h).
  rewrite (publish_ok (seen h)) by apply Hh. bind_ok.
  set (s2 := seen h <| pending_pruned_outputs := [] |>).
  set (ecos := add_pruned _ _).
  assert (Hs2 : sched_ok s2 []) by (by eapply ok_same; [apply Hh|..]).
  assert (Hfin : exists ecos2 s3, (match finished_req_ids_dict s2 with
      | Some fin => (add_finished fin ecos, s2 <| finished_req_ids_dict := Some [] |>)
      | None => (ecos, s2) end) = (ecos2, s3) /\ (forall c, outputs_to c ecos2 = outputs_to c ecos) /\
      s3 = s2 <| finished_req_ids_dict := finished_req_ids_dict s3 |>).
  { destruct (finished_req_ids_dict s2) as [fin|] eqn:Efin; eexists _, _; (split; [reflexivity|]); split; try done.
    intros c. apply outputs_to_finished. }
  destruct Hfin as (ecos2 & s3 & -> & Hdel & Hs3). 
  assert (Hs3' : sched_ok s3 []) by (eapply ok_same; [exact Hs2|rewrite Hs3; done..]).
  destruct (make_stats_ok s3 (hv_spec_stats h) None Hs3') as (st & k & conn & -> & Hs4). bind_ok.
  eexists _, _. split; [reflexivity|]. set (s4 := s3 <| kv_cache_manager := k |> <| connector_prefix_cache_stats := conn |>).
  assert (Hfind : forall rid, find_request rid s4 = find_request rid (hv_sched h)) by (intros rid; unfold s4; rewrite Hs3; done).
  assert (Hreq : forall a, req s4 a = req (hv_sched h) a) by (intros a; unfold s4; rewrite Hs3; done).
  assert (Hfids : Scheduler.finished_req_ids s4 = Scheduler.finished_req_ids (hv_sched h)) by (unfold s4; rewrite Hs3; done).
  split.
  - by eapply ok_same; [exact Hs4|..].
  - intros a Ha Hst. assert (Hw : waiting s4 = waiting (seen h)) by (unfold s4; rewrite Hs3; done).
    assert (Hp : prev_step_scheduled_req_ids s4 = prev_step_scheduled_req_ids (seen h)) by (unfold s4; rewrite Hs3; done).
    rewrite Hp. unfold rid_of. rewrite Hreq in Hst |- *. apply (hi_prev _ Hh); [by rewrite <- Hw | done].
  - intros rid a. rewrite Hfind, Hreq. apply Hh.
  - intros rid a. rewrite Hfind. apply o2.
  - apply (queues_keep_known s s4 (list_to_set (stopped_running h)) (list_to_set (stopped_preempted h))); [done | by eapply ok_same; [exact Hs4|..]|..].
    + intros rid a. rewrite Hfind. apply o2.
    + unfold s4. rewrite Hs3, <- o6. done.
    + unfold s4. rewrite Hs3, <- o7. done.
  - intros rid a Hrid Hf. rewrite Hfind, Hreq. rewrite o1 by done. split; [done|]. apply o3. intros x Hx Hfx.
    assert (x = rid) as ->; [|done]. destruct (so_obj _ _ _ _ Hs x a Hfx) as [<- _]. by destruct (so_obj _ _ _ _ Hs rid a Hf) as [<- _].
  - intros rid a Hrid Hf. rewrite Hfind, Hreq, Hfids. by apply o10.
  - intros c. destruct (o5 c) as (news & Hnews & HF). exists news. rewrite outputs_to_stats, Hdel. unfold ecos.
    rewrite outputs_to_pruned, outputs_to_harvest, Hnews. change (pending_pruned_outputs (seen h)) with (pending_pruned_outputs (hv_sched h)).
    rewrite o8. split; [done|]. eapply Forall2_impl; [exact HF|]. intros rid o (t1 & t2 & t3). split; [done|]. split; [done|].
    by rewrite Hfind.
  - unfold s4. rewrite Hs3. done.
Qed.
End Harvest.
