(* ===== verification/ScoreOrder.v ===== *)
(** * The order of running requests

    The Gambit policy sorts by the pair of the negated score and the arrival
    time, compared as tuples: a strict weak order as long as no component is
    NaN, so the sort puts nobody before someone with a higher score, or with the
    same score and an earlier arrival. *)

From Stdlib Require Import Sorted.
From S2P Require Import Prelude PyDict PyList PyInt KVSpec PyStr PyFloat Request TraceTree Outputs RequestQueue Scheduler.
#[local] Open Scope Z_scope.

(** Two numbers are equal when neither is less. *)
Lemma feq_flt x y : not_nan x -> not_nan y -> feq x y = negb (flt x y) && negb (flt y x).
Proof.
  intros Hx Hy. apply eq_true_iff_eq. rewrite andb_true_iff, !negb_true_iff.
  assert (Hf : forall a b, not_nan a -> not_nan b -> flt a b = false <-> ~ rank_lt (float_rank a) (float_rank b)).
  { intros a b Ha Hb. rewrite <- flt_rank by done. by destruct (flt a b). }
  rewrite !Hf by done. clear Hf. unfold rank_lt, not_nan, feq, SFeqb in *.
  destruct x as [sx|[]| |[] mx ex], y as [sy|[]| |[] my ey]; cbn; try done;
    try (split; [done | lia]); try (split; [lia | done]);
    destruct (Z.compare_spec ex ey) as [->| |];
    try change (Pos.compare_cont Eq mx my) with (mx ?= my)%positive;
    try destruct (Pos.compare_spec mx my) as [->| |]; cbn; split; intros; try done; lia.
Qed.

Definition proper_key (k : float * float) : Prop := not_nan k.1 /\ not_nan k.2.

(** Comparing tuples. *)
Lemma score_key_lt_spec x y : proper_key x -> proper_key y ->
  score_key_lt x y = flt x.1 y.1 || (negb (flt y.1 x.1) && flt x.2 y.2).
Proof.
  intros [Hx _] [Hy _]. unfold score_key_lt. rewrite feq_flt by done.
  destruct (flt x.1 y.1) eqn:E, (flt y.1 x.1) eqn:E2; cbn; try done. 
Qed.

#[export] Instance score_key_swo : SWO proper_key score_key_lt.
Proof.
  split.
  - intros a Ha. rewrite score_key_lt_spec by done. destruct Ha as [h1 h2]. by rewrite !(swo_irrefl (P := not_nan)).
  - intros a b c Ha Hb Hc. rewrite !score_key_lt_spec by done. destruct Ha as [a1 a2], Hb as [b1 b2], Hc as [c1 c2].
    rewrite !orb_true_iff, !andb_true_iff, !negb_true_iff. intros [h1|[h1 h2]] [k1|[k1 k2]].
    + left. by eapply (swo_trans (P := not_nan) a.1 b.1 c.1).
    + left. destruct (flt a.1 c.1) eqn:E; [done|]. by rewrite (swo_neg_trans (P := not_nan) a.1 c.1 b.1) in h1.
    + left. destruct (flt a.1 c.1) eqn:E; [done|]. by rewrite (swo_neg_trans (P := not_nan) b.1 a.1 c.1) in k1.
    + right. split; [by eapply (swo_neg_trans (P := not_nan) c.1 b.1 a.1)|]. by eapply (swo_trans (P := not_nan) a.2 b.2 c.2).
  - intros a b c Ha Hb Hc. rewrite !score_key_lt_spec by done. destruct Ha as [a1 a2], Hb as [b1 b2], Hc as [c1 c2].
    rewrite !orb_false_iff, !andb_false_iff, !negb_false_iff. intros [h1 h2] [k1 k2].
    split; [by eapply (swo_neg_trans (P := not_nan) a.1 b.1 c.1)|].
    destruct h2 as [h2|h2]; [left|destruct k2 as [k2|k2]; [left|right; by eapply (swo_neg_trans (P := not_nan) a.2 b.2 c.2)]].
    + destruct (flt c.1 a.1) eqn:E; [done|]. by rewrite (swo_neg_trans (P := not_nan) b.1 c.1 a.1) in h2.
    + destruct (flt c.1 a.1) eqn:E; [done|]. by rewrite (swo_neg_trans (P := not_nan) c.1 a.1 b.1) in k2.
Qed.

(** ** Which of two running requests is better

    Stated on the scores themselves: the higher score, and at equal scores the earlier arrival. *)
Definition outranks {Q C E M : Type} (s : Scheduler Q C E M) (a b : addr) : bool :=
  flt (get_request_score s (req s b)) (get_request_score s (req s a)) ||
  (feq (get_request_score s (req s b)) (get_request_score s (req s a)) && flt (arrival_time (req s a)) (arrival_time (req s b))).

(** The requests whose rank is defined. *)
Definition rankable {Q C E M : Type} (s : Scheduler Q C E M) (a : addr) : Prop :=
  not_nan (get_request_score s (req s a)) /\ not_nan (arrival_time (req s a)).

Lemma proper_score_key {Q C E M : Type} (s : Scheduler Q C E M) a : rankable s a -> proper_key (score_key s a).
Proof. intros [h1 h2]. split; [by apply not_nan_fopp | done]. Qed.

(** The sort key orders the requests that way. *)
Lemma score_key_outranks {Q C E M : Type} (s : Scheduler Q C E M) a b : rankable s a -> rankable s b ->
  score_key_lt (score_key s a) (score_key s b) = outranks s a b.
Proof.
  intros Ha Hb. rewrite score_key_lt_spec by by apply proper_score_key. destruct Ha as [h1 h2], Hb as [k1 k2].
  unfold outranks, score_key. cbn [fst snd]. rewrite !flt_fopp, feq_flt by done.
  by destruct (flt (get_request_score s (req s b)) (get_request_score s (req s a))),
    (flt (get_request_score s (req s a)) (get_request_score s (req s b))).
Qed.

(** So the sorted requests are in order of rank. *)
Lemma ranked_in_order {Q C E M : Type} (s : Scheduler Q C E M) l : (forall a, a ∈ l -> rankable s a) ->
  StronglySorted (fun a b => outranks s b a = false) (stable_sort score_key_lt (score_key s) l).
Proof.
  intros Hok. assert (Hin : forall a, a ∈ stable_sort score_key_lt (score_key s) l -> rankable s a).
  { intros a Ha. apply Hok. by rewrite elem_of_stable_sort in Ha. }
  assert (Hsorted : sorted_by score_key_lt (score_key s) (stable_sort score_key_lt (score_key s) l)).
  { apply (stable_sort_sorted score_key_lt (score_key s) proper_key). apply Forall_forall. intros x Hx. by apply proper_score_key, Hok. }
  unfold sorted_by in Hsorted. revert Hin Hsorted. generalize (stable_sort score_key_lt (score_key s) l) as m. clear Hok l.
  induction m as [|x m IH]; [constructor|]. intros Hin [Hs Hall]%StronglySorted_inv. constructor.
  - apply IH; [|done]. intros a Ha. apply Hin. by apply elem_of_cons; right.
  - rewrite Forall_forall in Hall |- *. intros y Hy. rewrite <- score_key_outranks; [by apply Hall | apply Hin; by apply elem_of_cons; right | apply Hin; by apply elem_of_cons; left].
Qed.

(** Nobody in a later part of a ranking outranks anyone in an earlier one. *)
Lemma strongly_sorted_parts {A} (R : A -> A -> Prop) l m a b : StronglySorted R (l ++ m) -> a ∈ l -> b ∈ m -> R a b.
Proof.
  induction l as [|x l IH]; cbn; [by intros _ ?%elem_of_nil|].
  intros [Hs Hall]%StronglySorted_inv [->|Ha]%elem_of_cons Hb; [|by apply IH].
  rewrite Forall_forall in Hall. apply Hall, elem_of_app. by right.
Qed.

Lemma strongly_sorted_prefix {A} (R : A -> A -> Prop) l m : StronglySorted R (l ++ m) -> StronglySorted R l.
Proof.
  induction l as [|x l IH]; cbn; [constructor|]. intros [Hs Hall]%StronglySorted_inv. constructor; [by apply IH|].
  apply Forall_app in Hall. by destruct Hall.
Qed.
