(* ===== verification/SchedulerRuns.v ===== *)
(** * Runs of the scheduler

    A scheduler of text requests with prefix caching, from its construction on,
    under any sequence of calls its clients may make: requests come and are
    aborted, scores arrive, a step is planned and the model's output taken in.
    The invariant of the earlier files is shown by rule induction on such runs,
    and with it that no call ever raises, and that the calls do what a simple scheduler
    of ids in two queues would. *)

From Stdlib Require Import Sorted.
From S2P Require Import Prelude PyDict PyList PyInt KVSpec PyStr PyFloat Request KVHash BlockPool.
From S2P Require Import KVManagers KVCoordinator KVCacheManager KVCacheProps KVService.
From S2P Require Import RequestQueue EncoderCache TraceTree Outputs Scheduler Schedule SchedulerUpdate.
From S2P Require Import SchedulerLaws SchedulerInv SchedulerSafe SchedulerOps SchedulerHarvest ScoreOrder.
#[local] Open Scope Z_scope.

(** ** Calls *)

Inductive Call :=
| CallAdd (r : Request)
| CallFinish (request_ids : list string) (finished_status : RequestStatus)
| CallMark (request_ids : list string) (reason : string)
| CallScores (scores : dict string float)
| CallSchedule
| CallUpdate (mo : ModelRunnerOutput) (final_trace_scores : option (dict string (option float)))
    (histories : option (dict string (list float))).

Section Runs.
Context {C E M : Type} `{KVConnector C, ECConnector E, StructuredOutput M, !StructuredOutputLaws M}.
Context (use_int_hashes : bool) (time_monotonic : Z -> float) (cfg : SchedulerConfig).
Context (hash_function : HashInput -> BlockHash) (NONE_HASH : BlockHash) (bs : Z).
Context (Hbs : 0 < bs) (Hinj : Inj eq eq hash_function) (Hseed : forall x, hash_function x <> NONE_HASH).
Context (Hnonempty : forall x, hash_function x <> EmptyString).
Context (Hcfg : config_text cfg).

Abbreviation hasher := (request_block_hasher hash_function NONE_HASH bs).
Abbreviation generates := (generates hash_function NONE_HASH bs cfg).
Abbreviation sched_t := (Scheduler FCFSRequestQueue C E M).
Abbreviation len := (sched_max_model_len cfg).
Abbreviation sched_ok := (sched_ok cfg bs).

(** The scheduler, and the step whose output is awaited. *)
Definition run_state : Type := sched_t * option SchedulerOutput.

Definition perform (c : Call) (st : run_state) : result run_state :=
  let '(s, out) := st in
  match c with
  | CallAdd r => s ← sched_add time_monotonic cfg r s; Ok (s, out)
  | CallFinish ids status => s ← sched_finish ids status s; Ok (s, out)
  | CallMark ids reason => Ok (sched_mark ids reason s, out)
  | CallScores scores => Ok (sched_update_scores scores s, out)
  | CallSchedule => '(so, s) ← schedule use_int_hashes time_monotonic cfg s; Ok (s, Some so)
  | CallUpdate mo scores histories =>
      match out with
      | Some so =>
          '(_, s) ← sched_update_output use_int_hashes cfg (Some hasher) so mo scores histories s;
          Ok (s, None)
      | None => Raise AssertionError
      end
  end.

(** The calls its clients make: new ids, unstarted text requests within the
    limits, one step at a time, and an output row for each scheduled request. *)
Definition allowed (c : Call) (st : run_state) : Prop :=
  match c with
  | CallAdd r => addable cfg bs st.1 r /\ generates r
  | CallFinish _ status => status_is_finished status = true
  | CallMark _ _ | CallScores _ => True
  | CallSchedule => st.2 = None
  | CallUpdate mo _ _ => plain_output mo /\
      exists so, st.2 = Some so /\ forall rid, rid ∈ dkeys (num_scheduled_tokens so) -> row_ok mo rid
  end.

(** Schedulers as constructed, with a manager of one full-attention group. *)
Inductive reachable : run_state -> Prop :=
| reach_new kvc include_finished cache_size m k s :
    one_full_group kvc bs ->
    new_kv_cache_manager kvc len true false (log_sched_stats cfg) false 1 = Ok k ->
    new_scheduler (policy cfg) (log_sched_stats cfg) include_finished cache_size k None None m = Ok s ->
    0 <= max_num_running_reqs cfg ->
    reachable (s, None)
| reach_call c st st' :
    reachable st -> allowed c st -> perform c st = Ok st' -> reachable st'.

(** ** The invariant *)

(** A step that is awaited is one the scheduler could have planned. *)
Definition awaited (so : SchedulerOutput) : Prop :=
  dict_ok (num_scheduled_tokens so) /\ scheduled_spec_decode_tokens so = [] /\
  forall rid n, dget rid (num_scheduled_tokens so) = Some n -> 0 < n.

Record run_inv (st : run_state) : Prop := {
  ri_sched : sched_ok st.1 [];
  ri_prev : prev_ok st.1 [];
  ri_gen : forall rid a, find_request rid st.1 = Some a -> generates (req st.1 a);
  ri_out : forall so, st.2 = Some so -> awaited so;
}.

Lemma new_ok kvc include_finished cache_size m k s :
  one_full_group kvc bs -> new_kv_cache_manager kvc len true false (log_sched_stats cfg) false 1 = Ok k ->
  new_scheduler (policy cfg) (log_sched_stats cfg) include_finished cache_size k None None m = Ok s ->
  0 <= max_num_running_reqs cfg -> run_inv (s, None).
Proof.
  intros Hg Hk Hs Hmax. destruct (new_manager_good _ _ _ _ _ _ Hk Hg) as (Hgood & Hfresh & Hlog & _).
  unfold new_scheduler in Hs. cbn in Hs. pose proof (ct_policy _ Hcfg). destruct (policy cfg); [|done|]; injection Hs as <-;
    (split; [split; try done | ..]); cbn; try apply NoDup_nil_2; try (intros ? Hin; by apply elem_of_nil in Hin); done.
Qed.

(** Objects that look the same still generate. *)
Lemma gen_same (s s' : sched_t) :
  (forall rid a, find_request rid s = Some a -> generates (req s a)) ->
  (forall rid a, find_request rid s' = Some a -> find_request rid s = Some a /\ fixed_view (req s' a) = fixed_view (req s a)) ->
  forall rid a, find_request rid s' = Some a -> generates (req s' a).
Proof.
  intros Hg Hv rid a Hf. destruct (Hv rid a Hf) as [Hf0 He]. eapply generates_view; [exact Hbs | exact He | by eapply Hg].
Qed.

Lemma perform_ok c st : run_inv st -> allowed c st -> exists st', perform c st = Ok st' /\ run_inv st'.
Proof.
  destruct st as [s out]. intros [h1 h2 h3 h4] Hal. cbn [fst snd] in *. destruct c as [r|ids status|ids reason|scores| |mo scores histories]; cbn in Hal |- *.
  - destruct Hal as [Had Hg]. destruct (sched_add_ok cfg bs time_monotonic s r h1 h2 Had) as (s' & a & Hr & Hs' & Hp' & e1 & e2 & e3 & Hv & Hnew & Ho).
    exists (s', out). split; [exact (f_equal (fun x => s ← x; Ok (s, out)) Hr)|]. split; try done. cbn. intros rid b Hf. unfold find_request in Hf. rewrite e1, dget_dset in Hf.
    case_decide; [injection Hf as <-|].
    + eapply generates_view; [exact Hbs | | exact Hg]. unfold fixed_view. exact (f_equal (fun r => core_view (request_view r)) Hv).
    + rewrite Ho; [by eapply h3|]. intros ->. by apply (Hnew rid).
  - destruct (sched_finish_ok cfg bs s ids status Hal h1 h2) as (s' & Hr & Hs' & Hp' & Hf' & _ & _ & _ & Hr').
    exists (s', out). split; [exact (f_equal (fun x => s ← x; Ok (s, out)) Hr)|]. split; try done. apply (gen_same s s' h3). intros rid a Hf. rewrite (Hr' rid a Hf). split; [|done].
    rewrite Hf' in Hf. by destruct (bool_decide (rid ∈ ids)).
  - destruct (sched_mark_ok cfg bs s ids reason h1 h2) as [Hs' Hp']. eexists. split; [reflexivity|]. split; try done.
    destruct (sched_mark_views core_view ids reason s ltac:(done)) as [e1 e2]. apply (gen_same s _ h3). intros rid a Hf. split.
    + unfold find_request in *. cbn in Hf. by rewrite e1 in Hf.
    + exact (f_equal (fun r => core_view (request_view r)) (e2 a)).
  - destruct (sched_update_scores_ok cfg bs s scores h1 h2) as [Hs' Hp']. eexists. split; [reflexivity|]. split; try done.
    destruct (sched_update_scores_views core_view scores s ltac:(done)) as [e1 e2]. apply (gen_same s _ h3). intros rid a Hf. split.
    + unfold find_request in *. cbn in Hf. by rewrite e1 in Hf.
    + exact (f_equal (fun r => core_view (request_view r)) (e2 a)).
  - destruct (schedule_ok use_int_hashes time_monotonic cfg bs Hcfg s h1 h2) as (so & s' & Hr & [g1 g2 g3 g4 g5 g6 g7 g8 _ g9]).
    exists (s', Some so). split; [exact (f_equal (fun x => '(so, s) ← x; Ok (s, Some so)) Hr)|]. split; try done.
    + apply (gen_same s s' h3). intros rid a Hf. split; [by apply g7|]. exact (f_equal core_view (g9 a)).
    + intros so' [= <-]. split; [done|]. split; [done|]. intros rid n Hn. by apply (g6 rid n).
  - destruct Hal as (Hplain & so & Hso & Hrows). subst out. destruct (h4 so eq_refl) as (a1 & a2 & a3).
    destruct (update_ok use_int_hashes cfg hash_function NONE_HASH bs Hbs Hinj Hseed Hnonempty (ct_sync _ Hcfg) so mo Hplain a2
      scores histories s h1 h2 h3 a1) as (ecos & s' & Hr & [g1 g2 g3 _ _ _ _ _ _]).
    { intros rid n Hn. split; [by eapply a3|]. apply Hrows. by eapply elem_of_dkeys. }
    exists (s', None). split; [exact (f_equal (fun x => '(_, s) ← x; Ok (s, None)) Hr)|]. by split.
Qed.

Lemma reachable_inv st : reachable st -> run_inv st.
Proof.
  induction 1 as [kvc inc size m k s Hg Hk Hs Hmax|c st st' _ IH Hal Hr]; [by eapply new_ok|].
  destruct (perform_ok c st IH Hal) as (st2 & Hr2 & Hinv). congruence.
Qed.

(** ** The scheduler its clients see

    What is known of each request, apart from its time stamps, and the two queues as lists of ids. *)
Record View := mkView {
  vw_known : string -> option Request;
  vw_waiting : list string;
  vw_running : list string;
}.

Definition untimed (r : Request) : Request := r <| events := [] |>.

Definition view (s : sched_t) : View := {|
  vw_known := fun rid => (fun a => untimed (req s a)) <$> find_request rid s;
  vw_waiting := rid_of s <$> waiting s;
  vw_running := rid_of s <$> running s;
|}.

(** The value a list of assignments leaves. *)
Definition last_value {A} (k : string) (d : dict string A) : option A := dget k (rev d).

(** The calls on what the clients see. *)
Definition spec_add (r : Request) (v v' : View) : Prop :=
  (forall k, vw_known v' k = if decide (k = request_id r) then Some (untimed r) else vw_known v k) /\
  vw_waiting v' = vw_waiting v ++ [request_id r] /\ vw_running v' = vw_running v.

Definition spec_finish (ids : list string) (v v' : View) : Prop :=
  (forall k, vw_known v' k = if bool_decide (k ∈ ids) then None else vw_known v k) /\
  vw_waiting v' = List.filter (fun k => bool_decide (k ∉ ids)) (vw_waiting v) /\
  vw_running v' = List.filter (fun k => bool_decide (k ∉ ids)) (vw_running v).

Definition spec_change (f : string -> Request -> Request) (v v' : View) : Prop :=
  (forall k, vw_known v' k = f k <$> vw_known v k) /\ vw_waiting v' = vw_waiting v /\ vw_running v' = vw_running v.

Definition marked_with (ids : list string) (reason : string) (k : string) (r : Request) : Request :=
  if bool_decide (k ∈ ids) then r <| Request.stop_reason := Some (StrOf reason) |> else r.

Definition scored_with (scores : dict string float) (k : string) (r : Request) : Request :=
  match last_value k scores with Some x => r <| trace_avg_score := Some x |> | None => r end.

(** A step: the requests it runs are running and get tokens to compute; nothing but scheduling fields changes; those that
    are forgotten were running and are reported; the queues hold the others. *)
Definition spec_schedule (so : SchedulerOutput) (v v' : View) : Prop :=
  (forall k r', vw_known v' k = Some r' -> exists r, vw_known v k = Some r /\ request_view r' = request_view r) /\
  (forall k, is_Some (vw_known v k) -> vw_known v' k = None ->
     policy cfg = GAMBIT /\ k ∈ vw_running v /\ k ∈ so_finished_req_ids so) /\
  (forall k n, dget k (num_scheduled_tokens so) = Some n -> 0 < n /\ k ∈ vw_running v') /\
  vw_running v' ++ vw_waiting v' ≡ₚ List.filter (fun k => bool_decide (is_Some (vw_known v' k))) (vw_running v ++ vw_waiting v).

(** The model's output: each scheduled request has its token appended, or ends; the queues keep the others in order. *)
Definition spec_update (so : SchedulerOutput) (mo : ModelRunnerOutput) (v v' : View) : Prop :=
  (forall k, k ∉ dkeys (num_scheduled_tokens so) -> vw_known v' k = vw_known v k) /\
  (forall k, vw_known v k = None -> vw_known v' k = None) /\
  (forall k r, k ∈ dkeys (num_scheduled_tokens so) -> vw_known v k = Some r -> vw_known v' k = None \/
     exists r', vw_known v' k = Some r' /\ all_token_ids r' = all_token_ids r ++ generated mo k) /\
  vw_waiting v' = List.filter (fun k => bool_decide (is_Some (vw_known v' k))) (vw_waiting v) /\
  vw_running v' = List.filter (fun k => bool_decide (is_Some (vw_known v' k))) (vw_running v).

Definition spec_call (c : Call) (v : View) (out : option SchedulerOutput) (v' : View) (out' : option SchedulerOutput) : Prop :=
  match c with
  | CallAdd r => out' = out /\ spec_add r v v'
  | CallFinish ids _ => out' = out /\ spec_finish ids v v'
  | CallMark ids reason => out' = out /\ spec_change (marked_with ids reason) v v'
  | CallScores scores => out' = out /\ spec_change (scored_with scores) v v'
  | CallSchedule => exists so, out' = Some so /\ spec_schedule so v v'
  | CallUpdate mo _ _ => out' = None /\ exists so, out = Some so /\ spec_update so mo v v'
  end.

(** Ids of objects that are the same, or that are still known. *)
Lemma ids_same (s s' : sched_t) (q : list Z) : (forall a, a ∈ q -> rid_of s' a = rid_of s a) -> rid_of s' <$> q = rid_of s <$> q.
Proof. intros Hq. apply list_fmap_ext. intros i a Ha. apply Hq. by eapply list_elem_of_lookup_2. Qed.

Lemma ids_filter (s : sched_t) (P : string -> bool) (q : list Z) :
  rid_of s <$> List.filter (fun a => P (rid_of s a)) q = List.filter P (rid_of s <$> q).
Proof. induction q as [|a q IH]; cbn; [done|]. destruct (P (rid_of s a)); cbn; by rewrite IH. Qed.

Lemma known_ids (s s' : sched_t) : sched_ok s [] -> sched_ok s' [] ->
  (forall rid a, find_request rid s' = Some a -> find_request rid s = Some a) ->
  forall a, a ∈ running s' ++ waiting s' -> rid_of s' a = rid_of s a.
Proof.
  intros Hs Hs' Hold a Ha. destruct (ok_find _ _ s' [] a Hs') as [Hf _]; [by rewrite app_nil_r|].
  by destruct (so_obj _ _ _ _ Hs _ _ (Hold _ _ Hf)) as [-> _].
Qed.

(** Lists filtered to the known requests. *)
Lemma known_filter (s s' : sched_t) (q : list Z) :
  List.filter (fun k => bool_decide (is_Some (vw_known (view s') k))) (rid_of s <$> q) = rid_of s <$> keep_known s' s q.
Proof.
  etrans; [|symmetry; exact (ids_filter s (fun k => bool_decide (is_Some (find_request k s'))) q)].
  apply List.filter_ext. intros k. apply bool_decide_ext. cbn. by rewrite fmap_is_Some.
Qed.

(** Changes to single known objects. *)
Lemma known_change (s s' : sched_t) (f : string -> Request -> Request) : sched_ok s [] ->
  (forall rid, find_request rid s' = find_request rid s) -> running s' = running s -> waiting s' = waiting s ->
  (forall a, rid_of s' a = rid_of s a) -> (forall rid a, find_request rid s = Some a -> untimed (req s' a) = f rid (untimed (req s a))) ->
  spec_change f (view s) (view s').
Proof.
  intros Hs Hf Hr Hw Hid Hreq. split; [|split; cbn; rewrite ?Hr, ?Hw; by apply ids_same].
  intros k. cbn. rewrite Hf. destruct (find_request k s) as [a|] eqn:Ha; [|done]. cbn. by rewrite (Hreq k a Ha).
Qed.

Lemma untimed_core r r' : r' <| events := events r |> = r -> untimed r' = untimed r.
Proof. intros <-. by destruct r'. Qed.

Lemma spec_add_ok s r : sched_ok s [] -> addable cfg bs s r ->
  exists s', sched_add time_monotonic cfg r s = Ok s' /\ spec_add r (view s) (view s').
Proof.
  intros Hs [Hnew _ _ _]. set (a := fresh_addr s (waiting s)).
  destruct (sched_add_fcfs time_monotonic cfg r s) as (s' & r' & Hadd & e1 & e2 & e3 & _ & e5 & _ & _ & Hev). fold a in e1, e2, e5.
  exists s'. split; [exact Hadd|]. assert (Hra : req s' a = r') by (unfold req; by rewrite e5, lookup_insert_eq).
  assert (Hid : request_id r' = request_id r) by (by rewrite <- Hev).
  assert (Hother : forall b, b <> a -> req s' b = req s b) by (intros b Hb; unfold req; rewrite e5; by rewrite lookup_insert_ne).
  assert (Hlive : forall b, b ∈ running s ++ waiting s -> rid_of s' b = rid_of s b).
  { intros b Hb. unfold rid_of. rewrite Hother; [done|]. apply fresh_addr_ne. apply elem_of_app in Hb as [Hb|Hb]; auto. }
  split; [|split; cbn; rewrite ?e2, ?e3].
  - intros k. cbn. unfold find_request. rewrite e1, dget_dset. case_decide; cbn; [by rewrite Hra, (untimed_core _ _ Hev)|].
    destruct (dget k (requests s)) as [b|] eqn:Hb; [|done]. cbn. rewrite Hother; [done|].
    apply fresh_addr_ne. left. by eapply find_in_values.
  - rewrite fmap_app. cbn. unfold rid_of at 2. rewrite Hra, Hid. f_equal. apply ids_same. intros b Hb. apply Hlive, elem_of_app. by right.
  - apply ids_same. intros b Hb. apply Hlive, elem_of_app. by left.
Qed.

Lemma spec_finish_ok s ids st : status_is_finished st = true -> sched_ok s [] -> prev_ok s [] ->
  exists s', sched_finish ids st s = Ok s' /\ spec_finish ids (view s) (view s').
Proof.
  intros Hst h1 h2. destruct (sched_finish_ok cfg bs s ids st Hst h1 h2) as (s' & Hr & Hs' & _ & g1 & _ & g3 & g4 & g5).
  exists s'. split; [exact Hr|].
  assert (Hold : forall rid a, find_request rid s' = Some a -> find_request rid s = Some a).
  { intros rid a Hf. rewrite g1 in Hf. by destruct (bool_decide (rid ∈ ids)). }
  pose proof (known_ids s s' h1 Hs' Hold) as Hids. pose (P := fun k : string => bool_decide (k ∉ ids)). split; [|split; cbn].
  - intros k. cbn. destruct (find_request k s') as [a|] eqn:Ha; cbn.
    + rewrite (g5 k a Ha). rewrite g1 in Ha. destruct (bool_decide (k ∈ ids)); [done|]. by rewrite Ha.
    + rewrite g1 in Ha. destruct (bool_decide (k ∈ ids)); [done|]. by rewrite Ha.
  - rewrite (ids_same s s') by (intros a Ha; apply Hids, elem_of_app; by right). rewrite g4. exact (ids_filter s P _).
  - rewrite (ids_same s s') by (intros a Ha; apply Hids, elem_of_app; by left). rewrite g3. exact (ids_filter s P _).
Qed.

(** A known object is found under one id, stored, and unfinished. *)
Definition live_object (s : sched_t) : Prop := forall rid a, find_request rid s = Some a ->
  rid_of s a = rid /\ is_Some (store s !! a) /\ is_finished (req s a) = false.

Lemma ok_live s : sched_ok s [] -> live_object s.
Proof.
  intros Hs rid a Hf. destruct (so_obj _ _ _ _ Hs rid a Hf) as [Hr Hok]. split; [done|]. split; [by eexists; apply (ok_stored _ _ _ _ Hok)|].
  apply (live_unfinished cfg bs s a Hs). pose proof (find_live _ _ _ _ _ _ Hs Hf) as Hin. by rewrite app_nil_r in Hin.
Qed.

(** Writing a field of one known object, which the id and the status do not look at. *)
Lemma write_one (s : sched_t) rid b f : live_object s -> find_request rid s = Some b ->
  (forall r, request_id (f r) = request_id r /\ is_finished (f r) = is_finished r) ->
  live_object (update_req b f s) /\
  forall k a, find_request k s = Some a -> req (update_req b f s) a = if decide (k = rid) then f (req s a) else req s a.
Proof.
  intros Hl Hb Hf.
  assert (Hreq : forall k a, find_request k s = Some a -> req (update_req b f s) a = if decide (k = rid) then f (req s a) else req s a).
  { intros k a Ha. rewrite req_update. destruct (Hl k a Ha) as (<- & [r Hr] & _), (Hl rid b Hb) as (<- & _). case_decide as Hab.
    - subst b. rewrite decide_True, Hr by done. unfold req. by rewrite Hr.
    - rewrite decide_False; [done|]. intros He. apply Hab. rewrite He in Ha. congruence. }
  split; [|done]. intros k a Ha. change (find_request k s = Some a) in Ha. destruct (Hl k a Ha) as (h1 & h2 & h3). unfold rid_of.
  rewrite (Hreq k a Ha). split; [case_decide; [by rewrite (proj1 (Hf _))|done]|]. split; [|case_decide; [by rewrite (proj2 (Hf _))|done]].
  cbn. destruct (decide (b = a)) as [->|Hne]; [rewrite lookup_alter_eq; by apply fmap_is_Some | by rewrite lookup_alter_ne].
Qed.

Lemma mark_exact ids reason : forall s : sched_t, live_object s ->
  forall k a, find_request k s = Some a -> req (sched_mark ids reason s) a = marked_with ids reason k (req s a).
Proof.
  unfold sched_mark, marked_with. induction ids as [|rid ids IH]; intros s Hl k a Ha; cbn [fold_left]; [done|].
  destruct (find_request rid s) as [b|] eqn:Hb.
  - rewrite (proj2 (proj2 (Hl rid b Hb))). cbv iota.
    pose proof (write_one s rid b (fun r => r <| Request.stop_reason := Some (StrOf reason) |>) Hl Hb ltac:(done)) as [Hl' Hreq]. rewrite (IH _ Hl' k a Ha), (Hreq k a Ha).
    case_decide as Hk; [subst k|rewrite (bool_decide_ext (k ∈ rid :: ids) (k ∈ ids)) by (rewrite elem_of_cons; tauto); done].
    rewrite (bool_decide_eq_true_2 (rid ∈ rid :: ids)) by (by left). by case_bool_decide.
  - rewrite (IH s Hl k a Ha). rewrite (bool_decide_ext (k ∈ rid :: ids) (k ∈ ids)); [done|]. rewrite elem_of_cons.
    split; [|by right]. intros [->|]; [congruence|done].
Qed.

Lemma last_value_cons {A} k p (d : dict string A) : last_value k (p :: d) =
  match last_value k d with Some x => Some x | None => if decide (k = p.1) then Some p.2 else None end.
Proof.
  unfold last_value. cbn [rev]. induction (rev d) as [|[k' v] l IH]; cbn [app dget]; [destruct p; cbn; by repeat case_decide|].
  destruct (decide (k = k')); [done | exact IH].
Qed.

Lemma scores_exact scores : forall s : sched_t, live_object s ->
  forall k a, find_request k s = Some a -> req (sched_update_scores scores s) a = scored_with scores k (req s a).
Proof.
  unfold sched_update_scores. induction scores as [|p scores IH]; intros s Hl k a Ha; cbn [fold_left]; [done|].
  unfold scored_with. rewrite last_value_cons. set (s1 := s <| sched_trace_scores := _ |>).
  assert (Hl1 : live_object s1) by exact Hl. change (find_request p.1 s1) with (find_request p.1 s).
  destruct (find_request p.1 s) as [b|] eqn:Hb.
  - pose proof (write_one s1 p.1 b (fun r => r <| trace_avg_score := Some p.2 |>) Hl1 Hb ltac:(done)) as [Hl' Hreq].
    rewrite (IH _ Hl' k a Ha), (Hreq k a Ha). unfold scored_with. case_decide; by destruct (last_value k scores).
  - rewrite (IH _ Hl1 k a Ha). change (req s1 a) with (req s a). unfold scored_with.
    rewrite decide_False by congruence. by destruct (last_value k scores).
Qed.

Lemma spec_schedule_ok s so s' : sched_ok s [] -> step_ok cfg bs s so s' -> spec_schedule so (view s) (view s').
Proof.
  intros Hs [g1 _ _ g4 _ g5 g6 g7 (l & m & e1 & e2 & e3 & e4) g8].
  pose proof (known_ids s s' Hs g1 g6) as Hids. split; [|split; [|split]].
  - intros k r'. cbn. destruct (find_request k s') as [a|] eqn:Ha; [|done]. intros [= <-]. rewrite (g6 k a Ha). eexists. split; [reflexivity|].
    change (request_view (req s' a) = request_view (req s a)). apply g8.
  - intros k. cbn. rewrite fmap_is_Some. intros [a Ha]. rewrite fmap_None. intros Hn. destruct (g7 k a Ha) as [|(p1 & p2 & _)]; [congruence|].
    split; [done|]. split; [|done]. destruct (e3 k a Ha) as [|Hm]; [congruence|]. apply list_elem_of_fmap. exists a.
    split; [symmetry; by apply (so_obj _ _ _ _ Hs)|]. unfold ranked in e1. rewrite bool_decide_eq_true_2 in e1 by done.
    rewrite <- (elem_of_stable_sort score_key_lt (score_key s)), e1. apply elem_of_app. by right.
  - intros k n Hn. destruct (g5 k n Hn) as (Hpos & a & Ha & Hrun & _). split; [done|]. cbn. apply list_elem_of_fmap. exists a.
    split; [symmetry; by apply (so_obj _ _ _ _ g1) | done].
  - cbn [vw_running vw_waiting view]. rewrite <- !fmap_app. rewrite known_filter, (ids_same s s') by exact Hids. apply fmap_Permutation.
    apply NoDup_Permutation.
    + pose proof (so_nodup _ _ _ _ g1) as Hnd. by rewrite app_nil_r in Hnd.
    + apply bfilter_NoDup. pose proof (so_nodup _ _ _ _ Hs) as Hnd. by rewrite app_nil_r in Hnd.
    + intros a. unfold keep_known. rewrite elem_of_list_bfilter, bool_decide_eq_true. split.
      * intros Ha. destruct (ok_find _ _ s' [] a g1) as [Hf _]; [by rewrite app_nil_r|]. rewrite Hids in Hf by done. split; [by exists a|].
        pose proof (find_live _ _ _ _ _ _ Hs (g6 _ _ Hf)) as Hin. by rewrite app_nil_r in Hin.
      * intros [[b Hb] Ha]. destruct (ok_find _ _ s [] a Hs) as [Hf _]; [by rewrite app_nil_r|]. pose proof (g6 _ _ Hb). assert (b = a) as -> by congruence.
        pose proof (find_live _ _ _ _ _ _ g1 Hb) as Hin. by rewrite app_nil_r in Hin.
Qed.

Lemma spec_update_ok s so mo ecos s' : sched_ok s [] -> updated cfg hash_function NONE_HASH bs so mo s ecos s' ->
  spec_update so mo (view s) (view s').
Proof.
  intros Hs [g1 _ _ g3 [q1 q2] g5 g6 _ _]. pose proof (known_ids s s' Hs g1 g3) as Hids. split; [|split; [|split; [|split; cbn [vw_waiting vw_running view]]]].
  - intros k Hk. cbn. destruct (find_request k s) as [a|] eqn:Ha.
    + destruct (g5 k a Hk Ha) as [-> He]. cbn. by rewrite He.
    + destruct (find_request k s') as [b|] eqn:Hb; [|done]. apply g3 in Hb. congruence.
  - intros k. cbn. rewrite !fmap_None. intros Hn. destruct (find_request k s') as [b|] eqn:Hb; [|done]. apply g3 in Hb. congruence.
  - intros k r Hk. cbn. destruct (find_request k s) as [a|] eqn:Ha; [|done]. intros [= <-]. destruct (g6 k a Hk Ha) as [Ht _].
    destruct (find_request k s') as [b|] eqn:Hb; [right|by left]. pose proof (g3 k b Hb). assert (b = a) as -> by congruence.
    eexists. split; [reflexivity | exact Ht].
  - rewrite known_filter, <- q2. apply ids_same. intros a Ha. apply Hids, elem_of_app. by right.
  - rewrite known_filter, <- q1. apply ids_same. intros a Ha. apply Hids, elem_of_app. by left.
Qed.

(** ** What runs guarantee *)

(** C1: The scheduler never gets stuck: from its construction on, after any sequence of allowed calls,
    every allowed call returns: no assertion fails, no lookup raises, no block is missing, whatever
    was added, aborted, scored, planned and sampled before. *)
Theorem scheduler_never_raises c st :
  reachable st -> allowed c st -> exists st', perform c st = Ok st' /\ reachable st'.
Proof.
  intros Hst Hal. destruct (perform_ok c st (reachable_inv st Hst) Hal) as (st' & Hr & _).
  exists st'. split; [done|]. by eapply reach_call.
Qed.

(** C2: In every reachable state the requests the scheduler knows are exactly those in its two queues,
    each once and under its own id; running requests have status RUNNING and are no more than the
    limit; waiting ones have computed nothing and hold no blocks; every request has room to
    generate; and the KV manager's free queue, reference counts and tables agree. *)
Theorem queues_and_blocks_agree s out :
  reachable (s, out) ->
  NoDup (running s ++ waiting s) /\
  (forall a, a ∈ running s ++ waiting s <-> exists rid, find_request rid s = Some a) /\
  (forall rid a, find_request rid s = Some a -> rid_of s a = rid /\
     0 < num_tokens (req s a) < len /\ num_output_tokens (req s a) < max_tokens (req s a) /\
     0 <= num_computed_tokens (req s a) <= num_tokens (req s a)) /\
  (forall a, a ∈ running s -> status (req s a) = RUNNING) /\ py_len (running s) <= max_num_running_reqs cfg /\
  (forall a, a ∈ waiting s -> waiting_status (status (req s a)) /\ num_computed_tokens (req s a) = 0 /\
     kv_fresh (kv_cache_manager s) (rid_of s a)) /\
  exists free, kv_inv (kv_cache_manager s) free.
Proof.
  intros [[h1 h2 h3 h4 h5 h6 h7 h8 h9 h10 h11] _ Hg _]%reachable_inv. cbn in *. rewrite app_nil_r in h3.
  split; [done|]. split; [|split; [|split; [done|split; [done|split]]]].
  - intros a. rewrite app_nil_r in h5. rewrite h5. split; [by apply dvalues_find|]. intros [rid Hf]. by eapply find_in_values.
  - intros rid a Hf. destruct (h6 rid a Hf) as [Hr [_ _ r3 r4 r5 _]]. split; [done|]. split; [done|]. split; [|done].
    destruct (Hg rid a Hf) as [Ht _ _]. apply tokens_ok_num_tokens in Ht. lia.
  - intros a Ha. apply h8. by rewrite app_nil_r.
  - destruct h1 as (free & m & spec & Hk & _). by exists free.
Qed.

(** C3: A step stays within its budget: the tokens it gives out add up to the total it reports, which is
    at most the configured maximum; every scheduled request is running afterwards, gets at least
    one token, and is never carried past the tokens it has. *)
Theorem step_within_budget s so s' :
  reachable (s, None) -> schedule use_int_hashes time_monotonic cfg s = Ok (so, s') ->
  total_num_scheduled_tokens so = int_sum (dvalues (num_scheduled_tokens so)) /\
  total_num_scheduled_tokens so <= max_num_scheduled_tokens cfg /\
  py_len (running s') <= max_num_running_reqs cfg /\
  dict_ok (num_scheduled_tokens so) /\
  forall rid n, dget rid (num_scheduled_tokens so) = Some n -> 0 < n /\
    exists a, find_request rid s' = Some a /\ a ∈ running s' /\ n <= num_computed_tokens (req s' a) <= num_tokens (req s' a).
Proof.
  intros [h1 h2 _ _]%reachable_inv Hr. destruct (schedule_ok use_int_hashes time_monotonic cfg bs Hcfg s h1 h2) as (so' & s2 & Hr' & Hok).
  assert (Heq : Ok (so', s2) = Ok (so, s')) by (etrans; [symmetry; exact Hr' | exact Hr]). injection Heq as -> ->.
  destruct Hok as [g1 _ [g3 g3'] g4 _ g5 _ _ _ _]. split; [done|]. split; [done|]. split; [apply (so_limit _ _ _ _ g1)|]. by split.
Qed.

(** C5: A step loses no request and touches no token: it learns of no new request; every known request is
    still known, or was stopped by the Gambit policy, is reported finished to the workers, and its
    client has an abort output waiting; and apart from scheduling fields no request changes. *)
Theorem step_loses_nothing s so s' :
  reachable (s, None) -> schedule use_int_hashes time_monotonic cfg s = Ok (so, s') ->
  (forall rid a, find_request rid s' = Some a -> find_request rid s = Some a) /\
  (forall rid a, find_request rid s = Some a -> find_request rid s' = Some a \/
    (policy cfg = GAMBIT /\ rid ∈ so_finished_req_ids so /\
     exists o, o ∈ dget_or (client_index (req s a)) [] (pending_pruned_outputs s') /\
       eco_request_id o = rid /\ eco_finish_reason o = Some ABORT)) /\
  forall a, request_view (req s' a) = request_view (req s a).
Proof.
  intros [h1 h2 _ _]%reachable_inv Hr. destruct (schedule_ok use_int_hashes time_monotonic cfg bs Hcfg s h1 h2) as (so' & s2 & Hr' & Hok).
  assert (Heq : Ok (so', s2) = Ok (so, s')) by (etrans; [symmetry; exact Hr' | exact Hr]). injection Heq as -> ->.
  by destruct Hok as [_ _ _ _ _ _ g6 g7 _ g8].
Qed.

(** C4: The Gambit policy keeps the best: a step ranks all running requests, a first part of the ranking keeps
    running, in this order; everyone in the rest is stopped for good and nobody else is. As long as no score and no
    arrival time is NaN, the kept ones are in the order of their scores, highest first and at equal scores by arrival,
    and nobody who is stopped has a higher score than anyone who is kept, or the same score and an earlier arrival. *)
Theorem gambit_keeps_the_best s so s' :
  reachable (s, None) -> policy cfg = GAMBIT -> schedule use_int_hashes time_monotonic cfg s = Ok (so, s') ->
  exists kept stopped, stable_sort score_key_lt (score_key s) (running s) = kept ++ stopped /\ running s ≡ₚ kept ++ stopped /\
    kept `prefix_of` running s' /\
    (forall rid a, find_request rid s = Some a -> find_request rid s' = None <-> a ∈ stopped) /\
    ((forall a, a ∈ running s -> not_nan (get_request_score s (req s a)) /\ not_nan (arrival_time (req s a))) ->
     StronglySorted (fun a b => outranks s b a = false) kept /\
     forall a b, a ∈ kept -> b ∈ stopped ->
       flt (get_request_score s (req s a)) (get_request_score s (req s b)) = false /\
       (feq (get_request_score s (req s a)) (get_request_score s (req s b)) = true ->
        flt (arrival_time (req s b)) (arrival_time (req s a)) = false)).
Proof.
  intros [h1 h2 _ _]%reachable_inv Hpol Hr. destruct (schedule_ok use_int_hashes time_monotonic cfg bs Hcfg s h1 h2) as (so' & s2 & Hr' & Hok).
  assert (Heq : Ok (so', s2) = Ok (so, s')) by (etrans; [symmetry; exact Hr' | exact Hr]). injection Heq as -> ->.
  destruct Hok as [_ _ _ _ _ _ g6 _ (l & m & e1 & e2 & e3 & e4) _]. unfold ranked in e1. rewrite bool_decide_eq_true_2 in e1 by done.
  exists l, m. split; [done|]. split; [by rewrite <- e1, stable_sort_Permutation|]. split; [done|]. split.
  - intros rid a Hf. split.
    + intros Hn. destruct (e3 rid a Hf) as [Hf'|]; [congruence|done].
    + intros Ha. destruct (find_request rid s') as [b|] eqn:Hb; [|done]. exfalso. pose proof (g6 rid b Hb) as Hf2.
      assert (b = a) as -> by congruence. by apply (e4 Hpol a rid).
  - intros Hnan. pose proof (ranked_in_order s (running s) Hnan) as Hsorted. rewrite e1 in Hsorted.
    split; [by eapply strongly_sorted_prefix|]. intros a b Ha Hb.
    pose proof (strongly_sorted_parts _ _ _ a b Hsorted Ha Hb) as [Hlt Heq]%orb_false_iff. split; [done|].
    intros He. by rewrite He in Heq.
Qed.

(** C6: Every sampled token reaches its client, once: after a step, [update_from_output] appends to each scheduled request
    exactly the token the model sampled for it and leaves the others alone; each client is sent, in the order of the step
    and nothing else, one output for each of its scheduled requests with a token, which carries that token, and
    a finish reason exactly when the request is gone, followed by the outputs pending for it from requests the Gambit
    policy stopped, which are pending no more; and a request that is gone is reported to the workers. *)
Theorem every_token_delivered s so mo scores histories :
  reachable (s, Some so) -> plain_output mo -> (forall rid, rid ∈ dkeys (num_scheduled_tokens so) -> row_ok mo rid) ->
  exists ecos s', sched_update_output use_int_hashes cfg (Some hasher) so mo scores histories s = Ok (ecos, s') /\
    (forall rid a, rid ∉ dkeys (num_scheduled_tokens so) -> find_request rid s = Some a ->
      find_request rid s' = Some a /\ req s' a = req s a) /\
    (forall rid a, rid ∈ dkeys (num_scheduled_tokens so) -> find_request rid s = Some a ->
      all_token_ids (req s' a) = all_token_ids (req s a) ++ generated mo rid /\
      (find_request rid s' = Some a \/ rid ∈ Scheduler.finished_req_ids s')) /\
    (forall c, exists news, outputs_to c ecos = news ++ held_for c (pending_pruned_outputs s) /\
      Forall2 (fun rid o => eco_request_id o = rid /\ new_token_ids o = generated mo rid /\
          (is_Some (eco_finish_reason o) <-> find_request rid s' = None))
        (List.filter (speaks mo c s) (dkeys (num_scheduled_tokens so))) news) /\
    pending_pruned_outputs s' = [].
Proof.
  intros [h1 h2 h3 h4]%reachable_inv Hplain Hrows. destruct (h4 so eq_refl) as (a1 & a2 & a3).
  destruct (update_ok use_int_hashes cfg hash_function NONE_HASH bs Hbs Hinj Hseed Hnonempty (ct_sync _ Hcfg) so mo Hplain a2
    scores histories s h1 h2 h3 a1) as (ecos & s' & Hr & [_ _ _ _ _ g5 g6 g7 g8]).
  { intros rid n Hn. split; [by eapply a3|]. apply Hrows. by eapply elem_of_dkeys. }
  by exists ecos, s'.
Qed.

(** C7: Aborting is complete and touches nothing else: [finish_requests] with a finished status returns; afterwards the
    given requests are unknown, in neither queue, and hold no KV blocks, and the workers are told of those that were known;
    both queues keep the others in their order, and every other request is known exactly as before, with its object
    unchanged. *)
Theorem abort_is_complete s out ids st :
  reachable (s, out) -> status_is_finished st = true ->
  exists s', sched_finish ids st s = Ok s' /\
    (forall rid, find_request rid s' = if bool_decide (rid ∈ ids) then None else find_request rid s) /\
    running s' = List.filter (fun a => bool_decide (rid_of s a ∉ ids)) (running s) /\
    waiting s' = List.filter (fun a => bool_decide (rid_of s a ∉ ids)) (waiting s) /\
    (forall rid, rid ∈ ids -> kv_fresh (kv_cache_manager s') rid) /\
    (forall rid, rid ∈ Scheduler.finished_req_ids s' <->
       rid ∈ Scheduler.finished_req_ids s \/ rid ∈ ids /\ is_Some (find_request rid s)) /\
    (forall rid a, find_request rid s' = Some a -> req s' a = req s a).
Proof.
  intros [h1 h2 _ _]%reachable_inv Hst. destruct (sched_finish_ok cfg bs s ids st Hst h1 h2) as (s' & Hr & Hs' & _ & g1 & g2 & g3 & g4 & g5).
  exists s'. split; [exact Hr|]. split; [exact g1|]. split; [exact g3|]. split; [exact g4|]. split; [|by split].
  intros rid Hin. apply (so_unknown _ _ _ _ Hs'). rewrite g1. by rewrite bool_decide_eq_true_2.
Qed.
End Runs.
