(* ===== verification/SchedulerSample.v ===== *)
(** * A sample run of the scheduler

    Two requests on a manager with five usable blocks of two tokens, under the
    Gambit policy: after the first step each holds two blocks, the second step
    needs two more where one is left, and the request with the lower score is
    stopped.  The run instantiates the theorems on runs. *)

From S2P Require Import Prelude PyDict PyList PyInt KVSpec PyStr PyFloat Request KVHash BlockPool.
From S2P Require Import KVManagers KVCoordinator KVCacheManager KVCacheProps KVService.
From S2P Require Import RequestQueue EncoderCache TraceTree Outputs Scheduler Schedule SchedulerUpdate.
From S2P Require Import SchedulerLaws SchedulerInv SchedulerSafe SchedulerOps SchedulerHarvest ScoreOrder SchedulerRuns.
#[local] Open Scope Z_scope.

(** ** Services that are not there *)

#[export] Instance no_kv_connector : KVConnector Empty_set := {|
  kc_supports_hma := fun c => match (c : Empty_set) with end;
  kc_get_num_new_matched_tokens := fun _ _ c => match (c : Empty_set) with end;
  kc_update_state_after_alloc := fun _ _ _ c => match (c : Empty_set) with end;
  kc_build_connector_meta := fun _ c => match (c : Empty_set) with end;
  kc_update_connector_output := fun _ c => match (c : Empty_set) with end;
  kc_request_finished := fun _ _ c => match (c : Empty_set) with end;
  kc_request_finished_all_groups := fun _ _ c => match (c : Empty_set) with end;
  kc_take_events := fun c => match (c : Empty_set) with end;
  kc_get_kv_connector_stats := fun c => match (c : Empty_set) with end;
  kc_aggregate_stats := fun x _ => x;
|}.

#[export] Instance no_ec_connector : ECConnector Empty_set := {|
  ec_has_caches := fun _ e => match (e : Empty_set) with end;
  ec_update_state_after_alloc := fun _ _ e => match (e : Empty_set) with end;
  ec_build_connector_meta := fun _ e => match (e : Empty_set) with end;
|}.

#[export] Instance no_structured_output : StructuredOutput unit := {|
  som_grammar_ready := fun _ m => (false, m);
  som_should_advance := fun _ m => (false, m);
  som_accept_tokens := fun _ _ m => Ok m;
  som_validate_tokens := fun _ toks _ => Ok toks;
  som_grammar_bitmask := fun _ _ _ _ => ""%string;
|}.

#[export] Instance no_structured_output_laws : StructuredOutputLaws unit.
Proof. split. by intros r m m' [=]. Qed.

(** ** The run *)

Definition sample_sched_config : SchedulerConfig := {|
  policy := GAMBIT; async_scheduling := false; max_num_running_reqs := 4; max_num_scheduled_tokens := 8;
  sched_max_model_len := 16; long_prefill_token_threshold := 0; chunked_prefill_enabled := true;
  disable_chunked_mm := false; max_num_encoder_tokens := 0; encoder_compute_limit := 0; sched_block_size := 2;
  max_loras := None; is_encoder_decoder := false; use_pp := false; log_sched_stats := false;
  num_lookahead_tokens := 0; max_spec_tokens := 0 |}.

Definition sample_clock (z : Z) : float := float_of_Z z.

Abbreviation sample_state := (run_state (C := Empty_set) (E := Empty_set) (M := unit)).
Abbreviation sample_perform := (perform (C := Empty_set) (E := Empty_set) (M := unit) true sample_clock sample_sched_config sample_hash "seed" 2).
Abbreviation sample_reachable := (reachable (C := Empty_set) (E := Empty_set) (M := unit) true sample_clock sample_sched_config sample_hash "seed" 2).

Definition sample_sched_request (rid : string) (prompt : list Z) : result Request :=
  new_request (Some (request_block_hasher sample_hash "seed" 2)) fzero
    (sample_args <| ra_request_id := rid |> <| ra_prompt_token_ids := Some prompt |>).

(** One sampled token for each request. *)
Definition sample_output (rows : list (string * Z)) : ModelRunnerOutput := {|
  mro_req_ids := rows.*1; req_id_to_index := imap (fun i p => (p.1, Z.of_nat i)) rows;
  sampled_token_ids := (fun p => [p.2]) <$> rows; mro_logprobs := None; prompt_logprobs_dict := [];
  pooler_output := []; kv_connector_output := None; mro_num_nans_in_logits := None |}.

Definition sample_tokens : ModelRunnerOutput := sample_output [("a", 5); ("b", 6)]%string.
Definition sample_new_scores : dict string float := [("a", float_of_bits 1 (-2)); ("b", float_of_bits 3 (-2))]%string.

Lemma sample_config_text : config_text sample_sched_config.
Proof. by split. Qed.

Lemma sample_text rid prompt : 0 < py_len prompt < 16 ->
  text_args sample_sched_config (sample_args <| ra_request_id := rid |> <| ra_prompt_token_ids := Some prompt |>).
Proof.
  intros Hp. split; [|done]. exists prompt. split; [done|]. split; [exact Hp|].
  exists sample_params, (default 0 (sp_max_tokens sample_params)). split; [done|]. split; [done|]. split; [done|].
  split; [done|]. change (py_len prompt + min_tokens sample_params <= 16). change (min_tokens sample_params) with 1. lia.
Qed.

Lemma sample_allowed_add rid prompt r (st : sample_state) :
  sample_sched_request rid prompt = Ok r -> 0 < py_len prompt < 16 -> find_request rid st.1 = None ->
  allowed sample_sched_config sample_hash "seed" 2 (CallAdd r) st.
Proof.
  intros Hr Hp Hf. destruct (new_text_request sample_hash "seed" 2 sample_sched_config eq_refl sample_hash_inj
    ltac:(done) ltac:(done) _ _ _ Hr (sample_text rid prompt Hp)) as (h1 & h2 & h3 & h4 & h5).
  split; [|done]. split; try done. rewrite h5. exact Hf.
Qed.

Lemma sample_group : one_full_group sample_kv_config 2.
Proof. by eexists _, _, _, _. Qed.

(** No score of a running request, and no arrival time, is NaN. *)
Definition scores_are_numbers (s : Scheduler FCFSRequestQueue Empty_set Empty_set unit) : bool :=
  forallb (fun a => negb (is_nan (get_request_score s (req s a))) && negb (is_nan (arrival_time (req s a)))) (running s).

Lemma scores_are_numbers_rankable s : scores_are_numbers s = true -> forall a, a ∈ running s -> rankable s a.
Proof.
  unfold scores_are_numbers. rewrite forallb_forall. intros Hall a Ha%list_elem_of_In.
  specialize (Hall a Ha). rewrite andb_true_iff, !negb_true_iff in Hall. exact Hall.
Qed.

(** The states of the run: the first step is awaited, and the second comes up short. *)
Lemma sample_states : exists s0 so0 s so s',
  sample_reachable (s0, Some so0) /\ dkeys (num_scheduled_tokens so0) = ["a"; "b"]%string /\
  sample_reachable (s, None) /\ dkeys (requests s) = ["a"; "b"]%string /\
  schedule true sample_clock sample_sched_config s = Ok (so, s') /\ dkeys (requests s') = ["b"]%string /\
  dkeys (num_scheduled_tokens so) = ["b"]%string /\ scores_are_numbers s = true /\
  List.filter (speaks sample_tokens 0 s0) ["a"; "b"]%string = ["a"; "b"]%string /\ pending_pruned_outputs s0 = [] /\
  rid_of s <$> running s = ["a"; "b"]%string.
Proof.
  assert (H : (
  r1 ← sample_sched_request "a" [1; 2; 3; 4];
  r2 ← sample_sched_request "b" [7; 8; 9; 10];
  k ← new_kv_cache_manager sample_kv_config 16 true false false false 1;
  s ← new_scheduler (C := Empty_set) (E := Empty_set) GAMBIT false false 0 k None None tt;
  st1 ← sample_perform (CallAdd r1) (s, None);
  st2 ← sample_perform (CallAdd r2) st1;
  st3 ← sample_perform CallSchedule st2;
  st4 ← sample_perform (CallUpdate sample_tokens None None) st3;
  st5 ← sample_perform (CallScores sample_new_scores) st4;
  x ← schedule true sample_clock sample_sched_config st5.1;
  Ok (find_request "b" st1.1, bool_decide (st2.2 = None), option_map (fun so => dkeys (num_scheduled_tokens so)) st3.2,
      bool_decide (st5.2 = None), dkeys (requests st5.1), dkeys (requests x.2), dkeys (num_scheduled_tokens x.1),
      scores_are_numbers st5.1, List.filter (speaks sample_tokens 0 st3.1) ["a"; "b"]%string,
      bool_decide (pending_pruned_outputs st3.1 = []), rid_of st5.1 <$> running st5.1))
    = Ok (None, true, Some ["a"; "b"], true, ["a"; "b"], ["b"], ["b"], true, ["a"; "b"], true, ["a"; "b"])%string) by (vm_compute; reflexivity).
  apply bind_Ok_inv in H as (r1 & Hr1 & H). apply bind_Ok_inv in H as (r2 & Hr2 & H).
  apply bind_Ok_inv in H as (k & Hk & H). apply bind_Ok_inv in H as (s & Hs & H).
  apply bind_Ok_inv in H as (st1 & H1 & H). apply bind_Ok_inv in H as (st2 & H2 & H). apply bind_Ok_inv in H as (st3 & H3 & H).
  apply bind_Ok_inv in H as (st4 & H4 & H). apply bind_Ok_inv in H as (st5 & H5 & H). apply bind_Ok_inv in H as ([so s'] & H6 & H).
  injection H as f1 f2%bool_decide_eq_true f3 f4%bool_decide_eq_true f5 f6 f7 f8 f9 f10%bool_decide_eq_true f11. cbn [fst snd] in f6, f7.
  assert (R0 : sample_reachable (s, None)) by (eapply reach_new; [exact sample_group | exact Hk | exact Hs | done]).
  assert (R1 : sample_reachable st1).
  { eapply reach_call; [exact R0 | | exact H1]. eapply sample_allowed_add; [exact Hr1 | done|]. injection Hs as <-. done. }
  assert (R2 : sample_reachable st2).
  { eapply reach_call; [exact R1 | | exact H2]. by eapply sample_allowed_add. }
  assert (R3 : sample_reachable st3) by (eapply reach_call; [exact R2 | | exact H3]; exact f2).
  destruct st3 as [s3 [so3|]]; [|done]. injection f3 as f3. cbn [fst] in f9, f10.
  assert (R4 : sample_reachable st4).
  { eapply reach_call; [exact R3 | | exact H4]. split; [done|]. exists so3. split; [done|]. intros rid. rewrite f3.
    rewrite !elem_of_cons. intros [->|[->|Hin%elem_of_nil]]; [..|done].
    - exists 0. split; [done|]. split; [by right|]. split; [by apply Nat.leb_le|done].
    - exists 1. split; [done|]. split; [by right|]. split; [by apply Nat.leb_le|done]. }
  assert (R5 : sample_reachable st5) by (eapply reach_call; [exact R4 | | exact H5]; exact I).
  destruct st5 as [s5 o5]. cbn [fst snd] in *. subst o5. by exists s3, so3, s5, so, s'.
Qed.

(** ** The theorems at this run *)

Lemma scheduler_never_raises_witness : exists st st', sample_reachable st /\ sample_perform CallSchedule st = Ok st' /\ sample_reachable st'.
Proof.
  destruct sample_states as (s0 & so0 & s & so & s' & _ & _ & R & _). exists (s, None).
  destruct (scheduler_never_raises true sample_clock sample_sched_config sample_hash "seed" 2 eq_refl sample_hash_inj
    ltac:(discriminate) ltac:(discriminate) sample_config_text CallSchedule (s, None) R eq_refl) as (st' & H1 & H2).
  by exists st'.
Defined.

Lemma queues_and_blocks_agree_witness : exists (s : Scheduler FCFSRequestQueue Empty_set Empty_set unit),
  dkeys (requests s) = ["a"; "b"]%string /\ NoDup (running s ++ waiting s).
Proof.
  destruct sample_states as (s0 & so0 & s & so & s' & _ & _ & R & Hk & _). exists s. split; [exact Hk|].
  exact (proj1 (queues_and_blocks_agree true sample_clock sample_sched_config sample_hash "seed" 2 eq_refl sample_hash_inj
    ltac:(discriminate) ltac:(discriminate) sample_config_text s None R)).
Defined.

Lemma step_within_budget_witness : exists (s s' : Scheduler FCFSRequestQueue Empty_set Empty_set unit) so,
  schedule true sample_clock sample_sched_config s = Ok (so, s') /\ dkeys (num_scheduled_tokens so) = ["b"]%string /\
  total_num_scheduled_tokens so <= 8.
Proof.
  destruct sample_states as (s0 & so0 & s & so & s' & _ & _ & R & _ & Hs & _ & Hn). exists s, s', so. split; [exact Hs|]. split; [exact (proj1 Hn)|].
  exact (proj1 (proj2 (step_within_budget true sample_clock sample_sched_config sample_hash "seed" 2 eq_refl sample_hash_inj
    ltac:(discriminate) ltac:(discriminate) sample_config_text s so s' R Hs))).
Defined.

Lemma step_loses_nothing_witness : exists (s s' : Scheduler FCFSRequestQueue Empty_set Empty_set unit) so,
  schedule true sample_clock sample_sched_config s = Ok (so, s') /\ dkeys (requests s) = ["a"; "b"]%string /\
  dkeys (requests s') = ["b"]%string /\ forall rid a, find_request rid s' = Some a -> find_request rid s = Some a.
Proof.
  destruct sample_states as (s0 & so0 & s & so & s' & _ & _ & R & Hk & Hs & Hk' & _). exists s, s', so.
  split; [exact Hs|]. split; [exact Hk|]. split; [exact Hk'|].
  exact (proj1 (step_loses_nothing true sample_clock sample_sched_config sample_hash "seed" 2 eq_refl sample_hash_inj
    ltac:(discriminate) ltac:(discriminate) sample_config_text s so s' R Hs)).
Defined.

Lemma gambit_keeps_the_best_witness : exists (s s' : Scheduler FCFSRequestQueue Empty_set Empty_set unit) so kept stopped,
  schedule true sample_clock sample_sched_config s = Ok (so, s') /\ dkeys (requests s) = ["a"; "b"]%string /\
  dkeys (requests s') = ["b"]%string /\ stable_sort score_key_lt (score_key s) (running s) = kept ++ stopped /\
  kept `prefix_of` running s' /\
  forall a b, a ∈ kept -> b ∈ stopped -> flt (get_request_score s (req s a)) (get_request_score s (req s b)) = false.
Proof.
  destruct sample_states as (s0 & so0 & s & so & s' & _ & _ & R & Hk & Hs & Hk' & _ & Hnan & _).
  destruct (gambit_keeps_the_best true sample_clock sample_sched_config sample_hash "seed" 2 eq_refl sample_hash_inj
    ltac:(discriminate) ltac:(discriminate) sample_config_text s so s' R eq_refl Hs) as (kept & stopped & H1 & _ & H2 & _ & H3).
  exists s, s', so, kept, stopped. split; [exact Hs|]. split; [exact Hk|]. split; [exact Hk'|]. split; [exact H1|]. split; [exact H2|].
  intros a b Ha Hb. exact (proj1 (proj2 (H3 (scores_are_numbers_rankable s Hnan)) a b Ha Hb)).
Defined.

Lemma sample_rows so : dkeys (num_scheduled_tokens so) = ["a"; "b"]%string ->
  forall rid, rid ∈ dkeys (num_scheduled_tokens so) -> row_ok sample_tokens rid.
Proof.
  intros -> rid. rewrite !elem_of_cons. intros [->|[->|Hin%elem_of_nil]]; [exists 0|exists 1|done];
    (split; [done|]); (split; [by right|]); (split; [by apply Nat.leb_le|done]).
Qed.

Lemma every_token_delivered_witness : exists (s s' : Scheduler FCFSRequestQueue Empty_set Empty_set unit) so ecos,
  dkeys (num_scheduled_tokens so) = ["a"; "b"]%string /\
  sched_update_output true sample_sched_config (Some (request_block_hasher sample_hash "seed" 2)) so sample_tokens None None s = Ok (ecos, s') /\
  (fun o => (eco_request_id o, new_token_ids o)) <$> outputs_to 0 ecos = [("a", [5]); ("b", [6])]%string /\
  pending_pruned_outputs s' = [].
Proof.
  destruct sample_states as (s0 & so0 & s & so & s' & R & Hn & _ & _ & _ & _ & _ & _ & Hspeak & Hpend & _).
  destruct (every_token_delivered true sample_clock sample_sched_config sample_hash "seed" 2 eq_refl sample_hash_inj
    ltac:(discriminate) ltac:(discriminate) sample_config_text s0 so0 sample_tokens None None R
    ltac:(by split) (sample_rows so0 Hn)) as (ecos & s1 & H1 & _ & _ & H2 & H3).
  exists s0, s1, so0, ecos. split; [exact Hn|]. split; [exact H1|]. split; [|exact H3].
  destruct (H2 0) as (news & -> & HF). rewrite Hn, Hspeak in HF. rewrite Hpend. change (held_for 0 []) with (@nil EngineCoreOutput).
  apply Forall2_cons_inv_l in HF as (o1 & l1 & (p1 & p2 & _) & HF & ->).
  apply Forall2_cons_inv_l in HF as (o2 & l2 & (q1 & q2 & _) & ->%Forall2_nil_inv_l & ->). cbn. by rewrite p1, p2, q1, q2.
Defined.

Lemma abort_is_complete_witness : exists (s s' : Scheduler FCFSRequestQueue Empty_set Empty_set unit),
  dkeys (requests s) = ["a"; "b"]%string /\ sched_finish ["a"]%string FINISHED_ABORTED s = Ok s' /\ find_request "a" s' = None /\
  rid_of s <$> running s' = ["b"]%string.
Proof.
  destruct sample_states as (s0 & so0 & s & so & s' & _ & _ & R & Hk & _ & _ & _ & _ & _ & _ & Hrun).
  destruct (abort_is_complete true sample_clock sample_sched_config sample_hash "seed" 2 eq_refl sample_hash_inj
    ltac:(discriminate) ltac:(discriminate) sample_config_text s None ["a"]%string FINISHED_ABORTED R eq_refl) as (s1 & H1 & H2 & H3 & _).
  exists s, s1. split; [exact Hk|]. split; [exact H1|]. split; [exact (H2 "a"%string)|]. rewrite H3. clear -Hrun.
  destruct (running s) as [|x [|y [|z l]]]; try discriminate. injection Hrun as Hx Hy. cbn [List.filter]. rewrite Hx, Hy.
  change ([rid_of s y] = ["b"%string]). by rewrite Hy.
Defined.

