(* ===== verification/EngineCore.v ===== *)
(** * The engine core

    [vllm/v1/engine/core.py], class [EngineCore]: the Gambit search on top of a
    scheduler.  One step schedules, runs the model, scores the traces that
    crossed a reasoning boundary, prunes and branches them, and finalizes the
    finished ones.

    The scheduler is any implementation of [SchedulerInterface].  The executor
    (model forward pass and scorer RPCs) is the argument [x] of a step; the
    RPCs that only synchronise worker state are recorded in [rpc_log].  Python
    sets are [gset]s: a loop over one runs in the order of [elements].  Logging
    and the timing accumulators are left out. *)

From S2P Require Import Prelude PyDict PyList PyStr PyFloat PyRandom GambitConfig Request.
From S2P Require Import TraceTree Outputs.
#[local] Open Scope Z_scope.

(** ** Scorer payloads and executor *)

Inductive Score := ScoreOne (s : float) | ScoreMany (l : list float).

(** A worker answers a score or, when hidden states are collected, a dictionary. *)
Inductive Payload :=
| PlainScore (s : Score)
| HiddenScore (scores : option Score) (hidden_state : option (list float)).

Record Executor := mkExecutor {
  execute_model : SchedulerOutput -> result (option ModelRunnerOutput);
  sample_tokens : option GrammarOutput -> result ModelRunnerOutput;
  scorer_rpc : string -> list string -> dict string Z -> list (dict string Payload);
  take_draft_token_ids : option DraftTokenIds;
}.

Record AsyncMeta := mkAsyncMeta { meta_collect_hidden : bool; meta_req_ids : gset string }.

(** ** State *)

Record EngineCore (S G : Type) := mkEngineCore {
  scheduler : S;
  trace_scores : dict string (list float);
  trace_score_sums : dict string float;
  trace_score_counts : dict string Z;
  final_trace_scores : dict string (option float);
  pending_low_score_stops : gset string;
  pending_force_stops : gset string;
  trace_token_counts : dict string Z;
  stride_last_trigger : dict string Z;
  pending_hs_classification : gset string;
  trace_hidden_state_last : dict string (list float);
  trace_tree : option TraceTree;
  gambit_enabled : bool;
  gambit_output_token_ids : dict string (list Z);
  tournament_step_counter : Z;
  tournament_last_round_step : Z;
  seq_hs_to_clear : list string;
  seq_hs_to_copy : list (string * string);
  async_scorer_future : option (list (dict string Payload));
  async_scorer_meta : AsyncMeta;
  rpc_log : list (list string * list (string * string));
  rng : G;
}.
Arguments mkEngineCore {S G}.
Arguments scheduler {S G}. Arguments trace_scores {S G}. Arguments trace_score_sums {S G}.
Arguments trace_score_counts {S G}. Arguments final_trace_scores {S G}.
Arguments pending_low_score_stops {S G}. Arguments pending_force_stops {S G}.
Arguments trace_token_counts {S G}. Arguments stride_last_trigger {S G}.
Arguments pending_hs_classification {S G}. Arguments trace_hidden_state_last {S G}.
Arguments trace_tree {S G}. Arguments gambit_enabled {S G}.
Arguments gambit_output_token_ids {S G}. Arguments tournament_step_counter {S G}.
Arguments tournament_last_round_step {S G}. Arguments seq_hs_to_clear {S G}.
Arguments seq_hs_to_copy {S G}. Arguments async_scorer_future {S G}.
Arguments async_scorer_meta {S G}. Arguments rpc_log {S G}. Arguments rng {S G}.

#[export] Instance eta_EngineCore {S G} : Eta (EngineCore S G) := fun e =>
  mkEngineCore (scheduler e) (trace_scores e) (trace_score_sums e) (trace_score_counts e)
    (final_trace_scores e) (pending_low_score_stops e) (pending_force_stops e)
    (trace_token_counts e) (stride_last_trigger e) (pending_hs_classification e)
    (trace_hidden_state_last e) (trace_tree e) (gambit_enabled e) (gambit_output_token_ids e)
    (tournament_step_counter e) (tournament_last_round_step e) (seq_hs_to_clear e)
    (seq_hs_to_copy e) (async_scorer_future e) (async_scorer_meta e) (rpc_log e) (rng e).

(** [x = d.get(k); ... d.pop(k, None)]. *)
Definition discard (rid : string) (s : gset string) : gset string := s ∖ {[rid]}.

Section Engine.
Context {S G : Type} `{SchedulerInterface S, PyRandom G, PySum}.
(** The configuration, the environment switch of the asynchronous scorer, the
    block hasher and the clock given to new requests, the pooling tasks both
    the model and the engine support, and the task of a pooling request. *)
Context (config : GambitConfig) (async_scorer_enabled : bool)
  (request_block_hasher : option (Request -> result (list BlockHash))) (now : float)
  (supported_pooling_tasks : list string) (pooling_task : opaque -> string).
Abbreviation Engine := (EngineCore S G).
Implicit Types e : Engine.

(** ** Construction *)

(** [_trace_tree_branch_gates]: cooldown and minimum tokens. *)
Definition trace_tree_branch_gates : Z * Z :=
  if tournament_mode config then (0, 0)
  else (GambitConfig.branch_cooldown_steps config, GambitConfig.min_tokens_before_branch config).

Definition new_trace_tree : TraceTree :=
  new_tree (config_capacity config) trace_tree_branch_gates.1 trace_tree_branch_gates.2.

(** The Gambit part of the constructor; [has_batch_queue] says whether the
    executor runs more than one batch at a time. *)
Definition init_engine (has_batch_queue : bool) (s : S) (g : G) : result Engine :=
  if enable config && has_batch_queue then Raise ValueError
  else Ok {|
    scheduler := s; trace_scores := []; trace_score_sums := []; trace_score_counts := [];
    final_trace_scores := []; pending_low_score_stops := ∅; pending_force_stops := ∅;
    trace_token_counts := []; stride_last_trigger := []; pending_hs_classification := ∅;
    trace_hidden_state_last := [];
    trace_tree := if enable_branching config then Some new_trace_tree else None;
    gambit_enabled := enable_branching config; gambit_output_token_ids := [];
    tournament_step_counter := 0; tournament_last_round_step := -1;
    seq_hs_to_clear := []; seq_hs_to_copy := []; async_scorer_future := None;
    async_scorer_meta := {| meta_collect_hidden := false; meta_req_ids := ∅ |};
    rpc_log := []; rng := g |}.

(** ** Requests *)

Definition on_tree (f : TraceTree -> TraceTree) e : Engine :=
  e <| trace_tree := f <$> trace_tree e |>.

Definition add_request (request : Request) e : result Engine :=
  _ ← (match pooling_params request with
       | Some p => if bool_decide (pooling_task p ∈ supported_pooling_tasks)
                   then Ok tt else Raise ValueError
       | None => Ok tt
       end);
  s ← sched_add_request request (scheduler e);
  let e := e <| scheduler := s |> in
  match gambit_enabled e, trace_tree e with
  | true, Some t =>
      let rid := request_id request in
      let e := e <| gambit_output_token_ids := dsetdefault rid [] (gambit_output_token_ids e) |> in
      Ok (if negb (contains rid t) && py_contains "_" rid && negb (startswith "gambit_" rid)
          then on_tree (add_root rid) e else e)
  | _, _ => Ok e
  end.

Definition abort_requests (request_ids : list string) e : result Engine :=
  s ← sched_finish_requests request_ids FINISHED_ABORTED (scheduler e);
  Ok (e <| scheduler := s |>).

(** ** Pruning and forced stops *)

Definition prune_trace (rid : string) e : Engine :=
  match trace_tree e with
  | None => e
  | Some t =>
      e <| pending_low_score_stops := {[rid]} ∪ pending_low_score_stops e |>
        <| trace_tree := Some (mark_pruned rid t) |>
        <| seq_hs_to_clear := seq_hs_to_clear e ++ [rid] |>
  end.

Definition prune_all (rids : list string) e : Engine := fold_left (fun e rid => prune_trace rid e) rids e.

Definition should_stop_after_completed e : bool :=
  match trace_tree e with
  | None => false
  | Some t =>
      let limit := stop_after_completed_traces config in
      if limit <=? 0 then false else limit <=? get_completed_count t
  end.

(** One iteration of the forced stop's loop. *)
Definition force_stop (rid : string) e : Engine :=
  on_tree (mark_pruned rid) e <| pending_force_stops := {[rid]} ∪ pending_force_stops e |>.

Definition force_stop_all_active_traces e : Engine :=
  match trace_tree e with
  | None => e
  | Some t =>
      let active_ids :=
        (List.filter (fun p => is_active p.2 && bool_decide (p.1 ∉ pending_force_stops e))
           (nodes t)).*1 in
      fold_left (fun e rid => force_stop rid e) active_ids e
  end.

(** ** Branching *)

(** [copy(sampling_params)] with a boosted temperature and another seed. *)
Definition child_sampling_params (t : TraceTree) (sp : SamplingParams) (g : G)
    : SamplingParams * G :=
  let sp := match temperature sp with
            | Some temp => sp <| temperature := Some (fmul temp (branch_temperature_boost config)) |>
            | None => sp
            end in
  match seed sp with
  | Some s => (sp <| seed := Some (if tree_len t =? 0 then s + 1 else s + branch_counter t) |>, g)
  | None => let '(s, g') := randint 0 (2 ^ 31 - 1) g in (sp <| seed := Some s |>, g')
  end.

(** The keyword arguments [_gambit_create_child_request] passes to [Request]. *)
Definition child_request_args (parent : Request) (child_req_id : string)
    (sp : option SamplingParams) : RequestArgs := {|
  ra_request_id := child_req_id; ra_prompt_token_ids := Some (all_token_ids parent);
  ra_sampling_params := sp; ra_pooling_params := pooling_params parent;
  ra_eos_token_id := eos_token_id parent; ra_client_index := client_index parent;
  ra_arrival_time := Some (arrival_time parent); ra_prompt_embeds := None;
  ra_mm_features := None; ra_lora_request := lora_request parent;
  ra_cache_salt := cache_salt parent; ra_priority := priority parent;
  ra_trace_headers := trace_headers parent; ra_trace_avg_score := None |}.

(** [_gambit_create_child_request]: an exception of the constructor is [None]. *)
Definition create_child_request (t : TraceTree) (parent : Request) (child_req_id : string) (g : G)
    : option Request * G :=
  let '(sp, g') :=
    match sampling_params parent with
    | Some sp => let '(sp', g') := child_sampling_params t sp g in (Some sp', g')
    | None => (None, g)
    end in
  (match new_request request_block_hasher now (child_request_args parent child_req_id sp) with
   | Ok r => Some r
   | Raise _ => None
   end, g').

(** The child starts with the parent's scores, no tokens of its own, and the
    parent's output so far. *)
Definition copy_trace_state (parent_req_id child_req_id : string) e : Engine :=
  let e :=
    if enable config && negb (record_score_history config) then
      match dget parent_req_id (trace_score_counts e) with
      | Some c =>
          e <| trace_score_counts := dset child_req_id c (trace_score_counts e) |>
            <| trace_score_sums := dset child_req_id
                 (dget_or parent_req_id fzero (trace_score_sums e)) (trace_score_sums e) |>
      | None => e
      end
    else
      match dget_or parent_req_id [] (trace_scores e) with
      | [] => e
      | parent_scores => e <| trace_scores := dset child_req_id parent_scores (trace_scores e) |>
      end in
  e <| trace_token_counts := dset child_req_id 0 (trace_token_counts e) |>
    <| stride_last_trigger := dset child_req_id 0 (stride_last_trigger e) |>
    <| gambit_output_token_ids := dset child_req_id
         (dget_or parent_req_id [] (gambit_output_token_ids e)) (gambit_output_token_ids e) |>.

Definition create_branch (parent_req_id : string) e : result (bool * Engine) :=
  match trace_tree e with
  | None => Ok (false, e)
  | Some t =>
      if should_stop_after_completed e then Ok (false, e)
      else if negb (can_trace_branch parent_req_id
                      (dget_or parent_req_id 0 (trace_token_counts e)) t) then Ok (false, e)
      else match sched_request parent_req_id (scheduler e) with
      | None => Ok (false, e)
      | Some parent_request =>
          let child_req_id := generate_branch_id parent_req_id t in
          let parent_output_len :=
            py_len (dget_or parent_req_id [] (gambit_output_token_ids e)) in
          match add_branch parent_req_id child_req_id parent_output_len t with
          | (None, t1) => Ok (false, e <| trace_tree := Some t1 |>)
          | (Some _, t1) =>
              let '(child_request, g) :=
                create_child_request t1 parent_request child_req_id (rng e) in
              let e := e <| rng := g |> in
              match child_request with
              | None => Ok (false, e <| trace_tree := Some (remove_trace child_req_id t1) |>)
              | Some child =>
                  let e := e <| trace_tree := Some t1 |> in
                  s ← sched_add_request child (scheduler e);
                  let e := e <| scheduler := s |>
                             <| seq_hs_to_copy :=
                                  seq_hs_to_copy e ++ [(parent_req_id, child_req_id)] |> in
                  Ok (true, copy_trace_state parent_req_id child_req_id e)
              end
          end
      end
  end.

(** The branching loops: stop at capacity, branch the rest in order. *)
Fixpoint branch_loop (capacity : Z) (l : list (float * string)) e : result Engine :=
  match l with
  | [] => Ok e
  | (_, rid) :: l' =>
      match trace_tree e with
      | None => Ok e
      | Some t =>
          if capacity <=? get_active_count t then Ok e
          else '(_, e) ← create_branch rid e; branch_loop capacity l' e
      end
  end.

(** ** Tournament mode *)

Definition tokens_of (rid : string) e : Z := dget_or rid 0 (trace_token_counts e).

(** The hard floor: traces past warmup whose average is below it. *)
Definition hard_floor_victims (trace_avg_scores : dict string float) e : list string :=
  (List.filter (fun p => bool_decide (p.1 ∉ pending_low_score_stops e) &&
      ((tournament_warmup_tokens config <=? tokens_of p.1 e) &&
       flt p.2 (tournament_hard_floor config))) trace_avg_scores).*1.

(** Whether a round runs in this step. *)
Definition round_due (trace_avg_scores : dict string float) e : bool :=
  if tournament_last_round_step e <? 0 then
    existsb (fun rid => tournament_warmup_tokens config <=? tokens_of rid e)
      (dkeys trace_avg_scores)
  else tournament_check_interval config <=?
         tournament_step_counter e - tournament_last_round_step e.

(** The scored active traces that are not about to stop, by score, highest
    first. *)
Definition scored_active (trace_avg_scores : dict string float) (t : TraceTree) e
    : list (float * string) :=
  (fun p => (p.2, p.1)) <$>
    List.filter (fun p => bool_decide (p.1 ∉ pending_low_score_stops e) &&
      match get_node p.1 t with Some node => is_active node | None => false end)
      trace_avg_scores.

Definition neg_score (p : float * string) : float := fopp p.1.
Definition rank (l : list (float * string)) : list (float * string) := stable_sort flt neg_score l.

(** The traces of the ranking that may be a parent. *)
Definition warm (e : Engine) (p : float * string) : bool :=
  tournament_warmup_tokens config <=? tokens_of p.2 e.

(** The [k] parents taken from a pool: a random sample under the ablation, the
    best ones otherwise. *)
Definition choose_parents (pool : list (float * string)) (k : Z) e
    : result (list (float * string) * Engine) :=
  match tournament_branch_random config, pool with
  | true, _ :: _ =>
      '(sel, g) ← py_sample pool (Z.min k (py_len pool)) (rng e);
      Ok (sel, e <| rng := g |>)
  | _, _ => Ok (slice_to k pool, e)
  end.

(** Below capacity: branch into the free slots. *)
Definition fill_round (active_n : Z) (branch_candidates : list (float * string)) e
    : result Engine :=
  let capacity := tournament_capacity config in
  '(traces_to_branch, e) ← choose_parents branch_candidates (capacity - active_n) e;
  branch_loop capacity traces_to_branch e.

(** At or over capacity: prune the excess, then swap the bottom for clones of
    the top. *)
Definition swap_excess (active_n : Z) (active_traces : list (float * string)) : Z :=
  Z.min (active_n - tournament_capacity config) (py_len active_traces).

Definition swap_remaining (active_n : Z) (active_traces : list (float * string))
    : list (float * string) :=
  let excess := swap_excess active_n active_traces in
  if 0 <? excess then slice_to (- excess) active_traces else active_traces.

Definition swap_k_actual (active_traces : list (float * string)) : Z :=
  Z.min (tournament_swap_k config) (py_len active_traces / 2).

Definition eligible_parents (bottom_k branch_candidates : list (float * string))
    : list (float * string) :=
  List.filter (fun p => bool_decide (p.2 ∉ bottom_k.*2)) branch_candidates.

Definition swap_round (active_n : Z) (active_traces branch_candidates : list (float * string)) e
    : result Engine :=
  let capacity := tournament_capacity config in
  let excess := swap_excess active_n active_traces in
  let e := if 0 <? excess
           then prune_all (slice_from (- excess) active_traces).*2 e else e in
  let active_traces := swap_remaining active_n active_traces in
  let actual_k := swap_k_actual active_traces in
  if 0 <? actual_k then
    let bottom_k := slice_from (- actual_k) active_traces in
    '(top_k, e) ← choose_parents (eligible_parents bottom_k branch_candidates) actual_k e;
    branch_loop capacity top_k (prune_all bottom_k.*2 e)
  else Ok e.

(** A round: below capacity fill, at or over it swap. *)
Definition tournament_round (trace_avg_scores : dict string float) (t : TraceTree) e
    : result Engine :=
  match rank (scored_active trace_avg_scores t e) with
  | [] => Ok e
  | active_traces =>
      let active_n := get_active_count t in
      let branch_candidates := List.filter (warm e) active_traces in
      if active_n <? tournament_capacity config
      then fill_round active_n branch_candidates e
      else swap_round active_n active_traces branch_candidates e
  end.

Definition tournament_step (trace_avg_scores : dict string float) e : result Engine :=
  let e := prune_all (hard_floor_victims trace_avg_scores e) e in
  if negb (round_due trace_avg_scores e) then Ok e
  else
    let e := e <| tournament_last_round_step := tournament_step_counter e |> in
    match trace_tree e with
    | None => Ok e
    | Some t => tournament_round trace_avg_scores t e
    end.

(** ** Threshold mode *)

Definition should_prune_threshold (rid : string) (avg_score : float) (num_tokens : Z) e : bool :=
  if num_tokens <? min_tokens_before_prune config then false
  else if bool_decide (rid ∈ pending_low_score_stops e) then false
  else flt avg_score (theta_prune config).

Definition should_branch_threshold (rid : string) (avg_score : float) (num_tokens : Z) e : bool :=
  match trace_tree e with
  | None => false
  | Some t =>
      if fle avg_score (theta_branch config) then false
      else if num_tokens <? GambitConfig.min_tokens_before_branch config then false
      else match get_node rid t with
      | None => false
      | Some node =>
          if negb (is_active node) then false
          else negb ((0 <=? last_branch_step node) &&
                     (current_step t - last_branch_step node
                        <? GambitConfig.branch_cooldown_steps config))
      end
  end.

Definition threshold_step (trace_avg_scores : dict string float) e : result Engine :=
  match trace_tree e with
  | None => Ok e
  | Some t0 =>
      let prunes p := should_prune_threshold p.1 p.2 (tokens_of p.1 e) e in
      let branches p := should_branch_threshold p.1 p.2 (tokens_of p.1 e) e in
      let traces_to_prune := (List.filter prunes trace_avg_scores).*1 in
      let traces_to_branch :=
        (List.filter (fun p => negb (prunes p) && branches p) trace_avg_scores).*1 in
      let e := prune_all traces_to_prune e in
      let branch_scores :=
        (fun rid => (dget_or rid fzero trace_avg_scores, rid)) <$> traces_to_branch in
      branch_loop (max_traces t0) (rank branch_scores) e
  end.

(** ** The decision step *)

(** One trace of the recording loop. *)
Definition note_score (p : string * float) e : Engine :=
  let e := on_tree (fun t => if contains p.1 t then t else add_root p.1 t) e in
  if record_score_history config then on_tree (record_score p.1 p.2) e else e.

(** The batched [sync_sequence_histories] RPC. *)
Definition flush_sequence_histories e : Engine :=
  match seq_hs_to_clear e, seq_hs_to_copy e with
  | [], [] => e
  | _, _ => e <| rpc_log := rpc_log e ++ [(seq_hs_to_clear e, seq_hs_to_copy e)] |>
              <| seq_hs_to_clear := [] |> <| seq_hs_to_copy := [] |>
  end.

Definition decision_step (trace_avg_scores : dict string float) e : result Engine :=
  match gambit_enabled e, trace_tree e with
  | true, Some _ =>
      let e := on_tree increment_step e
                 <| tournament_step_counter := tournament_step_counter e + 1 |> in
      let e := fold_left (fun e p => note_score p e) trace_avg_scores e in
      if should_stop_after_completed e then Ok (force_stop_all_active_traces e)
      else
        e ← (if tournament_mode config then tournament_step trace_avg_scores e
             else threshold_step trace_avg_scores e);
        Ok (flush_sequence_histories e)
  | _, _ => Ok e
  end.

(** ** Scores of a step *)

(** The answers of all workers merged, and the hidden states they carry. *)
Definition unpack_entry (collect_hidden : bool) (p : string * Payload)
    (acc : dict string Payload * dict string (list float))
    : dict string Payload * dict string (list float) :=
  let '(scores, hidden) := acc in
  match collect_hidden, p.2 with
  | true, HiddenScore sc hs =>
      (dset p.1 (PlainScore (default (ScoreMany []) sc)) scores,
       match hs with Some h => dset p.1 h hidden | None => hidden end)
  | _, payload => (dset p.1 payload scores, hidden)
  end.

Definition unpack_payloads (collect_hidden : bool) (scores_per_worker : list (dict string Payload))
    e : dict string Payload * Engine :=
  let '(scores, hidden) :=
    fold_left (fun acc p => unpack_entry collect_hidden p acc) (concat scores_per_worker)
      ([], trace_hidden_state_last e) in
  (scores, e <| trace_hidden_state_last := hidden |>).

(** One iteration of the recording loop.  A dictionary where a score is
    expected is a type error, at the latest when the average is taken. *)
Definition record_payload (p : string * Payload) e : result Engine :=
  match p.2 with
  | HiddenScore _ _ => Raise TypeError
  | PlainScore score =>
      if record_score_history config then
        let buf := dget_or p.1 [] (trace_scores e) in
        Ok (e <| trace_scores := dset p.1
                   (match score with ScoreOne x => buf ++ [x] | ScoreMany l => buf ++ l end)
                   (trace_scores e) |>)
      else
        let '(s, c) := match score with
                       | ScoreOne x => (x, 1)
                       | ScoreMany l => (py_sum l, py_len l)
                       end in
        Ok (if 0 <? c then
              e <| trace_score_sums := dset p.1
                     (fadd (dget_or p.1 fzero (trace_score_sums e)) s) (trace_score_sums e) |>
                <| trace_score_counts := dset p.1
                     (dget_or p.1 0 (trace_score_counts e) + c) (trace_score_counts e) |>
            else e)
  end.

(** The dictionary of averages. *)
Definition average_of (e : Engine) (rid : string) : result (string * float) :=
  s ← or_raise KeyError (dget rid (trace_score_sums e));
  Ok (rid, fdiv s (float_of_Z (dget_or rid 0 (trace_score_counts e)))).

Fixpoint collect_ok {A B} (f : A -> result B) (l : list A) : result (list B) :=
  match l with
  | [] => Ok []
  | x :: l' => y ← f x; ys ← collect_ok f l'; Ok (y :: ys)
  end.

Definition score_averages e : result (dict string float) :=
  if record_score_history config then
    Ok (omap (M := list) (fun p => match p.2 with [] => None | buf => Some (p.1, py_mean buf) end)
          (trace_scores e))
  else
    collect_ok (average_of e)
      (List.filter (fun p => 0 <? p.2) (trace_score_counts e)).*1.

(** Record the scores, take them off [pending], average, and decide. *)
Definition process_scores (collect_hidden : bool) (scores_per_worker : list (dict string Payload))
    (classified : dict string Payload -> gset string) e : result Engine :=
  let '(scores, e) := unpack_payloads collect_hidden scores_per_worker e in
  e ← for_each record_payload scores e;
  let e := match scores with
           | [] => e
           | _ => e <| pending_hs_classification :=
                         pending_hs_classification e ∖ classified scores |>
           end in
  trace_avg_scores ← score_averages e;
  match trace_avg_scores with
  | [] => Ok e
  | _ =>
      let e := e <| scheduler := sched_update_trace_scores trace_avg_scores (scheduler e) |> in
      if gambit_enabled e then decision_step trace_avg_scores e else Ok e
  end.

(** The result of the previous step's asynchronous RPC. *)
Definition consume_async e : result Engine :=
  match async_scorer_enabled, async_scorer_future e with
  | true, Some scores_per_worker =>
      let meta := async_scorer_meta e in
      process_scores (meta_collect_hidden meta) scores_per_worker (fun _ => meta_req_ids meta)
        (e <| async_scorer_future := None |>)
  | _, _ => Ok e
  end.

(** The traces waiting for a score that ran in this step. *)
Definition to_classify (so : SchedulerOutput) e : dict string Z :=
  omap (M := list) (fun rid => (fun n => (rid, n)) <$> dget rid (num_scheduled_tokens so))
    (elements (pending_hs_classification e)).

Definition score_pending (x : Executor) (so : SchedulerOutput) e : result Engine :=
  match to_classify so e with
  | [] => Ok e
  | nst =>
      let collect_hidden := collect_hidden_states_for_mining config in
      let method := if collect_hidden then "step_scorer_evaluate_with_hidden_states"%string
                    else "step_scorer_evaluate"%string in
      let answer := scorer_rpc x method (dkeys nst) nst in
      if async_scorer_enabled then
        Ok (e <| async_scorer_future := Some answer |>
              <| async_scorer_meta := {| meta_collect_hidden := collect_hidden;
                                         meta_req_ids := list_to_set (dkeys nst) |} |>)
      else process_scores collect_hidden answer (fun scores => list_to_set (dkeys scores)) e
  end.

Definition drop_finished_pending e : Engine :=
  e <| pending_hs_classification :=
         pending_hs_classification e ∖ sched_finished_req_ids (scheduler e) |>.

(** ** Boundaries *)

(** One request of the boundary loop: count its tokens, and say whether it
    crossed a stride or sampled a boundary token. *)
Definition mark_boundary (sampled : list Z) (rid : string) e : bool * Engine :=
  let total_tokens := tokens_of rid e + py_len sampled in
  let e := e <| trace_token_counts := dset rid total_tokens (trace_token_counts e) |> in
  let stride := scoring_stride config in
  if 0 <? stride then
    if stride <=? total_tokens - dget_or rid 0 (stride_last_trigger e)
    then (true, e <| stride_last_trigger := dset rid total_tokens (stride_last_trigger e) |>)
    else (false, e)
  else
    match double_new_line_tokenID config with
    | Some boundary_ids => (existsb (fun t => bool_decide (t ∈ boundary_ids)) sampled, e)
    | None => (false, e)
    end.

Definition mark_boundaries (mo : ModelRunnerOutput) e : result Engine :=
  '(marks, e) ← for_collect (fun p e =>
      sampled ← py_index (sampled_token_ids mo) p.2;
      let '(triggered, e) := mark_boundary sampled p.1 e in
      Ok ((p.1, triggered), e)) (req_id_to_index mo) e;
  let trigger_req_ids := (List.filter snd marks).*1 in
  Ok (e <| pending_hs_classification :=
             pending_hs_classification e ∪ list_to_set trigger_req_ids |>).

(** ** Forced end of sequence *)

Definition eos_of (rid : string) (s : S) : option Z :=
  match sched_request rid s with Some r => eos_token_id r | None => None end.

Definition insert_eos_one (s : S) (rid : string) (mo : ModelRunnerOutput)
    : result ModelRunnerOutput :=
  match dget rid (req_id_to_index mo) with
  | None => Ok mo
  | Some idx =>
      match eos_of rid s with
      | None => Ok mo
      | Some eos =>
          rows ← py_setitem idx [eos] (sampled_token_ids mo);
          Ok (mo <| sampled_token_ids := rows |>)
      end
  end.

(** [_insert_eos] with a non-empty stop reason. *)
Definition insert_eos (mo : ModelRunnerOutput) (request_idx : list string) (reason : string) e
    : result (ModelRunnerOutput * Engine) :=
  let s := sched_mark_stop_reason request_idx reason (scheduler e) in
  mo ← for_each (insert_eos_one s) request_idx mo;
  Ok (mo, e <| scheduler := s |>).

Definition in_output (mo : ModelRunnerOutput) (rids : gset string) : list string :=
  List.filter (fun rid => dmem rid (req_id_to_index mo)) (elements rids).

(** One of the two stages: force the requests of the batch, if any. *)
Definition force_in_output (mo : ModelRunnerOutput) (rids : gset string) (reason : string) e
    : result (ModelRunnerOutput * Engine) :=
  match in_output mo rids with
  | [] => Ok (mo, e)
  | ids => insert_eos mo ids reason e
  end.

Definition inject_stops (mo : ModelRunnerOutput) e : result (ModelRunnerOutput * Engine) :=
  let prune_req_ids := in_output mo (pending_low_score_stops e) in
  '(mo, e) ← force_in_output mo (pending_low_score_stops e) "gambit_pruned" e;
  let e := e <| pending_low_score_stops :=
                  pending_low_score_stops e ∖ list_to_set prune_req_ids |> in
  let force_req_ids := in_output mo (pending_force_stops e) in
  '(mo, e) ← force_in_output mo (pending_force_stops e) "gambit_stop_after_completed" e;
  Ok (mo, e <| pending_force_stops := pending_force_stops e ∖ list_to_set force_req_ids |>).

(** Everything a step does under [gambit_config.enable]. *)
Definition gambit_phase (x : Executor) (so : SchedulerOutput) (mo : ModelRunnerOutput) e
    : result (ModelRunnerOutput * Engine) :=
  if enable config then
    e ← consume_async e;
    e ← score_pending x so e;
    e ← mark_boundaries mo (drop_finished_pending e);
    if gambit_enabled e then inject_stops mo e else Ok (mo, e)
  else Ok (mo, e).

(** ** Captured outputs *)

(** The generated tokens of a step, appended to each request's full output. *)
Definition capture_tokens (mo : ModelRunnerOutput) e : result Engine :=
  for_each (fun p e =>
      sampled ← py_index (sampled_token_ids mo) p.2;
      Ok (match sampled with
          | [] => e
          | _ => e <| gambit_output_token_ids := dset p.1
                        (dget_or p.1 [] (gambit_output_token_ids e) ++ sampled)
                        (gambit_output_token_ids e) |>
          end)) (req_id_to_index mo) e.

(** ** Finished requests *)

(** The output recorded for a finished trace: the scheduler's request when it is
    still there, the captured tokens otherwise. *)
Definition finished_output (rid : string) (final_score : option float)
    (captured : option (list Z)) (s : S) : Output :=
  match sched_request rid s with
  | Some r => {| out_text := None; out_token_ids := Some (Request.output_token_ids r);
                 out_finish_reason := Some (status_name (status r));
                 out_stop_reason := Request.stop_reason r; out_final_score := final_score |}
  | None => {| out_text := None; out_token_ids := captured; out_finish_reason := None;
               out_stop_reason := None; out_final_score := final_score |}
  end.

Definition finish_node (rid : string) (o : Output) (t : TraceTree) : TraceTree :=
  let t := if contains rid t then t else add_root rid t in
  match get_node rid t with
  | None => t
  | Some node =>
      if is_pruned node then with_nodes (dalter (set_output o) rid (nodes t)) t
      else mark_completed rid o t
  end.

Definition on_request_finished (rid : string) (final_score : option float)
    (captured : option (list Z)) e : Engine :=
  on_tree (finish_node rid (finished_output rid final_score captured (scheduler e))) e.

Definition final_average (rid : string) e : result (option float) :=
  if enable config && negb (record_score_history config) then
    let c := dget_or rid 0 (trace_score_counts e) in
    Ok (if 0 <? c then Some (fdiv (dget_or rid fzero (trace_score_sums e)) (float_of_Z c))
        else None)
  else
    Ok (match dget_or rid [] (trace_scores e) with [] => None | l => Some (py_mean l) end).

(** Drop the bookkeeping of one request. *)
Definition forget (rid : string) e : Engine :=
  e <| trace_scores := ddel rid (trace_scores e) |>
    <| trace_score_sums := ddel rid (trace_score_sums e) |>
    <| trace_score_counts := ddel rid (trace_score_counts e) |>
    <| pending_low_score_stops := discard rid (pending_low_score_stops e) |>
    <| pending_force_stops := discard rid (pending_force_stops e) |>
    <| trace_token_counts := ddel rid (trace_token_counts e) |>
    <| stride_last_trigger := ddel rid (stride_last_trigger e) |>.

Definition finalize_one (rid : string) e : result Engine :=
  final_avg ← final_average rid e;
  let e := forget rid (e <| final_trace_scores := dset rid final_avg (final_trace_scores e) |>) in
  Ok (if gambit_enabled e then
        let captured := dget rid (gambit_output_token_ids e) in
        on_request_finished rid final_avg captured
          (e <| gambit_output_token_ids := ddel rid (gambit_output_token_ids e) |>)
      else e).

Definition finalize_scores (finished_ids : list string) e : result Engine :=
  for_each finalize_one finished_ids e.

(** ** Export *)

Definition get_gambit_tree_export e : option GambitExport :=
  match gambit_enabled e, trace_tree e with
  | true, Some t =>
      let export := export_tree t in
      let hidden rid := if collect_hidden_states_for_mining config
                        then dget rid (trace_hidden_state_last e) else None in
      Some {|
        ge_stats := ex_stats export;
        ge_scheduler_active_count :=
          sched_num_waiting (scheduler e) + sched_num_running (scheduler e);
        ge_nodes := (fun p => (p.1, (p.2, hidden p.1))) <$> ex_nodes export;
        ge_roots := ex_roots export;
        ge_completed_traces := ex_completed_traces export |}
  | _, _ => None
  end.

(** ** The step *)

Definition attach_final_score e (o : EngineCoreOutput) : EngineCoreOutput :=
  match eco_finish_reason o, eco_final_score o with
  | Some _, None => o <| eco_final_score := mjoin (dget (eco_request_id o) (final_trace_scores e)) |>
  | _, _ => o
  end.

Definition attach_final_scores e (ecos : dict Z EngineCoreOutputs) : dict Z EngineCoreOutputs :=
  dmap (fun eco => eco <| outputs := attach_final_score e <$> outputs eco |>) ecos.

Definition attach_export e (ecos : dict Z EngineCoreOutputs) : dict Z EngineCoreOutputs :=
  if gambit_enabled e && bool_decide (sched_finished_req_ids (scheduler e) <> ∅) then
    match get_gambit_tree_export e with
    | Some ex => dmap (fun eco => eco <| gambit_tree_export := Some ex |>) ecos
    | None => ecos
    end
  else ecos.

(** The histories handed to the outputs, before finalization drops them. *)
Definition histories_for_output e : option (dict string (list float)) :=
  if enable config && record_score_history config then Some (trace_scores e) else None.

(** Leftover active traces when the scheduler has nothing to run. *)
Definition prune_leftovers e : Engine :=
  match gambit_enabled e, trace_tree e with
  | true, Some t =>
      let active_left := (List.filter (fun p => is_active p.2) (nodes t)).*1 in
      match active_left with
      | [] => e
      | _ =>
          fold_left (fun e rid => on_tree (mark_pruned rid) e) active_left e
            <| pending_force_stops := pending_force_stops e ∖ list_to_set active_left |>
            <| pending_low_score_stops := pending_low_score_stops e ∖ list_to_set active_left |>
      end
  | _, _ => e
  end.

(** Run the model on a schedule. *)
Definition run_model (x : Executor) (so : SchedulerOutput) e : result ModelRunnerOutput :=
  let grammar_output := sched_grammar_bitmask so (scheduler e) in
  output ← execute_model x so;
  match output with
  | Some mo => Ok mo
  | None => sample_tokens x grammar_output
  end.

(** Update the scheduler from the model's output and finalize what finished. *)
Definition process_output (so : SchedulerOutput) (mo : ModelRunnerOutput) e
    : result (dict Z EngineCoreOutputs * Engine) :=
  '(ecos, s) ← sched_update_from_output so mo (final_trace_scores e) (histories_for_output e)
                 (scheduler e);
  e ← finalize_scores (elements (sched_finished_req_ids s)) (e <| scheduler := s |>);
  Ok (attach_final_scores e ecos, e).

Definition step (x : Executor) e : result ((dict Z EngineCoreOutputs * bool) * Engine) :=
  if negb (sched_has_requests (scheduler e)) then Ok (([], false), prune_leftovers e)
  else
    '(so, s) ← sched_schedule (scheduler e);
    let e := e <| scheduler := s |> in
    mo ← run_model x so e;
    '(mo, e) ← gambit_phase x so mo e;
    e ← (if gambit_enabled e then capture_tokens mo e else Ok e);
    '(ecos, e) ← process_output so mo e;
    Ok ((attach_export e ecos, 0 <? total_num_scheduled_tokens so), e).

(** [post_step]: hand the drafted tokens to the scheduler. *)
Definition post_step (use_spec_decode model_executed : bool) (x : Executor) e : result Engine :=
  if use_spec_decode && model_executed then
    match take_draft_token_ids x with
    | Some d => s ← sched_update_draft_token_ids d (scheduler e); Ok (e <| scheduler := s |>)
    | None => Ok e
    end
  else Ok e.

(** ** Reset between generate() calls *)

Definition reset_gambit_state e : Engine :=
  if negb (gambit_enabled e) then e
  else if 0 <? sched_num_waiting (scheduler e) + sched_num_running (scheduler e) then e
  else
    let old_req_ids := match trace_tree e with Some t => dkeys (nodes t) | None => [] end in
    e <| rpc_log := match old_req_ids with
                    | [] => rpc_log e
                    | _ => rpc_log e ++ [(old_req_ids, [])]
                    end |>
      <| trace_tree := Some new_trace_tree |>
      <| gambit_output_token_ids := [] |>
      <| seq_hs_to_clear := [] |>
      <| seq_hs_to_copy := [] |>
      <| trace_scores := [] |>
      <| trace_score_sums := [] |>
      <| trace_score_counts := [] |>
      <| final_trace_scores := [] |>
      <| pending_low_score_stops := ∅ |>
      <| pending_force_stops := ∅ |>
      <| trace_token_counts := [] |>
      <| stride_last_trigger := [] |>
      <| pending_hs_classification := ∅ |>
      <| trace_hidden_state_last := [] |>
      <| tournament_step_counter := 0 |>
      <| tournament_last_round_step := -1 |>.

End Engine.

Arguments copy_trace_state : simpl never.
Arguments prune_all : simpl never.
Arguments create_branch : simpl never.
Arguments tournament_round : simpl never.
Arguments tournament_step : simpl never.
Arguments threshold_step : simpl never.
Arguments decision_step : simpl never.
Arguments force_stop_all_active_traces : simpl never.
