(* ===== verification/EngineInv.v ===== *)
(** * The engine's invariant

    The effect of pruning and branching on the engine's state, the invariant
    [engine_ok], and the lemmas that every Gambit operation of [EngineCore.v]
    preserves it and cannot raise. *)

From S2P Require Import Prelude PyDict PyList PyStr PyFloat PyRandom GambitConfig Request.
From S2P Require Import TraceTree Outputs EngineCore.
#[local] Open Scope Z_scope.

(** ** Pruning a list of traces *)

Definition mark_all_pruned (rids : list string) (t : TraceTree) : TraceTree :=
  fold_left (fun t rid => mark_pruned rid t) rids t.

Lemma dget_mark_pruned k rid t :
  dget k (nodes (mark_pruned rid t))
  = if decide (k = rid) then (fun n => set_flags false (is_completed n) true n) <$> dget k (nodes t)
    else dget k (nodes t).
Proof. apply dget_dalter. Qed.

Lemma dkeys_mark_pruned rid t : dkeys (nodes (mark_pruned rid t)) = dkeys (nodes t).
Proof. apply dkeys_dalter. Qed.

Lemma dget_mark_all_pruned k rids t :
  dget k (nodes (mark_all_pruned rids t))
  = if decide (k ∈ rids) then (fun n => set_flags false (is_completed n) true n) <$> dget k (nodes t)
    else dget k (nodes t).
Proof.
  revert t. induction rids as [|r rids IH]; intros t; cbn.
  { rewrite decide_False; [done|]. apply not_elem_of_nil. }
  unfold mark_all_pruned in IH. rewrite IH, dget_mark_pruned.
  destruct (decide (k ∈ rids)), (decide (k = r)), (decide (k ∈ r :: rids)) as [Hin|Hin];
    rewrite elem_of_cons in Hin; try tauto.
  by destruct (dget k (nodes t)).
Qed.

Lemma dkeys_mark_all_pruned rids t : dkeys (nodes (mark_all_pruned rids t)) = dkeys (nodes t).
Proof.
  revert t. induction rids as [|r rids IH]; intros t; cbn; [done|].
  unfold mark_all_pruned in IH. by rewrite IH, dkeys_mark_pruned.
Qed.

Lemma mark_all_pruned_ok rids t : tree_ok t -> tree_ok (mark_all_pruned rids t).
Proof.
  revert t. induction rids as [|r rids IH]; intros t Ht; cbn; [done|].
  apply IH. auto with gambit.
Qed.
#[export] Hint Resolve mark_all_pruned_ok : gambit.

Lemma active_mark_all_pruned_le rids t :
  get_active_count (mark_all_pruned rids t) <= get_active_count t.
Proof.
  revert t. induction rids as [|r rids IH]; intros t; cbn; [lia|].
  pose proof (IH (mark_pruned r t)). pose proof (active_mark_pruned_le r t).
  unfold mark_all_pruned in *. lia.
Qed.

Definition active_in (t : TraceTree) (rid : string) : Prop :=
  exists n, dget rid (nodes t) = Some n /\ is_active n = true.

(** Pruning distinct active traces takes exactly that many off the count. *)
Lemma active_mark_all_pruned rids t :
  NoDup rids -> (forall r, r ∈ rids -> active_in t r) ->
  get_active_count (mark_all_pruned rids t) = get_active_count t - py_len rids.
Proof.
  intros Hnd. revert t. induction Hnd as [|r rids Hr Hnd IH]; intros t Hact; cbn.
  { unfold py_len. cbn. lia. }
  unfold mark_all_pruned in IH. rewrite IH.
  - destruct (Hact r) as (n & Hn & Ha); [by left|].
    rewrite (active_mark_pruned r n), Ha by done. unfold py_len. cbn [length]. lia.
  - intros q Hq. destruct (Hact q) as (n & Hn & Ha); [by right|].
    exists n. rewrite dget_mark_pruned, decide_False by congruence. done.
Qed.

Lemma mark_all_pruned_consts rids t :
  max_traces (mark_all_pruned rids t) = max_traces t /\
  current_step (mark_all_pruned rids t) = current_step t /\
  branch_counter (mark_all_pruned rids t) = branch_counter t /\
  get_completed_count (mark_all_pruned rids t) = get_completed_count t.
Proof.
  revert t. induction rids as [|r rids IH]; intros t; [done|].
  change (mark_all_pruned (r :: rids) t) with (mark_all_pruned rids (mark_pruned r t)).
  destruct (IH (mark_pruned r t)) as (-> & -> & -> & ->).
  by rewrite completed_mark_pruned.
Qed.

Lemma mark_all_pruned_gates rids t :
  branch_cooldown_steps (mark_all_pruned rids t) = branch_cooldown_steps t /\
  min_tokens_before_branch (mark_all_pruned rids t) = min_tokens_before_branch t.
Proof.
  revert t. induction rids as [|r rids IH]; intros t; [done|]. apply (IH (mark_pruned r t)).
Qed.

(** ** Trees that only grow

    Branching keeps every trace with its status and adds active traces whose
    parents come from [parents] and are active. *)

Definition same_status (n n' : TraceNode) : Prop :=
  is_active n' = is_active n /\ is_pruned n' = is_pruned n /\
  is_completed n' = is_completed n /\ parent_id n' = parent_id n /\
  score_history n' = score_history n.

Record tree_grows (parents : list string) (t t' : TraceTree) : Prop := {
  tg_max : max_traces t' = max_traces t;
  tg_step : current_step t' = current_step t;
  tg_completed : get_completed_count t' = get_completed_count t;
  tg_active : get_active_count t <= get_active_count t';
  tg_kept : forall k n, dget k (nodes t) = Some n ->
    exists n', dget k (nodes t') = Some n' /\ same_status n n';
  tg_new : forall k n', dget k (nodes t) = None -> dget k (nodes t') = Some n' ->
    is_active n' = true /\ exists p, parent_id n' = Some p /\ p ∈ parents /\ active_in t' p;
  tg_gates : branch_cooldown_steps t' = branch_cooldown_steps t /\
             min_tokens_before_branch t' = min_tokens_before_branch t;
}.

Lemma same_status_refl n : same_status n n.
Proof. done. Qed.
#[export] Hint Resolve same_status_refl : gambit.

Lemma tree_grows_refl ps t : tree_grows ps t t.
Proof.
  split; try done; eauto with gambit. intros k n' Hk Hk'. congruence.
Qed.

Lemma tree_grows_trans ps t1 t2 t3 :
  tree_grows ps t1 t2 -> tree_grows ps t2 t3 -> tree_grows ps t1 t3.
Proof.
  intros [a1 a2 a3 a4 a5 a6 [a7 a8]] [b1 b2 b3 b4 b5 b6 [b7 b8]].
  split; try congruence; try lia; try (split; congruence).
  - intros k n Hk. destruct (a5 k n Hk) as (n2 & Hk2 & Hs2).
    destruct (b5 k n2 Hk2) as (n3 & Hk3 & Hs3). exists n3. split; [done|].
    unfold same_status in *. naive_solver congruence.
  - intros k n3 Hk Hk3. destruct (dget k (nodes t2)) as [n2|] eqn:Hk2; [|by eauto].
    destruct (a6 k n2 Hk Hk2) as (Ha & p & Hp & Hin & pn & Hpn & Hpa).
    destruct (b5 k n2 Hk2) as (n3' & Hk3' & (Hsa & _ & _ & Hsp & _)).
    destruct (b5 p pn Hpn) as (pn3 & Hpn3 & (Hpa3 & _)).
    rewrite Hk3 in Hk3'. injection Hk3' as <-. split; [congruence|].
    exists p. split; [congruence|]. split; [done|]. exists pn3. split; congruence.
Qed.

Lemma tree_grows_mono ps ps' t t' :
  (forall p, p ∈ ps -> p ∈ ps') -> tree_grows ps t t' -> tree_grows ps' t t'.
Proof. intros Hps [a1 a2 a3 a4 a5 a6 a7]. split; auto. intros. naive_solver. Qed.

Lemma count_nodes_ddel p k n ns :
  dget k ns = Some n -> count_nodes p (ddel k ns) = count_nodes p ns - (if p n then 1 else 0).
Proof.
  induction ns as [|[k' n'] ns IH]; cbn [ddel dget]; [done|]. intros Hk.
  case_decide as Hd; rewrite !count_nodes_cons; [injection Hk as ->; lia|].
  rewrite IH by done. lia.
Qed.

Lemma add_branch_child_in p c plen t n t1 :
  add_branch p c plen t = (Some n, t1) -> c ∈ dkeys (nodes t1).
Proof.
  unfold add_branch. destruct (dget p (nodes t)); [|done]. injection 1 as _ <-. cbn.
  case_decide; rewrite ?dkeys_dalter; apply elem_of_dkeys_dset; by left.
Qed.

Lemma add_branch_grows p plen t n t1 :
  tree_ok t -> active_in t p -> add_branch p (generate_branch_id p t) plen t = (Some n, t1) ->
  tree_grows [p] t t1 /\ get_active_count t1 = get_active_count t + 1.
Proof.
  intros Ht Hpa Hadd. pose proof (generate_branch_id_new p t Ht) as Hnew.
  pose proof (active_add_branch _ _ _ _ _ _ Hadd Hnew) as Hact. split; [|done].
  assert (Heq : t1 = (add_branch p (generate_branch_id p t) plen t).2) by (rewrite Hadd; done).
  pose proof Hadd as Hadd'. unfold add_branch in Hadd.
  destruct (dget p (nodes t)) as [pn|] eqn:Ep; [|done]. injection Hadd as Hn Hadd.
  assert (Hc : generate_branch_id p t <> p) by congruence.
  split; [by subst t1 | by subst t1 | | lia | | | by subst t1].
  - rewrite <- Hadd. unfold get_completed_count. cbn. rewrite decide_False by done.
    rewrite count_nodes_dalter_same by done. rewrite count_nodes_dset_new by done. cbn. lia.
  - intros k kn Hk. rewrite Heq, (dget_add_branch _ _ _ _ pn) by done.
    destruct (decide (k = p)) as [->|].
    + rewrite Ep in Hk. injection Hk as <-. by eexists.
    + rewrite decide_False by congruence. eauto with gambit.
  - intros k kn Hk Hk1. rewrite Heq, (dget_add_branch _ _ _ _ pn) in Hk1 by done.
    destruct (decide (k = p)) as [->|]; [congruence|].
    destruct (decide (k = _)) as [->|]; [|congruence]. injection Hk1 as <-. cbn.
    split; [done|]. exists p. split; [done|]. split; [by left|].
    destruct Hpa as (pn' & Hpn' & Ha'). rewrite Ep in Hpn'. injection Hpn' as <-.
    eexists. rewrite Heq, (dget_add_branch _ _ _ _ pn), decide_True by done. done.
Qed.

Lemma can_trace_branch_active rid k t : can_trace_branch rid k t = true -> active_in t rid.
Proof.
  unfold can_trace_branch, active_in. destruct (dget rid (nodes t)) as [n|]; [|done].
  destruct (is_active n) eqn:E; [by exists n | done].
Qed.

(** Taking the new trace out again leaves every other trace with its status. *)
Lemma remove_added_grows p plen t n t1 :
  tree_ok t -> active_in t p -> add_branch p (generate_branch_id p t) plen t = (Some n, t1) ->
  let t2 := remove_trace (generate_branch_id p t) t1 in
  tree_grows [] t t2 /\ get_active_count t2 = get_active_count t.
Proof.
  intros Ht Hpa Hadd t2. pose proof (generate_branch_id_new p t Ht) as Hnew.
  destruct (add_branch_grows _ _ _ _ _ Ht Hpa Hadd) as [[g1 g2 g3 g4 g5 g6 g7] Hact].
  assert (Hok : tree_ok t1) by (pose proof (add_branch_ok p plen t Ht) as Ho; by rewrite Hadd in Ho).
  assert (Hn : dget (generate_branch_id p t) (nodes t1) = Some n /\
               is_active n = true /\ is_completed n = false).
  { pose proof Hadd as Ha. unfold add_branch in Ha.
    destruct (dget p (nodes t)) as [pn|] eqn:Ep; [|done]. injection Ha as <- _.
    assert (Heq : t1 = (add_branch p (generate_branch_id p t) plen t).2) by (rewrite Hadd; done).
    rewrite Heq, (dget_add_branch _ _ _ _ pn) by congruence.
    rewrite decide_False, decide_True by congruence. done. }
  destruct Hn as (Hn & Ha & Hc).
  assert (Hrem : nodes t2 = ddel (generate_branch_id p t) (nodes t1)).
  { unfold t2, remove_trace, dmem. by rewrite Hn. }
  assert (Hact2 : get_active_count t2 = get_active_count t).
  { unfold get_active_count at 1. rewrite Hrem, (count_nodes_ddel _ _ n), Ha by done.
    unfold get_active_count in *. lia. }
  split; [|done]. split; try lia; try (unfold t2, remove_trace; by case_match).
  - unfold get_completed_count at 1. rewrite Hrem, (count_nodes_ddel _ _ n), Hc by done.
    unfold get_completed_count in *. lia.
  - intros k kn Hk. rewrite Hrem, dget_ddel_ne by congruence. by apply g5.
  - intros k kn Hk Hk2. rewrite Hrem in Hk2.
    destruct (decide (k = generate_branch_id p t)) as [->|Hne].
    + rewrite dget_ddel_eq in Hk2 by apply Hok. done.
    + rewrite dget_ddel_ne in Hk2 by done. destruct (g6 k kn Hk Hk2) as (_ & q & Hq & _).
      assert (Heq : t1 = (add_branch p (generate_branch_id p t) plen t).2) by (rewrite Hadd; done).
      pose proof Hadd as Hadd'. unfold add_branch in Hadd'.
      destruct (dget p (nodes t)) as [pn|] eqn:Ep; [|done].
      rewrite Heq, (dget_add_branch _ _ _ _ pn), !decide_False in Hk2 by congruence. congruence.
Qed.

Section Invariant.
Context {S G : Type} `{SchedulerInterface S, PyRandom G, PySum}.
Context (config : GambitConfig)
  (request_block_hasher : option (Request -> result (list BlockHash))) (now : float).
Abbreviation Engine := (EngineCore S G).
Implicit Types e : Engine.
Abbreviation create_branch := (create_branch config request_block_hasher now).
Abbreviation branch_loop := (branch_loop config request_block_hasher now).

Lemma prune_all_spec rids e t :
  trace_tree e = Some t ->
  prune_all rids e
  = e <| pending_low_score_stops := list_to_set rids ∪ pending_low_score_stops e |>
      <| trace_tree := Some (mark_all_pruned rids t) |>
      <| seq_hs_to_clear := seq_hs_to_clear e ++ rids |>.
Proof.
  revert e t. induction rids as [|r rids IH]; intros e t Ht.
  - cbn. rewrite app_nil_r, (left_id_L ∅ (∪)). destruct e; cbn in *. by subst.
  - change (prune_all (r :: rids) e) with (prune_all rids (prune_trace r e)).
    unfold prune_trace. rewrite Ht. erewrite IH by reflexivity.
    destruct e; cbn in *. f_equal; [set_solver|]. by rewrite <- app_assoc.
Qed.

Lemma prune_all_no_tree rids e : trace_tree e = None -> prune_all rids e = e.
Proof.
  induction rids as [|r rids IH]; intros Ht; [done|]. unfold prune_all in *. cbn [fold_left].
  replace (prune_trace r e) with e by (unfold prune_trace; by rewrite Ht). by apply IH.
Qed.

(** ** The invariant *)

(** An id that can be added as a root: already in the tree, or chosen outside. *)
Definition known (t : TraceTree) (rid : string) : Prop := rid ∈ dkeys (nodes t) \/ external_id rid.

(** The score tables hold each id once, and only ids a decision can take. *)
Record scores_known e : Prop := {
  sk_scores : dict_ok (trace_scores e);
  sk_counts : dict_ok (trace_score_counts e);
  sk_known : forall t rid, trace_tree e = Some t ->
    rid ∈ dkeys (trace_scores e) \/ rid ∈ dkeys (trace_score_counts e) -> known t rid;
}.

(** The tree is well formed; a trace with a pending stop is in the tree, pruned
    and hence inactive; the running sums cover the counts. *)
Record engine_ok e : Prop := {
  eok_enabled : gambit_enabled e = true -> is_Some (trace_tree e);
  eok_tree : forall t, trace_tree e = Some t -> tree_ok t;
  eok_pending : forall t rid, trace_tree e = Some t ->
    rid ∈ pending_low_score_stops e ∪ pending_force_stops e ->
    exists n, dget rid (nodes t) = Some n /\ is_pruned n = true;
  eok_sums : forall rid, rid ∈ dkeys (trace_score_counts e) -> rid ∈ dkeys (trace_score_sums e);
  eok_known : scores_known e;
}.

Lemma known_mono t t' rid :
  (forall k, k ∈ dkeys (nodes t) -> k ∈ dkeys (nodes t')) -> known t rid -> known t' rid.
Proof. unfold known. naive_solver. Qed.

Lemma scores_known_mono e e' :
  trace_scores e' = trace_scores e -> trace_score_counts e' = trace_score_counts e ->
  (forall t', trace_tree e' = Some t' -> exists t, trace_tree e = Some t /\
     forall k, k ∈ dkeys (nodes t) -> k ∈ dkeys (nodes t')) ->
  scores_known e -> scores_known e'.
Proof.
  intros h1 h2 Ht [k1 k2 k3]. split; rewrite ?h1, ?h2; try done. intros t' rid Ht' Hr.
  destruct (Ht t' Ht') as (t & Het & Hk). eapply known_mono, k3; eauto.
Qed.

Lemma tree_grows_keys ps t t' k :
  tree_grows ps t t' -> k ∈ dkeys (nodes t) -> k ∈ dkeys (nodes t').
Proof.
  intros Hg [n Hn]%dget_is_Some. destruct (tg_kept _ _ _ Hg k n Hn) as (n' & Hn' & _).
  by eapply elem_of_dkeys.
Qed.

Lemma pending_inactive e t rid :
  engine_ok e -> trace_tree e = Some t ->
  rid ∈ pending_low_score_stops e ∪ pending_force_stops e -> ~ active_in t rid.
Proof.
  intros He Ht Hp (n & Hn & Ha). destruct (eok_pending e He t rid Ht Hp) as (n' & Hn' & Hpr).
  rewrite Hn in Hn'. injection Hn' as <-.
  pose proof (node_done _ _ _ (ok_nodes t (eok_tree e He t Ht) rid n Hn)) as Hd.
  rewrite Hpr, orb_true_r in Hd. rewrite Hd in Ha; done.
Qed.

Lemma prune_all_ok rids e :
  engine_ok e ->
  (forall t rid, trace_tree e = Some t -> rid ∈ rids -> rid ∈ dkeys (nodes t)) ->
  engine_ok (prune_all rids e).
Proof.
  intros He Hin. destruct (trace_tree e) as [t|] eqn:Ht; [|by rewrite prune_all_no_tree].
  rewrite (prune_all_spec rids e t Ht). destruct He as [h1 h2 h3 h4 h5].
  split; cbn; [by eauto | | | done |].
  - intros t' [= <-]. auto with gambit.
  - intros t' rid [= <-] Hrid. rewrite dget_mark_all_pruned.
    destruct (decide (rid ∈ rids)) as [Hr|Hr].
    + destruct (proj2 (dget_is_Some rid (nodes t)) (Hin t rid eq_refl Hr)) as [n ->]. by eexists.
    + apply h3; [done|]. set_solver.
  - apply (scores_known_mono e); try done. cbn. intros t' [= <-]. exists t. split; [done|].
    intros k. by rewrite dkeys_mark_all_pruned.
Qed.

(** ** Branching *)

Lemma remove_added p plen t n t1 :
  tree_ok t -> add_branch p (generate_branch_id p t) plen t = (Some n, t1) ->
  tree_ok (remove_trace (generate_branch_id p t) t1).
Proof.
  intros Ht Hadd. pose proof (generate_branch_id_new p t Ht) as Hnew.
  assert (Ht1 : t1 = (add_branch p (generate_branch_id p t) plen t).2) by (rewrite Hadd; done).
  apply remove_trace_ok; [subst; auto with gambit|].
  intros k kn Hk Hpar. unfold add_branch in Hadd.
  destruct (dget p (nodes t)) as [pn|] eqn:Ep; [|done]. injection Hadd as _ Hadd.
  assert (Hc : generate_branch_id p t <> p) by congruence.
  rewrite Ht1, (dget_add_branch _ _ _ _ pn) in Hk by done.
  destruct (decide (k = p)) as [->|]; [|destruct (decide (k = _)) as [->|]].
  - injection Hk as <-. cbn in Hpar. destruct (parent_present _ _ _ _ Ht Ep Hpar). congruence.
  - injection Hk as <-. cbn in Hpar. congruence.
  - destruct (parent_present _ _ _ _ Ht Hk Hpar). congruence.
Qed.

(** What branching does to the engine: the tree grows under [parents], the
    counters of the round and the pending stops stay, and so does the progress
    of every trace that was in the tree. *)
Record engine_grows (parents : list string) e e' : Prop := {
  eg_tree : forall t, trace_tree e = Some t ->
    exists t', trace_tree e' = Some t' /\ tree_grows parents t t';
  eg_enabled : gambit_enabled e' = gambit_enabled e;
  eg_low : pending_low_score_stops e' = pending_low_score_stops e;
  eg_force : pending_force_stops e' = pending_force_stops e;
  eg_steps : tournament_step_counter e' = tournament_step_counter e /\
             tournament_last_round_step e' = tournament_last_round_step e;
  eg_tokens : forall t k, trace_tree e = Some t -> k ∈ dkeys (nodes t) ->
    dget k (trace_token_counts e') = dget k (trace_token_counts e);
  eg_async : pending_hs_classification e' = pending_hs_classification e /\
             async_scorer_future e' = async_scorer_future e;
}.

(** A decision does not touch the scorer's bookkeeping and drops no trace. *)
Record quiet e e' : Prop := {
  q_enabled : gambit_enabled e' = gambit_enabled e;
  q_hs : pending_hs_classification e' = pending_hs_classification e;
  q_future : async_scorer_future e' = async_scorer_future e;
  q_keys : forall t, trace_tree e = Some t -> exists t', trace_tree e' = Some t' /\
    forall k, k ∈ dkeys (nodes t) -> k ∈ dkeys (nodes t');
}.

Lemma quiet_refl e : quiet e e.
Proof. split; eauto. Qed.

Lemma quiet_trans e1 e2 e3 : quiet e1 e2 -> quiet e2 e3 -> quiet e1 e3.
Proof.
  intros [a1 a2 a3 a4] [b1 b2 b3 b4]. split; try congruence.
  intros t Ht. destruct (a4 t Ht) as (t2 & Ht2 & Hk2). destruct (b4 t2 Ht2) as (t3 & ? & ?). eauto.
Qed.

Lemma quiet_same e e' :
  gambit_enabled e' = gambit_enabled e ->
  pending_hs_classification e' = pending_hs_classification e ->
  async_scorer_future e' = async_scorer_future e -> trace_tree e' = trace_tree e -> quiet e e'.
Proof. intros h1 h2 h3 h4. split; try done. rewrite h4. eauto. Qed.

Lemma engine_grows_quiet ps e e' : engine_grows ps e e' -> quiet e e'.
Proof.
  intros [a1 a2 a3 a4 a5 a6 [a7 a8]]. split; try done. intros t Ht.
  destruct (a1 t Ht) as (t' & Ht' & Hg). exists t'. split; [done|]. intros k. by eapply tree_grows_keys.
Qed.

Lemma prune_all_quiet rids e : quiet e (prune_all rids e).
Proof.
  destruct (trace_tree e) as [t|] eqn:Ht; [|rewrite prune_all_no_tree by done; apply quiet_refl].
  rewrite (prune_all_spec rids e t Ht). split; try done. intros t0 Ht0. rewrite Ht in Ht0.
  injection Ht0 as <-. eexists. split; [reflexivity|]. intros k. by rewrite dkeys_mark_all_pruned.
Qed.

Lemma engine_grows_refl ps e : engine_grows ps e e.
Proof. split; try done. eauto using tree_grows_refl. Qed.

Lemma engine_grows_trans ps e1 e2 e3 :
  engine_grows ps e1 e2 -> engine_grows ps e2 e3 -> engine_grows ps e1 e3.
Proof.
  intros [a1 a2 a3 a4 [a5 a5'] a6 [a7 a7']] [b1 b2 b3 b4 [b5 b5'] b6 [b7 b7']].
  split; try congruence; try (split; congruence).
  - intros t Ht. destruct (a1 t Ht) as (t2 & Ht2 & Hg2). destruct (b1 t2 Ht2) as (t3 & ? & ?).
    eauto using tree_grows_trans.
  - intros t k Ht Hk. destruct (a1 t Ht) as (t2 & Ht2 & Hg2).
    rewrite (b6 t2) by (try done; apply dget_is_Some in Hk as [n Hn];
      destruct (tg_kept _ _ _ Hg2 k n Hn) as (n2 & Hn2 & _); by eapply elem_of_dkeys).
    by apply (a6 t).
Qed.

Lemma engine_grows_mono ps ps' e e' :
  (forall p, p ∈ ps -> p ∈ ps') -> engine_grows ps e e' -> engine_grows ps' e e'.
Proof.
  intros Hps [a1 a2 a3 a4 a5 a6 a7]. split; auto.
  intros t Ht. destruct (a1 t Ht) as (t' & ? & ?). eauto using tree_grows_mono.
Qed.

(** The invariant follows the growth of the tree. *)
Lemma engine_grows_pending ps e t t' rid :
  engine_ok e -> trace_tree e = Some t -> tree_grows ps t t' ->
  rid ∈ pending_low_score_stops e ∪ pending_force_stops e ->
  exists n, dget rid (nodes t') = Some n /\ is_pruned n = true.
Proof.
  intros He Ht Hg Hp. destruct (eok_pending e He t rid Ht Hp) as (n & Hn & Hpr).
  destruct (tg_kept _ _ _ Hg rid n Hn) as (n' & Hn' & (_ & Hs & _)). exists n'. split; congruence.
Qed.

Lemma copy_trace_state_frame p c e :
  let e' := copy_trace_state config p c e in
  scheduler e' = scheduler e /\ trace_tree e' = trace_tree e /\
  gambit_enabled e' = gambit_enabled e /\
  pending_low_score_stops e' = pending_low_score_stops e /\
  pending_force_stops e' = pending_force_stops e /\
  tournament_step_counter e' = tournament_step_counter e /\
  tournament_last_round_step e' = tournament_last_round_step e /\
  trace_token_counts e' = dset c 0 (trace_token_counts e) /\
  seq_hs_to_clear e' = seq_hs_to_clear e /\ seq_hs_to_copy e' = seq_hs_to_copy e /\
  rng e' = rng e /\ pending_hs_classification e' = pending_hs_classification e /\
  async_scorer_future e' = async_scorer_future e.
Proof.
  unfold copy_trace_state. repeat case_match; cbn; repeat split.
Qed.

Lemma copy_trace_state_known p c e t :
  trace_tree e = Some t -> c ∈ dkeys (nodes t) -> scores_known e ->
  scores_known (copy_trace_state config p c e).
Proof.
  intros Ht Hc [k1 k2 k3]. destruct (copy_trace_state_frame p c e) as (_ & Htr & _).
  rewrite Ht in Htr. split.
  - unfold copy_trace_state. repeat case_match; cbn; auto with dict.
  - unfold copy_trace_state. repeat case_match; cbn; auto with dict.
  - rewrite Htr. intros ? rid [= <-] Hr.
    assert (rid = c \/ rid ∈ dkeys (trace_scores e) \/ rid ∈ dkeys (trace_score_counts e))
      as [->|Hor]; [|by left | by apply (k3 t)].
    revert Hr. unfold copy_trace_state. repeat case_match; cbn; rewrite ?elem_of_dkeys_dset; tauto.
Qed.

Lemma copy_trace_state_sums p c e :
  (forall rid, rid ∈ dkeys (trace_score_counts e) -> rid ∈ dkeys (trace_score_sums e)) ->
  forall rid, rid ∈ dkeys (trace_score_counts (copy_trace_state config p c e)) ->
    rid ∈ dkeys (trace_score_sums (copy_trace_state config p c e)).
Proof.
  unfold copy_trace_state. intros Hs rid. repeat case_match; cbn; auto.
  rewrite !elem_of_dkeys_dset. naive_solver.
Qed.

(** What the child starts from, and that only the child's entries change. *)
Lemma copy_trace_state_child p c e :
  let e' := copy_trace_state config p c e in
  dget c (trace_token_counts e') = Some 0 /\ dget c (stride_last_trigger e') = Some 0 /\
  dget c (gambit_output_token_ids e') = Some (dget_or p [] (gambit_output_token_ids e)) /\
  (if enable config && negb (record_score_history config)
   then forall x, dget p (trace_score_counts e) = Some x ->
     dget c (trace_score_counts e') = Some x /\
     dget c (trace_score_sums e') = Some (dget_or p fzero (trace_score_sums e))
   else dget_or p [] (trace_scores e) <> [] ->
     dget c (trace_scores e') = Some (dget_or p [] (trace_scores e))).
Proof.
  unfold copy_trace_state. destruct (enable config && negb (record_score_history config)).
  - destruct (dget p (trace_score_counts e)) as [x|]; cbn; rewrite ?dget_dset_eq;
      (split; [done|split; [done|split; [done|]]]); intros ? [=]; subst; done.
  - destruct (dget_or p [] (trace_scores e)); cbn; rewrite ?dget_dset_eq; repeat split; done.
Qed.

Lemma copy_trace_state_others p c e k :
  k <> c ->
  let e' := copy_trace_state config p c e in
  dget k (trace_token_counts e') = dget k (trace_token_counts e) /\
  dget k (gambit_output_token_ids e') = dget k (gambit_output_token_ids e) /\
  dget k (trace_scores e') = dget k (trace_scores e) /\
  dget k (trace_score_counts e') = dget k (trace_score_counts e).
Proof.
  intros Hk. unfold copy_trace_state. repeat case_match; cbn; rewrite ?dget_dset_ne by done; done.
Qed.

(** A successful branch keeps the invariant. *)
Lemma branch_made_ok p c e t t1 s g :
  engine_ok e -> trace_tree e = Some t -> tree_ok t1 -> tree_grows [p] t t1 ->
  dget c (nodes t) = None -> c ∈ dkeys (nodes t1) ->
  let e0 := e <| rng := g |> <| trace_tree := Some t1 |> <| scheduler := s |>
              <| seq_hs_to_copy := seq_hs_to_copy e ++ [(p, c)] |> in
  let e1 := copy_trace_state config p c e0 in
  engine_ok e1 /\ engine_grows [p] e e1 /\ trace_tree e1 = Some t1.
Proof.
  intros He Ht Ht1 Hg Hc Hcin e0 e1.
  pose proof (copy_trace_state_sums p c e0 (eok_sums e He)) as Hsums. fold e1 in Hsums.
  destruct (copy_trace_state_frame p c e0)
    as (_ & Htr & Hen & Hlow & Hfor & Hst & Hlast & Htok & _ & _ & _ & Hhs & Hfut).
  fold e1 in Htr, Hen, Hlow, Hfor, Hst, Hlast, Htok.
  change (trace_tree e0) with (Some t1) in Htr.
  change (trace_token_counts e0) with (trace_token_counts e) in Htok.
  split; [|split; [|done]].
  - split.
    + rewrite Htr. by eexists.
    + rewrite Htr. by intros t' [= <-].
    + rewrite Htr, Hlow, Hfor. intros t' rid [= <-] Hp.
      exact (engine_grows_pending _ e t t1 rid He Ht Hg Hp).
    + apply Hsums.
    + apply (copy_trace_state_known p c e0 t1); [done..|].
      apply (scores_known_mono e); try done; [|apply He]. intros ? [= <-]. exists t. split; [done|]. intros k. by apply (tree_grows_keys [p]).
  - split; auto.
    + intros t' Ht'. rewrite Ht in Ht'. injection Ht' as <-. eauto.
    + intros t' k Ht' Hk. rewrite Ht in Ht'. injection Ht' as <-. rewrite Htok.
      apply dget_dset_ne. intros ->. by apply dget_None in Hc.
Qed.

(** A branch that could not be made: the tree may have lost the node it had
    just added, and a seed may have been drawn. *)
Lemma branch_failed_ok e t t' g :
  engine_ok e -> trace_tree e = Some t -> tree_ok t' -> tree_grows [] t t' ->
  let e1 := e <| rng := g |> <| trace_tree := Some t' |> in
  engine_ok e1 /\ engine_grows [] e e1.
Proof.
  intros He Ht Ht' Hg e1. split.
  - split; cbn; [by eexists | by intros ? [= <-] | | apply He |].
    + intros t1 rid [= <-] Hp. exact (engine_grows_pending _ e t t' rid He Ht Hg Hp).
    + apply (scores_known_mono e); try done; [|apply He]. intros ? [= <-]. exists t.
      split; [done|]. intros k. by apply (tree_grows_keys []).
  - split; auto. intros t1 Ht1. rewrite Ht in Ht1. injection Ht1 as <-. by exists t'.
Qed.

(** The two outcomes of [create_branch]. *)
Lemma create_branch_inv `{!SchedulerLaws S} p e :
  engine_ok e ->
  exists b e', create_branch p e = Ok (b, e') /\ engine_ok e' /\ engine_grows [p] e e' /\
    forall t, trace_tree e = Some t -> exists t', trace_tree e' = Some t' /\
      get_active_count t' = get_active_count t + (if b : bool then 1 else 0).
Proof.
  intros He. unfold EngineCore.create_branch.
  assert (Hno : exists b e', Ok (false, e) = Ok (b, e') /\ engine_ok e' /\ engine_grows [p] e e' /\
    forall t, trace_tree e = Some t -> exists t', trace_tree e' = Some t' /\
      get_active_count t' = get_active_count t + (if b : bool then 1 else 0)).
  { exists false, e. split; [done|]. split; [done|]. split; [apply engine_grows_refl|].
    intros t Ht. exists t. split; [done | lia]. }
  destruct (trace_tree e) as [t|] eqn:Ht; rewrite ?Ht in Hno; [|done].
  destruct (should_stop_after_completed config e); [done|].
  destruct (can_trace_branch _ _ t) eqn:Hcan; [|done]. cbn [negb].
  destruct (sched_request p (scheduler e)) as [parent|]; [|done].
  pose proof (eok_tree e He t Ht) as Htok.
  pose proof (can_trace_branch_active _ _ _ Hcan) as Hpa.
  set (c := generate_branch_id p t). set (plen := py_len _).
  destruct (add_branch p c plen t) as [[n|] t1] eqn:Hadd.
  2:{ unfold add_branch in Hadd. case_match; [done|]. injection Hadd as <-.
      replace (e <| trace_tree := Some t |>) with e; [done|]. destruct e; cbn in *; by subst. }
  destruct (add_branch_grows _ _ _ _ _ Htok Hpa Hadd) as [Hg Hact].
  assert (Ht1 : tree_ok t1) by (pose proof (add_branch_ok p plen t Htok) as Ho; fold c in Ho; by rewrite Hadd in Ho).
  destruct (create_child_request _ _ _ t1 parent c (rng e)) as [[child|] g].
  - destruct (law_add_request child (scheduler e)) as (s & Hs & _). cbn. rewrite Hs. cbn.
    edestruct (branch_made_ok p c e t t1 s g) as (Hok & Hgr & Htr); try done.
    { by apply generate_branch_id_new. }
    { by eapply add_branch_child_in. }
    eexists true, _. split; [reflexivity|]. split; [exact Hok|]. split; [exact Hgr|].
    intros t' [= <-]. exists t1. split; [exact Htr | lia].
  - destruct (remove_added_grows _ _ _ _ _ Htok Hpa Hadd) as [Hg2 Hact2].
    destruct (branch_failed_ok e t (remove_trace c t1) g He Ht) as [Hok Hgr];
      [by eapply remove_added | done |].
    eexists false, _. split; [reflexivity|]. split; [exact Hok|].
    split; [eapply engine_grows_mono, Hgr; by intros ? ?%elem_of_nil|].
    intros t' [= <-]. eexists. split; [reflexivity|]. unfold c. lia.
Qed.

(** The branching loop stops at capacity and never raises. *)
Lemma branch_loop_inv `{!SchedulerLaws S} capacity l e :
  engine_ok e ->
  exists e', branch_loop capacity l e = Ok e' /\ engine_ok e' /\ engine_grows l.*2 e e' /\
    forall t t', trace_tree e = Some t -> trace_tree e' = Some t' ->
      get_active_count t' <= Z.max capacity (get_active_count t) /\
      get_active_count t' <= get_active_count t + py_len l.
Proof.
  revert e. induction l as [|[x rid] l IH]; intros e He; cbn [EngineCore.branch_loop].
  { exists e. split; [done|]. split; [done|]. split; [apply engine_grows_refl|].
    intros t t' Ht Ht'. rewrite Ht in Ht'. injection Ht' as <-. unfold py_len. cbn. lia. }
  destruct (trace_tree e) as [t|] eqn:Ht.
  2:{ exists e. split; [done|]. split; [done|]. split; [apply engine_grows_refl | done]. }
  destruct (Z.leb_spec capacity (get_active_count t)) as [Hle|Hlt].
  { exists e. split; [done|]. split; [done|]. split; [apply engine_grows_refl|].
    intros t1 t' Ht1 Ht'. rewrite Ht in Ht'. injection Ht' as <-. injection Ht1 as <-.
    unfold py_len. cbn. lia. }
  destruct (create_branch_inv rid e He) as (b & e1 & Hc & He1 & Hg1 & Ha1). rewrite Hc. cbn.
  destruct (Ha1 t Ht) as (t1 & Ht1 & Hact).
  destruct (IH e1 He1) as (e2 & Hl & He2 & Hg2 & Ha2). exists e2. split; [done|].
  split; [done|]. split.
  - eapply engine_grows_trans; eapply engine_grows_mono; [|exact Hg1| |exact Hg2]; set_solver.
  - intros t0 t2 [= <-] Ht2. destruct (Ha2 t1 t2 Ht1 Ht2) as [Hm1 Hm2].
    unfold py_len in *. cbn [length]. destruct b; lia.
Qed.

(** ** Branches that succeed *)

Lemma create_child_request_fields t parent c g child g' :
  create_child_request config request_block_hasher now t parent c g = (Some child, g') ->
  request_id child = c /\ all_token_ids child = all_token_ids parent.
Proof.
  unfold create_child_request. destruct (sampling_params parent) as [sp|];
    [destruct (child_sampling_params config t sp g) as [sp' g1]|];
    (destruct (new_request _ _ _) as [r|] eqn:Hnr; [|done]); injection 1 as -> _;
    apply new_request_fields in Hnr as (Hid & _ & _ & Htoks); cbn in Hid; auto.
Qed.

(** What a successful [create_branch] did. *)
Lemma create_branch_true p e e' t :
  trace_tree e = Some t -> create_branch p e = Ok (true, e') ->
  let c := generate_branch_id p t in
  exists parent child pn g s,
    sched_request p (scheduler e) = Some parent /\ dget p (nodes t) = Some pn /\
    create_child_request config request_block_hasher now
      (add_branch p c (py_len (dget_or p [] (gambit_output_token_ids e))) t).2 parent c (rng e)
      = (Some child, g) /\
    sched_add_request child (scheduler e) = Ok s /\
    e' = copy_trace_state config p c
      (e <| rng := g |>
         <| trace_tree :=
              Some (add_branch p c (py_len (dget_or p [] (gambit_output_token_ids e))) t).2 |>
         <| scheduler := s |>
         <| seq_hs_to_copy := seq_hs_to_copy e ++ [(p, c)] |>).
Proof.
  intros Ht Hc c. unfold EngineCore.create_branch in Hc. rewrite Ht in Hc. fold c in Hc.
  destruct (should_stop_after_completed config e); [done|].
  destruct (can_trace_branch p _ t); [|done]. cbn [negb] in Hc.
  destruct (sched_request p (scheduler e)) as [parent|]; [|done].
  destruct (add_branch p c _ t) as [[n|] t1] eqn:Hadd; [|done].
  assert (exists pn, dget p (nodes t) = Some pn) as [pn Hpn].
  { unfold add_branch in Hadd. destruct (dget p (nodes t)); [by eexists | done]. }
  destruct (create_child_request _ _ _ t1 parent c (rng e)) as [[child|] g] eqn:Hch; [|done].
  apply bind_Ok_inv in Hc as (s & Hs & Hc). injection Hc as <-.
  exists parent, child, pn, g, s. repeat split; done.
Qed.

(** A request whose child the constructor accepts. *)
Definition child_creatable (parent : Request) : Prop :=
  forall t c g, exists child g',
    create_child_request config request_block_hasher now t parent c g = (Some child, g') /\
    request_id child = c /\ all_token_ids child = all_token_ids parent.

Lemma child_creatable_sampling parent sp m :
  sampling_params parent = Some sp -> sp_max_tokens sp = Some m -> pooling_params parent = None ->
  (forall h, request_block_hasher = Some h -> forall r, exists hs, h r = Ok hs) ->
  child_creatable parent.
Proof.
  intros Hsp Hm Hp Hh t c g. unfold create_child_request. rewrite Hsp.
  destruct (child_sampling_params config t sp g) as [sp' g'] eqn:Ec.
  assert (Hm' : sp_max_tokens sp' = Some m).
  { revert Ec. unfold child_sampling_params. destruct (randint 0 (2 ^ 31 - 1) g) as [z g0].
    destruct (temperature sp); cbn; destruct (seed sp); inversion 1; subst; exact Hm. }
  unfold new_request, init_limits. cbn [ra_pooling_params ra_sampling_params child_request_args].
  rewrite Hp, Hm'. cbn. destruct request_block_hasher as [h|]; [|by eexists _, _].
  match goal with |- context [h ?r] => destruct (Hh h eq_refl r) as [hs ->] end.
  by eexists _, _.
Qed.

Definition branchable e (rid : string) : Prop :=
  exists t parent, trace_tree e = Some t /\ active_in t rid /\
    min_tokens_before_branch t <= tokens_of rid e /\
    sched_request rid (scheduler e) = Some parent /\ child_creatable parent.

Lemma can_trace_branch_true t rid k :
  tree_ok t -> active_in t rid -> get_active_count t < max_traces t ->
  branch_cooldown_steps t <= 0 -> min_tokens_before_branch t <= k ->
  can_trace_branch rid k t = true.
Proof.
  intros Ht (n & Hn & Ha) Hc Hcool Hmin. unfold can_trace_branch, can_branch. rewrite Hn, Ha.
  destruct (node_steps _ _ _ (ok_nodes t Ht rid n Hn)) as [_ [_ Hl]].
  replace (get_active_count t <? max_traces t) with true by (symmetry; by apply Z.ltb_lt).
  replace (k <? min_tokens_before_branch t) with false by (symmetry; by apply Z.ltb_ge).
  replace (current_step t - last_branch_step n <? branch_cooldown_steps t) with false
    by (symmetry; apply Z.ltb_ge; lia).
  by rewrite andb_false_r.
Qed.

Lemma should_stop_completed e e' t t' :
  trace_tree e = Some t -> trace_tree e' = Some t' ->
  get_completed_count t' = get_completed_count t ->
  should_stop_after_completed config e' = should_stop_after_completed config e.
Proof. intros Ht Ht' Hc. unfold should_stop_after_completed. by rewrite Ht, Ht', Hc. Qed.

(** A branchable trace under capacity gets its child, and the other branchable
    traces stay so. *)
Lemma create_branch_live `{!SchedulerLaws S} p e t :
  engine_ok e -> trace_tree e = Some t -> branchable e p -> branch_cooldown_steps t <= 0 ->
  get_active_count t < max_traces t -> should_stop_after_completed config e = false ->
  exists e', create_branch p e = Ok (true, e') /\ forall q, branchable e q -> branchable e' q.
Proof.
  intros He Ht (t0 & parent & Ht0 & Hact & Hmin & Hreq & Hcr) Hcool Hcap Hstop.
  rewrite Ht in Ht0. injection Ht0 as <-. pose proof (eok_tree e He t Ht) as Htok.
  unfold EngineCore.create_branch. rewrite Ht, Hstop, Hreq.
  fold (tokens_of p e). rewrite can_trace_branch_true by done. cbn [negb].
  set (c := generate_branch_id p t). set (plen := py_len _).
  pose proof (generate_branch_id_new p t Htok) as Hnew. fold c in Hnew.
  destruct (add_branch p c plen t) as [[n|] t1] eqn:Hadd.
  2:{ unfold add_branch in Hadd. destruct Hact as (pn & Hpn & _). by rewrite Hpn in Hadd. }
  destruct (add_branch_grows _ _ _ _ _ Htok Hact Hadd) as [Hg _].
  destruct (Hcr t1 c (rng e)) as (child & g & Hc & Hid & _). rewrite Hc.
  destruct (law_add_request child (scheduler e)) as (s & Hs & _ & _ & _ & _ & Hrest).
  cbv zeta. change (scheduler (e <| rng := g |> <| trace_tree := Some t1 |>)) with (scheduler e).
  rewrite Hs. bind_ok. eexists. split; [reflexivity|].
  intros q (t0 & qr & Ht0 & Hqa & Hqm & Hqr & Hqc). rewrite Ht in Ht0. injection Ht0 as <-.
  assert (Hqc' : q <> c) by (destruct Hqa as (qn & Hqn & _); congruence).
  match goal with |- branchable (copy_trace_state _ _ _ ?e0) _ =>
    destruct (copy_trace_state_frame p c e0) as (Hsch & Htr & _ & _ & _ & _ & _ & Htok' & _) end.
  exists t1, qr. split; [by rewrite Htr|]. split.
  { destruct Hqa as (qn & Hqn & Ha). destruct (tg_kept _ _ _ Hg q qn Hqn) as (qn' & ? & Hst & _).
    exists qn'. split; congruence. }
  split; [|split; [|done]].
  - destruct (tg_gates _ _ _ Hg) as [_ ->]. unfold tokens_of, dget_or in *. rewrite Htok'.
    cbn. by rewrite dget_dset_ne.
  - rewrite Hsch. change (sched_request q s = Some qr). rewrite Hrest; [done|]. by rewrite Hid.
Qed.

(** Every branchable trace of the list gets a child while there is room. *)
Lemma branch_loop_live `{!SchedulerLaws S} capacity l e t :
  engine_ok e -> trace_tree e = Some t -> capacity <= max_traces t ->
  branch_cooldown_steps t <= 0 -> should_stop_after_completed config e = false ->
  (forall p, p ∈ l -> branchable e p.2) -> get_active_count t + py_len l <= capacity ->
  exists e' t', branch_loop capacity l e = Ok e' /\ trace_tree e' = Some t' /\
    get_active_count t' = get_active_count t + py_len l.
Proof.
  revert e t. induction l as [|[x rid] l IH]; intros e t He Ht Hmax Hcool Hstop Hbr Hlen.
  { exists e, t. split; [done|]. split; [done|]. unfold py_len. cbn. lia. }
  unfold py_len in Hlen. cbn [length] in Hlen. cbn [EngineCore.branch_loop]. rewrite Ht.
  destruct (Z.leb_spec capacity (get_active_count t)); [lia|].
  destruct (create_branch_live rid e t) as (e1 & Hc & Hkeep); try done; [|lia|].
  { apply (Hbr (x, rid)). by left. }
  destruct (create_branch_inv rid e He) as (b & e1' & Hc' & He1 & Hg & Ha).
  rewrite Hc in Hc'. injection Hc' as <- <-. rewrite Hc. bind_ok.
  destruct (Ha t Ht) as (t1 & Ht1 & Hact). destruct (eg_tree _ _ _ Hg t Ht) as (t1' & Ht1' & Htg).
  rewrite Ht1 in Ht1'. injection Ht1' as <-. destruct (tg_gates _ _ _ Htg) as [Hg1 _].
  destruct (IH e1 t1) as (e' & t' & Hl & Ht' & Hact'); try done.
  - by rewrite (tg_max _ _ _ Htg).
  - by rewrite Hg1.
  - rewrite (should_stop_completed e e1 t t1); [done..|]. apply (tg_completed _ _ _ Htg).
  - intros p Hp. apply Hkeep, Hbr. by right.
  - unfold py_len. lia.
  - exists e', t'. split; [done|]. split; [done|]. unfold py_len in *. cbn [length]. lia.
Qed.

(** ** Where engine states come from *)

(** The invariant reads the tree, the pending stops and the score aggregates. *)
Lemma engine_ok_same e e' :
  trace_tree e' = trace_tree e -> gambit_enabled e' = gambit_enabled e ->
  pending_low_score_stops e' = pending_low_score_stops e ->
  pending_force_stops e' = pending_force_stops e ->
  trace_score_counts e' = trace_score_counts e -> trace_score_sums e' = trace_score_sums e ->
  trace_scores e' = trace_scores e -> engine_ok e -> engine_ok e'.
Proof.
  intros h1 h2 h3 h4 h5 h6 h7 [a1 a2 a3 a4 a5].
  split; rewrite ?h1, ?h2, ?h3, ?h4, ?h5, ?h6; auto.
  apply (scores_known_mono e); auto. rewrite h1. intros t ->. by exists t.
Qed.

Lemma init_engine_ok batch s g e : init_engine config batch s g = Ok e -> engine_ok e.
Proof.
  unfold init_engine. case_match; intros [= <-]. split; cbn.
  - intros ->. by eexists.
  - intros t. case_match; intros [= <-]. apply new_tree_ok.
  - intros t rid _ Hin. set_solver.
  - by intros rid ?%elem_of_nil.
  - split; cbn; auto with dict. intros t rid _ [?%elem_of_nil|?%elem_of_nil]; done.
Qed.

Lemma add_root_keeps rid t k n :
  contains rid t = false -> dget k (nodes t) = Some n -> dget k (nodes (add_root rid t)) = Some n.
Proof.
  intros Hc Hk. apply dmem_false in Hc. cbn. rewrite dget_dset_ne; [done | congruence].
Qed.

Lemma add_request_ok tasks task r e e' :
  add_request tasks task r e = Ok e' -> engine_ok e -> engine_ok e'.
Proof.
  unfold add_request. intros Hadd He. apply bind_Ok_inv in Hadd as (u & _ & Hadd).
  apply bind_Ok_inv in Hadd as (s & _ & Hadd).
  destruct (gambit_enabled e) eqn:Hen, (trace_tree e) as [t|] eqn:Ht; cbn in Hadd;
    rewrite Hen, Ht in Hadd;
    try (injection Hadd as <-; by apply (engine_ok_same e)).
  destruct (_ && _) eqn:Hroot in Hadd; injection Hadd as <-; [|by apply (engine_ok_same e)].
  apply andb_true_iff in Hroot as [[Hnew _]%andb_true_iff Hpre].
  apply negb_true_iff in Hnew, Hpre. split; cbn; rewrite ?Ht; cbn.
  - by eexists.
  - intros ? [= <-]. apply add_root_ok; [by apply He | by apply dmem_false | by apply external_not_gambit].
  - intros ? rid [= <-] Hp. destruct (eok_pending e He t rid Ht Hp) as (n & Hn & Hpr).
    exists n. split; [by apply add_root_keeps | done].
  - apply He.
  - apply (scores_known_mono e); try done; [|apply He]. cbn. rewrite Ht. intros ? [= <-].
    exists t. split; [done|]. intros k Hk. cbn. apply elem_of_dkeys_dset. by right.
Qed.

End Invariant.
