(* ===== verification/Tournament.v ===== *)
(** * Tournament and threshold selection

    What a decision of [EngineCore.v] does to the population of traces: the
    hard floor, the ranking, the fill and swap rounds, threshold mode, the
    forced stop, and the decision step that routes to them. *)

From S2P Require Import Prelude PyDict PyList PyStr PyFloat PyRandom GambitConfig Request.
From S2P Require Import TraceTree Outputs EngineCore EngineInv.
#[local] Open Scope Z_scope.

(** ** Lists cut at the end *)

Lemma slice_from_neg_drop {A} k (l : list A) :
  0 < k <= py_len l -> slice_from (- k) l = drop (length l - Z.to_nat k) l.
Proof.
  intros Hk. unfold slice_from, slice_pos, py_len in *.
  destruct (Z.ltb_spec (- k) 0); [|lia]. f_equal. lia.
Qed.

Lemma slice_to_neg_take {A} k (l : list A) :
  0 < k <= py_len l -> slice_to (- k) l = take (length l - Z.to_nat k) l.
Proof.
  intros Hk. unfold slice_to, slice_pos, py_len in *.
  destruct (Z.ltb_spec (- k) 0); [|lia]. f_equal. lia.
Qed.

Section Selection.
Context {S G : Type} `{SchedulerInterface S, PyRandom G, PySum}.
Context (config : GambitConfig)
  (request_block_hasher : option (Request -> result (list BlockHash))) (now : float).
Abbreviation Engine := (EngineCore S G).
Implicit Types e : Engine.
Abbreviation branch_loop := (branch_loop config request_block_hasher now).
Abbreviation fill_round := (fill_round config request_block_hasher now).
Abbreviation swap_round := (swap_round config request_block_hasher now).
Abbreviation tournament_round := (tournament_round config request_block_hasher now).
Abbreviation tournament_step := (tournament_step config request_block_hasher now).
Abbreviation threshold_step := (threshold_step config request_block_hasher now).
Abbreviation decision_step := (decision_step config request_block_hasher now).
Abbreviation choose_parents := (choose_parents config).

(** ** Frames of the small steps *)

Lemma set_rng_ok e g : engine_ok e -> engine_ok (e <| rng := g |>).
Proof. by apply engine_ok_same. Qed.

Lemma set_rng_grows ps e g : engine_grows ps e (e <| rng := g |>).
Proof. split; try done. cbn. eauto using tree_grows_refl. Qed.

Lemma prune_all_app a b e : prune_all (a ++ b) e = prune_all b (prune_all a e).
Proof. apply fold_left_app. Qed.

Lemma prune_all_rng rids e g : prune_all rids (e <| rng := g |>) = prune_all rids e <| rng := g |>.
Proof.
  destruct (trace_tree e) as [t|] eqn:Ht.
  - rewrite (prune_all_spec rids e t) by done. by rewrite (prune_all_spec rids _ t).
  - by rewrite !prune_all_no_tree.
Qed.

(** A selection of parents: distinct members of the pool, as many as asked for
    when there are enough, the first ones without the ablation. *)
Record selection (pool : list (float * string)) (k : Z) (sel : list (float * string)) : Prop := {
  sel_sub : forall x, x ∈ sel -> x ∈ pool;
  sel_NoDup : NoDup sel;
  sel_len : py_len sel = Z.min k (py_len pool);
  sel_top : tournament_branch_random config = false -> sel = slice_to k pool;
}.

Lemma choose_parents_inv `{!PyRandomLaws G} pool k e :
  NoDup pool -> 0 <= k ->
  exists sel g, choose_parents pool k e = Ok (sel, e <| rng := g |>) /\ selection pool k sel.
Proof.
  intros Hnd Hk. unfold EngineCore.choose_parents.
  assert (Htop : exists g, Ok (slice_to k pool, e) = Ok (slice_to k pool, e <| rng := g |>) /\
                 selection pool k (slice_to k pool)).
  { exists (rng e). split; [by destruct e|]. pose proof (slice_to_sublist k pool) as Hsub. split; auto.
    - intros x Hx. by eapply elem_of_submseteq, sublist_submseteq.
    - by eapply sublist_NoDup.
    - by apply length_slice_to. }
  destruct Htop as (g & Heq & Hsel).
  destruct (tournament_branch_random config) eqn:Hr; [|by exists (slice_to k pool), g].
  destruct pool as [|p pool']; [by exists (slice_to k []), g|].
  assert (Hlen : 0 <= Z.min k (py_len (p :: pool')) <= py_len (p :: pool')) by (unfold py_len; lia).
  destruct (py_sample_ok _ _ (rng e) Hnd Hlen) as (s & g' & Hs & Hsnd & Hslen & Hsin).
  rewrite Hs. cbn. exists s, g'. split; [done|]. split; auto. congruence.
Qed.

(** ** The fill round *)

Lemma fill_round_inv `{!SchedulerLaws S, !PyRandomLaws G} cands e t :
  engine_ok e -> trace_tree e = Some t -> NoDup cands ->
  get_active_count t < tournament_capacity config ->
  exists sel e', fill_round (get_active_count t) cands e = Ok e' /\ engine_ok e' /\
    engine_grows sel.*2 e e' /\
    selection cands (tournament_capacity config - get_active_count t) sel /\
    forall t', trace_tree e' = Some t' -> get_active_count t' <= tournament_capacity config.
Proof.
  intros He Ht Hnd Hlt. unfold EngineCore.fill_round.
  destruct (choose_parents_inv cands (tournament_capacity config - get_active_count t) e Hnd)
    as (sel & g & Hc & Hsel); [lia|]. rewrite Hc. cbn.
  destruct (branch_loop_inv config request_block_hasher now (tournament_capacity config) sel
    (e <| rng := g |>) (set_rng_ok _ _ He)) as (e' & Hl & He' & Hg & Ha).
  exists sel, e'. split; [done|]. split; [done|].
  split; [eapply engine_grows_trans, Hg; apply set_rng_grows|]. split; [done|].
  intros t' Ht'. destruct (Ha t t' Ht Ht'). lia.
Qed.

(** ** The swap round *)

(** How many of the ranked traces a swap round prunes. *)
Definition swap_excess_n (active_n : Z) (ranked : list (float * string)) : Z :=
  Z.max 0 (swap_excess config active_n ranked).
Definition swap_k_n (active_n : Z) (ranked : list (float * string)) : Z :=
  Z.max 0 (Z.min (tournament_swap_k config)
    ((py_len ranked - swap_excess_n active_n ranked) / 2)).
Definition swap_victims_n (active_n : Z) (ranked : list (float * string)) : nat :=
  Z.to_nat (swap_excess_n active_n ranked + swap_k_n active_n ranked).
Definition swap_survivors (active_n : Z) (ranked : list (float * string)) :=
  take (length ranked - swap_victims_n active_n ranked) ranked.
Definition swap_victims (active_n : Z) (ranked : list (float * string)) :=
  drop (length ranked - swap_victims_n active_n ranked) ranked.

Lemma swap_remaining_take active_n ranked :
  swap_remaining config active_n ranked
  = take (length ranked - Z.to_nat (swap_excess_n active_n ranked)) ranked.
Proof.
  unfold swap_remaining, swap_excess_n. destruct (Z.ltb_spec 0 (swap_excess config active_n ranked)).
  - rewrite slice_to_neg_take; [f_equal; lia|]. unfold swap_excess in *. lia.
  - rewrite take_ge; [done | lia].
Qed.

Lemma swap_k_actual_eq active_n ranked :
  Z.max 0 (swap_k_actual config (swap_remaining config active_n ranked))
  = swap_k_n active_n ranked.
Proof.
  unfold swap_k_n, swap_k_actual. rewrite swap_remaining_take. unfold py_len at 1.
  rewrite length_take. do 3 f_equal. unfold py_len, swap_excess_n, swap_excess, py_len in *. lia.
Qed.

(** The traces a swap round prunes, in the order it prunes them. *)
Definition swap_bottom (active_n : Z) (ranked : list (float * string)) : list (float * string) :=
  let k := swap_k_actual config (swap_remaining config active_n ranked) in
  if 0 <? k then slice_from (- k) (swap_remaining config active_n ranked) else [].

Definition swap_pruned (active_n : Z) (ranked : list (float * string)) : list (float * string) :=
  let x := swap_excess config active_n ranked in
  (if 0 <? x then slice_from (- x) ranked else []) ++ swap_bottom active_n ranked.

Lemma swap_k_bounds active_n ranked :
  0 <= swap_excess_n active_n ranked <= py_len ranked /\
  0 <= swap_k_n active_n ranked /\
  swap_excess_n active_n ranked + swap_k_n active_n ranked <= py_len ranked.
Proof.
  unfold swap_k_n, swap_excess_n, swap_excess.
  assert (0 <= py_len ranked) by (unfold py_len; lia).
  set (x := Z.max 0 _). assert (0 <= x <= py_len ranked) by lia.
  assert (2 * ((py_len ranked - x) / 2) <= py_len ranked - x) by (apply Z.mul_div_le; lia). lia.
Qed.

Lemma swap_bottom_drop active_n ranked :
  swap_bottom active_n ranked
  = drop (length ranked - swap_victims_n active_n ranked)
      (take (length ranked - Z.to_nat (swap_excess_n active_n ranked)) ranked).
Proof.
  pose proof (swap_k_bounds active_n ranked) as (Hx & Hk & Hs).
  pose proof (swap_k_actual_eq active_n ranked) as Hke.
  unfold swap_bottom, swap_victims_n. rewrite swap_remaining_take in *.
  unfold py_len in *. set (k := swap_k_actual config _) in *.
  destruct (Z.ltb_spec 0 k) as [Hpos|Hle].
  - rewrite slice_from_neg_drop; unfold py_len; rewrite ?length_take; [f_equal|]; lia.
  - rewrite drop_ge; [done|]. rewrite length_take. lia.
Qed.

Lemma swap_pruned_victims active_n ranked :
  swap_pruned active_n ranked ≡ₚ swap_victims active_n ranked.
Proof.
  pose proof (swap_k_bounds active_n ranked) as (Hx & Hk & Hs).
  unfold swap_pruned, swap_victims. rewrite swap_bottom_drop.
  set (x := swap_excess_n active_n ranked) in *.
  replace (if _ <? _ then _ else _)
    with (drop (length ranked - Z.to_nat x) ranked).
  2:{ unfold x, swap_excess_n in *. destruct (Z.ltb_spec 0 (swap_excess config active_n ranked)).
      - rewrite slice_from_neg_drop; [f_equal; lia|]. unfold py_len in *. lia.
      - rewrite drop_ge; [done | lia]. }
  rewrite (Permutation_app_comm (drop _ ranked)).
  set (n := (length ranked - Z.to_nat x)%nat). set (m := (length ranked - _)%nat).
  assert (m <= n <= length ranked)%nat
    by (unfold m, n, swap_victims_n; fold x; unfold py_len in *; lia).
  rewrite <- (take_drop n ranked) at 3. rewrite drop_app_le; [done|].
  rewrite length_take. lia.
Qed.

Lemma swap_round_unfold active_n ranked cands e :
  swap_round active_n ranked cands e
  = if 0 <? swap_k_actual config (swap_remaining config active_n ranked) then
      '(sel, e1) ← choose_parents (eligible_parents (swap_bottom active_n ranked) cands)
                    (swap_k_actual config (swap_remaining config active_n ranked))
                    (prune_all (if 0 <? swap_excess config active_n ranked
                                then slice_from (- swap_excess config active_n ranked) ranked
                                else []).*2 e);
      branch_loop (tournament_capacity config) sel (prune_all (swap_bottom active_n ranked).*2 e1)
    else Ok (prune_all (swap_pruned active_n ranked).*2 e).
Proof.
  unfold EngineCore.swap_round, swap_pruned, swap_bottom.
  destruct (0 <? swap_k_actual config _), (0 <? swap_excess config active_n ranked);
    rewrite ?app_nil_r; done.
Qed.

(** A swap round prunes the bottom of the ranking and then branches parents
    that were not among the traces it swaps out. *)
Record swap_outcome (active_n : Z) (ranked cands : list (float * string))
    (sel : list (float * string)) (t : TraceTree) e e' : Prop := {
  so_ok : engine_ok e';
  so_grows : engine_grows sel.*2 (prune_all (swap_pruned active_n ranked).*2 e) e';
  so_sel : selection (eligible_parents (swap_bottom active_n ranked) cands)
             (swap_k_n active_n ranked) sel;
  so_pruned : get_active_count (mark_all_pruned (swap_pruned active_n ranked).*2 t)
    = active_n - swap_excess_n active_n ranked - swap_k_n active_n ranked;
  so_active : forall t', trace_tree e' = Some t' ->
    get_active_count t' <= Z.max (tournament_capacity config)
      (active_n - swap_excess_n active_n ranked - swap_k_n active_n ranked);
}.

Lemma swap_active active_n ranked t :
  active_n = get_active_count t -> NoDup ranked.*2 ->
  (forall rid, rid ∈ ranked.*2 -> active_in t rid) ->
  get_active_count (mark_all_pruned (swap_pruned active_n ranked).*2 t)
  = active_n - swap_excess_n active_n ranked - swap_k_n active_n ranked.
Proof.
  intros -> Hnd Hact. set (n := get_active_count t).
  assert (Hp : (swap_pruned n ranked).*2 ≡ₚ drop (length ranked - swap_victims_n n ranked) ranked.*2).
  { rewrite <- fmap_drop. by rewrite swap_pruned_victims. }
  rewrite active_mark_all_pruned.
  - unfold py_len. rewrite Hp, length_drop, length_fmap. fold n.
    pose proof (swap_k_bounds n ranked). unfold swap_victims_n, py_len in *. lia.
  - rewrite Hp. by eapply sublist_NoDup; [|apply sublist_drop].
  - intros r Hr. apply Hact. rewrite Hp in Hr. by eapply elem_of_submseteq, sublist_submseteq, sublist_drop.
Qed.

Lemma selection_zero pool : selection pool 0 [].
Proof.
  split; [by intros ? ?%elem_of_nil | apply NoDup_nil_2 | unfold py_len; cbn; lia |].
  intros _. unfold slice_to, slice_pos. cbn. by destruct pool.
Qed.

Lemma swap_round_inv `{!SchedulerLaws S, !PyRandomLaws G} active_n ranked cands e t :
  engine_ok e -> trace_tree e = Some t -> active_n = get_active_count t ->
  NoDup ranked.*2 -> (forall rid, rid ∈ ranked.*2 -> active_in t rid) -> NoDup cands ->
  exists sel e', swap_round active_n ranked cands e = Ok e' /\
    swap_outcome active_n ranked cands sel t e e'.
Proof.
  intros He Ht Hn Hnd Hact Hcnd. rewrite swap_round_unfold.
  pose proof (swap_k_actual_eq active_n ranked) as Hke.
  pose proof (swap_active active_n ranked t Hn Hnd Hact) as Hpa.
  assert (Hin : forall t0 rid, trace_tree e = Some t0 -> rid ∈ (swap_pruned active_n ranked).*2 ->
                  rid ∈ dkeys (nodes t0)).
  { intros t0 rid Ht0 Hr. rewrite Ht in Ht0. injection Ht0 as <-.
    destruct (Hact rid) as (n & Hd & _); [|by eapply elem_of_dkeys].
    rewrite swap_pruned_victims in Hr. unfold swap_victims in Hr. rewrite fmap_drop in Hr.
    by eapply elem_of_submseteq, sublist_submseteq, sublist_drop. }
  pose proof (prune_all_ok _ e He Hin) as Hpok.
  pose proof (prune_all_spec (swap_pruned active_n ranked).*2 e t Ht) as Hps.
  set (pr := prune_all (swap_pruned active_n ranked).*2 e) in *.
  assert (Htp : trace_tree pr = Some (mark_all_pruned (swap_pruned active_n ranked).*2 t))
    by (by rewrite Hps).
  destruct (Z.ltb_spec 0 (swap_k_actual config (swap_remaining config active_n ranked))) as [Hk|Hk].
  - destruct (choose_parents_inv (eligible_parents (swap_bottom active_n ranked) cands)
      (swap_k_actual config (swap_remaining config active_n ranked))
      (prune_all (if 0 <? swap_excess config active_n ranked
                  then slice_from (- swap_excess config active_n ranked) ranked else []).*2 e))
      as (sel & g & Hc & Hsel); [by apply bfilter_NoDup | lia |].
    rewrite Hc. bind_ok. rewrite prune_all_rng, <- prune_all_app, <- fmap_app.
    fold (swap_pruned active_n ranked). fold pr.
    destruct (branch_loop_inv config request_block_hasher now (tournament_capacity config) sel
      (pr <| rng := g |>) (set_rng_ok _ _ Hpok)) as (e' & Hl & He' & Hg & Ha).
    exists sel, e'. split; [done|]. split; auto.
    + eapply engine_grows_trans, Hg. apply set_rng_grows.
    + rewrite <- Hke, Z.max_r by lia. done.
    + intros t' Ht'. destruct (Ha _ t' Htp Ht') as [Ha1 _]. by rewrite Hpa in Ha1.
  - exists [], pr. split; [done|]. split; auto.
    + apply engine_grows_refl.
    + replace (swap_k_n active_n ranked) with 0 by lia. apply selection_zero.
    + intros t' Ht'. rewrite Htp in Ht'. injection Ht' as <-. rewrite Hpa. lia.
Qed.

(** ** The tournament step *)

Definition floor_of scores e : Engine := prune_all (hard_floor_victims config scores e) e.

Lemma hard_floor_victims_iff scores e rid :
  dict_ok scores ->
  rid ∈ hard_floor_victims config scores e <->
  exists x, dget rid scores = Some x /\ rid ∉ pending_low_score_stops e /\
    tournament_warmup_tokens config <= tokens_of rid e /\ flt x (tournament_hard_floor config) = true.
Proof.
  intros Hd. unfold hard_floor_victims. rewrite list_elem_of_fmap. split.
  - intros ([k x] & -> & Hin). cbn. apply elem_of_list_bfilter in Hin as [Hf Hin]. cbn in Hf.
    rewrite !andb_true_iff, bool_decide_eq_true, Z.leb_le in Hf. exists x.
    split; [by apply elem_of_dget | tauto].
  - intros (x & Hx & Hp & Hw & Hl). exists (rid, x). split; [done|].
    apply elem_of_list_bfilter. cbn. rewrite !andb_true_iff, bool_decide_eq_true, Z.leb_le.
    split; [tauto | by apply dget_elem_of].
Qed.

Lemma scored_active_iff scores t e x rid :
  (x, rid) ∈ scored_active scores t e <->
  (rid, x) ∈ scores /\ rid ∉ pending_low_score_stops e /\ active_in t rid.
Proof.
  unfold scored_active. rewrite list_elem_of_fmap. split.
  - intros ([k y] & [= -> ->] & Hin). apply elem_of_list_bfilter in Hin as [Hf Hin]. cbn in *.
    rewrite andb_true_iff, bool_decide_eq_true in Hf. destruct Hf as [Hp Ha].
    split; [done|]. split; [done|]. unfold get_node, active_in in *.
    destruct (dget k (nodes t)) as [n|]; [by exists n | done].
  - intros (Hin & Hp & n & Hn & Ha). exists (rid, x). split; [done|].
    apply elem_of_list_bfilter. cbn. unfold get_node. rewrite Hn, Ha, andb_true_r, bool_decide_eq_true.
    done.
Qed.

Lemma scored_active_ids scores t e :
  (scored_active scores t e).*2 `sublist_of` dkeys scores.
Proof.
  unfold scored_active, dkeys. rewrite <- list_fmap_compose.
  change (snd ∘ _) with (@fst string float). apply fmap_sublist, bfilter_sublist.
Qed.

Lemma rank_NoDup scores t e :
  dict_ok scores -> NoDup (rank (scored_active scores t e)).*2.
Proof.
  intros Hd. unfold rank. rewrite stable_sort_Permutation.
  eapply sublist_NoDup; [exact Hd | apply scored_active_ids].
Qed.

Lemma rank_active scores t e rid :
  rid ∈ (rank (scored_active scores t e)).*2 ->
  rid ∈ dkeys scores /\ rid ∉ pending_low_score_stops e /\ active_in t rid.
Proof.
  unfold rank. rewrite stable_sort_Permutation. intros ([x k] & -> & Hin)%list_elem_of_fmap.
  apply scored_active_iff in Hin as (Hin & ?). split; [|done]. by apply (list_elem_of_fmap_2 fst) in Hin.
Qed.

Lemma set_round_ok e i : engine_ok e -> engine_ok (e <| tournament_last_round_step := i |>).
Proof. by apply engine_ok_same. Qed.

(** The state a round starts from, its ranking and its possible parents. *)
Definition round_state scores e : Engine :=
  floor_of scores e <| tournament_last_round_step := tournament_step_counter e |>.

Definition round_tree scores e (t : TraceTree) : TraceTree :=
  mark_all_pruned (hard_floor_victims config scores e) t.

Definition ranking scores e (t : TraceTree) : list (float * string) :=
  rank (scored_active scores t e).

Definition candidates scores e (t : TraceTree) : list (float * string) :=
  List.filter (warm config e) (ranking scores e t).

Lemma floor_of_spec scores e t :
  trace_tree e = Some t ->
  floor_of scores e
  = e <| pending_low_score_stops :=
           list_to_set (hard_floor_victims config scores e) ∪ pending_low_score_stops e |>
      <| trace_tree := Some (mark_all_pruned (hard_floor_victims config scores e) t) |>
      <| seq_hs_to_clear := seq_hs_to_clear e ++ hard_floor_victims config scores e |>.
Proof. apply prune_all_spec. Qed.

Lemma tournament_step_unfold scores e t :
  trace_tree e = Some t ->
  tournament_step scores e
  = if negb (round_due config scores e) then Ok (floor_of scores e)
    else tournament_round scores (round_tree scores e t) (round_state scores e).
Proof.
  intros Ht. unfold EngineCore.tournament_step, round_state, round_tree.
  fold (floor_of scores e). rewrite (floor_of_spec scores e t Ht). reflexivity.
Qed.

Lemma tournament_round_unfold scores t e :
  tournament_round scores t e
  = if decide (ranking scores e t = []) then Ok e
    else if get_active_count t <? tournament_capacity config
    then fill_round (get_active_count t) (candidates scores e t) e
    else swap_round (get_active_count t) (ranking scores e t) (candidates scores e t) e.
Proof.
  unfold EngineCore.tournament_round, candidates, ranking.
  by destruct (rank (scored_active scores t e)).
Qed.

Lemma floor_of_ok scores e t :
  engine_ok e -> trace_tree e = Some t ->
  (forall rid, rid ∈ dkeys scores -> rid ∈ dkeys (nodes t)) -> engine_ok (floor_of scores e).
Proof.
  intros He Ht Hin. apply prune_all_ok; [done|]. intros t0 rid Ht0 Hr.
  rewrite Ht in Ht0. injection Ht0 as <-. apply Hin. revert Hr. unfold hard_floor_victims, dkeys.
  apply elem_of_sublist, fmap_sublist, bfilter_sublist.
Qed.

(** What a decision may assume of the scores it gets. *)
Definition scores_ok (scores : dict string float) (t : TraceTree) : Prop :=
  dict_ok scores /\ forall rid, rid ∈ dkeys scores -> rid ∈ dkeys (nodes t).

Lemma round_active scores e t :
  trace_tree e = Some t -> forall rid, rid ∈ (ranking scores e t).*2 -> active_in t rid.
Proof. intros _ rid Hr. by apply rank_active in Hr as (_ & _ & ?). Qed.

Lemma ranking_scored scores e t p : p ∈ ranking scores e t -> p.2 ∈ dkeys scores.
Proof. intros Hp%(list_elem_of_fmap_2 snd). by apply rank_active in Hp as [? _]. Qed.

Lemma ranking_pairs_NoDup scores e t : dict_ok scores -> NoDup (ranking scores e t).
Proof. intros Hd. eapply NoDup_fmap_1. by apply rank_NoDup. Qed.

Lemma candidates_NoDup scores e t : dict_ok scores -> NoDup (candidates scores e t).
Proof. intros Hd. by apply bfilter_NoDup, ranking_pairs_NoDup. Qed.

Lemma candidates_elem scores e t p :
  p ∈ candidates scores e t <->
  p ∈ ranking scores e t /\ tournament_warmup_tokens config <= tokens_of p.2 e.
Proof. unfold candidates, warm. rewrite elem_of_list_bfilter, Z.leb_le. tauto. Qed.

(** Pruning and then branching keeps a tree. *)
Lemma engine_grows_tree ps victims e e' :
  engine_grows ps (prune_all victims e) e' -> is_Some (trace_tree e) -> is_Some (trace_tree e').
Proof.
  intros Hg [t Ht]. destruct (eg_tree _ _ _ Hg (mark_all_pruned victims t)) as (t' & -> & _);
    [by rewrite (prune_all_spec victims e t) | by eexists].
Qed.

(** A round leaves the population at or below capacity, or below what it was. *)
Lemma tournament_round_inv `{!SchedulerLaws S, !PyRandomLaws G} scores t e :
  engine_ok e -> trace_tree e = Some t -> dict_ok scores ->
  exists victims sel e', tournament_round scores t e = Ok e' /\ engine_ok e' /\
    engine_grows sel.*2 (prune_all victims e) e' /\
    (forall rid, rid ∈ victims -> rid ∈ (ranking scores e t).*2) /\
    (forall p, p ∈ sel -> p ∈ candidates scores e t) /\ NoDup sel /\
    forall t', trace_tree e' = Some t' ->
      get_active_count t' <= Z.max (tournament_capacity config) (get_active_count t).
Proof.
  intros He Ht Hd. rewrite tournament_round_unfold.
  destruct (decide (ranking scores e t = [])).
  { exists [], [], e. split; [done|]. split; [done|]. split; [apply engine_grows_refl|].
    split; [by intros ? ?%elem_of_nil|]. split; [by intros ? ?%elem_of_nil|].
    split; [apply NoDup_nil_2|]. intros t' Ht'. rewrite Ht in Ht'. injection Ht' as <-. lia. }
  destruct (Z.ltb_spec (get_active_count t) (tournament_capacity config)).
  - destruct (fill_round_inv (candidates scores e t) e t He Ht)
      as (sel & e' & Hf & He' & Hg & Hsel & Ha); [by apply candidates_NoDup | done |].
    exists [], sel, e'. split; [done|]. split; [done|]. split; [exact Hg|].
    split; [by intros ? ?%elem_of_nil|]. split; [apply Hsel|]. split; [apply Hsel|].
    intros t' Ht'. specialize (Ha t' Ht'). lia.
  - destruct (swap_round_inv (get_active_count t) (ranking scores e t) (candidates scores e t) e t)
      as (sel & e' & Hs & Hout); auto using candidates_NoDup.
    { by apply rank_NoDup. }
    { by apply round_active. }
    exists (swap_pruned (get_active_count t) (ranking scores e t)).*2, sel, e'.
    split; [done|]. split; [apply Hout|]. split; [apply Hout|]. split; [|split; [|split]].
    + intros rid. rewrite swap_pruned_victims. unfold swap_victims. rewrite fmap_drop.
      apply elem_of_sublist, sublist_drop.
    + intros p Hp. apply (sel_sub _ _ _ (so_sel _ _ _ _ _ _ _ Hout)) in Hp.
      revert Hp. apply elem_of_sublist, bfilter_sublist.
    + apply (so_sel _ _ _ _ _ _ _ Hout).
    + intros t' Ht'. pose proof (so_active _ _ _ _ _ _ _ Hout t' Ht').
      pose proof (swap_k_bounds (get_active_count t) (ranking scores e t)). lia.
Qed.

Lemma tournament_step_inv `{!SchedulerLaws S, !PyRandomLaws G} scores t e :
  engine_ok e -> trace_tree e = Some t -> scores_ok scores t ->
  exists e' t', tournament_step scores e = Ok e' /\ engine_ok e' /\ quiet e e' /\
    trace_tree e' = Some t' /\
    get_active_count t' <= Z.max (tournament_capacity config) (get_active_count t).
Proof.
  intros He Ht [Hd Hin]. rewrite (tournament_step_unfold scores e t Ht).
  pose proof (floor_of_ok scores e t He Ht Hin) as Hfo.
  pose proof (floor_of_spec scores e t Ht) as Hfs.
  pose proof (active_mark_all_pruned_le (hard_floor_victims config scores e) t) as Hle.
  destruct (round_due config scores e); cbn [negb].
  - destruct (tournament_round_inv scores (round_tree scores e t) (round_state scores e))
      as (victims & sel & e' & Hr & He' & Hg & _ & _ & _ & Ha);
      [by apply set_round_ok | unfold round_state; by rewrite Hfs | done |].
    destruct (engine_grows_tree _ _ _ _ Hg) as [t' Ht']; [unfold round_state; by rewrite Hfs|].
    exists e', t'. split; [done|]. split; [done|]. split.
    { eapply quiet_trans; [apply prune_all_quiet|]. eapply (quiet_trans _ (round_state scores e));
        [by apply quiet_same|]. eapply quiet_trans; [apply prune_all_quiet|].
      by eapply engine_grows_quiet. }
    split; [done|]. specialize (Ha t' Ht').
    unfold round_tree in Ha. lia.
  - exists (floor_of scores e), (round_tree scores e t). split; [done|]. split; [done|].
    split; [apply prune_all_quiet|]. split; [by rewrite Hfs | unfold round_tree; lia].
Qed.

(** ** Threshold mode *)

Lemma threshold_step_inv `{!SchedulerLaws S} scores t e :
  engine_ok e -> trace_tree e = Some t -> scores_ok scores t ->
  exists e' t', threshold_step scores e = Ok e' /\ engine_ok e' /\ quiet e e' /\
    trace_tree e' = Some t' /\
    get_active_count t' <= Z.max (max_traces t) (get_active_count t).
Proof.
  intros He Ht [Hd Hin]. unfold EngineCore.threshold_step. rewrite Ht.
  set (victims := (List.filter (fun p =>
    should_prune_threshold config p.1 p.2 (tokens_of p.1 e) e) scores).*1).
  set (parents := rank _).
  assert (Hv : engine_ok (prune_all victims e)).
  { apply prune_all_ok; [done|]. intros t0 rid Ht0 Hr. rewrite Ht in Ht0. injection Ht0 as <-.
    apply Hin. revert Hr. apply elem_of_sublist, fmap_sublist, bfilter_sublist. }
  destruct (branch_loop_inv config request_block_hasher now (max_traces t) parents _ Hv)
    as (e' & Hl & He' & Hg & Ha).
  destruct (engine_grows_tree _ _ _ _ Hg) as [t' Ht']; [by eexists|].
  exists e', t'. split; [exact Hl|]. split; [done|].
  split; [eapply quiet_trans; [apply prune_all_quiet | by eapply engine_grows_quiet]|].
  split; [done|]. destruct (Ha (mark_all_pruned victims t) t') as [Hm _]; [|done|].
  - by rewrite (prune_all_spec victims e t Ht).
  - pose proof (active_mark_all_pruned_le victims t). lia.
Qed.

(** ** Recording the scores *)

(** One trace of the recording loop, on the tree. *)
Definition note_tree (p : string * float) (t : TraceTree) : TraceTree :=
  let t := if contains p.1 t then t else add_root p.1 t in
  if record_score_history config then record_score p.1 p.2 t else t.

Definition note_all (scores : dict string float) (t : TraceTree) : TraceTree :=
  fold_left (fun t p => note_tree p t) scores t.

Lemma note_score_tree p e : note_score config p e = e <| trace_tree := note_tree p <$> trace_tree e |>.
Proof.
  unfold note_score, on_tree, note_tree. destruct e as [? ? ? ? ? ? ? ? ? ? ? tr]. cbn.
  by destruct (record_score_history config), tr.
Qed.

Lemma note_scores_tree scores e :
  fold_left (fun e p => note_score config p e) scores e
  = e <| trace_tree := note_all scores <$> trace_tree e |>.
Proof.
  revert e. induction scores as [|p l IH]; intros e; cbn [fold_left note_all].
  - destruct e as [? ? ? ? ? ? ? ? ? ? ? tr]. by destruct tr.
  - rewrite IH, note_score_tree. destruct e as [? ? ? ? ? ? ? ? ? ? ? tr]. by destruct tr.
Qed.

Lemma note_tree_ok p t : tree_ok t -> known t p.1 -> tree_ok (note_tree p t).
Proof.
  intros Ht Hk. unfold note_tree.
  assert (tree_ok (if contains p.1 t then t else add_root p.1 t)).
  { destruct (contains p.1 t) eqn:Hc; [done|]. apply dmem_false in Hc.
    destruct Hk as [Hk|Hk]; [by apply dget_None in Hc|]. by apply add_root_ok. }
  destruct (record_score_history config); auto with gambit.
Qed.

Lemma dget_note_tree p t k n :
  dget k (nodes t) = Some n -> exists n', dget k (nodes (note_tree p t)) = Some n' /\
    is_active n' = is_active n /\ is_pruned n' = is_pruned n /\ is_completed n' = is_completed n.
Proof.
  intros Hk. unfold note_tree. set (t0 := if contains p.1 t then t else add_root p.1 t).
  assert (Hk0 : dget k (nodes t0) = Some n).
  { unfold t0. destruct (contains p.1 t) eqn:Hc; [done|]. cbn. rewrite dget_dset_ne; [done|].
    apply dmem_false in Hc. congruence. }
  destruct (record_score_history config); [|by exists n]. unfold record_score, with_nodes. cbn. rewrite dget_dalter, Hk0.
  case_decide; eexists; (split; [reflexivity|]); done.
Qed.

Lemma elem_of_note_tree p t : p.1 ∈ dkeys (nodes (note_tree p t)).
Proof.
  unfold note_tree. set (t0 := if contains p.1 t then t else add_root p.1 t).
  assert (Hk0 : p.1 ∈ dkeys (nodes t0)).
  { unfold t0. destruct (contains p.1 t) eqn:Hc.
    - by apply dget_is_Some, dmem_true.
    - cbn. apply elem_of_dkeys_dset. by left. }
  destruct (record_score_history config); [|done]. unfold record_score, with_nodes. cbn.
  by rewrite dkeys_dalter.
Qed.

Lemma note_tree_consts p t :
  max_traces (note_tree p t) = max_traces t /\
  get_completed_count (note_tree p t) = get_completed_count t.
Proof.
  unfold note_tree, get_completed_count. destruct (contains p.1 t) eqn:Hc, (record_score_history config);
    unfold record_score, with_nodes; cbn; rewrite ?count_nodes_dalter_same by done;
    rewrite ?count_nodes_dset_new by (by apply dmem_false in Hc); split; try done; cbn; lia.
Qed.

(** After the recording loop every scored trace is in a well-formed tree and
    every earlier trace has its status. *)
Lemma note_all_inv scores t :
  tree_ok t -> (forall rid, rid ∈ dkeys scores -> known t rid) ->
  let t' := note_all scores t in
  tree_ok t' /\ (forall rid, rid ∈ dkeys scores -> rid ∈ dkeys (nodes t')) /\
  (forall k n, dget k (nodes t) = Some n -> exists n', dget k (nodes t') = Some n' /\
     is_active n' = is_active n /\ is_pruned n' = is_pruned n /\ is_completed n' = is_completed n) /\
  max_traces t' = max_traces t /\ get_completed_count t' = get_completed_count t.
Proof.
  revert t. induction scores as [|p l IH]; intros t Ht Hk.
  { split; [done|]. split; [by intros ? ?%elem_of_nil|]. split; [eauto | done]. }
  assert (Hk' : forall rid, rid ∈ dkeys l -> known (note_tree p t) rid).
  { intros rid Hr. destruct (Hk rid) as [Hin|He]; [by right| |by right].
    left. apply dget_is_Some in Hin as [n Hn]. apply dget_is_Some.
    destruct (dget_note_tree p t rid n Hn) as (n' & -> & _). by eexists. }
  destruct (IH (note_tree p t)) as (h1 & h2 & h3 & h4 & h5);
    [apply note_tree_ok; [done | apply Hk; by left] | done |].
  destruct (note_tree_consts p t) as [c1 c2].
  change (note_all (p :: l) t) with (note_all l (note_tree p t)).
  split; [done|]. split; [|split; [|split; [by rewrite h4 | by rewrite h5]]].
  - intros rid [->|Hr]%elem_of_cons; [|by apply h2].
    pose proof (elem_of_note_tree p t) as Hin. apply dget_is_Some in Hin as [n Hn].
    apply dget_is_Some. destruct (h3 _ _ Hn) as (n' & -> & _). by eexists.
  - intros k n Hn. destruct (dget_note_tree p t k n Hn) as (n1 & Hn1 & a1 & a2 & a3).
    destruct (h3 k n1 Hn1) as (n2 & Hn2 & b1 & b2 & b3). exists n2. split; [done|].
    repeat split; congruence.
Qed.

(** ** The forced stop *)

Definition stoppable (t : TraceTree) e : list string :=
  (List.filter (fun p => is_active p.2 && bool_decide (p.1 ∉ pending_force_stops e)) (nodes t)).*1.

Lemma force_stop_fold rids e t :
  trace_tree e = Some t ->
  fold_left (fun e rid => force_stop rid e) rids e
  = e <| trace_tree := Some (mark_all_pruned rids t) |>
      <| pending_force_stops := list_to_set rids ∪ pending_force_stops e |>.
Proof.
  revert e t. induction rids as [|r rids IH]; intros e t Ht; cbn [fold_left].
  - cbn. rewrite (left_id_L ∅ (∪)). destruct e; cbn in *. by subst.
  - unfold force_stop at 2, on_tree. rewrite Ht. erewrite IH by reflexivity.
    destruct e; cbn in *. f_equal. set_solver.
Qed.

Lemma force_stop_all_spec e t :
  trace_tree e = Some t ->
  force_stop_all_active_traces e
  = e <| trace_tree := Some (mark_all_pruned (stoppable t e) t) |>
      <| pending_force_stops := list_to_set (stoppable t e) ∪ pending_force_stops e |>.
Proof.
  intros Ht. unfold force_stop_all_active_traces. rewrite Ht. by apply force_stop_fold.
Qed.

Lemma stoppable_iff t e rid :
  dict_ok (nodes t) ->
  rid ∈ stoppable t e <-> active_in t rid /\ rid ∉ pending_force_stops e.
Proof.
  intros Hd. unfold stoppable, active_in. rewrite list_elem_of_fmap. split.
  - intros ([k n] & -> & Hin). apply elem_of_list_bfilter in Hin as [Hf Hin]. cbn in *.
    rewrite andb_true_iff, bool_decide_eq_true in Hf. split; [|tauto].
    exists n. split; [by apply elem_of_dget | tauto].
  - intros ((n & Hn & Ha) & Hp). exists (rid, n). split; [done|].
    apply elem_of_list_bfilter. cbn. rewrite Ha, bool_decide_eq_true_2 by done.
    split; [done | by apply dget_elem_of].
Qed.

Lemma count_nodes_none (p : TraceNode -> bool) ns :
  dict_ok ns -> (forall k n, dget k ns = Some n -> p n = false) -> count_nodes p ns = 0.
Proof.
  intros Hd Hall. unfold count_nodes, py_len.
  replace (List.filter p (dvalues ns)) with (@nil TraceNode); [done|].
  destruct (List.filter p (dvalues ns)) as [|n l] eqn:E; [done|].
  assert (Hin : n ∈ List.filter p (dvalues ns)) by (rewrite E; by left).
  apply elem_of_list_bfilter in Hin as [Hp Hin]. unfold dvalues in Hin.
  apply list_elem_of_fmap in Hin as ([k n'] & -> & Hin). cbn in *.
  rewrite (Hall k n') in Hp by (by apply elem_of_dget). done.
Qed.

(** The forced stop leaves no active trace. *)
Lemma force_stop_inv e t :
  engine_ok e -> trace_tree e = Some t ->
  let e' := force_stop_all_active_traces e in
  engine_ok e' /\ exists t', trace_tree e' = Some t' /\ get_active_count t' = 0 /\
    (forall rid, active_in t rid -> rid ∈ pending_force_stops e').
Proof.
  intros He Ht e'. unfold e'. rewrite (force_stop_all_spec e t Ht).
  pose proof (eok_tree e He t Ht) as Htok. pose proof (ok_dict t Htok) as Hd.
  split; [|eexists; split; [reflexivity|]; split].
  - destruct He as [h1 h2 h3 h4 h5]. split; cbn; [by eauto | | | done |].
    + intros t' [= <-]. auto with gambit.
    + intros t' rid [= <-] Hr. rewrite dget_mark_all_pruned.
      destruct (decide (rid ∈ stoppable t e)) as [Hs|Hs].
      * apply stoppable_iff in Hs as [(n & -> & _) _]; [by eexists | done].
      * apply h3; [done|]. set_solver.
    + apply (scores_known_mono e); try done. intros ? [= <-]. exists t. split; [done|].
      intros k. by rewrite dkeys_mark_all_pruned.
  - apply count_nodes_none; [pose proof (mark_all_pruned_ok (stoppable t e) t Htok) as Hm; apply Hm|].
    intros k n. rewrite dget_mark_all_pruned.
    destruct (decide (k ∈ stoppable t e)) as [Hs|Hs].
    + by destruct (dget k (nodes t)); intros [= <-].
    + intros Hk. destruct (is_active n) eqn:Ha; [|done]. exfalso. apply Hs.
      apply stoppable_iff; [done|]. split; [by exists n|]. intros Hp.
      apply (pending_inactive e t k He Ht); [set_solver | by exists n].
  - intros rid Hact. cbn. destruct (decide (rid ∈ pending_force_stops e)); [set_solver|].
    apply elem_of_union_l, elem_of_list_to_set, stoppable_iff; done.
Qed.

(** ** The decision step *)

Lemma flush_ok e : engine_ok e -> engine_ok (flush_sequence_histories e).
Proof.
  unfold flush_sequence_histories. repeat case_match; by apply engine_ok_same.
Qed.

Lemma flush_frame e :
  trace_tree (flush_sequence_histories e) = trace_tree e /\
  scheduler (flush_sequence_histories e) = scheduler e /\
  pending_low_score_stops (flush_sequence_histories e) = pending_low_score_stops e /\
  pending_force_stops (flush_sequence_histories e) = pending_force_stops e /\
  seq_hs_to_clear (flush_sequence_histories e) = [] /\
  seq_hs_to_copy (flush_sequence_histories e) = [].
Proof.
  unfold flush_sequence_histories. destruct (seq_hs_to_clear e) eqn:E1, (seq_hs_to_copy e) eqn:E2;
    cbn; repeat split; done.
Qed.

(** The state the routing starts from. *)
Definition noted scores e : Engine :=
  e <| trace_tree := (fun t => note_all scores (increment_step t)) <$> trace_tree e |>
    <| tournament_step_counter := tournament_step_counter e + 1 |>.

Lemma decision_step_unfold scores e t :
  gambit_enabled e = true -> trace_tree e = Some t ->
  decision_step scores e
  = if should_stop_after_completed config (noted scores e)
    then Ok (force_stop_all_active_traces (noted scores e))
    else
      e ← (if tournament_mode config then tournament_step scores (noted scores e)
           else threshold_step scores (noted scores e));
      Ok (flush_sequence_histories e).
Proof.
  intros Hen Ht. unfold EngineCore.decision_step. rewrite Hen. cbv zeta.
  rewrite note_scores_tree.
  assert (Hn : forall e0, e0 = on_tree increment_step e
                <| tournament_step_counter := tournament_step_counter e + 1 |> ->
    e0 <| trace_tree := note_all scores <$> trace_tree e0 |> = noted scores e).
  { intros ? ->. unfold noted, on_tree. cbn. by rewrite Ht. }
  rewrite (Hn _ eq_refl). by rewrite Ht.
Qed.

Lemma known_increment t rid : known t rid -> known (increment_step t) rid.
Proof. done. Qed.

(** Everything the routing may rely on. *)
Lemma noted_inv scores e t :
  engine_ok e -> trace_tree e = Some t -> dict_ok scores ->
  (forall rid, rid ∈ dkeys scores -> known t rid) ->
  let t1 := note_all scores (increment_step t) in
  engine_ok (noted scores e) /\ trace_tree (noted scores e) = Some t1 /\ scores_ok scores t1 /\
  (forall k n, dget k (nodes t) = Some n -> exists n', dget k (nodes t1) = Some n' /\
     is_active n' = is_active n /\ is_pruned n' = is_pruned n /\ is_completed n' = is_completed n) /\
  max_traces t1 = max_traces t /\ get_completed_count t1 = get_completed_count t.
Proof.
  intros He Ht Hd Hk t1. pose proof (eok_tree e He t Ht) as Htok.
  destruct (note_all_inv scores (increment_step t)) as (n1 & n2 & n3 & n4 & n5);
    [auto with gambit | done |]. fold t1 in n1, n2, n3, n4, n5.
  assert (Ht1 : trace_tree (noted scores e) = Some t1) by (unfold noted; cbn; by rewrite Ht).
  split; [|split; [done|split; [by split|split; [exact n3|split; [exact n4 | exact n5]]]]].
  split.
  - rewrite Ht1. by eexists.
  - rewrite Ht1. by intros ? [= <-].
  - rewrite Ht1. intros t' rid [= <-] Hp.
    destruct (eok_pending e He t rid Ht Hp) as (n & Hn & Hpr).
    destruct (n3 rid n Hn) as (n' & Hn' & _ & Hp' & _). exists n'. split; congruence.
  - apply He.
  - apply (scores_known_mono e); try done; [|apply He]. rewrite Ht1. intros ? [= <-]. exists t.
    split; [done|]. intros k [n Hn]%dget_is_Some. destruct (n3 k n Hn) as (n' & Hn' & _).
    by eapply elem_of_dkeys.
Qed.

Lemma flush_quiet e : quiet e (flush_sequence_histories e).
Proof. unfold flush_sequence_histories. repeat case_match; by apply quiet_same. Qed.

Lemma force_stop_quiet e t : trace_tree e = Some t -> quiet e (force_stop_all_active_traces e).
Proof.
  intros Ht. rewrite (force_stop_all_spec e t Ht). split; try done. intros t0 Ht0.
  rewrite Ht in Ht0. injection Ht0 as <-. eexists. split; [reflexivity|]. intros k.
  by rewrite dkeys_mark_all_pruned.
Qed.

Lemma noted_quiet scores e t :
  engine_ok e -> trace_tree e = Some t -> dict_ok scores ->
  (forall rid, rid ∈ dkeys scores -> known t rid) -> quiet e (noted scores e).
Proof.
  intros He Ht Hd Hk. destruct (noted_inv scores e t He Ht Hd Hk) as (_ & Ht1 & _ & Hkeep & _).
  split; try done. intros t0 Ht0. rewrite Ht in Ht0. injection Ht0 as <-.
  eexists. split; [exact Ht1|]. intros k [n Hn]%dget_is_Some.
  destruct (Hkeep k n Hn) as (n' & Hn' & _). by eapply elem_of_dkeys.
Qed.

Lemma decision_step_inv `{!SchedulerLaws S, !PyRandomLaws G} scores e t :
  engine_ok e -> gambit_enabled e = true -> trace_tree e = Some t -> dict_ok scores ->
  (forall rid, rid ∈ dkeys scores -> known t rid) ->
  exists e' t', decision_step scores e = Ok e' /\ engine_ok e' /\ quiet e e' /\
    trace_tree e' = Some t' /\
    (if should_stop_after_completed config (noted scores e) then get_active_count t' = 0
     else get_active_count t' <=
       Z.max (if tournament_mode config then tournament_capacity config else max_traces t)
         (get_active_count (note_all scores (increment_step t)))).
Proof.
  intros He Hen Ht Hd Hk. rewrite (decision_step_unfold scores e t) by done.
  destruct (noted_inv scores e t He Ht Hd Hk) as (Hok & Ht1 & Hs & _ & Hmax & _).
  set (t1 := note_all scores (increment_step t)) in *.
  destruct (should_stop_after_completed config (noted scores e)).
  - destruct (force_stop_inv _ t1 Hok Ht1) as (Hok' & t' & Ht' & Ha & _).
    eexists _, t'. split; [done|]. split; [done|]. split; [|done].
    eapply quiet_trans; [by apply (noted_quiet scores e t) | by eapply force_stop_quiet].
  - assert (exists e' t', (if tournament_mode config then tournament_step scores (noted scores e)
                        else threshold_step scores (noted scores e)) = Ok e' /\ engine_ok e' /\
              quiet (noted scores e) e' /\
              trace_tree e' = Some t' /\ get_active_count t' <=
                Z.max (if tournament_mode config then tournament_capacity config else max_traces t)
                  (get_active_count t1)) as (e' & t' & He' & Hok' & Hq & Ht' & Ha).
    { destruct (tournament_mode config).
      - by apply tournament_step_inv.
      - rewrite <- Hmax. by apply threshold_step_inv. }
    rewrite He'. bind_ok. destruct (flush_frame e') as (Htr & _).
    exists (flush_sequence_histories e'), t'. split; [done|]. split; [by apply flush_ok|].
    split; [eapply quiet_trans; [by apply (noted_quiet scores e t)|]; eapply quiet_trans; [done | apply flush_quiet]|].
    by rewrite Htr.
Qed.

End Selection.
