(* ===== verification/SampleRun.v ===== *)
(** * A scheduler for concrete runs

    The smallest implementation of [SchedulerInterface] that satisfies its laws:
    a table of requests that runs every one of them by one token per step.
    Concrete runs of the engine are evaluated on it. *)

From S2P Require Import Prelude PyDict PyList PyStr PyFloat PyRandom GambitConfig Request TraceTree Outputs EngineCore EngineInv Tournament.
#[local] Open Scope Z_scope.

Record TableScheduler := mkTableScheduler {
  table : dict string Request;
  queue : list string;
  live : list string;
  done_ids : gset string;
}.

#[export] Instance eta_TableScheduler : Eta TableScheduler := fun s =>
  mkTableScheduler (table s) (queue s) (live s) (done_ids s).

Definition empty_table : TableScheduler :=
  {| table := []; queue := []; live := []; done_ids := ∅ |}.

Definition table_add (r : Request) (s : TableScheduler) : TableScheduler :=
  s <| table := dset (request_id r) r (table s) |> <| queue := queue s ++ [request_id r] |>.

Definition table_schedule (s : TableScheduler) : SchedulerOutput * TableScheduler :=
  let ids := live s ++ queue s in
  ({| scheduled_new_reqs := []; scheduled_cached_reqs := make_empty;
      num_scheduled_tokens := (fun rid => (rid, 1)) <$> ids;
      total_num_scheduled_tokens := py_len ids; scheduled_spec_decode_tokens := [];
      scheduled_encoder_inputs := []; num_common_prefix_blocks := [];
      so_finished_req_ids := done_ids s; free_encoder_mm_hashes := [];
      pending_structured_output_tokens := false; kv_connector_metadata := None;
      ec_connector_metadata := None |},
   s <| live := ids |> <| queue := [] |> <| done_ids := ∅ |>).

Definition table_output (r : Request) (toks : list Z) : EngineCoreOutput := {|
  eco_request_id := request_id r; new_token_ids := toks; new_logprobs := None;
  new_prompt_logprobs_tensors := None; pooling_output := None;
  eco_finish_reason := get_finished_reason r; eco_stop_reason := Request.stop_reason r;
  eco_final_score := None; eco_score_history := None; eco_events := None;
  eco_kv_transfer_params := None; eco_trace_headers := trace_headers r;
  eco_num_cached_tokens := 0; eco_num_nans_in_logits := 0 |}.

(** Append one request's tokens and drop it when it stops. *)
Definition table_update_one (mo : ModelRunnerOutput) (p : string * Z) (s : TableScheduler)
    : result (EngineCoreOutput * TableScheduler) :=
  r ← or_raise KeyError (dget p.1 (table s));
  idx ← or_raise KeyError (dget p.1 (req_id_to_index mo));
  toks ← py_index (sampled_token_ids mo) idx;
  r ← append_output_token_ids None toks r;
  '(stopped, r) ← check_stop r 4096 false;
  Ok (table_output r toks,
      if (stopped : bool) then s <| table := ddel p.1 (table s) |>
                        <| live := List.filter (fun q => bool_decide (q <> p.1)) (live s) |>
                        <| done_ids := {[p.1]} ∪ done_ids s |>
      else s <| table := dset p.1 r (table s) |>).

#[export] Instance table_scheduler : SchedulerInterface TableScheduler := {|
  sched_request := fun k s => dget k (table s);
  sched_num_waiting := fun s => py_len (queue s);
  sched_num_running := fun s => py_len (live s);
  sched_has_requests := fun s =>
    (0 <? py_len (queue s) + py_len (live s)) || bool_decide (done_ids s <> ∅);
  sched_finished_req_ids := done_ids;
  sched_schedule := fun s => Ok (table_schedule s);
  sched_grammar_bitmask := fun _ _ => None;
  sched_update_from_output := fun so mo _ _ s =>
    '(outs, s) ← for_collect (table_update_one mo) (num_scheduled_tokens so) s;
    Ok ([(0, engine_core_outputs outs)], s);
  sched_add_request := fun r s => Ok (table_add r s);
  sched_finish_requests := fun ids _ s =>
    Ok (fold_left (fun s k => s <| table := ddel k (table s) |>) ids s);
  sched_mark_stop_reason := fun ids reason s =>
    fold_left (fun s k => s <| table :=
      dalter (fun r => r <| Request.stop_reason := Some (StrOf reason) |>) k (table s) |>) ids s;
  sched_update_trace_scores := fun scores s =>
    s <| table := (fun p => (p.1, p.2 <| trace_avg_score :=
            match dget p.1 scores with Some x => Some x | None => trace_avg_score p.2 end |>))
            <$> table s |>;
  sched_update_draft_token_ids := fun _ s => Ok s;
|}.

#[export] Instance table_laws : SchedulerLaws TableScheduler.
Proof.
  split.
  - intros r s. exists (table_add r s). split; [done|]. cbn.
    split; [done|]. split; [unfold py_len; rewrite length_app; cbn; lia|]. split; [done|].
    split; [by exists r; rewrite dget_dset_eq | intros; by rewrite dget_dset_ne].
  - intros ids reason s k. cbn. revert s. induction ids as [|q ids IH]; intros s; [done|].
    cbn [fold_left]. rewrite IH. cbn. rewrite dget_dalter. case_decide; [|done].
    by destruct (dget k (table s)).
  - intros scores s k. cbn. induction (table s) as [|[k' r'] l IH]; [done|]. cbn.
    case_decide; [by subst | apply IH].
Qed.

(** * A sample engine

    Four root traces of one parent request on [TableScheduler], with scores 0.75,
    0.5, 0.25 and 0.125: the engine on which the concrete runs of the search and
    of the step start. *)

#[local] Existing Instance first_choices.
#[local] Existing Instance first_choices_laws.
#[local] Existing Instance cpython_3_12.

Abbreviation SampleEngine := (EngineCore TableScheduler unit).

Definition sample_config (capacity swap limit : Z) (floor : float) : GambitConfig :=
  default_config <| enable := true |> <| enable_branching := true |>
    <| tournament_capacity := capacity |> <| tournament_swap_k := swap |>
    <| tournament_check_interval := 1 |> <| tournament_warmup_tokens := 10 |>
    <| tournament_hard_floor := floor |> <| stop_after_completed_traces := limit |>.

Definition sample_ids : list string := ["0_p"; "1_p"; "2_p"; "3_p"]%string.

Definition sample_scores : dict string float :=
  [("0_p", float_of_bits 3 (-2)); ("1_p", float_of_bits 1 (-1)); ("2_p", float_of_bits 1 (-2));
   ("3_p", float_of_bits 1 (-3))]%string.

Definition add_sample (re : result SampleEngine) (rid : string) : result SampleEngine :=
  e ← re;
  r ← new_request None fzero (sample_args <| ra_request_id := rid |>);
  add_request [] id r e.

Definition sample_start (config : GambitConfig) (ids : list string) : result SampleEngine :=
  fold_left add_sample ids (init_engine config false empty_table tt).

Definition blank_engine : SampleEngine := {|
  scheduler := empty_table; trace_scores := []; trace_score_sums := []; trace_score_counts := [];
  final_trace_scores := []; pending_low_score_stops := ∅; pending_force_stops := ∅;
  trace_token_counts := []; stride_last_trigger := []; pending_hs_classification := ∅;
  trace_hidden_state_last := []; trace_tree := None; gambit_enabled := false;
  gambit_output_token_ids := []; tournament_step_counter := 0; tournament_last_round_step := -1;
  seq_hs_to_clear := []; seq_hs_to_copy := []; async_scorer_future := None;
  async_scorer_meta := {| meta_collect_hidden := false; meta_req_ids := ∅ |}; rpc_log := [];
  rng := tt |}.

(** The engine after every trace has generated 20 tokens. *)
Definition sample_engine (config : GambitConfig) : SampleEngine :=
  match sample_start config sample_ids with
  | Ok e => e <| trace_token_counts := (fun rid => (rid, 20)) <$> sample_ids |>
  | Raise _ => blank_engine
  end.

Definition sample_tree (config : GambitConfig) : TraceTree :=
  default (new_tree 0 0 0) (trace_tree (sample_engine config)).

Lemma sample_start_ok ids re :
  (forall e, re = Ok e -> engine_ok e) ->
  forall e, fold_left add_sample ids re = Ok e -> engine_ok e.
Proof.
  revert re. induction ids as [|rid ids IH]; intros re Hre e; cbn; [apply Hre|].
  apply IH. intros e1 H1. unfold add_sample in H1. inv_ok. eapply add_request_ok; eauto.
Qed.

Lemma blank_engine_ok : engine_ok blank_engine.
Proof. split; try done. split; auto with dict. done. Qed.

Lemma sample_engine_ok config : engine_ok (sample_engine config).
Proof.
  unfold sample_engine. destruct (sample_start config sample_ids) as [e0|] eqn:E;
    [|apply blank_engine_ok]. apply (engine_ok_same e0); try done.
  apply (sample_start_ok sample_ids (init_engine config false empty_table tt)); [|exact E].
  intros e1. apply init_engine_ok.
Qed.

(** Decides a closed membership or freshness question by evaluation. *)
Ltac by_compute := apply (bool_decide_unpack _); vm_compute; exact I.

Lemma sample_scores_ok (t : TraceTree) :
  dkeys (nodes t) = sample_ids -> scores_ok sample_scores t.
Proof.
  intros Hk. split; [unfold dict_ok; by_compute|]. intros rid. by rewrite Hk.
Qed.

Lemma sample_scores_not_nan rid x : dget rid sample_scores = Some x -> not_nan x.
Proof.
  intros Hx. apply dget_elem_of in Hx. unfold sample_scores in Hx.
  rewrite !elem_of_cons in Hx. destruct Hx as [Hx|[Hx|[Hx|[Hx|Hx]]]];
    try (by apply elem_of_nil in Hx); injection Hx as _ ->; reflexivity.
Qed.
