(* ===== verification/GambitSearch.v ===== *)
(** * Correctness of the search decisions

    The properties of the Gambit decisions of [EngineCore.v], with concrete runs
    on [TableScheduler]: the hard floor prunes exactly what is below it, a swap
    round prunes the bottom of the ranking and branches survivors, a fill round
    fills the free slots, the completion limit stops everything, and the decision
    step as a whole returns, keeps the invariant and respects the capacity. *)

From S2P Require Import Prelude PyDict PyList PyStr PyFloat PyRandom GambitConfig Request.
From S2P Require Import TraceTree Outputs EngineCore EngineInv Tournament SampleRun.
From S2P Require Import SampleRun.
#[local] Open Scope Z_scope.

Section Properties.
Context {S G : Type} `{SchedulerInterface S, PyRandom G, PySum, !SchedulerLaws S, !PyRandomLaws G}.
Context (config : GambitConfig)
  (request_block_hasher : option (Request -> result (list BlockHash))) (now : float).
Abbreviation Engine := (EngineCore S G).
Implicit Types (e : Engine) (scores : dict string float).
Abbreviation tournament_step := (tournament_step config request_block_hasher now).
Abbreviation threshold_step := (threshold_step config request_block_hasher now).
Abbreviation decision_step := (decision_step config request_block_hasher now).

(** C8: The decision step never raises and keeps the engine's invariant, for any scores of
    traces that are in the tree or can be roots.  It leaves no active trace
    when the completion limit is reached; otherwise the active population is at
    most the capacity of the mode, or what it was after the scored traces were added. *)
Theorem decision_step_safe scores e t :
  engine_ok e -> gambit_enabled e = true -> trace_tree e = Some t -> dict_ok scores ->
  (forall rid, rid ∈ dkeys scores -> known t rid) ->
  exists e' t', decision_step scores e = Ok e' /\ engine_ok e' /\ trace_tree e' = Some t' /\
    let noted_tree := note_all config scores (increment_step t) in
    if (0 <? stop_after_completed_traces config) &&
       (stop_after_completed_traces config <=? get_completed_count t)
    then get_active_count t' = 0
    else get_active_count t' <=
      Z.max (if tournament_mode config then tournament_capacity config else max_traces t)
        (get_active_count noted_tree).
Proof.
  intros He Hen Ht Hd Hk.
  destruct (decision_step_inv config request_block_hasher now scores e t He Hen Ht Hd Hk)
    as (e' & t' & Hs & He' & _ & Ht' & Hb). exists e', t'. split; [done|]. split; [done|].
  split; [done|]. destruct (noted_inv config scores e t He Ht Hd Hk) as (_ & Ht1 & _ & _ & _ & Hc).
  unfold should_stop_after_completed in Hb. rewrite Ht1, Hc in Hb.
  destruct (Z.leb_spec (stop_after_completed_traces config) 0), (Z.ltb_spec 0 (stop_after_completed_traces config));
    try lia; cbn; exact Hb.
Qed.

(** Outside a round the tournament step is the hard floor: it adds a pending stop to
    exactly the traces without one that have generated the warmup tokens and average below the
    floor, marks exactly those pruned in the tree, and changes nothing else
    but the list of histories to clear. *)
Theorem hard_floor_exact scores e t :
  trace_tree e = Some t -> dict_ok scores -> round_due config scores e = false ->
  let below rid := exists x, dget rid scores = Some x /\ rid ∉ pending_low_score_stops e /\
    tournament_warmup_tokens config <= tokens_of rid e /\
    flt x (tournament_hard_floor config) = true in
  exists victims t', (forall rid, rid ∈ victims <-> below rid) /\
    tournament_step scores e
    = Ok (e <| pending_low_score_stops := list_to_set victims ∪ pending_low_score_stops e |>
            <| trace_tree := Some t' |>
            <| seq_hs_to_clear := seq_hs_to_clear e ++ victims |>) /\
    (forall rid n, dget rid (nodes t) = Some n -> exists n', dget rid (nodes t') = Some n' /\
       (below rid -> is_active n' = false /\ is_pruned n' = true) /\ (~ below rid -> n' = n)) /\
    dkeys (nodes t') = dkeys (nodes t).
Proof.
  intros Ht Hd Hdue below. exists (hard_floor_victims config scores e).
  exists (mark_all_pruned (hard_floor_victims config scores e) t).
  assert (Hv : forall rid, rid ∈ hard_floor_victims config scores e <-> below rid)
    by (intros rid; by apply hard_floor_victims_iff).
  split; [done|]. split; [|split; [|apply dkeys_mark_all_pruned]].
  - rewrite (tournament_step_unfold config request_block_hasher now scores e t Ht), Hdue.
    cbn [negb]. by rewrite (floor_of_spec config scores e t Ht).
  - intros rid n Hn. rewrite dget_mark_all_pruned, Hn.
    destruct (decide (rid ∈ hard_floor_victims config scores e)) as [Hr|Hr]; cbn;
      rewrite Hv in Hr; eexists; (split; [reflexivity|]); split; done || naive_solver.
Qed.

(** A round starts from the state after the hard floor. *)
Lemma round_state_facts scores e t :
  engine_ok e -> trace_tree e = Some t -> scores_ok scores t ->
  engine_ok (round_state config scores e) /\
  trace_tree (round_state config scores e) = Some (round_tree config scores e t) /\
  pending_low_score_stops (round_state config scores e)
    = pending_low_score_stops (floor_of config scores e) /\
  (forall rid, tokens_of rid (round_state config scores e) = tokens_of rid e) /\
  scheduler (round_state config scores e) = scheduler e.
Proof.
  intros He Ht [Hd Hin]. split; [apply set_round_ok; by eapply floor_of_ok|].
  unfold round_state. by rewrite (floor_of_spec config scores e t Ht).
Qed.

(** A part of the ranking that is not cut scores at least as much as the part that is. *)
Lemma ranking_split scores e t m s v :
  (forall rid x, dget rid scores = Some x -> not_nan x) -> dict_ok scores ->
  s ∈ take m (ranking scores e t) -> v ∈ drop m (ranking scores e t) -> flt s.1 v.1 = false.
Proof.
  intros Hnan Hd Hs Hv.
  assert (Hall : Forall (fun p => not_nan p.1) (scored_active scores t e)).
  { apply Forall_forall. intros [x rid] Hin. apply scored_active_iff in Hin as (Hin & _).
    apply (Hnan rid). by apply elem_of_dget. }
  assert (Hr : forall p, p ∈ ranking scores e t -> not_nan p.1).
  { intros p Hp. rewrite Forall_forall in Hall. apply Hall. by apply elem_of_stable_sort in Hp. }
  assert (Hsorted : sorted_by flt neg_score (ranking scores e t)).
  { apply (stable_sort_sorted flt neg_score not_nan).
    eapply Forall_impl; [exact Hall|]. intros p Hp. by apply not_nan_fopp. }
  rewrite <- (take_drop m (ranking scores e t)) in Hsorted.
  pose proof (sorted_by_app _ _ _ _ _ _ Hsorted Hs Hv) as Hlt. unfold neg_score in Hlt.
  rewrite flt_fopp in Hlt; [done | apply Hr..].
  - by eapply elem_of_sublist, Hv; apply sublist_drop.
  - by eapply elem_of_sublist, Hs; apply sublist_take.
Qed.

(** The two parts of the ranking share no trace. *)
Lemma ranking_disjoint scores e t m s v :
  dict_ok scores -> s ∈ take m (ranking scores e t) -> v ∈ drop m (ranking scores e t) ->
  s.2 <> v.2.
Proof.
  intros Hd Hs Hv. pose proof (rank_NoDup scores t e Hd) as Hnd.
  fold (ranking scores e t) in Hnd. rewrite <- (take_drop m (ranking scores e t)), fmap_app in Hnd.
  apply NoDup_app in Hnd as (_ & Hdis & _). intros Heq.
  apply (Hdis s.2); [by apply list_elem_of_fmap_2 | rewrite Heq; by apply list_elem_of_fmap_2].
Qed.

(** C9: A due round at or over capacity prunes exactly the traces at the bottom of the ranking,
    the excess plus the swap count, and no survivor scores below a pruned
    trace; every trace it adds is a child of a survivor that has finished its warmup, and the
    population ends at or below capacity unless unscored traces hold it above. *)
Theorem swap_round_ranked scores e t :
  engine_ok e -> trace_tree e = Some t -> scores_ok scores t ->
  (forall rid x, dget rid scores = Some x -> not_nan x) ->
  round_due config scores e = true ->
  let t1 := round_tree config scores e t in
  let n := get_active_count t1 in
  let ranked := ranking scores (round_state config scores e) t1 in
  let kept := swap_survivors config n ranked in
  let victims := swap_victims config n ranked in
  ranked <> [] -> tournament_capacity config <= n ->
  exists e' t', tournament_step scores e = Ok e' /\ trace_tree e' = Some t' /\
    ranked = kept ++ victims /\
    py_len victims = swap_excess_n config n ranked + swap_k_n config n ranked /\
    pending_low_score_stops e'
      = list_to_set victims.*2 ∪ pending_low_score_stops (floor_of config scores e) /\
    (forall s v, s ∈ kept -> v ∈ victims -> flt s.1 v.1 = false) /\
    (forall s, s ∈ kept -> active_in t' s.2) /\ (forall v, v ∈ victims -> ~ active_in t' v.2) /\
    (forall k n', dget k (nodes t1) = None -> dget k (nodes t') = Some n' ->
       exists s, s ∈ kept /\ parent_id n' = Some s.2 /\
         tournament_warmup_tokens config <= tokens_of s.2 e) /\
    get_active_count t' <= Z.max (tournament_capacity config)
      (n - swap_excess_n config n ranked - swap_k_n config n ranked).
Proof.
  intros He Ht Hs Hnan Hdue t1 n ranked kept victims Hne Hcap. pose proof (proj1 Hs) as Hd.
  destruct (round_state_facts scores e t He Ht Hs) as (Hst & Htst & Hpst & Htok & _).
  rewrite (tournament_step_unfold config request_block_hasher now scores e t Ht), Hdue. cbn [negb].
  rewrite tournament_round_unfold. fold t1 ranked n. rewrite decide_False by done.
  destruct (Z.ltb_spec n (tournament_capacity config)); [lia|].
  destruct (swap_round_inv config request_block_hasher now n ranked
    (candidates config scores (round_state config scores e) t1) (round_state config scores e) t1)
    as (sel & e' & Hr & Hout); auto using candidates_NoDup.
  { by apply rank_NoDup. }
  { by apply round_active. }
  pose proof (swap_pruned_victims config n ranked) as Hperm. fold victims in Hperm.
  pose proof (so_grows _ _ _ _ _ _ _ _ Hout) as Hg.
  pose proof (prune_all_spec (swap_pruned config n ranked).*2 _ t1 Htst) as Hpr.
  destruct (eg_tree _ _ _ Hg (mark_all_pruned (swap_pruned config n ranked).*2 t1)) as (t' & Ht' & Htg);
    [by rewrite Hpr|].
  assert (Hvict : forall rid, rid ∈ (swap_pruned config n ranked).*2 <-> rid ∈ victims.*2)
    by (intros rid; by rewrite Hperm).
  assert (Hinact : forall rid, rid ∈ victims.*2 -> ~ active_in t' rid).
  { intros rid Hv (n' & Hn' & Ha). apply Hvict in Hv as Hv'.
    destruct (dget rid (nodes t1)) as [nd|] eqn:End.
    - destruct (tg_kept _ _ _ Htg rid (set_flags false (is_completed nd) true nd)) as (n2 & Hn2 & Hst2 & _).
      { by rewrite dget_mark_all_pruned, decide_True, End. }
      rewrite Hn' in Hn2. injection Hn2 as <-. by rewrite Hst2 in Ha.
    - assert (rid ∈ ranked.*2) as Hin.
      { unfold victims, swap_victims in Hv. rewrite fmap_drop in Hv.
        revert Hv. apply elem_of_sublist, sublist_drop. }
      apply rank_active in Hin as (_ & _ & nd & Hnd & _). congruence. }
  assert (Hkv : forall s, s ∈ kept -> s.2 ∉ victims.*2).
  { intros s Hsk (v & Heq & Hv)%list_elem_of_fmap.
    by apply (ranking_disjoint scores _ t1 _ s v Hd Hsk Hv). }
  exists e', t'. split; [done|]. split; [done|].
  split; [symmetry; apply take_drop|]. split.
  { unfold victims, swap_victims, py_len. rewrite length_drop.
    pose proof (swap_k_bounds config n ranked). unfold swap_victims_n, py_len in *. lia. }
  split; [rewrite (eg_low _ _ _ Hg), Hpr, <- Hpst; cbn; f_equal; by rewrite Hperm|].
  split; [intros s v; by apply ranking_split|].
  split; [|split; [|split; [|exact (so_active _ _ _ _ _ _ _ _ Hout t' Ht')]]].
  - intros s Hsk. assert (Hin : s.2 ∈ ranked.*2).
    { apply list_elem_of_fmap_2. revert Hsk. apply elem_of_sublist, sublist_take. }
    apply rank_active in Hin as (_ & _ & nd & Hnd & Ha).
    destruct (tg_kept _ _ _ Htg s.2 nd) as (n2 & Hn2 & Ha2 & _).
    { rewrite dget_mark_all_pruned, decide_False; [done|]. rewrite Hvict. by apply Hkv. }
    exists n2. split; congruence.
  - intros v Hv. apply Hinact. by apply list_elem_of_fmap_2.
  - intros k n' Hk Hk'. destruct (tg_new _ _ _ Htg k n') as (_ & p & Hpar & Hp & Hpa); [|done|].
    { rewrite dget_mark_all_pruned, Hk. by case_decide. }
    apply list_elem_of_fmap in Hp as (s & -> & Hsel).
    apply (sel_sub _ _ _ _ (so_sel _ _ _ _ _ _ _ _ Hout)) in Hsel.
    unfold eligible_parents in Hsel. apply elem_of_list_bfilter in Hsel as [_ Hc].
    apply candidates_elem in Hc as [Hrk Hw]. rewrite Htok in Hw. exists s. split; [|done].
    fold ranked in Hrk. rewrite <- (take_drop (length ranked - swap_victims_n config n ranked) ranked) in Hrk.
    apply elem_of_app in Hrk as [Hk1|Hk2]; [done|]. exfalso.
    apply (Hinact s.2); [by apply (list_elem_of_fmap_2 snd victims s) | done].
Qed.

(** C10: A due round below capacity, on the gates of tournament mode, branches as many of the
    warmed-up traces as there are free slots, the best-ranked ones unless the random ablation is
    on: the population ends at exactly the capacity or at its old size plus
    the number of candidates, whichever is smaller. *)
Theorem fill_round_fills scores e t :
  engine_ok e -> trace_tree e = Some t -> scores_ok scores t ->
  round_due config scores e = true -> should_stop_after_completed config e = false ->
  tournament_capacity config <= max_traces t -> TraceTree.branch_cooldown_steps t <= 0 ->
  TraceTree.min_tokens_before_branch t <= tournament_warmup_tokens config ->
  let t1 := round_tree config scores e t in
  let cands := candidates config scores (round_state config scores e) t1 in
  get_active_count t1 < tournament_capacity config ->
  (forall p, p ∈ cands -> exists parent, sched_request p.2 (scheduler e) = Some parent /\
     child_creatable config request_block_hasher now parent) ->
  exists parents e' t', tournament_step scores e = Ok e' /\ trace_tree e' = Some t' /\
    selection config cands (tournament_capacity config - get_active_count t1) parents /\
    (forall k n', dget k (nodes t1) = None -> dget k (nodes t') = Some n' ->
       exists p, p ∈ parents /\ parent_id n' = Some p.2) /\
    get_active_count t' = Z.min (tournament_capacity config) (get_active_count t1 + py_len cands).
Proof.
  intros He Ht Hs Hdue Hstop Hmax Hcool Hmin t1 cands Hlt Hreq. pose proof (proj1 Hs) as Hd.
  destruct (round_state_facts scores e t He Ht Hs) as (Hst & Htst & _ & Htok & Hsch).
  destruct (mark_all_pruned_consts (hard_floor_victims config scores e) t) as (c1 & _ & _ & c4).
  fold (round_tree config scores e t) in c1, c4. fold t1 in c1, c4, Htst.
  assert (Hgates : TraceTree.branch_cooldown_steps t1 = TraceTree.branch_cooldown_steps t /\
    TraceTree.min_tokens_before_branch t1 = TraceTree.min_tokens_before_branch t)
    by apply mark_all_pruned_gates.
  rewrite (tournament_step_unfold config request_block_hasher now scores e t Ht), Hdue. cbn [negb].
  rewrite tournament_round_unfold. fold t1 cands.
  destruct (decide (ranking scores (round_state config scores e) t1 = [])) as [Hnil|Hne].
  { assert (Hc : cands = []) by (unfold cands, candidates; by rewrite Hnil). rewrite Hc.
    exists [], (round_state config scores e), t1. split; [done|]. split; [done|].
    split; [|split].
    - split; [by intros ? ?%elem_of_nil | apply NoDup_nil_2 | unfold py_len; cbn; lia |].
      intros _. unfold slice_to. by rewrite take_nil.
    - intros k n' Hk Hk'. congruence.
    - unfold py_len. cbn. lia. }
  destruct (Z.ltb_spec (get_active_count t1) (tournament_capacity config)); [|lia].
  unfold EngineCore.fill_round.
  destruct (choose_parents_inv config cands (tournament_capacity config - get_active_count t1)
    (round_state config scores e)) as (sel & g & Hch & Hsel); [by apply candidates_NoDup | lia |].
  rewrite Hch. bind_ok. pose proof (sel_len _ _ _ _ Hsel) as Hlen.
  pose proof (set_rng_ok _ g Hst) as Hok.
  destruct (branch_loop_inv config request_block_hasher now (tournament_capacity config) sel
    _ Hok) as (e' & Hl & _ & Hg & _).
  destruct (branch_loop_live config request_block_hasher now (tournament_capacity config) sel
    (round_state config scores e <| rng := g |>) t1) as (e2 & t' & Hl2 & Ht' & Hact);
    try done; try lia.
  - rewrite <- Hstop. by apply (should_stop_completed config e _ t t1).
  - intros p Hp. apply (sel_sub _ _ _ _ Hsel) in Hp. destruct (Hreq p Hp) as (parent & Hpr & Hcr).
    apply candidates_elem in Hp as [Hrk Hw]. exists t1, parent. split; [done|]. split.
    { apply (round_active scores (round_state config scores e) t1 Htst).
      by apply list_elem_of_fmap_2. }
    split; [|split; [|done]].
    + destruct Hgates as [_ ->]. rewrite Htok in Hw.
      change (tokens_of p.2 (round_state config scores e <| rng := g |>))
        with (tokens_of p.2 (round_state config scores e)). rewrite Htok. lia.
    + change (sched_request p.2 (scheduler (round_state config scores e)) = Some parent).
      by rewrite Hsch.
  - rewrite Hl in Hl2. injection Hl2 as <-. exists sel, e', t'. split; [done|]. split; [done|].
    split; [done|]. split; [|lia]. intros k n' Hk Hk'.
    destruct (eg_tree _ _ _ Hg t1 Htst) as (t'' & Ht'' & Htg). rewrite Ht' in Ht''.
    injection Ht'' as <-. destruct (tg_new _ _ _ Htg k n' Hk Hk') as (_ & p & Hp & Hin & _).
    apply list_elem_of_fmap in Hin as (q & -> & Hq). by exists q.
Qed.

(** Once as many traces have completed as the configuration asks for, a decision step leaves
    no active trace and marks every trace that was active for a forced stop; it creates
    no branch and adds no low-score stop, and the completed traces stay completed. *)
Theorem completion_limit_stops_all scores e t :
  engine_ok e -> gambit_enabled e = true -> trace_tree e = Some t -> dict_ok scores ->
  (forall rid, rid ∈ dkeys scores -> known t rid) ->
  0 < stop_after_completed_traces config -> stop_after_completed_traces config <= get_completed_count t ->
  exists e' t', decision_step scores e = Ok e' /\ trace_tree e' = Some t' /\
    get_active_count t' = 0 /\ (forall rid, active_in t rid -> rid ∈ pending_force_stops e') /\
    get_completed_count t' = get_completed_count t /\
    scheduler e' = scheduler e /\ seq_hs_to_copy e' = seq_hs_to_copy e /\
    pending_low_score_stops e' = pending_low_score_stops e.
Proof.
  intros He Hen Ht Hd Hk Hpos Hlim.
  rewrite (decision_step_unfold config request_block_hasher now scores e t) by done.
  destruct (noted_inv config scores e t He Ht Hd Hk) as (Hok & Ht1 & Hs & Hkeep & _ & Hc).
  set (t1 := note_all config scores (increment_step t)) in *.
  assert (Hstop : should_stop_after_completed config (noted config scores e) = true).
  { unfold should_stop_after_completed. rewrite Ht1, Hc.
    destruct (Z.leb_spec (stop_after_completed_traces config) 0); [lia | by apply Z.leb_le]. }
  rewrite Hstop.
  destruct (force_stop_inv _ t1 Hok Ht1) as (_ & t' & Ht' & Ha & Hpend).
  exists (force_stop_all_active_traces (noted config scores e)), t'.
  split; [done|]. split; [done|]. split; [done|]. split.
  { intros rid (n & Hn & Hact). apply Hpend. destruct (Hkeep rid n Hn) as (n' & Hn' & Ha' & _).
    exists n'. split; congruence. }
  rewrite (force_stop_all_spec _ t1 Ht1) in *. cbn in *. split; [|done].
  injection Ht' as <-. destruct (mark_all_pruned_consts (stoppable t1 (noted config scores e)) t1)
    as (_ & _ & _ & ->). done.
Qed.

(** A threshold step adds a pending stop to exactly the traces without one that have enough
    tokens and average below the prune threshold; every trace it adds is a child of a
    trace that was not pruned, has enough tokens and does not average at or
    below the branch threshold; and the population stays within the tree's budget or what it was. *)
Theorem threshold_step_outcome scores e t :
  engine_ok e -> trace_tree e = Some t -> scores_ok scores t ->
  let low rid := exists x, dget rid scores = Some x /\ rid ∉ pending_low_score_stops e /\
    min_tokens_before_prune config <= tokens_of rid e /\ flt x (theta_prune config) = true in
  exists victims e' t', threshold_step scores e = Ok e' /\ trace_tree e' = Some t' /\
    (forall rid, rid ∈ victims <-> low rid) /\
    pending_low_score_stops e' = list_to_set victims ∪ pending_low_score_stops e /\
    (forall k n', dget k (nodes t) = None -> dget k (nodes t') = Some n' ->
       exists p x, parent_id n' = Some p /\ dget p scores = Some x /\ ~ low p /\
         fle x (theta_branch config) = false /\
         GambitConfig.min_tokens_before_branch config <= tokens_of p e) /\
    get_active_count t' <= Z.max (max_traces t) (get_active_count t).
Proof.
  intros He Ht Hs low. pose proof Hs as [Hd Hin].
  destruct (threshold_step_inv config request_block_hasher now scores t e He Ht Hs)
    as (e' & t' & Hr & _ & _ & Ht' & Ha).
  set (victims := (List.filter (fun p =>
    should_prune_threshold config p.1 p.2 (tokens_of p.1 e) e) scores).*1).
  assert (Hlow : forall rid x, dget rid scores = Some x ->
    should_prune_threshold config rid x (tokens_of rid e) e = true <-> low rid).
  { intros rid x Hx. unfold should_prune_threshold, low. split.
    - destruct (Z.ltb_spec (tokens_of rid e) (min_tokens_before_prune config)); [done|].
      case_bool_decide; [done|]. intros. by exists x.
    - intros (y & Hy & Hp & Hm & Hlt). rewrite Hx in Hy. injection Hy as <-.
      destruct (Z.ltb_spec (tokens_of rid e) (min_tokens_before_prune config)); [lia|].
      by rewrite bool_decide_eq_false_2. }
  assert (Hv : forall rid, rid ∈ victims <-> low rid).
  { intros rid. unfold victims. rewrite list_elem_of_fmap. split.
    - intros ([k x] & -> & [Hf Hk]%elem_of_list_bfilter). apply (Hlow k x); [by apply elem_of_dget | done].
    - intros Hl. pose proof Hl as (x & Hx & _). exists (rid, x). split; [done|].
      apply elem_of_list_bfilter. split; [by apply Hlow | by apply dget_elem_of]. }
  exists victims, e', t'. split; [done|]. split; [done|]. split; [done|].
  unfold EngineCore.threshold_step in Hr. rewrite Ht in Hr. fold victims in Hr.
  pose proof (prune_all_spec victims e t Ht) as Hpr.
  assert (Hvok : engine_ok (prune_all victims e)).
  { apply prune_all_ok; [done|]. intros t0 rid Ht0 (x & Hx & _)%Hv.
    rewrite Ht in Ht0. injection Ht0 as <-. apply Hin. by eapply elem_of_dkeys. }
  match type of Hr with context [rank ?l] =>
    destruct (branch_loop_inv config request_block_hasher now (max_traces t) (rank l) _ Hvok)
      as (e2 & Hl & _ & Hg & _) end.
  cbv zeta in Hr. fold victims in Hr. rewrite Hl in Hr. injection Hr as ->.
  split; [by rewrite (eg_low _ _ _ Hg), Hpr|]. split; [|done].
  intros k n' Hk Hk'. destruct (eg_tree _ _ _ Hg (mark_all_pruned victims t)) as (t2 & Ht2 & Htg);
    [by rewrite Hpr|]. rewrite Ht' in Ht2. injection Ht2 as <-.
  destruct (tg_new _ _ _ Htg k n') as (_ & p & Hpar & Hp & _); [|done|].
  { rewrite dget_mark_all_pruned, Hk. by case_decide. }
  exists p. apply list_elem_of_fmap in Hp as ([y q] & -> & Hq). cbn in *.
  apply elem_of_stable_sort, list_elem_of_fmap in Hq as (r & [= -> ->] & Hq).
  apply list_elem_of_fmap in Hq as ([r' x] & -> & Hq). cbn.
  apply elem_of_list_bfilter in Hq as [Hf Hq]. cbn in Hf.
  apply andb_true_iff in Hf as [Hnp Hb]. pose proof (elem_of_dget _ _ _ Hd Hq) as Hx.
  exists x. split; [done|]. split; [done|]. split.
  { intros Hl2. apply (Hlow r' x Hx) in Hl2. by rewrite Hl2 in Hnp. }
  revert Hb. unfold should_branch_threshold. rewrite Ht.
  destruct (fle x (theta_branch config)); [done|].
  destruct (Z.ltb_spec (tokens_of r' e) (GambitConfig.min_tokens_before_branch config)); done.
Qed.

(** C11: A successful branch puts into the scheduler a request under the generated id whose prompt is
    everything the parent has seen, prompt and output, and into the tree an
    active child of the parent; the child starts with the parent's score state and captured output and with
    no tokens of its own, and no other trace's bookkeeping changes. *)
Theorem create_branch_child p e t e' :
  engine_ok e -> trace_tree e = Some t ->
  create_branch config request_block_hasher now p e = Ok (true, e') ->
  let c := generate_branch_id p t in
  exists parent child pn t',
    sched_request p (scheduler e) = Some parent /\ dget p (nodes t) = Some pn /\
    sched_request c (scheduler e') = Some child /\ all_token_ids child = all_token_ids parent /\
    trace_tree e' = Some t' /\ dget c (nodes t) = None /\
    dget c (nodes t') = Some (child_node p c
      (py_len (dget_or p [] (gambit_output_token_ids e))) pn t) /\
    tokens_of c e' = 0 /\ dget c (stride_last_trigger e') = Some 0 /\
    dget c (gambit_output_token_ids e') = Some (dget_or p [] (gambit_output_token_ids e)) /\
    (forall k, k <> c -> sched_request k (scheduler e') = sched_request k (scheduler e) /\
       dget k (trace_token_counts e') = dget k (trace_token_counts e) /\
       dget k (gambit_output_token_ids e') = dget k (gambit_output_token_ids e) /\
       dget k (trace_scores e') = dget k (trace_scores e) /\
       dget k (trace_score_counts e') = dget k (trace_score_counts e)) /\
    (if enable config && negb (record_score_history config)
     then forall x, dget p (trace_score_counts e) = Some x ->
       dget c (trace_score_counts e') = Some x /\
       dget c (trace_score_sums e') = Some (dget_or p fzero (trace_score_sums e))
     else dget_or p [] (trace_scores e) <> [] ->
       dget c (trace_scores e') = Some (dget_or p [] (trace_scores e))).
Proof.
  intros He Ht Hc c. pose proof (generate_branch_id_new p t (eok_tree e He t Ht)) as Hnew.
  destruct (create_branch_true config request_block_hasher now p e e' t Ht Hc)
    as (parent & child & pn & g & s & Hpar & Hpn & Hch & Hs & ->). fold c in Hch.
  fold c in Hnew. assert (Hcp : c <> p) by congruence.
  apply create_child_request_fields in Hch as [Hid Htoks].
  destruct (law_add_request child (scheduler e)) as (s' & Hs' & _ & _ & _ & (r' & Hr' & Hall & _) & Hrest).
  rewrite Hs in Hs'. injection Hs' as <-. rewrite Hid in Hr', Hrest. fold c.
  match goal with |- context [copy_trace_state _ _ _ ?e0] => set (eb := e0) end.
  destruct (copy_trace_state_frame config p c eb) as (Hsch & Htr & _).
  destruct (copy_trace_state_child config p c eb) as (k1 & k2 & k3 & k4).
  exists parent, r', pn, (add_branch p c (py_len (dget_or p [] (gambit_output_token_ids e))) t).2.
  split; [done|]. split; [done|]. split; [by rewrite Hsch|]. split; [congruence|].
  split; [by rewrite Htr|]. split; [done|]. split.
  { rewrite (dget_add_branch _ _ _ _ pn) by done. by rewrite decide_False, decide_True by done. }
  split; [unfold tokens_of, dget_or; by rewrite k1|]. split; [done|]. split; [done|].
  split; [|exact k4]. intros k Hk. rewrite Hsch. split; [by apply Hrest|].
  exact (copy_trace_state_others config p c eb k Hk).
Qed.

(** What is left in the tree of a child that was added and taken out again: it stays in the parent's list of children, the
    parent counts as having branched in this step, the id is used up, and the lineage cache is cleared. *)
Definition rejected_branch (p c : string) (t : TraceTree) : TraceTree :=
  t <| nodes := dalter (add_child c (current_step t)) p (nodes t) |> <| branch_counter := branch_counter t + 1 |>
    <| lineage_cache := [] |>.

Lemma dalter_snoc {A} (f : A -> A) k k' x (d : dict string A) : k <> k' -> dalter f k (d ++ [(k', x)]) = dalter f k d ++ [(k', x)].
Proof. intros Hk. induction d as [|[q y] d IH]; cbn; case_decide; try done. by rewrite IH. Qed.

Lemma ddel_snoc {A} k x (d : dict string A) : k ∉ dkeys d -> ddel k (d ++ [(k, x)]) = d.
Proof.
  induction d as [|[q y] d IH]; cbn; [by rewrite decide_True|]. intros [Hk Hd]%not_elem_of_cons.
  rewrite decide_False by done. by rewrite IH.
Qed.

Lemma remove_added_exact p plen t n t1 : tree_ok t -> active_in t p ->
  add_branch p (generate_branch_id p t) plen t = (Some n, t1) ->
  remove_trace (generate_branch_id p t) t1 = rejected_branch p (generate_branch_id p t) t.
Proof.
  intros Ht (pn & Hpn & _) Hadd. pose proof (generate_branch_id_new p t Ht) as Hnew. set (c := generate_branch_id p t) in *.
  pose proof (proj1 (dget_None c (nodes t)) Hnew) as Hkey.
  unfold add_branch in Hadd. rewrite Hpn in Hadd. injection Hadd as _ <-. rewrite decide_False by congruence.
  rewrite dset_new, dalter_snoc by (done || congruence). unfold remove_trace, invalidate_lineage_cache, rejected_branch. cbn.
  set (d := dalter _ p (nodes t)). assert (Hd : c ∉ dkeys d) by (by unfold d; rewrite dkeys_dalter).
  rewrite (proj2 (dmem_true c (d ++ _))).
  2:{ apply dget_is_Some. unfold dkeys. rewrite fmap_app. apply elem_of_app. right. by left. }
  rewrite ddel_snoc by done. assert (Hroot : root_ids t ∖ {[c]} = root_ids t).
  { apply difference_disjoint_L, disjoint_singleton_r. intros Hc. apply (ok_roots _ Ht) in Hc as (x & Hx & _). congruence. }
  rewrite Hroot. by destruct t.
Qed.

(** C19: A branch is not made for one of two reasons. Either the search is over, the trace may not branch, or the scheduler does
    not know it, and then nothing changes at all. Or the constructor of the child request raises, and then the child is
    taken out of the tree again: the engine is as before but for the random generator and the tree; the tree has the
    same traces, with the same status, scores and counts, but the parent keeps the child's id among its children
    and the mark that it branched in this step, and the id is used up. *)
Theorem create_branch_rollback p e t e' :
  engine_ok e -> trace_tree e = Some t ->
  create_branch config request_block_hasher now p e = Ok (false, e') ->
  ((should_stop_after_completed config e = true \/ can_trace_branch p (tokens_of p e) t = false \/
    sched_request p (scheduler e) = None) /\ e' = e) \/
  (exists parent t1 g', let c := generate_branch_id p t in
    can_trace_branch p (tokens_of p e) t = true /\ sched_request p (scheduler e) = Some parent /\
    create_child_request config request_block_hasher now t1 parent c (rng e) = (None, g') /\
    e' = e <| rng := g' |> <| trace_tree := Some (rejected_branch p c t) |> /\
    dget c (nodes (rejected_branch p c t)) = None /\
    dkeys (nodes (rejected_branch p c t)) = dkeys (nodes t) /\
    (forall k, k <> p -> dget k (nodes (rejected_branch p c t)) = dget k (nodes t)) /\
    (forall n, dget p (nodes t) = Some n -> dget p (nodes (rejected_branch p c t)) =
       Some (n <| children := children n ++ [c] |> <| last_branch_step := current_step t |>)) /\
    get_active_count (rejected_branch p c t) = get_active_count t).
Proof.
  intros He Ht Hc. pose proof (eok_tree e He t Ht) as Htok. unfold EngineCore.create_branch in Hc. rewrite Ht in Hc.
  fold (tokens_of p e) in Hc. destruct (should_stop_after_completed config e); [left; split; [by left | congruence]|].
  destruct (can_trace_branch p _ t) eqn:Hcan; [|left; split; [by right; left | by injection Hc]]. cbn [negb] in Hc.
  destruct (sched_request p (scheduler e)) as [parent|]; [|left; split; [by right; right | congruence]].
  pose proof (generate_branch_id_new p t Htok) as Hnew. set (c := generate_branch_id p t) in *. set (plen := py_len _) in Hc.
  pose proof (can_trace_branch_active _ _ _ Hcan) as Hact.
  destruct (add_branch p c plen t) as [[n|] t1] eqn:Hadd.
  2:{ unfold add_branch in Hadd. destruct Hact as (pn & Hpn & _). by rewrite Hpn in Hadd. }
  destruct (create_child_request _ _ _ t1 parent c (rng e)) as [[child|] g] eqn:Hchild.
  { by apply bind_Ok_inv in Hc as (s & _ & [=]). }
  injection Hc as <-. right. exists parent, t1, g. split; [done|]. split; [done|]. split; [exact Hchild|].
  pose proof (remove_added_exact p plen t n t1 Htok Hact Hadd) as Hex. destruct (remove_added_grows _ _ _ _ _ Htok Hact Hadd) as [_ Ha].
  fold c in Hex, Ha. cbv zeta. rewrite Hex in Ha |- *. split; [done|].
  split; [|split; [apply dkeys_dalter|split; [|split; [|exact Ha]]]].
  - unfold rejected_branch. cbn. by rewrite dget_dalter, Hnew; case_decide.
  - intros k Hk. unfold rejected_branch. cbn. by rewrite dget_dalter, decide_False.
  - intros pn Hpn. unfold rejected_branch. cbn. by rewrite dget_dalter, decide_True, Hpn.
Qed.

(** With the feature on and nothing waiting or running, a reset brings back the state the
    constructor builds on the same scheduler, up to the log of worker RPCs and the
    asynchronous scorer's outstanding answer; with work in flight it changes nothing. *)
Theorem reset_restores_initial e :
  gambit_enabled e = true -> enable_branching config = true ->
  let busy := 0 <? sched_num_waiting (scheduler e) + sched_num_running (scheduler e) in
  reset_gambit_state config e =
    if busy then e
    else match init_engine config false (scheduler e) (rng e) with
         | Ok e0 => e0 <| async_scorer_future := async_scorer_future e |>
                       <| async_scorer_meta := async_scorer_meta e |>
                       <| rpc_log := rpc_log (reset_gambit_state config e) |>
         | Raise _ => e
         end.
Proof.
  intros Hen Hbr busy. unfold reset_gambit_state. rewrite Hen. cbn [negb]. fold busy.
  destruct busy; [done|]. unfold init_engine. rewrite andb_false_r. cbn. by rewrite Hbr, Hen.
Qed.

End Properties.

(** ** Concrete runs *)

#[local] Existing Instance first_choices.
#[local] Existing Instance first_choices_laws.
#[local] Existing Instance cpython_3_12.

Definition swap_config : GambitConfig := sample_config 4 1 0 fzero.

Lemma swap_round_ranked_witness :
  exists e' t',
    tournament_step swap_config None fzero sample_scores (sample_engine swap_config) = Ok e' /\
    trace_tree e' = Some t' /\ ~ active_in t' "3_p" /\ active_in t' "0_p".
Proof.
  destruct (swap_round_ranked swap_config None fzero sample_scores (sample_engine swap_config)
    (sample_tree swap_config)) as (e' & t' & Hr & Ht' & _ & _ & _ & _ & Hkept & Hvict & _).
  - apply sample_engine_ok.
  - vm_compute. reflexivity.
  - apply sample_scores_ok. vm_compute. reflexivity.
  - apply sample_scores_not_nan.
  - vm_compute. reflexivity.
  - vm_compute. discriminate.
  - vm_compute. discriminate.
  - exists e', t'. split; [exact Hr|]. split; [exact Ht'|]. split.
    + apply (Hvict (float_of_bits 1 (-3), "3_p"%string)). by_compute.
    + apply (Hkept (float_of_bits 3 (-2), "0_p"%string)). by_compute.
Defined.

Lemma decision_step_safe_witness :
  exists e' t', decision_step swap_config None fzero sample_scores (sample_engine swap_config) = Ok e' /\
    engine_ok e' /\ trace_tree e' = Some t' /\ get_active_count t' <= 4.
Proof.
  destruct (decision_step_safe swap_config None fzero sample_scores (sample_engine swap_config)
    (sample_tree swap_config)) as (e' & t' & Hs & He' & Ht' & Hb).
  - apply sample_engine_ok.
  - vm_compute. reflexivity.
  - vm_compute. reflexivity.
  - unfold dict_ok. by_compute.
  - intros rid Hr. left. exact Hr.
  - exists e', t'. split; [exact Hs|]. split; [exact He'|]. split; [exact Ht'|].
    vm_compute in Hb. exact Hb.
Defined.

(** A quarter as the floor, between two rounds. *)
Definition floor_config : GambitConfig := sample_config 4 1 0 (float_of_bits 1 (-2)).
Definition floor_engine : SampleEngine :=
  sample_engine floor_config <| tournament_last_round_step := 0 |>.

Lemma hard_floor_exact_witness :
  exists e', tournament_step floor_config None fzero sample_scores floor_engine = Ok e' /\
    "3_p" ∈ pending_low_score_stops e' /\ "2_p" ∉ pending_low_score_stops e'.
Proof.
  destruct (hard_floor_exact floor_config None fzero sample_scores floor_engine
    (sample_tree floor_config)) as (victims & t' & Hv & Hs & _).
  - vm_compute. reflexivity.
  - unfold dict_ok. by_compute.
  - vm_compute. reflexivity.
  - eexists. split; [exact Hs|].
    change (pending_low_score_stops (_ <| seq_hs_to_clear := _ |>)) with
      (list_to_set victims ∪ pending_low_score_stops floor_engine).
    assert (He : pending_low_score_stops floor_engine = ∅) by (vm_compute; reflexivity).
    rewrite He, !elem_of_union, !elem_of_list_to_set, !Hv. split.
    + left. exists (float_of_bits 1 (-3)). split; [vm_compute; reflexivity|].
      split; [rewrite He; apply not_elem_of_empty|]. split; [vm_compute; discriminate | vm_compute; reflexivity].
    + intros [(x & Hx & _ & _ & Hlt)|Hin]; [|by apply not_elem_of_empty in Hin].
      vm_compute in Hx. injection Hx as <-. vm_compute in Hlt. discriminate Hlt.
Defined.

(** Two free slots. *)
Definition fill_config : GambitConfig := sample_config 6 1 0 fzero.

Lemma sample_creatable c rid :
  rid ∈ sample_ids ->
  exists parent, sched_request rid (scheduler (sample_engine c)) = Some parent /\
    child_creatable c None fzero parent.
Proof.
  intros Hr. assert (exists parent, dget rid (table (scheduler (sample_engine c))) = Some parent /\
    sampling_params parent = Some sample_params /\ pooling_params parent = None)
    as (parent & Hp & Hsp & Hpool).
  { unfold sample_ids in Hr. rewrite !elem_of_cons in Hr. unfold sample_engine, sample_start.
    destruct Hr as [->|[->|[->|[->|Hr]]]]; [..|by apply elem_of_nil in Hr];
      destruct (enable_branching c) eqn:E; unfold init_engine; rewrite andb_false_r, E; cbn;
      eexists; repeat split. }
  exists parent. split; [exact Hp|].
  by apply (child_creatable_sampling c None fzero parent sample_params 16).
Qed.

Lemma fill_candidates_creatable p :
  p ∈ candidates fill_config sample_scores (round_state fill_config sample_scores (sample_engine fill_config))
        (round_tree fill_config sample_scores (sample_engine fill_config) (sample_tree fill_config)) ->
  exists parent, sched_request p.2 (scheduler (sample_engine fill_config)) = Some parent /\
    child_creatable fill_config None fzero parent.
Proof.
  intros [Hp _]%candidates_elem. apply ranking_scored in Hp. by apply sample_creatable.
Qed.

Lemma fill_round_fills_witness :
  exists e' t',
    tournament_step fill_config None fzero sample_scores (sample_engine fill_config) = Ok e' /\
    trace_tree e' = Some t' /\ get_active_count t' = 6.
Proof.
  destruct (fill_round_fills fill_config None fzero sample_scores (sample_engine fill_config)
    (sample_tree fill_config)) as (parents & e' & t' & Hs & Ht' & _ & _ & Ha).
  - apply sample_engine_ok.
  - vm_compute. reflexivity.
  - apply sample_scores_ok. vm_compute. reflexivity.
  - vm_compute. reflexivity.
  - vm_compute. reflexivity.
  - vm_compute. discriminate.
  - vm_compute. discriminate.
  - vm_compute. discriminate.
  - vm_compute. reflexivity.
  - exact fill_candidates_creatable.
  - exists e', t'. split; [exact Hs|]. split; [exact Ht'|]. rewrite Ha. vm_compute. reflexivity.
Defined.

(** One completed trace where one is enough. *)
Definition limit_config : GambitConfig := sample_config 4 1 1 fzero.
Definition limit_tree : TraceTree :=
  mark_completed "3_p" (mkOutput None None None None None) (sample_tree limit_config).
Definition limit_engine : SampleEngine := sample_engine limit_config <| trace_tree := Some limit_tree |>.

Lemma set_tree_ok (e : SampleEngine) t :
  engine_ok e -> tree_ok t -> pending_low_score_stops e ∪ pending_force_stops e = ∅ ->
  trace_scores e = [] -> trace_score_counts e = [] ->
  engine_ok (e <| trace_tree := Some t |>).
Proof.
  intros [h1 h2 h3 h4 [k1 k2 k3]] Ht Hp Hk1 Hk2.
  split; cbn; [by eexists | by intros ? [= <-] | | done | split; cbn; try done].
  - intros ? rid _ Hin. rewrite Hp in Hin. by apply not_elem_of_empty in Hin.
  - intros ? rid _. rewrite Hk1, Hk2. intros [?%elem_of_nil|?%elem_of_nil]; done.
Qed.

Lemma limit_engine_ok : engine_ok limit_engine.
Proof.
  apply set_tree_ok; [apply sample_engine_ok | | vm_compute; reflexivity..].
  apply mark_completed_ok, (eok_tree _ (sample_engine_ok limit_config)). vm_compute. reflexivity.
Qed.

Lemma completion_limit_stops_all_witness :
  exists e' t', decision_step limit_config None fzero sample_scores limit_engine = Ok e' /\
    trace_tree e' = Some t' /\ get_active_count t' = 0 /\ "0_p" ∈ pending_force_stops e'.
Proof.
  destruct (completion_limit_stops_all limit_config None fzero sample_scores limit_engine limit_tree)
    as (e' & t' & Hs & Ht' & Ha & Hp & _).
  - apply limit_engine_ok.
  - vm_compute. reflexivity.
  - reflexivity.
  - unfold dict_ok. by_compute.
  - intros rid Hr. left. exact Hr.
  - vm_compute. reflexivity.
  - vm_compute. discriminate.
  - exists e', t'. split; [exact Hs|]. split; [exact Ht'|]. split; [exact Ha|].
    apply Hp. eexists. split; [vm_compute; reflexivity | reflexivity].
Defined.

(** Threshold mode without minimum token counts. *)
Definition threshold_config : GambitConfig :=
  sample_config 6 1 0 fzero <| tournament_mode := false |>
    <| GambitConfig.min_tokens_before_branch := 0 |> <| min_tokens_before_prune := 0 |>.

Lemma threshold_step_outcome_witness :
  exists e', threshold_step threshold_config None fzero sample_scores (sample_engine threshold_config)
      = Ok e' /\ "3_p" ∈ pending_low_score_stops e'.
Proof.
  destruct (threshold_step_outcome threshold_config None fzero sample_scores
    (sample_engine threshold_config) (sample_tree threshold_config))
    as (victims & e' & t' & Hs & _ & Hv & Hp & _).
  - apply sample_engine_ok.
  - vm_compute. reflexivity.
  - apply sample_scores_ok. vm_compute. reflexivity.
  - exists e'. split; [exact Hs|]. rewrite Hp. apply elem_of_union_l, elem_of_list_to_set, Hv.
    exists (float_of_bits 1 (-3)). split; [vm_compute; reflexivity|].
    assert (pending_low_score_stops (sample_engine threshold_config) = ∅) as He
      by (vm_compute; reflexivity).
    split; [rewrite He; apply not_elem_of_empty|].
    split; [vm_compute; discriminate | vm_compute; reflexivity].
Defined.

(** One branch. *)
Definition branch_of (e : SampleEngine) (rid : string) : bool * SampleEngine :=
  match create_branch fill_config None fzero rid e with Ok r => r | Raise _ => (false, blank_engine) end.

Lemma create_branch_child_witness :
  exists child, sched_request "gambit_0_0_p" (scheduler (branch_of (sample_engine fill_config) "0_p").2)
      = Some child /\ all_token_ids child = [11; 12; 13].
Proof.
  destruct (create_branch_child fill_config None fzero "0_p" (sample_engine fill_config)
    (sample_tree fill_config) (branch_of (sample_engine fill_config) "0_p").2)
    as (parent & child & pn & t' & Hpar & _ & Hch & Hall & _).
  - apply sample_engine_ok.
  - vm_compute. reflexivity.
  - vm_compute. reflexivity.
  - exists child. split; [exact Hch|]. rewrite Hall. vm_compute in Hpar. injection Hpar as <-.
    reflexivity.
Defined.

(** A block hasher that raises, so that no child can be made. *)
Definition raising_hasher : option (Request -> result (list BlockHash)) := Some (fun _ => Raise ValueError).

Definition rejected_of (e : SampleEngine) (rid : string) : bool * SampleEngine :=
  match create_branch fill_config raising_hasher fzero rid e with Ok r => r | Raise _ => (true, blank_engine) end.

Lemma create_branch_rollback_witness :
  exists t', trace_tree (rejected_of (sample_engine fill_config) "0_p").2 = Some t' /\
    dkeys (nodes t') = sample_ids /\ get_active_count t' = 4 /\
    (children <$> dget "0_p"%string (nodes t')) = Some ["gambit_0_0_p"]%string.
Proof.
  destruct (create_branch_rollback fill_config raising_hasher fzero "0_p" (sample_engine fill_config)
    (sample_tree fill_config) (rejected_of (sample_engine fill_config) "0_p").2)
    as [[H He]|(parent & t1 & g & _ & _ & _ & He & _ & Hk & _ & _ & Ha)].
  - apply sample_engine_ok.
  - vm_compute. reflexivity.
  - vm_compute. reflexivity.
  - exfalso. destruct H as [H|[H|H]]; vm_compute in H; discriminate.
  - eexists. rewrite He. split; [reflexivity|]. split; [rewrite Hk; vm_compute; reflexivity|]. split; [rewrite Ha; vm_compute; reflexivity|].
    vm_compute. reflexivity.
Defined.

(** A drained engine, reset. *)
Definition drained_engine : SampleEngine :=
  sample_engine fill_config <| scheduler := empty_table |>.

Lemma reset_restores_initial_witness :
  tournament_last_round_step (reset_gambit_state fill_config drained_engine) = -1 /\
  trace_tree (reset_gambit_state fill_config drained_engine) = Some (new_tree 6 0 0).
Proof.
  rewrite (reset_restores_initial fill_config drained_engine) by (vm_compute; reflexivity).
  vm_compute. split; reflexivity.
Defined.
