(* ===== verification/EngineStep.v ===== *)
(** * Correctness of the engine step

    The parts of [EngineCore.v]'s step around the decisions: recording scores,
    boundary triggers, forced end-of-sequence tokens, finalization, the idle
    safety path, and the invariant of a whole step. *)

From S2P Require Import Prelude PyDict PyList PyStr PyFloat PyRandom GambitConfig Request.
From S2P Require Import TraceTree Outputs EngineCore EngineInv Tournament SampleRun.
From S2P Require Import SampleRun.
#[local] Open Scope Z_scope.

(** ** Loops that collect *)

Lemma for_collect_inv {A B T} (P : T -> Prop) (body : A -> T -> result (B * T)) l s bs s' :
  (forall x s0 b s1, x ∈ l -> P s0 -> body x s0 = Ok (b, s1) -> P s1) ->
  P s -> for_collect body l s = Ok (bs, s') -> P s'.
Proof.
  revert s bs. induction l as [|x l IH]; intros s bs Hstep Hs H; cbn in H; [by inv_ok|].
  apply bind_Ok_inv in H as ([b s1] & Hb & H). apply bind_Ok_inv in H as ([bs1 s2] & Hl & H). inv_ok.
  eapply IH; [| |exact Hl].
  - intros y s0 b0 s3 Hy. apply Hstep. by right.
  - eapply Hstep; [by left | exact Hs | exact Hb].
Qed.

Lemma collect_ok_keys {A B} (f : A -> result B) (g : B -> A) l l' :
  (forall x y, f x = Ok y -> g y = x) -> collect_ok f l = Ok l' -> g <$> l' = l.
Proof.
  intros Hf. revert l'. induction l as [|x l IH]; intros l' H; cbn in H; inv_ok; [done|].
  cbn. by rewrite (Hf _ _ Hr), (IH r0).
Qed.

(** ** Rows of a model output *)

(** The index of a model output: every request has a row of its own. *)
Record indexed (mo : ModelRunnerOutput) : Prop := {
  ix_dict : dict_ok (req_id_to_index mo);
  ix_range : forall rid i, dget rid (req_id_to_index mo) = Some i ->
    0 <= i < py_len (sampled_token_ids mo);
  ix_inj : forall r1 r2 i, dget r1 (req_id_to_index mo) = Some i ->
    dget r2 (req_id_to_index mo) = Some i -> r1 = r2;
}.

(** The tokens sampled for a request. *)
Definition row (mo : ModelRunnerOutput) (rid : string) : option (list Z) :=
  match dget rid (req_id_to_index mo) with
  | Some i => sampled_token_ids mo !! Z.to_nat i
  | None => None
  end.

Lemma row_is_Some mo rid :
  indexed mo -> is_Some (dget rid (req_id_to_index mo)) -> is_Some (row mo rid).
Proof.
  intros [_ Hr _] [i Hi]. unfold row. rewrite Hi. apply lookup_lt_is_Some.
  specialize (Hr rid i Hi). unfold py_len in Hr. lia.
Qed.

Section Step.
Context {S G : Type} `{SchedulerInterface S, PyRandom G, PySum, !SchedulerLaws S, !PyRandomLaws G}.
Context (config : GambitConfig) (async_scorer_enabled : bool)
  (request_block_hasher : option (Request -> result (list BlockHash))) (now : float).
Abbreviation Engine := (EngineCore S G).
Implicit Types e : Engine.

(** ** Forced end of sequence *)

(** The row of a request after forcing: its end-of-sequence token alone, if it
    has one. *)
Definition forced (s : S) (rid : string) (old : option (list Z)) : option (list Z) :=
  match eos_of rid s with Some t => (fun _ => [t]) <$> old | None => old end.

Lemma insert_eos_one_spec s rid mo :
  indexed mo ->
  exists mo', insert_eos_one s rid mo = Ok mo' /\ indexed mo' /\
    req_id_to_index mo' = req_id_to_index mo /\
    forall q, row mo' q = if decide (q = rid) then forced s q (row mo q) else row mo q.
Proof.
  intros Hix. unfold insert_eos_one, forced.
  destruct (dget rid (req_id_to_index mo)) as [i|] eqn:Hi.
  2:{ exists mo. split; [done|]. split; [done|]. split; [done|]. intros q.
      case_decide; subst; [|done]. unfold row. rewrite Hi. by destruct (eos_of rid s). }
  destruct (eos_of rid s) as [t|] eqn:Ht.
  2:{ exists mo. split; [done|]. split; [done|]. split; [done|]. intros q.
      case_decide; subst; [by rewrite Ht | done]. }
  destruct Hix as [h1 h2 h3]. pose proof (h2 rid i Hi) as Hr. rewrite py_setitem_in by done. bind_ok.
  eexists. split; [reflexivity|]. split; [|split; [done|]].
  - split; cbn; [done | | done]. intros q j Hj. unfold py_len. rewrite length_insert. by apply (h2 q).
  - intros q. unfold row. cbn. unfold py_len in Hr.
    destruct (decide (q = rid)) as [->|Hne].
    + rewrite Hi, Ht, list_lookup_insert_eq by lia.
      destruct (lookup_lt_is_Some_2 (sampled_token_ids mo) (Z.to_nat i)) as [x ->]; [lia | done].
    + destruct (dget q (req_id_to_index mo)) as [j|] eqn:Hj; [|done].
      rewrite list_lookup_insert_ne; [done|]. specialize (h2 q j Hj). intros Heq.
      apply Hne, (h3 q rid i); [|done]. rewrite Hj. f_equal. lia.
Qed.

Lemma insert_eos_loop s rids mo :
  indexed mo ->
  exists mo', for_each (insert_eos_one s) rids mo = Ok mo' /\ indexed mo' /\
    req_id_to_index mo' = req_id_to_index mo /\
    forall q, row mo' q = if decide (q ∈ rids) then forced s q (row mo q) else row mo q.
Proof.
  revert mo. induction rids as [|r rids IH]; intros mo Hix; cbn [for_each].
  { exists mo. split; [done|]. split; [done|]. split; [done|]. intros q.
    by rewrite decide_False by apply not_elem_of_nil. }
  destruct (insert_eos_one_spec s r mo Hix) as (m1 & Hm1 & Hix1 & Hi1 & Hrow1).
  rewrite Hm1. bind_ok. destruct (IH m1 Hix1) as (m2 & Hm2 & Hix2 & Hi2 & Hrow2).
  exists m2. split; [done|]. split; [done|]. split; [congruence|].
  intros q. rewrite Hrow2, Hrow1.
  destruct (decide (q ∈ rids)), (decide (q = r)), (decide (q ∈ r :: rids)) as [Hin|Hin];
    rewrite elem_of_cons in Hin; try tauto; try done.
  unfold forced. destruct (eos_of q s); [|done]. by destruct (row mo q).
Qed.

(** The two schedulers hold the same request, up to its stop reason. *)
Definition same_request (s1 s2 : S) (q : string) : Prop :=
  (fun r => r <| Request.stop_reason := None |>) <$> sched_request q s1
  = (fun r => r <| Request.stop_reason := None |>) <$> sched_request q s2.

Lemma same_request_eos s1 s2 q : same_request s1 s2 q -> eos_of q s1 = eos_of q s2.
Proof.
  unfold same_request, eos_of. intros Hs. apply (f_equal (fmap eos_token_id)) in Hs.
  destruct (sched_request q s1), (sched_request q s2); cbn in Hs; congruence.
Qed.

Lemma insert_eos_spec mo rids reason e :
  indexed mo ->
  exists mo' s', insert_eos mo rids reason e = Ok (mo', e <| scheduler := s' |>) /\ indexed mo' /\
    req_id_to_index mo' = req_id_to_index mo /\
    (forall q, same_request s' (scheduler e) q) /\
    forall q, row mo' q = if decide (q ∈ rids) then forced (scheduler e) q (row mo q) else row mo q.
Proof.
  intros Hix. unfold insert_eos.
  set (s' := sched_mark_stop_reason rids reason (scheduler e)).
  assert (Heos : forall q, same_request s' (scheduler e) q) by (intros; apply law_mark_stop_reason).
  destruct (insert_eos_loop s' rids mo Hix) as (mo' & Hm & Hix' & Hi & Hrow).
  rewrite Hm. bind_ok. exists mo', s'. split; [done|]. split; [done|]. split; [done|].
  split; [done|]. intros q. rewrite Hrow. unfold forced. by rewrite (same_request_eos s' (scheduler e) q).
Qed.

Lemma in_output_iff mo rids q :
  q ∈ in_output mo rids <-> q ∈ rids /\ is_Some (dget q (req_id_to_index mo)).
Proof.
  unfold in_output. rewrite elem_of_list_bfilter, dmem_true, elem_of_elements. tauto.
Qed.

Lemma force_in_output_spec mo stops reason e :
  indexed mo ->
  exists mo' s', force_in_output mo stops reason e = Ok (mo', e <| scheduler := s' |>) /\
    indexed mo' /\ req_id_to_index mo' = req_id_to_index mo /\
    (forall q, same_request s' (scheduler e) q) /\
    forall q, row mo' q = if decide (q ∈ stops) then forced (scheduler e) q (row mo q) else row mo q.
Proof.
  intros Hix. unfold force_in_output.
  assert (Hout : forall q, q ∈ stops -> q ∉ in_output mo stops ->
    forced (scheduler e) q (row mo q) = row mo q).
  { intros q Hq Hin. unfold forced, row. destruct (dget q (req_id_to_index mo)) eqn:E.
    - exfalso. apply Hin, in_output_iff. split; [done | by eexists].
    - by destruct (eos_of q (scheduler e)). }
  destruct (in_output mo stops) as [|r rs] eqn:Hids.
  - exists mo, (scheduler e). split; [by destruct e|]. split; [done|]. split; [done|].
    split; [done|]. intros q. destruct (decide (q ∈ stops)) as [Hq|]; [|done].
    symmetry. apply Hout; [done | apply not_elem_of_nil].
  - destruct (insert_eos_spec mo (r :: rs) reason e Hix) as (mo1 & s' & Hm & Hix1 & Hi1 & He & Hr).
    exists mo1, s'. split; [done|]. split; [done|]. split; [done|]. split; [done|].
    intros q. rewrite Hr. destruct (decide (q ∈ stops)) as [Hq|Hq], (decide (q ∈ r :: rs)) as [Hin|Hin];
      try done; [by rewrite Hout|]. rewrite <- Hids, in_output_iff in Hin. tauto.
Qed.

Lemma inject_stops_inv mo e :
  indexed mo ->
  exists mo' e', inject_stops mo e = Ok (mo', e') /\ indexed mo' /\
    req_id_to_index mo' = req_id_to_index mo /\
    (forall q, row mo' q =
       if decide (q ∈ pending_low_score_stops e ∪ pending_force_stops e)
       then forced (scheduler e) q (row mo q) else row mo q) /\
    (forall q, q ∈ pending_low_score_stops e' <->
       q ∈ pending_low_score_stops e /\ dget q (req_id_to_index mo) = None) /\
    (forall q, q ∈ pending_force_stops e' <->
       q ∈ pending_force_stops e /\ dget q (req_id_to_index mo) = None) /\
    (forall q, same_request (scheduler e') (scheduler e) q) /\
    trace_tree e' = trace_tree e.
Proof.
  intros Hix. unfold inject_stops.
  destruct (force_in_output_spec mo (pending_low_score_stops e) "gambit_pruned" e Hix)
    as (mo1 & s1 & Hf1 & Hix1 & Hi1 & He1 & Hr1). rewrite Hf1. bind_ok.
  match goal with |- context [force_in_output mo1 _ _ ?e1] => set (ea := e1) end.
  destruct (force_in_output_spec mo1 (pending_force_stops e) "gambit_stop_after_completed" ea Hix1)
    as (mo2 & s2 & Hf2 & Hix2 & Hi2 & He2 & Hr2).
  change (pending_force_stops ea) with (pending_force_stops e). rewrite Hf2. bind_ok.
  eexists mo2, _. split; [reflexivity|]. split; [done|]. split; [congruence|].
  assert (Hin : forall mo0 stops q, q ∈ stops ∖ list_to_set (in_output mo0 stops) <->
    q ∈ stops /\ dget q (req_id_to_index mo0) = None).
  { intros mo0 stops q. rewrite elem_of_difference, elem_of_list_to_set, in_output_iff.
    destruct (dget q (req_id_to_index mo0)) eqn:E; [|rewrite is_Some_alt; naive_solver].
    split; [intros [? Hn]; exfalso; apply Hn; split; [done | by eexists] | by intros [_ ?]]. }
  split; [|split; [|split; [|split; [|done]]]].
  - intros q. rewrite Hr2, Hr1. change (scheduler ea) with s1.
    assert (Hf : forall old, forced s1 q old = forced (scheduler e) q old)
      by (intros; unfold forced; by rewrite (same_request_eos s1 (scheduler e) q)).
    destruct (decide (q ∈ pending_force_stops e)), (decide (q ∈ pending_low_score_stops e)),
      (decide (q ∈ pending_low_score_stops e ∪ pending_force_stops e)) as [Hu|Hu];
      rewrite elem_of_union in Hu; try tauto; rewrite ?Hf; try done.
    unfold forced. destruct (eos_of q (scheduler e)); [|done]. by destruct (row mo q).
  - intros q. exact (Hin mo _ q).
  - intros q. rewrite <- Hi1. exact (Hin mo1 _ q).
  - intros q. unfold same_request in *. cbn. by rewrite He2.
Qed.

(** Injecting the pending stops never raises on a well-indexed output.  Every
    request of the batch with a pending stop and an end-of-sequence token gets that token as its
    only one, every other row is untouched, and exactly the stops of
    requests in the batch are taken off both pending sets. *)
Theorem inject_stops_rows mo e :
  indexed mo ->
  exists mo' e', inject_stops mo e = Ok (mo', e') /\ indexed mo' /\
    req_id_to_index mo' = req_id_to_index mo /\
    (forall q, row mo' q =
       if decide (q ∈ pending_low_score_stops e ∪ pending_force_stops e)
       then forced (scheduler e) q (row mo q) else row mo q) /\
    (forall q, q ∈ pending_low_score_stops e' <->
       q ∈ pending_low_score_stops e /\ dget q (req_id_to_index mo) = None) /\
    (forall q, q ∈ pending_force_stops e' <->
       q ∈ pending_force_stops e /\ dget q (req_id_to_index mo) = None) /\
    trace_tree e' = trace_tree e.
Proof.
  intros Hix. destruct (inject_stops_inv mo e Hix) as (mo' & e' & h1 & h2 & h3 & h4 & h5 & h6 & _ & h8).
  by exists mo', e'.
Qed.

(** C20: What a forced end of sequence achieves.  A running sampling request of the batch with a
    pending stop gets its end-of-sequence token and leaves both pending sets, and the scheduler's
    stop check then ends it exactly when the minimum number of tokens is reached and either the
    request does not ignore end-of-sequence, or the token is one of its stop tokens, or
    it is at a length limit.  Otherwise it keeps decoding with no stop pending. *)
Theorem forced_stop_effect mo e rid r sp t old mml :
  indexed mo -> rid ∈ pending_low_score_stops e ∪ pending_force_stops e ->
  row mo rid = Some old -> sched_request rid (scheduler e) = Some r ->
  pooling_params r = None -> sampling_params r = Some sp -> eos_token_id r = Some t ->
  tokens_ok r ->
  exists mo' e' r1, inject_stops mo e = Ok (mo', e') /\ row mo' rid = Some [t] /\
    rid ∉ pending_low_score_stops e' /\ rid ∉ pending_force_stops e' /\
    sched_request rid (scheduler e') = Some r1 /\
    forall r2, append_output_token_ids request_block_hasher [t] r1 = Ok r2 ->
      exists b r3, check_stop r2 mml false = Ok (b, r3) /\
        (b = true <-> min_tokens sp <= num_output_tokens r + 1 /\
           (ignore_eos sp = false \/ t ∈ default [] (stop_token_ids sp) \/
            mml <= num_tokens r + 1 \/ max_tokens r <= num_output_tokens r + 1)).
Proof.
  intros Hix Hpend Hrow Hr Hp Hs Ht Htok.
  destruct (inject_stops_inv mo e Hix) as (mo' & e' & Hin & _ & _ & Hrows & Hlow & Hforce & Hsame & _).
  assert (Hidx : dget rid (req_id_to_index mo) <> None).
  { unfold row in Hrow. by destruct (dget rid (req_id_to_index mo)). }
  specialize (Hsame rid). unfold same_request in Hsame. rewrite Hr in Hsame.
  destruct (sched_request rid (scheduler e')) as [r1|] eqn:Hr1; [|done]. apply (inj Some) in Hsame.
  assert (Heq : r1 = r <| Request.stop_reason := Request.stop_reason r1 |>).
  { apply (f_equal (fun x => x <| Request.stop_reason := Request.stop_reason r1 |>)) in Hsame.
    destruct r1. exact Hsame. }
  exists mo', e', r1. split; [done|]. split.
  { rewrite Hrows, decide_True, Hrow by done. unfold forced, eos_of. by rewrite Hr, Ht. }
  split; [rewrite Hlow; tauto|]. split; [rewrite Hforce; tauto|]. split; [done|].
  intros r2 Hr2. rewrite Heq in Hr2. clear Heq Hsame Hr1.
  destruct (append_output_tokens _ _ _ _ Hr2) as [Htok2 Hout]; [exact Htok|].
  pose proof (tokens_ok_num_tokens _ Htok2) as Hnum. rewrite (tokens_ok_num_tokens _ Htok).
  unfold append_output_token_ids in Hr2. apply extend_block_hashes_frame in Hr2.
  destruct (check_stop_verdict r2 mml sp (Request.output_token_ids r) t) as (b & r3 & Hc & Hb);
    [by rewrite Hr2 | by rewrite Hr2 | exact Hout |].
  exists b, r3. split; [done|]. rewrite Hb.
  assert (Hn : num_output_tokens r2 = num_output_tokens r + 1).
  { unfold num_output_tokens, py_len. rewrite Hout, length_app. cbn. lia. }
  assert (He : eos_token_id r2 = Some t) by (by rewrite Hr2). 
  assert (Hm : max_tokens r2 = max_tokens r) by (by rewrite Hr2).
  assert (Hpl : num_prompt_tokens r2 = num_prompt_tokens r) by (by rewrite Hr2).
  rewrite Hnum, Hn, He, Hm, Hpl, Z.add_assoc. tauto.
Qed.

(** ** Boundaries *)

(** Whether a request's sampled tokens cross a boundary. *)
Definition crossed (rid : string) (sampled : list Z) e : bool :=
  if 0 <? scoring_stride config
  then scoring_stride config <=?
         tokens_of rid e + py_len sampled - dget_or rid 0 (stride_last_trigger e)
  else match double_new_line_tokenID config with
       | Some boundary_ids => existsb (fun t => bool_decide (t ∈ boundary_ids)) sampled
       | None => false
       end.

Definition marked (rid : string) (sampled : list Z) e : Engine :=
  let e1 := e <| trace_token_counts :=
                   dset rid (tokens_of rid e + py_len sampled) (trace_token_counts e) |> in
  if (0 <? scoring_stride config) && crossed rid sampled e
  then e1 <| stride_last_trigger :=
               dset rid (tokens_of rid e + py_len sampled) (stride_last_trigger e) |>
  else e1.

Lemma mark_boundary_spec sampled rid e :
  mark_boundary config sampled rid e = (crossed rid sampled e, marked rid sampled e).
Proof.
  unfold mark_boundary, marked, crossed. destruct (0 <? scoring_stride config); cbn.
  - by destruct (_ <=? _).
  - by destruct (double_new_line_tokenID config).
Qed.

Lemma marked_frame rid sampled e :
  trace_tree (marked rid sampled e) = trace_tree e /\
  pending_hs_classification (marked rid sampled e) = pending_hs_classification e /\
  gambit_enabled (marked rid sampled e) = gambit_enabled e /\
  async_scorer_future (marked rid sampled e) = async_scorer_future e /\
  scheduler (marked rid sampled e) = scheduler e /\
  (engine_ok e -> engine_ok (marked rid sampled e)).
Proof.
  unfold marked. case_match; do 5 (split; [done|]); by apply engine_ok_same.
Qed.

Lemma marked_self rid sampled e :
  tokens_of rid (marked rid sampled e) = tokens_of rid e + py_len sampled /\
  dget rid (stride_last_trigger (marked rid sampled e))
  = if (0 <? scoring_stride config) && crossed rid sampled e
    then Some (tokens_of rid e + py_len sampled) else dget rid (stride_last_trigger e).
Proof.
  unfold marked. case_match; unfold tokens_of at 1, dget_or; cbn; by rewrite !dget_dset_eq.
Qed.

Lemma marked_other rid sampled e q :
  q <> rid ->
  tokens_of q (marked rid sampled e) = tokens_of q e /\
  dget q (stride_last_trigger (marked rid sampled e)) = dget q (stride_last_trigger e).
Proof.
  intros Hq. unfold marked. case_match; unfold tokens_of, dget_or; cbn; by rewrite !dget_dset_ne.
Qed.

(** What the loop has done to one request. *)
Definition bumped (rid : string) (sampled : list Z) e e' : Prop :=
  tokens_of rid e' = tokens_of rid e + py_len sampled /\
  dget rid (stride_last_trigger e')
  = if (0 <? scoring_stride config) && crossed rid sampled e
    then Some (tokens_of rid e + py_len sampled) else dget rid (stride_last_trigger e).

Definition untouched (rid : string) e e' : Prop :=
  tokens_of rid e' = tokens_of rid e /\
  dget rid (stride_last_trigger e') = dget rid (stride_last_trigger e).

Lemma crossed_untouched rid sampled e e' :
  untouched rid e e' -> crossed rid sampled e' = crossed rid sampled e.
Proof. intros [h1 h2]. unfold crossed, dget_or in *. by rewrite h1, h2. Qed.

Lemma mark_loop mo l e :
  NoDup l.*1 -> (forall p, p ∈ l -> is_Some (sampled_token_ids mo !! Z.to_nat p.2) /\
                   0 <= p.2 < py_len (sampled_token_ids mo)) ->
  exists marks e',
    for_collect (fun p e =>
      sampled ← py_index (sampled_token_ids mo) p.2;
      let '(triggered, e) := mark_boundary config sampled p.1 e in
      Ok ((p.1, triggered), e)) l e = Ok (marks, e') /\
    trace_tree e' = trace_tree e /\ pending_hs_classification e' = pending_hs_classification e /\
    gambit_enabled e' = gambit_enabled e /\ async_scorer_future e' = async_scorer_future e /\
    scheduler e' = scheduler e /\ (engine_ok e -> engine_ok e') /\
    (forall q, q ∉ l.*1 -> untouched q e e') /\
    (forall p sampled, p ∈ l -> sampled_token_ids mo !! Z.to_nat p.2 = Some sampled ->
       bumped p.1 sampled e e') /\
    (forall q b, (q, b) ∈ marks <-> exists i sampled, (q, i) ∈ l /\
       sampled_token_ids mo !! Z.to_nat i = Some sampled /\ b = crossed q sampled e).
Proof.
  revert e. induction l as [|[rid i] l IH]; intros e Hnd Hin; cbn [for_collect].
  { exists [], e. split; [done|]. do 6 (split; [done|]). split; [|split].
    - by intros q _.
    - by intros p s ?%elem_of_nil.
    - intros q b. split; [by intros ?%elem_of_nil|]. by intros (j & s & ?%elem_of_nil & _). }
  apply NoDup_cons in Hnd as [Hnew Hnd].
  destruct (Hin (rid, i)) as [[sampled Hs] Hr]; [by left|]. cbn [fst snd] in *.
  rewrite py_index_in, Hs by done. cbn [or_raise]. bind_ok. rewrite mark_boundary_spec.
  destruct (IH (marked rid sampled e)) as (marks & e' & Hl & h1 & h2 & h3 & h4 & h5 & h6 & Hun & Hb & Hm);
    [done | intros p Hp; apply Hin; by right |].
  destruct (marked_frame rid sampled e) as (f1 & f2 & f3 & f4 & f5 & f6).
  destruct (marked_self rid sampled e) as [s1 s2].
  assert (Hoth : forall q j, (q, j) ∈ l -> untouched q e (marked rid sampled e)).
  { intros q j Hq. apply marked_other. intros ->. apply Hnew.
    by apply (list_elem_of_fmap_2 fst) in Hq. }
  unfold mbind, result_bind in Hl |- *. rewrite Hl.
  eexists _, e'. split; [reflexivity|]. do 6 (split; [congruence || tauto|]). split; [|split].
  - intros q. rewrite fmap_cons, not_elem_of_cons. intros [Hq Hql].
    destruct (marked_other rid sampled e q Hq) as [m1 m2]. destruct (Hun q Hql) as [u1 u2].
    split; congruence.
  - intros p s [->|Hp]%elem_of_cons Hps.
    + cbn [fst snd] in *. rewrite Hs in Hps. injection Hps as <-. destruct (Hun rid Hnew) as [u1 u2].
      split; congruence.
    + destruct p as [q j]. destruct (Hb (q, j) s Hp Hps) as [b1 b2]. cbn [fst] in *.
      pose proof (Hoth q j Hp) as Hu. rewrite (crossed_untouched _ _ _ _ Hu) in b2.
      destruct Hu as [u1 u2]. split; cbn [fst]; [rewrite b1; congruence | rewrite b2, u1, u2; done].
  - intros q b. rewrite elem_of_cons, Hm. split.
    + intros [Heq|(j & s & Hq & Hqs & ->)].
      * injection Heq as Hq ->. exists i, sampled. rewrite Hq. split; [by left | done].
      * exists j, s. split; [by right|]. split; [done|]. by eapply crossed_untouched, Hoth.
    + intros (j & s & [Heq|Hq]%elem_of_cons & Hqs & ->).
      * injection Heq as Hq Hj. rewrite Hj, Hs in Hqs. injection Hqs as <-. left. by rewrite Hq.
      * right. exists j, s. split; [done|]. split; [done|]. symmetry. by eapply crossed_untouched, Hoth.
Qed.

Lemma indexed_rows mo p :
  indexed mo -> p ∈ req_id_to_index mo ->
  is_Some (sampled_token_ids mo !! Z.to_nat p.2) /\ 0 <= p.2 < py_len (sampled_token_ids mo).
Proof.
  intros [h1 h2 _] Hp. destruct p as [rid i]. specialize (h2 rid i (elem_of_dget _ _ _ h1 Hp)).
  split; [|done]. apply lookup_lt_is_Some. cbn. unfold py_len in h2. lia.
Qed.

Lemma row_iff mo rid sampled :
  indexed mo ->
  row mo rid = Some sampled <-> exists i, (rid, i) ∈ req_id_to_index mo /\
    sampled_token_ids mo !! Z.to_nat i = Some sampled.
Proof.
  intros [h1 _ _]. unfold row. split.
  - destruct (dget rid (req_id_to_index mo)) as [i|] eqn:E; [|done]. intros Hs. exists i.
    split; [by apply dget_elem_of | done].
  - intros (i & Hi & Hs). by rewrite (elem_of_dget _ _ _ h1 Hi).
Qed.

Lemma mark_boundaries_inv mo e :
  indexed mo ->
  exists e', mark_boundaries config mo e = Ok e' /\
    trace_tree e' = trace_tree e /\ gambit_enabled e' = gambit_enabled e /\
    async_scorer_future e' = async_scorer_future e /\ scheduler e' = scheduler e /\
    (engine_ok e -> engine_ok e') /\
    (forall rid sampled, row mo rid = Some sampled -> bumped rid sampled e e') /\
    (forall rid, row mo rid = None -> untouched rid e e') /\
    (forall rid, rid ∈ pending_hs_classification e' <-> rid ∈ pending_hs_classification e \/
       exists sampled, row mo rid = Some sampled /\ crossed rid sampled e = true).
Proof.
  intros Hix. pose proof (ix_dict mo Hix) as Hd. unfold mark_boundaries.
  destruct (mark_loop mo (req_id_to_index mo) e Hd)
    as (marks & e' & Hl & h1 & h2 & h3 & h4 & h5 & h6 & Hun & Hb & Hm).
  { intros p. by apply indexed_rows. }
  rewrite Hl. bind_ok. eexists. split; [reflexivity|]. do 4 (split; [done|]).
  split; [intros Hok; by apply (engine_ok_same e'); [..|apply h6]|]. split; [|split].
  - intros rid sampled Hr. apply row_iff in Hr as (i & Hi & Hs); [|done].
    exact (Hb (rid, i) sampled Hi Hs).
  - intros rid Hr. apply Hun. intros Hin. apply dget_is_Some in Hin.
    by apply (row_is_Some mo rid Hix) in Hin as [? Hin]; rewrite Hr in Hin.
  - intros rid. cbn. rewrite h2, elem_of_union, elem_of_list_to_set, list_elem_of_fmap.
    apply or_iff_compat_l. split.
    + intros ([q b] & -> & [Hb' Hq]%elem_of_list_bfilter). cbn in *. subst.
      apply Hm in Hq as (i & s & Hi & Hs & Heq). exists s. split; [apply row_iff; eauto | done].
    + intros (s & Hr & Hc). apply row_iff in Hr as (i & Hi & Hs); [|done]. exists (rid, true).
      split; [done|]. apply elem_of_list_bfilter. split; [done|]. apply Hm. by exists i, s.
Qed.

(** C21: One step of boundary tracking never raises on a well-indexed output.  It adds to each
    request's count the tokens it sampled and touches no other request, and it queues for
    scoring, besides what was queued, exactly the requests that crossed a boundary:
    under a stride those a full stride past their last trigger, which is then moved up to the count; otherwise
    those that sampled a boundary token. *)
Theorem boundaries_exact mo e :
  indexed mo ->
  exists e', mark_boundaries config mo e = Ok e' /\
    (forall rid sampled, row mo rid = Some sampled ->
       let total := tokens_of rid e + py_len sampled in
       let last := dget_or rid 0 (stride_last_trigger e) in
       tokens_of rid e' = total /\
       (rid ∈ pending_hs_classification e' <-> rid ∈ pending_hs_classification e \/
          (if 0 <? scoring_stride config then scoring_stride config <= total - last
           else exists ids t, double_new_line_tokenID config = Some ids /\ t ∈ sampled /\ t ∈ ids)) /\
       (0 < scoring_stride config -> scoring_stride config <= total - last ->
          dget rid (stride_last_trigger e') = Some total)) /\
    (forall rid, row mo rid = None ->
       tokens_of rid e' = tokens_of rid e /\
       (rid ∈ pending_hs_classification e' <-> rid ∈ pending_hs_classification e)).
Proof.
  intros Hix. destruct (mark_boundaries_inv mo e Hix)
    as (e' & Hm & _ & _ & _ & _ & _ & Hb & Hun & Hpend). exists e'. split; [done|]. split.
  - intros rid sampled Hr total last. destruct (Hb rid sampled Hr) as [b1 b2].
    split; [done|]. split.
    + rewrite Hpend. apply or_iff_compat_l. unfold crossed. fold total last.
      destruct (0 <? scoring_stride config).
      * split; [intros (s & Hs & Hc); rewrite Hr in Hs; injection Hs as <-; by apply Z.leb_le|].
        intros Hc. exists sampled. split; [done | by apply Z.leb_le].
      * split.
        -- intros (s & Hs & Hc). rewrite Hr in Hs. injection Hs as <-.
           destruct (double_new_line_tokenID config) as [ids|]; [|done].
           apply existsb_exists in Hc as (t & Ht & Hi). exists ids, t.
           split; [done|]. split; [by apply list_elem_of_In | by apply bool_decide_eq_true in Hi].
        -- intros (ids & t & -> & Ht & Hi). exists sampled. split; [done|]. apply existsb_exists.
           exists t. split; [by apply list_elem_of_In | by apply bool_decide_eq_true].
    + intros Hpos Hc. rewrite b2. unfold crossed. fold total last.
      replace (0 <? scoring_stride config) with true by (symmetry; by apply Z.ltb_lt).
      replace (scoring_stride config <=? total - last) with true by (symmetry; by apply Z.leb_le).
      done.
  - intros rid Hr. destruct (Hun rid Hr) as [u1 _]. split; [done|]. rewrite Hpend.
    split; [intros [?|(s & Hs & _)]; [done | congruence] | tauto].
Qed.

(** ** The idle safety path *)

(** The ids of the active traces. *)
Lemma active_ids_spec t rid : tree_ok t -> rid ∈ (List.filter (fun p => is_active p.2) (nodes t)).*1 <-> active_in t rid.
Proof.
  intros Htok. unfold active_in. rewrite list_elem_of_fmap. split.
  - intros ([k n] & -> & [Ha Hin]%elem_of_list_bfilter). exists n.
    split; [apply elem_of_dget; [apply Htok | done] | done].
  - intros (n & Hn & Ha). exists (rid, n). split; [done|]. apply elem_of_list_bfilter.
    split; [done | by apply dget_elem_of].
Qed.

Lemma fold_mark_pruned l : forall e t, trace_tree e = Some t ->
  fold_left (fun e rid => on_tree (mark_pruned rid) e) l e = e <| trace_tree := Some (mark_all_pruned l t) |>.
Proof.
  induction l as [|r l IH]; intros e t Ht; cbn [fold_left]; [destruct e; cbn in *; by subst|].
  unfold on_tree at 2. rewrite Ht. by erewrite IH by reflexivity.
Qed.

Lemma mark_all_pruned_only_nodes l : forall t, mark_all_pruned l t = t <| nodes := nodes (mark_all_pruned l t) |>.
Proof.
  unfold mark_all_pruned. induction l as [|r l IH]; intros t; cbn [fold_left]; [by destruct t|].
  etrans; [apply IH|]. done.
Qed.

(** C37: When the scheduler has nothing to run, a step returns no output for any client (so no tree export either) and marks
    exactly the traces that are still active as pruned: they are no longer active and have no stop pending, every other
    node and every other pending stop is as it was, and nothing else of the engine or of the tree changes. *)
Theorem idle_step_prunes_leftovers x e t :
  sched_has_requests (scheduler e) = false -> gambit_enabled e = true ->
  trace_tree e = Some t -> tree_ok t ->
  exists e' t', step config async_scorer_enabled request_block_hasher now x e = Ok (([], false), e') /\
    e' = e <| trace_tree := Some t' |> <| pending_force_stops := pending_force_stops e' |>
           <| pending_low_score_stops := pending_low_score_stops e' |> /\
    t' = t <| nodes := nodes t' |> /\ dkeys (nodes t') = dkeys (nodes t) /\
    (forall rid n, dget rid (nodes t) = Some n -> dget rid (nodes t') =
       Some (if is_active n then n <| is_active := false |> <| is_pruned := true |> else n)) /\
    get_active_count t' = 0 /\
    (forall rid, rid ∈ pending_low_score_stops e' <-> rid ∈ pending_low_score_stops e /\ ~ active_in t rid) /\
    (forall rid, rid ∈ pending_force_stops e' <-> rid ∈ pending_force_stops e /\ ~ active_in t rid).
Proof.
  intros Hreq Hen Ht Htok. unfold step. rewrite Hreq. cbn [negb]. unfold prune_leftovers. rewrite Hen, Ht.
  set (ids := (List.filter (fun p => is_active p.2) (nodes t)).*1). pose proof (fun rid => active_ids_spec t rid Htok) as Hids. fold ids in Hids.
  assert (Hall : (match ids with [] => e | _ => fold_left (fun e rid => on_tree (mark_pruned rid) e) ids e
      <| pending_force_stops := pending_force_stops e ∖ list_to_set ids |>
      <| pending_low_score_stops := pending_low_score_stops e ∖ list_to_set ids |> end)
    = e <| trace_tree := Some (mark_all_pruned ids t) |> <| pending_force_stops := pending_force_stops e ∖ list_to_set ids |>
        <| pending_low_score_stops := pending_low_score_stops e ∖ list_to_set ids |>).
  { destruct ids as [|r rs]; [|by rewrite (fold_mark_pruned (r :: rs) e t Ht)]. cbn [list_to_set]. rewrite !difference_empty_L.
    destruct e; cbn in *; by subst. }
  rewrite Hall. clear Hall. eexists _, (mark_all_pruned ids t). split; [reflexivity|]. split; [done|].
  split; [apply mark_all_pruned_only_nodes|]. split; [apply dkeys_mark_all_pruned|]. split; [|split; [|split]].
  - intros rid n Hn. rewrite dget_mark_all_pruned, Hn. destruct (is_active n) eqn:Ha.
    + rewrite decide_True by (apply Hids; by exists n). by destruct n.
    + rewrite decide_False; [done|]. intros (n' & Hn' & Ha')%Hids. congruence.
  - apply count_nodes_none; [apply mark_all_pruned_ok, Htok|]. intros k n. rewrite dget_mark_all_pruned.
    destruct (decide (k ∈ ids)) as [Hk|Hk]; [by destruct (dget k (nodes t)); intros [= <-]|].
    intros Hn. destruct (is_active n) eqn:Ha; [|done]. exfalso. apply Hk, Hids. by exists n.
  - intros rid. cbn. by rewrite elem_of_difference, elem_of_list_to_set, Hids.
  - intros rid. cbn. by rewrite elem_of_difference, elem_of_list_to_set, Hids.
Qed.

(** ** Finalization *)

Lemma elem_of_discard q rid (X : gset string) : q ∈ discard rid X <-> q ∈ X /\ q <> rid.
Proof. unfold discard. by rewrite elem_of_difference, elem_of_singleton. Qed.

(** The trace a finished request leaves in the tree. *)
Definition finished_node (o : Output) (n : TraceNode) : TraceNode :=
  if is_pruned n then set_output o n else set_output o (set_flags false true false n).

Lemma finish_node_ok rid o t : tree_ok t -> known t rid -> tree_ok (finish_node rid o t).
Proof.
  intros Ht Hk. unfold finish_node.
  assert (Ht0 : tree_ok (if contains rid t then t else add_root rid t)).
  { destruct (contains rid t) eqn:Hc; [done|]. apply dmem_false in Hc.
    destruct Hk as [Hk|Hk]; [by apply dget_None in Hc | by apply add_root_ok]. }
  destruct (get_node rid _) as [n|]; [|done]. destruct (is_pruned n); [|by apply mark_completed_ok].
  apply topo_same_ok; auto with gambit.
Qed.

Lemma dget_finish_node rid o t q :
  dget q (nodes (finish_node rid o t))
  = if decide (q = rid)
    then Some (finished_node o (default (new_node rid None 0 (current_step t) 0 []) (dget rid (nodes t))))
    else dget q (nodes t).
Proof.
  unfold finish_node, get_node, contains, dmem.
  assert (Hgen : forall t0 n, dget rid (nodes t0) = Some n ->
    dget q (nodes (if is_pruned n then with_nodes (dalter (set_output o) rid (nodes t0)) t0
                   else mark_completed rid o t0))
    = if decide (q = rid) then Some (finished_node o n) else dget q (nodes t0)).
  { intros t0 n Hn. unfold finished_node, mark_completed.
    destruct (is_pruned n) eqn:Hp; cbn; rewrite dget_dalter; case_decide; subst; try done;
      rewrite Hn; cbn; by rewrite ?Hp. }
  destruct (dget rid (nodes t)) as [n|] eqn:Hn.
  - rewrite Hn. by rewrite (Hgen t n Hn).
  - assert (Hr : dget rid (nodes (add_root rid t)) = Some (new_node rid None 0 (current_step t) 0 []))
      by (cbn; by rewrite dget_dset_eq).
    rewrite Hr. rewrite (Hgen _ _ Hr). case_decide; [done|]. cbn. by rewrite dget_dset_ne.
Qed.

(** The average a request is finalized with. *)
Definition final_avg (rid : string) e : option float :=
  match final_average config rid e with Ok a => a | Raise _ => None end.

(** What finalizing does to the entries of other requests. *)
Definition same_entries (q : string) e e' : Prop :=
  dget q (trace_scores e') = dget q (trace_scores e) /\
  dget q (trace_score_counts e') = dget q (trace_score_counts e) /\
  dget q (trace_score_sums e') = dget q (trace_score_sums e) /\
  dget q (final_trace_scores e') = dget q (final_trace_scores e) /\
  (q ∈ pending_low_score_stops e' ∪ pending_force_stops e' <->
   q ∈ pending_low_score_stops e ∪ pending_force_stops e) /\
  (forall t, trace_tree e = Some t -> exists t', trace_tree e' = Some t' /\
     dget q (nodes t') = dget q (nodes t)).

Lemma final_avg_same q e e' : same_entries q e e' -> final_avg q e' = final_avg q e.
Proof.
  intros (h1 & h2 & h3 & _). unfold final_avg, final_average, dget_or. by rewrite h1, h2, h3.
Qed.

(** The state of a finalized request. *)
Record finalized (rid : string) e e' : Prop := {
  fz_scores : dget rid (trace_scores e') = None;
  fz_counts : dget rid (trace_score_counts e') = None;
  fz_final : dget rid (final_trace_scores e') = Some (final_avg rid e);
  fz_pending : rid ∉ pending_low_score_stops e' ∪ pending_force_stops e';
  fz_node : forall t, trace_tree e = Some t -> exists t' n', trace_tree e' = Some t' /\
    dget rid (nodes t') = Some n' /\ is_active n' = false /\ final_score n' = final_avg rid e /\
    (is_completed n' = true \/ exists n, dget rid (nodes t) = Some n /\ is_pruned n = true);
}.

Lemma finalize_one_spec rid e t :
  engine_ok e -> gambit_enabled e = true -> trace_tree e = Some t -> known t rid ->
  exists e', finalize_one config rid e = Ok e' /\ engine_ok e' /\ gambit_enabled e' = true /\
    scheduler e' = scheduler e /\ finalized rid e e' /\
    (forall q, q <> rid -> same_entries q e e') /\
    exists t', trace_tree e' = Some t' /\ forall k, k ∈ dkeys (nodes t) -> k ∈ dkeys (nodes t').
Proof.
  intros He Hen Ht Hk. unfold finalize_one.
  assert (Hfa : final_average config rid e = Ok (final_avg rid e)).
  { unfold final_avg, final_average. by case_match. }
  rewrite Hfa. bind_ok. cbv zeta. cbn [gambit_enabled]. 
  match goal with |- context [if gambit_enabled ?x then _ else _] =>
    change (gambit_enabled x) with (gambit_enabled e) end.
  rewrite Hen. unfold on_request_finished, on_tree.
  match goal with |- context [finish_node rid ?o] => set (out := o) end.
  pose proof (eok_tree e He t Ht) as Htok.
  assert (Hkeys : forall k, k ∈ dkeys (nodes t) -> k ∈ dkeys (nodes (finish_node rid out t))).
  { intros k [n Hn]%dget_is_Some. apply dget_is_Some. rewrite dget_finish_node.
    case_decide; [by eexists|]. by exists n. }
  destruct He as [h1 h2 h3 h4 h5]. destruct (h5) as [k1 k2 k3].
  eexists. split; [reflexivity|]. split.
  { split; cbn; rewrite ?Ht; cbn.
    - by eexists.
    - intros ? [= <-]. by apply finish_node_ok.
    - intros ? q [= <-] Hq. unfold discard in Hq.
      destruct (h3 t q Ht) as (n & Hn & Hp); [set_solver|]. exists n.
      rewrite dget_finish_node, decide_False; [done|]. set_solver.
    - intros q Hq. apply elem_of_dkeys_ddel_1 in Hq as Hq'. apply h4, dget_is_Some in Hq'.
      apply dget_is_Some. rewrite dget_ddel_ne; [done|]. intros ->.
      apply dget_is_Some in Hq. rewrite dget_ddel_eq in Hq by done. by destruct Hq.
    - split; cbn; auto with dict. rewrite ?Ht. intros ? q [= <-] Hq.
      apply (known_mono t); [exact Hkeys|]. apply (k3 t q Ht).
      destruct Hq as [Hq|Hq]; [left | right]; by eapply elem_of_dkeys_ddel_1. }
  split; [done|]. split; [done|]. split.
  { split; cbn.
    - by apply dget_ddel_eq.
    - by apply dget_ddel_eq.
    - by rewrite dget_dset_eq.
    - unfold discard. rewrite elem_of_union, !elem_of_difference, elem_of_singleton. tauto.
    - intros t0 Ht0. rewrite Ht in Ht0 |- *. injection Ht0 as <-. cbn. eexists _, _.
      split; [reflexivity|]. rewrite dget_finish_node, decide_True by done. split; [done|].
      assert (Hfs : out_final_score out = final_avg rid e)
        by (unfold out, finished_output; by case_match).
      unfold finished_node. destruct (dget rid (nodes t)) as [n|] eqn:Hn; cbn.
      + destruct (is_pruned n) eqn:Hp; cbn; (split; [|split; [done|]]); [| |done|by left].
        * apply (node_done _ _ _ (ok_nodes t Htok rid n Hn)). by rewrite Hp, orb_true_r.
        * right. by exists n.
      + split; [done|]. split; [done | by left]. }
  split; [|eexists; split; [cbn; by rewrite Ht | exact Hkeys]].
  intros q Hq. unfold same_entries. cbn -[discard]. rewrite !dget_ddel_ne, dget_dset_ne by done.
  do 4 (split; [done|]). split; [rewrite !elem_of_union, !elem_of_discard; tauto|]. intros t0 Ht0. rewrite Ht in Ht0 |- *.
  injection Ht0 as <-. eexists. split; [reflexivity|]. by rewrite dget_finish_node, decide_False.
Qed.

Lemma same_entries_trans q e1 e2 e3 :
  same_entries q e1 e2 -> same_entries q e2 e3 -> same_entries q e1 e3.
Proof.
  intros (a1 & a2 & a3 & a4 & a5 & a6) (b1 & b2 & b3 & b4 & b5 & b6). unfold same_entries.
  rewrite b1, b2, b3, b4, a1, a2, a3, a4. do 4 (split; [done|]). split; [by rewrite b5|].
  intros t Ht. destruct (a6 t Ht) as (t2 & Ht2 & h2). destruct (b6 t2 Ht2) as (t3 & Ht3 & h3).
  exists t3. split; congruence.
Qed.

Lemma same_entries_refl q e : same_entries q e e.
Proof. unfold same_entries. do 5 (split; [done|]). eauto. Qed.

(** What follows a request's finalization does not bring it back. *)
Lemma finalized_later rid e e1 e2 : finalized rid e e1 -> same_entries rid e1 e2 -> finalized rid e e2.
Proof.
  intros [f1 f2 f3 f4 f5] (s1 & s2 & s3 & s4 & s5 & s6). split; try congruence; [by rewrite s5|].
  intros t Ht. destruct (f5 t Ht) as (t1 & n1 & Ht1 & Hn1 & Hrest).
  destruct (s6 t1 Ht1) as (t2 & Ht2 & Hn2). exists t2, n1. split; [done|]. split; [congruence | done].
Qed.

(** What precedes it leaves its entries alone. *)
Lemma finalized_earlier rid e e1 e2 : same_entries rid e e1 -> finalized rid e1 e2 -> finalized rid e e2.
Proof.
  intros Hs [f1 f2 f3 f4 f5]. pose proof (final_avg_same rid e e1 Hs) as Ha.
  destruct Hs as (s1 & s2 & s3 & s4 & s5 & s6). split; try congruence; try done.
  intros t Ht. destruct (s6 t Ht) as (t1 & Ht1 & Hn1).
  destruct (f5 t1 Ht1) as (t2 & n2 & Ht2 & Hn2 & Hact & Hfin & Hor). exists t2, n2.
  do 3 (split; [done|]). split; [congruence|].
  destruct Hor as [?|(n & Hn & Hp)]; [by left | right]. exists n. split; congruence.
Qed.

Lemma finalize_scores_inv ids e t :
  engine_ok e -> gambit_enabled e = true -> trace_tree e = Some t -> NoDup ids ->
  (forall rid, rid ∈ ids -> known t rid) ->
  exists e' t', finalize_scores config ids e = Ok e' /\ engine_ok e' /\ gambit_enabled e' = true /\
    scheduler e' = scheduler e /\ trace_tree e' = Some t' /\
    (forall rid, rid ∈ ids -> finalized rid e e') /\
    (forall q, q ∉ ids -> same_entries q e e').
Proof.
  intros He Hen Ht Hnd. revert e t He Hen Ht. induction Hnd as [|rid ids Hnew Hnd IH]; intros e t He Hen Ht Hk.
  { exists e, t. do 5 (split; [done|]). split; [by intros ? ?%elem_of_nil|].
    intros q _. apply same_entries_refl. }
  unfold finalize_scores in *. cbn [for_each].
  destruct (finalize_one_spec rid e t He Hen Ht) as (e1 & H1' & He1 & Hen1 & Hs1 & Hfz & Hoth & t1 & Ht1 & Hkeys).
  { apply Hk. by left. }
  rewrite H1'. bind_ok.
  destruct (IH e1 t1 He1 Hen1 Ht1) as (e2 & t2 & Hr & He2 & Hen2 & Hs2 & Ht2 & Hfz2 & Hoth2).
  { intros q Hq. apply (known_mono t); [exact Hkeys|]. apply Hk. by right. }
  exists e2, t2. do 3 (split; [done|]). split; [congruence|]. split; [done|]. split.
  - intros q [->|Hq]%elem_of_cons.
    + eapply finalized_later; [exact Hfz | by apply Hoth2].
    + eapply finalized_earlier; [apply Hoth | by apply Hfz2]. intros ->. done.
  - intros q Hq. apply not_elem_of_cons in Hq as [Hne Hq].
    eapply same_entries_trans; [by apply Hoth | by apply Hoth2].
Qed.

(** Finalizing the finished requests never raises.  Each gets its average as its
    final score, loses its score histories and pending stops, and becomes a completed trace with
    that score unless it had been pruned; requests that did not finish keep
    their entries, so every forced stop that took effect is settled. *)
Theorem finalize_settles ids e t :
  engine_ok e -> gambit_enabled e = true -> trace_tree e = Some t -> NoDup ids ->
  (forall rid, rid ∈ ids -> known t rid) ->
  exists e' t', finalize_scores config ids e = Ok e' /\ engine_ok e' /\ trace_tree e' = Some t' /\
    (forall rid, rid ∈ ids ->
       dget rid (trace_scores e') = None /\ dget rid (trace_score_counts e') = None /\
       rid ∉ pending_low_score_stops e' ∪ pending_force_stops e' /\
       dget rid (final_trace_scores e') = Some (final_avg rid e) /\
       exists n, dget rid (nodes t') = Some n /\ is_active n = false /\
         final_score n = final_avg rid e /\
         (is_completed n = true \/ exists n0, dget rid (nodes t) = Some n0 /\ is_pruned n0 = true)) /\
    (forall rid, rid ∉ ids -> same_entries rid e e').
Proof.
  intros He Hen Ht Hnd Hk.
  destruct (finalize_scores_inv ids e t He Hen Ht Hnd Hk)
    as (e' & t' & Hr & He' & _ & _ & Ht' & Hfz & Hoth).
  exists e', t'. do 3 (split; [done|]). split; [|done]. intros rid Hrid.
  destruct (Hfz rid Hrid) as [f1 f2 f3 f4 f5]. do 4 (split; [done|]).
  destruct (f5 t Ht) as (t2 & n & Ht2 & Hn & Hrest). rewrite Ht' in Ht2. injection Ht2 as <-.
  by exists n.
Qed.

End Step.

(** ** Running aggregates *)

(** The two ways to keep scores: the whole history, or its sum and length. *)
Definition aggregates_match {S G} (e_hist e_agg : EngineCore S G) (rid : string) : Prop :=
  match dget rid (trace_scores e_hist) with
  | Some (x :: l) => dget rid (trace_score_sums e_agg) = Some (sum_plain (x :: l)) /\
                     dget rid (trace_score_counts e_agg) = Some (py_len (x :: l))
  | _ => dget rid (trace_score_sums e_agg) = None /\ dget rid (trace_score_counts e_agg) = None
  end.

Lemma sum_plain_snoc l x : sum_plain (l ++ [x]) = fadd (sum_plain l) x.
Proof.
  destruct l as [|y l]; [done|]. cbn [app sum_plain]. by rewrite fold_left_app.
Qed.

(** One recorded score keeps the two representations in step. *)
Lemma record_keeps_match {S G} (c_hist c_agg : GambitConfig) (eh ea eh' ea' : EngineCore S G) rid0 x :
  record_score_history c_hist = true -> record_score_history c_agg = false ->
  (forall rid, aggregates_match eh ea rid) ->
  @record_payload S G cpython_3_11 c_hist (rid0, PlainScore (ScoreOne x)) eh = Ok eh' ->
  @record_payload S G cpython_3_11 c_agg (rid0, PlainScore (ScoreOne x)) ea = Ok ea' ->
  forall rid, aggregates_match eh' ea' rid.
Proof.
  unfold record_payload. cbn [snd fst]. intros -> -> Hm [= <-] [= <-] rid.
  pose proof (Hm rid) as Hr. unfold aggregates_match in *. cbn -[sum_plain py_len]. rewrite !dget_dset.
  destruct (decide (rid = rid0)) as [->|]; [|done]. unfold dget_or.
  destruct (dget rid0 (trace_scores eh)) as [[|y l]|]; destruct Hr as [-> ->];
    cbn [app]; try (split; [|done]; cbn [sum_plain]; done).
  change (y :: l ++ [x]) with ((y :: l) ++ [x]). rewrite sum_plain_snoc. split; [done|].
  unfold py_len. rewrite length_app. cbn [length]. f_equal. lia.
Qed.

(** With one score per answer and CPython's plain summation (up to 3.11), keeping running sums
    and counts gives, bit for bit, the averages that keeping the
    full histories gives, after any sequence of scores. *)
Theorem running_aggregates_agree {S G} (c_hist c_agg : GambitConfig) (eh ea eh' ea' : EngineCore S G)
    (answers : list (string * float)) rid :
  record_score_history c_hist = true -> record_score_history c_agg = false -> enable c_agg = true ->
  (forall r, aggregates_match eh ea r) ->
  let record c := for_each (@record_payload S G cpython_3_11 c) ((fun p => (p.1, PlainScore (ScoreOne p.2))) <$> answers) in
  record c_hist eh = Ok eh' -> record c_agg ea = Ok ea' ->
  @final_average S G cpython_3_11 c_agg rid ea' = @final_average S G cpython_3_11 c_hist rid eh'.
Proof.
  intros Hh Ha Hen Hm record. unfold record.
  assert (Hall : forall l eh ea, (forall r, aggregates_match eh ea r) ->
    for_each (@record_payload S G cpython_3_11 c_hist) ((fun p => (p.1, PlainScore (ScoreOne p.2))) <$> l) eh = Ok eh' ->
    for_each (@record_payload S G cpython_3_11 c_agg) ((fun p => (p.1, PlainScore (ScoreOne p.2))) <$> l) ea = Ok ea' ->
    forall r, aggregates_match eh' ea' r).
  { clear -Hh Ha. induction l as [|[k x] l IH]; intros eh ea Hm; cbn [fmap list_fmap for_each].
    { by intros [= <-] [= <-]. }
    intros (e1 & H1 & H2)%bind_Ok_inv (e2 & H3 & H4)%bind_Ok_inv.
    by eapply IH; [eapply record_keeps_match|exact H2|exact H4]. }
  intros He1 He2. pose proof (Hall answers eh ea Hm He1 He2 rid) as Hr.
  unfold final_average. rewrite Ha, Hen, Hh, andb_false_r. cbn. unfold aggregates_match, dget_or in *.
  destruct (dget rid (trace_scores eh')) as [[|y l]|]; destruct Hr as [-> ->]; try done.
Qed.

(** ** Concrete runs *)

#[local] Existing Instance first_choices.
#[local] Existing Instance first_choices_laws.
#[local] Existing Instance cpython_3_12.

Definition step_config : GambitConfig :=
  sample_config 4 1 0 fzero <| double_new_line_tokenID := Some [13] |> <| scoring_stride := 0 |>.

(** A batch of three of the four requests; "1_p" is to be pruned. *)
Definition step_index : dict string Z := [("0_p", 0); ("1_p", 1); ("2_p", 2)]%string.
Definition step_output : ModelRunnerOutput :=
  EMPTY_MODEL_RUNNER_OUTPUT <| mro_req_ids := ["0_p"; "1_p"; "2_p"]%string |>
    <| req_id_to_index := step_index |>
    <| sampled_token_ids := [[100; 13]; [101]; [102]] |>.

Definition stop_engine : SampleEngine :=
  sample_engine step_config <| pending_low_score_stops := {["1_p"; "3_p"]}%string |>.

Lemma step_output_indexed : indexed step_output.
Proof.
  split.
  - unfold dict_ok. by_compute.
  - intros rid i Hi. apply dget_elem_of, list_elem_of_In in Hi.
    destruct Hi as [Hi|[Hi|[Hi|[]]]]; injection Hi as _ <-; vm_compute; split; congruence.
  - intros r1 r2 i Hi Hj. apply dget_elem_of, list_elem_of_In in Hi, Hj.
    destruct Hi as [Hi|[Hi|[Hi|[]]]]; destruct Hj as [Hj|[Hj|[Hj|[]]]]; congruence.
Qed.

Lemma inject_stops_rows_witness :
  exists mo' e', inject_stops step_output stop_engine = Ok (mo', e') /\
    row mo' "1_p" = Some [2] /\ row mo' "0_p" = Some [100; 13] /\
    "1_p" ∉ pending_low_score_stops e' /\ "3_p" ∈ pending_low_score_stops e'.
Proof.
  destruct (inject_stops_rows step_output stop_engine step_output_indexed)
    as (mo' & e' & Hs & _ & _ & Hrow & Hlow & _).
  exists mo', e'. split; [exact Hs|].
  rewrite (Hrow "1_p"%string), (Hrow "0_p"%string), (Hlow "1_p"%string), (Hlow "3_p"%string).
  split; [vm_compute; reflexivity|]. split; [vm_compute; reflexivity|].
  split; [intros [_ Hn]; vm_compute in Hn; discriminate Hn|].
  split; [by_compute | vm_compute; reflexivity].
Defined.

Lemma boundaries_exact_witness :
  exists e', mark_boundaries step_config step_output stop_engine = Ok e' /\
    tokens_of "0_p" e' = 22 /\ "0_p" ∈ pending_hs_classification e' /\
    "1_p" ∉ pending_hs_classification e'.
Proof.
  destruct (boundaries_exact step_config step_output stop_engine step_output_indexed)
    as (e' & Hm & Hb & _). exists e'. split; [exact Hm|].
  assert (He : pending_hs_classification stop_engine = ∅) by (vm_compute; reflexivity).
  destruct (Hb "0_p"%string [100; 13]) as (Ht & Hp & _); [vm_compute; reflexivity|].
  split; [rewrite Ht; vm_compute; reflexivity|]. split.
  - apply Hp. right. exists [13], 13. split; [reflexivity|]. split; by_compute.
  - destruct (Hb "1_p"%string [101]) as (_ & Hp1 & _); [vm_compute; reflexivity|].
    rewrite Hp1, He. intros [Hn|Hn]; [by apply not_elem_of_empty in Hn|].
    destruct Hn as (ids & t & [= <-] & H1 & H2). apply list_elem_of_singleton in H1, H2. congruence.
Defined.

(** The scheduler after it lost every request, the tree still active. *)
Definition idle_engine : SampleEngine := stop_engine <| scheduler := empty_table |>.
Definition no_executor : Executor := {|
  execute_model := fun _ => Ok None; sample_tokens := fun _ => Ok EMPTY_MODEL_RUNNER_OUTPUT;
  scorer_rpc := fun _ _ _ => []; take_draft_token_ids := None |}.

Lemma idle_step_prunes_leftovers_witness :
  exists e' t', step step_config false None fzero no_executor idle_engine = Ok (([], false), e') /\
    trace_tree e' = Some t' /\ get_active_count t' = 0 /\ "3_p" ∉ pending_low_score_stops e' /\
    dkeys (nodes t') = sample_ids.
Proof.
  destruct (idle_step_prunes_leftovers step_config false None fzero no_executor idle_engine
    (sample_tree step_config)) as (e' & t' & Hs & He & _ & Hk & _ & Hc & Hp & _).
  - vm_compute. reflexivity.
  - vm_compute. reflexivity.
  - vm_compute. reflexivity.
  - apply (eok_tree _ (sample_engine_ok step_config)). vm_compute. reflexivity.
  - exists e', t'. split; [exact Hs|]. split; [rewrite He; reflexivity|]. split; [exact Hc|]. split.
    + rewrite Hp. intros [_ Hn]. apply Hn. eexists. split; vm_compute; reflexivity.
    + rewrite Hk. vm_compute. reflexivity.
Defined.

(** Every request asks for at least 30 tokens: a forced stop is then without effect. *)
Definition patient_request (r : Request) : Request :=
  r <| sampling_params := Some (sample_params <| min_tokens := 30 |>) |>.
Definition patient_engine : SampleEngine :=
  stop_engine <| scheduler := scheduler stop_engine <| table :=
    (fun p => (p.1, patient_request p.2)) <$> table (scheduler stop_engine) |> |>.

Lemma forced_stop_effect_witness :
  exists mo' e' r1, inject_stops step_output patient_engine = Ok (mo', e') /\
    row mo' "1_p" = Some [2] /\ "1_p" ∉ pending_low_score_stops e' /\
    sched_request "1_p" (scheduler e') = Some r1 /\
    forall r2, append_output_token_ids None [2] r1 = Ok r2 ->
      exists r3, check_stop r2 100 false = Ok (false, r3).
Proof.
  destruct (sched_request "1_p" (scheduler patient_engine)) as [r|] eqn:Hr; [|vm_compute in Hr; discriminate Hr].
  assert (Hf : (fun r => (pooling_params r, sampling_params r, eos_token_id r,
      (all_token_ids r, prompt_of r, Request.output_token_ids r, num_prompt_tokens r)))
      <$> sched_request "1_p" (scheduler patient_engine)
    = Some (None, Some (sample_params <| min_tokens := 30 |>), Some 2, ([11; 12; 13], [11; 12; 13], [], 3)))
    by (vm_compute; reflexivity).
  rewrite Hr in Hf. injection Hf as Hp Hs Ht Ha Hpr Ho Hn.
  destruct (forced_stop_effect None step_output patient_engine "1_p" r
    (sample_params <| min_tokens := 30 |>) 2 [101] 100)
    as (mo' & e' & r1 & Hi & Hrow & Hlow & _ & Hr1 & Hc).
  - apply step_output_indexed.
  - by_compute.
  - vm_compute. reflexivity.
  - exact Hr.
  - exact Hp.
  - exact Hs.
  - exact Ht.
  - split; rewrite ?Ha, ?Hpr, ?Ho, ?Hn; reflexivity.
  - exists mo', e', r1. do 4 (split; [assumption|]). intros r2 Hr2.
    destruct (Hc r2 Hr2) as (b & r3 & Hcs & Hb). exists r3. destruct b; [|exact Hcs].
    destruct Hb as [Hb _]. destruct (Hb eq_refl) as [Hmin _]. unfold num_output_tokens in Hmin.
    rewrite Ho in Hmin. vm_compute in Hmin. by destruct Hmin.
Defined.

Lemma finalize_settles_witness :
  exists e' t', finalize_scores step_config ["1_p"]%string (sample_engine step_config) = Ok e' /\
    trace_tree e' = Some t' /\ "1_p" ∉ pending_low_score_stops e' ∪ pending_force_stops e' /\
    exists n, dget "1_p" (nodes t') = Some n /\ is_completed n = true.
Proof.
  destruct (finalize_settles step_config ["1_p"]%string (sample_engine step_config) (sample_tree step_config))
    as (e' & t' & Hs & _ & Ht' & Hf & _).
  - apply sample_engine_ok.
  - vm_compute. reflexivity.
  - vm_compute. reflexivity.
  - by_compute.
  - intros rid Hr. apply list_elem_of_singleton in Hr as ->. left. apply dget_is_Some.
    eexists. vm_compute. reflexivity.
  - exists e', t'. split; [exact Hs|]. split; [exact Ht'|].
    destruct (Hf "1_p"%string) as (_ & _ & Hp & _ & n & Hn & _ & _ & Hc); [by_compute|].
    split; [exact Hp|]. exists n. split; [exact Hn|]. destruct Hc as [Hc|(n0 & Hn0 & Hp0)]; [exact Hc|].
    vm_compute in Hn0. injection Hn0 as <-. discriminate Hp0.
Defined.

Lemma running_aggregates_agree_witness :
  exists eh ea,
    for_each (@record_payload TableScheduler unit cpython_3_11 (step_config <| record_score_history := true |>))
      [("0_p", PlainScore (ScoreOne (float_of_bits 1 (-1)))); ("0_p", PlainScore (ScoreOne (float_of_bits 1 0)))]%string
      stop_engine = Ok eh /\
    for_each (@record_payload TableScheduler unit cpython_3_11 (step_config <| record_score_history := false |>))
      [("0_p", PlainScore (ScoreOne (float_of_bits 1 (-1)))); ("0_p", PlainScore (ScoreOne (float_of_bits 1 0)))]%string
      stop_engine = Ok ea /\
    @final_average TableScheduler unit cpython_3_11 (step_config <| record_score_history := false |>) "0_p" ea
    = @final_average TableScheduler unit cpython_3_11 (step_config <| record_score_history := true |>) "0_p" eh.
Proof.
  eexists _, _. split; [reflexivity|]. split; [reflexivity|].
  apply (running_aggregates_agree (step_config <| record_score_history := true |>)
    (step_config <| record_score_history := false |>) stop_engine stop_engine _ _
    [("0_p", float_of_bits 1 (-1)); ("0_p", float_of_bits 1 0)]%string "0_p");
    try reflexivity.
  intros r. vm_compute. split; reflexivity.
Defined.
