(* ===== verification/Ngram.v ===== *)
(** * Draft tokens from repeated n-grams

    [find_longest_matched_ngram_and_propose_tokens] models the function of that
    name in vllm/v1/spec_decode/ngram_proposer.py, a Knuth-Morris-Pratt search
    over the reversed tokens whose failure table stops at [max_ngram] entries;
    [NgramProposer] and its operations model the class around it, with the
    buffers it keeps between steps.  The search is shown equal to the
    specification in its docstring; the batch around it is shown to file each
    draft under the position of its request among the searched ones.

    The arrays of the code are NumPy arrays under numba, where an index out of
    range is not checked; here it raises [IndexError], and the theorems show
    that it never happens. *)

From S2P Require Import Prelude PyList.
#[local] Open Scope Z_scope.

(** ** The search *)

(** The loop's variables. *)
Record Search := {
  s_i : Z;
  prev_lps : Z;
  longest_ngram : Z;
  s_position : Z;
  lps : list Z;
}.

Section Search.
Context (tokens : list Z) (max_ngram : Z).

(** One turn of the [while]. *)
Definition search_turn (s : Search) : result Search :=
  a ← py_index tokens (prev_lps s);
  b ← py_index tokens (s_i s);
  if (a : Z) =? b then
    let p := prev_lps s + 1 in
    let better := longest_ngram s <=? p in
    table ← (if s_i s <? max_ngram then py_setitem (s_i s) p (lps s) else Ok (lps s));
    next ← (if p =? max_ngram then py_index table (max_ngram - 1) else Ok p);
    Ok {| s_i := s_i s + 1; prev_lps := next;
          longest_ngram := if better then p else longest_ngram s;
          s_position := if better then s_i s else s_position s; lps := table |}
  else if negb (prev_lps s =? 0) then
    p ← py_index (lps s) (prev_lps s - 1);
    Ok {| s_i := s_i s; prev_lps := p; longest_ngram := longest_ngram s;
          s_position := s_position s; lps := lps s |}
  else Ok {| s_i := s_i s + 1; prev_lps := prev_lps s; longest_ngram := longest_ngram s;
             s_position := s_position s; lps := lps s |}.

(** [while i < total_token].  A turn moves [i] on or lowers [prev_lps], which
    grows at most once per [i]. *)
Fixpoint search_loop (fuel : nat) (s : Search) : result Search :=
  match fuel with
  | O => Ok s
  | S fuel => if s_i s <? py_len tokens then s ← search_turn s; search_loop fuel s else Ok s
  end.

Definition search_fuel : nat := 2 * length tokens.

Definition search_start : Search :=
  {| s_i := 1; prev_lps := 0; longest_ngram := 0; s_position := 0; lps := replicate (Z.to_nat max_ngram) 0 |}.

End Search.

Definition find_longest_matched_ngram_and_propose_tokens
    (origin_tokens : list Z) (min_ngram max_ngram max_model_len k : Z) : result (list Z) :=
  let total_token := py_len origin_tokens in
  if total_token <? min_ngram then Ok []
  else
    let k := Z.min k (max_model_len - total_token) in
    if k <=? 0 then Ok []
    else
      let tokens := rev origin_tokens in
      s ← search_loop tokens max_ngram (search_fuel tokens) (search_start max_ngram);
      if longest_ngram s <? min_ngram then Ok []
      else
        let start_position := total_token - 1 - s_position s + longest_ngram s in
        let k := Z.min k (total_token - start_position) in
        Ok (slice start_position (start_position + k) origin_tokens).

(** ** The batch *)

Record NgramProposer := {
  min_n : Z;
  max_n : Z;
  np_k : Z;
  np_max_model_len : Z;
  valid_ngram_draft : list (list Z);
  valid_ngram_num_drafts : list Z;
}.
#[export] Instance eta_proposer : Eta NgramProposer := fun x => {|
  min_n := min_n x; max_n := max_n x; np_k := np_k x; np_max_model_len := np_max_model_len x;
  valid_ngram_draft := valid_ngram_draft x; valid_ngram_num_drafts := valid_ngram_num_drafts x |}.

Definition new_proposer (min_n max_n k max_model_len max_num_seqs : Z) : NgramProposer := {|
  min_n := min_n; max_n := max_n; np_k := k; np_max_model_len := max_model_len;
  valid_ngram_draft := replicate (Z.to_nat max_num_seqs) (replicate (Z.to_nat k) 0);
  valid_ngram_num_drafts := replicate (Z.to_nat max_num_seqs) 0 |}.

(** [valid_ngram_draft[i, :len(draft)] = draft], for a draft that is not empty. *)
Definition store_draft (i : Z) (draft : list Z) (rows : list (list Z)) : result (list (list Z)) :=
  match draft with
  | [] => Ok rows
  | _ => old ← py_index rows i; py_setitem i (draft ++ slice_from (py_len draft) old) rows
  end.

Section Batch.
Context (num_tokens_no_spec : list Z) (token_ids_cpu : list (list Z)).

(** One iteration of the parallel loop; the iterations write different rows. *)
Definition propose_one (x : Z * Z) (p : NgramProposer) : result NgramProposer :=
  let '(i, idx) := x in
  num_tokens ← py_index num_tokens_no_spec idx;
  row ← py_index token_ids_cpu idx;
  draft ← find_longest_matched_ngram_and_propose_tokens (slice_to num_tokens row)
            (min_n p) (max_n p) (np_max_model_len p) (np_k p);
  nums ← py_setitem i (py_len draft) (valid_ngram_num_drafts p);
  drafts ← store_draft i draft (valid_ngram_draft p);
  Ok (p <| valid_ngram_num_drafts := nums |> <| valid_ngram_draft := drafts |>).

Definition batch_propose_numba (valid_ngram_requests : list Z) (p : NgramProposer) : result NgramProposer :=
  for_each propose_one (imap (fun i idx => (Z.of_nat i, idx)) valid_ngram_requests) p.

(** Reading the drafts back. *)
Definition read_draft (valid_ngram_requests : list Z) (p : NgramProposer) (i : Z) : result (list Z) :=
  if bool_decide (i ∈ valid_ngram_requests) then
    n ← py_index (valid_ngram_num_drafts p) i;
    if 0 <? n then row ← py_index (valid_ngram_draft p) i; Ok (slice_to n row) else Ok []
  else Ok [].

Definition batch_propose (num_requests : Z) (valid_ngram_requests : list Z) (p : NgramProposer)
    : result (list (list Z) * NgramProposer) :=
  p ← (match valid_ngram_requests with [] => Ok p | _ => batch_propose_numba valid_ngram_requests p end);
  drafts ← mapM (read_draft valid_ngram_requests p) (py_range 0 num_requests);
  Ok (drafts, p).

(** The requests to search for: those with sampled tokens, sampling parameters
    that allow drafts, and room in the context. *)
Definition wants_draft (max_model_len : Z) (req_ids : list string) (unsupported : gset string)
    (x : Z * list Z) : result (list Z) :=
  let '(i, sampled_ids) := x in
  match sampled_ids with
  | [] => Ok []
  | _ =>
      req_id ← py_index req_ids i;
      if bool_decide (req_id ∈ unsupported) then Ok []
      else
        num_tokens ← py_index num_tokens_no_spec i;
        Ok (if max_model_len <=? num_tokens then [] else [i])
  end.

Definition propose (sampled_token_ids : list (list Z)) (req_ids : list string)
    (spec_decode_unsupported_reqs : gset string) (p : NgramProposer) : result (list (list Z) * NgramProposer) :=
  valid ← mapM (wants_draft (np_max_model_len p) req_ids spec_decode_unsupported_reqs)
            (imap (fun i ids => (Z.of_nat i, ids)) sampled_token_ids);
  batch_propose (py_len sampled_token_ids) (concat valid) p.

End Batch.

(** ** Prefixes that recur

    [recurs t v i]: the first [v] of [t] occur again at the end of the first [i],
    [v < i]. *)

Section Recur.
Context (t : list Z).
Definition tok (j : Z) : option Z := t !! Z.to_nat j.
Definition recurs (v i : Z) : Prop := 0 <= v < i /\ forall j, 0 <= j < v -> tok j = tok (i - v + j).

Lemma recurs_zero i : 0 < i -> recurs 0 i.
Proof. intros. split; [lia|]. intros j Hj. lia. Qed.

Lemma recurs_step v i : recurs v i -> tok v = tok i -> recurs (v + 1) (i + 1).
Proof.
  intros [Hv Hr] He. split; [lia|]. intros j Hj. destruct (decide (j = v)) as [->|Hne].
  - rewrite He. f_equal. lia.
  - rewrite Hr by lia. f_equal. lia.
Qed.

Lemma recurs_unstep v i : 0 <= v -> recurs (v + 1) (i + 1) -> recurs v i /\ tok v = tok i.
Proof.
  intros Hv [Hlt Hr]. split; [split; [lia|]; intros j Hj|].
  - rewrite Hr by lia. f_equal. lia.
  - rewrite Hr by lia. f_equal. lia.
Qed.

Lemma recurs_trans u v i : recurs v i -> recurs u v -> recurs u i.
Proof.
  intros [Hv Hr] [Hu Hs]. split; [lia|]. intros j Hj. rewrite Hs by lia. rewrite Hr by lia. f_equal. lia.
Qed.

Lemma recurs_nest u v i : recurs v i -> recurs u i -> u < v -> recurs u v.
Proof.
  intros [Hv Hr] [Hu Hs] Hlt. split; [lia|]. intros j Hj. rewrite Hs by lia. rewrite (Hr (v - u + j)) by lia. f_equal. lia.
Qed.

End Recur.

(** ** The loop invariant *)

Section Correct.
Context (tokens : list Z) (max_ngram : Z) (Hmax : 0 < max_ngram).
Abbreviation total := (py_len tokens).
Context (Hlen : 0 < total).
Abbreviation recurs := (recurs tokens).
Abbreviation tok := (tok tokens).

(** The failure table holds, for each prefix it covers that was scanned, the
    longest shorter prefix that ends it. *)
Definition table_ok (i : Z) (table : list Z) : Prop :=
  py_len table = max_ngram /\
  forall j, 0 <= j < max_ngram ->
    exists v, table !! Z.to_nat j = Some v /\
      if j <? i then recurs v (j + 1) /\ forall u, recurs u (j + 1) -> u <= v else v = 0.

(** The best match that ends before [i]. *)
Definition best_ok (i n p : Z) : Prop :=
  0 <= n <= max_ngram /\ (n = 0 /\ p = 0 \/ 0 < n /\ p < i /\ recurs n (p + 1)) /\
  forall j u, 0 < j < i -> 0 < u <= max_ngram -> recurs u (j + 1) -> u <= n /\ (u = n -> j <= p).

Record search_ok (s : Search) : Prop := {
  sk_range : 0 < s_i s <= total /\ 0 <= prev_lps s < max_ngram;
  sk_prev : recurs (prev_lps s) (s_i s);
  sk_next : forall u, recurs u (s_i s) -> u < max_ngram -> prev_lps s < u -> tok u <> tok (s_i s);
  sk_table : table_ok (s_i s) (lps s);
  sk_best : best_ok (s_i s) (longest_ngram s) (s_position s);
}.

Lemma tok_index j : 0 <= j < total -> exists x, tok j = Some x /\ py_index tokens j = Ok x.
Proof.
  intros Hj. assert (is_Some (tokens !! Z.to_nat j)) as [x Hx] by (apply lookup_lt_is_Some; unfold py_len in Hj; lia).
  exists x. split; [exact Hx|]. by apply py_index_Some; [lia|].
Qed.

Lemma lps_read i table j :
  table_ok i table -> 0 <= j < max_ngram -> j < i ->
  exists v, py_index table j = Ok v /\ recurs v (j + 1) /\ forall u, recurs u (j + 1) -> u <= v.
Proof.
  intros [_ Ht] Hj Hi. destruct (Ht j Hj) as (v & Hv & Hs). rewrite (proj2 (Z.ltb_lt j i)) in Hs by done.
  exists v. split; [by apply py_index_Some; [lia|] | done].
Qed.

(** The scan moves on: entry [i] of the table is settled. *)
Lemma table_next i table v :
  table_ok i table -> 0 <= i -> recurs v (i + 1) -> (forall u, recurs u (i + 1) -> u <= max_ngram -> u <= v) ->
  table_ok (i + 1) (if i <? max_ngram then <[Z.to_nat i := v]> table else table).
Proof.
  intros [Hl Ht] Hi Hv Hbest. destruct (Z.ltb_spec i max_ngram) as [Hlt|Hge].
  - split; [unfold py_len in *; by rewrite length_insert|]. intros j Hj. destruct (decide (j = i)) as [->|Hne].
    + exists v. rewrite list_lookup_insert_eq by (unfold py_len in Hl; lia).
      rewrite (proj2 (Z.ltb_lt i (i + 1))) by lia. split; [done|]. split; [done|].
      intros u Hu. apply Hbest; [done|]. destruct Hu. lia.
    + rewrite list_lookup_insert_ne by lia. destruct (Ht j Hj) as (w & Hw & Hs). exists w. split; [done|].
      destruct (Z.ltb_spec j i), (Z.ltb_spec j (i + 1)); (done || lia).
  - split; [done|]. intros j Hj. destruct (Ht j Hj) as (w & Hw & Hs). exists w. split; [done|].
    destruct (Z.ltb_spec j i), (Z.ltb_spec j (i + 1)); (done || lia).
Qed.

(** An entry that stays zero is right when nothing matches. *)
Lemma table_zero i table :
  table_ok i table -> 0 < i -> (forall u, recurs u (i + 1) -> u < max_ngram -> u <= 0) ->
  table_ok (i + 1) table.
Proof.
  intros [Hl Ht] Hi Hno. split; [done|]. intros j Hj. destruct (Ht j Hj) as (w & Hw & Hs). exists w. split; [done|].
  destruct (Z.ltb_spec j i), (Z.ltb_spec j (i + 1)); try (done || lia).
  subst w. assert (j = i) as -> by lia. split; [apply recurs_zero; lia|].
  intros u Hu. apply Hno; [done|]. destruct Hu as [Hu _]. lia.
Qed.

(** The longest match that ends at [i] is known: the best so far is updated. *)
Lemma best_next i n p v :
  best_ok i n p -> 0 < i -> 0 <= v <= max_ngram -> recurs v (i + 1) ->
  (forall u, 0 < u <= max_ngram -> recurs u (i + 1) -> u <= v) ->
  if (0 <? v) && (n <=? v) then best_ok (i + 1) v i else best_ok (i + 1) n p.
Proof.
  intros (Hn & Hw & Hall) Hi Hv Hr Hbest.
  destruct (Z.ltb_spec 0 v), (Z.leb_spec n v); cbn [andb];
    (split; [lia|]; split; [first [right; split; [lia|]; split; [lia|done]
                                  | destruct Hw as [?|(? & ? & ?)]; [by left | right; split; [done|]; split; [lia|done]]]|]);
    intros j u Hj Hu Hju; (destruct (decide (j = i)) as [->|Hne];
      [pose proof (Hbest u Hu Hju); lia | destruct (Hall j u ltac:(lia) Hu Hju); lia]).
Qed.

(** Every longer match at [i] extends one that ends before it. *)
Lemma match_at u i prev :
  0 < i -> recurs prev i -> tok prev = tok i -> (forall w, recurs w i -> w < max_ngram -> prev < w -> tok w <> tok i) ->
  recurs u (i + 1) -> u <= max_ngram -> u <= prev + 1.
Proof.
  intros Hi Hp He Hnext Hu Hle. destruct (decide (u <= prev + 1)) as [|Hgt]; [done|]. exfalso.
  destruct (recurs_unstep tokens (u - 1) i) as [Hr Ht].
  { destruct Hp. lia. } { by replace (u - 1 + 1) with u by lia. }
  apply (Hnext (u - 1)); [done | lia | lia | done].
Qed.

Lemma no_match_at u i :
  0 < i -> tok 0 <> tok i -> (forall w, recurs w i -> w < max_ngram -> 0 < w -> tok w <> tok i) ->
  recurs u (i + 1) -> u <= max_ngram -> u <= 0.
Proof.
  intros Hi H0 Hnext Hu Hle. destruct (decide (u <= 0)) as [|Hgt]; [done|]. exfalso.
  destruct (recurs_unstep tokens (u - 1) i) as [Hr Ht]; [lia | by replace (u - 1 + 1) with u by lia|].
  destruct (decide (u = 1)) as [->|]; [done|]. by apply (Hnext (u - 1)); [done | lia | lia|].
Qed.

Definition measure (s : Search) : Z := 2 * (total - s_i s) + prev_lps s.

Lemma search_turn_ok s :
  search_ok s -> s_i s < total ->
  exists s', search_turn tokens max_ngram s = Ok s' /\ search_ok s' /\ measure s' < measure s.
Proof.
  destruct s as [i prev n p table]. intros [[[Hi _] Hp] Hr Hnext Ht Hb] Hlt. cbn in *. unfold search_turn, measure. cbn.
  destruct (tok_index prev) as (a & Ha & ->); [destruct Hr; lia|].
  destruct (tok_index i) as (b & Hb' & ->); [lia|]. bind_ok.
  destruct (Z.eqb_spec a b) as [<-|Hne].
  - assert (He : tok prev = tok i) by congruence.
    pose proof (recurs_step tokens prev i Hr He) as Hr1.
    pose proof (fun u => match_at u i prev Hi Hr He Hnext) as Hlong.
    pose proof (table_next i table (prev + 1) Ht ltac:(lia) Hr1 Hlong) as Ht'.
    assert (Hset : (if i <? max_ngram then py_setitem i (prev + 1) table else Ok table)
      = Ok (if i <? max_ngram then <[Z.to_nat i := prev + 1]> table else table)).
    { destruct (Z.ltb_spec i max_ngram); [|done]. destruct Ht as [Hl _]. apply py_setitem_in. lia. }
    rewrite Hset. set (table' := if i <? max_ngram then _ else table) in *.
    pose proof (best_next i n p (prev + 1) Hb Hi ltac:(lia) Hr1 ltac:(intros; apply Hlong; [done|lia])) as Hb1.
    rewrite (proj2 (Z.ltb_lt 0 (prev + 1))) in Hb1 by lia. cbn [andb] in Hb1.
    assert (Hbest : best_ok (i + 1) (if n <=? prev + 1 then prev + 1 else n) (if n <=? prev + 1 then i else p))
      by by destruct (n <=? prev + 1).
    destruct (Z.eqb_spec (prev + 1) max_ngram) as [Hcap|Hcap].
    + destruct (lps_read (i + 1) table' (max_ngram - 1) Ht') as (w & -> & Hw & Hwb); [lia | destruct Hr; lia|].
      replace (max_ngram - 1 + 1) with max_ngram in * by lia. rewrite Hcap in Hr1.
      eexists. split; [reflexivity|]. split; [split; cbn; try done|cbn; destruct Hw; lia].
      * destruct Hw. lia.
      * by eapply recurs_trans.
      * intros u Hu Hum Hwu. pose proof (Hwb u (recurs_nest tokens u max_ngram (i + 1) Hr1 Hu Hum)). lia.
    + eexists. split; [reflexivity|]. split; [split; cbn; try done; try lia|cbn; lia].
      intros u Hu Hum Hpu. pose proof (Hlong u Hu). lia.
  - destruct (Z.eqb_spec prev 0) as [->|Hp0]; cbn [negb].
    + assert (Hno : forall u, recurs u (i + 1) -> u <= max_ngram -> u <= 0).
      { intros u. apply no_match_at; [done | congruence | done]. }
      eexists. split; [reflexivity|]. split; [split; cbn; try lia|cbn; lia].
      * apply recurs_zero. lia.
      * intros u Hu Hum Hgt. pose proof (Hno u Hu). lia.
      * apply table_zero; [done | lia|]. intros u Hu Hum. apply Hno; [done | lia].
      * apply (best_next i n p 0); [done | lia | lia | apply recurs_zero; lia|]. intros u Hu Hru. apply Hno; [done | lia].
    + destruct (lps_read i table (prev - 1) Ht) as (w & -> & Hw & Hwb); [lia | destruct Hr; lia|].
      replace (prev - 1 + 1) with prev in * by lia.
      eexists. split; [reflexivity|]. split; [split; cbn; try done|cbn; destruct Hw; lia].
      * destruct Hw. lia.
      * by eapply recurs_trans.
      * intros u Hu Hum Hwu. destruct (Z.lt_trichotomy u prev) as [Hlt'|[->|Hgt]]; [|congruence|by apply Hnext].
        pose proof (Hwb u (recurs_nest tokens u prev i Hr Hu Hlt')). lia.
Qed.

Lemma search_loop_ok fuel s :
  search_ok s -> measure s <= Z.of_nat fuel ->
  exists s', search_loop tokens max_ngram fuel s = Ok s' /\ search_ok s' /\ total <= s_i s'.
Proof.
  revert s. induction fuel as [|fuel IH]; intros s Hs Hm; cbn [search_loop].
  - exists s. split; [done|]. split; [done|]. destruct Hs as [[? ?] _ _ _ _]. unfold measure in Hm. lia.
  - destruct (Z.ltb_spec (s_i s) total) as [Hlt|]; [|by exists s].
    destruct (search_turn_ok s Hs Hlt) as (s1 & -> & Hs1 & Hdec). bind_ok. apply IH; [done | lia].
Qed.

Lemma search_start_ok : search_ok (search_start max_ngram).
Proof.
  split; cbn; [lia | apply recurs_zero; lia | intros u [Hu _]; lia | | ].
  - split; [unfold py_len; rewrite length_replicate; lia|]. intros j Hj. exists 0.
    split; [apply lookup_replicate; lia|]. destruct (Z.ltb_spec j 1); [|done].
    split; [apply recurs_zero; lia|]. intros u [Hu _]. lia.
  - split; [lia|]. split; [by left|]. intros j u Hj. lia.
Qed.

(** The search always ends, and finds the longest recurring prefix within the
    limit, at its last position. *)
Lemma search_finds :
  exists s, search_loop tokens max_ngram (search_fuel tokens) (search_start max_ngram) = Ok s /\
    best_ok total (longest_ngram s) (s_position s).
Proof.
  destruct (search_loop_ok (search_fuel tokens) _ search_start_ok) as (s & Hr & Hs & Hend).
  { unfold measure, search_fuel, py_len in *. cbn. lia. }
  exists s. split; [done|]. destruct Hs as [[? _] _ _ _ Hb]. by replace total with (s_i s) by lia.
Qed.

End Correct.

(** ** The specification, on the tokens as given *)

(** The last [n] tokens also stand at [s], before the end. *)
Definition seen (tokens : list Z) (n s : Z) : Prop :=
  0 <= s /\ s + n < py_len tokens /\
  slice s (s + n) tokens = slice (py_len tokens - n) (py_len tokens) tokens.

(** The longest n-gram within the limits, at its first occurrence. *)
Definition best_ngram (tokens : list Z) (min_ngram max_ngram n s : Z) : Prop :=
  min_ngram <= n <= max_ngram /\ seen tokens n s /\
  forall m s', m <= max_ngram -> seen tokens m s' -> m <= n /\ (m = n -> s <= s').

Lemma slice_eq_iff (l : list Z) a b n :
  0 <= a -> 0 <= b -> 0 <= n -> a + n <= py_len l -> b + n <= py_len l ->
  slice a (a + n) l = slice b (b + n) l <-> forall j, 0 <= j < n -> l !! Z.to_nat (a + j) = l !! Z.to_nat (b + j).
Proof.
  intros Ha Hb Hn Hal Hbl. unfold py_len in *. rewrite !slice_in by (unfold py_len; lia).
  assert (Hl : forall c j, 0 <= c -> drop (Z.to_nat c) (take (Z.to_nat (c + n)) l) !! j
    = if decide (Z.of_nat j < n) then l !! Z.to_nat (c + Z.of_nat j) else None).
  { intros c j Hc. rewrite lookup_drop. case_decide; [|apply lookup_take_ge; lia].
    rewrite lookup_take_lt by lia. f_equal. lia. }
  split.
  - intros He j Hj. apply (f_equal (lookup (Z.to_nat j))) in He. rewrite !Hl, !decide_True in He by lia.
    by rewrite Z2Nat.id in He by lia.
  - intros He. apply list_eq. intros j. rewrite !Hl by done. case_decide; [|done]. apply He. lia.
Qed.

Lemma tok_rev l j : 0 <= j < py_len l -> tok (rev l) j = l !! Z.to_nat (py_len l - 1 - j).
Proof.
  intros Hj. unfold tok, py_len in *. rewrite rev_alt. change (rev_append l []) with (reverse l).
  rewrite reverse_lookup by lia. f_equal. lia.
Qed.

Lemma seen_recurs l n p :
  0 <= n -> 0 <= p < py_len l -> seen l n (py_len l - 1 - p) <-> recurs (rev l) n (p + 1).
Proof.
  intros Hn Hp. unfold seen, recurs.
  assert (Hiff : 0 <= n < p + 1 ->
    slice (py_len l - 1 - p) (py_len l - 1 - p + n) l = slice (py_len l - n) (py_len l) l <->
    forall j, 0 <= j < n -> l !! Z.to_nat (py_len l - 1 - p + j) = l !! Z.to_nat (py_len l - n + j)).
  { intros Hlt. rewrite <- (slice_eq_iff l _ (py_len l - n) n) by lia. by replace (py_len l - n + n) with (py_len l) by lia. }
  split.
  - intros (h1 & h2 & h3). split; [lia|]. intros j Hj. rewrite Hiff in h3 by lia.
    specialize (h3 (n - 1 - j) ltac:(lia)). rewrite !tok_rev by lia.
    etrans; [|etrans; [symmetry; exact h3|]]; f_equal; lia.
  - intros [h1 h2]. split; [lia|]. split; [lia|]. rewrite Hiff by lia.
    intros j Hj. specialize (h2 (n - 1 - j) ltac:(lia)). rewrite !tok_rev in h2 by lia.
    etrans; [|etrans; [symmetry; exact h2|]]; f_equal; lia.
Qed.

(** What the search over the reversed tokens found, read on the tokens. *)
Lemma best_reversed l max n p :
  0 < py_len l -> best_ok (rev l) max (py_len l) n p ->
  (n = 0 -> forall m s, 0 < m <= max -> ~ seen l m s) /\
  (0 < n -> n <= max /\ p < py_len l /\ seen l n (py_len l - 1 - p) /\
     forall m s, 0 < m <= max -> seen l m s -> m <= n /\ (m = n -> py_len l - 1 - p <= s)).
Proof.
  intros Hl (h1 & h2 & h3).
  assert (Hall : forall m s, 0 < m <= max -> seen l m s -> m <= n /\ (m = n -> py_len l - 1 - s <= p)).
  { intros m s Hm Hs. assert (0 <= s /\ s + m < py_len l) as [??] by (destruct Hs as (? & ? & _); done).
    apply h3; [lia | lia|]. apply seen_recurs; [lia | lia|]. by replace (py_len l - 1 - (py_len l - 1 - s)) with s by lia. }
  split.
  - intros -> m s Hm Hs. destruct (Hall m s Hm Hs). lia.
  - intros Hn. destruct h2 as [[? _]|(_ & g1 & g2)]; [lia|]. split; [lia|]. split; [lia|]. split.
    + apply seen_recurs; [lia | destruct g2; lia | done].
    + intros m s Hm Hs. destruct (Hall m s Hm Hs) as [e1 e2]. split; [done|]. intros He. specialize (e2 He). lia.
Qed.

(** ** What is proposed *)

(** C36: The search always ends without an index out of range, and proposes what its docstring
    promises: with fewer tokens than [min_ngram] or no room for a draft, nothing; otherwise, if some
    n-gram of a length within the limits ends the tokens and also occurs earlier, the longest such
    n-gram at its first occurrence is continued by up to [k] of the tokens that followed it; if
    there is none, nothing.  The draft never carries the context past [max_model_len]. *)
Theorem ngram_search_correct tokens min_ngram max_ngram max_model_len k :
  0 < min_ngram <= max_ngram ->
  exists draft,
    find_longest_matched_ngram_and_propose_tokens tokens min_ngram max_ngram max_model_len k = Ok draft /\
    (draft = [] \/ py_len draft <= k /\ py_len tokens + py_len draft <= max_model_len) /\
    (py_len tokens < min_ngram \/ Z.min k (max_model_len - py_len tokens) <= 0 -> draft = []) /\
    (min_ngram <= py_len tokens -> 0 < Z.min k (max_model_len - py_len tokens) ->
       (exists n s, best_ngram tokens min_ngram max_ngram n s /\
          draft = slice (s + n) (Z.min (s + n + Z.min k (max_model_len - py_len tokens)) (py_len tokens)) tokens /\
          draft <> []) \/
       (forall n s, min_ngram <= n <= max_ngram -> ~ seen tokens n s) /\ draft = []).
Proof.
  intros Hmin. unfold find_longest_matched_ngram_and_propose_tokens.
  destruct (Z.ltb_spec (py_len tokens) min_ngram) as [Hs|Hs].
  { exists []. split; [done|]. split; [by left|]. split; [done|]. lia. }
  set (room := Z.min k (max_model_len - py_len tokens)).
  destruct (Z.leb_spec room 0) as [Hr|Hr].
  { exists []. split; [done|]. split; [by left|]. split; [done|]. lia. }
  assert (Hlen : py_len (rev tokens) = py_len tokens) by (unfold py_len; by rewrite length_rev).
  destruct (search_finds (rev tokens) max_ngram) as (st & Hst & Hb); [lia | lia|].
  rewrite Hst. bind_ok. rewrite Hlen in Hb. destruct (best_reversed tokens _ _ _ ltac:(lia) Hb) as [Hz Hp].
  assert (Hn0 : 0 <= longest_ngram st) by (destruct Hb as ([? _] & _); done).
  set (n := longest_ngram st) in *. set (p := s_position st) in *.
  destruct (Z.ltb_spec n min_ngram) as [Hno|Hyes].
  { exists []. split; [done|]. split; [by left|]. split; [done|]. intros _ _. right. split; [|done].
    intros m s Hm Hsn. destruct (decide (n = 0)) as [Hn|Hn]; [by apply (Hz Hn m s ltac:(lia))|].
    destruct (Hp ltac:(lia)) as (_ & _ & _ & Hall). destruct (Hall m s ltac:(lia) Hsn). lia. }
  destruct (Hp ltac:(lia)) as (h1 & h2 & h3 & h4). set (s := py_len tokens - 1 - p) in *.
  assert (0 <= s /\ s + n < py_len tokens) as [??] by (destruct h3 as (? & ? & _); done).
  assert (He : s + n + Z.min room (py_len tokens - (s + n)) = Z.min (s + n + room) (py_len tokens)) by lia.
  replace (py_len tokens - 1 - p + n) with (s + n) by lia. rewrite He.
  set (draft := slice _ _ _).
  assert (Hd : py_len draft = Z.min room (py_len tokens - (s + n))).
  { unfold draft. rewrite slice_in by (unfold py_len in *; lia). unfold py_len in *. rewrite length_drop, length_take. lia. }
  exists draft. split; [done|]. split; [right; lia|]. split; [lia|]. intros _ _. left. exists n, s.
  split; [|split; [done|]].
  - split; [lia|]. split; [done|]. intros m s' Hm Hsn. destruct (decide (0 < m)); [by apply h4|].
    split; [lia|]. intros ?. lia.
  - intros He'. rewrite He' in Hd. change (py_len (@nil Z)) with 0 in Hd. lia.
Qed.

(** The search returns on every input, within the limits it is given. *)
Lemma ngram_ends tokens min_ngram max_ngram max_model_len k :
  0 < min_ngram <= max_ngram ->
  exists d, find_longest_matched_ngram_and_propose_tokens tokens min_ngram max_ngram max_model_len k = Ok d.
Proof.
  intros Hmin. unfold find_longest_matched_ngram_and_propose_tokens.
  destruct (Z.ltb_spec (py_len tokens) min_ngram) as [|Hs]; [by eexists|]. case_match; [by eexists|].
  destruct (search_finds (rev tokens) max_ngram) as (st & -> & _); [lia | unfold py_len in *; rewrite length_rev; lia|].
  bind_ok. case_match; by eexists.
Qed.

Section Filing.
Context (num_tokens_no_spec : list Z) (token_ids_cpu : list (list Z)).

(** The draft for the context of request [idx]. *)
Definition draft_of (p : NgramProposer) (idx : Z) : result (list Z) :=
  num_tokens ← py_index num_tokens_no_spec idx;
  row ← py_index token_ids_cpu idx;
  find_longest_matched_ngram_and_propose_tokens (slice_to num_tokens row)
    (min_n p) (max_n p) (np_max_model_len p) (np_k p).

Definition context_of (idx : Z) : Prop :=
  0 <= idx < py_len num_tokens_no_spec /\ idx < py_len token_ids_cpu.

(** Row [i] of the buffers after the requests [l] were searched. *)
Definition row_filed (p : NgramProposer) (l : list Z) (p' : NgramProposer) (i : nat) : Prop :=
  match l !! i with
  | Some idx => exists d row, draft_of p idx = Ok d /\ valid_ngram_num_drafts p' !! i = Some (py_len d) /\
      valid_ngram_draft p' !! i = Some row /\ take (length d) row = d
  | None => valid_ngram_num_drafts p' !! i = valid_ngram_num_drafts p !! i /\
      valid_ngram_draft p' !! i = valid_ngram_draft p !! i
  end.

Record filed (p : NgramProposer) (l : list Z) (p' : NgramProposer) : Prop := {
  fl_nums : length (valid_ngram_num_drafts p') = length (valid_ngram_num_drafts p);
  fl_drafts : length (valid_ngram_draft p') = length (valid_ngram_draft p);
  fl_same : forall idx, draft_of p' idx = draft_of p idx;
  fl_limits : min_n p' = min_n p /\ max_n p' = max_n p;
  fl_row : forall i, row_filed p l p' i;
}.

Lemma draft_ok p idx : 0 < min_n p <= max_n p -> context_of idx -> exists d, draft_of p idx = Ok d.
Proof.
  intros Hmin [H1 H2]. unfold draft_of.
  assert (is_Some (num_tokens_no_spec !! Z.to_nat idx)) as [n Hn] by (apply lookup_lt_is_Some; unfold py_len in *; lia).
  assert (is_Some (token_ids_cpu !! Z.to_nat idx)) as [row Hrow] by (apply lookup_lt_is_Some; unfold py_len in *; lia).
  rewrite (py_index_Some _ idx n), (py_index_Some _ idx row) by (done || lia). bind_ok.
  destruct (ngram_ends (slice_to n row) (min_n p) (max_n p) (np_max_model_len p) (np_k p) Hmin) as [d Hd]. by exists d.
Qed.

Lemma propose_one_ok p l p' idx :
  0 < min_n p <= max_n p -> filed p l p' -> context_of idx ->
  (length l < length (valid_ngram_num_drafts p))%nat -> (length l < length (valid_ngram_draft p))%nat ->
  exists p2, propose_one num_tokens_no_spec token_ids_cpu (Z.of_nat (length l), idx) p' = Ok p2 /\ filed p (l ++ [idx]) p2.
Proof.
  intros Hmin [h1 h2 h3 [h4 h4'] h5] Hc Hn Hd. destruct (draft_ok p idx Hmin Hc) as [d He].
  pose proof He as He'. rewrite <- h3 in He'.
  assert (is_Some (valid_ngram_draft p' !! length l)) as [old Hold] by (apply lookup_lt_is_Some; lia).
  set (row := match d with [] => old | _ => d ++ slice_from (py_len d) old end).
  assert (Hset : store_draft (Z.of_nat (length l)) d (valid_ngram_draft p') = Ok (<[length l := row]> (valid_ngram_draft p'))).
  { unfold row, store_draft. destruct d as [|x d]; [by rewrite list_insert_id|].
    rewrite (py_index_Some _ _ old) by (rewrite ?Nat2Z.id; done || lia). bind_ok.
    rewrite py_setitem_in by (unfold py_len; lia). by rewrite Nat2Z.id. }
  unfold propose_one, draft_of in He' |- *. destruct (py_index num_tokens_no_spec idx) as [n|]; [|done].
  destruct (py_index token_ids_cpu idx) as [r|]; [|done]. revert He'. bind_ok. intros ->.
  rewrite py_setitem_in by (unfold py_len; lia). rewrite Nat2Z.id. cbv beta iota zeta.
  rewrite Hset. eexists. split; [reflexivity|]. split; cbn; rewrite ?length_insert; try done.
  intros i. unfold row_filed. cbn. specialize (h5 i). unfold row_filed in h5.
  destruct (decide (i = length l)) as [->|Hne].
  - rewrite lookup_app_r, Nat.sub_diag by lia. cbn. rewrite !list_lookup_insert_eq by lia.
    exists d, row. split; [done|]. split; [done|]. split; [done|].
    unfold row. destruct d as [|x d]; [done|]. by rewrite take_app_length.
  - rewrite !list_lookup_insert_ne by done. destruct (decide (i < length l)%nat).
    + by rewrite lookup_app_l by done.
    + rewrite lookup_ge_None_2 in h5 by lia. by rewrite lookup_ge_None_2 by (rewrite length_app; cbn; lia).
Qed.

Lemma batch_filed p l :
  0 < min_n p <= max_n p -> (forall idx, idx ∈ l -> context_of idx) ->
  (length l <= length (valid_ngram_num_drafts p))%nat -> (length l <= length (valid_ngram_draft p))%nat ->
  exists p', batch_propose_numba num_tokens_no_spec token_ids_cpu l p = Ok p' /\ filed p l p'.
Proof.
  intros Hmin. unfold batch_propose_numba. induction l as [|idx l IH] using rev_ind; intros Hc Hn Hd.
  - exists p. split; [done|]. by split.
  - rewrite length_app in Hn, Hd. cbn in Hn, Hd. destruct IH as (p1 & Hr & Hf); [set_solver | lia | lia|].
    rewrite imap_app, for_each_app, Hr.
    change (exists p', (s ← propose_one num_tokens_no_spec token_ids_cpu (Z.of_nat (length l + 0), idx) p1; Ok s) = Ok p' /\
      filed p (l ++ [idx]) p'). rewrite Nat.add_0_r.
    destruct (propose_one_ok p l p1 idx Hmin Hf) as (p2 & Hr2 & Hf2); [set_solver | lia | lia|].
    exists p2. by rewrite Hr2.
Qed.

(** What the buffers hold for row [i]. *)
Definition stale_draft (p : NgramProposer) (i : nat) : list Z :=
  match valid_ngram_num_drafts p !! i, valid_ngram_draft p !! i with
  | Some n, Some row => if 0 <? n then slice_to n row else []
  | _, _ => []
  end.

(** The draft request [i] gets when the requests [l] are searched. *)
Definition draft_at (p : NgramProposer) (l : list Z) (i : nat) (d : list Z) : Prop :=
  if bool_decide (Z.of_nat i ∈ l)
  then match l !! i with Some idx => draft_of p idx = Ok d | None => d = stale_draft p i end
  else d = [].

Lemma read_draft_ok p l p' i :
  filed p l p' -> (i < length (valid_ngram_num_drafts p))%nat -> (i < length (valid_ngram_draft p))%nat ->
  exists d, read_draft l p' (Z.of_nat i) = Ok d /\ draft_at p l i d.
Proof.
  intros [h1 h2 _ _ h5] Hn Hd. specialize (h5 i). unfold read_draft, draft_at, row_filed in *.
  case_bool_decide; [|by exists []].
  assert (is_Some (valid_ngram_num_drafts p' !! i)) as [n Hnum] by (apply lookup_lt_is_Some; lia).
  assert (is_Some (valid_ngram_draft p' !! i)) as [row Hrow] by (apply lookup_lt_is_Some; lia).
  rewrite (py_index_Some _ _ n) by (rewrite ?Nat2Z.id; done || lia). bind_ok.
  rewrite (py_index_Some _ _ row) by (rewrite ?Nat2Z.id; done || lia).
  destruct (l !! i) as [idx|].
  - destruct h5 as (d & row' & g1 & g2 & g3 & g4). rewrite Hnum in g2. rewrite Hrow in g3. simplify_eq.
    exists d. split; [|done]. destruct (Z.ltb_spec 0 (py_len d)) as [|Hz].
    + do 2 f_equal. unfold slice_to, slice_pos, py_len in *.
      assert (length d <= length row')%nat by (rewrite <- g4; rewrite length_take; lia).
      rewrite (proj2 (Z.ltb_ge _ _)) by lia. by rewrite Z.min_l, Nat2Z.id by lia.
    + destruct d; [done | unfold py_len in Hz; cbn in Hz; lia].
  - destruct h5 as [g1 g2]. unfold stale_draft. rewrite <- g1, <- g2, Hnum, Hrow.
    eexists. split; [|reflexivity]. by case_match.
Qed.

Lemma read_drafts_ok p l p' o n :
  filed p l p' -> (o + n <= length (valid_ngram_num_drafts p))%nat -> (o + n <= length (valid_ngram_draft p))%nat ->
  exists drafts, mapM (read_draft l p') (py_range (Z.of_nat o) (Z.of_nat (o + n))) = Ok drafts /\ length drafts = n /\
    forall i d, drafts !! i = Some d -> draft_at p l (o + i) d.
Proof.
  intros Hf. revert o. induction n as [|n IH]; intros o Hn Hd.
  - exists []. unfold py_range. rewrite Nat.add_0_r, Z.sub_diag. split; [done|]. split; [done|]. by intros i d Hi.
  - destruct (read_draft_ok p l p' o Hf) as (d & Hr & Hat); [lia | lia|].
    destruct (IH (S o)) as (ds & Hrs & Hl & Hall); [lia | lia|].
    exists (d :: ds). split; [|split; [by cbn; rewrite Hl|]].
    + unfold py_range in *. rewrite seqZ_cons by lia. apply mapM_cons_ok; [done|].
      replace (Z.succ (Z.of_nat o)) with (Z.of_nat (S o)) by lia.
      replace (Z.pred (Z.of_nat (o + S n) - Z.of_nat o)) with (Z.of_nat (S o + n) - Z.of_nat (S o)) by lia.
      exact Hrs.
    + intros [|i] d' Hi; cbn in Hi; [injection Hi as <-; by rewrite Nat.add_0_r|].
      replace (o + S i)%nat with (S o + i)%nat by lia. by apply Hall.
Qed.

(** Whether a request is searched for. *)
Definition searched (max_model_len : Z) (req_ids : list string) (unsupported : gset string) (x : Z * list Z) : bool :=
  match x.2, req_ids !! Z.to_nat x.1, num_tokens_no_spec !! Z.to_nat x.1 with
  | _ :: _, Some r, Some n => negb (bool_decide (r ∈ unsupported)) && (n <? max_model_len)
  | _, _, _ => false
  end.

Lemma wants_ok mml req_ids unsupported xs :
  (forall x, x ∈ xs -> 0 <= x.1 < py_len num_tokens_no_spec /\ x.1 < py_len req_ids) ->
  exists ls, mapM (wants_draft num_tokens_no_spec mml req_ids unsupported) xs = Ok ls /\
    concat ls = (List.filter (searched mml req_ids unsupported) xs).*1.
Proof.
  induction xs as [|[i ids] xs IH]; intros Hxs; [by exists []|].
  destruct IH as (ls & Hls & Hc); [set_solver|]. destruct (Hxs (i, ids) ltac:(by left)) as [H1 H2]. cbn in H1, H2.
  assert (is_Some (req_ids !! Z.to_nat i)) as [r Hr] by (apply lookup_lt_is_Some; unfold py_len in *; lia).
  assert (is_Some (num_tokens_no_spec !! Z.to_nat i)) as [n Hn] by (apply lookup_lt_is_Some; unfold py_len in *; lia).
  assert (Hw : wants_draft num_tokens_no_spec mml req_ids unsupported (i, ids)
    = Ok (if searched mml req_ids unsupported (i, ids) then [i] else [])).
  { unfold wants_draft, searched. cbn. rewrite Hr, Hn. destruct ids as [|t ids]; [done|].
    rewrite (py_index_Some _ i r), (py_index_Some _ i n) by (done || lia). bind_ok.
    rewrite Z.ltb_antisym. by destruct (bool_decide _), (mml <=? n). }
  eexists. split; [by eapply mapM_cons_ok|]. cbn. rewrite Hc. by case_match.
Qed.

(** Where drafts end up: [propose] always returns, with one entry per request.  A request that is not
    searched gets no draft.  A request that is searched gets the draft of the request that is
    searched at its own position, which is its own when no request before it was skipped; when
    fewer requests are searched than its number, it gets what an earlier step left in the buffers. *)
Theorem ngram_drafts_by_position p sampled_token_ids req_ids unsupported :
  0 < min_n p <= max_n p ->
  (length sampled_token_ids <= length (valid_ngram_num_drafts p))%nat ->
  (length sampled_token_ids <= length (valid_ngram_draft p))%nat ->
  (length sampled_token_ids <= length req_ids)%nat ->
  (length sampled_token_ids <= length num_tokens_no_spec)%nat ->
  (length sampled_token_ids <= length token_ids_cpu)%nat ->
  let l := (List.filter (searched (np_max_model_len p) req_ids unsupported)
             (imap (fun i ids => (Z.of_nat i, ids)) sampled_token_ids)).*1 in
  exists drafts p', propose num_tokens_no_spec token_ids_cpu sampled_token_ids req_ids unsupported p = Ok (drafts, p') /\
    length drafts = length sampled_token_ids /\ forall i d, drafts !! i = Some d -> draft_at p l i d.
Proof.
  intros Hmin Hb1 Hb2 Hr Hn Ht l. unfold propose.
  assert (Hxs : forall x, x ∈ imap (fun i ids => (Z.of_nat i, ids)) sampled_token_ids -> 0 <= x.1 < Z.of_nat (length sampled_token_ids)).
  { intros x [k Hx]%list_elem_of_lookup. rewrite list_lookup_imap in Hx.
    destruct (sampled_token_ids !! k) as [ids|] eqn:Hk; [|done]. injection Hx as <-. cbn. apply lookup_lt_Some in Hk. lia. }
  destruct (wants_ok (np_max_model_len p) req_ids unsupported (imap (fun i ids => (Z.of_nat i, ids)) sampled_token_ids))
    as (ls & -> & Hc); [intros x Hx%Hxs; unfold py_len; lia|]. bind_ok. rewrite Hc. fold l.
  assert (Hl : (length l <= length sampled_token_ids)%nat).
  { unfold l. rewrite length_fmap. etrans; [apply sublist_length, bfilter_sublist|]. by rewrite length_imap. }
  assert (Hctx : forall idx, idx ∈ l -> context_of idx).
  { intros idx (x & -> & Hx)%list_elem_of_fmap. apply elem_of_list_bfilter in Hx as [_ Hx%Hxs]. unfold context_of, py_len. lia. }
  assert (Hrun : exists p', (match l with [] => Ok p | _ => batch_propose_numba num_tokens_no_spec token_ids_cpu l p end) = Ok p' /\ filed p l p').
  { destruct (batch_filed p l Hmin Hctx) as (p' & Hp' & Hf); [lia | lia|]. destruct l; [|by exists p'].
    exists p. split; [done|]. by injection Hp' as <-. }
  destruct Hrun as (p' & Hp' & Hf). unfold batch_propose. rewrite Hp'. bind_ok.
  destruct (read_drafts_ok p l p' 0 (length sampled_token_ids) Hf) as (ds & Hds & Hlen & Hall); [lia | lia|].
  cbn [Nat.add] in Hds. change (Z.of_nat 0) with 0 in Hds. fold (py_len sampled_token_ids) in Hds.
  assert (Hread : (x ← mapM (read_draft l p') (py_range 0 (py_len sampled_token_ids)); Ok (x, p')) = Ok (ds, p')) by by rewrite Hds.
  exists ds, p'. exact (conj Hread (conj Hlen Hall)).
Qed.

End Filing.

(** ** Instances *)

Lemma ngram_search_correct_witness :
  0 < 2 <= 3 /\
  find_longest_matched_ngram_and_propose_tokens [1; 2; 3; 9; 1; 2; 3; 8; 1; 2; 3] 2 3 100 2 = Ok [9; 1] /\
  exists draft, find_longest_matched_ngram_and_propose_tokens [1; 2; 3; 9; 1; 2; 3; 8; 1; 2; 3] 2 3 100 2 = Ok draft /\
    py_len draft <= 2.
Proof.
  split; [lia|]. split; [by vm_compute|].
  destruct (ngram_search_correct [1; 2; 3; 9; 1; 2; 3; 8; 1; 2; 3] 2 3 100 2 ltac:(lia)) as (d & Hd & Hk & _ & _).
  exists d. split; [done|]. destruct Hk as [->|[? _]]; [done | lia].
Defined.

(** The second of two requests is searched, the first is not: its draft goes to the
    row of the first, and it is given none. *)
Lemma ngram_drafts_by_position_witness :
  draft_of [0; 5] [[]; [7; 4; 6; 7; 4]] (new_proposer 1 2 2 100 4) 1 = Ok [6; 7] /\
  exists p', propose [0; 5] [[]; [7; 4; 6; 7; 4]] [[]; [4]] ["a"; "b"] ∅ (new_proposer 1 2 2 100 4) = Ok ([[]; []], p').
Proof.
  split; [by vm_compute|].
  destruct (ngram_drafts_by_position [0; 5] [[]; [7; 4; 6; 7; 4]] (new_proposer 1 2 2 100 4) [[]; [4]] ["a"; "b"] ∅)
    as (drafts & p' & Hr & Hl & Hall); [by vm_compute | vm_compute; lia.. |].
  exists p'. rewrite Hr. do 2 f_equal. destruct drafts as [|d0 [|d1 [|? ?]]]; try done.
  pose proof (Hall 0%nat d0 eq_refl) as H0. pose proof (Hall 1%nat d1 eq_refl) as H1.
  vm_compute in H0, H1. by rewrite H0, H1.
Defined.
