(* ===== verification/Offload.v ===== *)
(** * Off-loaded KV blocks

    The scheduler's side of KV off-loading, vllm/v1/kv_offload: the CPU backend
    that hands out block ids (backends/cpu.py), and the two managers that track
    which blocks are off-loaded and choose what to evict, [LRU]
    (lru_manager.py) and [ARC] (arc_manager.py).  [OffloadingManager] is the
    interface of abstract.py both implement.

    Block statuses are ctypes structures: a reference count is a 32-bit and a
    block id a 64-bit signed integer, and an assignment wraps.  The load and
    store specifications of the CPU backend are the block ids they hold. *)

From S2P Require Import Prelude PyDict PyList PyFloat Request.
#[local] Open Scope Z_scope.

(** ** Block statuses and the backend *)

Definition c_int (bits n : Z) : Z := (n + 2 ^ (bits - 1)) mod 2 ^ bits - 2 ^ (bits - 1).

Record BlockStatus := { ref_cnt : Z; block_id : Z }.
#[export] Instance eta_block_status : Eta BlockStatus := fun x => {| ref_cnt := ref_cnt x; block_id := block_id x |}.

Definition cpu_block_status (id : Z) : BlockStatus := {| ref_cnt := -1; block_id := c_int 64 id |}.
Definition set_ref_cnt (n : Z) (b : BlockStatus) : BlockStatus := b <| ref_cnt := c_int 32 n |>.
Definition is_ready (b : BlockStatus) : bool := 0 <=? ref_cnt b.

Record CPUBackend := {
  bk_block_size : Z;
  num_blocks : Z;
  num_allocated_blocks : Z;
  allocated_blocks_free_list : list Z;
}.
#[export] Instance eta_backend : Eta CPUBackend := fun x => {|
  bk_block_size := bk_block_size x; num_blocks := num_blocks x;
  num_allocated_blocks := num_allocated_blocks x; allocated_blocks_free_list := allocated_blocks_free_list x |}.

Definition new_backend (block_size num_blocks : Z) : CPUBackend := {|
  bk_block_size := block_size; num_blocks := num_blocks; num_allocated_blocks := 0; allocated_blocks_free_list := [] |}.

Definition medium : string := "CPU".

Definition get_num_free_blocks (b : CPUBackend) : Z :=
  py_len (allocated_blocks_free_list b) + num_blocks b - num_allocated_blocks b.

(** One fresh block. *)
Definition alloc_fresh (b : CPUBackend) : BlockStatus * CPUBackend :=
  (cpu_block_status (num_allocated_blocks b), b <| num_allocated_blocks := num_allocated_blocks b + 1 |>).

(** One block off the end of the free list. *)
Definition alloc_reused (b : CPUBackend) : result (BlockStatus * CPUBackend) :=
  match rev (allocated_blocks_free_list b) with
  | [] => Raise IndexError
  | id :: rest => Ok (cpu_block_status id, b <| allocated_blocks_free_list := rev rest |>)
  end.

Definition allocate_blocks (block_hashes : list BlockHash) (b : CPUBackend)
    : result (list BlockStatus * CPUBackend) :=
  let n := py_len block_hashes in
  let num_fresh := Z.min n (num_blocks b - num_allocated_blocks b) in
  let num_reused := n - num_fresh in
  _ ← py_assert (num_reused <=? py_len (allocated_blocks_free_list b));
  '(fresh, b) ← for_collect (fun (_ : Z) b => Ok (alloc_fresh b)) (py_range 0 num_fresh) b;
  '(reused, b) ← for_collect (fun (_ : Z) b => alloc_reused b) (py_range 0 num_reused) b;
  Ok (fresh ++ reused, b).

Definition backend_free (s : BlockStatus) (b : CPUBackend) : CPUBackend :=
  b <| allocated_blocks_free_list := allocated_blocks_free_list b ++ [block_id s] |>.

(** [CPULoadStoreSpec]: the block ids, as a NumPy array of 64-bit integers. *)
Definition LoadStoreSpec : Type := list Z.
Definition get_load_store_spec (blocks : list BlockStatus) : LoadStoreSpec := block_id <$> blocks.

(** ** What a manager answers *)

Record PrepareStoreOutput := {
  block_hashes_to_store : list BlockHash;
  store_spec : LoadStoreSpec;
  block_hashes_evicted : list BlockHash;
}.

Record OffloadingEvent := {
  oe_block_hashes : list BlockHash;
  oe_block_size : Z;
  oe_medium : string;
  oe_removed : bool;
}.

Definition offloading_event (hashes : list BlockHash) (removed : bool) (b : CPUBackend) : OffloadingEvent :=
  {| oe_block_hashes := hashes; oe_block_size := bk_block_size b; oe_medium := medium; oe_removed := removed |}.

(** [if hashes and self.events is not None: self.events.append(...)]. *)
Definition log_event (hashes : list BlockHash) (removed : bool) (b : CPUBackend)
    (events : option (list OffloadingEvent)) : option (list OffloadingEvent) :=
  match hashes with
  | [] => events
  | _ => (fun l => l ++ [offloading_event hashes removed b]) <$> events
  end.

(** The managers' common interface, with the iterables of the code as lists. *)
Class OffloadingManager (M : Type) := {
  om_lookup : list BlockHash -> M -> Z;
  om_prepare_load : list BlockHash -> M -> result (LoadStoreSpec * M);
  om_touch : list BlockHash -> M -> result M;
  om_complete_load : list BlockHash -> M -> result M;
  om_prepare_store : list BlockHash -> M -> result (option PrepareStoreOutput * M);
  om_complete_store : list BlockHash -> bool -> M -> result M;
  om_take_events : M -> list OffloadingEvent * M;
}.

(** [len] of the longest prefix of ready blocks. *)
Fixpoint count_hits (find : BlockHash -> option BlockStatus) (block_hashes : list BlockHash) : Z :=
  match block_hashes with
  | [] => 0
  | h :: hs => match find h with
               | Some b => if is_ready b then 1 + count_hits find hs else 0
               | None => 0
               end
  end.

Definition taken_events (events : option (list OffloadingEvent)) : list OffloadingEvent * option (list OffloadingEvent) :=
  match events with Some l => (l, Some []) | None => ([], None) end.

(** ** Least recently used *)

Module LRU.

Record Manager := mkManager {
  backend : CPUBackend;
  blocks : dict BlockHash BlockStatus;
  events : option (list OffloadingEvent);
}.
#[export] Instance eta_manager : Eta Manager := fun x => {| backend := backend x; blocks := blocks x; events := events x |}.

Definition new_manager (b : CPUBackend) (enable_events : bool) : Manager :=
  {| backend := b; blocks := []; events := if enable_events then Some [] else None |}.

Definition lookup (block_hashes : list BlockHash) (m : Manager) : Z :=
  count_hits (fun h => dget h (blocks m)) block_hashes.

Definition load_one (h : BlockHash) (m : Manager) : result (BlockStatus * Manager) :=
  b ← or_raise KeyError (dget h (blocks m));
  _ ← py_assert (is_ready b);
  let b := set_ref_cnt (ref_cnt b + 1) b in
  Ok (b, m <| blocks := dset h b (blocks m) |>).

Definition prepare_load (block_hashes : list BlockHash) (m : Manager) : result (LoadStoreSpec * Manager) :=
  '(bs, m) ← for_collect load_one block_hashes m;
  Ok (get_load_store_spec bs, m).

Definition touch_one (h : BlockHash) (m : Manager) : result Manager :=
  match dget h (blocks m) with
  | Some _ => d ← or_raise KeyError (dmove_to_end h (blocks m)); Ok (m <| blocks := d |>)
  | None => Ok m
  end.

Definition touch (block_hashes : list BlockHash) (m : Manager) : result Manager :=
  for_each touch_one (rev block_hashes) m.

Definition unload_one (h : BlockHash) (m : Manager) : result Manager :=
  b ← or_raise KeyError (dget h (blocks m));
  _ ← py_assert (0 <? ref_cnt b);
  Ok (m <| blocks := dset h (set_ref_cnt (ref_cnt b - 1) b) (blocks m) |>).

Definition complete_load (block_hashes : list BlockHash) (m : Manager) : result Manager :=
  for_each unload_one block_hashes m.

(** The first [n > 0] blocks nobody uses, or [None]. *)
Fixpoint scan_victims (n : Z) (items : dict BlockHash BlockStatus) : option (list BlockHash) :=
  match items with
  | [] => None
  | (h, b) :: items =>
      if ref_cnt b =? 0 then
        if n - 1 =? 0 then Some [h] else (fun l => h :: l) <$> scan_victims (n - 1) items
      else scan_victims n items
  end.

Definition evict_one (h : BlockHash) (m : Manager) : result Manager :=
  b ← or_raise KeyError (dget h (blocks m));
  Ok (m <| blocks := ddel h (blocks m) |> <| backend := backend_free b (backend m) |>).

Definition insert_all (items : list (BlockHash * BlockStatus)) (d : dict BlockHash BlockStatus) : dict BlockHash BlockStatus :=
  fold_left (fun d p => dset p.1 p.2 d) items d.

(** The part of [prepare_store] after the victims are chosen. *)
Definition store_new (to_store to_evict : list BlockHash) (m : Manager) : result (option PrepareStoreOutput * Manager) :=
  m ← for_each evict_one to_evict m;
  let m := m <| events := log_event to_evict true (backend m) (events m) |> in
  '(bs, b) ← allocate_blocks to_store (backend m);
  let m := m <| backend := b |> in
  _ ← py_assert (py_len bs =? py_len to_store);
  let m := m <| blocks := insert_all (combine to_store bs) (blocks m) |> in
  Ok (Some {| block_hashes_to_store := to_store; store_spec := get_load_store_spec bs;
              block_hashes_evicted := to_evict |}, m).

Definition prepare_store (block_hashes : list BlockHash) (m : Manager) : result (option PrepareStoreOutput * Manager) :=
  let to_store := List.filter (fun h => negb (dmem h (blocks m))) block_hashes in
  let num_blocks_to_evict := py_len to_store - get_num_free_blocks (backend m) in
  if 0 <? num_blocks_to_evict then
    match scan_victims num_blocks_to_evict (blocks m) with
    | None => Ok (None, m)
    | Some to_evict => store_new to_store to_evict m
    end
  else store_new to_store [] m.

(** A stored block becomes ready. *)
Definition stored_one (h : BlockHash) (m : Manager) : result (list BlockHash * Manager) :=
  b ← or_raise KeyError (dget h (blocks m));
  if is_ready b then Ok ([], m)
  else Ok ([h], m <| blocks := dset h (set_ref_cnt 0 b) (blocks m) |>).

Definition failed_one (h : BlockHash) (m : Manager) : result Manager :=
  b ← or_raise KeyError (dget h (blocks m));
  if is_ready b then Ok m
  else Ok (m <| backend := backend_free b (backend m) |> <| blocks := ddel h (blocks m) |>).

Definition complete_store (block_hashes : list BlockHash) (success : bool) (m : Manager) : result Manager :=
  if success then
    '(stored, m) ← for_collect stored_one block_hashes m;
    Ok (m <| events := log_event (concat stored) false (backend m) (events m) |>)
  else for_each failed_one block_hashes m.

Definition take_events (m : Manager) : list OffloadingEvent * Manager :=
  let '(l, e) := taken_events (events m) in (l, m <| events := e |>).

#[export] Instance manager : OffloadingManager Manager := {
  om_lookup := lookup; om_prepare_load := prepare_load; om_touch := touch; om_complete_load := complete_load;
  om_prepare_store := prepare_store; om_complete_store := complete_store; om_take_events := take_events }.

End LRU.

(** ** Adaptive replacement *)

Module ARC.

(** [target_t1_size] is a float that [min] and [max] may replace by the int
    bounds; ints of this size are floats exactly. *)
Record Manager := mkManager {
  backend : CPUBackend;
  target_t1_size : float;
  t1 : dict BlockHash BlockStatus;
  t2 : dict BlockHash BlockStatus;
  b1 : dict BlockHash unit;
  b2 : dict BlockHash unit;
  events : option (list OffloadingEvent);
  cache_capacity : Z;
}.
#[export] Instance eta_manager : Eta Manager := fun x => {|
  backend := backend x; target_t1_size := target_t1_size x; t1 := t1 x; t2 := t2 x; b1 := b1 x; b2 := b2 x;
  events := events x; cache_capacity := cache_capacity x |}.

Definition new_manager (b : CPUBackend) (enable_events : bool) : Manager := {|
  backend := b; target_t1_size := fzero; t1 := []; t2 := []; b1 := []; b2 := [];
  events := if enable_events then Some [] else None; cache_capacity := get_num_free_blocks b |}.

(** [self.t1.get(h) or self.t2.get(h)]. *)
Definition find (m : Manager) (h : BlockHash) : option BlockStatus :=
  match dget h (t1 m) with Some b => Some b | None => dget h (t2 m) end.

(** A mutation of the block found under [h]. *)
Definition write (h : BlockHash) (b : BlockStatus) (m : Manager) : Manager :=
  if dmem h (t1 m) then m <| t1 := dset h b (t1 m) |> else m <| t2 := dset h b (t2 m) |>.

Definition lookup (block_hashes : list BlockHash) (m : Manager) : Z := count_hits (find m) block_hashes.

Definition load_one (h : BlockHash) (m : Manager) : result (BlockStatus * Manager) :=
  b ← or_raise AssertionError (find m h);
  _ ← py_assert (is_ready b);
  let b := set_ref_cnt (ref_cnt b + 1) b in
  Ok (b, write h b m).

Definition prepare_load (block_hashes : list BlockHash) (m : Manager) : result (LoadStoreSpec * Manager) :=
  '(bs, m) ← for_collect load_one block_hashes m;
  Ok (get_load_store_spec bs, m).

(** [max(1, a / b)], [min(x, hi)] and [max(x, 0)] on numbers. *)
Definition delta (a b : Z) : float :=
  let r := fdiv (float_of_Z a) (float_of_Z b) in if flt (float_of_Z 1) r then r else float_of_Z 1.
Definition raise_target (a b : Z) (m : Manager) : Manager :=
  let x := fadd (target_t1_size m) (delta a b) in
  let hi := float_of_Z (cache_capacity m) in
  m <| target_t1_size := if flt hi x then hi else x |>.
Definition lower_target (a b : Z) (m : Manager) : Manager :=
  let x := fsub (target_t1_size m) (delta a b) in
  m <| target_t1_size := if flt x fzero then fzero else x |>.

Definition touch_one (h : BlockHash) (m : Manager) : result Manager :=
  match dget h (t1 m) with
  | Some b =>
      let m := m <| t1 := ddel h (t1 m) |> in
      if negb (is_ready b) then d ← or_raise KeyError (dmove_to_end h (t1 m)); Ok (m <| t1 := d |>)
      else Ok (m <| t2 := dset h b (t2 m) |>)
  | None =>
      if dmem h (t2 m) then d ← or_raise KeyError (dmove_to_end h (t2 m)); Ok (m <| t2 := d |>)
      else if dmem h (b1 m) then
        let m := raise_target (py_len (b2 m)) (py_len (b1 m)) m in
        d ← or_raise KeyError (dmove_to_end h (b1 m)); Ok (m <| b1 := d |>)
      else if dmem h (b2 m) then
        let m := lower_target (py_len (b1 m)) (py_len (b2 m)) m in
        d ← or_raise KeyError (dmove_to_end h (b2 m)); Ok (m <| b2 := d |>)
      else Ok m
  end.

Definition touch (block_hashes : list BlockHash) (m : Manager) : result Manager :=
  for_each touch_one (rev block_hashes) m.

Definition unload_one (h : BlockHash) (m : Manager) : result Manager :=
  b ← or_raise AssertionError (find m h);
  _ ← py_assert (0 <? ref_cnt b);
  Ok (write h (set_ref_cnt (ref_cnt b - 1) b) m).

Definition complete_load (block_hashes : list BlockHash) (m : Manager) : result Manager :=
  for_each unload_one block_hashes m.

(** The oldest block nobody uses. *)
Definition oldest_unused (d : dict BlockHash BlockStatus) : option (BlockHash * BlockStatus) :=
  List.find (fun p => ref_cnt p.2 =? 0) d.

Definition evict_t1 (p : BlockHash * BlockStatus) (m : Manager) : Manager :=
  m <| t1 := ddel p.1 (t1 m) |> <| b1 := dset p.1 tt (b1 m) |> <| backend := backend_free p.2 (backend m) |>.
Definition evict_t2 (p : BlockHash * BlockStatus) (m : Manager) : Manager :=
  m <| t2 := ddel p.1 (t2 m) |> <| b2 := dset p.1 tt (b2 m) |> <| backend := backend_free p.2 (backend m) |>.

(** One turn of the eviction loop: the evicted block, or [None]. *)
Definition evict_one (m : Manager) : result (option BlockHash * Manager) :=
  target ← py_int (target_t1_size m);
  let from_t1 := if (target : Z) <=? py_len (t1 m) then oldest_unused (t1 m) else None in
  match from_t1 with
  | Some p => Ok (Some p.1, evict_t1 p m)
  | None =>
      match oldest_unused (t2 m) with
      | Some p => Ok (Some p.1, evict_t2 p m)
      | None => Ok (None, m)
      end
  end.

(** [while num_blocks_to_evict > 0]; [None] when a turn finds nothing. *)
Fixpoint evict_loop (n : nat) (evicted : list BlockHash) (m : Manager) : result (option (list BlockHash) * Manager) :=
  match n with
  | O => Ok (Some evicted, m)
  | S n =>
      '(h, m) ← evict_one m;
      match h with
      | Some h => evict_loop n (evicted ++ [h]) m
      | None => Ok (None, m)
      end
  end.

(** The ghost lists forget their oldest entries. *)
Definition trim (cap : Z) (b : dict BlockHash unit) : dict BlockHash unit :=
  drop (Z.to_nat (py_len b - cap)) b.

Definition insert_one (m : Manager) (p : BlockHash * BlockStatus) : Manager :=
  m <| t1 := dset p.1 p.2 (t1 m) |> <| b1 := ddel p.1 (b1 m) |> <| b2 := ddel p.1 (b2 m) |>.

Definition store_new (to_store to_evict : list BlockHash) (m : Manager) : result (option PrepareStoreOutput * Manager) :=
  let m := m <| b1 := trim (cache_capacity m) (b1 m) |> <| b2 := trim (cache_capacity m) (b2 m) |> in
  let m := m <| events := log_event to_evict true (backend m) (events m) |> in
  '(bs, b) ← allocate_blocks to_store (backend m);
  let m := m <| backend := b |> in
  _ ← py_assert (py_len bs =? py_len to_store);
  let m := fold_left insert_one (combine to_store bs) m in
  Ok (Some {| block_hashes_to_store := to_store; store_spec := get_load_store_spec bs;
              block_hashes_evicted := to_evict |}, m).

Definition prepare_store (block_hashes : list BlockHash) (m : Manager) : result (option PrepareStoreOutput * Manager) :=
  let to_store := List.filter (fun h => negb (dmem h (t1 m)) && negb (dmem h (t2 m))) block_hashes in
  match to_store with
  | [] => Ok (Some {| block_hashes_to_store := []; store_spec := []; block_hashes_evicted := [] |}, m)
  | _ =>
      '(evicted, m) ← evict_loop (Z.to_nat (py_len to_store - get_num_free_blocks (backend m))) [] m;
      match evicted with
      | None => Ok (None, m)
      | Some to_evict => store_new to_store to_evict m
      end
  end.

Definition stored_one (h : BlockHash) (m : Manager) : list BlockHash * Manager :=
  match find m h with
  | Some b => if is_ready b then ([], m) else ([h], write h (set_ref_cnt 0 b) m)
  | None => ([], m)
  end.

(** [self.t1.pop(h, None)], then [self.t2.pop(h, None)]: taken out whether ready or not. *)
Definition failed_one (h : BlockHash) (m : Manager) : Manager :=
  let '(b, m) := match dget h (t1 m) with
    | Some b => (Some b, m <| t1 := ddel h (t1 m) |>)
    | None => (dget h (t2 m), m <| t2 := ddel h (t2 m) |>)
    end in
  match b with
  | Some b => if is_ready b then m else m <| backend := backend_free b (backend m) |>
  | None => m
  end.

Definition complete_store (block_hashes : list BlockHash) (success : bool) (m : Manager) : result Manager :=
  if success then
    '(stored, m) ← for_collect (fun h m => Ok (stored_one h m)) block_hashes m;
    Ok (m <| events := log_event (concat stored) false (backend m) (events m) |>)
  else Ok (fold_left (fun m h => failed_one h m) block_hashes m).

Definition take_events (m : Manager) : list OffloadingEvent * Manager :=
  let '(l, e) := taken_events (events m) in (l, m <| events := e |>).

#[export] Instance manager : OffloadingManager Manager := {
  om_lookup := lookup; om_prepare_load := prepare_load; om_touch := touch; om_complete_load := complete_load;
  om_prepare_store := prepare_store; om_complete_store := complete_store; om_take_events := take_events }.

End ARC.

(** [CPUOffloadingSpec.get_manager]: the manager of the configured policy. *)
Definition get_manager (eviction_policy : string) (b : CPUBackend) (enable_events : bool)
    : result (LRU.Manager + ARC.Manager) :=
  if decide (eviction_policy = "lru") then Ok (inl (LRU.new_manager b enable_events))
  else if decide (eviction_policy = "arc") then Ok (inr (ARC.new_manager b enable_events))
  else Raise ValueError.

#[export] Existing Instance LRU.manager.
#[export] Existing Instance ARC.manager.
