(* ===== verification/OffloadInv.v ===== *)
(** * What off-loading managers promise

    [OffloadingLaws] is the contract the connector relies on: a manager is a map
    from hashes to block statuses whose block ids never collide; blocks in
    use are never evicted.  The accounting of the CPU backend, shared by both
    managers, and the proof that the LRU manager keeps the contract.  The ARC manager does not: touching a block
    that is still being stored raises there. *)

From S2P Require Import Prelude PyDict PyList PyInt PyFloat Request Offload.
#[local] Open Scope Z_scope.

Definition unused (b : BlockStatus) : Prop := ref_cnt b = 0.
Definition fresh_status (id : Z) : BlockStatus := {| ref_cnt := -1; block_id := id |}.

Definition bump (n : Z) (b : BlockStatus) : BlockStatus := b <| ref_cnt := ref_cnt b + n |>.

(** A reference count that fits, with room for another reader. *)
Definition status_ok (b : BlockStatus) : Prop := -1 <= ref_cnt b < 2 ^ 31 - 1.

(** ** The contract *)

Class OffloadingLaws (M : Type) `{OffloadingManager M} := {
  om_ok : M -> Prop;
  om_block : BlockHash -> M -> option BlockStatus;

  (** A block's id is a slot of its own. *)
  om_slots : forall m h h' b b', om_ok m -> om_block h m = Some b -> om_block h' m = Some b' ->
    block_id b = block_id b' -> h = h';

  om_lookup_law : forall hs m, om_lookup hs m = count_hits (fun h => om_block h m) hs;

  (** Loading pins the blocks; the specification lists their slots. *)
  om_prepare_load_law : forall hs m, om_ok m -> NoDup hs ->
    (forall h, h ∈ hs -> exists b, om_block h m = Some b /\ 0 <= ref_cnt b < 2 ^ 31 - 2) ->
    exists spec m', om_prepare_load hs m = Ok (spec, m') /\ om_ok m' /\
      spec = omap (fun h => block_id <$> om_block h m) hs /\
      forall h, om_block h m' = if bool_decide (h ∈ hs) then bump 1 <$> om_block h m else om_block h m;
  om_complete_load_law : forall hs m, om_ok m -> NoDup hs ->
    (forall h, h ∈ hs -> exists b, om_block h m = Some b /\ 0 < ref_cnt b) ->
    exists m', om_complete_load hs m = Ok m' /\ om_ok m' /\
      forall h, om_block h m' = if bool_decide (h ∈ hs) then bump (-1) <$> om_block h m else om_block h m;

  (** Recency only: no block comes, goes or changes. *)
  om_touch_law : forall hs m, om_ok m ->
    exists m', om_touch hs m = Ok m' /\ om_ok m' /\ forall h, om_block h m' = om_block h m;

  (** Storing: the blocks that are absent get slots of their own, not ready yet; room is made by evicting
      unused blocks only; the answer [None] may have evicted unused blocks too. *)
  om_prepare_store_law : forall hs m, om_ok m -> NoDup hs ->
    exists out m', om_prepare_store hs m = Ok (out, m') /\ om_ok m' /\
      match out with
      | None => forall h, om_block h m' = om_block h m \/
          om_block h m' = None /\ exists b, om_block h m = Some b /\ unused b
      | Some o =>
          block_hashes_to_store o = List.filter (fun h => negb (bool_decide (is_Some (om_block h m)))) hs /\
          length (store_spec o) = length (block_hashes_to_store o) /\
          (forall h, h ∈ block_hashes_evicted o -> exists b, om_block h m = Some b /\ unused b) /\
          forall h, om_block h m' =
            match list_find (eq h) (block_hashes_to_store o) with
            | Some (i, _) => fresh_status <$> store_spec o !! i
            | None => if bool_decide (h ∈ block_hashes_evicted o) then None else om_block h m
            end
      end;

  (** A completed store makes its blocks ready; a failed one forgets them. *)
  om_stored_law : forall hs m, om_ok m -> NoDup hs -> (forall h, h ∈ hs -> is_Some (om_block h m)) ->
    exists m', om_complete_store hs true m = Ok m' /\ om_ok m' /\
      forall h, om_block h m' = if bool_decide (h ∈ hs)
        then (fun b => if is_ready b then b else b <| ref_cnt := 0 |>) <$> om_block h m else om_block h m;
  om_failed_law : forall hs m, om_ok m -> NoDup hs ->
    (forall h, h ∈ hs -> exists b, om_block h m = Some b /\ is_ready b = false) ->
    exists m', om_complete_store hs false m = Ok m' /\ om_ok m' /\
      forall h, om_block h m' = if bool_decide (h ∈ hs) then None else om_block h m;
}.

(** ** Slots of the backend *)

Lemma c_int_id bits n : 0 < bits -> - 2 ^ (bits - 1) <= n < 2 ^ (bits - 1) -> c_int bits n = n.
Proof.
  intros Hb Hn. unfold c_int. assert (2 ^ bits = 2 * 2 ^ (bits - 1)) as ->.
  { rewrite <- Z.pow_succ_r by lia. f_equal. lia. }
  rewrite Z.mod_small; lia.
Qed.

Lemma set_ref_cnt_ok n b : -2 ^ 31 <= n < 2 ^ 31 -> set_ref_cnt n b = b <| ref_cnt := n |>.
Proof. intros. unfold set_ref_cnt. by rewrite c_int_id by (cbn; lia). Qed.

Lemma set_ref_cnt_bump n b : -2 ^ 31 <= ref_cnt b + n < 2 ^ 31 -> set_ref_cnt (ref_cnt b + n) b = bump n b.
Proof. intros. by rewrite set_ref_cnt_ok. Qed.

(** Every slot handed out so far is either held, once, or free. *)
Definition slots (b : CPUBackend) (ids : list Z) : Prop :=
  ids ++ allocated_blocks_free_list b ≡ₚ seqZ 0 (num_allocated_blocks b) /\
  0 <= num_allocated_blocks b <= num_blocks b /\ num_blocks b <= 2 ^ 63.

Lemma slots_perm b ids ids' : ids ≡ₚ ids' -> slots b ids -> slots b ids'.
Proof. intros Hp [h1 h2]. split; [by rewrite <- Hp | done]. Qed.

Lemma slots_free s b ids : slots b (block_id s :: ids) -> slots (backend_free s b) ids.
Proof.
  intros [h1 h2]. split; [|done]. cbn. rewrite <- h1. cbn.
  by rewrite (assoc_L (++)), <- Permutation_cons_append.
Qed.

Lemma slots_count b ids : slots b ids -> get_num_free_blocks b = num_blocks b - py_len ids.
Proof.
  intros [h1 h2]. apply Permutation_length in h1. rewrite length_app, length_seqZ in h1.
  unfold get_num_free_blocks, py_len. lia.
Qed.

Lemma slots_NoDup b ids : slots b ids -> NoDup ids.
Proof. intros [h1 _]. pose proof (NoDup_seqZ 0 (num_allocated_blocks b)) as Hn. rewrite <- h1 in Hn. by apply NoDup_app in Hn as [? _]. Qed.

Lemma slots_range b ids id : slots b ids -> id ∈ ids ++ allocated_blocks_free_list b -> 0 <= id < num_blocks b.
Proof. intros [h1 h2]. rewrite h1, elem_of_seqZ. lia. Qed.

Lemma alloc_fresh_loop n o b ids :
  slots b ids -> num_allocated_blocks b + Z.of_nat n <= num_blocks b ->
  exists new b', for_collect (fun (_ : Z) b => Ok (alloc_fresh b)) (seqZ o (Z.of_nat n)) b = Ok (fresh_status <$> new, b') /\
    length new = n /\ slots b' (ids ++ new) /\ num_blocks b' = num_blocks b /\
    allocated_blocks_free_list b' = allocated_blocks_free_list b.
Proof.
  revert o b ids. induction n as [|n IH]; intros o b ids Hs Hn.
  - exists [], b. rewrite app_nil_r. done.
  - rewrite seqZ_cons by lia. set (b1 := b <| num_allocated_blocks := num_allocated_blocks b + 1 |>).
    destruct Hs as (h1 & h2 & h3).
    assert (Hs1 : slots b1 (ids ++ [num_allocated_blocks b])).
    { split; [|cbn; lia]. cbn. rewrite seqZ_app by lia. rewrite Z.add_0_l, <- h1, <- !(assoc_L (++)).
      apply Permutation_app_head. rewrite (seqZ_cons _ 1), seqZ_nil by lia. apply Permutation_app_comm. }
    destruct (IH (Z.succ o) b1 _ Hs1) as (new & b' & Hr & Hl & Hs' & Hb & Hf); [cbn; lia|].
    exists (num_allocated_blocks b :: new), b'. split; [|split; [by cbn; rewrite Hl|]].
    + apply (for_collect_cons_ok _ _ _ _ (fresh_status (num_allocated_blocks b)) b1).
      * unfold alloc_fresh, cpu_block_status. by rewrite c_int_id by (cbn; lia).
      * by replace (Z.pred (Z.of_nat (S n))) with (Z.of_nat n) by lia.
    + rewrite <- (assoc_L (++)) in Hs'. done.
Qed.

Lemma alloc_reused_loop n o b ids :
  slots b ids -> (n <= length (allocated_blocks_free_list b))%nat ->
  exists new b', for_collect (fun (_ : Z) b => alloc_reused b) (seqZ o (Z.of_nat n)) b = Ok (fresh_status <$> new, b') /\
    length new = n /\ slots b' (ids ++ new) /\ num_blocks b' = num_blocks b.
Proof.
  revert o b ids. induction n as [|n IH]; intros o b ids Hs Hn.
  - exists [], b. rewrite app_nil_r. done.
  - rewrite seqZ_cons by lia.
    destruct (rev (allocated_blocks_free_list b)) as [|id rest] eqn:Hrev.
    { apply (f_equal length) in Hrev. rewrite length_rev in Hrev. cbn in Hrev. lia. }
    apply (f_equal (@rev Z)) in Hrev as Hfree. rewrite rev_involutive in Hfree. cbn in Hfree.
    set (b1 := b <| allocated_blocks_free_list := rev rest |>).
    assert (Hid : 0 <= id < num_blocks b).
    { apply (slots_range b ids); [done|]. rewrite Hfree. set_solver. }
    destruct Hs as (h1 & h2 & h3).
    assert (Hs1 : slots b1 (ids ++ [id])).
    { split; [|done]. cbn. rewrite <- h1, Hfree, <- (assoc_L (++)). apply Permutation_app_head, Permutation_app_comm. }
    destruct (IH (Z.succ o) b1 _ Hs1) as (new & b' & Hr & Hl & Hs' & Hb).
    { rewrite Hfree, length_app in Hn. cbn in Hn |- *. lia. }
    exists (id :: new), b'. split; [|split; [by cbn; rewrite Hl|]].
    + apply (for_collect_cons_ok _ _ _ _ (fresh_status id) b1).
      * unfold alloc_reused, cpu_block_status. rewrite Hrev. by rewrite c_int_id by (cbn; lia).
      * by replace (Z.pred (Z.of_nat (S n))) with (Z.of_nat n) by lia.
    + rewrite <- (assoc_L (++)) in Hs'. done.
Qed.

(** With enough free blocks an allocation returns that many new slots. *)
Lemma allocate_blocks_ok hs b ids :
  slots b ids -> py_len hs <= get_num_free_blocks b ->
  exists new b', allocate_blocks hs b = Ok (fresh_status <$> new, b') /\ length new = length hs /\
    slots b' (ids ++ new) /\ num_blocks b' = num_blocks b.
Proof.
  intros Hs Hn. unfold allocate_blocks, get_num_free_blocks, py_len in *.
  destruct Hs as (h1 & h2 & h3).
  set (f := Z.min (Z.of_nat (length hs)) (num_blocks b - num_allocated_blocks b)).
  rewrite (proj2 (Z.leb_le _ _)) by lia.
  destruct (alloc_fresh_loop (Z.to_nat f) 0 b ids) as (n1 & b1 & Hr1 & Hl1 & Hs1 & Hb1 & Hf1); [done | lia|].
  destruct (alloc_reused_loop (length hs - Z.to_nat f) 0 b1 _ Hs1) as (n2 & b2 & Hr2 & Hl2 & Hs2 & Hb2); [rewrite Hf1; lia|].
  exists (n1 ++ n2), b2. unfold py_range. rewrite !Z.sub_0_r.
  replace f with (Z.of_nat (Z.to_nat f)) by lia. rewrite Hr1.
  replace (Z.of_nat (length hs) - Z.of_nat (Z.to_nat f)) with (Z.of_nat (length hs - Z.to_nat f)) by lia.
  cbn [mbind result_bind py_assert]. rewrite Hr2. cbn [mbind result_bind].
  rewrite fmap_app, length_app. split; [done|]. split; [lia|]. split; [by rewrite (assoc_L (++))|]. by rewrite Hb2.
Qed.

(** ** Dictionaries of statuses *)

Abbreviation table := (dict BlockHash BlockStatus).
Definition ids_of (d : table) : list Z := block_id <$> dvalues d.

Lemma dget_app {V} h (d1 d2 : dict BlockHash V) :
  dget h (d1 ++ d2) = match dget h d1 with Some v => Some v | None => dget h d2 end.
Proof. induction d1 as [|[k v] d1 IH]; cbn; [done|]. by case_decide. Qed.

Lemma dget_combine {V} h (hs : list BlockHash) (vs : list V) :
  length hs = length vs ->
  dget h (combine hs vs) = match list_find (eq h) hs with Some (i, _) => vs !! i | None => None end.
Proof.
  revert vs. induction hs as [|k hs IH]; intros [|v vs] Hl; try done. cbn. case_decide; [done|].
  rewrite IH by by injection Hl. destruct (list_find (eq h) hs) as [[i ?]|]; done.
Qed.

Lemma ids_dset h b b' d : dget h d = Some b -> block_id b' = block_id b -> ids_of (dset h b' d) = ids_of d.
Proof.
  unfold ids_of, dvalues. intros Hb Hid. induction d as [|[k v] d IH]; cbn in *; [done|].
  case_decide; cbn; [injection Hb as ->; by rewrite Hid | by rewrite IH].
Qed.

Lemma ids_ddel h b d : dget h d = Some b -> block_id b :: ids_of (ddel h d) ≡ₚ ids_of d.
Proof. intros Hb%ddel_Permutation. unfold ids_of, dvalues. by rewrite <- Hb at 2. Qed.

Lemma ids_app d1 d2 : ids_of (d1 ++ d2) = ids_of d1 ++ ids_of d2.
Proof. unfold ids_of, dvalues. by rewrite !fmap_app. Qed.

Lemma ids_find h b (d : table) : dget h d = Some b -> block_id b ∈ ids_of d.
Proof. intros Hb%ids_ddel. rewrite <- Hb. by left. Qed.

Lemma ids_inj (d : table) h h' b b' :
  NoDup (ids_of d) -> dget h d = Some b -> dget h' d = Some b' -> block_id b = block_id b' -> h = h'.
Proof.
  intros Hn Hb Hb' Hid. destruct (decide (h = h')) as [|Hne]; [done|]. exfalso.
  rewrite <- (ids_ddel h b d Hb) in Hn. apply NoDup_cons in Hn as [Hnot _]. apply Hnot.
  rewrite Hid. apply (ids_find h'). by rewrite dget_ddel_ne.
Qed.

Lemma ids_combine hs new : length hs = length new -> ids_of (combine hs (fresh_status <$> new)) = new.
Proof.
  unfold ids_of, dvalues. revert new. induction hs as [|h hs IH]; intros [|i new] Hl; try done. cbn.
  f_equal. apply IH. by injection Hl.
Qed.

(** Keys that are new go to the end, in order. *)
Lemma insert_new_keys {V} (items : dict BlockHash V) d :
  NoDup (dkeys items) -> (forall h, h ∈ dkeys items -> h ∉ dkeys d) ->
  fold_left (fun d p => dset p.1 p.2 d) items d = d ++ items.
Proof.
  unfold dkeys. revert d. induction items as [|[h v] items IH]; intros d Hn Hd; cbn; [by rewrite app_nil_r|].
  cbn in Hn. apply NoDup_cons in Hn as [Hnot Hn].
  rewrite dset_new by (apply Hd; by left). rewrite IH; [by rewrite <- (assoc_L (++))|done|].
  intros k Hk. rewrite fmap_app, elem_of_app. cbn. intros [Hin|Hin].
  - by eapply Hd; [right|].
  - apply list_elem_of_singleton in Hin as ->. done.
Qed.

Lemma dkeys_combine {V} (hs : list BlockHash) (vs : list V) : length hs = length vs -> dkeys (combine hs vs) = hs.
Proof.
  unfold dkeys. revert vs. induction hs as [|h hs IH]; intros [|v vs] Hl; try done. cbn. f_equal. apply IH. by injection Hl.
Qed.

Lemma dget_moved {V} h (d d' : dict BlockHash V) :
  dict_ok d -> dmove_to_end h d = Some d' -> d' ≡ₚ d /\ dict_ok d' /\ forall k, dget k d' = dget k d.
Proof.
  unfold dmove_to_end. intros Hok Hm. destruct (dget h d) as [v|] eqn:Hv; [|done]. injection Hm as <-.
  assert (Hp : ddel h d ++ [(h, v)] ≡ₚ d) by (rewrite <- Permutation_cons_append; by apply ddel_Permutation).
  split; [done|]. split.
  - unfold dict_ok, dkeys. by rewrite Hp.
  - intros k. rewrite dget_app. cbn. destruct (decide (k = h)) as [->|Hne].
    + by rewrite dget_ddel_eq.
    + rewrite dget_ddel_ne by done. by destruct (dget k d).
Qed.

Lemma fmap_sublist {A B} (f : A -> B) l k : l `sublist_of` k -> f <$> l `sublist_of` f <$> k.
Proof. induction 1; cbn; by constructor. Qed.

(** ** Loops over distinct hashes

    A loop whose step changes the status of its own hash only, to [g] of what it
    was, changes exactly the statuses of the hashes it visits. *)

Section Loops.
Context {M B : Type} (ok : M -> Prop) (blk : BlockHash -> M -> option BlockStatus).
Context (P : BlockStatus -> Prop) (g : BlockStatus -> option BlockStatus).

Definition visited (hs : list BlockHash) (m m' : M) : Prop :=
  forall k, blk k m' = if bool_decide (k ∈ hs) then blk k m ≫= g else blk k m.

Lemma visited_cons h hs m m1 m' :
  h ∉ hs -> blk h m1 = blk h m ≫= g -> (forall k, k <> h -> blk k m1 = blk k m) -> visited hs m1 m' -> visited (h :: hs) m m'.
Proof.
  intros Hnot Hh Hk Hv k. rewrite Hv. destruct (decide (k = h)) as [->|Hne].
  - rewrite bool_decide_eq_false_2 by done. by rewrite bool_decide_eq_true_2 by by left.
  - rewrite Hk by done. by rewrite (bool_decide_ext (k ∈ h :: hs) (k ∈ hs)) by set_solver.
Qed.

Lemma visited_nil m : visited [] m m.
Proof. intros k. by rewrite bool_decide_eq_false_2 by apply not_elem_of_nil. Qed.

Lemma each_pointwise (body : BlockHash -> M -> result M) hs m :
  (forall h m b, ok m -> blk h m = Some b -> P b ->
    exists m', body h m = Ok m' /\ ok m' /\ blk h m' = g b /\ forall k, k <> h -> blk k m' = blk k m) ->
  ok m -> NoDup hs -> (forall h, h ∈ hs -> exists b, blk h m = Some b /\ P b) ->
  exists m', for_each body hs m = Ok m' /\ ok m' /\ visited hs m m'.
Proof.
  intros Hstep. revert m. induction hs as [|h hs IH]; intros m Hok Hn Hall.
  - exists m. split; [done|]. split; [done|]. apply visited_nil.
  - apply NoDup_cons in Hn as [Hnot Hn]. destruct (Hall h) as (b & Hb & Hp); [by left|].
    destruct (Hstep h m b Hok Hb Hp) as (m1 & Hr & Hok1 & Hg & Hk).
    destruct (IH m1 Hok1 Hn) as (m' & Hr' & Hok' & Hv).
    { intros k Hin. rewrite Hk by (intros ->; done). apply Hall. by right. }
    exists m'. split; [by eapply for_each_cons_ok|]. split; [done|]. eapply visited_cons; [done | by rewrite Hg, Hb | done..].
Qed.

Lemma collect_pointwise (R : BlockHash -> BlockStatus -> B -> Prop) (body : BlockHash -> M -> result (B * M)) hs m :
  (forall h m b, ok m -> blk h m = Some b -> P b ->
    exists y m', body h m = Ok (y, m') /\ ok m' /\ R h b y /\ blk h m' = g b /\ forall k, k <> h -> blk k m' = blk k m) ->
  ok m -> NoDup hs -> (forall h, h ∈ hs -> exists b, blk h m = Some b /\ P b) ->
  exists ys m', for_collect body hs m = Ok (ys, m') /\ ok m' /\ visited hs m m' /\
    Forall2 (fun h y => exists b, blk h m = Some b /\ R h b y) hs ys.
Proof.
  intros Hstep. revert m. induction hs as [|h hs IH]; intros m Hok Hn Hall.
  - exists [], m. split; [done|]. split; [done|]. split; [apply visited_nil | done].
  - apply NoDup_cons in Hn as [Hnot Hn]. destruct (Hall h) as (b & Hb & Hp); [by left|].
    destruct (Hstep h m b Hok Hb Hp) as (y & m1 & Hr & Hok1 & HR & Hg & Hk).
    destruct (IH m1 Hok1 Hn) as (ys & m' & Hr' & Hok' & Hv & Hf).
    { intros k Hin. rewrite Hk by (intros ->; done). apply Hall. by right. }
    exists (y :: ys), m'. split; [by eapply for_collect_cons_ok|]. split; [done|].
    split; [eapply visited_cons; [done | by rewrite Hg, Hb | done..]|]. constructor; [by exists b|].
    eapply Forall2_impl_in; [exact Hf|]. intros k z Hin (c & Hc & HR'). exists c. split; [|done].
    rewrite <- Hk; [done|]. by intros ->.
Qed.

End Loops.

(** The slots of the loaded blocks, in the order asked for. *)
Lemma slots_listed (find : BlockHash -> option BlockStatus) hs bs :
  Forall2 (fun h b' => exists b, find h = Some b /\ block_id b' = block_id b) hs bs ->
  get_load_store_spec bs = omap (fun h => block_id <$> find h) hs.
Proof. unfold get_load_store_spec. induction 1 as [|h b' hs bs (b & Hb & Hid) _ IH]; [done|]. cbn. by rewrite Hb, Hid, IH. Qed.

(** ** The LRU manager keeps the contract *)

Section LRULaws.
Implicit Types (m : LRU.Manager).
Import LRU.

Record lru_ok m : Prop := {
  lk_keys : dict_ok (blocks m);
  lk_slots : slots (backend m) (ids_of (blocks m));
  lk_refs : forall h b, dget h (blocks m) = Some b -> status_ok b;
}.

(** A status is replaced by one of the same slot. *)
Lemma lru_write h b b' m :
  lru_ok m -> dget h (blocks m) = Some b -> block_id b' = block_id b -> status_ok b' ->
  lru_ok (m <| blocks := dset h b' (blocks m) |>).
Proof.
  intros [h1 h2 h3] Hb Hid Hok. split; cbn.
  - by apply dict_ok_dset.
  - by rewrite (ids_dset h b).
  - intros k c. rewrite dget_dset. case_decide; [by intros [= <-] | apply h3].
Qed.

(** A block leaves and its slot becomes free. *)
Lemma lru_drop h b m :
  lru_ok m -> dget h (blocks m) = Some b ->
  lru_ok (m <| blocks := ddel h (blocks m) |> <| backend := backend_free b (backend m) |>).
Proof.
  intros [h1 h2 h3] Hb. split; cbn.
  - by apply dict_ok_ddel.
  - apply slots_free. eapply slots_perm; [|exact h2]. symmetry. by apply ids_ddel.
  - intros k c Hc. apply (h3 k). rewrite <- Hc. symmetry. apply dget_ddel_ne. intros ->. by rewrite dget_ddel_eq in Hc.
Qed.

Lemma ready_true b : 0 <= ref_cnt b -> is_ready b = true.
Proof. intros. by apply Z.leb_le. Qed.
Lemma ready_false b : is_ready b = false <-> ref_cnt b < 0.
Proof. apply Z.leb_gt. Qed.

Lemma lru_load hs m :
  lru_ok m -> NoDup hs ->
  (forall h, h ∈ hs -> exists b, dget h (blocks m) = Some b /\ 0 <= ref_cnt b < 2 ^ 31 - 2) ->
  exists spec m', prepare_load hs m = Ok (spec, m') /\ lru_ok m' /\
    spec = omap (fun h => block_id <$> dget h (blocks m)) hs /\
    visited (fun h m => dget h (blocks m)) (fun b => Some (bump 1 b)) hs m m'.
Proof.
  intros Hok Hn Hall. unfold prepare_load.
  destruct (collect_pointwise lru_ok (fun h m => dget h (blocks m)) (fun b => 0 <= ref_cnt b < 2 ^ 31 - 2) (fun b => Some (bump 1 b))
    (fun _ b b' => block_id b' = block_id b) load_one hs m) as (bs & m' & Hr & Hok' & Hv & Hf); [|done..|].
  - intros h m0 b Hok0 Hb Hp. pose proof (set_ref_cnt_bump 1 b ltac:(lia)) as Hset.
    exists (bump 1 b), (m0 <| blocks := dset h (bump 1 b) (blocks m0) |>). unfold load_one. rewrite Hb.
    cbn [or_raise mbind result_bind]. rewrite ready_true by lia. cbn [py_assert mbind result_bind]. rewrite Hset.
    split; [done|]. split; [eapply lru_write; [done | exact Hb | done|]; unfold status_ok; cbn; lia|].
    split; [done|]. cbn. split; [by rewrite dget_dset_eq|]. intros k Hk. by apply dget_dset_ne.
  - rewrite Hr. exists (get_load_store_spec bs), m'. split; [done|]. split; [done|]. split; [|done]. by apply slots_listed.
Qed.

Lemma lru_unload hs m :
  lru_ok m -> NoDup hs -> (forall h, h ∈ hs -> exists b, dget h (blocks m) = Some b /\ 0 < ref_cnt b) ->
  exists m', complete_load hs m = Ok m' /\ lru_ok m' /\
    visited (fun h m => dget h (blocks m)) (fun b => Some (bump (-1) b)) hs m m'.
Proof.
  apply (each_pointwise lru_ok (fun h m => dget h (blocks m)) (fun b => 0 < ref_cnt b)).
  intros h m0 b Hok0 Hb Hp. pose proof (lk_refs _ Hok0 h b Hb) as Hs. unfold status_ok in Hs.
  pose proof (set_ref_cnt_bump (-1) b ltac:(lia)) as Hset. unfold unload_one. rewrite Hb.
  cbn [or_raise mbind result_bind]. rewrite (proj2 (Z.ltb_lt _ _)) by lia. cbn [py_assert mbind result_bind].
  change (ref_cnt b - 1) with (ref_cnt b + -1). rewrite Hset. eexists. split; [reflexivity|].
  split; [eapply lru_write; [done | exact Hb | done|]; unfold status_ok; cbn; lia|].
  cbn. split; [by rewrite dget_dset_eq|]. intros k Hk. by apply dget_dset_ne.
Qed.

Lemma lru_touch hs m :
  lru_ok m -> exists m', touch hs m = Ok m' /\ lru_ok m' /\ forall h, dget h (blocks m') = dget h (blocks m).
Proof.
  unfold touch. generalize (rev hs) as l. clear hs. intros l. revert m. induction l as [|h l IH]; intros m Hok; [by exists m|].
  assert (Hone : exists m1, touch_one h m = Ok m1 /\ lru_ok m1 /\ forall k, dget k (blocks m1) = dget k (blocks m)).
  { unfold touch_one. destruct (dget h (blocks m)) as [b|] eqn:Hb; [|by exists m].
    destruct (dmove_to_end h (blocks m)) as [d|] eqn:Hd; [|by unfold dmove_to_end in Hd; rewrite Hb in Hd].
    destruct Hok as [h1 h2 h3]. destruct (dget_moved h _ d h1 Hd) as (Hp & Hok' & Hget).
    exists (m <| blocks := d |>). split; [done|]. split; [|done]. split; cbn; [done | | ].
    - eapply slots_perm; [|exact h2]. unfold ids_of, dvalues. by rewrite Hp.
    - intros k c. rewrite Hget. apply h3. }
  destruct Hone as (m1 & Hr & Hok1 & Hg). destruct (IH m1 Hok1) as (m' & Hr' & Hok' & Hg').
  exists m'. split; [by eapply for_each_cons_ok|]. split; [done|]. intros k. by rewrite Hg'.
Qed.

(** The victims are the first unused blocks, if there are enough. *)
Definition unused_keys (d : table) : list BlockHash := (List.filter (fun p => ref_cnt p.2 =? 0) d).*1.

Lemma scan_victims_spec n d :
  (0 < n)%nat -> scan_victims (Z.of_nat n) d
    = if decide (n <= length (unused_keys d))%nat then Some (take n (unused_keys d)) else None.
Proof.
  unfold unused_keys. revert n. induction d as [|[h b] d IH]; intros n Hn; cbn [scan_victims List.filter snd].
  - case_decide; cbn in *; [lia|done].
  - destruct (Z.eqb_spec (ref_cnt b) 0); [|by apply IH]. cbn [fmap list_fmap length].
    destruct (Z.eqb_spec (Z.of_nat n - 1) 0).
    + rewrite decide_True by lia. by replace n with 1%nat by lia.
    + replace (Z.of_nat n - 1) with (Z.of_nat (n - 1)) by lia. rewrite IH by lia.
      repeat case_decide; try lia; [|done]. destruct n as [|n]; [lia|]. cbn. by rewrite Nat.sub_0_r.
Qed.

Lemma unused_keys_unused m h :
  lru_ok m -> h ∈ unused_keys (blocks m) -> exists b, dget h (blocks m) = Some b /\ unused b.
Proof.
  intros Hok (p & -> & Hp)%list_elem_of_fmap. apply elem_of_list_bfilter in Hp as [Hz Hp]. destruct p as [k b].
  exists b. split; [|by apply Z.eqb_eq]. apply elem_of_dget; [apply Hok | done].
Qed.

Lemma unused_keys_NoDup m : lru_ok m -> NoDup (unused_keys (blocks m)).
Proof.
  intros [h1 _ _]. unfold dict_ok, dkeys in h1. unfold unused_keys. eapply sublist_NoDup; [exact h1|].
  apply fmap_sublist, bfilter_sublist.
Qed.

Lemma lru_evict l m :
  lru_ok m -> NoDup l -> (forall h, h ∈ l -> exists b, dget h (blocks m) = Some b /\ unused b) ->
  exists m', for_each evict_one l m = Ok m' /\ lru_ok m' /\
    visited (fun h m => dget h (blocks m)) (fun _ => None) l m m'.
Proof.
  apply (each_pointwise lru_ok (fun h m => dget h (blocks m)) unused).
  intros h m0 b Hok0 Hb Hp. unfold evict_one. rewrite Hb. cbn [or_raise mbind result_bind].
  eexists. split; [reflexivity|]. split; [by apply lru_drop|]. cbn. split; [apply dget_ddel_eq, Hok0|].
  intros k Hk. by apply dget_ddel_ne.
Qed.

Lemma evict_frees l m m' :
  for_each evict_one l m = Ok m' -> get_num_free_blocks (backend m') = get_num_free_blocks (backend m) + py_len l.
Proof.
  revert m. induction l as [|h l IH]; intros m Hr; cbn in Hr; inv_ok; [unfold py_len; cbn; lia|].
  rewrite (IH _ Hr). unfold evict_one in Hr0. inv_ok. unfold get_num_free_blocks, py_len. cbn. rewrite length_app. cbn. lia.
Qed.

(** The hashes that are new end up with statuses of their own. *)
Lemma lru_store_new to_store to_evict m :
  lru_ok m -> NoDup to_store -> (forall h, h ∈ to_store -> dget h (blocks m) = None) ->
  NoDup to_evict -> (forall h, h ∈ to_evict -> exists b, dget h (blocks m) = Some b /\ unused b) ->
  py_len to_store <= get_num_free_blocks (backend m) + py_len to_evict ->
  exists o m', store_new to_store to_evict m = Ok (Some o, m') /\ lru_ok m' /\
    block_hashes_to_store o = to_store /\ block_hashes_evicted o = to_evict /\
    length (store_spec o) = length to_store /\
    forall h, dget h (blocks m') = match list_find (eq h) to_store with
      | Some (i, _) => fresh_status <$> store_spec o !! i
      | None => if bool_decide (h ∈ to_evict) then None else dget h (blocks m)
      end.
Proof.
  intros Hok Hns Habs Hne Hev Hroom. destruct (lru_evict to_evict m Hok Hne Hev) as (m1 & Hr & Hok1 & Hv).
  pose proof (evict_frees _ _ _ Hr) as Hfree. destruct Hok1 as [h1 h2 h3].
  destruct (allocate_blocks_ok to_store (backend m1) _ h2 ltac:(lia)) as (new & bk & Ha & Hl & Hs & _).
  assert (Hlen : length to_store = length (fresh_status <$> new)) by (by rewrite length_fmap).
  assert (Hnew : forall h, h ∈ dkeys (combine to_store (fresh_status <$> new)) -> h ∉ dkeys (blocks m1)).
  { intros h Hin. rewrite dkeys_combine in Hin by done. apply dget_None. rewrite (Hv h), Habs by done. by case_bool_decide. }
  unfold store_new. rewrite Hr. cbn [mbind result_bind].
  change (backend (m1 <| events := _ |>)) with (backend m1). rewrite Ha. cbn [mbind result_bind].
  unfold py_len. rewrite length_fmap, Hl, Z.eqb_refl. cbn [py_assert mbind result_bind].
  eexists _, _. split; [reflexivity|]. cbn [blocks].
  assert (Hins : insert_all (combine to_store (fresh_status <$> new)) (blocks m1) = blocks m1 ++ combine to_store (fresh_status <$> new)).
  { apply insert_new_keys; [by rewrite dkeys_combine | done]. }
  assert (Hspec : get_load_store_spec (fresh_status <$> new) = new).
  { unfold get_load_store_spec. rewrite <- list_fmap_compose. by apply list_fmap_id. }
  split; [|cbn; rewrite Hspec; split; [done|]; split; [done|]; split; [done|]].
  - split; cbn; rewrite Hins.
    + unfold dict_ok, dkeys in *. rewrite fmap_app. apply NoDup_app. split; [done|].
      split; [intros h Hin Hin'; by apply (Hnew h)|]. fold (dkeys (combine to_store (fresh_status <$> new))). by rewrite dkeys_combine.
    + by rewrite ids_app, ids_combine.
    + intros h b. rewrite dget_app. destruct (dget h (blocks m1)) as [c|] eqn:Hc; [intros [= <-]; by eapply h3|].
      rewrite dget_combine by done. destruct (list_find (eq h) to_store) as [[i ?]|]; [|done].
      rewrite list_lookup_fmap. destruct (new !! i); [|done]. intros [= <-]. unfold status_ok. cbn. lia.
  - intros h. rewrite Hins, dget_app, dget_combine by done. destruct (list_find (eq h) to_store) as [[i k]|] eqn:Hf.
    + apply list_find_Some in Hf as (Hi & <- & _). apply list_elem_of_lookup_2 in Hi.
      rewrite (Hv h), Habs by done. by rewrite list_lookup_fmap; case_bool_decide.
    + rewrite (Hv h). case_bool_decide; [by destruct (dget h (blocks m))|]. by destruct (dget h (blocks m)).
Qed.

Definition absent m (hs : list BlockHash) : list BlockHash := List.filter (fun h => negb (dmem h (blocks m))) hs.
Definition shortage m (hs : list BlockHash) : Z := py_len (absent m hs) - get_num_free_blocks (backend m).

Lemma lru_prepare_store hs m :
  lru_ok m -> NoDup hs ->
  exists out m', prepare_store hs m = Ok (out, m') /\ lru_ok m' /\
    match out with
    | None => m' = m /\ py_len (unused_keys (blocks m)) < shortage m hs
    | Some o =>
        shortage m hs <= py_len (unused_keys (blocks m)) /\
        block_hashes_to_store o = absent m hs /\
        block_hashes_evicted o = take (Z.to_nat (shortage m hs)) (unused_keys (blocks m)) /\
        length (store_spec o) = length (absent m hs) /\
        forall h, dget h (blocks m') = match list_find (eq h) (absent m hs) with
          | Some (i, _) => fresh_status <$> store_spec o !! i
          | None => if bool_decide (h ∈ block_hashes_evicted o) then None else dget h (blocks m)
          end
    end.
Proof.
  intros Hok Hn. unfold prepare_store. fold (absent m hs) (shortage m hs).
  assert (Hns : NoDup (absent m hs)) by by apply bfilter_NoDup.
  assert (Habs : forall h, h ∈ absent m hs -> dget h (blocks m) = None).
  { intros h [Hd _]%elem_of_list_bfilter. apply negb_true_iff in Hd. by apply dmem_false. }
  destruct (Z.ltb_spec 0 (shortage m hs)) as [Hlt|Hge].
  - replace (shortage m hs) with (Z.of_nat (Z.to_nat (shortage m hs))) by lia. rewrite scan_victims_spec by lia.
    case_decide as Hen.
    + destruct (lru_store_new (absent m hs) (take (Z.to_nat (shortage m hs)) (unused_keys (blocks m))) m)
        as (o & m' & Hr & Hok' & e1 & e2 & e3 & e4); [done | done | done | | | |].
      * eapply sublist_NoDup; [by apply unused_keys_NoDup | apply sublist_take].
      * intros h Hin%elem_of_take. destruct Hin as (i & Hi & _). apply (unused_keys_unused m); [done|]. by eapply list_elem_of_lookup_2.
      * unfold shortage, py_len in *. rewrite length_take. lia.
      * exists (Some o), m'. rewrite Nat2Z.id. split; [done|]. split; [done|].
        split; [unfold py_len; lia|]. rewrite e2. repeat split; try done; congruence.
    + exists None, m. split; [done|]. split; [done|]. split; [done|]. unfold py_len. lia.
  - destruct (lru_store_new (absent m hs) [] m) as (o & m' & Hr & Hok' & e1 & e2 & e3 & e4); try done.
    + apply NoDup_nil_2.
    + by intros h ?%elem_of_nil.
    + unfold shortage, py_len in *. cbn. lia.
    + exists (Some o), m'. split; [done|]. split; [done|]. split; [unfold py_len; lia|].
      replace (Z.to_nat (shortage m hs)) with 0%nat by lia. rewrite take_0. rewrite e2. repeat split; try done; congruence.
Qed.

Definition settle (b : BlockStatus) : BlockStatus := if is_ready b then b else b <| ref_cnt := 0 |>.

Lemma lru_stored hs m :
  lru_ok m -> NoDup hs -> (forall h, h ∈ hs -> is_Some (dget h (blocks m))) ->
  exists m', complete_store hs true m = Ok m' /\ lru_ok m' /\ visited (fun h m => dget h (blocks m)) (fun b => Some (settle b)) hs m m'.
Proof.
  intros Hok Hn Hall. unfold complete_store.
  destruct (collect_pointwise lru_ok (fun h m => dget h (blocks m)) (fun _ => True) (fun b => Some (settle b))
    (fun _ _ (_ : list BlockHash) => True) stored_one hs m) as (ys & m' & Hr & [h1 h2 h3] & Hv & _); [|done..| |].
  - intros h m0 b Hok0 Hb _. unfold stored_one, settle. rewrite Hb. cbn [or_raise mbind result_bind].
    destruct (is_ready b) eqn:Hready; [by exists [], m0|]. rewrite set_ref_cnt_ok by lia.
    eexists _, _. split; [reflexivity|]. split; [eapply lru_write; [done | exact Hb | done|]; unfold status_ok; cbn; lia|].
    split; [done|]. cbn. split; [by rewrite dget_dset_eq|]. intros k Hk. by apply dget_dset_ne.
  - intros h Hin. destruct (Hall h Hin) as [b Hb]. by exists b.
  - rewrite Hr. cbn [mbind result_bind]. eexists. split; [reflexivity|]. split; [by split | done].
Qed.

Lemma lru_failed hs m :
  lru_ok m -> NoDup hs -> (forall h, h ∈ hs -> exists b, dget h (blocks m) = Some b /\ is_ready b = false) ->
  exists m', complete_store hs false m = Ok m' /\ lru_ok m' /\ visited (fun h m => dget h (blocks m)) (fun _ => None) hs m m'.
Proof.
  apply (each_pointwise lru_ok (fun h m => dget h (blocks m)) (fun b => is_ready b = false)).
  intros h m0 b Hok0 Hb Hp. unfold failed_one. rewrite Hb. cbn [or_raise mbind result_bind]. rewrite Hp.
  eexists. split; [reflexivity|]. split; [exact (lru_drop h b m0 Hok0 Hb)|]. cbn. split; [apply dget_ddel_eq, Hok0|].
  intros k Hk. by apply dget_ddel_ne.
Qed.

Lemma lru_new bk events : slots bk [] -> lru_ok (new_manager bk events).
Proof. intros Hs. split; [apply dict_ok_nil | exact Hs | done]. Qed.
End LRULaws.

Lemma new_backend_slots size n : 0 <= n <= 2 ^ 63 -> slots (new_backend size n) [].
Proof. intros. split; [done|]. cbn. lia. Qed.

(** A visit that maps every status, as the laws state it. *)
Lemma visited_map {M} (blk : BlockHash -> M -> option BlockStatus) f hs m m' :
  visited blk (fun b => Some (f b)) hs m m' ->
  forall h, blk h m' = if bool_decide (h ∈ hs) then f <$> blk h m else blk h m.
Proof. intros Hv h. rewrite (Hv h). case_bool_decide; [by destruct (blk h m) | done]. Qed.

Lemma visited_drop {M} (blk : BlockHash -> M -> option BlockStatus) hs m m' :
  visited blk (fun _ => None) hs m m' -> forall h, blk h m' = if bool_decide (h ∈ hs) then None else blk h m.
Proof. intros Hv h. rewrite (Hv h). case_bool_decide; [by destruct (blk h m) | done]. Qed.

#[export] Instance lru_laws : OffloadingLaws LRU.Manager.
Proof.
  refine {| om_ok := lru_ok; om_block h m := dget h (LRU.blocks m) |}.
  - intros m h h' b b' [_ Hs _] Hb Hb'. by apply (ids_inj (LRU.blocks m)); [eapply slots_NoDup|..].
  - done.
  - intros hs m Hok Hn Hall. destruct (lru_load hs m Hok Hn Hall) as (spec & m' & Hr & Hok' & Hs & Hv).
    exists spec, m'. split; [done|]. split; [done|]. split; [done|]. exact (visited_map (fun h m => dget h (LRU.blocks m)) _ hs m m' Hv).
  - intros hs m Hok Hn Hall. destruct (lru_unload hs m Hok Hn Hall) as (m' & Hr & Hok' & Hv).
    exists m'. split; [done|]. split; [done|]. exact (visited_map (fun h m => dget h (LRU.blocks m)) _ hs m m' Hv).
  - intros hs m Hok. apply lru_touch, Hok.
  - intros hs m Hok Hn. destruct (lru_prepare_store hs m Hok Hn) as (out & m' & Hr & Hok' & Hout).
    exists out, m'. split; [done|]. split; [done|]. destruct out as [o|]; [|by destruct Hout as [-> _]; left].
    destruct Hout as (_ & e1 & e2 & e3 & e4). split; [|split; [by rewrite e1|split]].
    + rewrite e1. apply filter_ext. intros h. unfold dmem. by destruct (dget h (LRU.blocks m)).
    + intros h. rewrite e2. intros Hin%elem_of_take. destruct Hin as (i & Hi & _). apply (unused_keys_unused m); [done|].
      by eapply list_elem_of_lookup_2.
    + rewrite e1. exact e4.
  - intros hs m Hok Hn Hall. destruct (lru_stored hs m Hok Hn Hall) as (m' & Hr & Hok' & Hv).
    exists m'. split; [done|]. split; [done|]. exact (visited_map (fun h m => dget h (LRU.blocks m)) _ hs m m' Hv).
  - intros hs m Hok Hn Hall. destruct (lru_failed hs m Hok Hn Hall) as (m' & Hr & Hok' & Hv).
    exists m'. split; [done|]. split; [done|]. exact (visited_drop (fun h m => dget h (LRU.blocks m)) hs m m' Hv).
Defined.
