(* ===== verification/OffloadLru.v ===== *)
(** * What the LRU manager evicts

    Touching moves blocks to the end of the manager's ordered dictionary, and
    storing evicts from its front: the theorem that ties the two together. *)

From S2P Require Import Prelude PyDict PyList PyInt Request Offload OffloadInv.
#[local] Open Scope Z_scope.

Import LRU.
Implicit Types (m : LRU.Manager).

Definition outside (l : list BlockHash) (p : BlockHash * BlockStatus) : bool := negb (bool_decide (p.1 ∈ l)).

Lemma ddel_filter h (d : dict BlockHash BlockStatus) : dict_ok d -> ddel h d = List.filter (outside [h]) d.
Proof.
  unfold dict_ok, dkeys. induction d as [|[k b] d IH]; [done|]. cbn [fmap list_fmap fst ddel List.filter]. rewrite NoDup_cons. intros [Hk Hd].
  unfold outside at 1. cbn [fst]. case_decide as Hhk; subst.
  - rewrite bool_decide_eq_true_2 by by apply list_elem_of_singleton. cbn. symmetry. apply bfilter_all. intros p Hp.
    unfold outside. rewrite bool_decide_eq_false_2; [done|]. intros Heq%list_elem_of_singleton. apply Hk. rewrite <- Heq.
    by apply list_elem_of_fmap_2.
  - rewrite bool_decide_eq_false_2 by (rewrite list_elem_of_singleton; congruence). cbn. f_equal. by apply IH.
Qed.

Lemma outside_cons h l (d : dict BlockHash BlockStatus) :
  List.filter (outside l) (List.filter (outside [h]) d) = List.filter (outside (h :: l)) d.
Proof.
  induction d as [|p d IH]; [done|]. cbn [List.filter].
  assert (Ho : outside (h :: l) p = outside [h] p && outside l p).
  { unfold outside. rewrite <- negb_orb. f_equal. apply eq_true_iff_eq.
    rewrite orb_true_iff, !bool_decide_eq_true, elem_of_cons, list_elem_of_singleton. done. }
  rewrite Ho. destruct (outside [h] p); cbn [andb List.filter]; rewrite IH; [by destruct (outside l p) | done].
Qed.

(** The touched blocks come last; the others keep their order. *)
Lemma touch_order l m m' :
  dict_ok (blocks m) -> for_each touch_one l m = Ok m' ->
  backend m' = backend m /\ exists tail, blocks m' = List.filter (outside l) (blocks m) ++ tail /\ Forall (fun p => p.1 ∈ l) tail.
Proof.
  revert m. induction l as [|h l IH]; intros m Hok Hr; cbn in Hr; inv_ok.
  { split; [done|]. exists []. rewrite app_nil_r. split; [|done]. symmetry. by apply bfilter_all. }
  assert (Hone : dict_ok (blocks r) /\ backend r = backend m /\ exists t0, blocks r = List.filter (outside [h]) (blocks m) ++ t0 /\ Forall (fun p => p.1 = h) t0).
  { unfold touch_one in Hr0. destruct (dget h (blocks m)) as [b|] eqn:Hb.
    - unfold dmove_to_end in Hr0. rewrite Hb in Hr0. cbn in Hr0. injection Hr0 as <-.
      cbn. split; [|split; [done|]].
      + destruct (dget_moved h (blocks m) (ddel h (blocks m) ++ [(h, b)]) Hok) as (_ & ? & _); [|done]. unfold dmove_to_end. by rewrite Hb.
      + exists [(h, b)]. rewrite ddel_filter by done. split; [done|]. by repeat constructor.
    - inv_ok. split; [done|]. split; [done|]. exists []. rewrite app_nil_r, <- ddel_filter by done. split; [|done].
      symmetry. apply ddel_absent. by apply dget_None. }
  destruct Hone as (Hok1 & Hbk & t0 & Ht0 & Hall). destruct (IH r Hok1 Hr) as (Hbk' & t1 & Ht1 & Hall1).
  split; [congruence|]. exists (List.filter (outside l) t0 ++ t1). rewrite Ht1, Ht0, List.filter_app, outside_cons, (assoc_L (++)).
  split; [done|]. apply Forall_app. split.
  - apply Forall_forall. intros p [_ Hp]%elem_of_list_bfilter. rewrite Forall_forall in Hall. rewrite (Hall p Hp). by left.
  - eapply Forall_impl; [exact Hall1|]. intros p Hp. by right.
Qed.

Lemma unused_keys_app d1 d2 : unused_keys (d1 ++ d2) = unused_keys d1 ++ unused_keys d2.
Proof. unfold unused_keys. by rewrite List.filter_app, fmap_app. Qed.

Lemma unused_keys_iff m h : dict_ok (blocks m) -> h ∈ unused_keys (blocks m) <-> exists b, dget h (blocks m) = Some b /\ unused b.
Proof.
  intros Hok. unfold unused_keys. rewrite list_elem_of_fmap. split.
  - intros ([k b] & -> & [Hz Hp]%elem_of_list_bfilter). exists b. split; [by apply elem_of_dget | by apply Z.eqb_eq].
  - intros (b & Hb & Hu). exists (h, b). split; [done|]. apply elem_of_list_bfilter. split; [by apply Z.eqb_eq | by apply dget_elem_of].
Qed.

(** The LRU policy: after some blocks are touched, making room to store others never raises and
    leaves [None] exactly when too few blocks are unused; otherwise it evicts exactly as many blocks as
    slots are missing, none of them in use or being stored, and a touched block only
    when every unused block that was not touched is evicted too. *)
Theorem lru_evicts_least_recent recent hs m :
  lru_ok m -> NoDup hs ->
  exists m1 out m2, touch recent m = Ok m1 /\ prepare_store hs m1 = Ok (out, m2) /\ lru_ok m2 /\
    match out with
    | None => m2 = m1 /\ py_len (unused_keys (blocks m)) < shortage m hs
    | Some o =>
        shortage m hs <= py_len (unused_keys (blocks m)) /\
        NoDup (block_hashes_evicted o) /\ py_len (block_hashes_evicted o) = Z.max 0 (shortage m hs) /\
        py_len (store_spec o) = py_len (absent m hs) /\
        (forall h, h ∈ block_hashes_evicted o -> exists b, dget h (blocks m) = Some b /\ unused b) /\
        (forall h h' b', h ∈ block_hashes_evicted o -> h ∈ recent ->
           h' ∉ recent -> dget h' (blocks m) = Some b' -> unused b' -> h' ∈ block_hashes_evicted o)
    end.
Proof.
  intros Hok Hn. destruct (lru_touch recent m Hok) as (m1 & Ht & Hok1 & Hsame).
  destruct (lru_prepare_store hs m1 Hok1 Hn) as (out & m2 & Hp & Hok2 & Hout).
  exists m1, out, m2. split; [done|]. split; [done|]. split; [done|].
  destruct (touch_order _ _ _ (lk_keys _ Hok) Ht) as (Hbk & tail & Htail & Hall).
  assert (Habs : absent m1 hs = absent m hs).
  { unfold absent. apply filter_ext_in. intros h _. unfold dmem. by rewrite Hsame. }
  assert (Hshort : shortage m1 hs = shortage m hs) by (unfold shortage; by rewrite Habs, Hbk).
  assert (Hkeys : forall h, h ∈ unused_keys (blocks m1) <-> h ∈ unused_keys (blocks m)).
  { intros h. rewrite !unused_keys_iff by (apply lk_keys; done). by setoid_rewrite Hsame. }
  assert (Hlen : py_len (unused_keys (blocks m1)) = py_len (unused_keys (blocks m))).
  { unfold py_len. f_equal. apply Permutation_length. apply NoDup_Permutation; auto using unused_keys_NoDup. }
  rewrite Hshort, ?Habs in Hout. destruct out as [o|].
  2: { destruct Hout as [-> Hlt]. split; [done|]. by rewrite <- Hlen. }
  destruct Hout as (g1 & g2 & g3 & g4 & _). rewrite Hlen in g1. split; [done|].
  rewrite g3. split; [|split; [|split; [|split]]].
  - eapply sublist_NoDup; [by apply (unused_keys_NoDup m1) | apply sublist_take].
  - unfold py_len in *. rewrite length_take. lia.
  - unfold py_len. by rewrite g4.
  - intros h (i & Hi & _)%elem_of_take. apply list_elem_of_lookup_2, Hkeys in Hi. by apply unused_keys_iff; [apply Hok|].
  - intros h h' b' Hh Hrec Hnot Hb' Hu.
    rewrite Htail, unused_keys_app in Hh |- *. set (front := unused_keys (List.filter _ _)) in *.
    assert (Hfront : h' ∈ front).
    { unfold front, unused_keys. apply list_elem_of_fmap. exists (h', b'). split; [done|]. apply elem_of_list_bfilter.
      split; [by apply Z.eqb_eq|]. apply elem_of_list_bfilter. split; [|by apply dget_elem_of]. unfold outside.
      rewrite bool_decide_eq_false_2; [done|]. cbn. intros Hin. apply Hnot. by apply list_elem_of_In, in_rev, list_elem_of_In. }
    assert (Hh1 : h ∉ front).
    { intros ([k b] & -> & [_ Hp']%elem_of_list_bfilter)%list_elem_of_fmap. apply elem_of_list_bfilter in Hp' as [Hp' _].
      unfold outside in Hp'. rewrite bool_decide_eq_true_2 in Hp'; [done|]. cbn. by apply list_elem_of_In, in_rev; rewrite rev_involutive; apply list_elem_of_In. }
    rewrite take_app in Hh |- *. apply elem_of_app in Hh as [(i & Hi & _)%elem_of_take|Hh].
    + destruct Hh1. by apply list_elem_of_lookup_2 in Hi.
    + assert (Hle : (length front <= Z.to_nat (shortage m hs))%nat).
      { destruct (decide (length front <= Z.to_nat (shortage m hs))%nat); [done|].
        replace (Z.to_nat (shortage m hs) - length front)%nat with 0%nat in Hh by lia. by apply elem_of_nil in Hh. }
      apply elem_of_app. left. by rewrite take_ge.
Qed.

(** ** A manager of two slots, both taken and unused *)

Definition stored_lru : LRU.Manager := {|
  backend := (new_backend 4 2) <| num_allocated_blocks := 2 |>;
  blocks := [("g1", {| ref_cnt := 0; block_id := 0 |}); ("g3", {| ref_cnt := 0; block_id := 1 |})];
  events := None |}.

Lemma stored_lru_ok : lru_ok stored_lru.
Proof.
  split.
  - apply (bool_decide_unpack _). reflexivity.
  - split; [|cbn; lia]. change ([0; 1] ++ [] ≡ₚ seqZ 0 2). vm_compute. done.
  - intros h b Hb. cbn in Hb. unfold status_ok. repeat case_decide; simplify_eq; cbn; lia.
Qed.

(** [g1] is the older block, but it was touched: [g3] goes. *)
Lemma lru_evicts_least_recent_witness :
  exists m1 o m2, touch ["g1"] stored_lru = Ok m1 /\ prepare_store ["g5"] m1 = Ok (Some o, m2) /\ block_hashes_evicted o = ["g3"].
Proof.
  destruct (lru_evicts_least_recent ["g1"] ["g5"] stored_lru) as (m1 & out & m2 & Ht & Hp & _ & _).
  - exact stored_lru_ok.
  - apply NoDup_singleton.
  - vm_compute in Ht. injection Ht as <-. vm_compute in Hp. injection Hp as <- <-.
    eexists _, _, _. split; [vm_compute; reflexivity|]. split; [vm_compute; reflexivity|]. reflexivity.
Defined.
