(* ===== verification/OffloadConnector.v ===== *)
(** * The off-loading connector

    vllm/distributed/kv_transfer/kv_connector/v1/offloading_connector.py: the
    scheduler's half, over any [OffloadingManager], decides what to load and what
    to store; the worker's half, over the transfer handlers of
    vllm/v1/kv_offload/worker/worker.py, follows the jobs it submits and
    reports requests whose transfers are over.

    The scheduler's half keeps references to request objects; the model keeps
    their addresses and reads the objects when a step is built. *)

From S2P Require Import Prelude PyDict PyList PyInt Request BlockPool Outputs Offload.
#[local] Open Scope Z_scope.

(** [(source, destination)]. *)
Definition TransferSpec : Type := LoadStoreSpec * LoadStoreSpec.

Record OffloadingConnectorMetadata := {
  reqs_to_load : dict string TransferSpec;
  reqs_to_store : dict string TransferSpec;
}.

(** [OffloadingSpec.__init__]: the off-loaded block size, a multiple of the GPU's. *)
Definition offloaded_size (gpu_size : Z) (configured : option Z) : result Z :=
  let n := default gpu_size configured in
  r ← py_mod n gpu_size;
  _ ← py_assert (r =? 0);
  Ok n.

(** ** The scheduler's half *)

Section SchedulerSide.
Context {M : Type} `{OffloadingManager M}.

Record Connector := mkConnector {
  gpu_block_size : Z;
  offloaded_block_size : Z;
  block_size_factor : Z;
  oc_manager : M;
  oc_requests : dict string Z;
  request_block_ids : dict string (list Z);
  pending_loads : dict string TransferSpec;
  next_stored_block_idx : dict string Z;
  reqs_being_stored : dict string (gset BlockHash);
  reqs_being_loaded : dict string (gset BlockHash);
}.
#[export] Instance eta_connector : Eta Connector := fun x => {|
  gpu_block_size := gpu_block_size x; offloaded_block_size := offloaded_block_size x;
  block_size_factor := block_size_factor x; oc_manager := oc_manager x; oc_requests := oc_requests x;
  request_block_ids := request_block_ids x; pending_loads := pending_loads x;
  next_stored_block_idx := next_stored_block_idx x; reqs_being_stored := reqs_being_stored x;
  reqs_being_loaded := reqs_being_loaded x |}.

Definition new_connector (gpu_size offloaded : Z) (m : M) : result Connector :=
  factor ← py_floordiv offloaded gpu_size;
  Ok {| gpu_block_size := gpu_size; offloaded_block_size := offloaded; block_size_factor := factor; oc_manager := m;
        oc_requests := []; request_block_ids := []; pending_loads := []; next_stored_block_idx := [];
        reqs_being_stored := []; reqs_being_loaded := [] |}.

Definition get_block_hashes (c : Connector) (r : Request) (start_idx : Z) (end_idx : option Z) : list BlockHash :=
  let f := block_size_factor c in
  islice (Request.block_hashes r) (f * start_idx + f - 1)
    (match end_idx with Some n => if n =? 0 then None else Some (f * n) | None => None end) f.

Definition get_num_new_matched_tokens (r : Request) (num_computed_tokens : Z) (c : Connector)
    : result (Z * bool * Connector) :=
  num_blocks ← py_floordiv (num_tokens r) (offloaded_block_size c);
  hashed ← py_floordiv (py_len (Request.block_hashes r)) (block_size_factor c);
  _ ← py_assert (hashed =? num_blocks);
  m ← om_touch (get_block_hashes c r 0 None) (oc_manager c);
  let c := c <| oc_manager := m |> in
  let full_block_tokens := offloaded_block_size c * num_blocks in
  if full_block_tokens - num_computed_tokens <? offloaded_block_size c then Ok (0, false, c)
  else
    start_block_idx ← py_floordiv num_computed_tokens (offloaded_block_size c);
    let hits := om_lookup (get_block_hashes c r start_block_idx None) m in
    if hits =? 0 then Ok (0, false, c)
    else
      let num_hit_tokens := offloaded_block_size c * (start_block_idx + hits) - num_computed_tokens in
      if num_hit_tokens <? offloaded_block_size c then Ok (0, false, c) else Ok (num_hit_tokens, true, c).

(** [d[k] = v] of a dict that defaults to the empty set, [s] added to it. *)
Definition add_set (k : string) (s : gset BlockHash) (d : dict string (gset BlockHash)) : dict string (gset BlockHash) :=
  dset k (dget_or k ∅ d ∪ s) d.

(** [hashed b]: block [b] of the GPU has a hash; [groups]: the block ids by group. *)
Definition update_state_after_alloc (a : Z) (r : Request) (groups : list (list Z)) (hashed : Z -> bool)
    (num_external_tokens : Z) (c : Connector) : result Connector :=
  let rid := request_id r in
  let c := c <| oc_requests := dset rid a (oc_requests c) |> <| request_block_ids := dset rid [] (request_block_ids c) |> in
  if num_external_tokens =? 0 then Ok c
  else
    block_ids ← py_index groups 0;
    let num_computed_gpu_blocks := py_len (List.filter hashed block_ids) in
    let num_computed_tokens := num_computed_gpu_blocks * gpu_block_size c in
    let full_block_tokens := num_computed_tokens + num_external_tokens in
    rest ← py_mod full_block_tokens (offloaded_block_size c);
    _ ← py_assert (rest =? 0);
    let num_pending_gpu_blocks := py_len block_ids - num_computed_gpu_blocks in
    _ ← py_assert (num_external_tokens =? num_pending_gpu_blocks * gpu_block_size c);
    start_block_idx ← py_floordiv num_computed_tokens (offloaded_block_size c);
    num_blocks ← py_floordiv full_block_tokens (offloaded_block_size c);
    have ← py_floordiv (py_len (Request.block_hashes r)) (block_size_factor c);
    _ ← py_assert (num_blocks <=? have);
    let hashes := get_block_hashes c r start_block_idx (Some num_blocks) in
    '(src, m) ← om_prepare_load hashes (oc_manager c);
    let dst := slice_from num_computed_gpu_blocks block_ids in
    Ok (c <| oc_manager := m |> <| pending_loads := dset rid (src, dst) (pending_loads c) |>
          <| reqs_being_loaded := add_set rid (list_to_set hashes) (reqs_being_loaded c) |>
          <| next_stored_block_idx := dset rid num_blocks (next_stored_block_idx c) |>).

(** [yield_req_data]: new requests, then the others, with their new block ids and
    whether they resume after preemption. *)
Definition req_data (so : SchedulerOutput) : list (string * option (list (list Z)) * bool) :=
  ((fun d => (nrd_req_id d, Some (nrd_block_ids d), false)) <$> scheduled_new_reqs so) ++
  (let d := scheduled_cached_reqs so in
   (fun p => (p.1, p.2, bool_decide (p.1 ∈ crd_resumed_req_ids d))) <$> combine (crd_req_ids d) (crd_new_block_ids d)).

(** The GPU blocks behind the off-loaded blocks that are stored. *)
Definition source_blocks (c : Connector) (block_ids : list Z) (start_block_idx : Z) (to_store : list BlockHash)
    (hashes : list BlockHash) : result (list Z) :=
  let f := block_size_factor c in
  l ← mapM (fun p => if bool_decide (p.2 ∈ to_store)
                     then mapM (fun i => py_index block_ids ((start_block_idx + Z.of_nat p.1) * f + i)) (py_range 0 f)
                     else Ok []) (imap pair hashes);
  Ok (concat l).

(** The block ids of a request after the step. *)
Definition note_blocks (rid : string) (groups : option (list (list Z))) (preempted : bool) (c : Connector)
    : result Connector :=
  let c := if preempted then c <| request_block_ids := dset rid [] (request_block_ids c) |> else c in
  match groups with
  | Some (new_block_ids :: _) =>
      ids ← or_raise KeyError (dget rid (request_block_ids c));
      Ok (c <| request_block_ids := dset rid (ids ++ new_block_ids) (request_block_ids c) |>)
  | _ => Ok c
  end.

Definition store_one (objects : Z -> Request) (so : SchedulerOutput) (x : string * option (list (list Z)) * bool)
    (st : dict string TransferSpec * Connector) : result (dict string TransferSpec * Connector) :=
  let '(rid, groups, preempted) := x in
  let '(stores, c) := st in
  c ← note_blocks rid groups preempted c;
  block_ids ← or_raise KeyError (dget rid (request_block_ids c));
  a ← or_raise KeyError (dget rid (oc_requests c));
  let r := objects a in
  new_tokens ← or_raise KeyError (dget rid (num_scheduled_tokens so));
  let total_tokens := num_computed_tokens r + new_tokens in
  num_blocks ← py_floordiv total_tokens (offloaded_block_size c);
  let start_block_idx := dget_or rid 0 (next_stored_block_idx c) in
  if num_blocks - start_block_idx <=? 0 then Ok (stores, c)
  else
    let new_hashes := get_block_hashes c r start_block_idx (Some num_blocks) in
    '(out, m) ← om_prepare_store new_hashes (oc_manager c);
    let c := c <| oc_manager := m |> in
    match out with
    | None => Ok (stores, c)
    | Some o =>
        let c := c <| next_stored_block_idx := dset rid num_blocks (next_stored_block_idx c) |> in
        match block_hashes_to_store o with
        | [] => Ok (stores, c)
        | to_store =>
            m ← om_touch (get_block_hashes c r 0 (Some num_blocks)) (oc_manager c);
            let c := c <| oc_manager := m |> in
            src ← source_blocks c block_ids start_block_idx to_store new_hashes;
            Ok (dset rid (src, store_spec o) stores,
                c <| reqs_being_stored := add_set rid (list_to_set to_store) (reqs_being_stored c) |>)
        end
    end.

Definition build_connector_meta (objects : Z -> Request) (so : SchedulerOutput) (c : Connector)
    : result (OffloadingConnectorMetadata * Connector) :=
  '(stores, c') ← for_each (store_one objects so) (req_data so) ([], c);
  Ok ({| reqs_to_load := pending_loads c; reqs_to_store := stores |}, c' <| pending_loads := [] |>).

Definition stored_request (rid : string) (c : Connector) : result Connector :=
  match dget rid (reqs_being_stored c) with
  | None => Ok c
  | Some hashes =>
      let c := c <| reqs_being_stored := ddel rid (reqs_being_stored c) |> in
      if bool_decide (hashes = ∅) then Ok c
      else m ← om_complete_store (elements hashes) true (oc_manager c); Ok (c <| oc_manager := m |>)
  end.

Definition loaded_request (rid : string) (c : Connector) : result Connector :=
  match dget rid (reqs_being_loaded c) with
  | None => Ok c
  | Some hashes =>
      let c := c <| reqs_being_loaded := ddel rid (reqs_being_loaded c) |> in
      if bool_decide (hashes = ∅) then Ok c
      else m ← om_complete_load (elements hashes) (oc_manager c); Ok (c <| oc_manager := m |>)
  end.

Definition update_connector_output (out : KVConnectorOutput) (c : Connector) : result Connector :=
  c ← for_each stored_request (elements (default ∅ (finished_sending out))) c;
  for_each loaded_request (elements (default ∅ (finished_recving out))) c.

(** The answer: the blocks must stay until the stores are over. *)
Definition request_finished (r : Request) (c : Connector) : bool * Connector :=
  let rid := request_id r in
  (dmem rid (reqs_being_stored c),
   c <| oc_requests := ddel rid (oc_requests c) |> <| request_block_ids := ddel rid (request_block_ids c) |>
     <| next_stored_block_idx := ddel rid (next_stored_block_idx c) |>).

(** KV-cache events carry hashes and the medium. *)
Inductive OffloadCacheEvent :=
| OffBlockRemoved (block_hashes : list BlockHash) (medium : string)
| OffBlockStored (block_hashes : list BlockHash) (block_size : Z) (medium : string).

Definition take_events (c : Connector) : list OffloadCacheEvent * Connector :=
  let '(l, m) := om_take_events (oc_manager c) in
  ((fun e => if oe_removed e then OffBlockRemoved (oe_block_hashes e) (oe_medium e)
             else OffBlockStored (oe_block_hashes e) (oe_block_size e) (oe_medium e)) <$> l,
   c <| oc_manager := m |>).

End SchedulerSide.
Arguments Connector M : clear implicits.

(** ** The worker's half *)

(** A transfer handler: copying is the device's business, the answers are its own. *)
Class OffloadingHandler (T : Type) := {
  oh_transfer_async : Z -> TransferSpec -> T -> option bool * T;
  oh_get_finished : T -> list (Z * bool) * T;
}.

Section WorkerSide.
Context {T : Type} `{OffloadingHandler T}.

(** [OffloadingWorker]: the handlers, and which one serves a transfer type.
    A specification's medium is passed along with it. *)
Record Transfers := mkTransfers {
  handlers : list T;
  transfer_type_to_handler : dict (string * string) nat;
}.
#[export] Instance eta_transfers : Eta Transfers := fun x => {|
  handlers := handlers x; transfer_type_to_handler := transfer_type_to_handler x |}.

(** Registering handler object [i]. *)
Definition register_handler (src dst : string) (i : nat) (w : Transfers) : result Transfers :=
  _ ← py_assert (negb (dmem (src, dst) (transfer_type_to_handler w)));
  Ok (w <| transfer_type_to_handler := dset (src, dst) i (transfer_type_to_handler w) |>).

(** An exception of the handler ([None]) counts as a failed submission. *)
Definition transfer_async (job_id : Z) (src dst : string) (spec : TransferSpec) (w : Transfers) : result (bool * Transfers) :=
  i ← or_raise AssertionError (dget (src, dst) (transfer_type_to_handler w));
  h ← or_raise AssertionError (handlers w !! i);
  let '(success, h) := oh_transfer_async job_id spec h in
  Ok (default false success, w <| handlers := <[i := h]> (handlers w) |>).

Definition finished_transfers (w : Transfers) : list (Z * bool) * Transfers :=
  let l := oh_get_finished <$> handlers w in
  (concat l.*1, w <| handlers := l.*2 |>).

Record Worker := mkWorker {
  transfers : Transfers;
  job_counter : Z;
  jobs : dict Z (string * bool);
  load_job : dict string Z;
  store_jobs : dict string (gset Z);
  finished_reqs_waiting_for_store : gset string;
}.
#[export] Instance eta_worker : Eta Worker := fun x => {|
  transfers := transfers x; job_counter := job_counter x; jobs := jobs x; load_job := load_job x;
  store_jobs := store_jobs x; finished_reqs_waiting_for_store := finished_reqs_waiting_for_store x |}.

Definition new_worker (w : Transfers) : Worker := {|
  transfers := w; job_counter := 0; jobs := []; load_job := []; store_jobs := [];
  finished_reqs_waiting_for_store := ∅ |}.

Definition GPU : string := "GPU".

Definition start_one_load (x : string * TransferSpec) (w : Worker) : result Worker :=
  let id := job_counter w in
  let w := w <| job_counter := id + 1 |> <| jobs := dset id (x.1, false) (jobs w) |> in
  _ ← py_assert (negb (dmem x.1 (load_job w)));
  let w := w <| load_job := dset x.1 id (load_job w) |> in
  '(success, t) ← transfer_async id medium GPU x.2 (transfers w);
  _ ← py_assert success;
  Ok (w <| transfers := t |>).

Definition start_load_kv (meta : OffloadingConnectorMetadata) (w : Worker) : result Worker :=
  for_each start_one_load (reqs_to_load meta) w.

Definition start_one_store (x : string * TransferSpec) (w : Worker) : result Worker :=
  let id := job_counter w in
  let w := w <| job_counter := id + 1 |> <| jobs := dset id (x.1, true) (jobs w) |>
             <| store_jobs := dset x.1 (dget_or x.1 ∅ (store_jobs w) ∪ {[id]}) (store_jobs w) |> in
  '(success, t) ← transfer_async id GPU medium x.2 (transfers w);
  _ ← py_assert success;
  Ok (w <| transfers := t |>).

Definition start_store_kv (meta : OffloadingConnectorMetadata) (w : Worker) : result Worker :=
  for_each start_one_store (reqs_to_store meta) w.

(** The requests reported as done with sending and with receiving. *)
Definition Reported : Type := gset string * gset string.

Definition finish_store_job (id : Z) (rid : string) (st : Reported * Worker) : result (Reported * Worker) :=
  let '(rep, w) := st in
  let js := dget_or rid ∅ (store_jobs w) in
  _ ← (if bool_decide (id ∈ js) then Ok tt else Raise KeyError);
  let js := js ∖ {[id]} in
  let w := w <| store_jobs := dset rid js (store_jobs w) |> in
  if negb (bool_decide (js = ∅)) then Ok (rep, w)
  else if bool_decide (rid ∈ finished_reqs_waiting_for_store w) then
    Ok (({[rid]} ∪ rep.1, rep.2),
        w <| finished_reqs_waiting_for_store := finished_reqs_waiting_for_store w ∖ {[rid]} |>
          <| store_jobs := ddel rid (store_jobs w) |>)
  else Ok (rep, w).

Definition finish_load_job (id : Z) (rid : string) (st : Reported * Worker) : result (Reported * Worker) :=
  let '(rep, w) := st in
  req_job ← or_raise KeyError (dget rid (load_job w));
  _ ← py_assert (id =? req_job);
  Ok ((rep.1, {[rid]} ∪ rep.2), w <| load_job := ddel rid (load_job w) |>).

Definition finish_job (x : Z * bool) (st : Reported * Worker) : result (Reported * Worker) :=
  let '(id, success) := x in
  let '(rep, w) := st in
  _ ← py_assert success;
  '(rid, store) ← or_raise KeyError (dget id (jobs w));
  let w := w <| jobs := ddel id (jobs w) |> in
  if (store : bool) then finish_store_job id rid (rep, w) else finish_load_job id rid (rep, w).

(** A request that is done generating: reported now, or when its last store is over. *)
Definition finish_request (st : Reported * Worker) (rid : string) : Reported * Worker :=
  let '(rep, w) := st in
  match dget rid (store_jobs w) with
  | None => (rep, w)
  | Some js =>
      if bool_decide (js = ∅)
      then (({[rid]} ∪ rep.1, rep.2), w <| store_jobs := ddel rid (store_jobs w) |>)
      else (rep, w <| finished_reqs_waiting_for_store := {[rid]} ∪ finished_reqs_waiting_for_store w |>)
  end.

Definition get_finished (finished_req_ids : gset string) (w : Worker) : result (Reported * Worker) :=
  let '(done, t) := finished_transfers (transfers w) in
  st ← for_each finish_job done (∅, ∅, w <| transfers := t |>);
  Ok (fold_left finish_request (elements finished_req_ids) st).

End WorkerSide.
Arguments Worker T : clear implicits.
Arguments Transfers T : clear implicits.
