(* ===== verification/OffloadTransfers.v ===== *)
(** * What the off-loading connector transfers

    Theorems about both halves of the connector: over any manager that keeps
    [OffloadingLaws], what is promised to the scheduler is there to load and a
    transfer has the size of its destination; the worker's half reports each
    transfer once, when it is over. *)

From S2P Require Import Prelude PyDict PyList PyInt PyFloat Request Outputs Offload OffloadInv OffloadLru OffloadConnector.
#[local] Open Scope Z_scope.

(** ** Every [f]-th block hash *)

(** The hash of off-loaded block [j]: that of the last GPU block in it. *)
Definition block_at (f : Z) (hashes : list BlockHash) (j : Z) : option BlockHash := hashes !! Z.to_nat (f * j + f - 1).

Lemma islice_range f (hashes : list BlockHash) s last n :
  0 < f -> 0 <= s -> 0 <= n -> ceil_div (last - (f * s + f - 1)) f = n ->
  omap (fun i => hashes !! Z.to_nat i) (List.filter (fun i => (i - (f * s + f - 1)) mod f =? 0) (py_range (f * s + f - 1) last))
  = omap (block_at f hashes) (seqZ s n).
Proof.
  intros Hf Hs Hn Hc. unfold py_range. destruct (decide (0 <= last - (f * s + f - 1))) as [Hle|Hgt].
  - rewrite <- (Z2Nat.id (last - (f * s + f - 1))) by done. rewrite filter_every, Z2Nat.id, Hc by done.
    replace (seqZ s n) with (Z.add s <$> seqZ 0 n) by (rewrite fmap_add_seqZ; f_equal; lia). rewrite !omap_map.
    apply list_omap_ext. apply Forall_Forall2_diag, Forall_forall. intros k _. unfold block_at. f_equal. nia.
  - rewrite seqZ_nil by lia. assert (n <= 0) by (rewrite <- Hc; apply ceil_div_le; lia). by rewrite seqZ_nil by lia.
Qed.

Lemma islice_all f hashes s :
  0 < f -> 0 <= s -> s <= py_len hashes / f ->
  islice hashes (f * s + f - 1) None f = omap (block_at f hashes) (seqZ s (py_len hashes / f - s)).
Proof.
  intros Hf Hs Hle. apply islice_range; [done | done | lia|]. unfold ceil_div.
  replace (py_len hashes - (f * s + f - 1) + f - 1) with (py_len hashes + (- s) * f) by lia. rewrite Z.div_add by lia. lia.
Qed.

Lemma islice_upto f hashes s stop :
  0 < f -> 0 <= s -> s <= stop <= py_len hashes / f ->
  islice hashes (f * s + f - 1) (Some (f * stop)) f = omap (block_at f hashes) (seqZ s (stop - s)).
Proof.
  intros Hf Hs Hstop. unfold islice. pose proof (Z.mul_div_le (py_len hashes) f Hf). rewrite Z.min_l by nia.
  apply islice_range; [done | done | lia|]. unfold ceil_div.
  replace (f * stop - (f * s + f - 1) + f - 1) with ((stop - s) * f) by lia. by rewrite Z.div_mul by lia.
Qed.

Lemma block_at_Some f hashes j : 0 < f -> 0 <= j < py_len hashes / f -> is_Some (block_at f hashes j).
Proof.
  intros Hf Hj. unfold block_at. apply lookup_lt_is_Some. pose proof (Z.mul_div_le (py_len hashes) f Hf). unfold py_len in *. nia.
Qed.

Lemma block_at_lt f hashes j h : 0 < f -> 0 <= j -> block_at f hashes j = Some h -> j < py_len hashes / f.
Proof.
  intros Hf Hj Hh%lookup_lt_Some. assert (j + 1 <= py_len hashes / f); [|lia].
  apply Z.div_le_lower_bound; unfold py_len; lia.
Qed.

Lemma block_at_inj f hashes j j' h :
  0 < f -> NoDup hashes -> 0 <= j -> 0 <= j' -> block_at f hashes j = Some h -> block_at f hashes j' = Some h -> j = j'.
Proof. intros Hf Hn Hj Hj' H1 H2. pose proof (NoDup_lookup _ _ _ _ Hn H1 H2). nia. Qed.

(** The hashes of blocks [s] to [s + n], which exist. *)
Definition block_list (f : Z) (hashes : list BlockHash) (s n : Z) : list BlockHash := omap (block_at f hashes) (seqZ s n).

Lemma block_list_in f hashes s n h :
  0 < f -> h ∈ block_list f hashes s n <-> exists j, s <= j < s + n /\ block_at f hashes j = Some h.
Proof. intros Hf. unfold block_list. rewrite list_elem_of_omap. setoid_rewrite elem_of_seqZ. done. Qed.

Lemma block_list_NoDup f hashes s n : 0 < f -> NoDup hashes -> 0 <= s -> NoDup (block_list f hashes s n).
Proof.
  intros Hf Hn. unfold block_list. destruct (decide (0 <= n)) as [Hp|]; [|intros; rewrite seqZ_nil by lia; apply NoDup_nil_2].
  rewrite <- (Z2Nat.id n) by done. generalize (Z.to_nat n) as k. clear n Hp. intros k. revert s.
  induction k as [|k IH]; intros s Hs; [apply NoDup_nil_2|].
  rewrite seqZ_cons by lia. replace (Z.pred (Z.of_nat (S k))) with (Z.of_nat k) by lia. cbn.
  destruct (block_at f hashes s) as [h|] eqn:Hh; [|apply IH; lia]. apply NoDup_cons. split; [|apply IH; lia].
  intros (j & Hj & Hjh)%(block_list_in f hashes (Z.succ s) (Z.of_nat k) h Hf).
  assert (s = j) by (apply (block_at_inj f hashes s j h); [done | done | lia | lia | done | done]). lia.
Qed.

Lemma block_list_length f hashes s n :
  0 < f -> 0 <= s -> 0 <= n -> s + n <= py_len hashes / f -> py_len (block_list f hashes s n) = n.
Proof.
  intros Hf Hs Hn. rewrite <- (Z2Nat.id n) by done. generalize (Z.to_nat n) as k. clear n Hn. intros k.
  unfold block_list. revert s Hs.
  induction k as [|k IH]; intros s Hs Hle; [done|].
  rewrite seqZ_cons by lia. replace (Z.pred (Z.of_nat (S k))) with (Z.of_nat k) by lia. cbn [omap list_omap].
  destruct (block_at_Some f hashes s Hf ltac:(lia)) as [h ->]. unfold py_len in *. cbn [length].
  rewrite Nat2Z.inj_succ, IH by lia. lia.
Qed.

Lemma count_hits_spec find hs :
  0 <= count_hits find hs <= py_len hs /\
  (forall i h, (Z.of_nat i < count_hits find hs) -> hs !! i = Some h -> exists b, find h = Some b /\ is_ready b = true) /\
  (forall h b, hs !! Z.to_nat (count_hits find hs) = Some h -> find h = Some b -> is_ready b = false).
Proof.
  induction hs as [|h hs (h1 & h2 & h3)]; cbn [count_hits]; [done|].
  assert (Hl : py_len (h :: hs) = 1 + py_len hs) by (unfold py_len; cbn; lia). rewrite Hl.
  destruct (find h) as [b|] eqn:Hb; [destruct (is_ready b) eqn:Hr|].
  - split; [lia|]. split.
    + intros [|i] k Hi Hk; cbn in Hk; [injection Hk as <-; by exists b|]. apply (h2 i); [lia | done].
    + replace (Z.to_nat (1 + count_hits find hs)) with (S (Z.to_nat (count_hits find hs))) by lia. cbn. exact h3.
  - unfold py_len. split; [lia|]. split; [lia|]. cbn. by intros k c [= <-] [= <-]%(eq_trans (eq_sym Hb)).
  - unfold py_len. split; [lia|]. split; [lia|]. cbn. intros k c [= <-]. congruence.
Qed.

Lemma block_list_lookup f hashes s n i :
  0 < f -> 0 <= s -> s + n <= py_len hashes / f -> (Z.of_nat i < n) -> block_list f hashes s n !! i = block_at f hashes (s + Z.of_nat i).
Proof.
  intros Hf Hs Hle Hi. unfold block_list. assert (0 <= n) as Hn by lia. revert Hle Hi. rewrite <- (Z2Nat.id n) by done.
  generalize (Z.to_nat n) as k. clear n Hn. intros k. revert s Hs i.
  induction k as [|k IH]; intros s Hs i Hle Hi; [lia|].
  rewrite seqZ_cons by lia. replace (Z.pred (Z.of_nat (S k))) with (Z.of_nat k) by lia. cbn [omap list_omap].
  destruct (block_at_Some f hashes s Hf ltac:(lia)) as [h Hh]. rewrite Hh.
  destruct i as [|i]; [cbn; by rewrite Z.add_0_r|]. cbn [lookup list_lookup]. rewrite IH by lia. f_equal. lia.
Qed.

(** ** The promise to the scheduler *)

Section Promise.
Context {M : Type} `{OffloadingLaws M}.
Implicit Types (c : Connector M).

Record connector_ok c : Prop := {
  ck_gpu : 0 < gpu_block_size c;
  ck_factor : 0 < block_size_factor c;
  ck_size : offloaded_block_size c = block_size_factor c * gpu_block_size c;
  ck_manager : om_ok (oc_manager c);
}.

(** Every full block of the request has its hash. *)
Definition hashed_up c (r : Request) : Prop :=
  py_len (Request.block_hashes r) = num_tokens r / gpu_block_size c /\ NoDup (Request.block_hashes r).

(** Off-loaded block [j] of the request can be read. *)
Definition loadable c (r : Request) (j : Z) : Prop :=
  exists h b, block_at (block_size_factor c) (Request.block_hashes r) j = Some h /\
    om_block h (oc_manager c) = Some b /\ is_ready b = true.

Lemma hashed_blocks c r :
  connector_ok c -> hashed_up c r -> py_len (Request.block_hashes r) / block_size_factor c = num_tokens r / offloaded_block_size c.
Proof.
  intros [h1 h2 h3 _] [-> _]. rewrite h3, (Z.mul_comm (block_size_factor c)). by rewrite Z.div_div by lia.
Qed.

Lemma hashes_from c r s :
  connector_ok c -> hashed_up c r -> 0 <= s <= num_tokens r / offloaded_block_size c ->
  get_block_hashes c r s None = block_list (block_size_factor c) (Request.block_hashes r) s (num_tokens r / offloaded_block_size c - s).
Proof.
  intros Hc Hr Hs. pose proof (hashed_blocks c r Hc Hr) as Hb. unfold get_block_hashes, block_list. rewrite <- Hb.
  apply islice_all; [apply Hc | lia | lia].
Qed.

Lemma hashes_between c r s n :
  connector_ok c -> 0 <= s < n -> n <= py_len (Request.block_hashes r) / block_size_factor c ->
  get_block_hashes c r s (Some n) = block_list (block_size_factor c) (Request.block_hashes r) s (n - s).
Proof.
  intros Hc Hs Hn. unfold get_block_hashes, block_list. destruct (Z.eqb_spec n 0); [lia|].
  apply islice_upto; [apply Hc | lia | lia].
Qed.

(** Looking up the request's blocks from [s] on finds those before the first that cannot be read. *)
Lemma lookup_hits c r s :
  connector_ok c -> hashed_up c r -> 0 <= s <= num_tokens r / offloaded_block_size c ->
  let k := om_lookup (get_block_hashes c r s None) (oc_manager c) in
  0 <= k <= num_tokens r / offloaded_block_size c - s /\ (forall j, s <= j < s + k -> loadable c r j) /\ ~ loadable c r (s + k).
Proof.
  intros Hc Hr Hs k. pose proof (hashed_blocks c r Hc Hr) as Hb. pose proof (ck_factor _ Hc) as Hf.
  unfold k. rewrite hashes_from, om_lookup_law by done. set (nb := num_tokens r / offloaded_block_size c) in *.
  set (f := block_size_factor c) in *. set (hs := Request.block_hashes r) in *.
  destruct (count_hits_spec (fun h => om_block h (oc_manager c)) (block_list f hs s (nb - s))) as (g1 & g2 & g3).
  rewrite block_list_length in g1 by lia. clear k. set (k := count_hits _ _) in *. split; [done|]. split.
  - intros j Hj. destruct (block_at_Some f hs j Hf) as [h Hh]; [rewrite Hb; lia|].
    destruct (g2 (Z.to_nat (j - s)) h) as (b & Hbl & Hrb); [lia | |by exists h, b].
    rewrite block_list_lookup by (rewrite ?Hb; lia). rewrite Z2Nat.id by lia. by replace (s + (j - s)) with j by lia.
  - intros (h & b & Hh & Hbl & Hrb). change (block_at f hs (s + k) = Some h) in Hh. apply block_at_lt in Hh as Hlt; [|done|lia]. rewrite Hb in Hlt.
    assert (is_ready b = false); [|congruence]. apply (g3 h b); [|exact Hbl].
    rewrite block_list_lookup by (rewrite ?Hb; lia). by rewrite Z2Nat.id by lia.
Qed.

(** A loadable block is a full block of the request. *)
Lemma loadable_lt c r j : connector_ok c -> hashed_up c r -> 0 <= j -> loadable c r j -> j < num_tokens r / offloaded_block_size c.
Proof.
  intros Hc Hr Hj (h & _ & Hh & _). rewrite <- (hashed_blocks c r Hc Hr). by eapply block_at_lt; [apply Hc | | exact Hh].
Qed.

(** C34: Asking the connector how many tokens can be loaded returns and changes no block. If off-loaded blocks can be read
    without a gap from the one the computed tokens end in up to a boundary at least one off-loaded block after the computed tokens,
    it answers with the tokens up to the last such boundary, to be loaded asynchronously; the block after it cannot be
    read. Otherwise, and only then, it answers that there is nothing to load. (For a manager that keeps [OffloadingLaws], such as
    the LRU manager.) *)
Theorem matched_tokens_loadable c r computed :
  connector_ok c -> hashed_up c r -> 0 <= computed ->
  let off := offloaded_block_size c in
  let readable_to e := forall j, computed / off <= j < e -> loadable c r j in
  exists n async c', get_num_new_matched_tokens r computed c = Ok (n, async, c') /\ connector_ok c' /\
    (forall h, om_block h (oc_manager c') = om_block h (oc_manager c)) /\
    if async then exists e, n = e * off - computed /\ off <= n /\ e * off <= num_tokens r /\ readable_to e /\ ~ loadable c r e
    else n = 0 /\ forall e, readable_to e -> e * off - computed < off.
Proof.
  intros Hc Hr Hcomp off readable_to. pose proof Hc as [h1 h2 h3 h4]. pose proof (hashed_blocks c r Hc Hr) as Hb.
  fold off in h3, Hb. assert (Hoff : 0 < off) by (rewrite h3; nia).
  unfold get_num_new_matched_tokens. fold off. rewrite !py_floordiv_ok by lia. cbn [mbind result_bind].
  rewrite Hb, Z.eqb_refl. cbn [py_assert mbind result_bind]. set (nb := num_tokens r / off) in *.
  destruct (om_touch_law (get_block_hashes c r 0 None) (oc_manager c) h4) as (m & Hm & Hok & Hsame).
  rewrite Hm. cbn [mbind result_bind]. set (c1 := c <| oc_manager := m |>).
  assert (Hc1 : connector_ok c1) by by split.
  change (offloaded_block_size c1) with off. set (s := computed / off) in *.
  pose proof (Z.mul_div_le computed off Hoff) as Hsle. pose proof (Z.mul_div_le (num_tokens r) off Hoff) as Hnb.
  fold s in Hsle. fold nb in Hnb. assert (Hs0 : 0 <= s) by by apply Z.div_pos.
  assert (Hend : forall e, readable_to e -> e <= s \/ e <= nb).
  { intros e He. destruct (decide (e <= s)); [by left|]. right.
    pose proof (loadable_lt c r (e - 1) Hc Hr ltac:(lia) (He (e - 1) ltac:(lia))) as Hlt. fold off nb in Hlt. lia. }
  destruct (Z.ltb_spec (off * nb - computed) off) as [Hshort|Hlong].
  { exists 0, false, c1. split_and!; [done..|]. intros e [?|?]%Hend; nia. }
  rewrite py_floordiv_ok by lia. cbn [mbind result_bind]. fold s.
  assert (Hsn : s < nb) by (apply Z.div_lt_upper_bound; nia).
  destruct (lookup_hits c1 r s Hc1 Hr) as (Hk & Hall & Hno); [change (offloaded_block_size c1) with off; fold nb; lia|].
  change (get_block_hashes c1 r s None) with (get_block_hashes c r s None) in *. change (oc_manager c1) with m in *.
  set (k := om_lookup _ _) in *. change (offloaded_block_size c1) with off in Hk. fold nb in Hk.
  assert (Hsame1 : forall j, loadable c1 r j <-> loadable c r j).
  { intros j. unfold loadable. change (oc_manager c1) with m. by setoid_rewrite Hsame. }
  rewrite Hsame1 in Hno. assert (Hstop : forall e, readable_to e -> e <= s + k).
  { intros e He. destruct (decide (e <= s + k)); [done|]. destruct Hno. apply He. lia. }
  destruct (Z.eqb_spec k 0) as [Hk0|_]; [exists 0, false, c1; split_and!; [done..|]; intros e ?%Hstop; nia|].
  destruct (Z.ltb_spec (off * (s + k) - computed) off) as [Hsmall|Hbig];
    [exists 0, false, c1; split_and!; [done..|]; intros e ?%Hstop; nia|].
  exists (off * (s + k) - computed), true, c1. split_and!; [done..|]. exists (s + k).
  split_and!; [lia | done | nia | | done]. intros j Hj. by apply Hsame1, Hall.
Qed.

Lemma bump_back b : bump (-1) (bump 1 b) = b.
Proof. destruct b as [n id]. unfold bump. cbn. f_equal. lia. Qed.

(** Loading what was promised: when the request's first GPU blocks hold the computed tokens, the
    rest are as many as the promised tokens need, and the off-loaded blocks in between can be
    read, the load is queued with those off-loaded blocks' slots as source and the rest of the GPU
    blocks as destination, of matching size; each source block is pinned by one reference
    and no other block changes.  When the worker reports the request received, every block is as it was. *)
Theorem load_pins_until_received c a r ids groups hashed n :
  connector_ok c -> hashed_up c r -> dget (request_id r) (reqs_being_loaded c) = None ->
  let computed := py_len (List.filter hashed ids) * gpu_block_size c in
  let first := computed / offloaded_block_size c in
  let loads := block_list (block_size_factor c) (Request.block_hashes r) first
                 ((computed + n) / offloaded_block_size c - first) in
  offloaded_block_size c <= n -> n = (py_len ids - py_len (List.filter hashed ids)) * gpu_block_size c ->
  (computed + n) mod offloaded_block_size c = 0 -> computed + n <= num_tokens r ->
  (forall h, h ∈ loads -> exists b, om_block h (oc_manager c) = Some b /\ 0 <= ref_cnt b < 2 ^ 31 - 2) ->
  exists c' src, update_state_after_alloc a r (ids :: groups) hashed n c = Ok c' /\ connector_ok c' /\
    dget (request_id r) (pending_loads c') = Some (src, slice_from (py_len (List.filter hashed ids)) ids) /\
    py_len src * offloaded_block_size c = n + computed mod offloaded_block_size c /\
    (forall h, om_block h (oc_manager c') =
       if bool_decide (h ∈ loads) then bump 1 <$> om_block h (oc_manager c) else om_block h (oc_manager c)) /\
    exists c2, loaded_request (request_id r) c' = Ok c2 /\ forall h, om_block h (oc_manager c2) = om_block h (oc_manager c).
Proof.
  intros Hc Hr Hfree computed first loads Hn Hpend Hmod Hfit Hall. pose proof Hc as [h1 h2 h3 h4].
  set (off := offloaded_block_size c) in *. assert (Hoff : 0 < off) by (rewrite h3; nia).
  set (k := py_len (List.filter hashed ids)) in *. assert (0 <= k) by (unfold k, py_len; lia).
  assert (Hcomp : 0 <= computed) by (unfold computed; nia).
  set (last := (computed + n) / off) in *. assert (Hlast : computed + n = off * last).
  { unfold last. pose proof (Z.div_mod (computed + n) off). lia. }
  assert (Hfirst : 0 <= first /\ first < last).
  { split; [by apply Z.div_pos|]. apply Z.div_lt_upper_bound; lia. }
  pose proof (hashed_blocks c r Hc Hr) as Hb. fold off in Hb.
  assert (Hle : last <= py_len (Request.block_hashes r) / block_size_factor c).
  { rewrite Hb. apply Z.div_le_mono; lia. }
  assert (Hl : py_len loads = last - first) by (unfold loads; apply block_list_length; lia).
  assert (Hnd : NoDup loads) by (apply block_list_NoDup; [done | apply Hr | lia]).
  destruct (om_prepare_load_law loads (oc_manager c) h4 Hnd Hall) as (src & m & Hm & Hok & Hsrc & Hget).
  assert (Hlen : py_len src = last - first).
  { rewrite <- Hl, Hsrc. unfold py_len. f_equal. clear -Hall. induction loads as [|h l IH]; [done|].
    destruct (Hall h ltac:(by left)) as (b & Hb & _). cbn. rewrite Hb. cbn. f_equal. apply IH. intros; apply Hall; by right. }
  unfold update_state_after_alloc. destruct (Z.eqb_spec n 0); [lia|].
  change (py_index (ids :: groups) 0) with (Ok (A := list Z) ids). cbn [mbind result_bind].
  set (c0 := c <| oc_requests := _ |> <| request_block_ids := _ |>).
  change (offloaded_block_size c0) with off. change (gpu_block_size c0) with (gpu_block_size c).
  fold k. fold computed. rewrite py_mod_ok, Hmod by lia. cbn [mbind result_bind Z.eqb py_assert].
  rewrite (proj2 (Z.eqb_eq n _)) by done. cbn [py_assert mbind result_bind].
  rewrite !py_floordiv_ok by (change (block_size_factor c0) with (block_size_factor c); lia). cbn [mbind result_bind].
  fold last. rewrite (proj2 (Z.leb_le _ _)) by done. cbn [py_assert mbind result_bind].
  change (get_block_hashes c0 r) with (get_block_hashes c r). fold first.
  rewrite hashes_between by (done || lia). fold loads. change (oc_manager c0) with (oc_manager c). rewrite Hm. cbn [mbind result_bind].
  eexists _, src. split; [reflexivity|]. split; [by split|]. cbn [pending_loads]. split; [apply dget_dset_eq|].
  split; [rewrite Hlen; pose proof (Z.div_mod computed off); unfold first; nia|]. split; [exact Hget|].
  unfold loaded_request. cbn. rewrite dget_dset_eq. unfold dget_or. rewrite Hfree. rewrite (left_id_L ∅ (∪)).
  assert (Hset : forall h, h ∈ elements (list_to_set loads : gset BlockHash) <-> h ∈ loads) by (intros; by rewrite elem_of_elements, elem_of_list_to_set).
  rewrite bool_decide_eq_false_2.
  2: { intros He. destruct loads as [|h l]; [unfold py_len in Hl; cbn in Hl; lia|]. set_solver. }
  destruct (om_complete_load_law (elements (list_to_set loads : gset BlockHash)) m Hok) as (m2 & Hm2 & _ & Hget2).
  { apply NoDup_elements. }
  { intros h Hin%Hset. destruct (Hall h Hin) as (b & Hbl & Href). exists (bump 1 b). rewrite Hget.
    rewrite bool_decide_eq_true_2 by done. rewrite Hbl. split; [done|]. cbn. lia. }
  rewrite Hm2. eexists. split; [reflexivity|]. intros h. cbn. rewrite Hget2, Hget.
  rewrite (bool_decide_ext _ _ (Hset h)). case_bool_decide; [|done].
  destruct (om_block h (oc_manager c)) as [b|]; [|done]. cbn. by rewrite bump_back.
Qed.

End Promise.

(** ** Storing with the ARC manager *)

Section ArcStores.
Import ARC.
Implicit Types (m : ARC.Manager) (c : Connector ARC.Manager).

Definition unready_in m (h : BlockHash) : Prop := exists b, dget h (t1 m) = Some b /\ is_ready b = false.

Lemma touch_one_keeps m m' h k : h <> k -> unready_in m k -> touch_one h m = Ok m' -> unready_in m' k.
Proof.
  intros Hne (b & Hb & Hr) Ht. unfold touch_one in Ht. exists b. split; [|done].
  destruct (dget h (t1 m)) as [x|] eqn:Hx.
  - destruct (negb (is_ready x)); inv_ok; cbn; [|by rewrite dget_ddel_ne].
    unfold dmove_to_end in Hr0. cbn in Hr0. destruct (dget h (ddel h (t1 m))) eqn:Hd; [|done]. injection Hr0 as <-.
    rewrite dget_app. by rewrite !dget_ddel_ne, Hb by done.
  - destruct (dmem h (t2 m)); [by inv_ok|]. destruct (dmem h (b1 m)); [by inv_ok|]. destruct (dmem h (b2 m)); by inv_ok.
Qed.

(** Touching a block that is being stored raises: the code takes it out of [t1]
    and then moves it to the end of [t1]. *)
Lemma touch_unready_raises hs m :
  dict_ok (t1 m) -> (exists h, h ∈ hs /\ unready_in m h) -> forall m', touch hs m <> Ok m'.
Proof.
  unfold touch. intros Hok (k & Hk & Hu). assert (Hin : k ∈ rev hs) by by apply list_elem_of_In, (in_rev hs), list_elem_of_In.
  clear Hk. revert m Hok Hu. induction (rev hs) as [|h l IH]; intros m Hok Hu m' Ht; [by apply elem_of_nil in Hin|].
  cbn in Ht. inv_ok. destruct (decide (h = k)) as [->|Hne].
  - destruct Hu as (b & Hb & Hr'). unfold touch_one in Hr. rewrite Hb, Hr' in Hr. cbn in Hr.
    unfold dmove_to_end in Hr. by rewrite dget_ddel_eq in Hr.
  - apply elem_of_cons in Hin as [->|Hin]; [done|]. apply (IH Hin r) in Ht; [done | | by eapply touch_one_keeps].
    unfold touch_one in Hr. destruct (dget h (t1 m)) as [x|] eqn:Hx.
    + destruct (negb (is_ready x)); inv_ok; cbn; [|by apply dict_ok_ddel].
      cbn in Hr0. unfold dmove_to_end in Hr0. by rewrite dget_ddel_eq in Hr0.
    + destruct (dmem h (t2 m)); [by inv_ok|]. destruct (dmem h (b1 m)); [by inv_ok|]. destruct (dmem h (b2 m)); by inv_ok.
Qed.

Lemma alloc_not_ready hs b bs b' : allocate_blocks hs b = Ok (bs, b') -> Forall (fun s => is_ready s = false) bs.
Proof.
  assert (Hloop : forall (body : Z -> CPUBackend -> result (BlockStatus * CPUBackend)) l b bs b',
    (forall x b0 s b1, body x b0 = Ok (s, b1) -> is_ready s = false) ->
    for_collect body l b = Ok (bs, b') -> Forall (fun s => is_ready s = false) bs).
  { intros body l. induction l as [|x l IH]; intros b0 bs0 b1 Hbody Hr; cbn in Hr; inv_ok; [done|].
    constructor; [by eapply Hbody | by eapply IH]. }
  unfold allocate_blocks. intros Hr. inv_ok. apply Forall_app. split; (eapply Hloop; [|eassumption]).
  - intros x b0 s b1 [= <- <-]. done.
  - intros x b0 s b1. unfold alloc_reused. destruct (rev _); [done|]. by intros [= <- <-].
Qed.

Lemma evict_one_keys m x m' : evict_one m = Ok (x, m') -> dict_ok (t1 m) -> dict_ok (t1 m').
Proof.
  unfold evict_one. intros Hr Hok. apply bind_Ok_inv in Hr as (n & _ & Hr). cbn beta in Hr.
  destruct (if n <=? _ then _ else _) as [p|]; [inv_ok; cbn; by apply dict_ok_ddel|].
  destruct (oldest_unused (t2 m)); by inv_ok.
Qed.

Lemma evict_loop_keys n acc m x m' : evict_loop n acc m = Ok (x, m') -> dict_ok (t1 m) -> dict_ok (t1 m').
Proof.
  revert acc m. induction n as [|n IH]; intros acc m Hr Hok; cbn in Hr; [by inv_ok|].
  apply bind_Ok_inv in Hr as ([h m1] & H1 & Hr). pose proof (evict_one_keys _ _ _ H1 Hok).
  destruct h; [by eapply IH | by inv_ok].
Qed.

Lemma insert_keys l m : dict_ok (t1 m) -> dict_ok (t1 (fold_left insert_one l m)).
Proof. revert m. induction l as [|p l IH]; intros m Hok; [done|]. cbn. apply IH. cbn. by apply dict_ok_dset. Qed.

Lemma insert_last l m h s : exists s', dget h (t1 (fold_left insert_one (l ++ [(h, s)]) m)) = Some s' /\ s' = s.
Proof. exists s. split; [|done]. rewrite fold_left_app. cbn. by rewrite dget_dset_eq. Qed.

Lemma combine_app {A B} (l1 l2 : list A) (k1 k2 : list B) :
  length l1 = length k1 -> combine (l1 ++ l2) (k1 ++ k2) = combine l1 k1 ++ combine l2 k2.
Proof. revert k1. induction l1 as [|x l1 IH]; intros [|y k1] Hl; try done. cbn. f_equal. apply IH. by injection Hl. Qed.

(** What [prepare_store] stores is in [t1] afterwards, not ready. *)
Lemma arc_store_unready hs m o m' :
  prepare_store hs m = Ok (Some o, m') -> block_hashes_to_store o <> [] -> dict_ok (t1 m) ->
  dict_ok (t1 m') /\ exists h, h ∈ hs /\ unready_in m' h.
Proof.
  unfold prepare_store. intros Hr Hne Hok. set (to_store := List.filter _ hs) in *.
  assert (Hsub : forall h, h ∈ to_store -> h ∈ hs) by (by intros h [_ Hin]%elem_of_list_bfilter).
  assert (Hgo : ('(evicted, m) ← evict_loop (Z.to_nat (py_len to_store - get_num_free_blocks (backend m))) [] m;
      match evicted with None => Ok (None, m) | Some to_evict => store_new to_store to_evict m end) = Ok (Some o, m')).
  { destruct to_store; [by injection Hr as <- _ | done]. }
  clear Hr. apply bind_Ok_inv in Hgo as ([ev m1] & H1 & Hr). destruct ev as [ev|]; [|by inv_ok].
  pose proof (evict_loop_keys _ _ _ _ _ H1 Hok) as Hok1. unfold store_new in Hr.
  apply bind_Ok_inv in Hr as ([bs bk] & Ha & Hr). apply bind_Ok_inv in Hr as (u & Hl & Hr).
  apply py_assert_Ok, Z.eqb_eq in Hl. injection Hr as <- <-. cbn [block_hashes_to_store] in Hne.
  split; [by apply insert_keys|]. pose proof (alloc_not_ready _ _ _ _ Ha) as Hbs.
  destruct (exists_last Hne) as (l & h & Heq). exists h. split; [apply Hsub; rewrite Heq; set_solver|].
  assert (Hbne : bs <> []) by (intros ->; rewrite Heq in Hl; unfold py_len in Hl; rewrite length_app in Hl; cbn in Hl; lia).
  destruct (exists_last Hbne) as (k & s & Hbeq). rewrite Heq, Hbeq in Hl |- *.
  unfold py_len in Hl. rewrite !length_app in Hl. cbn in Hl. rewrite combine_app by lia.
  match goal with |- unready_in (fold_left _ (?c ++ _) ?m2) _ => destruct (insert_last c m2 h s) as (s' & Hs' & ->) end.
  exists s. split; [exact Hs'|]. rewrite Hbeq in Hbs. apply Forall_app in Hbs as [_ Hbs]. by apply Forall_cons in Hbs as [? _].
Qed.

(** The blocks to store are among the blocks touched. *)
Lemma new_among_touched c r start n h :
  0 < block_size_factor c -> 0 <= start ->
  h ∈ get_block_hashes c r start (Some n) -> h ∈ get_block_hashes c r 0 (Some n).
Proof.
  unfold get_block_hashes, islice. set (f := block_size_factor c). intros Hf Hs.
  set (last := match (if n =? 0 then None else Some (f * n)) with Some n => _ | None => _ end).
  rewrite !list_elem_of_omap. intros (i & Hi & Hh). exists i. split; [|done].
  apply elem_of_list_bfilter in Hi as [Hm Hi]. apply elem_of_list_bfilter. apply Z.eqb_eq in Hm.
  unfold py_range in *. rewrite elem_of_seqZ in Hi |- *. split; [|nia]. apply Z.eqb_eq.
  replace (i - (f * 0 + f - 1)) with ((i - (f * start + f - 1)) + start * f) by lia. by rewrite Z.mod_add by lia.
Qed.

Record arc_connector c : Prop := {
  ac_keys : dict_ok (t1 (oc_manager c));
  ac_factor : 0 < block_size_factor c;
  ac_next : forall rid n, dget rid (next_stored_block_idx c) = Some n -> 0 <= n;
}.

Lemma note_blocks_same rid groups preempted c c' :
  note_blocks rid groups preempted c = Ok c' -> arc_connector c -> arc_connector c'.
Proof.
  unfold note_blocks. intros Hr [h1 h2 h3]. destruct preempted, groups as [[|ids gs]|]; inv_ok; by split.
Qed.

(** A step that would store raises. *)
Lemma arc_store_one objects so x stores c stores' c' :
  store_one objects so x (stores, c) = Ok (stores', c') -> arc_connector c -> stores' = stores /\ arc_connector c'.
Proof.
  destruct x as [[rid groups] preempted]. unfold store_one. intros Hr Hc.
  apply bind_Ok_inv in Hr as (c1 & Hn & Hr). apply (note_blocks_same _ _ _ _ _ Hn) in Hc as Hc1. clear Hn Hc.
  apply bind_Ok_inv in Hr as (ids & _ & Hr). apply bind_Ok_inv in Hr as (a & _ & Hr). cbv zeta in Hr.
  apply bind_Ok_inv in Hr as (new_tokens & _ & Hr). apply bind_Ok_inv in Hr as (num_blocks & _ & Hr).
  set (start := dget_or rid 0 (next_stored_block_idx c1)) in *.
  assert (Hstart : 0 <= start).
  { unfold start, dget_or. destruct (dget rid (next_stored_block_idx c1)) as [n|] eqn:Hd; [|done]. by eapply ac_next. }
  destruct (Z.leb_spec (num_blocks - start) 0) as [|Hlt]; [by injection Hr as <- <-|].
  apply bind_Ok_inv in Hr as ([out m] & Hp & Hr). destruct Hc1 as [h1 h2 h3].
  destruct out as [o|].
  2: { injection Hr as <- <-. split; [done|]. split; cbn; [|done..].
       unfold prepare_store in Hp. cbn in Hp. unfold prepare_store in Hp. destruct (List.filter _ _); [by injection Hp|].
       apply bind_Ok_inv in Hp as ([ev m1] & He & Hp). pose proof (evict_loop_keys _ _ _ _ _ He h1).
       destruct ev as [ev|]; [|by injection Hp as <-]. unfold store_new in Hp.
       apply bind_Ok_inv in Hp as ([bs bk] & _ & Hp). apply bind_Ok_inv in Hp as (u & _ & Hp). done. }
  destruct (block_hashes_to_store o) as [|h l] eqn:Hts.
  - injection Hr as <- <-. split; [done|]. split; cbn; [|done|].
    + cbn in Hp. unfold prepare_store in Hp. destruct (List.filter _ _) eqn:Hf; [by injection Hp as <- <-|].
      apply bind_Ok_inv in Hp as ([ev m1] & He & Hp). destruct ev as [ev|]; [|done]. unfold store_new in Hp.
      apply bind_Ok_inv in Hp as ([bs bk] & _ & Hp). apply bind_Ok_inv in Hp as (u & _ & Hp). injection Hp as <- <-. done.
    + intros k n. rewrite dget_dset. case_decide; [intros [= <-]; lia | apply h3].
  - exfalso. destruct (arc_store_unready _ _ _ _ Hp) as (Hok & k & Hk & Hu); [by rewrite Hts | done|].
    apply bind_Ok_inv in Hr as (m2 & Ht & _). revert Ht. apply touch_unready_raises; [exact Hok|].
    exists k. split; [|exact Hu]. by apply (new_among_touched c1 (objects a) start).
Qed.

(** The ARC policy never stores a block: whenever building a step's metadata returns, it stores
    nothing.  A step with a block to store raises KeyError, because [touch] takes the block that
    was just prepared out of [t1] before moving it to the end of [t1]. *)
Theorem arc_never_stores objects so c meta c' :
  arc_connector c -> build_connector_meta objects so c = Ok (meta, c') ->
  reqs_to_store meta = [] /\ arc_connector c'.
Proof.
  intros Hc Hr. unfold build_connector_meta in Hr. apply bind_Ok_inv in Hr as ([stores c1] & Hl & Hr).
  injection Hr as <- <-. cbn [reqs_to_store].
  assert (Hinv : stores = [] /\ arc_connector c1); [|destruct Hinv as [-> [h1 h2 h3]]; by split].
  refine (for_each_inv (fun st => st.1 = [] /\ arc_connector st.2) (store_one objects so) (req_data so) ([], c) (stores, c1) _ _ Hl).
  - intros x [s0 c0] [s1 c2] _ [Hs0 Hc0] Hone. destruct (arc_store_one _ _ _ _ _ _ _ Hone Hc0) as [-> ?]. done.
  - done.
Qed.
End ArcStores.

(** ** Storing with the LRU manager *)

Section LruStores.
Implicit Types (c : Connector LRU.Manager).

(** [f] GPU blocks from block [j] on. *)
Definition chunk (f : Z) (ids : list Z) (j : Z) : list Z := take (Z.to_nat f) (drop (Z.to_nat (j * f)) ids).

Lemma read_chunk f ids j :
  0 <= f -> 0 <= j -> (j + 1) * f <= py_len ids -> mapM (fun i => py_index ids (j * f + i)) (py_range 0 f) = Ok (chunk f ids j).
Proof.
  intros Hf Hj Hlen. unfold py_range. rewrite Z.sub_0_r.
  assert (Hgen : forall n o, 0 <= o -> j * f + o + Z.of_nat n <= py_len ids ->
    mapM (fun i => py_index ids (j * f + i)) (seqZ o (Z.of_nat n)) = Ok (take n (drop (Z.to_nat (j * f + o)) ids))).
  { induction n as [|n IH]; intros o Ho Hl; [done|]. rewrite seqZ_cons by lia.
    assert (is_Some (ids !! Z.to_nat (j * f + o))) as [x Hx] by (apply lookup_lt_is_Some; unfold py_len in Hl; nia).
    rewrite (drop_S ids x) by done. cbn [take]. apply mapM_cons_ok; [by apply py_index_Some; [nia|]|].
    replace (Z.pred (Z.of_nat (S n))) with (Z.of_nat n) by lia. rewrite IH by lia. do 3 f_equal. nia. }
  pose proof (Hgen (Z.to_nat f) 0 ltac:(lia) ltac:(nia)) as Hg. by rewrite Z2Nat.id, Z.add_0_r in Hg.
Qed.

Definition stored_among (ts hs : list BlockHash) : list BlockHash := List.filter (fun h => bool_decide (h ∈ ts)) hs.

Lemma length_chunk f ids j : 0 <= f -> 0 <= j -> (j + 1) * f <= py_len ids -> length (chunk f ids j) = Z.to_nat f.
Proof. intros Hf Hj Hl. unfold chunk. rewrite length_take, length_drop. unfold py_len in Hl. nia. Qed.

(** The source of a store: the GPU blocks of each block stored, in the order of the slots. *)
Lemma source_blocks_ok c ids s ts hs :
  0 < block_size_factor c -> 0 <= s -> (s + py_len hs) * block_size_factor c <= py_len ids ->
  exists src, source_blocks c ids s ts hs = Ok src /\
    py_len src = block_size_factor c * py_len (stored_among ts hs) /\
    forall i h, hs !! i = Some h -> h ∈ ts -> exists k, stored_among ts hs !! k = Some h /\
      chunk (block_size_factor c) src (Z.of_nat k) = chunk (block_size_factor c) ids (s + Z.of_nat i).
Proof.
  intros Hf Hs Hlen. unfold source_blocks. set (f := block_size_factor c) in *.
  set (body := fun p : nat * BlockHash => if bool_decide (p.2 ∈ ts)
     then mapM (fun i => py_index ids ((s + Z.of_nat p.1) * f + i)) (py_range 0 f) else Ok []).
  assert (Hgen : forall o, (s + Z.of_nat o + py_len hs) * f <= py_len ids ->
    exists l, mapM body (imap (fun i h => ((o + i)%nat, h)) hs) = Ok l /\
      py_len (concat l) = f * py_len (stored_among ts hs) /\
      forall i h, hs !! i = Some h -> h ∈ ts -> exists k, stored_among ts hs !! k = Some h /\
        chunk f (concat l) (Z.of_nat k) = chunk f ids (s + Z.of_nat (o + i))).
  { clear Hlen. induction hs as [|h hs IH]; intros o Ho.
    - exists []. split; [done|]. split; [unfold py_len; cbn; lia|]. by intros i h Hi.
    - assert (Hpos : 0 <= py_len hs) by (unfold py_len; lia).
      assert (Hcons : py_len (h :: hs) = 1 + py_len hs) by (unfold py_len; cbn; lia). rewrite Hcons in Ho.
      destruct (IH (S o)) as (l & Hl & Hlen & Hall); [nia|].
      cbn [imap]. rewrite Nat.add_0_r.
      assert (Himap : imap ((fun i h => ((o + i)%nat, h)) ∘ S) hs = imap (fun i h => ((S o + i)%nat, h)) hs).
      { apply imap_ext. intros i x _. cbn. f_equal. lia. }
      rewrite Himap. unfold stored_among in *. cbn [List.filter].
      case_bool_decide as Hin.
      + exists (chunk f ids (s + Z.of_nat o) :: l). split; [|split].
        * apply mapM_cons_ok; [|done]. unfold body. cbn [fst snd]. rewrite bool_decide_eq_true_2 by done.
          apply read_chunk; nia.
        * unfold py_len in *. cbn [concat length]. rewrite length_app, length_chunk by (unfold py_len; nia). lia.
        * assert (Hc : length (chunk f ids (s + Z.of_nat o)) = Z.to_nat f) by (apply length_chunk; nia).
          intros [|i] x Hx Hxin; cbn in Hx.
          -- injection Hx as <-. exists 0%nat. split; [done|]. rewrite Nat.add_0_r. cbn [concat].
             unfold chunk at 1. cbn. rewrite drop_0, <- Hc. by rewrite take_app_length.
          -- destruct (Hall i x Hx Hxin) as (k & Hk & He). exists (S k). split; [done|].
             replace (o + S i)%nat with (S o + i)%nat by lia. rewrite <- He. cbn [concat]. unfold chunk at 1 3.
             replace (Z.to_nat (Z.of_nat (S k) * f)) with (length (chunk f ids (s + Z.of_nat o)) + Z.to_nat (Z.of_nat k * f))%nat by nia.
             by rewrite drop_app_add.
      + exists ([] :: l). split; [|split; [done|]].
        * apply mapM_cons_ok; [|done]. unfold body. cbn [fst snd]. by rewrite bool_decide_eq_false_2.
        * intros [|i] x Hx Hxin; cbn in Hx; [by injection Hx as <-|].
          destruct (Hall i x Hx Hxin) as (k & Hk & He). exists k. split; [done|]. by replace (o + S i)%nat with (S o + i)%nat by lia. }
  destruct (Hgen 0%nat) as (l & Hl & Hlen' & Hall); [nia|]. exists (concat l).
  change (imap pair hs) with (imap (fun i h => ((0 + i)%nat, h)) hs). rewrite Hl. done.
Qed.

Lemma list_find_index (ts : list BlockHash) k h : NoDup ts -> ts !! k = Some h -> list_find (eq h) ts = Some (k, h).
Proof.
  intros Hn Hk. apply list_find_Some. split; [done|]. split; [done|]. intros j y Hj Hlt Heq.
  subst y. pose proof (NoDup_lookup ts j k h Hn Hj Hk). lia.
Qed.

Lemma lru_note c c1 rid groups preempted :
  note_blocks rid groups preempted c = Ok c1 -> connector_ok c ->
  connector_ok c1 /\ oc_manager c1 = oc_manager c /\ oc_requests c1 = oc_requests c /\
  next_stored_block_idx c1 = next_stored_block_idx c /\ block_size_factor c1 = block_size_factor c /\
  offloaded_block_size c1 = offloaded_block_size c.
Proof.
  unfold note_blocks. intros Hr [h1 h2 h3 h4]. destruct preempted, groups as [[|ids gs]|]; inv_ok; (split; [by split | done]).
Qed.

Lemma bool_decide_absent m hs h : h ∈ hs -> bool_decide (h ∈ absent m hs) = negb (dmem h (LRU.blocks m)).
Proof.
  intros Hin. unfold absent. destruct (negb (dmem h (LRU.blocks m))) eqn:Hd.
  - apply bool_decide_eq_true_2. by apply elem_of_list_bfilter.
  - apply bool_decide_eq_false_2. intros [? _]%elem_of_list_bfilter. congruence.
Qed.

(** Blocks that are in use or being stored stay. *)
Lemma lru_prepare_keeps hs m out m' :
  LRU.prepare_store hs m = Ok (out, m') -> lru_ok m -> NoDup hs ->
  forall h b, dget h (LRU.blocks m) = Some b -> ~ unused b -> dget h (LRU.blocks m') = Some b.
Proof.
  intros Hp Hok Hn h b Hb Hu. destruct (lru_prepare_store hs m Hok Hn) as (out1 & m1 & Hp1 & _ & Hout).
  rewrite Hp in Hp1. injection Hp1 as <- <-. destruct out as [o|]; [|by destruct Hout as [-> _]].
  destruct Hout as (_ & e1 & e2 & e3 & ->). rewrite e2. destruct (list_find (eq h) (absent m hs)) as [[i k]|] eqn:Hfind.
  - apply list_find_Some in Hfind as (Hi & Heq & _). subst k. apply list_elem_of_lookup_2, elem_of_list_bfilter in Hi as [Hi _].
    unfold dmem in Hi. by rewrite Hb in Hi.
  - rewrite bool_decide_eq_false_2; [done|]. intros (i & Hi & _)%elem_of_take. apply list_elem_of_lookup_2 in Hi.
    destruct (unused_keys_unused _ _ Hok Hi) as (b' & Hb' & Hu'). by simplify_eq.
Qed.

(** The transfer of the blocks [ts], those of the request's new blocks that were absent, into the slots [dst]. *)
Lemma stored_chunks c ids start last hashes m dst find :
  let f := block_size_factor c in
  let hs := block_list f hashes start (last - start) in
  let ts := absent m hs in
  0 < f -> NoDup hs -> 0 <= start < last -> last <= py_len hashes / f -> last * f <= py_len ids -> length dst = length ts ->
  (forall h i, list_find (eq h) ts = Some (i, h) -> find h = fresh_status <$> dst !! i) ->
  exists src, source_blocks c ids start ts hs = Ok src /\ py_len src = f * py_len dst /\
    forall j h, start <= j < last -> block_at f hashes j = Some h -> h ∈ ts ->
      exists k slot, ts !! k = Some h /\ dst !! k = Some slot /\ find h = Some (fresh_status slot) /\
        chunk f src (Z.of_nat k) = chunk f ids j.
Proof.
  intros f hs ts Hf Hhs Hs Hle Hlen Hdst Hfind.
  assert (Hts : stored_among ts hs = ts).
  { unfold stored_among, ts at 2, absent. apply filter_ext_in. intros h Hin. apply bool_decide_absent. by apply list_elem_of_In. }
  destruct (source_blocks_ok c ids start ts hs) as (src & Hsrc & Hslen & Hall); [done | lia | |].
  { unfold hs. fold f. rewrite block_list_length by lia. nia. }
  exists src. fold f in Hslen, Hall. rewrite Hts in *. split; [done|]. split; [rewrite Hslen; unfold py_len; by rewrite Hdst|].
  intros j h Hj Hh Hin. destruct (Hall (Z.to_nat (j - start)) h) as (k & Hk & Hchunk); [|done|].
  { unfold hs. rewrite block_list_lookup by lia. by rewrite Z2Nat.id, Z.add_sub_assoc, Z.add_simpl_l by lia. }
  rewrite Z2Nat.id in Hchunk by lia. replace (start + (j - start)) with j in Hchunk by lia.
  apply lookup_lt_Some in Hk as Hkl. rewrite <- Hdst in Hkl. destruct (lookup_lt_is_Some_2 dst k Hkl) as [slot Hslot].
  exists k, slot. split_and!; [done..| |done]. rewrite (Hfind h k); [by rewrite Hslot|].
  apply list_find_index; [by apply bfilter_NoDup | done].
Qed.

(** C35: Storing with the LRU policy: for a known request whose GPU blocks and hashes cover its full
    blocks, a step returns. It leaves every block that is in use or being stored as it was. If there is no new full block,
    or the missing ones do not fit into the free slots and those of unused blocks, it does nothing but note the GPU blocks, so
    the blocks are tried again. Otherwise all new blocks count as stored; if none is missing nothing is
    transferred, and else a transfer is queued of exactly the missing blocks: each has a slot of its own, not ready yet, that is filled
    from exactly the GPU blocks that hold it, and is noted as being stored. *)
Theorem lru_store_copies_its_blocks objects so c c1 rid groups preempted stores ids a n :
  connector_ok c -> note_blocks rid groups preempted c = Ok c1 ->
  dget rid (request_block_ids c1) = Some ids -> dget rid (oc_requests c) = Some a ->
  dget rid (num_scheduled_tokens so) = Some n ->
  let f := block_size_factor c in
  let hashes := Request.block_hashes (objects a) in
  let start := dget_or rid 0 (next_stored_block_idx c) in
  let last := (num_computed_tokens (objects a) + n) / offloaded_block_size c in
  let missing := absent (oc_manager c) (block_list f hashes start (last - start)) in
  let room := get_num_free_blocks (LRU.backend (oc_manager c)) + py_len (unused_keys (LRU.blocks (oc_manager c))) in
  NoDup hashes -> 0 <= start -> last <= py_len hashes / f -> last * f <= py_len ids ->
  exists stores' c', store_one objects so (rid, groups, preempted) (stores, c) = Ok (stores', c') /\ connector_ok c' /\
    (forall h b, om_block h (oc_manager c) = Some b -> ~ unused b -> om_block h (oc_manager c') = Some b) /\
    if (last <=? start) || (room <? py_len missing) then stores' = stores /\ c' = c1
    else
      next_stored_block_idx c' = dset rid last (next_stored_block_idx c1) /\
      if bool_decide (missing = []) then stores' = stores /\ reqs_being_stored c' = reqs_being_stored c1
      else exists src dst, stores' = dset rid (src, dst) stores /\
        length dst = length missing /\ py_len src = f * py_len dst /\
        reqs_being_stored c' = add_set rid (list_to_set missing) (reqs_being_stored c1) /\
        forall j h, start <= j < last -> block_at f hashes j = Some h -> h ∈ missing ->
          exists k slot, missing !! k = Some h /\ dst !! k = Some slot /\ om_block h (oc_manager c') = Some (fresh_status slot) /\
            chunk f src (Z.of_nat k) = chunk f ids j.
Proof.
  intros Hc Hn Hids Ha Hnum f hashes start last missing room Hnd Hs Hle Hlen.
  destruct (lru_note _ _ _ _ _ Hn Hc) as (Hc1 & Em & Er & Ex & Ef & Eo). unfold store_one. rewrite Hn. cbn [mbind result_bind].
  rewrite Hids, Er, Ha, Hnum. cbn [or_raise mbind result_bind]. rewrite Eo.
  replace (dget_or rid 0 (next_stored_block_idx c1)) with start by by rewrite Ex.
  pose proof Hc as [Hg Hf Hsize Hm]. fold f in Hf, Hsize.
  rewrite py_floordiv_ok by nia. cbn [mbind result_bind]. fold last.
  destruct (Z.leb_spec (last - start) 0) as [|Hlt]; [rewrite (proj2 (Z.leb_le _ _)) by lia|rewrite (proj2 (Z.leb_gt _ _)) by lia]; cbn [orb].
  { exists stores, c1. split_and!; [done..| by rewrite Em | done | done]. }
  rewrite !hashes_between by (done || lia || (rewrite Ef; fold f hashes; lia)). rewrite Ef. fold f hashes.
  set (hs := block_list f hashes start (last - start)) in *.
  assert (Hhs : NoDup hs) by (apply block_list_NoDup; done || lia).
  destruct (lru_prepare_store hs (oc_manager c) Hm Hhs) as (out & m & Hp & Hok & Hout).
  pose proof (lru_prepare_keeps _ _ _ _ Hp Hm Hhs) as Hkeep. unfold shortage in Hout. fold missing in Hout.
  rewrite Em. change (om_prepare_store hs (oc_manager c)) with (LRU.prepare_store hs (oc_manager c)). rewrite Hp. cbn [mbind result_bind].
  destruct out as [o|].
  2: { destruct Hout as [-> Hroom]. rewrite (proj2 (Z.ltb_lt _ _)) by (unfold room; lia). eexists _, _. split; [reflexivity|].
       rewrite <- Em. split; [by destruct Hc1; split|]. split; [by rewrite <- Em in Hkeep|]. split; [done|]. by destruct c1. }
  destruct Hout as (Hroom & e1 & e2 & e3 & e4). rewrite (proj2 (Z.ltb_ge _ _)) by (unfold room; lia).
  rewrite e1. set (c2 := c1 <| oc_manager := m |> <| next_stored_block_idx := _ |>).
  destruct missing as [|h0 l] eqn:Hts.
  { eexists _, _. split; [reflexivity|]. split; [by destruct Hc1; split|]. split; [exact Hkeep|]. done. }
  rewrite bool_decide_eq_false_2 by done. rewrite <- Hts in *. clear h0 l Hts.
  destruct (lru_touch (get_block_hashes c2 (objects a) 0 (Some last)) m Hok) as (m2 & Ht & Hok2 & Hsame).
  change (om_touch (get_block_hashes c2 (objects a) 0 (Some last)) (oc_manager c2)) with
    (LRU.touch (get_block_hashes c2 (objects a) 0 (Some last)) m). rewrite Ht. cbn [mbind result_bind].
  set (c3 := c2 <| oc_manager := m2 |>). assert (Ef3 : block_size_factor c3 = f) by exact Ef.
  destruct (stored_chunks c3 ids start last hashes (oc_manager c) (store_spec o) (fun h => om_block h m2)) as (src & Hsrc & Hslen & Hall);
    rewrite ?Ef3; [done..| lia | done | done | done | |].
  { intros h i Hi. fold hs missing in Hi. change (dget h (LRU.blocks m2) = fresh_status <$> store_spec o !! i). by rewrite Hsame, e4, Hi. }
  rewrite Ef3 in Hsrc, Hslen, Hall. fold hs missing in Hsrc, Hall.
  rewrite Hsrc. cbn [mbind result_bind]. eexists _, _. split; [reflexivity|]. split; [by destruct Hc1; split|].
  split; [intros h b Hb Hu; change (dget h (LRU.blocks m2) = Some b); rewrite Hsame; by apply Hkeep|]. split; [done|].
  exists src, (store_spec o). split_and!; [done..|]. exact Hall.
Qed.

End LruStores.

(** ** A connector of four-token blocks over GPU blocks of two *)

Definition offload_request : Request :=
  let toks := [1; 2; 3; 4; 5; 6; 7; 8; 9] in
  mkRequest "r" 0 0 None None None None None fzero WAITING [] None None None 16 (Some toks) None 9 [] toks 0 [] 0
    None [] None 0 0 0 ["g0"; "g1"; "g2"; "g3"] true.

Definition offload_connector {M} `{OffloadingManager M} (m : M) : Connector M := {|
  gpu_block_size := 2; offloaded_block_size := 4; block_size_factor := 2; oc_manager := m;
  oc_requests := []; request_block_ids := []; pending_loads := []; next_stored_block_idx := [];
  reqs_being_stored := []; reqs_being_loaded := [] |}.

Lemma offload_connector_ok (m : LRU.Manager) : lru_ok m -> connector_ok (offload_connector m).
Proof. intros Hm. split; done. Qed.

Lemma offload_request_hashed : hashed_up (offload_connector stored_lru) offload_request.
Proof. split; [reflexivity|]. apply (bool_decide_unpack _). reflexivity. Qed.

Lemma matched_tokens_loadable_witness :
  (exists c', get_num_new_matched_tokens offload_request 2 (offload_connector stored_lru) = Ok (6, true, c')) /\
  exists e, 6 = e * 4 - 2 /\ 4 <= 6 /\ e * 4 <= 9 /\
    (forall j, 0 <= j < e -> loadable (offload_connector stored_lru) offload_request j) /\
    ~ loadable (offload_connector stored_lru) offload_request e.
Proof.
  destruct (matched_tokens_loadable (offload_connector stored_lru) offload_request 2) as (n & async & c' & Hr & _ & _ & Hn).
  - apply offload_connector_ok, stored_lru_ok.
  - exact offload_request_hashed.
  - lia.
  - assert (Heq : (n, async) = (6, true)) by (vm_compute in Hr; by injection Hr as <- <- _). injection Heq as -> ->.
    split; [by exists c'|]. exact Hn.
Defined.

Lemma load_pins_until_received_witness :
  exists c' src, update_state_after_alloc 0 offload_request [[7; 8; 9; 10]] (Z.eqb 7) 6 (offload_connector stored_lru) = Ok c' /\
    dget "r" (pending_loads c') = Some (src, [8; 9; 10]) /\ py_len src * 4 = 8.
Proof.
  destruct (load_pins_until_received (offload_connector stored_lru) 0 offload_request [7; 8; 9; 10] [] (Z.eqb 7) 6)
    as (c' & src & Hr & _ & Hl & Hs & _).
  - apply offload_connector_ok, stored_lru_ok.
  - exact offload_request_hashed.
  - reflexivity.
  - vm_compute. discriminate.
  - reflexivity.
  - reflexivity.
  - vm_compute. discriminate.
  - intros h Hh. assert (Hin : h = "g1" \/ h = "g3") by (vm_compute in Hh; set_solver).
    destruct Hin as [-> | ->]; (eexists; split; [reflexivity|]; cbn; lia).
  - exists c', src. split; [exact Hr|]. split; [exact Hl | exact Hs].
Defined.

(** A step of a request that fills both of its blocks. *)
Definition offload_step : SchedulerOutput := {|
  scheduled_new_reqs := [];
  scheduled_cached_reqs := {| crd_req_ids := ["r"]; crd_resumed_req_ids := ∅; crd_new_token_ids := []; crd_all_token_ids := [];
    crd_new_block_ids := [None]; crd_num_computed_tokens := [0]; crd_num_output_tokens := [0] |};
  num_scheduled_tokens := [("r", 8)]; total_num_scheduled_tokens := 8; scheduled_spec_decode_tokens := [];
  scheduled_encoder_inputs := []; num_common_prefix_blocks := []; so_finished_req_ids := ∅; free_encoder_mm_hashes := [];
  pending_structured_output_tokens := false; kv_connector_metadata := None; ec_connector_metadata := None |}.

Definition tracked {M} `{OffloadingManager M} (m : M) : Connector M :=
  offload_connector m <| oc_requests := [("r", 0)] |> <| request_block_ids := [("r", [20; 21; 22; 23])] |>.

Definition empty_lru : LRU.Manager := LRU.new_manager (new_backend 4 2) false.

Lemma lru_store_copies_its_blocks_witness :
  (exists stores' c', store_one (fun _ => offload_request) offload_step ("r", None, false) ([], tracked empty_lru) = Ok (stores', c') /\
    next_stored_block_idx c' = [("r", 2)] /\ stores' = [("r", ([20; 21; 22; 23], [0; 1]))]) /\
  exists stores' c', store_one (fun _ => offload_request) offload_step ("r", None, false) ([], tracked stored_lru) = Ok (stores', c') /\
    stores' = [] /\ next_stored_block_idx c' = [("r", 2)].
Proof.
  pose proof (fun m => lru_store_copies_its_blocks (fun _ => offload_request) offload_step (tracked m) (tracked m) "r" None false
    [] [20; 21; 22; 23] 0 8) as H.
  assert (Hok : forall m, lru_ok m -> connector_ok (tracked m)).
  { intros m Hm. destruct (offload_connector_ok m Hm) as [h1 h2 h3 h4]. by split. }
  split.
  - destruct (H empty_lru) as (stores' & c' & Hr & _ & _ & Hx & src & dst & Hst & Hd & Hl & _);
      [apply Hok; by apply lru_new, new_backend_slots | reflexivity | reflexivity | reflexivity | reflexivity
      | apply offload_request_hashed | vm_compute; discriminate..|].
    exists stores', c'. split; [exact Hr|]. split; [exact Hx|]. vm_compute in Hr. by injection Hr as <- _.
  - destruct (H stored_lru) as (stores' & c' & Hr & _ & _ & Hx & Hst & _);
      [apply Hok, stored_lru_ok | reflexivity | reflexivity | reflexivity | reflexivity
      | apply offload_request_hashed | vm_compute; discriminate..|].
    exists stores', c'. split; [exact Hr|]. split; [exact Hst | exact Hx].
Defined.

(** Nothing to store yet: the step returns. *)
Lemma arc_never_stores_witness :
  exists meta c', build_connector_meta (fun _ => offload_request) (offload_step <| num_scheduled_tokens := [("r", 3)] |>)
      (tracked (ARC.new_manager (new_backend 4 2) false)) = Ok (meta, c') /\ reqs_to_store meta = [].
Proof.
  assert (Hr : exists meta c', build_connector_meta (fun _ => offload_request) (offload_step <| num_scheduled_tokens := [("r", 3)] |>)
      (tracked (ARC.new_manager (new_backend 4 2) false)) = Ok (meta, c')) by (eexists _, _; vm_compute; reflexivity).
  destruct Hr as (meta & c' & Hr). exists meta, c'. split; [exact Hr|].
  eapply (arc_never_stores _ _ _ _ _); [|exact Hr]. split; [apply dict_ok_nil | reflexivity | done].
Defined.

(** With a full block to store the step raises. *)
Example arc_store_raises :
  build_connector_meta (fun _ => offload_request) offload_step (tracked (ARC.new_manager (new_backend 4 2) false)) = Raise KeyError.
Proof. vm_compute. reflexivity. Qed.
