(* ===== verification/OffloadWorker.v ===== *)
(** * The worker's half of off-loading

    A request's blocks may be released when it has stopped generating and the last
    of its stores is over.  The invariant of the worker's job tables, and the
    theorem that [get_finished] reports exactly the requests for which that holds. *)

From S2P Require Import Prelude PyDict PyList Request Outputs Offload OffloadConnector.
#[local] Open Scope Z_scope.

Lemma bool_decide_ext_if {A} (P Q : Prop) `{Decision P, Decision Q} (x y : A) :
  (P <-> Q) -> (if bool_decide P then x else y) = (if bool_decide Q then x else y).
Proof. intros HPQ. by rewrite (bool_decide_ext P Q). Qed.

Section WorkerInv.
Context {T : Type} `{OffloadingHandler T}.
Implicit Types (w : Worker T).

Definition stores_of w (rid : string) : gset Z := dget_or rid ∅ (store_jobs w).

(** The tables by request and by job say the same. *)
Record worker_ok w : Prop := {
  wk_keys : dict_ok (jobs w) /\ dict_ok (store_jobs w) /\ dict_ok (load_job w);
  wk_fresh : forall id x, dget id (jobs w) = Some x -> id < job_counter w;
  wk_stores : forall rid id, id ∈ stores_of w rid <-> dget id (jobs w) = Some (rid, true);
  wk_loads : forall rid id, dget rid (load_job w) = Some id <-> dget id (jobs w) = Some (rid, false);
  wk_waiting : forall rid, rid ∈ finished_reqs_waiting_for_store w -> stores_of w rid <> ∅;
}.

(** The state after the jobs [P] have been taken off, [rep] being reported. *)
Record progress w (P : gset Z) (rep : Reported) (wc : Worker T) : Prop := {
  pg_keys : dict_ok (jobs wc) /\ dict_ok (store_jobs wc) /\ dict_ok (load_job wc);
  pg_counter : job_counter wc = job_counter w;
  pg_jobs : forall id, dget id (jobs wc) = if bool_decide (id ∈ P) then None else dget id (jobs w);
  pg_stores : forall rid, dget rid (store_jobs wc)
    = if bool_decide (rid ∈ rep.1) then None else (fun s => s ∖ P) <$> dget rid (store_jobs w);
  pg_sent : forall rid, rid ∈ rep.1 <-> rid ∈ finished_reqs_waiting_for_store w /\ stores_of w rid ⊆ P;
  pg_waiting : finished_reqs_waiting_for_store wc = finished_reqs_waiting_for_store w ∖ rep.1;
  pg_loads : forall rid id, dget rid (load_job wc) = Some id <-> dget rid (load_job w) = Some id /\ id ∉ P;
  pg_received : forall rid, rid ∈ rep.2 <-> exists id, dget rid (load_job w) = Some id /\ id ∈ P;
}.

Lemma progress_start w : worker_ok w -> progress w ∅ (∅, ∅) w.
Proof.
  intros [h1 h2 h3 h4 h5]. split; try done.
  - intros rid. rewrite bool_decide_eq_false_2 by set_solver.
    destruct (dget rid (store_jobs w)) as [s|]; [|done]. cbn. f_equal. set_solver.
  - intros rid. split; [set_solver|]. intros [Hw Hs]. exfalso. apply (h5 rid Hw). set_solver.
  - set_solver.
  - set_solver.
  - set_solver.
Qed.

(** Two requests share no job. *)
Lemma stores_disjoint w rid rid' id : worker_ok w -> id ∈ stores_of w rid -> id ∈ stores_of w rid' -> rid = rid'.
Proof. intros Hw H1%(wk_stores w Hw) H2%(wk_stores w Hw). congruence. Qed.

Lemma finish_store_step w P rep wc id rid :
  worker_ok w -> progress w P rep wc -> id ∉ P -> dget id (jobs w) = Some (rid, true) ->
  exists rep' wc', finish_job (id, true) (rep, wc) = Ok (rep', wc') /\ progress w ({[id]} ∪ P) rep' wc'.
Proof.
  intros Hw [[k1 [k2 k3]] h2 h3 h4 h5 h6 h7 h8] Hid Hj.
  assert (Hin : id ∈ stores_of w rid) by by apply wk_stores.
  assert (Hnot : rid ∉ rep.1) by (rewrite h5; set_solver).
  unfold stores_of, dget_or in Hin. destruct (dget rid (store_jobs w)) as [s|] eqn:Hs; [|set_solver].
  assert (Hcur : dget rid (store_jobs wc) = Some (s ∖ P)) by (rewrite h4, bool_decide_eq_false_2 by done; by rewrite Hs).
  assert (Hso : stores_of w rid = s) by (unfold stores_of, dget_or; by rewrite Hs).
  assert (Hother : forall k, k <> rid -> stores_of w k ⊆ {[id]} ∪ P <-> stores_of w k ⊆ P).
  { intros k Hk. split; [|set_solver]. intros Hsub x Hx. specialize (Hsub x Hx). apply elem_of_union in Hsub as [Hx'|]; [|done].
    apply elem_of_singleton in Hx' as ->. exfalso. apply Hk. eapply (stores_disjoint w); [done | exact Hx|]. by rewrite Hso. }
  assert (Hjobs : forall k, dget k (ddel id (jobs wc)) = if bool_decide (k ∈ {[id]} ∪ P) then None else dget k (jobs w)).
  { intros k. destruct (decide (k = id)) as [->|Hne]; [rewrite dget_ddel_eq, bool_decide_eq_true_2 by (done || (clear; set_solver)); done|].
    rewrite dget_ddel_ne, h3 by done. by rewrite (bool_decide_ext (k ∈ {[id]} ∪ P) (k ∈ P)) by (clear -Hne; set_solver). }
  assert (Hkept : forall k, k <> rid -> (fun s => s ∖ P) <$> dget k (store_jobs w) = (fun s => s ∖ ({[id]} ∪ P)) <$> dget k (store_jobs w)).
  { intros k Hne. destruct (dget k (store_jobs w)) as [s'|] eqn:Hs'; [|done]. cbn. f_equal.
    assert (Hns : id ∉ s'); [|clear -Hns; set_solver]. intros Hx. apply Hne. eapply (stores_disjoint w); [done | | by rewrite Hso].
    unfold stores_of, dget_or. by rewrite Hs'. }
  assert (Hload : forall r i, dget r (load_job w) = Some i -> i <> id).
  { intros r i Hr ->. apply (wk_loads w Hw) in Hr. congruence. }
  assert (Hmin : s ∖ P ∖ {[id]} = s ∖ ({[id]} ∪ P)) by (clear; set_solver).
  assert (Hloads : forall r i, dget r (load_job wc) = Some i <-> dget r (load_job w) = Some i /\ i ∉ {[id]} ∪ P).
  { intros r i. rewrite h7. split; intros [Hr Hi]; (split; [done|]); pose proof (Hload r i Hr) as Hne; clear -Hi Hne; set_solver. }
  assert (Hrecv : forall r, r ∈ rep.2 <-> exists i, dget r (load_job w) = Some i /\ i ∈ {[id]} ∪ P).
  { intros r. rewrite h8. split; intros (i & Hr & Hi); exists i; (split; [done|]); pose proof (Hload r i Hr) as Hne; clear -Hi Hne; set_solver. }
  unfold finish_job. cbn [py_assert mbind result_bind]. rewrite h3, bool_decide_eq_false_2 by done. rewrite Hj.
  cbn [or_raise mbind result_bind]. unfold finish_store_job. cbn [store_jobs]. unfold dget_or.
  change (store_jobs (wc <| jobs := ddel id (jobs wc) |>)) with (store_jobs wc). rewrite Hcur. cbv beta iota zeta.
  rewrite (bool_decide_eq_true_2 (id ∈ s ∖ P)) by by apply elem_of_difference. cbn [mbind result_bind]. rewrite Hmin.
  set (js := s ∖ ({[id]} ∪ P)).
  assert (Hsub : js = ∅ <-> stores_of w rid ⊆ {[id]} ∪ P) by (rewrite Hso; split; [apply empty_difference_subseteq_L | apply subseteq_empty_difference_L]).
  case_bool_decide as He; cbn [negb]; [case_bool_decide as Hwait|]; cbn in *.
  - eexists _, _. split; [reflexivity|]. split; cbn; try done; auto 10 with dict.
    + intros k. destruct (decide (k = rid)) as [->|Hne].
      * rewrite bool_decide_eq_true_2 by (clear; set_solver). apply dget_ddel_eq. auto with dict.
      * rewrite dget_ddel_ne, dget_dset_ne, h4 by done. rewrite (bool_decide_ext (k ∈ {[rid]} ∪ rep.1) (k ∈ rep.1)) by (clear -Hne; set_solver).
        case_bool_decide; [done | by apply Hkept].
    + intros k. rewrite elem_of_union, elem_of_singleton, h5. destruct (decide (k = rid)) as [->|Hne].
      * split; [intros _|by left]. split; [clear -Hwait h6; set_solver | by apply Hsub].
      * rewrite Hother by done. naive_solver.
    + rewrite h6. clear. set_solver.
  - eexists _, _. split; [reflexivity|]. split; cbn; try done; auto 10 with dict.
    + intros k. destruct (decide (k = rid)) as [->|Hne].
      * by rewrite dget_dset_eq, bool_decide_eq_false_2, Hs by done.
      * rewrite dget_dset_ne, h4 by done. case_bool_decide; [done | by apply Hkept].
    + intros k. rewrite h5. destruct (decide (k = rid)) as [->|Hne]; [|by rewrite Hother].
      split; [intros Hx; exfalso; apply Hnot; by rewrite h5|]. intros [Hx _]. exfalso. apply Hwait. rewrite h6. by apply elem_of_difference.
  - eexists _, _. split; [reflexivity|]. split; cbn; try done; auto 10 with dict.
    + intros k. destruct (decide (k = rid)) as [->|Hne].
      * by rewrite dget_dset_eq, bool_decide_eq_false_2, Hs by done.
      * rewrite dget_dset_ne, h4 by done. case_bool_decide; [done | by apply Hkept].
    + intros k. rewrite h5. destruct (decide (k = rid)) as [->|Hne]; [|by rewrite Hother].
      split; [intros Hx; exfalso; apply Hnot; by rewrite h5|]. intros [_ Hx]. exfalso. by apply He, Hsub.
Qed.

Lemma finish_load_step w P rep wc id rid :
  worker_ok w -> progress w P rep wc -> id ∉ P -> dget id (jobs w) = Some (rid, false) ->
  exists rep' wc', finish_job (id, true) (rep, wc) = Ok (rep', wc') /\ progress w ({[id]} ∪ P) rep' wc'.
Proof.
  intros Hw [[k1 [k2 k3]] h2 h3 h4 h5 h6 h7 h8] Hid Hj.
  assert (Hl : dget rid (load_job w) = Some id) by by apply wk_loads.
  assert (Hst : forall r, id ∉ stores_of w r) by (intros r Hx%(wk_stores w Hw); congruence).
  assert (Hload : forall r, dget r (load_job w) = Some id -> r = rid) by (intros r Hr%(wk_loads w Hw); congruence).
  unfold finish_job. cbn [py_assert mbind result_bind]. rewrite h3, bool_decide_eq_false_2 by done. rewrite Hj.
  cbn [or_raise mbind result_bind]. unfold finish_load_job. cbn [load_job].
  change (load_job (wc <| jobs := ddel id (jobs wc) |>)) with (load_job wc). rewrite (proj2 (h7 rid id)) by done.
  cbn [or_raise mbind result_bind]. rewrite Z.eqb_refl. cbn [py_assert mbind result_bind].
  eexists _, _. split; [reflexivity|]. split; cbn; try done; auto 10 with dict.
  - intros k. destruct (decide (k = id)) as [->|Hne]; [rewrite dget_ddel_eq, bool_decide_eq_true_2 by (done || (clear; set_solver)); done|].
    rewrite dget_ddel_ne, h3 by done. by rewrite (bool_decide_ext (k ∈ {[id]} ∪ P) (k ∈ P)) by (clear -Hne; set_solver).
  - intros k. rewrite h4. case_bool_decide; [done|]. destruct (dget k (store_jobs w)) as [s|] eqn:Hs; [|done]. cbn. f_equal.
    assert (Hns : id ∉ s); [|clear -Hns; set_solver]. specialize (Hst k). unfold stores_of, dget_or in Hst. by rewrite Hs in Hst.
  - intros k. rewrite h5. specialize (Hst k). split; intros [Hk Hs]; (split; [done|]); clear -Hst Hs; set_solver.
  - intros k i. destruct (decide (k = rid)) as [->|Hne].
    + rewrite dget_ddel_eq by done. split; [done|]. intros [Hk Hi]. rewrite Hl in Hk. injection Hk as <-. clear -Hi. set_solver.
    + rewrite dget_ddel_ne, h7 by done. split; intros [Hk Hi]; (split; [done|]); [|clear -Hi; set_solver].
      intros [->%elem_of_singleton|?]%elem_of_union; [by apply Hne, Hload | done].
  - intros k. rewrite elem_of_union, elem_of_singleton, h8. split.
    + intros [->|(i & Hk & Hi)]; [exists id|exists i]; (split; [done|]); clear -Hi || clear; set_solver.
    + intros (i & Hk & [->%elem_of_singleton|Hi]%elem_of_union); [left; by apply Hload | right; by exists i].
Qed.

(** Going through the finished jobs, each once. *)
Lemma finish_jobs_ok w l P rep wc :
  worker_ok w -> progress w P rep wc -> NoDup l.*1 -> (forall x, x ∈ l -> x.2 = true /\ x.1 ∉ P /\ is_Some (dget x.1 (jobs w))) ->
  exists rep' wc', for_each finish_job l (rep, wc) = Ok (rep', wc') /\ progress w (list_to_set l.*1 ∪ P) rep' wc'.
Proof.
  intros Hw. revert P rep wc. induction l as [|[id success] l IH]; intros P rep wc Hp Hn Hall.
  - exists rep, wc. split; [done|]. cbn. by rewrite (left_id_L ∅ (∪)).
  - cbn in Hn. apply NoDup_cons in Hn as [Hnot Hn]. destruct (Hall (id, success)) as (Hs & Hid & [[rid store] Hj]); [by left|].
    cbn in Hs, Hid, Hj. subst success.
    assert (Hstep : exists rep1 wc1, finish_job (id, true) (rep, wc) = Ok (rep1, wc1) /\ progress w ({[id]} ∪ P) rep1 wc1).
    { destruct store; [by eapply finish_store_step | by eapply finish_load_step]. }
    destruct Hstep as (rep1 & wc1 & Hr1 & Hp1). destruct (IH _ rep1 wc1 Hp1 Hn) as (rep2 & wc2 & Hr2 & Hp2).
    { intros x Hx. destruct (Hall x) as (? & ? & ?); [by right|]. split; [done|]. split; [|done].
      intros [Heq%elem_of_singleton|?]%elem_of_union; [|done]. apply Hnot. rewrite <- Heq. by apply list_elem_of_fmap_2. }
    exists rep2, wc2. split; [by eapply for_each_cons_ok|]. cbn. 
    replace ({[id]} ∪ list_to_set l.*1 ∪ P) with (list_to_set l.*1 ∪ ({[id]} ∪ P)); [done|]. clear. set_solver.
Qed.

(** ** Requests that have stopped generating *)

Lemma finish_requests_ok l rep w :
  NoDup l -> dict_ok (store_jobs w) ->
  exists rep' w', fold_left finish_request l (rep, w) = (rep', w') /\ rep'.2 = rep.2 /\
    jobs w' = jobs w /\ job_counter w' = job_counter w /\ load_job w' = load_job w /\ transfers w' = transfers w /\
    dict_ok (store_jobs w') /\
    (forall r, r ∈ rep'.1 <-> r ∈ rep.1 \/ r ∈ l /\ dget r (store_jobs w) = Some ∅) /\
    (forall r, dget r (store_jobs w')
      = if bool_decide (r ∈ l /\ dget r (store_jobs w) = Some ∅) then None else dget r (store_jobs w)) /\
    (forall r, r ∈ finished_reqs_waiting_for_store w'
      <-> r ∈ finished_reqs_waiting_for_store w \/ r ∈ l /\ stores_of w r <> ∅).
Proof.
  revert rep w. induction l as [|x l IH]; intros rep w Hn Hd.
  - exists rep, w. repeat (split; [done|]). split; [set_solver|]. split; [|set_solver].
    intros r. rewrite bool_decide_eq_false_2; [done | set_solver].
  - apply NoDup_cons in Hn as [Hx Hn]. cbn [fold_left].
    assert (Hstep : exists rep1 w1, finish_request (rep, w) x = (rep1, w1) /\ rep1.2 = rep.2 /\
      jobs w1 = jobs w /\ job_counter w1 = job_counter w /\ load_job w1 = load_job w /\ transfers w1 = transfers w /\
      dict_ok (store_jobs w1) /\ (forall r, r ∈ rep1.1 <-> r ∈ rep.1 \/ r = x /\ dget x (store_jobs w) = Some ∅) /\
      (forall r, r <> x -> dget r (store_jobs w1) = dget r (store_jobs w)) /\
      dget x (store_jobs w1) = (if bool_decide (dget x (store_jobs w) = Some ∅) then None else dget x (store_jobs w)) /\
      (forall r, r ∈ finished_reqs_waiting_for_store w1 <-> r ∈ finished_reqs_waiting_for_store w \/ r = x /\ stores_of w x <> ∅)).
    { unfold finish_request, stores_of, dget_or. destruct (dget x (store_jobs w)) as [js|] eqn:Hjs.
      - case_bool_decide as He; eexists _, _; (split; [reflexivity|]); cbn; repeat (split; [done|]).
        + subst js. split; [auto with dict|]. split; [clear; set_solver|]. split; [intros r Hr; by apply dget_ddel_ne|].
          split; [rewrite bool_decide_eq_true_2 by done; by apply dget_ddel_eq | clear; set_solver].
        + split; [clear -He; naive_solver|]. split; [done|].
          split; [rewrite bool_decide_eq_false_2; congruence | clear -He; set_solver].
      - eexists _, _. split; [reflexivity|]. repeat (split; [done|]). split; [clear; naive_solver|]. split; [done|].
        split; [by rewrite Hjs | clear; set_solver]. }
    destruct Hstep as (rep1 & w1 & -> & a1 & a2 & a3 & a4 & a5 & a6 & a7 & a8 & a9 & a10).
    destruct (IH rep1 w1 Hn a6) as (rep2 & w2 & -> & b1 & b2 & b3 & b4 & b5 & b6 & b7 & b8 & b9).
    assert (Hl : forall r, r ∈ l -> r <> x) by (intros r Hr ->; done).
    exists rep2, w2. split; [done|]. repeat (split; [congruence|]). split; [|split].
    + intros r. rewrite b7, a7, elem_of_cons. destruct (decide (r = x)) as [->|Hne]; [|rewrite a8 by done]; naive_solver.
    + intros r. rewrite b8. destruct (decide (r = x)) as [->|Hne].
      * rewrite bool_decide_eq_false_2 by naive_solver. rewrite a9. apply bool_decide_ext_if. rewrite elem_of_cons. naive_solver.
      * rewrite a8 by done. apply bool_decide_ext_if. rewrite elem_of_cons. naive_solver.
    + intros r. rewrite b9, a10, elem_of_cons. destruct (decide (r = x)) as [->|Hne]; [naive_solver|].
      unfold stores_of, dget_or. rewrite a8 by done. naive_solver.
Qed.

(** Submitting keeps the invariant. *)
Lemma start_one_store_ok x w w' : worker_ok w -> start_one_store x w = Ok w' -> worker_ok w'.
Proof.
  destruct x as [rid spec]. intros [[k1 [k2 k3]] h2 h3 h4 h5]. unfold start_one_store. cbn [fst snd].
  destruct (transfer_async _ _ _ _ _) as [[ok t]|]; [|done]. cbn [mbind result_bind]. destruct ok; [|done]. cbn. intros [= <-].
  assert (Hnew : dget (job_counter w) (jobs w) = None).
  { destruct (dget (job_counter w) (jobs w)) as [y|] eqn:Hy; [|done]. apply h2 in Hy. lia. }
  assert (Hso : forall r, dget_or r ∅ (dset rid (dget_or rid ∅ (store_jobs w) ∪ {[job_counter w]}) (store_jobs w))
    = if decide (r = rid) then stores_of w rid ∪ {[job_counter w]} else stores_of w r).
  { intros r. unfold stores_of, dget_or. rewrite dget_dset. by case_decide. }
  split; unfold stores_of in *; cbn.
  - auto with dict.
  - intros id y. rewrite dget_dset. case_decide; [subst; lia|]. intros Hy%h2. lia.
  - intros r id. rewrite Hso, dget_dset. destruct (decide (r = rid)) as [->|Hr], (decide (id = job_counter w)) as [->|Hi].
    + split; [done|]. intros _. clear. set_solver.
    + rewrite elem_of_union, elem_of_singleton. unfold stores_of. rewrite h3. naive_solver.
    + unfold stores_of. rewrite h3, Hnew. split; [done | congruence].
    + apply h3.
  - intros r id. rewrite h4, dget_dset. case_decide; [subst; rewrite Hnew|]; naive_solver.
  - intros r Hr. rewrite Hso. case_decide; [clear; set_solver | by apply h5].
Qed.

Lemma start_one_load_ok x w w' : worker_ok w -> start_one_load x w = Ok w' -> worker_ok w'.
Proof.
  destruct x as [rid spec]. intros [[k1 [k2 k3]] h2 h3 h4 h5]. unfold start_one_load. cbn [fst snd].
  change (load_job (w <| job_counter := job_counter w + 1 |> <| jobs := dset (job_counter w) (rid, false) (jobs w) |>)) with (load_job w).
  destruct (dmem rid (load_job w)) eqn:Hmem; [done|]. apply dmem_false in Hmem. cbn [negb py_assert mbind result_bind].
  destruct (transfer_async _ _ _ _ _) as [[ok t]|]; [|done]. cbn [mbind result_bind]. destruct ok; [|done]. cbn. intros [= <-].
  assert (Hnew : dget (job_counter w) (jobs w) = None).
  { destruct (dget (job_counter w) (jobs w)) as [y|] eqn:Hy; [|done]. apply h2 in Hy. lia. }
  split; unfold stores_of in *; cbn.
  - auto with dict.
  - intros id y. rewrite dget_dset. case_decide; [subst; lia|]. intros Hy%h2. lia.
  - intros r id. rewrite h3, dget_dset. case_decide; [subst; rewrite Hnew|]; naive_solver.
  - intros r id. rewrite !dget_dset. destruct (decide (r = rid)) as [->|Hr], (decide (id = job_counter w)) as [->|Hi].
    + done.
    + rewrite <- h4, Hmem. naive_solver.
    + rewrite h4, Hnew. naive_solver.
    + apply h4.
  - done.
Qed.

Lemma start_kv_ok meta w w1 w2 :
  worker_ok w -> start_load_kv meta w = Ok w1 -> start_store_kv meta w1 = Ok w2 -> worker_ok w2.
Proof.
  unfold start_load_kv, start_store_kv. intros Hw H1 H2.
  eapply for_each_inv; [|eapply for_each_inv; [|exact Hw|exact H1]|exact H2]; eauto using start_one_store_ok, start_one_load_ok.
Qed.

Lemma new_worker_ok t : worker_ok (new_worker t).
Proof.
  split; unfold stores_of; cbn; try done.
  repeat split; apply dict_ok_nil.
Qed.

(** Taking finished jobs off leaves the handlers alone. *)
Lemma finish_jobs_transfers l (st st' : Reported * Worker T) : for_each finish_job l st = Ok st' -> transfers st'.2 = transfers st.2.
Proof.
  intros Hr. apply (for_each_inv (fun s : Reported * Worker T => transfers s.2 = transfers st.2)) in Hr; [done | | done].
  intros [id ok] [rep w] [rep1 w1] _ Hk. cbn in Hk |- *. rewrite <- Hk. clear Hk.
  destruct ok; [|done]. unfold finish_job. cbn [py_assert mbind result_bind].
  destruct (dget id (jobs w)) as [[rid []]|]; [| |done]; cbn [or_raise mbind result_bind];
    unfold finish_store_job, finish_load_job; intros; inv_ok; repeat (case_bool_decide; cbn in *; inv_ok); done.
Qed.

(** The tables after a call: [P] are the jobs that ended, [fin] the requests that have stopped. *)
Record settled w (P : gset Z) (fin : gset string) (rep : Reported) (w' : Worker T) : Prop := {
  st_keys : dict_ok (jobs w') /\ dict_ok (store_jobs w') /\ dict_ok (load_job w');
  st_counter : job_counter w' = job_counter w;
  st_jobs : forall id, dget id (jobs w') = if bool_decide (id ∈ P) then None else dget id (jobs w);
  st_sent : forall r, r ∈ rep.1 <-> is_Some (dget r (store_jobs w)) /\
    r ∈ fin ∪ finished_reqs_waiting_for_store w /\ stores_of w r ⊆ P;
  st_stores : forall r, dget r (store_jobs w')
    = if bool_decide (r ∈ rep.1) then None else (fun s => s ∖ P) <$> dget r (store_jobs w);
  st_waiting : forall r, r ∈ finished_reqs_waiting_for_store w' <->
    r ∉ rep.1 /\ r ∈ fin ∪ finished_reqs_waiting_for_store w /\ is_Some (dget r (store_jobs w));
  st_loads : forall r id, dget r (load_job w') = Some id <-> dget r (load_job w) = Some id /\ id ∉ P;
  st_received : forall r, r ∈ rep.2 <-> exists id, dget r (load_job w) = Some id /\ id ∈ P;
}.

Lemma difference_empty (s P : gset Z) : s ∖ P = ∅ <-> s ⊆ P.
Proof. split; [apply empty_difference_subseteq_L | apply subseteq_empty_difference_L]. Qed.

(** After the jobs, a request that stopped has no store left in three cases. *)
Lemma progress_left w P rep w1 r :
  progress w P rep w1 ->
  (dget r (store_jobs w1) = Some ∅ <-> r ∉ rep.1 /\ is_Some (dget r (store_jobs w)) /\ stores_of w r ⊆ P) /\
  (r ∈ rep.1 -> stores_of w1 r = ∅) /\ (r ∉ rep.1 -> stores_of w1 r = ∅ <-> stores_of w r ⊆ P).
Proof.
  intros Hp. unfold stores_of, dget_or. rewrite (pg_stores _ _ _ _ Hp). case_bool_decide as Hrep; [naive_solver|].
  destruct (dget r (store_jobs w)) as [s|]; cbn; [|by split; [naive_solver|]].
  split; [|by split; [|rewrite difference_empty]].
  split; [intros [= Hs%difference_empty]; eauto | intros (_ & _ & Hs%difference_empty); by rewrite Hs].
Qed.

Lemma settle w P fin rep w1 :
  worker_ok w -> progress w P rep w1 ->
  exists rep' w', fold_left finish_request (elements fin) (rep, w1) = (rep', w') /\ transfers w' = transfers w1 /\
    settled w P fin rep' w'.
Proof.
  intros Hw Hp. pose proof Hp as [[k1 [k2 k3]] h2 h3 h4 h5 h6 h7 h8].
  destruct (finish_requests_ok (elements fin) rep w1) as (rep2 & w2 & Hr & b0 & b1 & b2 & b3 & b4 & b5 & b6 & b7 & b8);
    [apply NoDup_elements | done|].
  setoid_rewrite elem_of_elements in b6. setoid_rewrite elem_of_elements in b8.
  exists rep2, w2. split; [exact Hr|]. split; [done|].
  assert (Hsome : forall r, r ∈ finished_reqs_waiting_for_store w -> is_Some (dget r (store_jobs w))).
  { intros r Hr'. pose proof (wk_waiting w Hw r Hr') as Hne. unfold stores_of, dget_or in Hne. by destruct (dget r (store_jobs w)). }
  assert (Hsent : forall r, r ∈ rep2.1 <-> is_Some (dget r (store_jobs w)) /\
      r ∈ fin ∪ finished_reqs_waiting_for_store w /\ stores_of w r ⊆ P).
  { intros r. rewrite b6, (proj1 (progress_left w P rep w1 r Hp)), h5, elem_of_union.
    pose proof (Hsome r). destruct (decide (r ∈ finished_reqs_waiting_for_store w)); naive_solver. }
  split; try done.
  - by rewrite b1, b3.
  - by rewrite b2.
  - intros id. by rewrite b1, h3.
  - intros r. rewrite b7. case_bool_decide as Hc; case_bool_decide as Hd.
    + done.
    + exfalso. apply Hd. rewrite b6, elem_of_elements in *. by right.
    + apply b6 in Hd as [Hd|[Hd1 Hd2]]; [by rewrite h4, bool_decide_eq_true_2|].
      exfalso. apply Hc. by rewrite elem_of_elements.
    + rewrite h4, bool_decide_eq_false_2; [done|]. intros Hr'. apply Hd, b6. by left.
  - intros r. destruct (progress_left w P rep w1 r Hp) as (_ & Hin1 & Hs1).
    rewrite b8, h6, elem_of_difference, elem_of_union. destruct (decide (r ∈ rep.1)) as [Hin|Hin].
    + rewrite Hin1, b6 by done. naive_solver.
    + assert (Hne : ~ stores_of w r ⊆ P -> is_Some (dget r (store_jobs w))).
      { unfold stores_of, dget_or. destruct (dget r (store_jobs w)); [by eexists|]. intros Hn. exfalso. apply Hn. apply empty_subseteq. }
      rewrite Hsent, Hs1, elem_of_union by done. pose proof (h5 r) as H5. pose proof (Hsome r) as H6.
      clear -Hin Hne H5 H6. destruct (decide (stores_of w r ⊆ P)); tauto.
  - intros r id. by rewrite b3, h7.
  - intros r. by rewrite b0, h8.
Qed.

Lemma settled_ok w P fin rep w' : worker_ok w -> settled w P fin rep w' -> worker_ok w'.
Proof.
  intros Hw [h1 h2 h3 h4 h5 h6 h7 h8].
  assert (Hso : forall r id, id ∈ stores_of w' r <-> id ∈ stores_of w r /\ id ∉ P).
  { intros r id. unfold stores_of at 1, dget_or. rewrite h5. case_bool_decide as Hd.
    - apply h4 in Hd as (_ & _ & Hs). split; [by intros ?%elem_of_empty|]. intros [Hi Hn]. exfalso. by apply Hn, Hs.
    - unfold stores_of, dget_or. destruct (dget r (store_jobs w)) as [s|]; cbn; [apply elem_of_difference|].
      split; [by intros ?%elem_of_empty | by intros [?%elem_of_empty _]]. }
  split.
  - done.
  - intros id x. rewrite h3, h2. case_bool_decide; [done | apply (wk_fresh w Hw)].
  - intros r id. rewrite Hso, h3, (wk_stores w Hw). case_bool_decide; naive_solver.
  - intros r id. rewrite h7, h3, (wk_loads w Hw). case_bool_decide; naive_solver.
  - intros r (Hr & Hf & Hi)%h6 He. apply Hr, h4. split; [done|]. split; [done|].
    intros id Hid. destruct (decide (id ∈ P)) as [|Hn]; [done|]. exfalso.
    pose proof (proj2 (Hso r id) (conj Hid Hn)) as Hx. rewrite He in Hx. by apply elem_of_empty in Hx.
Qed.

(** Finished transfers are reported exactly: when the handlers return each finished job once, all
    known and successful, asking never raises and keeps the worker's tables consistent; a request
    is reported as received when its load is among the finished jobs, and as sent when it has
    stored something, has stopped generating (now or at an earlier call), and has no store
    left that is not among the finished jobs, and of a request reported as sent nothing is kept, so it is
    not reported again. *)
Theorem get_finished_exact w fin over t :
  worker_ok w -> finished_transfers (transfers w) = (over, t) -> NoDup over.*1 ->
  (forall id success, (id, success) ∈ over -> success = true /\ is_Some (dget id (jobs w))) ->
  exists rep w', get_finished fin w = Ok (rep, w') /\ worker_ok w' /\ transfers w' = t /\
    (forall id, dget id (jobs w') = if bool_decide (id ∈ over.*1) then None else dget id (jobs w)) /\
    (forall r, r ∈ rep.2 <-> exists id, id ∈ over.*1 /\ dget id (jobs w) = Some (r, false)) /\
    (forall r, r ∈ rep.1 <-> is_Some (dget r (store_jobs w)) /\
      r ∈ fin ∪ finished_reqs_waiting_for_store w /\
      forall id, dget id (jobs w) = Some (r, true) -> id ∈ over.*1) /\
    (forall r, r ∈ rep.1 -> dget r (store_jobs w') = None /\ r ∉ finished_reqs_waiting_for_store w') /\
    (forall r, r ∉ rep.1 -> r ∈ fin ∪ finished_reqs_waiting_for_store w -> is_Some (dget r (store_jobs w)) ->
      r ∈ finished_reqs_waiting_for_store w').
Proof.
  intros Hw Ht Hnd Hall. unfold get_finished. rewrite Ht. set (w0 := w <| transfers := t |>).
  assert (Hw0 : worker_ok w0) by (destruct Hw; by split).
  destruct (finish_jobs_ok w0 over ∅ (∅, ∅) w0 Hw0 (progress_start _ Hw0) Hnd) as (rep1 & w1 & Hr1 & Hp).
  { intros [id ok] Hin. destruct (Hall id ok Hin). split; [done|]. split; [cbn; clear; set_solver | done]. }
  assert (Ht1 : transfers w1 = t) by (exact (finish_jobs_transfers _ _ _ Hr1)).
  unfold Reported in *. rewrite Hr1. cbn [mbind result_bind]. rewrite (right_id_L ∅ (∪)) in Hp.
  destruct (settle w0 _ fin rep1 w1 Hw0 Hp) as (rep & w' & Hf & Ht2 & Hs). unfold Reported in Hf. rewrite Hf.
  assert (HP : forall id, id ∈ (list_to_set over.*1 : gset Z) <-> id ∈ over.*1) by (intros id; apply elem_of_list_to_set).
  exists rep, w'. split; [done|]. split; [by eapply settled_ok|]. destruct Hs as [_ _ h3 h4 h5 h6 _ h8].
  split; [congruence|]. split; [|split; [|split; [|split]]].
  - intros id. rewrite h3. apply bool_decide_ext_if, HP.
  - intros r. rewrite h8. setoid_rewrite HP. setoid_rewrite (wk_loads w0 Hw0). change (jobs w0) with (jobs w). naive_solver.
  - intros r. rewrite h4, elem_of_subseteq. setoid_rewrite HP. by setoid_rewrite (wk_stores w0 Hw0).
  - intros r Hr. split; [by rewrite h5, bool_decide_eq_true_2|]. by intros (? & _)%h6.
  - intros r Hr Hf' Hs. by apply h6.
Qed.

End WorkerInv.

(** ** A worker whose transfers end at once *)

#[local] Instance eager_handler : OffloadingHandler (list (Z * bool)) := {|
  oh_transfer_async id spec q := (Some true, q ++ [(id, true)]);
  oh_get_finished q := (q, []) |}.

Definition eager_worker : Worker (list (Z * bool)) :=
  new_worker {| handlers := [[]; []];
    transfer_type_to_handler := [((GPU, medium), 0%nat); ((medium, GPU), 1%nat)] |}.

Lemma get_finished_exact_witness :
  exists w rep w', start_load_kv {| reqs_to_load := [("b", ([0], [1]))]; reqs_to_store := [] |} eager_worker = Ok w /\
    get_finished {["a"; "b"]} w = Ok (rep, w') /\ rep.1 = ∅ /\ "b" ∈ rep.2.
Proof.
  assert (Hs : exists w, start_load_kv {| reqs_to_load := [("b", ([0], [1]))]; reqs_to_store := [] |} eager_worker = Ok w)
    by (eexists; vm_compute; reflexivity).
  destruct Hs as [w Hs].
  assert (Hw : worker_ok w) by (eapply (start_kv_ok {| reqs_to_load := [("b", ([0], [1]))]; reqs_to_store := [] |});
    [apply new_worker_ok | exact Hs | reflexivity]).
  vm_compute in Hs. injection Hs as <-.
  match type of Hw with worker_ok ?w => destruct (get_finished_exact w {["a"; "b"]} (finished_transfers (transfers w)).1
    (finished_transfers (transfers w)).2 Hw) as (rep & w' & Hr & _ & _ & _ & Hrecv & Hsent & _) end.
  - reflexivity.
  - apply NoDup_singleton.
  - intros id success [= -> ->]%list_elem_of_singleton. split; [done|]. by eexists.
  - eexists _, rep, w'. split; [vm_compute; reflexivity|]. split; [exact Hr|]. split.
    + apply set_eq. intros r. rewrite Hsent. cbn. split; [by intros ([? [=]] & _) | by intros ?%elem_of_empty].
    + apply Hrecv. exists 0. split; [by left | reflexivity].
Defined.
