(* ===== verification/KVConfig.v ===== *)
(** * Sizing the KV cache

    The second half of vllm/v1/core/kv_cache_utils.py, which runs once at start-up:
    whether a request of the longest length fits in memory and what length would,
    how the layers of the model are split into groups that share a block table, how
    many blocks there are and which layers share a tensor, and the same
    number of blocks on all workers.

    [layer_name -> spec] dictionaries keep the workers' order; [unify_hybrid_kv_cache_specs]
    changes the merged dictionary in place, which only its caller refers to. *)

From S2P Require Import Prelude PyDict PyList PyInt KVSpec PyFloat.
#[local] Open Scope Z_scope.

Section Config.
Context (get_dtype_size : string -> Z).

Definition page_size (s : LayerSpec) : result Z := page_size_bytes get_dtype_size s.

(** ** Memory of one request *)

Definition max_memory_usage_bytes (c : VllmConfig) (specs : list KVCacheSpec) : result Z :=
  l ← mapM (spec_max_memory_usage_bytes get_dtype_size c) specs; Ok (int_sum l).

Definition layers (kv_cache_spec : dict string LayerSpec) : list KVCacheSpec := LayerKVCacheSpec <$> dvalues kv_cache_spec.

(** The configuration keeps the length that was tried last. *)
Definition fits_in_memory (specs : dict string LayerSpec) (available_memory model_len : Z) (c : VllmConfig)
    : result (bool * VllmConfig) :=
  let c := c <| max_model_len := model_len |> in
  memory_needed ← max_memory_usage_bytes c (layers specs);
  Ok (memory_needed <=? available_memory, c).

(** [while left <= right]; a turn at least halves the interval, so its size is enough fuel. *)
Fixpoint length_search (specs : dict string LayerSpec) (available_memory : Z) (fuel : nat) (left right res : Z)
    (c : VllmConfig) : result (Z * VllmConfig) :=
  match fuel with
  | O => Ok (res, c)
  | S fuel =>
      if left <=? right then
        let mid := (left + right) / 2 in
        '(fits, c) ← fits_in_memory specs available_memory mid c;
        if (fits : bool) then length_search specs available_memory fuel (mid + 1) right mid c
        else length_search specs available_memory fuel left (mid - 1) res c
      else Ok (res, c)
  end.

Definition estimate_max_model_len (c : VllmConfig) (specs : dict string LayerSpec) (available_memory : Z)
    : result (Z * VllmConfig) :=
  let current_max := max_model_len c in
  '(fits, c) ← fits_in_memory specs available_memory 1 c;
  if negb fits then Ok (0, c) else length_search specs available_memory (Z.to_nat current_max) 1 current_max 1 c.

(** The estimate goes into the message. *)
Definition check_enough_kv_cache_memory (c : VllmConfig) (specs : dict string LayerSpec) (available_memory : Z) : result unit :=
  match specs with
  | [] => Ok tt
  | _ =>
      if available_memory <=? 0 then Raise ValueError
      else
        needed_memory ← max_memory_usage_bytes c (layers specs);
        if available_memory <? needed_memory then
          _ ← estimate_max_model_len c specs available_memory; Raise ValueError
        else Ok tt
  end.

(** ** Groups of layers *)

Definition group_one (specs : dict string LayerSpec) (names : list string) : result KVCacheGroupSpec :=
  layer_specs ← mapM (fun n => or_raise KeyError (dget n specs)) names;
  merged ← merge layer_specs;
  Ok {| layer_names := names; kv_cache_spec := LayerKVCacheSpec merged |}.

Definition create_kv_cache_group_specs (specs : dict string LayerSpec) (grouped_layer_names : list (list string))
    : result (list KVCacheGroupSpec) := mapM (group_one specs) grouped_layer_names.

Definition is_kv_cache_spec_uniform (specs : dict string LayerSpec) : result bool :=
  match specs with
  | [] => Ok true
  | _ => match merge (dvalues specs) with
         | Ok _ => Ok true
         | Raise AssertionError => Ok false
         | Raise e => Raise e
         end
  end.

Definition page_sizes (specs : dict string LayerSpec) : result (list Z) :=
  l ← mapM page_size (dvalues specs); Ok (remove_dups l).

Definition get_uniform_page_size (specs : dict string LayerSpec) : result Z :=
  l ← page_sizes specs;
  match l with [x] => Ok x | _ => Raise AssertionError end.

Definition is_kv_cache_page_size_uniform (specs : dict string LayerSpec) : result bool :=
  l ← page_sizes specs; Ok (py_len l =? 1).

(** Layers of one specification, in the order they are first met. *)
Definition same_type_layers (specs : dict string LayerSpec) : dict LayerSpec (list string) :=
  fold_left (fun d p => dset p.2 (dget_or p.2 [] d ++ [p.1]) d) specs [].

Definition split_layers (group_size : Z) (names : list string) : result (list (list string)) :=
  num_groups ← cdiv (py_len names) group_size;
  Ok ((fun i => islice names i None num_groups) <$> py_range 0 num_groups).

Definition groups_uniform_page_size (specs : dict string LayerSpec) : result (list KVCacheGroupSpec) :=
  let types := dvalues (same_type_layers specs) in
  group_size ← py_min (py_len <$> types);
  grouped ← mapM (split_layers group_size) types;
  create_kv_cache_group_specs specs (concat grouped).

(** A layer as full attention that remembers its window or chunk. *)
Definition to_full (s : LayerSpec) : LayerSpec :=
  match s with
  | SlidingWindowSpec a w => FullAttentionSpec a (Some w) None
  | ChunkedLocalAttentionSpec a n => FullAttentionSpec a None (Some n)
  | s => s
  end.

(** [is_kv_cache_spec_uniform(..) or UniformTypeKVCacheSpecs.is_uniform_type(..)]. *)
Definition one_type (specs : dict string LayerSpec) : result bool :=
  b ← is_kv_cache_spec_uniform specs; if (b : bool) then Ok true else is_uniform_type specs.

Definition unify_hybrid_kv_cache_specs (specs : dict string LayerSpec) : result (dict string LayerSpec) :=
  b ← one_type specs;
  if (b : bool) then Ok specs
  else
    let l := dvalues specs in
    let specs := if existsb is_full_attention l && (existsb is_sliding_window l || existsb is_chunked_local l)
                 then prod_map id to_full <$> specs else specs in
    b ← one_type specs;
    if (b : bool) then Ok specs else Raise ValueError.

Definition get_kv_cache_groups (c : VllmConfig) (specs : dict string LayerSpec) : result (list KVCacheGroupSpec) :=
  specs ← (if disable_hybrid_kv_cache_manager c then unify_hybrid_kv_cache_specs specs else Ok specs);
  match specs with
  | [] => Ok []
  | _ =>
      uniform ← is_kv_cache_spec_uniform specs;
      if (uniform : bool) then create_kv_cache_group_specs specs [dkeys specs]
      else
        uniform_spec ← from_specs specs;
        match uniform_spec with
        | Some s => Ok [{| layer_names := dkeys specs; kv_cache_spec := s |}]
        | None =>
            same_size ← is_kv_cache_page_size_uniform specs;
            if (same_size : bool) then groups_uniform_page_size specs else Raise NotImplementedError
        end
  end.

(** ** Blocks and tensors of one worker *)

Definition may_override_num_blocks (c : VllmConfig) (n : Z) : Z := default n (num_gpu_blocks_override c).

Definition get_num_blocks (c : VllmConfig) (num_layers available_memory page_size : Z) : result Z :=
  q ← py_floordiv available_memory page_size;
  n ← py_floordiv q num_layers;
  Ok (may_override_num_blocks c (Z.max n 0)).

(** The layers at position [i] of the groups. *)
Definition shared_at (groups : list KVCacheGroupSpec) (i : nat) : list string :=
  omap (fun g => layer_names g !! i) groups.

Definition uniform_type_config (c : VllmConfig) (groups : list KVCacheGroupSpec) (g : KVCacheGroupSpec)
    (specs : dict string LayerSpec) (available_memory : Z) : result KVCacheConfig :=
  size ← group_page_size_bytes get_dtype_size (kv_cache_spec g);
  n ← py_floordiv available_memory size;
  let n := may_override_num_blocks c n in
  tensors ← mapM (fun name => s ← or_raise KeyError (dget name specs); size ← page_size s;
                              Ok {| tensor_size := size * n; shared_by := [name] |}) (layer_names g);
  Ok {| num_blocks := n; kv_cache_tensors := tensors; kv_cache_groups := groups |}.

Definition shared_config (c : VllmConfig) (groups : list KVCacheGroupSpec) (specs : dict string LayerSpec)
    (available_memory : Z) : result KVCacheConfig :=
  group_size ← py_max ((fun g => py_len (layer_names g)) <$> groups);
  size ← get_uniform_page_size specs;
  _ ← py_assert (0 <? group_size);
  n ← get_num_blocks c group_size available_memory size;
  Ok {| num_blocks := n;
        kv_cache_tensors := (fun i => {| tensor_size := size * n; shared_by := shared_at groups (Z.to_nat i) |}) <$> py_range 0 group_size;
        kv_cache_groups := groups |}.

Definition get_kv_cache_config_from_groups (c : VllmConfig) (groups : list KVCacheGroupSpec) (specs : dict string LayerSpec)
    (available_memory : Z) : result KVCacheConfig :=
  match groups with
  | [] => Ok {| num_blocks := 1; kv_cache_tensors := []; kv_cache_groups := groups |}
  | [{| layer_names := names; kv_cache_spec := UniformTypeKVCacheSpecs b per_layer |}] =>
      uniform_type_config c groups {| layer_names := names; kv_cache_spec := UniformTypeKVCacheSpecs b per_layer |}
        per_layer available_memory
  | _ => shared_config c groups specs available_memory
  end.

(** ** All workers *)

(** [num_blocks / num_block_per_request]: a float division of ints. *)
Definition get_max_concurrency_for_kv_cache_config (c : VllmConfig) (k : KVCacheConfig) : result float :=
  num_layer_per_group ← py_max ((fun g => py_len (layer_names g)) <$> kv_cache_groups k);
  usage ← max_memory_usage_bytes c (kv_cache_spec <$> kv_cache_groups k);
  g ← py_index (kv_cache_groups k) 0;
  size ← group_page_size_bytes get_dtype_size (kv_cache_spec g);
  num_block_per_request ← cdiv (num_layer_per_group * usage) (size * num_layer_per_group);
  if num_block_per_request =? 0 then Raise ZeroDivisionError
  else Ok (fdiv (float_of_Z (num_blocks k)) (float_of_Z num_block_per_request)).

(** What is logged: the tokens of the cache and the concurrency. *)
Definition report_kv_cache_config (c : VllmConfig) (k : KVCacheConfig) : result (Z * float) :=
  min_block_size ← py_min ((fun g => spec_block_size (kv_cache_spec g)) <$> kv_cache_groups k);
  q ← py_floordiv (num_blocks k) (py_len (kv_cache_groups k));
  let num_tokens := q * min_block_size in
  let num_tokens := if 1 <? decode_context_parallel_size c then num_tokens * decode_context_parallel_size c else num_tokens in
  max_concurrency ← get_max_concurrency_for_kv_cache_config c k;
  Ok (num_tokens, max_concurrency).

Definition merge_layer (p : string * LayerSpec) (merged : dict string LayerSpec) : result (dict string LayerSpec) :=
  match dget p.1 merged with
  | None => Ok (dset p.1 p.2 merged)
  | Some s => _ ← py_assert (bool_decide (s = p.2)); Ok merged
  end.

Definition merge_workers (workers : list (dict string LayerSpec)) : result (dict string LayerSpec) :=
  for_each (fun w merged => for_each merge_layer w merged) workers [].

(** The part of a group that a worker has. *)
Definition worker_group (specs : dict string LayerSpec) (g : KVCacheGroupSpec) : KVCacheGroupSpec :=
  {| layer_names := List.filter (fun n => dmem n specs) (layer_names g); kv_cache_spec := kv_cache_spec g |}.

Definition worker_config (c : VllmConfig) (global_groups : list KVCacheGroupSpec) (w : dict string LayerSpec * Z)
    : result KVCacheConfig :=
  let '(specs, available_memory) := w in
  let groups := worker_group specs <$> global_groups in
  _ ← py_assert (int_sum ((fun g => py_len (layer_names g)) <$> groups) =? py_len specs);
  get_kv_cache_config_from_groups c groups specs available_memory.

Definition shrink_tensor (num_blocks_old min_num_blocks : Z) (t : KVCacheTensor) : result KVCacheTensor :=
  r ← py_mod (tensor_size t) num_blocks_old;
  _ ← py_assert (r =? 0);
  Ok {| tensor_size := tensor_size t / num_blocks_old * min_num_blocks; shared_by := shared_by t |}.

Definition shrink_config (c : VllmConfig) (min_num_blocks : Z) (k : KVCacheConfig) : result KVCacheConfig :=
  tensors ← mapM (shrink_tensor (num_blocks k) min_num_blocks) (kv_cache_tensors k);
  let k := k <| num_blocks := min_num_blocks |> <| kv_cache_tensors := tensors |> in
  match kv_cache_groups k with
  | [] => Ok k
  | _ => _ ← report_kv_cache_config c k; Ok k
  end.

Definition get_kv_cache_configs (c : VllmConfig) (kv_cache_specs : list (dict string LayerSpec)) (available_memory : list Z)
    : result (list KVCacheConfig) :=
  let workers := combine kv_cache_specs available_memory in
  _ ← mapM (fun w => check_enough_kv_cache_memory c w.1 w.2) workers;
  merged ← merge_workers kv_cache_specs;
  global_groups ← get_kv_cache_groups c merged;
  configs ← mapM (worker_config c global_groups) workers;
  min_num_blocks ← py_min (num_blocks <$> configs);
  mapM (shrink_config c min_num_blocks) configs.

(** ** The scheduler's configuration *)

Definition scheduler_group (g : KVCacheGroupSpec) : result KVCacheGroupSpec :=
  match kv_cache_spec g with
  | UniformTypeKVCacheSpecs _ specs =>
      s ← or_raise StopIteration (head (dvalues specs));
      Ok {| layer_names := layer_names g; kv_cache_spec := LayerKVCacheSpec s |}
  | LayerKVCacheSpec _ => Ok g
  end.

Definition generate_scheduler_kv_cache_config (configs : list KVCacheConfig) : result KVCacheConfig :=
  match configs with
  | [] => Raise IndexError
  | cfg :: _ =>
      _ ← py_assert (forallb (fun k => num_blocks k =? num_blocks cfg) configs);
      groups ← mapM scheduler_group (kv_cache_groups cfg);
      Ok (cfg <| kv_cache_groups := groups |>)
  end.

End Config.
