(* ===== verification/KVSizing.v ===== *)
(** * The longest request that fits

    The memory a request needs grows with its length, so the binary search of
    [estimate_max_model_len] finds the longest length that fits. *)

From S2P Require Import Prelude PyDict PyList PyInt KVSpec KVConfig.
#[local] Open Scope Z_scope.

Section Sizing.
Context (get_dtype_size : string -> Z).

(** A layer with a block size and a page size. *)
Definition sane (s : LayerSpec) : Prop :=
  0 < layer_block_size s /\ exists p, page_size get_dtype_size s = Ok p /\ 0 <= p.

Definition sane_specs (specs : dict string LayerSpec) : Prop := Forall sane (dvalues specs).

(** [g n] is what [f] gives for configurations of length [n]; it grows with [n]. *)
Definition grows (c : VllmConfig) (f : VllmConfig -> result Z) (g : Z -> Z) : Prop :=
  (forall a b, a <= b -> g a <= g b) /\ forall n, f (c <| max_model_len := n |>) = Ok (g n).

Lemma pages_sane s n extra p :
  sane s -> page_size get_dtype_size s = Ok p ->
  pages get_dtype_size n extra s = Ok ((ceil_div n (layer_block_size s) + extra) * p).
Proof. intros [Hb _] Hp. unfold pages. rewrite cdiv_ok by done. cbn [mbind result_bind]. unfold page_size in Hp. by rewrite Hp. Qed.

Lemma pages_grow s p (len : Z -> Z) extra c f :
  sane s -> page_size get_dtype_size s = Ok p -> (forall a b, a <= b -> len a <= len b) ->
  (forall n, f (c <| max_model_len := n |>) = pages get_dtype_size (len n) extra s) -> exists g, grows c f g.
Proof.
  intros Hs Hp Hlen Hf. exists (fun n => (ceil_div (len n) (layer_block_size s) + extra) * p). split.
  - intros a b Hab. destruct Hs as [Hb (q & Hq & Hq0)]. assert (p = q) as -> by congruence.
    apply Z.mul_le_mono_nonneg_r; [done|]. apply Z.add_le_mono_r, ceil_div_mono; auto.
  - intros n. by rewrite Hf, (pages_sane s _ _ p).
Qed.

Lemma layer_memory_grows c s m :
  sane s -> layer_max_memory_usage_bytes get_dtype_size c s = Ok m ->
  exists g, grows c (fun c => layer_max_memory_usage_bytes get_dtype_size c s) g.
Proof.
  intros Hs Hm. pose proof Hs as [_ (p & Hp & _)].
  assert (Hpg : forall (len : Z -> Z) extra f, (forall a b, a <= b -> len a <= len b) ->
    (forall n, f (c <| max_model_len := n |>) = pages get_dtype_size (len n) extra s) -> exists g, grows c f g).
  { intros len extra f. by apply (pages_grow s p). }
  assert (Hfull : exists g, grows c (fun c => full_max_memory get_dtype_size c s) g).
  { destruct (Z.ltb_spec 1 (decode_context_parallel_size c)) as [Hd|Hd].
    - apply (Hpg (fun n => ceil_div n (decode_context_parallel_size c)) 0).
      + intros a b Hab. apply ceil_div_mono; lia.
      + intros n. unfold full_max_memory. cbn. destruct (Z.ltb_spec 1 (decode_context_parallel_size c)); [|lia].
        by rewrite cdiv_ok by lia.
    - apply (Hpg (fun n => n) 0); [auto|].
      intros n. unfold full_max_memory. cbn. destruct (Z.ltb_spec 1 (decode_context_parallel_size c)); [lia | done]. }
  destruct s as [| |a k|a w| | |]; cbn [layer_max_memory_usage_bytes] in *; try exact Hfull.
  - apply (Hpg (fun n => Z.min (k + max_num_batched_tokens c) n) 0); [intros; lia | done].
  - unfold sliding_max_memory in Hm. apply bind_Ok_inv in Hm as (u & Hd & _). apply py_assert_Ok in Hd.
    apply (Hpg (fun n => Z.min (w - 1 + max_num_batched_tokens c) n) 1); [intros; lia|].
    intros n. unfold sliding_max_memory. cbn. by rewrite Hd.
  - by apply (Hpg (fun n => n) 0).
  - exists (fun _ => 0). by split.
  - apply (Hpg (fun _ => max_num_encoder_input_tokens c) 0); [intros; lia | done].
Qed.

Lemma memory_grows c specs m :
  sane_specs specs -> max_memory_usage_bytes get_dtype_size c (layers specs) = Ok m ->
  exists g, grows c (fun c => max_memory_usage_bytes get_dtype_size c (layers specs)) g.
Proof.
  unfold sane_specs, layers, max_memory_usage_bytes. generalize (dvalues specs) as l. intros l Hl. revert m.
  induction Hl as [|s l Hs _ IH]; intros m Hm.
  { exists (fun _ => 0). by split. }
  apply bind_Ok_inv in Hm as (ys & Hys & _). rewrite fmap_cons, mapM_Ok in Hys. apply Forall2_cons_inv_l in Hys as (y & ys' & Hy & Hys & ->).
  destruct (layer_memory_grows c s y Hs Hy) as (g1 & Hg1 & Hf1).
  apply mapM_Ok in Hys. destruct (IH (int_sum ys')) as (g2 & Hg2 & Hf2); [by rewrite Hys|].
  exists (fun n => g1 n + g2 n). split.
  - intros a b Hab. specialize (Hg1 a b Hab). specialize (Hg2 a b Hab). lia.
  - intros n. specialize (Hf1 n). specialize (Hf2 n). cbn beta in Hf1, Hf2. apply bind_Ok_inv in Hf2 as (zs & Hzs & [= Hz]).
    rewrite fmap_cons, (mapM_cons_ok _ _ _ (g1 n) zs); [|exact Hf1 | exact Hzs]. cbn. by rewrite <- Hz.
Qed.

(** Length [n] fits. *)
Definition fits (c : VllmConfig) (specs : dict string LayerSpec) (available n : Z) : Prop :=
  exists m, max_memory_usage_bytes get_dtype_size (c <| max_model_len := n |>) (layers specs) = Ok m /\ m <= available.

Definition same_but_length (c c' : VllmConfig) : Prop := forall n, c' <| max_model_len := n |> = c <| max_model_len := n |>.

Section Search.
Context (c : VllmConfig) (specs : dict string LayerSpec) (available : Z) (g : Z -> Z).
Context (Hg : grows c (fun c => max_memory_usage_bytes get_dtype_size c (layers specs)) g).

Lemma fits_iff n : fits c specs available n <-> g n <= available.
Proof.
  destruct Hg as [_ Hv]. unfold fits. specialize (Hv n). cbn beta in Hv. rewrite Hv. split; [by intros (m & [= <-] & ?) | by exists (g n)].
Qed.

Lemma fits_in_memory_ok n c' :
  same_but_length c c' ->
  fits_in_memory get_dtype_size specs available n c' = Ok (g n <=? available, c <| max_model_len := n |>).
Proof.
  intros Hc. unfold fits_in_memory. rewrite Hc. destruct Hg as [_ Hv]. specialize (Hv n). cbn beta in Hv. by rewrite Hv.
Qed.

Lemma length_search_ok fuel left right res top c' :
  same_but_length c c' -> (Z.to_nat (right - left + 1) <= fuel)%nat ->
  1 <= res <= top -> left <= res + 1 -> 1 <= left -> right <= top ->
  g res <= available -> (forall k, right < k <= top -> available < g k) ->
  exists n c'', length_search get_dtype_size specs available fuel left right res c' = Ok (n, c'') /\
    1 <= n <= top /\ g n <= available /\ forall k, n < k <= top -> available < g k.
Proof.
  revert left right res c'. induction fuel as [|fuel IH]; intros left right res c' Hc Hfuel Hres Hleft Hl1 Hr Hfit Hbig.
  { exists res, c'. split; [done|]. split; [done|]. split; [done|]. intros k Hk. apply Hbig. lia. }
  cbn [length_search]. destruct (Z.leb_spec left right) as [Hle|Hgt].
  2: { exists res, c'. split; [done|]. split; [done|]. split; [done|]. intros k Hk. apply Hbig. lia. }
  set (mid := (left + right) / 2). assert (Hmid : left <= mid <= right).
  { unfold mid. split; [apply Z.div_le_lower_bound; lia | apply Z.div_le_upper_bound; lia]. }
  rewrite fits_in_memory_ok by done. cbn [mbind result_bind].
  destruct (Z.leb_spec (g mid) available) as [Hm|Hm].
  - apply IH; try lia; done.
  - apply IH; try lia; try done. intros k Hk. destruct Hg as [Hmono _].
    specialize (Hmono mid k ltac:(lia)). lia.
Qed.
End Search.

(** C23: The estimate of the longest length: when the memory a longest request needs can be computed,
    the search returns the greatest length up to the configured one whose request fits into
    the available memory, and zero when not even one token does. *)
Theorem estimate_max_model_len_correct c specs available m :
  sane_specs specs -> 1 <= max_model_len c ->
  max_memory_usage_bytes get_dtype_size c (layers specs) = Ok m ->
  exists n c', estimate_max_model_len get_dtype_size c specs available = Ok (n, c') /\
    0 <= n <= max_model_len c /\ (n = 0 \/ fits c specs available n) /\
    forall k, n < k <= max_model_len c -> ~ fits c specs available k.
Proof.
  intros Hs Hlen Hm. destruct (memory_grows c specs m Hs Hm) as (g & Hg). unfold estimate_max_model_len.
  rewrite (fits_in_memory_ok c specs available g Hg 1 c) by done. cbn [mbind result_bind].
  setoid_rewrite (fits_iff c specs available g Hg). destruct (Z.leb_spec (g 1) available) as [H1|H1]; cbn [negb].
  - destruct (length_search_ok c specs available g Hg (Z.to_nat (max_model_len c)) 1 (max_model_len c) 1 (max_model_len c)
      (c <| max_model_len := 1 |>)) as (n & c' & Hr & Hn & Hfit & Hbig); try lia; try done.
    exists n, c'. split; [exact Hr|]. split; [lia|]. split; [by right|]. intros k Hk. specialize (Hbig k Hk). lia.
  - exists 0, (c <| max_model_len := 1 |>). split; [done|]. split; [lia|]. split; [by left|].
    intros k Hk. destruct Hg as [Hmono _]. specialize (Hmono 1 k ltac:(lia)). lia.
Qed.

End Sizing.

(** ** A model of one full and one sliding-window layer *)

Definition two_bytes (dtype : string) : Z := 2.
Definition small_attention : AttentionSpec := mkAttentionSpec 16 1 8 "bfloat16".
Definition hybrid_layers : dict string LayerSpec :=
  [("layers.0", FullAttentionSpec small_attention None None); ("layers.1", SlidingWindowSpec small_attention 32)].
Definition small_vllm : VllmConfig := mkVllmConfig 4096 1 64 64 false None.

(** Each page takes 512 bytes; of 20 pages, seven are the window's. *)
Lemma estimate_max_model_len_correct_witness :
  exists n c', estimate_max_model_len two_bytes small_vllm hybrid_layers (20 * 512) = Ok (n, c') /\ n = 208.
Proof.
  destruct (estimate_max_model_len_correct two_bytes small_vllm hybrid_layers (20 * 512) 134656) as (n & c' & Hr & _).
  - apply Forall_forall. intros s [-> | ->%list_elem_of_singleton]%elem_of_cons;
      (split; [reflexivity|]); (exists 512; split; [reflexivity | done]).
  - done.
  - vm_compute. reflexivity.
  - exists n, c'. split; [exact Hr|]. vm_compute in Hr. by injection Hr as <- _.
Defined.
