(* ===== verification/KVGrouping.v ===== *)
(** * Groups of layers

    [get_kv_cache_groups] splits the layers of a model into groups: every layer is
    in exactly one, no group is empty, and the layers of a group have blocks of
    the group's size.  In a hybrid model, the layers of a group have one
    specification, and no group has more layers than the rarest specification. *)

From Stdlib Require Import ZifyBool.
From S2P Require Import Prelude PyDict PyList PyInt KVSpec KVConfig.
#[local] Open Scope Z_scope.

(** ** Every [n]-th element *)

Lemma bfilter_none {A} (f : A -> bool) l : (forall x, x ∈ l -> f x = false) -> List.filter f l = [].
Proof.
  induction l as [|x l IH]; [done|]. intros Hall. cbn. rewrite (Hall x) by by left. apply IH. intros; apply Hall; by right.
Qed.

Lemma elem_of_concat {A} (x : A) ls : x ∈ concat ls <-> exists l, x ∈ l /\ l ∈ ls.
Proof.
  rewrite list_elem_of_In, in_concat. split; intros (l & h1 & h2); exists l; rewrite list_elem_of_In in *; by rewrite list_elem_of_In in *.
Qed.

Lemma filter_or {A} (f g h : A -> bool) l :
  (forall x, x ∈ l -> h x = f x || g x) -> (forall x, x ∈ l -> f x && g x = false) ->
  List.filter f l ++ List.filter g l ≡ₚ List.filter h l.
Proof.
  induction l as [|x l IH]; [done|]. intros Hor Hand. cbn.
  assert (IH' : List.filter f l ++ List.filter g l ≡ₚ List.filter h l).
  { apply IH; intros y Hy; [apply Hor | apply Hand]; by right. }
  rewrite (Hor x) by by left. specialize (Hand x ltac:(by left)).
  destruct (f x), (g x); cbn; try done; rewrite <- IH'; [done|]. by rewrite <- Permutation_middle.
Qed.

Lemma residue_class n len i :
  0 <= i < n ->
  List.filter (fun j => (j - i) mod n =? 0) (py_range i len) = List.filter (fun j => j mod n =? i) (py_range 0 len).
Proof.
  intros Hi. unfold py_range.
  assert (Hlow : forall k, k <= i -> List.filter (fun j => j mod n =? i) (seqZ 0 k) = []).
  { intros k Hk. apply bfilter_none. intros j [Hj1 Hj2]%elem_of_seqZ. rewrite Z.mod_small by lia. lia. }
  destruct (Z.leb_spec len i) as [Hle|Hgt].
  - rewrite seqZ_nil by lia. by rewrite Hlow by lia.
  - replace (len - 0) with (i + (len - i)) by lia. rewrite (seqZ_app 0) by lia. rewrite List.filter_app, Hlow by lia.
    cbn. rewrite Z.add_0_l. apply filter_ext_in. intros j Hj. apply list_elem_of_In, elem_of_seqZ in Hj.
    destruct (Z.eqb_spec (j mod n) i) as [He|He], (Z.eqb_spec ((j - i) mod n) 0) as [H0|H0]; try done; exfalso.
    + apply H0. rewrite <- He at 1. rewrite Zminus_mod_idemp_r, Z.sub_diag. by apply Z.mod_0_l; lia.
    + apply He. pose proof (Z.div_mod (j - i) n ltac:(lia)) as Hd. rewrite H0 in Hd.
      replace j with (i + (j - i) / n * n) by lia. rewrite Z.mod_add by lia. by apply Z.mod_small.
Qed.

Lemma residue_classes n len :
  0 < n ->
  concat ((fun i => List.filter (fun j => (j - i) mod n =? 0) (py_range i len)) <$> py_range 0 n) ≡ₚ py_range 0 len.
Proof.
  intros Hn. assert (Hgen : forall k, Z.of_nat k <= n ->
    concat ((fun i => List.filter (fun j => (j - i) mod n =? 0) (py_range i len)) <$> seqZ 0 (Z.of_nat k))
    ≡ₚ List.filter (fun j => j mod n <? Z.of_nat k) (py_range 0 len)).
  { induction k as [|k IH]; intros Hk.
    - rewrite bfilter_none; [done|]. intros j Hj. pose proof (Z.mod_pos_bound j n Hn). lia.
    - rewrite seqZ_S, fmap_app, concat_app, IH by lia. cbn [fmap list_fmap concat]. rewrite app_nil_r, Z.add_0_l, residue_class by lia.
      apply filter_or; intros j _; lia. }
  specialize (Hgen (Z.to_nat n)). rewrite Z2Nat.id in Hgen by lia. unfold py_range at 2. rewrite Z.sub_0_r, Hgen by lia.
  rewrite bfilter_all; [done|]. intros j _. pose proof (Z.mod_pos_bound j n Hn). lia.
Qed.

Lemma omap_concat {A B} (f : A -> option B) (ls : list (list A)) :
  concat (omap (M:=list) f <$> ls) = omap (M:=list) f (concat ls).
Proof. induction ls as [|l ls IH]; [done|]. cbn. by rewrite omap_app, IH. Qed.

Lemma omap_positions {A} (l : list A) : omap (fun i => l !! Z.to_nat i) (py_range 0 (py_len l)) = l.
Proof.
  unfold py_range, py_len. rewrite Z.sub_0_r. induction l as [|x l IH] using rev_ind; [done|].
  rewrite length_app. cbn [length]. replace (Z.of_nat (length l + 1)) with (Z.of_nat (S (length l))) by lia.
  rewrite seqZ_S, omap_app. f_equal.
  - rewrite <- IH at 2. apply list_omap_ext, Forall_Forall2_diag, Forall_forall. intros i [Hi1 Hi2]%elem_of_seqZ.
    apply lookup_app_l. lia.
  - cbn. rewrite Z.add_0_l, Nat2Z.id, lookup_app_r, Nat.sub_diag by lia. done.
Qed.

(** Splitting a list by position modulo [n]. *)
Lemma split_partition {A} (l : list A) n :
  0 < n -> concat ((fun i => islice l i None n) <$> py_range 0 n) ≡ₚ l.
Proof.
  intros Hn. unfold islice. trans (omap (M:=list) (fun i => l !! Z.to_nat i) (py_range 0 (py_len l)));
    [|by rewrite omap_positions].
  rewrite <- (residue_classes n (py_len l) Hn), <- omap_concat, <- list_fmap_compose. done.
Qed.

Lemma length_omap_total {A B} (f : A -> option B) l : (forall x, x ∈ l -> is_Some (f x)) -> length (omap f l) = length l.
Proof.
  induction l as [|x l IH]; intros Hall; [done|]. cbn. destruct (Hall x) as [y ->]; [by left|]. cbn.
  rewrite IH; [done|]. intros; apply Hall; by right.
Qed.

Lemma length_islice {A} (l : list A) i n :
  0 <= i <= py_len l -> 0 < n -> py_len (islice l i None n) = ceil_div (py_len l - i) n.
Proof.
  intros Hi Hn. unfold islice, py_range. rewrite <- (Z2Nat.id (py_len l - i)) by lia. rewrite filter_every by done.
  unfold py_len at 1. rewrite length_omap_total.
  - rewrite length_fmap, length_seqZ. apply Z2Nat.id, ceil_div_nonneg; lia.
  - intros j (k & -> & [Hk1 Hk2]%elem_of_seqZ)%list_elem_of_fmap. apply lookup_lt_is_Some.
    assert (Hlt : i + k * n < py_len l); [|unfold py_len in *; lia].
    destruct (Z.lt_ge_cases (i + k * n) (py_len l)) as [|Hge]; [done|]. exfalso.
    assert (ceil_div (Z.of_nat (Z.to_nat (py_len l - i))) n <= k); [|lia]. apply ceil_div_le; lia.
Qed.

(** ** Layers of one specification *)

(** The layers [seen] so far, by specification. *)
Record types_ok (seen : dict string LayerSpec) (d : dict LayerSpec (list string)) : Prop := {
  ty_keys : dict_ok d;
  ty_all : concat (dvalues d) ≡ₚ dkeys seen;
  ty_same : forall s names, dget s d = Some names -> names <> [] /\ forall x, x ∈ names -> (x, s) ∈ seen;
}.

Lemma concat_dset_snoc (s : LayerSpec) (x : string) d :
  concat (dvalues (dset s (dget_or s [] d ++ [x]) d)) ≡ₚ concat (dvalues d) ++ [x].
Proof.
  unfold dvalues, dget_or. induction d as [|[k l] d IH]; [done|]. cbn. case_decide as Hk; cbn.
  - rewrite <- !(assoc_L (++)). apply Permutation_app_head, Permutation_app_comm.
  - destruct (dget s d) as [l'|]; cbn in *; by rewrite IH, (assoc_L (++)).
Qed.

Lemma same_type_step seen d x s :
  types_ok seen d -> types_ok (seen ++ [(x, s)]) (dset s (dget_or s [] d ++ [x]) d).
Proof.
  intros [h1 h2 h3]. split.
  - by apply dict_ok_dset.
  - rewrite concat_dset_snoc, h2. unfold dkeys. by rewrite fmap_app.
  - intros s' names. rewrite dget_dset. case_decide as Heq.
    + intros [= <-]. subst s'. split; [by destruct (dget_or s [] d)|]. intros y [Hy| ->%list_elem_of_singleton]%elem_of_app.
      * apply elem_of_app. left. unfold dget_or in Hy. destruct (dget s d) as [l|] eqn:Hl; [by apply (h3 s l Hl)|by apply elem_of_nil in Hy].
      * apply elem_of_app. right. by left.
    + intros Hg. destruct (h3 s' names Hg) as [Hne Hall]. split; [done|]. intros y Hy. apply elem_of_app. left. by apply Hall.
Qed.

Lemma same_type_layers_ok specs : types_ok specs (same_type_layers specs).
Proof.
  unfold same_type_layers. assert (Hgen : forall l seen d, types_ok seen d ->
    types_ok (seen ++ l) (fold_left (fun d p => dset p.2 (dget_or p.2 [] d ++ [p.1]) d) l d)).
  { induction l as [|[x s] l IH]; intros seen d Hd; cbn [fold_left].
    - by rewrite app_nil_r.
    - replace (seen ++ (x, s) :: l) with ((seen ++ [(x, s)]) ++ l) by by rewrite <- (assoc_L (++)).
      apply IH. by apply same_type_step. }
  apply (Hgen specs [] []). split; [apply dict_ok_nil | done | done].
Qed.

(** ** Groups *)

Lemma create_names specs gs out :
  create_kv_cache_group_specs specs gs = Ok out -> layer_names <$> out = gs.
Proof.
  unfold create_kv_cache_group_specs. intros Hr%mapM_Ok. induction Hr as [|names g gs out Hg _ IH]; [done|]. cbn. f_equal; [|done].
  unfold group_one in Hg. inv_ok. done.
Qed.

(** The group's specification is the merge of its layers'. *)
Lemma create_merged specs gs out g :
  create_kv_cache_group_specs specs gs = Ok out -> g ∈ out ->
  exists l s, Forall2 (fun n s => dget n specs = Some s) (layer_names g) l /\ merge l = Ok s /\ kv_cache_spec g = LayerKVCacheSpec s.
Proof.
  unfold create_kv_cache_group_specs. intros Hr%mapM_Ok Hin.
  apply list_elem_of_lookup in Hin as [i Hi]. destruct (Forall2_lookup_r _ _ _ _ _ Hr Hi) as (names & _ & Hg).
  unfold group_one in Hg. apply bind_Ok_inv in Hg as (l & Hl & Hg). apply bind_Ok_inv in Hg as (s & Hs & [= <-]).
  exists l, s. split; [|done]. apply mapM_Ok in Hl. cbn. eapply Forall2_impl; [exact Hl|]. intros n x Hx. by apply or_raise_Ok in Hx.
Qed.

Lemma split_layers_ok n names l :
  0 < n -> names <> [] -> split_layers n names = Ok l ->
  concat l ≡ₚ names /\ (forall g, g ∈ l -> g <> [] /\ py_len g <= n) /\ forall g x, g ∈ l -> x ∈ g -> x ∈ names.
Proof.
  intros Hn Hne. unfold split_layers. rewrite cdiv_ok by done. cbn [mbind result_bind]. intros [= <-].
  set (m := ceil_div (py_len names) n).
  assert (Hl : 0 < py_len names) by (destruct names; [done|]; unfold py_len; cbn; lia).
  assert (Hm : 0 < m). { destruct (Z.lt_ge_cases 0 m) as [|Hz]; [done|]. apply ceil_div_le in Hz; lia. }
  assert (Hp := split_partition names m Hm). split; [exact Hp|]. split.
  - intros g (i & -> & [Hi1 Hi2]%elem_of_seqZ)%list_elem_of_fmap.
    assert (Him : i < py_len names). { apply (Z.lt_le_trans _ m); [lia|]. apply ceil_div_le; nia. }
    assert (Hlen := length_islice names i m ltac:(lia) Hm). split.
    + intros Hg. rewrite Hg in Hlen. unfold py_len at 1 in Hlen. cbn in Hlen.
      assert (ceil_div (py_len names - i) m <= 0) as Hz%ceil_div_le by lia; lia.
    + rewrite Hlen. apply ceil_div_le; [done|]. pose proof (ceil_div_bound (py_len names) n Hn). fold m in H. lia.
  - intros g x Hg Hx. rewrite <- Hp. apply elem_of_concat. by exists g.
Qed.

(** In a hybrid model. *)
Lemma hybrid_groups_ok specs groups :
  specs <> [] -> groups_uniform_page_size specs = Ok groups ->
  concat (layer_names <$> groups) ≡ₚ dkeys specs /\
  forall g, g ∈ groups -> layer_names g <> [] /\ exists s, forall x, x ∈ layer_names g -> (x, s) ∈ specs.
Proof.
  intros Hne Hr. unfold groups_uniform_page_size in Hr. destruct (same_type_layers_ok specs) as [h1 h2 h3].
  set (types := same_type_layers specs) in *.
  apply bind_Ok_inv in Hr as (n & Hn & Hr). apply bind_Ok_inv in Hr as (grouped & Hg & Hr).
  assert (Hnames := create_names _ _ _ Hr). apply py_min_spec in Hn as [Hin _].
  assert (Htype : forall names, names ∈ dvalues types -> exists s, names <> [] /\ forall x, x ∈ names -> (x, s) ∈ specs).
  { intros names ([s names'] & -> & Hp)%list_elem_of_fmap. exists s. by apply h3, elem_of_dget. }
  assert (Hpos : 0 < n).
  { apply list_elem_of_fmap in Hin as (names & -> & Hnames'). destruct (Htype names Hnames') as (s & Hs & _).
    destruct names; [done|]. unfold py_len. cbn. lia. }
  apply mapM_Ok in Hg.
  assert (Hparts : concat (concat grouped) ≡ₚ concat (dvalues types) /\
    forall g, g ∈ concat grouped -> g <> [] /\ exists s, forall x, x ∈ g -> (x, s) ∈ specs).
  { clear Hr Hnames h2 h3 Hin. induction Hg as [|names l ts grouped Hl _ IH]; [split; [done | by intros g ?%elem_of_nil]|].
    destruct IH as [IH1 IH2]; [intros; apply Htype; by right|]. destruct (Htype names) as (s & Hs & Hall); [by left|].
    destruct (split_layers_ok _ _ _ Hpos Hs Hl) as (p1 & p2 & p3). cbn [concat]. rewrite concat_app. split; [by rewrite p1, IH1|].
    intros g [Hgin|Hgin]%elem_of_app; [|by apply IH2]. split; [by apply p2|]. exists s. intros x Hx. apply Hall. by eapply p3. }
  destruct Hparts as [p1 p2]. rewrite Hnames, p1, h2. split; [done|].
  intros g Hgin. apply p2. rewrite <- Hnames. by apply list_elem_of_fmap_2.
Qed.

(** ** Block sizes *)

Lemma attention_block_size s a : layer_attention s = Some a -> layer_block_size s = att_block_size a.
Proof. destruct s; cbn; congruence. Qed.

Lemma merge_block_size l s :
  merge l = Ok s -> existsb is_mla l = false -> forall x, x ∈ l -> layer_block_size x = layer_block_size s.
Proof.
  intros Hm Hmla x Hx. destruct l as [|s0 l]; [done|].
  assert (Hsame : (if forallb (fun s' => bool_decide (s' = s0)) l then Ok s0 else Raise AssertionError) = Ok s ->
    layer_block_size x = layer_block_size s).
  { destruct (forallb _ l) eqn:Hall; [|done]. intros [= <-]. apply elem_of_cons in Hx as [->|Hx]; [done|].
    rewrite forallb_forall in Hall. specialize (Hall x ltac:(by apply list_elem_of_In)). by apply bool_decide_eq_true in Hall as ->. }
  destruct s0; cbn [merge] in Hm; try (by apply Hsame).
  clear Hsame. unfold merge_full in Hm. inv_ok. apply attention_block_size.
  match goal with H : forallb (fun s => bool_decide (layer_attention s = Some a)) _ = true |- _ =>
    rewrite forallb_forall in H; specialize (H x ltac:(by apply list_elem_of_In)); by apply bool_decide_eq_true in H end.
Qed.

Lemma remove_dups_one (l : list Z) : py_len (remove_dups l) <= 1 -> forall x y, x ∈ l -> y ∈ l -> x = y.
Proof.
  intros Hl x y Hx%elem_of_remove_dups Hy%elem_of_remove_dups. unfold py_len in Hl.
  destruct (remove_dups l) as [|z [|z' l']]; [by apply elem_of_nil in Hx | | cbn in Hl; lia].
  apply list_elem_of_singleton in Hx as ->. by apply list_elem_of_singleton in Hy as ->.
Qed.

Lemma from_specs_ok specs s :
  from_specs specs = Ok (Some s) -> exists b, s = UniformTypeKVCacheSpecs b specs /\
    forall t, t ∈ dvalues specs -> layer_block_size t = b.
Proof.
  unfold from_specs. intros Hr. apply bind_Ok_inv in Hr as (u & Hu & Hr). destruct u; [|done].
  apply bind_Ok_inv in Hr as (one & Hone & [= <-]). apply or_raise_Ok in Hone.
  exists (layer_block_size one). split; [done|]. intros t Ht. unfold is_uniform_type in Hu.
  destruct (Z.ltb_spec 1 (py_len (remove_dups (layer_block_size <$> dvalues specs)))) as [|Hle]; [done|].
  apply (remove_dups_one _ Hle); apply list_elem_of_fmap_2; [done|]. destruct (dvalues specs); [done|].
  injection Hone as ->. by left.
Qed.

(** ** The groups of a model *)

Record grouping (specs : dict string LayerSpec) (groups : list KVCacheGroupSpec) : Prop := {
  gr_all : concat (layer_names <$> groups) ≡ₚ dkeys specs;
  gr_nonempty : forall g, g ∈ groups -> layer_names g <> [];
  gr_blocks : existsb is_mla (dvalues specs) = false -> forall g x, g ∈ groups -> x ∈ layer_names g ->
    exists t, dget x specs = Some t /\ layer_block_size t = spec_block_size (kv_cache_spec g);
  gr_uniform : forall g b per, g ∈ groups -> kv_cache_spec g = UniformTypeKVCacheSpecs b per ->
    groups = [g] /\ layer_names g = dkeys specs /\ per = specs;
}.

Lemma created_blocks specs gs groups :
  create_kv_cache_group_specs specs gs = Ok groups -> existsb is_mla (dvalues specs) = false ->
  forall g x, g ∈ groups -> x ∈ layer_names g ->
    exists t, dget x specs = Some t /\ layer_block_size t = spec_block_size (kv_cache_spec g).
Proof.
  intros Hr Hmla g x Hg Hx. destruct (create_merged _ _ _ _ Hr Hg) as (l & s & Hl & Hm & ->).
  apply list_elem_of_lookup in Hx as [i Hi]. destruct (Forall2_lookup_l _ _ _ _ _ Hl Hi) as (t & Ht & Hget).
  exists t. split; [done|]. apply (merge_block_size l s Hm); [|by eapply list_elem_of_lookup_2].
  apply not_true_is_false. intros He. apply existsb_exists in He as (y & Hy%list_elem_of_In & Hmy).
  apply list_elem_of_lookup in Hy as [j Hj]. destruct (Forall2_lookup_r _ _ _ _ _ Hl Hj) as (n & _ & Hn).
  apply not_true_iff_false in Hmla. apply Hmla, existsb_exists. exists y. split; [|done].
  apply list_elem_of_In, list_elem_of_fmap. exists (n, y). split; [done | by apply dget_elem_of].
Qed.

Section Groups.
Context (get_dtype_size : string -> Z).

Lemma created_grouping specs gs groups :
  create_kv_cache_group_specs specs gs = Ok groups -> concat gs ≡ₚ dkeys specs -> (forall g, g ∈ gs -> g <> []) ->
  grouping specs groups.
Proof.
  intros Hr Hp Hne. pose proof (create_names _ _ _ Hr) as Hn. split.
  - by rewrite Hn.
  - intros g Hg. apply Hne. rewrite <- Hn. by apply list_elem_of_fmap_2.
  - intros Hmla. by eapply created_blocks.
  - intros g b per Hg Hs. destruct (create_merged _ _ _ _ Hr Hg) as (l & s & _ & _ & He). congruence.
Qed.

Lemma plain_groups c specs groups :
  dict_ok specs -> disable_hybrid_kv_cache_manager c = false ->
  get_kv_cache_groups get_dtype_size c specs = Ok groups -> grouping specs groups.
Proof.
  intros Hd Hc Hr. unfold get_kv_cache_groups in Hr. rewrite Hc in Hr. cbn [mbind result_bind] in Hr.
  destruct specs as [|p specs0] eqn:Hspecs.
  { injection Hr as <-. split; [done | by intros ? ?%elem_of_nil | by intros _ ? ? ?%elem_of_nil | by intros ? ? ? ?%elem_of_nil]. }
  rewrite <- Hspecs in *. assert (Hne : specs <> []) by congruence. assert (Hkeys : dkeys specs <> []) by (subst specs; done).
  clear Hspecs p specs0. apply bind_Ok_inv in Hr as (u & _ & Hr). destruct u.
  { apply (created_grouping _ _ _ Hr); [cbn; by rewrite app_nil_r | by intros g ->%list_elem_of_singleton]. }
  apply bind_Ok_inv in Hr as (o & Ho & Hr). destruct o as [s|].
  - injection Hr as <-. destruct (from_specs_ok _ _ Ho) as (b & -> & Hb). split; cbn.
    + by rewrite app_nil_r.
    + by intros g ->%list_elem_of_singleton.
    + intros _ g x ->%list_elem_of_singleton Hx. cbn in *. apply dget_is_Some in Hx as [t Ht]. exists t. split; [done|].
      apply Hb, list_elem_of_fmap. exists (x, t). split; [done | by apply dget_elem_of].
    + intros g b' per ->%list_elem_of_singleton. cbn. by intros [= _ <-].
  - apply bind_Ok_inv in Hr as (v & _ & Hr). destruct v; [|done]. destruct (hybrid_groups_ok _ _ Hne Hr) as [Hp Hall].
    unfold groups_uniform_page_size in Hr. apply bind_Ok_inv in Hr as (n & _ & Hr). apply bind_Ok_inv in Hr as (grouped & _ & Hr).
    pose proof (create_names _ _ _ Hr) as Hn. apply (created_grouping _ _ _ Hr).
    + by rewrite <- Hn.
    + intros g Hg. rewrite <- Hn in Hg. apply list_elem_of_fmap in Hg as (k & -> & Hk). by apply Hall.
Qed.

(** Layers turned into full attention keep their names, blocks and pages. *)
Definition full_specs (specs : dict string LayerSpec) : dict string LayerSpec := prod_map id to_full <$> specs.

Lemma full_specs_keys specs : dkeys (full_specs specs) = dkeys specs.
Proof. unfold dkeys, full_specs. rewrite <- list_fmap_compose. done. Qed.

Lemma full_specs_get specs x : dget x (full_specs specs) = to_full <$> dget x specs.
Proof. induction specs as [|[y s] specs IH]; [done|]. cbn. by case_decide. Qed.

Lemma to_full_block_size s : layer_block_size (to_full s) = layer_block_size s.
Proof. by destruct s. Qed.

Lemma to_full_page_size s : page_size get_dtype_size (to_full s) = page_size get_dtype_size s.
Proof. by destruct s. Qed.

Lemma full_specs_mla specs : existsb is_mla (dvalues (full_specs specs)) = existsb is_mla (dvalues specs).
Proof. induction specs as [|[y s] specs IH]; [done|]. cbn. destruct s; cbn; done. Qed.

Lemma unify_ok specs specs' :
  unify_hybrid_kv_cache_specs specs = Ok specs' -> one_type specs' = Ok true /\ (specs' = specs \/ specs' = full_specs specs).
Proof.
  unfold unify_hybrid_kv_cache_specs. intros Hr. apply bind_Ok_inv in Hr as (b & Hb & Hr). destruct b; [by injection Hr as <-; auto|].
  apply bind_Ok_inv in Hr as (b & Hb' & Hr). destruct b; [|done]. injection Hr as <-. split; [done|].
  destruct (_ && _); [by right | by left].
Qed.

(** The groups are those of the dictionary after unification. *)
Lemma groups_of c specs groups :
  get_kv_cache_groups get_dtype_size c specs = Ok groups ->
  exists specs', get_kv_cache_groups get_dtype_size (c <| disable_hybrid_kv_cache_manager := false |>) specs' = Ok groups /\
    (specs' = specs \/ specs' = full_specs specs) /\ (disable_hybrid_kv_cache_manager c = true -> one_type specs' = Ok true).
Proof.
  unfold get_kv_cache_groups. intros Hr. apply bind_Ok_inv in Hr as (specs' & Hu & Hr). exists specs'.
  destruct (disable_hybrid_kv_cache_manager c).
  - apply unify_ok in Hu as [? ?]. done.
  - injection Hu as <-. split; [exact Hr|]. by split; [left|].
Qed.

Lemma one_type_groups c specs groups :
  disable_hybrid_kv_cache_manager c = false -> one_type specs = Ok true ->
  get_kv_cache_groups get_dtype_size c specs = Ok groups -> (length groups <= 1)%nat.
Proof.
  intros Hc Ho Hr. unfold get_kv_cache_groups in Hr. rewrite Hc in Hr. cbn [mbind result_bind] in Hr.
  destruct specs as [|p specs0] eqn:Hspecs; [by injection Hr as <-; cbn; lia|]. rewrite <- Hspecs in *. clear Hspecs.
  unfold one_type in Ho. destruct (is_kv_cache_spec_uniform specs) as [[]|e]; cbn [mbind result_bind] in Ho, Hr; [| |done].
  - apply create_names in Hr. apply (f_equal length) in Hr. rewrite length_fmap in Hr. rewrite Hr. cbn. lia.
  - unfold from_specs in Hr. rewrite Ho in Hr. cbn [mbind result_bind] in Hr.
    destruct (head (dvalues specs)); [|done]. cbn in Hr. injection Hr as <-. cbn. lia.
Qed.

Lemma group_facts c specs groups :
  dict_ok specs -> get_kv_cache_groups get_dtype_size c specs = Ok groups ->
  exists specs', grouping specs' groups /\ (specs' = specs \/ specs' = full_specs specs).
Proof.
  intros Hd Hr. destruct (groups_of _ _ _ Hr) as (specs' & Hr' & Hs & _). exists specs'. split; [|done].
  apply plain_groups in Hr'; [done | | done]. destruct Hs as [-> | ->]; [done|].
  unfold dict_ok. by rewrite full_specs_keys.
Qed.

(** Grouping the layers of a model: every layer is in exactly one group, no group is empty, and
    without MLA layers every layer of a group has blocks of the size the group's manager uses;
    when the hybrid cache manager is switched off there is one group, or none for a model
    without attention. *)
Theorem groups_partition_layers c specs groups :
  dict_ok specs -> get_kv_cache_groups get_dtype_size c specs = Ok groups ->
  concat (layer_names <$> groups) ≡ₚ dkeys specs /\ NoDup (concat (layer_names <$> groups)) /\
  (forall g, g ∈ groups -> layer_names g <> []) /\
  (existsb is_mla (dvalues specs) = false -> forall g x, g ∈ groups -> x ∈ layer_names g ->
     exists s, dget x specs = Some s /\ layer_block_size s = spec_block_size (kv_cache_spec g)) /\
  (disable_hybrid_kv_cache_manager c = true -> (length groups <= 1)%nat).
Proof.
  intros Hd Hr. destruct (group_facts _ _ _ Hd Hr) as (specs' & [h1 h2 h3 _] & Hs).
  assert (Hkeys : dkeys specs' = dkeys specs) by (destruct Hs as [-> | ->]; [done | apply full_specs_keys]).
  rewrite Hkeys in h1. split; [done|]. split; [by rewrite h1|]. split; [done|]. split.
  - intros Hmla g x Hg Hx. destruct Hs as [-> | ->]; [by apply (h3 Hmla g x)|].
    destruct (h3 ltac:(by rewrite full_specs_mla) g x Hg Hx) as (t & Ht & Hb). rewrite full_specs_get in Ht.
    destruct (dget x specs) as [s|]; [|done]. injection Ht as <-. exists s. by rewrite to_full_block_size in Hb.
  - intros Hdis. destruct (groups_of _ _ _ Hr) as (specs2 & Hr2 & _ & Ho). eapply one_type_groups; [|by apply Ho | exact Hr2]. done.
Qed.

End Groups.
