(* ===== verification/KVTensors.v ===== *)
(** * Tensors of the workers

    [get_kv_cache_configs] gives every worker the same number of blocks and places
    each of its layers in exactly one tensor that has a page per block, without
    exceeding the worker's memory and without putting two layers of one group into
    one tensor. *)

From S2P Require Import Prelude PyDict PyList PyInt KVSpec FreeQueue PyFloat Request KVHash BlockPool KVManagers KVCoordinator KVCacheManager KVConfig KVSizing KVGrouping.
#[local] Open Scope Z_scope.

(** ** Lists *)

Lemma concat_app_perm {A B} (f g : A -> list B) l :
  concat ((fun i => f i ++ g i) <$> l) ≡ₚ concat (f <$> l) ++ concat (g <$> l).
Proof.
  induction l as [|x l IH]; [done|]. cbn. rewrite IH. rewrite <- !(assoc_L (++)). apply Permutation_app_head.
  rewrite !(assoc_L (++)). apply Permutation_app_tail, Permutation_app_comm.
Qed.

Lemma omap_none {A B} (f : A -> option B) l : (forall x, x ∈ l -> f x = None) -> omap (M:=list) f l = [].
Proof. induction l as [|x l IH]; [done|]. intros Hall. cbn. rewrite (Hall x) by by left. apply IH. intros; apply Hall; by right. Qed.

Lemma concat_positions {A} (l : list A) m :
  py_len l <= m -> concat ((fun i => option_list (l !! Z.to_nat i)) <$> py_range 0 m) = l.
Proof.
  intros Hm. assert (Homap : forall js, concat ((fun i => option_list (l !! Z.to_nat i)) <$> js) = omap (M:=list) (fun i => l !! Z.to_nat i) js).
  { induction js as [|i js IH]; [done|]. cbn. destruct (l !! Z.to_nat i); cbn; by rewrite IH. }
  rewrite Homap. trans (omap (M:=list) (fun i => l !! Z.to_nat i) (py_range 0 (py_len l))); [|apply omap_positions].
  unfold py_range. rewrite !Z.sub_0_r.
  assert (Hl : 0 <= py_len l) by (unfold py_len; lia).
  replace m with (py_len l + (m - py_len l)) at 1 by lia. rewrite (seqZ_app 0) by lia. rewrite omap_app.
  rewrite (omap_none _ (seqZ (0 + _) _)); [apply app_nil_r|]. intros i [Hi1 Hi2]%elem_of_seqZ. apply lookup_ge_None. unfold py_len in *. lia.
Qed.

Lemma NoDup_concat_same {A} (ls : list (list A)) a b x :
  NoDup (concat ls) -> a ∈ ls -> b ∈ ls -> x ∈ a -> x ∈ b -> a = b.
Proof.
  induction ls as [|l ls IH]; [by intros _ ?%elem_of_nil|]. cbn. intros (_ & Hd & Hn)%NoDup_app.
  assert (Hcross : forall c, c ∈ ls -> x ∈ l -> x ∈ c -> False).
  { intros c Hc Hxl Hxc. apply (Hd x Hxl), elem_of_concat. by exists c. }
  intros [->|Ha]%elem_of_cons [->|Hb]%elem_of_cons Hxa Hxb; [done | | | by apply IH]; exfalso; by eapply Hcross.
Qed.

Lemma NoDup_subset_perm {A} (l k : list A) :
  NoDup l -> (forall x, x ∈ l -> x ∈ k) -> (length k <= length l)%nat -> l ≡ₚ k.
Proof. intros Hn Hsub Hlen. apply submseteq_length_Permutation; [by apply NoDup_submseteq | done]. Qed.

Lemma int_sum_const {A} (l : list A) n : int_sum ((fun _ => n) <$> l) = py_len l * n.
Proof. unfold py_len. induction l as [|x l IH]; [done|]. cbn [fmap list_fmap length]. rewrite int_sum_cons, IH. lia. Qed.

Lemma int_sum_sublist {A} (f : A -> Z) l k : l `sublist_of` k -> (forall x, x ∈ k -> 0 <= f x) -> int_sum (f <$> l) <= int_sum (f <$> k).
Proof.
  induction 1 as [|x l k _ IH|x l k _ IH]; intros Hall; [done| |]; cbn [fmap list_fmap]; rewrite !int_sum_cons.
  - specialize (IH ltac:(intros; apply Hall; by right)). lia.
  - specialize (IH ltac:(intros; apply Hall; by right)). specialize (Hall x ltac:(by left)). lia.
Qed.

Lemma int_sum_scale {A} (f : A -> Z) n l : int_sum ((fun x => f x * n) <$> l) = int_sum (f <$> l) * n.
Proof. induction l as [|x l IH]; [done|]. cbn [fmap list_fmap]. rewrite !int_sum_cons, IH. lia. Qed.

(** ** Sharing *)

Lemma shared_partition groups m :
  (forall g, g ∈ groups -> py_len (layer_names g) <= m) ->
  concat ((fun i => shared_at groups (Z.to_nat i)) <$> py_range 0 m) ≡ₚ concat (layer_names <$> groups).
Proof.
  induction groups as [|g groups IH]; intros Hall.
  - cbn. induction (py_range 0 m); [done | exact IHl].
  - assert (Hs : forall i, shared_at (g :: groups) i = option_list (layer_names g !! i) ++ shared_at groups i).
    { intros i. unfold shared_at. cbn. by destruct (layer_names g !! i). }
    trans (concat ((fun i => option_list (layer_names g !! Z.to_nat i) ++ shared_at groups (Z.to_nat i)) <$> py_range 0 m)).
    { apply reflexive_eq. f_equal. apply list_fmap_ext. intros i x _. apply Hs. }
    rewrite concat_app_perm, concat_positions by (apply Hall; by left). cbn. apply Permutation_app_head, IH.
    intros; apply Hall; by right.
Qed.

Lemma shared_position groups i g l :
  NoDup (concat (layer_names <$> groups)) -> g ∈ groups -> l ∈ layer_names g -> l ∈ shared_at groups i ->
  layer_names g !! i = Some l.
Proof.
  intros Hn Hg Hl (g' & Hg' & Hi)%list_elem_of_omap.
  assert (layer_names g = layer_names g') as ->; [|done].
  apply (NoDup_concat_same _ _ _ l Hn); [by apply list_elem_of_fmap_2 | by apply list_elem_of_fmap_2 | done |].
  by eapply list_elem_of_lookup_2.
Qed.

(** ** One worker *)

Section Worker.
Context (get_dtype_size : string -> Z).

(** Every layer is in one tensor, which has a page of the layer for every block, and
    no two layers of a group are in one tensor. *)
Record placed (specs : dict string LayerSpec) (k : KVCacheConfig) : Prop := {
  pl_all : concat (shared_by <$> kv_cache_tensors k) ≡ₚ dkeys specs;
  pl_size : forall t l, t ∈ kv_cache_tensors k -> l ∈ shared_by t ->
    exists s p, dget l specs = Some s /\ page_size get_dtype_size s = Ok p /\ tensor_size t = p * num_blocks k;
  pl_apart : forall g t l l', g ∈ kv_cache_groups k -> t ∈ kv_cache_tensors k -> l ∈ layer_names g -> l' ∈ layer_names g ->
    l ∈ shared_by t -> l' ∈ shared_by t -> l = l';
  pl_nonneg : forall t, t ∈ kv_cache_tensors k -> 0 <= tensor_size t;
}.

Definition total_size (k : KVCacheConfig) : Z := int_sum (tensor_size <$> kv_cache_tensors k).

Lemma uniform_pages specs p :
  get_uniform_page_size get_dtype_size specs = Ok p -> forall s, s ∈ dvalues specs -> page_size get_dtype_size s = Ok p.
Proof.
  unfold get_uniform_page_size, page_sizes. intros Hr s Hs. apply bind_Ok_inv in Hr as (l & Hl & Hr).
  apply bind_Ok_inv in Hl as (ps & Hps & [= <-]). apply mapM_Ok in Hps. destruct (remove_dups ps) as [|x [|]] eqn:Hd; try done.
  injection Hr as ->. apply list_elem_of_lookup in Hs as [i Hi]. destruct (Forall2_lookup_l _ _ _ _ _ Hps Hi) as (q & Hq & Hpage).
  rewrite Hpage. f_equal. apply list_elem_of_singleton. rewrite <- Hd. by apply elem_of_remove_dups; eapply list_elem_of_lookup_2.
Qed.

(** The general case: tensors shared across groups. *)
Lemma shared_config_ok c groups specs available k :
  num_gpu_blocks_override c = None -> 0 <= available -> sane_specs get_dtype_size specs ->
  concat (layer_names <$> groups) ≡ₚ dkeys specs -> dict_ok specs ->
  shared_config get_dtype_size c groups specs available = Ok k ->
  placed specs k /\ kv_cache_groups k = groups /\ 0 <= num_blocks k /\ total_size k <= available /\
  exists size m, get_uniform_page_size get_dtype_size specs = Ok size /\ py_max ((fun g => py_len (layer_names g)) <$> groups) = Ok m /\
    0 < m /\ 0 < size /\ num_blocks k = available / size / m.
Proof.
  intros Hc Hav Hsane Hp Hd Hr. unfold shared_config in Hr.
  apply bind_Ok_inv in Hr as (m & Hm & Hr). apply bind_Ok_inv in Hr as (size & Hsize & Hr).
  apply bind_Ok_inv in Hr as (u & Hpos & Hr). apply py_assert_Ok, Z.ltb_lt in Hpos.
  apply bind_Ok_inv in Hr as (n & Hn & [= <-]). pose proof (uniform_pages _ _ Hsize) as Hpages.
  unfold get_num_blocks in Hn. apply bind_Ok_inv in Hn as (q & Hq & Hn). apply bind_Ok_inv in Hn as (n' & Hn' & Hn).
  unfold may_override_num_blocks in Hn. rewrite Hc in Hn. cbn in Hn. injection Hn as Hn.
  assert (Hs0 : size <> 0) by (intros ->; done). rewrite py_floordiv_ok in Hq by done. injection Hq as <-.
  rewrite py_floordiv_ok in Hn' by lia. injection Hn' as <-.
  destruct (py_max_spec _ _ Hm) as [Hin Hall]. rewrite Forall_fmap, Forall_forall in Hall.
  assert (Hspos : 0 < size).
  { assert (Hne : dvalues specs <> []).
    { intros He. assert (Hk : dkeys specs = []) by (destruct specs; [done | by inversion He]). rewrite Hk in Hp.
      apply list_elem_of_fmap in Hin as (g & -> & Hg). apply Permutation_nil_r in Hp.
      assert (layer_names g = []); [|unfold py_len in Hpos; rewrite H in Hpos; cbn in Hpos; lia].
      destruct (layer_names g) as [|x l] eqn:Hl; [done|]. assert (Hx : x ∈ concat (layer_names <$> groups)).
      { apply elem_of_concat. exists (layer_names g). rewrite Hl. split; [by left|]. rewrite <- Hl. by apply list_elem_of_fmap_2. }
      rewrite Hp in Hx. by apply elem_of_nil in Hx. }
    destruct (dvalues specs) as [|s l] eqn:Hv; [done|]. unfold sane_specs in Hsane. rewrite Hv in Hsane.
    apply Forall_cons in Hsane as [[_ (p & Hpg & Hp0)] _]. rewrite (Hpages s) in Hpg by by left. injection Hpg as <-. lia. }
  assert (Hq0 : 0 <= available / size / m) by (apply Z.div_pos; [by apply Z.div_pos|done]).
  rewrite Z.max_l in Hn by done. subst n. split; [|split; [done|split; [done|split; [|by exists size, m]]]].
  - split; cbn [kv_cache_tensors kv_cache_groups num_blocks].
    + rewrite <- list_fmap_compose. unfold compose. cbn [shared_by]. rewrite shared_partition; [done|]. intros g Hg. by apply Hall.
    + intros t l (i & -> & Hi)%list_elem_of_fmap Hl. cbn in *.
      assert (Hk : l ∈ dkeys specs).
      { rewrite <- Hp. apply list_elem_of_omap in Hl as (g & Hg & Hgi). apply elem_of_concat. exists (layer_names g).
        split; [by eapply list_elem_of_lookup_2 | by apply list_elem_of_fmap_2]. }
      apply dget_is_Some in Hk as [s Hs]. exists s, size. split; [done|]. split; [|done]. apply Hpages.
      apply list_elem_of_fmap. exists (l, s). split; [done | by apply dget_elem_of].
    + intros g t l l' Hg (i & -> & Hi)%list_elem_of_fmap Hl Hl' Hs Hs'. cbn in *.
      assert (Hnd : NoDup (concat (layer_names <$> groups))) by by rewrite Hp.
      pose proof (shared_position _ _ _ _ Hnd Hg Hl Hs). pose proof (shared_position _ _ _ _ Hnd Hg Hl' Hs'). congruence.
    + intros t (i & -> & _)%list_elem_of_fmap. cbn. nia.
  - unfold total_size. cbn [kv_cache_tensors]. rewrite <- list_fmap_compose. unfold compose. cbn [tensor_size].
    rewrite int_sum_const. unfold py_len, py_range. rewrite length_seqZ.
    pose proof (Z.mul_div_le available size Hspos). pose proof (Z.mul_div_le (available / size) m Hpos). nia.
Qed.

(** A layer's page, zero for a name that has none. *)
Definition page_of (specs : dict string LayerSpec) (x : string) : Z :=
  match dget x specs with
  | Some s => match page_size get_dtype_size s with Ok p => p | Raise _ => 0 end
  | None => 0
  end.

Lemma page_of_get specs x s p : dget x specs = Some s -> page_size get_dtype_size s = Ok p -> page_of specs x = p.
Proof. intros Hs Hp. unfold page_of. by rewrite Hs, Hp. Qed.

Lemma page_of_nonneg specs x : sane_specs get_dtype_size specs -> 0 <= page_of specs x.
Proof.
  intros Hs. unfold page_of. destruct (dget x specs) as [s|] eqn:Hx; [|done].
  unfold sane_specs in Hs. rewrite Forall_forall in Hs. destruct (Hs s) as [_ (p & -> & ?)]; [|done].
  apply list_elem_of_fmap. exists (x, s). split; [done | by apply dget_elem_of].
Qed.

Lemma group_page_sum b per size :
  dict_ok per -> group_page_size_bytes get_dtype_size (UniformTypeKVCacheSpecs b per) = Ok size ->
  size = int_sum (page_of per <$> dkeys per).
Proof.
  intros Hd Hr. cbn in Hr. apply bind_Ok_inv in Hr as (ps & Hps & [= <-]). f_equal. apply mapM_Ok in Hps.
  assert (Hgen : forall l, (forall p, p ∈ l -> dget p.1 per = Some p.2) ->
    forall ps, Forall2 (fun s p => page_size_bytes get_dtype_size s = Ok p) l.*2 ps -> ps = page_of per <$> l.*1).
  { induction l as [|[x s] l IH]; intros Hl qs Hqs; [by apply Forall2_nil_inv_l in Hqs|].
    cbn in Hqs. apply Forall2_cons_inv_l in Hqs as (q & qs' & Hq & Hqs & ->). cbn. f_equal.
    - symmetry. apply (page_of_get _ _ s); [apply (Hl (x, s)); by left | done].
    - apply IH; [|done]. intros; apply Hl; by right. }
  apply (Hgen per); [|exact Hps]. intros [x s] Hin. by apply elem_of_dget.
Qed.

(** One group of layers of one type, possibly fewer than the group has in the whole model. *)
Lemma uniform_config_ok c groups g b per specs available k :
  num_gpu_blocks_override c = None -> 0 <= available -> dict_ok per -> sane_specs get_dtype_size per ->
  groups = [g] -> kv_cache_spec g = UniformTypeKVCacheSpecs b per ->
  layer_names g `sublist_of` dkeys per -> layer_names g ≡ₚ dkeys specs ->
  (forall x s, x ∈ layer_names g -> dget x per = Some s -> exists s0, dget x specs = Some s0 /\
     page_size get_dtype_size s0 = page_size get_dtype_size s) ->
  uniform_type_config get_dtype_size c groups g per available = Ok k ->
  placed specs k /\ kv_cache_groups k = groups /\ 0 <= num_blocks k /\ total_size k <= available.
Proof.
  intros Hc Hav Hd Hsane -> Hg Hsub Hp Hsame Hr. unfold uniform_type_config in Hr. rewrite Hg in Hr.
  apply bind_Ok_inv in Hr as (size & Hsize & Hr). apply group_page_sum in Hsize; [|done].
  apply bind_Ok_inv in Hr as (q & Hq & Hr). apply bind_Ok_inv in Hr as (ts & Hts & [= <-]).
  assert (Hs0 : size <> 0) by (intros ->; done). rewrite py_floordiv_ok in Hq by done. injection Hq as <-.
  assert (Hsz : 0 <= size).
  { rewrite Hsize. apply int_sum_nonneg. apply Forall_fmap, Forall_forall. intros x _. by apply page_of_nonneg. }
  unfold may_override_num_blocks in *. rewrite Hc in *. cbn [default] in *. set (n := available / size) in *.
  assert (Hn : 0 <= n) by (apply Z.div_pos; lia).
  assert (Htensor : Forall2 (fun x t => t = {| tensor_size := page_of per x * n; shared_by := [x] |} /\
    exists s0 p, dget x specs = Some s0 /\ page_size get_dtype_size s0 = Ok p /\ page_of per x = p) (layer_names g) ts).
  { apply mapM_Ok in Hts. apply Forall2_same_length_lookup. split; [by apply Forall2_length in Hts|].
    intros i x t Hx Ht. pose proof (Forall2_lookup_lr _ _ _ _ _ _ Hts Hx Ht) as Hone. cbn beta in Hone.
    apply bind_Ok_inv in Hone as (s & Hs & Hone). apply or_raise_Ok in Hs. apply bind_Ok_inv in Hone as (p & Hpg & [= <-]).
    rewrite (page_of_get per x s p Hs Hpg). split; [done|].
    destruct (Hsame x s) as (s0 & Hs0' & Heq); [by eapply list_elem_of_lookup_2 | done|]. exists s0, p. by rewrite Heq. }
  assert (Hshared : shared_by <$> ts = (fun x => [x]) <$> layer_names g).
  { clear -Htensor. induction Htensor as [|x t l ts [-> _] _ IH]; [done|]. cbn. by rewrite IH. }
  assert (Hsizes : tensor_size <$> ts = (fun x => page_of per x * n) <$> layer_names g).
  { clear -Htensor. induction Htensor as [|x t l ts [-> _] _ IH]; [done|]. cbn. by rewrite IH. }
  split; [|split; [done|split; [exact Hn|]]].
  - split; cbn [kv_cache_tensors kv_cache_groups num_blocks].
    + rewrite Hshared. rewrite <- Hp. clear. induction (layer_names g) as [|x l IH]; [done|]. cbn. by rewrite IH.
    + intros t l Ht Hl. apply list_elem_of_lookup in Ht as [i Hi]. destruct (Forall2_lookup_r _ _ _ _ _ Htensor Hi) as (x & Hx & -> & s0 & p & h1 & h2 & h3).
      cbn in Hl. apply list_elem_of_singleton in Hl as ->. exists s0, p. split; [done|]. split; [done|]. cbn. by rewrite h3.
    + intros g' t l l' _ Ht _ _ Hl Hl'. apply list_elem_of_lookup in Ht as [i Hi].
      destruct (Forall2_lookup_r _ _ _ _ _ Htensor Hi) as (x & _ & -> & _). cbn in Hl, Hl'.
      apply list_elem_of_singleton in Hl as ->. by apply list_elem_of_singleton in Hl'.
    + intros t Ht. apply list_elem_of_lookup in Ht as [i Hi]. destruct (Forall2_lookup_r _ _ _ _ _ Htensor Hi) as (x & _ & -> & _).
      cbn. pose proof (page_of_nonneg per x Hsane). nia.
  - unfold total_size. cbn [kv_cache_tensors]. rewrite Hsizes, int_sum_scale.
    assert (Hle : int_sum (page_of per <$> layer_names g) <= size).
    { rewrite Hsize. apply int_sum_sublist; [done|]. intros x _. by apply page_of_nonneg. }
    pose proof (Z.mul_div_le available size ltac:(lia)). fold n in H. nia.
Qed.

(** Whichever case applies. *)
Lemma from_groups_ok c groups specs available k :
  num_gpu_blocks_override c = None -> 0 <= available -> dict_ok specs -> sane_specs get_dtype_size specs ->
  concat (layer_names <$> groups) ≡ₚ dkeys specs ->
  (forall g b per, g ∈ groups -> kv_cache_spec g = UniformTypeKVCacheSpecs b per ->
     groups = [g] /\ layer_names g `sublist_of` dkeys per /\ dict_ok per /\ sane_specs get_dtype_size per /\
     forall x s, x ∈ layer_names g -> dget x per = Some s -> exists s0, dget x specs = Some s0 /\
       page_size get_dtype_size s0 = page_size get_dtype_size s) ->
  get_kv_cache_config_from_groups get_dtype_size c groups specs available = Ok k ->
  placed specs k /\ kv_cache_groups k = groups /\ 0 <= num_blocks k /\ total_size k <= available.
Proof.
  intros Hc Hav Hd Hsane Hp Huni Hr.
  assert (Hshared : shared_config get_dtype_size c groups specs available = Ok k ->
    placed specs k /\ kv_cache_groups k = groups /\ 0 <= num_blocks k /\ total_size k <= available).
  { intros Hs. by destruct (shared_config_ok _ _ _ _ _ Hc Hav Hsane Hp Hd Hs) as (h1 & h2 & h3 & h4 & _). }
  unfold get_kv_cache_config_from_groups in Hr.
  destruct groups as [|[names [s|b per]] [|g2 groups]]; try by apply Hshared.
  - injection Hr as <-. cbn in Hp. split; [|done]. split; cbn; [done | by intros ? ? ?%elem_of_nil | by intros ? ? ? ? ?%elem_of_nil | by intros ? ?%elem_of_nil].
  - destruct (Huni {| layer_names := names; kv_cache_spec := UniformTypeKVCacheSpecs b per |} b per) as (_ & h1 & h2 & h3 & h4);
      [by left | done|]. cbn in Hp. rewrite app_nil_r in Hp.
    eapply uniform_config_ok; [exact Hc | exact Hav | exact h2 | exact h3 | reflexivity | reflexivity | exact h1 | exact Hp | exact h4 | exact Hr].
Qed.

(** ** All workers *)

Lemma merge_layers_ok l merged merged' :
  for_each merge_layer l merged = Ok merged' -> dict_ok merged ->
  dict_ok merged' /\ (forall x s, dget x merged = Some s -> dget x merged' = Some s) /\
  (forall p, p ∈ l -> dget p.1 merged' = Some p.2) /\
  forall x s, dget x merged' = Some s -> dget x merged = Some s \/ (x, s) ∈ l.
Proof.
  revert merged. induction l as [|[x s] l IH]; intros merged Hr Hd; cbn in Hr.
  { injection Hr as <-. split; [done|]. split; [done|]. split; [by intros ? ?%elem_of_nil|]. by left. }
  apply bind_Ok_inv in Hr as (m1 & H1 & Hr).
  assert (Hone : dict_ok m1 /\ (forall y t, dget y merged = Some t -> dget y m1 = Some t) /\ dget x m1 = Some s /\
    forall y t, dget y m1 = Some t -> dget y merged = Some t \/ (y = x /\ t = s)).
  { unfold merge_layer in H1. cbn in H1. destruct (dget x merged) as [s0|] eqn:Hx.
    - apply bind_Ok_inv in H1 as (u & Hu & [= <-]). apply py_assert_Ok, bool_decide_eq_true in Hu as ->. auto.
    - injection H1 as <-. split; [by apply dict_ok_dset|]. split; [|split; [apply dget_dset_eq|]].
      + intros y t Hy. rewrite dget_dset_ne; [done | congruence].
      + intros y t. rewrite dget_dset. case_decide; [intros [= <-]; by right | by left]. }
  destruct Hone as (a1 & a2 & a3 & a4). destruct (IH m1 Hr a1) as (b1 & b2 & b3 & b4). split; [done|]. split; [auto|]. split.
  - intros p [->|Hp]%elem_of_cons; [by apply b2 | by apply b3].
  - intros y t [Hy|Hy]%b4; [|right; by right]. destruct (a4 y t Hy) as [?|[-> ->]]; [by left | right; by left].
Qed.

Lemma merge_workers_ok workers merged :
  merge_workers workers = Ok merged ->
  dict_ok merged /\ (forall w x s, w ∈ workers -> (x, s) ∈ w -> dget x merged = Some s) /\
  forall x s, dget x merged = Some s -> exists w, w ∈ workers /\ (x, s) ∈ w.
Proof.
  unfold merge_workers. assert (Hgen : forall ws m m', for_each (fun w merged => for_each merge_layer w merged) ws m = Ok m' -> dict_ok m ->
    dict_ok m' /\ (forall x s, dget x m = Some s -> dget x m' = Some s) /\
    (forall w x s, w ∈ ws -> (x, s) ∈ w -> dget x m' = Some s) /\
    forall x s, dget x m' = Some s -> dget x m = Some s \/ exists w, w ∈ ws /\ (x, s) ∈ w).
  { induction ws as [|w ws IH]; intros m m' Hr Hd; cbn in Hr.
    { injection Hr as <-. split; [done|]. split; [done|]. split; [by intros ? ? ? ?%elem_of_nil|]. by left. }
    apply bind_Ok_inv in Hr as (m1 & H1 & Hr). destruct (merge_layers_ok _ _ _ H1 Hd) as (a1 & a2 & a3 & a4).
    destruct (IH m1 m' Hr a1) as (b1 & b2 & b3 & b4). split; [done|]. split; [auto|]. split.
    - intros w' x s [->|Hw]%elem_of_cons Hx; [apply b2; by apply (a3 (x, s)) | by apply (b3 w')].
    - intros x s [Hx|(w' & Hw & Hx)]%b4; [|right; exists w'; split; [by right | done]].
      destruct (a4 x s Hx) as [?|?]; [by left|]. right. exists w. split; [by left | done]. }
  intros Hr. destruct (Hgen _ _ _ Hr dict_ok_nil) as (h1 & _ & h3 & h4). split; [done|]. split; [done|].
  intros x s [?|?]%h4; [done | done].
Qed.

Lemma worker_names specs groups :
  concat (layer_names <$> (worker_group specs <$> groups)) = List.filter (fun n => dmem n specs) (concat (layer_names <$> groups)).
Proof. induction groups as [|g groups IH]; [done|]. cbn. by rewrite IH, List.filter_app. Qed.

Lemma group_lengths groups : int_sum ((fun g => py_len (layer_names g)) <$> groups) = py_len (concat (layer_names <$> groups)).
Proof.
  unfold py_len. induction groups as [|g groups IH]; [done|]. cbn [fmap list_fmap concat]. rewrite int_sum_cons, IH, length_app. lia.
Qed.

Lemma full_specs_sane specs : sane_specs get_dtype_size specs -> sane_specs get_dtype_size (full_specs specs).
Proof.
  unfold sane_specs. rewrite !Forall_forall. intros Hall s (p & -> & (q & -> & Hq)%list_elem_of_fmap)%list_elem_of_fmap.
  change ((prod_map id to_full q).2) with (to_full q.2).
  destruct (Hall q.2) as [h1 h2]; [by apply list_elem_of_fmap_2|].
  split; [by rewrite to_full_block_size | by rewrite to_full_page_size].
Qed.

(** A worker's tensors, given the groups of the merged layers. *)
Lemma worker_config_ok c merged groups specs available k :
  num_gpu_blocks_override c = None -> 0 <= available -> dict_ok specs -> dict_ok merged ->
  sane_specs get_dtype_size merged -> (forall x s, (x, s) ∈ specs -> dget x merged = Some s) ->
  get_kv_cache_groups get_dtype_size c merged = Ok groups ->
  worker_config get_dtype_size c groups (specs, available) = Ok k ->
  placed specs k /\ kv_cache_groups k = worker_group specs <$> groups /\ 0 <= num_blocks k /\ total_size k <= available.
Proof.
  intros Hc Hav Hd Hdm Hsane Hsub Hg Hr. unfold worker_config in Hr. apply bind_Ok_inv in Hr as (u & Hu & Hr).
  apply py_assert_Ok, Z.eqb_eq in Hu. rewrite group_lengths, worker_names in Hu.
  destruct (group_facts _ _ _ _ Hdm Hg) as (merged' & [g1 g2 _ g4] & Hm').
  assert (Hkeys : dkeys merged' = dkeys merged) by (destruct Hm' as [-> | ->]; [done | apply full_specs_keys]).
  assert (Hdm' : dict_ok merged') by (unfold dict_ok; by rewrite Hkeys).
  assert (Hsane' : sane_specs get_dtype_size merged') by (destruct Hm' as [-> | ->]; [done | by apply full_specs_sane]).
  assert (Hnames : List.filter (fun n => dmem n specs) (concat (layer_names <$> groups)) ≡ₚ dkeys specs).
  { apply NoDup_subset_perm.
    - apply bfilter_NoDup. by rewrite g1, Hkeys.
    - intros x [Hx _]%elem_of_list_bfilter. by apply dget_is_Some, dmem_true.
    - unfold py_len in Hu. unfold dkeys. rewrite length_fmap. lia. }
  assert (Hspecs : sane_specs get_dtype_size specs).
  { unfold sane_specs in *. rewrite Forall_forall in *. intros s ([x s'] & -> & Hin)%list_elem_of_fmap. apply Hsane, list_elem_of_fmap.
    exists (x, s'). split; [done|]. apply dget_elem_of. by apply Hsub. }
  apply (from_groups_ok c (worker_group specs <$> groups) specs available k); try done.
  - by rewrite worker_names.
  - intros g b per (g0 & -> & Hg0)%list_elem_of_fmap Hs. cbn in Hs. destruct (g4 g0 b per Hg0 Hs) as (-> & Hn & ->).
    split; [done|]. cbn [worker_group layer_names]. rewrite Hn. split; [apply bfilter_sublist|]. split; [done|]. split; [done|].
    intros x s Hx Hxs. apply elem_of_list_bfilter in Hx as [Hx _]. apply dmem_true in Hx as [s0 Hs0]. exists s0. split; [done|].
    pose proof (Hsub x s0 (dget_elem_of _ _ _ Hs0)) as Hms. destruct Hm' as [-> | ->]; [congruence|].
    rewrite full_specs_get, Hms in Hxs. injection Hxs as <-. by rewrite to_full_page_size.
Qed.

Lemma shrink_ok c m k k' specs :
  shrink_config get_dtype_size c m k = Ok k' -> placed specs k -> 0 <= m <= num_blocks k ->
  placed specs k' /\ num_blocks k' = m /\ kv_cache_groups k' = kv_cache_groups k /\ total_size k' <= total_size k.
Proof.
  intros Hr [h1 h2 h3 h4] Hm. unfold shrink_config in Hr. apply bind_Ok_inv in Hr as (ts & Hts & Hr). apply mapM_Ok in Hts.
  assert (Hk : k' = k <| num_blocks := m |> <| kv_cache_tensors := ts |>).
  { cbn [kv_cache_groups] in Hr. destruct (kv_cache_groups _); [by injection Hr | by apply bind_Ok_inv in Hr as (u & _ & [= <-])]. }
  clear Hr. subst k'.
  assert (Hone : Forall2 (fun t t' => shared_by t' = shared_by t /\ 0 <= tensor_size t' <= tensor_size t /\
    forall p, tensor_size t = p * num_blocks k -> tensor_size t' = p * m) (kv_cache_tensors k) ts).
  { apply Forall2_same_length_lookup. split; [by apply Forall2_length in Hts|]. intros i t t' Ht Ht'.
    pose proof (Forall2_lookup_lr _ _ _ _ _ _ Hts Ht Ht') as Hs. cbn beta in Hs. unfold shrink_tensor in Hs.
    apply bind_Ok_inv in Hs as (r & Hrem & Hs). apply bind_Ok_inv in Hs as (u & Hz & [= <-]). apply py_assert_Ok, Z.eqb_eq in Hz. subst r.
    assert (Hold : num_blocks k <> 0) by (intros Hz; unfold py_mod in Hrem; by rewrite Hz in Hrem).
    rewrite py_mod_ok in Hrem by done. injection Hrem as Hrem. pose proof (Z.div_mod (tensor_size t) (num_blocks k) Hold) as Hdiv.
    specialize (h4 t ltac:(by eapply list_elem_of_lookup_2)). cbn. split; [done|]. split.
    - assert (0 <= tensor_size t / num_blocks k) by (apply Z.div_pos; lia). nia.
    - intros p Hp. rewrite Hp, Z.div_mul by done. done. }
  assert (Hshared : shared_by <$> ts = shared_by <$> kv_cache_tensors k).
  { clear -Hone. induction Hone as [|t t' l l' (Ht & _) _ IH]; [done|]. cbn. by rewrite IH, Ht. }
  assert (Hback : forall t', t' ∈ ts -> exists t, t ∈ kv_cache_tensors k /\ shared_by t' = shared_by t /\ 0 <= tensor_size t' /\
    forall p, tensor_size t = p * num_blocks k -> tensor_size t' = p * m).
  { intros t' [i Hi]%list_elem_of_lookup. destruct (Forall2_lookup_r _ _ _ _ _ Hone Hi) as (t & Ht & a1 & a2 & a3).
    exists t. split; [by eapply list_elem_of_lookup_2|]. split; [done|]. by split; [lia|]. }
  split; [|split; [done|split; [done|]]].
  - split; cbn.
    + by rewrite Hshared.
    + intros t' l Ht' Hl. destruct (Hback t' Ht') as (t & Ht & Hs & _ & Hp). rewrite Hs in Hl.
      destruct (h2 t l Ht Hl) as (s & p & a1 & a2 & a3). exists s, p. auto.
    + intros g t' l l' Hg Ht' Hl1 Hl2 Hs1 Hs2. destruct (Hback t' Ht') as (t & Ht & Hs & _). rewrite Hs in Hs1, Hs2. by apply (h3 g t).
    + intros t' Ht'. by destruct (Hback t' Ht') as (t & _ & _ & ? & _).
  - unfold total_size. cbn. clear -Hone. induction Hone as [|t t' l l' (_ & Hle & _) _ IH]; [done|]. rewrite !fmap_cons, !int_sum_cons. unfold int_sum in *. lia.
Qed.

End Worker.

(** ** The configurations of all workers *)

Section Workers.
Context (get_dtype_size : string -> Z).

Lemma lookup_combine {A B} (l : list A) (k : list B) i x y : l !! i = Some x -> k !! i = Some y -> combine l k !! i = Some (x, y).
Proof. revert k i. induction l as [|a l IH]; intros [|b k] [|i]; cbn; try done; [congruence | apply IH]. Qed.

(** A worker with layers was given memory that holds a longest request. *)
Lemma check_ok c specs available :
  check_enough_kv_cache_memory get_dtype_size c specs available = Ok tt -> specs <> [] ->
  0 < available /\ exists m, max_memory_usage_bytes get_dtype_size c (layers specs) = Ok m /\ m <= available.
Proof.
  unfold check_enough_kv_cache_memory. intros Hr Hne. destruct specs as [|p specs0] eqn:Hs; [done|]. rewrite <- Hs in *. clear Hne Hs.
  destruct (Z.leb_spec available 0); [done|]. apply bind_Ok_inv in Hr as (m & Hm & Hr).
  destruct (Z.ltb_spec available m); [by apply bind_Ok_inv in Hr as (u & _ & ?)|]. split; [done|]. by exists m.
Qed.

(** The steps of a successful call. *)
Lemma configs_steps c workers memory configs :
  length workers = length memory -> get_kv_cache_configs get_dtype_size c workers memory = Ok configs ->
  exists merged groups firsts n,
    merge_workers workers = Ok merged /\ get_kv_cache_groups get_dtype_size c merged = Ok groups /\
    py_min (num_blocks <$> firsts) = Ok n /\ length firsts = length workers /\ length configs = length workers /\
    forall i specs available k, workers !! i = Some specs -> memory !! i = Some available -> configs !! i = Some k ->
      check_enough_kv_cache_memory get_dtype_size c specs available = Ok tt /\
      exists k0, firsts !! i = Some k0 /\ worker_config get_dtype_size c groups (specs, available) = Ok k0 /\
        shrink_config get_dtype_size c n k0 = Ok k.
Proof.
  intros Hlen Hr. unfold get_kv_cache_configs in Hr. apply bind_Ok_inv in Hr as (checks & Hchk & Hr).
  apply bind_Ok_inv in Hr as (merged & Hm & Hr). apply bind_Ok_inv in Hr as (groups & Hg & Hr).
  apply bind_Ok_inv in Hr as (firsts & Hf & Hr). apply bind_Ok_inv in Hr as (n & Hn & Hr).
  apply mapM_Ok in Hchk, Hf, Hr. assert (Hl : length (combine workers memory) = length workers) by (rewrite length_combine; lia).
  pose proof (Forall2_length _ _ _ Hf) as Hlf. pose proof (Forall2_length _ _ _ Hr) as Hlr.
  exists merged, groups, firsts, n. split; [done|]. split; [done|]. split; [done|]. split; [lia|]. split; [lia|].
  intros i specs available k Hi Hj Hk. pose proof (lookup_combine _ _ _ _ _ Hi Hj) as Hp.
  destruct (Forall2_lookup_l _ _ _ _ _ Hchk Hp) as ([] & _ & Hok). split; [exact Hok|].
  destruct (Forall2_lookup_l _ _ _ _ _ Hf Hp) as (k0 & Hk0 & Hw). exists k0. split; [done|]. split; [exact Hw|].
  pose proof (Forall2_lookup_lr _ _ _ _ _ _ Hr Hk0 Hk). done.
Qed.

Lemma merged_sane workers merged :
  merge_workers workers = Ok merged -> Forall (sane_specs get_dtype_size) workers -> sane_specs get_dtype_size merged.
Proof.
  intros Hm Hs. destruct (merge_workers_ok _ _ Hm) as (Hd & _ & Hback).
  unfold sane_specs. apply Forall_forall. intros s ([x s'] & -> & Hin)%list_elem_of_fmap. apply elem_of_dget in Hin; [|done].
  destruct (Hback x s' Hin) as (w & Hw & Hx). rewrite Forall_forall in Hs. specialize (Hs w Hw). unfold sane_specs in Hs.
  rewrite Forall_forall in Hs. apply Hs. by apply (list_elem_of_fmap_2 snd _ (x, s')).
Qed.

(** C22: The configurations of the workers: when the call returns, without an override of the number
    of blocks, there is one configuration per worker and all have the same number of blocks; each
    layer of a worker is in exactly one of its tensors, which has one page of that layer for
    every block; no two layers of a group, which use the same block ids, share a tensor; and
    the tensors fit into the worker's memory. *)
Theorem worker_configs_fit c workers memory configs :
  num_gpu_blocks_override c = None -> length workers = length memory ->
  Forall dict_ok workers -> Forall (sane_specs get_dtype_size) workers -> Forall (Z.le 0) memory ->
  get_kv_cache_configs get_dtype_size c workers memory = Ok configs ->
  length configs = length workers /\ exists n, 0 <= n /\
    forall i specs available k, workers !! i = Some specs -> memory !! i = Some available -> configs !! i = Some k ->
      num_blocks k = n /\ placed get_dtype_size specs k /\ total_size k <= available.
Proof.
  intros Hc Hlen Hd Hs Hmem Hr. destruct (configs_steps _ _ _ _ Hlen Hr) as (merged & groups & firsts & n & Hm & Hg & Hn & Hlf & Hlc & Hall).
  split; [done|]. destruct (merge_workers_ok _ _ Hm) as (Hdm & Hsub & _). pose proof (merged_sane _ _ Hm Hs) as Hsane.
  destruct (py_min_spec _ _ Hn) as [Hin Hmin]. rewrite Forall_fmap, Forall_forall in Hmin. rewrite Forall_forall in Hd. rewrite Forall_forall in Hmem.
  assert (Hfirst : forall i k0, firsts !! i = Some k0 -> exists specs available, workers !! i = Some specs /\ memory !! i = Some available /\
    placed get_dtype_size specs k0 /\ 0 <= num_blocks k0 /\ total_size k0 <= available).
  { intros i k0 Hk0. assert (Hi : (i < length workers)%nat) by (apply lookup_lt_Some in Hk0; lia).
    destruct (lookup_lt_is_Some_2 workers i Hi) as [specs Hw]. destruct (lookup_lt_is_Some_2 memory i ltac:(lia)) as [available Ha].
    destruct (lookup_lt_is_Some_2 configs i ltac:(lia)) as [k Hk]. exists specs, available.
    destruct (Hall i specs available k Hw Ha Hk) as (_ & k0' & Hk0' & Hcfg & _). simplify_eq.
    split; [done|]. split; [done|]. apply (worker_config_ok _ c merged groups) in Hcfg as (h1 & _ & h2 & h3); try done.
    - apply Hmem. by eapply list_elem_of_lookup_2.
    - apply Hd. by eapply list_elem_of_lookup_2.
    - intros x s Hx. apply (Hsub specs); [by eapply list_elem_of_lookup_2 | done]. }
  exists n. split.
  - apply list_elem_of_fmap in Hin as (k0 & -> & [i Hi]%list_elem_of_lookup).
    by destruct (Hfirst i k0 Hi) as (? & ? & _ & _ & _ & ? & _).
  - intros i specs available k Hw Ha Hk. destruct (Hall i specs available k Hw Ha Hk) as (_ & k0 & Hk0 & _ & Hshrink).
    destruct (Hfirst i k0 Hk0) as (specs' & available' & Hw' & Ha' & Hp & _ & Ht). simplify_eq.
    assert (Hle : n <= num_blocks k0) by (apply Hmin; by eapply list_elem_of_lookup_2).
    assert (H0 : 0 <= n).
    { apply list_elem_of_fmap in Hin as (k1 & -> & [j Hj]%list_elem_of_lookup). by destruct (Hfirst j k1 Hj) as (? & ? & _ & _ & _ & ? & _). }
    destruct (shrink_ok _ _ _ _ _ _ Hshrink Hp ltac:(lia)) as (h1 & h2 & _ & h4). split; [done|]. split; [done|]. lia.
Qed.

(** *** A model of full-attention layers only *)

Definition all_layers (s : LayerSpec) (specs : dict string LayerSpec) : Prop := forall t, t ∈ dvalues specs -> t = s.

Lemma merge_same a l :
  l <> [] -> (forall s, s ∈ l -> s = FullAttentionSpec a None None) -> merge l = Ok (FullAttentionSpec a None None).
Proof.
  intros Hne Hall. assert (Hl : exists n, l = replicate (S n) (FullAttentionSpec a None None)).
  { destruct l as [|x l]; [done|]. exists (length l). clear Hne. revert x Hall. induction l as [|y l IH]; intros x Hall.
    - by rewrite (Hall x) by by left.
    - rewrite (Hall x) by by left. cbn [length replicate]. f_equal. apply IH. intros; apply Hall; by right. }
  destruct Hl as [n ->]. change (merge_full a (replicate (S n) (FullAttentionSpec a None None)) = Ok (FullAttentionSpec a None None)).
  clear Hall Hne. generalize (S n) as k. clear n. intros k.
  unfold merge_full. assert (H1 : forallb is_full_attention (replicate k (FullAttentionSpec a None None)) = true) by (clear; induction k as [|k IH]; [done | exact IH]).
  assert (H2 : existsb is_mla (replicate k (FullAttentionSpec a None None)) = false) by (clear; induction k as [|k IH]; [done | exact IH]).
  assert (H3 : omap (M:=list) layer_sliding_window (replicate k (FullAttentionSpec a None None)) = []) by (clear; induction k as [|k IH]; [done | exact IH]).
  assert (H4 : omap (M:=list) layer_attention_chunk_size (replicate k (FullAttentionSpec a None None)) = []) by (clear; induction k as [|k IH]; [done | exact IH]).
  assert (H5 : forallb (fun s => bool_decide (layer_attention s = Some a)) (replicate k (FullAttentionSpec a None None)) = true).
  { clear. induction k as [|k IH]; [done|]. cbn. by rewrite bool_decide_eq_true_2. }
  by rewrite H1, H2, H3, H4, H5.
Qed.

Lemma same_groups c merged a groups :
  merged <> [] -> all_layers (FullAttentionSpec a None None) merged ->
  get_kv_cache_groups get_dtype_size c merged = Ok groups ->
  groups = [{| layer_names := dkeys merged; kv_cache_spec := LayerKVCacheSpec (FullAttentionSpec a None None) |}].
Proof.
  intros Hne Hall Hr. assert (Hmerge : merge (dvalues merged) = Ok (FullAttentionSpec a None None)).
  { apply merge_same; [by destruct merged | done]. }
  assert (Hu : is_kv_cache_spec_uniform merged = Ok true).
  { unfold is_kv_cache_spec_uniform. destruct merged; [done|]. by rewrite Hmerge. }
  unfold get_kv_cache_groups in Hr. apply bind_Ok_inv in Hr as (merged' & Hs & Hr).
  assert (merged' = merged) as ->.
  { destruct (disable_hybrid_kv_cache_manager c); [|by injection Hs]. unfold unify_hybrid_kv_cache_specs, one_type in Hs.
    rewrite Hu in Hs. by injection Hs. }
  destruct merged as [|p m] eqn:Hm; [done|]. rewrite <- Hm in *. clear p m Hm Hne Hs.
  rewrite Hu in Hr. cbn [mbind result_bind] in Hr. pose proof (create_names _ _ _ Hr) as Hn.
  destruct groups as [|g [|]]; try done. injection Hn as Hn. f_equal.
  destruct (create_merged _ _ _ g Hr ltac:(by left)) as (l & s & Hl & Hs & He). destruct g as [names spec]. cbn in *. subst names spec.
  f_equal. f_equal. assert (Hls : merge l = Ok (FullAttentionSpec a None None)); [|congruence]. apply merge_same.
  - intros ->. apply Forall2_nil_inv_r in Hl. unfold dkeys in Hl. destruct merged; [by cbn in Hmerge | done].
  - intros t Ht. apply list_elem_of_lookup in Ht as [i Hi]. destruct (Forall2_lookup_r _ _ _ _ _ Hl Hi) as (x & _ & Hx).
    apply Hall, list_elem_of_fmap. exists (x, t). split; [done | by apply dget_elem_of].
Qed.

Lemma same_memory c specs a p :
  all_layers (FullAttentionSpec a None None) specs -> decode_context_parallel_size c <= 1 -> 0 < att_block_size a ->
  page_size get_dtype_size (FullAttentionSpec a None None) = Ok p ->
  max_memory_usage_bytes get_dtype_size c (layers specs) = Ok (py_len specs * (ceil_div (max_model_len c) (att_block_size a) * p)).
Proof.
  intros Hall Hd Hb Hp. unfold max_memory_usage_bytes.
  assert (Hm : mapM (spec_max_memory_usage_bytes get_dtype_size c) (layers specs)
    = Ok (fmap (M:=list) (fun _ => ceil_div (max_model_len c) (att_block_size a) * p) specs)).
  { apply mapM_Ok. unfold layers, all_layers in *. induction specs as [|[x s] specs IH]; [constructor|].
    constructor; [|apply IH; intros t Ht; apply Hall; by right]. cbn beta. rewrite (Hall s) by by left. cbn.
    unfold full_max_memory. destruct (Z.ltb_spec 1 (decode_context_parallel_size c)); [lia|]. cbn [mbind result_bind].
    unfold pages. cbn [layer_block_size]. rewrite cdiv_ok by done. cbn [mbind result_bind]. unfold page_size in Hp. rewrite Hp. cbn.
    by rewrite Z.add_0_r. }
  rewrite Hm. cbn. by rewrite int_sum_const.
Qed.

(** The blocks of a worker before they are cut to the smallest number. *)
Lemma same_blocks c names specs available a k :
  num_gpu_blocks_override c = None -> decode_context_parallel_size c <= 1 -> 0 < att_block_size a ->
  0 <= attention_page_size get_dtype_size a -> specs <> [] -> all_layers (FullAttentionSpec a None None) specs ->
  check_enough_kv_cache_memory get_dtype_size c specs available = Ok tt ->
  worker_config get_dtype_size c [{| layer_names := names; kv_cache_spec := LayerKVCacheSpec (FullAttentionSpec a None None) |}]
    (specs, available) = Ok k ->
  ceil_div (max_model_len c) (att_block_size a) <= num_blocks k.
Proof.
  intros Hc Hdcp Hb Hp0 Hne Hs Hchk Hcfg. set (p := attention_page_size get_dtype_size a) in *.
  destruct (check_ok _ _ _ Hchk Hne) as (Hav & m & Hmem & Hle).
  rewrite (same_memory c specs a p Hs Hdcp Hb eq_refl) in Hmem. injection Hmem as <-.
  unfold worker_config in Hcfg. apply bind_Ok_inv in Hcfg as (u & Hu & Hcfg).
  apply py_assert_Ok, Z.eqb_eq in Hu. cbn [fmap list_fmap] in Hu, Hcfg. unfold worker_group in Hu, Hcfg. cbn [layer_names kv_cache_spec] in Hu, Hcfg.
  unfold get_kv_cache_config_from_groups, shared_config in Hcfg. apply bind_Ok_inv in Hcfg as (gs & Hgs & Hcfg). cbn in Hgs. injection Hgs as Hgs.
  cbn in Hu. rewrite Z.add_0_r, Hgs in Hu. subst gs.
  apply bind_Ok_inv in Hcfg as (size & Hsize & Hcfg). pose proof (uniform_pages _ _ _ Hsize) as Hpages.
  assert (size = p) as ->.
  { destruct specs as [|[x t] specs]; [done|]. specialize (Hpages t ltac:(by left)). rewrite (Hs t) in Hpages by by left. by injection Hpages. }
  apply bind_Ok_inv in Hcfg as (u' & Hpos & Hcfg). apply py_assert_Ok, Z.ltb_lt in Hpos. apply bind_Ok_inv in Hcfg as (nb & Hnb & [= <-]).
  unfold get_num_blocks, may_override_num_blocks in Hnb. rewrite Hc in Hnb. apply bind_Ok_inv in Hnb as (q & Hq & Hnb).
  apply bind_Ok_inv in Hnb as (n' & Hn' & [= <-]). assert (p <> 0) by (intros Hz; unfold py_floordiv in Hq; by rewrite Hz in Hq).
  rewrite py_floordiv_ok in Hq by done. injection Hq as <-. rewrite py_floordiv_ok in Hn' by lia. injection Hn' as <-. cbn [num_blocks].
  cbn [default]. apply (Z.le_trans _ (available / p / py_len specs)); [|lia]. rewrite Z.div_div by lia. apply Z.div_le_lower_bound; nia.
Qed.

(** A longest request fits: in a model of full-attention layers with one specification, when
    every worker has layers and the configurations were accepted, the blocks of every worker hold the
    tokens of a request of the longest length. *)
Theorem longest_request_fits c workers memory configs a :
  num_gpu_blocks_override c = None -> decode_context_parallel_size c <= 1 -> length workers = length memory ->
  Forall dict_ok workers -> 0 < att_block_size a -> 0 <= attention_page_size get_dtype_size a ->
  Forall (fun specs => specs <> [] /\ all_layers (FullAttentionSpec a None None) specs) workers ->
  get_kv_cache_configs get_dtype_size c workers memory = Ok configs ->
  Forall (fun k => max_model_len c <= num_blocks k * att_block_size a) configs.
Proof.
  intros Hc Hdcp Hlen Hd Hb Hp0 Hw Hr. destruct (configs_steps _ _ _ _ Hlen Hr) as (merged & groups & firsts & n & Hm & Hg & Hn & Hlf & Hlc & Hall).
  destruct (merge_workers_ok _ _ Hm) as (Hdm & Hsub & Hback). rewrite Forall_forall in Hd. rewrite Forall_forall in Hw.
  set (s := FullAttentionSpec a None None) in *.
  assert (Hsame : all_layers s merged).
  { intros t ([x t'] & -> & Ht)%list_elem_of_fmap. apply elem_of_dget in Ht; [|done]. destruct (Hback x t' Ht) as (w & Hin & Hx).
    destruct (Hw w Hin) as [_ Hs]. cbn. apply Hs, list_elem_of_fmap. by exists (x, t'). }
  assert (Hfirst : forall i k0, firsts !! i = Some k0 -> ceil_div (max_model_len c) (att_block_size a) <= num_blocks k0).
  { intros i k0 Hk0. assert (Hi : (i < length workers)%nat) by (apply lookup_lt_Some in Hk0; lia).
    destruct (lookup_lt_is_Some_2 workers i Hi) as [specs Hwi]. destruct (lookup_lt_is_Some_2 memory i ltac:(lia)) as [available Ha].
    destruct (lookup_lt_is_Some_2 configs i ltac:(lia)) as [k Hk].
    destruct (Hall i specs available k Hwi Ha Hk) as (Hchk & k0' & Hk0' & Hcfg & _). simplify_eq.
    pose proof (list_elem_of_lookup_2 _ _ _ Hwi) as Hin. destruct (Hw specs Hin) as [Hne Hs].
    assert (Hmne : merged <> []).
    { destruct specs as [|[x t] specs]; [done|]. intros He.
      assert (Hx : dget x merged = Some t) by (eapply Hsub; [exact Hin | by left]). by rewrite He in Hx. }
    rewrite (same_groups _ _ _ _ Hmne Hsame Hg) in Hcfg.
    exact (same_blocks _ _ _ _ _ _ Hc Hdcp Hb Hp0 Hne Hs Hchk Hcfg). }
  apply Forall_forall. intros k [i Hk]%list_elem_of_lookup. assert (Hi : (i < length workers)%nat) by (apply lookup_lt_Some in Hk; lia).
  destruct (lookup_lt_is_Some_2 workers i Hi) as [specs Hwi]. destruct (lookup_lt_is_Some_2 memory i ltac:(lia)) as [available Ha].
  destruct (Hall i specs available k Hwi Ha Hk) as (_ & k0 & Hk0 & _ & Hshrink).
  assert (Hnk : num_blocks k = n).
  { unfold shrink_config in Hshrink. apply bind_Ok_inv in Hshrink as (ts & _ & Hshrink). cbn [kv_cache_groups] in Hshrink.
    destruct (kv_cache_groups _); [by injection Hshrink as <- | by apply bind_Ok_inv in Hshrink as (u & _ & [= <-])]. }
  rewrite Hnk. destruct (py_min_spec _ _ Hn) as [Hin _]. apply list_elem_of_fmap in Hin as (k1 & -> & [j Hj]%list_elem_of_lookup).
  apply ceil_div_le; [done|]. by apply (Hfirst j).
Qed.

End Workers.

(** * Sizing at work

    Concrete models: a hybrid model on two pipeline stages, layers of one type but
    different sizes on two stages, and a model whose memory is exactly what the
    check asks for, followed into the KV-cache manager. *)

Definition wide_attention : AttentionSpec := mkAttentionSpec 16 1 16 "bfloat16".
Definition full_small : LayerSpec := FullAttentionSpec small_attention None None.
Definition full_wide : LayerSpec := FullAttentionSpec wide_attention None None.
Definition window_small : LayerSpec := SlidingWindowSpec small_attention 32.

(** Two full-attention and three sliding-window layers. *)
Definition hybrid_model : dict string LayerSpec :=
  [("full.0", full_small); ("sw.0", window_small); ("sw.1", window_small); ("full.1", full_small); ("sw.2", window_small)].

Lemma small_sane : sane two_bytes full_small /\ sane two_bytes window_small /\ sane two_bytes full_wide.
Proof.
  split; [|split]; (split; [done|]); [exists 512 | exists 512 | exists 1024]; (split; [reflexivity | done]).
Qed.

Lemma groups_partition_layers_witness :
  exists groups, get_kv_cache_groups two_bytes small_vllm hybrid_model = Ok groups /\
    layer_names <$> groups = [["full.0"; "full.1"]; ["sw.0"; "sw.2"]; ["sw.1"]] /\
    NoDup (concat (layer_names <$> groups)).
Proof.
  assert (Hr : exists groups, get_kv_cache_groups two_bytes small_vllm hybrid_model = Ok groups /\
    layer_names <$> groups = [["full.0"; "full.1"]; ["sw.0"; "sw.2"]; ["sw.1"]]) by (eexists; split; vm_compute; reflexivity).
  destruct Hr as (groups & Hr & Hn). exists groups. split; [exact Hr|]. split; [exact Hn|].
  apply (groups_partition_layers two_bytes small_vllm hybrid_model groups); [|exact Hr].
  apply (bool_decide_unpack _). reflexivity.
Defined.

(** The hybrid model on two stages with different memory. *)
Definition stage0 : dict string LayerSpec := [("full.0", full_small); ("sw.0", window_small); ("sw.1", window_small)].
Definition stage1 : dict string LayerSpec := [("full.1", full_small); ("sw.2", window_small)].
Definition short_vllm : VllmConfig := mkVllmConfig 64 1 64 64 false None.

Lemma worker_configs_fit_witness :
  exists configs, get_kv_cache_configs two_bytes short_vllm [stage0; stage1] [100 * 512; 90 * 512] = Ok configs /\
    length configs = 2%nat /\ num_blocks <$> configs = [90; 90].
Proof.
  assert (Hr : exists configs, get_kv_cache_configs two_bytes short_vllm [stage0; stage1] [100 * 512; 90 * 512] = Ok configs /\
    num_blocks <$> configs = [90; 90]) by (eexists; split; vm_compute; reflexivity).
  destruct Hr as (configs & Hr & Hn). exists configs. split; [exact Hr|]. split; [|exact Hn].
  destruct small_sane as (h1 & h2 & _).
  apply (worker_configs_fit two_bytes short_vllm [stage0; stage1] [100 * 512; 90 * 512] configs).
  - done.
  - done.
  - constructor; [|constructor; [|constructor]]; apply (bool_decide_unpack _); reflexivity.
  - constructor; [|constructor; [|constructor]]; [by apply Forall_cons; split; [|apply Forall_cons; split; [|apply Forall_singleton]]|].
    by apply Forall_cons; split; [|apply Forall_singleton].
  - constructor; [|constructor; [|constructor]]; lia.
  - exact Hr.
Defined.

(** Four layers of full attention on two stages. *)
Lemma longest_request_fits_witness :
  exists configs, get_kv_cache_configs two_bytes short_vllm [[("l.0", full_small); ("l.1", full_small)]; [("l.2", full_small)]]
      [20 * 512; 4 * 512] = Ok configs /\ Forall (fun k => 64 <= num_blocks k * 16) configs.
Proof.
  assert (Hr : exists configs, get_kv_cache_configs two_bytes short_vllm [[("l.0", full_small); ("l.1", full_small)]; [("l.2", full_small)]]
      [20 * 512; 4 * 512] = Ok configs) by (eexists; vm_compute; reflexivity).
  destruct Hr as (configs & Hr). exists configs. split; [exact Hr|].
  apply (longest_request_fits two_bytes short_vllm _ _ configs small_attention) in Hr; [exact Hr | done | done | done | | done | done |].
  - constructor; [|constructor; [|constructor]]; apply (bool_decide_unpack _); reflexivity.
  - constructor; [|constructor; [|constructor]]; (split; [done|]); intros t Ht; vm_compute in Ht; clear -Ht; set_solver.
Defined.

(** With layers of different sizes on two stages, a stage's blocks are counted with the pages of all
    layers: each stage has the memory its own layers need for 64 tokens, and 32 fit. *)
Example stage_counts_all_layers :
  (configs ← get_kv_cache_configs two_bytes short_vllm
     [[("l.0", full_small); ("l.1", full_wide)]; [("l.2", full_small); ("l.3", full_wide)]] [4 * 1536; 4 * 1536];
   Ok (fmap (M:=list) num_blocks configs)) = Ok [2; 2].
Proof. vm_compute. reflexivity. Qed.

(** A stage without attention layers is refused when the rest of the model has some. *)
Example stage_without_layers_raises :
  get_kv_cache_configs two_bytes short_vllm [[("l.0", full_small)]; []] [4 * 512; 4 * 512] = Raise AssertionError.
Proof. vm_compute. reflexivity. Qed.

(** ** Exactly enough memory *)

Definition long_request (n : Z) : result Request :=
  new_request None fzero (sample_args <| ra_prompt_token_ids := Some (replicate (Z.to_nat n) 5) |>).

(** Memory for four blocks, which the check accepts for 64 tokens. *)
Definition exact_manager : result KVCacheManager :=
  configs ← get_kv_cache_configs two_bytes short_vllm [[("l.0", full_small)]] [4 * 512];
  cfg ← generate_scheduler_kv_cache_config configs;
  new_kv_cache_manager cfg (max_model_len short_vllm) false false false false 1.

(** The block the pool keeps back is not counted: memory that the start-up check accepts for one
    request of the longest length gives a pool that refuses that request even when it is
    empty, because the null block is one of the blocks; a request one block shorter is admitted. *)
Theorem exact_memory_refuses_longest :
  exists k r r', exact_manager = Ok k /\ num_gpu_blocks (kv_pool k) = 4 /\
    long_request 63 = Ok r /\ long_request 48 = Ok r' /\
    (exists k', allocate_slots true r 63 0 None 0 false 0 k = Ok (None, k')) /\
    exists b k', allocate_slots true r' 48 0 None 0 false 0 k = Ok (Some b, k').
Proof.
  assert (Hr : (k ← exact_manager; r ← long_request 63; r' ← long_request 48;
    '(a, _) ← allocate_slots true r 63 0 None 0 false 0 k; '(b, _) ← allocate_slots true r' 48 0 None 0 false 0 k;
    Ok (num_gpu_blocks (kv_pool k), bool_decide (is_Some a), bool_decide (is_Some b))) = Ok (4, false, true)) by (vm_compute; reflexivity).
  destruct exact_manager as [k|]; [|done]. destruct (long_request 63) as [r|]; [|done]. destruct (long_request 48) as [r'|]; [|done].
  cbn [mbind result_bind] in Hr. destruct (allocate_slots true r 63 0 None 0 false 0 k) as [[a k1]|] eqn:Ea; [|done].
  cbn [mbind result_bind] in Hr. destruct (allocate_slots true r' 48 0 None 0 false 0 k) as [[b k2]|] eqn:Eb; [|done].
  cbn [mbind result_bind] in Hr. injection Hr as Hn Ha Hb. exists k, r, r'. split; [done|]. split; [done|]. split; [done|]. split; [done|].
  apply bool_decide_eq_false in Ha. apply bool_decide_eq_true in Hb as [b' ->].
  split; [exists k1 | by exists b', k2]. rewrite Ea. destruct a; [|done]. exfalso. apply Ha. by eexists.
Qed.
