(* ===== verification/Detokenizer.v ===== *)
(** * Incremental detokenization

    [vllm/v1/engine/detokenizer.py] and [vllm/transformers_utils/detokenizer_utils.py].
    The tokenizer and the decode stream come from the packages transformers and
    tokenizers; [Tokenizers] has the calls the code makes to them.  The classes of
    the module are one record with the part that differs, the decoder, as a
    variant.  Texts are lists of code points (PyText). *)

From S2P Require Import Prelude PyDict PyList PyInt PyText PyFloat Request.
From Stdlib Require Import ZifyBool.
#[local] Open Scope Z_scope.

(** What [DecodeStream.step] does: return a text or None, or raise; the flag says
    that the message starts with [INVALID_PREFIX_ERR_MSG]. *)
Inductive StepOutcome := Stepped (t : option text) | StepRaises (e : exn) (invalid_prefix : bool).

Class Tokenizers (Tok Stream : Type) := {
  use_fast_detokenizer : bool;
  is_pretrained_fast : Tok -> bool;
  new_decode_stream : bool -> Stream;
  stream_step : Stream -> Tok -> Z -> StepOutcome * Stream;
  rust_decode : Tok -> list Z -> text;
  added_tokens_decoder : Tok -> dict Z text;
  tok_decode : Tok -> list Z -> option text;
  tok_is_fast : Tok -> bool;
  tok_len : Tok -> Z;
  convert_ids_to_tokens : Tok -> list Z -> bool -> list (option text);
  convert_tokens_to_string : Tok -> list (option text) -> result text;
  get_added_vocab : Tok -> list text;
  all_special_tokens : Tok -> list text;
}.

Section Utils.
Context {Tok Stream : Type} `{Tokenizers Tok Stream}.

(** ** detokenizer_utils.py *)

Definition replace_none_with_empty (tokens : list (option text)) : list (option text) :=
  (fun t => Some (default [] t)) <$> tokens.

(** One token of [_convert_tokens_to_string_with_added_encoders]: the texts so far
    and the tokens waiting to be converted. *)
Definition convert_one (tok : Tok) (skip_special_tokens : bool) (token : option text)
    (st : list text * list (option text)) : result (list text * list (option text)) :=
  let '(sub_texts, current_sub_text) := st in
  let special := if skip_special_tokens then all_special_tokens tok else [] in
  match token with
  | Some t =>
      if bool_decide (t ∈ special) then Ok st
      else if bool_decide (t ∈ get_added_vocab tok) then
        match current_sub_text with
        | [] => Ok (sub_texts ++ [t], [])
        | _ => s ← convert_tokens_to_string tok current_sub_text; Ok (sub_texts ++ [s; t], [])
        end
      else Ok (sub_texts, current_sub_text ++ [token])
  | None => Ok (sub_texts, current_sub_text ++ [token])
  end.

Definition convert_tokens_to_string_with_added_encoders (tok : Tok) (output_tokens : list (option text))
    (skip_special_tokens spaces_between_special_tokens : bool) : result text :=
  '(sub_texts, current_sub_text) ← for_each (convert_one tok skip_special_tokens) output_tokens ([], []);
  sub_texts ← match current_sub_text with
              | [] => Ok sub_texts
              | _ => s ← convert_tokens_to_string tok current_sub_text; Ok (sub_texts ++ [s])
              end;
  Ok (text_join (if spaces_between_special_tokens then space else []) sub_texts).

Definition INITIAL_INCREMENTAL_DETOKENIZATION_OFFSET : Z := 5.

Definition convert_prompt_ids_to_tokens (tok : Tok) (prompt_ids : list Z) (skip_special_tokens : bool)
    : list (option text) * Z * Z :=
  let new_tokens := convert_ids_to_tokens tok
    (slice_from (- INITIAL_INCREMENTAL_DETOKENIZATION_OFFSET - 2) prompt_ids) skip_special_tokens in
  let read_offset := py_len new_tokens in
  (replace_none_with_empty new_tokens, Z.max (read_offset - INITIAL_INCREMENTAL_DETOKENIZATION_OFFSET) 0,
   read_offset).

Definition convert_ids_list_to_tokens (tok : Tok) (token_ids : list Z) : list text :=
  (fun token_id => default [] (tok_decode tok [token_id])) <$> token_ids.

(** The text of some tokens, as [detokenize_incrementally] computes it. *)
Definition tokens_text (tok : Tok) (skip_special_tokens spaces_between_special_tokens : bool)
    (tokens : list (option text)) : result text :=
  if tok_is_fast tok || bool_decide (get_added_vocab tok = []) then convert_tokens_to_string tok tokens
  else convert_tokens_to_string_with_added_encoders tok tokens skip_special_tokens spaces_between_special_tokens.

(** Returns the new tokens, the new text, the prefix offset and the read offset. *)
Definition detokenize_incrementally (tok : Tok) (all_input_ids : list Z)
    (prev_tokens : option (list (option text))) (prefix_offset read_offset : Z)
    (skip_special_tokens spaces_between_special_tokens : bool)
    : result (list (option text) * text * Z * Z) :=
  new_token_id ← py_index all_input_ids (-1);
  let '(prev, prefix_offset, read_offset) :=
    match prev_tokens with
    | None => convert_prompt_ids_to_tokens tok (slice_to (-1) all_input_ids) skip_special_tokens
    | Some prev => (prev, prefix_offset, read_offset)
    end in
  let new_tokens :=
    if (0 <=? new_token_id) && (new_token_id <? tok_len tok)
    then convert_ids_to_tokens tok [new_token_id] skip_special_tokens
    else [Some []] in
  let output_tokens := prev ++ new_tokens in
  let new_tokens := match prev_tokens with None => output_tokens | Some _ => new_tokens end in
  let conv := tokens_text tok skip_special_tokens spaces_between_special_tokens in
  prefix_text ← conv (slice prefix_offset read_offset output_tokens);
  new_text ← conv (slice_from prefix_offset output_tokens);
  if (py_len new_text <=? py_len prefix_text) || text_endswith replacement_char new_text
  then Ok (new_tokens, [], prefix_offset, read_offset)
  else Ok (new_tokens, slice_from (py_len prefix_text) new_text, read_offset, py_len output_tokens).
End Utils.

(** ** The detokenizers *)

(** [check_stop_strings]: the stop string and where to cut the text, [-1] for
    nowhere. *)
Fixpoint check_stop_list (output_text : text) (new_char_count : Z) (stop : list text)
    (include_in_output : bool) : option (text * Z) :=
  match stop with
  | [] => None
  | stop_str :: stop =>
      let stop_string_len := py_len stop_str in
      let stop_index := text_find stop_str (1 - new_char_count - stop_string_len) output_text in
      if stop_index =? -1 then check_stop_list output_text new_char_count stop include_in_output
      else if include_in_output then
        let stop_index := stop_index + stop_string_len in
        if py_len output_text <=? stop_index then Some (stop_str, -1) else Some (stop_str, stop_index)
      else Some (stop_str, stop_index)
  end.

Definition check_stop_strings (output_text : text) (new_char_count : Z) (stop : list text)
    (include_in_output : bool) : option (text * Z) :=
  if (new_char_count =? 0) || bool_decide (stop = []) then None
  else check_stop_list output_text new_char_count stop include_in_output.

Record FastDecoder (Tok Stream : Type) := mkFastDecoder {
  fd_skip_special_tokens : bool;
  fd_stream : Stream;
  fd_tokenizer : Tok;
  fd_spaces_between_special_tokens : bool;
  fd_last_special : bool;
  fd_added_token_ids : dict Z text;
}.
Arguments mkFastDecoder {Tok Stream}.
Arguments fd_skip_special_tokens {Tok Stream} _.
Arguments fd_stream {Tok Stream} _.
Arguments fd_tokenizer {Tok Stream} _.
Arguments fd_spaces_between_special_tokens {Tok Stream} _.
Arguments fd_last_special {Tok Stream} _.
Arguments fd_added_token_ids {Tok Stream} _.

#[export] Instance eta_FastDecoder {Tok Stream} : Eta (FastDecoder Tok Stream) := fun f =>
  mkFastDecoder (fd_skip_special_tokens f) (fd_stream f) (fd_tokenizer f)
    (fd_spaces_between_special_tokens f) (fd_last_special f) (fd_added_token_ids f).

(** The attribute [read_offset] is missing when the constructor did not set it. *)
Record SlowDecoder (Tok : Type) := mkSlowDecoder {
  sd_tokenizer : Tok;
  sd_prompt_len : Z;
  sd_tokens : list (option text);
  sd_prefix_offset : Z;
  sd_read_offset : option Z;
  sd_skip_special_tokens : bool;
  sd_spaces_between_special_tokens : bool;
}.
Arguments mkSlowDecoder {Tok}.
Arguments sd_tokenizer {Tok} _.
Arguments sd_prompt_len {Tok} _.
Arguments sd_tokens {Tok} _.
Arguments sd_prefix_offset {Tok} _.
Arguments sd_read_offset {Tok} _.
Arguments sd_skip_special_tokens {Tok} _.
Arguments sd_spaces_between_special_tokens {Tok} _.

#[export] Instance eta_SlowDecoder {Tok} : Eta (SlowDecoder Tok) := fun s =>
  mkSlowDecoder (sd_tokenizer s) (sd_prompt_len s) (sd_tokens s) (sd_prefix_offset s)
    (sd_read_offset s) (sd_skip_special_tokens s) (sd_spaces_between_special_tokens s).

Inductive Decoder (Tok Stream : Type) := Fast (f : FastDecoder Tok Stream) | Slow (s : SlowDecoder Tok).
Arguments Fast {Tok Stream} f.
Arguments Slow {Tok Stream} s.

(** [BaseIncrementalDetokenizer]. *)
Record BaseDetokenizer (Tok Stream : Type) := mkBaseDetokenizer {
  token_ids : list Z;
  stop : list text;
  dt_min_tokens : Z;
  dt_include_stop_str_in_output : bool;
  stop_buffer_length : Z;
  last_output_text_offset : Z;
  output_text : text;
  decoder : Decoder Tok Stream;
}.
Arguments mkBaseDetokenizer {Tok Stream}.
Arguments token_ids {Tok Stream} _.
Arguments stop {Tok Stream} _.
Arguments dt_min_tokens {Tok Stream} _.
Arguments dt_include_stop_str_in_output {Tok Stream} _.
Arguments stop_buffer_length {Tok Stream} _.
Arguments last_output_text_offset {Tok Stream} _.
Arguments output_text {Tok Stream} _.
Arguments decoder {Tok Stream} _.

#[export] Instance eta_BaseDetokenizer {Tok Stream} : Eta (BaseDetokenizer Tok Stream) := fun d =>
  mkBaseDetokenizer (token_ids d) (stop d) (dt_min_tokens d) (dt_include_stop_str_in_output d)
    (stop_buffer_length d) (last_output_text_offset d) (output_text d) (decoder d).

(** [IncrementalDetokenizer] itself only collects the tokens. *)
Inductive IncrementalDetokenizer (Tok Stream : Type) :=
| NoDetokenizer (ids : list Z)
| Detokenizing (d : BaseDetokenizer Tok Stream).
Arguments NoDetokenizer {Tok Stream} ids.
Arguments Detokenizing {Tok Stream} d.

Section Detokenizers.
Context {Tok Stream : Type} `{Tokenizers Tok Stream}.
Implicit Types (d : BaseDetokenizer Tok Stream).

(** [output_token_ids]: the slow detokenizer's tokens begin with the prompt's. *)
Definition dt_output_token_ids d : list Z :=
  match decoder d with
  | Fast _ => token_ids d
  | Slow s => if sd_prompt_len s =? 0 then token_ids d else slice_from (sd_prompt_len s) (token_ids d)
  end.

(** *** Decoding one token *)

Definition protected_step (next_token_id : Z) (f : FastDecoder Tok Stream)
    : result (option text * FastDecoder Tok Stream) :=
  match stream_step (fd_stream f) (fd_tokenizer f) next_token_id with
  | (Stepped t, s) => Ok (t, f <| fd_stream := s |>)
  | (StepRaises e invalid_prefix, s) =>
      if bool_decide (e = OverflowError) || bool_decide (e = TypeError) then Ok (None, f <| fd_stream := s |>)
      else if negb invalid_prefix then Raise e
      else
        match stream_step (new_decode_stream (fd_skip_special_tokens f)) (fd_tokenizer f) next_token_id with
        | (Stepped t, s) => Ok (t, f <| fd_stream := s |>)
        | (StepRaises e _, _) => Raise e
        end
  end.

Definition fast_decode_next (next_token_id : Z) (f : FastDecoder Tok Stream)
    : result (text * FastDecoder Tok Stream) :=
  '(token, f) ← protected_step next_token_id f;
  if fd_spaces_between_special_tokens f then Ok (default [] token, f)
  else
    let special_token := dget next_token_id (fd_added_token_ids f) in
    let is_special := bool_decide (is_Some special_token) in
    let token := if is_special && fd_last_special f then special_token else token in
    Ok (default [] token, f <| fd_last_special := is_special |>).

Definition slow_decode_next (all_token_ids : list Z) (s : SlowDecoder Tok) : result (text * SlowDecoder Tok) :=
  read_offset ← or_raise AttributeError (sd_read_offset s);
  '(new_tokens, decoded_text, prefix_offset, read_offset) ←
    detokenize_incrementally (sd_tokenizer s) all_token_ids (Some (sd_tokens s)) (sd_prefix_offset s)
      read_offset (sd_skip_special_tokens s) (sd_spaces_between_special_tokens s);
  Ok (decoded_text, s <| sd_tokens := sd_tokens s ++ new_tokens |>
                      <| sd_prefix_offset := prefix_offset |>
                      <| sd_read_offset := Some read_offset |>).

Definition decode_next (next_token_id : Z) d : result (text * BaseDetokenizer Tok Stream) :=
  match decoder d with
  | Fast f => '(t, f) ← fast_decode_next next_token_id f; Ok (t, d <| decoder := Fast f |>)
  | Slow s => '(t, s) ← slow_decode_next (token_ids d) s; Ok (t, d <| decoder := Slow s |>)
  end.

(** *** Update *)

(** One token of [update]'s loop; the number is [stop_check_offset]. *)
Definition update_token (new_token_id : Z) (st : BaseDetokenizer Tok Stream * Z)
    : result (BaseDetokenizer Tok Stream * Z) :=
  let '(d, stop_check_offset) := st in
  let d := d <| token_ids := token_ids d ++ [new_token_id] |> in
  '(t, d) ← decode_next new_token_id d;
  let d := d <| output_text := output_text d ++ t |> in
  let waits := negb (dt_min_tokens d =? 0) && (py_len (dt_output_token_ids d) <=? dt_min_tokens d) in
  Ok (d, if waits then py_len (output_text d) else stop_check_offset).

(** The stop strings of [update], after the new tokens. *)
Definition evaluate_stop (stop_check_offset : Z) d : option text * BaseDetokenizer Tok Stream :=
  if negb (bool_decide (stop d = [])) && (dt_min_tokens d <? py_len (dt_output_token_ids d)) then
    match check_stop_strings (output_text d) (py_len (output_text d) - stop_check_offset) (stop d)
            (dt_include_stop_str_in_output d) with
    | Some (stop_string, truncate_to) =>
        (Some stop_string,
         if truncate_to =? -1 then d else d <| output_text := slice_to truncate_to (output_text d) |>)
    | None => (None, d)
    end
  else (None, d).

Definition base_update (new_token_ids : list Z) (stop_terminated : bool) d
    : result (option text * BaseDetokenizer Tok Stream) :=
  match new_token_ids with
  | [] => Ok (None, d)
  | _ =>
      '(new_token_ids, skipped) ←
        (if stop_terminated && negb (dt_include_stop_str_in_output d)
         then x ← py_index new_token_ids (-1); Ok (slice_to (-1) new_token_ids, [x])
         else Ok (new_token_ids, []));
      '(d, stop_check_offset) ← for_each update_token new_token_ids (d, py_len (output_text d));
      let d := d <| token_ids := token_ids d ++ skipped |> in
      Ok (evaluate_stop stop_check_offset d)
  end.

Definition base_next_output_text (finished delta : bool) d : text * BaseDetokenizer Tok Stream :=
  let buffer_length := if finished then 0 else stop_buffer_length d in
  if negb delta then
    (if buffer_length =? 0 then output_text d else slice_to (- buffer_length) (output_text d), d)
  else
    let length := py_len (output_text d) - buffer_length in
    let last_offset := last_output_text_offset d in
    if last_offset <? length
    then (slice last_offset length (output_text d), d <| last_output_text_offset := length |>)
    else ([], d).

(** *** Construction *)

Definition stop_list (s : StopStrings) : list text :=
  match s with StopNone => [] | StopStr s => [s] | StopList l => l end.

Definition base_init (params : SamplingParams) (dec : Decoder Tok Stream) : result (BaseDetokenizer Tok Stream) :=
  let stop := stop_list (sp_stop params) in
  buffer ← (if negb (bool_decide (stop = [])) && negb (include_stop_str_in_output params)
            then m ← py_max (py_len <$> stop); Ok (m - 1) else Ok 0);
  Ok {| token_ids := []; stop := stop; dt_min_tokens := min_tokens params;
        dt_include_stop_str_in_output := include_stop_str_in_output params;
        stop_buffer_length := buffer; last_output_text_offset := 0; output_text := []; decoder := dec |}.

(** The shortest suffix of at least four prompt tokens that decodes cleanly. *)
Definition prompt_suffix (tok : Tok) (prompt_token_ids : list Z) : list Z :=
  let prompt_len := py_len prompt_token_ids in
  let suffix i := slice_from (- i) prompt_token_ids in
  if 4 <? prompt_len then
    match List.find (fun i => negb (text_in replacement_char (rust_decode tok (suffix i))))
            (py_range 4 (Z.min (prompt_len + 1) 24)) with
    | Some i => suffix i
    | None => prompt_token_ids
    end
  else prompt_token_ids.

Definition fast_init (tok : Tok) (params : SamplingParams) (prompt_token_ids : option (list Z))
    : result (FastDecoder Tok Stream) :=
  let f := {| fd_skip_special_tokens := skip_special_tokens params;
              fd_stream := new_decode_stream (skip_special_tokens params); fd_tokenizer := tok;
              fd_spaces_between_special_tokens := true; fd_last_special := false;
              fd_added_token_ids := [] |} in
  f ← for_each (fun tid f => '(_, f) ← protected_step tid f; Ok f)
        (prompt_suffix tok (default [] prompt_token_ids)) f;
  let spaces := skip_special_tokens params || spaces_between_special_tokens params in
  if spaces || bool_decide (added_tokens_decoder tok = []) then Ok f
  else Ok (f <| fd_spaces_between_special_tokens := false |> <| fd_added_token_ids := added_tokens_decoder tok |>).

Definition slow_init (tok : Tok) (params : SamplingParams) (prompt_token_ids : option (list Z))
    (prompt_embeds : option (list string)) : result (SlowDecoder Tok * list Z) :=
  prompt_len ← prompt_length prompt_token_ids prompt_embeds;
  let '(tokens, prefix_offset, read_offset) :=
    match prompt_token_ids with
    | Some ids =>
        let '(tokens, prefix_offset, read_offset) :=
          convert_prompt_ids_to_tokens tok ids (skip_special_tokens params) in
        (tokens, prefix_offset, Some read_offset)
    | None => (replicate (Z.to_nat prompt_len) (Some []), 0, None)
    end in
  let ids := match prompt_token_ids with
             | None | Some [] => replicate (Z.to_nat prompt_len) 0
             | Some ids => ids
             end in
  Ok ({| sd_tokenizer := tok; sd_prompt_len := prompt_len; sd_tokens := tokens;
         sd_prefix_offset := prefix_offset; sd_read_offset := read_offset;
         sd_skip_special_tokens := skip_special_tokens params;
         sd_spaces_between_special_tokens := spaces_between_special_tokens params |}, ids).

Definition detokenizer_from_new_request (tokenizer : option Tok) (request : EngineCoreRequest)
    : result (IncrementalDetokenizer Tok Stream) :=
  params ← or_raise AssertionError (ecr_sampling_params request);
  match tokenizer with
  | None => Ok (NoDetokenizer [])
  | Some tok =>
      if use_fast_detokenizer && is_pretrained_fast tok then
        f ← fast_init tok params (ecr_prompt_token_ids request);
        d ← base_init params (Fast f);
        Ok (Detokenizing d)
      else
        '(s, ids) ← slow_init tok params (ecr_prompt_token_ids request) (ecr_prompt_embeds request);
        d ← base_init params (Slow s);
        Ok (Detokenizing (d <| token_ids := ids |>))
  end.

(** *** The class's methods *)

Definition dt_update (new_token_ids : list Z) (stop_terminated : bool) (x : IncrementalDetokenizer Tok Stream)
    : result (option text * IncrementalDetokenizer Tok Stream) :=
  match x with
  | NoDetokenizer ids => Ok (None, NoDetokenizer (ids ++ new_token_ids))
  | Detokenizing d => '(s, d) ← base_update new_token_ids stop_terminated d; Ok (s, Detokenizing d)
  end.

Definition get_next_output_text (finished delta : bool) (x : IncrementalDetokenizer Tok Stream)
    : text * IncrementalDetokenizer Tok Stream :=
  match x with
  | NoDetokenizer ids => ([], x)
  | Detokenizing d => let '(t, d) := base_next_output_text finished delta d in (t, Detokenizing d)
  end.

Definition detokenizer_token_ids (x : IncrementalDetokenizer Tok Stream) : list Z :=
  match x with NoDetokenizer ids => ids | Detokenizing d => dt_output_token_ids d end.
End Detokenizers.

(** * Stop strings and streamed text

    The search of [check_stop_strings] in a window is the search for stop strings
    that end in new text; cutting the tokens into updates differently changes
    nothing; and the texts streamed to a client add up to the final text. *)

(** ** The window *)

(** [s] occurs at [j] in [t] and ends in the last [m] characters. *)
Definition ends_in_new (t : text) (m : Z) (s : text) (j : Z) : Prop :=
  occurs_at s t j /\ py_len t - m < j + py_len s.

Lemma window_start t m (s : text) :
  s <> [] -> 0 < m -> 1 - m - py_len s <= py_len t /\
  forall j, 0 <= j -> find_start (1 - m - py_len s) t <= j <-> py_len t - m < j + py_len s.
Proof.
  intros Hs Hm. assert (0 < py_len s) by (destruct s; [done | unfold py_len; cbn; lia]).
  unfold find_start, slice_pos, py_len in *. split; [lia|]. intros j Hj. case_match; lia.
Qed.

Lemma window_find t m s :
  s <> [] -> 0 < m ->
  let r := text_find s (1 - m - py_len s) t in
  (r = -1 /\ forall j, ~ ends_in_new t m s j) \/
  (0 <= r /\ ends_in_new t m s r /\ forall j, ends_in_new t m s j -> r <= j).
Proof.
  intros Hs Hm r. destruct (window_start t m s Hs Hm) as [Hle Hst].
  destruct (text_find_spec s (1 - m - py_len s) t Hle) as [[Hr Hno]|(Hr & Hocc & Hmin)]; fold r in Hr.
  - left. split; [done|]. intros j [Hj Hend]. pose proof (occurs_at_bound _ _ _ Hj) as [Hj0 _].
    apply (Hno j); [by apply Hst | done].
  - right. fold r in Hocc, Hmin. pose proof (occurs_at_bound _ _ _ Hocc) as [Hr0 _]. split_and!; [done| |].
    + split; [done|]. by apply Hst.
    + intros j [Hj Hend]. apply Hmin; [|done]. apply Hst; [|done]. apply occurs_at_bound in Hj. lia.
Qed.

(** Where the text is cut for [s] found at [j]. *)
Definition stop_cut (t s : text) (j : Z) (include_in_output : bool) : Z :=
  if include_in_output then if py_len t <=? j + py_len s then -1 else j + py_len s else j.

(** What [check_stop_strings] promises. *)
Definition stop_spec (t : text) (m : Z) (stop : list text) (include_in_output : bool)
    (r : option (text * Z)) : Prop :=
  match r with
  | None => forall s j, s ∈ stop -> ~ ends_in_new t m s j
  | Some (s, cut) => exists l1 l2 j, stop = l1 ++ s :: l2 /\
      (forall s' j', s' ∈ l1 -> ~ ends_in_new t m s' j') /\
      ends_in_new t m s j /\ (forall j', ends_in_new t m s j' -> j <= j') /\
      cut = stop_cut t s j include_in_output
  end.

Lemma check_stop_list_spec t m stop incl :
  Forall (fun s => s <> []) stop -> 0 < m -> stop_spec t m stop incl (check_stop_list t m stop incl).
Proof.
  intros Hall Hm. induction Hall as [|s l Hs _ IH]; cbn [check_stop_list].
  - by intros s j ?%elem_of_nil.
  - destruct (window_find t m s Hs Hm) as [[-> Hno]|(Hr & Hin & Hmin)].
    + cbn. destruct (check_stop_list t m l incl) as [[s' cut]|]; cbn in *.
      * destruct IH as (l1 & l2 & j & -> & Hl1 & Hrest). exists (s :: l1), l2, j. split; [done|]. split; [|done].
        intros s'' j' [->|Hin]%elem_of_cons; [apply Hno | by apply Hl1].
      * intros s' j [->|Hin]%elem_of_cons; [apply Hno | by apply IH].
    + set (r := text_find s (1 - m - py_len s) t) in *. destruct (Z.eqb_spec r (-1)); [lia|].
      assert (stop_spec t m (s :: l) incl (Some (s, stop_cut t s r incl))) as Hok.
      { exists [], l, r. split_and!; [done | by intros ? ? ?%elem_of_nil | done | done | done]. }
      unfold stop_cut in Hok. destruct incl; [|done]. by destruct (py_len t <=? r + py_len s).
Qed.

Lemma check_stop_strings_spec t m stop incl :
  Forall (fun s => s <> []) stop -> 0 <= m -> stop_spec t m stop incl (check_stop_strings t m stop incl).
Proof.
  intros Hall Hm. unfold check_stop_strings. destruct (Z.eqb_spec m 0) as [->|Hne]; cbn [orb].
  - intros s j _ [Hj Hend]. apply occurs_at_bound in Hj. lia.
  - case_bool_decide as Hnil; [|apply check_stop_list_spec; [done | lia]].
    subst. by intros s j ?%elem_of_nil.
Qed.

(** A window that is wider by text where no stop string ends finds the same. *)
Lemma check_stop_list_widen t m m' stop incl :
  Forall (fun s => s <> []) stop -> 0 < m <= m' ->
  (forall s j, s ∈ stop -> ends_in_new t m' s j -> ends_in_new t m s j) ->
  check_stop_list t m stop incl = check_stop_list t m' stop incl.
Proof.
  intros Hall Hm Hw. induction Hall as [|s l Hs _ IH]; [done|]. cbn [check_stop_list].
  assert (text_find s (1 - m - py_len s) t = text_find s (1 - m' - py_len s) t) as ->.
  { assert (Hw' : forall j, ends_in_new t m s j <-> ends_in_new t m' s j).
    { intros j. split; [intros [? ?]; split; [done | lia]|]. apply Hw. by left. }
    destruct (window_find t m s Hs ltac:(lia)) as [[-> Hno]|(Hr & Hin & Hmin)],
      (window_find t m' s Hs ltac:(lia)) as [[-> Hno']|(Hr' & Hin' & Hmin')]; [done | | |].
    - by apply Hw', Hno in Hin'.
    - by apply Hw', Hno' in Hin.
    - apply Hw', Hmin' in Hin. apply Hw', Hmin in Hin'. lia. }
  rewrite IH; [done|]. intros s' j Hin. apply Hw. by right.
Qed.

Lemma check_stop_strings_widen t m m' stop incl :
  Forall (fun s => s <> []) stop -> 0 <= m <= m' ->
  (forall s j, s ∈ stop -> ends_in_new t m' s j -> ends_in_new t m s j) ->
  check_stop_strings t m stop incl = check_stop_strings t m' stop incl.
Proof.
  intros Hall Hm Hw. destruct (decide (m = 0)) as [->|Hne].
  - pose proof (check_stop_strings_spec t m' stop incl Hall ltac:(lia)) as Hsp.
    assert (check_stop_strings t 0 stop incl = None) as -> by done.
    destruct (check_stop_strings t m' stop incl) as [[s cut]|]; [|done]. destruct Hsp as (l1 & l2 & j & -> & _ & Hj & _).
    apply Hw in Hj; [|apply elem_of_app; right; by left]. destruct Hj as [Hj%occurs_at_bound Hend]. lia.
  - unfold check_stop_strings. destruct (Z.eqb_spec m 0), (Z.eqb_spec m' 0); [lia..|]. cbn [orb].
    case_bool_decide; [done|]. by apply check_stop_list_widen; [|lia|].
Qed.

(** ** The state between updates *)

Section Runs.
Context {Tok Stream : Type} `{Tokenizers Tok Stream}.
Implicit Types (d : BaseDetokenizer Tok Stream) (dec : Decoder Tok Stream).

(** What no operation changes. *)
Definition settings d : list text * Z * bool * Z * Z :=
  (stop d, dt_min_tokens d, dt_include_stop_str_in_output d, stop_buffer_length d, last_output_text_offset d).

Lemma decode_next_frame i d t d' :
  decode_next i d = Ok (t, d') ->
  settings d' = settings d /\ token_ids d' = token_ids d /\ output_text d' = output_text d /\
  dt_output_token_ids d' = dt_output_token_ids d.
Proof.
  unfold decode_next, dt_output_token_ids. destruct (decoder d) as [f|s] eqn:Hdec; intros Hd.
  - apply bind_Ok_inv in Hd as ([t' f'] & _ & [= <- <-]). done.
  - apply bind_Ok_inv in Hd as ([t' s'] & Hs & [= <- <-]). cbn. split_and!; [done..|].
    unfold slow_decode_next in Hs. apply bind_Ok_inv in Hs as (ro & _ & Hs).
    by apply bind_Ok_inv in Hs as ([[[nt dt] po] ro'] & _ & [= <- <-]).
Qed.

(** The place from which [update_token] leaves the text to be searched. *)
Definition next_offset d off : Z :=
  if negb (dt_min_tokens d =? 0) && (py_len (dt_output_token_ids d) <=? dt_min_tokens d)
  then py_len (output_text d) else off.

Lemma update_token_inv i d off d' off' :
  update_token i (d, off) = Ok (d', off') ->
  settings d' = settings d /\ token_ids d' = token_ids d ++ [i] /\
  (exists t, output_text d' = output_text d ++ t) /\ off' = next_offset d' off.
Proof.
  unfold update_token. intros Hu. apply bind_Ok_inv in Hu as ([t d1] & Hd & [= <- <-]).
  apply decode_next_frame in Hd as (Hset & Hids & Htext & _). split_and!; [exact Hset | exact Hids | | done].
  exists t. cbn in *. by rewrite Htext.
Qed.

(** The offset only matters when no token waits for [min_tokens]. *)
Lemma update_token_offset i d off d' off' off2 :
  update_token i (d, off) = Ok (d', off') -> update_token i (d, off2) = Ok (d', next_offset d' off2).
Proof.
  unfold update_token. intros Hu. apply bind_Ok_inv in Hu as ([t d1] & Hd & [= <- <-]). by rewrite Hd.
Qed.

Lemma updates_inv ids d off d' off' :
  for_each update_token ids (d, off) = Ok (d', off') ->
  settings d' = settings d /\ token_ids d' = token_ids d ++ ids /\
  (exists t, output_text d' = output_text d ++ t) /\
  (off' = off \/ py_len (output_text d) <= off' <= py_len (output_text d')).
Proof.
  revert d off; induction ids as [|i ids IH]; intros d off Hf; cbn [for_each] in Hf.
  - injection Hf as <- <-. rewrite app_nil_r. split_and!; [done | done | exists []; by rewrite app_nil_r | by left].
  - apply bind_Ok_inv in Hf as ([d1 o1] & H1 & Hf).
    apply update_token_inv in H1 as (Hs1 & Ht1 & [t1 Ho1] & Hoff1).
    apply IH in Hf as (Hs & Ht & [t2 Ho2] & Hoff). split_and!; [congruence | | |].
    + rewrite Ht, Ht1. by rewrite <- (assoc_L (++)).
    + exists (t1 ++ t2). by rewrite Ho2, Ho1, (assoc_L (++)).
    + assert (Hlen : py_len (output_text d) <= py_len (output_text d1) <= py_len (output_text d')).
      { rewrite Ho2, Ho1. unfold py_len. rewrite !length_app. lia. }
      destruct Hoff as [->|Hoff]; [|right; lia]. unfold next_offset in Hoff1. case_match; [right; lia | by left].
Qed.

(** ** Cutting the tokens into updates *)

Definition prompt_offset d : Z := match decoder d with Fast _ => 0 | Slow s => sd_prompt_len s end.

(** The stop strings are not empty, as SamplingParams demands, and the tokens begin
    with the prompt's where the decoder keeps those. *)
Definition dt_ok d : Prop :=
  Forall (fun s => s <> []) (stop d) /\ 0 <= dt_min_tokens d /\ 0 <= prompt_offset d <= py_len (token_ids d).

Lemma output_count d : 0 <= prompt_offset d <= py_len (token_ids d) ->
  py_len (dt_output_token_ids d) = py_len (token_ids d) - prompt_offset d.
Proof.
  unfold prompt_offset, dt_output_token_ids. destruct (decoder d) as [f|s]; [lia|]. intros Hp.
  destruct (Z.eqb_spec (sd_prompt_len s) 0) as [->|Hne]; [lia|].
  rewrite slice_from_in by lia. unfold py_len in *. rewrite length_drop. lia.
Qed.

Lemma decode_next_prompt i d t d' : decode_next i d = Ok (t, d') -> prompt_offset d' = prompt_offset d.
Proof.
  unfold decode_next, prompt_offset. destruct (decoder d) as [f|s]; intros Hd;
    apply bind_Ok_inv in Hd as ([t' x] & Hs & [= <- <-]); [done|].
  unfold slow_decode_next in Hs. apply bind_Ok_inv in Hs as (ro & _ & Hs).
  by apply bind_Ok_inv in Hs as ([[[nt dt] po] ro'] & _ & [= <- <-]).
Qed.

Lemma update_token_ok i d off d' off' : dt_ok d -> update_token i (d, off) = Ok (d', off') ->
  dt_ok d' /\ 0 < py_len (dt_output_token_ids d').
Proof.
  intros (Hs & Hm & Hp) Hu. pose proof (update_token_inv _ _ _ _ _ Hu) as (Hset & Hids & _).
  assert (Hpo : prompt_offset d' = prompt_offset d).
  { unfold update_token in Hu. apply bind_Ok_inv in Hu as ([t d1] & Hd & [= <- _]).
    by apply decode_next_prompt in Hd. }
  unfold settings in Hset. injection Hset as H1 H2 _ _ _.
  assert (Hlen : py_len (token_ids d') = py_len (token_ids d) + 1).
  { rewrite Hids. unfold py_len. rewrite length_app. cbn. lia. }
  split; [split_and!; [by rewrite H1 | by rewrite H2 | lia | lia]|]. rewrite output_count; lia.
Qed.

(** After some tokens, the text left to be searched is none, or the stop strings
    are evaluated. *)
Lemma updates_evaluated ids d off d' off' :
  dt_ok d -> ids <> [] -> for_each update_token ids (d, off) = Ok (d', off') ->
  dt_ok d' /\ (off' = py_len (output_text d') \/ dt_min_tokens d' < py_len (dt_output_token_ids d')).
Proof.
  revert d off; induction ids as [|i ids IH]; intros d off Hok Hne Hf; [done|]. cbn [for_each] in Hf.
  apply bind_Ok_inv in Hf as ([d1 o1] & H1 & Hf).
  pose proof (update_token_ok _ _ _ _ _ Hok H1) as [Hok1 Hpos].
  destruct ids as [|i' ids]; [|by apply IH in Hf]. injection Hf as -> ->. split; [done|].
  apply update_token_inv in H1 as (_ & _ & _ & ->). unfold next_offset.
  destruct Hok1 as (_ & Hm & _). destruct (Z.eqb_spec (dt_min_tokens d') 0), (Z.leb_spec (py_len (dt_output_token_ids d')) (dt_min_tokens d'));
    cbn; first [by left | right; lia].
Qed.

(** Where the search begins does not influence the decoding. *)
Lemma updates_offset ids d off off2 :
  match for_each update_token ids (d, off) with
  | Ok (d', off') => exists off2', for_each update_token ids (d, off2) = Ok (d', off2') /\
      (off2' = off' \/ (off' = off /\ off2' = off2))
  | Raise e => for_each update_token ids (d, off2) = Raise e
  end.
Proof.
  revert d off off2; induction ids as [|i ids IH]; intros d off off2; cbn [for_each]; [by exists off2; auto|].
  destruct (update_token i (d, off)) as [[d1 o1]|e] eqn:H1; bind_ok.
  - rewrite (update_token_offset _ _ _ _ _ off2 H1). apply update_token_inv in H1 as (_ & _ & _ & ->).
    specialize (IH d1 (next_offset d1 off) (next_offset d1 off2)).
    destruct (for_each update_token ids (d1, next_offset d1 off)) as [[d' off']|e]; [|done].
    destruct IH as (o2 & Hf & Ho). exists o2. split; [done|]. unfold next_offset in *.
    destruct (negb _ && _), Ho as [->|[-> ->]]; auto.
  - unfold update_token in *. destruct (decode_next i _) as [[t d1]|e']; [done|].
    bind_ok. cbn in H1. congruence.
Qed.

Lemma base_update_running ids d :
  base_update ids false d
  = '(d', off) ← for_each update_token ids (d, py_len (output_text d));
    match ids with [] => Ok (None, d) | _ => Ok (evaluate_stop off d') end.
Proof.
  unfold base_update. destruct ids as [|i ids]; [done|]. change (false && _) with false. bind_ok.
  destruct (for_each _ _ _) as [[d' off]|e]; [|done]. by destruct d'; cbn; rewrite app_nil_r.
Qed.

Lemma evaluate_stop_frame off d d' : evaluate_stop off d = (None, d') -> d' = d.
Proof.
  unfold evaluate_stop. case_match; [|by intros [= <-]].
  destruct (check_stop_strings _ _ _ _) as [[s cut]|]; by intros [= <-].
Qed.

(** The stop strings of two updates, after the first found none. *)
Lemma evaluate_stop_merge off d1 t d2 :
  dt_ok d1 -> settings d2 = settings d1 -> output_text d2 = output_text d1 ++ t -> 0 <= off <= py_len (output_text d1) ->
  (off = py_len (output_text d1) \/ dt_min_tokens d1 < py_len (dt_output_token_ids d1)) ->
  evaluate_stop off d1 = (None, d1) ->
  evaluate_stop (py_len (output_text d1)) d2 = evaluate_stop off d2.
Proof.
  intros (Hne & _ & _) Hset Ht Hoff Hev Hnone. destruct Hev as [->|Hev]; [done|].
  unfold settings in Hset. injection Hset as H1 H2 H3 _ _. unfold evaluate_stop in *. rewrite H1, H2, H3 in *.
  case_bool_decide as Hnil; [done|]. cbn [negb andb] in *.
  destruct (Z.ltb_spec (dt_min_tokens d1) (py_len (dt_output_token_ids d1))); [|lia].
  destruct (dt_min_tokens d1 <? _); [|done].
  assert (Hlen : py_len (output_text d2) = py_len (output_text d1) + py_len t).
  { rewrite Ht. unfold py_len. rewrite length_app. lia. }
  rewrite (check_stop_strings_widen _ _ (py_len (output_text d2) - off)); [done | done | unfold py_len in *; lia |].
  intros s j Hs [Hj Hend]. split; [done|]. apply Znot_ge_lt. intros Hin.
  pose proof (check_stop_strings_spec (output_text d1) (py_len (output_text d1) - off) (stop d1)
    (dt_include_stop_str_in_output d1) Hne ltac:(lia)) as Hsp.
  destruct (check_stop_strings (output_text d1) _ _ _) as [[s' cut]|]; [done|]. apply (Hsp s j Hs).
  split; [|lia]. rewrite Ht in Hj. apply occurs_at_app_inv in Hj; [done | lia].
Qed.

(** A stop string that [evaluate_stop] finds ends after the offset. *)
Lemma evaluate_stop_cut off d s d' :
  Forall (fun s => s <> []) (stop d) -> 0 <= off <= py_len (output_text d) -> evaluate_stop off d = (Some s, d') ->
  s ∈ stop d /\ settings d' = settings d /\ exists cut, 0 <= cut /\ output_text d' = take (Z.to_nat cut) (output_text d) /\
    (if dt_include_stop_str_in_output d then off < cut else off < cut + py_len s).
Proof.
  intros Hne Hoff. unfold evaluate_stop. destruct (negb _ && _); [|done].
  pose proof (check_stop_strings_spec (output_text d) (py_len (output_text d) - off) (stop d)
    (dt_include_stop_str_in_output d) Hne ltac:(lia)) as Hsp.
  destruct (check_stop_strings (output_text d) _ _ _) as [[s' cut]|]; [|done]. intros [= -> <-].
  destruct Hsp as (l1 & l2 & j & Hl & _ & [Hj Hend] & _ & ->). apply occurs_at_bound in Hj.
  split; [rewrite Hl; apply elem_of_app; right; by left|]. unfold stop_cut.
  assert (Htake : forall c, 0 <= c -> slice_to c (output_text d) = take (Z.to_nat c) (output_text d)).
  { intros c Hc. unfold slice_to, slice_pos. destruct (Z.ltb_spec c 0); [lia|].
    destruct (decide (c <= Z.of_nat (length (output_text d)))); [by rewrite Z.min_l by lia|].
    rewrite !take_ge by lia. done. }
  destruct (dt_include_stop_str_in_output d) eqn:Hincl.
  - destruct (Z.leb_spec (py_len (output_text d)) (j + py_len s)).
    + split; [by unfold settings; cbn; rewrite ?Hincl|]. exists (py_len (output_text d)). unfold py_len in *. split_and!; [lia | | lia].
      by rewrite take_ge by lia.
    + assert ((j + py_len s =? -1) = false) as -> by (unfold py_len in *; lia).
      split; [by unfold settings; cbn; rewrite ?Hincl|]. exists (j + py_len s). unfold py_len in *. split_and!; [lia | | lia]. apply Htake. lia.
  - assert ((j =? -1) = false) as -> by lia. split; [by unfold settings; cbn; rewrite ?Hincl|]. exists j. split_and!; [lia | by apply Htake; lia | lia].
Qed.

End Runs.

Section Claims.
Context {Tok Stream : Type} `{Tokenizers Tok Stream}.
Implicit Types (d : BaseDetokenizer Tok Stream).

(** The search finds a stop string exactly when one ends in the new text: the
    first of the list that does, at its first such place, and the cut leaves the
    string in or out of the text as asked. *)
Theorem stop_string_found t m stop incl :
  Forall (fun s => s <> []) stop -> 0 <= m ->
  match check_stop_strings t m stop incl with
  | None => forall s j, s ∈ stop -> ~ ends_in_new t m s j
  | Some (s, cut) => exists l1 l2 j, stop = l1 ++ s :: l2 /\
      (forall s' j', s' ∈ l1 -> ~ ends_in_new t m s' j') /\
      ends_in_new t m s j /\ (forall j', ends_in_new t m s j' -> j <= j') /\
      cut = stop_cut t s j incl
  end.
Proof. intros Hne Hm. by apply (check_stop_strings_spec t m stop incl). Qed.

Lemma stop_string_found_witness :
  Forall (fun s : text => s <> []) [[3; 4]] /\
  (forall s j, s ∈ [[3; 4]] -> ~ ends_in_new [1; 3; 4; 5] 1 s j) /\
  check_stop_strings [1; 3; 4] 1 [[3; 4]] false = Some ([3; 4], 1).
Proof.
  split; [by repeat constructor|]. split; [|reflexivity].
  apply (stop_string_found [1; 3; 4; 5] 1 [[3; 4]] false); [by repeat constructor | lia].
Defined.

(** how the engine cuts the tokens into updates does not matter: an update
    that finds no stop string and a second one do what a single update does. *)
Theorem updates_merge a b d d1 :
  dt_ok d -> base_update a false d = Ok (None, d1) -> base_update b false d1 = base_update (a ++ b) false d.
Proof.
  intros Hok Ha. destruct b as [|i' b]; [by rewrite app_nil_r, Ha|]. rewrite base_update_running in Ha. apply bind_Ok_inv in Ha as ([d1' o1] & Hf & Ha).
  destruct a as [|i a]; [by injection Ha as <-|]. assert (Hev : evaluate_stop o1 d1' = (None, d1)) by congruence.
  pose proof (evaluate_stop_frame _ _ _ Hev) as <-.
  destruct (updates_evaluated (i :: a) _ _ _ _ Hok ltac:(done) Hf) as [Hok1 Hsearch].
  pose proof (updates_inv _ _ _ _ _ Hf) as (_ & _ & [t1 Ht1] & Ho1).
  assert (Hlen : 0 <= py_len (output_text d) <= py_len (output_text d1)).
  { rewrite Ht1. unfold py_len. rewrite length_app. lia. }
  rewrite !base_update_running, for_each_app, Hf.
  cbn [app].
  change (Ok (d1, o1) ≫= for_each update_token (i' :: b)) with (for_each update_token (i' :: b) (d1, o1)).
  pose proof (updates_offset (i' :: b) d1 o1 (py_len (output_text d1))) as Hoffs.
  destruct (for_each update_token (i' :: b) (d1, o1)) as [[d2 o2]|e] eqn:Hb; [|by rewrite Hoffs].
  destruct Hoffs as (o2' & -> & [->|[-> ->]]); [done|]. bind_ok. f_equal.
  apply updates_inv in Hb as (Hset & _ & [t2 Ht2] & _).
  apply (evaluate_stop_merge _ _ t2); [done | done | done | lia | done | done].
Qed.

(** ** Streaming *)

(** The number of characters held back covers every proper prefix of a stop
    string that is not to be shown. *)
Definition buffer_ok d : Prop :=
  0 <= stop_buffer_length d /\
  (dt_include_stop_str_in_output d = true -> stop_buffer_length d = 0) /\
  (dt_include_stop_str_in_output d = false -> forall s, s ∈ stop d -> py_len s <= stop_buffer_length d + 1).

(** How much of a text that may go on is kept from the client: one character less than the longest stop string has. *)
Definition held_back (params : SamplingParams) : Z :=
  if include_stop_str_in_output params || bool_decide (stop_list (sp_stop params) = []) then 0
  else foldr Z.max 0 (py_len <$> stop_list (sp_stop params)) - 1.

(** [em] has been handed out: all but the end that is held back. *)
Definition emitted_ok (em : text) d : Prop :=
  last_output_text_offset d = Z.max 0 (py_len (output_text d) - stop_buffer_length d) /\
  em = take (Z.to_nat (last_output_text_offset d)) (output_text d).

Lemma foldr_max_eq (l : list Z) m : m ∈ l -> Forall (fun x => x <= m) l -> m = foldr Z.max 0 l \/ m < 0.
Proof.
  intros Hin Hall. assert (Hle : foldr Z.max 0 l <= Z.max 0 m) by (clear Hin; induction Hall; cbn; lia).
  assert (Hge : m <= foldr Z.max 0 l) by (clear Hall Hle; induction l as [|x l IH]; [by apply elem_of_nil in Hin|];
    apply elem_of_cons in Hin as [->|Hin]; cbn; [lia | specialize (IH Hin); lia]).
  lia.
Qed.

Lemma base_init_ok params dec d :
  base_init params dec = Ok d -> Forall (fun s => s <> []) (stop_list (sp_stop params)) ->
  buffer_ok d /\ emitted_ok [] d /\ Forall (fun s => s <> []) (stop d) /\ stop_buffer_length d = held_back params.
Proof.
  intros Hi Hne. unfold base_init in Hi. apply bind_Ok_inv in Hi as (b & Hb & [= <-]).
  assert (Hbuf : 0 <= b /\ b = held_back params /\ (include_stop_str_in_output params = true -> b = 0) /\
    (include_stop_str_in_output params = false -> forall s, s ∈ stop_list (sp_stop params) -> py_len s <= b + 1)).
  { unfold held_back. destruct (include_stop_str_in_output params); [rewrite andb_false_r in Hb; by injection Hb as <-|].
    case_bool_decide as Hnil; cbn [negb andb] in Hb.
    - injection Hb as <-. rewrite Hnil. split_and!; [lia | done | done | by intros _ s ?%elem_of_nil].
    - apply bind_Ok_inv in Hb as (m & Hm & [= <-]). pose proof (py_max_spec _ _ Hm) as [Hin Hmax].
      apply list_elem_of_fmap in Hin as (s & -> & Hs). rewrite Forall_forall in Hne. rewrite Forall_forall in Hmax.
      assert (0 < py_len s) by (specialize (Hne s Hs); destruct s; [done | unfold py_len; cbn; lia]).
      split_and!; [lia | cbn [orb]; destruct (foldr_max_eq (py_len <$> stop_list (sp_stop params)) (py_len s)); [by apply list_elem_of_fmap_2 | by apply Forall_forall | lia | lia] | done |]. intros _ s' Hs'. apply (list_elem_of_fmap_2 py_len) in Hs'.
      apply Hmax in Hs'. lia. }
  destruct Hbuf as (Hb0 & Heq & Hbuf). split; [by split|]. split; [|done]. split; [|done].
  change (0 = Z.max 0 (0 - b)). lia.
Qed.

(** An update that ends the request leaves what was handed out a prefix of the
    text; one that does not only adds to the text. *)
Lemma base_update_text ids st d s d' :
  Forall (fun s => s <> []) (stop d) -> base_update ids st d = Ok (s, d') ->
  settings d' = settings d /\ exists t cut, 0 <= cut /\
    output_text d' = take (Z.to_nat cut) (output_text d ++ t) /\
    match s with
    | None => cut = py_len (output_text d ++ t)
    | Some s => s ∈ stop d /\
        if dt_include_stop_str_in_output d then py_len (output_text d) < cut
        else py_len (output_text d) < cut + py_len s
    end.
Proof.
  intros Hne Hu. unfold base_update in Hu.
  destruct ids as [|i ids].
  { injection Hu as <- <-. split; [done|]. exists [], (py_len (output_text d)). rewrite app_nil_r.
    unfold py_len. split_and!; [lia | by rewrite take_ge by lia | done]. }
  apply bind_Ok_inv in Hu as ([ids' skipped] & _ & Hu).
  apply bind_Ok_inv in Hu as ([d1 off] & Hf & Hu).
  apply updates_inv in Hf as (Hset & _ & [t Ht] & Hoff).
  assert (Hlen : py_len (output_text d1) = py_len (output_text d) + py_len t).
  { rewrite Ht. unfold py_len. rewrite length_app. lia. }
  assert (0 <= py_len (output_text d) <= off /\ off <= py_len (output_text d1)) by (unfold py_len in *; lia).
  set (d2 := d1 <| token_ids := token_ids d1 ++ skipped |>). assert (Hev : evaluate_stop off d2 = (s, d')) by by injection Hu.
  assert (Hset2 : settings d2 = settings d) by exact Hset. assert (Ht2 : output_text d2 = output_text d1) by done.
  clearbody d2. clear Hu. pose proof Hset2 as Hset3. unfold settings in Hset3. injection Hset3 as H1 _ H3 _ _. destruct s as [s|].
  - apply evaluate_stop_cut in Hev as (Hs & Hset' & cut & Hc & Hcut & Hend);
      [|by rewrite H1 | rewrite Ht2; lia].
    split; [congruence|]. exists t, cut. rewrite Hcut, Ht2, Ht. split_and!; [done | done | by rewrite <- H1 |].
    rewrite H3 in Hend. destruct (dt_include_stop_str_in_output d); lia.
  - apply evaluate_stop_frame in Hev as ->. split; [done|]. exists t, (py_len (output_text d ++ t)).
    unfold py_len in *. split_and!; [lia | | done]. rewrite Ht2, Ht. by rewrite take_ge by lia.
Qed.

Lemma emitted_update em ids st d s d' :
  Forall (fun s => s <> []) (stop d) -> buffer_ok d -> emitted_ok em d -> base_update ids st d = Ok (s, d') ->
  Forall (fun s => s <> []) (stop d') /\ buffer_ok d' /\ 0 <= last_output_text_offset d' <= py_len (output_text d') /\
  (s = None -> last_output_text_offset d' <= Z.max 0 (py_len (output_text d') - stop_buffer_length d')) /\
  em = take (Z.to_nat (last_output_text_offset d')) (output_text d').
Proof.
  intros Hne (Hb & Hbi & Hbe) (Hoff & Hem) Hu.
  apply base_update_text in Hu as (Hset & t & cut & Hc & Htext & Hs); [|done].
  unfold settings in Hset. injection Hset as H1 H2 H3 H4 H5.
  assert (Hcut : last_output_text_offset d <= cut).
  { destruct s as [s|].
    - destruct Hs as [Hs Hend]. destruct (dt_include_stop_str_in_output d); [rewrite Hbi in Hoff by done; unfold py_len in *; lia|].
      specialize (Hbe eq_refl s Hs). lia.
    - subst cut. unfold py_len in *. rewrite length_app. lia. }
  unfold buffer_ok. rewrite H1, H3, H4, H5. split_and!; [done..| lia | | |].
  - rewrite Htext. unfold py_len in *. rewrite length_take, length_app. lia.
  - intros ->. subst cut. rewrite Htext. unfold py_len in *. rewrite length_take, length_app. lia.
  - rewrite Htext, take_take, Hem, Nat.min_l by lia. symmetry. apply take_app_le. unfold py_len in *. lia.
Qed.

(** What the output processor does with the outputs of one request in DELTA mode,
    up to the one that finishes it. *)
Fixpoint stream (events : list (list Z * option FinishReason)) d
    : result (list text * bool * BaseDetokenizer Tok Stream) :=
  match events with
  | [] => Ok ([], false, d)
  | (ids, reason) :: events =>
      '(stop_string, d) ← base_update ids (bool_decide (reason = Some STOP)) d;
      let finished := bool_decide (is_Some stop_string) || bool_decide (is_Some reason) in
      let '(t, d) := base_next_output_text finished true d in
      if finished then Ok ([t], true, d)
      else '(ts, fin, d) ← stream events d; Ok (t :: ts, fin, d)
  end.

Lemma next_text_delta em finished d t d' :
  0 <= stop_buffer_length d -> 0 <= last_output_text_offset d <= py_len (output_text d) ->
  em = take (Z.to_nat (last_output_text_offset d)) (output_text d) ->
  base_next_output_text finished true d = (t, d') ->
  output_text d' = output_text d /\ stop d' = stop d /\ dt_include_stop_str_in_output d' = dt_include_stop_str_in_output d /\
  stop_buffer_length d' = stop_buffer_length d /\
  last_output_text_offset d' = Z.max (last_output_text_offset d)
    (py_len (output_text d) - (if finished then 0 else stop_buffer_length d)) /\
  em ++ t = take (Z.to_nat (last_output_text_offset d')) (output_text d').
Proof.
  intros Hb Ho Hem. unfold base_next_output_text. cbn [negb].
  set (len := py_len (output_text d) - (if finished then 0 else stop_buffer_length d)).
  assert (len <= py_len (output_text d)) by (unfold len; destruct finished; lia).
  destruct (Z.ltb_spec (last_output_text_offset d) len) as [Hlt|Hge]; intros [= <- <-]; cbn.
  - rewrite Z.max_r by lia. split_and!; [done..|]. rewrite slice_in by lia. subst em.
    rewrite <- (take_drop (Z.to_nat (last_output_text_offset d)) (take (Z.to_nat len) (output_text d))) at 2.
    rewrite take_take. by rewrite Nat.min_l by lia.
  - rewrite Z.max_l by lia. split_and!; [done..|]. by rewrite app_nil_r.
Qed.

Lemma stream_text em events d ts fin d' :
  Forall (fun s => s <> []) (stop d) -> buffer_ok d -> emitted_ok em d -> stream events d = Ok (ts, fin, d') ->
  em ++ concat ts = take (Z.to_nat (py_len (output_text d') - if fin then 0 else stop_buffer_length d)) (output_text d').
Proof.
  revert em d ts; induction events as [|[ids reason] events IH]; intros em d ts Hne Hbuf Hem Hs; cbn [stream] in Hs.
  { injection Hs as <- <- <-. destruct Hem as (Hoff & ->). cbn. rewrite app_nil_r, Hoff. f_equal. lia. }
  apply bind_Ok_inv in Hs as ([s d1] & Hu & Hs).
  destruct (emitted_update em _ _ _ _ _ Hne Hbuf Hem Hu) as (Hne1 & Hbuf1 & Ho1 & Hno & Hem1).
  pose proof (proj1 (base_update_text _ _ _ _ _ Hne Hu)) as Hset. unfold settings in Hset. injection Hset as _ _ _ Hb1 _.
  destruct (base_next_output_text _ true d1) as [t d2] eqn:Hn.
  apply (next_text_delta em) in Hn as (Ht2 & Hs2 & Hi2 & Hb2 & Ho2 & Hem2); [|by apply Hbuf1 | done | done].
  destruct (bool_decide (is_Some s) || _) eqn:Hfin.
  - injection Hs as <- <- <-. cbn. rewrite app_nil_r, Hem2, Ho2, Ht2. rewrite !take_ge; [done | unfold py_len in *; lia..].
  - apply bind_Ok_inv in Hs as ([[ts' fin'] d3] & Hst & [= <- <- <-]).
    apply orb_false_iff in Hfin as [Hsn%bool_decide_eq_false _]. apply eq_None_not_Some, Hno in Hsn.
    assert (Hok2 : emitted_ok (em ++ t) d2) by (unfold emitted_ok; rewrite Ht2, Hb2 in *; split; [lia | done]).
    assert (Hbuf2 : buffer_ok d2) by (unfold buffer_ok; by rewrite Hb2, Hi2, Hs2).
    assert (Hne2 : Forall (fun s => s <> []) (stop d2)) by by rewrite Hs2.
    cbn [concat]. rewrite (assoc_L (++)), (IH _ _ _ Hne2 Hbuf2 Hok2 Hst). by rewrite Hb2, Hb1.
Qed.

Lemma prompt_length_ids ids embeds len : prompt_length ids embeds = Ok len ->
  0 <= len /\ forall l, ids = Some l -> len = py_len l.
Proof.
  unfold prompt_length, py_len. intros Hl. repeat case_match; inv_ok; split; try lia; try done; by intros ? [= <-].
Qed.

(** A new detokenizer, for checked sampling parameters. *)
Lemma new_detokenizer_ok tokenizer request params d :
  ecr_sampling_params request = Some params -> Forall (fun s => s <> []) (stop_list (sp_stop params)) ->
  0 <= min_tokens params -> detokenizer_from_new_request tokenizer request = Ok (Detokenizing d) ->
  dt_ok d /\ buffer_ok d /\ emitted_ok [] d /\ stop_buffer_length d = held_back params.
Proof.
  intros Hp Hne Hmin Hr. unfold detokenizer_from_new_request in Hr. rewrite Hp in Hr. cbn [or_raise mbind result_bind] in Hr.
  destruct tokenizer as [tok|]; [|done]. destruct (use_fast_detokenizer && is_pretrained_fast tok).
  - apply bind_Ok_inv in Hr as (f & _ & Hr). apply bind_Ok_inv in Hr as (d1 & Hi & [= <-]).
    pose proof (base_init_ok _ _ _ Hi Hne) as (Hb & He & Hs & Hh). split; [|by split_and!].
    unfold base_init in Hi. apply bind_Ok_inv in Hi as (b & _ & [= <-]). split_and!; done.
  - apply bind_Ok_inv in Hr as ([sd ids] & Hs & Hr). apply bind_Ok_inv in Hr as (d1 & Hi & [= <-]).
    pose proof (base_init_ok _ _ _ Hi Hne) as (Hb & He & Hstop & Hh). split; [|by split_and!].
    unfold base_init in Hi. apply bind_Ok_inv in Hi as (b & _ & [= <-]). split; [done|]. split; [done|].
    unfold slow_init in Hs. apply bind_Ok_inv in Hs as (len & Hlen & Hs). unfold prompt_offset, py_len. cbn.
    apply prompt_length_ids in Hlen as [Hl0 Hl].
    destruct (ecr_prompt_token_ids request) as [[|i l]|];
      try (destruct (convert_prompt_ids_to_tokens _ _ _) as [[tk po] ro]); injection Hs as <- <-;
      cbn [sd_prompt_len]; rewrite ?length_replicate; [lia | | lia].
    specialize (Hl _ eq_refl). unfold py_len in Hl. lia.
Qed.

(** C30: The texts streamed for a request add up to its text, with the stop string cut off or kept as asked, when it
    finishes.  Before, they add up to all of the text so far but its last characters: exactly one fewer than the longest stop
    string has are held back, whatever they are, and none if there are no stop strings or they are to be shown.  Nothing that was
    streamed is ever taken back. *)
Theorem streamed_text_is_final tokenizer request params d events ts fin d' :
  ecr_sampling_params request = Some params -> Forall (fun s => s <> []) (stop_list (sp_stop params)) ->
  0 <= min_tokens params -> detokenizer_from_new_request tokenizer request = Ok (Detokenizing d) ->
  stream events d = Ok (ts, fin, d') ->
  concat ts = if fin then output_text d' else take (Z.to_nat (py_len (output_text d') - held_back params)) (output_text d').
Proof.
  intros Hp Hne Hmin Hr Hs. destruct (new_detokenizer_ok _ _ _ _ Hp Hne Hmin Hr) as ((Hn & _) & Hb & He & Hh).
  pose proof (stream_text [] events d ts fin d' Hn Hb He Hs) as Ht. cbn [app] in Ht. rewrite Ht, Hh. destruct fin; [|done].
  apply take_ge. unfold py_len. lia.
Qed.
End Claims.

(** ** A concrete tokenizer: token [i] is the character [i] *)

#[local] Instance char_tokenizer : Tokenizers unit unit := {
  use_fast_detokenizer := true; is_pretrained_fast := fun _ => true; new_decode_stream := fun _ => tt;
  stream_step := fun _ _ i => (Stepped (Some [i]), tt); rust_decode := fun _ ids => ids;
  added_tokens_decoder := fun _ => []; tok_decode := fun _ ids => Some ids; tok_is_fast := fun _ => true;
  tok_len := fun _ => 256; convert_ids_to_tokens := fun _ ids _ => (fun i => Some [i]) <$> ids;
  convert_tokens_to_string := fun _ l => Ok (concat (default [] <$> l));
  get_added_vocab := fun _ => []; all_special_tokens := fun _ => [] }.

Definition stop_params (l : list text) : SamplingParams := sample_params <| sp_stop := StopList l |>.

Definition sample_engine_request (params : SamplingParams) (ids : option (list Z)) (embeds : option (list string))
    : EngineCoreRequest :=
  mkEngineCoreRequest "r" ids None (Some params) None None fzero None None None embeds 0 0 0 None.

Definition sample_detokenizer (l : list text) : BaseDetokenizer unit unit :=
  match detokenizer_from_new_request (Some tt) (sample_engine_request (stop_params l) (Some [1; 2]) None) with
  | Ok (Detokenizing d) => d
  | _ => mkBaseDetokenizer [] [] 0 false 0 0 [] (Fast (mkFastDecoder true tt tt true false []))
  end.

Lemma updates_merge_witness :
  base_update [5; 6] false (sample_detokenizer [[6; 7]]) = Ok (None, match base_update [5; 6] false (sample_detokenizer [[6; 7]]) with Ok (_, d) => d | _ => sample_detokenizer [] end) /\
  base_update [5; 6; 7] false (sample_detokenizer [[6; 7]])
  = match base_update [5; 6] false (sample_detokenizer [[6; 7]]) with Ok (_, d) => base_update [7] false d | Raise e => Raise e end.
Proof.
  split; [reflexivity|]. symmetry. apply (updates_merge [5; 6] [7] (sample_detokenizer [[6; 7]])); [|reflexivity].
  split; [by repeat constructor|]. repeat split; vm_compute; discriminate.
Defined.

Definition sample_events : list (list Z * option FinishReason) := [([5; 6], None); ([7; 8], None); ([9; 6; 8; 3], None)].

(** The first [n] of them. *)
Definition sample_streamed (n : nat) : BaseDetokenizer unit unit :=
  match stream (take n sample_events) (sample_detokenizer [[6; 8]]) with
  | Ok (_, _, d) => d
  | Raise _ => sample_detokenizer []
  end.

Lemma streamed_text_is_final_witness :
  (stream sample_events (sample_detokenizer [[6; 8]]) = Ok ([[5]; [6; 7]; [8; 9]], true, sample_streamed 3) /\
   concat [[5]; [6; 7]; [8; 9]] = output_text (sample_streamed 3)) /\
  stream (take 2 sample_events) (sample_detokenizer [[6; 8]]) = Ok ([[5]; [6; 7]], false, sample_streamed 2) /\
  output_text (sample_streamed 2) = [5; 6; 7; 8] /\ concat [[5]; [6; 7]] = take 3 [5; 6; 7; 8].
Proof.
  pose proof (streamed_text_is_final (Some tt) (sample_engine_request (stop_params [[6; 8]]) (Some [1; 2]) None)
    (stop_params [[6; 8]]) (sample_detokenizer [[6; 8]])) as H.
  split; [split; [vm_compute; reflexivity|]|split; [vm_compute; reflexivity|split; [vm_compute; reflexivity|]]].
  - apply (H sample_events _ true); [reflexivity | by repeat constructor | done | vm_compute; reflexivity | vm_compute; reflexivity].
  - etransitivity; [apply (H (take 2 sample_events) _ false (sample_streamed 2));
      [reflexivity | by repeat constructor | done | vm_compute; reflexivity | vm_compute; reflexivity] | vm_compute; reflexivity].
Defined.

(** Stop strings are tried in the order of the list: a later one that comes first
    in the text stays in it. *)
Example first_stop_string_stays : check_stop_strings [1; 2; 3; 4] 4 [[4]; [2]] false = Some ([4], 3).
Proof. reflexivity. Qed.

(** A request of prompt embeddings on the slow path has no read offset: its first
    token raises. *)
Example embeddings_raise :
  match slow_init (Stream:=unit) tt (stop_params []) None (Some ["e"]) with
  | Ok (s, ids) => slow_decode_next (Stream:=unit) (ids ++ [5]) s
  | Raise e => Raise e
  end = Raise AttributeError.
Proof. reflexivity. Qed.
