(* ===== verification/Logprobs.v ===== *)
(** * Log probabilities of a request

    [vllm/logprobs.py] and [vllm/v1/engine/logprobs.py].  A container of log
    probabilities is a list of dictionaries or, when VLLM_FLAT_LOGPROBS is set, the
    flat columns of [FlatLogprobs].  Rows of numpy arrays and torch tensors are
    opaque; [TensorRows] has what [tolist] and [shape] say of them. *)

From S2P Require Import Prelude PyDict PyList PyInt PyText PyFloat Request Outputs Detokenizer.
#[local] Open Scope Z_scope.

Record Logprob := mkLogprob {
  logprob : float;
  rank : option Z;
  decoded_token : option text;
}.

Abbreviation LogprobsOnePosition := (dict Z Logprob).

(** ** FlatLogprobs *)

Record FlatLogprobs := mkFlatLogprobs {
  start_indices : list Z;
  end_indices : list Z;
  fl_token_ids : list Z;
  fl_logprobs : list float;
  fl_ranks : list (option Z);
  fl_decoded_tokens : list (option text);
}.

Definition flat_empty : FlatLogprobs := mkFlatLogprobs [] [] [] [] [] [].

(** A row: a token with its log probability, rank and text. *)
Abbreviation Row := (Z * Logprob)%type.

(** The rows of the next position go to the end of the columns. *)
Definition flat_add_rows (rows : list Row) (f : FlatLogprobs) : FlatLogprobs := {|
  start_indices := start_indices f ++ [py_len (fl_logprobs f)];
  end_indices := end_indices f ++ [py_len (fl_logprobs f ++ ((fun r => logprob r.2) <$> rows))];
  fl_token_ids := fl_token_ids f ++ rows.*1;
  fl_logprobs := fl_logprobs f ++ ((fun r => logprob r.2) <$> rows);
  fl_ranks := fl_ranks f ++ ((fun r => rank r.2) <$> rows);
  fl_decoded_tokens := fl_decoded_tokens f ++ ((fun r => decoded_token r.2) <$> rows) |}.

Definition flat_append (logprobs_one_position : option LogprobsOnePosition) (f : FlatLogprobs) : FlatLogprobs :=
  flat_add_rows (default [] logprobs_one_position) f.

(** [zip(token_ids, logprobs, ranks, decoded_tokens)]; no decoded tokens stands for
    an endless supply of None. *)
Fixpoint zip_rows (token_ids : list Z) (logprobs : list float) (ranks : list Z) (decoded_tokens : option (list text))
    : list Row :=
  match token_ids, logprobs, ranks, decoded_tokens with
  | t :: token_ids, l :: logprobs, r :: ranks, None =>
      (t, mkLogprob l (Some r) None) :: zip_rows token_ids logprobs ranks None
  | t :: token_ids, l :: logprobs, r :: ranks, Some (d :: decoded_tokens) =>
      (t, mkLogprob l (Some r) (Some d)) :: zip_rows token_ids logprobs ranks (Some decoded_tokens)
  | _, _, _, _ => []
  end.

Definition flat_append_fast (token_ids : list Z) (logprobs : list float) (ranks : list Z)
    (decoded_tokens : option (list text)) (f : FlatLogprobs) : FlatLogprobs :=
  flat_add_rows (zip_rows token_ids logprobs ranks decoded_tokens) f.

Definition flat_len (f : FlatLogprobs) : Z := py_len (start_indices f).

(** A dictionary comprehension over rows: a later row of a token overwrites. *)
Definition dict_of_rows (rows : list Row) : LogprobsOnePosition := fold_left (fun d r => dset r.1 r.2 d) rows [].

(** The row at a place of the columns. *)
Definition flat_row (f : FlatLogprobs) (i : Z) : result Row :=
  t ← py_index (fl_token_ids f) i;
  l ← py_index (fl_logprobs f) i;
  r ← py_index (fl_ranks f) i;
  d ← py_index (fl_decoded_tokens f) i;
  Ok (t, mkLogprob l r d).

(** [self[index]] for an int. *)
Definition flat_getitem (f : FlatLogprobs) (index : Z) : result LogprobsOnePosition :=
  a ← py_index (start_indices f) index;
  b ← py_index (end_indices f) index;
  rows ← mapM (flat_row f) (py_range a b);
  Ok (dict_of_rows rows).

(** [self[a:b]]; the bounds [sl] of the slice are applied to both index lists. *)
Definition flat_getslice (sl : forall A : Type, list A -> list A) (f : FlatLogprobs) : result FlatLogprobs :=
  min_index ← py_index (sl Z (start_indices f)) 0;
  max_index ← py_index (sl Z (end_indices f)) (-1);
  Ok {| start_indices := (fun i => i - min_index) <$> sl Z (start_indices f);
        end_indices := (fun i => i - min_index) <$> sl Z (end_indices f);
        fl_token_ids := slice min_index max_index (fl_token_ids f);
        fl_logprobs := slice min_index max_index (fl_logprobs f);
        fl_ranks := slice min_index max_index (fl_ranks f);
        fl_decoded_tokens := slice min_index max_index (fl_decoded_tokens f) |}.

(** [__iter__]. *)
Definition flat_positions (f : FlatLogprobs) : result (list LogprobsOnePosition) :=
  mapM (flat_getitem f) (py_range 0 (flat_len f)).

(** ** Containers *)

Inductive LogprobContainer :=
| FlatC (f : FlatLogprobs)
| ListC (l : list (option LogprobsOnePosition)).

Definition container_len (c : LogprobContainer) : Z :=
  match c with FlatC f => flat_len f | ListC l => py_len l end.

Definition container_positions (c : LogprobContainer) : result (list (option LogprobsOnePosition)) :=
  match c with
  | FlatC f => l ← flat_positions f; Ok (fmap (M:=list) Some l)
  | ListC l => Ok l
  end.

(** [c.extend(other)]. *)
Definition container_extend (c other : LogprobContainer) : result LogprobContainer :=
  l ← container_positions other;
  Ok match c with
     | FlatC f => FlatC (fold_left (fun f p => flat_append p f) l f)
     | ListC l0 => ListC (l0 ++ l)
     end.

(** [c[n:]]. *)
Definition container_from (n : Z) (c : LogprobContainer) : result LogprobContainer :=
  match c with
  | FlatC f => f ← flat_getslice (fun A => slice_from n) f; Ok (FlatC f)
  | ListC l => Ok (ListC (slice_from n l))
  end.

Definition create_sample_logprobs (flat : bool) : LogprobContainer := if flat then FlatC flat_empty else ListC [].

Definition create_prompt_logprobs (flat : bool) : LogprobContainer :=
  if flat then FlatC (flat_append None flat_empty) else ListC [None].

Definition append_logprobs_for_next_position (token_ids : list Z) (logprobs : list float)
    (decoded_tokens : option (list text)) (rank num_logprobs : Z) (c : LogprobContainer) : LogprobContainer :=
  let num_logprobs := if num_logprobs =? -1 then py_len logprobs else num_logprobs in
  let ranks := rank :: py_range 1 (num_logprobs + 1) in
  match c with
  | FlatC f => FlatC (flat_append_fast token_ids logprobs ranks decoded_tokens f)
  | ListC l => ListC (l ++ [Some (dict_of_rows (zip_rows token_ids logprobs ranks decoded_tokens))])
  end.

(** ** LogprobsProcessor *)

Class TensorRows := {
  row_ints : opaque -> list Z;
  row_floats : opaque -> list float;
  row_int : opaque -> Z;
  prompt_tensors : opaque -> list (list Z) * list (list float) * list Z;
  prompt_tensors_shape : opaque -> Z * Z;
}.

Record LogprobsProcessor (Tok : Type) := mkLogprobsProcessor {
  lpr_tokenizer : option Tok;
  lpr_logprobs : option LogprobContainer;
  lpr_prompt_logprobs : option LogprobContainer;
  cumulative_logprob : option float;
  num_logprobs : option Z;
  num_prompt_logprobs : option Z;
}.
Arguments mkLogprobsProcessor {Tok}.
Arguments lpr_tokenizer {Tok} _.
Arguments lpr_logprobs {Tok} _.
Arguments lpr_prompt_logprobs {Tok} _.
Arguments cumulative_logprob {Tok} _.
Arguments num_logprobs {Tok} _.
Arguments num_prompt_logprobs {Tok} _.

#[export] Instance eta_LogprobsProcessor {Tok} : Eta (LogprobsProcessor Tok) := fun p =>
  mkLogprobsProcessor (lpr_tokenizer p) (lpr_logprobs p) (lpr_prompt_logprobs p) (cumulative_logprob p)
    (num_logprobs p) (num_prompt_logprobs p).

Section Processor.
Context {Tok Stream : Type} `{Tokenizers Tok Stream} `{TensorRows}.
(** VLLM_FLAT_LOGPROBS. *)
Context (flat_logprobs : bool).
Implicit Types (p : LogprobsProcessor Tok).

Definition logprobs_from_new_request (tokenizer : option Tok) (request : EngineCoreRequest)
    : result (LogprobsProcessor Tok) :=
  params ← or_raise AssertionError (ecr_sampling_params request);
  Ok {| lpr_tokenizer := tokenizer;
        lpr_logprobs := (fun _ => create_sample_logprobs flat_logprobs) <$> logprobs params;
        lpr_prompt_logprobs := (fun _ => create_prompt_logprobs flat_logprobs) <$> prompt_logprobs params;
        cumulative_logprob := (fun _ => fzero) <$> logprobs params;
        num_logprobs := logprobs params; num_prompt_logprobs := prompt_logprobs params |}.

(** One sampled token of [_update_sample_logprobs]. *)
Definition update_sample_row (row : opaque * opaque * opaque) p : result (LogprobsProcessor Tok) :=
  let '(rank_np, logprobs_np, token_ids_np) := row in
  n ← or_raise AssertionError (num_logprobs p);
  c ← or_raise AssertionError (lpr_logprobs p);
  cum ← or_raise AssertionError (cumulative_logprob p);
  let logprobs := row_floats logprobs_np in
  let token_ids := row_ints token_ids_np in
  let decoded_tokens := (fun tok => convert_ids_list_to_tokens tok token_ids) <$> lpr_tokenizer p in
  sampled_token_logprob ← py_index logprobs 0;
  Ok (p <| cumulative_logprob := Some (fadd cum sampled_token_logprob) |>
        <| lpr_logprobs := Some (append_logprobs_for_next_position token_ids logprobs decoded_tokens
                                   (row_int rank_np) n c) |>).

Definition update_sample_logprobs (logprobs_lists : LogprobsLists) p : result (LogprobsProcessor Tok) :=
  _ ← or_raise AssertionError (num_logprobs p);
  _ ← or_raise AssertionError (lpr_logprobs p);
  _ ← or_raise AssertionError (cumulative_logprob p);
  for_each update_sample_row
    (zip (zip (sampled_token_ranks logprobs_lists) (lp_logprobs logprobs_lists)) (logprob_token_ids logprobs_lists)) p.

(** One position of [_update_prompt_logprobs]. *)
Definition update_prompt_pos (n num_lps : Z) (tensors : list (list Z) * list (list float) * list Z)
    (decoded_tokens : option (list text)) (pos : Z) (c : LogprobContainer) : result LogprobContainer :=
  let '(token_ids, logprobs, ranks) := tensors in
  let offset := pos * num_lps in
  ids ← py_index token_ids pos;
  lps ← py_index logprobs pos;
  rank ← py_index ranks pos;
  Ok (append_logprobs_for_next_position ids lps (slice offset (offset + num_lps) <$> decoded_tokens) rank n c).

Definition update_prompt_logprobs (prompt_logprobs_tensors : opaque) p : result (LogprobsProcessor Tok) :=
  n ← or_raise AssertionError (num_prompt_logprobs p);
  c ← or_raise AssertionError (lpr_prompt_logprobs p);
  let '(token_ids, _, _) := prompt_tensors prompt_logprobs_tensors in
  let decoded_tokens := (fun tok => convert_ids_list_to_tokens tok (concat token_ids)) <$> lpr_tokenizer p in
  let '(num_prompt_tokens, num_lps) := prompt_tensors_shape prompt_logprobs_tensors in
  c ← for_each (update_prompt_pos n num_lps (prompt_tensors prompt_logprobs_tensors) decoded_tokens)
        (py_range 0 num_prompt_tokens) c;
  Ok (p <| lpr_prompt_logprobs := Some c |>).

Definition pop_prompt_logprobs p : option LogprobContainer * LogprobsProcessor Tok :=
  let plp := lpr_prompt_logprobs p in
  match plp with
  | Some c => if container_len c =? 0 then (plp, p) else (plp, p <| lpr_prompt_logprobs := Some (ListC []) |>)
  | None => (plp, p)
  end.

Definition lpr_update_from_output (output : EngineCoreOutput) p : result (LogprobsProcessor Tok) :=
  p ← match new_logprobs output with Some l => update_sample_logprobs l p | None => Ok p end;
  match new_prompt_logprobs_tensors output with Some t => update_prompt_logprobs t p | None => Ok p end.
End Processor.

(** ** The flat container is the list of dictionaries

    [flatten parts] is the container whose positions have the rows [parts]. *)

Definition flatten (parts : list (list Row)) : FlatLogprobs := fold_left (fun f rows => flat_add_rows rows f) parts flat_empty.

Lemma flatten_app parts rows : flatten (parts ++ [rows]) = flat_add_rows rows (flatten parts).
Proof. unfold flatten. by rewrite fold_left_app. Qed.

(** The columns and the bounds, in closed form. *)
Lemma flatten_columns parts :
  fl_token_ids (flatten parts) = (concat parts).*1 /\
  fl_logprobs (flatten parts) = (fun r => logprob r.2) <$> concat parts /\
  fl_ranks (flatten parts) = (fun r => rank r.2) <$> concat parts /\
  fl_decoded_tokens (flatten parts) = (fun r => decoded_token r.2) <$> concat parts /\
  length (start_indices (flatten parts)) = length parts /\
  length (end_indices (flatten parts)) = length parts.
Proof.
  induction parts as [|rows parts (H1 & H2 & H3 & H4 & H5 & H6)] using rev_ind; [done|].
  rewrite flatten_app, concat_app. cbn [concat]. rewrite app_nil_r, !fmap_app. cbn.
  rewrite H1, H2, H3, H4, !length_app, H5, H6. done.
Qed.

Lemma flatten_bounds parts i rows :
  parts !! i = Some rows ->
  start_indices (flatten parts) !! i = Some (py_len (concat (take i parts))) /\
  end_indices (flatten parts) !! i = Some (py_len (concat (take (S i) parts))).
Proof.
  induction parts as [|rows' parts IH] using rev_ind; [done|]. intros Hi.
  destruct (flatten_columns parts) as (_ & Hl & _ & _ & Hs & He). rewrite flatten_app. cbn.
  rewrite Hl, <- fmap_app. unfold py_len. rewrite !length_fmap.
  destruct (decide (i < length parts)%nat) as [Hlt|Hge].
  - rewrite lookup_app_l in Hi by done. rewrite !lookup_app_l by lia.
    destruct (IH Hi) as [-> ->]. rewrite !take_app_le by lia. done.
  - pose proof (lookup_lt_Some _ _ _ Hi) as Hi'. rewrite length_app in Hi'. cbn in Hi'.
    assert (i = length parts) as -> by lia.
    rewrite take_app_length, take_ge by (rewrite length_app; cbn; lia).
    rewrite !lookup_app_r, Hs, He, Nat.sub_diag by lia. rewrite concat_app. cbn [concat]. by rewrite app_nil_r.
Qed.

Lemma flatten_split p1 p2 :
  start_indices (flatten (p1 ++ p2))
  = start_indices (flatten p1) ++ ((fun i => i + py_len (concat p1)) <$> start_indices (flatten p2)) /\
  end_indices (flatten (p1 ++ p2))
  = end_indices (flatten p1) ++ ((fun i => i + py_len (concat p1)) <$> end_indices (flatten p2)).
Proof.
  induction p2 as [|rows p2 [IHs IHe]] using rev_ind; [by rewrite !app_nil_r|].
  rewrite (assoc_L (++)), !flatten_app. cbn.
  destruct (flatten_columns (p1 ++ p2)) as (_ & -> & _), (flatten_columns p2) as (_ & -> & _).
  rewrite IHs, IHe, !fmap_app, <- !(assoc_L (++)). unfold py_len. rewrite concat_app.
  rewrite !length_app, !length_fmap, !length_app. cbn. split; do 2 f_equal; apply (f_equal (fun x => [x])); lia.
Qed.

Lemma mapM_rows parts k n rows :
  take n (drop k (concat parts)) = rows -> length rows = n ->
  mapM (flat_row (flatten parts)) (seqZ (Z.of_nat k) (Z.of_nat n)) = Ok rows.
Proof.
  intros Hrows Hn. apply mapM_Ok, Forall2_same_length_lookup. split; [rewrite length_seqZ; lia|].
  intros i x row Hx Hrow. apply lookup_seqZ in Hx as [-> Hi].
  assert (Hc : concat parts !! (k + i)%nat = Some row).
  { rewrite <- Hrows in Hrow. apply lookup_take_Some in Hrow as [Hrow _]. by rewrite lookup_drop in Hrow. }
  unfold flat_row. destruct (flatten_columns parts) as (-> & -> & -> & -> & _).
  assert (Hidx : forall {A} (f : Row -> A), py_index (f <$> concat parts) (Z.of_nat k + Z.of_nat i) = Ok (f row)).
  { intros A f. apply py_index_Some; [lia|]. rewrite list_lookup_fmap.
    replace (Z.to_nat (Z.of_nat k + Z.of_nat i)) with (k + i)%nat by lia. by rewrite Hc. }
  rewrite (Hidx _ fst), (Hidx _ (fun r => logprob r.2)), (Hidx _ (fun r => rank r.2)), (Hidx _ (fun r => decoded_token r.2)).
  by destruct row as [t [l r d]].
Qed.

Lemma flat_getitem_flatten parts i :
  flat_getitem (flatten parts) i = (rows ← py_index parts i; Ok (dict_of_rows rows)).
Proof.
  unfold flat_getitem, py_index.
  destruct (flatten_columns parts) as (_ & _ & _ & _ & Hs & He). rewrite Hs, He.
  destruct (_ || _); [done|]. set (j := Z.to_nat _). clearbody j.
  destruct (parts !! j) as [rows|] eqn:Hj.
  - destruct (flatten_bounds _ _ _ Hj) as [-> ->]. cbn [or_raise mbind result_bind].
    rewrite (take_S_r _ _ _ Hj), concat_app. cbn [concat]. rewrite app_nil_r. unfold py_range, py_len.
    rewrite length_app. replace (_ - _) with (Z.of_nat (length rows)) by lia.
    rewrite (mapM_rows _ _ _ rows); [done | | done].
    rewrite <- (take_drop_middle _ _ _ Hj) at 2. rewrite concat_app. cbn [concat].
    by rewrite drop_app_length, take_app_length.
  - apply lookup_ge_None in Hj. assert (start_indices (flatten parts) !! j = None) as ->; [|done].
    apply lookup_ge_None. lia.
Qed.

(** A slice takes the same places of all lists of one length. *)
Lemma flat_getslice_middle (sl : forall A, list A -> list A) p1 p2 p3 :
  (forall A (l1 l2 l3 : list A), length l1 = length p1 -> length l2 = length p2 -> length l3 = length p3 ->
    sl A (l1 ++ l2 ++ l3) = l2) ->
  flat_getslice sl (flatten (p1 ++ p2 ++ p3)) = match p2 with [] => Raise IndexError | _ => Ok (flatten p2) end.
Proof.
  intros Hsl. pose proof (flatten_split p1 (p2 ++ p3)) as [Hs He]. pose proof (flatten_split p2 p3) as [Hs' He'].
  rewrite Hs', fmap_app in Hs. rewrite He', fmap_app in He.
  destruct (flatten_columns p1) as (_ & _ & _ & _ & Ls1 & Le1), (flatten_columns p2) as (Ct & Cl & Cr & Cd & Ls2 & Le2),
    (flatten_columns p3) as (_ & _ & _ & _ & Ls3 & Le3), (flatten_columns (p1 ++ p2 ++ p3)) as (Dt & Dl & Dr & Dd & _).
  unfold flat_getslice. rewrite Hs, He, !Hsl by (rewrite ?length_fmap; lia).
  destruct p2 as [|rows p2'] eqn:Hp2; [done|]. rewrite <- Hp2 in *. clear Hs He Hs' He'.
  assert (Hfirst : start_indices (flatten p2) !! 0%nat = Some 0).
  { destruct (flatten_bounds p2 0 rows) as [Hb _]; [by rewrite Hp2 | exact Hb]. }
  assert (Hlast : last (end_indices (flatten p2)) = Some (py_len (concat p2))).
  { rewrite last_lookup, Le2. destruct (lookup_lt_is_Some_2 p2 (pred (length p2))) as [r Hr]; [rewrite Hp2; cbn; lia|].
    destruct (flatten_bounds p2 _ _ Hr) as [_ ->]. rewrite take_ge by lia. done. }
  set (L := py_len (concat p1)). assert (HL : 0 <= L) by (unfold L, py_len; lia).
  assert (Hmin : py_index ((fun i => i + L) <$> start_indices (flatten p2)) 0 = Ok (0 + L)).
  { apply py_index_Some; [done|]. change (Z.to_nat 0) with 0%nat. by rewrite list_lookup_fmap, Hfirst. }
  assert (Hmax : py_index ((fun i => i + L) <$> end_indices (flatten p2)) (-1) = Ok (py_len (concat p2) + L)).
  { rewrite last_lookup in Hlast. assert (length (end_indices (flatten p2)) <> 0)%nat by (rewrite Le2, Hp2; cbn; lia).
    unfold py_index. cbn [Z.ltb]. change (-1 <? 0) with true. cbn [andb orb]. rewrite length_fmap.
    destruct (Z.ltb_spec (Z.of_nat (length (end_indices (flatten p2))) + -1) 0); [lia|].
    destruct (Z.leb_spec (Z.of_nat (length (end_indices (flatten p2))))
      (Z.of_nat (length (end_indices (flatten p2))) + -1)); [lia|].
    cbn [orb]. rewrite list_lookup_fmap.
    replace (Z.to_nat _) with (pred (length (end_indices (flatten p2)))) by lia. by rewrite Hlast. }
  rewrite Hmin, Hmax. cbn [mbind result_bind].
  assert (Hsub : forall l : list Z, (fun i => i - (0 + L)) <$> ((fun i => i + L) <$> l) = l).
  { intros l. rewrite <- list_fmap_compose. rewrite <- (list_fmap_id l) at 2. apply list_fmap_ext. intros; cbn; lia. }
  assert (Hcol : forall {A} (f : Row -> A), slice (0 + L) (py_len (concat p2) + L) (f <$> concat (p1 ++ p2 ++ p3))
    = f <$> concat p2).
  { intros A f. rewrite !concat_app, !fmap_app. rewrite slice_in; unfold L, py_len in *;
      [|lia | rewrite !length_app, !length_fmap; lia].
    replace (Z.to_nat (Z.of_nat (length (concat p2)) + Z.of_nat (length (concat p1))))
      with (length (f <$> concat p1) + length (f <$> concat p2))%nat by (rewrite !length_fmap; lia).
    replace (Z.to_nat (0 + Z.of_nat (length (concat p1)))) with (length (f <$> concat p1)) by (rewrite length_fmap; lia).
    by rewrite take_app_add, take_app_length, drop_app_length. }
  rewrite !Hsub, Dt, Dl, Dr, Dd, !Hcol, <- Ct, <- Cl, <- Cr, <- Cd. by destruct (flatten p2).
Qed.

Lemma flat_from_flatten n parts :
  flat_getslice (fun A => slice_from n) (flatten parts)
  = match slice_from n parts with [] => Raise IndexError | ps => Ok (flatten ps) end.
Proof.
  set (k := slice_pos n (length parts)). assert (Hk : (k <= length parts)%nat) by apply slice_pos_le.
  rewrite <- (take_drop k parts) at 1. rewrite <- (app_nil_r (drop k parts)) at 1.
  rewrite flat_getslice_middle; [unfold slice_from; fold k; by destruct (drop k parts)|].
  intros A l1 l2 l3 H1 H2 H3. destruct l3; [|done]. rewrite app_nil_r. unfold slice_from.
  rewrite length_app, H1, H2, <- length_app, take_drop. fold k. rewrite length_take, Nat.min_l in H1 by done.
  by rewrite <- H1, drop_app_length.
Qed.

Lemma py_index_Forall2 {A B} (R : A -> B -> Prop) l k i :
  Forall2 R l k ->
  match py_index l i, py_index k i with
  | Ok x, Ok y => R x y
  | Raise e, Raise e' => e = e'
  | _, _ => False
  end.
Proof.
  intros Hf. pose proof (Forall2_length _ _ _ Hf) as Hlen. unfold py_index. rewrite Hlen. destruct (_ || _); [done|].
  set (j := Z.to_nat _). clearbody j. destruct (l !! j) as [x|] eqn:Hx.
  - by destruct (Forall2_lookup_l _ _ _ _ _ Hf Hx) as (y & -> & Hxy).
  - apply lookup_ge_None in Hx. rewrite Hlen in Hx. by apply lookup_ge_None in Hx as ->.
Qed.

Lemma flat_positions_flatten parts : flat_positions (flatten parts) = Ok (dict_of_rows <$> parts).
Proof.
  unfold flat_positions, flat_len, py_len, py_range. destruct (flatten_columns parts) as (_ & _ & _ & _ & -> & _).
  apply mapM_Ok, Forall2_same_length_lookup. split; [rewrite length_seqZ, length_fmap; lia|].
  intros i x d Hx Hd. apply lookup_seqZ in Hx as [-> Hi]. apply list_lookup_fmap_Some in Hd as (rows & -> & Hrows).
  rewrite flat_getitem_flatten, (py_index_Some _ _ rows); [done | lia |].
  by replace (Z.to_nat (0 + Z.of_nat i)) with i by lia.
Qed.

(** [l] has the dictionaries of the rows [parts]. *)
Definition list_of_parts (l : list (option LogprobsOnePosition)) (parts : list (list Row)) : Prop :=
  Forall2 (fun o rows => default [] o = dict_of_rows rows) l parts.

Lemma list_of_parts_map l parts : list_of_parts l parts -> Some <$> (dict_of_rows <$> parts) = (fun o => Some (default [] o)) <$> l.
Proof. induction 1 as [|o rows l parts Ho _ IH]; [done|]. cbn. by rewrite Ho, IH. Qed.

(** appending the same positions to a flat container and to a list of
    dictionaries gives containers that answer alike: the length, every index, every
    suffix, except that the flat one refuses an empty suffix. *)
Theorem flat_logprobs_like_list (prompt : bool) positions :
  let add c p := let '(ids, lps, decoded, rank, num) := p in append_logprobs_for_next_position ids lps decoded rank num c in
  let create flat := if prompt then create_prompt_logprobs flat else create_sample_logprobs flat in
  exists f l, fold_left add positions (create true) = FlatC f /\ fold_left add positions (create false) = ListC l /\
    flat_len f = py_len l /\
    (forall i, flat_getitem f i = (o ← py_index l i; Ok (default ([] : LogprobsOnePosition) o))) /\
    (forall n, match container_from n (FlatC f) with
               | Ok c => container_positions c = Ok ((fun o => Some (default [] o)) <$> slice_from n l)
               | Raise e => e = IndexError /\ slice_from n l = []
               end).
Proof.
  intros add create.
  assert (Hrep : exists parts l, fold_left add positions (create true) = FlatC (flatten parts) /\
    fold_left add positions (create false) = ListC l /\ list_of_parts l parts).
  { assert (exists parts l, create true = FlatC (flatten parts) /\ create false = ListC l /\ list_of_parts l parts)
      as (parts & l & -> & -> & Hl).
    { unfold create. destruct prompt; [exists [[]], [None] | exists [], []]; by repeat constructor. }
    revert parts l Hl; induction positions as [|[[[[ids lps] decoded] rk] num] ps IH]; intros parts l Hl; [eauto|].
    cbn [fold_left]. unfold add at 2 4. cbn [append_logprobs_for_next_position]. unfold flat_append_fast.
    rewrite <- flatten_app. apply IH. apply Forall2_app; [done|]. by repeat constructor. }
  destruct Hrep as (parts & l & Hf & Hl & Hrep). exists (flatten parts), l. split_and!; [done | done | | |].
  - unfold flat_len, py_len. destruct (flatten_columns parts) as (_ & _ & _ & _ & -> & _).
    f_equal. symmetry. exact (Forall2_length _ _ _ Hrep).
  - intros i. rewrite flat_getitem_flatten. pose proof (py_index_Forall2 (A:=option LogprobsOnePosition) _ _ _ i Hrep) as Hi.
    destruct (py_index l i), (py_index parts i); [| done | done | by rewrite Hi].
    change (Ok (dict_of_rows a0) = Ok (default [] a)). by rewrite Hi.
  - intros n. cbn [container_from]. rewrite flat_from_flatten.
    assert (Hsl : list_of_parts (slice_from n l) (slice_from n parts)).
    { unfold slice_from. replace (length l) with (length parts) by (symmetry; exact (Forall2_length _ _ _ Hrep)).
      by apply Forall2_drop. }
    destruct (slice_from n parts) as [|rows ps] eqn:Hps; cbn [mbind result_bind container_positions].
    + by apply Forall2_nil_inv_r in Hsl.
    + rewrite flat_positions_flatten. cbn [mbind result_bind]. by rewrite (list_of_parts_map _ _ Hsl).
Qed.
