(* ===== verification/RequestOutput.v ===== *)
(** * Request outputs and their hand-off

    [CompletionOutput] and [RequestOutput] (vllm/outputs.py) with the merge
    [RequestOutput.add], and [RequestOutputCollector]
    (vllm/v1/engine/output_processor.py), which the output processor fills and the
    task of a request empties.  Outputs are values; [RequestOutput.metrics], a
    reference to the request's statistics, is left out, and so are the fields that
    the front end leaves at their defaults. *)

From S2P Require Import Prelude PyDict PyList PyInt PyStr PyText PyFloat Request Outputs Detokenizer Logprobs.
#[local] Open Scope Z_scope.

(** A stop token's id or a text. *)
Inductive StopReason := StopToken (id : Z) | StopText (t : text).

Definition stop_reason_of (r : int_or_str) : StopReason :=
  match r with IntOf id => StopToken id | StrOf s => StopText (text_of_string s) end.

Record CompletionOutput := mkCompletionOutput {
  co_index : Z;
  co_text : text;
  co_token_ids : list Z;
  co_cumulative_logprob : option float;
  co_logprobs : option LogprobContainer;
  co_finish_reason : option FinishReason;
  co_stop_reason : option StopReason;
  co_final_score : option float;
  co_score_history : option (list float);
}.

#[export] Instance eta_CompletionOutput : Eta CompletionOutput := fun c =>
  mkCompletionOutput (co_index c) (co_text c) (co_token_ids c) (co_cumulative_logprob c) (co_logprobs c)
    (co_finish_reason c) (co_stop_reason c) (co_final_score c) (co_score_history c).

Definition co_finished (c : CompletionOutput) : bool := bool_decide (is_Some (co_finish_reason c)).

(** The list of completions is the aggregator of a parallel request when there is
    one, whose places hold None until they are filled. *)
Record RequestOutput := mkRequestOutput {
  ro_request_id : string;
  ro_prompt : option text;
  ro_prompt_token_ids : option (list Z);
  ro_prompt_logprobs : option LogprobContainer;
  ro_outputs : list (option CompletionOutput);
  ro_finished : bool;
  ro_kv_transfer_params : option opaque;
  ro_num_cached_tokens : Z;
  ro_final_score : option float;
}.

#[export] Instance eta_RequestOutput : Eta RequestOutput := fun r =>
  mkRequestOutput (ro_request_id r) (ro_prompt r) (ro_prompt_token_ids r) (ro_prompt_logprobs r) (ro_outputs r)
    (ro_finished r) (ro_kv_transfer_params r) (ro_num_cached_tokens r) (ro_final_score r).

Record PoolingRequestOutput := mkPoolingRequestOutput {
  pro_request_id : string;
  pro_data : opaque;
  pro_num_cached_tokens : Z;
  pro_prompt_token_ids : list Z;
  pro_finished : bool;
}.

(** ** Merging *)

(** [if next.logprobs: assert c.logprobs is not None; c.logprobs.extend(...)]. *)
Definition merge_logprobs (c next : option LogprobContainer) : result (option LogprobContainer) :=
  match next with
  | Some n =>
      if container_len n =? 0 then Ok c
      else c ← or_raise AssertionError c; c ← container_extend c n; Ok (Some c)
  | None => Ok c
  end.

Definition merge_completion (next c : CompletionOutput) : result CompletionOutput :=
  lps ← merge_logprobs (co_logprobs c) (co_logprobs next);
  Ok (c <| co_text := co_text c ++ co_text next |>
        <| co_token_ids := co_token_ids c ++ co_token_ids next |>
        <| co_logprobs := lps |>
        <| co_cumulative_logprob := co_cumulative_logprob next |>
        <| co_finish_reason := co_finish_reason next |>
        <| co_stop_reason := co_stop_reason next |>).

(** The loop over the completions there are: the first with the index is merged
    or replaced; with none, the new one goes to the end. *)
Fixpoint add_completion (aggregate : bool) (next : CompletionOutput) (outs : list (option CompletionOutput))
    : result (list (option CompletionOutput)) :=
  match outs with
  | [] => Ok [Some next]
  | o :: outs =>
      c ← or_raise AttributeError o;
      if co_index c =? co_index next then
        if aggregate then c ← merge_completion next c; Ok (Some c :: outs) else Ok (Some next :: outs)
      else outs ← add_completion aggregate next outs; Ok (o :: outs)
  end.

(** A None that is looked at has no index. *)
Definition add_next (aggregate : bool) (next : option CompletionOutput) (outs : list (option CompletionOutput))
    : result (list (option CompletionOutput)) :=
  match next, outs with
  | Some n, _ => add_completion aggregate n outs
  | None, [] => Ok [None]
  | None, _ => Raise AttributeError
  end.

Definition ro_add (next_output : RequestOutput) (aggregate : bool) (r : RequestOutput) : result RequestOutput :=
  outs ← for_each (add_next aggregate) (ro_outputs next_output) (ro_outputs r);
  Ok (r <| ro_finished := ro_finished r || ro_finished next_output |>
        <| ro_kv_transfer_params := ro_kv_transfer_params next_output |>
        <| ro_outputs := outs |>
        <| ro_final_score := match ro_final_score next_output with Some s => Some s | None => ro_final_score r end |>).

(** ** The collector *)

Inductive Collected := ReqOut (r : RequestOutput) | PoolOut (p : PoolingRequestOutput) | ErrOut (e : exn).

(** [ready]: the event the consumer waits for. *)
Record Collector := mkCollector {
  aggregate : bool;
  collected : option Collected;
  ready : bool;
}.

#[export] Instance eta_Collector : Eta Collector := fun c => mkCollector (aggregate c) (collected c) (ready c).

Definition new_collector (kind : RequestOutputKind) : Collector :=
  {| aggregate := bool_decide (kind = DELTA); collected := None; ready := false |}.

Definition collector_put (output : Collected) (c : Collector) : result Collector :=
  match collected c, output with
  | None, _ | _, ErrOut _ => Ok (c <| collected := Some output |> <| ready := true |>)
  | Some (ReqOut old), ReqOut new => r ← ro_add new (aggregate c) old; Ok (c <| collected := Some (ReqOut r) |>)
  | Some (PoolOut _), PoolOut _ => Ok (c <| collected := Some output |>)
  | _, _ => Ok c
  end.

(** [get] of an output that is there: the answer, or the error raised.  With none
    it waits for [ready], which is no step; [collector_loses_nothing] says that the event is set when there is one. *)
Definition collector_get (c : Collector) : option (result Collected * Collector) :=
  match collected c with
  | None => None
  | Some output =>
      let c := c <| collected := None |> <| ready := false |> in
      Some (match output with ErrOut e => Raise e | _ => Ok output end, c)
  end.

Definition get_nowait (c : Collector) : result (option Collected) * Collector :=
  match collector_get c with
  | None => (Ok None, c)
  | Some (r, c) => (match r with Ok o => Ok (Some o) | Raise e => Raise e end, c)
  end.

(** ** No text is lost on the way *)

(** A schedule of producer and consumer: outputs put and, between them, attempts
    to get. *)
Inductive CollectorOp := Put (r : RequestOutput) | Get.

Fixpoint run_collector (ops : list CollectorOp) (c : Collector) : result (list Collected * Collector) :=
  match ops with
  | [] => Ok ([], c)
  | Put r :: ops => c ← collector_put (ReqOut r) c; run_collector ops c
  | Get :: ops =>
      match get_nowait c with
      | (Ok None, c) => run_collector ops c
      | (Ok (Some o), c) => '(os, c) ← run_collector ops c; Ok (o :: os, c)
      | (Raise e, _) => Raise e
      end
  end.

(** What the outputs say of the completion [i], in order. *)
Definition completions (i : Z) (r : RequestOutput) : list CompletionOutput :=
  List.filter (fun c => co_index c =? i) (omap id (ro_outputs r)).

Definition said {A} (f : CompletionOutput -> list A) (i : Z) (r : RequestOutput) : list A := concat (f <$> completions i r).

Definition said_by {A} (f : CompletionOutput -> list A) (i : Z) (o : Collected) : list A :=
  match o with ReqOut r => said f i r | _ => [] end.

Definition puts (ops : list CollectorOp) : list RequestOutput :=
  omap (fun op => match op with Put r => Some r | Get => None end) ops.

(** A well-formed output of a stream: every completion there, none twice, all with
    or all without log probabilities, in lists. *)
Definition completion_ok (lps : bool) (o : option CompletionOutput) : Prop :=
  match o with
  | Some c => match co_logprobs c with Some (ListC _) => lps = true | Some (FlatC _) => False | None => lps = false end
  | None => False
  end.

Definition output_ok (lps : bool) (r : RequestOutput) : Prop :=
  Forall (completion_ok lps) (ro_outputs r) /\ NoDup (co_index <$> omap id (ro_outputs r)).

(** The fields of a completion that a merge appends to. *)
Definition lps_list (c : CompletionOutput) : list (option LogprobsOnePosition) :=
  match co_logprobs c with Some (ListC l) => l | _ => [] end.

Definition appended {A} (f : CompletionOutput -> list A) : Prop :=
  forall lps c n c', completion_ok lps (Some c) -> completion_ok lps (Some n) ->
  merge_completion n c = Ok c' -> f c' = f c ++ f n.

Lemma merge_completion_ok lps c n :
  completion_ok lps (Some c) -> completion_ok lps (Some n) ->
  exists c', merge_completion n c = Ok c' /\ completion_ok lps (Some c') /\ co_index c' = co_index c /\
    co_text c' = co_text c ++ co_text n /\ co_token_ids c' = co_token_ids c ++ co_token_ids n /\
    lps_list c' = lps_list c ++ lps_list n.
Proof.
  unfold completion_ok, merge_completion, lps_list. intros Hc Hn.
  destruct (co_logprobs n) as [[f|l]|]; [done| |].
  - destruct (co_logprobs c) as [[f'|l']|] eqn:Hcl; [done | | congruence]. cbn [merge_logprobs].
    destruct (Z.eqb_spec (container_len (ListC l)) 0) as [Hl|Hl].
    + eexists. split; [reflexivity|]. cbn. split_and!; try done.
      cbn in Hl. unfold py_len in Hl. destruct l; [by rewrite app_nil_r | cbn in Hl; lia].
    + eexists. split; [reflexivity|]. by cbn.
  - eexists. split; [reflexivity|]. cbn. rewrite app_nil_r. by destruct (co_logprobs c) as [[|]|].
Qed.

Lemma appended_text : appended co_text.
Proof. intros lps c n c' Hc Hn Hm. destruct (merge_completion_ok lps c n Hc Hn) as (c2 & Hm2 & _ & _ & H & _). congruence. Qed.
Lemma appended_token_ids : appended co_token_ids.
Proof. intros lps c n c' Hc Hn Hm. destruct (merge_completion_ok lps c n Hc Hn) as (c2 & Hm2 & _ & _ & _ & H & _). congruence. Qed.
Lemma appended_logprobs : appended lps_list.
Proof. intros lps c n c' Hc Hn Hm. destruct (merge_completion_ok lps c n Hc Hn) as (c2 & Hm2 & _ & _ & _ & _ & H). congruence. Qed.

Section Said.
Context {A : Type} (f : CompletionOutput -> list A) (Hf : appended f) (lps : bool).

Definition say (i : Z) (outs : list (option CompletionOutput)) : list A :=
  concat (f <$> List.filter (fun c => co_index c =? i) (omap id outs)).

Lemma say_cons i c outs : say i (Some c :: outs) = (if co_index c =? i then f c else []) ++ say i outs.
Proof. unfold say. cbn. by destruct (co_index c =? i). Qed.

Lemma say_absent i outs : i ∉ co_index <$> omap id outs -> say i outs = [].
Proof.
  induction outs as [|[c|] outs IH]; intros Hi; [done| |by apply IH]. cbn in Hi.
  apply not_elem_of_cons in Hi as [Hne Hi]. rewrite say_cons, IH by done.
  by destruct (Z.eqb_spec (co_index c) i).
Qed.

Lemma add_completion_said n outs :
  Forall (completion_ok lps) outs -> NoDup (co_index <$> omap id outs) -> completion_ok lps (Some n) ->
  exists outs', add_completion true n outs = Ok outs' /\ Forall (completion_ok lps) outs' /\
    NoDup (co_index <$> omap id outs') /\
    (forall j, j ∈ co_index <$> omap id outs' -> j = co_index n \/ j ∈ co_index <$> omap id outs) /\
    forall i, say i outs' = say i outs ++ (if co_index n =? i then f n else []).
Proof.
  intros Hok Hnd Hn. induction Hok as [|[c|] outs Hc Hok IH]; [| |done].
  - exists [Some n]. cbn. split_and!; [done | by repeat constructor | by repeat constructor; apply not_elem_of_nil | |].
    + intros j Hj. left. by apply list_elem_of_singleton in Hj.
    + intros i. unfold say. cbn. destruct (_ =? i); cbn; by rewrite ?app_nil_r.
  - cbn [omap list_omap id fmap list_fmap] in Hnd. change (NoDup (co_index c :: (co_index <$> omap id outs))) in Hnd.
    apply NoDup_cons in Hnd as [Hc' Hnd]. cbn [add_completion or_raise mbind result_bind].
    destruct (Z.eqb_spec (co_index c) (co_index n)) as [Heq|Hne].
    + destruct (merge_completion_ok lps c n Hc Hn) as (c2 & Hm & Hok2 & Hi2 & _). rewrite Hm. cbn [mbind result_bind].
      exists (Some c2 :: outs). split_and!; [done | by constructor | | |].
      * change (NoDup (co_index c2 :: (co_index <$> omap id outs))). rewrite Hi2. by constructor.
      * intros j Hj. right. change (j ∈ co_index c2 :: (co_index <$> omap id outs)) in Hj. by rewrite Hi2 in Hj.
      * intros i. rewrite !say_cons, Hi2, <- Heq. destruct (Z.eqb_spec (co_index c) i) as [<-|]; [|by rewrite app_nil_r].
        rewrite (say_absent (co_index c)), !app_nil_r by done. by apply (Hf lps).
    + destruct (IH Hnd) as (outs' & Ha & Hok' & Hnd' & Hsub & Hs). rewrite Ha. cbn [mbind result_bind].
      exists (Some c :: outs'). split_and!; [done | by constructor | | |].
      * change (NoDup (co_index c :: (co_index <$> omap id outs'))). constructor; [|done].
        intros [He|Hin]%Hsub; [by apply Hne | done].
      * intros j Hj. change (j ∈ co_index c :: (co_index <$> omap id outs')) in Hj.
        change (j = co_index n \/ j ∈ co_index c :: (co_index <$> omap id outs)).
        apply elem_of_cons in Hj as [->|[->|Hj]%Hsub]; [right; by left | by left | right; by right].
      * intros i. by rewrite !say_cons, Hs, (assoc_L (++)).
Qed.

Lemma add_all_said next outs :
  Forall (completion_ok lps) outs -> NoDup (co_index <$> omap id outs) -> Forall (completion_ok lps) next ->
  exists outs', for_each (add_next true) next outs = Ok outs' /\ Forall (completion_ok lps) outs' /\
    NoDup (co_index <$> omap id outs') /\ forall i, say i outs' = say i outs ++ say i next.
Proof.
  intros Hok Hnd Hnext. revert outs Hok Hnd. induction Hnext as [|[n|] next Hn _ IH]; intros outs Hok Hnd; [| |done].
  - exists outs. split_and!; try done. intros i. by rewrite app_nil_r.
  - destruct (add_completion_said n outs Hok Hnd Hn) as (outs1 & Ha & Hok1 & Hnd1 & _ & Hs1).
    destruct (IH outs1 Hok1 Hnd1) as (outs2 & Ha2 & Hok2 & Hnd2 & Hs2).
    exists outs2. cbn [for_each add_next]. rewrite Ha. cbn [mbind result_bind]. split_and!; try done.
    intros i. by rewrite Hs2, Hs1, say_cons, (assoc_L (++)).
Qed.

Lemma ro_add_said next r :
  output_ok lps r -> output_ok lps next ->
  exists r', ro_add next true r = Ok r' /\ output_ok lps r' /\ ro_finished r' = ro_finished r || ro_finished next /\
    forall i, said f i r' = said f i r ++ said f i next.
Proof.
  intros [Hok Hnd] [Hok' _]. destruct (add_all_said _ _ Hok Hnd Hok') as (outs & Ha & Hok2 & Hnd2 & Hs).
  unfold ro_add. rewrite Ha. cbn [mbind result_bind]. eexists. split; [reflexivity|]. by split_and!.
Qed.

(** What waits in the collector. *)
Definition waiting (i : Z) (c : Collector) : list A := default [] (said_by f i <$> collected c).

Definition collector_ok (c : Collector) : Prop :=
  aggregate c = true /\ ready c = bool_decide (is_Some (collected c)) /\
  match collected c with None => True | Some (ReqOut r) => output_ok lps r | _ => False end.

Lemma run_collector_said ops c :
  collector_ok c -> Forall (output_ok lps) (puts ops) ->
  exists os c', run_collector ops c = Ok (os, c') /\ collector_ok c' /\
    forall i, concat (said_by f i <$> os) ++ waiting i c' = waiting i c ++ concat (said f i <$> puts ops).
Proof.
  revert c; induction ops as [|[r|] ops IH]; intros c Hc Hputs.
  - exists [], c. split_and!; [done..|]. intros i. by rewrite app_nil_r.
  - change (Forall (output_ok lps) (r :: puts ops)) in Hputs. apply Forall_cons in Hputs as [Hr Hputs].
    assert (exists c1, collector_put (ReqOut r) c = Ok c1 /\ collector_ok c1 /\
      forall i, waiting i c1 = waiting i c ++ said f i r) as (c1 & Hp & Hc1 & Hw).
    { destruct Hc as (Hagg & Hready & Hcol). unfold collector_put, collector_ok, waiting. destruct (collected c) as [[old| |]|]; [|done..|].
      - rewrite Hagg. destruct (ro_add_said r old Hcol Hr) as (r' & -> & Hr' & _ & Hs). cbn [mbind result_bind].
        eexists. split; [reflexivity|]. by split.
      - eexists. split; [reflexivity|]. by split. }
    destruct (IH c1 Hc1 Hputs) as (os & c' & Hrun & Hc' & Hs). exists os, c'. cbn [run_collector]. rewrite Hp.
    cbn [mbind result_bind]. split_and!; [done..|]. intros i. rewrite Hs, Hw, <- (assoc_L (++)). done.
  - change (Forall (output_ok lps) (puts ops)) in Hputs. cbn [run_collector]. unfold get_nowait, collector_get.
    destruct Hc as (Hagg & Hready & Hcol). destruct (collected c) as [[r| |]|] eqn:Hcc; [|done..|].
    + edestruct IH as (os & c' & -> & Hc' & Hs); [|done|].
      { by split. }
      exists (ReqOut r :: os), c'. split_and!; [done..|]. intros i. cbn. rewrite <- (assoc_L (++)), Hs.
      unfold waiting. cbn. by rewrite Hcc.
    + destruct (IH c) as (os & c' & Hrun & Hc' & Hs); [by split; [|rewrite Hcc] | done |]. by exists os, c'.
Qed.
End Said.

(** C32: whatever the interleaving of the producer and of the task of a streamed
    request, the hand-off does not raise, and the texts, tokens and log probabilities of
    each completion that the task has got, with those that still wait, are those the producer
    put, in order; and the event the task waits for is set exactly when an output waits, so no wake-up is lost. *)
Theorem collector_loses_nothing lps ops :
  Forall (output_ok lps) (puts ops) ->
  exists os c, run_collector ops (new_collector DELTA) = Ok (os, c) /\ ready c = bool_decide (is_Some (collected c)) /\
    forall i,
      concat (said_by co_text i <$> os) ++ waiting co_text i c = concat (said co_text i <$> puts ops) /\
      concat (said_by co_token_ids i <$> os) ++ waiting co_token_ids i c = concat (said co_token_ids i <$> puts ops) /\
      concat (said_by lps_list i <$> os) ++ waiting lps_list i c = concat (said lps_list i <$> puts ops).
Proof.
  intros Hok. assert (Hc : collector_ok lps (new_collector DELTA)) by done.
  destruct (run_collector_said _ appended_text lps ops _ Hc Hok) as (os & c & Hrun & (_ & Hready & _) & H1).
  destruct (run_collector_said _ appended_token_ids lps ops _ Hc Hok) as (os2 & c2 & Hrun2 & _ & H2).
  destruct (run_collector_said _ appended_logprobs lps ops _ Hc Hok) as (os3 & c3 & Hrun3 & _ & H3).
  rewrite Hrun in Hrun2, Hrun3. injection Hrun2 as <- <-. injection Hrun3 as <- <-.
  exists os, c. split; [done|]. split; [exact Hready|]. intros i. by split_and!; [apply H1 | apply H2 | apply H3].
Qed.

(** ** A concrete stream *)

Definition sample_output (t : text) (ids : list Z) (reason : option FinishReason) (score : option float) : RequestOutput :=
  {| ro_request_id := "r"; ro_prompt := None; ro_prompt_token_ids := None; ro_prompt_logprobs := None;
     ro_outputs := [Some (mkCompletionOutput 0 t ids None None reason None score None)];
     ro_finished := bool_decide (is_Some reason); ro_kv_transfer_params := None; ro_num_cached_tokens := 0;
     ro_final_score := score |}.

Definition sample_ops : list CollectorOp :=
  [Put (sample_output [1] [10] None None); Get; Get; Put (sample_output [2; 3] [11] None None);
   Put (sample_output [4] [12] (Some STOP) (Some fzero))].

Lemma collector_loses_nothing_witness :
  Forall (output_ok false) (puts sample_ops) /\
  exists os c, run_collector sample_ops (new_collector DELTA) = Ok (os, c) /\
    concat (said_by co_text 0 <$> os) ++ waiting co_text 0 c = [1; 2; 3; 4].
Proof.
  assert (Hok : Forall (output_ok false) (puts sample_ops)).
  { repeat constructor; apply not_elem_of_nil. }
  split; [done|]. destruct (collector_loses_nothing false sample_ops Hok) as (os & c & Hrun & _ & H).
  exists os, c. split; [done|]. by destruct (H 0) as [-> _].
Defined.

(** A completion that is merged keeps the score it had: a final score that comes
    with the last output of a stream reaches the client only when nothing waits. *)
Example merge_drops_final_score :
  (fun c => co_final_score c) <$>
    merge_completion (mkCompletionOutput 0 [4] [12] None None (Some STOP) None (Some fzero) None)
                     (mkCompletionOutput 0 [2; 3] [11] None None None None None None) = Ok None.
Proof. reflexivity. Qed.
