(* ===== verification/ParallelSampling.v ===== *)
(** * Parallel sampling

    [vllm/v1/engine/parallel_sampling.py]: a request for [n] samples is sent to the
    engine as [n] child requests, and [ParentRequest] puts their outputs together. *)

From S2P Require Import Prelude PyDict PyList PyInt PyStr PyText PyFloat Request Outputs Detokenizer Logprobs RequestOutput.
#[local] Open Scope Z_scope.

Record ParentRequest := mkParentRequest {
  pr_request_id : string;
  pr_sampling_params : SamplingParams;
  child_requests : gset string;
  output_aggregator : list (option CompletionOutput);
  max_num_generation_tokens : Z;
  cached_child_sampling_params : option SamplingParams;
}.

#[export] Instance eta_ParentRequest : Eta ParentRequest := fun p =>
  mkParentRequest (pr_request_id p) (pr_sampling_params p) (child_requests p) (output_aggregator p)
    (max_num_generation_tokens p) (cached_child_sampling_params p).

(** [[None] * n], empty for a negative [n]. *)
Definition new_parent (request_id : string) (sampling_params : SamplingParams) : ParentRequest := {|
  pr_request_id := request_id; pr_sampling_params := sampling_params; child_requests := ∅;
  output_aggregator := if decide (output_kind sampling_params = FINAL_ONLY)
                       then replicate (Z.to_nat (n sampling_params)) None else [];
  max_num_generation_tokens := 0; cached_child_sampling_params := None |}.

Definition get_child_sampling_params (index : Z) (p : ParentRequest) : SamplingParams * ParentRequest :=
  let seed := seed (pr_sampling_params p) in
  match cached_child_sampling_params p with
  | Some c => (c, p)
  | None =>
      let c := pr_sampling_params p <| n := 1 |> in
      match seed with
      | None => (c, p <| cached_child_sampling_params := Some c |>)
      | Some s => (c <| Request.seed := Some (s + index) |>, p)
      end
  end.

(** [f"{index}_{self.request_id}"]. *)
Definition child_id (index : Z) (request_id : string) : string := str_of_Z index +:+ "_" +:+ request_id.

Definition get_child_info (index : Z) (p : ParentRequest) : string * SamplingParams * ParentRequest :=
  let child_req_id := child_id index (pr_request_id p) in
  let p := p <| child_requests := child_requests p ∪ {[child_req_id]} |> in
  let '(sp, p) := get_child_sampling_params index p in
  (child_req_id, sp, p).

(** The request's id, the outputs to hand out and whether all children finished. *)
Definition get_outputs (child_request_id : string) (completion_output : CompletionOutput) (p : ParentRequest)
    : result (string * list (option CompletionOutput) * bool * ParentRequest) :=
  children ← (if co_finished completion_output
              then if decide (child_request_id ∈ child_requests p)
                   then Ok (child_requests p ∖ {[child_request_id]}) else Raise KeyError
              else Ok (child_requests p));
  let p := p <| child_requests := children |> in
  '(outs, p) ←
    (if decide (output_kind (pr_sampling_params p) <> FINAL_ONLY) then Ok ([Some completion_output], p)
     else
       agg ← py_setitem (co_index completion_output) (Some completion_output) (output_aggregator p);
       Ok (if decide (children = ∅) then agg else [], p <| output_aggregator := agg |>));
  Ok (pr_request_id p, outs, bool_decide (children = ∅), p).

Definition observe_num_generation_tokens (num_generation_tokens : Z) (p : ParentRequest) : Z * ParentRequest :=
  let m := Z.max num_generation_tokens (max_num_generation_tokens p) in
  (m, p <| max_num_generation_tokens := m |>).

(** ** The children of a request *)

(** [AsyncLLM.add_request] and [LLMEngine.add_request]: one child per index, before
    any output arrives. *)
Fixpoint spawn (indices : list Z) (p : ParentRequest) : list (string * SamplingParams) * ParentRequest :=
  match indices with
  | [] => ([], p)
  | i :: indices =>
      let '(cid, sp, p) := get_child_info i p in
      let '(l, p) := spawn indices p in
      ((cid, sp) :: l, p)
  end.

Definition new_family (request_id : string) (sampling_params : SamplingParams)
    : list (string * SamplingParams) * ParentRequest :=
  spawn (py_range 0 (n sampling_params)) (new_parent request_id sampling_params).

Lemma child_id_inj i j rid : child_id i rid = child_id j rid -> i = j.
Proof.
  unfold child_id. intros Heq. apply first_sep_inj in Heq as [Heq _]; [|apply str_of_Z_no_underscore..].
  by apply str_of_Z_inj.
Qed.

Definition same_settings (p p' : ParentRequest) : Prop :=
  pr_request_id p' = pr_request_id p /\ pr_sampling_params p' = pr_sampling_params p /\
  output_aggregator p' = output_aggregator p.

Lemma get_child_info_frame i p cid sp p' :
  get_child_info i p = (cid, sp, p') ->
  same_settings p p' /\ cid = child_id i (pr_request_id p) /\ child_requests p' = child_requests p ∪ {[cid]}.
Proof.
  unfold get_child_info, get_child_sampling_params. intros Hg.
  destruct (cached_child_sampling_params _) as [c|]; [by injection Hg as <- <- <-|].
  by destruct (seed _); injection Hg as <- <- <-.
Qed.

Lemma spawn_frame l p cs p' :
  spawn l p = (cs, p') ->
  same_settings p p' /\ cs.*1 = (fun i => child_id i (pr_request_id p)) <$> l /\
  child_requests p' = child_requests p ∪ list_to_set cs.*1.
Proof.
  revert p cs; induction l as [|i l IH]; intros p cs Hs; cbn [spawn] in Hs.
  - injection Hs as <- <-. split_and!; [done..|]. cbn. set_solver.
  - destruct (get_child_info i p) as [[cid sp] p1] eqn:Hg. destruct (spawn l p1) as [cs' p2] eqn:Hs1.
    injection Hs as <- <-. apply get_child_info_frame in Hg as ((H1 & H2 & H3) & Hcid & Hch).
    apply IH in Hs1 as ((H1' & H2' & H3') & Hcs & Hch'). split_and!; [by split_and!; congruence | |].
    + cbn. by rewrite Hcs, H1, <- Hcid.
    + rewrite Hch', Hch. cbn. clear. set_solver.
Qed.

(** ** Outputs of the children

    [family_ok rid N running p]: the children with the indices [running] have not
    finished, and the others' last outputs are in the aggregator. *)
Record family_ok (rid : string) (N : Z) (finals : gmap Z CompletionOutput) (p : ParentRequest) : Prop := {
  fo_id : pr_request_id p = rid;
  fo_n : n (pr_sampling_params p) = N;
  fo_kind : output_kind (pr_sampling_params p) = FINAL_ONLY;
  fo_children : forall i, 0 <= i < N -> child_id i rid ∈ child_requests p <-> finals !! i = None;
  fo_only : forall c, c ∈ child_requests p -> exists i, 0 <= i < N /\ c = child_id i rid;
  fo_len : py_len (output_aggregator p) = Z.max 0 N;
  fo_agg : forall i o, finals !! i = Some o -> 0 <= i < N /\ output_aggregator p !! Z.to_nat i = Some (Some o);
}.

Lemma new_family_ok rid sp cs p :
  output_kind sp = FINAL_ONLY -> new_family rid sp = (cs, p) -> family_ok rid (n sp) ∅ p.
Proof.
  intros Hk Hf. unfold new_family in Hf. apply spawn_frame in Hf as ((H1 & H2 & H3) & Hcs & Hch).
  rewrite Hcs in Hch. cbn in *. split.
  - done.
  - by rewrite H2.
  - by rewrite H2.
  - intros i Hi. rewrite lookup_empty. split; [done|]. intros _. rewrite Hch. apply elem_of_union_r, elem_of_list_to_set.
    apply list_elem_of_fmap. exists i. split; [done|]. apply elem_of_seqZ. lia.
  - intros c Hc. rewrite Hch in Hc. apply elem_of_union in Hc as [Hc|Hc]; [by apply elem_of_empty in Hc|].
    apply elem_of_list_to_set, list_elem_of_fmap in Hc as (i & -> & Hi). unfold py_range in Hi. apply elem_of_seqZ in Hi.
    exists i. split; [lia | done].
  - rewrite H3, decide_True by done. unfold py_len. rewrite length_replicate. lia.
  - intros i o Ho. by rewrite lookup_empty in Ho.
Qed.

(** All children have their last output in [finals]. *)
Definition all_done (N : Z) (finals : gmap Z CompletionOutput) : Prop := forall i, 0 <= i < N -> is_Some (finals !! i).

Lemma get_outputs_final rid N finals p o :
  family_ok rid N finals p -> 0 <= co_index o < N -> finals !! co_index o = None -> co_finished o = true ->
  exists outs fin p', get_outputs (child_id (co_index o) rid) o p = Ok (rid, outs, fin, p') /\
    family_ok rid N (<[co_index o := o]> finals) p' /\
    (fin = true <-> all_done N (<[co_index o := o]> finals)) /\
    outs = if fin then output_aggregator p' else [].
Proof.
  intros [Hid Hn Hk Hch Honly Hlen Hagg] Hi Hnone Hfin. unfold get_outputs. rewrite Hfin.
  rewrite decide_True by (by apply Hch). cbn [mbind result_bind].
  set (children := child_requests p ∖ {[child_id (co_index o) rid]}). cbn [pr_sampling_params output_aggregator].
  rewrite decide_False by (cbn; rewrite Hk; by intros Hne; apply Hne). unfold py_len in Hlen.
  rewrite py_setitem_in by (unfold py_len; cbn; lia). cbn [mbind result_bind].
  assert (Hchild : forall i, 0 <= i < N -> child_id i rid ∈ children <-> <[co_index o := o]> finals !! i = None).
  { intros i Hi'. unfold children. rewrite elem_of_difference, elem_of_singleton, Hch by done.
    destruct (decide (i = co_index o)) as [->|Hne]; [rewrite lookup_insert_eq; naive_solver|].
    rewrite lookup_insert_ne by done. split; [tauto|]. intros Hf. split; [done|]. by intros ->%child_id_inj. }
  assert (Honly' : forall c, c ∈ children -> exists i, 0 <= i < N /\ c = child_id i rid).
  { intros c Hc. apply Honly. unfold children in Hc. by apply elem_of_difference in Hc as [Hc _]. }
  eexists _, _, _. split; [cbn; by rewrite Hid|]. split_and!.
  - split; try done.
    + unfold py_len. cbn. rewrite length_insert. lia.
    + intros i o' Ho'. apply lookup_insert_Some in Ho' as [[<- <-]|[Hne Ho']].
      * split; [done|]. cbn. apply list_lookup_insert_eq. lia.
      * destruct (Hagg i o' Ho') as [Hi' Ha]. split; [done|]. cbn. rewrite list_lookup_insert_ne by lia. done.
  - rewrite bool_decide_eq_true. split.
    + intros Hemp i Hi'. apply not_eq_None_Some. rewrite <- Hchild by done. rewrite Hemp. apply not_elem_of_empty.
    + intros Hall. apply elem_of_equiv_empty_L. intros c Hc. destruct (Honly' c Hc) as (i & Hi' & ->).
      apply Hchild in Hc; [|done]. destruct (Hall i Hi') as [? ?]. congruence.
  - case_bool_decide; [by rewrite decide_True | by rewrite decide_False].
Qed.

(** The outputs of the children in the order in which they finish. *)
Definition run_children (rid : string) (l : list CompletionOutput) (p : ParentRequest)
    : result (list (list (option CompletionOutput) * bool) * ParentRequest) :=
  for_collect (fun o p => '(_, outs, fin, p) ← get_outputs (child_id (co_index o) rid) o p; Ok ((outs, fin), p)) l p.

Lemma aggregator_sorted rid N finals p :
  family_ok rid N finals p -> all_done N finals ->
  exists sorted, output_aggregator p = Some <$> sorted /\
    length sorted = Z.to_nat N /\ forall i, 0 <= i < N -> sorted !! Z.to_nat i = finals !! i.
Proof.
  intros Hok Hall. set (sorted := omap (fun i => finals !! i) (py_range 0 N)).
  assert (Hlook : forall (l : list Z), Forall (fun i => 0 <= i < N) l ->
    Some <$> omap (fun i => finals !! i) l = (fun i => finals !! i) <$> l).
  { intros l Hl. induction Hl as [|i l Hi _ IH]; [done|]. cbn. destruct (Hall i Hi) as [o ->]. cbn. by rewrite IH. }
  assert (Hrange : Forall (fun i => 0 <= i < N) (py_range 0 N)).
  { apply Forall_forall. intros i Hi. unfold py_range in Hi. apply elem_of_seqZ in Hi. lia. }
  pose proof (Hlook _ Hrange) as Hs. fold sorted in Hs.
  assert (Hl : forall i, 0 <= i < N -> sorted !! Z.to_nat i = finals !! i).
  { intros i Hi. apply (f_equal (fun l => l !! Z.to_nat i)) in Hs. rewrite !list_lookup_fmap in Hs.
    unfold py_range in Hs. rewrite lookup_seqZ_lt in Hs by lia. replace (0 + Z.of_nat (Z.to_nat i)) with i in Hs by lia.
    cbn in Hs. destruct (sorted !! Z.to_nat i); cbn in Hs; [by injection Hs | done]. }
  assert (Hlen : length sorted = Z.to_nat N).
  { apply (f_equal length) in Hs. rewrite !length_fmap in Hs. rewrite Hs. unfold py_range. rewrite length_seqZ. lia. }
  exists sorted. split_and!; [|done..]. apply list_eq. intros k.
  destruct (decide (k < Z.to_nat N)%nat) as [Hk|Hk].
  - replace k with (Z.to_nat (Z.of_nat k)) by lia. destruct (Hall (Z.of_nat k) ltac:(lia)) as [o Ho].
    destruct (fo_agg _ _ _ _ Hok _ _ Ho) as [_ ->]. by rewrite list_lookup_fmap, Hl, Ho by lia.
  - rewrite !lookup_ge_None_2; [done | rewrite length_fmap; lia|].
    pose proof (fo_len _ _ _ _ Hok) as HL. unfold py_len in HL. lia.
Qed.

Lemma run_children_spec rid N finals p l :
  family_ok rid N finals p -> l <> [] -> NoDup (co_index <$> l) ->
  Forall (fun o => 0 <= co_index o < N /\ finals !! co_index o = None /\ co_finished o = true) l ->
  (forall i, 0 <= i < N -> finals !! i = None -> i ∈ co_index <$> l) ->
  exists sorted p', run_children rid l p = Ok (replicate (pred (length l)) ([], false) ++ [(Some <$> sorted, true)], p') /\
    child_requests p' = ∅ /\ length sorted = Z.to_nat N /\
    (forall o, o ∈ l -> sorted !! Z.to_nat (co_index o) = Some o) /\
    (forall i o, finals !! i = Some o -> sorted !! Z.to_nat i = Some o).
Proof.
  revert finals p; induction l as [|o l IH]; intros finals p Hok Hne Hnd Hl Hcov; [done|].
  apply Forall_cons in Hl as [(Hi & Hnone & Hfin) Hl]. cbn in Hnd. apply NoDup_cons in Hnd as [Hnotin Hnd].
  destruct (get_outputs_final _ _ _ _ _ Hok Hi Hnone Hfin) as (outs & fin & p1 & Hg & Hok1 & Hall & Houts).
  set (finals1 := <[co_index o := o]> finals) in *. unfold run_children. cbn [for_collect]. rewrite Hg. cbn [mbind result_bind].
  assert (Hkeep : forall i o', finals !! i = Some o' -> finals1 !! i = Some o').
  { intros i o' Ho'. unfold finals1. rewrite lookup_insert_ne; [done|]. intros <-. congruence. }
  assert (Ho : finals1 !! co_index o = Some o) by apply lookup_insert_eq.
  destruct l as [|o2 l'].
  - assert (Hdone : all_done N finals1).
    { intros i Hi'. destruct (finals !! i) as [o'|] eqn:Hf; [rewrite (Hkeep _ _ Hf); eauto|].
      apply Hcov in Hf; [|done]. apply list_elem_of_singleton in Hf as ->. rewrite Ho. eauto. }
    destruct (aggregator_sorted _ _ _ _ Hok1 Hdone) as (sorted & Hagg & Hlen & Hs).
    assert (fin = true) as -> by by apply Hall. subst outs. cbn [for_collect mbind result_bind]. rewrite Hagg.
    exists sorted, p1. split_and!; [done | | done | |].
    + apply elem_of_equiv_empty_L. intros c Hc. destruct (fo_only _ _ _ _ Hok1 c Hc) as (i & Hi' & ->).
      apply (fo_children _ _ _ _ Hok1) in Hc; [|done]. destruct (Hdone i Hi') as [? ?]. congruence.
    + intros o' ->%list_elem_of_singleton. by rewrite Hs.
    + intros i o' Ho'. destruct (fo_agg _ _ _ _ Hok i o' Ho') as [Hi' _]. rewrite Hs by done. by apply Hkeep.
  - assert (fin = false) as ->.
    { apply not_true_is_false. intros Hd%Hall. apply Forall_cons in Hl as [(Hi2 & Hnone2 & _) _].
      destruct (Hd _ Hi2) as [o' Ho']. unfold finals1 in Ho'. rewrite lookup_insert_ne in Ho'; [congruence|].
      intros Heq. apply Hnotin. rewrite Heq. by left. }
    subst outs. destruct (IH finals1 p1) as (sorted & p' & Hrun & Hemp & Hlen & Hin & Hold); [done | done | done | | |].
    + rewrite Forall_forall in *. intros o' Ho'. destruct (Hl o' Ho') as (Hi' & Hnone' & Hfin'). split_and!; [lia | lia | | done].
      unfold finals1. rewrite lookup_insert_ne; [done|]. intros Heq. apply Hnotin. rewrite Heq. by apply list_elem_of_fmap_2.
    + intros i Hi' Hf. unfold finals1 in Hf. apply lookup_insert_None in Hf as [Hf Hne'].
      apply Hcov in Hf; [|done]. apply elem_of_cons in Hf as [->|Hf]; [done | exact Hf].
    + unfold run_children in Hrun. rewrite Hrun. exists sorted, p'. cbn [mbind result_bind]. split_and!; [done..| |].
      * intros o' [->|Ho']%elem_of_cons; [by apply Hold | by apply Hin].
      * intros i o' Ho'. apply Hold. by apply Hkeep.
Qed.

(** The sampling parameters of the child with an index. *)
Definition child_params (sp : SamplingParams) (i : Z) : SamplingParams :=
  let c := sp <| n := 1 |> in
  match seed sp with None => c | Some s => c <| Request.seed := Some (s + i) |> end.

Definition cache_ok (p : ParentRequest) : Prop :=
  match cached_child_sampling_params p with
  | Some c => seed (pr_sampling_params p) = None /\ c = pr_sampling_params p <| n := 1 |>
  | None => True
  end.

Lemma spawn_params l p :
  cache_ok p -> (spawn l p).1 = (fun i => (child_id i (pr_request_id p), child_params (pr_sampling_params p) i)) <$> l.
Proof.
  revert p; induction l as [|i l IH]; intros p Hc; [done|]. cbn [spawn].
  destruct (get_child_info i p) as [[cid sp] p1] eqn:Hg.
  assert (Hparams : cid = child_id i (pr_request_id p) /\ sp = child_params (pr_sampling_params p) i /\ cache_ok p1).
  { unfold get_child_info, get_child_sampling_params, cache_ok, child_params in *. cbn in Hg.
    destruct (cached_child_sampling_params p) as [c|].
    - destruct Hc as [Hs ->]. injection Hg as <- <- <-. cbn. by rewrite Hs.
    - destruct (seed (pr_sampling_params p)) eqn:Hs; injection Hg as <- <- <-; cbn; by rewrite ?Hs. }
  destruct Hparams as (-> & -> & Hc1). apply get_child_info_frame in Hg as ((H1 & H2 & _) & _).
  specialize (IH p1 Hc1). destruct (spawn l p1) as [cs p2]. cbn [fst] in *. rewrite IH, H1, H2. done.
Qed.

Lemma new_family_params rid sp :
  (new_family rid sp).1 = (fun i => (child_id i rid, child_params sp i)) <$> py_range 0 (n sp).
Proof. unfold new_family. by rewrite spawn_params. Qed.

(** Every child of a request for [N] samples has sent its last output. *)
Definition all_ended (N : Z) (seen : list CompletionOutput) : bool :=
  bool_decide (Forall (fun i => i ∈ co_index <$> List.filter co_finished seen) (py_range 0 N)).

(** The children of a streamed request that have not sent their last output are those still registered. *)
Record streaming_ok (rid : string) (N : Z) (seen : list CompletionOutput) (p : ParentRequest) : Prop := {
  so_id : pr_request_id p = rid;
  so_kind : output_kind (pr_sampling_params p) <> FINAL_ONLY;
  so_children : forall c, c ∈ child_requests p <->
    exists i, 0 <= i < N /\ c = child_id i rid /\ i ∉ co_index <$> List.filter co_finished seen;
}.

Lemma new_family_streaming rid sp cs p :
  output_kind sp <> FINAL_ONLY -> new_family rid sp = (cs, p) -> streaming_ok rid (n sp) [] p.
Proof.
  intros Hk Hf. unfold new_family in Hf. apply spawn_frame in Hf as ((H1 & H2 & H3) & Hcs & Hch).
  split; [done | by rewrite H2 |]. intros c. rewrite Hch, Hcs, elem_of_union, elem_of_list_to_set, list_elem_of_fmap.
  unfold py_range. setoid_rewrite elem_of_seqZ. split.
  - intros [?%elem_of_empty|(i & -> & Hi)]; [done|]. exists i. split_and!; [lia | lia | done | apply not_elem_of_nil].
  - intros (i & Hi & -> & _). right. exists i. split; [done | lia].
Qed.

Lemma streaming_ended rid N seen p :
  streaming_ok rid N seen p -> bool_decide (child_requests p = ∅) = all_ended N seen.
Proof.
  intros [_ _ Hch]. apply bool_decide_ext. rewrite Forall_forall. unfold py_range. setoid_rewrite elem_of_seqZ. split.
  - intros Hemp i Hi. destruct (decide (i ∈ co_index <$> List.filter co_finished seen)) as [|Hno]; [done|].
    destruct (not_elem_of_empty (C:=gset string) (child_id i rid)). rewrite <- Hemp. apply Hch. exists i. split; [lia | done].
  - intros Hall. apply elem_of_equiv_empty_L. intros c (i & Hi & _ & Hno)%Hch. apply Hno, Hall. lia.
Qed.

Lemma get_outputs_streaming rid N seen p o :
  streaming_ok rid N seen p -> 0 <= co_index o < N ->
  (co_finished o = true -> co_index o ∉ co_index <$> List.filter co_finished seen) ->
  exists p', get_outputs (child_id (co_index o) rid) o p = Ok (rid, [Some o], all_ended N (seen ++ [o]), p') /\
    streaming_ok rid N (seen ++ [o]) p'.
Proof.
  intros Hok Hi Hfresh. pose proof Hok as [Hid Hk Hch]. unfold get_outputs.
  assert (Hnext : exists children, (if co_finished o then if decide (child_id (co_index o) rid ∈ child_requests p)
      then Ok (child_requests p ∖ {[child_id (co_index o) rid]}) else Raise KeyError else Ok (child_requests p)) = Ok children /\
    streaming_ok rid N (seen ++ [o]) (p <| child_requests := children |>)).
  { destruct (co_finished o) eqn:Hfin.
    - rewrite decide_True by (apply Hch; exists (co_index o); auto). eexists. split; [done|]. split; [done..|].
      intros c. cbn. rewrite elem_of_difference, elem_of_singleton, Hch, List.filter_app, fmap_app. cbn. rewrite Hfin. cbn.
      setoid_rewrite not_elem_of_app. setoid_rewrite list_elem_of_singleton. split.
      + intros [(i & Hi' & -> & Hno) Hne]. exists i. split_and!; [lia | lia | done | done | by intros ->].
      + intros (i & Hi' & -> & Hno & Hne). split; [by exists i|]. by intros ->%child_id_inj.
    - eexists. split; [done|]. split; [done..|]. intros c. cbn. rewrite Hch, List.filter_app, fmap_app. cbn. rewrite Hfin. cbn.
      by rewrite app_nil_r. }
  destruct Hnext as (children & -> & Hok'). cbn [mbind result_bind]. rewrite decide_True by done. cbn [mbind result_bind].
  eexists. split; [|exact Hok']. rewrite <- (streaming_ended _ _ _ _ Hok'). cbn. by rewrite Hid.
Qed.

Lemma run_streaming rid N seen l p :
  streaming_ok rid N seen p -> Forall (fun o => 0 <= co_index o < N) l -> NoDup (co_index <$> List.filter co_finished (seen ++ l)) ->
  exists p', run_children rid l p = Ok (imap (fun k o => ([Some o], all_ended N (seen ++ take (S k) l))) l, p') /\
    streaming_ok rid N (seen ++ l) p'.
Proof.
  revert seen p; induction l as [|o l IH]; intros seen p Hok Hl Hnd.
  { exists p. rewrite app_nil_r. by split. }
  apply Forall_cons in Hl as [Hi Hl]. rewrite cons_middle, (assoc_L (++)) in Hnd.
  destruct (get_outputs_streaming _ _ _ _ o Hok Hi) as (p1 & Hg & Hok1).
  { intros Hfin. rewrite !List.filter_app, !fmap_app in Hnd. cbn in Hnd. rewrite Hfin in Hnd. apply NoDup_app in Hnd as [Hnd _].
    apply NoDup_app in Hnd as (_ & Hdis & _). intros Hin. apply (Hdis _ Hin). cbn. by left. }
  destruct (IH _ _ Hok1 Hl Hnd) as (p' & Hrun & Hok'). exists p'. rewrite <- (assoc_L (++)) in Hok'. split; [|done].
  unfold run_children in *. cbn [for_collect]. rewrite Hg. cbn [mbind result_bind]. rewrite Hrun. cbn [mbind result_bind imap].
  do 3 f_equal. apply imap_ext. intros k x _. cbn. by rewrite <- (assoc_L (++)).
Qed.

(** The last outputs of all children, in any order. *)
Lemma run_final rid sp cs p l :
  output_kind sp = FINAL_ONLY -> 0 < n sp -> new_family rid sp = (cs, p) ->
  co_index <$> l ≡ₚ py_range 0 (n sp) -> Forall (fun o => co_finished o = true) l ->
  exists sorted p', run_children rid l p = Ok (replicate (Z.to_nat (n sp) - 1) ([], false) ++ [(Some <$> sorted, true)], p') /\
    sorted ≡ₚ l /\ co_index <$> sorted = py_range 0 (n sp) /\ child_requests p' = ∅.
Proof.
  intros Hk Hn Hf Hperm Hfin. pose proof (new_family_ok _ _ _ _ Hk Hf) as Hok.
  assert (Hnd : NoDup (co_index <$> l)) by (rewrite Hperm; apply NoDup_seqZ).
  assert (Hrange : forall i, i ∈ co_index <$> l <-> 0 <= i < n sp).
  { intros i. rewrite Hperm. unfold py_range. rewrite elem_of_seqZ. lia. }
  assert (Hlen : length l = Z.to_nat (n sp)).
  { apply Permutation_length in Hperm. rewrite length_fmap in Hperm. unfold py_range in Hperm. rewrite length_seqZ in Hperm. lia. }
  destruct (run_children_spec _ _ _ _ l Hok) as (sorted & p' & Hrun & Hemp & Hslen & Hin & _).
  - intros ->. cbn in Hlen. lia.
  - done.
  - rewrite Forall_forall in *. intros o Ho. split_and!; [| | by apply lookup_empty | by apply Hfin];
      apply Hrange; by apply list_elem_of_fmap_2.
  - intros i Hi _. by apply Hrange.
  - assert (Hidx : co_index <$> sorted = py_range 0 (n sp)).
    { apply list_eq. intros k. rewrite list_lookup_fmap. destruct (decide (k < length sorted)%nat) as [Hk'|Hk'].
      - unfold py_range. rewrite lookup_seqZ_lt by lia.
        assert (Hki : Z.of_nat k ∈ co_index <$> l) by (apply Hrange; lia).
        apply list_elem_of_fmap in Hki as (o & Hki & Ho). pose proof (Hin o Ho) as Hs. rewrite <- Hki, Nat2Z.id in Hs.
        rewrite Hs. cbn. by rewrite <- Hki.
      - rewrite !lookup_ge_None_2; [done | unfold py_range; rewrite length_seqZ; lia | lia]. }
    exists sorted, p'. split_and!; [|  | done | done].
    + rewrite Hrun, Hlen. by replace (Z.to_nat (n sp) - 1)%nat with (pred (Z.to_nat (n sp))) by lia.
    + symmetry. apply submseteq_length_Permutation; [|lia].
      apply NoDup_submseteq; [by eapply NoDup_fmap_1|]. intros o Ho. by eapply list_elem_of_lookup_2, Hin.
Qed.

(** C31: the [n] children of a request have distinct ids, one sample each, and the seeds [seed + i] if the request has one
    (otherwise none has a seed). If the request asks for the final output only, then in whatever order the children finish,
    nothing is handed out before the last, which hands out all [n] outputs in the order of their indices and finishes the
    request. If it is streamed, every output is handed out at once, alone, and the request is finished with exactly those
    outputs by which all children have sent a last one. *)
Theorem samples_put_together rid sp cs p :
  0 < n sp -> new_family rid sp = (cs, p) ->
  NoDup cs.*1 /\ cs = ((fun i => (child_id i rid, child_params sp i)) <$> py_range 0 (n sp)) /\
  (output_kind sp = FINAL_ONLY -> forall l,
    co_index <$> l ≡ₚ py_range 0 (n sp) -> Forall (fun o => co_finished o = true) l ->
    exists sorted p', run_children rid l p = Ok (replicate (Z.to_nat (n sp) - 1) ([], false) ++ [(Some <$> sorted, true)], p') /\
      sorted ≡ₚ l /\ co_index <$> sorted = py_range 0 (n sp) /\ child_requests p' = ∅) /\
  (output_kind sp <> FINAL_ONLY -> forall l,
    Forall (fun o => 0 <= co_index o < n sp) l -> NoDup (co_index <$> List.filter co_finished l) ->
    exists p', run_children rid l p = Ok (imap (fun k o => ([Some o], all_ended (n sp) (take (S k) l))) l, p') /\
      forall i, 0 <= i < n sp -> child_id i rid ∈ child_requests p' <-> i ∉ co_index <$> List.filter co_finished l).
Proof.
  intros Hn Hf. pose proof (new_family_params rid sp) as Hcs. rewrite Hf in Hcs. cbn [fst] in Hcs. split_and!; [|done| |].
  - rewrite Hcs, <- list_fmap_compose. apply NoDup_fmap_2_strong; [|apply NoDup_seqZ]. intros i j _ _. apply child_id_inj.
  - intros Hk l Hperm Hfin. by apply (run_final rid sp cs p l).
  - intros Hk l Hl Hnd. destruct (run_streaming rid (n sp) [] l p) as (p' & Hrun & [_ _ Hch]); [by eapply new_family_streaming | done..|].
    exists p'. split; [exact Hrun|]. intros i Hi. rewrite Hch. split; [by intros (j & _ & ->%child_id_inj & Hno)|].
    intros Hno. by exists i.
Qed.

Definition sample_final (i : Z) : CompletionOutput := mkCompletionOutput i [65 + i] [i] None None (Some STOP) None None None.

Definition sample_part (i : Z) (t : Z) : CompletionOutput := mkCompletionOutput i [t] [t] None None None None None None.

Definition family_params (kind : RequestOutputKind) : SamplingParams :=
  sample_params <| n := 3 |> <| Request.seed := Some 7 |> <| output_kind := kind |>.

(** The outputs of three children as they arrive at a streamed request. *)
Definition sample_parts : list CompletionOutput :=
  [sample_part 1 70; sample_final 2; sample_final 0; sample_part 1 71; sample_final 1].

Lemma samples_put_together_witness :
  ((new_family "r" (family_params FINAL_ONLY)).1.*1 = ["0_r"; "1_r"; "2_r"] /\
   exists sorted p', run_children "r" (sample_final <$> [2; 0; 1]) (new_family "r" (family_params FINAL_ONLY)).2
     = Ok ([([], false); ([], false); (Some <$> sorted, true)], p') /\ co_index <$> sorted = [0; 1; 2]) /\
  exists p', run_children "r" sample_parts (new_family "r" (family_params DELTA)).2
    = Ok (zip ((fun o => [Some o]) <$> sample_parts) [false; false; false; false; true], p') /\ "1_r" ∉ child_requests p'.
Proof.
  split.
  - split; [reflexivity|].
    destruct (samples_put_together "r" (family_params FINAL_ONLY) (new_family "r" (family_params FINAL_ONLY)).1
      (new_family "r" (family_params FINAL_ONLY)).2) as (_ & _ & Hfinal & _); [reflexivity | by destruct (new_family _ _)|].
    destruct (Hfinal eq_refl (sample_final <$> [2; 0; 1])) as (sorted & p' & Hrun & _ & Hidx & _);
      [apply (bool_decide_unpack _); reflexivity | by repeat constructor|]. by exists sorted, p'.
  - destruct (samples_put_together "r" (family_params DELTA) (new_family "r" (family_params DELTA)).1
      (new_family "r" (family_params DELTA)).2) as (_ & _ & _ & Hstream); [reflexivity | by destruct (new_family _ _)|].
    destruct (Hstream ltac:(discriminate) sample_parts) as (p' & Hrun & Hch);
      [apply (bool_decide_unpack _); vm_compute; exact I..|].
    exists p'. split; [rewrite Hrun; apply (f_equal (fun l => Ok (l, p'))); reflexivity|].
    change "1_r" with (child_id 1 "r"). rewrite Hch; [|by split]. intros Hno. apply Hno. apply (bool_decide_unpack _). vm_compute. exact I.
Defined.
