(* ===== verification/FrontStats.v ===== *)
(** * Statistics of the front end

    The classes of [vllm/v1/metrics/stats.py] that the output processor keeps:
    the state of a request, of an iteration, and of the LoRA adapters.  Times are
    floats, computed exactly; the clock is a parameter. *)

From S2P Require Import Prelude PyDict PyList PyInt PyFloat Request Outputs.
#[local] Open Scope Z_scope.

Record RequestStateStats := mkRequestStateStats {
  rss_num_generation_tokens : Z;
  rss_arrival_time : float;
  queued_ts : float;
  scheduled_ts : float;
  first_token_ts : float;
  last_token_ts : float;
  rss_first_token_latency : float;
  is_corrupted : bool;
}.

#[export] Instance eta_RequestStateStats : Eta RequestStateStats := fun s =>
  mkRequestStateStats (rss_num_generation_tokens s) (rss_arrival_time s) (queued_ts s) (scheduled_ts s)
    (first_token_ts s) (last_token_ts s) (rss_first_token_latency s) (is_corrupted s).

Definition new_request_stats (arrival_time : float) : RequestStateStats :=
  mkRequestStateStats 0 arrival_time fzero fzero fzero fzero fzero false.

Record FinishedRequestStats := mkFinishedRequestStats {
  frs_finish_reason : FinishReason;
  e2e_latency : float;
  frs_num_prompt_tokens : Z;
  frs_num_generation_tokens : Z;
  frs_max_tokens_param : option Z;
  queued_time : float;
  prefill_time : float;
  inference_time : float;
  decode_time : float;
  mean_time_per_output_token : float;
  frs_is_corrupted : bool;
}.

Record IterationStats := mkIterationStats {
  iteration_timestamp : float;
  it_num_generation_tokens : Z;
  it_num_prompt_tokens : Z;
  it_num_preempted_reqs : Z;
  it_finished_requests : list FinishedRequestStats;
  max_num_generation_tokens_iter : list Z;
  n_params_iter : list Z;
  time_to_first_tokens_iter : list float;
  inter_token_latencies_iter : list float;
  num_corrupted_reqs : Z;
}.

#[export] Instance eta_IterationStats : Eta IterationStats := fun s =>
  mkIterationStats (iteration_timestamp s) (it_num_generation_tokens s) (it_num_prompt_tokens s)
    (it_num_preempted_reqs s) (it_finished_requests s) (max_num_generation_tokens_iter s) (n_params_iter s)
    (time_to_first_tokens_iter s) (inter_token_latencies_iter s) (num_corrupted_reqs s).

Definition new_iteration_stats (now : float) : IterationStats := mkIterationStats now 0 0 0 [] [] [] [] [] 0.

Definition time_since (start : float) (s : IterationStats) : float := fsub (iteration_timestamp s) start.

(** ** LoRA adapters *)

Record LoRAStats := mkLoRAStats {
  ls_waiting : gset string;
  ls_running : gset string;
}.

Definition lora_stats_update (req_id : string) (waiting running : bool) (s : LoRAStats) : result LoRAStats :=
  _ ← py_assert (negb (waiting && running));
  Ok {| ls_waiting := if waiting then ls_waiting s ∪ {[req_id]} else ls_waiting s ∖ {[req_id]};
        ls_running := if running then ls_running s ∪ {[req_id]} else ls_running s ∖ {[req_id]} |}.

Definition lora_empty (s : LoRAStats) : bool := bool_decide (ls_waiting s = ∅) && bool_decide (ls_running s = ∅).

Record LoRARequestStates := mkLoRARequestStates {
  lrs_log_stats : bool;
  lrs_requests : dict string LoRAStats;
}.

(** [_request_update]: the defaultdict makes an entry when there is none. *)
Definition lora_request_update (req_id : string) (lora_name : option string) (waiting running : bool)
    (l : LoRARequestStates) : result LoRARequestStates :=
  match lora_name with
  | Some name =>
      if negb (lrs_log_stats l) then Ok l
      else
        let lora_stats := dget_or name (mkLoRAStats ∅ ∅) (lrs_requests l) in
        s ← lora_stats_update req_id waiting running lora_stats;
        let requests := dset name s (lrs_requests l) in
        Ok {| lrs_log_stats := lrs_log_stats l;
              lrs_requests := if lora_empty s then ddel name requests else requests |}
  | None => Ok l
  end.

Definition request_waiting rid name := lora_request_update rid name true false.
Definition request_running rid name := lora_request_update rid name false true.
Definition request_finished rid name := lora_request_update rid name false false.

(** What [update_scheduler_stats] writes to the scheduler's statistics: waiting and
    running adapters. *)
Definition lora_adapters (l : LoRARequestStates) : dict string Z * dict string Z :=
  if lrs_log_stats l
  then (dmap (fun s => Z.of_nat (size (ls_waiting s))) (lrs_requests l),
        dmap (fun s => Z.of_nat (size (ls_running s))) (lrs_requests l))
  else ([], []).

(** ** An output of the engine *)

(** One event of [update_from_events]. *)
Definition update_from_event (req_id : string) (lora_name : option string) (ev : EngineCoreEventType * float)
    (st : IterationStats * RequestStateStats * LoRARequestStates)
    : result (IterationStats * RequestStateStats * LoRARequestStates) :=
  let '(it, rs, lora) := st in
  match ev.1 with
  | QUEUED =>
      lora ← request_waiting req_id lora_name lora;
      Ok (it, rs <| queued_ts := ev.2 |>, lora)
  | SCHEDULED =>
      lora ← request_running req_id lora_name lora;
      Ok (it, if feq (scheduled_ts rs) fzero then rs <| scheduled_ts := ev.2 |> else rs, lora)
  | PREEMPTED_EVENT =>
      lora ← request_waiting req_id lora_name lora;
      Ok (it <| it_num_preempted_reqs := it_num_preempted_reqs it + 1 |>, rs, lora)
  end.

Section Iteration.
(** VLLM_COMPUTE_NANS_IN_LOGITS. *)
Context (compute_nans : bool).

Definition it_update_from_output (output : EngineCoreOutput) (engine_core_timestamp : float) (is_prefilling : bool)
    (prompt_len : Z) (lora_name : option string) (st : IterationStats * RequestStateStats * LoRARequestStates)
    : result (IterationStats * RequestStateStats * LoRARequestStates) :=
  let '(it, rs, lora) := st in
  let num_new := py_len (new_token_ids output) in
  let it := it <| it_num_generation_tokens := it_num_generation_tokens it + num_new |> in
  let first_token_latency := time_since (rss_arrival_time rs) it in
  let it := if is_prefilling
            then it <| it_num_prompt_tokens := it_num_prompt_tokens it + prompt_len |>
                    <| time_to_first_tokens_iter := time_to_first_tokens_iter it ++ [first_token_latency] |>
            else it in
  let rs := if is_prefilling then rs <| rss_first_token_latency := first_token_latency |> else rs in
  let rs := rs <| rss_num_generation_tokens := rss_num_generation_tokens rs + num_new |> in
  let rs := if compute_nans && negb (is_corrupted rs) && (0 <? eco_num_nans_in_logits output)
            then rs <| is_corrupted := true |> else rs in
  '(it, rs, lora) ← for_each (update_from_event (eco_request_id output) lora_name) (default [] (eco_events output)) (it, rs, lora);
  let it := if is_prefilling then it
            else it <| inter_token_latencies_iter :=
                   inter_token_latencies_iter it ++ [fsub engine_core_timestamp (last_token_ts rs)] |> in
  let rs := if is_prefilling then rs <| first_token_ts := engine_core_timestamp |> else rs in
  Ok (it, rs <| last_token_ts := engine_core_timestamp |>, lora).
End Iteration.

Definition update_from_finished_request (finish_reason : FinishReason) (num_prompt_tokens : Z)
    (max_tokens_param : option Z) (rs : RequestStateStats) (it : IterationStats) : IterationStats :=
  let decode_time := fsub (last_token_ts rs) (first_token_ts rs) in
  let n := rss_num_generation_tokens rs - 1 in
  let finished_req := {|
    frs_finish_reason := finish_reason; e2e_latency := time_since (rss_arrival_time rs) it;
    frs_num_prompt_tokens := num_prompt_tokens; frs_num_generation_tokens := rss_num_generation_tokens rs;
    frs_max_tokens_param := max_tokens_param; queued_time := fsub (scheduled_ts rs) (queued_ts rs);
    prefill_time := fsub (first_token_ts rs) (scheduled_ts rs);
    inference_time := fsub (last_token_ts rs) (scheduled_ts rs); decode_time := decode_time;
    mean_time_per_output_token := if 0 <? n then fdiv decode_time (float_of_Z n) else fzero;
    frs_is_corrupted := is_corrupted rs |} in
  it <| it_finished_requests := it_finished_requests it ++ [finished_req] |>
     <| num_corrupted_reqs := num_corrupted_reqs it + (if is_corrupted rs then 1 else 0) |>.

(** ** The adapters' sets follow the events of the requests *)

Inductive LoRAEvent := Waits | Runs | Finishes.

Definition lora_event (e : string * string * LoRAEvent) : LoRARequestStates -> result LoRARequestStates :=
  let '(rid, name, ev) := e in
  match ev with
  | Waits => request_waiting rid (Some name)
  | Runs => request_running rid (Some name)
  | Finishes => request_finished rid (Some name)
  end.

(** The last event of a request at an adapter. *)
Definition last_event (rid name : string) (l : list (string * string * LoRAEvent)) : option LoRAEvent :=
  fold_left (fun o e => if decide (e.1 = (rid, name)) then Some e.2 else o) l None.

Definition lora_of (name : string) (l : LoRARequestStates) : LoRAStats := dget_or name (mkLoRAStats ∅ ∅) (lrs_requests l).

(** What the dictionary holds when [last] is the last event of each request. *)
Record lora_ok (last : string -> string -> option LoRAEvent) (l : LoRARequestStates) : Prop := {
  lo_log : lrs_log_stats l = true;
  lo_dict : dict_ok (lrs_requests l);
  lo_nonempty : forall name s, dget name (lrs_requests l) = Some s -> lora_empty s = false;
  lo_waiting : forall rid name, rid ∈ ls_waiting (lora_of name l) <-> last rid name = Some Waits;
  lo_running : forall rid name, rid ∈ ls_running (lora_of name l) <-> last rid name = Some Runs;
}.

Lemma lora_request_update_ok last rid name waiting running l :
  lora_ok last l -> waiting && running = false ->
  exists l', lora_request_update rid (Some name) waiting running l = Ok l' /\
    lora_ok (fun r n => if decide (r = rid /\ n = name)
                        then Some (if waiting then Waits else if running then Runs else Finishes) else last r n) l'.
Proof.
  intros [Hlog Hd Hne Hw Hr] Hwr. unfold lora_request_update, lora_stats_update. rewrite Hlog, Hwr. cbn [negb py_assert mbind result_bind].
  set (old := dget_or name _ _). set (s := mkLoRAStats _ _). eexists. split; [reflexivity|].
  assert (Hlook : forall n', lora_of n' {| lrs_log_stats := true; lrs_requests :=
      if lora_empty s then ddel name (dset name s (lrs_requests l)) else dset name s (lrs_requests l) |}
      = if decide (n' = name) then s else lora_of n' l).
  { intros n'. unfold lora_of, dget_or. cbn. destruct (decide (n' = name)) as [->|Hn].
    - destruct (lora_empty s) eqn:He; [|by rewrite dget_dset_eq].
      rewrite dget_ddel_eq by by apply dict_ok_dset. unfold lora_empty in He.
      apply andb_true_iff in He as [E1%bool_decide_eq_true E2%bool_decide_eq_true].
      destruct s as [w r]. cbn in E1, E2. by rewrite E1, E2.
    - destruct (lora_empty s); rewrite ?dget_ddel_ne, dget_dset_ne by done; done. }
  assert (Hold : lora_of name l = old) by done.
  split; cbn [lrs_log_stats lrs_requests].
  - done.
  - destruct (lora_empty s); auto using dict_ok_ddel, dict_ok_dset.
  - intros n' s' Hn'. destruct (lora_empty s) eqn:He.
    + destruct (decide (n' = name)) as [->|Hn]; [by rewrite dget_ddel_eq in Hn' by by apply dict_ok_dset|].
      rewrite dget_ddel_ne, dget_dset_ne in Hn' by done. by eapply Hne.
    + rewrite dget_dset in Hn'. case_decide; [by injection Hn' as <- | by eapply Hne].
  - intros r n'. rewrite Hlook. destruct (decide (n' = name)) as [->|Hn].
    + specialize (Hw r name). rewrite Hold in Hw. cbn. destruct waiting, running; try done;
        destruct (decide (r = rid /\ name = name)) as [[-> _]|Hr']; set_solver.
    + rewrite decide_False by tauto. apply Hw.
  - intros r n'. rewrite Hlook. destruct (decide (n' = name)) as [->|Hn].
    + specialize (Hr r name). rewrite Hold in Hr. cbn. destruct waiting, running; try done;
        destruct (decide (r = rid /\ name = name)) as [[-> _]|Hr']; set_solver.
    + rewrite decide_False by tauto. apply Hr.
Qed.

Lemma lora_event_ok last e l : lora_ok last l ->
  exists l', lora_event e l = Ok l' /\ lora_ok (fun r n => if decide (e.1 = (r, n)) then Some e.2 else last r n) l'.
Proof.
  destruct e as [[rid name] ev]. intros Hok. cbn [lora_event fst snd].
  assert (Hext : forall l', lora_ok (fun r n => if decide (r = rid /\ n = name) then Some ev else last r n) l' ->
    lora_ok (fun r n => if decide ((rid, name) = (r, n)) then Some ev else last r n) l').
  { intros l' [H1 H2 H3 H4 H5]. split; try done; intros r n'; [rewrite H4 | rewrite H5];
      repeat case_decide; naive_solver. }
  destruct ev; [destruct (lora_request_update_ok last rid name true false l Hok eq_refl) as (l' & H & Hl')
               |destruct (lora_request_update_ok last rid name false true l Hok eq_refl) as (l' & H & Hl')
               |destruct (lora_request_update_ok last rid name false false l Hok eq_refl) as (l' & H & Hl')];
    exists l'; (split; [exact H | by apply Hext]).
Qed.

(** After any events, an adapter's waiting and running requests are those
    whose last event there is to wait or to run, the adapters without requests
    are forgotten, and none of the calls raises. *)
Theorem lora_sets_follow_events evs :
  exists l, for_each lora_event evs (mkLoRARequestStates true []) = Ok l /\
    lora_ok (fun rid name => last_event rid name evs) l.
Proof.
  assert (Hgen : forall l0 (last : string -> string -> option LoRAEvent), lora_ok last l0 -> exists l,
    for_each lora_event evs l0 = Ok l /\
    lora_ok (fun r n => fold_left (fun o e => if decide (e.1 = (r, n)) then Some e.2 else o) evs (last r n)) l).
  { induction evs as [|e evs IH]; intros l0 last Hok; [by exists l0|]. cbn [for_each fold_left].
    destruct (lora_event_ok _ e _ Hok) as (l1 & -> & Hok1). cbn [mbind result_bind]. by apply IH. }
  destruct (Hgen (mkLoRARequestStates true []) (fun _ _ => None)) as (l & Hl & Hok); [|by exists l].
  split; try done; try constructor; cbn; set_solver.
Qed.
