(* ===== verification/OutputProcessor.v ===== *)
(** * The output processor

    [RequestState] and [OutputProcessor] of [vllm/v1/engine/output_processor.py]:
    the outputs of the engine core are detokenized, checked for stop strings and
    handed to the clients.  Parent requests and collectors are shared by the
    children of a request, so they live in stores and the states hold addresses.
    Tracing ([do_tracing]) exports values to OpenTelemetry and is left out. *)

From S2P Require Import Prelude PyDict PyList PyInt PyStr PyText PyFloat Request Outputs Detokenizer Logprobs RequestOutput ParallelSampling FrontStats.
#[local] Open Scope Z_scope.

Record RequestState (Tok Stream : Type) := mkRequestState {
  rs_request_id : string;
  parent_req : option Z;
  request_index : Z;
  rs_lora_name : option string;
  rs_output_kind : RequestOutputKind;
  rs_prompt : option text;
  rs_prompt_token_ids : option (list Z);
  rs_prompt_embeds : option (list string);
  rs_prompt_len : Z;
  logprobs_processor : option (LogprobsProcessor Tok);
  detokenizer : option (IncrementalDetokenizer Tok Stream);
  max_tokens_param : option Z;
  is_prefilling : bool;
  rs_queue : option Z;
  rs_num_cached_tokens : Z;
  rs_stats : option RequestStateStats;
}.
Arguments mkRequestState {Tok Stream}.
Arguments rs_request_id {Tok Stream} _.
Arguments parent_req {Tok Stream} _.
Arguments request_index {Tok Stream} _.
Arguments rs_lora_name {Tok Stream} _.
Arguments rs_output_kind {Tok Stream} _.
Arguments rs_prompt {Tok Stream} _.
Arguments rs_prompt_token_ids {Tok Stream} _.
Arguments rs_prompt_embeds {Tok Stream} _.
Arguments rs_prompt_len {Tok Stream} _.
Arguments logprobs_processor {Tok Stream} _.
Arguments detokenizer {Tok Stream} _.
Arguments max_tokens_param {Tok Stream} _.
Arguments is_prefilling {Tok Stream} _.
Arguments rs_queue {Tok Stream} _.
Arguments rs_num_cached_tokens {Tok Stream} _.
Arguments rs_stats {Tok Stream} _.

#[export] Instance eta_RequestState {Tok Stream} : Eta (RequestState Tok Stream) := fun s =>
  mkRequestState (rs_request_id s) (parent_req s) (request_index s) (rs_lora_name s) (rs_output_kind s)
    (rs_prompt s) (rs_prompt_token_ids s) (rs_prompt_embeds s) (rs_prompt_len s) (logprobs_processor s)
    (detokenizer s) (max_tokens_param s) (is_prefilling s) (rs_queue s) (rs_num_cached_tokens s) (rs_stats s).

Record OutputProcessor (Tok Stream : Type) := mkOutputProcessor {
  op_log_stats : bool;
  op_tokenizer : option Tok;
  request_states : dict string (RequestState Tok Stream);
  parent_requests : dict string Z;
  lora_states : LoRARequestStates;
  parents : gmap Z ParentRequest;
  queues : gmap Z Collector;
}.
Arguments mkOutputProcessor {Tok Stream}.
Arguments op_log_stats {Tok Stream} _.
Arguments op_tokenizer {Tok Stream} _.
Arguments request_states {Tok Stream} _.
Arguments parent_requests {Tok Stream} _.
Arguments lora_states {Tok Stream} _.
Arguments parents {Tok Stream} _.
Arguments queues {Tok Stream} _.

#[export] Instance eta_OutputProcessor {Tok Stream} : Eta (OutputProcessor Tok Stream) := fun p =>
  mkOutputProcessor (op_log_stats p) (op_tokenizer p) (request_states p) (parent_requests p) (lora_states p)
    (parents p) (queues p).

Section Processor.
Context {Tok Stream : Type} `{Tokenizers Tok Stream} `{TensorRows}.
(** VLLM_FLAT_LOGPROBS, VLLM_COMPUTE_NANS_IN_LOGITS, and [torch.randn(0)]. *)
Context (flat_logprobs compute_nans : bool) (empty_tensor : opaque).
Implicit Types (rs : RequestState Tok Stream) (p : OutputProcessor Tok Stream).

(** ** RequestState *)

(** A pooling request has [FINAL_ONLY] outputs: [PoolingParams] asserts it. *)
Definition state_from_new_request (tokenizer : option Tok) (request : EngineCoreRequest) (prompt : option text)
    (parent : option Z) (request_index : Z) (queue : option Z) (log_stats : bool)
    : result (RequestState Tok Stream) :=
  '(kind, lpr, dt, max_tokens) ←
    match ecr_sampling_params request with
    | Some sp =>
        let tokenizer := if detokenize sp then tokenizer else None in
        lpr ← logprobs_from_new_request flat_logprobs tokenizer request;
        dt ← detokenizer_from_new_request tokenizer request;
        Ok (output_kind sp, Some lpr, Some dt, sp_max_tokens sp)
    | None =>
        _ ← or_raise AssertionError (ecr_pooling_params request);
        Ok (FINAL_ONLY, None, None, None)
    end;
  prompt_len ← prompt_length (ecr_prompt_token_ids request) (ecr_prompt_embeds request);
  Ok {| rs_request_id := ecr_request_id request; parent_req := parent; request_index := request_index;
        rs_lora_name := lora_name <$> ecr_lora_request request; rs_output_kind := kind; rs_prompt := prompt;
        rs_prompt_token_ids := ecr_prompt_token_ids request; rs_prompt_embeds := ecr_prompt_embeds request;
        rs_prompt_len := prompt_len; logprobs_processor := lpr; detokenizer := dt;
        max_tokens_param := max_tokens; is_prefilling := true; rs_queue := queue; rs_num_cached_tokens := 0;
        rs_stats := if log_stats then Some (new_request_stats (ecr_arrival_time request)) else None |}.

(** [logprobs[-len(token_ids):]] in a stream. *)
Definition output_logprobs (delta : bool) (token_ids : list Z) (lps : option LogprobContainer)
    : result (option LogprobContainer) :=
  match lps with
  | Some c => if delta && negb (container_len c =? 0) then c ← container_from (- py_len token_ids) c; Ok (Some c) else Ok (Some c)
  | None => Ok None
  end.

Definition new_completion_output (token_ids : list Z) (finish_reason : option FinishReason)
    (stop_reason : option StopReason) (final_score : option float) (score_history : option (list float)) rs
    : result (CompletionOutput * RequestState Tok Stream) :=
  dt ← or_raise AssertionError (detokenizer rs);
  lpr ← or_raise AssertionError (logprobs_processor rs);
  let finished := bool_decide (is_Some finish_reason) in
  let delta := bool_decide (rs_output_kind rs = DELTA) in
  let '(t, dt) := get_next_output_text finished delta dt in
  let token_ids := if delta then token_ids else detokenizer_token_ids dt in
  lps ← output_logprobs delta token_ids (lpr_logprobs lpr);
  Ok ({| co_index := request_index rs; co_text := t; co_token_ids := token_ids;
         co_cumulative_logprob := cumulative_logprob lpr; co_logprobs := lps;
         co_finish_reason := finish_reason;
         co_stop_reason := if finished then stop_reason else None;
         co_final_score := if finished then final_score else None;
         co_score_history := if finished then score_history else None |},
      rs <| detokenizer := Some dt |>).

Definition new_pooling_request_output (request_id : string) (data : opaque) (finished : bool) rs : result Collected :=
  ids ← or_raise AssertionError (rs_prompt_token_ids rs);
  Ok (PoolOut {| pro_request_id := request_id; pro_data := data; pro_num_cached_tokens := rs_num_cached_tokens rs;
                 pro_prompt_token_ids := ids; pro_finished := finished |}).

Definition new_request_output (request_id : string) (outs : list (option CompletionOutput)) (finished : bool)
    (kv_transfer_params : option opaque) (final_score : option float) rs
    : result (Collected * RequestState Tok Stream) :=
  _ ← py_index outs 0;
  lpr ← or_raise AssertionError (logprobs_processor rs);
  let '(plp, lpr) := if decide (rs_output_kind rs = DELTA) then pop_prompt_logprobs lpr
                     else (lpr_prompt_logprobs lpr, lpr) in
  let ids := match rs_prompt_token_ids rs, rs_prompt_embeds rs with
             | None, Some e => Some (replicate (length e) 0)
             | ids, _ => ids
             end in
  Ok (ReqOut {| ro_request_id := request_id; ro_prompt := rs_prompt rs; ro_prompt_token_ids := ids;
                ro_prompt_logprobs := plp; ro_outputs := outs; ro_finished := finished;
                ro_kv_transfer_params := kv_transfer_params; ro_num_cached_tokens := rs_num_cached_tokens rs;
                ro_final_score := final_score |},
      rs <| logprobs_processor := Some lpr |>).

(** The output, when there is one, with the state and the parents afterwards. *)
Definition make_request_output (new_token_ids : list Z) (pooling_output : option opaque)
    (finish_reason : option FinishReason) (stop_reason : option StopReason) (kv_transfer_params : option opaque)
    (final_score : option float) (score_history : option (list float)) rs (ps : gmap Z ParentRequest)
    : result (option Collected * RequestState Tok Stream * gmap Z ParentRequest) :=
  let finished := bool_decide (is_Some finish_reason) in
  if negb finished && bool_decide (rs_output_kind rs = FINAL_ONLY) then Ok (None, rs, ps)
  else
    match pooling_output with
    | Some data => o ← new_pooling_request_output (rs_request_id rs) data finished rs; Ok (Some o, rs, ps)
    | None =>
        '(output, rs) ← new_completion_output new_token_ids finish_reason stop_reason final_score score_history rs;
        '(request_id, outs, finished, ps) ←
          match parent_req rs with
          | None => Ok (rs_request_id rs, [Some output], finished, ps)
          | Some a =>
              parent ← or_raise RuntimeError (ps !! a);
              '(request_id, outs, finished, parent) ← get_outputs (rs_request_id rs) output parent;
              Ok (request_id, outs, finished, <[a := parent]> ps)
          end;
        match outs with
        | [] => Ok (None, rs, ps)
        | _ =>
            '(o, rs) ← new_request_output request_id outs finished kv_transfer_params final_score rs;
            Ok (Some o, rs, ps)
        end
    end.

(** ** OutputProcessor *)

Definition new_output_processor (tokenizer : option Tok) (log_stats : bool) : OutputProcessor Tok Stream :=
  mkOutputProcessor log_stats tokenizer [] [] (mkLoRARequestStates log_stats []) ∅ ∅.

Definition get_num_unfinished_requests p : Z := py_len (request_states p).
Definition has_unfinished_requests p : bool := 0 <? py_len (request_states p).

(** [queue.put(output)] through an address. *)
Definition queue_put (a : Z) (output : Collected) (qs : gmap Z Collector) : result (gmap Z Collector) :=
  q ← or_raise RuntimeError (qs !! a);
  q ← collector_put output q;
  Ok (<[a := q]> qs).

Definition propagate_error (e : exn) p : result (OutputProcessor Tok Stream) :=
  qs ← for_each (fun rs qs => a ← or_raise AssertionError (rs_queue rs); queue_put a (ErrOut e) qs)
         (dvalues (request_states p)) (queues p);
  Ok (p <| queues := qs |>).

Definition op_add_request (request : EngineCoreRequest) (prompt : option text) (parent : option Z)
    (request_index : Z) (queue : option Z) p : result (OutputProcessor Tok Stream) :=
  let request_id := ecr_request_id request in
  if dmem request_id (request_states p) then Raise ValueError
  else
    req_state ← state_from_new_request (op_tokenizer p) request prompt parent request_index queue (op_log_stats p);
    let p := p <| request_states := dset request_id req_state (request_states p) |> in
    match parent with
    | None => Ok p
    | Some a =>
        pr ← or_raise RuntimeError (parents p !! a);
        Ok (p <| parent_requests := dset (pr_request_id pr) a (parent_requests p) |>)
    end.

(** One request of [abort_requests] that the processor knows. *)
Definition abort_known (request_id : string) rs p : result (OutputProcessor Tok Stream) :=
  let p := p <| request_states := ddel request_id (request_states p) |> in
  lora ← request_finished request_id (rs_lora_name rs) (lora_states p);
  let p := p <| lora_states := lora |> in
  match rs_queue rs with
  | None => Ok p
  | Some a =>
      let pooling := match detokenizer rs with None => Some empty_tensor | Some _ => None end in
      '(o, _, ps) ← make_request_output [] pooling (Some ABORT) None None None None rs (parents p);
      let p := p <| parents := ps |> in
      match o with
      | None => Ok p
      | Some output => qs ← queue_put a output (queues p); Ok (p <| queues := qs |>)
      end
  end.

(** The recursion is that of the code, from a parent to its children; Python's
    limit on it, whose error is a RuntimeError, is the fuel. *)
Fixpoint abort_requests (recursion_limit : nat) (request_ids : list string) p
    : result (list string * OutputProcessor Tok Stream) :=
  match recursion_limit with
  | O => Raise RuntimeError
  | S recursion_limit =>
      for_each (fun request_id st =>
        let '(to_abort, p) := st in
        match dget request_id (request_states p) with
        | Some rs => p ← abort_known request_id rs p; Ok (to_abort ++ [request_id], p)
        | None =>
            match dget request_id (parent_requests p) with
            | None => Ok (to_abort, p)
            | Some a =>
                parent ← or_raise RuntimeError (parents p !! a);
                '(child_reqs, p) ←
                  (if decide (child_requests parent = ∅) then Ok ([], p)
                   else abort_requests recursion_limit (elements (child_requests parent)) p);
                Ok (to_abort ++ child_reqs, p <| parent_requests := ddel request_id (parent_requests p) |>)
            end
        end) request_ids ([], p)
  end.

(** *** Processing the engine's outputs *)

Definition update_stats_from_output (output : EngineCoreOutput) (timestamp : option float) rs
    (it : option IterationStats) (lora : LoRARequestStates)
    : result (RequestState Tok Stream * option IterationStats * LoRARequestStates) :=
  match it with
  | None => Ok (rs, None, lora)
  | Some it =>
      ts ← or_raise AssertionError timestamp;
      stats ← or_raise AssertionError (rs_stats rs);
      '(it, stats, lora) ← it_update_from_output compute_nans output ts (is_prefilling rs) (rs_prompt_len rs)
                             (rs_lora_name rs) (it, stats, lora);
      Ok (rs <| rs_stats := Some stats |>, Some it, lora)
  end.

(** [ParentRequest.observe_finished_request]. *)
Definition observe_finished_request (parent : option ParentRequest) (num_generation_tokens : Z) (it : IterationStats)
    : IterationStats * option ParentRequest :=
  let record num it n_param :=
    it <| max_num_generation_tokens_iter := max_num_generation_tokens_iter it ++ [num] |>
       <| n_params_iter := n_params_iter it ++ [n_param] |> in
  match parent with
  | None => (record num_generation_tokens it 1, None)
  | Some pr =>
      let '(num, pr) := observe_num_generation_tokens num_generation_tokens pr in
      (if decide (child_requests pr = ∅) then record num it (n (pr_sampling_params pr)) else it, Some pr)
  end.

Definition update_stats_from_finished rs (finish_reason : FinishReason) (it : option IterationStats) p
    : result (option IterationStats * OutputProcessor Tok Stream) :=
  match it with
  | None => Ok (None, p)
  | Some it =>
      stats ← or_raise AssertionError (rs_stats rs);
      let it := update_from_finished_request finish_reason (rs_prompt_len rs) (max_tokens_param rs) stats it in
      lora ← request_finished (rs_request_id rs) (rs_lora_name rs) (lora_states p);
      let p := p <| lora_states := lora |> in
      parent ← match parent_req rs with
               | None => Ok None
               | Some a => pr ← or_raise RuntimeError (parents p !! a); Ok (Some (a, pr))
               end;
      let '(it, pr) := observe_finished_request (snd <$> parent) (rss_num_generation_tokens stats) it in
      Ok (Some it, match parent, pr with
                   | Some (a, _), Some pr => p <| parents := <[a := pr]> (parents p) |>
                   | _, _ => p
                   end)
  end.

(** Detokenization, stop strings and log probabilities: the state and the verdict. *)
Definition detokenize_output (o : EngineCoreOutput) rs
    : result (option FinishReason * option StopReason * RequestState Tok Stream) :=
  let reason := eco_finish_reason o in
  let stop := stop_reason_of <$> eco_stop_reason o in
  match pooling_output o with
  | Some _ => Ok (reason, stop, rs)
  | None =>
      dt ← or_raise AssertionError (detokenizer rs);
      lpr ← or_raise AssertionError (logprobs_processor rs);
      '(stop_string, dt) ← dt_update (new_token_ids o) (bool_decide (reason = Some STOP)) dt;
      lpr ← lpr_update_from_output o lpr;
      let '(reason, stop) := match stop_string with
                             | Some ((_ :: _) as s) => (Some STOP, Some (StopText s))
                             | _ => (reason, stop)
                             end in
      Ok (reason, stop, rs <| detokenizer := Some dt |> <| logprobs_processor := Some lpr |>)
  end.

(** [if request_output := ...]: to the queue, or to the list returned. *)
Definition deliver (output : option Collected) (queue : option Z) (request_outputs : list Collected) p
    : result (list Collected * OutputProcessor Tok Stream) :=
  match output, queue with
  | None, _ => Ok (request_outputs, p)
  | Some output, Some a => qs ← queue_put a output (queues p); Ok (request_outputs, p <| queues := qs |>)
  | Some output, None => Ok (request_outputs ++ [output], p)
  end.

(** [if parent_req and not parent_req.child_requests]: the parent is forgotten. *)
Definition forget_parent rs p : result (OutputProcessor Tok Stream) :=
  match parent_req rs with
  | None => Ok p
  | Some a =>
      pr ← or_raise RuntimeError (parents p !! a);
      Ok (if decide (child_requests pr = ∅)
          then p <| parent_requests := ddel (pr_request_id pr) (parent_requests p) |> else p)
  end.

Record Batch := mkBatch {
  request_outputs : list Collected;
  reqs_to_abort : list string;
  iteration_stats : option IterationStats;
}.

(** One turn of [process_outputs]' loop. *)
Definition process_output (timestamp : option float) (o : EngineCoreOutput) (st : Batch * OutputProcessor Tok Stream)
    : result (Batch * OutputProcessor Tok Stream) :=
  let '(b, p) := st in
  let req_id := eco_request_id o in
  match dget req_id (request_states p) with
  | None =>
      let count it := it <| it_num_generation_tokens := it_num_generation_tokens it + py_len (new_token_ids o) |> in
      Ok (mkBatch (request_outputs b) (reqs_to_abort b) (count <$> iteration_stats b), p)
  | Some rs =>
      '(rs, it, lora) ← update_stats_from_output o timestamp rs (iteration_stats b) (lora_states p);
      let p := p <| lora_states := lora |> in
      let rs := rs <| rs_num_cached_tokens := eco_num_cached_tokens o |> <| is_prefilling := false |> in
      '(finish_reason, stop_reason, rs) ← detokenize_output o rs;
      '(output, rs, ps) ←
        make_request_output (new_token_ids o) (pooling_output o) finish_reason stop_reason
          (eco_kv_transfer_params o) (eco_final_score o) (eco_score_history o) rs (parents p);
      let p := p <| parents := ps |> <| request_states := dset req_id rs (request_states p) |> in
      '(outs, p) ← deliver output (rs_queue rs) (request_outputs b) p;
      match finish_reason with
      | None => Ok (mkBatch outs (reqs_to_abort b) it, p)
      | Some reason =>
          let p := p <| request_states := ddel req_id (request_states p) |> in
          p ← forget_parent rs p;
          let aborts := if eco_finished o then reqs_to_abort b else reqs_to_abort b ++ [req_id] in
          '(it, p) ← update_stats_from_finished rs reason it p;
          Ok (mkBatch outs aborts it, p)
      end
  end.

Definition process_outputs (engine_core_outputs : list EngineCoreOutput) (timestamp : option float)
    (it : option IterationStats) p : result (Batch * OutputProcessor Tok Stream) :=
  for_each (process_output timestamp) engine_core_outputs (mkBatch [] [] it, p).
End Processor.

(** * What the output processor delivers

    For text requests without parents, in the list the engine returns (LLMEngine) or through the queues of the clients
    (AsyncLLM), when no statistics are gathered: a batch of engine outputs is answered completely, with the exact output for
    each request, and the requests that ended, by the engine or by a stop string, are forgotten. *)

Section Processor.
Context {Tok Stream : Type} `{Tokenizers Tok Stream} `{TensorRows}.
Context (compute_nans : bool).
Implicit Types (rs : RequestState Tok Stream) (p : OutputProcessor Tok Stream) (o : EngineCoreOutput).

(** What the detokenizer and the log probabilities make of an output: a stop string, their states afterwards, and the log
    probabilities to show. *)
Record Answer := mkAnswer {
  as_stop : option text;
  as_detokenizer : IncrementalDetokenizer Tok Stream;
  as_processor : LogprobsProcessor Tok;
  as_logprobs : option LogprobContainer;
}.
Implicit Types (a : Answer).

(** How the request ends, if it does, and why: a stop string overrides the engine. *)
Definition verdict o a : option FinishReason := match as_stop a with Some _ => Some STOP | None => eco_finish_reason o end.
Definition stop_cause o a : option StopReason := match as_stop a with Some s => Some (StopText s) | None => stop_reason_of <$> eco_stop_reason o end.
Definition over o a : bool := bool_decide (is_Some (verdict o a)).

(** Clients that asked for the final output hear nothing before. *)
Definition silent o rs a : bool := negb (over o a) && bool_decide (rs_output_kind rs = FINAL_ONLY).
Definition streams rs : bool := bool_decide (rs_output_kind rs = DELTA).

(** The text for the client, and the detokenizer after it. *)
Definition next_text o rs a : text * IncrementalDetokenizer Tok Stream := get_next_output_text (over o a) (streams rs) (as_detokenizer a).
Definition shown_tokens o rs a : list Z := if streams rs then new_token_ids o else detokenizer_token_ids (next_text o rs a).2.

Definition the_completion o rs a : CompletionOutput := {|
  co_index := request_index rs; co_text := (next_text o rs a).1; co_token_ids := shown_tokens o rs a;
  co_cumulative_logprob := cumulative_logprob (as_processor a); co_logprobs := as_logprobs a;
  co_finish_reason := verdict o a; co_stop_reason := if over o a then stop_cause o a else None;
  co_final_score := if over o a then eco_final_score o else None;
  co_score_history := if over o a then eco_score_history o else None |}.

(** The output for the client, if there is one. *)
Definition expected o rs a : option Collected :=
  if silent o rs a then None
  else Some (ReqOut {|
    ro_request_id := eco_request_id o; ro_prompt := rs_prompt rs;
    ro_prompt_token_ids := match rs_prompt_token_ids rs, rs_prompt_embeds rs with
                           | None, Some e => Some (replicate (length e) 0) | ids, _ => ids end;
    ro_prompt_logprobs := lpr_prompt_logprobs (as_processor a); ro_outputs := [Some (the_completion o rs a)];
    ro_finished := over o a; ro_kv_transfer_params := eco_kv_transfer_params o;
    ro_num_cached_tokens := eco_num_cached_tokens o; ro_final_score := eco_final_score o |}).

(** The state of a request that goes on. *)
Definition next_state o rs a : RequestState Tok Stream :=
  rs <| rs_num_cached_tokens := eco_num_cached_tokens o |> <| is_prefilling := false |>
     <| detokenizer := Some (if silent o rs a then as_detokenizer a else (next_text o rs a).2) |>
     <| logprobs_processor := Some (if negb (silent o rs a) && streams rs then (pop_prompt_logprobs (as_processor a)).2 else as_processor a) |>.

(** The detokenizer and the log probabilities of the state answer [a] to the output. *)
Record answered o rs a : Prop := {
  an_id : rs_request_id rs = eco_request_id o;
  an_alone : parent_req rs = None;
  an_text : pooling_output o = None;
  an_update : exists dt, detokenizer rs = Some dt /\
    dt_update (new_token_ids o) (bool_decide (eco_finish_reason o = Some STOP)) dt = Ok (as_stop a, as_detokenizer a);
  an_logprobs : exists lpr, logprobs_processor rs = Some lpr /\ lpr_update_from_output o lpr = Ok (as_processor a);
  an_shown : output_logprobs (streams rs) (shown_tokens o rs a) (lpr_logprobs (as_processor a)) = Ok (as_logprobs a);
  an_stop : as_stop a <> Some [];
}.

Lemma pop_prompt_same (lpr : LogprobsProcessor Tok) : (pop_prompt_logprobs lpr).1 = lpr_prompt_logprobs lpr.
Proof. unfold pop_prompt_logprobs. destruct (lpr_prompt_logprobs lpr) as [c|]; [|done]. by destruct (container_len c =? 0). Qed.

(** The turn of one request, from its update to its output. *)
Lemma answer_made o rs a (ps : gmap Z ParentRequest) : answered o rs a ->
  ('(finish_reason, stop_reason, rs) ← detokenize_output o (rs <| rs_num_cached_tokens := eco_num_cached_tokens o |> <| is_prefilling := false |>);
   '(output, rs, ps) ← make_request_output (new_token_ids o) (pooling_output o) finish_reason stop_reason
     (eco_kv_transfer_params o) (eco_final_score o) (eco_score_history o) rs ps;
   Ok (finish_reason, output, rs, ps)) = Ok (verdict o a, expected o rs a, next_state o rs a, ps).
Proof.
  destruct rs as [rid par ix lora kind pr pids pe plen lp dt mt pf q nc st]. intros [Hid Hpar Hpool (dt0 & Hdt & Hup) (lpr0 & Hlpr & Hul) Hshown Hstop].
  cbn in Hid, Hpar, Hdt, Hlpr. subst rid par dt lp. unfold detokenize_output. rewrite Hpool.
  cbn -[dt_update lpr_update_from_output make_request_output]. rewrite Hup. cbn -[lpr_update_from_output make_request_output].
  rewrite Hul. cbn -[make_request_output].
  assert (Hv : (match as_stop a with Some ((_ :: _) as s) => (Some STOP, Some (StopText s)) | _ => (eco_finish_reason o, stop_reason_of <$> eco_stop_reason o) end)
    = (verdict o a, stop_cause o a)) by (unfold verdict, stop_cause; destruct (as_stop a) as [[|]|]; [by destruct Hstop | done | done]).
  rewrite Hv. unfold make_request_output, expected, next_state, silent. cbn -[new_completion_output new_request_output]. fold (over o a).
  destruct (negb (over o a) && bool_decide (kind = FINAL_ONLY)) eqn:Hsilent; [done|].
  unfold new_completion_output, shown_tokens, next_text, streams in *. cbn -[new_request_output get_next_output_text output_logprobs] in *.
  fold (over o a). destruct (get_next_output_text (over o a) (bool_decide (kind = DELTA)) (as_detokenizer a)) as [t dt1] eqn:Ht.
  cbn -[new_request_output output_logprobs] in *. unfold the_completion, shown_tokens, next_text, streams. cbn. rewrite Ht. cbn.
  rewrite Hshown. unfold new_request_output. cbn -[pop_prompt_logprobs]. pose proof (pop_prompt_same (as_processor a)) as Hpop.
  destruct (decide (kind = DELTA)) as [Hk|Hk].
  - rewrite (bool_decide_eq_true_2 (kind = DELTA)) by done. destruct (pop_prompt_logprobs (as_processor a)) as [c l]. cbn in Hpop |- *. by subst c.
  - by rewrite (bool_decide_eq_false_2 (kind = DELTA)).
Qed.

(** An output goes to the client's queue, or into the list that is returned. *)
Definition put_in (out : option Collected) (queue : option Z) (qs : gmap Z Collector) : result (gmap Z Collector) :=
  match out, queue with Some c, Some k => queue_put k c qs | _, _ => Ok qs end.
Definition listed (out : option Collected) (queue : option Z) : list Collected :=
  match out, queue with Some c, None => [c] | _, _ => [] end.

Lemma ddel_dset {A} k (v : A) (d : dict string A) : ddel k (dset k v d) = ddel k d.
Proof. induction d as [|[k' v'] d IH]; cbn; [by rewrite decide_True|]. case_decide as Hk; cbn; [by rewrite decide_True | rewrite decide_False by done; by rewrite IH]. Qed.

(** One output of a request the processor knows, without statistics. *)
Lemma process_known ts o rs a outs aborts p qs :
  dget (eco_request_id o) (request_states p) = Some rs -> answered o rs a -> put_in (expected o rs a) (rs_queue rs) (queues p) = Ok qs ->
  process_output compute_nans ts o (mkBatch outs aborts None, p)
    = Ok (mkBatch (outs ++ listed (expected o rs a) (rs_queue rs))
            (if over o a && negb (eco_finished o) then aborts ++ [eco_request_id o] else aborts) None,
          p <| request_states := if over o a then ddel (eco_request_id o) (request_states p)
                                 else dset (eco_request_id o) (next_state o rs a) (request_states p) |> <| queues := qs |>).
Proof.
  intros Hget Hans Hput. unfold process_output. rewrite Hget. cbn [update_stats_from_output iteration_stats mbind result_bind].
  pose proof (answer_made o rs a (parents p) Hans) as Hmade. set (rs0 := rs <| rs_num_cached_tokens := _ |> <| is_prefilling := _ |>) in *.
  change (parents (p <| lora_states := lora_states p |>)) with (parents p). change (request_states (p <| lora_states := lora_states p |>)) with (request_states p).
  apply bind_Ok_inv in Hmade as ([[reason stop] rs1] & -> & Hmade). cbn [mbind result_bind].
  apply bind_Ok_inv in Hmade as ([[out rs2] ps] & -> & Hmade). cbn [mbind result_bind]. injection Hmade as -> -> -> ->.
  assert (Hp : p <| lora_states := lora_states p |> <| parents := parents p |> = p) by (by destruct p). rewrite Hp.
  set (p1 := p <| request_states := dset (eco_request_id o) (next_state o rs a) (request_states p) |>).
  assert (Hdel : deliver (expected o rs a) (rs_queue (next_state o rs a)) (request_outputs (mkBatch outs aborts None)) p1
    = Ok (outs ++ listed (expected o rs a) (rs_queue rs), p1 <| queues := qs |>)).
  { unfold deliver. change (rs_queue (next_state o rs a)) with (rs_queue rs). change (queues p1) with (queues p). cbn [request_outputs].
    assert (Hsame : queues p = qs -> p1 = p1 <| queues := qs |>) by (intros <-; unfold p1; by destruct p).
    destruct (expected o rs a) as [c|], (rs_queue rs) as [k|]; cbn [put_in listed] in *; rewrite ?app_nil_r.
    - rewrite Hput. done.
    - injection Hput as Hq. by rewrite <- Hsame.
    - injection Hput as Hq. by rewrite <- Hsame.
    - injection Hput as Hq. by rewrite <- Hsame. }
  rewrite Hdel. cbn [mbind result_bind]. unfold over. destruct (verdict o a) as [r|]; [|done].
  unfold forget_parent. assert (Hpar : parent_req (next_state o rs a) = None) by apply Hans. rewrite Hpar.
  cbn -[eco_finished]. rewrite ddel_dset. by destruct (eco_finished o).
Qed.

(** The answers to a batch, by request. *)
Context (answer : string -> Answer).

Definition state_for p o : option (RequestState Tok Stream) := dget (eco_request_id o) (request_states p).
Definition told p o : option Collected := rs ← state_for p o; expected o rs (answer (eco_request_id o)).
Definition queue_for p o : option Z := rs ← state_for p o; rs_queue rs.

(** The requests the engine has to be told to stop: known ones in whose text a stop string was found. *)
Definition stop_found p o : bool :=
  bool_decide (is_Some (state_for p o)) && bool_decide (is_Some (as_stop (answer (eco_request_id o)))) && negb (eco_finished o).

(** What becomes of the state of [rid]. *)
Definition state_after p os rid : option (RequestState Tok Stream) :=
  match List.find (fun o => bool_decide (eco_request_id o = rid)) os with
  | Some o => rs ← dget rid (request_states p); if over o (answer rid) then None else Some (next_state o rs (answer rid))
  | None => dget rid (request_states p)
  end.

Definition put_all p os (qs : gmap Z Collector) : result (gmap Z Collector) :=
  for_each (fun o qs => put_in (told p o) (queue_for p o) qs) os qs.

Lemma over_abort o a : over o a && negb (eco_finished o) = bool_decide (is_Some (as_stop a)) && negb (eco_finished o).
Proof.
  unfold over, verdict, eco_finished. destruct (as_stop a); [done|]. by destruct (eco_finish_reason o).
Qed.

(** One output, known or not. *)
Lemma process_one ts o outs aborts p qs : dict_ok (request_states p) ->
  (forall rs, state_for p o = Some rs -> answered o rs (answer (eco_request_id o))) ->
  put_in (told p o) (queue_for p o) (queues p) = Ok qs ->
  exists p1, process_output compute_nans ts o (mkBatch outs aborts None, p)
      = Ok (mkBatch (outs ++ listed (told p o) (queue_for p o)) (if stop_found p o then aborts ++ [eco_request_id o] else aborts) None, p1) /\
    p1 = p <| request_states := request_states p1 |> <| queues := qs |> /\ dict_ok (request_states p1) /\
    forall rid, dget rid (request_states p1) = state_after p [o] rid.
Proof.
  intros Hd Hans Hput. unfold told, queue_for, stop_found, state_after in *. cbn [List.find].
  destruct (state_for p o) as [rs|] eqn:Hst; cbn [mbind option_bind] in *.
  - rewrite (process_known ts o rs _ outs aborts p qs Hst (Hans rs eq_refl) Hput). eexists. split; [rewrite over_abort; reflexivity|].
    split; [done|]. cbn. split; [destruct (over _ _); auto using dict_ok_ddel, dict_ok_dset|].
    intros rid. case_bool_decide as Hid; [subst rid|].
    + change (dget (eco_request_id o) (request_states p)) with (state_for p o). rewrite Hst. cbn.
      destruct (over _ _); [by apply dget_ddel_eq | by rewrite dget_dset_eq].
    + by destruct (over _ _); rewrite ?dget_ddel_ne, ?dget_dset_ne by done.
  - injection Hput as Hq. exists p. unfold process_output. change (dget (eco_request_id o) (request_states p)) with (state_for p o). rewrite Hst. cbn. rewrite app_nil_r.
    split; [done|]. split; [rewrite <- Hq; by destruct p|]. split; [done|]. intros rid. case_bool_decide as Hid; [subst rid|done].
    change (dget (eco_request_id o) (request_states p)) with (state_for p o). by rewrite Hst.
Qed.

Lemma process_outputs_aux ts os : forall outs aborts p qs, dict_ok (request_states p) -> NoDup (eco_request_id <$> os) ->
  (forall o rs, o ∈ os -> state_for p o = Some rs -> answered o rs (answer (eco_request_id o))) -> put_all p os (queues p) = Ok qs ->
  exists p', for_each (process_output compute_nans ts) os (mkBatch outs aborts None, p)
      = Ok (mkBatch (outs ++ concat ((fun o => listed (told p o) (queue_for p o)) <$> os))
                    (aborts ++ (eco_request_id <$> List.filter (stop_found p) os)) None, p') /\
    p' = p <| request_states := request_states p' |> <| queues := qs |> /\
    forall rid, dget rid (request_states p') = state_after p os rid.
Proof.
  induction os as [|o os IH]; intros outs aborts p qs Hd Hnd Hans Hput.
  { injection Hput as <-. exists p. cbn. rewrite !app_nil_r. split; [done|]. split; [by destruct p | done]. }
  rewrite fmap_cons in Hnd. apply NoDup_cons in Hnd as [Hnotin Hnd]. cbn [for_each]. unfold put_all in Hput. cbn [for_each] in Hput.
  apply bind_Ok_inv in Hput as (qs1 & Hput1 & Hput).
  destruct (process_one ts o outs aborts p qs1 Hd (fun rs => Hans o rs ltac:(by left)) Hput1) as (p1 & -> & Hp1 & Hd1 & Hst1).
  cbn [mbind result_bind]. assert (Hother : forall o', o' ∈ os -> state_for p1 o' = state_for p o').
  { intros o' Ho'. unfold state_for. rewrite Hst1. unfold state_after. cbn. rewrite bool_decide_eq_false_2; [done|].
    intros Heq. apply Hnotin. rewrite Heq. by apply list_elem_of_fmap_2. }
  assert (Htold : forall o', o' ∈ os -> told p1 o' = told p o' /\ queue_for p1 o' = queue_for p o' /\ stop_found p1 o' = stop_found p o').
  { intros o' Ho'. unfold told, queue_for, stop_found. by rewrite !Hother. }
  destruct (IH (outs ++ listed (told p o) (queue_for p o)) (if stop_found p o then aborts ++ [eco_request_id o] else aborts) p1 qs Hd1 Hnd) as (p' & -> & Hp' & Hst').
  { intros o' rs Ho' Hrs. rewrite Hother in Hrs by done. apply Hans; [by right | done]. }
  { rewrite Hp1. cbn [queues]. unfold put_all. rewrite <- Hput. change (queues (_ <| queues := qs1 |>)) with qs1. clear -Htold Hp1. rewrite <- Hp1. revert qs1 Hp1.
    intros qs1 _. revert qs1. induction os as [|o' os IH]; intros qs1; [done|]. cbn [for_each].
    destruct (Htold o' ltac:(by left)) as (-> & -> & _). destruct (put_in _ _ qs1); cbn [mbind result_bind]; [|done]. apply IH.
    intros x Hx. apply Htold. by right. }
  exists p'. split; [|split].
  - do 2 f_equal. assert (Hl : (fun o => listed (told p1 o) (queue_for p1 o)) <$> os = (fun o => listed (told p o) (queue_for p o)) <$> os).
    { apply list_fmap_ext. intros i o' Ho'%list_elem_of_lookup_2. by destruct (Htold o' Ho') as (-> & -> & _). }
    assert (Hf : List.filter (stop_found p1) os = List.filter (stop_found p) os).
    { apply List.filter_ext_in. intros o' Ho'%list_elem_of_In. by destruct (Htold o' Ho') as (_ & _ & ->). }
    rewrite Hl, Hf, fmap_cons. cbn [concat List.filter]. rewrite app_assoc. by destruct (stop_found p o); rewrite ?fmap_cons, <- ?app_assoc.
  - rewrite Hp', Hp1. done.
  - intros rid. rewrite Hst'. unfold state_after. cbn [List.find]. case_bool_decide as Hid.
    + assert (Hnone : List.find (fun o' => bool_decide (eco_request_id o' = rid)) os = None).
      { destruct (List.find _ os) as [o'|] eqn:Hf; [|done]. apply List.find_some in Hf as [Hin%list_elem_of_In He%bool_decide_eq_true].
        exfalso. apply Hnotin. rewrite Hid, <- He. by apply list_elem_of_fmap_2. }
      rewrite Hnone, Hst1. unfold state_after. cbn [List.find]. by rewrite bool_decide_eq_true_2.
    + assert (Hg : dget rid (request_states p1) = dget rid (request_states p)) by (rewrite Hst1; unfold state_after; cbn [List.find]; by rewrite bool_decide_eq_false_2).
      by rewrite Hg.
Qed.

(** C29: A batch of engine outputs for text requests without parents, when no statistics are gathered, is answered completely: in
    order, each request the processor knows gets exactly the expected output (id, prompt, text, token ids, log
    probabilities, scores, reason, counts; none but the last if the client asked for the final output only), in its
    client's queue if it has one and in the list returned otherwise; the engine is told to stop exactly those
    in whose text a stop string was found before it finished them; the requests that ended are forgotten and the
    states of the others are those their detokenizer and log probabilities left. Outputs of other requests, such as
    branched traces, are ignored, and nothing else of the processor changes. *)
Theorem outputs_delivered ts os p qs :
  dict_ok (request_states p) -> NoDup (eco_request_id <$> os) ->
  (forall o rs, o ∈ os -> state_for p o = Some rs -> answered o rs (answer (eco_request_id o))) ->
  for_each (fun o qs => put_in (told p o) (queue_for p o) qs) os (queues p) = Ok qs ->
  exists b p', process_outputs compute_nans os ts None p = Ok (b, p') /\
    request_outputs b = concat ((fun o => listed (told p o) (queue_for p o)) <$> os) /\
    reqs_to_abort b = eco_request_id <$> List.filter (stop_found p) os /\
    p' = p <| request_states := request_states p' |> <| queues := qs |> /\
    forall rid, dget rid (request_states p') = state_after p os rid.
Proof.
  intros Hd Hnd Hans Hput. destruct (process_outputs_aux ts os [] [] p qs Hd Hnd Hans Hput) as (p' & Hp & Hsame & Hst).
  eexists _, p'. split; [exact Hp|]. by split_and!.
Qed.
End Processor.

(** ** A concrete batch *)

#[local] Existing Instance char_tokenizer.

#[local] Instance no_tensors : TensorRows :=
  { row_ints := fun _ => []; row_floats := fun _ => []; row_int := fun _ => 0;
    prompt_tensors := fun _ => ([], [], []); prompt_tensors_shape := fun _ => (0, 0) }.

Definition front_request (rid : string) (stops : list text) : EngineCoreRequest :=
  mkEngineCoreRequest rid (Some [1; 2]) None (Some (stop_params stops)) None None fzero None None None None 0 0 0 None.

(** Three requests, the second with the stop string "67", the third with a queue. *)
Definition sample_processor : OutputProcessor unit unit :=
  match (p ← op_add_request false (front_request "a" []) None None 0 None (new_output_processor (Some tt) false <| queues := {[7 := new_collector CUMULATIVE]} |>);
         p ← op_add_request false (front_request "b" [[6; 7]]) None None 0 None p;
         op_add_request false (front_request "q" []) None None 0 (Some 7) p) with
  | Ok p => p
  | Raise _ => new_output_processor None false
  end.

Definition engine_output (rid : string) (ids : list Z) (reason : option FinishReason) : EngineCoreOutput :=
  mkEngineCoreOutput rid ids None None None reason None None None None None None 0 0.

Definition sample_batch : list EngineCoreOutput :=
  [engine_output "a" [5] (Some LENGTH); engine_output "t" [9] None; engine_output "b" [5; 6; 7] None; engine_output "q" [8] None].

Definition no_processor : LogprobsProcessor unit := mkLogprobsProcessor None None None None None None.

Definition sample_answer (rid : string) : Answer :=
  match List.find (fun o => bool_decide (eco_request_id o = rid)) sample_batch, dget rid (request_states sample_processor) with
  | Some o, Some rs =>
      match detokenizer rs, logprobs_processor rs with
      | Some dt, Some lpr => match dt_update (new_token_ids o) false dt with Ok (s, dt) => mkAnswer s dt lpr None | Raise _ => mkAnswer None dt lpr None end
      | _, _ => mkAnswer None (NoDetokenizer []) no_processor None
      end
  | _, _ => mkAnswer None (NoDetokenizer []) no_processor None
  end.

(** The id, the ids of the tokens, the text and the reason of a request output. *)
Definition in_short (c : Collected) : option (string * list (list Z * text * option FinishReason)) :=
  match c with
  | ReqOut r => Some (ro_request_id r, (fun c => (co_token_ids c, co_text c, co_finish_reason c)) <$> omap id (ro_outputs r))
  | _ => None
  end.

Definition sample_queues : gmap Z Collector :=
  match put_all sample_answer sample_processor sample_batch (queues sample_processor) with Ok qs => qs | Raise _ => ∅ end.

Lemma outputs_delivered_witness :
  exists b p', process_outputs false sample_batch None None sample_processor = Ok (b, p') /\
    in_short <$> request_outputs b = [Some ("a", [([5], [5], Some LENGTH)]); Some ("b", [([5; 6; 7], [5], Some STOP)])]%string /\
    ((queues p' !! 7) ≫= collected) ≫= in_short = Some ("q", [([8], [8], None)])%string /\
    reqs_to_abort b = ["b"]%string /\ dget "b"%string (request_states p') = None.
Proof.
  destruct (outputs_delivered false sample_answer None sample_batch sample_processor sample_queues) as (b & p' & Hp & Hh & Ha & Hq & Hm).
  - apply (bool_decide_unpack _). reflexivity.
  - apply (bool_decide_unpack _). reflexivity.
  - intros o rs Ho Hrs. unfold sample_batch in Ho.
    repeat (apply elem_of_cons in Ho as [->|Ho]; [vm_compute in Hrs; first [discriminate Hrs | injection Hrs as <-;
      split; [reflexivity | reflexivity | reflexivity | eexists; split; [reflexivity | vm_compute; reflexivity]
             | eexists; split; [reflexivity | vm_compute; reflexivity] | vm_compute; reflexivity | vm_compute; discriminate]]|]).
    by apply elem_of_nil in Ho.
  - vm_compute. reflexivity.
  - exists b, p'. split; [done|]. split; [rewrite Hh; vm_compute; reflexivity|]. split; [rewrite Hq; vm_compute; reflexivity|].
    split; [rewrite Ha; vm_compute; reflexivity|]. rewrite Hm. vm_compute. reflexivity.
Defined.

(** An aborted stream has no new tokens, and the slice of the last zero log
    probabilities is all of them. *)
Example aborted_stream_repeats_logprobs :
  output_logprobs true [] (Some (ListC [Some []; Some []])) = Ok (Some (ListC [Some []; Some []])).
Proof. reflexivity. Qed.
