(* ===== verification/Numpy.v ===== *)
(** * numpy arrays

    Arrays of a fixed length as lists: writes at an index, to a slice and to a
    slice of a row, the swap by index lists, and the copy of a prefix to the
    device, with numpy's rules for bad indices and for slices of another length. *)

From S2P Require Import Prelude PyDict PyList PyInt.
#[local] Open Scope Z_scope.

(** [a[i] = x], [a[i]] are [py_setitem] and [py_index].  [a[s:e] = vals] on a row:
    one value is broadcast, any other length must fit. *)
Definition np_set_slice {A} (s e : Z) (vals row : list A) : result (list A) :=
  let i := slice_pos s (length row) in
  let j := Nat.max i (slice_pos e (length row)) in
  let k := (j - i)%nat in
  if decide (length vals = k) then Ok (take i row ++ vals ++ drop j row)
  else match vals with
       | [v] => Ok (take i row ++ replicate k v ++ drop j row)
       | _ => Raise ValueError
       end.

(** [m[r, s:e] = vals]. *)
Definition np_set_row_slice {A} (r s e : Z) (vals : list A) (m : list (list A)) : result (list (list A)) :=
  row ← py_index m r;
  row ← np_set_slice s e vals row;
  py_setitem r row m.

(** [a[[i, j]] = a[[j, i]]]. *)
Definition np_swap {A} (i j : Z) (a : list A) : result (list A) :=
  x ← py_index a i;
  y ← py_index a j;
  a ← py_setitem i y a;
  py_setitem j x a.

(** [copy_to_gpu(n)]: the first [n] entries. *)
Definition copy_to_gpu {A} (n : Z) (cpu gpu : list A) : list A :=
  let k := slice_pos n (length cpu) in take k cpu ++ drop k gpu.

Definition zeros (n : Z) : list Z := replicate (Z.to_nat n) 0.

(** ** Reads and writes in range *)

Lemma py_len_app {A} (l k : list A) : py_len (l ++ k) = py_len l + py_len k.
Proof. unfold py_len. rewrite length_app. lia. Qed.

Lemma np_set_slice_in {A} (s : Z) (vals row : list A) :
  0 <= s -> s + py_len vals <= py_len row ->
  np_set_slice s (s + py_len vals) vals row
  = Ok (take (Z.to_nat s) row ++ vals ++ drop (Z.to_nat s + length vals) row).
Proof.
  unfold py_len. intros Hs Hlen. unfold np_set_slice, slice_pos.
  destruct (Z.ltb_spec s 0), (Z.ltb_spec (s + Z.of_nat (length vals)) 0); [lia..|].
  rewrite !Z.min_l by lia. rewrite decide_True by lia.
  by replace (Nat.max (Z.to_nat s) (Z.to_nat (s + Z.of_nat (length vals)))) with (Z.to_nat s + length vals)%nat by lia.
Qed.

Lemma np_set_row_slice_in {A} (r : nat) (s : Z) (vals row : list A) m :
  m !! r = Some row -> 0 <= s -> s + py_len vals <= py_len row ->
  np_set_row_slice (Z.of_nat r) s (s + py_len vals) vals m
  = Ok (<[r := take (Z.to_nat s) row ++ vals ++ drop (Z.to_nat s + length vals) row]> m).
Proof.
  intros Hr Hs Hlen. pose proof (lookup_lt_Some _ _ _ Hr) as Hlt. unfold np_set_row_slice.
  rewrite (py_index_Some _ _ row) by (rewrite ?Nat2Z.id; done || lia). cbn [mbind result_bind].
  rewrite np_set_slice_in by done. cbn [mbind result_bind].
  rewrite py_setitem_in by (unfold py_len; lia). by rewrite Nat2Z.id.
Qed.

Lemma py_index_nat {A} (l : list A) (r : nat) x : l !! r = Some x -> py_index l (Z.of_nat r) = Ok x.
Proof. intros Hr. apply py_index_Some; [lia | by rewrite Nat2Z.id]. Qed.

Lemma py_setitem_nat {A} (l : list A) (r : nat) x : (r < length l)%nat -> py_setitem (Z.of_nat r) x l = Ok (<[r := x]> l).
Proof. intros Hr. rewrite py_setitem_in by (unfold py_len; lia). by rewrite Nat2Z.id. Qed.

Lemma np_swap_nat {A} (a : list A) (i j : nat) x y :
  a !! i = Some x -> a !! j = Some y ->
  np_swap (Z.of_nat i) (Z.of_nat j) a = Ok (<[j := x]> (<[i := y]> a)).
Proof.
  intros Hi Hj. pose proof (lookup_lt_Some _ _ _ Hi). pose proof (lookup_lt_Some _ _ _ Hj). unfold np_swap.
  rewrite (py_index_nat _ _ _ Hi). cbn [mbind result_bind]. rewrite (py_index_nat _ _ _ Hj). cbn [mbind result_bind].
  rewrite py_setitem_nat by done. cbn [mbind result_bind]. by rewrite py_setitem_nat by (rewrite length_insert; done).
Qed.

Lemma length_copy_to_gpu {A} n (cpu gpu : list A) : length cpu = length gpu -> length (copy_to_gpu n cpu gpu) = length gpu.
Proof.
  intros Hlen. unfold copy_to_gpu. pose proof (slice_pos_le n (length cpu)). rewrite length_app, length_take, length_drop. lia.
Qed.

Lemma copy_to_gpu_lookup {A} n (cpu gpu : list A) i :
  length cpu = length gpu -> 0 <= n <= py_len cpu ->
  copy_to_gpu n cpu gpu !! i = if Z.of_nat i <? n then cpu !! i else gpu !! i.
Proof.
  unfold py_len. intros Hlen Hn. unfold copy_to_gpu, slice_pos. destruct (Z.ltb_spec n 0); [lia|]. rewrite Z.min_l by lia.
  destruct (Z.ltb_spec (Z.of_nat i) n).
  - rewrite lookup_app_l by (rewrite length_take; lia). by rewrite lookup_take_lt by lia.
  - rewrite lookup_app_r by (rewrite length_take; lia). rewrite length_take, lookup_drop. f_equal. lia.
Qed.

(** ** Sorting integers *)

#[export] Instance Z_ltb_swo : SWO (fun _ => True) Z.ltb.
Proof. split; intros; rewrite ?Z.ltb_lt, ?Z.ltb_ge in *; lia. Qed.

#[export] Instance Z_gtb_swo : SWO (fun _ => True) (fun a b => b <? a).
Proof. split; intros; rewrite ?Z.ltb_lt, ?Z.ltb_ge in *; lia. Qed.
