(* ===== verification/BlockTable.v ===== *)
(** * Block tables of the model runner

    [vllm/v1/worker/block_table.py]: for each KV-cache group a table of the blocks
    of the requests in the batch, row by row, and the KV-cache slot of every token
    that a step computes.  Arrays are lists of a fixed length with a copy on the
    device, with numpy's rules of [Numpy].  Block ids stay far below the width of the arrays' integers. *)

From S2P Require Import Prelude PyDict PyList PyInt Numpy.
#[local] Open Scope Z_scope.

(** ** BlockTable *)

Record BlockTable := mkBlockTable {
  bt_block_size : Z;
  blocks_per_kv_block : Z;
  use_hybrid_blocks : bool;
  max_num_blocks_per_req : Z;
  bt_rows : list (list Z);
  bt_rows_gpu : list (list Z);
  num_blocks_per_row : list Z;
  slot_mapping : list Z;
  slot_mapping_gpu : list Z;
  dcp_world_size : Z;
  dcp_rank : Z;
  dcp_kv_cache_interleave_size : Z;
}.

#[export] Instance eta_BlockTable : Eta BlockTable := fun t =>
  mkBlockTable (bt_block_size t) (blocks_per_kv_block t) (use_hybrid_blocks t) (max_num_blocks_per_req t)
    (bt_rows t) (bt_rows_gpu t) (num_blocks_per_row t) (slot_mapping t) (slot_mapping_gpu t)
    (dcp_world_size t) (dcp_rank t) (dcp_kv_cache_interleave_size t).

(** The group of the decode-context-parallel ranks: world size and rank; the code
    takes (1, 0) when there is none. *)
Definition new_block_table (dcp : Z * Z) (block_size max_num_reqs max_num_blocks max_num_batched_tokens kernel_block_size
    interleave : Z) : result BlockTable :=
  '(size, per, hybrid) ←
    (if kernel_block_size =? block_size then Ok (block_size, 1, false)
     else
       r ← py_mod block_size kernel_block_size;
       if negb (r =? 0) then Raise ValueError
       else q ← py_floordiv block_size kernel_block_size; Ok (kernel_block_size, q, true));
  let width := max_num_blocks * per in
  Ok {| bt_block_size := size; blocks_per_kv_block := per; use_hybrid_blocks := hybrid;
        max_num_blocks_per_req := width;
        bt_rows := replicate (Z.to_nat max_num_reqs) (zeros width);
        bt_rows_gpu := replicate (Z.to_nat max_num_reqs) (zeros width);
        num_blocks_per_row := zeros max_num_reqs;
        slot_mapping := zeros max_num_batched_tokens; slot_mapping_gpu := zeros max_num_batched_tokens;
        dcp_world_size := dcp.1; dcp_rank := dcp.2; dcp_kv_cache_interleave_size := interleave |}.

Definition map_to_kernel_blocks (t : BlockTable) (kv_manager_block_ids : list Z) : list Z :=
  if use_hybrid_blocks t
  then concat ((fun b => (fun i => b * blocks_per_kv_block t + i) <$> py_range 0 (blocks_per_kv_block t)) <$> kv_manager_block_ids)
  else kv_manager_block_ids.

Definition bt_append_row (block_ids : list Z) (row_idx : Z) (t : BlockTable) : result BlockTable :=
  match block_ids with
  | [] => Ok t
  | _ =>
      let block_ids := map_to_kernel_blocks t block_ids in
      let num_blocks := py_len block_ids in
      start ← py_index (num_blocks_per_row t) row_idx;
      counts ← py_setitem row_idx (start + num_blocks) (num_blocks_per_row t);
      rows ← np_set_row_slice row_idx start (start + num_blocks) block_ids (bt_rows t);
      Ok (t <| num_blocks_per_row := counts |> <| bt_rows := rows |>)
  end.

Definition bt_add_row (block_ids : list Z) (row_idx : Z) (t : BlockTable) : result BlockTable :=
  counts ← py_setitem row_idx 0 (num_blocks_per_row t);
  bt_append_row block_ids row_idx (t <| num_blocks_per_row := counts |>).

Definition bt_move_row (src tgt : Z) (t : BlockTable) : result BlockTable :=
  num_blocks ← py_index (num_blocks_per_row t) src;
  row ← py_index (bt_rows t) src;
  rows ← np_set_row_slice tgt 0 num_blocks (slice_to num_blocks row) (bt_rows t);
  counts ← py_setitem tgt num_blocks (num_blocks_per_row t);
  Ok (t <| bt_rows := rows |> <| num_blocks_per_row := counts |>).

Definition bt_swap_row (src tgt : Z) (t : BlockTable) : result BlockTable :=
  counts ← np_swap src tgt (num_blocks_per_row t);
  rows ← np_swap src tgt (bt_rows t);
  Ok (t <| num_blocks_per_row := counts |> <| bt_rows := rows |>).

(** The slot of one token: [-1] when another rank has it. *)
Definition token_slot (t : BlockTable) (req_index position : Z) : result Z :=
  if 1 <? dcp_world_size t then
    let world := dcp_world_size t in
    let inter := dcp_kv_cache_interleave_size t in
    let virtual_block_size := bt_block_size t * world in
    block_number ← py_index (concat (bt_rows t)) (req_index * max_num_blocks_per_req t + position / virtual_block_size);
    let virtual_block_offset := position mod virtual_block_size in
    let block_offset := virtual_block_offset / (world * inter) * inter + virtual_block_offset mod inter in
    Ok (if virtual_block_offset / inter mod world =? dcp_rank t
        then block_number * bt_block_size t + block_offset else -1)
  else
    block_number ← py_index (concat (bt_rows t)) (req_index * max_num_blocks_per_req t + position / bt_block_size t);
    Ok (block_number * bt_block_size t + position mod bt_block_size t).

(** The arrays of requests and positions have one length. *)
Definition compute_slot_mapping (tokens : list (Z * Z)) (t : BlockTable) : result BlockTable :=
  slots ← mapM (fun rp => token_slot t rp.1 rp.2) tokens;
  mapping ← np_set_slice 0 (py_len tokens) slots (slot_mapping t);
  Ok (t <| slot_mapping := mapping |>).

Definition commit_block_table (num_reqs : Z) (t : BlockTable) : BlockTable :=
  t <| bt_rows_gpu := copy_to_gpu num_reqs (bt_rows t) (bt_rows_gpu t) |>.

Definition commit_slot_mapping (num_tokens : Z) (t : BlockTable) : BlockTable :=
  t <| slot_mapping_gpu := copy_to_gpu num_tokens (slot_mapping t) (slot_mapping_gpu t) |>.

(** The rows are zeroed, their lengths stay. *)
Definition bt_clear (t : BlockTable) : BlockTable :=
  let zero_all := fmap (M:=list) (fun row : list Z => (fun _ => 0) <$> row) in
  t <| bt_rows := zero_all (bt_rows t) |> <| bt_rows_gpu := zero_all (bt_rows_gpu t) |>.

(** ** MultiGroupBlockTable *)

Abbreviation MultiGroupBlockTable := (list BlockTable).

Definition new_multi_group (dcp : Z * Z) (max_num_reqs max_model_len max_num_batched_tokens : Z)
    (block_sizes kernel_block_sizes : list Z) (num_speculative_tokens interleave : Z) : result MultiGroupBlockTable :=
  if negb (bool_decide (length kernel_block_sizes = length block_sizes)) then Raise ValueError
  else
    mapM (fun sk : Z * Z =>
      blocks ← cdiv max_model_len (sk.1 * dcp.1);
      new_block_table dcp sk.1 max_num_reqs (Z.max blocks (1 + num_speculative_tokens)) max_num_batched_tokens sk.2 interleave)
      (zip block_sizes kernel_block_sizes).

(** One call on every table, with the blocks of its group. *)
Fixpoint each_group (op : list Z -> BlockTable -> result BlockTable) (i : Z) (block_ids : list (list Z))
    (ts : MultiGroupBlockTable) : result MultiGroupBlockTable :=
  match ts with
  | [] => Ok []
  | t :: ts =>
      ids ← py_index block_ids i;
      t ← op ids t;
      ts ← each_group op (i + 1) block_ids ts;
      Ok (t :: ts)
  end.

Definition append_row (block_ids : list (list Z)) (row_idx : Z) (ts : MultiGroupBlockTable) : result MultiGroupBlockTable :=
  each_group (fun ids => bt_append_row ids row_idx) 0 block_ids ts.

Definition add_row (block_ids : list (list Z)) (row_idx : Z) (ts : MultiGroupBlockTable) : result MultiGroupBlockTable :=
  each_group (fun ids => bt_add_row ids row_idx) 0 block_ids ts.

Definition move_row (src tgt : Z) (ts : MultiGroupBlockTable) : result MultiGroupBlockTable := mapM (bt_move_row src tgt) ts.
Definition swap_row (src tgt : Z) (ts : MultiGroupBlockTable) : result MultiGroupBlockTable := mapM (bt_swap_row src tgt) ts.

Definition multi_slot_mapping (tokens : list (Z * Z)) (ts : MultiGroupBlockTable) : result MultiGroupBlockTable :=
  mapM (compute_slot_mapping tokens) ts.

Definition multi_commit_block_table (num_reqs : Z) (ts : MultiGroupBlockTable) : MultiGroupBlockTable :=
  commit_block_table num_reqs <$> ts.
Definition multi_commit_slot_mapping (num_tokens : Z) (ts : MultiGroupBlockTable) : MultiGroupBlockTable :=
  commit_slot_mapping num_tokens <$> ts.
Definition multi_clear (ts : MultiGroupBlockTable) : MultiGroupBlockTable := bt_clear <$> ts.

(** * Block tables: rows as lists, slots as places in KV blocks

    A table stands for the KV-manager blocks of each row, whatever the kernel's
    block size; the operations on rows are list operations; and the slot of a token is the
    place in its KV block that its position determines, on exactly one of the
    decode-context-parallel ranks. *)

(** ** Tables as lists of blocks *)

(** The settings a constructor accepts; an interleave divides the kernel's
    blocks, which the parallel configuration checks. *)
Record settings_ok (t : BlockTable) : Prop := {
  so_size : 0 < bt_block_size t;
  so_per : 0 < blocks_per_kv_block t;
  so_direct : use_hybrid_blocks t = false -> blocks_per_kv_block t = 1;
  so_rank : 0 <= dcp_rank t < dcp_world_size t;
  so_inter : 0 < dcp_kv_cache_interleave_size t;
  so_divides : (dcp_kv_cache_interleave_size t | bt_block_size t);
  so_width : 0 <= max_num_blocks_per_req t;
}.

(** The row [r] of the table holds the KV-manager blocks [ids]. *)
Definition row_holds (t : BlockTable) (row : list Z) (count : Z) (ids : list Z) : Prop :=
  py_len row = max_num_blocks_per_req t /\ count = py_len (map_to_kernel_blocks t ids) /\
  take (length (map_to_kernel_blocks t ids)) row = map_to_kernel_blocks t ids.

Definition holds (t : BlockTable) (view : list (list Z)) : Prop :=
  length (bt_rows t) = length view /\ length (num_blocks_per_row t) = length view /\
  forall r ids, view !! r = Some ids -> exists row count,
    bt_rows t !! r = Some row /\ num_blocks_per_row t !! r = Some count /\ row_holds t row count ids.

(** What the operations on rows leave alone. *)
Definition same_layout (t t' : BlockTable) : Prop :=
  bt_block_size t' = bt_block_size t /\ blocks_per_kv_block t' = blocks_per_kv_block t /\
  use_hybrid_blocks t' = use_hybrid_blocks t /\ max_num_blocks_per_req t' = max_num_blocks_per_req t /\
  dcp_world_size t' = dcp_world_size t /\ dcp_rank t' = dcp_rank t /\
  dcp_kv_cache_interleave_size t' = dcp_kv_cache_interleave_size t.

Lemma map_to_kernel_blocks_app t ids new :
  map_to_kernel_blocks t (ids ++ new) = map_to_kernel_blocks t ids ++ map_to_kernel_blocks t new.
Proof. unfold map_to_kernel_blocks. destruct (use_hybrid_blocks t); [|done]. by rewrite fmap_app, concat_app. Qed.

Lemma map_to_kernel_blocks_layout t t' ids : same_layout t t' -> map_to_kernel_blocks t' ids = map_to_kernel_blocks t ids.
Proof. intros (_ & Hp & Hh & _). unfold map_to_kernel_blocks. by rewrite Hh, Hp. Qed.

(** The number of kernel blocks and the kernel block of a place. *)
Lemma map_to_kernel_blocks_length t ids : settings_ok t ->
  py_len (map_to_kernel_blocks t ids) = py_len ids * blocks_per_kv_block t.
Proof.
  intros Hs. unfold map_to_kernel_blocks, py_len. destruct (use_hybrid_blocks t) eqn:Hh; [|rewrite so_direct by done; lia].
  pose proof (so_per t Hs). induction ids as [|b ids IH]; [done|]. rewrite fmap_cons. cbn [concat].
  rewrite length_app, length_fmap. unfold py_range at 1. rewrite length_seqZ. cbn [length]. lia.
Qed.

Lemma map_to_kernel_blocks_lookup t ids i b k : settings_ok t ->
  ids !! i = Some b -> 0 <= k < blocks_per_kv_block t ->
  map_to_kernel_blocks t ids !! Z.to_nat (Z.of_nat i * blocks_per_kv_block t + k) = Some (b * blocks_per_kv_block t + k).
Proof.
  intros Hs Hi Hk. unfold map_to_kernel_blocks. destruct (use_hybrid_blocks t) eqn:Hh.
  - revert i Hi; induction ids as [|b' ids IH]; intros i Hi; [done|]. rewrite fmap_cons. cbn [concat].
    set (row := fmap (M:=list) _ (py_range 0 _)). assert (Hlen : length row = Z.to_nat (blocks_per_kv_block t)).
    { unfold row, py_range. rewrite length_fmap, length_seqZ. lia. }
    destruct i as [|i]; cbn in Hi.
    + injection Hi as ->. rewrite lookup_app_l by lia. unfold row. rewrite list_lookup_fmap. unfold py_range.
      rewrite lookup_seqZ_lt by lia. cbn. f_equal. lia.
    + rewrite lookup_app_r by lia. rewrite Hlen.
      replace (Z.to_nat (Z.of_nat (S i) * blocks_per_kv_block t + k) - Z.to_nat (blocks_per_kv_block t))%nat
        with (Z.to_nat (Z.of_nat i * blocks_per_kv_block t + k)) by nia. by apply IH.
  - rewrite so_direct in * by done. replace (Z.to_nat (Z.of_nat i * 1 + k)) with i by lia. rewrite Hi. f_equal. lia.
Qed.

Lemma row_holds_app t row count ids new :
  row_holds t row count ids -> py_len (map_to_kernel_blocks t (ids ++ new)) <= max_num_blocks_per_req t ->
  let kids := map_to_kernel_blocks t new in
  row_holds t (take (Z.to_nat count) row ++ kids ++ drop (Z.to_nat count + length kids) row) (count + py_len kids) (ids ++ new).
Proof.
  intros (Hlen & -> & Htake) Hfit. rewrite map_to_kernel_blocks_app in *. unfold row_holds. rewrite map_to_kernel_blocks_app.
  unfold py_len in *. rewrite Nat2Z.id, Htake. rewrite !length_app in *. split_and!.
  - rewrite length_drop. lia.
  - lia.
  - rewrite (assoc_L (++)), <- length_app. apply take_app_length.
Qed.

(** Replacing one row of the table. *)
Lemma holds_insert t t' view r ids row count :
  holds t view -> same_layout t t' -> (r < length view)%nat ->
  bt_rows t' = <[r := row]> (bt_rows t) -> num_blocks_per_row t' = <[r := count]> (num_blocks_per_row t) ->
  row_holds t row count ids -> holds t' (<[r := ids]> view).
Proof.
  intros (H1 & H2 & Hv) Hl Hr Hrows Hcounts Hrow.
  assert (Hsame : forall row count ids, row_holds t row count ids -> row_holds t' row count ids).
  { intros row' count' ids' Hh. unfold row_holds. rewrite !(map_to_kernel_blocks_layout t t') by done.
    by destruct Hl as (_ & _ & _ & -> & _). }
  unfold holds. rewrite Hrows, Hcounts, !length_insert. split_and!; [done..|].
  intros r' ids' Hr'. apply list_lookup_insert_Some in Hr' as [(<- & -> & _)|[Hne Hr']].
  - exists row, count. rewrite !list_lookup_insert_eq by lia. auto.
  - rewrite !list_lookup_insert_ne by done. destruct (Hv _ _ Hr') as (row' & count' & ? & ? & ?). eauto 6.
Qed.

Lemma same_layout_refl t : same_layout t t.
Proof. by split_and!. Qed.

(** The row has room for these blocks. *)
Definition fits (t : BlockTable) (ids : list Z) : Prop := py_len ids * blocks_per_kv_block t <= max_num_blocks_per_req t.

Section Rows.
Context (t : BlockTable) (view : list (list Z)).
Context (Hs : settings_ok t) (Hv : holds t view).

Lemma append_row_holds r ids new :
  view !! r = Some ids -> fits t (ids ++ new) ->
  exists t', bt_append_row new (Z.of_nat r) t = Ok t' /\ same_layout t t' /\ holds t' (<[r := ids ++ new]> view).
Proof.
  intros Hr Hfit. unfold fits in Hfit. rewrite <- map_to_kernel_blocks_length in Hfit by done.
  pose proof (lookup_lt_Some _ _ _ Hr) as Hlt. destruct Hv as (Hl1 & Hl2 & Hrows).
  destruct new as [|b new'] eqn:Hnew.
  { exists t. rewrite app_nil_r, list_insert_id by done. split_and!; [done | apply same_layout_refl | done]. }
  rewrite <- Hnew in *. destruct (Hrows _ _ Hr) as (row & count & Hrow & Hcount & Hholds).
  assert (Hstep : bt_append_row new (Z.of_nat r) t
    = (let kids := map_to_kernel_blocks t new in
       Ok (t <| num_blocks_per_row := <[r := count + py_len kids]> (num_blocks_per_row t) |>
             <| bt_rows := <[r := take (Z.to_nat count) row ++ kids ++ drop (Z.to_nat count + length kids) row]> (bt_rows t) |>))).
  { rewrite Hnew at 1. cbn -[map_to_kernel_blocks]. rewrite <- Hnew. rewrite (py_index_nat _ _ _ Hcount). cbn [mbind result_bind].
    rewrite py_setitem_nat by lia. cbn [mbind result_bind].
    destruct Hholds as (Hlen & Hc & _). rewrite map_to_kernel_blocks_app in Hfit. rewrite py_len_app in Hfit.
    rewrite (np_set_row_slice_in r count _ row) by (done || (rewrite ?Hlen, ?Hc; unfold py_len in *; lia)). done. }
  rewrite Hstep. eexists. split; [reflexivity|]. split; [by split_and!|].
  eapply holds_insert; [exact Hv | by split_and! | done | reflexivity | reflexivity |]. by apply row_holds_app.
Qed.

Lemma move_row_holds src tgt ids :
  view !! src = Some ids -> (tgt < length view)%nat ->
  exists t', bt_move_row (Z.of_nat src) (Z.of_nat tgt) t = Ok t' /\ same_layout t t' /\ holds t' (<[tgt := ids]> view).
Proof.
  intros Hsrc Htgt. pose proof Hv as (Hl1 & Hl2 & Hrows). destruct (lookup_lt_is_Some_2 _ _ Htgt) as [old Hold].
  destruct (Hrows _ _ Hsrc) as (row & count & Hrow & Hcount & Hlen & Hc & Htake).
  destruct (Hrows _ _ Hold) as (row' & count' & Hrow' & _ & Hlen' & _).
  pose proof (f_equal length Htake) as Hfit. rewrite length_take in Hfit.
  unfold bt_move_row. rewrite (py_index_nat _ _ _ Hcount), (py_index_nat _ _ _ Hrow). cbn [mbind result_bind].
  assert (Hslice : slice_to count row = map_to_kernel_blocks t ids).
  { unfold slice_to, slice_pos. destruct (Z.ltb_spec count 0) as [Hneg|_]; [unfold py_len in *; lia|].
    rewrite Z.min_l by (unfold py_len in *; lia). rewrite Hc. unfold py_len. rewrite Nat2Z.id. done. }
  rewrite Hslice. replace (np_set_row_slice (Z.of_nat tgt) 0 count (map_to_kernel_blocks t ids) (bt_rows t))
    with (np_set_row_slice (Z.of_nat tgt) 0 (0 + py_len (map_to_kernel_blocks t ids)) (map_to_kernel_blocks t ids) (bt_rows t))
    by (f_equal; lia).
  rewrite (np_set_row_slice_in tgt 0 _ row') by (done || (unfold py_len in *; lia)). cbn [mbind result_bind].
  rewrite py_setitem_nat by lia. cbn [mbind result_bind]. eexists. split; [reflexivity|]. split; [by split_and!|].
  eapply holds_insert; [exact Hv | by split_and! | done | reflexivity | reflexivity |]. unfold row_holds.
  change (Z.to_nat 0) with 0%nat. cbn [Nat.add]. rewrite take_0, app_nil_l.
  split_and!; [unfold py_len in *; rewrite ?length_app, ?length_drop; lia | done | apply take_app_length].
Qed.

Lemma swap_row_holds i j ids ids' :
  view !! i = Some ids -> view !! j = Some ids' ->
  exists t', bt_swap_row (Z.of_nat i) (Z.of_nat j) t = Ok t' /\ same_layout t t' /\ holds t' (<[j := ids]> (<[i := ids']> view)).
Proof.
  intros Hi Hj. pose proof Hv as (Hl1 & Hl2 & Hrows). pose proof (lookup_lt_Some _ _ _ Hi). pose proof (lookup_lt_Some _ _ _ Hj).
  destruct (Hrows _ _ Hi) as (row & count & Hrow & Hcount & Hh). destruct (Hrows _ _ Hj) as (row' & count' & Hrow' & Hcount' & Hh').
  unfold bt_swap_row. rewrite (np_swap_nat _ _ _ _ _ Hcount Hcount'). cbn [mbind result_bind].
  rewrite (np_swap_nat _ _ _ _ _ Hrow Hrow'). cbn [mbind result_bind].
  eexists. split; [reflexivity|]. split; [by split_and!|].
  eapply (holds_insert (t <| bt_rows := <[i := row']> (bt_rows t) |> <| num_blocks_per_row := <[i := count']> (num_blocks_per_row t) |>));
    [| by split_and! | by rewrite length_insert | reflexivity | reflexivity | done].
  eapply holds_insert; [exact Hv | by split_and! | done | reflexivity | reflexivity | done].
Qed.
End Rows.

Lemma settings_ok_layout t t' : same_layout t t' -> settings_ok t -> settings_ok t'.
Proof. intros (H1 & H2 & H3 & H4 & H5 & H6 & H7) []. split; rewrite ?H1, ?H2, ?H3, ?H4, ?H5, ?H6, ?H7; done. Qed.

Lemma same_layout_trans t1 t2 t3 : same_layout t1 t2 -> same_layout t2 t3 -> same_layout t1 t3.
Proof. intros (? & ? & ? & ? & ? & ? & ?) (? & ? & ? & ? & ? & ? & ?). split_and!; congruence. Qed.

Lemma add_row_holds t view r new :
  settings_ok t -> holds t view -> (r < length view)%nat -> fits t new ->
  exists t', bt_add_row new (Z.of_nat r) t = Ok t' /\ same_layout t t' /\ holds t' (<[r := new]> view).
Proof.
  intros Hs Hv Hr Hfit. pose proof Hv as (Hl1 & Hl2 & Hrows). destruct (lookup_lt_is_Some_2 _ _ Hr) as [old Hold].
  destruct (Hrows _ _ Hold) as (row & count & Hrow & _ & Hlen & _).
  unfold bt_add_row. rewrite py_setitem_nat by lia. cbn [mbind result_bind].
  set (t0 := t <| num_blocks_per_row := _ |>).
  assert (Hl0 : same_layout t t0) by by split_and!.
  assert (Hempty : map_to_kernel_blocks t [] = []) by (unfold map_to_kernel_blocks; by destruct (use_hybrid_blocks t)).
  assert (Hv0 : holds t0 (<[r := []]> view)).
  { apply (holds_insert t t0 view r [] row 0); try done; [by rewrite list_insert_id|].
    unfold row_holds. rewrite Hempty. done. }
  destruct (append_row_holds t0 (<[r := []]> view) (settings_ok_layout _ _ Hl0 Hs) Hv0 r [] new)
    as (t' & Happ & Hl & Hh); [by rewrite list_lookup_insert_eq | done |].
  exists t'. split; [done|]. split; [by eapply same_layout_trans|]. by rewrite list_insert_insert_eq in Hh.
Qed.

(** ** Sequences of operations *)

Inductive row_op :=
  | AppendRow (r : nat) (ids : list Z)
  | AddRow (r : nat) (ids : list Z)
  | MoveRow (src tgt : nat)
  | SwapRow (i j : nat).

Definition run_op (o : row_op) (t : BlockTable) : result BlockTable :=
  match o with
  | AppendRow r ids => bt_append_row ids (Z.of_nat r) t
  | AddRow r ids => bt_add_row ids (Z.of_nat r) t
  | MoveRow src tgt => bt_move_row (Z.of_nat src) (Z.of_nat tgt) t
  | SwapRow i j => bt_swap_row (Z.of_nat i) (Z.of_nat j) t
  end.

(** What the operation means on the lists of the rows; [None] outside of the
    table or beyond a row's room, which [room] bounds. *)
Definition list_op (room : nat) (o : row_op) (view : list (list Z)) : option (list (list Z)) :=
  match o with
  | AppendRow r ids => old ← view !! r; if decide (length (old ++ ids) <= room)%nat then Some (<[r := old ++ ids]> view) else None
  | AddRow r ids => _ ← view !! r; if decide (length ids <= room)%nat then Some (<[r := ids]> view) else None
  | MoveRow src tgt => ids ← view !! src; _ ← view !! tgt; Some (<[tgt := ids]> view)
  | SwapRow i j => x ← view !! i; y ← view !! j; Some (<[j := x]> (<[i := y]> view))
  end.

Definition run_ops (ops : list row_op) (t : BlockTable) : result BlockTable := foldl (fun rt o => t ← rt; run_op o t) (Ok t) ops.
Definition list_ops (room : nat) (ops : list row_op) (view : list (list Z)) : option (list (list Z)) :=
  foldl (fun rv o => v ← rv; list_op room o v) (Some view) ops.

Lemma run_op_holds t view room o view' :
  settings_ok t -> holds t view -> Z.of_nat room * blocks_per_kv_block t <= max_num_blocks_per_req t ->
  list_op room o view = Some view' -> exists t', run_op o t = Ok t' /\ same_layout t t' /\ holds t' view'.
Proof.
  intros Hs Hv Hroom Ho. pose proof (so_per t Hs).
  assert (Hfits : forall ids, (length ids <= room)%nat -> fits t ids) by (intros; unfold fits, py_len; nia).
  destruct o as [r ids|r ids|src tgt|i j]; cbn in Ho |- *.
  - destruct (view !! r) as [old|] eqn:Hr; [|done]. cbn in Ho. case_decide; [|done]. injection Ho as <-. by apply append_row_holds; auto.
  - destruct (view !! r) as [old|] eqn:Hr; [|done]. cbn in Ho. case_decide; [|done]. injection Ho as <-.
    apply add_row_holds; eauto using lookup_lt_Some.
  - destruct (view !! src) as [x|] eqn:Hi; [|done]. cbn in Ho. destruct (view !! tgt) eqn:Hj; [|done]. injection Ho as <-.
    apply move_row_holds; eauto using lookup_lt_Some.
  - destruct (view !! i) as [x|] eqn:Hi; [|done]. cbn in Ho. destruct (view !! j) eqn:Hj; [|done]. injection Ho as <-.
    by apply swap_row_holds.
Qed.

Lemma list_ops_None room ops : foldl (fun rv o => v ← rv; list_op room o v) None ops = None.
Proof. by induction ops. Qed.

(** C27: A block table is a table of lists: whatever rows are appended to, added,
    moved and swapped within its size, the calls succeed and each row holds exactly the KV-manager
    blocks that the same operations on lists give, also when the kernel's blocks
    are smaller than the manager's. *)
Theorem tables_are_lists t view room ops view' :
  settings_ok t -> holds t view -> Z.of_nat room * blocks_per_kv_block t <= max_num_blocks_per_req t ->
  list_ops room ops view = Some view' -> exists t', run_ops ops t = Ok t' /\ same_layout t t' /\ holds t' view'.
Proof.
  unfold run_ops, list_ops. revert t view; induction ops as [|o ops IH]; intros t view Hs Hv Hroom Hops.
  { injection Hops as <-. exists t. auto using same_layout_refl. }
  cbn in Hops |- *. destruct (list_op room o view) as [view1|] eqn:Ho; [|by rewrite list_ops_None in Hops].
  destruct (run_op_holds _ _ _ _ _ Hs Hv Hroom Ho) as (t1 & Hrun & Hl & Hv1). rewrite Hrun.
  destruct (IH t1 view1) as (t' & Hrun' & Hl' & Hv'); try done; [by eapply settings_ok_layout | by destruct Hl as (_ & -> & _ & -> & _) |].
  exists t'. eauto using same_layout_trans.
Qed.

(** ** Slots *)

Lemma concat_lookup_uniform {A} (rows : list (list A)) w r row k :
  Forall (fun x => length x = w) rows -> rows !! r = Some row -> (k < w)%nat -> concat rows !! (r * w + k)%nat = row !! k.
Proof.
  intros Hw. revert r; induction Hw as [|x rows Hx Hw IH]; intros r Hr Hk; [done|]. cbn [concat].
  destruct r as [|r]; cbn in Hr.
  - injection Hr as ->. by rewrite lookup_app_l by lia.
  - rewrite lookup_app_r by lia. rewrite <- (IH r) by done. f_equal. lia.
Qed.

(** The KV-manager block of a position, counted in blocks of the whole group of ranks. *)
Definition kv_block_size (t : BlockTable) : Z := bt_block_size t * blocks_per_kv_block t.
Definition group_block_size (t : BlockTable) : Z := kv_block_size t * dcp_world_size t.

(** The rank that keeps the token at an offset of a block of the group, and its place in the rank's block. *)
Definition owner (t : BlockTable) (offset : Z) : Z := offset / dcp_kv_cache_interleave_size t mod dcp_world_size t.
Definition place (t : BlockTable) (offset : Z) : Z :=
  offset / (dcp_world_size t * dcp_kv_cache_interleave_size t) * dcp_kv_cache_interleave_size t
  + offset mod dcp_kv_cache_interleave_size t.

Lemma group_block_size_pos t : settings_ok t -> 0 < group_block_size t.
Proof.
  intros Hs. pose proof (so_rank t Hs). unfold group_block_size, kv_block_size.
  repeat apply Z.mul_pos_pos; [apply Hs | apply Hs | lia].
Qed.

(** The slot as one formula: with one rank the two branches agree. *)
Lemma token_slot_uniform t r p : settings_ok t ->
  token_slot t r p
  = (let virtual := bt_block_size t * dcp_world_size t in
     b ← py_index (concat (bt_rows t)) (r * max_num_blocks_per_req t + p / virtual);
     Ok (if owner t (p mod virtual) =? dcp_rank t then b * bt_block_size t + place t (p mod virtual) else -1)).
Proof.
  intros Hs. pose proof (so_rank t Hs). unfold token_slot, owner, place. destruct (Z.ltb_spec 1 (dcp_world_size t)); [done|].
  assert (Hw : dcp_world_size t = 1) by lia. assert (Hr : dcp_rank t = 0) by lia. rewrite Hw, Hr. cbn zeta.
  rewrite Z.mul_1_r, Z.mod_1_r, Z.mul_1_l. cbn [Z.eqb]. pose proof (so_inter t Hs).
  rewrite (Z.mul_comm (_ / dcp_kv_cache_interleave_size t)). by rewrite <- Z.div_mod by lia.
Qed.

Lemma kernel_block_index t p : settings_ok t -> 0 <= p ->
  let virtual := bt_block_size t * dcp_world_size t in
  let k := p mod group_block_size t / virtual in
  p / virtual = p / group_block_size t * blocks_per_kv_block t + k /\ 0 <= k < blocks_per_kv_block t /\
  p mod group_block_size t = k * virtual + p mod virtual.
Proof.
  intros Hs Hp. pose proof (so_size t Hs). pose proof (so_per t Hs). pose proof (so_rank t Hs).
  cbn zeta. unfold group_block_size, kv_block_size.
  set (v := bt_block_size t * dcp_world_size t). set (n := blocks_per_kv_block t) in *.
  replace (bt_block_size t * n * dcp_world_size t) with (v * n) by (unfold v; lia).
  assert (Hv : 0 < v) by (unfold v; nia).
  rewrite Z.rem_mul_r by lia. rewrite <- Z.div_div by lia.
  assert (Hk : (p mod v + v * (p / v mod n)) / v = p / v mod n).
  { rewrite Z.add_comm, Z.mul_comm, Z.div_add_l by lia. rewrite (Z.div_small (p mod v)) by (apply Z.mod_pos_bound; lia). lia. }
  rewrite Hk. split_and!.
  - rewrite (Z.div_mod (p / v) n) at 1 by lia. lia.
  - apply Z.mod_pos_bound; lia.
  - apply Z.mod_pos_bound; lia.
  - lia.
Qed.

Lemma place_split t k o : settings_ok t -> 0 <= k -> 0 <= o ->
  owner t (k * (bt_block_size t * dcp_world_size t) + o) = owner t o /\
  place t (k * (bt_block_size t * dcp_world_size t) + o) = k * bt_block_size t + place t o.
Proof.
  intros Hs Hk Ho. pose proof (so_inter t Hs). pose proof (so_rank t Hs). destruct (so_divides t Hs) as [m Hm].
  unfold owner, place. set (i := dcp_kv_cache_interleave_size t) in *. set (w := dcp_world_size t) in *. rewrite Hm.
  assert (0 < w) by lia. assert (0 < w * i) by nia.
  split.
  - replace (k * (m * i * w) + o) with ((k * m * w) * i + o) by lia. rewrite Z.div_add_l by lia.
    by rewrite Z.add_comm, Z.mod_add by lia.
  - replace (k * (m * i * w) + o) with ((k * m) * (w * i) + o) by lia. rewrite Z.div_add_l by lia.
    replace ((k * m) * (w * i) + o) with (o + (k * m * w) * i) by lia. rewrite Z.mod_add by lia. lia.
Qed.

Lemma lookup_row t view r ids b j k :
  settings_ok t -> holds t view -> view !! r = Some ids -> ids !! j = Some b -> 0 <= k < blocks_per_kv_block t ->
  py_index (concat (bt_rows t)) (Z.of_nat r * max_num_blocks_per_req t + (Z.of_nat j * blocks_per_kv_block t + k))
  = Ok (b * blocks_per_kv_block t + k).
Proof.
  intros Hs (Hl1 & Hl2 & Hrows) Hr Hj Hk. destruct (Hrows _ _ Hr) as (row & count & Hrow & _ & Hlen & _ & Htake).
  pose proof (so_per t Hs). pose proof (map_to_kernel_blocks_lookup t ids j b k Hs Hj Hk) as Hlk.
  pose proof (lookup_lt_Some _ _ _ Hlk) as Hlt. rewrite <- Htake in Hlk. rewrite lookup_take_lt in Hlk by done.
  apply lookup_lt_Some in Hlk as Hlt2. unfold py_len in Hlen. apply py_index_Some; [nia|].
  rewrite <- Hlk.
  replace (Z.to_nat (Z.of_nat r * max_num_blocks_per_req t + (Z.of_nat j * blocks_per_kv_block t + k)))
    with (r * length row + Z.to_nat (Z.of_nat j * blocks_per_kv_block t + k))%nat by nia.
  apply concat_lookup_uniform; [|done|done].
  apply Forall_lookup. intros r' row' Hr'. pose proof (lookup_lt_Some _ _ _ Hr') as Hlt'. rewrite Hl1 in Hlt'.
  destruct (lookup_lt_is_Some_2 _ _ Hlt') as [ids' Hids']. destruct (Hrows _ _ Hids') as (row2 & _ & Hrow2 & _ & Hlen2 & _).
  rewrite Hr' in Hrow2. injection Hrow2 as <-. unfold py_len in Hlen2. lia.
Qed.

Lemma token_slot_exact t view r ids p b :
  settings_ok t -> holds t view -> view !! r = Some ids -> 0 <= p ->
  ids !! Z.to_nat (p / group_block_size t) = Some b ->
  token_slot t (Z.of_nat r) p
  = Ok (let q := p mod group_block_size t in
        if owner t q =? dcp_rank t then b * kv_block_size t + place t q else -1).
Proof.
  intros Hs Hv Hr Hp Hb. rewrite token_slot_uniform by done. cbn zeta.
  destruct (kernel_block_index t p Hs Hp) as (Hq & Hk & Hsplit). rewrite Hq.
  assert (Hpos : 0 <= p / group_block_size t).
  { apply Z.div_pos; [done | by apply group_block_size_pos]. }
  rewrite <- (Z2Nat.id (p / group_block_size t)) by done.
  rewrite (lookup_row t view r ids b) by done. cbn [mbind result_bind]. f_equal.
  remember (p mod group_block_size t / (bt_block_size t * dcp_world_size t)) as k. rewrite Hsplit.
  destruct (place_split t k (p mod (bt_block_size t * dcp_world_size t)) Hs) as [-> ->].
  - lia.
  - apply Z.mod_pos_bound. pose proof (so_size t Hs). pose proof (so_rank t Hs). nia.
  - unfold kv_block_size. case_match; lia.
Qed.

(** C28: The slot of the token at position [p] of a row is its place in the
    KV-manager block that holds the position, in blocks of the whole group of
    decode-context-parallel ranks, on the rank that owns the position; the other
    ranks have [-1].  The kernel's block size does not show. *)
Theorem slot_of_token t view r ids p b :
  settings_ok t -> holds t view -> view !! r = Some ids -> 0 <= p ->
  ids !! Z.to_nat (p / group_block_size t) = Some b ->
  token_slot t (Z.of_nat r) p
  = Ok (let q := p mod group_block_size t in
        if owner t q =? dcp_rank t then b * kv_block_size t + place t q else -1).
Proof. apply token_slot_exact. Qed.

Lemma slot_formula t view r ids p b : settings_ok t -> holds t view -> view !! r = Some ids -> 0 <= p ->
  ids !! Z.to_nat (p / group_block_size t) = Some b -> forall s, token_slot t (Z.of_nat r) p = Ok s -> s <> -1 ->
  owner t (p mod group_block_size t) = dcp_rank t /\ s = b * kv_block_size t + place t (p mod group_block_size t).
Proof.
  intros Hs Hv Hr Hp Hb s Hslot Hne. rewrite (token_slot_exact t view r ids p b) in Hslot by done. injection Hslot as <-.
  cbn zeta in *. destruct (Z.eqb_spec (owner t (p mod group_block_size t)) (dcp_rank t)); [done | by destruct Hne].
Qed.

(** On one rank, a place comes from one offset only. *)
Lemma place_inj t q q' : settings_ok t -> owner t q = owner t q' -> place t q = place t q' -> q = q'.
Proof.
  intros Hs Ho Hp. pose proof (so_inter t Hs). pose proof (so_rank t Hs). unfold owner, place in *.
  set (i := dcp_kv_cache_interleave_size t) in *. set (w := dcp_world_size t) in *. assert (0 < w) by lia.
  pose proof (Z.mod_pos_bound q i ltac:(lia)). pose proof (Z.mod_pos_bound q' i ltac:(lia)).
  assert (Hd : q / (w * i) = q' / (w * i)) by nia. rewrite Hd in Hp. assert (Hm : q mod i = q' mod i) by lia.
  rewrite (Z.mul_comm w i), <- !Z.div_div in Hd by lia.
  pose proof (Z.div_mod (q / i) w ltac:(lia)). pose proof (Z.div_mod (q' / i) w ltac:(lia)).
  pose proof (Z.div_mod q i ltac:(lia)). pose proof (Z.div_mod q' i ltac:(lia)). nia.
Qed.

(** The places lie inside of the block. *)
Lemma place_bound t q : settings_ok t -> 0 <= q < group_block_size t -> 0 <= place t q < kv_block_size t.
Proof.
  intros Hs Hq. pose proof (so_inter t Hs). pose proof (so_rank t Hs). pose proof (so_size t Hs). pose proof (so_per t Hs).
  destruct (so_divides t Hs) as [m Hm]. unfold place, group_block_size, kv_block_size in *.
  set (i := dcp_kv_cache_interleave_size t) in *. set (w := dcp_world_size t) in *. set (n := blocks_per_kv_block t) in *. rewrite Hm in *.
  assert (0 < w) by lia. pose proof (Z.mod_pos_bound q i ltac:(lia)).
  assert (q / (w * i) < m * n). { apply Z.div_lt_upper_bound; nia. }
  assert (0 <= q / (w * i)) by (apply Z.div_pos; nia). nia.
Qed.

(** Two tokens that a rank stores share a slot exactly when they sit at the
    same offset of the same KV-manager block: no two tokens of a batch overwrite each
    other unless their requests share the block. *)
Theorem slots_are_places t view r r' ids ids' p p' b b' s s' :
  settings_ok t -> holds t view ->
  view !! r = Some ids -> 0 <= p -> ids !! Z.to_nat (p / group_block_size t) = Some b ->
  view !! r' = Some ids' -> 0 <= p' -> ids' !! Z.to_nat (p' / group_block_size t) = Some b' ->
  token_slot t (Z.of_nat r) p = Ok s -> token_slot t (Z.of_nat r') p' = Ok s' ->
  0 <= b -> 0 <= b' -> s <> -1 -> s' <> -1 ->
  (s = s' <-> b = b' /\ p mod group_block_size t = p' mod group_block_size t).
Proof.
  intros Hs Hv Hr Hp Hb Hr' Hp' Hb' Hslot Hslot' Hb0 Hb0' Hne Hne'.
  pose proof (group_block_size_pos t Hs) as Hg.
  pose proof (Z.mod_pos_bound p _ Hg) as Hq. pose proof (Z.mod_pos_bound p' _ Hg) as Hq'.
  pose proof (place_bound t _ Hs Hq). pose proof (place_bound t _ Hs Hq').
  destruct (slot_formula t view r ids p b Hs Hv Hr Hp Hb s Hslot Hne) as [Ho ->].
  destruct (slot_formula t view r' ids' p' b' Hs Hv Hr' Hp' Hb' s' Hslot' Hne') as [Ho' ->].
  split; [|by intros [-> ->]]. intros Heq.
  assert (Hbb : b = b') by nia. subst b'. split; [done|]. apply (place_inj t); [done | congruence | lia].
Qed.

(** ** A table of three rows: blocks of four tokens, kernel blocks of two, two ranks *)

Definition sample_table : BlockTable :=
  match new_block_table (2, 0) 4 3 2 8 2 1 with Ok t => t | Raise _ => mkBlockTable 0 0 false 0 [] [] [] [] [] 0 0 0 end.

Lemma sample_table_ok : settings_ok sample_table.
Proof. split; vm_compute; try done; by exists 2. Qed.

(** The table with the blocks 5, 6 in row 0 and 6, 9 in row 1. *)
Definition filled_table : BlockTable :=
  match run_ops [AddRow 0 [5; 6]; AddRow 1 [6]; AppendRow 1 [9]] sample_table with Ok t => t | Raise _ => sample_table end.

Lemma filled_table_ok : settings_ok filled_table.
Proof. split; vm_compute; try done; by exists 2. Qed.

Ltac rows_by_lookup :=
  split_and!; [reflexivity | reflexivity |];
  intros [|[|[|r]]] ids Hr; [injection Hr as <- ..|done];
  do 2 eexists; (split; [reflexivity | split; [reflexivity |]]); (split; [reflexivity | split; reflexivity]).

Lemma sample_table_holds : holds sample_table [[]; []; []].
Proof. rows_by_lookup. Qed.

Lemma filled_table_holds : holds filled_table [[5; 6]; [6; 9]; []].
Proof. rows_by_lookup. Qed.

Lemma tables_are_lists_witness :
  exists t', run_ops [AddRow 0 [5; 6]; AddRow 1 [6]; AppendRow 1 [9]; MoveRow 1 2; SwapRow 0 2] sample_table = Ok t'
  /\ same_layout sample_table t' /\ holds t' [[6; 9]; [6; 9]; [5; 6]].
Proof.
  apply (tables_are_lists sample_table [[]; []; []] 2); [apply sample_table_ok | apply sample_table_holds | done | reflexivity].
Defined.

Lemma slot_of_token_witness : token_slot filled_table 1 13 = Ok (-1) /\ token_slot filled_table 1 14 = Ok 39.
Proof.
  split; [apply (slot_of_token filled_table [[5; 6]; [6; 9]; []] 1 [6; 9] 13 9)
         |apply (slot_of_token filled_table [[5; 6]; [6; 9]; []] 1 [6; 9] 14 9)];
    first [apply filled_table_ok | apply filled_table_holds | done].
Defined.

(** Position 10 of row 0 and position 2 of row 1 are one token of the shared block 6. *)
Lemma slots_are_places_witness : 25 = 25 <-> 6 = 6 /\ 10 mod group_block_size filled_table = 2 mod group_block_size filled_table.
Proof.
  apply (slots_are_places filled_table [[5; 6]; [6; 9]; []] 0 1 [5; 6] [6; 9] 10 2 6 6);
    first [apply filled_table_ok | apply filled_table_holds | reflexivity | done].
Defined.
