(* ===== verification/Sampling.v ===== *)
(** * Sampling parameters

    [vllm/sampling_params.py]: what the constructor makes of the arguments
    ([__post_init__], [_verify_args]), [from_optional], what the model's generation
    configuration and the tokenizer add, and the kind of sampling.  The numbers are
    Python floats, NaN included.  [logits_processors] and the deprecated
    [guided_decoding] are opaque; the class's instances are the record
    [Request.SamplingParams]. *)

From S2P Require Import Prelude PyDict PyList PyText PyFloat Request.
From Stdlib Require Import ZifyBool.
#[local] Open Scope Z_scope.

(** ** Kinds of sampling *)

Inductive SamplingType := GREEDY | RANDOM | RANDOM_SEED.

#[export] Instance sampling_type_eq_dec : EqDecision SamplingType.
Proof. solve_decision. Defined.

(** [1e-5] and [1e-2]: the quotients of the integers, rounded. *)
Definition SAMPLING_EPS : float := Eval vm_compute in fdiv (float_of_Z 1) (float_of_Z 100000).
Definition MAX_TEMP : float := Eval vm_compute in fdiv (float_of_Z 1) (float_of_Z 100).

(** Comparing [None] with a number raises [TypeError]. *)
Definition the_temperature (p : SamplingParams) : result float := or_raise TypeError (temperature p).

Definition sampling_type (p : SamplingParams) : result SamplingType :=
  t ← the_temperature p;
  Ok (if flt t SAMPLING_EPS then GREEDY else match seed p with Some _ => RANDOM_SEED | None => RANDOM end).

(** ** The constructor *)

Definition reject_if (b : bool) : result unit := if b then Raise ValueError else Ok tt.

(** [not lo <= x <= hi]. *)
Definition outside (lo hi x : float) : bool := negb (fle lo x && fle x hi).

(** [x is not None and f(x)]. *)
Definition given {A} (o : option A) (f : A -> bool) : bool := match o with Some x => f x | None => false end.

Definition stop_list (p : SamplingParams) : result (list text) :=
  match sp_stop p with StopList l => Ok l | _ => Raise AssertionError end.

Definition verify_args (p : SamplingParams) : result unit :=
  _ ← reject_if (n p <? 1);
  _ ← reject_if (given (best_of p) (fun b => b <? 1));
  _ ← reject_if (given (best_of p) (fun b => b <? n p));
  _ ← reject_if (outside (float_of_Z (-2)) (float_of_Z 2) (presence_penalty p));
  _ ← reject_if (outside (float_of_Z (-2)) (float_of_Z 2) (frequency_penalty p));
  _ ← reject_if (fle (repetition_penalty p) fzero);
  t ← the_temperature p;
  _ ← reject_if (flt t fzero);
  _ ← reject_if (negb (flt fzero (top_p p) && fle (top_p p) (float_of_Z 1)));
  _ ← reject_if (top_k p <? -1);
  _ ← reject_if (outside fzero (float_of_Z 1) (min_p p));
  _ ← reject_if (given (sp_max_tokens p) (fun m => m <? 1));
  _ ← reject_if (min_tokens p <? 0);
  _ ← reject_if (given (sp_max_tokens p) (fun m => m <? min_tokens p));
  _ ← reject_if (given (logprobs p) (fun l => negb (l =? -1) && (l <? 0)));
  _ ← reject_if (given (prompt_logprobs p) (fun l => negb (l =? -1) && (l <? 0)));
  _ ← reject_if (given (truncate_prompt_tokens p) (fun k => (k =? 0) || (k <? -1)));
  _ ← py_assert (bool_decide (is_Some (stop_token_ids p)));
  stop ← stop_list p;
  _ ← reject_if (existsb (fun s => bool_decide (s = [])) stop);
  _ ← reject_if (negb (bool_decide (stop = [])) && negb (detokenize p));
  reject_if (negb (bool_decide (best_of p = real_n p)) && bool_decide (output_kind p = DELTA)).

Definition verify_greedy_sampling (p : SamplingParams) : result unit := reject_if (1 <? n p).

(** An optional integer that is neither [None] nor zero. *)
Definition truthy (o : option Z) : bool := given o (fun x => negb (x =? 0)).

Definition take_best_of (p : SamplingParams) : result SamplingParams :=
  match best_of p with
  | Some b =>
      if b =? 0 then Ok p
      else
        _ ← reject_if (b <? n p);
        Ok (if truthy (real_n p) then p else p <| real_n := Some (n p) |> <| n := b |>)
  | None => Ok p
  end.

(** [max(t, _MAX_TEMP)] for a small positive temperature. *)
Definition raise_small_temperature (p : SamplingParams) : result SamplingParams :=
  t ← the_temperature p;
  Ok (if flt fzero t && flt t MAX_TEMP then p <| temperature := Some (if flt t MAX_TEMP then MAX_TEMP else t) |> else p).

Definition stop_as_list (s : StopStrings) : list text :=
  match s with StopNone => [] | StopStr t => [t] | StopList l => l end.

(** Absent lists become empty ones. *)
Definition normalise (p : SamplingParams) : SamplingParams :=
  p <| seed := if bool_decide (seed p = Some (-1)) then None else seed p |>
    <| sp_stop := StopList (stop_as_list (sp_stop p)) |>
    <| stop_token_ids := Some (default [] (stop_token_ids p)) |>
    <| bad_words := Some (default [] (bad_words p)) |>.

Definition set_buffer_length (p : SamplingParams) : SamplingParams :=
  match stop_as_list (sp_stop p) with
  | [] => p
  | l => if include_stop_str_in_output p then p
         else p <| output_text_buffer_length := foldr Z.max 0 (py_len <$> l) - 1 |>
  end.

Definition settle_greedy (p : SamplingParams) : result SamplingParams :=
  t ← the_temperature p;
  if flt t SAMPLING_EPS then
    let p := p <| top_p := float_of_Z 1 |> <| top_k := 0 |> <| min_p := fzero |> in
    _ ← verify_greedy_sampling p; Ok p
  else Ok p.

Definition post_init (p : SamplingParams) : result SamplingParams :=
  p ← take_best_of p;
  p ← raise_small_temperature p;
  let p := set_buffer_length (normalise p) in
  _ ← verify_args p;
  p ← settle_greedy p;
  Ok (p <| all_stop_token_ids := all_stop_token_ids p ∪ list_to_set (default [] (stop_token_ids p)) |>).

(** ** from_optional *)

(** The arguments that have a default of their own; the others are passed on as
    they are, in [oa_params].  The tokens of [logit_bias] are integers. *)
Record OptionalArgs := mkOptionalArgs {
  oa_n : option Z;
  oa_presence_penalty : option float;
  oa_frequency_penalty : option float;
  oa_repetition_penalty : option float;
  oa_temperature : option float;
  oa_top_p : option float;
  oa_logit_bias : option (dict Z float);
  oa_params : SamplingParams;
}.

(** [min(100.0, max(-100.0, bias))]. *)
Definition clamp_bias (bias : float) : float :=
  let m := if flt (float_of_Z (-100)) bias then bias else float_of_Z (-100) in
  if flt m (float_of_Z 100) then m else float_of_Z 100.

Definition from_optional (a : OptionalArgs) : result SamplingParams :=
  post_init (oa_params a
    <| n := default 1 (oa_n a) |>
    <| presence_penalty := default fzero (oa_presence_penalty a) |>
    <| frequency_penalty := default fzero (oa_frequency_penalty a) |>
    <| repetition_penalty := default (float_of_Z 1) (oa_repetition_penalty a) |>
    <| temperature := Some (default (float_of_Z 1) (oa_temperature a)) |>
    <| top_p := default (float_of_Z 1) (oa_top_p a) |>
    <| logit_bias := dmap clamp_bias <$> oa_logit_bias a |>).

(** ** The model's generation configuration *)

Inductive EosTokenId := EosInt (i : Z) | EosList (l : list Z).

Definition eos_set (e : EosTokenId) : gset Z := match e with EosInt i => {[i]} | EosList l => list_to_set l end.

(** A set becomes a list in an order of Python's own; [elements] is one. *)
Definition update_from_generation_config (eos_token_id : option EosTokenId) (model_eos_token_id : option Z)
    (p : SamplingParams) : SamplingParams :=
  let p := match model_eos_token_id with
           | Some e => p <| all_stop_token_ids := all_stop_token_ids p ∪ {[e]} |>
           | None => p
           end in
  match eos_token_id with
  | None => p
  | Some e =>
      let eos_ids := match model_eos_token_id with Some m => eos_set e ∖ {[m]} | None => eos_set e end in
      if bool_decide (eos_ids = ∅) then p
      else
        let p := p <| all_stop_token_ids := all_stop_token_ids p ∪ eos_ids |> in
        if ignore_eos p then p
        else p <| stop_token_ids := Some (elements (eos_ids ∪ list_to_set (default [] (stop_token_ids p)))) |>
  end.

(** ** Bad words *)

(** A tokenizer's encoding of a text without special tokens, and its largest id. *)
Class WordTokenizer := {
  encode_word : text -> list Z;
  max_token_id : Z;
}.

(** The characters [str.lstrip] removes. *)
Definition is_space (c : Z) : bool :=
  ((9 <=? c) && (c <=? 13)) || ((28 <=? c) && (c <=? 32)) || (c =? 133) || (c =? 160) || (c =? 5760)
  || ((8192 <=? c) && (c <=? 8202)) || (c =? 8232) || (c =? 8233) || (c =? 8239) || (c =? 8287) || (c =? 12288).

Fixpoint lstrip (t : text) : text :=
  match t with
  | c :: t' => if is_space c then lstrip t' else t
  | [] => []
  end.

Section BadWords.
Context `{WordTokenizer}.

(** The ids of one word: alone, and after a space when that makes one other token more
    of the same length.  [ids] are the ones collected so far. *)
Definition add_bad_word (bad_word : text) (ids : list (list Z)) : result (list (list Z)) :=
  let plain := encode_word (lstrip bad_word) in
  let ids := ids ++ [plain] in
  let spaced := encode_word (space ++ lstrip bad_word) in
  first ← py_index spaced 0;
  last ← py_index ids (-1);
  last_first ← py_index last 0;
  Ok (if negb (first =? last_first) && bool_decide (length spaced = length last) then ids ++ [spaced] else ids).

Definition update_from_tokenizer (p : SamplingParams) : result SamplingParams :=
  match bad_words p with
  | None | Some [] => Ok p
  | Some words =>
      ids ← for_each add_bad_word words [];
      _ ← reject_if (existsb (fun token_id => (token_id <? 0) || (max_token_id <? token_id)) (concat ids));
      Ok (p <| bad_words_token_ids := Some ids |>)
  end.
End BadWords.

(** ** Accepted parameters *)

(** A float in a closed range; NaN is in none. *)
Definition within (lo hi x : float) : Prop := fle lo x = true /\ fle x hi = true.

(** What the constructor promises.  A repetition penalty or a temperature that
    is NaN passes the checks. *)
Record accepted (p : SamplingParams) : Prop := {
  ac_n : 1 <= n p;
  ac_best_of : forall b, best_of p = Some b -> n p <= b;
  ac_presence : within (float_of_Z (-2)) (float_of_Z 2) (presence_penalty p);
  ac_frequency : within (float_of_Z (-2)) (float_of_Z 2) (frequency_penalty p);
  ac_repetition : flt fzero (repetition_penalty p) = true \/ is_nan (repetition_penalty p) = true;
  ac_temperature : exists t, temperature p = Some t /\ flt t fzero = false /\ (flt fzero t && flt t MAX_TEMP) = false;
  ac_top_p : flt fzero (top_p p) = true /\ fle (top_p p) (float_of_Z 1) = true;
  ac_top_k : -1 <= top_k p;
  ac_min_p : within fzero (float_of_Z 1) (min_p p);
  ac_max_tokens : forall m, sp_max_tokens p = Some m -> 1 <= m /\ min_tokens p <= m;
  ac_min_tokens : 0 <= min_tokens p;
  ac_logprobs : forall l, logprobs p = Some l \/ prompt_logprobs p = Some l -> -1 <= l;
  ac_stop : exists l, sp_stop p = StopList l /\ [] ∉ l /\ (l <> [] -> detokenize p = true);
  ac_stop_ids : exists l, stop_token_ids p = Some l /\ list_to_set l ⊆ all_stop_token_ids p;
  ac_seed : seed p <> Some (-1);
  ac_greedy : sampling_type p = Ok GREEDY -> n p = 1 /\ top_p p = float_of_Z 1 /\ top_k p = 0 /\ min_p p = fzero;
}.

#[export] Instance Ok_inj {A} : Inj (=) (=) (@Ok A).
Proof. by intros ?? [=]. Qed.

Lemma reject_if_Ok b u : reject_if b = Ok u -> b = false.
Proof. by destruct b. Qed.

(** ** The checks as one conjunction *)

#[local] Arguments float_of_Z : simpl never.
#[local] Arguments flt : simpl never.
#[local] Arguments fle : simpl never.
#[local] Arguments outside : simpl never.

Record checked (p : SamplingParams) : Prop := {
  ck_n : (n p <? 1) = false;
  ck_best1 : given (best_of p) (fun b => b <? 1) = false;
  ck_best : given (best_of p) (fun b => b <? n p) = false;
  ck_presence : outside (float_of_Z (-2)) (float_of_Z 2) (presence_penalty p) = false;
  ck_frequency : outside (float_of_Z (-2)) (float_of_Z 2) (frequency_penalty p) = false;
  ck_repetition : fle (repetition_penalty p) fzero = false;
  ck_temperature : exists t, temperature p = Some t /\ flt t fzero = false;
  ck_top_p : negb (flt fzero (top_p p) && fle (top_p p) (float_of_Z 1)) = false;
  ck_top_k : (top_k p <? -1) = false;
  ck_min_p : outside fzero (float_of_Z 1) (min_p p) = false;
  ck_max_tokens : given (sp_max_tokens p) (fun m => m <? 1) = false;
  ck_min_tokens : (min_tokens p <? 0) = false;
  ck_min_max : given (sp_max_tokens p) (fun m => m <? min_tokens p) = false;
  ck_logprobs : given (logprobs p) (fun l => negb (l =? -1) && (l <? 0)) = false;
  ck_prompt_logprobs : given (prompt_logprobs p) (fun l => negb (l =? -1) && (l <? 0)) = false;
  ck_truncate : given (truncate_prompt_tokens p) (fun k => (k =? 0) || (k <? -1)) = false;
  ck_stop_ids : is_Some (stop_token_ids p);
  ck_stop : exists l, sp_stop p = StopList l /\ existsb (fun s => bool_decide (s = [])) l = false
    /\ negb (bool_decide (l = [])) && negb (detokenize p) = false;
  ck_delta : negb (bool_decide (best_of p = real_n p)) && bool_decide (output_kind p = DELTA) = false;
}.

Lemma verify_args_checked p u : verify_args p = Ok u -> checked p.
Proof.
  unfold verify_args. intros H.
  repeat match goal with
  | H : (_ ≫= _) = Ok _ |- _ => let x := fresh "r" in let H1 := fresh "Hr" in apply bind_Ok_inv in H as (x & H1 & H)
  end.
  repeat match goal with H : reject_if _ = Ok _ |- _ => apply reject_if_Ok in H end.
  repeat match goal with H : py_assert _ = Ok _ |- _ => apply py_assert_Ok, bool_decide_eq_true in H end.
  match goal with H : the_temperature p = Ok _ |- _ => apply or_raise_Ok in H end.
  unfold stop_list in *. destruct (sp_stop p) eqn:Hstop; [done..|].
  match goal with H : Ok _ = Ok _ |- _ => injection H as <- end.
  split; eauto.
Qed.

Lemma checked_verify_args p : checked p -> verify_args p = Ok tt.
Proof.
  intros []. unfold verify_args, stop_list, the_temperature.
  destruct ck_temperature0 as (t & Ht & Hneg). destruct ck_stop0 as (l & Hl & Hne & Hdet).
  rewrite ck_n0, ck_best2, ck_best0, ck_presence0, ck_frequency0, ck_repetition0, Ht. bind_ok. cbn [reject_if or_raise].
  rewrite Hneg, ck_top_p0, ck_top_k0, ck_min_p0, ck_max_tokens0, ck_min_tokens0, ck_min_max0, ck_logprobs0,
    ck_prompt_logprobs0, ck_truncate0, Hl. bind_ok. cbn [reject_if].
  rewrite bool_decide_eq_true_2 by done. cbn [py_assert]. by rewrite Hne, Hdet, ck_delta0.
Qed.

(** What [verify_args] reads, apart from the three fields that greedy sampling resets. *)
Lemma checked_settle p tp tk mp stops :
  checked p -> (flt fzero tp && fle tp (float_of_Z 1) = true) -> -1 <= tk -> outside fzero (float_of_Z 1) mp = false ->
  checked (p <| top_p := tp |> <| top_k := tk |> <| min_p := mp |> <| all_stop_token_ids := stops |>).
Proof. intros [] Htp Htk Hmp. split; try done; [change (negb (flt fzero tp && fle tp (float_of_Z 1)) = false); by rewrite Htp | by apply Z.ltb_ge]. Qed.

(** ** Stages of the constructor *)

Lemma MAX_TEMP_settled : flt fzero MAX_TEMP && flt MAX_TEMP MAX_TEMP = false.
Proof. reflexivity. Qed.

Lemma raise_small_temperature_Ok p p' : raise_small_temperature p = Ok p' ->
  exists t, p' = p <| temperature := Some t |> /\ (flt fzero t && flt t MAX_TEMP) = false.
Proof.
  unfold raise_small_temperature, the_temperature. intros H. apply bind_Ok_inv in H as (t & Ht & H). apply or_raise_Ok in Ht.
  destruct (flt fzero t && flt t MAX_TEMP) eqn:Hsmall; injection H as <-.
  - apply andb_true_iff in Hsmall as [_ ->]. exists MAX_TEMP. split; [done | apply MAX_TEMP_settled].
  - exists t. split; [|done]. destruct p; cbn in *. by rewrite Ht.
Qed.

Lemma raise_small_temperature_settled p t :
  temperature p = Some t -> (flt fzero t && flt t MAX_TEMP) = false -> raise_small_temperature p = Ok p.
Proof. intros Ht Hs. unfold raise_small_temperature, the_temperature. rewrite Ht. bind_ok. cbn [or_raise]. by rewrite Hs. Qed.

(** The fields that [normalise] and [set_buffer_length] have settled. *)
Definition normal (p : SamplingParams) : Prop :=
  seed p <> Some (-1) /\ is_Some (stop_token_ids p) /\ is_Some (bad_words p) /\
  exists l, sp_stop p = StopList l /\
    (l <> [] -> include_stop_str_in_output p = false -> output_text_buffer_length p = foldr Z.max 0 (py_len <$> l) - 1).

Lemma normalise_normal p : normal (set_buffer_length (normalise p)).
Proof.
  unfold set_buffer_length. cbn. destruct (stop_as_list (sp_stop p)) as [|t l] eqn:Hl; cbn;
    [|destruct (include_stop_str_in_output p) eqn:Hi; cbn]; unfold normal; cbn; rewrite ?Hl.
  all: split_and!; [case_bool_decide; congruence | eauto | eauto | eexists; split; [reflexivity | cbn; congruence]].
Qed.

Lemma normal_settled p : normal p -> set_buffer_length (normalise p) = p.
Proof.
  intros (Hseed & [ids Hids] & [words Hwords] & l & Hl & Hbuf).
  assert (Hn : normalise p = p).
  { unfold normalise. rewrite Hl, Hids, Hwords, bool_decide_eq_false_2 by done. destruct p; cbn in *. by subst. }
  rewrite Hn. unfold set_buffer_length. rewrite Hl. cbn [stop_as_list]. destruct l as [|t l]; [done|].
  destruct (include_stop_str_in_output p) eqn:Hi; [done|]. rewrite <- Hbuf by done. by destruct p.
Qed.

(** Low temperatures go with the neutral parameters. *)
Definition greedy_settled (p : SamplingParams) (t : float) : Prop :=
  flt t SAMPLING_EPS = true -> n p = 1 /\ top_p p = float_of_Z 1 /\ top_k p = 0 /\ min_p p = fzero.

Lemma settle_greedy_settled p t : temperature p = Some t -> greedy_settled p t -> settle_greedy p = Ok p.
Proof.
  intros Ht Hg. unfold settle_greedy, the_temperature. rewrite Ht. bind_ok. cbn [or_raise].
  destruct (flt t SAMPLING_EPS) eqn:Hlow; [|done]. destruct (Hg Hlow) as (Hn & Htp & Htk & Hmp).
  unfold verify_greedy_sampling. cbn. rewrite Hn. cbn. f_equal. destruct p; cbn in *. by subst.
Qed.

Lemma greedy_settled_type p t : temperature p = Some t -> greedy_settled p t ->
  sampling_type p = Ok GREEDY -> n p = 1 /\ top_p p = float_of_Z 1 /\ top_k p = 0 /\ min_p p = fzero.
Proof.
  intros Ht Hg H. apply Hg. unfold sampling_type, the_temperature in H. rewrite Ht in H.
  revert H. bind_ok. cbn [or_raise]. destruct (flt t SAMPLING_EPS); [done|]. by destruct (seed p).
Qed.

Lemma settle_greedy_Ok p p' t : settle_greedy p = Ok p' -> checked p -> temperature p = Some t ->
  exists tp tk mp, p' = p <| top_p := tp |> <| top_k := tk |> <| min_p := mp |> /\
    (flt fzero tp && fle tp (float_of_Z 1) = true) /\ -1 <= tk /\ outside fzero (float_of_Z 1) mp = false /\
    (flt t SAMPLING_EPS = true -> n p = 1 /\ tp = float_of_Z 1 /\ tk = 0 /\ mp = fzero).
Proof.
  unfold settle_greedy, the_temperature. intros H Hc Ht. rewrite Ht in H. revert H. bind_ok. cbn [or_raise]. intros H.
  pose proof (ck_n p Hc) as Hn. apply Z.ltb_ge in Hn.
  destruct (flt t SAMPLING_EPS) eqn:Hlow.
  - apply bind_Ok_inv in H as (u & Hu & H). injection H as <-. apply reject_if_Ok in Hu. cbn in Hu. apply Z.ltb_ge in Hu.
    do 3 eexists. split; [reflexivity|]. split_and!; [done.. |]. intros _. split_and!; lia || done.
  - injection H as <-. exists (top_p p), (top_k p), (min_p p). pose proof (ck_top_p p Hc) as Htp. apply negb_false_iff in Htp.
    pose proof (ck_top_k p Hc) as Htk. apply Z.ltb_ge in Htk. split_and!; [by destruct p | done | done | apply Hc | done].
Qed.

(** ** The constructor as a whole *)

Lemma take_best_of_settled p p1 q : n p <> 0 -> take_best_of p = Ok p1 -> checked q ->
  best_of q = best_of p1 /\ n q = n p1 /\ real_n q = real_n p1 -> take_best_of q = Ok q.
Proof.
  intros Hn H1 Hq (Hb1 & Hb2 & Hb3). pose proof (ck_best _ Hq) as Hle.
  assert (Hreal : forall b, best_of q = Some b -> b <> 0 -> truthy (real_n q) = true).
  { rewrite Hb1, Hb3. intros b Hb Hb0. unfold take_best_of in H1. destruct (best_of p) as [b'|] eqn:Hb'; [|injection H1 as <-; congruence].
    destruct (Z.eqb_spec b' 0); [injection H1 as <-; congruence|]. apply bind_Ok_inv in H1 as (? & _ & H1). injection H1 as <-.
    destruct (truthy (real_n p)) eqn:Ht; [done|]. cbn. by apply negb_true_iff, Z.eqb_neq. }
  unfold take_best_of. destruct (best_of q) as [b|] eqn:Hb; [|done]. destruct (Z.eqb_spec b 0); [done|].
  cbn in Hle. rewrite Hle. bind_ok. cbn [reject_if]. by rewrite (Hreal b).
Qed.

(** The fields that the stages after [take_best_of] leave alone. *)
Definition same_counts (p q : SamplingParams) : Prop := best_of q = best_of p /\ n q = n p /\ real_n q = real_n p.

Lemma normalise_frame p : let q := set_buffer_length (normalise p) in temperature q = temperature p /\ same_counts p q.
Proof. unfold set_buffer_length. repeat case_match; destruct p; done. Qed.

(** The last stage: the greedy parameters and the stop ids. *)
Lemma last_stage p p4 t : settle_greedy p = Ok p4 -> checked p -> normal p -> temperature p = Some t ->
  let q := p4 <| all_stop_token_ids := all_stop_token_ids p4 ∪ list_to_set (default [] (stop_token_ids p4)) |> in
  checked q /\ normal q /\ greedy_settled q t /\ temperature q = Some t /\ same_counts p q /\
  list_to_set (default [] (stop_token_ids q)) ⊆ all_stop_token_ids q.
Proof.
  intros H4 Hc Hn Ht. destruct (settle_greedy_Ok _ _ t H4 Hc Ht) as (tp & tk & mp & -> & Htp & Htk & Hmp & Hgreedy).
  pose proof (checked_settle p tp tk mp (all_stop_token_ids p ∪ list_to_set (default [] (stop_token_ids p))) Hc Htp Htk Hmp) as Hq.
  clear Hc H4. destruct p; cbn in *. split; [exact Hq|]. split; [exact Hn|]. split; [exact Hgreedy|]. split; [done|]. split; [done|]. set_solver.
Qed.

Lemma post_init_stages p q : post_init p = Ok q -> n p <> 0 ->
  checked q /\ normal q /\ take_best_of q = Ok q /\ raise_small_temperature q = Ok q /\ settle_greedy q = Ok q /\
  (exists t, temperature q = Some t /\ (flt fzero t && flt t MAX_TEMP) = false) /\
  list_to_set (default [] (stop_token_ids q)) ⊆ all_stop_token_ids q /\
  (sampling_type q = Ok GREEDY -> n q = 1 /\ top_p q = float_of_Z 1 /\ top_k q = 0 /\ min_p q = fzero).
Proof.
  intros H Hn. unfold post_init in H. apply bind_Ok_inv in H as (p1 & H1 & H). apply bind_Ok_inv in H as (p2 & H2 & H).
  apply bind_Ok_inv in H as (u & Hv & H). apply bind_Ok_inv in H as (p4 & H4 & H). apply (inj Ok) in H.
  apply verify_args_checked in Hv as Hc. pose proof (normalise_normal p2) as Hnorm. destruct (normalise_frame p2) as [Ht3 Hb3].
  destruct (raise_small_temperature_Ok _ _ H2) as (t & Hp2 & Hsmall).
  assert (Hb2 : temperature p2 = Some t /\ same_counts p1 p2) by (rewrite Hp2; by destruct p1).
  destruct Hb2 as [Ht2 Hb2]. rewrite Ht2 in Ht3.
  destruct (last_stage _ _ t H4 Hc Hnorm Ht3) as (Hq & Hnq & Hg & Htq & Hbq & Hst). rewrite H in Hq, Hnq, Hg, Htq, Hbq, Hst.
  split; [exact Hq|]. split; [exact Hnq|].
  split. { apply (take_best_of_settled p p1); [done..|]. unfold same_counts in *. intuition congruence. }
  split; [by apply (raise_small_temperature_settled _ t)|]. split; [by apply (settle_greedy_settled q t)|].
  split; [eauto|]. split; [exact Hst|]. by apply (greedy_settled_type q t).
Qed.

Lemma outside_within lo hi x : outside lo hi x = false -> within lo hi x.
Proof. unfold outside, within. by intros [? ?]%negb_false_iff%andb_true_iff. Qed.

Lemma given_false {A} (o : option A) f x : given o f = false -> o = Some x -> f x = false.
Proof. by intros H ->. Qed.

Lemma fle_zero_false x : fle x fzero = false -> flt fzero x = true \/ is_nan x = true.
Proof. destruct x as [[]|[]| |[] m e]; cbn; auto; discriminate. Qed.

Lemma checked_accepted q t :
  checked q -> normal q -> temperature q = Some t -> (flt fzero t && flt t MAX_TEMP) = false ->
  list_to_set (default [] (stop_token_ids q)) ⊆ all_stop_token_ids q ->
  (sampling_type q = Ok GREEDY -> n q = 1 /\ top_p q = float_of_Z 1 /\ top_k q = 0 /\ min_p q = fzero) -> accepted q.
Proof.
  intros [] (Hseed & _ & _ & _) Ht Hsmall Hstops Hgreedy. destruct ck_temperature0 as (t' & Ht' & Hneg).
  rewrite Ht in Ht'. injection Ht' as <-.
  assert (Hlp : forall o l, given o (fun l => negb (l =? -1) && (l <? 0)) = false -> o = Some l -> -1 <= l).
  { intros o l Hg Ho. apply (given_false _ _ _ Hg) in Ho. clear -Ho. cbn in Ho. lia. }
  split; try done.
  - by apply Z.ltb_ge.
  - intros b Hb. pose proof (given_false _ _ _ ck_best0 Hb) as Hle. cbn in Hle. by apply Z.ltb_ge.
  - by apply outside_within.
  - by apply outside_within.
  - by apply fle_zero_false.
  - eauto.
  - by apply andb_true_iff, negb_false_iff.
  - by apply Z.ltb_ge.
  - by apply outside_within.
  - intros m Hm. pose proof (given_false _ _ _ ck_max_tokens0 Hm) as H1. pose proof (given_false _ _ _ ck_min_max0 Hm) as H2.
    cbn in H1, H2. split; by apply Z.ltb_ge.
  - by apply Z.ltb_ge.
  - intros l [Hl|Hl]; eauto.
  - destruct ck_stop0 as (l & Hl & Hne & Hdet). exists l. split_and!; [done | |].
    + intros Hin. assert (Ht2 : existsb (fun s : text => bool_decide (s = [])) l = true); [|congruence].
      apply existsb_exists. exists []. split; [by apply list_elem_of_In | done].
    + intros Hl0. rewrite bool_decide_eq_false_2 in Hdet by done. cbn in Hdet. by apply negb_false_iff.
  - destruct ck_stop_ids0 as [l Hl]. exists l. rewrite Hl in Hstops. auto.
Qed.

(** The constructor's result passes its own checks unchanged: parameters that
    were accepted are in their ranges, in normal form, and building them again, as
    decoding them in the engine's process does, gives the same. *)
Theorem accepted_once_accepted_again p q :
  n p <> 0 -> post_init p = Ok q -> accepted q /\ post_init q = Ok q.
Proof.
  intros Hn H. destruct (post_init_stages p q H Hn) as (Hc & Hnorm & Hbest & Htemp & Hset & (t & Ht & Hsmall) & Hstops & Hgreedy). split.
  - by apply (checked_accepted q t).
  - unfold post_init. rewrite Hbest. bind_ok. rewrite Htemp, (normal_settled q Hnorm), (checked_verify_args q Hc). bind_ok. rewrite Hset.
    assert (Hsame : all_stop_token_ids q ∪ list_to_set (default [] (stop_token_ids q)) = all_stop_token_ids q).
    { clear -Hstops. set_solver. }
    rewrite Hsame. f_equal. by destruct q.
Qed.

(** ** Examples *)

(** With a zero temperature, a stop string and a negative seed. *)
Definition sample_given : SamplingParams :=
  sample_params <| temperature := Some fzero |> <| top_p := fdiv (float_of_Z 1) (float_of_Z 2) |> <| seed := Some (-1) |>
    <| sp_stop := StopStr [46; 46] |>.

Definition sample_accepted : SamplingParams := match post_init sample_given with Ok q => q | Raise _ => sample_given end.

Lemma accepted_once_accepted_again_witness : accepted sample_accepted /\ post_init sample_accepted = Ok sample_accepted.
Proof. apply (accepted_once_accepted_again sample_given); [done | vm_compute; reflexivity]. Defined.

(** No sample at all is accepted when [best_of] asks for two. *)
Example zero_samples_accepted :
  (n <$> post_init (sample_params <| n := 0 |> <| best_of := Some 2 |> <| temperature := Some (float_of_Z 1) |> <| output_kind := CUMULATIVE |>)) = Ok 2.
Proof. vm_compute. reflexivity. Qed.

(** A temperature that is NaN is accepted. *)
Example nan_temperature_accepted :
  (temperature <$> post_init (sample_params <| temperature := Some S754_nan |>)) = Ok (Some S754_nan).
Proof. vm_compute. reflexivity. Qed.
