(* ===== verification/BatchUpdate.v ===== *)
(** * Changes of the persistent batch

    [vllm/v1/sample/logits_processor/{interface,state,builtin}.py]: the builder that
    collects what happens to the batch in a step, the update it hands to the
    logits processors, and the three built-in processors, whose [update_state] keeps
    per-request state in step with the batch.  [apply] works on logits tensors and is
    not modelled; the index tensors it uses are.

    The lists of output tokens are shared objects: an address stands for one, a
    store gives its contents. *)

From S2P Require Import Prelude PyDict PyList PyFloat Request Numpy Sampling.
#[local] Open Scope Z_scope.

Abbreviation addr := Z.
Abbreviation OutputStore := (gmap Z (list Z)).

Definition outputs_at (h : OutputStore) (a : addr) : list Z := default [] (h !! a).

(** ** Updates *)

Inductive MoveDirectionality := UNIDIRECTIONAL | SWAP.

#[export] Instance move_directionality_eq_dec : EqDecision MoveDirectionality.
Proof. solve_decision. Defined.

Record AddedRequest := mkAddedRequest {
  ar_index : Z;
  ar_params : SamplingParams;
  ar_prompt : option (list Z);
  ar_output : addr;
}.

Abbreviation MovedRequest := (Z * Z * MoveDirectionality)%type.

Record BatchUpdate := mkBatchUpdate {
  batch_size : Z;
  bu_removed : list Z;
  bu_added : list AddedRequest;
  bu_moved : list MovedRequest;
}.

(** ** The builder *)

Record BatchUpdateBuilder := mkBatchUpdateBuilder {
  removed_list : list Z;
  is_removed_sorted : bool;
  added : list AddedRequest;
  moved : list MovedRequest;
  batch_changed : bool;
}.

#[export] Instance eta_BatchUpdateBuilder : Eta BatchUpdateBuilder := fun b =>
  mkBatchUpdateBuilder (removed_list b) (is_removed_sorted b) (added b) (moved b) (batch_changed b).

Definition new_builder : BatchUpdateBuilder := mkBatchUpdateBuilder [] false [] [] false.

(** [list.sort(reverse=True)] of integers. *)
Definition sort_descending (l : list Z) : list Z := stable_sort (fun a b => b <? a) id l.

Definition ensure_removed_sorted (b : BatchUpdateBuilder) : BatchUpdateBuilder :=
  if is_removed_sorted b then b
  else b <| removed_list := sort_descending (removed_list b) |> <| is_removed_sorted := true |>.

(** The property [removed]: the list and the builder it leaves. *)
Definition removed (b : BatchUpdateBuilder) : list Z * BatchUpdateBuilder :=
  let b := ensure_removed_sorted b in (removed_list b, b).

Definition removed_append (index : Z) (b : BatchUpdateBuilder) : result BatchUpdateBuilder :=
  if is_removed_sorted b then Raise RuntimeError
  else Ok (b <| removed_list := removed_list b ++ [index] |> <| batch_changed := true |>).

Definition has_removed (b : BatchUpdateBuilder) : bool := negb (bool_decide (removed_list b = [])).

Definition peek_removed (b : BatchUpdateBuilder) : option Z * BatchUpdateBuilder :=
  if has_removed b then let b := ensure_removed_sorted b in (last (removed_list b), b) else (None, b).

Definition pop_removed (b : BatchUpdateBuilder) : option Z * BatchUpdateBuilder :=
  if has_removed b then
    let b := ensure_removed_sorted b in
    (last (removed_list b), b <| removed_list := removelast (removed_list b) |>)
  else (None, b).

Definition reset (b : BatchUpdateBuilder) : bool * BatchUpdateBuilder := (batch_changed b, new_builder).

Definition get_and_reset (size : Z) (b : BatchUpdateBuilder) : option BatchUpdate * BatchUpdateBuilder :=
  let b := b <| is_removed_sorted := false |> <| batch_changed := false |> in
  match removed_list b, moved b, added b with
  | [], [], [] => (None, b)
  | _, _, _ =>
      (Some {| batch_size := size; bu_removed := removed_list b; bu_added := added b; bu_moved := moved b |}, new_builder)
  end.

(** ** Sparse state of a logits processor *)

Section Sparse.
Context {T : Type}.

(** The loops of [process_dict_updates]; entries are truthy, [updated] is the flag. *)
Definition add_entry (new_state : SamplingParams -> option (list Z) -> addr -> option T) (a : AddedRequest)
    (s : dict Z T * bool) : dict Z T * bool :=
  let '(entries, updated) := s in
  match new_state (ar_params a) (ar_prompt a) (ar_output a) with
  | Some state => (dset (ar_index a) state entries, true)
  | None => (ddel (ar_index a) entries, updated || dmem (ar_index a) entries)
  end.

Definition remove_entry (index : Z) (s : dict Z T * bool) : dict Z T * bool :=
  let '(entries, updated) := s in (ddel index entries, updated || dmem index entries).

Definition move_entry (m : MovedRequest) (s : dict Z T * bool) : dict Z T * bool :=
  let '(a_index, b_index, direct) := m in
  let '(entries, updated) := s in
  let a_entry := dget a_index entries in
  let entries := ddel a_index entries in
  let b_entry := dget b_index entries in
  let entries := ddel b_index entries in
  let '(entries, updated) := match a_entry with Some e => (dset b_index e entries, true) | None => (entries, updated) end in
  match b_entry with
  | Some e => (match direct with SWAP => dset a_index e entries | UNIDIRECTIONAL => entries end, true)
  | None => (entries, updated)
  end.

Definition process_dict_updates (new_state : SamplingParams -> option (list Z) -> addr -> option T)
    (batch_update : option BatchUpdate) (req_entries : dict Z T) : dict Z T * bool :=
  match batch_update with
  | None => (req_entries, false)
  | Some u =>
      let s := foldl (fun s a => add_entry new_state a s) (req_entries, false) (bu_added u) in
      match s.1 with
      | [] => s
      | _ =>
          let s := foldl (fun s i => remove_entry i s) s (bu_removed u) in
          foldl (fun s m => move_entry m s) s (bu_moved u)
      end
  end.
End Sparse.

(** ** Logit bias *)

(** The rows of the index tensors: request index and token id. *)
Record LogitBias := mkLogitBias {
  biases : dict Z (dict Z float);
  bias_tensor : list float;
  lb_logits_slice : list Z * list Z;
}.

Definition new_logit_bias : LogitBias := mkLogitBias [] [] ([], []).

(** [params.logit_bias or None]. *)
Definition logit_bias_of (p : SamplingParams) (_ : option (list Z)) (_ : addr) : option (dict Z float) :=
  match logit_bias p with Some ((_ :: _) as lb) => Some lb | _ => None end.

(** Biases become 32-bit floats on the device: [to_f32]. *)
Definition to_f32 (x : float) : float :=
  match x with
  | S754_finite s m e => binary_round 24 128 s m e
  | _ => x
  end.

Definition logit_bias_update (u : option BatchUpdate) (l : LogitBias) : LogitBias :=
  let '(entries, needs_update) := process_dict_updates logit_bias_of u (biases l) in
  if needs_update then
    {| biases := entries;
       bias_tensor := to_f32 <$> concat ((fun p => dvalues p.2) <$> entries);
       lb_logits_slice := (concat ((fun p : Z * dict Z float => replicate (length p.2) p.1) <$> entries),
                           concat ((fun p => dkeys p.2) <$> entries)) |}
  else {| biases := entries; bias_tensor := bias_tensor l; lb_logits_slice := lb_logits_slice l |}.

(** ** Minimum number of tokens *)

Record MinTokens := mkMinTokens {
  min_toks : dict Z (Z * addr * list Z);
  mt_logits_slice : list Z * list Z;
}.

Definition new_min_tokens : MinTokens := mkMinTokens [] ([], []).

Definition min_tokens_of (h : OutputStore) (p : SamplingParams) (_ : option (list Z)) (out : addr) : option (Z * addr * list Z) :=
  if (min_tokens p =? 0) || (min_tokens p <=? py_len (outputs_at h out)) then None
  else Some (min_tokens p, out, elements (all_stop_token_ids p)).

Definition min_tokens_reached (h : OutputStore) (e : Z * (Z * addr * list Z)) : bool :=
  e.2.1.1 <=? py_len (outputs_at h e.2.1.2).

Definition min_tokens_update (h : OutputStore) (u : option BatchUpdate) (m : MinTokens) : MinTokens :=
  let '(entries, needs_update) := process_dict_updates (min_tokens_of h) u (min_toks m) in
  let to_remove := List.filter (min_tokens_reached h) entries in
  let '(entries, needs_update) :=
    match to_remove with
    | [] => (entries, needs_update)
    | _ => (foldl (fun d e => ddel e.1 d) entries to_remove, true)
    end in
  {| min_toks := entries;
     mt_logits_slice :=
       if needs_update
       then (concat ((fun p : Z * (Z * addr * list Z) => replicate (length p.2.2) p.1) <$> entries), concat ((fun p => p.2.2) <$> entries))
       else mt_logits_slice m |}.

(** ** Minimum probability *)

(** [min_p_cpu] and the part of it copied to the device; [min_p_shape] is the size of the
    device's view. *)
Record MinP := mkMinP {
  min_p_count : Z;
  min_p_cpu : list float;
  min_p_device : list float;
  min_p_shape : Z;
}.

#[export] Instance eta_MinP : Eta MinP := fun m =>
  mkMinP (min_p_count m) (min_p_cpu m) (min_p_device m) (min_p_shape m).

Definition new_min_p (max_num_reqs : Z) (junk : list float) : MinP :=
  mkMinP 0 (replicate (Z.to_nat max_num_reqs) fzero) junk 0.

(** A float is falsy when it is zero. *)
Definition is_zero (x : float) : bool := feq x fzero.

Definition min_p_add (a : AddedRequest) (s : MinP * bool) : result (MinP * bool) :=
  let '(m, needs_update) := s in
  before ← py_index (min_p_cpu m) (ar_index a);
  let p := min_p (ar_params a) in
  if feq before p then Ok s
  else
    cpu ← py_setitem (ar_index a) (to_f32 p) (min_p_cpu m);
    let count := if negb (is_zero p) && is_zero before then min_p_count m + 1
                 else if is_zero p && negb (is_zero before) then min_p_count m - 1
                 else min_p_count m in
    Ok (m <| min_p_cpu := cpu |> <| min_p_count := count |>, true).

Definition min_p_remove (index : Z) (m : MinP) : result MinP :=
  p ← py_index (min_p_cpu m) index;
  if is_zero p then Ok m
  else cpu ← py_setitem index fzero (min_p_cpu m); Ok (m <| min_p_cpu := cpu |> <| min_p_count := min_p_count m - 1 |>).

Definition min_p_move (mv : MovedRequest) (s : MinP * bool) : result (MinP * bool) :=
  let '(adx, bdx, direct) := mv in
  let '(m, needs_update) := s in
  pa ← py_index (min_p_cpu m) adx;
  pb ← py_index (min_p_cpu m) bdx;
  '(m, needs_update) ←
    (if feq pa pb then Ok (m, needs_update)
     else
       cpu ← py_setitem bdx pa (min_p_cpu m);
       cpu ← (match direct with SWAP => py_setitem adx pb cpu | UNIDIRECTIONAL => Ok cpu end);
       Ok (m <| min_p_cpu := cpu |>, true));
  match direct with
  | SWAP => Ok (m, needs_update)
  | UNIDIRECTIONAL =>
      cpu ← (if is_zero pa then Ok (min_p_cpu m) else py_setitem adx fzero (min_p_cpu m));
      Ok (m <| min_p_cpu := cpu |> <| min_p_count := if is_zero pb then min_p_count m else min_p_count m - 1 |>, needs_update)
  end.

(** [use_double_tensor]: the device's array is another one than the host's; else
    [min_p_device] is not used. *)
Definition min_p_rows (use_double_tensor : bool) (m : MinP) : list float :=
  slice_to (min_p_shape m) (if use_double_tensor then min_p_device m else min_p_cpu m).

Definition min_p_update (use_double_tensor : bool) (u : option BatchUpdate) (m : MinP) : result MinP :=
  match u with
  | None => Ok m
  | Some u =>
      '(m, needs_update) ← for_each min_p_add (bu_added u) (m, false);
      '(m, needs_update) ←
        (if min_p_count m =? 0 then Ok (m, needs_update)
         else
           m ← for_each min_p_remove (bu_removed u) m;
           let needs_update := needs_update || negb (bool_decide (bu_removed u = [])) in
           for_each min_p_move (bu_moved u) (m, needs_update));
      let size := batch_size u in
      if negb (min_p_count m =? 0) && (needs_update || negb (min_p_shape m =? size)) then
        Ok (m <| min_p_shape := size |>
              <| min_p_device := if use_double_tensor then copy_to_gpu size (min_p_cpu m) (min_p_device m) else min_p_device m |>)
      else Ok m
  end.
