(* ===== verification/InputBatch.v ===== *)
(** * The persistent batch of the model runner

    [vllm/v1/worker/gpu_input_batch.py]: the requests of the current step in the rows
    [0 .. num_reqs - 1] of preallocated arrays, kept from step to step.  The
    one- and two-dimensional host arrays all have [max_num_reqs] rows; a [Row] holds the
    entries of one row.  Their values are written as the arrays' types round
    them: 32-bit floats through [to_f32]; integers stay far below 32 bits.  Tensors on
    the device are the copies the sampling metadata is made of. *)

From S2P Require Import Prelude PyDict PyList PyFloat Request Numpy BlockTable Sampling BatchUpdate.
#[local] Open Scope Z_scope.

(** ** A request as the model runner keeps it *)

(** [mrope_positions] and the multi-modal features' tensors are not used here. *)
Record CachedRequestState := mkCachedRequestState {
  crs_req_id : string;
  crs_prompt_token_ids : option (list Z);
  crs_mm_features : list MultiModalFeature;
  crs_sampling_params : option SamplingParams;
  crs_pooling_params : option opaque;
  crs_generator : option Z;
  crs_block_ids : list (list Z);
  crs_num_computed_tokens : Z;
  crs_output : addr;
  crs_lora_request : option LoRARequest;
  crs_prompt_embeds : option (list string);
  crs_num_prompt_tokens : Z;
}.

#[export] Instance eta_CachedRequestState : Eta CachedRequestState := fun r =>
  mkCachedRequestState (crs_req_id r) (crs_prompt_token_ids r) (crs_mm_features r) (crs_sampling_params r)
    (crs_pooling_params r) (crs_generator r) (crs_block_ids r) (crs_num_computed_tokens r) (crs_output r)
    (crs_lora_request r) (crs_prompt_embeds r) (crs_num_prompt_tokens r).

Definition length_from_prompt (prompt_token_ids : option (list Z)) (prompt_embeds : option (list string)) : result Z :=
  match prompt_token_ids, prompt_embeds with
  | None, None => Raise ValueError
  | None, Some e => Ok (py_len e)
  | Some t, None => Ok (py_len t)
  | Some t, Some e => if py_len e =? py_len t then Ok (py_len t) else Raise ValueError
  end.

(** The dataclass's [__post_init__]. *)
Definition crs_post_init (r : CachedRequestState) : result CachedRequestState :=
  num ← length_from_prompt (crs_prompt_token_ids r) (crs_prompt_embeds r);
  Ok (r <| crs_num_prompt_tokens := num |>).

Definition crs_num_tokens (h : OutputStore) (r : CachedRequestState) : Z :=
  crs_num_prompt_tokens r + py_len (outputs_at h (crs_output r)).

Definition get_token_id (h : OutputStore) (idx : Z) (r : CachedRequestState) : result Z :=
  if idx <? crs_num_prompt_tokens r then
    match crs_prompt_token_ids r with
    | None => Raise ValueError
    | Some ids => py_index ids idx
    end
  else if idx - crs_num_prompt_tokens r <? py_len (outputs_at h (crs_output r))
  then py_index (outputs_at h (crs_output r)) (idx - crs_num_prompt_tokens r)
  else Ok (-1).

(** ** The batch *)

Record Row := mkRow {
  row_token_ids : list Z;
  row_is_token_ids : list bool;
  row_num_tokens : Z;
  row_num_tokens_no_spec : Z;
  row_num_prompt_tokens : Z;
  row_num_computed_tokens : Z;
  row_temperature : float;
  row_top_p : float;
  row_top_k : Z;
  row_frequency_penalty : float;
  row_presence_penalty : float;
  row_repetition_penalty : float;
  row_num_accepted_tokens : Z;
  row_lora : Z;
  row_needs_token_ids : bool;
}.

#[export] Instance eta_Row : Eta Row := fun r =>
  mkRow (row_token_ids r) (row_is_token_ids r) (row_num_tokens r) (row_num_tokens_no_spec r) (row_num_prompt_tokens r)
    (row_num_computed_tokens r) (row_temperature r) (row_top_p r) (row_top_k r) (row_frequency_penalty r)
    (row_presence_penalty r) (row_repetition_penalty r) (row_num_accepted_tokens r) (row_lora r) (row_needs_token_ids r).

(** Columns of the batch on the device. *)
Record DeviceColumns := mkDeviceColumns {
  dev_temperature : list float;
  dev_top_p : list float;
  dev_top_k : list Z;
  dev_frequency_penalties : list float;
  dev_presence_penalties : list float;
  dev_repetition_penalties : list float;
  dev_allowed_mask : option (list (list bool));
}.

#[export] Instance eta_DeviceColumns : Eta DeviceColumns := fun d =>
  mkDeviceColumns (dev_temperature d) (dev_top_p d) (dev_top_k d) (dev_frequency_penalties d)
    (dev_presence_penalties d) (dev_repetition_penalties d) (dev_allowed_mask d).

(** The metadata's generators, bad words, speculative and output tokens are the batch's own
    objects; [md_output_token_ids] says whether it has the output tokens or an
    empty list. *)
Record SamplingMetadata := mkSamplingMetadata {
  md_temperature : option (list float);
  md_all_greedy : bool;
  md_all_random : bool;
  md_top_p : option (list float);
  md_top_k : option (list Z);
  md_max_num_logprobs : option Z;
  md_no_penalties : bool;
  md_prompt_token_ids : option (list (list Z));
  md_frequency_penalties : list float;
  md_presence_penalties : list float;
  md_repetition_penalties : list float;
  md_output_token_ids : bool;
  md_allowed_token_ids_mask : option (list (list bool));
}.

Inductive LogitsProcessor :=
  | LPMinP (use_double_tensor : bool) (m : MinP)
  | LPLogitBias (l : LogitBias)
  | LPMinTokens (m : MinTokens).

Record InputBatch := mkInputBatch {
  is_pooling_model : bool;
  is_spec_decode : bool;
  ib_max_num_reqs : Z;
  ib_max_model_len : Z;
  ib_vocab_size : Z;
  logitsprocs_need_output_token_ids : bool;
  ib_req_ids : list (option string);
  ib_req_id_to_index : dict string Z;
  rows : list Row;
  req_prompt_embeds : gmap Z (list string);
  ib_block_table : MultiGroupBlockTable;
  greedy_reqs : gset string;
  random_reqs : gset string;
  top_p_reqs : gset string;
  top_k_reqs : gset string;
  spec_decode_unsupported_reqs : gset string;
  frequency_penalties_reqs : gset string;
  presence_penalties_reqs : gset string;
  repetition_penalties_reqs : gset string;
  lora_id_to_request_ids : gmap Z (gset string);
  lora_id_to_lora_request : gmap Z LoRARequest;
  generators : gmap Z Z;
  ib_num_logprobs : gmap string Z;
  ib_num_prompt_logprobs : gmap string Z;
  in_progress_prompt_logprobs : gmap string opaque;
  batch_update_builder : BatchUpdateBuilder;
  has_allowed_token_ids : gset string;
  allowed_token_ids_mask : option (list (list bool));
  ib_bad_words_token_ids : gmap Z (list (list Z));
  req_output_token_ids : list (option addr);
  logitsprocs : list LogitsProcessor;
  ib_spec_token_ids : list (option (list Z));
  device : DeviceColumns;
  sampling_metadata : option SamplingMetadata;
  ib_pooling_params : gmap string opaque;
  prev_req_id_to_index : option (dict string Z);
  sampled_token_ids_cpu : option (list Z);
}.

#[export] Instance eta_InputBatch : Eta InputBatch := fun b =>
  mkInputBatch (is_pooling_model b) (is_spec_decode b) (ib_max_num_reqs b) (ib_max_model_len b) (ib_vocab_size b)
    (logitsprocs_need_output_token_ids b) (ib_req_ids b) (ib_req_id_to_index b) (rows b) (req_prompt_embeds b)
    (ib_block_table b) (greedy_reqs b) (random_reqs b) (top_p_reqs b) (top_k_reqs b) (spec_decode_unsupported_reqs b)
    (frequency_penalties_reqs b) (presence_penalties_reqs b) (repetition_penalties_reqs b) (lora_id_to_request_ids b)
    (lora_id_to_lora_request b) (generators b) (ib_num_logprobs b) (ib_num_prompt_logprobs b)
    (in_progress_prompt_logprobs b) (batch_update_builder b) (has_allowed_token_ids b) (allowed_token_ids_mask b)
    (ib_bad_words_token_ids b) (req_output_token_ids b) (logitsprocs b) (ib_spec_token_ids b) (device b)
    (sampling_metadata b) (ib_pooling_params b) (prev_req_id_to_index b) (sampled_token_ids_cpu b).

Definition ib_num_reqs (b : InputBatch) : Z := py_len (ib_req_id_to_index b).

(** [a[i] = f(a[i])] for the entries of one row. *)
Definition update_row (i : Z) (f : Row -> result Row) (b : InputBatch) : result InputBatch :=
  row ← py_index (rows b) i;
  row ← f row;
  rs ← py_setitem i row (rows b);
  Ok (b <| rows := rs |>).

(** [row[:n] = v]. *)
Definition np_fill_to {A} (n : Z) (v : A) (row : list A) : list A :=
  let k := slice_pos n (length row) in replicate k v ++ drop k row.

Definition np_fill_slice {A} (s e : Z) (v : A) (row : list A) : list A :=
  let i := slice_pos s (length row) in
  let j := Nat.max i (slice_pos e (length row)) in take i row ++ replicate (j - i) v ++ drop j row.

(** ** Adding a request *)

Definition register_add_request (r : CachedRequestState) (b : InputBatch) : result (Z * InputBatch) :=
  let '(popped, builder) := pop_removed (batch_update_builder b) in
  let new_req_index := match popped with Some i => i | None => ib_num_reqs b end in
  _ ← py_assert (new_req_index <? ib_max_num_reqs b);
  let builder := builder <| batch_changed := true |> in
  let builder :=
    match crs_sampling_params r with
    | Some p => builder <| added := added builder ++
        [{| ar_index := new_req_index; ar_params := p; ar_prompt := crs_prompt_token_ids r; ar_output := crs_output r |}] |>
    | None => builder
    end in
  Ok (new_req_index, b <| batch_update_builder := builder |>).

(** The request's place in the three lists. *)
Definition place_request (req_index : Z) (r : CachedRequestState) (b : InputBatch) : result InputBatch :=
  if req_index =? py_len (ib_req_ids b) then
    Ok (b <| ib_req_ids := ib_req_ids b ++ [Some (crs_req_id r)] |>
          <| req_output_token_ids := req_output_token_ids b ++ [Some (crs_output r)] |>
          <| ib_spec_token_ids := ib_spec_token_ids b ++ [Some []] |>)
  else
    ids ← py_setitem req_index (Some (crs_req_id r)) (ib_req_ids b);
    outs ← py_setitem req_index (Some (crs_output r)) (req_output_token_ids b);
    specs ← py_setitem req_index (Some []) (ib_spec_token_ids b);
    Ok (b <| ib_req_ids := ids |> <| req_output_token_ids := outs |> <| ib_spec_token_ids := specs |>).

(** The prompt and output tokens and the counters, in the row. *)
Definition copy_tokens (num_prompt_tokens : Z) (output : list Z) (num_tokens : Z) (r : CachedRequestState) (row : Row) : result Row :=
  let start_idx := num_prompt_tokens in
  let end_idx := start_idx + py_len output in
  row ← (match crs_prompt_token_ids r with
         | Some ids =>
             tokens ← np_set_slice 0 num_prompt_tokens ids (row_token_ids row);
             Ok (row <| row_token_ids := tokens |> <| row_is_token_ids := np_fill_to num_prompt_tokens true (row_is_token_ids row) |>)
         | None => Ok (row <| row_is_token_ids := np_fill_to num_prompt_tokens false (row_is_token_ids row) |>)
         end);
  tokens ← np_set_slice start_idx end_idx output (row_token_ids row);
  Ok (row <| row_num_prompt_tokens := num_prompt_tokens |>
          <| row_token_ids := tokens |>
          <| row_is_token_ids := np_fill_slice start_idx end_idx true (row_is_token_ids row) |>
          <| row_num_tokens := num_tokens |> <| row_num_tokens_no_spec := num_tokens |>
          <| row_num_computed_tokens := crs_num_computed_tokens r |>).

(** [x != lit] for floats. *)
Definition fne (x y : float) : bool := negb (feq x y).

Definition is_spec_decode_unsupported (p : SamplingParams) : bool :=
  fne (frequency_penalty p) fzero || fne (presence_penalty p) fzero || fne (repetition_penalty p) (float_of_Z 1)
  || flt SAMPLING_EPS (min_p p) || bool_decide (is_Some (logprobs p)).

Definition add_if (c : bool) (x : string) (s : gset string) : gset string := if c then s ∪ {[x]} else s.

(** [logprobs], [-1] standing for the whole vocabulary. *)
Definition logprobs_asked (vocab_size : Z) (l : Z) : Z := if l =? -1 then vocab_size else l.

(** One row of the mask: [True] except at the allowed tokens. *)
Definition mask_row (vocab_size : Z) (ids : list Z) : result (list bool) :=
  for_each (fun i row => py_setitem i false row) ids (replicate (Z.to_nat vocab_size) true).

(** The mask is allocated when it is first needed. *)
Definition add_allowed (req_index : Z) (req_id : string) (ids : list Z) (b : InputBatch) : result InputBatch :=
  let empty_mask := replicate (Z.to_nat (ib_max_num_reqs b)) (replicate (Z.to_nat (ib_vocab_size b)) false) in
  let b := b <| has_allowed_token_ids := has_allowed_token_ids b ∪ {[req_id]} |> in
  let '(mask, dev) := match allowed_token_ids_mask b with
                      | None => (empty_mask, device b <| dev_allowed_mask := Some empty_mask |>)
                      | Some m => (m, device b)
                      end in
  row ← mask_row (ib_vocab_size b) ids;
  mask ← py_setitem req_index row mask;
  Ok (b <| allowed_token_ids_mask := Some mask |> <| device := dev |>).

Definition add_sampling (req_index : Z) (r : CachedRequestState) (p : SamplingParams) (b : InputBatch) : result InputBatch :=
  let req_id := crs_req_id r in
  kind ← sampling_type p;
  temp ← the_temperature p;
  let top_k' := if (0 <? top_k p) && (top_k p <? ib_vocab_size b) then top_k p else ib_vocab_size b in
  b ← update_row req_index (fun row =>
        Ok (row <| row_temperature := if bool_decide (kind = GREEDY) then fzero else to_f32 temp |>
                <| row_top_p := to_f32 (top_p p) |> <| row_top_k := top_k' |>
                <| row_frequency_penalty := to_f32 (frequency_penalty p) |>
                <| row_presence_penalty := to_f32 (presence_penalty p) |>
                <| row_repetition_penalty := to_f32 (repetition_penalty p) |>)) b;
  let b := b
    <| spec_decode_unsupported_reqs := add_if (is_spec_decode b && is_spec_decode_unsupported p) req_id (spec_decode_unsupported_reqs b) |>
    <| greedy_reqs := add_if (bool_decide (kind = GREEDY)) req_id (greedy_reqs b) |>
    <| random_reqs := add_if (negb (bool_decide (kind = GREEDY))) req_id (random_reqs b) |>
    <| top_p_reqs := add_if (flt (top_p p) (float_of_Z 1)) req_id (top_p_reqs b) |>
    <| top_k_reqs := add_if ((0 <? top_k p) && (top_k p <? ib_vocab_size b)) req_id (top_k_reqs b) |>
    <| frequency_penalties_reqs := add_if (fne (frequency_penalty p) fzero) req_id (frequency_penalties_reqs b) |>
    <| presence_penalties_reqs := add_if (fne (presence_penalty p) fzero) req_id (presence_penalties_reqs b) |>
    <| repetition_penalties_reqs := add_if (fne (repetition_penalty p) (float_of_Z 1)) req_id (repetition_penalties_reqs b) |>
    <| generators := match crs_generator r with Some g => <[req_index := g]> (generators b) | None => generators b end |>
    <| ib_num_logprobs := match logprobs p with
                          | Some l => <[req_id := logprobs_asked (ib_vocab_size b) l]> (ib_num_logprobs b)
                          | None => ib_num_logprobs b end |>
    <| ib_num_prompt_logprobs := match prompt_logprobs p with
                                 | Some l => <[req_id := logprobs_asked (ib_vocab_size b) l]> (ib_num_prompt_logprobs b)
                                 | None => ib_num_prompt_logprobs b end |> in
  b ← (match allowed_token_ids p with
       | Some ((_ :: _) as ids) => add_allowed req_index req_id ids b
       | _ => Ok b
       end);
  Ok (b <| ib_bad_words_token_ids := match bad_words_token_ids p with
                                     | Some ((_ :: _) as words) => <[req_index := words]> (ib_bad_words_token_ids b)
                                     | _ => ib_bad_words_token_ids b end |>).

Definition add_lora (req_index : Z) (r : CachedRequestState) (b : InputBatch) : result InputBatch :=
  match crs_lora_request r with
  | Some l =>
      let lora_id := lora_int_id l in
      b ← update_row req_index (fun row => Ok (row <| row_lora := lora_id |>)) b;
      Ok (b <| lora_id_to_request_ids := <[lora_id := default ∅ (lora_id_to_request_ids b !! lora_id) ∪ {[crs_req_id r]}]> (lora_id_to_request_ids b) |>
            <| lora_id_to_lora_request := <[lora_id := l]> (lora_id_to_lora_request b) |>)
  | None => update_row req_index (fun row => Ok (row <| row_lora := 0 |>)) b
  end.

(** What a pooling request says about its prompt tokens: its parameters are
    completed by the model's pooler. *)
Class PoolingInfo := requires_token_ids : opaque -> bool.

Section Batch.
Context `{PoolingInfo}.

Definition add_params (req_index : Z) (r : CachedRequestState) (b : InputBatch) : result InputBatch :=
  match crs_sampling_params r, crs_pooling_params r with
  | Some p, _ => add_sampling req_index r p b
  | None, Some p =>
      update_row req_index (fun row => Ok (row <| row_needs_token_ids := requires_token_ids p |>))
        (b <| ib_pooling_params := <[crs_req_id r := p]> (ib_pooling_params b) |>)
  | None, None => Raise NotImplementedError
  end.

Definition add_request (h : OutputStore) (r : CachedRequestState) (b : InputBatch) : result (Z * InputBatch) :=
  '(req_index, b) ← register_add_request r b;
  b ← place_request req_index r b;
  let b := b <| ib_req_id_to_index := dset (crs_req_id r) req_index (ib_req_id_to_index b) |> in
  num_prompt_tokens ← length_from_prompt (crs_prompt_token_ids r) (crs_prompt_embeds r);
  let b := match crs_prompt_embeds r with
           | Some e => b <| req_prompt_embeds := <[req_index := e]> (req_prompt_embeds b) |>
           | None => b
           end in
  b ← update_row req_index (copy_tokens num_prompt_tokens (outputs_at h (crs_output r)) (crs_num_tokens h r) r) b;
  table ← add_row (crs_block_ids r) req_index (ib_block_table b);
  b ← add_params req_index r (b <| ib_block_table := table |>);
  b ← update_row req_index (fun row => Ok (row <| row_num_accepted_tokens := 1 |>)) b;
  b ← add_lora req_index r b;
  Ok (req_index, b).

(** ** Removing a request *)

Definition remove_lora (req_index : Z) (req_id : string) (b : InputBatch) : result InputBatch :=
  row ← py_index (rows b) req_index;
  let lora_id := row_lora row in
  if lora_id =? 0 then Ok b
  else
    ids ← or_raise KeyError (lora_id_to_request_ids b !! lora_id : option (gset string));
    let ids : gset string := ids ∖ {[req_id]} in
    b ← (if bool_decide (ids = ∅) then
           _ ← or_raise KeyError (lora_id_to_lora_request b !! lora_id);
           Ok (b <| lora_id_to_request_ids := delete lora_id (lora_id_to_request_ids b) |>
                 <| lora_id_to_lora_request := delete lora_id (lora_id_to_lora_request b) |>)
         else Ok (b <| lora_id_to_request_ids := <[lora_id := ids]> (lora_id_to_request_ids b) |>));
    update_row req_index (fun row => Ok (row <| row_lora := 0 |>)) b.

Definition remove_sampling (req_index : Z) (req_id : string) (b : InputBatch) : result InputBatch :=
  mask ← (match allowed_token_ids_mask b with
          | None => Ok None
          | Some m =>
              row ← py_index m req_index;
              m ← py_setitem req_index (replicate (length row) false) m;
              Ok (Some m)
          end);
  let gone := {[req_id]} : gset string in
  Ok (b <| greedy_reqs := greedy_reqs b ∖ gone |> <| random_reqs := random_reqs b ∖ gone |>
        <| top_p_reqs := top_p_reqs b ∖ gone |> <| top_k_reqs := top_k_reqs b ∖ gone |>
        <| spec_decode_unsupported_reqs := spec_decode_unsupported_reqs b ∖ gone |>
        <| frequency_penalties_reqs := frequency_penalties_reqs b ∖ gone |>
        <| presence_penalties_reqs := presence_penalties_reqs b ∖ gone |>
        <| repetition_penalties_reqs := repetition_penalties_reqs b ∖ gone |>
        <| generators := delete req_index (generators b) |>
        <| ib_num_logprobs := delete req_id (ib_num_logprobs b) |>
        <| ib_num_prompt_logprobs := delete req_id (ib_num_prompt_logprobs b) |>
        <| in_progress_prompt_logprobs := delete req_id (in_progress_prompt_logprobs b) |>
        <| has_allowed_token_ids := has_allowed_token_ids b ∖ gone |>
        <| allowed_token_ids_mask := mask |>
        <| ib_bad_words_token_ids := delete req_index (ib_bad_words_token_ids b) |>).

Definition remove_request (req_id : string) (b : InputBatch) : result (option Z * InputBatch) :=
  match dget req_id (ib_req_id_to_index b) with
  | None => Ok (None, b)
  | Some req_index =>
      builder ← removed_append req_index (batch_update_builder b);
      ids ← py_setitem req_index None (ib_req_ids b);
      outs ← py_setitem req_index None (req_output_token_ids b);
      specs ← py_setitem req_index None (ib_spec_token_ids b);
      b ← remove_lora req_index req_id
            (b <| ib_req_id_to_index := ddel req_id (ib_req_id_to_index b) |> <| batch_update_builder := builder |>
               <| ib_req_ids := ids |> <| req_output_token_ids := outs |> <| ib_spec_token_ids := specs |>);
      b ← (if is_pooling_model b
           then Ok (b <| ib_pooling_params := delete req_id (ib_pooling_params b) |>)
           else remove_sampling req_index req_id b);
      Ok (Some req_index, b)
  end.

(** ** Exchanging two rows *)

Definition swap_dict_values {V} (i1 i2 : Z) (d : gmap Z V) : gmap Z V :=
  let v1 := d !! i1 in
  let v2 := d !! i2 in
  let d := match v1 with Some v => <[i2 := v]> d | None => delete i2 d end in
  match v2 with Some v => <[i1 := v]> d | None => delete i1 d end.

(** The entries every kind of model exchanges, and those only sampling models do. *)
Definition swap_common (r1 r2 : Row) : Row :=
  r1 <| row_token_ids := row_token_ids r2 |> <| row_is_token_ids := row_is_token_ids r2 |>
     <| row_num_tokens := row_num_tokens r2 |> <| row_num_tokens_no_spec := row_num_tokens_no_spec r2 |>
     <| row_num_prompt_tokens := row_num_prompt_tokens r2 |> <| row_num_computed_tokens := row_num_computed_tokens r2 |>
     <| row_lora := row_lora r2 |>.

Definition swap_sampling (r1 r2 : Row) : Row :=
  r1 <| row_temperature := row_temperature r2 |> <| row_top_p := row_top_p r2 |> <| row_top_k := row_top_k r2 |>
     <| row_frequency_penalty := row_frequency_penalty r2 |> <| row_presence_penalty := row_presence_penalty r2 |>
     <| row_repetition_penalty := row_repetition_penalty r2 |> <| row_num_accepted_tokens := row_num_accepted_tokens r2 |>.

Definition swap_rows (f : Row -> Row -> Row) (i1 i2 : Z) (b : InputBatch) : result InputBatch :=
  r1 ← py_index (rows b) i1;
  r2 ← py_index (rows b) i2;
  rs ← py_setitem i1 (f r1 r2) (rows b);
  rs ← py_setitem i2 (f r2 r1) rs;
  Ok (b <| rows := rs |>).

(** [m[i1], m[i2] = m[i2], m[i1]] on rows of a tensor: the right-hand side is a pair of
    views, so the second assignment reads the row that the first has written. *)
Definition swap_tensor_rows {A} (i1 i2 : Z) (m : list (list A)) : result (list (list A)) :=
  row2 ← py_index m i2;
  _ ← py_index m i1;
  m ← py_setitem i1 row2 m;
  row1 ← py_index m i1;
  py_setitem i2 row1 m.

Definition swap_states (i1 i2 : Z) (b : InputBatch) : result InputBatch :=
  old1 ← py_index (ib_req_ids b) i1;
  old2 ← py_index (ib_req_ids b) i2;
  ids ← np_swap i1 i2 (ib_req_ids b);
  outs ← np_swap i1 i2 (req_output_token_ids b);
  specs ← np_swap i1 i2 (ib_spec_token_ids b);
  old_id_i1 ← or_raise AssertionError old1;
  old_id_i2 ← or_raise AssertionError old2;
  x1 ← or_raise KeyError (dget old_id_i1 (ib_req_id_to_index b));
  x2 ← or_raise KeyError (dget old_id_i2 (ib_req_id_to_index b));
  let index := dset old_id_i2 x1 (dset old_id_i1 x2 (ib_req_id_to_index b)) in
  b ← swap_rows swap_common i1 i2
        (b <| ib_req_ids := ids |> <| req_output_token_ids := outs |> <| ib_spec_token_ids := specs |>
           <| ib_req_id_to_index := index |>);
  table ← swap_row i1 i2 (ib_block_table b);
  let b := b <| req_prompt_embeds := swap_dict_values i1 i2 (req_prompt_embeds b) |> <| ib_block_table := table |> in
  if is_pooling_model b then Ok b
  else
    let builder := batch_update_builder b in
    b ← swap_rows swap_sampling i1 i2 (b <| batch_update_builder := builder <| moved := moved builder ++ [(i1, i2, SWAP)] |> |>);
    mask ← (match allowed_token_ids_mask b with
            | None => Ok None
            | Some m => m ← swap_tensor_rows i1 i2 m; Ok (Some m)
            end);
    Ok (b <| generators := swap_dict_values i1 i2 (generators b) |>
          <| ib_bad_words_token_ids := swap_dict_values i1 i2 (ib_bad_words_token_ids b) |>
          <| allowed_token_ids_mask := mask |>).

(** ** Condensing *)

(** The largest index that is not empty, from [last] down. *)
Fixpoint last_filled (fuel : nat) (last : Z) (empty : list Z) : Z :=
  match fuel with
  | O => last
  | S fuel => if bool_decide (last ∈ empty) then last_filled fuel (last - 1) empty else last
  end.

(** The entries that move for every kind of model, and those that move for sampling models. *)
Definition move_common (src tgt : Row) : result Row :=
  tokens ← np_set_slice 0 (row_num_tokens src) (slice_to (row_num_tokens src) (row_token_ids src)) (row_token_ids tgt);
  is_tokens ← np_set_slice 0 (row_num_tokens src) (slice_to (row_num_tokens src) (row_is_token_ids src)) (row_is_token_ids tgt);
  Ok (tgt <| row_token_ids := tokens |> <| row_is_token_ids := is_tokens |>
          <| row_num_tokens := row_num_tokens src |> <| row_num_tokens_no_spec := row_num_tokens_no_spec src |>
          <| row_num_prompt_tokens := row_num_prompt_tokens src |> <| row_num_computed_tokens := row_num_computed_tokens src |>
          <| row_lora := row_lora src |>).

(** [if src in d: d[tgt] = d.pop(src)]. *)
Definition move_dict_value {V} (src tgt : Z) (d : gmap Z V) : gmap Z V :=
  match d !! src with Some v => <[tgt := v]> (delete src d) | None => d end.

Definition move_request (last_req_index empty_index : Z) (b : InputBatch) : result InputBatch :=
  old ← py_index (ib_req_ids b) last_req_index;
  out ← py_index (req_output_token_ids b) last_req_index;
  req_id ← or_raise AssertionError old;
  ids ← py_setitem empty_index (Some req_id) (ib_req_ids b);
  ids ← py_setitem last_req_index None ids;
  outs ← py_setitem empty_index out (req_output_token_ids b);
  outs ← py_setitem last_req_index None outs;
  spec ← py_index (ib_spec_token_ids b) last_req_index;
  specs ← py_setitem empty_index spec (ib_spec_token_ids b);
  specs ← py_setitem last_req_index None specs;
  src ← py_index (rows b) last_req_index;
  b ← update_row empty_index (move_common src)
        (b <| ib_req_ids := ids |> <| req_output_token_ids := outs |> <| ib_spec_token_ids := specs |>
           <| ib_req_id_to_index := dset req_id empty_index (ib_req_id_to_index b) |>
           <| req_prompt_embeds := move_dict_value last_req_index empty_index (req_prompt_embeds b) |>);
  table ← move_row last_req_index empty_index (ib_block_table b);
  let b := b <| ib_block_table := table |> in
  if is_pooling_model b then Ok b
  else
    let builder := batch_update_builder b in
    b ← update_row empty_index (fun row => Ok (swap_sampling row src))
          (b <| batch_update_builder := builder <| moved := moved builder ++ [(last_req_index, empty_index, UNIDIRECTIONAL)] |> |>);
    mask ← (match allowed_token_ids_mask b with
            | None => Ok None
            | Some m => row ← py_index m last_req_index; m ← py_setitem empty_index row m; Ok (Some m)
            end);
    Ok (b <| generators := move_dict_value last_req_index empty_index (generators b) |>
          <| allowed_token_ids_mask := mask |>
          <| ib_bad_words_token_ids := move_dict_value last_req_index empty_index (ib_bad_words_token_ids b) |>).

(** One round per hole at most: [fuel] is their number. *)
Fixpoint condense_loop (fuel : nat) (last_req_index : Z) (b : InputBatch) : result InputBatch :=
  match fuel, removed_list (batch_update_builder b) with
  | _, [] => Ok b
  | O, _ => Ok b
  | S fuel, empty =>
      let last_req_index := last_filled (length empty) last_req_index empty in
      let '(empty_index, builder) := peek_removed (batch_update_builder b) in
      let b := b <| batch_update_builder := builder |> in
      empty_index ← or_raise AssertionError empty_index;
      if last_req_index <=? empty_index then Ok b
      else
        let b := b <| batch_update_builder := (pop_removed (batch_update_builder b)).2 |> in
        b ← move_request last_req_index empty_index b;
        condense_loop fuel (last_req_index - 1) b
  end.

Definition condense (b : InputBatch) : result InputBatch :=
  let num_reqs := ib_num_reqs b in
  let '(empty_req_indices, builder) := removed (batch_update_builder b) in
  let b := b <| batch_update_builder := builder |> in
  match empty_req_indices with
  | [] => Ok b
  | _ =>
      if num_reqs =? 0 then Ok (b <| ib_req_ids := [] |> <| req_output_token_ids := [] |> <| ib_spec_token_ids := [] |>)
      else
        b ← condense_loop (length empty_req_indices) (num_reqs + py_len empty_req_indices - 1) b;
        Ok (b <| ib_req_ids := slice_to num_reqs (ib_req_ids b) |>
              <| req_output_token_ids := slice_to num_reqs (req_output_token_ids b) |>
              <| ib_spec_token_ids := slice_to num_reqs (ib_spec_token_ids b) |>)
  end.

(** ** Sampling metadata *)

Definition all_greedy (b : InputBatch) : bool := bool_decide (random_reqs b = ∅).
Definition all_random (b : InputBatch) : bool := bool_decide (greedy_reqs b = ∅).
Definition no_top_p (b : InputBatch) : bool := bool_decide (top_p_reqs b = ∅).
Definition no_top_k (b : InputBatch) : bool := bool_decide (top_k_reqs b = ∅).
Definition no_penalties (b : InputBatch) : bool :=
  bool_decide (presence_penalties_reqs b = ∅) && bool_decide (frequency_penalties_reqs b = ∅)
  && bool_decide (repetition_penalties_reqs b = ∅).
Definition no_prompt_logprob (b : InputBatch) : bool := bool_decide (ib_num_prompt_logprobs b = ∅).
Definition no_allowed_token_ids (b : InputBatch) : bool := bool_decide (has_allowed_token_ids b = ∅).

Definition max_num_logprobs (b : InputBatch) : option Z :=
  match (map_to_list (ib_num_logprobs b)).*2 with [] => None | x :: l => Some (foldr Z.max x l) end.

Definition make_prompt_token_ids_tensor (b : InputBatch) : result (list (list Z)) :=
  let num_reqs := ib_num_reqs b in
  let rs := slice_to num_reqs (rows b) in
  match row_num_prompt_tokens <$> rs with
  | [] => Raise ValueError
  | n :: ns =>
      let max_prompt_len := foldr Z.max n ns in
      Ok ((fun row =>
             let prompt := slice_to max_prompt_len (row_token_ids row) in
             let k := slice_pos (row_num_prompt_tokens row) (length prompt) in
             take k prompt ++ replicate (length prompt - k) (ib_vocab_size b)) <$> rs)
  end.

(** The columns that are needed go to the device. *)
Definition copy_columns (b : InputBatch) : DeviceColumns :=
  let num_reqs := ib_num_reqs b in
  let d := device b in
  let column {A} (f : Row -> A) := f <$> rows b in
  let d := if all_greedy b then d else d <| dev_temperature := copy_to_gpu num_reqs (column row_temperature) (dev_temperature d) |> in
  let d := if no_top_p b then d else d <| dev_top_p := copy_to_gpu num_reqs (column row_top_p) (dev_top_p d) |> in
  let d := if no_top_k b then d else d <| dev_top_k := copy_to_gpu num_reqs (column row_top_k) (dev_top_k d) |> in
  if no_penalties b then d
  else d <| dev_frequency_penalties := copy_to_gpu num_reqs (column row_frequency_penalty) (dev_frequency_penalties d) |>
         <| dev_presence_penalties := copy_to_gpu num_reqs (column row_presence_penalty) (dev_presence_penalties d) |>
         <| dev_repetition_penalties := copy_to_gpu num_reqs (column row_repetition_penalty) (dev_repetition_penalties d) |>.

Definition make_sampling_metadata (b : InputBatch) : result (SamplingMetadata * InputBatch) :=
  let num_reqs := ib_num_reqs b in
  let d := copy_columns b in
  let needs_prompt := negb (no_penalties b) || existsb row_needs_token_ids (slice_to num_reqs (rows b)) in
  prompt ← (if needs_prompt then t ← make_prompt_token_ids_tensor b; Ok (Some t) else Ok None);
  let needs_output := negb (no_penalties b) || negb (bool_decide (ib_bad_words_token_ids b = ∅))
                      || logitsprocs_need_output_token_ids b in
  '(mask, d) ← (if no_allowed_token_ids b then Ok (None, d)
                else
                  dev ← or_raise AssertionError (dev_allowed_mask d);
                  cpu ← or_raise AttributeError (allowed_token_ids_mask b);
                  let dev := copy_to_gpu num_reqs cpu dev in
                  Ok (Some (slice_to num_reqs dev), d <| dev_allowed_mask := Some dev |>));
  Ok ({| md_temperature := if all_greedy b then None else Some (slice_to num_reqs (dev_temperature d));
         md_all_greedy := all_greedy b; md_all_random := all_random b;
         md_top_p := if no_top_p b then None else Some (slice_to num_reqs (dev_top_p d));
         md_top_k := if no_top_k b then None else Some (slice_to num_reqs (dev_top_k d));
         md_max_num_logprobs := max_num_logprobs b; md_no_penalties := no_penalties b;
         md_prompt_token_ids := prompt;
         md_frequency_penalties := slice_to num_reqs (dev_frequency_penalties d);
         md_presence_penalties := slice_to num_reqs (dev_presence_penalties d);
         md_repetition_penalties := slice_to num_reqs (dev_repetition_penalties d);
         md_output_token_ids := needs_output; md_allowed_token_ids_mask := mask |},
      b <| device := d |>).

Definition is_argmax_invariant (p : LogitsProcessor) : bool := match p with LPMinP _ _ => true | _ => false end.

(** [LogitsProcessors(...).all]. *)
Definition all_processors (l : list LogitsProcessor) : list LogitsProcessor :=
  List.filter is_argmax_invariant l ++ List.filter (fun p => negb (is_argmax_invariant p)) l.

Definition update_state (h : OutputStore) (u : option BatchUpdate) (p : LogitsProcessor) : result LogitsProcessor :=
  match p with
  | LPMinP double m => m ← min_p_update double u m; Ok (LPMinP double m)
  | LPLogitBias l => Ok (LPLogitBias (logit_bias_update u l))
  | LPMinTokens m => Ok (LPMinTokens (min_tokens_update h u m))
  end.

Definition set_metadata (b : InputBatch) : result InputBatch :=
  '(m, b) ← make_sampling_metadata b;
  Ok (b <| sampling_metadata := Some m |>).

Definition refresh_metadata (h : OutputStore) (b : InputBatch) : result InputBatch :=
  if is_pooling_model b then
    let '(changed, builder) := reset (batch_update_builder b) in
    let b := b <| batch_update_builder := builder |> in
    if changed then set_metadata b else Ok b
  else
    let '(batch_update, builder) := get_and_reset (ib_num_reqs b) (batch_update_builder b) in
    procs ← mapM (update_state h batch_update) (logitsprocs b);
    let b := b <| batch_update_builder := builder |> <| logitsprocs := procs |> in
    match batch_update with Some _ => set_metadata b | None => Ok b end.

(** ** Construction *)

(** [torch.empty]: [junk] and [device0] are whatever the memory holds. *)
Definition new_input_batch (max_num_reqs max_model_len vocab_size : Z) (table : MultiGroupBlockTable)
    (procs : list LogitsProcessor) (need_output spec_decode pooling : bool) (junk : float) (device0 : DeviceColumns)
    : result InputBatch :=
  let row := mkRow (zeros max_model_len) (replicate (Z.to_nat max_model_len) false) 0 0 0 0 junk junk 0 junk junk junk 1 0 false in
  set_metadata
    {| is_pooling_model := pooling; is_spec_decode := spec_decode; ib_max_num_reqs := max_num_reqs;
       ib_max_model_len := max_model_len; ib_vocab_size := vocab_size; logitsprocs_need_output_token_ids := need_output;
       ib_req_ids := []; ib_req_id_to_index := []; rows := replicate (Z.to_nat max_num_reqs) row; req_prompt_embeds := ∅;
       ib_block_table := table; greedy_reqs := ∅; random_reqs := ∅; top_p_reqs := ∅; top_k_reqs := ∅;
       spec_decode_unsupported_reqs := ∅; frequency_penalties_reqs := ∅; presence_penalties_reqs := ∅;
       repetition_penalties_reqs := ∅; lora_id_to_request_ids := ∅; lora_id_to_lora_request := ∅; generators := ∅;
       ib_num_logprobs := ∅; ib_num_prompt_logprobs := ∅; in_progress_prompt_logprobs := ∅;
       batch_update_builder := new_builder; has_allowed_token_ids := ∅; allowed_token_ids_mask := None;
       ib_bad_words_token_ids := ∅; req_output_token_ids := []; logitsprocs := all_processors procs;
       ib_spec_token_ids := []; device := device0; sampling_metadata := None; ib_pooling_params := ∅;
       prev_req_id_to_index := None; sampled_token_ids_cpu := None |}.

(** ** What the model runner reads *)

Definition get_pooling_params (b : InputBatch) : result (list opaque) :=
  _ ← py_assert (bool_decide (length (ib_req_ids b) = size (ib_pooling_params b)));
  mapM (fun o : option string => id ← or_raise KeyError o; or_raise KeyError (ib_pooling_params b !! id)) (ib_req_ids b).

(** [numpy.repeat]. *)
Definition np_repeat {A} (l : list A) (counts : list Z) : list A :=
  concat (zip_with (fun x c => replicate (Z.to_nat c) x) l counts).

Definition make_lora_inputs (num_scheduled_tokens num_sampled_tokens : list Z) (b : InputBatch)
    : list Z * list Z * list LoRARequest :=
  let mapping := row_lora <$> slice_to (ib_num_reqs b) (rows b) in
  (np_repeat mapping num_sampled_tokens, np_repeat mapping num_scheduled_tokens,
   (map_to_list (lora_id_to_lora_request b)).*2).

(** The metadata's list of output tokens is not empty. *)
Definition metadata_has_outputs (b : InputBatch) : bool :=
  match sampling_metadata b with
  | Some m => md_output_token_ids m && negb (bool_decide (req_output_token_ids b = []))
  | None => false
  end.

Definition set_async_sampled_token_ids (sampled : list Z) (b : InputBatch) : InputBatch :=
  b <| sampled_token_ids_cpu := if metadata_has_outputs b then Some sampled else None |>.

(** One request of [update_async_output_token_ids]: the placeholder at the end of its
    output becomes the token sampled in the step before. *)
Definition repair_output (prev : dict string Z) (sampled : list Z) (b : InputBatch) (ip : nat * option string) (h : OutputStore)
    : result OutputStore :=
  match ip.2 ≫= (fun req_id => dget req_id prev) with
  | None => Ok h
  | Some prev_index =>
      out ← py_index (req_output_token_ids b) (Z.of_nat ip.1);
      match out with
      | None => Ok h
      | Some a =>
          let ids := outputs_at h a in
          if bool_decide (last ids = Some (-1)) then
            tok ← py_index sampled prev_index;
            ids ← py_setitem (-1) tok ids;
            Ok (<[a := ids]> h)
          else Ok h
      end
  end.

Definition update_async_output_token_ids (b : InputBatch) (h : OutputStore) : result OutputStore :=
  match sampled_token_ids_cpu b with
  | Some sampled =>
      if metadata_has_outputs b then
        prev ← or_raise AssertionError (prev_req_id_to_index b);
        for_each (repair_output prev sampled b) (imap pair (ib_req_ids b)) h
      else Ok h
  | None => Ok h
  end.
End Batch.
