(* ===== verification/ReorderBatch.v ===== *)
(** * Reordering the batch

    [reorder_batch_to_split_decodes_and_prefills] of
    [vllm/v1/attention/backends/utils.py]: decodes first, then requests with context, then
    fresh prompts, by exchanging the rows that are not in their region. *)

From S2P Require Import Prelude PyDict PyList PyFloat Request Outputs Numpy BlockTable Sampling BatchUpdate InputBatch.
#[local] Open Scope Z_scope.

(** 0: at most [decode_threshold] tokens are scheduled; 1: more, after a context; 2: more,
    from the start of the prompt. *)
Definition req_region (decode_threshold num_scheduled num_computed : Z) : Z :=
  if num_scheduled <=? decode_threshold then 0
  else if 0 <? num_computed then 1
  else if num_computed =? 0 then 2 else 0.

(** [target_regions]: zeros, with two slices assigned. *)
Definition target_regions (is_decode is_extend : list bool) : list Z :=
  let num_reqs := py_len is_decode in
  let count (l : list bool) := py_len (List.filter id l) in
  let num_decodes := count is_decode in
  let num_extends := count is_extend in
  np_fill_slice (num_decodes + num_extends) num_reqs 2
    (np_fill_slice num_decodes (num_decodes + num_extends) 1 (zeros num_reqs)).

(** The indices where the regions differ, and the same indices in the stable order of their
    requests' regions: the request at a source goes to the index at the same place. *)
Definition orig_indices (regions targets : list Z) : list nat :=
  (fst <$> List.filter (fun p : nat * (Z * Z) => negb (p.2.1 =? p.2.2)) (imap pair (zip regions targets))).

Definition src_indices (regions targets : list Z) : list nat :=
  stable_sort Z.ltb (fun i => default 0 (regions !! i)) (orig_indices regions targets).

Section Cycles.
Context {S : Type} (swap : Z -> Z -> S -> result S).

(** One cycle: [while src != dst]. *)
Fixpoint follow_cycle (fuel : nat) (src dst : Z) (m : dict Z Z) (s : S) : result (dict Z Z * S) :=
  if src =? dst then Ok (m, s)
  else
    match fuel with
    | O => Ok (m, s)
    | Datatypes.S fuel =>
        s ← swap src dst s;
        let next_dst := dget_or dst dst m in
        follow_cycle fuel src next_dst (dset dst dst m) s
    end.

Definition follow_cycles (m : dict Z Z) (s : S) : result (dict Z Z * S) :=
  for_each (fun src ms => dst ← or_raise KeyError (dget src ms.1); follow_cycle (length m) src dst ms.1 ms.2) (dkeys m) (m, s).
End Cycles.

Definition reorder_batch_to_split_decodes_and_prefills (decode_threshold : Z) (so : SchedulerOutput) (b : InputBatch)
    : result (bool * InputBatch) :=
  num_scheduled ← mapM (fun o : option string => rid ← or_raise KeyError o; or_raise KeyError (dget rid (num_scheduled_tokens so)))
    (ib_req_ids b);
  let num_computed := row_num_computed_tokens <$> take (length (ib_req_ids b)) (rows b) in
  let regions := zip_with (req_region decode_threshold) num_scheduled num_computed in
  let is_decode := (fun n => n <=? decode_threshold) <$> num_scheduled in
  let is_extend := zip_with (fun n c => negb (n <=? decode_threshold) && (0 <? c)) num_scheduled num_computed in
  let targets := target_regions is_decode is_extend in
  match orig_indices regions targets with
  | [] => Ok (false, b)
  | orig =>
      let src_dest_map := foldl (fun d p => dset (Z.of_nat p.1) (Z.of_nat p.2) d) [] (zip (src_indices regions targets) orig) in
      '(_, b) ← follow_cycles swap_states src_dest_map b;
      Ok (true, b)
  end.
