(* ===== verification/InputBatchInv.v ===== *)
(** * What the rows of the batch stand for

    A row represents a request: its tokens (prompt, outputs, drafts), counters, adapter and
    sampling parameters.  [batch_ok] says that every live row represents the
    request whose id it has, that ids and indices agree, that the block tables hold
    the requests' blocks and that the sets of ids are those of the live
    requests with the parameters they are named after. *)

From S2P Require Import Prelude PyDict PyList PyFloat Request Numpy BlockTable Sampling BatchUpdate InputBatch.
#[local] Open Scope Z_scope.

(** ** One row *)

(** The tokens of a request, [None] where the prompt is given as embeddings. *)
Definition tokens_of (h : OutputStore) (r : CachedRequestState) (spec : list Z) : list (option Z) :=
  match crs_prompt_token_ids r with
  | Some ids => Some <$> ids
  | None => replicate (Z.to_nat (crs_num_prompt_tokens r)) None
  end ++ (Some <$> outputs_at h (crs_output r)) ++ (Some <$> spec).

(** A request as [__post_init__] leaves it. *)
Definition request_ok (r : CachedRequestState) : Prop :=
  length_from_prompt (crs_prompt_token_ids r) (crs_prompt_embeds r) = Ok (crs_num_prompt_tokens r).

Lemma request_ok_nonneg r : request_ok r -> 0 <= crs_num_prompt_tokens r.
Proof.
  unfold request_ok, length_from_prompt, py_len. intros Hr. repeat case_match; simplify_eq; lia.
Qed.

Lemma request_ok_prompt r ids : request_ok r -> crs_prompt_token_ids r = Some ids -> crs_num_prompt_tokens r = py_len ids.
Proof.
  unfold request_ok, length_from_prompt. intros Hr Hids. rewrite Hids in Hr. destruct (crs_prompt_embeds r) as [e|]; [|by injection Hr as <-].
  destruct (py_len e =? py_len ids); by simplify_eq.
Qed.

Lemma length_tokens_of h r spec : request_ok r ->
  py_len (tokens_of h r spec) = crs_num_tokens h r + py_len spec.
Proof.
  intros Hr. unfold tokens_of, crs_num_tokens, py_len. rewrite !length_app, !length_fmap.
  destruct (crs_prompt_token_ids r) as [ids|] eqn:Hids.
  - rewrite (request_ok_prompt r ids) by done. unfold py_len. rewrite length_fmap. lia.
  - rewrite length_replicate. pose proof (request_ok_nonneg r Hr). lia.
Qed.

(** The parameters in the row, for a sampling request.  The mask of allowed tokens is not among them: the code keeps it by row in
    an array of its own, and neither [swap_states] nor [condense] moves it with its request. *)
Record params_in (vocab_size : Z) (p : SamplingParams) (row : Row) : Prop := {
  pi_temperature : exists kind temp, sampling_type p = Ok kind /\ temperature p = Some temp /\
    row_temperature row = if bool_decide (kind = GREEDY) then fzero else to_f32 temp;
  pi_top_p : row_top_p row = to_f32 (top_p p);
  pi_top_k : row_top_k row = if (0 <? top_k p) && (top_k p <? vocab_size) then top_k p else vocab_size;
  pi_frequency : row_frequency_penalty row = to_f32 (frequency_penalty p);
  pi_presence : row_presence_penalty row = to_f32 (presence_penalty p);
  pi_repetition : row_repetition_penalty row = to_f32 (repetition_penalty p);
}.

Definition lora_of (r : CachedRequestState) : Z := match crs_lora_request r with Some l => lora_int_id l | None => 0 end.

Record row_represents (h : OutputStore) (r : CachedRequestState) (spec : list Z) (row : Row) : Prop := {
  rr_prompt : row_num_prompt_tokens row = crs_num_prompt_tokens r;
  rr_computed : row_num_computed_tokens row = crs_num_computed_tokens r;
  rr_no_spec : row_num_tokens_no_spec row = crs_num_tokens h r;
  rr_num_tokens : row_num_tokens row = crs_num_tokens h r + py_len spec;
  rr_tokens : forall k t, tokens_of h r spec !! k = Some (Some t) -> row_token_ids row !! k = Some t;
  rr_lora : row_lora row = lora_of r;
}.

(** Room for the tokens of a request in a row of [L] places. *)
Definition tokens_fit (h : OutputStore) (L : Z) (r : CachedRequestState) (spec : list Z) : Prop :=
  crs_num_tokens h r + py_len spec <= L.

Definition row_size (L : Z) (row : Row) : Prop := py_len (row_token_ids row) = L /\ py_len (row_is_token_ids row) = L.

Lemma length_np_fill_to {A} n (v : A) row : length (np_fill_to n v row) = length row.
Proof. unfold np_fill_to. pose proof (slice_pos_le n (length row)). rewrite length_app, length_replicate, length_drop. lia. Qed.

Lemma length_np_fill_slice {A} s e (v : A) row : length (np_fill_slice s e v row) = length row.
Proof.
  unfold np_fill_slice. pose proof (slice_pos_le s (length row)). pose proof (slice_pos_le e (length row)).
  rewrite !length_app, length_replicate, length_drop, length_take. lia.
Qed.

(** The list an assignment to a slice that fits gives. *)
Lemma np_set_slice_at {A} s e (vals row : list A) : 0 <= s -> e = s + py_len vals -> e <= py_len row ->
  np_set_slice s e vals row = Ok (take (Z.to_nat s) row ++ vals ++ drop (Z.to_nat s + length vals) row).
Proof. intros Hs -> He. by apply np_set_slice_in. Qed.

Lemma np_set_slice_to {A} e (vals row : list A) : e = py_len vals -> e <= py_len row ->
  np_set_slice 0 e vals row = Ok (vals ++ drop (length vals) row).
Proof. intros -> He. by rewrite (np_set_slice_at 0 _ vals row). Qed.

Lemma overwrite_lookup {A} n (vals row : list A) k : (n + length vals <= length row)%nat ->
  (take n row ++ vals ++ drop (n + length vals) row) !! k
  = if decide (k < n)%nat then row !! k else if decide (k < n + length vals)%nat then vals !! (k - n)%nat else row !! k.
Proof.
  intros Hfit. repeat case_decide.
  - rewrite lookup_app_l by (rewrite length_take; lia). by rewrite lookup_take_lt.
  - rewrite lookup_app_r by (rewrite length_take; lia). rewrite length_take, Nat.min_l by lia.
    by rewrite lookup_app_l by lia.
  - rewrite lookup_app_r by (rewrite length_take; lia). rewrite length_take, Nat.min_l by lia.
    rewrite lookup_app_r by lia. rewrite lookup_drop. f_equal. lia.
Qed.

Lemma length_overwrite {A} n (vals row : list A) : (n + length vals <= length row)%nat ->
  length (take n row ++ vals ++ drop (n + length vals) row) = length row.
Proof. intros. rewrite !length_app, length_take, length_drop. lia. Qed.

(** The parts of the row that sampling parameters are kept in. *)
Definition same_params (row row' : Row) : Prop :=
  row_temperature row' = row_temperature row /\ row_top_p row' = row_top_p row /\ row_top_k row' = row_top_k row /\
  row_frequency_penalty row' = row_frequency_penalty row /\ row_presence_penalty row' = row_presence_penalty row /\
  row_repetition_penalty row' = row_repetition_penalty row.

Lemma params_in_same v p row row' : params_in v p row -> same_params row row' -> params_in v p row'.
Proof. intros [] (? & ? & ? & ? & ? & ?). split; rewrite ?H, ?H0, ?H1, ?H2, ?H3, ?H4; done. Qed.

(** A new request's tokens in any row. *)
Lemma copy_tokens_ok h L r row : request_ok r -> row_size L row -> tokens_fit h L r [] ->
  exists row', copy_tokens (crs_num_prompt_tokens r) (outputs_at h (crs_output r)) (crs_num_tokens h r) r row = Ok row' /\
    row_size L row' /\ row_represents h r [] (row' <| row_lora := lora_of r |>).
Proof.
  intros Hr [Hlt Hli] Hfit. pose proof (request_ok_nonneg r Hr) as Hn. unfold tokens_fit, crs_num_tokens in Hfit.
  set (outs := outputs_at h (crs_output r)) in *. cbn [py_len length] in Hfit. unfold copy_tokens.
  assert (Hprompt : exists toks flags, (match crs_prompt_token_ids r with
         | Some ids => tokens ← np_set_slice 0 (crs_num_prompt_tokens r) ids (row_token_ids row);
             Ok (row <| row_token_ids := tokens |> <| row_is_token_ids := np_fill_to (crs_num_prompt_tokens r) true (row_is_token_ids row) |>)
         | None => Ok (row <| row_is_token_ids := np_fill_to (crs_num_prompt_tokens r) false (row_is_token_ids row) |>) end)
      = Ok (row <| row_token_ids := toks |> <| row_is_token_ids := flags |>) /\
      py_len toks = L /\ py_len flags = L /\
      (forall ids k t, crs_prompt_token_ids r = Some ids -> ids !! k = Some t -> toks !! k = Some t)).
  { destruct (crs_prompt_token_ids r) as [ids|] eqn:Hids.
    - pose proof (request_ok_prompt r ids Hr Hids) as Hlen. rewrite np_set_slice_at by (unfold py_len in *; lia). cbn [mbind result_bind].
      do 2 eexists. split; [reflexivity|]. change (Z.to_nat 0) with 0%nat. unfold py_len in *.
      split; [rewrite length_overwrite; lia|]. split; [by rewrite length_np_fill_to|].
      intros ids' k t [= <-] Hk. rewrite overwrite_lookup by lia. apply lookup_lt_Some in Hk as Hk'.
      rewrite decide_False, decide_True by lia. by replace (k - 0)%nat with k by lia.
    - exists (row_token_ids row), (np_fill_to (crs_num_prompt_tokens r) false (row_is_token_ids row)).
      split; [by destruct row|]. split; [done|]. split; [|done]. unfold py_len in *. by rewrite length_np_fill_to. }
  destruct Hprompt as (toks & flags & -> & Hl1 & Hl2 & Htoks). cbn [mbind result_bind].
  set (row1 := row <| row_token_ids := toks |> <| row_is_token_ids := flags |>).
  change (row_token_ids row1) with toks. change (row_is_token_ids row1) with flags. unfold py_len in *.
  rewrite np_set_slice_at by (unfold py_len; lia). cbn [mbind result_bind]. eexists. split; [reflexivity|]. split.
  - split; cbn; unfold py_len; [rewrite length_overwrite; lia | by rewrite length_np_fill_slice].
  - assert (Hrow : forall k t, tokens_of h r [] !! k = Some (Some t) ->
      (take (Z.to_nat (crs_num_prompt_tokens r)) toks ++ outs ++ drop (Z.to_nat (crs_num_prompt_tokens r) + length outs) toks) !! k = Some t).
    { intros k t Hk. rewrite overwrite_lookup by lia. unfold tokens_of in Hk. fold outs in Hk. cbn in Hk. rewrite app_nil_r in Hk.
      set (pre := match crs_prompt_token_ids r with Some ids => Some <$> ids | None => _ end) in Hk.
      assert (Hpre : length pre = Z.to_nat (crs_num_prompt_tokens r)).
      { unfold pre. destruct (crs_prompt_token_ids r) as [ids|] eqn:Hids; [|by rewrite length_replicate].
        rewrite length_fmap, (request_ok_prompt r ids Hr Hids). unfold py_len. lia. }
      case_decide as Hlt'.
      - rewrite lookup_app_l in Hk by lia. unfold pre in Hk. destruct (crs_prompt_token_ids r) as [ids|] eqn:Hids.
        + rewrite list_lookup_fmap in Hk. destruct (ids !! k) eqn:Hkk; [|done]. cbn in Hk. injection Hk as ->. by eapply Htoks.
        + apply lookup_replicate in Hk as [? _]. done.
      - rewrite lookup_app_r in Hk by lia. rewrite list_lookup_fmap, Hpre in Hk.
        destruct (outs !! (k - Z.to_nat (crs_num_prompt_tokens r))%nat) eqn:Hkk; [|done]. cbn in Hk. injection Hk as ->.
        apply lookup_lt_Some in Hkk as Hb. rewrite decide_True by lia. done. }
    split; cbn; try done. unfold crs_num_tokens, py_len. fold outs. cbn. lia.
Qed.

(** The entries [condense] moves carry the request along. *)
Lemma move_common_ok h L r spec src tgt :
  request_ok r -> row_represents h r spec src -> row_size L src -> row_size L tgt -> tokens_fit h L r spec ->
  exists row', move_common src tgt = Ok row' /\ row_size L row' /\ row_represents h r spec row' /\
    row_needs_token_ids row' = row_needs_token_ids tgt.
Proof.
  intros Hr [] [Hs1 Hs2] [Ht1 Ht2] Hfit. unfold tokens_fit in Hfit.
  assert (Hpos : 0 <= row_num_tokens src).
  { rewrite rr_num_tokens0. unfold crs_num_tokens, py_len. pose proof (request_ok_nonneg r Hr). lia. }
  assert (Hslice : forall {A} (row : list A), py_len row = L -> slice_to (row_num_tokens src) row = take (Z.to_nat (row_num_tokens src)) row).
  { intros A row Hrow. unfold slice_to, slice_pos, py_len in *. destruct (Z.ltb_spec (row_num_tokens src) 0); [lia|]. by rewrite Z.min_l by lia. }
  unfold move_common. rewrite !Hslice by done. unfold py_len in *.
  rewrite !np_set_slice_to by (unfold py_len; rewrite ?length_take; lia). cbn [mbind result_bind]. eexists. split; [reflexivity|].
  split_and!.
  - split; cbn; unfold py_len; rewrite length_app, length_drop, length_take; lia.
  - split; cbn; try done. intros k t Hk. pose proof (rr_tokens0 k t Hk) as Hk2.
    apply lookup_lt_Some in Hk. pose proof (length_tokens_of h r spec Hr) as Hlen. unfold py_len in Hlen.
    rewrite lookup_app_l by (rewrite length_take; lia). by rewrite lookup_take_lt by lia.
  - done.
Qed.

Lemma swap_sampling_params v p row src : params_in v p src -> params_in v p (swap_sampling row src).
Proof. intros []. by split. Qed.

Lemma swap_sampling_represents h r spec row src : row_represents h r spec row -> row_represents h r spec (swap_sampling row src).
Proof. intros []. by split. Qed.

(** Exchanging both halves is exchanging the rows, apart from the pooling flag. *)
Lemma swap_row_full r1 r2 : swap_sampling (swap_common r1 r2) r2 = r2 <| row_needs_token_ids := row_needs_token_ids r1 |>.
Proof. by destruct r1, r2. Qed.

(** ** The batch *)

(** The sets of ids, with the parameters they stand for. *)
Definition is_greedy (p : SamplingParams) : bool := match sampling_type p with Ok GREEDY => true | _ => false end.

Definition param_sets (b : InputBatch) : list (gset string * (SamplingParams -> bool)) := [
  (greedy_reqs b, is_greedy);
  (random_reqs b, fun p => negb (is_greedy p));
  (top_p_reqs b, fun p => flt (top_p p) (float_of_Z 1));
  (top_k_reqs b, fun p => (0 <? top_k p) && (top_k p <? ib_vocab_size b));
  (spec_decode_unsupported_reqs b, fun p => is_spec_decode b && is_spec_decode_unsupported p);
  (frequency_penalties_reqs b, fun p => fne (frequency_penalty p) fzero);
  (presence_penalties_reqs b, fun p => fne (presence_penalty p) fzero);
  (repetition_penalties_reqs b, fun p => fne (repetition_penalty p) (float_of_Z 1));
  (has_allowed_token_ids b, fun p => match allowed_token_ids p with Some (_ :: _) => true | _ => false end)].

Abbreviation Requests := (gmap string CachedRequestState).
Abbreviation Views := (list (list (list Z))).

(** The draft tokens in the row, and those in the list [spec_token_ids]: the row's are
    dropped when a step's outputs are recorded, the list's are replaced a step later. *)
Abbreviation Drafts := (list Z * list Z)%type.

(** The ids in the rows. *)
Definition live (b : InputBatch) (id : string) : Prop := exists i : nat, ib_req_ids b !! i = Some (Some id).

Definition set_means (b : InputBatch) (reqs : Requests) (S : gset string) (cond : SamplingParams -> bool) : Prop :=
  forall id, id ∈ S <-> live b id /\ exists r p, reqs !! id = Some r /\ crs_sampling_params r = Some p /\ cond p = true.

(** What does not depend on the requests: the sizes of the arrays. *)
Record shape_ok (b : InputBatch) (v : Views) : Prop := {
  sh_len : 0 <= ib_max_model_len b;
  sh_rows : py_len (rows b) = ib_max_num_reqs b;
  sh_row : Forall (row_size (ib_max_model_len b)) (rows b);
  sh_tables : Forall2 (fun t w => settings_ok t /\ holds t w /\ py_len w = ib_max_num_reqs b) (ib_block_table b) v;
  sh_mask : forall m, allowed_token_ids_mask b = Some m -> py_len m = ib_max_num_reqs b;
  sh_dev_mask : allowed_token_ids_mask b <> None -> dev_allowed_mask (device b) <> None;
  sh_allowed : has_allowed_token_ids b <> ∅ -> allowed_token_ids_mask b <> None;
  sh_lists : length (req_output_token_ids b) = length (ib_req_ids b) /\ length (ib_spec_token_ids b) = length (ib_req_ids b);
  sh_max : py_len (ib_req_ids b) <= ib_max_num_reqs b;
}.

(** Ids and indices: [holes] are the indices of the lists that hold no request. *)
Record index_ok (b : InputBatch) (holes : list nat) : Prop := {
  ix_dict : dict_ok (ib_req_id_to_index b);
  ix_get : forall id i, dget id (ib_req_id_to_index b) = Some i <-> exists p, i = Z.of_nat p /\ ib_req_ids b !! p = Some (Some id);
  ix_holes : forall p, ib_req_ids b !! p = Some None <-> p ∈ holes;
}.

(** The row [i] and the lists and dictionaries at [i] belong to the request [r]. *)
Record cell (h : OutputStore) (b : InputBatch) (v : Views) (i : nat) (r : CachedRequestState) (spec : Drafts) : Prop := {
  ce_request : request_ok r;
  ce_fit : tokens_fit h (ib_max_model_len b) r spec.1;
  ce_out : req_output_token_ids b !! i = Some (Some (crs_output r));
  ce_spec : ib_spec_token_ids b !! i = Some (Some spec.2);
  ce_row : exists row, rows b !! i = Some row /\ row_represents h r spec.1 row /\
    (forall p, crs_sampling_params r = Some p -> params_in (ib_vocab_size b) p row);
  ce_blocks : (fun w => w !! i) <$> v = Some <$> crs_block_ids r;
  ce_embeds : forall e, crs_prompt_embeds r = Some e -> req_prompt_embeds b !! Z.of_nat i = Some e;
  ce_generator : generators b !! Z.of_nat i = crs_generator r;
  ce_bad : ib_bad_words_token_ids b !! Z.of_nat i
    = match crs_sampling_params r ≫= bad_words_token_ids with Some ((_ :: _) as words) => Some words | _ => None end;
}.

(** Entries of the dictionaries by index belong to live rows. *)
Definition no_stray (b : InputBatch) : Prop :=
  forall i, (is_Some (generators b !! i) \/ is_Some (ib_bad_words_token_ids b !! i)) ->
    exists p id, i = Z.of_nat p /\ ib_req_ids b !! p = Some (Some id).

(** Adapters in use are known. *)
Definition lora_ok (b : InputBatch) : Prop :=
  forall p id row, ib_req_ids b !! p = Some (Some id) -> rows b !! p = Some row -> row_lora row <> 0 ->
    (exists s, lora_id_to_request_ids b !! row_lora row = Some s /\ id ∈ s) /\ is_Some (lora_id_to_lora_request b !! row_lora row).

Record batch_ok (h : OutputStore) (reqs : Requests) (specs : string -> Drafts) (b : InputBatch) (v : Views) : Prop := {
  bo_shape : shape_ok b v;
  bo_cells : forall i id, ib_req_ids b !! i = Some (Some id) ->
    exists r, reqs !! id = Some r /\ crs_req_id r = id /\ is_Some (crs_sampling_params r) /\ cell h b v i r (specs id);
  bo_sets : Forall (fun sc => set_means b reqs sc.1 sc.2) (param_sets b);
  bo_stray : no_stray b;
  bo_lora : lora_ok b;
  bo_sampling : is_pooling_model b = false;
}.
