(* ===== verification/InputBatchOps.v ===== *)
(** * Operations on the persistent batch

    Removing and adding requests and exchanging rows keep [batch_ok]: each
    touches one or two rows and the entries of their ids. *)

From S2P Require Import Prelude PyDict PyList PyFloat Request Numpy BlockTable Sampling BatchUpdate InputBatch InputBatchInv.
From stdpp Require Import sorting.
#[local] Open Scope Z_scope.

(** ** The builder's list of removed rows *)

Definition descending : list Z -> Prop := StronglySorted (fun x y => y <= x).

Definition builder_ok (bd : BatchUpdateBuilder) (holes : list nat) : Prop :=
  removed_list bd ≡ₚ Z.of_nat <$> holes /\ NoDup holes /\ (is_removed_sorted bd = true -> descending (removed_list bd)).

Lemma sort_descending_ok l : sort_descending l ≡ₚ l /\ descending (sort_descending l).
Proof.
  unfold sort_descending. split; [apply stable_sort_Permutation|].
  pose proof (stable_sort_sorted (fun a b => b <? a) id (fun _ => True) l) as Hs.
  assert (Hs' : sorted_by (fun a b => b <? a) id (stable_sort (fun a b => b <? a) id l)) by (apply Hs, Forall_true; done).
  clear Hs. induction Hs' as [|x k Hk IH Hall]; constructor; [done|]. eapply Forall_impl; [exact Hall|]. cbn. intros y Hy. by apply Z.ltb_ge.
Qed.

Lemma ensure_sorted_ok bd holes : builder_ok bd holes ->
  builder_ok (ensure_removed_sorted bd) holes /\ is_removed_sorted (ensure_removed_sorted bd) = true /\
  added (ensure_removed_sorted bd) = added bd /\ moved (ensure_removed_sorted bd) = moved bd.
Proof.
  intros (Hp & Hnd & Hs). unfold ensure_removed_sorted. destruct (is_removed_sorted bd) eqn:Hf; [by repeat split; auto|].
  destruct (sort_descending_ok (removed_list bd)) as [Hperm Hdesc]. split; [|by split_and!].
  split; [exact (Permutation_trans Hperm Hp)|]. split; [done|]. intros _. exact Hdesc.
Qed.

Lemma descending_last l : descending l -> l <> [] -> exists x, last l = Some x /\ l = removelast l ++ [x] /\ (forall y, y ∈ l -> x <= y) /\
  descending (removelast l).
Proof.
  intros Hd Hne. destruct (last l) as [x|] eqn:Hl; [|by apply last_None in Hl]. apply last_Some in Hl as [k ->].
  exists x. rewrite removelast_last. unfold descending in *. apply StronglySorted_app in Hd as (Hle & Hk & _). split_and!; [done | done | | done].
  intros y Hy. apply elem_of_app in Hy as [Hy|Hy]; [apply Hle; [done | by left] | apply list_elem_of_singleton in Hy as ->; done].
Qed.

Lemma has_removed_true bd holes : builder_ok bd holes -> holes <> [] -> has_removed bd = true.
Proof.
  intros (Hp & _) Hne. unfold has_removed. apply negb_true_iff, bool_decide_eq_false. intros Hr. rewrite Hr in Hp.
  symmetry in Hp. apply Permutation_nil_r in Hp. by apply fmap_nil_inv in Hp.
Qed.

Lemma builder_ok_empty bd : builder_ok bd [] -> removed_list bd = [].
Proof. intros (Hp & _). cbn in Hp. by apply Permutation_nil_r in Hp. Qed.

(** The smallest hole is at hand. *)
Lemma lowest_hole bd holes : builder_ok bd holes -> holes <> [] ->
  exists p rest, let bd' := ensure_removed_sorted bd in
    last (removed_list bd') = Some (Z.of_nat p) /\ holes ≡ₚ p :: rest /\ (forall q, q ∈ rest -> (p < q)%nat) /\
    builder_ok bd' holes /\
    builder_ok (bd' <| removed_list := removelast (removed_list bd') |>) rest.
Proof.
  intros Hb Hne. destruct (ensure_sorted_ok bd holes Hb) as (Hb' & Hf & _). set (bd' := ensure_removed_sorted bd) in *.
  destruct (Hb') as (Hp & Hnd & Hs). specialize (Hs Hf).
  assert (Hne' : removed_list bd' <> []).
  { intros He. rewrite He in Hp. symmetry in Hp. apply Permutation_nil_r in Hp. by apply fmap_nil_inv in Hp. }
  destruct (descending_last _ Hs Hne') as (x & Hlast & Hsplit & Hmin & Hdesc).
  assert (Hx : x ∈ Z.of_nat <$> holes). { rewrite <- Hp, Hsplit. apply elem_of_app. right. by left. }
  apply list_elem_of_fmap in Hx as (p & -> & Hpin). apply elem_of_Permutation in Hpin as [rest Hrest]. exists p, rest. cbn zeta.
  assert (Hrem : removelast (removed_list bd') ≡ₚ Z.of_nat <$> rest).
  { apply (Permutation_cons_inv (a := Z.of_nat p)). rewrite Permutation_cons_append, <- Hsplit, Hp, Hrest. done. }
  rewrite Hrest in Hnd. apply NoDup_cons in Hnd as [Hpn Hnd]. split_and!; [done | done | | done | split_and!; done].
  intros q Hq. assert (Z.of_nat p <= Z.of_nat q).
  { apply Hmin. rewrite Hp, Hrest. apply list_elem_of_fmap_2. by right. }
  assert (p <> q) by (intros ->; done). lia.
Qed.

Lemma pop_removed_hole bd holes : builder_ok bd holes -> holes <> [] ->
  exists p rest bd', pop_removed bd = (Some (Z.of_nat p), bd') /\ holes ≡ₚ p :: rest /\ (forall q, q ∈ rest -> (p < q)%nat) /\
    builder_ok bd' rest /\ added bd' = added bd /\ moved bd' = moved bd.
Proof.
  intros Hb Hne. destruct (lowest_hole bd holes Hb Hne) as (p & rest & Hlast & Hrest & Hmin & _ & Hb').
  destruct (ensure_sorted_ok bd holes Hb) as (_ & _ & Ha & Hm).
  exists p, rest. eexists. unfold pop_removed. rewrite (has_removed_true bd holes) by done. rewrite Hlast. split_and!; done.
Qed.

Lemma pop_removed_none bd : builder_ok bd [] -> pop_removed bd = (None, bd).
Proof. intros Hb. unfold pop_removed, has_removed. by rewrite (builder_ok_empty bd Hb). Qed.

(** ** Frames *)

Definition same_settings (b b' : InputBatch) : Prop :=
  is_pooling_model b' = is_pooling_model b /\ is_spec_decode b' = is_spec_decode b /\
  ib_max_num_reqs b' = ib_max_num_reqs b /\ ib_max_model_len b' = ib_max_model_len b /\ ib_vocab_size b' = ib_vocab_size b /\
  logitsprocs_need_output_token_ids b' = logitsprocs_need_output_token_ids b.

Lemma same_settings_refl b : same_settings b b.
Proof. by split_and!. Qed.

Lemma same_settings_trans b1 b2 b3 : same_settings b1 b2 -> same_settings b2 b3 -> same_settings b1 b3.
Proof. unfold same_settings. intuition congruence. Qed.

(** The row [i] is the same in both. *)
Record same_at (i : nat) (b : InputBatch) (v : Views) (b' : InputBatch) (v' : Views) : Prop := {
  sa_id : ib_req_ids b' !! i = ib_req_ids b !! i;
  sa_out : req_output_token_ids b' !! i = req_output_token_ids b !! i;
  sa_spec : ib_spec_token_ids b' !! i = ib_spec_token_ids b !! i;
  sa_row : rows b' !! i = rows b !! i;
  sa_view : (fun w => w !! i) <$> v' = (fun w => w !! i) <$> v;
  sa_embeds : req_prompt_embeds b' !! Z.of_nat i = req_prompt_embeds b !! Z.of_nat i;
  sa_generator : generators b' !! Z.of_nat i = generators b !! Z.of_nat i;
  sa_bad : ib_bad_words_token_ids b' !! Z.of_nat i = ib_bad_words_token_ids b !! Z.of_nat i;
}.

Lemma same_at_refl i b v : same_at i b v b v.
Proof. by split. Qed.

Lemma same_at_trans i b1 v1 b2 v2 b3 v3 : same_at i b1 v1 b2 v2 -> same_at i b2 v2 b3 v3 -> same_at i b1 v1 b3 v3.
Proof. intros [] []. split; congruence. Qed.

Lemma cell_same_at h b v b' v' i r spec : same_settings b b' -> same_at i b v b' v' -> cell h b v i r spec -> cell h b' v' i r spec.
Proof.
  intros (_ & _ & _ & Hl & Hv & _) [] []. split; rewrite ?Hl, ?Hv; congruence || done || (rewrite ?sa_row0; eauto) || idtac.
  intros e He. rewrite sa_embeds0. auto.
Qed.

(** ** Ids and rows *)

Lemma live_get b holes id : index_ok b holes -> live b id <-> is_Some (dget id (ib_req_id_to_index b)).
Proof.
  intros Hi. split.
  - intros [p Hp]. exists (Z.of_nat p). apply (ix_get b holes Hi). eauto.
  - intros [i Hg]. apply (ix_get b holes Hi) in Hg as (p & -> & Hp). by exists p.
Qed.

(** An id sits in one row. *)
Lemma live_unique b holes p q id : index_ok b holes ->
  ib_req_ids b !! p = Some (Some id) -> ib_req_ids b !! q = Some (Some id) -> p = q.
Proof.
  intros Hi Hp Hq. assert (H1 : dget id (ib_req_id_to_index b) = Some (Z.of_nat p)) by (apply (ix_get b holes Hi); eauto).
  assert (H2 : dget id (ib_req_id_to_index b) = Some (Z.of_nat q)) by (apply (ix_get b holes Hi); eauto).
  rewrite H1 in H2. injection H2. lia.
Qed.

(** The number of requests is the number of filled places. *)
Lemma index_size b holes : index_ok b holes -> length (ib_req_id_to_index b) = length (omap id (ib_req_ids b)).
Proof.
  intros Hi. unfold dkeys. rewrite <- (length_fmap fst). apply Permutation_length, NoDup_Permutation.
  - apply Hi.
  - assert (Hu : forall p q id, ib_req_ids b !! p = Some (Some id) -> ib_req_ids b !! q = Some (Some id) -> p = q)
      by (intros; eapply live_unique; eauto).
    clear Hi. induction (ib_req_ids b) as [|o l IH]; [constructor|]. cbn.
    assert (IH' : NoDup (omap id l)). { apply IH. intros p q x Hp Hq. specialize (Hu (S p) (S q) x Hp Hq). lia. }
    destruct o as [x|]; [|exact IH']. cbn. apply NoDup_cons. split; [|exact IH']. intros Hx.
    apply list_elem_of_omap in Hx as (o' & Ho & Heq). cbn in Heq. subst o'. apply list_elem_of_lookup in Ho as [q Hq].
    specialize (Hu 0%nat (S q) x eq_refl Hq). lia.
  - intros x. change ((ib_req_id_to_index b).*1) with (dkeys (ib_req_id_to_index b)). rewrite <- dget_is_Some, <- (live_get b holes) by done.
    rewrite list_elem_of_omap. unfold live. split.
    + intros [p Hp]. exists (Some x). split; [by eapply list_elem_of_lookup_2 | done].
    + intros (o & Ho & Heq). cbn in Heq. subst o. by apply list_elem_of_lookup in Ho.
Qed.

Lemma no_holes_full b : index_ok b [] -> ib_num_reqs b = py_len (ib_req_ids b).
Proof.
  intros Hi. unfold ib_num_reqs, py_len. rewrite (index_size b [] Hi). f_equal.
  assert (Hn : forall p, ib_req_ids b !! p <> Some None). { intros p Hp. apply (ix_holes b [] Hi) in Hp. by apply elem_of_nil in Hp. }
  clear Hi. induction (ib_req_ids b) as [|o l IH]; [done|]. destruct o as [x|]; [|by destruct (Hn 0%nat)]. cbn. f_equal. apply IH.
  intros p. exact (Hn (S p)).
Qed.

(** ** Updates of one row *)

Lemma update_row_ok b i f row row' : rows b !! i = Some row -> f row = Ok row' ->
  update_row (Z.of_nat i) f b = Ok (b <| rows := <[i := row']> (rows b) |>).
Proof.
  intros Hr Hf. unfold update_row. rewrite (py_index_nat _ _ _ Hr). cbn [mbind result_bind]. rewrite Hf. cbn [mbind result_bind].
  by rewrite py_setitem_nat by (by eapply lookup_lt_Some).
Qed.

Lemma shape_row b v i : shape_ok b v -> (Z.of_nat i < ib_max_num_reqs b) -> exists row, rows b !! i = Some row /\ row_size (ib_max_model_len b) row.
Proof.
  intros Hs Hi. destruct (lookup_lt_is_Some_2 (rows b) i) as [row Hr].
  { pose proof (sh_rows b v Hs). unfold py_len in *. lia. }
  exists row. split; [done|]. pose proof (sh_row b v Hs) as Hall. by eapply Forall_lookup_1 in Hall.
Qed.

(** ** Removing a request *)

Lemma same_at_insert_row b v i row' j : j <> i -> same_at j b v (b <| rows := <[i := row']> (rows b) |>) v.
Proof. intros Hj. split; try done. cbn. by rewrite list_lookup_insert_ne by done. Qed.

Lemma insert_row_shape b v i row' : shape_ok b v -> row_size (ib_max_model_len b) row' ->
  shape_ok (b <| rows := <[i := row']> (rows b) |>) v.
Proof.
  intros [] Hrow. split; try done; cbn; [unfold py_len in *; by rewrite length_insert|]. by apply Forall_insert.
Qed.

(** The adapter's entries, and the row's. *)
Lemma remove_lora_ok b p id row : rows b !! p = Some row ->
  (row_lora row <> 0 -> (exists s, lora_id_to_request_ids b !! row_lora row = Some s /\ id ∈ s) /\ is_Some (lora_id_to_lora_request b !! row_lora row)) ->
  exists ids reqs, remove_lora (Z.of_nat p) id b
    = Ok (b <| lora_id_to_request_ids := ids |> <| lora_id_to_lora_request := reqs |>
            <| rows := <[p := row <| row_lora := 0 |>]> (rows b) |>) /\
    (forall l s x, x <> id -> x ∈ s -> lora_id_to_request_ids b !! l = Some s -> exists s', ids !! l = Some s' /\ x ∈ s') /\
    (forall l s x, x <> id -> x ∈ s -> lora_id_to_request_ids b !! l = Some s -> reqs !! l = lora_id_to_lora_request b !! l).
Proof.
  intros Hrow Hl. unfold remove_lora. rewrite (py_index_nat _ _ _ Hrow). cbn [mbind result_bind].
  destruct (Z.eqb_spec (row_lora row) 0) as [Hz|Hz].
  { exists (lora_id_to_request_ids b), (lora_id_to_lora_request b). split; [|split; eauto].
    rewrite list_insert_id; [by destruct b|]. rewrite Hrow. f_equal. destruct row; cbn in *. by subst. }
  destruct (Hl Hz) as [(s & Hs & Hin) [r Hr]]. rewrite Hs. cbn [or_raise mbind result_bind].
  destruct (decide (s ∖ {[id]} = ∅)) as [He|He].
  - rewrite bool_decide_eq_true_2 by done. rewrite Hr. cbn [or_raise mbind result_bind].
    erewrite update_row_ok; [| exact Hrow | reflexivity]. do 2 eexists. split; [reflexivity|].
    assert (Hother : forall l s' x, x <> id -> x ∈ s' -> lora_id_to_request_ids b !! l = Some s' -> l <> row_lora row).
    { intros l s' x Hx Hxs Hl' ->. rewrite Hs in Hl'. injection Hl' as <-. set_solver. }
    split; intros l s' x Hx Hxs Hl'; pose proof (Hother _ _ _ Hx Hxs Hl'); rewrite lookup_delete_ne by done; eauto.
  - rewrite bool_decide_eq_false_2 by done. cbn [mbind result_bind].
    erewrite update_row_ok; [| exact Hrow | reflexivity]. exists (<[row_lora row := s ∖ {[id]}]> (lora_id_to_request_ids b)), (lora_id_to_lora_request b).
    split; [by destruct b|]. split; [|eauto]. intros l s' x Hx Hxs Hl'. destruct (decide (l = row_lora row)) as [->|Hne].
    + rewrite lookup_insert_eq. rewrite Hs in Hl'. injection Hl' as <-. eexists. split; [done|]. set_solver.
    + rewrite lookup_insert_ne by done. eauto.
Qed.

Lemma mask_clear (mask : option (list (list bool))) p n : (forall m, mask = Some m -> py_len m = n) -> Z.of_nat p < n ->
  exists mask', (match mask with
          | None => Ok None
          | Some m => row ← py_index m (Z.of_nat p); m ← py_setitem (Z.of_nat p) (replicate (length row) false) m; Ok (Some m)
          end) = Ok mask' /\ (forall m, mask' = Some m -> py_len m = n) /\ (mask' = None <-> mask = None).
Proof.
  intros Hm Hp. destruct mask as [m|]; [|by exists None]. specialize (Hm m eq_refl). unfold py_len in *.
  destruct (lookup_lt_is_Some_2 m p) as [row Hr]; [lia|]. rewrite (py_index_nat _ _ _ Hr). cbn [mbind result_bind].
  rewrite py_setitem_nat by (by eapply lookup_lt_Some). cbn [mbind result_bind]. eexists. split; [reflexivity|]. split; [|done].
  intros m' [= <-]. by rewrite length_insert.
Qed.

(** The sets lose the id. *)
Definition drop_id (id : string) (sc : gset string * (SamplingParams -> bool)) : gset string * (SamplingParams -> bool) := (sc.1 ∖ {[id]}, sc.2).

Lemma set_means_drop b b' reqs id sc : (forall x, live b' x <-> live b x /\ x <> id) ->
  set_means b reqs sc.1 sc.2 -> set_means b' reqs (drop_id id sc).1 (drop_id id sc).2.
Proof.
  intros Hlive Hs x. cbn. rewrite elem_of_difference, elem_of_singleton, (Hs x), Hlive. tauto.
Qed.

Lemma live_insert_None b b' holes p id : index_ok b holes -> ib_req_ids b !! p = Some (Some id) ->
  ib_req_ids b' = <[p := None]> (ib_req_ids b) -> forall x, live b' x <-> live b x /\ x <> id.
Proof.
  intros Hi Hp He x. unfold live. rewrite He. pose proof (lookup_lt_Some _ _ _ Hp). split.
  - intros [q Hq]. destruct (decide (q = p)) as [->|Hne]; [by rewrite list_lookup_insert_eq in Hq by done|].
    rewrite list_lookup_insert_ne in Hq by done. split; [by exists q|]. intros ->. apply Hne. by eapply live_unique.
  - intros [[q Hq] Hx]. exists q. rewrite list_lookup_insert_ne; [done|]. intros ->. congruence.
Qed.

Lemma index_ok_remove b b' holes p id : index_ok b holes -> ib_req_ids b !! p = Some (Some id) ->
  ib_req_ids b' = <[p := None]> (ib_req_ids b) -> ib_req_id_to_index b' = ddel id (ib_req_id_to_index b) -> index_ok b' (p :: holes).
Proof.
  intros Hi Hp He Hd. pose proof (lookup_lt_Some _ _ _ Hp) as Hlt. pose proof Hi as [Hdict Hget Hholes]. split.
  - rewrite Hd. by apply dict_ok_ddel.
  - intros x i. rewrite Hd, He. destruct (decide (x = id)) as [->|Hx].
    + rewrite dget_ddel_eq by done. split; [done|]. intros (q & -> & Hq). destruct (decide (q = p)) as [->|Hne].
      * by rewrite list_lookup_insert_eq in Hq by done.
      * rewrite list_lookup_insert_ne in Hq by done. exfalso. apply Hne. by eapply live_unique.
    + rewrite dget_ddel_ne by done. rewrite Hget. split; intros (q & -> & Hq); exists q; (split; [done|]).
      * rewrite list_lookup_insert_ne; [done|]. intros ->. congruence.
      * rewrite list_lookup_insert_ne in Hq; [done|]. intros ->. by rewrite list_lookup_insert_eq in Hq by done.
  - intros q. rewrite He, elem_of_cons. destruct (decide (q = p)) as [->|Hne].
    + rewrite list_lookup_insert_eq by done. tauto.
    + rewrite list_lookup_insert_ne by done. rewrite Hholes. tauto.
Qed.

Lemma removed_append_ok bd holes p : builder_ok bd holes -> is_removed_sorted bd = false -> p ∉ holes ->
  exists bd', removed_append (Z.of_nat p) bd = Ok bd' /\ builder_ok bd' (p :: holes) /\ is_removed_sorted bd' = false /\
    added bd' = added bd /\ moved bd' = moved bd /\ removed_list bd' = removed_list bd ++ [Z.of_nat p].
Proof.
  intros (Hp & Hnd & Hs) Hf Hn. unfold removed_append. rewrite Hf. eexists. split; [reflexivity|].
  split; [|by split_and!]. split; [|split; [by constructor | intros Ht; change (is_removed_sorted bd = true) in Ht; congruence]].
  cbn. rewrite <- Permutation_cons_append. by rewrite Hp.
Qed.

Lemma remove_request_ok h reqs specs b v holes id p :
  batch_ok h reqs specs b v -> index_ok b holes -> builder_ok (batch_update_builder b) holes ->
  is_removed_sorted (batch_update_builder b) = false -> ib_req_ids b !! p = Some (Some id) ->
  exists b', remove_request id b = Ok (Some (Z.of_nat p), b') /\ batch_ok h reqs specs b' v /\ index_ok b' (p :: holes) /\
    builder_ok (batch_update_builder b') (p :: holes) /\ is_removed_sorted (batch_update_builder b') = false /\
    added (batch_update_builder b') = added (batch_update_builder b) /\ moved (batch_update_builder b') = moved (batch_update_builder b) /\
    same_settings b b' /\ ib_req_ids b' = <[p := None]> (ib_req_ids b) /\ logitsprocs b' = logitsprocs b /\
    ib_block_table b' = ib_block_table b.
Proof.
  intros Hok Hi Hbd Hf Hp. pose proof Hok as [Hsh Hcells Hsets Hstray Hlora Hpool].
  destruct (Hcells p id Hp) as (r & Hr & Hid & Hsp & Hcell). destruct (ce_row _ _ _ _ _ _ Hcell) as (row & Hrow & Hrep & Hpar).
  pose proof (lookup_lt_Some _ _ _ Hp) as Hlt. destruct (sh_lists b v Hsh) as [Hl1 Hl2].
  assert (Hpn : p ∉ holes). { intros Hin. apply (ix_holes b holes Hi) in Hin. congruence. }
  destruct (removed_append_ok _ holes p Hbd Hf Hpn) as (bd' & Happ & Hbd' & Hf' & Ha & Hm & _).
  unfold remove_request. assert (Hg : dget id (ib_req_id_to_index b) = Some (Z.of_nat p)) by (apply (ix_get b holes Hi); eauto).
  rewrite Hg, Happ. cbn [mbind result_bind]. rewrite !py_setitem_nat by lia. cbn [mbind result_bind].
  set (b1 := b <| ib_req_id_to_index := _ |> <| batch_update_builder := _ |> <| ib_req_ids := _ |> <| req_output_token_ids := _ |> <| ib_spec_token_ids := _ |>).
  destruct (remove_lora_ok b1 p id row Hrow) as (lids & lreqs & Hrl & Hkeep1 & Hkeep2); [exact (Hlora p id row Hp Hrow)|].
  rewrite Hrl. cbn [mbind result_bind]. set (b2 := b1 <| lora_id_to_request_ids := _ |> <| lora_id_to_lora_request := _ |> <| rows := _ |>).
  change (is_pooling_model b2) with (is_pooling_model b). rewrite Hpool. unfold remove_sampling.
  assert (Hpmax : Z.of_nat p < ib_max_num_reqs b) by (pose proof (sh_max b v Hsh); unfold py_len in *; lia).
  destruct (mask_clear (allowed_token_ids_mask b) p (ib_max_num_reqs b) (sh_mask b v Hsh) Hpmax) as (mask' & Hmask & Hmlen & Hmnone).
  change (allowed_token_ids_mask b2) with (allowed_token_ids_mask b). rewrite Hmask. cbn [mbind result_bind].
  eexists. split; [reflexivity|].
  match goal with |- batch_ok _ _ _ ?x _ /\ _ => set (b' := x) end.
  assert (Hids : ib_req_ids b' = <[p := None]> (ib_req_ids b)) by reflexivity.
  assert (Hrows : rows b' = <[p := row <| row_lora := 0 |>]> (rows b)) by reflexivity.
  assert (Hset : same_settings b b') by by split_and!.
  assert (Hlive := live_insert_None b b' holes p id Hi Hp Hids).
  assert (Hsame : forall i, i <> p -> same_at i b v b' v).
  { intros i Hne. split; try done; [rewrite Hids | | | rewrite Hrows | |];
      [by rewrite list_lookup_insert_ne | exact (list_lookup_insert_ne _ _ _ _ (not_eq_sym Hne)) | exact (list_lookup_insert_ne _ _ _ _ (not_eq_sym Hne)) |
       by rewrite list_lookup_insert_ne | |]; refine (lookup_delete_ne _ _ _ _); lia. }
  split; [|split; [by eapply index_ok_remove|]; by split_and!].
  split; [| | | | |exact Hpool].
  - pose proof (Forall_lookup_1 _ _ _ _ (sh_row b v Hsh) Hrow) as Hsize.
    split; [exact (sh_len b v Hsh) | | | exact (sh_tables b v Hsh) | exact Hmlen | | | |].
    + rewrite Hrows. unfold py_len. rewrite length_insert. exact (sh_rows b v Hsh).
    + rewrite Hrows. apply Forall_insert; [exact (sh_row b v Hsh) | exact Hsize].
    + intros Hne. apply (sh_dev_mask b v Hsh). intros Hnone. apply Hne. by apply Hmnone.
    + intros Hne Hnone. apply Hmnone in Hnone. revert Hnone. apply (sh_allowed b v Hsh). intros He. apply Hne.
      change (has_allowed_token_ids b ∖ {[id]} = ∅). rewrite He. set_solver.
    + rewrite Hids, length_insert. split; [exact (eq_trans (length_insert _ _ _) Hl1) | exact (eq_trans (length_insert _ _ _) Hl2)].
    + rewrite Hids. unfold py_len. rewrite length_insert. exact (sh_max b v Hsh).
  - intros i x Hx. destruct (decide (i = p)) as [->|Hne]; [rewrite Hids, list_lookup_insert_eq in Hx by done; done|].
    rewrite Hids, list_lookup_insert_ne in Hx by done. destruct (Hcells i x Hx) as (r' & ? & ? & ? & ?). exists r'. split_and!; try done.
    eapply cell_same_at; eauto.
  - assert (Hps : param_sets b' = drop_id id <$> param_sets b) by reflexivity. rewrite Hps. apply Forall_fmap.
    eapply Forall_impl; [exact Hsets|]. intros sc Hsc. by apply (set_means_drop b b' reqs id sc).
  - intros i Hin.
    assert (Hold : i <> Z.of_nat p /\ (is_Some (generators b !! i) \/ is_Some (ib_bad_words_token_ids b !! i))).
    { destruct Hin as [[x Hx]|[x Hx]]; change (delete (Z.of_nat p) (generators b) !! i = Some x) in Hx
        || change (delete (Z.of_nat p) (ib_bad_words_token_ids b) !! i = Some x) in Hx; apply lookup_delete_Some in Hx as [? Hx]; eauto. }
    destruct Hold as [Hne Hold]. destruct (Hstray i Hold) as (q & x & -> & Hq). exists q, x. split; [done|].
    rewrite Hids, list_lookup_insert_ne; [done|]. intros ->. done.
  - intros q x row' Hq Hr' Hl. destruct (decide (q = p)) as [->|Hne]; [rewrite Hids, list_lookup_insert_eq in Hq by done; done|].
    rewrite Hids, list_lookup_insert_ne in Hq by done. rewrite Hrows, list_lookup_insert_ne in Hr' by done.
    destruct (Hlora q x row' Hq Hr' Hl) as [(s & Hs & Hin) Hreq].
    assert (Hx : x <> id) by (intros ->; apply Hne; by eapply live_unique). split; [by apply (Hkeep1 _ s)|].
    change (is_Some (lreqs !! row_lora row')). by rewrite (Hkeep2 _ s x).
Qed.

(** ** Block tables of all groups *)

Definition group_ok (n : Z) (t : BlockTable) (w : list (list Z)) : Prop := settings_ok t /\ holds t w /\ py_len w = n.

Lemma tables_mapM n (op : BlockTable -> result BlockTable) (f : list (list Z) -> list (list Z)) ts v :
  (forall t w, group_ok n t w -> exists t', op t = Ok t' /\ same_layout t t' /\ holds t' (f w) /\ py_len (f w) = n) ->
  Forall2 (group_ok n) ts v -> exists ts', mapM op ts = Ok ts' /\ Forall2 (group_ok n) ts' (f <$> v) /\ Forall2 same_layout ts ts'.
Proof.
  intros Hop. induction 1 as [|t w ts v Ht _ IH]; [by exists []|]. destruct (Hop t w Ht) as (t' & Ho & Hl & Hh & Hn).
  destruct IH as (ts' & Hts & Hv & Hls). exists (t' :: ts'). split; [by apply mapM_cons_ok|]. split; [|by constructor]. constructor; [|done].
  split; [by eapply settings_ok_layout; [|apply Ht]|done].
Qed.

(** The tables keep their widths and kinds. *)
Definition same_layouts (b b' : InputBatch) : Prop := Forall2 same_layout (ib_block_table b) (ib_block_table b').

Lemma same_layouts_refl b : same_layouts b b.
Proof. unfold same_layouts. induction (ib_block_table b); constructor; auto using same_layout_refl. Qed.

Lemma same_layouts_trans b1 b2 b3 : same_layouts b1 b2 -> same_layouts b2 b3 -> same_layouts b1 b3.
Proof. unfold same_layouts. intros H12. generalize (ib_block_table b3). induction H12; intros ts H23; inversion H23; subst; constructor; eauto using same_layout_trans. Qed.

Lemma fits_layouts b b' blocks : same_layouts b b' -> Forall2 fits (ib_block_table b) blocks -> Forall2 fits (ib_block_table b') blocks.
Proof.
  unfold same_layouts. intros Hl Hf. revert blocks Hf. induction Hl as [|t t' ts ts' (_ & Hp & _ & Hm & _) _ IH]; intros blocks Hf; inversion Hf; subst; constructor; [|auto].
  unfold fits in *. by rewrite Hp, Hm.
Qed.

(** ** Exchanging rows *)

Definition swap_list {A} (i j : nat) (l : list A) : list A :=
  match l !! i, l !! j with Some x, Some y => <[j := x]> (<[i := y]> l) | _, _ => l end.

Lemma swap_list_lookup {A} (l : list A) i j x y k : l !! i = Some x -> l !! j = Some y ->
  swap_list i j l !! k = if decide (k = j) then Some x else if decide (k = i) then Some y else l !! k.
Proof.
  intros Hi Hj. unfold swap_list. rewrite Hi, Hj. pose proof (lookup_lt_Some _ _ _ Hi). pose proof (lookup_lt_Some _ _ _ Hj).
  repeat case_decide; subst.
  - by rewrite list_lookup_insert_eq by (rewrite length_insert; done).
  - rewrite list_lookup_insert_ne by done. by rewrite list_lookup_insert_eq.
  - by rewrite !list_lookup_insert_ne by done.
Qed.

Lemma length_swap_list {A} i j (l : list A) : length (swap_list i j l) = length l.
Proof. unfold swap_list. repeat case_match; by rewrite ?length_insert. Qed.

Lemma swap_tables n i j ts v : Forall2 (group_ok n) ts v -> Z.of_nat i < n -> Z.of_nat j < n ->
  exists ts', swap_row (Z.of_nat i) (Z.of_nat j) ts = Ok ts' /\ Forall2 (group_ok n) ts' (swap_list i j <$> v) /\ Forall2 same_layout ts ts'.
Proof.
  intros Hts Hi Hj. eapply tables_mapM; [|exact Hts]. intros t w (Hs & Hh & Hn). unfold py_len in *.
  destruct (lookup_lt_is_Some_2 w i) as [x Hx]; [lia|]. destruct (lookup_lt_is_Some_2 w j) as [y Hy]; [lia|].
  destruct (swap_row_holds t w Hh i j x y Hx Hy) as (t' & Ho & Hl & Hh'). exists t'. split_and!; [done | done | |].
  - unfold swap_list. by rewrite Hx, Hy.
  - by rewrite length_swap_list.
Qed.

Lemma swap_rows_ok f b i j r1 r2 : i <> j -> rows b !! i = Some r1 -> rows b !! j = Some r2 ->
  swap_rows f (Z.of_nat i) (Z.of_nat j) b = Ok (b <| rows := <[j := f r2 r1]> (<[i := f r1 r2]> (rows b)) |>).
Proof.
  intros Hij H1 H2. unfold swap_rows. rewrite (py_index_nat _ _ _ H1), (py_index_nat _ _ _ H2). cbn [mbind result_bind].
  pose proof (lookup_lt_Some _ _ _ H1). pose proof (lookup_lt_Some _ _ _ H2).
  rewrite py_setitem_nat by done. cbn [mbind result_bind]. by rewrite py_setitem_nat by (rewrite length_insert; done).
Qed.

Lemma swap_mask (mask : option (list (list bool))) i j n : (forall m, mask = Some m -> py_len m = n) -> Z.of_nat i < n -> Z.of_nat j < n ->
  exists mask', (match mask with None => Ok None | Some m => m ← swap_tensor_rows (Z.of_nat i) (Z.of_nat j) m; Ok (Some m) end) = Ok mask' /\
    (forall m, mask' = Some m -> py_len m = n) /\ (mask' = None <-> mask = None).
Proof.
  intros Hm Hi Hj. destruct mask as [m|]; [|by exists None]. specialize (Hm m eq_refl). unfold py_len in *. unfold swap_tensor_rows.
  destruct (lookup_lt_is_Some_2 m i) as [x Hx]; [lia|]. destruct (lookup_lt_is_Some_2 m j) as [y Hy]; [lia|].
  rewrite (py_index_nat _ _ _ Hx), (py_index_nat _ _ _ Hy). cbn [mbind result_bind].
  rewrite py_setitem_nat by lia. cbn [mbind result_bind].
  rewrite (py_index_nat _ i y) by (rewrite list_lookup_insert_eq by lia; done). cbn [mbind result_bind].
  rewrite py_setitem_nat by (rewrite length_insert; lia). cbn [mbind result_bind]. eexists. split; [reflexivity|]. split; [|done].
  intros m' [= <-]. by rewrite !length_insert.
Qed.

Lemma swap_dict_lookup {V} (d : gmap Z V) (i j : nat) k : i <> j ->
  swap_dict_values (Z.of_nat i) (Z.of_nat j) d !! Z.of_nat k
  = if decide (k = j) then d !! Z.of_nat i else if decide (k = i) then d !! Z.of_nat j else d !! Z.of_nat k.
Proof.
  intros Hij. unfold swap_dict_values.
  destruct (d !! Z.of_nat i) as [x|] eqn:Hi, (d !! Z.of_nat j) as [y|] eqn:Hj; repeat case_decide; subst;
    repeat ((rewrite lookup_insert_ne by lia) || (rewrite lookup_delete_ne by lia)); rewrite ?lookup_insert_eq, ?lookup_delete_eq; congruence.
Qed.

(** Where the rows [i] and [j] were. *)
Definition swapped (i j k : nat) : nat := if decide (k = j) then i else if decide (k = i) then j else k.

Lemma swapped_lookup {A} (l : list A) i j k : (i < length l)%nat -> (j < length l)%nat -> swap_list i j l !! k = l !! swapped i j k.
Proof.
  intros Hi Hj. destruct (lookup_lt_is_Some_2 l i Hi) as [x Hx]. destruct (lookup_lt_is_Some_2 l j Hj) as [y Hy].
  rewrite (swap_list_lookup l i j x y) by done. unfold swapped. by repeat case_decide.
Qed.

Lemma swapped_invol i j k : swapped i j (swapped i j k) = k.
Proof. unfold swapped. repeat case_decide; congruence. Qed.

(** What [cell] says moves with the rows. *)
Record moved_at (i k : nat) (b : InputBatch) (v : Views) (b' : InputBatch) (v' : Views) : Prop := {
  ma_out : req_output_token_ids b' !! i = req_output_token_ids b !! k;
  ma_spec : ib_spec_token_ids b' !! i = ib_spec_token_ids b !! k;
  ma_row : forall row, rows b !! k = Some row -> exists row', rows b' !! i = Some row' /\
    (forall h r s, row_represents h r s row -> row_represents h r s row') /\ (forall u p, params_in u p row -> params_in u p row');
  ma_view : (fun w => w !! i) <$> v' = (fun w => w !! k) <$> v;
  ma_embeds : forall e, req_prompt_embeds b !! Z.of_nat k = Some e -> req_prompt_embeds b' !! Z.of_nat i = Some e;
  ma_generator : generators b' !! Z.of_nat i = generators b !! Z.of_nat k;
  ma_bad : ib_bad_words_token_ids b' !! Z.of_nat i = ib_bad_words_token_ids b !! Z.of_nat k;
}.

Lemma cell_moved_at h b v b' v' i k r spec : same_settings b b' -> moved_at i k b v b' v' -> cell h b v k r spec -> cell h b' v' i r spec.
Proof.
  intros (_ & _ & _ & Hl & Hv & _) [] []. split; rewrite ?Hl, ?Hv; try congruence; try done.
  - destruct ce_row as (row & Hrow & Hrep & Hpar). destruct (ma_row0 row Hrow) as (row' & ? & H1 & H2).
    exists row'. split_and!; auto.
  - auto.
Qed.

Lemma swap_states_ok h reqs specs b v holes i j x y :
  batch_ok h reqs specs b v -> index_ok b holes -> i <> j ->
  ib_req_ids b !! i = Some (Some x) -> ib_req_ids b !! j = Some (Some y) ->
  exists b', swap_states (Z.of_nat i) (Z.of_nat j) b = Ok b' /\ batch_ok h reqs specs b' (swap_list i j <$> v) /\ index_ok b' holes /\
    ib_req_ids b' = <[j := Some x]> (<[i := Some y]> (ib_req_ids b)) /\ same_settings b b' /\ logitsprocs b' = logitsprocs b /\
    batch_update_builder b' = batch_update_builder b <| moved := moved (batch_update_builder b) ++ [(Z.of_nat i, Z.of_nat j, SWAP)] |> /\ same_layouts b b'.
Proof.
  intros Hok Hi Hij Hx Hy. pose proof Hok as [Hsh Hcells Hsets Hstray Hlora Hpool].
  pose proof (lookup_lt_Some _ _ _ Hx) as Hlti. pose proof (lookup_lt_Some _ _ _ Hy) as Hltj. destruct (sh_lists b v Hsh) as [Hl1 Hl2].
  assert (Hgx : dget x (ib_req_id_to_index b) = Some (Z.of_nat i)) by (apply (ix_get b holes Hi); eauto).
  assert (Hgy : dget y (ib_req_id_to_index b) = Some (Z.of_nat j)) by (apply (ix_get b holes Hi); eauto).
  assert (Hmaxi : Z.of_nat i < ib_max_num_reqs b) by (pose proof (sh_max b v Hsh); unfold py_len in *; lia).
  assert (Hmaxj : Z.of_nat j < ib_max_num_reqs b) by (pose proof (sh_max b v Hsh); unfold py_len in *; lia).
  destruct (shape_row b v i Hsh Hmaxi) as (r1 & Hr1 & Hs1). destruct (shape_row b v j Hsh Hmaxj) as (r2 & Hr2 & Hs2).
  destruct (lookup_lt_is_Some_2 (req_output_token_ids b) i) as [o1 Ho1]; [lia|]. destruct (lookup_lt_is_Some_2 (req_output_token_ids b) j) as [o2 Ho2]; [lia|].
  destruct (lookup_lt_is_Some_2 (ib_spec_token_ids b) i) as [s1 Hsp1]; [lia|]. destruct (lookup_lt_is_Some_2 (ib_spec_token_ids b) j) as [s2 Hsp2]; [lia|].
  unfold swap_states. rewrite (py_index_nat _ _ _ Hx), (py_index_nat _ _ _ Hy). cbn [mbind result_bind].
  rewrite (np_swap_nat _ _ _ _ _ Hx Hy), (np_swap_nat _ _ _ _ _ Ho1 Ho2), (np_swap_nat _ _ _ _ _ Hsp1 Hsp2). cbn [mbind result_bind or_raise].
  rewrite Hgx, Hgy. cbn [mbind result_bind or_raise].
  set (b1 := b <| ib_req_ids := _ |> <| req_output_token_ids := _ |> <| ib_spec_token_ids := _ |> <| ib_req_id_to_index := _ |>).
  rewrite (swap_rows_ok swap_common b1 i j r1 r2 Hij Hr1 Hr2). cbn [mbind result_bind].
  set (b2 := b1 <| rows := _ |>).
  destruct (swap_tables _ i j _ _ (sh_tables b v Hsh) Hmaxi Hmaxj) as (ts & Hts & Htok & Hlay).
  change (ib_block_table b2) with (ib_block_table b). rewrite Hts. cbn [mbind result_bind].
  set (b3 := b2 <| req_prompt_embeds := _ |> <| ib_block_table := _ |>).
  change (is_pooling_model b3) with (is_pooling_model b). rewrite Hpool.
  set (b4 := b3 <| batch_update_builder := _ |>).
  pose proof (lookup_lt_Some _ _ _ Hr1) as Hrl1. pose proof (lookup_lt_Some _ _ _ Hr2) as Hrl2.
  assert (Hr1' : rows b4 !! i = Some (swap_common r1 r2)).
  { change (<[j := swap_common r2 r1]> (<[i := swap_common r1 r2]> (rows b)) !! i = Some (swap_common r1 r2)).
    rewrite list_lookup_insert_ne by done. by rewrite list_lookup_insert_eq. }
  assert (Hr2' : rows b4 !! j = Some (swap_common r2 r1)).
  { change (<[j := swap_common r2 r1]> (<[i := swap_common r1 r2]> (rows b)) !! j = Some (swap_common r2 r1)).
    by rewrite list_lookup_insert_eq by (by rewrite length_insert). }
  rewrite (swap_rows_ok swap_sampling b4 i j _ _ Hij Hr1' Hr2'). cbn [mbind result_bind].
  set (b5 := b4 <| rows := _ |>).
  destruct (swap_mask (allowed_token_ids_mask b) i j _ (sh_mask b v Hsh) Hmaxi Hmaxj) as (mask' & Hmask & Hmlen & Hmnone).
  change (allowed_token_ids_mask b5) with (allowed_token_ids_mask b). rewrite Hmask. cbn [mbind result_bind].
  eexists. split; [reflexivity|]. match goal with |- batch_ok _ _ _ ?x _ /\ _ => set (b' := x) end.
  assert (Hids : ib_req_ids b' = swap_list i j (ib_req_ids b)) by (unfold swap_list; by rewrite Hx, Hy).
  assert (Hset : same_settings b b') by by split_and!.
  assert (Hswids : forall k, ib_req_ids b' !! k = ib_req_ids b !! swapped i j k) by (intros k; rewrite Hids; by apply swapped_lookup).
  assert (Hrow : forall k row, rows b !! swapped i j k = Some row -> exists row', rows b' !! k = Some row' /\
    row_lora row' = row_lora row /\ (forall h r s, row_represents h r s row -> row_represents h r s row') /\
    (forall u p, params_in u p row -> params_in u p row') /\ (row_size (ib_max_model_len b) row -> row_size (ib_max_model_len b) row')).
  { intros k row Hk. change (rows b') with (<[j := swap_sampling (swap_common r2 r1) (swap_common r1 r2)]>
      (<[i := swap_sampling (swap_common r1 r2) (swap_common r2 r1)]> (<[j := swap_common r2 r1]> (<[i := swap_common r1 r2]> (rows b))))).
    unfold swapped in Hk. destruct (decide (k = j)) as [->|Hkj].
    - rewrite list_lookup_insert_eq by (rewrite !length_insert; done). eexists. split; [reflexivity|]. rewrite Hr1 in Hk. injection Hk as <-.
      split_and!; [done | intros ??? []; by split | intros ?? []; by split | done].
    - rewrite list_lookup_insert_ne by done. destruct (decide (k = i)) as [->|Hki].
      + rewrite list_lookup_insert_eq by (rewrite !length_insert; done). eexists. split; [reflexivity|]. rewrite Hr2 in Hk. injection Hk as <-.
        split_and!; [done | intros ??? []; by split | intros ?? []; by split | done].
      + rewrite !list_lookup_insert_ne by done. exists row. by split_and!. }
  assert (Hmoved : forall k, moved_at k (swapped i j k) b v b' (swap_list i j <$> v)).
  { intros k. split.
    - change (req_output_token_ids b') with (<[j := o1]> (<[i := o2]> (req_output_token_ids b))).
      rewrite <- swapped_lookup by lia. unfold swap_list. by rewrite Ho1, Ho2.
    - change (ib_spec_token_ids b') with (<[j := s1]> (<[i := s2]> (ib_spec_token_ids b))).
      rewrite <- swapped_lookup by lia. unfold swap_list. by rewrite Hsp1, Hsp2.
    - intros row Hk. destruct (Hrow k row Hk) as (row' & ? & _ & ? & ? & _). eauto.
    - rewrite <- list_fmap_compose. apply list_fmap_ext. intros g w Hw. cbn.
      destruct (Forall2_lookup_r _ _ _ _ _ (sh_tables b v Hsh) Hw) as (t & _ & _ & _ & Hn). unfold py_len in Hn. apply swapped_lookup; lia.
    - intros e He. change (req_prompt_embeds b') with (swap_dict_values (Z.of_nat i) (Z.of_nat j) (req_prompt_embeds b)).
      rewrite swap_dict_lookup by done. unfold swapped in He. by repeat case_decide.
    - change (generators b') with (swap_dict_values (Z.of_nat i) (Z.of_nat j) (generators b)).
      rewrite swap_dict_lookup by done. unfold swapped. by repeat case_decide.
    - change (ib_bad_words_token_ids b') with (swap_dict_values (Z.of_nat i) (Z.of_nat j) (ib_bad_words_token_ids b)).
      rewrite swap_dict_lookup by done. unfold swapped. by repeat case_decide. }
  assert (Hlive : forall id, live b' id <-> live b id).
  { intros id. unfold live. split; intros [k Hk].
    - rewrite Hswids in Hk. eauto.
    - exists (swapped i j k). by rewrite Hswids, swapped_invol. }
  split; [|split; [|by split_and!]].
  - split; [| | | | |exact Hpool].
    + split; [exact (sh_len b v Hsh) | | | exact Htok | exact Hmlen | | | |].
      * change (ib_max_num_reqs b') with (ib_max_num_reqs b). unfold py_len. rewrite <- (sh_rows b v Hsh). unfold py_len. f_equal. etransitivity; [apply length_insert|].
        etransitivity; [apply length_insert|]. etransitivity; [apply length_insert|]. apply length_insert.
      * apply Forall_lookup. intros k row' Hk. destruct (lookup_lt_is_Some_2 (rows b) (swapped i j k)) as [row Hk'].
        { apply lookup_lt_Some in Hk. unfold swapped. repeat case_decide; try done.
          rewrite <- (length_insert (rows b) i (swap_common r1 r2)), <- (length_insert _ j (swap_common r2 r1)).
          rewrite <- (length_insert _ i (swap_sampling (swap_common r1 r2) (swap_common r2 r1))), <- (length_insert _ j (swap_sampling (swap_common r2 r1) (swap_common r1 r2))).
          exact Hk. }
        destruct (Hrow k row Hk') as (row'' & Hk'' & _ & _ & _ & Hsize). rewrite Hk in Hk''. injection Hk'' as <-.
        apply Hsize. exact (Forall_lookup_1 _ _ _ _ (sh_row b v Hsh) Hk').
      * intros Hne. apply (sh_dev_mask b v Hsh). intros Hnone. apply Hne. by apply Hmnone.
      * intros Hne Hnone. apply Hmnone in Hnone. revert Hnone. by apply (sh_allowed b v Hsh).
      * rewrite Hids, length_swap_list. split.
        { refine (eq_trans (length_insert _ _ _) _). exact (eq_trans (length_insert _ _ _) Hl1). }
        { refine (eq_trans (length_insert _ _ _) _). exact (eq_trans (length_insert _ _ _) Hl2). }
      * rewrite Hids. unfold py_len. rewrite length_swap_list. exact (sh_max b v Hsh).
    + intros k id Hk. rewrite Hswids in Hk. destruct (Hcells _ _ Hk) as (r & ? & ? & ? & Hcell). exists r. split_and!; try done.
      eapply cell_moved_at; eauto.
    + change (param_sets b') with (param_sets b). eapply Forall_impl; [exact Hsets|]. intros sc Hsc id. rewrite (Hsc id). by rewrite Hlive.
    + intros z Hz. destruct (decide (z = Z.of_nat i)) as [->|Hzi]; [exists i, y; by rewrite Hswids; unfold swapped; rewrite decide_False, decide_True|].
      destruct (decide (z = Z.of_nat j)) as [->|Hzj]; [exists j, x; by rewrite Hswids; unfold swapped; rewrite decide_True|].
      assert (Hother : forall {V} (d : gmap Z V), swap_dict_values (Z.of_nat i) (Z.of_nat j) d !! z = d !! z).
      { intros V d. unfold swap_dict_values. repeat case_match; repeat ((rewrite lookup_insert_ne by done) || (rewrite lookup_delete_ne by done)); done. }
      change (generators b') with (swap_dict_values (Z.of_nat i) (Z.of_nat j) (generators b)) in Hz.
      change (ib_bad_words_token_ids b') with (swap_dict_values (Z.of_nat i) (Z.of_nat j) (ib_bad_words_token_ids b)) in Hz.
      rewrite !Hother in Hz. destruct (Hstray z Hz) as (p & id & -> & Hp). exists p, id. split; [done|]. rewrite Hswids. unfold swapped.
      by rewrite !decide_False by lia.
    + intros k id row' Hk Hr' Hl. rewrite Hswids in Hk. destruct (lookup_lt_is_Some_2 (rows b) (swapped i j k)) as [row Hk'].
      { apply lookup_lt_Some in Hk. pose proof (sh_max b v Hsh). pose proof (sh_rows b v Hsh). unfold py_len in *. lia. }
      destruct (Hrow k row Hk') as (row'' & Hk'' & Hlr & _). rewrite Hr' in Hk''. injection Hk'' as <-. rewrite Hlr in *. by eapply Hlora.
  - pose proof Hi as [Hdict Hget Hholes]. split.
    + change (dict_ok (dset y (Z.of_nat i) (dset x (Z.of_nat j) (ib_req_id_to_index b)))). by apply dict_ok_dset, dict_ok_dset.
    + intros id z. change (ib_req_id_to_index b') with (dset y (Z.of_nat i) (dset x (Z.of_nat j) (ib_req_id_to_index b))). rewrite !dget_dset.
      assert (Hxy : x <> y) by (intros ->; apply Hij; by eapply live_unique).
      destruct (decide (id = y)) as [->|Hne1]; [|destruct (decide (id = x)) as [->|Hne2]].
      * split; [intros [= <-]; exists i; split; [done|]; rewrite Hswids; unfold swapped; by rewrite decide_False, decide_True|].
        intros (p & -> & Hp). rewrite Hswids in Hp. f_equal. f_equal. rewrite <- (swapped_invol i j p), <- (live_unique b holes j _ y Hi Hy Hp).
        unfold swapped. by rewrite decide_True.
      * split; [intros [= <-]; exists j; split; [done|]; rewrite Hswids; unfold swapped; by rewrite decide_True|].
        intros (p & -> & Hp). rewrite Hswids in Hp. f_equal. f_equal. rewrite <- (swapped_invol i j p), <- (live_unique b holes i _ x Hi Hx Hp).
        unfold swapped. by rewrite decide_False, decide_True.
      * rewrite Hget. split; intros (p & -> & Hp); exists p; (split; [done|]); [rewrite Hswids | rewrite Hswids in Hp];
          unfold swapped in *; repeat case_decide; subst; congruence.
    + intros p. rewrite Hswids, <- Hholes. unfold swapped. repeat case_decide; subst; [rewrite Hx, Hy | rewrite Hx, Hy | ]; done.
Qed.

(** * Adding a request to the persistent batch *)

(** ** Sampling parameters *)

(** What [add_sampling] needs: a temperature, and allowed tokens of the vocabulary. *)
Record params_ok (vocab_size : Z) (p : SamplingParams) : Prop := {
  pk_temperature : is_Some (temperature p);
  pk_allowed : Forall (fun t => 0 <= t < vocab_size) (default [] (allowed_token_ids p));
}.

Definition kind_of (p : SamplingParams) : SamplingType := match sampling_type p with Ok k => k | Raise _ => RANDOM end.

Lemma params_ok_kind v p : params_ok v p -> exists temp, temperature p = Some temp /\ sampling_type p = Ok (kind_of p).
Proof.
  intros [[t Ht] _]. exists t. split; [done|]. unfold kind_of, sampling_type, the_temperature. rewrite Ht. cbn. done.
Qed.

Lemma kind_greedy p : bool_decide (kind_of p = GREEDY) = is_greedy p.
Proof. unfold kind_of, is_greedy. destruct (sampling_type p) as [[]|]; done. Qed.

Lemma mask_row_ok vocab_size ids : 0 <= vocab_size -> Forall (fun t => 0 <= t < vocab_size) ids ->
  exists row, mask_row vocab_size ids = Ok row /\ py_len row = vocab_size.
Proof.
  intros Hv Hids. unfold mask_row. assert (Hlen : py_len (replicate (Z.to_nat vocab_size) true) = vocab_size) by (unfold py_len; rewrite length_replicate; lia).
  revert Hlen. generalize (replicate (Z.to_nat vocab_size) true). induction Hids as [|t ids Ht _ IH]; intros row Hlen; cbn; [eauto|].
  rewrite py_setitem_in by lia. cbn [mbind result_bind]. apply IH. unfold py_len in *. by rewrite length_insert.
Qed.

(** The fields that adding the parameters of a request leaves alone. *)
Record keeps (b b' : InputBatch) : Prop := {
  kp_settings : same_settings b b';
  kp_ids : ib_req_ids b' = ib_req_ids b;
  kp_index : ib_req_id_to_index b' = ib_req_id_to_index b;
  kp_outs : req_output_token_ids b' = req_output_token_ids b;
  kp_specs : ib_spec_token_ids b' = ib_spec_token_ids b;
  kp_embeds : req_prompt_embeds b' = req_prompt_embeds b;
  kp_table : ib_block_table b' = ib_block_table b;
  kp_builder : batch_update_builder b' = batch_update_builder b;
  kp_procs : logitsprocs b' = logitsprocs b;
}.

Lemma keeps_trans b1 b2 b3 : keeps b1 b2 -> keeps b2 b3 -> keeps b1 b3.
Proof. intros [] []. split; [by eapply same_settings_trans | congruence..]. Qed.

Lemma add_allowed_ok b i id ids : py_len (rows b) = ib_max_num_reqs b -> Z.of_nat i < ib_max_num_reqs b -> 0 <= ib_vocab_size b ->
  Forall (fun t => 0 <= t < ib_vocab_size b) ids -> (forall m, allowed_token_ids_mask b = Some m -> py_len m = ib_max_num_reqs b) ->
  (allowed_token_ids_mask b <> None -> dev_allowed_mask (device b) <> None) ->
  exists mask dev, add_allowed (Z.of_nat i) id ids b
    = Ok (b <| has_allowed_token_ids := has_allowed_token_ids b ∪ {[id]} |> <| allowed_token_ids_mask := Some mask |> <| device := dev |>) /\
    py_len mask = ib_max_num_reqs b /\ dev_allowed_mask dev <> None.
Proof.
  intros Hrows Hi Hv Hids Hmask Hdev. unfold add_allowed. destruct (mask_row_ok _ _ Hv Hids) as (row & Hrow & _).
  change (allowed_token_ids_mask (b <| has_allowed_token_ids := _ |>)) with (allowed_token_ids_mask b).
  change (ib_vocab_size (b <| has_allowed_token_ids := _ |>)) with (ib_vocab_size b). unfold py_len in *.
  destruct (allowed_token_ids_mask b) as [m|] eqn:Hm; rewrite Hrow; cbn [mbind result_bind];
    (rewrite py_setitem_nat by (rewrite ?length_replicate; try specialize (Hmask m eq_refl); lia)); cbn [mbind result_bind];
    do 2 eexists; (split; [reflexivity|]); (split; [rewrite length_insert, ?length_replicate; try specialize (Hmask m eq_refl); lia|]).
  - by apply Hdev.
  - done.
Qed.

Definition add_to_set (id : string) (p : SamplingParams) (sc : gset string * (SamplingParams -> bool)) : gset string * (SamplingParams -> bool) :=
  (add_if (sc.2 p) id sc.1, sc.2).

Definition generator_at (i : nat) (r : CachedRequestState) (d : gmap Z Z) : gmap Z Z :=
  match crs_generator r with Some g => <[Z.of_nat i := g]> d | None => d end.
Definition bad_words_at (i : nat) (p : SamplingParams) (d : gmap Z (list (list Z))) : gmap Z (list (list Z)) :=
  match bad_words_token_ids p with Some ((_ :: _) as words) => <[Z.of_nat i := words]> d | _ => d end.

Lemma add_sampling_ok b i r p row : rows b !! i = Some row -> py_len (rows b) = ib_max_num_reqs b -> 0 <= ib_vocab_size b -> params_ok (ib_vocab_size b) p ->
  (forall m, allowed_token_ids_mask b = Some m -> py_len m = ib_max_num_reqs b) ->
  (allowed_token_ids_mask b <> None -> dev_allowed_mask (device b) <> None) ->
  (has_allowed_token_ids b <> ∅ -> allowed_token_ids_mask b <> None) ->
  exists b' row', add_sampling (Z.of_nat i) r p b = Ok b' /\ keeps b b' /\ rows b' = <[i := row']> (rows b) /\
    params_in (ib_vocab_size b) p row' /\
    (exists a1 a2 a3 a4 a5 a6, row' = row <| row_temperature := a1 |> <| row_top_p := a2 |> <| row_top_k := a3 |>
      <| row_frequency_penalty := a4 |> <| row_presence_penalty := a5 |> <| row_repetition_penalty := a6 |>) /\
    param_sets b' = add_to_set (crs_req_id r) p <$> param_sets b /\
    generators b' = generator_at i r (generators b) /\ ib_bad_words_token_ids b' = bad_words_at i p (ib_bad_words_token_ids b) /\
    (forall m, allowed_token_ids_mask b' = Some m -> py_len m = ib_max_num_reqs b) /\
    (allowed_token_ids_mask b' <> None -> dev_allowed_mask (device b') <> None) /\
    (has_allowed_token_ids b' <> ∅ -> allowed_token_ids_mask b' <> None) /\
    lora_id_to_request_ids b' = lora_id_to_request_ids b /\ lora_id_to_lora_request b' = lora_id_to_lora_request b.
Proof.
  intros Hrow Hlen Hv Hp Hmask Hdev Hall0. destruct (params_ok_kind _ p Hp) as (temp & Htemp & Hkind).
  unfold add_sampling. rewrite Hkind. cbn [mbind result_bind]. unfold the_temperature. rewrite Htemp. cbn [or_raise mbind result_bind].
  erewrite update_row_ok; [|exact Hrow|reflexivity]. cbn [mbind result_bind].
  match goal with |- context [<[i := ?x]> (rows b)] => set (row' := x) end.
  set (b1 := b <| rows := _ |>).
  match goal with |- context [add_allowed _ _ _ ?x] => set (b2 := x) end.
  assert (Hb2 : keeps b b2) by by split.
  assert (Hpar : params_in (ib_vocab_size b) p row') by (split; try done; exists (kind_of p), temp; by split_and!).
  assert (Hrow' : exists a1 a2 a3 a4 a5 a6, row' = row <| row_temperature := a1 |> <| row_top_p := a2 |> <| row_top_k := a3 |>
      <| row_frequency_penalty := a4 |> <| row_presence_penalty := a5 |> <| row_repetition_penalty := a6 |>) by (do 6 eexists; reflexivity).
  assert (Hsets : forall b', ib_vocab_size b' = ib_vocab_size b -> is_spec_decode b' = is_spec_decode b ->
    param_sets b' = param_sets (b2 <| has_allowed_token_ids := add_if (match allowed_token_ids p with Some (_ :: _) => true | _ => false end) (crs_req_id r) (has_allowed_token_ids b) |>) ->
    param_sets b' = add_to_set (crs_req_id r) p <$> param_sets b).
  { intros b' _ _ ->. unfold param_sets, b2. cbn -[add_if]. unfold add_to_set. cbn -[add_if]. by rewrite !kind_greedy. }
  destruct (allowed_token_ids p) as [[|t ids]|] eqn:Hall.
  - cbn [mbind result_bind]. eexists _, row'. split; [reflexivity|]. split; [by split|]. split; [reflexivity|]. split; [done|]. split; [done|].
    split; [by apply Hsets|]. split; [done|]. split; [done|]. by split_and!.
  - destruct (add_allowed_ok b2 i (crs_req_id r) (t :: ids)) as (mask & dev & Hadd & Hm & Hd).
    + unfold b2, b1, py_len. exact (eq_trans (f_equal Z.of_nat (length_insert _ _ _)) Hlen).
    + apply lookup_lt_Some in Hrow. change (ib_max_num_reqs b2) with (ib_max_num_reqs b). unfold py_len in Hlen. lia.
    + done.
    + pose proof (pk_allowed _ _ Hp) as Ha. by rewrite Hall in Ha.
    + exact Hmask.
    + exact Hdev.
    + cbv beta iota. rewrite Hadd. cbn [mbind result_bind]. eexists _, row'. split; [reflexivity|]. split; [by split|]. split; [reflexivity|]. split; [done|]. split; [done|].
      split; [by apply Hsets|]. split; [done|]. split; [done|]. split; [intros m [= <-]; exact Hm|]. by split_and!.
  - cbn [mbind result_bind]. eexists _, row'. split; [reflexivity|]. split; [by split|]. split; [reflexivity|]. split; [done|]. split; [done|].
    split; [by apply Hsets|]. split; [done|]. split; [done|]. by split_and!.
Qed.

(** ** The place of the request *)

(** Into a hole, or at the end. *)
Definition put {A} (i : nat) (x : A) (l : list A) : list A := if decide (i = length l) then l ++ [x] else <[i := x]> l.

Lemma put_lookup {A} i (x : A) l k : (i <= length l)%nat -> put i x l !! k = if decide (k = i) then Some x else l !! k.
Proof.
  intros Hi. unfold put. case_decide as He; case_decide as Hk; subst.
  - by rewrite lookup_app_r, Nat.sub_diag by lia.
  - destruct (decide (k < length l)%nat); [by rewrite lookup_app_l|]. rewrite (lookup_ge_None_2 l) by lia.
    rewrite lookup_ge_None_2; [done|]. rewrite length_app. cbn. lia.
  - rewrite list_lookup_insert_eq; [done | lia].
  - by rewrite list_lookup_insert_ne.
Qed.

Lemma length_put {A} i (x : A) l : length (put i x l) = if decide (i = length l) then S (length l) else length l.
Proof. unfold put. case_decide; [rewrite length_app; cbn; lia | by rewrite length_insert]. Qed.

(** The place the builder gives: the lowest hole, or the end when there is none. *)
Definition placed (b : InputBatch) (holes : list nat) (i : nat) (rest : list nat) : Prop :=
  (holes = [] /\ rest = [] /\ i = length (ib_req_ids b)) \/ (holes ≡ₚ i :: rest /\ (forall q, q ∈ rest -> (i < q)%nat)).

Definition added_of (i : nat) (r : CachedRequestState) (p : SamplingParams) : AddedRequest :=
  {| ar_index := Z.of_nat i; ar_params := p; ar_prompt := crs_prompt_token_ids r; ar_output := crs_output r |}.

Lemma register_ok b v holes r p : shape_ok b v -> index_ok b holes -> builder_ok (batch_update_builder b) holes ->
  crs_sampling_params r = Some p -> (holes = [] -> py_len (ib_req_ids b) < ib_max_num_reqs b) ->
  exists i rest bd, register_add_request r b = Ok (Z.of_nat i, b <| batch_update_builder := bd |>) /\ placed b holes i rest /\
    builder_ok bd rest /\ added bd = added (batch_update_builder b) ++ [added_of i r p] /\ moved bd = moved (batch_update_builder b) /\
    (i <= length (ib_req_ids b))%nat /\ Z.of_nat i < ib_max_num_reqs b /\ (forall id, ib_req_ids b !! i <> Some (Some id)).
Proof.
  intros Hsh Hi Hbd Hp Hroom. unfold register_add_request. destruct (decide (holes = [])) as [->|Hne].
  - rewrite (pop_removed_none _ Hbd). rewrite (no_holes_full b Hi), Hp. rewrite (proj2 (Z.ltb_lt _ _) (Hroom eq_refl)). cbn [py_assert mbind result_bind].
    exists (length (ib_req_ids b)), []. eexists. split; [reflexivity|]. split; [by left|].
    split; [exact Hbd|]. split_and!; [done | done | done | exact (Hroom eq_refl) |]. intros id Hid. apply lookup_lt_Some in Hid. lia.
  - destruct (pop_removed_hole _ holes Hbd Hne) as (i & rest & bd' & Hpop & Hrest & Hmin & Hbd' & Ha & Hm). rewrite Hpop, Hp.
    assert (Hin : ib_req_ids b !! i = Some None). { apply (ix_holes b holes Hi). rewrite Hrest. by left. }
    pose proof (lookup_lt_Some _ _ _ Hin) as Hlt. pose proof (sh_max b v Hsh) as Hmax.
    rewrite (proj2 (Z.ltb_lt _ _)) by (unfold py_len in Hmax; lia). cbn [py_assert mbind result_bind].
    exists i, rest. eexists. split; [reflexivity|]. split; [right; split; done|]. split; [exact Hbd'|]. cbn. rewrite Ha, Hm.
    split_and!; [done | done | lia | unfold py_len in Hmax; lia |]. intros id. rewrite Hin. done.
Qed.

Lemma place_request_ok b i r : (i <= length (ib_req_ids b))%nat ->
  length (req_output_token_ids b) = length (ib_req_ids b) /\ length (ib_spec_token_ids b) = length (ib_req_ids b) ->
  place_request (Z.of_nat i) r b = Ok (b <| ib_req_ids := put i (Some (crs_req_id r)) (ib_req_ids b) |>
    <| req_output_token_ids := put i (Some (crs_output r)) (req_output_token_ids b) |> <| ib_spec_token_ids := put i (Some []) (ib_spec_token_ids b) |>).
Proof.
  intros Hi [H1 H2]. unfold place_request, put, py_len. rewrite H1, H2. destruct (Z.eqb_spec (Z.of_nat i) (Z.of_nat (length (ib_req_ids b)))).
  - by rewrite !decide_True by lia.
  - rewrite !decide_False by lia. by rewrite !py_setitem_nat by lia.
Qed.

(** ** The blocks *)

Lemma add_tables n i ts v blocks : Forall2 (group_ok n) ts v -> Z.of_nat i < n -> Forall2 fits ts blocks ->
  exists ts', add_row blocks (Z.of_nat i) ts = Ok ts' /\ Forall2 (group_ok n) ts' (zip_with (fun w ids => <[i := ids]> w) v blocks) /\
    Forall2 same_layout ts ts'.
Proof.
  intros Hts Hi Hfit. unfold add_row. change blocks with ([] ++ blocks) at 1. change 0 with (py_len ([] : list (list Z))). generalize ([] : list (list Z)).
  revert v Hts. induction Hfit as [|t ids ts blocks Ht _ IH]; intros v Hts pre; inversion Hts as [|? w ? v' (Hs & Hh & Hn) Hts']; subst; cbn [each_group zip_with].
  { by exists []. }
  rewrite (py_index_nat _ (length pre) ids) by (rewrite lookup_app_r, Nat.sub_diag by lia; done). cbn [mbind result_bind].
  destruct (add_row_holds t w i ids Hs Hh) as (t' & Ho & Hl & Hh'); [unfold py_len in *; lia | done |]. rewrite Ho. cbn [mbind result_bind].
  destruct (IH v' Hts' (pre ++ [ids])) as (ts' & Hrun & Hv & Hls). rewrite <- (assoc_L (++)) in Hrun. cbn [app] in Hrun.
  rewrite py_len_app in Hrun. change (py_len [ids]) with 1 in Hrun. rewrite Hrun. cbn [mbind result_bind].
  exists (t' :: ts'). split; [done|]. split; [|by constructor]. constructor; [|done].
  split; [by eapply settings_ok_layout|]. split; [done|]. unfold py_len in *. by rewrite length_insert.
Qed.

Lemma add_views_lookup n i ts v blocks : Forall2 (group_ok n) ts v -> Z.of_nat i < n -> length blocks = length ts ->
  (fun w => w !! i) <$> zip_with (fun (w : list (list Z)) ids => <[i := ids]> w) v blocks = Some <$> blocks /\
  forall k, k <> i -> (fun w => w !! k) <$> zip_with (fun (w : list (list Z)) ids => <[i := ids]> w) v blocks = (fun w => w !! k) <$> v.
Proof.
  intros Hts Hi. revert blocks. induction Hts as [|t w ts v (_ & _ & Hn) _ IH]; intros [|ids blocks] Hlen; try done. cbn.
  injection Hlen as Hlen. destruct (IH blocks Hlen) as [H1 H2]. unfold py_len in Hn. split.
  - rewrite list_lookup_insert_eq by lia. by rewrite H1.
  - intros k Hk. rewrite list_lookup_insert_ne by done. by rewrite H2.
Qed.

(** ** Sets, indices and adapters *)

Lemma set_means_add b b' reqs id r p sc : (forall x, live b' x <-> live b x \/ x = id) -> ~ live b id -> reqs !! id = Some r ->
  crs_sampling_params r = Some p -> set_means b reqs sc.1 sc.2 -> set_means b' reqs (add_to_set id p sc).1 (add_to_set id p sc).2.
Proof.
  intros Hlive Hn Hr Hp Hs x. unfold add_to_set, add_if. cbn. destruct (decide (x = id)) as [->|Hx].
  - rewrite Hlive. assert (Hnin : id ∉ sc.1) by (intros Hin; apply Hs in Hin as [? _]; done).
    destruct (sc.2 p) eqn:Hc; split.
    + intros _. eauto 8.
    + intros _. set_solver.
    + done.
    + intros (_ & r' & p' & Hr' & Hp' & Hc'). congruence.
  - rewrite Hlive. destruct (sc.2 p); [rewrite elem_of_union, elem_of_singleton|]; rewrite (Hs x); intuition done.
Qed.

Lemma index_ok_add b b' holes i rest id : index_ok b holes -> placed b holes i rest -> NoDup holes -> (i <= length (ib_req_ids b))%nat ->
  ~ live b id -> (forall x, ib_req_ids b !! i <> Some (Some x)) ->
  ib_req_ids b' = put i (Some id) (ib_req_ids b) -> ib_req_id_to_index b' = dset id (Z.of_nat i) (ib_req_id_to_index b) -> index_ok b' rest.
Proof.
  intros Hi Hpl Hnd Hlen Hn Hfree He Hd. pose proof Hi as [Hdict Hget Hholes].
  assert (Hlk : forall k, ib_req_ids b' !! k = if decide (k = i) then Some (Some id) else ib_req_ids b !! k) by (intros k; rewrite He; by apply put_lookup).
  split.
  - rewrite Hd. by apply dict_ok_dset.
  - intros x z. rewrite Hd, dget_dset. destruct (decide (x = id)) as [->|Hx].
    + split; [intros [= <-]; exists i; by rewrite Hlk, decide_True|]. intros (p & -> & Hp). rewrite Hlk in Hp. case_decide; [by subst|].
      exfalso. apply Hn. by exists p.
    + rewrite Hget. split; intros (p & -> & Hp); exists p; (split; [done|]); rewrite Hlk in *; case_decide; subst; congruence.
  - intros p. rewrite Hlk. destruct Hpl as [(-> & -> & ->)|[Hrest _]].
    + case_decide; subst; [split; [done | by intros ?%elem_of_nil]|]. by rewrite Hholes.
    + rewrite Hrest in Hnd. apply NoDup_cons in Hnd as [Hni Hnd]. case_decide; subst; [split; done|].
      rewrite Hholes, Hrest, elem_of_cons. intuition done.
Qed.

Lemma add_lora_ok b i r row : rows b !! i = Some row ->
  exists ids reqs, add_lora (Z.of_nat i) r b = Ok (b <| rows := <[i := row <| row_lora := lora_of r |>]> (rows b) |>
      <| lora_id_to_request_ids := ids |> <| lora_id_to_lora_request := reqs |>) /\
    (forall l s x, x ∈ s -> lora_id_to_request_ids b !! l = Some s -> exists s', ids !! l = Some s' /\ x ∈ s') /\
    (forall l, is_Some (lora_id_to_lora_request b !! l) -> is_Some (reqs !! l)) /\
    (lora_of r <> 0 -> (exists s, ids !! lora_of r = Some s /\ crs_req_id r ∈ s) /\ is_Some (reqs !! lora_of r)).
Proof.
  intros Hrow. unfold add_lora, lora_of. destruct (crs_lora_request r) as [l|].
  - erewrite update_row_ok; [|exact Hrow|reflexivity]. cbn [mbind result_bind]. do 2 eexists. split; [reflexivity|]. cbn. split_and!.
    + intros l' s x Hx Hs. destruct (decide (l' = lora_int_id l)) as [->|Hne].
      * rewrite lookup_insert_eq, Hs. cbn. eexists. split; [done|]. set_solver.
      * rewrite lookup_insert_ne by done. eauto.
    + intros l' Hl. destruct (decide (l' = lora_int_id l)) as [->|Hne]; [by rewrite lookup_insert_eq | by rewrite lookup_insert_ne].
    + intros _. rewrite !lookup_insert_eq. split; [|done]. eexists. split; [done|]. set_solver.
  - erewrite update_row_ok; [|exact Hrow|reflexivity]. exists (lora_id_to_request_ids b), (lora_id_to_lora_request b).
    split; [by destruct b|]. split_and!; eauto. done.
Qed.

(** ** The operation *)

(** A request that can be added: it fits its row and its blocks fit the tables. *)
Record addable (h : OutputStore) (b : InputBatch) (v : Views) (r : CachedRequestState) (p : SamplingParams) : Prop := {
  ad_params : crs_sampling_params r = Some p;
  ad_params_ok : params_ok (ib_vocab_size b) p;
  ad_vocab : 0 <= ib_vocab_size b;
  ad_request : request_ok r;
  ad_fit : tokens_fit h (ib_max_model_len b) r [];
  ad_blocks : Forall2 fits (ib_block_table b) (crs_block_ids r);
}.

Section Add.
Context `{PoolingInfo}.

(** The rows and tables after the steps that do not read the sampling parameters. *)
Lemma add_request_run h b v holes r p : shape_ok b v -> index_ok b holes -> builder_ok (batch_update_builder b) holes ->
  addable h b v r p -> (holes = [] -> py_len (ib_req_ids b) < ib_max_num_reqs b) -> no_stray b -> ~ live b (crs_req_id r) ->
  exists b' i rest, add_request h r b = Ok (Z.of_nat i, b') /\ placed b holes i rest /\ (i <= length (ib_req_ids b))%nat /\
    Z.of_nat i < ib_max_num_reqs b /\ (forall id, ib_req_ids b !! i <> Some (Some id)) /\
    same_settings b b' /\ logitsprocs b' = logitsprocs b /\
    ib_req_ids b' = put i (Some (crs_req_id r)) (ib_req_ids b) /\ ib_req_id_to_index b' = dset (crs_req_id r) (Z.of_nat i) (ib_req_id_to_index b) /\
    req_output_token_ids b' = put i (Some (crs_output r)) (req_output_token_ids b) /\ ib_spec_token_ids b' = put i (Some []) (ib_spec_token_ids b) /\
    req_prompt_embeds b' = match crs_prompt_embeds r with Some e => <[Z.of_nat i := e]> (req_prompt_embeds b) | None => req_prompt_embeds b end /\
    builder_ok (batch_update_builder b') rest /\ added (batch_update_builder b') = added (batch_update_builder b) ++ [added_of i r p] /\
    moved (batch_update_builder b') = moved (batch_update_builder b) /\
    Forall2 (group_ok (ib_max_num_reqs b)) (ib_block_table b') (zip_with (fun w ids => <[i := ids]> w) v (crs_block_ids r)) /\
    (exists row', rows b' = <[i := row']> (rows b) /\ row_size (ib_max_model_len b) row' /\ row_represents h r [] row' /\ params_in (ib_vocab_size b) p row') /\
    param_sets b' = add_to_set (crs_req_id r) p <$> param_sets b /\
    generators b' = generator_at i r (generators b) /\ ib_bad_words_token_ids b' = bad_words_at i p (ib_bad_words_token_ids b) /\
    (forall m, allowed_token_ids_mask b' = Some m -> py_len m = ib_max_num_reqs b) /\
    (allowed_token_ids_mask b' <> None -> dev_allowed_mask (device b') <> None) /\
    (has_allowed_token_ids b' <> ∅ -> allowed_token_ids_mask b' <> None) /\
    (forall l s x, x ∈ s -> lora_id_to_request_ids b !! l = Some s -> exists s', lora_id_to_request_ids b' !! l = Some s' /\ x ∈ s') /\
    (forall l, is_Some (lora_id_to_lora_request b !! l) -> is_Some (lora_id_to_lora_request b' !! l)) /\
    (lora_of r <> 0 -> (exists s, lora_id_to_request_ids b' !! lora_of r = Some s /\ crs_req_id r ∈ s) /\ is_Some (lora_id_to_lora_request b' !! lora_of r)) /\
    same_layouts b b'.
Proof.
  intros Hsh Hi Hbd [Hp Hpok Hvoc Hreq Hfit Hblk] Hroom Hstray Hn.
  destruct (register_ok b v holes r p Hsh Hi Hbd Hp Hroom) as (i & rest & bd & Hreg & Hpl & Hbd' & Ha & Hm & Hile & Himax & Hfree).
  destruct (shape_row b v i Hsh Himax) as (row & Hrow & Hsize). pose proof (lookup_lt_Some _ _ _ Hrow) as Hrlt.
  destruct (copy_tokens_ok h (ib_max_model_len b) r row Hreq Hsize Hfit) as (row1 & Hcopy & Hsize1 & Hrep1).
  destruct (add_tables _ i _ _ _ (sh_tables b v Hsh) Himax Hblk) as (ts & Hts & Htok & Hlay).
  unfold add_request. rewrite Hreg. cbn [mbind result_bind].
  erewrite place_request_ok by (exact Hile || exact (sh_lists b v Hsh)). cbn [mbind result_bind].
  rewrite (Hreq : length_from_prompt _ _ = _). cbn [mbind result_bind].
  match goal with |- context [update_row _ (copy_tokens _ _ _ _) ?x] => set (b1 := x) end.
  assert (Hb1 : same_settings b b1 /\ rows b1 = rows b /\ ib_block_table b1 = ib_block_table b) by (unfold b1; by destruct (crs_prompt_embeds r)).
  destruct Hb1 as (Hset1 & Hrows1 & Htab1).
  rewrite (update_row_ok b1 i _ row row1) by (rewrite ?Hrows1; done). cbn [mbind result_bind].
  set (b2 := b1 <| rows := _ |>). change (ib_block_table b2) with (ib_block_table b1). rewrite Htab1, Hts. cbn [mbind result_bind].
  set (b3 := b2 <| ib_block_table := ts |>). unfold add_params. rewrite Hp.
  assert (Hrow3 : rows b3 !! i = Some row1). { change (<[i := row1]> (rows b1) !! i = Some row1). rewrite Hrows1. by rewrite list_lookup_insert_eq. }
  assert (Hb3 : allowed_token_ids_mask b3 = allowed_token_ids_mask b /\ device b3 = device b /\ param_sets b3 = param_sets b /\
    generators b3 = generators b /\ ib_bad_words_token_ids b3 = ib_bad_words_token_ids b /\ lora_id_to_request_ids b3 = lora_id_to_request_ids b /\
    lora_id_to_lora_request b3 = lora_id_to_lora_request b) by (unfold b3, b2, b1; by destruct (crs_prompt_embeds r)).
  destruct Hb3 as (Hmask3 & Hdev3 & Hsets3 & Hgen3 & Hbad3 & Hli3 & Hlr3).
  assert (Hset3 : same_settings b b3) by (eapply same_settings_trans; [exact Hset1 | by split_and!]).
  pose proof Hset3 as (_ & _ & Hmx & Hml & Hvv & _).
  destruct (add_sampling_ok b3 i r p row1 Hrow3) as (b4 & row2 & Hadd & Hk4 & Hrows4 & Hpar4 & Hr2 & Hsets4 & Hgen4 & Hbad4 & Hmask4 & Hdev4 & Hall4 & Hli4 & Hlr4).
  { rewrite Hmx, <- (sh_rows b v Hsh). change (py_len (<[i := row1]> (rows b1)) = py_len (rows b)). rewrite Hrows1. unfold py_len. by rewrite length_insert. }
  { by rewrite Hvv. }
  { by rewrite Hvv. }
  { rewrite Hmask3, Hmx. exact (sh_mask b v Hsh). }
  { rewrite Hmask3, Hdev3. exact (sh_dev_mask b v Hsh). }
  { rewrite Hmask3. assert (Hh3 : has_allowed_token_ids b3 = has_allowed_token_ids b) by (unfold b3, b2, b1; by destruct (crs_prompt_embeds r)). rewrite Hh3. exact (sh_allowed b v Hsh). }
  rewrite Hadd. cbn [mbind result_bind].
  assert (Hrow4 : rows b4 !! i = Some row2). { rewrite Hrows4. rewrite list_lookup_insert_eq; [done|]. by eapply lookup_lt_Some. }
  erewrite update_row_ok; [|exact Hrow4|reflexivity]. cbn [mbind result_bind]. set (row3 := row2 <| row_num_accepted_tokens := 1 |>).
  set (b5 := b4 <| rows := _ |>). assert (Hrow5 : rows b5 !! i = Some row3). { change (<[i := row3]> (rows b4) !! i = Some row3). apply list_lookup_insert_eq. by eapply lookup_lt_Some. }
  destruct (add_lora_ok b5 i r row3 Hrow5) as (lids & lreqs & Hlora & Hl1 & Hl2 & Hl3). rewrite Hlora. cbn [mbind result_bind].
  eexists _, i, rest. split; [reflexivity|]. destruct Hk4 as [Hs4 Ki Kx Ko Ks Ke Kt Kb Kp].
  match goal with |- context [same_settings b ?x] => set (b' := x) end.
  assert (Hset' : same_settings b b'). { eapply same_settings_trans; [exact Hset3|]. eapply same_settings_trans; [exact Hs4|]. by split_and!. }
  assert (Hb13 : ib_req_ids b3 = put i (Some (crs_req_id r)) (ib_req_ids b) /\ ib_req_id_to_index b3 = dset (crs_req_id r) (Z.of_nat i) (ib_req_id_to_index b) /\
    req_output_token_ids b3 = put i (Some (crs_output r)) (req_output_token_ids b) /\ ib_spec_token_ids b3 = put i (Some []) (ib_spec_token_ids b) /\
    req_prompt_embeds b3 = match crs_prompt_embeds r with Some e => <[Z.of_nat i := e]> (req_prompt_embeds b) | None => req_prompt_embeds b end /\
    batch_update_builder b3 = bd /\ logitsprocs b3 = logitsprocs b) by (unfold b3, b2, b1; by destruct (crs_prompt_embeds r)).
  destruct Hb13 as (Hi3 & Hx3 & Ho3 & Hs3 & He3 & Hbb3 & Hp3).
  split; [done|]. split; [done|]. split; [done|]. split; [done|]. split; [done|].
  split; [exact (eq_trans Kp Hp3)|]. split; [exact (eq_trans Ki Hi3)|]. split; [exact (eq_trans Kx Hx3)|]. split; [exact (eq_trans Ko Ho3)|].
  split; [exact (eq_trans Ks Hs3)|]. split; [exact (eq_trans Ke He3)|].
  assert (Hbb : batch_update_builder b' = bd) by exact (eq_trans Kb Hbb3). rewrite Hbb. split; [done|]. split; [done|]. split; [done|].
  split; [change (Forall2 (group_ok (ib_max_num_reqs b)) (ib_block_table b4) (zip_with (fun w ids => <[i := ids]> w) v (crs_block_ids r))); rewrite Kt; exact Htok|].
  split.
  { exists (row3 <| row_lora := lora_of r |>).
    assert (Hrr : rows b' = <[i := row3 <| row_lora := lora_of r |>]> (<[i := row3]> (<[i := row2]> (<[i := row1]> (rows b))))).
    { change (rows b') with (<[i := row3 <| row_lora := lora_of r |>]> (<[i := row3]> (rows b4))). rewrite Hrows4.
      change (rows b3) with (<[i := row1]> (rows b1)). by rewrite Hrows1. }
    rewrite Hrr, !list_insert_insert_eq. destruct Hr2 as (a1 & a2 & a3 & a4 & a5 & a6 & Hr2). split; [done|]. split.
    - unfold row3. rewrite Hr2. exact Hsize1.
    - split; [unfold row3; rewrite Hr2; destruct Hrep1; by split|]. rewrite <- Hvv. destruct Hpar4. by split. }
  split; [exact (eq_trans Hsets4 (f_equal _ Hsets3))|]. split; [exact (eq_trans Hgen4 (f_equal _ Hgen3))|]. split; [exact (eq_trans Hbad4 (f_equal _ Hbad3))|].
  split; [intros m Hm'; rewrite <- Hmx; by apply Hmask4|]. split; [exact Hdev4|]. split; [exact Hall4|].
  change (lora_id_to_request_ids b5) with (lora_id_to_request_ids b4) in Hl1. change (lora_id_to_lora_request b5) with (lora_id_to_lora_request b4) in Hl2.
  rewrite Hli4, Hli3 in Hl1. rewrite Hlr4, Hlr3 in Hl2. split; [exact Hl1|]. split; [exact Hl2|]. split; [exact Hl3|].
  change (Forall2 same_layout (ib_block_table b) (ib_block_table b4)). by rewrite Kt.
Qed.

Lemma batch_add_request_ok h reqs specs b v holes r p :
  batch_ok h reqs specs b v -> index_ok b holes -> builder_ok (batch_update_builder b) holes -> addable h b v r p ->
  (holes = [] -> py_len (ib_req_ids b) < ib_max_num_reqs b) -> ~ live b (crs_req_id r) ->
  reqs !! crs_req_id r = Some r -> specs (crs_req_id r) = ([], []) ->
  exists b' v' i rest, add_request h r b = Ok (Z.of_nat i, b') /\ batch_ok h reqs specs b' v' /\ index_ok b' rest /\
    builder_ok (batch_update_builder b') rest /\ placed b holes i rest /\ (i <= length (ib_req_ids b))%nat /\
    ib_req_ids b' = put i (Some (crs_req_id r)) (ib_req_ids b) /\
    same_settings b b' /\ logitsprocs b' = logitsprocs b /\
    added (batch_update_builder b') = added (batch_update_builder b) ++ [added_of i r p] /\
    moved (batch_update_builder b') = moved (batch_update_builder b) /\
    same_layouts b b'.
Proof.
  intros Hok Hi Hbd Had Hroom Hn Hr Hspec. pose proof Hok as [Hsh Hcells Hsets Hstray Hlora Hpool]. pose proof Had as [Hp Hpok _ Hreq Hfit Hblk].
  destruct (add_request_run h b v holes r p Hsh Hi Hbd Had Hroom Hstray Hn) as (b' & i & rest & Hrun & Hpl & Hile & Himax & Hfree & Hset & Hproc &
    Hids & Hidx & Houts & Hspecs & Hemb & Hbd' & Hadd & Hmov & Htab & (row' & Hrows & Hsize & Hrep & Hpar) & Hps & Hgen & Hbad & Hmask & Hdev & Hall & Hl1 & Hl2 & Hl3 & Hlay).
  set (v' := zip_with (fun w ids => <[i := ids]> w) v (crs_block_ids r)) in *.
  exists b', v', i, rest. destruct (sh_lists b v Hsh) as [Ho Hs]. pose proof (sh_rows b v Hsh) as Hrl.
  pose proof Hset as (Hspool & Hsd & Hsmax & Hslen & Hsvoc & _).
  destruct (add_views_lookup _ i _ v (crs_block_ids r) (sh_tables b v Hsh) Himax) as [Hv1 Hv2]; [symmetry; by eapply Forall2_length|].
  assert (Hlk : forall k, ib_req_ids b' !! k = if decide (k = i) then Some (Some (crs_req_id r)) else ib_req_ids b !! k) by (intros k; rewrite Hids; by apply put_lookup).
  assert (Hsame : forall k, k <> i -> same_at k b v b' v').
  { intros k Hk. split.
    - by rewrite Hlk, decide_False.
    - rewrite Houts, put_lookup, decide_False by (done || lia). done.
    - rewrite Hspecs, put_lookup, decide_False by (done || lia). done.
    - rewrite Hrows. by rewrite list_lookup_insert_ne.
    - by apply Hv2.
    - rewrite Hemb. destruct (crs_prompt_embeds r); [by rewrite lookup_insert_ne by lia | done].
    - rewrite Hgen. unfold generator_at. destruct (crs_generator r); [by rewrite lookup_insert_ne by lia | done].
    - rewrite Hbad. unfold bad_words_at. destruct (bad_words_token_ids p) as [[|w ws]|]; [done | by rewrite lookup_insert_ne by lia | done]. }
  assert (Hlive : forall x, live b' x <-> live b x \/ x = crs_req_id r).
  { intros x. unfold live. split.
    - intros [k Hk]. rewrite Hlk in Hk. case_decide; [right; congruence | eauto].
    - intros [[k Hk]| ->]; [|exists i; by rewrite Hlk, decide_True]. exists k. rewrite Hlk, decide_False; [done|]. intros ->. by eapply Hfree. }
  assert (Hnone : generators b !! Z.of_nat i = None /\ ib_bad_words_token_ids b !! Z.of_nat i = None).
  { split; apply eq_None_not_Some; intros Hx; [destruct (Hstray (Z.of_nat i) (or_introl Hx)) as (q & x & Hq & Hqx) | destruct (Hstray (Z.of_nat i) (or_intror Hx)) as (q & x & Hq & Hqx)];
      apply Nat2Z.inj in Hq; subst q; by eapply Hfree. }
  split; [done|]. split; [|split; [|split; [done|]; split; [done|]; split; [done|]; split; [done|]; split; [done|]; split; [done|]; split; [done|]; split; [done|]]].
  - split; [| | | | |by rewrite Hspool].
    + split; rewrite ?Hslen, ?Hsmax; try done.
      * exact (sh_len b v Hsh).
      * rewrite Hrows. unfold py_len in *. by rewrite length_insert.
      * rewrite Hrows. apply Forall_insert; [exact (sh_row b v Hsh) | done].
      * rewrite Houts, Hspecs, Hids, !length_put, Ho, Hs. split; by case_decide.
      * rewrite Hids. unfold py_len. rewrite length_put. pose proof (sh_max b v Hsh) as Hmx. unfold py_len in Hmx. case_decide; lia.
    + intros k x Hk. rewrite Hlk in Hk. case_decide as Hki.
      * subst k. injection Hk as <-. exists r. split; [done|]. split; [done|]. split; [by eexists|]. rewrite Hspec. split; rewrite ?Hslen, ?Hsvoc; try done.
        -- rewrite Houts, put_lookup, decide_True by (done || lia). done.
        -- rewrite Hspecs, put_lookup, decide_True by (done || lia). done.
        -- exists row'. rewrite Hrows, list_lookup_insert_eq by (unfold py_len in Hrl; lia). split_and!; [done | done |]. intros p' Hp'. rewrite Hp in Hp'. by injection Hp' as <-.
        -- intros e He. rewrite Hemb, He. apply lookup_insert_eq.
        -- rewrite Hgen. unfold generator_at. destruct (crs_generator r); [by rewrite lookup_insert_eq | apply Hnone].
        -- rewrite Hbad, Hp. unfold bad_words_at. cbn. destruct (bad_words_token_ids p) as [[|w ws]|] eqn:Hbw; [apply Hnone | apply lookup_insert_eq | apply Hnone].
      * destruct (Hcells k x Hk) as (r' & ? & ? & ? & ?). exists r'. split_and!; try done. eapply cell_same_at; eauto.
    + rewrite Hps. apply Forall_fmap. eapply Forall_impl; [exact Hsets|]. intros sc Hsc. by apply (set_means_add b b' reqs (crs_req_id r) r p sc).
    + intros z Hz. destruct (decide (z = Z.of_nat i)) as [->|Hne]; [exists i, (crs_req_id r); by rewrite Hlk, decide_True|].
      assert (Hz' : is_Some (generators b !! z) \/ is_Some (ib_bad_words_token_ids b !! z)).
      { rewrite Hgen, Hbad in Hz. unfold generator_at, bad_words_at in Hz. repeat case_match; repeat rewrite lookup_insert_ne in Hz by done; done. }
      destruct (Hstray z Hz') as (q & x & -> & Hq). exists q, x. split; [done|]. rewrite Hlk, decide_False; [done|]. intros ->. by eapply Hfree.
    + intros k x row Hk Hrk Hne. rewrite Hlk in Hk. rewrite Hrows in Hrk. case_decide as Hki.
      * subst k. injection Hk as <-. rewrite list_lookup_insert_eq in Hrk by (unfold py_len in Hrl; lia). injection Hrk as <-.
        rewrite (rr_lora _ _ _ _ Hrep) in *. by apply Hl3.
      * rewrite list_lookup_insert_ne in Hrk by done. destruct (Hlora k x row Hk Hrk Hne) as [(s & Hs' & Hin) Hq]. split; [by eapply Hl1 | by apply Hl2].
  - eapply index_ok_add; eauto. apply Hbd.
  - exact Hlay.
Qed.
End Add.

(** * Condensing the persistent batch

    The requests at the highest indices move into the lowest holes until there is none
    below a request: the batch is dense, and the builder has the moves in order. *)

(** ** One move *)

Definition move_list {A} (i j : nat) (l : list A) : list A := match l !! i with Some x => <[j := x]> l | None => l end.

Lemma move_tables n i j ts v : Forall2 (group_ok n) ts v -> Z.of_nat i < n -> Z.of_nat j < n ->
  exists ts', move_row (Z.of_nat i) (Z.of_nat j) ts = Ok ts' /\ Forall2 (group_ok n) ts' (move_list i j <$> v) /\ Forall2 same_layout ts ts'.
Proof.
  intros Hts Hi Hj. eapply tables_mapM; [|exact Hts]. intros t w (Hs & Hh & Hn). unfold py_len in *.
  destruct (lookup_lt_is_Some_2 w i) as [x Hx]; [lia|].
  destruct (move_row_holds t w Hh i j x Hx) as (t' & Ho & Hl & Hh'); [lia|]. exists t'. unfold move_list. rewrite Hx.
  split_and!; [done | done | done |]. by rewrite length_insert.
Qed.

Lemma move_dict_lookup {V} (d : gmap Z V) (i j : nat) z : i <> j -> d !! Z.of_nat j = None ->
  move_dict_value (Z.of_nat i) (Z.of_nat j) d !! z
  = if decide (z = Z.of_nat j) then d !! Z.of_nat i else if decide (z = Z.of_nat i) then None else d !! z.
Proof.
  intros Hij Hj. unfold move_dict_value. destruct (d !! Z.of_nat i) as [x|] eqn:Hi; repeat case_decide; subst;
    repeat ((rewrite lookup_insert_ne by (done || lia)) || (rewrite lookup_delete_ne by (done || lia)));
    rewrite ?lookup_insert_eq, ?lookup_delete_eq; done.
Qed.

Lemma move_mask (mask : option (list (list bool))) i j n : (forall m, mask = Some m -> py_len m = n) -> Z.of_nat i < n -> Z.of_nat j < n ->
  exists mask', (match mask with
     | None => Ok None
     | Some m => row ← py_index m (Z.of_nat i); m ← py_setitem (Z.of_nat j) row m; Ok (Some m)
     end) = Ok mask' /\ (forall m, mask' = Some m -> py_len m = n) /\ (mask' = None <-> mask = None).
Proof.
  intros Hm Hi Hj. destruct mask as [m|]; [|by exists None]. specialize (Hm m eq_refl). unfold py_len in *.
  destruct (lookup_lt_is_Some_2 m i) as [x Hx]; [lia|]. rewrite (py_index_nat _ _ _ Hx). cbn [mbind result_bind].
  rewrite py_setitem_nat by lia. cbn [mbind result_bind]. eexists. split; [reflexivity|]. split; [|done].
  intros m' [= <-]. by rewrite length_insert.
Qed.

(** The lists after a move from [i] to [j]. *)
Definition moved_list {A} (i j : nat) (x : A) (l : list (option A)) : list (option A) := <[i := None]> (<[j := Some x]> l).

Lemma moved_list_lookup {A} i j (x : A) l k : i <> j -> (i < length l)%nat -> (j < length l)%nat ->
  moved_list i j x l !! k = if decide (k = i) then Some None else if decide (k = j) then Some (Some x) else l !! k.
Proof.
  intros Hij Hi Hj. unfold moved_list. repeat case_decide; subst.
  - by rewrite list_lookup_insert_eq by (rewrite length_insert; lia).
  - rewrite list_lookup_insert_ne by done. by rewrite list_lookup_insert_eq.
  - by rewrite !list_lookup_insert_ne by done.
Qed.

(** The batch after the move, by its fields. *)
Lemma move_request_run b v i j x out spec src row' : shape_ok b v -> is_pooling_model b = false -> i <> j ->
  ib_req_ids b !! i = Some (Some x) -> (j < length (ib_req_ids b))%nat ->
  req_output_token_ids b !! i = Some (Some out) -> ib_spec_token_ids b !! i = Some (Some spec) -> rows b !! i = Some src ->
  (forall tgt, rows b !! j = Some tgt -> move_common src tgt = Ok row') ->
  exists b', move_request (Z.of_nat i) (Z.of_nat j) b = Ok b' /\ same_settings b b' /\ logitsprocs b' = logitsprocs b /\ same_layouts b b' /\
    ib_req_ids b' = moved_list i j x (ib_req_ids b) /\ req_output_token_ids b' = moved_list i j out (req_output_token_ids b) /\
    ib_spec_token_ids b' = moved_list i j spec (ib_spec_token_ids b) /\
    ib_req_id_to_index b' = dset x (Z.of_nat j) (ib_req_id_to_index b) /\
    rows b' = <[j := swap_sampling row' src]> (rows b) /\ Forall2 (group_ok (ib_max_num_reqs b)) (ib_block_table b') (move_list i j <$> v) /\
    req_prompt_embeds b' = move_dict_value (Z.of_nat i) (Z.of_nat j) (req_prompt_embeds b) /\
    generators b' = move_dict_value (Z.of_nat i) (Z.of_nat j) (generators b) /\
    ib_bad_words_token_ids b' = move_dict_value (Z.of_nat i) (Z.of_nat j) (ib_bad_words_token_ids b) /\
    (forall m, allowed_token_ids_mask b' = Some m -> py_len m = ib_max_num_reqs b) /\
    (allowed_token_ids_mask b' <> None -> dev_allowed_mask (device b') <> None) /\
    (has_allowed_token_ids b' <> ∅ -> allowed_token_ids_mask b' <> None) /\
    param_sets b' = param_sets b /\ lora_id_to_request_ids b' = lora_id_to_request_ids b /\
    lora_id_to_lora_request b' = lora_id_to_lora_request b /\
    batch_update_builder b' = batch_update_builder b <| moved := moved (batch_update_builder b) ++ [(Z.of_nat i, Z.of_nat j, UNIDIRECTIONAL)] |>.
Proof.
  intros Hsh Hpool Hij Hx Hj Ho Hs Hsrc Hmc. pose proof (lookup_lt_Some _ _ _ Hx) as Hi. destruct (sh_lists b v Hsh) as [Hl1 Hl2].
  assert (Hmaxi : Z.of_nat i < ib_max_num_reqs b) by (pose proof (sh_max b v Hsh); unfold py_len in *; lia).
  assert (Hmaxj : Z.of_nat j < ib_max_num_reqs b) by (pose proof (sh_max b v Hsh); unfold py_len in *; lia).
  destruct (shape_row b v j Hsh Hmaxj) as (tgt & Htgt & _). specialize (Hmc tgt Htgt). pose proof (lookup_lt_Some _ _ _ Htgt) as Hjr.
  unfold move_request. rewrite (py_index_nat _ _ _ Hx), (py_index_nat _ _ _ Ho), (py_index_nat _ _ _ Hs), (py_index_nat _ _ _ Hsrc).
  cbn [mbind result_bind or_raise]. do 2 (rewrite py_setitem_nat by (rewrite ?length_insert; lia); cbn [mbind result_bind]).
  do 2 (rewrite py_setitem_nat by (rewrite ?length_insert; lia); cbn [mbind result_bind]).
  do 2 (rewrite py_setitem_nat by (rewrite ?length_insert; lia); cbn [mbind result_bind]).
  match goal with |- context [update_row _ _ ?y] => set (b1 := y) end.
  rewrite (update_row_ok b1 j _ tgt row' Htgt Hmc). cbn [mbind result_bind]. set (b2 := b1 <| rows := _ |>).
  destruct (move_tables _ i j _ _ (sh_tables b v Hsh) Hmaxi Hmaxj) as (ts & Hts & Htok & Hlay).
  change (ib_block_table b2) with (ib_block_table b). rewrite Hts. cbn [mbind result_bind].
  set (b3 := b2 <| ib_block_table := ts |>). change (is_pooling_model b3) with (is_pooling_model b). rewrite Hpool.
  match goal with |- context [update_row _ _ ?y] => set (b4 := y) end.
  assert (Hrow4 : rows b4 !! j = Some row') by (exact (list_lookup_insert_eq _ _ _ Hjr)).
  rewrite (update_row_ok b4 j _ row' (swap_sampling row' src) Hrow4 eq_refl). cbn [mbind result_bind]. set (b5 := b4 <| rows := _ |>).
  destruct (move_mask (allowed_token_ids_mask b) i j _ (sh_mask b v Hsh) Hmaxi Hmaxj) as (mask' & Hmask & Hmlen & Hmnone).
  change (allowed_token_ids_mask b5) with (allowed_token_ids_mask b). rewrite Hmask. cbn [mbind result_bind].
  eexists. split; [reflexivity|]. split; [by split_and!|]. split; [done|]. split; [exact Hlay|].
  do 4 (split; [reflexivity|]).
  split; [exact (list_insert_insert_eq (rows b) j (swap_sampling row' src) row')|]. split; [exact Htok|]. do 3 (split; [reflexivity|]). split; [exact Hmlen|].
  split; [intros Hne; apply (sh_dev_mask b v Hsh); intros Hnone; apply Hne; by apply Hmnone|].
  split; [intros Hne Hnone; apply Hmnone in Hnone; revert Hnone; by apply (sh_allowed b v Hsh) | by split_and!].
Qed.

Lemma index_ok_move b b' holes i j x : index_ok b holes -> i <> j -> ib_req_ids b !! i = Some (Some x) -> ib_req_ids b !! j = Some None ->
  ib_req_ids b' = moved_list i j x (ib_req_ids b) -> ib_req_id_to_index b' = dset x (Z.of_nat j) (ib_req_id_to_index b) ->
  forall holes', (forall p, p ∈ holes' <-> (p ∈ holes /\ p <> j) \/ p = i) -> index_ok b' holes'.
Proof.
  intros Hi Hij Hx Hj He Hd holes' Hh. pose proof Hi as [Hdict Hget Hholes].
  pose proof (lookup_lt_Some _ _ _ Hx). pose proof (lookup_lt_Some _ _ _ Hj).
  assert (Hlk : forall k, ib_req_ids b' !! k = if decide (k = i) then Some None else if decide (k = j) then Some (Some x) else ib_req_ids b !! k)
    by (intros k; rewrite He; by apply moved_list_lookup).
  split.
  - rewrite Hd. by apply dict_ok_dset.
  - intros y z. rewrite Hd, dget_dset. destruct (decide (y = x)) as [->|Hy].
    + split; [intros [= <-]; exists j; by rewrite Hlk, decide_False, decide_True|]. intros (p & -> & Hp). rewrite Hlk in Hp.
      repeat case_decide; subst; [done | done |]. by pose proof (live_unique b holes i p x Hi Hx Hp).
    + rewrite Hget. split; intros (p & -> & Hp); exists p; (split; [done|]); rewrite Hlk in *; repeat case_decide; subst; congruence.
  - intros p. rewrite Hlk, Hh. repeat case_decide; subst; [by split; auto | split; [done | by intros [[_ ?]| ?]] |].
    rewrite Hholes. intuition done.
Qed.

Lemma move_request_ok h reqs specs b v holes i j x :
  batch_ok h reqs specs b v -> index_ok b holes -> i <> j -> ib_req_ids b !! i = Some (Some x) -> ib_req_ids b !! j = Some None ->
  exists b', move_request (Z.of_nat i) (Z.of_nat j) b = Ok b' /\ batch_ok h reqs specs b' (move_list i j <$> v) /\
    (forall holes', (forall p, p ∈ holes' <-> (p ∈ holes /\ p <> j) \/ p = i) -> index_ok b' holes') /\
    ib_req_ids b' = moved_list i j x (ib_req_ids b) /\ same_settings b b' /\ logitsprocs b' = logitsprocs b /\ same_layouts b b' /\
    length (ib_req_id_to_index b') = length (ib_req_id_to_index b) /\
    batch_update_builder b' = batch_update_builder b <| moved := moved (batch_update_builder b) ++ [(Z.of_nat i, Z.of_nat j, UNIDIRECTIONAL)] |>.
Proof.
  intros Hok Hi Hij Hx Hj. pose proof Hok as [Hsh Hcells Hsets Hstray Hlora Hpool].
  pose proof (lookup_lt_Some _ _ _ Hx) as Hlti. pose proof (lookup_lt_Some _ _ _ Hj) as Hltj. destruct (sh_lists b v Hsh) as [Hl1 Hl2].
  assert (Hmaxj : Z.of_nat j < ib_max_num_reqs b) by (pose proof (sh_max b v Hsh); unfold py_len in *; lia).
  destruct (Hcells i x Hx) as (r & Hr & Hid & Hsp & Hcell). pose proof Hcell as [Hreq Hfit Ho Hs (src & Hsrc & Hrep & Hpar) _ _ _ _].
  destruct (shape_row b v j Hsh Hmaxj) as (tgt & Htgt & Hsize). pose proof (Forall_lookup_1 _ _ _ _ (sh_row b v Hsh) Hsrc) as Hsize0.
  destruct (move_common_ok h _ r (specs x).1 src tgt Hreq Hrep Hsize0 Hsize Hfit) as (row' & Hmc & Hsize' & Hrep' & _).
  destruct (move_request_run b v i j x _ _ src row' Hsh Hpool Hij Hx Hltj Ho Hs Hsrc) as (b' & Hrun & Hset & Hproc & Hlay & Hids & Houts & Hspecs &
    Hidx & Hrows & Htab & Hemb & Hgen & Hbad & Hmask & Hdev & Hall & Hps & Hl & Hlr & Hbd).
  { intros tgt' Ht'. rewrite Htgt in Ht'. by injection Ht' as <-. }
  exists b'. split; [done|]. pose proof Hset as (Hspool & Hsd & Hsmax & Hslen & Hsvoc & _).
  set (row2 := swap_sampling row' src) in *.
  assert (Hlk : forall k, ib_req_ids b' !! k = if decide (k = i) then Some None else if decide (k = j) then Some (Some x) else ib_req_ids b !! k)
    by (intros k; rewrite Hids; by apply moved_list_lookup).
  assert (Hnone : generators b !! Z.of_nat j = None /\ ib_bad_words_token_ids b !! Z.of_nat j = None).
  { split; apply eq_None_not_Some; intros Hy; [destruct (Hstray _ (or_introl Hy)) as (q & y & Hq & Hqy) | destruct (Hstray _ (or_intror Hy)) as (q & y & Hq & Hqy)];
      apply Nat2Z.inj in Hq; subst q; congruence. }
  destruct Hnone as [Hgn Hbn].
  assert (Hview : forall k w, w ∈ v -> move_list i j w !! k = if decide (k = j) then w !! i else w !! k).
  { intros k w Hw. apply list_elem_of_lookup in Hw as [g Hw]. destruct (Forall2_lookup_r _ _ _ _ _ (sh_tables b v Hsh) Hw) as (t & _ & _ & _ & Hn).
    pose proof (sh_max b v Hsh). unfold py_len in *. unfold move_list. destruct (lookup_lt_is_Some_2 w i) as [row Hrow]; [lia|]. rewrite Hrow.
    case_decide; subst; [by rewrite list_lookup_insert_eq by lia | by rewrite list_lookup_insert_ne]. }
  assert (Hviews : forall k, (fun w => w !! k) <$> (move_list i j <$> v) = (fun w => w !! (if decide (k = j) then i else k)) <$> v).
  { intros k. rewrite <- list_fmap_compose. apply list_fmap_ext. intros g w Hw. cbn. rewrite Hview by (by eapply list_elem_of_lookup_2). by case_decide. }
  assert (Hsame : forall k, k <> i -> k <> j -> same_at k b v b' (move_list i j <$> v)).
  { intros k Hki Hkj. split; rewrite ?Hlk, ?Houts, ?Hspecs, ?Hrows, ?Hviews, ?Hemb, ?Hgen, ?Hbad.
    - by rewrite !decide_False.
    - rewrite moved_list_lookup by lia. by rewrite !decide_False.
    - rewrite moved_list_lookup by lia. by rewrite !decide_False.
    - by rewrite list_lookup_insert_ne.
    - by rewrite decide_False.
    - unfold move_dict_value. destruct (req_prompt_embeds b !! Z.of_nat i); [|done]. rewrite lookup_insert_ne by lia. by rewrite lookup_delete_ne by lia.
    - rewrite move_dict_lookup by done. by rewrite !decide_False by lia.
    - rewrite move_dict_lookup by done. by rewrite !decide_False by lia. }
  assert (Hcellj : cell h b' (move_list i j <$> v) j r (specs x)).
  { destruct Hcell as [_ _ _ _ _ Hblk He Hg Hb]. split; rewrite ?Houts, ?Hspecs, ?Hrows, ?Hviews, ?Hemb, ?Hgen, ?Hbad, ?Hslen, ?Hsvoc; try done.
    - rewrite moved_list_lookup by lia. by rewrite decide_False, decide_True.
    - rewrite moved_list_lookup by lia. by rewrite decide_False, decide_True.
    - exists row2. split; [by eapply list_lookup_insert_eq, lookup_lt_Some|].
      split; [by apply swap_sampling_represents | intros; by apply swap_sampling_params, Hpar].
    - by rewrite decide_True.
    - intros e Hee. unfold move_dict_value. rewrite (He e Hee). by rewrite lookup_insert_eq.
    - rewrite move_dict_lookup by done. by rewrite decide_True.
    - rewrite move_dict_lookup by done. by rewrite decide_True. }
  assert (Hlive : forall y, live b' y <-> live b y).
  { intros y. unfold live. split; intros [k Hk].
    - rewrite Hlk in Hk. case_decide; [done|]. case_decide; [injection Hk as <-|]; eauto.
    - destruct (decide (k = i)) as [->|Hki]; [exists j; rewrite Hlk, decide_False, decide_True by done; congruence|].
      exists k. rewrite Hlk, !decide_False; [done | intros ->; congruence | done]. }
  split; [|split; [intros holes' Hh; by eapply index_ok_move|]; split; [done|]; split; [done|]; split; [done|]; split; [done|]; split; [|done]].
  - split; [| | | | |by rewrite Hspool].
    + split; rewrite ?Hslen, ?Hsmax, ?Hrows; try done.
      * exact (sh_len b v Hsh).
      * unfold py_len. rewrite length_insert. exact (sh_rows b v Hsh).
      * apply Forall_insert; [exact (sh_row b v Hsh) | exact Hsize'].
      * rewrite Houts, Hspecs, Hids. unfold moved_list. by rewrite !length_insert.
      * rewrite Hids. unfold moved_list, py_len. rewrite !length_insert. exact (sh_max b v Hsh).
    + intros k y Hk. rewrite Hlk in Hk. case_decide as Hki; [done|]. case_decide as Hkj.
      * subst k. injection Hk as <-. exists r. by split_and!.
      * destruct (Hcells k y Hk) as (r' & ? & ? & ? & ?). exists r'. split_and!; try done. eapply cell_same_at; eauto.
    + rewrite Hps. eapply Forall_impl; [exact Hsets|]. intros sc Hsc y. rewrite (Hsc y). by rewrite Hlive.
    + intros z Hz. rewrite Hgen, Hbad, !move_dict_lookup in Hz by done. destruct (decide (z = Z.of_nat j)) as [->|Hzj].
      { exists j, x. split; [done|]. by rewrite Hlk, decide_False, decide_True. }
      destruct (decide (z = Z.of_nat i)) as [->|Hzi]; [by destruct Hz as [[? ?]|[? ?]]|].
      destruct (Hstray z Hz) as (q & y & -> & Hq). exists q, y. split; [done|]. by rewrite Hlk, !decide_False by lia.
    + intros k y row Hk Hrk Hne. rewrite Hlk in Hk. rewrite Hrows in Hrk. rewrite Hl, Hlr. case_decide as Hki; [done|]. case_decide as Hkj.
      * subst k. injection Hk as <-. rewrite list_lookup_insert_eq in Hrk by (by eapply lookup_lt_Some). injection Hrk as <-.
        change (row_lora row2) with (row_lora row') in *. rewrite (rr_lora _ _ _ _ Hrep') in *. rewrite <- (rr_lora _ _ _ _ Hrep) in *. by eapply Hlora.
      * rewrite list_lookup_insert_ne in Hrk by done. by eapply Hlora.
  - rewrite Hidx, <- (length_fmap fst (dset _ _ _)), <- (length_fmap fst (ib_req_id_to_index b)). apply f_equal, dkeys_dset_mem.
    apply dget_is_Some. eexists. apply (ix_get b holes Hi). eauto.
Qed.

(** ** What a sequence of moves does to the rows *)

Definition ids_view (l : list (option string)) (p : nat) : option string := mjoin (l !! p).

Definition after_move (i j : nat) (x : string) (f : nat -> option string) (p : nat) : option string :=
  if decide (p = i) then None else if decide (p = j) then Some x else f p.
Definition after_swap (i j : nat) (x y : string) (f : nat -> option string) (p : nat) : option string :=
  if decide (p = i) then Some y else if decide (p = j) then Some x else f p.

Inductive replays : list MovedRequest -> (nat -> option string) -> (nat -> option string) -> Prop :=
  | replays_done f f' : (forall p, f p = f' p) -> replays [] f f'
  | replays_move i j x ms f f' : i <> j -> f i = Some x -> f j = None -> replays ms (after_move i j x f) f' ->
      replays ((Z.of_nat i, Z.of_nat j, UNIDIRECTIONAL) :: ms) f f'
  | replays_swap i j x y ms f f' : i <> j -> f i = Some x -> f j = Some y -> replays ms (after_swap i j x y f) f' ->
      replays ((Z.of_nat i, Z.of_nat j, SWAP) :: ms) f f'.

Lemma replays_ext_l ms : forall f g f', (forall p, g p = f p) -> replays ms f f' -> replays ms g f'.
Proof.
  induction ms as [|m ms IH]; intros f g f' Hext Hr; inversion Hr; subst.
  - constructor. intros p. by rewrite Hext.
  - eapply replays_move; rewrite ?Hext; eauto. eapply IH; [|done]. intros p. unfold after_move. by repeat case_decide.
  - eapply replays_swap; rewrite ?Hext; eauto. eapply IH; [|done]. intros p. unfold after_swap. by repeat case_decide.
Qed.

Lemma replays_app ms ms' f g k : replays ms f g -> replays ms' g k -> replays (ms ++ ms') f k.
Proof.
  induction 1 as [f g Hfg|i j x ms f g Hij Hi Hj _ IH|i j x y ms f g Hij Hi Hj _ IH]; intros Hk; cbn.
  - by eapply replays_ext_l.
  - eapply replays_move; eauto.
  - eapply replays_swap; eauto.
Qed.

(** The holes that moves fill. *)
Definition filled_by (ms : list MovedRequest) : list Z :=
  omap (fun m : MovedRequest => match m.2 with UNIDIRECTIONAL => Some m.1.2 | SWAP => None end) ms.

(** ** The loop *)

Lemma last_filled_ok (empty : list Z) fuel : forall last, (length (List.filter (fun z => Z.leb z last) empty) <= fuel)%nat ->
  let l := last_filled fuel last empty in l <= last /\ l ∉ empty /\ forall z, l < z <= last -> z ∈ empty.
Proof.
  induction fuel as [|fuel IH]; intros last Hf; cbn.
  - split; [lia|]. split; [|lia]. intros Hin. assert (Hin' : In last (List.filter (fun z => Z.leb z last) empty)).
    { apply filter_In. split; [by apply list_elem_of_In | lia]. }
    destruct (List.filter (fun z => Z.leb z last) empty); [done | cbn in Hf; lia].
  - case_bool_decide as Hin; [|split; [lia|]; split; [done | lia]].
    assert (Hlt : (length (List.filter (fun z => Z.leb z (last - 1)) empty) < length (List.filter (fun z => Z.leb z last) empty))%nat).
    { clear IH Hf. induction empty as [|e l IHl]; [by apply elem_of_nil in Hin|]. cbn.
      assert (Hle : (length (List.filter (fun z => Z.leb z (last - 1)) l) <= length (List.filter (fun z => Z.leb z last) l))%nat).
      { clear. induction l as [|a l IH]; [done|]. cbn. destruct (Z.leb_spec a (last - 1)), (Z.leb_spec a last); cbn; lia. }
      apply elem_of_cons in Hin as [<-|Hin].
      - destruct (Z.leb_spec last (last - 1)); [lia|]. destruct (Z.leb_spec last last); [|lia]. cbn. lia.
      - specialize (IHl Hin). destruct (Z.leb_spec e (last - 1)), (Z.leb_spec e last); cbn; lia. }
    destruct (IH (last - 1)) as (H1 & H2 & H3); [lia|]. split; [lia|]. split; [done|]. intros z Hz.
    destruct (decide (z = last)) as [->|Hne]; [done|]. apply H3. lia.
Qed.

Section Loop.
Context (h : OutputStore) (reqs : Requests) (specs : string -> Drafts).

(** Holes not yet filled, and the end of the part not yet emptied. *)
Record condensing (b : InputBatch) (v : Views) (holes : list nat) (last : Z) : Prop := {
  cd_ok : batch_ok h reqs specs b v;
  cd_index : exists all, index_ok b all /\ forall p, p ∈ all <-> p ∈ holes \/ (last < Z.of_nat p /\ (p < length (ib_req_ids b))%nat);
  cd_builder : builder_ok (batch_update_builder b) holes;
  cd_last : last < py_len (ib_req_ids b);
}.

(** Requests first, then holes. *)
Definition packed (n : nat) (l : list (option string)) : Prop :=
  (n <= length l)%nat /\ (forall p, (p < n)%nat -> exists id, l !! p = Some (Some id)) /\
  (forall p, (n <= p < length l)%nat -> l !! p = Some None).

Lemma packed_of (l : list (option string)) (last : Z) : -1 <= last < py_len l ->
  (forall p, l !! p = Some None <-> last < Z.of_nat p /\ (p < length l)%nat) -> packed (Z.to_nat (last + 1)) l.
Proof.
  unfold py_len. intros Hlast Hn. split; [lia|]. split; [|intros p Hp; apply Hn; lia].
  intros p Hp. destruct (lookup_lt_is_Some_2 l p) as [[id|] Ho]; [lia | eauto |]. apply Hn in Ho. lia.
Qed.

Lemma batch_ok_builder b v bd : batch_ok h reqs specs b v -> batch_ok h reqs specs (b <| batch_update_builder := bd |>) v.
Proof.
  intros [[] Hcells Hsets Hstray Hlora Hpool]. split; [by split | | exact Hsets | exact Hstray | exact Hlora | exact Hpool].
  intros i id Hi. destruct (Hcells i id Hi) as (r & ? & ? & ? & []). exists r. by split_and!.
Qed.

Lemma index_ok_builder b all bd : index_ok b all -> index_ok (b <| batch_update_builder := bd |>) all.
Proof. intros []. by split. Qed.

(** The last request and the lowest hole of a round. *)
Lemma condense_round b v holes last : condensing b v holes last -> holes <> [] -> -1 <= last ->
  exists l p rest, let bd := ensure_removed_sorted (batch_update_builder b) in
    last_filled (length (removed_list (batch_update_builder b))) last (removed_list (batch_update_builder b)) = l /\
    peek_removed (batch_update_builder b) = (Some (Z.of_nat p), bd) /\
    (pop_removed bd).2 = bd <| removed_list := removelast (removed_list bd) |> /\
    holes ≡ₚ p :: rest /\ (forall q, q ∈ rest -> (p < q)%nat) /\ builder_ok bd holes /\
    builder_ok (bd <| removed_list := removelast (removed_list bd) |>) rest /\
    -1 <= l <= last /\ (forall q, Z.of_nat q = l -> q ∉ holes) /\ (forall q, l < Z.of_nat q <= last -> q ∈ holes).
Proof.
  intros [_ _ Hbd _] Hne Hpos. pose proof (lowest_hole _ holes Hbd Hne) as (p & rest & Hlast & Hrest & Hmin & Hb1 & Hb2).
  destruct (ensure_sorted_ok _ _ Hbd) as (_ & Hf & _). set (bd := ensure_removed_sorted (batch_update_builder b)) in *. cbn zeta in *.
  pose proof Hbd as (Hperm & _). set (empty := removed_list (batch_update_builder b)) in *.
  destruct (last_filled_ok empty (length empty) last) as (H1 & H2 & H3); [apply List.filter_length_le|]. eexists _, p, rest. cbn zeta.
  split; [reflexivity|]. assert (Hmem : forall q, Z.of_nat q ∈ empty <-> q ∈ holes).
  { intros q. rewrite Hperm, list_elem_of_fmap. split; [intros (q' & Hq & ?); apply Nat2Z.inj in Hq; by subst | eauto]. }
  split. { unfold peek_removed. rewrite (has_removed_true _ holes Hbd Hne). cbn zeta. fold bd. by rewrite Hlast. }
  split. { unfold pop_removed. rewrite (has_removed_true _ holes Hb1 Hne). cbn zeta. assert (Hidem : ensure_removed_sorted bd = bd) by (unfold ensure_removed_sorted at 1; by rewrite Hf). by rewrite Hidem. }
  split; [done|]. split; [done|]. split; [done|]. split; [done|]. split.
  - split; [|done]. destruct (decide (last_filled (length empty) last empty < -1)); [|lia].
    assert (Hin : -1 ∈ empty) by (apply H3; lia). rewrite Hperm in Hin. apply list_elem_of_fmap in Hin as (q & Hq & _). lia.
  - split; [intros q Hq; rewrite <- Hmem; by rewrite Hq | intros q Hq; rewrite <- Hmem; by apply H3].
Qed.

Lemma condense_loop_ok fuel : forall b v holes last, condensing b v holes last -> (length holes <= fuel)%nat -> -1 <= last ->
  exists b' v' ms rest n, condense_loop fuel last b = Ok b' /\ batch_ok h reqs specs b' v' /\ (exists all, index_ok b' all) /\
    packed n (ib_req_ids b') /\ builder_ok (batch_update_builder b') rest /\
    replays ms (ids_view (ib_req_ids b)) (ids_view (ib_req_ids b')) /\ Z.of_nat <$> holes ≡ₚ filled_by ms ++ (Z.of_nat <$> rest) /\
    (forall q, q ∈ rest -> (n <= q)%nat) /\
    added (batch_update_builder b') = added (batch_update_builder b) /\
    moved (batch_update_builder b') = moved (batch_update_builder b) ++ ms /\
    same_settings b b' /\ logitsprocs b' = logitsprocs b /\ same_layouts b b' /\ length (ib_req_ids b') = length (ib_req_ids b) /\
    length (ib_req_id_to_index b') = length (ib_req_id_to_index b).
Proof.
  induction fuel as [|fuel IH]; intros b v holes last Hc Hfuel Hpos; pose proof Hc as [Hok (all & Hall & Hholes) Hbd Hlast];
    (destruct (decide (holes = [])) as [->|Hne];
      [exists b, v, [], [], (Z.to_nat (last + 1)); cbn [condense_loop]; rewrite (builder_ok_empty _ Hbd); split; [reflexivity|];
       split; [done|]; split; [eauto|]; split;
         [apply packed_of; [lia|]; intros p; rewrite (ix_holes b all Hall), Hholes; split; [by intros [?%elem_of_nil|?] | eauto] |];
       split; [done|]; split; [by constructor|]; split; [done|]; split; [by intros q ?%elem_of_nil|]; rewrite app_nil_r;
       split_and!; auto using same_settings_refl, same_layouts_refl|]).
  { destruct holes; [done | cbn in Hfuel; lia]. }
  destruct (condense_round b v holes last Hc Hne Hpos) as (l & p & rest & Hl & Hpeek & Hpop & Hrest & Hmin & Hb1 & Hb2 & Hlr & Hl1 & Hl2).
  destruct (removed_list (batch_update_builder b)) as [|e es] eqn:Hrl; [apply (f_equal length) in Hrl; destruct Hbd as (Hperm & _); apply Permutation_length in Hperm; rewrite length_fmap in Hperm; destruct holes; [done|]; cbn in *; lia|].
  cbn [condense_loop]. rewrite Hrl, Hl, Hpeek. cbn zeta. cbn [or_raise mbind result_bind].
  set (bd := ensure_removed_sorted (batch_update_builder b)) in *.
  assert (Hpin : p ∈ holes) by (rewrite Hrest; by left).
  destruct (Z.leb_spec l (Z.of_nat p)) as [Hle|Hgt].
  - exists (b <| batch_update_builder := bd |>), v, [], holes, (Z.to_nat (l + 1)). split; [done|].
    split; [by apply batch_ok_builder|]. split; [eauto using index_ok_builder|].
    assert (Hge : forall q, q ∈ holes -> l < Z.of_nat q).
    { intros q Hq. destruct (decide (Z.of_nat q = l)) as [Heq|?]; [by destruct (Hl1 q Heq)|]. rewrite Hrest in Hq. apply elem_of_cons in Hq as [->|Hq]; [lia|].
      specialize (Hmin q Hq). lia. }
    split; [|split; [done|]; split; [by constructor|]; split; [done|]; split; [intros q Hq; specialize (Hge q Hq); lia|]].
    + apply packed_of; [change (-1 <= l < py_len (ib_req_ids b)); lia|]. intros q. change (ib_req_ids b !! q = Some None <-> l < Z.of_nat q /\ (q < length (ib_req_ids b))%nat).
      rewrite (ix_holes b all Hall). split.
      * intros Hq. split; [|apply (ix_holes b all Hall) in Hq; by eapply lookup_lt_Some]. apply Hholes in Hq as [Hq|?]; [by apply Hge | lia].
      * intros [Hq ?]. apply Hholes. destruct (decide (Z.of_nat q <= last)); [left; apply Hl2; lia | right; lia].
    + destruct (ensure_sorted_ok _ _ Hbd) as (_ & _ & Ha & Hm). fold bd in Ha, Hm. change (batch_update_builder (b <| batch_update_builder := bd |>)) with bd.
      rewrite app_nil_r. split_and!; [done | done | by split_and! | done | exact (same_layouts_refl b) | done | done].
  - cbn [batch_update_builder]. change (batch_update_builder (b <| batch_update_builder := bd |>)) with bd. rewrite Hpop.
    match goal with |- context [move_request _ _ ?y] => set (b1 := y) end.
    assert (Hok1 : batch_ok h reqs specs b1 v) by (by do 2 apply batch_ok_builder).
    assert (Hall1 : index_ok b1 all) by (by do 2 apply index_ok_builder).
    assert (Hx : exists x, ib_req_ids b1 !! Z.to_nat l = Some (Some x)).
    { destruct (lookup_lt_is_Some_2 (ib_req_ids b) (Z.to_nat l)) as [[x|] Ho]; [unfold py_len in *; lia | eauto |].
      apply (ix_holes b all Hall), Hholes in Ho as [Ho|Ho]; [by apply Hl1 in Ho; [|lia] | lia]. }
    destruct Hx as [x Hx]. assert (Hj : ib_req_ids b1 !! p = Some None) by (apply (ix_holes b1 all Hall1), Hholes; by left).
    destruct (move_request_ok h reqs specs b1 v all (Z.to_nat l) p x Hok1 Hall1) as (b2 & Hrun & Hok2 & Hix2 & Hids2 & Hset2 & Hproc2 & Hlay2 & Hn2 & Hbd2); [lia | done | done |].
    rewrite Z2Nat.id in Hrun by lia. rewrite Hrun. cbn [mbind result_bind].
    assert (Hlen2 : length (ib_req_ids b2) = length (ib_req_ids b)) by (rewrite Hids2; unfold moved_list; by rewrite !length_insert).
    assert (Hc2 : condensing b2 (move_list (Z.to_nat l) p <$> v) rest (l - 1)).
    { split; [done | | by rewrite Hbd2 | unfold py_len in *; lia]. exists (Z.to_nat l :: filter (fun q => q <> p) all). split.
      - apply Hix2. intros q. rewrite elem_of_cons, list_elem_of_filter. tauto.
      - intros q. rewrite elem_of_cons, list_elem_of_filter, Hholes, Hlen2, Hrest, elem_of_cons.
        assert (p ∉ rest) by (intros Hin; specialize (Hmin p Hin); lia).
        pose proof (lookup_lt_Some _ _ _ Hx) as Hlt. change (ib_req_ids b1) with (ib_req_ids b) in Hlt. split.
        + intros [->|[Hqp [[?|?]|?]]]; [right; lia | done | by left | right; lia].
        + intros [Hq|[Hq1 Hq2]]; [right; split; [intros ->; done | auto]|]. destruct (decide (Z.of_nat q = l)); [left; lia|]. right. split; [lia|].
          destruct (decide (Z.of_nat q <= last)) as [Hql|]; [|right; lia]. left. assert (Hq : q ∈ holes) by (apply Hl2; lia).
          rewrite Hrest in Hq. apply elem_of_cons in Hq as [->|Hq]; [lia | by right]. }
    destruct (IH b2 _ rest (l - 1) Hc2) as (b' & v' & ms & rest' & n & Hrun' & Hok' & Hix' & Hpk' & Hbd' & Hrp' & Hperm' & Hge' & Ha' & Hm' & Hset' & Hproc' & Hlay' & Hlen' & Hn').
    { rewrite Hrest in Hfuel. cbn in Hfuel. lia. }
    { lia. }
    destruct (ensure_sorted_ok _ _ Hbd) as (_ & _ & Ha & Hm). fold bd in Ha, Hm. rewrite Hbd2 in Ha', Hm'.
    change (batch_update_builder b1) with (bd <| removed_list := removelast (removed_list bd) |>) in Ha', Hm'.
    exists b', v', ((Z.of_nat (Z.to_nat l), Z.of_nat p, UNIDIRECTIONAL) :: ms), rest', n. split; [done|]. split; [done|]. split; [done|]. split; [done|]. split; [done|].
    split; [|split; [rewrite Hrest; cbn; by rewrite Hperm'|]; split; [done|]].
    + eapply replays_move; [lia | unfold ids_view; change (ib_req_ids b) with (ib_req_ids b1); by rewrite Hx | unfold ids_view; change (ib_req_ids b) with (ib_req_ids b1); by rewrite Hj |].
      eapply replays_ext_l; [|exact Hrp']. intros q. unfold ids_view, after_move. rewrite Hids2.
      rewrite moved_list_lookup by (try lia; by eapply lookup_lt_Some). by repeat case_decide.
    + split_and!; [by rewrite Ha'; cbn | rewrite Hm'; cbn; rewrite Hm; by rewrite <- (assoc_L (++)) | eapply same_settings_trans; [exact Hset2 | done] |
        by rewrite Hproc' | eapply same_layouts_trans; [exact Hlay2 | done] | congruence | rewrite Hn'; exact Hn2].
Qed.
End Loop.

(** ** The operation *)

Lemma packed_count n l : packed n l -> length (omap id l) = n.
Proof.
  revert n. induction l as [|o l IH]; intros n (Hn & Hs & He); [cbn in *; lia|]. destruct n as [|n].
  - specialize (He 0%nat ltac:(cbn; lia)) as H0. cbn in H0. injection H0 as ->. cbn. apply IH. split; [lia|]. split; [lia|].
    intros p Hp. apply (He (S p)). cbn. lia.
  - destruct (Hs 0%nat ltac:(lia)) as [x Hx]. cbn in Hx. injection Hx as ->. cbn. f_equal. apply IH. split; [cbn in Hn; lia|]. split.
    + intros p Hp. apply (Hs (S p)). lia.
    + intros p Hp. apply (He (S p)). cbn. lia.
Qed.

Lemma holes_count {A} (l : list (option A)) : forall holes, NoDup holes -> (forall p, l !! p = Some None <-> p ∈ holes) ->
  (length (omap id l) + length holes = length l)%nat.
Proof.
  induction l as [|o l IH] using rev_ind; intros holes Hnd Hh.
  { destruct holes as [|p holes]; [done|]. assert (Hp : p ∈ p :: holes) by by left. by apply Hh in Hp. }
  rewrite omap_app, !length_app. destruct o as [x|].
  - cbn. rewrite <- (IH holes Hnd); [lia|]. intros p. rewrite <- Hh. destruct (decide (p < length l)%nat); [by rewrite lookup_app_l|].
    rewrite lookup_app_r by lia. rewrite lookup_ge_None_2 by lia. destruct (p - length l)%nat as [|[|]]; done.
  - assert (Hin : length l ∈ holes) by (apply Hh; by rewrite lookup_app_r, Nat.sub_diag by lia).
    apply elem_of_Permutation in Hin as [rest Hrest]. rewrite Hrest in Hnd |- *. apply NoDup_cons in Hnd as [Hn Hnd]. cbn.
    rewrite <- (IH rest Hnd); [lia|]. intros p. destruct (decide (p = length l)) as [->|Hp].
    + rewrite lookup_ge_None_2 by lia. done.
    + transitivity (p ∈ holes); [|rewrite Hrest, elem_of_cons; tauto]. rewrite <- Hh. destruct (decide (p < length l)%nat); [by rewrite lookup_app_l|].
      rewrite lookup_app_r by lia. rewrite lookup_ge_None_2 by lia. destruct (p - length l)%nat as [|[|]] eqn:He; [lia | done | done].
Qed.

Lemma slice_to_take {A} n (l : list A) : slice_to (Z.of_nat n) l = take n l.
Proof.
  unfold slice_to, slice_pos. destruct (Z.ltb_spec (Z.of_nat n) 0); [lia|]. destruct (decide (n <= length l)%nat).
  - by rewrite Z.min_l, Nat2Z.id by lia.
  - rewrite Z.min_r, Nat2Z.id by lia. by rewrite !take_ge by lia.
Qed.

Definition truncated (n : nat) (b : InputBatch) : InputBatch :=
  b <| ib_req_ids := take n (ib_req_ids b) |> <| req_output_token_ids := take n (req_output_token_ids b) |>
    <| ib_spec_token_ids := take n (ib_spec_token_ids b) |>.

Lemma take_packed n l (p : nat) (id : string) : packed n l -> take n l !! p = Some (Some id) <-> l !! p = Some (Some id).
Proof.
  intros (Hn & Hs & He). destruct (decide (p < n)%nat) as [Hp|Hp]; [by rewrite lookup_take_lt|].
  rewrite lookup_take_ge by lia. split; [done|]. intros Hl. pose proof (lookup_lt_Some _ _ _ Hl). rewrite He in Hl by lia. done.
Qed.

Lemma truncated_ok h reqs specs b v n : batch_ok h reqs specs b v -> packed n (ib_req_ids b) -> batch_ok h reqs specs (truncated n b) v.
Proof.
  intros [Hsh Hcells Hsets Hstray Hlora Hpool] Hp. pose proof Hp as (Hn & Hs & _). destruct (sh_lists b v Hsh) as [Hl1 Hl2].
  assert (Hids : forall p id, ib_req_ids (truncated n b) !! p = Some (Some id) <-> ib_req_ids b !! p = Some (Some id)) by (intros; by apply take_packed).
  assert (Hlive : forall y, live (truncated n b) y <-> live b y) by (intros y; unfold live; split; intros [k Hk]; exists k; by apply Hids).
  split; [| | | | |exact Hpool].
  - pose proof (sh_max b v Hsh) as Hmax. destruct Hsh. split; try done; cbn; unfold py_len in *; rewrite ?length_take; split_and? || idtac; lia.
  - intros i id Hi. apply Hids in Hi as Hi'. destruct (Hcells i id Hi') as (r & ? & ? & ? & []). exists r. split_and!; try done.
    assert (Hin : (i < n)%nat) by (apply lookup_lt_Some in Hi; cbn in Hi; rewrite length_take in Hi; lia).
    split; try done; cbn; by rewrite lookup_take_lt.
  - change (param_sets (truncated n b)) with (param_sets b). eapply Forall_impl; [exact Hsets|]. intros sc Hsc y. rewrite (Hsc y). by rewrite Hlive.
  - intros z Hz. destruct (Hstray z Hz) as (p & y & -> & Hy). exists p, y. by rewrite Hids.
  - intros p y row Hy. apply Hids in Hy. by apply Hlora.
Qed.

Lemma truncated_index b n all : index_ok b all -> packed n (ib_req_ids b) -> index_ok (truncated n b) [].
Proof.
  intros [Hd Hg Hh] Hp. pose proof Hp as (Hn & Hs & _). split; [exact Hd | |].
  - intros id i. change (ib_req_id_to_index (truncated n b)) with (ib_req_id_to_index b). rewrite Hg.
    by split; intros (p & -> & Hi); exists p; (split; [done|]); apply (take_packed n (ib_req_ids b) p id Hp).
  - intros p. split; [|by intros ?%elem_of_nil]. cbn. intros Ht. assert (Hlt : (p < n)%nat) by (apply lookup_lt_Some in Ht; rewrite length_take in Ht; lia).
    rewrite lookup_take_lt in Ht by done. destruct (Hs p Hlt) as [x Hx]. congruence.
Qed.

Lemma truncated_view n l p : packed n l -> ids_view (take n l) p = ids_view l p.
Proof.
  intros (Hn & Hs & He). unfold ids_view. destruct (decide (p < n)%nat); [by rewrite lookup_take_lt|]. rewrite lookup_take_ge by lia.
  destruct (l !! p) eqn:Hl; [|done]. pose proof (lookup_lt_Some _ _ _ Hl). rewrite He in Hl by lia. by injection Hl as <-.
Qed.

Lemma replays_ext_r ms f g g' : (forall p, g' p = g p) -> replays ms f g -> replays ms f g'.
Proof.
  intros Hext. induction 1 as [f g Hfg|i j x ms f g Hij Hi Hj _ IH|i j x y ms f g Hij Hi Hj _ IH]; [constructor; intros; by rewrite Hext | |];
    [eapply replays_move | eapply replays_swap]; eauto.
Qed.

Lemma condense_ok h reqs specs b v holes :
  batch_ok h reqs specs b v -> index_ok b holes -> builder_ok (batch_update_builder b) holes ->
  exists b' v' ms rest, condense b = Ok b' /\ batch_ok h reqs specs b' v' /\ index_ok b' [] /\
    builder_ok (batch_update_builder b') rest /\
    replays ms (ids_view (ib_req_ids b)) (ids_view (ib_req_ids b')) /\ Z.of_nat <$> holes ≡ₚ filled_by ms ++ (Z.of_nat <$> rest) /\
    (forall q, q ∈ rest -> (length (ib_req_ids b') <= q)%nat) /\
    added (batch_update_builder b') = added (batch_update_builder b) /\
    moved (batch_update_builder b') = moved (batch_update_builder b) ++ ms /\
    same_settings b b' /\ logitsprocs b' = logitsprocs b /\ same_layouts b b'.
Proof.
  intros Hok Hix Hbd. unfold condense. unfold removed. destruct (ensure_sorted_ok _ _ Hbd) as (Hbd1 & Hf & Ha & Hm).
  set (bd := ensure_removed_sorted (batch_update_builder b)) in *. set (b1 := b <| batch_update_builder := bd |>).
  assert (Hok1 : batch_ok h reqs specs b1 v) by by apply batch_ok_builder.
  assert (Hix1 : index_ok b1 holes) by by apply index_ok_builder.
  assert (Hcount : py_len (removed_list bd) = py_len holes) by (unfold py_len; destruct Hbd1 as (Hp & _); by rewrite Hp, length_fmap).
  assert (Hfin : forall b2 v2 ms rest n, batch_ok h reqs specs b2 v2 -> (exists all, index_ok b2 all) -> packed n (ib_req_ids b2) ->
    builder_ok (batch_update_builder b2) rest -> replays ms (ids_view (ib_req_ids b)) (ids_view (ib_req_ids b2)) ->
    Z.of_nat <$> holes ≡ₚ filled_by ms ++ (Z.of_nat <$> rest) -> (forall q, q ∈ rest -> (n <= q)%nat) ->
    let b' := truncated n b2 in batch_ok h reqs specs b' v2 /\ index_ok b' [] /\ builder_ok (batch_update_builder b') rest /\
    replays ms (ids_view (ib_req_ids b)) (ids_view (ib_req_ids b')) /\ Z.of_nat <$> holes ≡ₚ filled_by ms ++ (Z.of_nat <$> rest) /\
    (forall q, q ∈ rest -> (length (ib_req_ids b') <= q)%nat)).
  { intros b2 v2 ms rest n H1 [all2 H2] H3 H4 H5 H6 H7. cbn zeta. split; [by apply truncated_ok|]. split; [by eapply truncated_index|]. split; [done|].
    split; [eapply replays_ext_r; [|exact H5]; intros; by apply truncated_view|]. split; [done|]. intros q Hq. specialize (H7 q Hq).
    cbn. rewrite length_take. lia. }
  destruct (removed_list bd) as [|e es] eqn:Hrl.
  - assert (holes = []) as -> by (destruct holes; [done | cbn in Hcount; unfold py_len in Hcount; cbn in Hcount; lia]).
    exists b1, v, [], []. split; [done|]. split; [done|]. split; [done|]. split; [done|]. split; [by constructor|]. split; [done|].
    split; [by intros q ?%elem_of_nil|]. change (batch_update_builder b1) with bd. rewrite Ha, Hm, app_nil_r. split_and!; [done | done | by split_and! | done | exact (same_layouts_refl b)].
  - change (ib_num_reqs b) with (ib_num_reqs b1). pose proof (index_size b1 holes Hix1) as Hsize.
    destruct (Z.eqb_spec (ib_num_reqs b1) 0) as [Hz|Hz].
    + assert (Hp0 : packed 0 (ib_req_ids b1)).
      { split; [lia|]. split; [lia|]. intros p Hp. destruct (lookup_lt_is_Some_2 (ib_req_ids b1) p) as [[x|] Hx]; [lia | | done]. exfalso.
        unfold ib_num_reqs, py_len in Hz. assert (Hin : x ∈ omap id (ib_req_ids b1)) by (apply list_elem_of_omap; exists (Some x); split; [by eapply list_elem_of_lookup_2 | done]).
        apply list_elem_of_lookup in Hin as [k Hk]. apply lookup_lt_Some in Hk. rewrite <- Hsize in Hk. lia. }
      destruct (Hfin b1 v [] holes 0%nat) as (H1 & H2 & H3 & H4 & H5 & H6); [done | by exists holes | done | done | by constructor | done | intros; lia |].
      exists (truncated 0 b1), v, [], holes. split; [done|]. split; [done|]. split; [done|]. split; [done|]. split; [done|]. split; [done|]. split; [done|].
      change (batch_update_builder (truncated 0 b1)) with bd. rewrite Ha, Hm, app_nil_r. split_and!; [done | done | by split_and! | done | exact (same_layouts_refl b)].
    + set (last := ib_num_reqs b1 + py_len (e :: es) - 1).
      assert (Hlast : last = py_len (ib_req_ids b) - 1).
      { unfold last, ib_num_reqs, py_len. rewrite Hsize. unfold py_len in Hcount. rewrite Hcount.
        destruct Hbd1 as (_ & Hnd & _). pose proof (holes_count (ib_req_ids b1) holes Hnd (ix_holes b1 holes Hix1)) as Hc. change (ib_req_ids b1) with (ib_req_ids b) in *. lia. }
      destruct (condense_loop_ok h reqs specs (length (e :: es)) b1 v holes last) as (b2 & v2 & ms & rest & n & Hrun & Hok2 & Hix2 & Hpk & Hbd2 & Hrp & Hperm & Hge & Ha2 & Hm2 & Hset & Hproc & Hlay & Hlen & Hn).
      { split; [done | | done |]; [|change (last < py_len (ib_req_ids b)); lia]. exists holes. split; [done|]. intros p. split; [by left|]. intros [?|[H1 H2]]; [done|].
        exfalso. change (ib_req_ids b1) with (ib_req_ids b) in H2. unfold py_len in Hlast. lia. }
      { unfold py_len in Hcount. lia. }
      { unfold py_len in *. lia. }
      rewrite Hrun. cbn [mbind result_bind]. assert (Hnn : ib_num_reqs b1 = Z.of_nat n).
      { destruct Hix2 as [all2 Hix2]. pose proof (index_size b2 all2 Hix2) as Hs2. rewrite (packed_count n _ Hpk) in Hs2. unfold ib_num_reqs, py_len. lia. }
      destruct (Hfin b2 v2 ms rest n) as (H1 & H2 & H3 & H4 & H5 & H6); try done.
      exists (truncated n b2), v2, ms, rest. pose proof Hpk as (Hle & _). destruct (sh_lists b2 v2 (bo_shape _ _ _ _ _ Hok2)) as [Hl1 Hl2].
      split. { rewrite Hnn. by rewrite !slice_to_take. }
      change (batch_update_builder (truncated n b2)) with (batch_update_builder b2). rewrite Ha2, Hm2. change (batch_update_builder b1) with bd. rewrite Ha, Hm.
      split_and!; done.
Qed.
