(* ===== verification/ReorderProps.v ===== *)
(** * The reordered batch

    Following the cycles of the source-to-destination map puts every row where the map
    sends it, whatever the state that is reordered, as long as its exchange does
    what it says; and the map of the regions sorts the batch by region. *)

From S2P Require Import Prelude PyDict PyList PyFloat Request Outputs Numpy BlockTable Sampling BatchUpdate InputBatch ReorderBatch InputBatchInv InputBatchOps.
From stdpp Require Import sorting.
#[local] Open Scope Z_scope.

(** ** Cycles *)

Section Cycles.
Context {S X : Type} (swap : Z -> Z -> S -> result S) (Inv : S -> Prop) (view : S -> list X).
Context (swap_ok : forall s (i j : nat) x y, Inv s -> i <> j -> view s !! i = Some x -> view s !! j = Some y ->
  exists s', swap (Z.of_nat i) (Z.of_nat j) s = Ok s' /\ Inv s' /\ view s' = <[j := x]> (<[i := y]> (view s))).

Context (n : nat).

(** [tau p]: where the row at [p] has to go; [T q x] says that [x] belongs at [q]. *)
Definition destined (tau : nat -> nat) (T : nat -> X -> Prop) (l : list X) : Prop :=
  length l = n /\ (forall p x, l !! p = Some x -> T (tau p) x) /\
  (forall p q, (p < length l)%nat -> (q < length l)%nat -> tau p = tau q -> p = q).

Definition dest (m : dict Z Z) (p : nat) : nat := Z.to_nat (dget_or (Z.of_nat p) (Z.of_nat p) m).

(** What the map says about [tau]: at processed keys the rows are in place, at the
    source of the cycle [tau] is the pending destination. *)
Definition follows (m : dict Z Z) (done : nat -> Prop) (tau : nat -> nat) (p : nat) : Prop :=
  (done p /\ tau p = p) \/ (~ done p /\ tau p = dest m p).

(** The keys that the map still moves. *)
Definition unsettled (m : dict Z Z) : nat := length (List.filter (fun p => negb (p.1 =? p.2)) m).

Lemma unsettled_dset m d v : dict_ok m -> dget d m = Some v -> v <> d -> unsettled (dset d d m) = Nat.pred (unsettled m).
Proof.
  unfold unsettled. intros Hok Hd Hne. induction m as [|[k w] m IH]; [done|]. cbn in *.
  apply NoDup_cons in Hok as [Hk Hok]. destruct (decide (d = k)) as [->|Hdk].
  - injection Hd as ->. cbn. rewrite Z.eqb_refl. cbn. destruct (Z.eqb_spec k v); [congruence|]. done.
  - cbn. specialize (IH Hok Hd). destruct (Z.eqb_spec k w); cbn; [done|]. rewrite IH.
    destruct (length (List.filter _ m)) eqn:Hlen; [|done]. exfalso.
    apply dget_elem_of in Hd. apply nil_length_inv in Hlen.
    assert (Hin : (d, v) ∈ List.filter (fun p : Z * Z => negb (p.1 =? p.2)) m).
    { apply list_elem_of_In, filter_In. split; [by apply list_elem_of_In|]. cbn. by destruct (Z.eqb_spec d v). }
    rewrite Hlen in Hin. by apply elem_of_nil in Hin.
Qed.

Lemma dest_dset m d e p : dest (dset (Z.of_nat d) e m) p = if decide (p = d) then Z.to_nat e else dest m p.
Proof.
  unfold dest, dget_or. rewrite dget_dset. destruct (decide (p = d)) as [->|Hne]; [by rewrite decide_True|].
  by rewrite decide_False by lia.
Qed.

(** One exchange moves the row at the source to its destination. *)
Lemma destined_swap tau T l src x y :
  destined tau T l -> tau src <> src -> l !! src = Some x -> l !! tau src = Some y ->
  destined (fun p => if decide (p = tau src) then tau src else if decide (p = src) then tau (tau src) else tau p) T
    (<[tau src := x]> (<[src := y]> l)).
Proof.
  intros (Hlen & HT & Hinj) Hne Hx Hy. pose proof (lookup_lt_Some _ _ _ Hx). pose proof (lookup_lt_Some _ _ _ Hy).
  split; [by rewrite !length_insert|]. split.
  - intros p z Hp. destruct (decide (p = tau src)) as [->|Hp1].
    + rewrite list_lookup_insert_eq in Hp by (rewrite length_insert; done). injection Hp as <-. by apply HT.
    + rewrite list_lookup_insert_ne in Hp by done. destruct (decide (p = src)) as [->|Hp2].
      * rewrite list_lookup_insert_eq in Hp by done. injection Hp as <-. by apply HT.
      * rewrite list_lookup_insert_ne in Hp by done. by apply HT.
  - rewrite !length_insert. intros p q Hp Hq Heq.
    destruct (decide (p = tau src)) as [->|], (decide (q = tau src)) as [->|]; [done | | |].
    + destruct (decide (q = src)) as [->|]; [by apply Hinj in Heq; congruence|]. apply Hinj in Heq; [congruence | done | done].
    + destruct (decide (p = src)) as [->|]; [by apply Hinj in Heq; congruence|]. apply Hinj in Heq; [congruence | done | done].
    + destruct (decide (p = src)) as [->|], (decide (q = src)) as [->|]; [done | | |].
      * apply Hinj in Heq; [congruence | done | done].
      * apply Hinj in Heq; [congruence | done | done].
      * by apply Hinj.
Qed.

(** Destinations are indices. *)
Definition nonneg (m : dict Z Z) : Prop := forall k v, dget k m = Some v -> 0 <= v.

Lemma dest_Z m p : nonneg m -> Z.of_nat (dest m p) = dget_or (Z.of_nat p) (Z.of_nat p) m.
Proof.
  intros Hm. unfold dest, dget_or. destruct (dget (Z.of_nat p) m) as [v|] eqn:Hv; [|lia]. specialize (Hm _ _ Hv). lia.
Qed.

Lemma follow_cycle_ok T done_ fuel : forall tau m s src,
  dict_ok m -> nonneg m -> Inv s -> destined tau T (view s) -> (src < n)%nat -> ~ done_ src ->
  (forall p, (p < n)%nat -> (tau p < n)%nat) ->
  (forall p, (p < n)%nat -> p <> src -> follows m done_ tau p) -> (unsettled m <= fuel)%nat ->
  exists m' s' tau', follow_cycle swap fuel (Z.of_nat src) (Z.of_nat (tau src)) m s = Ok (m', s') /\
    dict_ok m' /\ nonneg m' /\ dkeys m' = dkeys m /\ Inv s' /\ destined tau' T (view s') /\
    (forall p, (p < n)%nat -> (tau' p < n)%nat) /\
    (forall p, (p < n)%nat -> follows m' (fun q => done_ q \/ q = src) tau' p).
Proof.
  induction fuel as [|fuel IH]; intros tau m s src Hok Hnn HI Hd Hsrc Hnd Hrange Hfol Hfuel; cbn [follow_cycle].
  all: destruct (Z.eqb_spec (Z.of_nat src) (Z.of_nat (tau src))) as [Heq|Hne].
  1,3: exists m, s, tau; do 7 (split; [done|]); intros p Hp; destruct (decide (p = src)) as [->|Hps];
    [left; split; [auto | lia] |
     destruct (Hfol p Hp Hps) as [[? ?]|[? ?]]; [left; auto | right; split; [intros [?|?]; done | done]]].
  all: assert (Hmoved : tau src <> src) by lia; pose proof Hd as (Hlen & _ & Hinj).
  all: assert (Htt : tau (tau src) <> tau src) by (intros Ht; apply Hinj in Ht; [done | rewrite Hlen; auto | rewrite Hlen; auto]).
  all: destruct (Hfol (tau src) (Hrange _ Hsrc) Hmoved) as [[_ Hbad]|[Hnd' Hdest]]; [done|].
  all: assert (Hget : exists v, dget (Z.of_nat (tau src)) m = Some v /\ v <> Z.of_nat (tau src))
    by (unfold dest, dget_or in Hdest; destruct (dget (Z.of_nat (tau src)) m) as [v|]; [|rewrite Nat2Z.id in Hdest; done];
        exists v; split; [done | intros ->; rewrite Nat2Z.id in Hdest; done]).
  all: destruct Hget as (v & Hv & Hvne); pose proof (unsettled_dset m _ v Hok Hv Hvne) as Hless.
  { exfalso. assert (Hpos : (0 < unsettled m)%nat); [|lia]. unfold unsettled. apply dget_elem_of in Hv.
    destruct (List.filter _ m) eqn:Hf; [|cbn; lia]. exfalso.
    assert (Hin : (Z.of_nat (tau src), v) ∈ List.filter (fun p : Z * Z => negb (p.1 =? p.2)) m).
    { apply list_elem_of_In, filter_In. split; [by apply list_elem_of_In|]. cbn. apply negb_true_iff, Z.eqb_neq. done. }
    rewrite Hf in Hin. by apply elem_of_nil in Hin. }
  destruct (lookup_lt_is_Some_2 (view s) src) as [x Hx]; [lia|].
  destruct (lookup_lt_is_Some_2 (view s) (tau src)) as [y Hy]; [rewrite Hlen; auto|].
  destruct (swap_ok s src (tau src) x y HI (not_eq_sym Hmoved) Hx Hy) as (s1 & Hswap & HI1 & Hview). rewrite Hswap. cbn [mbind result_bind].
  pose proof (destined_swap tau T (view s) src x y Hd Hmoved Hx Hy) as Hd1. rewrite <- Hview in Hd1.
  set (tau1 := fun p => _) in Hd1.
  assert (Hsrc1 : tau1 src = tau (tau src)).
  { unfold tau1. rewrite decide_False by done. by rewrite decide_True. }
  rewrite <- (dest_Z m (tau src) Hnn), <- Hdest, <- Hsrc1.
  edestruct (IH tau1 (dset (Z.of_nat (tau src)) (Z.of_nat (tau src)) m) s1 src)
    as (m' & s' & tau' & Hrun & Hok' & Hnn' & Hkeys & Hrest).
  - by apply dict_ok_dset.
  - intros k w. rewrite dget_dset. case_decide; [intros [= <-]; lia | apply Hnn].
  - done.
  - done.
  - done.
  - done.
  - intros p Hp. unfold tau1. repeat case_decide; auto.
  - intros p Hp Hps. unfold tau1. destruct (decide (p = tau src)) as [->|Hpt].
    + right. split; [done|]. rewrite dest_dset, !decide_True by done. by rewrite Nat2Z.id.
    + unfold follows. cbn beta. rewrite !decide_False by done. destruct (Hfol p Hp Hps) as [?|[? Hf]]; [by left|]. right. split; [done|].
      by rewrite dest_dset, decide_False by done.
  - lia.
  - exists m', s', tau'. rewrite Hrun. split; [done|]. split; [done|]. split; [done|]. split; [|done].
    rewrite Hkeys. apply dkeys_dset_mem. by eapply elem_of_dkeys.
Qed.

(** All cycles: every row ends at its destination. *)
Lemma follow_cycles_from T keys : forall done_ tau m s,
  dict_ok m -> nonneg m -> Inv s -> destined tau T (view s) -> NoDup keys ->
  (forall k, k ∈ keys -> exists p, k = Z.of_nat p /\ (p < n)%nat /\ ~ done_ p /\ k ∈ dkeys m) ->
  (forall p, (p < n)%nat -> (tau p < n)%nat) ->
  (forall p, (p < n)%nat -> follows m done_ tau p) ->
  exists m' s' tau', for_each (fun src ms => dst ← or_raise KeyError (dget src ms.1); follow_cycle swap (length m) src dst ms.1 ms.2) keys (m, s)
      = Ok (m', s') /\ dkeys m' = dkeys m /\ Inv s' /\ destined tau' T (view s') /\
    (forall p, (p < n)%nat -> follows m' (fun q => done_ q \/ Z.of_nat q ∈ keys) tau' p).
Proof.
  assert (Hlen : forall m1 m2 : dict Z Z, dkeys m1 = dkeys m2 -> length m1 = length m2).
  { intros m1 m2 Hk. apply (f_equal length) in Hk. unfold dkeys in Hk. by rewrite !length_fmap in Hk. }
  intros done_ tau m s. remember (length m) as fuel eqn:Hfuel. revert done_ tau m s Hfuel.
  induction keys as [|k keys IH]; intros done_ tau m s Hfuel Hok Hnn HI Hd Hnd Hkeys Hrange Hfol; cbn [for_each].
  { exists m, s, tau. do 4 (split; [done|]). intros p Hp. destruct (Hfol p Hp) as [[? ?]|[? ?]]; [left; auto | right; split; [|done]].
    intros [?|?%elem_of_nil]; done. }
  apply NoDup_cons in Hnd as [Hk Hnd]. destruct (Hkeys k) as (p & -> & Hp & Hdone & Hin); [by left|].
  destruct (proj2 (dget_is_Some (Z.of_nat p) m) Hin) as [d Hget]. cbn [fst snd]. rewrite Hget. cbn [mbind result_bind or_raise].
  assert (Htau : d = Z.of_nat (tau p)).
  { destruct (Hfol p Hp) as [[? ?]|[_ ->]]; [done|]. rewrite dest_Z by done. unfold dget_or. by rewrite Hget. }
  rewrite Htau. destruct (follow_cycle_ok T done_ fuel tau m s p) as (m1 & s1 & tau1 & Hrun & Hok1 & Hnn1 & Hkeys1 & HI1 & Hd1 & Hrange1 & Hfol1);
    try done; [by intros q Hq _; apply Hfol | unfold unsettled; rewrite Hfuel; apply filter_length_le |].
  rewrite Hrun. cbn [mbind result_bind].
  destruct (IH (fun q => done_ q \/ q = p) tau1 m1 s1) as (m' & s' & tau' & Hrun' & Hkeys' & HI' & Hd' & Hfol'); try done.
  - by rewrite Hfuel; apply Hlen.
  - intros k' Hk'. destruct (Hkeys k') as (p' & -> & Hp' & Hdone' & Hin'); [by right|]. exists p'. rewrite Hkeys1.
    split_and!; [done | done | | done]. intros [?| ->]; done.
  - exists m', s', tau'. rewrite Hrun'. split_and!; [done | congruence | done | done |].
    intros q Hq. destruct (Hfol' q Hq) as [[Hl ?]|[Hl ?]]; [left | right]; (split; [|done]).
    + destruct Hl as [[?| ->]|?]; [auto | right; left | right; by right].
    + intros [?|Hc]; [apply Hl; auto|]. apply elem_of_cons in Hc as [Hc|Hc]; [|apply Hl; auto].
      apply Hl. left. right. lia.
Qed.

Lemma follow_cycles_ok T m s :
  dict_ok m -> nonneg m -> Inv s -> destined (dest m) T (view s) ->
  (forall k, k ∈ dkeys m -> exists p, k = Z.of_nat p /\ (p < n)%nat) ->
  (forall p, (p < n)%nat -> (dest m p < n)%nat) ->
  exists m' s', follow_cycles swap m s = Ok (m', s') /\ Inv s' /\ length (view s') = n /\
    forall p x, view s' !! p = Some x -> T p x.
Proof.
  intros Hok Hnn HI Hd Hkeys Hrange. unfold follow_cycles.
  destruct (follow_cycles_from T (dkeys m) (fun _ => False) (dest m) m s) as (m' & s' & tau' & Hrun & Hk' & HI' & (Hlen & HT & _) & Hfol);
    try done.
  - intros k Hk. destruct (Hkeys k Hk) as (p & -> & Hp). exists p. split_and!; auto.
  - intros p Hp. right. split; [by intros []|done].
  - exists m', s'. split_and!; [done | done | done |]. intros p x Hx. pose proof (lookup_lt_Some _ _ _ Hx) as Hp.
    assert (Htau : tau' p = p); [|by rewrite <- Htau; apply HT].
    destruct (Hfol p ltac:(lia)) as [[_ ?]|[Hn ->]]; [done|]. unfold dest, dget_or.
    destruct (dget (Z.of_nat p) m') as [v|] eqn:Hv; [|lia]. exfalso. apply Hn. right. rewrite <- Hk'. by eapply elem_of_dkeys.
Qed.
End Cycles.

(** ** The map of the regions *)

Lemma imap_filter_snd {A} (f : A -> bool) (l : list A) k :
  (List.filter (fun p : nat * A => f p.2) (imap (fun i x => (k + i, x)%nat) l)).*2 = List.filter f l.
Proof.
  revert k. induction l as [|x l IH]; intros k; [done|]. cbn. specialize (IH (S k)).
  rewrite (imap_ext (fun i x => (S k + i, x)%nat) ((fun i x => (k + i, x)%nat) ∘ S)) in IH by (intros; cbn; f_equal; lia).
  destruct (f x); cbn; by rewrite IH.
Qed.

Section Regions.
Context (R T : list Z).
Context (Hlen : length R = length T) (Hperm : R ≡ₚ T) (Hsorted : StronglySorted Z.le T).

Definition differ (p : Z * Z) : bool := negb (p.1 =? p.2).
Definition at_index (l : list Z) (i : nat) : Z := default 0 (l !! i).

Lemma orig_indices_elem i : i ∈ orig_indices R T <-> exists r t, R !! i = Some r /\ T !! i = Some t /\ r <> t.
Proof using Type.
  clear Hlen Hperm Hsorted. unfold orig_indices. rewrite list_elem_of_fmap. split.
  - intros ([j [r t]] & -> & Hin). apply list_elem_of_In, filter_In in Hin as [Hin Hne]. apply list_elem_of_In in Hin.
    apply elem_of_lookup_imap in Hin as (k & [r' t'] & [= -> -> ->] & Hk). apply lookup_zip_with_Some in Hk as (? & ? & [= -> ->] & ? & ?).
    cbn in Hne. do 2 eexists. split_and!; [done | done |]. by apply Z.eqb_neq, negb_true_iff.
  - intros (r & t & Hr & Ht & Hne). exists (i, (r, t)). split; [done|]. apply list_elem_of_In, filter_In. split.
    + apply list_elem_of_In, elem_of_lookup_imap. exists i, (r, t). split; [done|]. apply lookup_zip_with_Some. eauto.
    + cbn. by apply negb_true_iff, Z.eqb_neq.
Qed.

Lemma orig_indices_NoDup : NoDup (orig_indices R T).
Proof using Type.
  clear Hlen Hperm Hsorted.
  unfold orig_indices. eapply sublist_NoDup; [|apply fmap_sublist, bfilter_sublist].
  assert (Hfst : (imap pair (zip R T)).*1 = seq 0 (length (zip R T))); [|rewrite Hfst; apply NoDup_seq].
  apply list_eq. intros i. rewrite list_lookup_fmap, list_lookup_imap.
  destruct (decide (i < length (zip R T))%nat) as [Hi|Hi].
  - destruct (lookup_lt_is_Some_2 _ _ Hi) as [x ->]. cbn. by rewrite lookup_seq_lt by lia.
  - rewrite (lookup_ge_None_2 (zip R T)) by lia. cbn. rewrite lookup_ge_None_2; [done|]. rewrite length_seq. lia.
Qed.

(** The regions at the misplaced indices, and the targets there. *)
Lemma orig_indices_values :
  at_index R <$> orig_indices R T = (List.filter differ (zip R T)).*1 /\
  at_index T <$> orig_indices R T = (List.filter differ (zip R T)).*2.
Proof.
  unfold orig_indices. rewrite <- (imap_filter_snd differ (zip R T) 0).
  set (D := List.filter _ (imap _ _)). fold D.
  assert (HD : Forall (fun p : nat * (Z * Z) => R !! p.1 = Some p.2.1 /\ T !! p.1 = Some p.2.2) D).
  { apply Forall_forall. intros p Hp. apply list_elem_of_In, filter_In in Hp as [Hp _]. apply list_elem_of_In in Hp.
    apply elem_of_lookup_imap in Hp as (k & [r t] & -> & Hk). by apply lookup_zip_with_Some in Hk as (? & ? & [= -> ->] & ? & ?). }
  change (List.filter _ (imap pair (zip R T))) with D. rewrite <- !list_fmap_compose.
  split; apply list_fmap_ext; intros i p Hp; apply (Forall_lookup_1 _ _ _ _ HD) in Hp as [Hr Ht]; unfold at_index; cbn; by rewrite ?Hr, ?Ht.
Qed.

Lemma filter_split {A} (f : A -> bool) (l : list A) : l ≡ₚ List.filter (fun x => negb (f x)) l ++ List.filter f l.
Proof.
  induction l as [|x l IH]; [done|]. cbn. destruct (f x); cbn; [by rewrite <- Permutation_middle, <- IH | by rewrite <- IH].
Qed.

Lemma regions_at_sources : at_index R <$> src_indices R T = at_index T <$> orig_indices R T.
Proof.
  destruct orig_indices_values as [HR HT].
  apply (StronglySorted_unique Z.le).
  - unfold src_indices. pose proof (stable_sort_sorted Z.ltb (at_index R) (fun _ => True) (orig_indices R T)) as Hs.
    assert (Hs' : sorted_by Z.ltb (at_index R) (stable_sort Z.ltb (at_index R) (orig_indices R T))) by (apply Hs, Forall_true; done).
    clear Hs. change (fun i => default 0 (R !! i)) with (at_index R). induction Hs' as [|i l Hl IH Hall]; [constructor|].
    rewrite fmap_cons. constructor; [done|]. apply Forall_fmap. eapply Forall_impl; [exact Hall|]. cbn. intros j Hj. by apply Z.ltb_ge.
  - rewrite HT. assert (Hsub : (List.filter differ (zip R T)).*2 `sublist_of` T).
    { rewrite <- (snd_zip R T) at 2 by lia. apply fmap_sublist, bfilter_sublist. }
    clear -Hsub Hsorted. induction Hsub as [|x l k Hsub IH|x l k Hsub IH]; [constructor | |].
    + apply StronglySorted_inv in Hsorted as [Hs Hall]. constructor; [auto|]. rewrite Forall_forall in *. intros y Hy. apply Hall. by eapply elem_of_sublist.
    + apply StronglySorted_inv in Hsorted as [Hs _]. auto.
  - unfold src_indices. rewrite stable_sort_Permutation, HR, HT.
    pose proof Hperm as Hp. rewrite <- (fst_zip R T) in Hp at 1 by lia. rewrite <- (snd_zip R T) in Hp at 2 by lia.
    rewrite (filter_split differ (zip R T)), !fmap_app in Hp.
    assert (Hsame : (List.filter (fun p => negb (differ p)) (zip R T)).*1 = (List.filter (fun p => negb (differ p)) (zip R T)).*2).
    { clear. induction (zip R T) as [|[r t] l IH]; [done|]. unfold differ in *. cbn. destruct (Z.eqb_spec r t) as [->|]; cbn; [by rewrite IH | done]. }
    rewrite Hsame in Hp. by apply Permutation_app_inv_l in Hp.
Qed.
End Regions.

Lemma foldl_dset_zip (ks vs : list nat) (acc : dict Z Z) :
  NoDup ks -> (forall k, k ∈ ks -> Z.of_nat k ∉ dkeys acc) ->
  foldl (fun d p => dset (Z.of_nat p.1) (Z.of_nat p.2) d) acc (zip ks vs)
  = acc ++ ((fun p : nat * nat => (Z.of_nat p.1, Z.of_nat p.2)) <$> zip ks vs).
Proof.
  revert vs acc. induction ks as [|k ks IH]; intros [|v vs] acc Hnd Hacc; cbn; rewrite ?app_nil_r; try done.
  apply NoDup_cons in Hnd as [Hk Hnd]. rewrite dset_new by (apply Hacc; by left). rewrite IH.
  - by rewrite <- (assoc_L (++)).
  - done.
  - intros k' Hk'. unfold dkeys. rewrite fmap_app, elem_of_app. cbn. rewrite list_elem_of_singleton.
    intros [Hin|Heq]; [by apply (Hacc k'); [right|]|]. apply Nat2Z.inj in Heq. by subst.
Qed.

Definition region_map (R T : list Z) : dict Z Z :=
  foldl (fun d p => dset (Z.of_nat p.1) (Z.of_nat p.2) d) [] (zip (src_indices R T) (orig_indices R T)).

Section RegionMap.
Context (R T : list Z).
Context (Hlen : length R = length T) (Hperm : R ≡ₚ T) (Hsorted : StronglySorted Z.le T).

Let m := region_map R T.

Lemma src_indices_perm : src_indices R T ≡ₚ orig_indices R T.
Proof. apply stable_sort_Permutation. Qed.

Lemma src_indices_NoDup : NoDup (src_indices R T).
Proof. rewrite src_indices_perm. apply orig_indices_NoDup. Qed.

Lemma region_map_eq : m = (fun p : nat * nat => (Z.of_nat p.1, Z.of_nat p.2)) <$> zip (src_indices R T) (orig_indices R T).
Proof. unfold m, region_map. rewrite foldl_dset_zip; [done | apply src_indices_NoDup | by intros ? _ ?%elem_of_nil]. Qed.

Lemma region_map_keys : dkeys m = Z.of_nat <$> src_indices R T.
Proof.
  rewrite region_map_eq. unfold dkeys. rewrite <- list_fmap_compose.
  rewrite <- (fst_zip (src_indices R T) (orig_indices R T)) at 2 by (by rewrite src_indices_perm).
  by rewrite <- list_fmap_compose.
Qed.

Lemma region_map_ok : dict_ok m.
Proof. unfold dict_ok. rewrite region_map_keys. apply NoDup_fmap_2; [apply _ | apply src_indices_NoDup]. Qed.

Lemma region_map_get k v : dget k m = Some v -> exists j p q, k = Z.of_nat p /\ v = Z.of_nat q /\
  src_indices R T !! j = Some p /\ orig_indices R T !! j = Some q.
Proof.
  intros Hg. apply dget_elem_of in Hg. rewrite region_map_eq in Hg. apply list_elem_of_fmap in Hg as ([p q] & [= -> ->] & Hin).
  apply list_elem_of_lookup in Hin as [j Hj]. apply lookup_zip_with_Some in Hj as (? & ? & [= -> ->] & ? & ?). eauto 8.
Qed.

(** An index stays, or it is the [j]-th source and goes to the [j]-th misplaced index. *)
Lemma region_dest p : (dest m p = p /\ p ∉ orig_indices R T) \/
  (exists j, src_indices R T !! j = Some p /\ orig_indices R T !! j = Some (dest m p)).
Proof.
  unfold dest, dget_or. destruct (dget (Z.of_nat p) m) as [v|] eqn:Hg.
  - right. destruct (region_map_get _ _ Hg) as (j & p' & q & Hp & -> & Hs & Ho). apply Nat2Z.inj in Hp as <-. rewrite Nat2Z.id. eauto.
  - left. split; [lia|]. rewrite <- src_indices_perm. apply dget_None in Hg. rewrite region_map_keys in Hg.
    intros Hin. by apply Hg, list_elem_of_fmap_2.
Qed.

Lemma region_dest_orig p j : src_indices R T !! j = Some p -> p ∈ orig_indices R T.
Proof. intros Hj. rewrite <- src_indices_perm. by eapply list_elem_of_lookup_2. Qed.

Lemma region_dest_inj p q : dest m p = dest m q -> p = q.
Proof.
  pose proof (orig_indices_NoDup R T) as Hnd. intros Heq.
  destruct (region_dest p) as [[Hp Hpn]|(j & Hs & Ho)], (region_dest q) as [[Hq Hqn]|(j' & Hs' & Ho')]; [congruence | | |].
  - exfalso. apply Hpn. rewrite <- Hp, Heq. by eapply list_elem_of_lookup_2.
  - exfalso. apply Hqn. rewrite <- Hq, <- Heq. by eapply list_elem_of_lookup_2.
  - rewrite Heq in Ho. pose proof (NoDup_lookup _ _ _ _ Hnd Ho Ho') as ->. congruence.
Qed.

Lemma region_dest_lt p : (p < length R)%nat -> (dest m p < length R)%nat.
Proof.
  intros Hp. destruct (region_dest p) as [[-> _]|(j & _ & Ho)]; [done|].
  apply list_elem_of_lookup_2, orig_indices_elem in Ho as (r & _ & Hr & _). by eapply lookup_lt_Some.
Qed.

Lemma region_dest_value p r : R !! p = Some r -> T !! dest m p = Some r.
Proof.
  intros Hr. destruct (region_dest p) as [[-> Hn]|(j & Hs & Ho)].
  - destruct (lookup_lt_is_Some_2 T p) as [t Ht]; [rewrite <- Hlen; by eapply lookup_lt_Some|].
    rewrite Ht. f_equal. destruct (decide (r = t)) as [->|Hne]; [done|]. exfalso. apply Hn, orig_indices_elem. eauto 6.
  - pose proof (regions_at_sources R T Hlen Hperm Hsorted) as Heq. apply (f_equal (fun l => l !! j)) in Heq.
    rewrite !list_lookup_fmap, Hs, Ho in Heq. cbn in Heq. injection Heq as Heq. unfold at_index in Heq. rewrite Hr in Heq. cbn in Heq.
    apply list_elem_of_lookup_2, orig_indices_elem in Ho as (_ & t & _ & Ht & _). rewrite Ht in *. cbn in Heq. by subst.
Qed.

Lemma region_map_key_lt k : k ∈ dkeys m -> exists p, k = Z.of_nat p /\ (p < length R)%nat.
Proof.
  rewrite region_map_keys, list_elem_of_fmap. intros (p & -> & Hp). exists p. split; [done|].
  rewrite src_indices_perm in Hp. apply orig_indices_elem in Hp as (r & _ & Hr & _). by eapply lookup_lt_Some.
Qed.

Lemma region_map_nonneg : nonneg m.
Proof. intros k v Hg. destruct (region_map_get _ _ Hg) as (? & ? & ? & _ & -> & _). lia. Qed.

End RegionMap.

(** ** The targets are the regions in order *)

Lemma np_fill_slice_in {A} s e (v : A) row :
  0 <= s <= e -> e <= py_len row ->
  np_fill_slice s e v row = take (Z.to_nat s) row ++ replicate (Z.to_nat (e - s)) v ++ drop (Z.to_nat e) row.
Proof.
  unfold py_len. intros Hs He. unfold np_fill_slice, slice_pos. destruct (Z.ltb_spec s 0), (Z.ltb_spec e 0); [lia..|].
  rewrite !Z.min_l by lia. rewrite Nat.max_r by lia. by replace (Z.to_nat e - Z.to_nat s)%nat with (Z.to_nat (e - s)) by lia.
Qed.

Definition count_region (k : Z) (R : list Z) : nat := length (List.filter (Z.eqb k) R).

Lemma regions_counts R : Forall (fun r => r = 0 \/ r = 1 \/ r = 2) R ->
  R ≡ₚ replicate (count_region 0 R) 0 ++ replicate (count_region 1 R) 1 ++ replicate (count_region 2 R) 2.
Proof.
  unfold count_region. induction 1 as [|r R Hr _ IH]; [done|]. destruct Hr as [-> | [-> | ->]]; cbn; rewrite IH at 1.
  - done.
  - apply Permutation_middle.
  - rewrite !(assoc_L (++)). apply Permutation_middle.
Qed.

Lemma targets_eq threshold (ns cs : list Z) :
  length ns = length cs -> Forall (fun c => 0 <= c) cs ->
  let R := zip_with (req_region threshold) ns cs in
  let T := target_regions ((fun n => n <=? threshold) <$> ns) (zip_with (fun n c => negb (n <=? threshold) && (0 <? c)) ns cs) in
  T = replicate (count_region 0 R) 0 ++ replicate (count_region 1 R) 1 ++ replicate (count_region 2 R) 2 /\
  Forall (fun r => r = 0 \/ r = 1 \/ r = 2) R.
Proof.
  intros Hlen Hcs. cbn zeta. set (R := zip_with (req_region threshold) ns cs).
  assert (Hcount : forall ns cs, length ns = length cs -> Forall (fun c => 0 <= c) cs ->
    let R := zip_with (req_region threshold) ns cs in
    Forall (fun r => r = 0 \/ r = 1 \/ r = 2) R /\
    length (List.filter id ((fun n => n <=? threshold) <$> ns)) = count_region 0 R /\
    length (List.filter id (zip_with (fun n c => negb (n <=? threshold) && (0 <? c)) ns cs)) = count_region 1 R /\
    (count_region 0 R + count_region 1 R + count_region 2 R = length ns)%nat).
  { clear. intros ns. unfold count_region. induction ns as [|n ns IH]; intros [|c cs] Hlen Hcs; cbn; try done.
    apply Forall_cons in Hcs as [Hc Hcs]. injection Hlen as Hlen. destruct (IH cs Hlen Hcs) as (H1 & H2 & H3 & H4). cbn zeta in *.
    assert (Hr : ((n <=? threshold) = true /\ req_region threshold n c = 0)
      \/ ((n <=? threshold) = false /\ (0 <? c) = true /\ req_region threshold n c = 1)
      \/ ((n <=? threshold) = false /\ (0 <? c) = false /\ req_region threshold n c = 2)).
    { unfold req_region. destruct (n <=? threshold); [auto|]. destruct (Z.ltb_spec 0 c); [auto|]. assert (c = 0) as -> by lia. auto. }
    destruct Hr as [[-> ->]|[(-> & -> & ->)|(-> & -> & ->)]]; cbn [negb andb Z.eqb Pos.eqb length];
      (split_and!; [constructor; auto | cbn [id length] in *; lia..]). }
  destruct (Hcount ns cs Hlen Hcs) as (H1 & H2 & H3 & H4). fold R in H1, H2, H3, H4. split; [|done].
  unfold target_regions. assert (Hn : py_len ((fun n => n <=? threshold) <$> ns) = py_len ns) by (unfold py_len; by rewrite length_fmap).
  rewrite Hn. unfold py_len. rewrite H2, H3.
  set (a := count_region 0 R) in *. set (b := count_region 1 R) in *. set (c := count_region 2 R) in *. rewrite <- H4.
  assert (Hz : zeros (Z.of_nat (a + b + c)) = replicate a 0 ++ replicate b 0 ++ replicate c 0).
  { unfold zeros. rewrite Nat2Z.id, <- !replicate_add. f_equal. lia. }
  rewrite Hz. rewrite (np_fill_slice_in (Z.of_nat a) _ 1) by (unfold py_len; rewrite ?length_app, ?length_replicate; lia).
  rewrite np_fill_slice_in by (unfold py_len; rewrite ?length_app, ?length_take, ?length_drop, ?length_replicate, ?length_app, ?length_replicate; lia).
  replace (Z.to_nat (Z.of_nat a)) with a by lia. replace (Z.to_nat (Z.of_nat a + Z.of_nat b - Z.of_nat a)) with b by lia.
  replace (Z.to_nat (Z.of_nat a + Z.of_nat b)) with (a + b)%nat by lia.
  replace (Z.to_nat (Z.of_nat (a + b + c) - (Z.of_nat a + Z.of_nat b))) with c by lia.
  assert (Htake : take a (replicate a 0 ++ replicate b 0 ++ replicate c 0) = replicate a 0)
    by (by rewrite take_app_length' by (by rewrite length_replicate)).
  assert (Hdrop : drop (a + b) (replicate a 0 ++ replicate b 0 ++ replicate c 0) = replicate c 0)
    by (by rewrite (assoc_L (++)), drop_app_length' by (by rewrite length_app, !length_replicate)).
  assert (Htake2 : take (a + b) (replicate a 0 ++ replicate b 1 ++ replicate c 0) = replicate a 0 ++ replicate b 1)
    by (by rewrite (assoc_L (++)), take_app_length' by (by rewrite length_app, !length_replicate)).
  rewrite Htake, Hdrop, Nat2Z.id, Htake2.
  rewrite drop_ge by (rewrite !length_app, !length_replicate; lia). by rewrite app_nil_r, <- (assoc_L (++)).
Qed.

Lemma targets_sorted a b c : StronglySorted Z.le (replicate a 0 ++ replicate b 1 ++ replicate c 2).
Proof.
  assert (Hrep : forall k v, StronglySorted Z.le (replicate k v)).
  { induction k; intros v; cbn; constructor; [done|]. apply Forall_replicate. lia. }
  apply StronglySorted_app. split_and!; [| done |].
  - intros x y Hx Hy. apply elem_of_replicate in Hx as [-> _]. apply elem_of_app in Hy as [Hy|Hy]; apply elem_of_replicate in Hy as [-> _]; lia.
  - apply StronglySorted_app. split_and!; [|done..]. intros x y Hx Hy. apply elem_of_replicate in Hx as [-> _]. apply elem_of_replicate in Hy as [-> _]. lia.
Qed.

(** * The reordered persistent batch

    [reorder_batch_to_split_decodes_and_prefills] on the batch: the rows still stand for
    their requests, in the order of the regions. *)

Section Reorder.
Context (h : OutputStore) (reqs : Requests) (specs : string -> Drafts).

(** The region of a request. *)
Definition region_of (threshold : Z) (so : SchedulerOutput) (id : string) : Z :=
  req_region threshold (dget_or id 0 (num_scheduled_tokens so)) (default 0 (crs_num_computed_tokens <$> reqs !! id)).

(** What the exchanges keep, from the batch [b0] on. *)
Definition exchanged (b0 b : InputBatch) : Prop :=
  (exists v, batch_ok h reqs specs b v) /\ index_ok b [] /\ ib_req_ids b ≡ₚ ib_req_ids b0 /\
  same_settings b0 b /\ logitsprocs b = logitsprocs b0 /\ same_layouts b0 b /\
  exists ms, replays ms (ids_view (ib_req_ids b0)) (ids_view (ib_req_ids b)) /\ filled_by ms = [] /\
    batch_update_builder b = batch_update_builder b0 <| moved := moved (batch_update_builder b0) ++ ms |>.

Lemma exchanged_refl b v : batch_ok h reqs specs b v -> index_ok b [] -> exchanged b b.
Proof.
  intros Hok Hi. split; [eauto|]. split_and!; auto using same_settings_refl, same_layouts_refl.
  exists []. split; [by constructor|]. split; [done|]. rewrite app_nil_r. by destruct (batch_update_builder b).
Qed.

Lemma dense_lookup b p o : index_ok b [] -> ib_req_ids b !! p = Some o -> exists id, o = Some id.
Proof. intros Hi Hp. destruct o as [id|]; [eauto|]. apply (ix_holes b [] Hi) in Hp. by apply elem_of_nil in Hp. Qed.

Lemma exchanged_swap b0 b i j x y : exchanged b0 b -> i <> j -> ib_req_ids b !! i = Some x -> ib_req_ids b !! j = Some y ->
  exists b', swap_states (Z.of_nat i) (Z.of_nat j) b = Ok b' /\ exchanged b0 b' /\ ib_req_ids b' = <[j := x]> (<[i := y]> (ib_req_ids b)).
Proof.
  intros ((v & Hok) & Hix & Hperm & Hset & Hproc & Hlay & ms & Hrp & Hfill & Hbd) Hij Hx Hy.
  destruct (dense_lookup b i x Hix Hx) as [id1 ->]. destruct (dense_lookup b j y Hix Hy) as [id2 ->].
  destruct (swap_states_ok h reqs specs b v [] i j id1 id2 Hok Hix Hij Hx Hy) as (b' & Hrun & Hok' & Hix' & Hids' & Hset' & Hproc' & Hbd' & Hlay').
  exists b'. split; [done|]. split; [|done]. split; [eauto|]. split; [done|].
  assert (Hswap : ib_req_ids b' = swap_list i j (ib_req_ids b)) by (unfold swap_list; by rewrite Hx, Hy).
  split. { rewrite Hids', <- Hperm. by apply Permutation_insert_swap. }
  split; [by eapply same_settings_trans|]. split; [congruence|]. split; [by eapply same_layouts_trans|].
  exists (ms ++ [(Z.of_nat i, Z.of_nat j, SWAP)]). split; [|split].
  - eapply replays_app; [exact Hrp|]. eapply replays_swap; [done | unfold ids_view; by rewrite Hx | unfold ids_view; by rewrite Hy |].
    constructor. intros p. unfold after_swap, ids_view. rewrite Hswap, (swap_list_lookup _ i j _ _ p Hx Hy). repeat case_decide; subst; done.
  - unfold filled_by in *. by rewrite omap_app, Hfill.
  - rewrite Hbd', Hbd. cbn. by rewrite <- (assoc_L (++)).
Qed.

(** The numbers the code reads for the ids of the batch. *)
Lemma scheduled_counts so (l : list string) : (forall id, id ∈ l -> is_Some (dget id (num_scheduled_tokens so))) ->
  mapM (fun o : option string => rid ← or_raise KeyError o; or_raise KeyError (dget rid (num_scheduled_tokens so))) (Some <$> l)
  = Ok ((fun id => dget_or id 0 (num_scheduled_tokens so)) <$> l).
Proof.
  induction l as [|id l IH]; intros Hs; [done|]. destruct (Hs id) as [n Hn]; [by left|]. unfold dget_or in *.
  cbn [fmap list_fmap]. apply mapM_cons_ok; [cbn [or_raise mbind result_bind]; by rewrite Hn | apply IH; intros; apply Hs; by right].
Qed.

Lemma scheduled_read so b l : ib_req_ids b = Some <$> l -> (forall id, id ∈ l -> is_Some (dget id (num_scheduled_tokens so))) ->
  mapM (fun o : option string => rid ← or_raise KeyError o; or_raise KeyError (dget rid (num_scheduled_tokens so))) (ib_req_ids b)
  = Ok ((fun id => dget_or id 0 (num_scheduled_tokens so)) <$> l).
Proof. intros ->. apply scheduled_counts. Qed.

Lemma dense_ids b : index_ok b [] -> ib_req_ids b = Some <$> omap id (ib_req_ids b).
Proof.
  intros Hix. assert (Hd : forall o, o ∈ ib_req_ids b -> exists x, o = Some x) by (intros o [p Hp]%list_elem_of_lookup; by eapply dense_lookup).
  clear Hix. induction (ib_req_ids b) as [|o l IH]; [done|]. destruct (Hd o) as [x ->]; [by left|]. cbn. f_equal. apply IH. intros; apply Hd. by right.
Qed.

Lemma computed_counts b v : batch_ok h reqs specs b v -> index_ok b [] ->
  row_num_computed_tokens <$> take (length (ib_req_ids b)) (rows b)
  = (fun id => default 0 (crs_num_computed_tokens <$> reqs !! id)) <$> omap id (ib_req_ids b).
Proof.
  intros Hok Hix. pose proof (dense_ids b Hix) as Hd. set (ids := omap id (ib_req_ids b)) in *.
  apply list_eq. intros p. rewrite !list_lookup_fmap. destruct (ids !! p) as [x|] eqn:Hp.
  - assert (Hx : ib_req_ids b !! p = Some (Some x)) by (rewrite Hd, list_lookup_fmap; by rewrite Hp).
    rewrite lookup_take_lt by (by eapply lookup_lt_Some). destruct (bo_cells _ _ _ _ _ Hok p x Hx) as (r & Hr & _ & _ & Hcell).
    destruct (ce_row _ _ _ _ _ _ Hcell) as (row & Hrow & Hrep & _). rewrite Hrow. cbn. rewrite Hr. cbn. f_equal. apply Hrep.
  - rewrite lookup_ge_None_2; [done|]. apply lookup_ge_None_1 in Hp. rewrite length_take, Hd, length_fmap. lia.
Qed.

Lemma reorder_ok so threshold b v : batch_ok h reqs specs b v -> index_ok b [] ->
  (forall id, live b id -> is_Some (dget id (num_scheduled_tokens so))) ->
  (forall id r, live b id -> reqs !! id = Some r -> 0 <= crs_num_computed_tokens r) ->
  exists c b', reorder_batch_to_split_decodes_and_prefills threshold so b = Ok (c, b') /\ exchanged b b' /\
    StronglySorted Z.le (region_of threshold so <$> omap id (ib_req_ids b')).
Proof.
  intros Hok Hix Hsched Hcomp. set (ids := omap id (ib_req_ids b)). pose proof (dense_ids b Hix) as Hd. fold ids in Hd.
  assert (Hlive : forall x, x ∈ ids -> live b x).
  { intros x [p Hp]%list_elem_of_lookup. exists p. rewrite Hd, list_lookup_fmap. by rewrite Hp. }
  set (ns := (fun id => dget_or id 0 (num_scheduled_tokens so)) <$> ids).
  set (cs := (fun id => default 0 (crs_num_computed_tokens <$> reqs !! id)) <$> ids).
  assert (Hcs : Forall (fun c => 0 <= c) cs).
  { apply Forall_fmap, Forall_forall. intros x Hx. cbn. destruct (reqs !! x) as [r|] eqn:Hr; [|done]. cbn. eapply Hcomp; eauto. }
  destruct (targets_eq threshold ns cs) as [HT HR]; [unfold ns, cs; by rewrite !length_fmap | done |]. cbn zeta in HT, HR.
  set (R := zip_with (req_region threshold) ns cs) in *.
  assert (HRids : R = region_of threshold so <$> ids) by (unfold R, ns, cs; by rewrite zip_with_fmap_l, zip_with_fmap_r, zip_with_diag).
  pose proof (regions_counts R HR) as Hperm. pose proof (targets_sorted (count_region 0 R) (count_region 1 R) (count_region 2 R)) as Hsorted.
  unfold reorder_batch_to_split_decodes_and_prefills. 
  rewrite (scheduled_read so b ids Hd) by (intros x Hx; by apply Hsched, Hlive). cbn [mbind result_bind].
  rewrite (computed_counts b v Hok Hix). fold ids. change ((fun id => dget_or id 0 (num_scheduled_tokens so)) <$> ids) with ns. fold cs. fold R.
  rewrite HT. set (T := replicate (count_region 0 R) 0 ++ _) in *.
  assert (Hlen : length R = length T) by by rewrite Hperm at 1.
  assert (HlenR : length R = length (ib_req_ids b)) by (rewrite HRids, Hd, !length_fmap; done).
  destruct (orig_indices R T) as [|o os] eqn:Ho.
  - exists false, b. split; [done|]. split; [by eapply exchanged_refl|]. fold ids. rewrite <- HRids.
    assert (HRT : R = T); [|by rewrite HRT]. apply list_eq. intros p. destruct (R !! p) as [r|] eqn:Hr, (T !! p) as [t|] eqn:Ht; [|exfalso..|done].
    + f_equal. destruct (decide (r = t)) as [|Hne]; [done|]. assert (Hin : p ∈ orig_indices R T) by (apply orig_indices_elem; eauto 6).
      rewrite Ho in Hin. by apply elem_of_nil in Hin.
    + apply lookup_lt_Some in Hr. apply lookup_ge_None_1 in Ht. lia.
    + apply lookup_lt_Some in Ht. apply lookup_ge_None_1 in Hr. lia.
  - rewrite <- Ho. change (foldl _ [] _) with (region_map R T).
    destruct (follow_cycles_ok swap_states (exchanged b) ib_req_ids (exchanged_swap b) (length (ib_req_ids b))
      (fun q x => exists y, x = Some y /\ T !! q = Some (region_of threshold so y)) (region_map R T) b) as (m' & b' & Hrun & Hex & Hl' & Hreg).
    + by apply region_map_ok.
    + by apply region_map_nonneg.
    + by eapply exchanged_refl.
    + split; [done|]. split.
      * intros p x Hp. destruct (dense_lookup b p x Hix Hp) as [y ->]. exists y. split; [done|]. apply region_dest_value; try done.
        rewrite HRids, list_lookup_fmap. rewrite Hd, list_lookup_fmap in Hp. destruct (ids !! p); [|done]. cbn in *. congruence.
      * intros p q _ _ Heq. by eapply region_dest_inj.
    + intros k Hk. destruct (region_map_key_lt R T k Hk) as (p & -> & Hp). exists p. split; [done | lia].
    + intros p Hp. rewrite <- HlenR. apply region_dest_lt; lia.
    + rewrite Hrun. cbn [mbind result_bind]. exists true, b'. split; [done|]. split; [done|].
      assert (region_of threshold so <$> omap id (ib_req_ids b') = T) as ->; [|done].
      destruct Hex as (_ & Hix' & _). pose proof (dense_ids b' Hix') as Hd'. set (ids' := omap id (ib_req_ids b')) in *.
      assert (Hlen' : length ids' = length T) by (rewrite <- Hlen, HlenR, <- Hl', Hd', length_fmap; done).
      apply list_eq. intros p. rewrite list_lookup_fmap. destruct (ids' !! p) as [y|] eqn:Hp.
      * destruct (Hreg p (Some y)) as (y' & [= <-] & Hy); [rewrite Hd', list_lookup_fmap; by rewrite Hp | done].
      * symmetry. apply lookup_ge_None_2. apply lookup_ge_None_1 in Hp. lia.
Qed.
End Reorder.
