(* ===== verification/ProcessorProps.v ===== *)
(** * Logits processors follow the batch

    The update a step's changes give to the logits processors, applied to their
    entries by index, gives the entries of the new batch: what is kept for an
    index is what belongs to the request in that row. *)

From S2P Require Import Prelude PyDict PyList PyFloat Request Numpy BlockTable Sampling BatchUpdate InputBatch InputBatchInv InputBatchOps.
#[local] Open Scope Z_scope.

(** ** The changes of a step *)

(** What the processors are told of a request. *)
Abbreviation AddedInfo := (SamplingParams * option (list Z) * addr)%type.

Definition info_of (a : AddedRequest) : AddedInfo := (ar_params a, ar_prompt a, ar_output a).

Definition last_added (p : nat) (l : list AddedRequest) : option AddedRequest :=
  foldl (fun o a => if ar_index a =? Z.of_nat p then Some a else o) None l.

(** Rows [f0] become [f1] by removals and additions, then [f2] by moves; [n] bounds the rows.
    What is known of a request that stays does not change. *)
Record step_log (n : nat) (info0 info : string -> AddedInfo) (f0 f1 f2 : nat -> option string) (u : BatchUpdate) : Prop := {
  sl_adds : forall p id, f1 p = Some id ->
    match last_added p (bu_added u) with Some a => info_of a = info id | None => f0 p = Some id /\ info0 id = info id end;
  sl_free : forall p, f1 p = None ->
    Z.of_nat p ∈ filled_by (bu_moved u) ++ bu_removed u \/ (f0 p = None /\ last_added p (bu_added u) = None);
  sl_holes : forall z, z ∈ filled_by (bu_moved u) ++ bu_removed u -> exists p, z = Z.of_nat p /\ f1 p = None /\ (p < n)%nat;
  sl_moves : replays (bu_moved u) f1 f2;
  sl_range : forall p, (n <= p)%nat -> f0 p = None /\ f1 p = None;
  sl_indices : forall a, a ∈ bu_added u -> exists p, ar_index a = Z.of_nat p /\ (p < n)%nat;
}.

Lemma last_added_snoc p l a : last_added p (l ++ [a]) = if ar_index a =? Z.of_nat p then Some a else last_added p l.
Proof. unfold last_added. by rewrite foldl_app. Qed.

(** ** Sparse entries *)

(** The entries mirror the rows, apart from the rows in [stale]; [Q id o]: [o] may be the
    entry of [id]. *)
Definition mirror_of {T} (Q : string -> option T -> Prop) (stale : list Z) (f : nat -> option string) (e : dict Z T) : Prop :=
  dict_ok e /\ (forall z, is_Some (dget z e) -> exists p, z = Z.of_nat p) /\
  forall p, match f p with
            | Some id => Q id (dget (Z.of_nat p) e)
            | None => Z.of_nat p ∈ stale \/ dget (Z.of_nat p) e = None
            end.

Section Sparse.
Context {T : Type} (new_state : SamplingParams -> option (list Z) -> addr -> option T).
Context (info : string -> AddedInfo).

Context (Q : string -> option T -> Prop).
Context (Q_new : forall id, Q id (let '(p, prompt, out) := info id in new_state p prompt out)).

Let mirror := mirror_of Q.

Lemma add_entry_get a s z : dict_ok s.1 -> dget z (add_entry new_state a s).1
  = if decide (z = ar_index a) then new_state (ar_params a) (ar_prompt a) (ar_output a) else dget z s.1.
Proof.
  intros Hok. destruct s as [e upd]. cbn in *. unfold add_entry. destruct (new_state _ _ _) as [t|]; cbn.
  - rewrite dget_dset. by case_decide.
  - case_decide; [subst; by rewrite dget_ddel_eq | by rewrite dget_ddel_ne].
Qed.

Lemma add_entry_ok a s : dict_ok s.1 -> dict_ok (add_entry new_state a s).1.
Proof. destruct s as [e upd]. cbn. intros Hok. destruct (new_state _ _ _); cbn; [by apply dict_ok_dset | by apply dict_ok_ddel]. Qed.

Lemma add_entries_get l : forall s, dict_ok s.1 ->
  dict_ok (foldl (fun s a => add_entry new_state a s) s l).1 /\
  (forall p, dget (Z.of_nat p) (foldl (fun s a => add_entry new_state a s) s l).1
    = match last_added p l with Some a => let '(sp, prompt, out) := info_of a in new_state sp prompt out | None => dget (Z.of_nat p) s.1 end) /\
  ((forall a, a ∈ l -> exists p, ar_index a = Z.of_nat p) -> (forall z, is_Some (dget z s.1) -> exists p, z = Z.of_nat p) ->
    forall z, is_Some (dget z (foldl (fun s a => add_entry new_state a s) s l).1) -> exists p, z = Z.of_nat p).
Proof.
  induction l as [|a l IH] using rev_ind; intros s Hok; [by split_and!|]. rewrite foldl_app. cbn.
  destruct (IH s Hok) as (H1 & H2 & H3). set (s1 := foldl _ s l) in *. split; [by apply add_entry_ok|]. split.
  - intros p. rewrite add_entry_get by done. rewrite last_added_snoc. destruct (Z.eqb_spec (ar_index a) (Z.of_nat p)) as [He|Hne].
    + by rewrite decide_True.
    + rewrite decide_False by congruence. apply H2.
  - intros Hl Hs z. rewrite add_entry_get by done. case_decide as Hz.
    + intros _. subst z. apply Hl. apply elem_of_app. right. by left.
    + apply H3; [|done]. intros a' Ha. apply Hl. apply elem_of_app. by left.
Qed.

Lemma remove_entries_get l : forall s, dict_ok s.1 -> dict_ok (foldl (fun s i => remove_entry i s) s l).1 /\
  forall z, dget z (foldl (fun s i => remove_entry (T:=T) i s) s l).1 = if decide (z ∈ l) then None else dget z s.1.
Proof.
  induction l as [|i l IH]; intros [e upd] Hok; [done|]. cbn in *. destruct (IH (ddel i e, upd || dmem i e)) as [H1 H2]; [by apply dict_ok_ddel|].
  split; [done|]. intros z. rewrite H2. cbn. destruct (decide (z = i)) as [->|Hne].
  - rewrite dget_ddel_eq by done. rewrite (decide_True (P := i ∈ i :: l)) by (by left). by case_decide.
  - rewrite dget_ddel_ne by done. destruct (decide (z ∈ l)); [rewrite decide_True by (by right); done|].
    rewrite decide_False; [done|]. intros [?|?]%elem_of_cons; done.
Qed.

(** One move of entries. *)
Lemma move_entry_get (a b : Z) d s z : dict_ok s.1 -> a <> b ->
  dict_ok (move_entry (T:=T) (a, b, d) s).1 /\
  dget z (move_entry (T:=T) (a, b, d) s).1
  = if decide (z = b) then dget a s.1 else if decide (z = a) then (match d with SWAP => dget b s.1 | UNIDIRECTIONAL => None end) else dget z s.1.
Proof.
  intros Hok Hab. destruct s as [e upd]. cbn in Hok |- *.
  assert (Hok1 : dict_ok (ddel a e)) by by apply dict_ok_ddel. assert (Hok2 : dict_ok (ddel b (ddel a e))) by by apply dict_ok_ddel.
  rewrite dget_ddel_ne by done.
  destruct (dget a e) as [x|] eqn:Ha, (dget b e) as [y|] eqn:Hb, d; cbn; (split; [auto using dict_ok_dset|]);
    repeat ((rewrite dget_dset)); repeat case_decide; subst; try done;
    repeat ((rewrite dget_ddel_eq by done) || (rewrite dget_ddel_ne by done)); done.
Qed.

Lemma mirror_moves ms f f' : replays ms f f' -> forall s : dict Z T * bool, mirror (filled_by ms) f s.1 ->
  mirror [] f' (foldl (fun s m => move_entry m s) s ms).1.
Proof using Type.
  clear Q_new. induction 1 as [f f' Hext|i j x ms f f' Hij Hi Hj _ IH|i j x y ms f f' Hij Hi Hj _ IH]; intros s (Hok & Hnat & Hrows); cbn [foldl].
  - split; [done|]. split; [done|]. intros p. specialize (Hrows p). by rewrite <- Hext.
  - destruct (move_entry_get (Z.of_nat i) (Z.of_nat j) UNIDIRECTIONAL s 0 Hok) as [Hok' _]; [lia|].
    assert (Hget := fun z => proj2 (move_entry_get (Z.of_nat i) (Z.of_nat j) UNIDIRECTIONAL s z Hok ltac:(lia))).
    apply IH. split; [done|]. split.
    + intros z. rewrite Hget. repeat case_decide; subst; first [by intros [] | eauto].
    + intros p. rewrite Hget. unfold after_move. specialize (Hrows p) as Hp. specialize (Hrows i) as Hri. rewrite Hi in Hri.
      destruct (decide (p = i)) as [->|Hpi]; [right; by rewrite decide_False, decide_True by lia|]. destruct (decide (p = j)) as [->|Hpj].
      * by rewrite decide_True.
      * rewrite !decide_False by lia. destruct (f p); [done|]. destruct Hp as [Hp|Hp]; [left | by right].
        cbn in Hp. apply elem_of_cons in Hp as [Hp|Hp]; [lia | done].
  - destruct (move_entry_get (Z.of_nat i) (Z.of_nat j) SWAP s 0 Hok) as [Hok' _]; [lia|].
    assert (Hget := fun z => proj2 (move_entry_get (Z.of_nat i) (Z.of_nat j) SWAP s z Hok ltac:(lia))).
    apply IH. split; [done|]. split.
    + intros z. rewrite Hget. repeat case_decide; subst; eauto.
    + intros p. rewrite Hget. unfold after_swap. specialize (Hrows p) as Hp. specialize (Hrows i) as Hri. specialize (Hrows j) as Hrj. rewrite Hi in Hri. rewrite Hj in Hrj.
      destruct (decide (p = i)) as [->|Hpi]; [by rewrite decide_False, decide_True by lia|]. destruct (decide (p = j)) as [->|Hpj].
      * by rewrite decide_True.
      * by rewrite !decide_False by lia.
Qed.

(** Nothing to remove or move. *)
Lemma no_entries_fold l ms : forall b, (foldl (fun s m => move_entry (T:=T) m s) (foldl (fun s i => remove_entry i s) ([], b) l) ms).1 = [].
Proof using Type.
  clear. assert (Hr : forall b, exists b', foldl (fun s i => remove_entry (T:=T) i s) ([], b) l = ([], b')).
  { induction l as [|i l IH]; intros b; cbn; [eauto | apply IH]. }
  intros b. destruct (Hr b) as [b' ->]. clear. revert b'. induction ms as [|[[i j] d] ms IH]; intros b'; cbn; [done | apply IH].
Qed.

Lemma process_updates_mirror n info0 (Q0 : string -> option T -> Prop) f0 f1 f2 u e : step_log n info0 info f0 f1 f2 u ->
  (forall id o, info0 id = info id -> Q0 id o -> Q id o) -> mirror_of Q0 [] f0 e ->
  mirror [] f2 (process_dict_updates new_state (Some u) e).1.
Proof.
  intros [Hadds Hfree Hholes Hmoves Hrange Hidx] HQ (Hok & Hnat & Hrows). unfold process_dict_updates.
  destruct (add_entries_get (bu_added u) (e, false) Hok) as (Hok1 & Hget1 & Hnat1). cbn in Hget1.
  set (s1 := foldl _ (e, false) (bu_added u)) in *.
  assert (Hnat1' : forall z, is_Some (dget z s1.1) -> exists p, z = Z.of_nat p).
  { apply Hnat1; [|exact Hnat]. intros a Ha. destruct (Hidx a Ha) as (p & ? & _). eauto. }
  assert (Hm1 : mirror (filled_by (bu_moved u) ++ bu_removed u) f1 s1.1).
  { split; [done|]. split; [done|]. intros p. rewrite Hget1. destruct (f1 p) as [id|] eqn:Hp.
    - specialize (Hadds p id Hp). destruct (last_added p (bu_added u)) as [a|].
      + specialize (Q_new id) as Hq. rewrite <- Hadds in Hq. exact Hq.
      + destruct Hadds as [H0 Hinfo]. specialize (Hrows p). rewrite H0 in Hrows. by apply HQ.
    - destruct (Hfree p Hp) as [?|[H0 Hl]]; [by left|]. right. rewrite Hl. specialize (Hrows p). rewrite H0 in Hrows.
      destruct Hrows as [Hin|?]; [by apply elem_of_nil in Hin | done]. }
  assert (Hfin : mirror [] f2 (foldl (fun s m => move_entry m s) (foldl (fun s i => remove_entry i s) s1 (bu_removed u)) (bu_moved u)).1).
  { destruct (remove_entries_get (bu_removed u) s1 Hok1) as [Hok2 Hget2]. apply (mirror_moves _ f1); [done|]. split; [done|]. split.
    - intros z. rewrite Hget2. case_decide; [by intros []|]. apply Hnat1'.
    - intros p. rewrite Hget2. destruct Hm1 as (_ & _ & Hm1). specialize (Hm1 p). destruct (f1 p) as [id|] eqn:Hp.
      + rewrite decide_False; [done|]. intros Hin. destruct (Hholes (Z.of_nat p)) as (q & Hq & Hnone & _); [apply elem_of_app; by right|].
        apply Nat2Z.inj in Hq. subst q. congruence.
      + case_decide as Hin; [by right|]. destruct Hm1 as [[?|?]%elem_of_app|?]; [by left | done | by right]. }
  destruct s1 as [[|x e1] b1] eqn:Hs1; [|exact Hfin]. rewrite no_entries_fold in Hfin. exact Hfin.
Qed.
End Sparse.

(** ** The flag tells whether anything changed *)

Lemma ddel_not_in {V} (z : Z) (e : dict Z V) : dmem z e = false -> ddel z e = e.
Proof.
  rewrite dmem_false. induction e as [|[k v] e IH]; [done|]. cbn. destruct (decide (z = k)); [done|]. intros Hz. by rewrite IH.
Qed.

Section Flag.
Context {T : Type}.
Implicit Type s : dict Z T * bool.

(** A step that leaves the flag down leaves the entries alone. *)
Definition quiet (step : dict Z T * bool -> dict Z T * bool) : Prop :=
  forall s, (step s).2 = false -> s.2 = false /\ (step s).1 = s.1.

Lemma quiet_foldl {A} (step : A -> dict Z T * bool -> dict Z T * bool) l : (forall a, quiet (step a)) -> quiet (fun s => foldl (fun s a => step a s) s l).
Proof.
  intros Hq. induction l as [|a l IH]; intros s Hs; cbn in *; [done|]. destruct (IH _ Hs) as [H1 H2]. destruct (Hq a s H1) as [H3 H4].
  split; [done | congruence].
Qed.

Lemma quiet_add new_state a : quiet (add_entry (T:=T) new_state a).
Proof.
  intros [e upd]. unfold add_entry. destruct (new_state _ _ _); cbn; [done|]. intros [-> Hm]%orb_false_iff. split; [done | by apply ddel_not_in].
Qed.

Lemma quiet_remove i : quiet (remove_entry (T:=T) i).
Proof. intros [e upd]. cbn. intros [-> Hm]%orb_false_iff. split; [done | by apply ddel_not_in]. Qed.

Lemma quiet_move m : quiet (move_entry (T:=T) m).
Proof.
  destruct m as [[a b] d]. intros [e upd]. cbn. destruct (dget a e) as [x|] eqn:Ha; cbn.
  - by destruct (dget b (ddel a e)), d.
  - destruct (dget b (ddel a e)) as [y|] eqn:Hb; [by destruct d|]. cbn. intros ->. split; [done|].
    assert (Ha' : ddel a e = e) by (apply ddel_not_in; by apply dmem_false). rewrite Ha' in *. apply ddel_not_in. by apply dmem_false.
Qed.

Lemma quiet_updates new_state u e : (process_dict_updates (T:=T) new_state u e).2 = false -> (process_dict_updates new_state u e).1 = e.
Proof.
  destruct u as [u|]; [|done]. unfold process_dict_updates. set (s := foldl _ (e, false) (bu_added u)).
  assert (Hs : s.2 = false -> s.1 = e) by (intros Hf; exact (proj2 (quiet_foldl _ _ (quiet_add new_state) (e, false) Hf))).
  destruct s.1 as [|x l] eqn:He; [intros Hf; rewrite He; by apply Hs|]. rewrite <- He in Hs. intros Hf.
  destruct (quiet_foldl (fun m => move_entry m) _ quiet_move _ Hf) as [H1 H2]. destruct (quiet_foldl (fun i => remove_entry i) _ quiet_remove _ H1) as [H3 H4].
  rewrite H2, H4. by apply Hs.
Qed.
End Flag.

(** ** Logit bias *)

(** An update, or none when nothing changed. *)
Definition step_logged (n : nat) (info0 info : string -> AddedInfo) (f0 f2 : nat -> option string) (u : option BatchUpdate) : Prop :=
  match u with
  | Some u => exists f1, step_log n info0 info f0 f1 f2 u
  | None => forall p, f2 p = f0 p /\ forall id, f0 p = Some id -> info0 id = info id
  end.

Lemma updates_mirror {T} (new_state : SamplingParams -> option (list Z) -> addr -> option T) n info0 info (Q0 Q : string -> option T -> Prop) f0 f2 u e :
  step_logged n info0 info f0 f2 u ->
  (forall id, Q id (let '(p, prompt, out) := info id in new_state p prompt out)) ->
  (forall id o, info0 id = info id -> Q0 id o -> Q id o) -> mirror_of Q0 [] f0 e ->
  mirror_of Q [] f2 (process_dict_updates new_state u e).1.
Proof.
  destruct u as [u|]; cbn [step_logged].
  - intros [f1 Hlog] Hnew HQ He. by eapply process_updates_mirror.
  - intros Hlog _ HQ (H1 & H2 & H3). split; [done|]. split; [done|]. intros p. destruct (Hlog p) as [-> Hinfo]. specialize (H3 p).
    destruct (f0 p) as [id|] eqn:Hp; [|done]. by apply HQ; [apply Hinfo|].
Qed.

Definition bias_tensors (e : dict Z (dict Z float)) : list float * (list Z * list Z) :=
  (to_f32 <$> concat ((fun p => dvalues p.2) <$> e),
   (concat ((fun p : Z * dict Z float => replicate (length p.2) p.1) <$> e), concat ((fun p => dkeys p.2) <$> e))).

(** The biases are those of the requests in the rows, and the tensors list them. *)
Definition bias_of (i : AddedInfo) : option (dict Z float) := let '(p, prompt, out) := i in logit_bias_of p prompt out.

Definition logit_bias_mirrors (info : string -> AddedInfo) (f : nat -> option string) (l : LogitBias) : Prop :=
  mirror_of (fun id o => o = bias_of (info id)) [] f (biases l) /\ (bias_tensor l, lb_logits_slice l) = bias_tensors (biases l).

Lemma logit_bias_tracks n info0 info f0 f2 u l : step_logged n info0 info f0 f2 u ->
  logit_bias_mirrors info0 f0 l -> logit_bias_mirrors info f2 (logit_bias_update u l).
Proof.
  intros Hlog [Hm Ht]. unfold logit_bias_update.
  assert (Hm' : mirror_of (fun id o => o = bias_of (info id)) [] f2 (process_dict_updates logit_bias_of u (biases l)).1).
  { eapply updates_mirror; [exact Hlog | done | | exact Hm]. intros id o Hi ->. by rewrite Hi. }
  pose proof (quiet_updates logit_bias_of u (biases l)) as Hquiet.
  destruct (process_dict_updates logit_bias_of u (biases l)) as [e upd]. cbn in *. destruct upd; [by split|].
  split; [done|]. cbn. by rewrite Hquiet.
Qed.

(** ** Minimum number of tokens *)

Definition min_tokens_entry (h : OutputStore) (i : AddedInfo) : option (Z * addr * list Z) := let '(p, prompt, out) := i in min_tokens_of h p prompt out.

Definition stop_slices (e : dict Z (Z * addr * list Z)) : list Z * list Z :=
  (concat ((fun p : Z * (Z * addr * list Z) => replicate (length p.2.2) p.1) <$> e), concat ((fun p => p.2.2) <$> e)).

(** The entries are those of the requests that have not reached their minimum. *)
Definition min_tokens_mirrors (h : OutputStore) (info : string -> AddedInfo) (f : nat -> option string) (m : MinTokens) : Prop :=
  mirror_of (fun id o => o = min_tokens_entry h (info id)) [] f (min_toks m) /\ mt_logits_slice m = stop_slices (min_toks m).

(** Outputs only grow. *)
Definition outputs_grow (h h' : OutputStore) (a : addr) : Prop := py_len (outputs_at h a) <= py_len (outputs_at h' a).

Lemma delete_reached {V} (rm : dict Z V) : forall (e : dict Z V) z, dict_ok e ->
  dict_ok (foldl (fun d p => ddel p.1 d) e rm) /\
  dget z (foldl (fun d p => ddel p.1 d) e rm) = if decide (z ∈ dkeys rm) then None else dget z e.
Proof.
  induction rm as [|[k v] rm IH]; intros e z Hok; [done|]. destruct (IH (ddel k e) z) as [H1 H2]; [by apply dict_ok_ddel|].
  split; [done|]. cbn [foldl fst]. rewrite H2. destruct (decide (z ∈ dkeys ((k, v) :: rm))) as [Hin|Hin].
  - apply elem_of_cons in Hin as [Heq|Hin]; [|by rewrite decide_True]. cbn in Heq. subst z. case_decide; [done|]. by apply dget_ddel_eq.
  - rewrite decide_False by (intros ?; apply Hin; by right). apply dget_ddel_ne. intros ->. apply Hin. by left.
Qed.

Lemma reached_keys h e z : dict_ok e ->
  z ∈ dkeys (List.filter (min_tokens_reached h) e) <-> exists t, dget z e = Some t /\ min_tokens_reached h (z, t) = true.
Proof.
  intros Hok. unfold dkeys. rewrite list_elem_of_fmap. split.
  - intros ([k t] & -> & Hin%list_elem_of_In). apply filter_In in Hin as [Hin Hr]. exists t. split; [|done]. apply elem_of_dget; [done | by apply list_elem_of_In].
  - intros (t & Ht & Hr). exists (z, t). split; [done|]. apply list_elem_of_In, filter_In. split; [|done]. by apply list_elem_of_In, dget_elem_of.
Qed.

Lemma min_tokens_entry_some h i t : min_tokens_entry h i = Some t -> t.1.1 = min_tokens i.1.1 /\ t.1.2 = i.2 /\ py_len (outputs_at h i.2) < min_tokens i.1.1.
Proof.
  destruct i as [[p prompt] out]. unfold min_tokens_entry, min_tokens_of. cbn. destruct (Z.eqb_spec (min_tokens p) 0); [done|]. cbn.
  destruct (Z.leb_spec (min_tokens p) (py_len (outputs_at h out))); [done|]. intros [= <-]. done.
Qed.

Lemma min_tokens_entry_grow h h' i : outputs_grow h h' i.2 ->
  min_tokens_entry h' i = match min_tokens_entry h i with Some t => if min_tokens_reached h' (0, t) then None else Some t | None => None end.
Proof.
  destruct i as [[p prompt] out]. unfold min_tokens_entry, min_tokens_of, outputs_grow, min_tokens_reached. cbn. intros Hg.
  destruct (Z.eqb_spec (min_tokens p) 0); [done|]. cbn. destruct (Z.leb_spec (min_tokens p) (py_len (outputs_at h out))); cbn.
  - by rewrite (proj2 (Z.leb_le _ _)) by lia.
  - by destruct (Z.leb_spec (min_tokens p) (py_len (outputs_at h' out))).
Qed.

Lemma min_tokens_tracks h h' n info0 info f0 f2 u m : step_logged n info0 info f0 f2 u ->
  (forall p id, f2 p = Some id -> outputs_grow h h' (info id).2) ->
  min_tokens_mirrors h info0 f0 m -> min_tokens_mirrors h' info f2 (min_tokens_update h' u m).
Proof.
  intros Hlog Hgrow [Hm Ht]. unfold min_tokens_update.
  set (Q := fun (id : string) (o : option (Z * addr * list Z)) => o = min_tokens_entry h' (info id) \/ o = min_tokens_entry h (info id)).
  assert (Hm' : mirror_of Q [] f2 (process_dict_updates (min_tokens_of h') u (min_toks m)).1).
  { eapply updates_mirror; [exact Hlog | by left | | exact Hm]. intros id o Hi ->. right. by rewrite Hi. }
  pose proof (quiet_updates (min_tokens_of h') u (min_toks m)) as Hquiet.
  destruct (process_dict_updates (min_tokens_of h') u (min_toks m)) as [e upd]. cbn in Hm', Hquiet.
  destruct Hm' as (Hok & Hnat & Hrows). set (rm := List.filter (min_tokens_reached h') e).
  destruct (delete_reached rm e 0 Hok) as [Hok' _]. assert (Hget := fun z => proj2 (delete_reached rm e z Hok)).
  set (e' := foldl (fun d p => ddel p.1 d) e rm) in *.
  assert (Hres : mirror_of (fun id o => o = min_tokens_entry h' (info id)) [] f2 e').
  { split; [done|]. split; [intros z; rewrite Hget; case_decide; [by intros [] | apply Hnat]|]. intros p. rewrite Hget. specialize (Hrows p).
    assert (Hkey : Z.of_nat p ∈ dkeys rm <-> exists t, dget (Z.of_nat p) e = Some t /\ min_tokens_reached h' (0, t) = true) by exact (reached_keys h' e _ Hok).
    destruct (f2 p) as [id|] eqn:Hfp; [|case_decide; [by right | done]]. specialize (Hgrow p id Hfp). pose proof (min_tokens_entry_grow h h' (info id) Hgrow) as Hg. clear Hgrow.
    destruct Hrows as [Ho|Ho]; rewrite Ho in Hkey |- *.
    - rewrite decide_False; [done|]. rewrite Hkey. intros (t & Het & Hr). destruct (min_tokens_entry_some _ _ _ Het) as (H1 & H2 & H3).
      unfold min_tokens_reached in Hr. cbn in Hr. rewrite H1, H2 in Hr. lia.
    - rewrite Hg. destruct (min_tokens_entry h (info id)) as [t|]; [|by case_decide]. destruct (min_tokens_reached h' (0, t)) eqn:Hr.
      + rewrite decide_True; [done|]. apply Hkey. eauto.
      + rewrite decide_False; [done|]. rewrite Hkey. intros (t' & [= <-] & Hr'). congruence. }
  assert (Hrm : rm = [] -> e' = e) by (intros Hr; unfold e'; by rewrite Hr).
  destruct rm as [|x rm'] eqn:Hrmeq.
  - rewrite Hrm in Hres by done. split; [done|]. cbn. destruct upd; [done|]. by rewrite Hquiet.
  - split; [exact Hres | done].
Qed.

(** * The minimum probabilities follow the batch

    The host array of [MinPLogitsProcessor] after an update: every row has its
    request's [min_p], every other row has zero, and the counter is at least the
    number of rows that are not zero, so that a zero counter means there is none. *)

(** ** Floats up to the sign of zero *)

Definition fsame (x y : float) : Prop := x = y \/ (is_zero x = true /\ is_zero y = true).

Lemma is_zero_cases x : is_zero x = true <-> exists s, x = S754_zero s.
Proof.
  unfold is_zero, feq, fzero. destruct x as [s|s| |s m e]; cbn.
  - split; eauto.
  - destruct s; split; try done; by intros [? ?].
  - split; [done | by intros [? ?]].
  - destruct s; split; try done; by intros [? ?].
Qed.

Lemma pos_compare_eq m m' : Pos.compare_cont Eq m m' = Eq -> m = m'.
Proof. apply Pos.compare_eq. Qed.

Lemma feq_fsame x y : feq x y = true -> fsame x y.
Proof.
  unfold feq. destruct x as [s|s| |s m e], y as [s'|s'| |s' m' e']; cbn; try done;
    try (by destruct s); try (by destruct s'); try (by destruct s, s').
  - intros _. right. split; apply is_zero_cases; eauto.
  - destruct s, s'; try done; by left.
  - destruct s, s'; try done; destruct (Z.compare_spec e e') as [->|?|?]; try done; cbn;
      destruct (Pos.compare_cont Eq m m') eqn:Hc; try done; intros _; apply pos_compare_eq in Hc; subst; by left.
Qed.

#[global] Instance fsame_equiv : Equivalence fsame.
Proof.
  split.
  - intros x. by left.
  - intros x y [->|[? ?]]; [by left | by right].
  - intros x y z [->|[? ?]] [->|[? ?]]; [by left | by right | by right | by right].
Qed.

Lemma fsame_zero x y : fsame x y -> is_zero x = is_zero y.
Proof. intros [->|[H1 H2]]; [done | congruence]. Qed.

Lemma to_f32_zero x : is_zero x = true -> is_zero (to_f32 x) = true.
Proof. intros [s ->]%is_zero_cases. done. Qed.

(** ** The array *)

Definition nonzeros (l : list float) : Z := py_len (List.filter (fun x => negb (is_zero x)) l).
Definition nz (x : float) : Z := if is_zero x then 0 else 1.

Lemma nonzeros_cons x l : nonzeros (x :: l) = nz x + nonzeros l.
Proof. unfold nonzeros, nz, py_len. cbn. destruct (is_zero x); cbn; lia. Qed.

Lemma nonzeros_insert (l : list float) i x y : l !! i = Some x -> nonzeros (<[i := y]> l) = nonzeros l - nz x + nz y.
Proof.
  revert i. induction l as [|a l IH]; intros [|i] Hi; try done; cbn in Hi.
  - injection Hi as ->. change (<[0%nat := y]> (x :: l)) with (y :: l). rewrite !nonzeros_cons. lia.
  - change (<[Datatypes.S i := y]> (a :: l)) with (a :: <[i := y]> l). rewrite !nonzeros_cons, (IH i Hi). lia.
Qed.

Lemma nonzeros_zero l : nonzeros l <= 0 -> forall i x, l !! i = Some x -> is_zero x = true.
Proof.
  intros Hn i x Hx. destruct (is_zero x) eqn:Hz; [done|]. exfalso.
  assert (Hin : In x (List.filter (fun x => negb (is_zero x)) l)) by (apply filter_In; split; [by eapply list_elem_of_In, list_elem_of_lookup_2 | by rewrite Hz]).
  unfold nonzeros, py_len in Hn. destruct (List.filter _ l); [done | cbn in Hn; lia].
Qed.

(** A row's entry is its request's value, as the array's type rounds it. *)
Definition min_p_value (p x : float) : Prop := fsame x (to_f32 p) \/ fsame x p.

Lemma min_p_value_same p x y : fsame x y -> min_p_value p y -> min_p_value p x.
Proof. intros Hs [Hy|Hy]; [left | right]; by etransitivity. Qed.

Section MinP.
Context (n : nat) (info : string -> AddedInfo).

Definition min_p_of (id : string) : float := min_p (info id).1.1.

(** The rows that are neither of a request nor in [stale] have zero. *)
Definition min_p_mirror (stale : list Z) (f : nat -> option string) (m : MinP) : Prop :=
  length (min_p_cpu m) = n /\ nonzeros (min_p_cpu m) <= min_p_count m /\
  forall p x, min_p_cpu m !! p = Some x ->
    match f p with Some id => min_p_value (min_p_of id) x | None => Z.of_nat p ∈ stale \/ is_zero x = true end.

(** What every operation keeps. *)
Definition min_p_sound (m : MinP) : Prop := length (min_p_cpu m) = n /\ nonzeros (min_p_cpu m) <= min_p_count m.

Lemma min_p_add_ok a p s : ar_index a = Z.of_nat p -> (p < n)%nat -> min_p_sound s.1 ->
  exists s', min_p_add a s = Ok s' /\ min_p_sound s'.1 /\ (forall q, q <> p -> min_p_cpu s'.1 !! q = min_p_cpu s.1 !! q) /\
    forall x, min_p_cpu s'.1 !! p = Some x -> min_p_value (min_p (ar_params a)) x.
Proof using Type.
  intros Ha Hp [Hlen Hnz]. destruct s as [m upd]. cbn in *. unfold min_p_add. rewrite Ha. destruct (lookup_lt_is_Some_2 (min_p_cpu m) p) as [x Hx]; [lia|].
  rewrite (py_index_nat _ _ _ Hx). cbn [mbind result_bind]. destruct (feq x (min_p (ar_params a))) eqn:Hf.
  - exists (m, upd). split; [done|]. split; [done|]. split; [done|]. intros y Hy. cbn in Hy. rewrite Hx in Hy. injection Hy as <-. right. by apply feq_fsame.
  - rewrite py_setitem_nat by lia. cbn [mbind result_bind]. eexists. split; [reflexivity|]. cbn. split; [split|split].
    + cbn. by rewrite length_insert.
    + cbn. rewrite (nonzeros_insert _ _ x) by done. pose proof (to_f32_zero (min_p (ar_params a))) as Hz. unfold nz.
      destruct (is_zero (min_p (ar_params a))), (is_zero x), (is_zero (to_f32 _)); cbn; try lia; by specialize (Hz eq_refl).
    + intros q Hq. by apply list_lookup_insert_ne.
    + intros y Hy. rewrite list_lookup_insert_eq in Hy by lia. injection Hy as <-. left. reflexivity.
Qed.

Lemma last_added_cons p a l : last_added p (a :: l) = match last_added p l with Some b => Some b | None => if ar_index a =? Z.of_nat p then Some a else None end.
Proof using Type. clear. induction l as [|b l IH] using rev_ind; [done|]. rewrite app_comm_cons, !last_added_snoc, IH. by destruct (ar_index b =? Z.of_nat p). Qed.

Lemma min_p_adds_ok l : forall s, (forall a, a ∈ l -> exists p, ar_index a = Z.of_nat p /\ (p < n)%nat) -> min_p_sound s.1 ->
  exists s', for_each min_p_add l s = Ok s' /\ min_p_sound s'.1 /\
    forall p x, min_p_cpu s'.1 !! p = Some x ->
      match last_added p l with Some a => min_p_value (min_p (ar_params a)) x | None => min_p_cpu s.1 !! p = Some x end.
Proof using Type.
  induction l as [|a l IH]; intros s Hl Hs; [by exists s|]. destruct (Hl a) as (k & Hk & Hkn); [by left|].
  destruct (min_p_add_ok a k s Hk Hkn Hs) as (s1 & Hrun1 & Hs1 & Hother & Hval).
  destruct (IH s1) as (s' & Hrun & Hs' & Hrows); [intros b Hb; apply Hl; by right | done |]. exists s'. cbn [for_each]. rewrite Hrun1. cbn [mbind result_bind].
  split; [done|]. split; [done|]. intros p x Hx. specialize (Hrows p x Hx). rewrite last_added_cons. destruct (last_added p l); [done|].
  rewrite Hk. destruct (Z.eqb_spec (Z.of_nat k) (Z.of_nat p)) as [He|Hne]; [apply Nat2Z.inj in He; subst; by apply Hval | by rewrite <- Hother by lia].
Qed.

Lemma min_p_remove_ok p m : (p < n)%nat -> min_p_sound m -> exists m', min_p_remove (Z.of_nat p) m = Ok m' /\ min_p_sound m' /\
  (forall q, q <> p -> min_p_cpu m' !! q = min_p_cpu m !! q) /\ forall x, min_p_cpu m' !! p = Some x -> is_zero x = true.
Proof using Type.
  intros Hp [Hlen Hnz]. unfold min_p_remove. destruct (lookup_lt_is_Some_2 (min_p_cpu m) p) as [x Hx]; [lia|].
  rewrite (py_index_nat _ _ _ Hx). cbn [mbind result_bind]. destruct (is_zero x) eqn:Hz.
  - exists m. split_and!; try done. intros y Hy. rewrite Hx in Hy. by injection Hy as <-.
  - rewrite py_setitem_nat by lia. cbn [mbind result_bind]. eexists. split; [reflexivity|]. split; [split; cbn|split].
    + by rewrite length_insert.
    + rewrite (nonzeros_insert _ _ x) by done. unfold nz. rewrite Hz. cbn. lia.
    + intros q Hq. by apply list_lookup_insert_ne.
    + intros y Hy. cbn in Hy. rewrite list_lookup_insert_eq in Hy by lia. by injection Hy as <-.
Qed.

Lemma min_p_removes_ok l : forall m, (forall z, z ∈ l -> exists p, z = Z.of_nat p /\ (p < n)%nat) -> min_p_sound m ->
  exists m', for_each min_p_remove l m = Ok m' /\ min_p_sound m' /\
    forall p x, min_p_cpu m' !! p = Some x -> if decide (Z.of_nat p ∈ l) then is_zero x = true else min_p_cpu m !! p = Some x.
Proof using Type.
  induction l as [|z l IH]; intros m Hl Hm; [by exists m|]. destruct (Hl z) as (k & -> & Hk); [by left|].
  destruct (min_p_remove_ok k m Hk Hm) as (m1 & Hrun1 & Hm1 & Hother & Hz).
  destruct (IH m1) as (m' & Hrun & Hm' & Hrows); [intros z Hz'; apply Hl; by right | done |]. exists m'. cbn [for_each]. rewrite Hrun1. cbn [mbind result_bind].
  split; [done|]. split; [done|]. intros p x Hx. specialize (Hrows p x Hx). destruct (decide (Z.of_nat p ∈ Z.of_nat k :: l)) as [Hin|Hin].
  - destruct (decide (Z.of_nat p ∈ l)); [done|]. apply elem_of_cons in Hin as [He|?]; [|done]. apply Nat2Z.inj in He. subst. by apply Hz.
  - rewrite decide_False in Hrows by (intros ?; apply Hin; by right). rewrite <- Hother; [done|]. intros ->. apply Hin. by left.
Qed.

(** One move: the entries afterwards, up to the sign of zero. *)
Lemma min_p_move_ok i j d s xi xj : i <> j -> min_p_sound s.1 -> min_p_cpu s.1 !! i = Some xi -> min_p_cpu s.1 !! j = Some xj ->
  exists s', min_p_move (Z.of_nat i, Z.of_nat j, d) s = Ok s' /\ min_p_sound s'.1 /\
    (forall q, q <> i -> q <> j -> min_p_cpu s'.1 !! q = min_p_cpu s.1 !! q) /\
    (exists y, min_p_cpu s'.1 !! j = Some y /\ fsame y xi) /\
    (exists y, min_p_cpu s'.1 !! i = Some y /\ match d with SWAP => fsame y xj | UNIDIRECTIONAL => is_zero y = true end).
Proof using Type.
  intros Hij [Hlen Hnz] Hi Hj. destruct s as [m upd]. cbn in *. pose proof (lookup_lt_Some _ _ _ Hi). pose proof (lookup_lt_Some _ _ _ Hj).
  unfold min_p_move. rewrite (py_index_nat _ _ _ Hi), (py_index_nat _ _ _ Hj). cbn [mbind result_bind].
  assert (Hji : <[j := xi]> (min_p_cpu m) !! i = Some xi) by (by rewrite list_lookup_insert_ne).
  assert (Hnj : nonzeros (<[j := xi]> (min_p_cpu m)) = nonzeros (min_p_cpu m) - nz xj + nz xi) by by apply nonzeros_insert.
  destruct (feq xi xj) eqn:Hf.
  - apply feq_fsame in Hf as Hs. pose proof (fsame_zero _ _ Hs) as Hzz. cbn [mbind result_bind]. destruct d.
    + destruct (is_zero xi) eqn:Hz; rewrite <- Hzz; [|rewrite py_setitem_nat by lia]; cbn [mbind result_bind]; eexists; (split; [reflexivity|]); cbn.
      * split; [by split|]. split; [done|]. split; [exists xj; split; [done|]; by symmetry | by exists xi].
      * split. { split; cbn; [by rewrite length_insert|]. rewrite (nonzeros_insert _ _ xi) by done. unfold nz. rewrite Hz. cbn. lia. }
        split; [intros q Hq _; by apply list_lookup_insert_ne|]. split.
        { exists xj. split; [by rewrite list_lookup_insert_ne | by symmetry]. }
        { exists fzero. split; [by apply list_lookup_insert_eq; lia | done]. }
    + eexists. split; [reflexivity|]. cbn. split; [by split|]. split; [done|]. split; [exists xj; split; [done | by symmetry] | by exists xi].
  - rewrite py_setitem_nat by lia. cbn [mbind result_bind]. destruct d; cbn [mbind result_bind].
    + destruct (is_zero xi) eqn:Hz; [|cbn [min_p_cpu]; rewrite py_setitem_nat by (rewrite length_insert; lia)];
        cbn [mbind result_bind]; eexists; (split; [reflexivity|]); cbn.
      * split. { split; cbn; [by rewrite length_insert|]. rewrite Hnj. unfold nz. rewrite Hz. destruct (is_zero xj); lia. }
        split; [intros q _ Hq; by apply list_lookup_insert_ne|]. split; [exists xi; split; [by apply list_lookup_insert_eq; lia | done] | by exists xi].
      * split. { split; cbn; [by rewrite !length_insert|]. rewrite (nonzeros_insert _ _ xi) by done. rewrite Hnj. unfold nz. rewrite Hz. destruct (is_zero xj); cbn; lia. }
        split; [intros q Hq1 Hq2; by rewrite !list_lookup_insert_ne|]. split.
        { exists xi. split; [rewrite list_lookup_insert_ne by done; by apply list_lookup_insert_eq; lia | done]. }
        { exists fzero. split; [apply list_lookup_insert_eq; rewrite length_insert; lia | done]. }
    + rewrite py_setitem_nat by (rewrite length_insert; lia). cbn [mbind result_bind]. eexists. split; [reflexivity|]. cbn.
      split. { split; cbn; [by rewrite !length_insert|]. rewrite (nonzeros_insert _ _ xi) by done. rewrite Hnj. lia. }
      split; [intros q Hq1 Hq2; by rewrite !list_lookup_insert_ne|]. split.
      { exists xi. split; [rewrite list_lookup_insert_ne by done; by apply list_lookup_insert_eq; lia | done]. }
      { exists xj. split; [apply list_lookup_insert_eq; rewrite length_insert; lia | done]. }
Qed.
End MinP.

Section Tracks.
Context (n : nat) (info : string -> AddedInfo).
#[local] Abbreviation value id x := (min_p_value (min_p_of info id) x).

Lemma min_p_moves_ok ms f f' : replays ms f f' -> (forall p, (n <= p)%nat -> f p = None) ->
  (forall z, z ∈ filled_by ms -> exists p, z = Z.of_nat p /\ (p < n)%nat) ->
  forall s, min_p_sound n s.1 -> min_p_mirror n info (filled_by ms) f s.1 ->
  exists s', for_each min_p_move ms s = Ok s' /\ min_p_mirror n info [] f' s'.1.
Proof.
  induction 1 as [f f' Hext|i j x ms f f' Hij Hi Hj _ IH|i j x y ms f f' Hij Hi Hj _ IH]; intros Hrange Hfill s Hs Hm; cbn [for_each].
  - exists s. split; [done|]. destruct Hm as (H1 & H2 & H3). split; [done|]. split; [done|]. intros p. rewrite <- Hext. apply H3.
  - destruct (Hfill (Z.of_nat j)) as (j' & Hj' & Hjn); [by left|]. apply Nat2Z.inj in Hj'. subst j'.
    assert (Hin : (i < n)%nat) by (destruct (decide (i < n)%nat); [done|]; rewrite Hrange in Hi by lia; done).
    destruct Hm as (Hlen & Hnz & Hrows). destruct (lookup_lt_is_Some_2 (min_p_cpu s.1) i) as [xi Hxi]; [lia|]. destruct (lookup_lt_is_Some_2 (min_p_cpu s.1) j) as [xj Hxj]; [lia|].
    destruct (min_p_move_ok n i j UNIDIRECTIONAL s xi xj Hij Hs Hxi Hxj) as (s1 & Hrun & Hs1 & Hother & (yj & Hyj & Hsj) & (yi & Hyi & Hzi)).
    rewrite Hrun. cbn [mbind result_bind]. apply IH; [| | done |].
    + intros p Hp. unfold after_move. rewrite !decide_False by (intros ->; lia). by apply Hrange.
    + intros z Hz. apply Hfill. by right.
    + split; [apply Hs1|]. split; [apply Hs1|]. intros p z Hz. unfold after_move. destruct (decide (p = i)) as [->|Hpi].
      { right. rewrite Hyi in Hz. by injection Hz as <-. }
      destruct (decide (p = j)) as [->|Hpj].
      { rewrite Hyj in Hz. injection Hz as <-. specialize (Hrows i xi Hxi). rewrite Hi in Hrows. by eapply min_p_value_same. }
      rewrite Hother in Hz by done. specialize (Hrows p z Hz). destruct (f p); [done|]. destruct Hrows as [Hst|?]; [|by right].
      cbn in Hst. apply elem_of_cons in Hst as [?|?]; [lia | by left].
  - assert (Hin : (i < n)%nat) by (destruct (decide (i < n)%nat); [done|]; rewrite Hrange in Hi by lia; done).
    assert (Hjn : (j < n)%nat) by (destruct (decide (j < n)%nat); [done|]; rewrite Hrange in Hj by lia; done).
    destruct Hm as (Hlen & Hnz & Hrows). destruct (lookup_lt_is_Some_2 (min_p_cpu s.1) i) as [xi Hxi]; [lia|]. destruct (lookup_lt_is_Some_2 (min_p_cpu s.1) j) as [xj Hxj]; [lia|].
    destruct (min_p_move_ok n i j SWAP s xi xj Hij Hs Hxi Hxj) as (s1 & Hrun & Hs1 & Hother & (yj & Hyj & Hsj) & (yi & Hyi & Hsi)).
    rewrite Hrun. cbn [mbind result_bind]. apply IH; [| | done |].
    + intros p Hp. unfold after_swap. rewrite !decide_False by (intros ->; lia). by apply Hrange.
    + intros z Hz. apply Hfill. done.
    + split; [apply Hs1|]. split; [apply Hs1|]. intros p z Hz. unfold after_swap. destruct (decide (p = i)) as [->|Hpi].
      { rewrite Hyi in Hz. injection Hz as <-. specialize (Hrows j xj Hxj). rewrite Hj in Hrows. by eapply min_p_value_same. }
      destruct (decide (p = j)) as [->|Hpj].
      { rewrite Hyj in Hz. injection Hz as <-. specialize (Hrows i xi Hxi). rewrite Hi in Hrows. by eapply min_p_value_same. }
      rewrite Hother in Hz by done. specialize (Hrows p z Hz). by destruct (f p).
Qed.

Lemma replays_source ms f f' p id : replays ms f f' -> f' p = Some id -> exists q, f q = Some id.
Proof.
  intros Hr. revert p. induction Hr as [f f' Hext|i j x ms f f' Hij Hi Hj _ IH|i j x y ms f f' Hij Hi Hj _ IH]; intros p Hp.
  - exists p. by rewrite Hext.
  - destruct (IH p Hp) as [q Hq]. unfold after_move in Hq. repeat case_decide; simplify_eq; eauto.
  - destruct (IH p Hp) as [q Hq]. unfold after_swap in Hq. repeat case_decide; simplify_eq; eauto.
Qed.

Lemma min_p_tracks double info0 f0 f2 u m : step_logged n info0 info f0 f2 u -> min_p_mirror n info0 [] f0 m ->
  exists m', min_p_update double u m = Ok m' /\ min_p_mirror n info [] f2 m'.
Proof.
  destruct u as [u|]; cbn [step_logged].
  2:{ intros Hlog (H1 & H2 & H3). exists m. split; [done|]. split; [done|]. split; [done|]. intros p x Hx. destruct (Hlog p) as [-> Hinfo]. specialize (H3 p x Hx).
      destruct (f0 p) as [id|] eqn:Hp; [|done]. unfold min_p_of in *. by rewrite <- Hinfo. }
  intros (f1 & [Hadds Hfree Hholes Hmoves Hrange Hidx]) (Hlen & Hnz & Hrows). unfold min_p_update.
  destruct (min_p_adds_ok n (bu_added u) (m, false)) as ([m1 upd] & Hrun1 & Hs1 & Hrows1); [done | by split |]. rewrite Hrun1. cbn [mbind result_bind fst] in *.
  assert (Hm1 : min_p_mirror n info (filled_by (bu_moved u) ++ bu_removed u) f1 m1).
  { split; [apply Hs1|]. split; [apply Hs1|]. intros p x Hx. specialize (Hrows1 p x Hx). destruct (f1 p) as [id|] eqn:Hp.
    - specialize (Hadds p id Hp). destruct (last_added p (bu_added u)) as [a|].
      + unfold min_p_of. by rewrite <- Hadds.
      + destruct Hadds as [H0 Hinfo]. specialize (Hrows p x Hrows1). rewrite H0 in Hrows. unfold min_p_of in *. by rewrite <- Hinfo.
    - destruct (Hfree p Hp) as [?|[H0 Hl]]; [by left|]. right. rewrite Hl in Hrows1. specialize (Hrows p x Hrows1). rewrite H0 in Hrows.
      destruct Hrows as [Hin|?]; [by apply elem_of_nil in Hin | done]. }
  assert (Hfin : exists m2 upd2, (if min_p_count m1 =? 0 then Ok (m1, upd) else
       m ← for_each min_p_remove (bu_removed u) m1; for_each min_p_move (bu_moved u) (m, upd || negb (bool_decide (bu_removed u = [])))) = Ok (m2, upd2) /\
     min_p_mirror n info [] f2 m2).
  { destruct (Z.eqb_spec (min_p_count m1) 0) as [Hz|Hz].
    - exists m1, upd. split; [done|]. split; [apply Hs1|]. split; [apply Hs1|]. destruct Hs1 as [Hl1 Hn1]. assert (Hzero := nonzeros_zero (min_p_cpu m1) ltac:(lia)).
      intros p x Hx. destruct (f2 p) as [id|] eqn:Hp; [|right; by eapply Hzero]. destruct (replays_source _ _ _ _ _ Hmoves Hp) as [q Hq].
      assert (Hqn : (q < n)%nat) by (destruct (decide (q < n)%nat); [done|]; destruct (Hrange q) as [_ Hr]; [lia | congruence]).
      destruct (lookup_lt_is_Some_2 (min_p_cpu m1) q) as [y Hy]; [lia|]. destruct Hm1 as (_ & _ & Hm1). specialize (Hm1 q y Hy). rewrite Hq in Hm1.
      eapply min_p_value_same; [|exact Hm1]. right. eauto.
    - destruct (min_p_removes_ok n (bu_removed u) m1) as (m2 & Hrun2 & Hs2 & Hrows2); [|done|].
      { intros z Hin. destruct (Hholes z) as (p & -> & _ & Hp); [apply elem_of_app; by right | eauto]. }
      rewrite Hrun2. cbn [mbind result_bind]. destruct (min_p_moves_ok (bu_moved u) f1 f2 Hmoves) with (s := (m2, upd || negb (bool_decide (bu_removed u = [])))) as ([m3 upd3] & Hrun3 & Hm3).
      + intros p Hp. by apply Hrange.
      + intros z Hin. destruct (Hholes z) as (p & -> & _ & Hp); [apply elem_of_app; by left | eauto].
      + done.
      + split; [apply Hs2|]. split; [apply Hs2|]. cbn. intros p x Hx. specialize (Hrows2 p x Hx). destruct Hm1 as (_ & _ & Hm1).
        case_decide as Hin.
        * destruct (Hholes (Z.of_nat p)) as (q & Hq & Hnone & _); [apply elem_of_app; by right|]. apply Nat2Z.inj in Hq. subst q. rewrite Hnone. by right.
        * specialize (Hm1 p x Hrows2). destruct (f1 p); [done|]. destruct Hm1 as [[?|?]%elem_of_app|?]; [by left | done | by right].
      + eauto. }
  destruct Hfin as (m2 & upd2 & Hrun2 & Hm2). rewrite Hrun2. cbn [mbind result_bind].
  destruct (negb (min_p_count m2 =? 0) && (upd2 || negb (min_p_shape m2 =? batch_size u))); eexists; (split; [reflexivity|]); exact Hm2.
Qed.
End Tracks.

(** ** All processors *)

(** [exact]: no outputs are taken back.  A processor of minimum lengths forgets a request that
    has reached its minimum for good. *)
Definition processor_mirrors (exact : bool) (n : nat) (h : OutputStore) (info : string -> AddedInfo) (f : nat -> option string) (p : LogitsProcessor) : Prop :=
  match p with
  | LPMinP _ m => min_p_mirror n info [] f m
  | LPLogitBias l => logit_bias_mirrors info f l
  | LPMinTokens m => exact = true -> min_tokens_mirrors h info f m
  end.

Lemma update_state_tracks exact n h h' info0 info f0 f2 u p : step_logged n info0 info f0 f2 u ->
  (exact = true -> forall p id, f2 p = Some id -> outputs_grow h h' (info id).2) ->
  processor_mirrors exact n h info0 f0 p -> exists p', update_state h' u p = Ok p' /\ processor_mirrors exact n h' info f2 p'.
Proof.
  intros Hlog Hgrow Hp. destruct p as [double m|l|m]; cbn in *.
  - destruct (min_p_tracks n info double info0 f0 f2 u m Hlog Hp) as (m' & -> & Hm'). by exists (LPMinP double m').
  - exists (LPLogitBias (logit_bias_update u l)). split; [done|]. by eapply logit_bias_tracks.
  - exists (LPMinTokens (min_tokens_update h' u m)). split; [done|]. intros He. eapply min_tokens_tracks; eauto.
Qed.

Lemma update_states_track exact n h h' info0 info f0 f2 u ps : step_logged n info0 info f0 f2 u ->
  (exact = true -> forall p id, f2 p = Some id -> outputs_grow h h' (info id).2) ->
  Forall (processor_mirrors exact n h info0 f0) ps -> exists ps', mapM (update_state h' u) ps = Ok ps' /\ Forall (processor_mirrors exact n h' info f2) ps'.
Proof.
  intros Hlog Hgrow. induction 1 as [|p ps Hp _ IH]; [by exists []|].
  destruct (update_state_tracks exact n h h' info0 info f0 f2 u p Hlog Hgrow Hp) as (p' & Hrun & Hp').
  destruct IH as (ps' & Hruns & Hps'). exists (p' :: ps'). split; [by apply mapM_cons_ok | by constructor].
Qed.
