(* ===== verification/WorkerStates.v ===== *)
(** * The model runner's states, step by step

    [_update_states], [_may_reorder_batch] and [_update_states_after_model_execute] of
    [vllm/v1/worker/gpu_model_runner.py]: what the runner does to its cached requests
    and its persistent batch with the scheduler's output.  Multi-modal rotary
    positions ([_init_mrope_positions]) come from the model and are not modelled. *)

From S2P Require Import Prelude PyDict PyList PyFloat Request Outputs Numpy BlockTable Sampling BatchUpdate InputBatch ReorderBatch.
#[local] Open Scope Z_scope.

(** The runner's settings that these methods read. *)
Record RunnerConfig := mkRunnerConfig {
  is_last_rank : bool;
  use_async_scheduling : bool;
  reorder_batch_threshold : option Z;
  num_kv_cache_groups : Z;
  runner_dcp_world_size : Z;
  attention_backend : option string;
}.

(** [self.requests], the objects of output tokens with the next free address, the
    encoder outputs and the batch. *)
Record Runner := mkRunner {
  rn_requests : gmap string CachedRequestState;
  rn_outputs : OutputStore;
  rn_next : addr;
  rn_encoder_cache : gmap string opaque;
  input_batch : InputBatch;
}.

#[export] Instance eta_Runner : Eta Runner := fun s =>
  mkRunner (rn_requests s) (rn_outputs s) (rn_next s) (rn_encoder_cache s) (input_batch s).

(** The order in which Python iterates over a set of strings. *)
Class SetOrder := {
  set_order : gset string -> list string;
  set_order_perm : forall s, set_order s ≡ₚ elements s;
}.

(** The pooling model's pooler: the task of a request's parameters and what the task
    adds to them. *)
Class Pooler := {
  pooling_task : opaque -> option string;
  apply_pooling_updates : string -> opaque -> opaque;
}.

Section Worker.
Context `{PoolingInfo} `{SetOrder} `{Pooler}.
Context (c : RunnerConfig).

(** A change of the batch that may fail. *)
Definition on_batch (f : InputBatch -> result InputBatch) (s : Runner) : result Runner :=
  b ← f (input_batch s); Ok (s <| input_batch := b |>).

Definition remove_from_batch (req_id : string) (s : Runner) : result Runner :=
  on_batch (fun b => '(_, b) ← remove_request req_id b; Ok b) s.

(** ** Requests that leave *)

Definition drop_finished (so : SchedulerOutput) (s : Runner) : result Runner :=
  let finished := set_order (so_finished_req_ids so) in
  let s := s <| rn_requests := foldl (fun reqs rid => delete rid reqs) (rn_requests s) finished |> in
  s ← for_each remove_from_batch finished s;
  Ok (s <| rn_encoder_cache := foldl (fun cache mm_hash => delete mm_hash cache) (rn_encoder_cache s) (free_encoder_mm_hashes so) |>).

(** The batch keeps only what is scheduled again. *)
Definition unscheduled_req_ids (so : SchedulerOutput) (b : InputBatch) : gset string :=
  list_to_set (dkeys (ib_req_id_to_index b)) ∖ list_to_set (dkeys (num_scheduled_tokens so)).

Definition drop_unscheduled (so : SchedulerOutput) (s : Runner) : result Runner :=
  for_each remove_from_batch (set_order (unscheduled_req_ids so (input_batch s))) s.

(** ** New requests *)

(** The seed of the generator a request with a seed gets. *)
Definition new_generator (p : option SamplingParams) : result (option Z) :=
  match p with
  | None => Ok None
  | Some p =>
      kind ← sampling_type p;
      if bool_decide (kind = RANDOM_SEED) then z ← or_raise TypeError (seed p); Ok (Some z) else Ok None
  end.

Definition new_pooling_params (pooling : bool) (p : option opaque) : result (option opaque) :=
  if pooling then
    p ← or_raise AssertionError p;
    task ← or_raise AssertionError (pooling_task p);
    Ok (Some (apply_pooling_updates task p))
  else Ok p.

(** The request's state, with an empty list of outputs at the next address. *)
Definition add_new_request (d : NewRequestData) (st : Runner * list string) : result (Runner * list string) :=
  let '(s, reqs_to_add) := st in
  generator ← new_generator (nrd_sampling_params d);
  pooling ← new_pooling_params (is_pooling_model (input_batch s)) (nrd_pooling_params d);
  r ← crs_post_init {|
    crs_req_id := nrd_req_id d; crs_prompt_token_ids := nrd_prompt_token_ids d; crs_mm_features := nrd_mm_features d;
    crs_sampling_params := nrd_sampling_params d; crs_pooling_params := pooling; crs_generator := generator;
    crs_block_ids := nrd_block_ids d; crs_num_computed_tokens := nrd_num_computed_tokens d; crs_output := rn_next s;
    crs_lora_request := nrd_lora_request d; crs_prompt_embeds := nrd_prompt_embeds d; crs_num_prompt_tokens := 0 |};
  Ok (s <| rn_requests := <[nrd_req_id d := r]> (rn_requests s) |>
        <| rn_outputs := <[rn_next s := []]> (rn_outputs s) |> <| rn_next := rn_next s + 1 |>,
      reqs_to_add ++ [nrd_req_id d]).

(** ** Requests already known *)

(** What the first stages of a pipeline are told of the last step's tokens. *)
Definition append_new_tokens (num_computed : Z) (new_token_ids : list Z) (r : CachedRequestState) (h : OutputStore) : result OutputStore :=
  let num_new_tokens := num_computed + py_len new_token_ids - crs_num_tokens h r in
  let out := outputs_at h (crs_output r) in
  if num_new_tokens =? 1 then t ← py_index new_token_ids (-1); Ok (<[crs_output r := out ++ [t]]> h)
  else if 0 <? num_new_tokens then Ok (<[crs_output r := out ++ slice_from (- num_new_tokens) new_token_ids]> h)
  else Ok h.

(** The outputs of a request and, when some were discarded, its row. *)
Definition sync_outputs (i num_computed num_output_tokens : Z) (crd : CachedRequestData) (req_index : option Z)
    (r : CachedRequestState) (s : Runner) : result Runner :=
  if negb (is_last_rank c) then
    new_token_ids ← py_index (crd_new_token_ids crd) i;
    h ← append_new_tokens num_computed new_token_ids r (rn_outputs s);
    Ok (s <| rn_outputs := h |>)
  else
    let out := outputs_at (rn_outputs s) (crs_output r) in
    if num_output_tokens <? py_len out then
      let s := s <| rn_outputs := <[crs_output r := slice_to num_output_tokens out]> (rn_outputs s) |> in
      match req_index with
      | None => Ok s
      | Some idx =>
          on_batch (update_row idx (fun row =>
            let end_idx := row_num_prompt_tokens row + num_output_tokens in
            Ok (row <| row_num_tokens := end_idx |> <| row_num_tokens_no_spec := end_idx |>))) s
      end
    else Ok s.

(** [zip]: groups beyond the shorter tuple are left alone. *)
Fixpoint extend_blocks (blocks new : list (list Z)) : list (list Z) :=
  match blocks, new with
  | b :: bs, n :: ns => (b ++ n) :: extend_blocks bs ns
  | _, _ => blocks
  end.

Definition update_block_ids (resumed : bool) (new_block_ids : option (list (list Z))) (req_index : option Z) (r : CachedRequestState)
    : result CachedRequestState :=
  if negb resumed then
    Ok (match new_block_ids with Some new => r <| crs_block_ids := extend_blocks (crs_block_ids r) new |> | None => r end)
  else
    _ ← py_assert (bool_decide (req_index = None));
    new ← or_raise AssertionError new_block_ids;
    Ok (r <| crs_block_ids := new |>).

(** A request that is not in the batch gets its outputs back with asynchronous scheduling. *)
Definition recover_outputs (num_output_tokens : Z) (rid : string) (crd : CachedRequestData) (s : Runner) (r : CachedRequestState)
    : result (CachedRequestState * Runner) :=
  if use_async_scheduling c && (0 <? num_output_tokens) then
    all ← or_raise KeyError (dget rid (crd_all_token_ids crd));
    Ok (r <| crs_output := rn_next s |>,
        s <| rn_outputs := <[rn_next s := slice_from (- num_output_tokens) all]> (rn_outputs s) |> <| rn_next := rn_next s + 1 |>)
  else Ok (r, s).

(** The row of a request that stays. *)
Definition write_new_tokens (num_computed : Z) (new_token_ids : list Z) (row : Row) : result Row :=
  let end_token_index := num_computed + py_len new_token_ids in
  toks ← np_set_slice num_computed end_token_index new_token_ids (row_token_ids row);
  Ok (row <| row_token_ids := toks |> <| row_num_tokens_no_spec := end_token_index |> <| row_num_tokens := end_token_index |>).

Definition write_spec_tokens (spec_token_ids : list Z) (row : Row) : result Row :=
  match spec_token_ids with
  | [] => Ok row
  | _ =>
      let start_index := row_num_tokens_no_spec row in
      toks ← np_set_slice start_index (start_index + py_len spec_token_ids) spec_token_ids (row_token_ids row);
      Ok (row <| row_token_ids := toks |> <| row_num_tokens := row_num_tokens row + py_len spec_token_ids |>)
  end.

Definition update_cached_row (so : SchedulerOutput) (i : Z) (rid : string) (idx num_computed : Z) (new_block_ids : option (list (list Z)))
    (b : InputBatch) : result InputBatch :=
  let crd := scheduled_cached_reqs so in
  b ← update_row idx (fun row => Ok (row <| row_num_computed_tokens := num_computed |>)) b;
  b ← (match new_block_ids with
       | Some new => table ← append_row new idx (ib_block_table b); Ok (b <| ib_block_table := table |>)
       | None => Ok b
       end);
  b ← (if is_last_rank c then Ok b
       else new_token_ids ← py_index (crd_new_token_ids crd) i; update_row idx (write_new_tokens num_computed new_token_ids) b);
  let spec_token_ids := dget_or rid [] (scheduled_spec_decode_tokens so) in
  b ← update_row idx (write_spec_tokens spec_token_ids) b;
  specs ← py_setitem idx (Some spec_token_ids) (ib_spec_token_ids b);
  Ok (b <| ib_spec_token_ids := specs |>).

Definition update_cached_request (so : SchedulerOutput) (irid : nat * string) (st : Runner * list string) : result (Runner * list string) :=
  let crd := scheduled_cached_reqs so in
  let i := Z.of_nat irid.1 in
  let rid := irid.2 in
  let '(s, reqs_to_add) := st in
  r ← or_raise KeyError (rn_requests s !! rid);
  num_computed ← py_index (crd_num_computed_tokens crd) i;
  new_block_ids ← py_index (crd_new_block_ids crd) i;
  let resumed := bool_decide (rid ∈ crd_resumed_req_ids crd) in
  num_output_tokens ← py_index (crd_num_output_tokens crd) i;
  let r := r <| crs_num_computed_tokens := num_computed |> in
  let req_index := dget rid (ib_req_id_to_index (input_batch s)) in
  s ← sync_outputs i num_computed num_output_tokens crd req_index r s;
  r ← update_block_ids resumed new_block_ids req_index r;
  match req_index with
  | None =>
      '(r, s) ← recover_outputs num_output_tokens rid crd s r;
      Ok (s <| rn_requests := <[rid := r]> (rn_requests s) |>, reqs_to_add ++ [rid])
  | Some idx =>
      s ← on_batch (update_cached_row so i rid idx num_computed new_block_ids) s;
      Ok (s <| rn_requests := <[rid := r]> (rn_requests s) |>, reqs_to_add)
  end.

(** ** The step *)

(** [reqs_to_add] are the objects in [self.requests], here by their ids. *)
Definition add_to_batch (rid : string) (s : Runner) : result Runner :=
  r ← or_raise KeyError (rn_requests s !! rid);
  on_batch (fun b => '(_, b) ← add_request (rn_outputs s) r b; Ok b) s.

Definition may_reorder_batch (so : SchedulerOutput) (b : InputBatch) : result InputBatch :=
  if num_kv_cache_groups c =? 0 then Ok b
  else
    match reorder_batch_threshold c with
    | None => Ok b
    | Some threshold =>
        _ ← (if (1 <? runner_dcp_world_size c) && negb (bool_decide (attention_backend c = Some "FLASH_ATTN_MLA"%string))
             then py_assert (threshold =? 1) else Ok tt);
        '(_, b) ← reorder_batch_to_split_decodes_and_prefills threshold so b;
        Ok b
    end.

Definition update_states (so : SchedulerOutput) (s : Runner) : result Runner :=
  s ← drop_finished so s;
  s ← drop_unscheduled so s;
  '(s, reqs_to_add) ← for_each add_new_request (scheduled_new_reqs so) (s, []);
  '(s, reqs_to_add) ← for_each (update_cached_request so) (imap pair (crd_req_ids (scheduled_cached_reqs so))) (s, reqs_to_add);
  s ← for_each add_to_batch reqs_to_add s;
  s ← on_batch condense s;
  s ← on_batch (may_reorder_batch so) s;
  on_batch (refresh_metadata (rn_outputs s)) s.
End Worker.

(** The accepted tokens of hybrid models: the first place of [-1] in each row of sampled tokens,
    one more column of which is appended. *)
Fixpoint first_rejected (row : list Z) : Z :=
  match row with
  | [] => 0
  | t :: row => if t =? -1 then 0 else 1 + first_rejected row
  end.

Definition update_states_after_model_execute (is_hybrid has_speculative_config : bool) (output_token_ids : list (list Z)) (b : InputBatch)
    : result InputBatch :=
  if negb is_hybrid || negb has_speculative_config then Ok b
  else
    for_each (fun iv b => update_row (Z.of_nat iv.1) (fun row => Ok (row <| row_num_accepted_tokens := iv.2 |>)) b)
      (imap (fun i row => (i, first_rejected row)) output_token_ids) b.
