(* ===== verification/WorkerInv.v ===== *)
(** * The runner's invariant

    The batch stands for the cached requests, every request has its own list of outputs,
    and the logits processors' entries are those of the rows. *)

From S2P Require Import Prelude PyDict PyList PyFloat Request Outputs Numpy BlockTable Sampling BatchUpdate InputBatch ReorderBatch InputBatchInv InputBatchOps ReorderProps ProcessorProps WorkerStates.
#[local] Open Scope Z_scope.

(** ** Changes outside the batch *)

Lemma row_represents_outputs h h' r spec row : outputs_at h' (crs_output r) = outputs_at h (crs_output r) ->
  row_represents h r spec row -> row_represents h' r spec row.
Proof.
  intros Ho [H1 H2 H3 H4 H5 H6]. split; try done.
  - rewrite H3. unfold crs_num_tokens. by rewrite Ho.
  - rewrite H4. unfold crs_num_tokens. by rewrite Ho.
  - intros k t. unfold tokens_of. rewrite Ho. apply H5.
Qed.

Lemma cell_outputs h h' b v i r spec : outputs_at h' (crs_output r) = outputs_at h (crs_output r) -> cell h b v i r spec -> cell h' b v i r spec.
Proof.
  intros Ho [H1 H2 H3 H4 (row & Hrow & Hrep & Hp) H6 H7 H8 H9]. split; try done.
  - unfold tokens_fit, crs_num_tokens in *. by rewrite Ho.
  - exists row. split_and!; [done | by eapply row_represents_outputs | done].
Qed.

(** Only the live requests, their outputs and drafts matter. *)
Lemma batch_ok_change h h' reqs reqs' specs specs' b v : batch_ok h reqs specs b v ->
  (forall id r, live b id -> reqs !! id = Some r ->
    reqs' !! id = Some r /\ outputs_at h' (crs_output r) = outputs_at h (crs_output r) /\ specs' id = specs id) ->
  batch_ok h' reqs' specs' b v.
Proof.
  intros [Hsh Hcells Hsets Hstray Hlora Hpool] Hch. split; try done.
  - intros i id Hi. destruct (Hcells i id Hi) as (r & Hr & Hid & Hp & Hcell). destruct (Hch id r) as (Hr' & Ho & Hs); [by exists i | done |].
    exists r. split; [done|]. split; [done|]. split; [done|]. rewrite Hs. by eapply cell_outputs.
  - eapply Forall_impl; [exact Hsets|]. intros sc Hsc id. rewrite (Hsc id). split; intros (Hl & r & p & Hr & Hp & Hc); (split; [done|]).
    + exists r, p. split; [|done]. by destruct (Hch id r Hl Hr).
    + destruct Hl as [i Hi]. destruct (Hcells i id Hi) as (r0 & Hr0 & _). destruct (Hch id r0) as (Hr0' & _); [by exists i | done |].
      exists r0, p. rewrite Hr in Hr0'. injection Hr0' as <-. done.
Qed.

Lemma live_view b id : live b id <-> exists p, ids_view (ib_req_ids b) p = Some id.
Proof.
  unfold live, ids_view. split; intros [p Hp]; exists p; [by rewrite Hp|]. destruct (ib_req_ids b !! p) as [[x|]|]; cbn in Hp; congruence.
Qed.

#[export] Instance live_dec b id : Decision (live b id).
Proof.
  refine (cast_if (decide (Some id ∈ ib_req_ids b))); unfold live; by rewrite <- list_elem_of_lookup.
Defined.

(** ** Removing requests *)

Lemma remove_request_absent b holes id : index_ok b holes -> ~ live b id -> remove_request id b = Ok (None, b).
Proof.
  intros Hi Hn. unfold remove_request. destruct (dget id (ib_req_id_to_index b)) as [z|] eqn:Hd; [|done].
  exfalso. apply Hn, (live_get b holes id Hi). eauto.
Qed.

(** What removals leave alone. *)
Record removal (b b' : InputBatch) : Prop := {
  rv_settings : same_settings b b';
  rv_procs : logitsprocs b' = logitsprocs b;
  rv_table : ib_block_table b' = ib_block_table b;
  rv_added : added (batch_update_builder b') = added (batch_update_builder b);
  rv_moved : moved (batch_update_builder b') = moved (batch_update_builder b);
  rv_length : length (ib_req_ids b') = length (ib_req_ids b);
}.

Lemma removal_refl b : removal b b.
Proof. split; auto using same_settings_refl. Qed.

Lemma removal_trans b1 b2 b3 : removal b1 b2 -> removal b2 b3 -> removal b1 b3.
Proof. intros [] []. split; [by eapply same_settings_trans | congruence..]. Qed.

Lemma remove_all_ok h reqs specs v l : forall s holes, batch_ok h reqs specs (input_batch s) v -> index_ok (input_batch s) holes ->
  builder_ok (batch_update_builder (input_batch s)) holes -> is_removed_sorted (batch_update_builder (input_batch s)) = false ->
  exists b' holes', for_each remove_from_batch l s = Ok (s <| input_batch := b' |>) /\ batch_ok h reqs specs b' v /\ index_ok b' holes' /\
    builder_ok (batch_update_builder b') holes' /\ is_removed_sorted (batch_update_builder b') = false /\ removal (input_batch s) b' /\
    forall p, ids_view (ib_req_ids b') p = match ids_view (ib_req_ids (input_batch s)) p with Some id => if decide (id ∈ l) then None else Some id | None => None end.
Proof.
  induction l as [|id l IH]; intros s holes Hok Hix Hbd Hf; cbn [for_each].
  { exists (input_batch s), holes. split; [by destruct s|]. split; [done|]. split; [done|]. split; [done|]. split; [done|]. split; [apply removal_refl|].
    intros p. destruct (ids_view _ p); [|done]. rewrite decide_False; [done | by intros ?%elem_of_nil]. }
  assert (Hstep : exists b1 holes1, remove_from_batch id s = Ok (s <| input_batch := b1 |>) /\ batch_ok h reqs specs b1 v /\ index_ok b1 holes1 /\
    builder_ok (batch_update_builder b1) holes1 /\ is_removed_sorted (batch_update_builder b1) = false /\ removal (input_batch s) b1 /\
    forall p, ids_view (ib_req_ids b1) p = match ids_view (ib_req_ids (input_batch s)) p with Some x => if decide (x = id) then None else Some x | None => None end).
  { unfold remove_from_batch, on_batch. destruct (dget id (ib_req_id_to_index (input_batch s))) as [z|] eqn:Hd.
    - apply (ix_get _ _ Hix) in Hd as (p & -> & Hp).
      destruct (remove_request_ok h reqs specs _ v holes id p Hok Hix Hbd Hf Hp) as (b1 & Hrun & Hok1 & Hix1 & Hbd1 & Hf1 & Ha & Hm & Hset & Hids & Hproc & Htab).
      rewrite Hrun. cbn [mbind result_bind]. exists b1, (p :: holes). split; [done|]. split; [done|]. split; [done|]. split; [done|]. split; [done|].
      split; [split; try done; by rewrite Hids, length_insert|].
      intros q. unfold ids_view. rewrite Hids. pose proof (lookup_lt_Some _ _ _ Hp). destruct (decide (q = p)) as [->|Hq].
      + rewrite list_lookup_insert_eq by done. rewrite Hp. cbn. by rewrite decide_True.
      + rewrite list_lookup_insert_ne by done. destruct (ib_req_ids (input_batch s) !! q) as [[x|]|] eqn:Hx; cbn; try done.
        rewrite decide_False; [done|]. intros ->. apply Hq. eapply (live_unique _ holes _ _ id Hix); [exact Hx | exact Hp].
    - assert (Hn : ~ live (input_batch s) id) by (rewrite (live_get _ holes) by done; rewrite Hd; by intros [? [=]]).
      rewrite (remove_request_absent _ holes) by done. cbn [mbind result_bind]. exists (input_batch s), holes. split; [by destruct s|]. split_and!; try done; try apply removal_refl.
      intros p. destruct (ids_view _ p) as [x|] eqn:Hx; [|done]. rewrite decide_False; [done|]. intros ->. apply Hn, live_view. by exists p. }
  destruct Hstep as (b1 & holes1 & Hrun1 & Hok1 & Hix1 & Hbd1 & Hf1 & Hrv1 & Hview1). rewrite Hrun1. cbn [mbind result_bind].
  set (s1 := s <| input_batch := b1 |>). assert (Hs1 : input_batch s1 = b1) by reflexivity. rewrite <- Hs1 in Hok1, Hix1, Hbd1, Hf1, Hrv1, Hview1.
  destruct (IH s1 holes1 Hok1 Hix1 Hbd1 Hf1) as (b' & holes' & Hrun & Hok' & Hix' & Hbd' & Hf' & Hrv & Hview).
  exists b', holes'. split; [by rewrite Hrun|]. split; [done|]. split; [done|]. split; [done|]. split; [done|]. split; [by eapply removal_trans|].
  intros p. rewrite Hview. cbn. rewrite Hview1. destruct (ids_view (ib_req_ids (input_batch s)) p) as [x|]; [|done].
  destruct (decide (x = id)) as [->|Hne]; [rewrite decide_True; [done | by left]|].
  destruct (decide (x ∈ l)); [rewrite decide_True; [done | by right]|]. rewrite decide_False; [done|]. by intros [?|?]%elem_of_cons.
Qed.

(** ** The invariant *)

Definition fresh_builder (bd : BatchUpdateBuilder) : Prop :=
  removed_list bd = [] /\ is_removed_sorted bd = false /\ added bd = [] /\ moved bd = [].

Lemma fresh_builder_ok bd : fresh_builder bd -> builder_ok bd [].
Proof. intros (Hr & Hf & _). split; [by rewrite Hr|]. split; [constructor|]. by rewrite Hf. Qed.

(** A cached request that can be put in the batch. *)
Record known (vocab_size next : Z) (id : string) (r : CachedRequestState) : Prop := {
  kn_id : crs_req_id r = id;
  kn_request : request_ok r;
  kn_params : exists p, crs_sampling_params r = Some p /\ params_ok vocab_size p;
  kn_output : crs_output r < next;
}.

(** What the processors are told of a cached request. *)
Definition info_in (reqs : Requests) (id : string) : AddedInfo :=
  match reqs !! id with
  | Some r => (default sample_params (crs_sampling_params r), crs_prompt_token_ids r, crs_output r)
  | None => (sample_params, None, -1)
  end.

(** Cached requests and their outputs: no two share a list, addresses from [rn_next] on are free. *)
Record store_ok (vocab_size : Z) (reqs : Requests) (h : OutputStore) (next : addr) : Prop := {
  so_known : forall id r, reqs !! id = Some r -> known vocab_size next id r;
  so_alias : forall id1 id2 r1 r2, id1 <> id2 -> reqs !! id1 = Some r1 -> reqs !! id2 = Some r2 -> crs_output r1 <> crs_output r2;
  so_fresh : forall a, next <= a -> h !! a = None;
}.

(** The entries are of the last refresh, at the outputs [h0]. *)
Definition processors_ok (exact : bool) (h : OutputStore) (next : addr) (reqs : Requests) (b : InputBatch) : Prop :=
  exists h0, (forall a, next <= a -> h0 !! a = None) /\
    (exact = true -> forall id r, reqs !! id = Some r -> outputs_grow h0 h (crs_output r)) /\
    Forall (processor_mirrors exact (Z.to_nat (ib_max_num_reqs b)) h0 (info_in reqs) (ids_view (ib_req_ids b))) (logitsprocs b).

Record runner_ok (exact : bool) (specs : string -> Drafts) (s : Runner) (v : Views) : Prop := {
  ro_batch : batch_ok (rn_outputs s) (rn_requests s) specs (input_batch s) v;
  ro_index : index_ok (input_batch s) [];
  ro_builder : fresh_builder (batch_update_builder (input_batch s));
  ro_store : store_ok (ib_vocab_size (input_batch s)) (rn_requests s) (rn_outputs s) (rn_next s);
  ro_vocab : 0 <= ib_vocab_size (input_batch s);
  ro_procs : processors_ok exact (rn_outputs s) (rn_next s) (rn_requests s) (input_batch s);
}.

(** ** Requests that leave *)

Definition scheduled_ids (so : SchedulerOutput) : list string := dkeys (num_scheduled_tokens so).

(** The requests of the batch that stay in it. *)
Definition stays (so : SchedulerOutput) (id : string) : Prop := (id ∉ so_finished_req_ids so) /\ id ∈ scheduled_ids so.

#[export] Instance stays_dec so id : Decision (stays so id).
Proof. unfold stays. apply _. Defined.

Lemma foldl_delete_lookup {V} (l : list string) (m : gmap string V) k : foldl (fun m rid => delete rid m) m l !! k = if decide (k ∈ l) then None else m !! k.
Proof.
  revert m. induction l as [|x l IH]; intros m; cbn; [by rewrite decide_False by (by intros ?%elem_of_nil)|]. rewrite IH.
  destruct (decide (k = x)) as [->|Hne].
  - rewrite lookup_delete_eq. rewrite (decide_True (P := x ∈ x :: l)) by (by left). by case_decide.
  - rewrite lookup_delete_ne by done. destruct (decide (k ∈ l)); [rewrite decide_True by (by right); done|].
    rewrite decide_False; [done|]. by intros [?|?]%elem_of_cons.
Qed.

Lemma removal_builder_ok b b' : fresh_builder (batch_update_builder b) -> removal b b' ->
  added (batch_update_builder b') = [] /\ moved (batch_update_builder b') = [].
Proof. intros (_ & _ & Ha & Hm) []. by rewrite rv_added0, rv_moved0. Qed.

Section Leave.
Context `{SetOrder}.

Lemma set_order_elem s x : x ∈ set_order s <-> x ∈ s.
Proof. rewrite (set_order_perm s). apply elem_of_elements. Qed.

(** The runner after both kinds of removals. *)
Lemma drop_requests_ok exact specs so s v : runner_ok exact specs s v ->
  exists s1 holes, (s ← drop_finished so s; drop_unscheduled so s) = Ok s1 /\
    rn_outputs s1 = rn_outputs s /\ rn_next s1 = rn_next s /\
    (forall id, rn_requests s1 !! id = if decide (id ∈ so_finished_req_ids so) then None else rn_requests s !! id) /\
    batch_ok (rn_outputs s) (rn_requests s1) specs (input_batch s1) v /\ index_ok (input_batch s1) holes /\
    builder_ok (batch_update_builder (input_batch s1)) holes /\ is_removed_sorted (batch_update_builder (input_batch s1)) = false /\
    removal (input_batch s) (input_batch s1) /\
    (forall p, ids_view (ib_req_ids (input_batch s1)) p
      = match ids_view (ib_req_ids (input_batch s)) p with Some id => if decide (stays so id) then Some id else None | None => None end).
Proof.
  intros [Hok Hix Hbd Hst _ Hpr]. unfold drop_finished. set (finished := set_order (so_finished_req_ids so)).
  set (reqs1 := foldl (fun reqs rid => delete rid reqs) (rn_requests s) finished).
  assert (Hreqs1 : forall id, reqs1 !! id = if decide (id ∈ so_finished_req_ids so) then None else rn_requests s !! id).
  { intros id. unfold reqs1. rewrite foldl_delete_lookup. unfold finished.
    destruct (decide (id ∈ set_order _)) as [H1|H1], (decide (id ∈ so_finished_req_ids so)) as [H2|H2]; rewrite set_order_elem in H1; done. }
  set (s0 := s <| rn_requests := reqs1 |>). pose proof (fresh_builder_ok _ Hbd) as Hbd0. pose proof Hbd as (_ & Hf & _).
  destruct (remove_all_ok (rn_outputs s) (rn_requests s) specs v finished s0 [] Hok Hix Hbd0 Hf)
    as (b1 & holes1 & Hrun1 & Hok1 & Hix1 & Hbd1 & Hf1 & Hrv1 & Hview1).
  rewrite Hrun1. cbn [mbind result_bind]. unfold drop_unscheduled.
  match goal with |- context [for_each remove_from_batch _ ?y] => set (s2 := y) end.
  assert (Hs2 : input_batch s2 = b1) by reflexivity. rewrite <- Hs2 in Hok1, Hix1, Hbd1, Hf1, Hrv1, Hview1.
  set (un := set_order (unscheduled_req_ids so (input_batch s2))).
  destruct (remove_all_ok (rn_outputs s) (rn_requests s) specs v un s2 holes1 Hok1 Hix1 Hbd1 Hf1)
    as (b3 & holes3 & Hrun3 & Hok3 & Hix3 & Hbd3 & Hf3 & Hrv3 & Hview3).
  set (s3 := s2 <| input_batch := b3 |>). assert (Hs3 : input_batch s3 = b3) by reflexivity. rewrite <- Hs3 in Hok3, Hix3, Hbd3, Hf3, Hrv3, Hview3.
  assert (Hview : forall p, ids_view (ib_req_ids (input_batch s3)) p
      = match ids_view (ib_req_ids (input_batch s)) p with Some id => if decide (stays so id) then Some id else None | None => None end).
  { intros p. rewrite Hview3, Hview1. change (input_batch s0) with (input_batch s).
    destruct (ids_view (ib_req_ids (input_batch s)) p) as [id|] eqn:Hp; [|done]. unfold finished.
    destruct (decide (id ∈ set_order (so_finished_req_ids so))) as [Hin|Hin]; rewrite set_order_elem in Hin.
    { rewrite decide_False; [done|]. by intros []. }
    assert (Hidx : id ∈ dkeys (ib_req_id_to_index (input_batch s2))).
    { apply dget_is_Some, (live_get _ holes1); [exact Hix1|]. apply live_view. exists p. rewrite Hview1. change (input_batch s0) with (input_batch s). rewrite Hp.
      rewrite decide_False; [done|]. intros Hi. by apply set_order_elem in Hi. }
    assert (Hun : id ∈ un <-> id ∉ scheduled_ids so).
    { unfold un, unscheduled_req_ids, scheduled_ids. rewrite set_order_elem, elem_of_difference, !elem_of_list_to_set. tauto. }
    unfold stays. destruct (decide (id ∈ un)) as [Hu|Hu].
    - rewrite decide_False; [done|]. intros [_ ?]. by apply Hun.
    - rewrite decide_True; [done|]. split; [done|]. destruct (decide (id ∈ scheduled_ids so)); [done|]. exfalso. by apply Hu, Hun. }
  exists s3, holes3. split; [exact Hrun3|]. split; [done|]. split; [done|]. split; [exact Hreqs1|]. split.
  - eapply batch_ok_change; [exact Hok3|]. intros id r Hl Hr. split; [|done]. change (reqs1 !! id = Some r). rewrite Hreqs1. rewrite decide_False; [done|].
    apply live_view in Hl as [p Hp]. rewrite Hview in Hp. destruct (ids_view (ib_req_ids (input_batch s)) p) as [x|]; [|done].
    case_decide as Hs; [|done]. injection Hp as <-. by destruct Hs.
  - split; [done|]. split; [done|]. split; [done|]. split; [|done]. eapply removal_trans; [exact Hrv1 | exact Hrv3].
Qed.
End Leave.

(** * New and known requests of a step

    What the runner's loops over the scheduler's new and cached requests do: new requests
    get their states and lists of outputs, known ones are brought up to date, in
    the store and, when they stay in the batch, in their rows. *)

(** ** New requests *)

(** A new request that fits the batch's arrays. *)
Record new_ok (b : InputBatch) (d : NewRequestData) : Prop := {
  nw_params : exists p, nrd_sampling_params d = Some p /\ params_ok (ib_vocab_size b) p;
  nw_prompt : exists n, length_from_prompt (nrd_prompt_token_ids d) (nrd_prompt_embeds d) = Ok n /\ n <= ib_max_model_len b;
  nw_blocks : Forall2 fits (ib_block_table b) (nrd_block_ids d);
}.

(** The state of a new request. *)
Record is_new (d : NewRequestData) (r : CachedRequestState) : Prop := {
  in_prompt : crs_prompt_token_ids r = nrd_prompt_token_ids d;
  in_embeds : crs_prompt_embeds r = nrd_prompt_embeds d;
  in_params : crs_sampling_params r = nrd_sampling_params d;
  in_blocks : crs_block_ids r = nrd_block_ids d;
  in_computed : crs_num_computed_tokens r = nrd_num_computed_tokens d;
  in_lora : crs_lora_request r = nrd_lora_request d;
}.

Lemma new_generator_ok v p : params_ok v p -> exists g, new_generator (Some p) = Ok g.
Proof.
  intros Hp. destruct (params_ok_kind v p Hp) as (t & Ht & Hk). unfold new_generator. rewrite Hk. cbn [mbind result_bind].
  case_bool_decide as Hr; [|eauto]. unfold kind_of, sampling_type, the_temperature in Hr. rewrite Ht in Hr. cbn in Hr.
  destruct (flt t SAMPLING_EPS); [done|]. destruct (seed p) as [z|]; [by exists (Some z) | done].
Qed.

Section New.
Context `{Pooler}.

Lemma add_new_ok d s adds : is_pooling_model (input_batch s) = false -> new_ok (input_batch s) d ->
  exists r, add_new_request d (s, adds)
    = Ok (s <| rn_requests := <[nrd_req_id d := r]> (rn_requests s) |> <| rn_outputs := <[rn_next s := []]> (rn_outputs s) |>
            <| rn_next := rn_next s + 1 |>, adds ++ [nrd_req_id d]) /\
    is_new d r /\ known (ib_vocab_size (input_batch s)) (rn_next s + 1) (nrd_req_id d) r /\ crs_output r = rn_next s /\
    crs_num_prompt_tokens r <= ib_max_model_len (input_batch s).
Proof.
  intros Hpool [(p & Hp & Hpok) (n & Hn & Hfit) _]. unfold add_new_request. rewrite Hp. destruct (new_generator_ok _ p Hpok) as [g Hg]. rewrite Hg. cbn [mbind result_bind].
  rewrite Hpool. cbn [new_pooling_params mbind result_bind]. unfold crs_post_init. cbn [crs_prompt_token_ids crs_prompt_embeds]. rewrite Hn. cbn [mbind result_bind].
  eexists. split; [reflexivity|]. split; [by split|]. split; [|by split]. split; cbn; [done | exact Hn | eauto | lia].
Qed.

(** The store after the loop. *)
Record new_loop (ds : list NewRequestData) (s s' : Runner) : Prop := {
  nl_batch : input_batch s' = input_batch s;
  nl_store : store_ok (ib_vocab_size (input_batch s)) (rn_requests s') (rn_outputs s') (rn_next s');
  nl_old : forall id, id ∉ (nrd_req_id <$> ds) -> rn_requests s' !! id = rn_requests s !! id;
  nl_new : forall d, d ∈ ds -> exists r, rn_requests s' !! nrd_req_id d = Some r /\ is_new d r /\ outputs_at (rn_outputs s') (crs_output r) = [] /\
    rn_next s <= crs_output r /\ crs_num_prompt_tokens r <= ib_max_model_len (input_batch s);
  nl_outputs : forall a, a < rn_next s -> rn_outputs s' !! a = rn_outputs s !! a;
  nl_next : rn_next s <= rn_next s';
}.

Lemma store_ok_insert v reqs h next id r l : store_ok v reqs h next -> known v (next + 1) id r -> crs_output r = next ->
  store_ok v (<[id := r]> reqs) (<[next := l]> h) (next + 1).
Proof.
  intros [Hk Ha Hf] Hr Ho. split.
  - intros x y Hx. destruct (decide (x = id)) as [->|Hne]; [rewrite lookup_insert_eq in Hx; by injection Hx as <-|].
    rewrite lookup_insert_ne in Hx by done. destruct (Hk x y Hx). split; try done. lia.
  - intros x1 x2 y1 y2 Hne H1 H2. destruct (decide (x1 = id)) as [->|H1n], (decide (x2 = id)) as [->|H2n];
      rewrite ?lookup_insert_eq in H1; rewrite ?lookup_insert_eq in H2; rewrite ?lookup_insert_ne in H1 by done; rewrite ?lookup_insert_ne in H2 by done.
    + done.
    + injection H1 as <-. destruct (Hk x2 y2 H2). rewrite Ho. lia.
    + injection H2 as <-. destruct (Hk x1 y1 H1). rewrite Ho. lia.
    + exact (Ha _ _ _ _ Hne H1 H2).
  - intros a Hle. rewrite lookup_insert_ne by lia. apply Hf. lia.
Qed.

Lemma new_requests_ok ds : forall s adds, is_pooling_model (input_batch s) = false ->
  store_ok (ib_vocab_size (input_batch s)) (rn_requests s) (rn_outputs s) (rn_next s) ->
  NoDup (nrd_req_id <$> ds) -> Forall (new_ok (input_batch s)) ds ->
  exists s', for_each add_new_request ds (s, adds) = Ok (s', adds ++ (nrd_req_id <$> ds)) /\ new_loop ds s s'.
Proof.
  induction ds as [|d ds IH]; intros s adds Hpool Hst Hnd Hds.
  { exists s. split; [by rewrite app_nil_r|]. split; try done. by intros d ?%elem_of_nil. }
  apply Forall_cons in Hds as [Hd Hds]. apply NoDup_cons in Hnd as [Hn Hnd].
  destruct (add_new_ok d s adds Hpool Hd) as (r & Hrun & Hnew & Hkn & Ho & Hfit). cbn [for_each]. rewrite Hrun. cbn [mbind result_bind].
  set (s1 := s <| rn_requests := _ |> <| rn_outputs := _ |> <| rn_next := _ |>).
  assert (Hst1 : store_ok (ib_vocab_size (input_batch s1)) (rn_requests s1) (rn_outputs s1) (rn_next s1)) by (by apply store_ok_insert).
  destruct (IH s1 (adds ++ [nrd_req_id d]) Hpool Hst1 Hnd Hds) as (s' & Hrun' & [L1 L2 L3 L4 L5 L6]).
  exists s'. split; [rewrite Hrun'; by rewrite <- (assoc_L (++))|]. split.
  - done.
  - done.
  - intros id Hid. cbn in Hid. apply not_elem_of_cons in Hid as [Hid1 Hid2]. rewrite L3 by done. by apply lookup_insert_ne.
  - intros d' Hd'. apply elem_of_cons in Hd' as [->|Hd'].
    + exists r. rewrite L3 by done. split; [apply lookup_insert_eq|]. split; [done|]. split; [|split; [lia | done]].
      unfold outputs_at. rewrite L5 by (rewrite Ho; cbn; lia). rewrite Ho. change (default [] (<[rn_next s := []]> (rn_outputs s) !! rn_next s) = []).
      by rewrite lookup_insert_eq.
    + destruct (L4 d' Hd') as (r' & ? & ? & ? & Hle & ?). exists r'. split_and!; try done. change (rn_next s1) with (rn_next s + 1) in Hle. lia.
  - intros a Ha. rewrite L5 by (cbn; lia). apply lookup_insert_ne. lia.
  - change (rn_next s1) with (rn_next s + 1) in L6. lia.
Qed.
End New.

(** ** The row of a request that stays *)

(** The outputs the scheduler counts. *)
Definition kept_outputs (num_output_tokens : Z) (out : list Z) : list Z :=
  if num_output_tokens <? py_len out then slice_to num_output_tokens out else out.

Lemma kept_outputs_take no out : 0 <= no -> kept_outputs no out = take (Z.to_nat no) out.
Proof.
  intros Hno. unfold kept_outputs, slice_to, slice_pos, py_len. destruct (Z.ltb_spec no (Z.of_nat (length out))).
  - destruct (Z.ltb_spec no 0); [lia|]. by rewrite Z.min_l by lia.
  - by rewrite take_ge by lia.
Qed.

Definition synced_row (no : Z) (out : list Z) (row : Row) : Row :=
  if no <? py_len out then row <| row_num_tokens := row_num_prompt_tokens row + no |> <| row_num_tokens_no_spec := row_num_prompt_tokens row + no |> else row.

Lemma synced_row_ok h h' r no row : 0 <= no -> row_represents h r [] row -> outputs_at h' (crs_output r) = kept_outputs no (outputs_at h (crs_output r)) ->
  row_represents h' r [] (synced_row no (outputs_at h (crs_output r)) row).
Proof.
  intros Hno [H1 H2 H3 H4 H5 H6] Ho. set (out := outputs_at h (crs_output r)) in *.
  assert (Htok : forall k t, tokens_of h' r [] !! k = Some (Some t) -> row_token_ids row !! k = Some t).
  { intros k t. unfold tokens_of. rewrite Ho, kept_outputs_take by done. cbn. rewrite !app_nil_r, fmap_take. intros Hk. apply H5. unfold tokens_of. cbn. rewrite !app_nil_r. fold out.
    rewrite <- (take_drop (Z.to_nat no) (Some <$> out)), (assoc_L (++)). by apply lookup_app_l_Some. }
  assert (Hlen : py_len (kept_outputs no out) = if no <? py_len out then no else py_len out).
  { rewrite kept_outputs_take by done. unfold py_len. rewrite length_take. destruct (Z.ltb_spec no (Z.of_nat (length out))); lia. }
  unfold synced_row. split; try done.
  - by destruct (no <? py_len out).
  - by destruct (no <? py_len out).
  - unfold crs_num_tokens. rewrite Ho, Hlen. destruct (no <? py_len out); [cbn; by rewrite H1 | exact H3].
  - unfold crs_num_tokens. rewrite Ho, Hlen. destruct (no <? py_len out); [cbn; rewrite H1; change (py_len ([] : list Z)) with 0; lia | exact H4].
  - intros k t Hk. specialize (Htok k t Hk). by destruct (no <? py_len out).
  - by destruct (no <? py_len out).
Qed.

Lemma write_spec_ok h L r sp row : request_ok r -> row_represents h r [] row -> row_size L row -> tokens_fit h L r sp ->
  exists row', write_spec_tokens sp row = Ok row' /\ row_size L row' /\ row_represents h r sp row' /\ same_params row row'.
Proof.
  intros Hr Hrep Hsize Hfit. pose proof Hrep as [H1 H2 H3 H4 H5 H6]. destruct Hsize as [Hs1 Hs2]. unfold tokens_fit in Hfit.
  destruct (decide (sp = [])) as [->|Hne].
  { exists row. split_and!; try done. }
  rename sp into spec.
  assert (Hnn : 0 <= row_num_tokens_no_spec row) by (rewrite H3; unfold crs_num_tokens, py_len; pose proof (request_ok_nonneg r Hr); lia).
  assert (Hw : write_spec_tokens spec row = (toks ← np_set_slice (row_num_tokens_no_spec row) (row_num_tokens_no_spec row + py_len spec) spec (row_token_ids row);
    Ok (row <| row_token_ids := toks |> <| row_num_tokens := row_num_tokens row + py_len spec |>))) by (by destruct spec).
  rewrite Hw. rewrite np_set_slice_at by (done || (rewrite ?H3; lia)). cbn [mbind result_bind]. eexists. split; [reflexivity|].
  unfold py_len in *. split; [split; cbn; unfold py_len; [rewrite length_overwrite; lia | done]|]. split; [|by split_and!].
  split; cbn; try done.
  - rewrite H4. unfold py_len. cbn. lia.
  - intros k u Hk. rewrite overwrite_lookup by lia. pose proof (length_tokens_of h r [] Hr) as Hl0. unfold tokens_of in Hk. rewrite (assoc_L (++)) in Hk.
    assert (Hbase : (match crs_prompt_token_ids r with Some ids => Some <$> ids | None => replicate (Z.to_nat (crs_num_prompt_tokens r)) None end)
      ++ (Some <$> outputs_at h (crs_output r)) = tokens_of h r []) by (unfold tokens_of; cbn; by rewrite app_nil_r).
    rewrite Hbase in Hk. unfold py_len in Hl0. cbn in Hl0.
    case_decide as Hlt; [rewrite lookup_app_l in Hk by lia; by apply H5|]. rewrite lookup_app_r in Hk by lia. rewrite list_lookup_fmap in Hk.
    replace (length (tokens_of h r [])) with (Z.to_nat (row_num_tokens_no_spec row)) in Hk by lia.
    destruct (spec !! (k - Z.to_nat (row_num_tokens_no_spec row))%nat) as [y|] eqn:Hy; [|done]. cbn in Hk. injection Hk as ->.
    rewrite decide_True; [done|]. apply lookup_lt_Some in Hy. lia.
Qed.

(** ** The batch's entries of a request that stays *)

Lemma length_extend_blocks bs ns : length (extend_blocks bs ns) = length bs.
Proof. revert ns. induction bs as [|b bs IH]; intros [|n ns]; cbn; auto. Qed.

Lemma append_tables n i ts v old new : Forall2 (group_ok n) ts v -> (fun w => w !! i) <$> v = Some <$> old -> length new = length old ->
  Forall2 fits ts (extend_blocks old new) ->
  exists ts', append_row new (Z.of_nat i) ts = Ok ts' /\
    Forall2 (group_ok n) ts' (zip_with (fun w ids => <[i := ids]> w) v (extend_blocks old new)) /\ Forall2 same_layout ts ts'.
Proof.
  intros Hts Hv Hlen Hfit. enough (Hgen : forall pre, exists ts', each_group (fun ids => bt_append_row ids (Z.of_nat i)) (py_len pre) (pre ++ new) ts = Ok ts' /\
    Forall2 (group_ok n) ts' (zip_with (fun w ids => <[i := ids]> w) v (extend_blocks old new)) /\ Forall2 same_layout ts ts') by exact (Hgen []).
  revert old new Hv Hlen Hfit. induction Hts as [|t w ts v (Hs & Hh & Hn) _ IH]; intros [|o old] [|x new] Hv Hlen Hfit pre; try done; cbn [each_group].
  { by exists []. }
  cbn in Hv, Hlen, Hfit. injection Hv as Hw Hv. injection Hlen as Hlen. inversion Hfit as [|? ? ? ? Hf Hfits]; subst.
  rewrite (py_index_nat _ (length pre) x) by (rewrite lookup_app_r, Nat.sub_diag by lia; done). cbn [mbind result_bind].
  destruct (append_row_holds t w Hs Hh i o x Hw Hf) as (t' & Ho & Hl & Hh'). rewrite Ho. cbn [mbind result_bind].
  destruct (IH old new Hv Hlen Hfits (pre ++ [x])) as (ts' & Hrun & Hg & Hls). rewrite <- (assoc_L (++)) in Hrun. cbn [app] in Hrun.
  rewrite py_len_app in Hrun. change (py_len [x]) with 1 in Hrun. rewrite Hrun. cbn [mbind result_bind].
  exists (t' :: ts'). split; [done|]. split; [|by constructor]. constructor; [|done].
  split; [by eapply settings_ok_layout|]. split; [done|]. unfold py_len in *. by rewrite length_insert.
Qed.

Definition next_blocks (resumed : bool) (new_block_ids : option (list (list Z))) (old : list (list Z)) : list (list Z) :=
  match new_block_ids with Some new => if resumed then new else extend_blocks old new | None => old end.

Lemma append_new_tables n i ts v old nb : Forall2 (group_ok n) ts v -> (fun w => w !! i) <$> v = Some <$> old -> Z.of_nat i < n ->
  (forall new, nb = Some new -> length new = length old) -> Forall2 fits ts (next_blocks false nb old) ->
  exists ts' v', (match nb with Some new => append_row new (Z.of_nat i) ts | None => Ok ts end) = Ok ts' /\
    Forall2 (group_ok n) ts' v' /\ Forall2 same_layout ts ts' /\ (fun w => w !! i) <$> v' = Some <$> next_blocks false nb old /\
    forall k, k <> i -> (fun w => w !! k) <$> v' = (fun w => w !! k) <$> v.
Proof.
  intros Hts Hv Hi Hlen Hfit. destruct nb as [new|].
  - destruct (append_tables n i ts v old new Hts Hv (Hlen new eq_refl) Hfit) as (ts' & Hrun & Hg & Hl). exists ts'. eexists. split; [done|]. split; [exact Hg|]. split; [done|].
    apply (add_views_lookup n i ts v (extend_blocks old new) Hts Hi). rewrite length_extend_blocks. apply (f_equal length) in Hv. rewrite !length_fmap in Hv. rewrite <- Hv. symmetry. by eapply Forall2_length.
  - exists ts, v. split; [done|]. split; [done|]. split; [|by split]. clear. induction ts; constructor; auto using same_layout_refl.
Qed.

(** One row, its blocks and drafts: the rest of the batch is the same. *)
Definition with_row (p : nat) (row : Row) (ts : MultiGroupBlockTable) (spec : list Z) (b : InputBatch) : InputBatch :=
  b <| rows := <[p := row]> (rows b) |> <| ib_block_table := ts |> <| ib_spec_token_ids := <[p := Some spec]> (ib_spec_token_ids b) |>.

Lemma with_row_ok h h' reqs reqs' specs specs' b v v' p rid row ts spec r' :
  batch_ok h reqs specs b v -> (forall q id, ib_req_ids b !! q = Some (Some id) -> q <> p -> id <> rid) -> ib_req_ids b !! p = Some (Some rid) ->
  Forall2 (group_ok (ib_max_num_reqs b)) ts v' -> (forall k, k <> p -> (fun w => w !! k) <$> v' = (fun w => w !! k) <$> v) ->
  row_size (ib_max_model_len b) row -> specs' rid = (spec.1, spec.2) ->
  reqs' !! rid = Some r' -> (forall r, reqs !! rid = Some r -> crs_sampling_params r' = crs_sampling_params r /\ row_lora row = lora_of r) ->
  cell h' (with_row p row ts spec.2 b) v' p r' spec -> crs_req_id r' = rid ->
  (forall id r, id <> rid -> reqs !! id = Some r -> reqs' !! id = Some r /\ outputs_at h' (crs_output r) = outputs_at h (crs_output r) /\ specs' id = specs id) ->
  batch_ok h' reqs' specs' (with_row p row ts spec.2 b) v'.
Proof.
  intros [Hsh Hcells Hsets Hstray Hlora Hpool] Huniq Hp Hts Hv Hsize Hspec Hr' Hsame Hcell Hid Hother. set (b' := with_row p row ts spec.2 b).
  destruct (Hcells p rid Hp) as (r & Hr & _ & Hsp & Hc). destruct (Hsame r Hr) as [Hpar Hlo]. pose proof (lookup_lt_Some _ _ _ Hp) as Hlt. destruct (sh_lists b v Hsh) as [Hl1 Hl2].
  split; [| | | exact Hstray | | exact Hpool].
  - pose proof (sh_rows b v Hsh) as Hrl. destruct Hsh. split; try done.
    + change (py_len (<[p := row]> (rows b)) = ib_max_num_reqs b). unfold py_len. rewrite length_insert. exact Hrl.
    + change (Forall (row_size (ib_max_model_len b)) (<[p := row]> (rows b))). by apply Forall_insert.
    + split; [exact Hl1|]. exact (eq_trans (length_insert _ _ _) Hl2).
  - intros q id Hq. change (ib_req_ids b !! q = Some (Some id)) in Hq. destruct (decide (q = p)) as [->|Hqp].
    + rewrite Hp in Hq. injection Hq as <-. exists r'. split; [done|]. split; [done|]. split; [by rewrite Hpar|]. rewrite Hspec. by destruct spec.
    + destruct (Hcells q id Hq) as (r2 & Hr2 & Hid2 & Hsp2 & Hc2). pose proof (Huniq q id Hq Hqp) as Hne. destruct (Hother id r2 Hne Hr2) as (Hr2' & Ho2 & Hs2).
      exists r2. split; [done|]. split; [done|]. split; [done|]. rewrite Hs2. eapply cell_outputs; [exact Ho2|].
      eapply cell_same_at; [| |exact Hc2]; [by split_and!|]. split; try done.
      * change (<[p := Some spec.2]> (ib_spec_token_ids b) !! q = ib_spec_token_ids b !! q). by rewrite list_lookup_insert_ne.
      * change (<[p := row]> (rows b) !! q = rows b !! q). by rewrite list_lookup_insert_ne.
      * by apply Hv.
  - change (param_sets b') with (param_sets b). eapply Forall_impl; [exact Hsets|]. intros sc Hsc id. rewrite (Hsc id). change (live b' id) with (live b id).
    split; intros (Hl & r2 & pp & Hr2 & Hp2 & Hcc); (split; [done|]); destruct (decide (id = rid)) as [->|Hne].
    + exists r', pp. rewrite Hr in Hr2. injection Hr2 as <-. by rewrite Hpar.
    + exists r2, pp. split; [|done]. by destruct (Hother id r2 Hne Hr2).
    + exists r, pp. rewrite Hr' in Hr2. injection Hr2 as <-. by rewrite <- Hpar.
    + destruct Hl as [k Hk]. destruct (Hcells k id Hk) as (r3 & Hr3 & _). exists r3, pp. destruct (Hother id r3 Hne Hr3) as (Hr3' & _). rewrite Hr2 in Hr3'. by injection Hr3' as <-.
  - intros q id row2 Hq Hr2 Hl. change (ib_req_ids b !! q = Some (Some id)) in Hq. change (<[p := row]> (rows b) !! q = Some row2) in Hr2.
    destruct (decide (q = p)) as [->|Hqp].
    + destruct (ce_row _ _ _ _ _ _ Hc) as (row0 & Hrow0 & Hrep0 & _). rewrite list_lookup_insert_eq in Hr2 by (by eapply lookup_lt_Some). injection Hr2 as <-.
      rewrite Hlo in *. rewrite <- (rr_lora _ _ _ _ Hrep0) in *. by eapply Hlora.
    + rewrite list_lookup_insert_ne in Hr2 by done. by eapply Hlora.
Qed.

(** * Known requests of a step

    [update_cached_request] on the runner, for requests that stay in the batch and for
    requests that come back, and its loop over the scheduler's cached requests. *)

Section Cached.
Context (c : RunnerConfig) (Hlast : is_last_rank c = true) (so : SchedulerOutput).

Let crd := scheduled_cached_reqs so.

(** The drafts scheduled for a request. *)
Definition drafts_for (so : SchedulerOutput) (rid : string) : list Z := dget_or rid [] (scheduled_spec_decode_tokens so).

(** The request after the step's message. *)
Definition told (nc : Z) (resumed : bool) (nb : option (list (list Z))) (r : CachedRequestState) : CachedRequestState :=
  r <| crs_num_computed_tokens := nc |> <| crs_block_ids := next_blocks resumed nb (crs_block_ids r) |>.

(** The list of outputs after the step's message. *)
Definition synced (no : Z) (r : CachedRequestState) (h : OutputStore) : OutputStore :=
  if no <? py_len (outputs_at h (crs_output r)) then <[crs_output r := slice_to no (outputs_at h (crs_output r))]> h else h.

Lemma synced_at no r h : outputs_at (synced no r h) (crs_output r) = kept_outputs no (outputs_at h (crs_output r)).
Proof.
  unfold synced, kept_outputs. destruct (no <? py_len (outputs_at h (crs_output r))); [|done].
  unfold outputs_at at 1. by rewrite lookup_insert_eq.
Qed.

Lemma synced_other no r h a : a <> crs_output r -> synced no r h !! a = h !! a.
Proof. unfold synced. intros Ha. destruct (no <? _); [by rewrite lookup_insert_ne | done]. Qed.

(** What changes between batches whose requests and their order are the same. *)
Record in_place (b b' : InputBatch) : Prop := {
  ip_ids : ib_req_ids b' = ib_req_ids b;
  ip_index : ib_req_id_to_index b' = ib_req_id_to_index b;
  ip_builder : batch_update_builder b' = batch_update_builder b;
  ip_procs : logitsprocs b' = logitsprocs b;
  ip_settings : same_settings b b';
  ip_layouts : same_layouts b b';
}.

Lemma in_place_refl b : in_place b b.
Proof. split; auto using same_settings_refl, same_layouts_refl. Qed.

Lemma in_place_trans b1 b2 b3 : in_place b1 b2 -> in_place b2 b3 -> in_place b1 b3.
Proof. intros [] []. split; try congruence; [by eapply same_settings_trans | by eapply same_layouts_trans]. Qed.

Lemma in_place_index b b' holes : in_place b b' -> index_ok b holes -> index_ok b' holes.
Proof. intros [Hi Hx _ _ _ _] []. split; rewrite ?Hi, ?Hx; done. Qed.

(** The row of a request that stays. *)
Lemma stay_row_ok i h b v p rid r nc nb no (spec0 : Drafts) : shape_ok b v -> cell h b v p r spec0 -> spec0.1 = [] -> 0 <= no -> Z.of_nat p < ib_max_num_reqs b ->
  let h' := synced no r h in let r' := told nc false nb r in
  tokens_fit h' (ib_max_model_len b) r (drafts_for so rid) ->
  (forall new, nb = Some new -> length new = length (crs_block_ids r)) -> Forall2 fits (ib_block_table b) (crs_block_ids r') ->
  exists row ts v',
    (b ← (if no <? py_len (outputs_at h (crs_output r)) then update_row (Z.of_nat p) (fun row =>
            let end_idx := row_num_prompt_tokens row + no in Ok (row <| row_num_tokens := end_idx |> <| row_num_tokens_no_spec := end_idx |>)) b else Ok b);
     update_cached_row c so i rid (Z.of_nat p) nc nb b) = Ok (with_row p row ts (drafts_for so rid) b) /\
    row_size (ib_max_model_len b) row /\ row_lora row = lora_of r /\ Forall2 (group_ok (ib_max_num_reqs b)) ts v' /\ Forall2 same_layout (ib_block_table b) ts /\
    (forall k, k <> p -> (fun w => w !! k) <$> v' = (fun w => w !! k) <$> v) /\
    cell h' (with_row p row ts (drafts_for so rid) b) v' p r' (drafts_for so rid, drafts_for so rid).
Proof using Hlast.
  intros Hsh [C1 C2 C3 C4 (row0 & Hrow0 & Hrep0 & Hpar0) C6 C7 C8 C9] Hs0 Hno Hpn. rewrite Hs0 in *. intros h' r' Hfit Hnb Hblk.
  set (sp := drafts_for so rid) in *.
  pose proof (Forall_lookup_1 _ _ _ _ (sh_row b v Hsh) Hrow0) as Hsize0. pose proof (lookup_lt_Some _ _ _ Hrow0) as Hpl.
  destruct (sh_lists b v Hsh) as [Hl1 Hl2]. pose proof (lookup_lt_Some _ _ _ C4) as Hpsp.
  set (out := outputs_at h (crs_output r)) in *. set (row1 := synced_row no out row0).
  assert (Hrep1 : row_represents h' r [] row1) by (apply (synced_row_ok h h' r no row0 Hno Hrep0), synced_at).
  assert (Hsize1 : row_size (ib_max_model_len b) row1) by (unfold row1, synced_row; by destruct (no <? py_len out)).
  assert (Hpar1 : same_params row0 row1) by (unfold row1, synced_row; destruct (no <? py_len out); by split_and!).
  assert (Hb1 : (if no <? py_len out then update_row (Z.of_nat p) (fun row =>
            let end_idx := row_num_prompt_tokens row + no in Ok (row <| row_num_tokens := end_idx |> <| row_num_tokens_no_spec := end_idx |>)) b else Ok b)
    = Ok (b <| rows := <[p := row1]> (rows b) |>)).
  { unfold row1, synced_row. destruct (no <? py_len out); [by erewrite update_row_ok by (exact Hrow0 || reflexivity)|].
    rewrite list_insert_id by done. by destruct b. }
  rewrite Hb1. cbn [mbind result_bind]. unfold update_cached_row. set (b1 := b <| rows := _ |>).
  assert (Hrow1 : rows b1 !! p = Some row1) by by apply list_lookup_insert_eq.
  set (row2 := row1 <| row_num_computed_tokens := nc |>). rewrite (update_row_ok b1 p _ row1 row2 Hrow1 eq_refl). cbn [mbind result_bind]. set (b2 := b1 <| rows := _ |>).
  destruct (append_new_tables (ib_max_num_reqs b) p (ib_block_table b) v (crs_block_ids r) nb (sh_tables b v Hsh) C6 Hpn Hnb Hblk) as (ts & v' & Hts & Hg & Hlay & Hvp & Hvo).
  assert (Hb3 : (match nb with Some new => table ← append_row new (Z.of_nat p) (ib_block_table b2); Ok (b2 <| ib_block_table := table |>) | None => Ok b2 end)
    = Ok (b2 <| ib_block_table := ts |>)).
  { destruct nb as [new|]; [change (ib_block_table b2) with (ib_block_table b); by rewrite Hts|]. injection Hts as <-. by destruct b. }
  rewrite Hb3. cbn [mbind result_bind]. rewrite Hlast. cbn [mbind result_bind]. set (b3 := b2 <| ib_block_table := ts |>).
  assert (Hrep2 : row_represents h' r' [] row2) by (destruct Hrep1; by split).
  assert (Hreq' : request_ok r') by exact C1.
  destruct (write_spec_ok h' (ib_max_model_len b) r' sp row2 Hreq' Hrep2 Hsize1) as (row3 & Hw & Hsize3 & Hrep3 & Hpar3); [exact Hfit|].
  assert (Hrow3 : rows b3 !! p = Some row2). { change (<[p := row2]> (<[p := row1]> (rows b)) !! p = Some row2). apply list_lookup_insert_eq. by rewrite length_insert. }
  change (dget_or rid [] (scheduled_spec_decode_tokens so)) with sp. rewrite (update_row_ok b3 p _ row2 row3 Hrow3 Hw). cbn [mbind result_bind].
  rewrite py_setitem_nat by exact Hpsp. cbn [mbind result_bind]. exists row3, ts, v'.
  assert (Heq : rows (b3 <| rows := <[p := row3]> (rows b3) |>) = <[p := row3]> (rows b)).
  { change (<[p := row3]> (<[p := row2]> (<[p := row1]> (rows b))) = <[p := row3]> (rows b)). by rewrite !list_insert_insert_eq. }
  split. { unfold with_row. rewrite <- Heq. reflexivity. }
  split; [done|]. split; [exact (rr_lora _ _ _ _ Hrep3)|]. split; [done|]. split; [done|]. split; [done|].
  split; try done.
  - change (<[p := Some sp]> (ib_spec_token_ids b) !! p = Some (Some sp)). by apply list_lookup_insert_eq.
  - exists row3. split; [by apply list_lookup_insert_eq|]. split; [done|]. intros pp Hpp. eapply params_in_same; [eapply params_in_same; [by apply Hpar0 | exact Hpar1]|]. exact Hpar3.
Qed.

(** ** One request *)

(** The list of outputs after the message, for a request in the batch or one that comes back. *)
Definition next_outputs (in_batch : bool) (no : Z) (rid : string) (out : list Z) : list Z :=
  if negb in_batch && use_async_scheduling c && (0 <? no) then slice_from (- no) (dget_or rid [] (crd_all_token_ids crd)) else kept_outputs no out.

(** What the message says of the request at [i], and that the result fits the arrays. *)
Record cached_fits (b : InputBatch) (h : OutputStore) (i : nat) (rid : string) (r : CachedRequestState) (nc : Z) (nb : option (list (list Z))) (no : Z) : Prop := {
  cf_computed : crd_num_computed_tokens crd !! i = Some nc;
  cf_blocks : crd_new_block_ids crd !! i = Some nb;
  cf_outputs : crd_num_output_tokens crd !! i = Some no;
  cf_no : 0 <= no;
  cf_resumed : rid ∈ crd_resumed_req_ids crd -> ~ live b rid /\ nb <> None;
  cf_groups : rid ∉ crd_resumed_req_ids crd -> forall new, nb = Some new -> length new = length (crs_block_ids r);
  cf_room : Forall2 fits (ib_block_table b) (next_blocks (bool_decide (rid ∈ crd_resumed_req_ids crd)) nb (crs_block_ids r));
  cf_all : use_async_scheduling c = true -> ~ live b rid -> 0 < no -> is_Some (dget rid (crd_all_token_ids crd));
  cf_tokens : forall in_batch : bool, (in_batch = true <-> live b rid) ->
    crs_num_prompt_tokens r + py_len (next_outputs in_batch no rid (outputs_at h (crs_output r)))
      + (if in_batch then py_len (drafts_for so rid) else 0) <= ib_max_model_len b;
}.

(** What one round does. *)
Record one_update (rid : string) (r : CachedRequestState) (nc : Z) (nb : option (list (list Z))) (no : Z) (in_batch : bool) (s s' : Runner) : Prop := {
  ou_place : in_place (input_batch s) (input_batch s');
  ou_store : store_ok (ib_vocab_size (input_batch s)) (rn_requests s') (rn_outputs s') (rn_next s');
  ou_other : forall id, id <> rid -> rn_requests s' !! id = rn_requests s !! id;
  ou_self : exists a, rn_requests s' !! rid = Some (told nc (bool_decide (rid ∈ crd_resumed_req_ids crd)) nb r <| crs_output := a |>) /\
    outputs_at (rn_outputs s') a = next_outputs in_batch no rid (outputs_at (rn_outputs s) (crs_output r)) /\
    ((a = crs_output r /\ outputs_at (rn_outputs s') a = kept_outputs no (outputs_at (rn_outputs s) (crs_output r))) \/ (in_batch = false /\ rn_next s <= a));
  ou_outputs : forall a, a < rn_next s -> a <> crs_output r -> rn_outputs s' !! a = rn_outputs s !! a;
  ou_next : rn_next s <= rn_next s';
}.

Lemma store_ok_told v reqs h next rid r nc resumed nb no : store_ok v reqs h next -> reqs !! rid = Some r ->
  store_ok v (<[rid := told nc resumed nb r]> reqs) (synced no r h) next.
Proof using Type.
  clear Hlast.
  intros [Hk Ha Hf] Hr. pose proof (Hk rid r Hr) as [Kid Kreq Kpar Kout]. split.
  - intros x y Hx. destruct (decide (x = rid)) as [->|Hne]; [|rewrite lookup_insert_ne in Hx by done; by apply Hk].
    rewrite lookup_insert_eq in Hx. injection Hx as <-. by split.
  - intros x1 x2 y1 y2 Hne H1 H2. destruct (decide (x1 = rid)) as [->|H1n], (decide (x2 = rid)) as [->|H2n];
      rewrite ?lookup_insert_eq in H1; rewrite ?lookup_insert_eq in H2; rewrite ?lookup_insert_ne in H1 by done; rewrite ?lookup_insert_ne in H2 by done.
    + done.
    + injection H1 as <-. exact (Ha _ _ _ _ Hne Hr H2).
    + injection H2 as <-. exact (Ha _ _ _ _ Hne H1 Hr).
    + exact (Ha _ _ _ _ Hne H1 H2).
  - intros a Hle. rewrite synced_other by lia. by apply Hf.
Qed.

(** Another list of outputs, at the next address. *)
Lemma store_ok_readdress v reqs h next rid r l : store_ok v reqs h next -> reqs !! rid = Some r ->
  store_ok v (<[rid := r <| crs_output := next |>]> reqs) (<[next := l]> h) (next + 1).
Proof using Type.
  clear Hlast.
  intros Hst Hr. pose proof (so_known _ _ _ _ Hst rid r Hr) as [Kid Kreq Kpar Kout]. apply store_ok_insert; [done | | done]. split; try done. cbn. lia.
Qed.

(** The data of the message. *)
Lemma message_data {A} (l : list A) i x : l !! i = Some x -> py_index l (Z.of_nat i) = Ok x.
Proof using Type. clear Hlast. apply py_index_nat. Qed.

Lemma update_block_ids_ok b i rid r nc nb no h idx : cached_fits b h i rid r nc nb no ->
  (idx = None <-> ~ live b rid) ->
  update_block_ids (bool_decide (rid ∈ crd_resumed_req_ids crd)) nb idx (r <| crs_num_computed_tokens := nc |>)
  = Ok (told nc (bool_decide (rid ∈ crd_resumed_req_ids crd)) nb r).
Proof using Type.
  clear Hlast. intros Hf Hidx. unfold update_block_ids, told, next_blocks. case_bool_decide as Hr; cbn [negb].
  - destruct (cf_resumed _ _ _ _ _ _ _ _ Hf Hr) as [Hn Hnb]. rewrite bool_decide_eq_true_2 by (by apply Hidx). cbn [py_assert mbind result_bind]. by destruct nb.
  - destruct nb; [done|]. by destruct r.
Qed.

(** A request that comes back: the batch is not touched. *)
Lemma update_returning_ok i rid s adds r nc nb no specs v holes :
  batch_ok (rn_outputs s) (rn_requests s) specs (input_batch s) v -> index_ok (input_batch s) holes ->
  store_ok (ib_vocab_size (input_batch s)) (rn_requests s) (rn_outputs s) (rn_next s) ->
  rn_requests s !! rid = Some r -> cached_fits (input_batch s) (rn_outputs s) i rid r nc nb no -> ~ live (input_batch s) rid ->
  exists s', update_cached_request c so (i, rid) (s, adds) = Ok (s', adds ++ [rid]) /\ one_update rid r nc nb no false s s' /\
    batch_ok (rn_outputs s') (rn_requests s') specs (input_batch s') v.
Proof using Hlast.
  intros Hok Hix Hst Hr Hf Hn. pose proof Hf as [F1 F2 F3 F4 F5 F6 F7 F8 F9]. unfold update_cached_request. cbn [fst snd]. fold crd.
  rewrite Hr, (message_data _ _ _ F1), (message_data _ _ _ F2), (message_data _ _ _ F3). cbn [mbind result_bind or_raise].
  assert (Hidx : dget rid (ib_req_id_to_index (input_batch s)) = None).
  { apply eq_None_not_Some. intros Hx. by apply Hn, (live_get _ holes). }
  rewrite Hidx. unfold sync_outputs. rewrite Hlast. cbn [negb].
  set (r1 := r <| crs_num_computed_tokens := nc |>). change (crs_output r1) with (crs_output r).
  set (s1 := s <| rn_outputs := synced no r (rn_outputs s) |>).
  assert (Hs1 : (if no <? py_len (outputs_at (rn_outputs s) (crs_output r)) then Ok (s <| rn_outputs := <[crs_output r := slice_to no (outputs_at (rn_outputs s) (crs_output r))]> (rn_outputs s) |>) else Ok s) = Ok s1).
  { unfold s1, synced. destruct (no <? _); [done|]. by destruct s. }
  match goal with |- context [mbind _ ?x] => replace x with (Ok s1 : result Runner) by (symmetry; exact Hs1) end.
  cbn [mbind result_bind]. unfold r1.
  rewrite (update_block_ids_ok (input_batch s) i rid r nc nb no (rn_outputs s) None Hf) by (split; done). cbn [mbind result_bind].
  set (r2 := told nc _ nb r). unfold recover_outputs. pose proof (so_known _ _ _ _ Hst rid r Hr) as [Kid Kreq Kpar Kout].
  assert (Hst1 : store_ok (ib_vocab_size (input_batch s)) (<[rid := r2]> (rn_requests s)) (rn_outputs s1) (rn_next s)) by by apply store_ok_told.
  assert (Hlive : forall id r', live (input_batch s) id -> rn_requests s !! id = Some r' -> id <> rid /\ crs_output r' <> crs_output r /\ crs_output r' < rn_next s).
  { intros id r' Hl Hr'. assert (Hne : id <> rid) by (intros ->; done). split; [done|]. split; [exact (so_alias _ _ _ _ Hst _ _ _ _ Hne Hr' Hr) | apply (so_known _ _ _ _ Hst _ _ Hr')]. }
  destruct (use_async_scheduling c && (0 <? no)) eqn:Hasync.
  - apply andb_true_iff in Hasync as [Ha Hno]. destruct (F8 Ha Hn) as [all Hall]; [lia|]. rewrite Hall. cbn [mbind result_bind or_raise].
    eexists. split; [reflexivity|]. split.
    + split; cbn; [apply in_place_refl | | | | | lia].
      * pose proof (store_ok_readdress _ _ _ _ rid r2 (slice_from (- no) all) Hst1 (lookup_insert_eq _ _ _)) as Hre. rewrite insert_insert_eq in Hre. exact Hre.
      * intros id Hne. by apply lookup_insert_ne.
      * exists (rn_next s). split; [apply lookup_insert_eq|]. split; [|right; split; [done | lia]]. unfold outputs_at at 1. rewrite lookup_insert_eq. cbn.
        unfold next_outputs. cbn. rewrite Ha, Hno. cbn. unfold dget_or. by rewrite Hall.
      * intros a Hlt Hne. rewrite lookup_insert_ne by lia. by apply synced_other.
    + eapply batch_ok_change; [exact Hok|]. intros id r' Hl Hr'. destruct (Hlive id r' Hl Hr') as (Hne & Ho & Hlt). cbn. split; [by rewrite lookup_insert_ne|]. split; [|done].
      unfold outputs_at. rewrite lookup_insert_ne by lia. by rewrite synced_other.
  - cbn [mbind result_bind]. eexists. split; [reflexivity|]. split.
    + split; cbn; [apply in_place_refl | exact Hst1 | | | | lia].
      * intros id Hne. by apply lookup_insert_ne.
      * exists (crs_output r). split; [rewrite lookup_insert_eq; by destruct r|]. split; [|left; split; [done | by rewrite synced_at]]. rewrite synced_at. unfold next_outputs. cbn. by rewrite Hasync.
      * intros a Hlt Hne. by apply synced_other.
    + eapply batch_ok_change; [exact Hok|]. intros id r' Hl Hr'. destruct (Hlive id r' Hl Hr') as (Hne & Ho & Hlt). cbn. split; [by rewrite lookup_insert_ne|]. split; [|done].
      unfold outputs_at. by rewrite synced_other.
Qed.

Definition set_drafts (rid : string) (d : Drafts) (specs : string -> Drafts) (id : string) : Drafts := if decide (id = rid) then d else specs id.

(** The outputs and the row of a request that stays. *)
Lemma sync_outputs_ok i p nc no r r1 s b : is_last_rank c = true -> crs_output r1 = crs_output r ->
  (if no <? py_len (outputs_at (rn_outputs s) (crs_output r)) then update_row (Z.of_nat p) (fun row =>
     let end_idx := row_num_prompt_tokens row + no in Ok (row <| row_num_tokens := end_idx |> <| row_num_tokens_no_spec := end_idx |>)) (input_batch s)
   else Ok (input_batch s)) = Ok b ->
  sync_outputs c i nc no crd (Some (Z.of_nat p)) r1 s = Ok (s <| rn_outputs := synced no r (rn_outputs s) |> <| input_batch := b |>).
Proof using Type.
  clear Hlast. intros Hlast Hr1 Hb. unfold sync_outputs, synced. rewrite Hlast. cbn [negb]. rewrite Hr1.
  destruct (no <? _); [|injection Hb as <-; by destruct s]. unfold on_batch.
  match goal with |- mbind _ ?x = _ => replace x with (Ok b) by (symmetry; exact Hb) end. done.
Qed.

Lemma update_staying_ok i rid p s adds r nc nb no specs v holes :
  batch_ok (rn_outputs s) (rn_requests s) specs (input_batch s) v -> index_ok (input_batch s) holes ->
  store_ok (ib_vocab_size (input_batch s)) (rn_requests s) (rn_outputs s) (rn_next s) ->
  rn_requests s !! rid = Some r -> cached_fits (input_batch s) (rn_outputs s) i rid r nc nb no ->
  ib_req_ids (input_batch s) !! p = Some (Some rid) -> (specs rid).1 = [] ->
  exists s' v', update_cached_request c so (i, rid) (s, adds) = Ok (s', adds) /\ one_update rid r nc nb no true s s' /\
    batch_ok (rn_outputs s') (rn_requests s') (set_drafts rid (drafts_for so rid, drafts_for so rid) specs) (input_batch s') v'.
Proof using Hlast.
  intros Hok Hix Hst Hr Hf Hp Hsp. pose proof Hf as [F1 F2 F3 F4 F5 F6 F7 F8 F9].
  assert (Hl : live (input_batch s) rid) by by exists p.
  assert (Hres : rid ∉ crd_resumed_req_ids crd) by (intros Hx; by destruct (F5 Hx)).
  rewrite bool_decide_eq_false_2 in F7 by done. pose proof Hok as [Hsh Hcells _ _ _ _].
  destruct (Hcells p rid Hp) as (r0 & Hr0 & Hid & _ & Hcell). rewrite Hr in Hr0. injection Hr0 as <-.
  assert (Hpmax : Z.of_nat p < ib_max_num_reqs (input_batch s)) by (pose proof (lookup_lt_Some _ _ _ Hp); pose proof (sh_max _ v Hsh); unfold py_len in *; lia).
  assert (Hfit : tokens_fit (synced no r (rn_outputs s)) (ib_max_model_len (input_batch s)) r (drafts_for so rid)).
  { specialize (F9 true). unfold next_outputs in F9. cbn in F9. unfold tokens_fit, crs_num_tokens. rewrite synced_at. by apply F9. }
  destruct (stay_row_ok (Z.of_nat i) (rn_outputs s) (input_batch s) v p rid r nc nb no (specs rid) Hsh Hcell Hsp F4 Hpmax Hfit (F6 Hres) F7)
    as (row & ts & v' & Hrun & Hsize & Hlo & Hg & Hlay & Hvo & Hcell').
  apply bind_Ok_inv in Hrun as (b1 & Hb1 & Hrun).
  unfold update_cached_request. cbn [fst snd]. fold crd.
  rewrite Hr, (message_data _ _ _ F1), (message_data _ _ _ F2), (message_data _ _ _ F3). cbn [mbind result_bind or_raise].
  assert (Hidx : dget rid (ib_req_id_to_index (input_batch s)) = Some (Z.of_nat p)) by (apply (ix_get _ _ Hix); eauto). rewrite Hidx.
  set (r1 := r <| crs_num_computed_tokens := nc |>). pose proof (sync_outputs_ok (Z.of_nat i) p nc no r r1 s b1 Hlast eq_refl Hb1) as Hsync.
  match goal with |- context [mbind _ (sync_outputs ?c1 ?c2 ?c3 ?c4 ?c5 ?c6 ?c7 ?c8)] => replace (sync_outputs c1 c2 c3 c4 c5 c6 c7 c8)
    with (Ok (s <| rn_outputs := synced no r (rn_outputs s) |> <| input_batch := b1 |>) : result Runner)
    by (symmetry; exact Hsync) end. cbn [mbind result_bind]. unfold r1.
  rewrite (update_block_ids_ok (input_batch s) i rid r nc nb no (rn_outputs s) (Some (Z.of_nat p)) Hf) by (split; [done | by intros ?]). cbn [mbind result_bind].
  rewrite bool_decide_eq_false_2 by done. unfold on_batch.
  match goal with |- context [mbind _ (update_cached_row ?c1 ?c2 ?c3 ?c4 ?c5 ?c6 ?c7 ?c8)] => replace (update_cached_row c1 c2 c3 c4 c5 c6 c7 c8) with (Ok (with_row p row ts (drafts_for so rid) (input_batch s))) by (symmetry; exact Hrun) end.
  cbn [mbind result_bind].
  set (b' := with_row p row ts (drafts_for so rid) (input_batch s)) in *. eexists _, v'. split; [reflexivity|]. split.
  - split; cbn; [| by apply store_ok_told | | | | lia].
    + split; [done | done | done | done | by split_and! | exact Hlay].
    + intros id Hne. by apply lookup_insert_ne.
    + exists (crs_output r). rewrite bool_decide_eq_false_2 by done. split; [rewrite lookup_insert_eq; by destruct r|]. split; [|left; split; [done | by rewrite (synced_at no r)]]. by rewrite (synced_at no r).
    + intros a Hlt Hne. by apply (synced_other no r).
  - cbn. apply (with_row_ok (rn_outputs s) _ (rn_requests s) _ specs _ (input_batch s) v v' p rid row ts (drafts_for so rid, drafts_for so rid) (told nc false nb r)); try done.
    + intros q id Hq Hqp ->. apply Hqp. exact (live_unique _ holes _ _ _ Hix Hq Hp).
    + unfold set_drafts. by rewrite decide_True.
    + apply lookup_insert_eq.
    + intros r' Hr'. rewrite Hr in Hr'. by injection Hr' as <-.
    + intros id r' Hne Hr'. split; [by rewrite lookup_insert_ne|]. split; [|unfold set_drafts; by rewrite decide_False].
      unfold outputs_at. rewrite (synced_other no r); [done|]. exact (so_alias _ _ _ _ Hst _ _ _ _ Hne Hr' Hr).
Qed.

(** ** The loop *)

Lemma in_place_live b b' id : in_place b b' -> live b' id <-> live b id.
Proof using Type. clear Hlast. intros [Hi _ _ _ _ _]. unfold live. by rewrite Hi. Qed.

Lemma cached_fits_frame b b' h h' i rid r nc nb no : (live b' rid <-> live b rid) -> same_layouts b b' -> ib_max_model_len b' = ib_max_model_len b ->
  outputs_at h' (crs_output r) = outputs_at h (crs_output r) ->
  cached_fits b h i rid r nc nb no -> cached_fits b' h' i rid r nc nb no.
Proof using Type.
  clear Hlast. intros Hl Hla Hlen Ho [F1 F2 F3 F4 F5 F6 F7 F8 F9]. split; try done; rewrite ?Hl; try done.
  - by eapply fits_layouts.
  - intros ib. rewrite Hl, Ho, Hlen. apply F9.
Qed.

Lemma cached_fits_place b b' h h' i rid r nc nb no : in_place b b' -> outputs_at h' (crs_output r) = outputs_at h (crs_output r) ->
  cached_fits b h i rid r nc nb no -> cached_fits b' h' i rid r nc nb no.
Proof using Type.
  clear Hlast. intros Hp. pose proof (ip_settings _ _ Hp) as (_ & _ & _ & Hlen & _). apply cached_fits_frame; [by apply in_place_live | apply Hp | done].
Qed.

(** The requests that are added again, in the message's order. *)
Definition returning (b : InputBatch) (l : list (nat * string)) : list string :=
  List.filter (fun rid => negb (dmem rid (ib_req_id_to_index b))) (snd <$> l).

Record cached_loop (l : list (nat * string)) (s s' : Runner) : Prop := {
  cl_place : in_place (input_batch s) (input_batch s');
  cl_store : store_ok (ib_vocab_size (input_batch s)) (rn_requests s') (rn_outputs s') (rn_next s');
  cl_other : forall id, id ∉ (snd <$> l) -> rn_requests s' !! id = rn_requests s !! id;
  cl_self : forall i rid r nc nb no (in_batch : bool), (i, rid) ∈ l -> rn_requests s !! rid = Some r ->
    cached_fits (input_batch s) (rn_outputs s) i rid r nc nb no -> (in_batch = true <-> live (input_batch s) rid) ->
    exists a, rn_requests s' !! rid = Some (told nc (bool_decide (rid ∈ crd_resumed_req_ids crd)) nb r <| crs_output := a |>) /\
      outputs_at (rn_outputs s') a = next_outputs in_batch no rid (outputs_at (rn_outputs s) (crs_output r)) /\
      ((a = crs_output r /\ outputs_at (rn_outputs s') a = kept_outputs no (outputs_at (rn_outputs s) (crs_output r))) \/ (in_batch = false /\ rn_next s <= a));
  cl_outputs : forall a, a < rn_next s -> (forall rid r, rid ∈ (snd <$> l) -> rn_requests s !! rid = Some r -> crs_output r <> a) ->
    rn_outputs s' !! a = rn_outputs s !! a;
  cl_next : rn_next s <= rn_next s';
}.

Lemma cached_fits_inj b h i rid r nc nb no nc' nb' no' : cached_fits b h i rid r nc nb no -> cached_fits b h i rid r nc' nb' no' ->
  nc' = nc /\ nb' = nb /\ no' = no.
Proof using Type. clear Hlast. intros [F1 F2 F3 _ _ _ _ _ _] [G1 G2 G3 _ _ _ _ _ _]. split_and!; congruence. Qed.

(** One round, then the others. *)
Lemma cached_loop_cons i rid l s s1 s' r nc nb no (in_batch : bool) :
  store_ok (ib_vocab_size (input_batch s)) (rn_requests s) (rn_outputs s) (rn_next s) ->
  rid ∉ (snd <$> l) -> rn_requests s !! rid = Some r -> cached_fits (input_batch s) (rn_outputs s) i rid r nc nb no ->
  (in_batch = true <-> live (input_batch s) rid) ->
  one_update rid r nc nb no in_batch s s1 -> cached_loop l s1 s' -> cached_loop ((i, rid) :: l) s s'.
Proof using Type.
  clear Hlast. intros Hst Hn Hr Hf Hib [P1 P2 P3 P4 P5 P6] [L1 L2 L3 L4 L5 L6].
  assert (Hlow : forall x y, rn_requests s !! x = Some y -> crs_output y < rn_next s) by (intros x y Hy; apply (so_known _ _ _ _ Hst x y Hy)).
  assert (Hself : exists a, rn_requests s' !! rid = Some (told nc (bool_decide (rid ∈ crd_resumed_req_ids crd)) nb r <| crs_output := a |>) /\
      outputs_at (rn_outputs s') a = next_outputs in_batch no rid (outputs_at (rn_outputs s) (crs_output r)) /\
      ((a = crs_output r /\ outputs_at (rn_outputs s') a = kept_outputs no (outputs_at (rn_outputs s) (crs_output r))) \/ (in_batch = false /\ rn_next s <= a))).
  { destruct P4 as (a & Ha & Ho & Hor). exists a. rewrite L3 by done. split; [done|].
    assert (Hsame : outputs_at (rn_outputs s') a = outputs_at (rn_outputs s1) a).
    { unfold outputs_at. f_equal. apply L5; [exact (kn_output _ _ _ _ (so_known _ _ _ _ P2 _ _ Ha))|]. intros x y Hx Hy He. assert (Hne : x <> rid) by (intros ->; done).
      apply (so_alias _ _ _ _ P2 _ _ _ _ Hne Hy Ha). exact He. }
    rewrite !Hsame. by split. }
  split.
  - by eapply in_place_trans.
  - destruct (ip_settings _ _ P1) as (_ & _ & _ & _ & Hv & _). by rewrite <- Hv.
  - intros id Hid. cbn in Hid. apply not_elem_of_cons in Hid as [Hid1 Hid2]. rewrite L3 by done. by apply P3.
  - intros i2 rid2 r2 nc2 nb2 no2 ib2 Hin Hr2 Hf2 Hib2. apply elem_of_cons in Hin as [Heq|Hin].
    + injection Heq as -> ->. rewrite Hr in Hr2. injection Hr2 as <-. destruct (cached_fits_inj _ _ _ _ _ _ _ _ _ _ _ Hf Hf2) as (-> & -> & ->).
      assert (ib2 = in_batch) as -> by (apply eq_true_iff_eq; by rewrite Hib2, Hib). done.
    + assert (Hin2 : rid2 ∈ (snd <$> l)) by (apply list_elem_of_fmap; by exists (i2, rid2)).
      assert (Hne : rid2 <> rid) by (intros ->; done). pose proof (so_alias _ _ _ _ Hst _ _ _ _ Hne Hr2 Hr) as Hal. pose proof (Hlow _ _ Hr2) as Hlt.
      assert (Ho2 : outputs_at (rn_outputs s1) (crs_output r2) = outputs_at (rn_outputs s) (crs_output r2)) by (unfold outputs_at; by rewrite P5).
      destruct (L4 i2 rid2 r2 nc2 nb2 no2 ib2 Hin) as (a & Ha & Hoa & Hor).
      * by rewrite P3.
      * by eapply cached_fits_place.
      * by rewrite (in_place_live _ _ _ P1).
      * exists a. split; [done|]. rewrite Hoa, Ho2. split; [done|]. destruct Hor as [[? ?]|[? ?]]; [left; split; congruence | right; split; [done | lia]].
  - intros a Hlt Ha. rewrite L5; [|lia|].
    + apply P5; [done|]. intros ->. apply (Ha rid r); [by left | done | done].
    + intros x y Hx Hy. assert (Hne : x <> rid) by (intros ->; done). rewrite P3 in Hy by done. apply (Ha x y); [by right | done].
  - lia.
Qed.

Lemma cached_requests_ok l : forall s adds specs v holes,
  batch_ok (rn_outputs s) (rn_requests s) specs (input_batch s) v -> index_ok (input_batch s) holes ->
  store_ok (ib_vocab_size (input_batch s)) (rn_requests s) (rn_outputs s) (rn_next s) -> NoDup (snd <$> l) ->
  (forall i rid, (i, rid) ∈ l -> (exists r nc nb no, rn_requests s !! rid = Some r /\ cached_fits (input_batch s) (rn_outputs s) i rid r nc nb no) /\
    (live (input_batch s) rid -> (specs rid).1 = [])) ->
  exists s' v' specs', for_each (update_cached_request c so) l (s, adds) = Ok (s', adds ++ returning (input_batch s) l) /\ cached_loop l s s' /\
    batch_ok (rn_outputs s') (rn_requests s') specs' (input_batch s') v' /\
    (forall id, live (input_batch s) id -> specs' id = if decide (id ∈ (snd <$> l)) then (drafts_for so id, drafts_for so id) else specs id).
Proof using Hlast.
  induction l as [|[i rid] l IH]; intros s adds specs v holes Hok Hix Hst Hnd Hl.
  { exists s, v, specs. split; [cbn; by rewrite app_nil_r|]. split; [split; [apply in_place_refl | done | done | by intros ? ? ? ? ? ? ? ?%elem_of_nil | done | done]|].
    split; [done|]. intros id _. by rewrite decide_False by (by intros ?%elem_of_nil). }
  apply NoDup_cons in Hnd as [Hn Hnd]. cbn in Hn. destruct (Hl i rid) as [(r & nc & nb & no & Hr & Hf) Hsp]; [by left|].
  set (in_batch := dmem rid (ib_req_id_to_index (input_batch s))).
  assert (Hib : in_batch = true <-> live (input_batch s) rid) by (unfold in_batch; rewrite dmem_true; symmetry; by eapply live_get).
  assert (Hround : exists s1 v1 specs1, update_cached_request c so (i, rid) (s, adds) = Ok (s1, adds ++ (if in_batch then [] else [rid])) /\
    one_update rid r nc nb no in_batch s s1 /\ batch_ok (rn_outputs s1) (rn_requests s1) specs1 (input_batch s1) v1 /\
    forall id, specs1 id = if decide (id = rid /\ in_batch = true) then (drafts_for so rid, drafts_for so rid) else specs id).
  { destruct in_batch eqn:Hinb.
    - assert (Hlive : live (input_batch s) rid) by (by apply Hib). pose proof Hlive as [p Hp].
      destruct (update_staying_ok i rid p s adds r nc nb no specs v holes Hok Hix Hst Hr Hf Hp (Hsp Hlive)) as (s1 & v1 & Hrun & Hou & Hok1).
      exists s1, v1, (set_drafts rid (drafts_for so rid, drafts_for so rid) specs). rewrite app_nil_r. split; [done|]. split; [done|]. split; [done|].
      intros id. unfold set_drafts. destruct (decide (id = rid)); [by rewrite decide_True | by rewrite decide_False by tauto].
    - assert (Hnl : ~ live (input_batch s) rid) by (intros Hlv; apply Hib in Hlv; done).
      destruct (update_returning_ok i rid s adds r nc nb no specs v holes Hok Hix Hst Hr Hf Hnl) as (s1 & Hrun & Hou & Hok1).
      exists s1, v, specs. split; [done|]. split; [done|]. split; [done|]. intros id. by rewrite decide_False by (by intros [_ ?]). }
  destruct Hround as (s1 & v1 & specs1 & Hrun1 & Hou & Hok1 & Hspecs1). pose proof Hou as [P1 P2 P3 P4 P5 P6].
  destruct (IH s1 (adds ++ (if in_batch then [] else [rid])) specs1 v1 holes Hok1 (in_place_index _ _ _ P1 Hix)) as (s' & v' & specs' & Hrun' & Hcl & Hok' & Hspecs').
  { destruct (ip_settings _ _ P1) as (_ & _ & _ & _ & -> & _). exact P2. }
  { done. }
  { intros i2 rid2 Hin. assert (Hin2 : rid2 ∈ (snd <$> l)) by (apply list_elem_of_fmap; by exists (i2, rid2)). assert (Hne : rid2 <> rid) by (intros ->; done).
    destruct (Hl i2 rid2) as [(r2 & nc2 & nb2 & no2 & Hr2 & Hf2) Hsp2]; [by right|]. split.
    - exists r2, nc2, nb2, no2. rewrite P3 by done. split; [done|]. eapply cached_fits_place; [exact P1 | | exact Hf2]. unfold outputs_at. f_equal.
      apply P5; [apply (so_known _ _ _ _ Hst _ _ Hr2) | exact (so_alias _ _ _ _ Hst _ _ _ _ Hne Hr2 Hr)].
    - rewrite (in_place_live _ _ _ P1). intros Hlv. rewrite Hspecs1, decide_False by (intros [? _]; done). by apply Hsp2. }
  exists s', v', specs'. cbn [for_each]. rewrite Hrun1. cbn [mbind result_bind]. split; [|split; [by eapply cached_loop_cons|split; [done|]]].
  - rewrite Hrun'. do 2 f_equal. rewrite <- (assoc_L (++)). f_equal. unfold returning. cbn. fold in_batch.
    destruct P1 as [_ Hx _ _ _ _]. rewrite Hx. by destruct in_batch.
  - intros id Hlv. rewrite Hspecs' by (by rewrite (in_place_live _ _ _ P1)). rewrite Hspecs1.
    destruct (decide (id ∈ snd <$> l)) as [Hin|Hin]; [rewrite decide_True by (by right); done|].
    destruct (decide (id = rid)) as [->|Hne].
    + rewrite (decide_True (P := rid = rid /\ in_batch = true)) by (split; [done | by apply Hib]). by rewrite decide_True by (by left).
    + rewrite (decide_False (P := id = rid /\ in_batch = true)) by tauto. rewrite decide_False; [done|]. cbn. by intros [?|?]%elem_of_cons.
Qed.
End Cached.
