(* ===== verification/WorkerStep.v ===== *)
(** * A step of the runner

    The requests that are added, the batch condensed, reordered and its metadata refreshed;
    and [update_states] as a whole: the batch mirrors what the scheduler says. *)

From S2P Require Import Prelude PyDict PyList PyFloat Request Outputs Numpy BlockTable Sampling BatchUpdate InputBatch ReorderBatch InputBatchInv InputBatchOps ReorderProps ProcessorProps WorkerStates WorkerInv.
From stdpp Require Import sorting.
#[local] Open Scope Z_scope.

(** ** Additions, with what the builder records *)

(** The rows [f0] before the step, up to the additions: an index that was added to has the
    request added last, any other row is as it was. *)
Record logged (f0 : nat -> option string) (info0 info : string -> AddedInfo) (b : InputBatch) (holes : list nat) : Prop := {
  lg_adds : forall p id, ids_view (ib_req_ids b) p = Some id ->
    match last_added p (added (batch_update_builder b)) with Some a => info_of a = info id | None => f0 p = Some id /\ info0 id = info id end;
  lg_free : forall p, ids_view (ib_req_ids b) p = None ->
    p ∈ holes \/ (f0 p = None /\ last_added p (added (batch_update_builder b)) = None);
  lg_indices : forall a, a ∈ added (batch_update_builder b) -> exists p, ar_index a = Z.of_nat p /\ (p < Z.to_nat (ib_max_num_reqs b))%nat;
  lg_moved : moved (batch_update_builder b) = [];
}.

Lemma put_view i id l p : (i <= length l)%nat -> ids_view (put i (Some id) l) p = if decide (p = i) then Some id else ids_view l p.
Proof. intros Hi. unfold ids_view. rewrite put_lookup by done. by case_decide. Qed.

Lemma logged_add f0 info0 info b b' holes i rest r p : logged f0 info0 info b holes -> placed b holes i rest -> (i <= length (ib_req_ids b))%nat ->
  Z.of_nat i < ib_max_num_reqs b -> ib_max_num_reqs b' = ib_max_num_reqs b -> ib_req_ids b' = put i (Some (crs_req_id r)) (ib_req_ids b) ->
  added (batch_update_builder b') = added (batch_update_builder b) ++ [added_of i r p] -> moved (batch_update_builder b') = moved (batch_update_builder b) ->
  info (crs_req_id r) = (p, crs_prompt_token_ids r, crs_output r) -> logged f0 info0 info b' rest.
Proof.
  intros [L1 L2 L3 L4] Hpl Hi Hmax Hset Hids Ha Hm Hinfo.
  assert (Hlast : forall q, q <> i -> last_added q (added (batch_update_builder b')) = last_added q (added (batch_update_builder b))).
  { intros q Hq. rewrite Ha, last_added_snoc. cbn. destruct (Z.eqb_spec (Z.of_nat i) (Z.of_nat q)); [lia | done]. }
  split.
  - intros q id. rewrite Hids, put_view by done. case_decide as Hq.
    + intros [= <-]. subst q. rewrite Ha, last_added_snoc. cbn. rewrite Z.eqb_refl. by rewrite Hinfo.
    + intros Hv. rewrite Hlast by done. by apply L1.
  - intros q. rewrite Hids, put_view by done. case_decide as Hq; [done|]. intros Hv. rewrite Hlast by done. destruct (L2 q Hv) as [Hin|?]; [|by right]. left.
    destruct Hpl as [(-> & _)|[Hrest _]]; [by apply elem_of_nil in Hin|]. rewrite Hrest in Hin. by apply elem_of_cons in Hin as [?|?].
  - intros a. rewrite Ha, elem_of_app, list_elem_of_singleton, Hset. intros [?| ->]; [by apply L3|]. exists i. cbn. split; [done | lia].
  - by rewrite Hm.
Qed.

Lemma count_add b b' holes i rest id : index_ok b holes -> NoDup holes -> index_ok b' rest -> NoDup rest -> placed b holes i rest ->
  (i <= length (ib_req_ids b))%nat -> ib_req_ids b' = put i (Some id) (ib_req_ids b) -> ib_num_reqs b' = ib_num_reqs b + 1.
Proof.
  intros Hi Hnd Hi' Hnd' Hpl Hle Hids. unfold ib_num_reqs, py_len. rewrite (index_size b holes Hi), (index_size b' rest Hi').
  pose proof (holes_count (ib_req_ids b) holes Hnd (ix_holes b holes Hi)) as H1. pose proof (holes_count (ib_req_ids b') rest Hnd' (ix_holes b' rest Hi')) as H2.
  assert (Hlen : length (ib_req_ids b') = if decide (i = length (ib_req_ids b)) then Datatypes.S (length (ib_req_ids b)) else length (ib_req_ids b)) by (rewrite Hids; apply length_put).
  destruct Hpl as [(-> & -> & ->)|[Hrest _]]; [rewrite decide_True in Hlen by done; cbn in *; lia|].
  rewrite decide_False in Hlen; [rewrite Hrest in H1; cbn in H1; lia|]. intros ->.
  assert (Hin : length (ib_req_ids b) ∈ holes) by (rewrite Hrest; by left). apply (ix_holes b holes Hi) in Hin. by rewrite lookup_ge_None_2 in Hin by lia.
Qed.

Section Adds.
Context `{PoolingInfo} (h : OutputStore) (reqs : Requests) (specs : string -> Drafts).

(** The requests that wait to be added. *)
Record waiting_ok (b : InputBatch) (id : string) : Prop := {
  wt_request : exists r p, reqs !! id = Some r /\ crs_req_id r = id /\ crs_sampling_params r = Some p /\ params_ok (ib_vocab_size b) p /\ request_ok r /\
    tokens_fit h (ib_max_model_len b) r [] /\ Forall2 fits (ib_block_table b) (crs_block_ids r);
  wt_specs : specs id = ([], []);
}.

Lemma add_all_ok l : forall s v holes f0 info0, rn_requests s = reqs -> rn_outputs s = h ->
  batch_ok h reqs specs (input_batch s) v -> index_ok (input_batch s) holes -> builder_ok (batch_update_builder (input_batch s)) holes ->
  logged f0 info0 (info_in reqs) (input_batch s) holes -> 0 <= ib_vocab_size (input_batch s) ->
  NoDup l -> Forall (waiting_ok (input_batch s)) l -> (forall id, id ∈ l -> ~ live (input_batch s) id) ->
  ib_num_reqs (input_batch s) + py_len l <= ib_max_num_reqs (input_batch s) ->
  exists b' v' holes', for_each add_to_batch l s = Ok (s <| input_batch := b' |>) /\ batch_ok h reqs specs b' v' /\ index_ok b' holes' /\
    builder_ok (batch_update_builder b') holes' /\ logged f0 info0 (info_in reqs) b' holes' /\
    (forall id, live b' id <-> live (input_batch s) id \/ id ∈ l) /\
    same_settings (input_batch s) b' /\ same_layouts (input_batch s) b' /\ logitsprocs b' = logitsprocs (input_batch s).
Proof.
  induction l as [|id l IH]; intros s v holes f0 info0 Hrq Hh Hok Hix Hbd Hlog Hvoc Hnd Hl Hnl Hroom; cbn [for_each].
  { exists (input_batch s), v, holes. split; [by destruct s|]. do 4 (split; [done|]). split; [intros id; split; [by left | by intros [?|?%elem_of_nil]]|].
    split_and!; auto using same_settings_refl, same_layouts_refl. }
  apply NoDup_cons in Hnd as [Hn Hnd]. apply Forall_cons in Hl as [[(r & p & Hr & Hid & Hp & Hpok & Hreq & Hfit & Hblk) Hspec] Hl].
  unfold py_len in Hroom. cbn [length] in Hroom. rewrite Nat2Z.inj_succ in Hroom.
  assert (Hlv : ~ live (input_batch s) (crs_req_id r)) by (rewrite Hid; apply Hnl; by left).
  assert (Had : addable h (input_batch s) v r p) by (by split).
  destruct (batch_add_request_ok h reqs specs (input_batch s) v holes r p Hok Hix Hbd Had) as (b1 & v1 & i & rest & Hrun & Hok1 & Hix1 & Hbd1 & Hpl & Hile & Hids1 & Hset1 & Hproc1 & Ha1 & Hm1 & Hlay1).
  { intros ->. pose proof (no_holes_full _ Hix). lia. }
  { done. }
  { by rewrite Hid. }
  { by rewrite Hid. }
  assert (Hone : add_to_batch id s = Ok (s <| input_batch := b1 |>)).
  { unfold add_to_batch, on_batch. rewrite Hrq, Hr. cbn [mbind result_bind or_raise]. rewrite Hh, Hrun. done. }
  rewrite Hone. cbn [mbind result_bind].
  set (s1 := s <| input_batch := b1 |>). assert (Hs1 : input_batch s1 = b1) by reflexivity.
  pose proof Hset1 as (_ & _ & Hmax1 & Hlen1 & Hvoc1 & _).
  assert (Hcount : ib_num_reqs b1 = ib_num_reqs (input_batch s) + 1) by (eapply (count_add (input_batch s) b1 holes i rest); eauto; [apply Hbd | apply Hbd1]).
  assert (Himax : Z.of_nat i < ib_max_num_reqs (input_batch s)).
  { pose proof (sh_max b1 v1 (bo_shape _ _ _ _ _ Hok1)) as Hm. rewrite Hmax1 in Hm. assert (Hlt : (i < length (ib_req_ids b1))%nat).
    { rewrite Hids1, length_put. case_decide; lia. }
    unfold py_len in Hm. lia. }
  assert (Hlive1 : forall x, live b1 x <-> live (input_batch s) x \/ x = id).
  { intros x. rewrite !live_view. rewrite <- Hid. split.
    - intros [q Hq]. rewrite Hids1, put_view in Hq by done. case_decide; [right; congruence | left; eauto].
    - intros [[q Hq]| ->]; [|exists i; rewrite Hids1, put_view by done; by rewrite decide_True]. exists q. rewrite Hids1, put_view by done. rewrite decide_False; [done|]. intros ->.
      destruct Hpl as [(_ & _ & ->)|[Hrest _]]; unfold ids_view in Hq; [by rewrite lookup_ge_None_2 in Hq by lia|].
      assert (Hin : i ∈ holes) by (rewrite Hrest; by left). apply (ix_holes _ _ Hix) in Hin. by rewrite Hin in Hq. }
  rewrite <- Hs1 in Hok1, Hix1, Hbd1.
  destruct (IH s1 v1 rest f0 info0 Hrq Hh Hok1 Hix1 Hbd1) as (b' & v' & holes' & Hrun' & Hok' & Hix' & Hbd' & Hlog' & Hlive' & Hset' & Hlay' & Hproc').
  { rewrite Hs1. eapply logged_add; eauto. unfold info_in. rewrite Hid, Hr. cbn. by rewrite Hp. }
  { rewrite Hs1. lia. }
  { done. }
  { rewrite Hs1. eapply Forall_impl; [exact Hl|]. intros x [(r2 & p2 & ? & ? & ? & ? & ? & ? & ?) ?]. split; [|done]. exists r2, p2. rewrite Hvoc1, Hlen1.
    split_and!; try done. by eapply fits_layouts. }
  { intros x Hx. rewrite Hs1, Hlive1. intros [Hlx| ->]; [|done]. eapply Hnl; [|exact Hlx]. by right. }
  { rewrite Hs1, Hcount, Hmax1. unfold py_len. lia. }
  exists b', v', holes'. split; [by rewrite Hrun'|]. do 4 (split; [done|]). rewrite Hs1 in *. split.
  - intros x. rewrite Hlive', Hlive1, elem_of_cons. tauto.
  - split; [by eapply same_settings_trans|]. split; [by eapply same_layouts_trans | congruence].
Qed.
End Adds.

(** ** The metadata *)

Lemma batch_ok_meta h reqs specs b v bd ps dev m : batch_ok h reqs specs b v ->
  (allowed_token_ids_mask b <> None -> dev_allowed_mask dev <> None) ->
  batch_ok h reqs specs (b <| batch_update_builder := bd |> <| logitsprocs := ps |> <| device := dev |> <| sampling_metadata := m |>) v.
Proof.
  intros [[] Hcells Hsets Hstray Hlora Hpool] Hdev. split; [by split | | exact Hsets | exact Hstray | exact Hlora | exact Hpool].
  intros i id Hi. destruct (Hcells i id Hi) as (r & ? & ? & ? & []). exists r. by split_and!.
Qed.

Lemma copy_columns_mask b : dev_allowed_mask (copy_columns b) = dev_allowed_mask (device b).
Proof. unfold copy_columns. by destruct (all_greedy b), (no_top_p b), (no_top_k b), (no_penalties b). Qed.

Lemma set_means_empty h reqs specs b v sc : batch_ok h reqs specs b v -> sc ∈ param_sets b -> sc.1 <> ∅ -> exists id, live b id.
Proof.
  intros Hok Hin Hne. destruct (set_choose_L _ Hne) as [id Hid]. exists id.
  pose proof (bo_sets _ _ _ _ _ Hok) as Hs. rewrite Forall_forall in Hs. by apply (Hs sc Hin) in Hid as [Hl _].
Qed.

Lemma live_rows h reqs specs b v holes id : batch_ok h reqs specs b v -> index_ok b holes -> live b id -> slice_to (ib_num_reqs b) (rows b) <> [].
Proof.
  intros Hok Hix Hl. apply (live_get b holes id Hix) in Hl as [z Hz]. assert (Hn : 0 < ib_num_reqs b).
  { unfold ib_num_reqs, py_len. apply dget_elem_of in Hz. destruct (ib_req_id_to_index b); [by apply elem_of_nil in Hz | cbn; lia]. }
  apply (ix_get b holes Hix) in Hz as (p & _ & Hp). apply lookup_lt_Some in Hp.
  pose proof (sh_max b v (bo_shape _ _ _ _ _ Hok)). pose proof (sh_rows b v (bo_shape _ _ _ _ _ Hok)). unfold py_len in *.
  intros He. apply (f_equal length) in He. unfold slice_to in He. rewrite length_take in He. unfold slice_pos in He.
  destruct (Z.ltb_spec (ib_num_reqs b) 0); cbn in He; lia.
Qed.

Lemma make_sampling_metadata_ok h reqs specs b v holes : batch_ok h reqs specs b v -> index_ok b holes ->
  exists m d, make_sampling_metadata b = Ok (m, b <| device := d |>) /\ (allowed_token_ids_mask b <> None -> dev_allowed_mask d <> None).
Proof.
  intros Hok Hix. unfold make_sampling_metadata. set (needs := negb (no_penalties b) || existsb row_needs_token_ids (slice_to (ib_num_reqs b) (rows b))).
  assert (Hprompt : exists t, (if needs then t ← make_prompt_token_ids_tensor b; Ok (Some t) else Ok None) = Ok t).
  { destruct needs eqn:Hneeds; [|by exists None]. unfold make_prompt_token_ids_tensor.
    destruct (slice_to (ib_num_reqs b) (rows b)) as [|row rs] eqn:Hrs; [|cbn; eauto]. exfalso. unfold needs in Hneeds. rewrite orb_false_r in Hneeds.
    assert (Hex : exists id, live b id).
    { unfold no_penalties in Hneeds. rewrite !negb_andb, !orb_true_iff, !negb_true_iff, !bool_decide_eq_false in Hneeds.
      destruct Hneeds as [[Hp|Hp]|Hp]; [eapply (set_means_empty h reqs specs b v (presence_penalties_reqs b, _)) | eapply (set_means_empty h reqs specs b v (frequency_penalties_reqs b, _)) |
        eapply (set_means_empty h reqs specs b v (repetition_penalties_reqs b, _))]; [exact Hok | | exact Hp | exact Hok | | exact Hp | exact Hok | | exact Hp]; unfold param_sets; repeat first [by apply list_elem_of_here | apply list_elem_of_further]. }
    destruct Hex as [id Hl]. by eapply live_rows. }
  destruct Hprompt as [t Ht]. rewrite Ht. cbn [mbind result_bind]. pose proof (sh_dev_mask b v (bo_shape _ _ _ _ _ Hok)) as Hdev. pose proof (sh_allowed b v (bo_shape _ _ _ _ _ Hok)) as Hall.
  destruct (no_allowed_token_ids b) eqn:Hno.
  - cbn [mbind result_bind]. do 2 eexists. split; [reflexivity|]. by rewrite copy_columns_mask.
  - apply bool_decide_eq_false in Hno. specialize (Hall Hno). specialize (Hdev Hall). rewrite copy_columns_mask.
    destruct (dev_allowed_mask (device b)) as [dm|]; [|done]. destruct (allowed_token_ids_mask b) as [cm|]; [|done]. cbn [mbind result_bind or_raise].
    do 2 eexists. split; [reflexivity|]. by intros _.
Qed.

(** What a refresh does: the processors get the update, the builder is fresh. *)
Lemma refresh_ok h reqs specs b v h0 exact n info0 info f0 : batch_ok h reqs specs b v -> index_ok b [] ->
  (exists u bd, get_and_reset (ib_num_reqs b) (batch_update_builder b) = (u, bd) /\ fresh_builder bd /\
    step_logged n info0 info f0 (ids_view (ib_req_ids b)) u) ->
  (exact = true -> forall p id, ids_view (ib_req_ids b) p = Some id -> outputs_grow h0 h (info id).2) ->
  Forall (processor_mirrors exact n h0 info0 f0) (logitsprocs b) ->
  exists b', refresh_metadata h b = Ok b' /\ batch_ok h reqs specs b' v /\ index_ok b' [] /\ fresh_builder (batch_update_builder b') /\
    Forall (processor_mirrors exact n h info (ids_view (ib_req_ids b'))) (logitsprocs b') /\ ib_req_ids b' = ib_req_ids b /\
    same_settings b b' /\ same_layouts b b' /\ ib_req_id_to_index b' = ib_req_id_to_index b /\ rows b' = rows b /\ ib_block_table b' = ib_block_table b.
Proof.
  intros Hok Hix (u & bd & Hget & Hfresh & Hlog) Hgrow Hprocs. unfold refresh_metadata. rewrite (bo_sampling _ _ _ _ _ Hok), Hget.
  destruct (update_states_track exact n h0 h info0 info f0 _ u (logitsprocs b) Hlog Hgrow Hprocs) as (ps & Hps & Hmir).
  rewrite Hps. cbn [mbind result_bind]. set (b1 := b <| batch_update_builder := bd |> <| logitsprocs := ps |>).
  assert (Hok1 : batch_ok h reqs specs b1 v) by exact (batch_ok_meta h reqs specs b v bd ps (device b) (sampling_metadata b) Hok (sh_dev_mask b v (bo_shape _ _ _ _ _ Hok))).
  assert (Hix1 : index_ok b1 []) by (destruct Hix; by split).
  destruct u as [u|].
  - unfold set_metadata. destruct (make_sampling_metadata_ok h reqs specs b1 v [] Hok1 Hix1) as (m & d & Hm & Hd). rewrite Hm. cbn [mbind result_bind].
    eexists. split; [reflexivity|]. split; [exact (batch_ok_meta h reqs specs b v bd ps d (Some m) Hok Hd)|]. split; [destruct Hix; by split|].
    split; [done|]. split; [done|]. split_and!; try done; exact (same_layouts_refl b).
  - exists b1. split; [done|]. split; [done|]. split; [done|]. split; [done|]. split; [done|]. split_and!; try done. exact (same_layouts_refl b).
Qed.

(** ** Condensing and reordering *)

(** When the batch is reordered. *)
Definition reorders (c : RunnerConfig) : option Z := if num_kv_cache_groups c =? 0 then None else reorder_batch_threshold c.

(** The assertion about decode context parallelism. *)
Definition threshold_ok (c : RunnerConfig) : Prop :=
  forall t, reorders c = Some t -> 1 < runner_dcp_world_size c -> attention_backend c <> Some "FLASH_ATTN_MLA"%string -> t = 1.

Lemma may_reorder_ok c h reqs specs so b v : threshold_ok c -> batch_ok h reqs specs b v -> index_ok b [] ->
  (forall id, live b id -> is_Some (dget id (num_scheduled_tokens so))) ->
  (forall id r, live b id -> reqs !! id = Some r -> 0 <= crs_num_computed_tokens r) ->
  exists b', may_reorder_batch c so b = Ok b' /\ exchanged h reqs specs b b' /\
    (forall t, reorders c = Some t -> StronglySorted Z.le (region_of reqs t so <$> omap id (ib_req_ids b'))).
Proof.
  intros Hthr Hok Hix Hsched Hcomp. unfold may_reorder_batch. unfold threshold_ok, reorders in *. destruct (num_kv_cache_groups c =? 0).
  { exists b. split; [done|]. split; [by eapply exchanged_refl | done]. }
  destruct (reorder_batch_threshold c) as [t|]; [|exists b; split; [done|]; split; [by eapply exchanged_refl | done]].
  assert (Hassert : (if (1 <? runner_dcp_world_size c) && negb (bool_decide (attention_backend c = Some "FLASH_ATTN_MLA"%string)) then py_assert (t =? 1) else Ok tt) = Ok tt).
  { destruct (Z.ltb_spec 1 (runner_dcp_world_size c)); [|done]. case_bool_decide; [done|]. cbn. by rewrite (Hthr t eq_refl) by done. }
  rewrite Hassert. cbn [mbind result_bind]. destruct (reorder_ok h reqs specs so t b v Hok Hix Hsched Hcomp) as (ch & b' & Hrun & Hex & Hs).
  rewrite Hrun. cbn [mbind result_bind]. exists b'. split; [done|]. split; [done|]. by intros t' [= <-].
Qed.

Lemma get_and_reset_ok n info0 info f0 b f1 holes rest ms b' :
  logged f0 info0 info b holes -> index_ok b holes -> builder_ok (batch_update_builder b') rest -> ib_num_reqs b' = n ->
  (forall p, (Z.to_nat (ib_max_num_reqs b) <= p)%nat -> f0 p = None) -> py_len (ib_req_ids b) <= ib_max_num_reqs b ->
  f1 = ids_view (ib_req_ids b) -> replays ms f1 (ids_view (ib_req_ids b')) ->
  Z.of_nat <$> holes ≡ₚ filled_by ms ++ (Z.of_nat <$> rest) ->
  added (batch_update_builder b') = added (batch_update_builder b) -> moved (batch_update_builder b') = ms ->
  exists u bd, get_and_reset n (batch_update_builder b') = (u, bd) /\ fresh_builder bd /\
    step_logged (Z.to_nat (ib_max_num_reqs b)) info0 info f0 (ids_view (ib_req_ids b')) u.
Proof.
  intros [L1 L2 L3 L4] Hix (Hperm & _) Hn Hrange Hmax -> Hrp Hholes Ha Hm.
  assert (Hlog : step_log (Z.to_nat (ib_max_num_reqs b)) info0 info f0 (ids_view (ib_req_ids b)) (ids_view (ib_req_ids b'))
    {| batch_size := n; bu_removed := removed_list (batch_update_builder b'); bu_added := added (batch_update_builder b'); bu_moved := moved (batch_update_builder b') |}).
  { assert (Hmem : forall z, z ∈ filled_by ms ++ removed_list (batch_update_builder b') <-> exists p, z = Z.of_nat p /\ p ∈ holes).
    { intros z. rewrite Hperm, <- Hholes, list_elem_of_fmap. done. }
    split; cbn; rewrite ?Ha, ?Hm; try done.
    - intros p Hp. destruct (L2 p Hp) as [Hin|?]; [left; apply Hmem; eauto | by right].
    - intros z Hz. apply Hmem in Hz as (p & -> & Hp). exists p. apply (ix_holes b holes Hix) in Hp. split; [done|]. unfold ids_view. rewrite Hp. split; [done|].
      apply lookup_lt_Some in Hp. unfold py_len in Hmax. lia.
    - intros p Hp. split; [by apply Hrange|]. unfold ids_view. rewrite lookup_ge_None_2; [done|]. unfold py_len in Hmax. lia. }
  destruct (batch_update_builder b') as [rl srt ad mv chg]. cbn in Hlog |- *. unfold get_and_reset. cbn.
  destruct rl as [|x xs]; [destruct mv as [|y ys]; [destruct ad as [|z zs]|]|];
    do 2 eexists; (split; [reflexivity|]); (split; [by split_and!|]); cbn [step_logged]; try (by eexists).
  destruct Hlog as [K1 K2 _ K4 _ _]. cbn in *.
  inversion K4 as [? ? Hext| |]; subst. intros p. rewrite <- Hext. destruct (ids_view (ib_req_ids b) p) as [id|] eqn:Hp.
  - destruct (K1 p id Hp) as [H1 H2]. rewrite H1. split; [done|]. by intros id' [= <-].
  - destruct (K2 p Hp) as [Hin|[H0 _]]; [by apply elem_of_nil in Hin|]. by rewrite H0.
Qed.

Lemma replays_target ms f f' p id : replays ms f f' -> f p = Some id -> exists q, f' q = Some id.
Proof.
  intros Hr. revert p. induction Hr as [f f' Hext|i j x ms f f' Hij Hi Hj _ IH|i j x y ms f f' Hij Hi Hj _ IH]; intros p Hp.
  - exists p. by rewrite <- Hext.
  - destruct (decide (p = i)) as [->|Hpi].
    + apply (IH j). unfold after_move. rewrite decide_False, decide_True by done. congruence.
    + apply (IH p). unfold after_move. rewrite !decide_False; [done | intros ->; congruence | done].
  - destruct (decide (p = i)) as [->|Hpi].
    + apply (IH j). unfold after_swap. rewrite decide_False, decide_True by done. congruence.
    + destruct (decide (p = j)) as [->|Hpj]; [apply (IH i); unfold after_swap; rewrite decide_True by done; congruence|].
      apply (IH p). unfold after_swap. by rewrite !decide_False.
Qed.

Lemma condense_reorder_ok c h reqs specs so b v holes f0 info0 :
  threshold_ok c -> batch_ok h reqs specs b v -> index_ok b holes -> builder_ok (batch_update_builder b) holes ->
  logged f0 info0 (info_in reqs) b holes -> (forall p, (Z.to_nat (ib_max_num_reqs b) <= p)%nat -> f0 p = None) ->
  (forall id, live b id -> is_Some (dget id (num_scheduled_tokens so))) ->
  (forall id r, live b id -> reqs !! id = Some r -> 0 <= crs_num_computed_tokens r) ->
  exists b1 b2 v2, condense b = Ok b1 /\ may_reorder_batch c so b1 = Ok b2 /\ batch_ok h reqs specs b2 v2 /\ index_ok b2 [] /\
    (forall id, live b2 id <-> live b id) /\ same_settings b b2 /\ same_layouts b b2 /\ logitsprocs b2 = logitsprocs b /\
    (exists u bd, get_and_reset (ib_num_reqs b2) (batch_update_builder b2) = (u, bd) /\ fresh_builder bd /\
      step_logged (Z.to_nat (ib_max_num_reqs b)) info0 (info_in reqs) f0 (ids_view (ib_req_ids b2)) u) /\
    (forall t, reorders c = Some t -> StronglySorted Z.le (region_of reqs t so <$> omap id (ib_req_ids b2))).
Proof.
  intros Hthr Hok Hix Hbd Hlog Hrange Hsched Hcomp.
  destruct (condense_ok h reqs specs b v holes Hok Hix Hbd) as (b1 & v1 & ms & rest & Hc & Hok1 & Hix1 & Hbd1 & Hrp & Hperm & Hge & Ha & Hm & Hset & Hproc & Hlay).
  assert (Hlive1 : forall id, live b1 id -> live b id).
  { intros x Hx. apply live_view in Hx as [p Hp]. destruct (replays_source _ _ _ _ _ Hrp Hp) as [q Hq]. apply live_view. eauto. }
  destruct (may_reorder_ok c h reqs specs so b1 v1 Hthr Hok1 Hix1) as (b2 & Hr & Hex & Hsort); [by auto | by eauto |].
  destruct Hex as ((v2 & Hok2) & Hix2 & Hids2 & Hset2 & Hproc2 & Hlay2 & ms2 & Hrp2 & Hfill2 & Hbd2).
  exists b1, b2, v2. split; [done|]. split; [done|]. split; [done|]. split; [done|].
  assert (Hrp' : replays (ms ++ ms2) (ids_view (ib_req_ids b)) (ids_view (ib_req_ids b2))) by (by eapply replays_app).
  split; [|split; [by eapply same_settings_trans|]; split; [by eapply same_layouts_trans|]; split; [congruence|]; split; [|exact Hsort]].
  - intros x. split; [|].
    + intros Hx. apply Hlive1. apply live_view in Hx as [p Hp]. destruct (replays_source _ _ _ _ _ Hrp2 Hp) as [q Hq]. apply live_view. eauto.
    + intros Hx. apply live_view in Hx as [p Hp]. destruct (replays_target _ _ _ _ _ Hrp' Hp) as [q Hq]. apply live_view. eauto.
  - eapply (get_and_reset_ok (ib_num_reqs b2) info0 (info_in reqs) f0 b _ holes rest (ms ++ ms2)); eauto.
    + by rewrite Hbd2.
    + exact (sh_max b v (bo_shape _ _ _ _ _ Hok)).
    + rewrite Hperm. unfold filled_by in *. rewrite omap_app, Hfill2, app_nil_r. done.
    + rewrite Hbd2. exact Ha.
    + rewrite Hbd2. cbn. rewrite Hm. rewrite (lg_moved _ _ _ _ _ Hlog). done.
Qed.

(** * The worker mirrors the scheduler

    [update_states] with a well-formed message of the scheduler: it does not fail, the batch
    holds exactly the scheduled requests, each in one row that stands for its
    cached state, and the cached states are what the message says. *)

Section Step.
Context `{PoolingInfo} `{SetOrder} `{Pooler}.
Context (c : RunnerConfig) (so : SchedulerOutput).

Abbreviation new_ids := (nrd_req_id <$> scheduled_new_reqs so).
Abbreviation cached_ids := (crd_req_ids (scheduled_cached_reqs so)).

(** A message the runner can follow. *)
Record message_ok (s : Runner) : Prop := {
  ms_new : NoDup new_ids;
  ms_cached : NoDup cached_ids;
  ms_scheduled : forall id, id ∈ scheduled_ids so <-> id ∈ new_ids \/ id ∈ cached_ids;
  ms_apart : forall id, id ∈ cached_ids -> (id ∉ new_ids) /\ id ∉ so_finished_req_ids so;
  ms_new_id : forall id, id ∈ new_ids -> live (input_batch s) id -> id ∈ so_finished_req_ids so;
  ms_new_ok : Forall (fun d => new_ok (input_batch s) d /\ 0 <= nrd_num_computed_tokens d) (scheduled_new_reqs so);
  ms_cached_ok : forall i rid, cached_ids !! i = Some rid -> exists r nc nb no, rn_requests s !! rid = Some r /\ 0 <= nc /\
    cached_fits c so (input_batch s) (rn_outputs s) i rid r nc nb no;
  ms_room : py_len new_ids + py_len cached_ids <= ib_max_num_reqs (input_batch s);
}.

(** The drafts in the batch afterwards: requests that stayed have those scheduled.  The others have none: a new request has no
    drafts to have, but a running request that was left out of a step and comes back loses those the message has for it, because
    the code adds its row and goes on to the next request without writing them. *)
Definition step_drafts (b : InputBatch) (id : string) : Drafts :=
  if dmem id (ib_req_id_to_index b) && bool_decide (stays so id) then (drafts_for so id, drafts_for so id) else ([], []).

(** No outputs are taken back. *)
Definition keeps_outputs (s : Runner) : Prop :=
  forall i rid r no, cached_ids !! i = Some rid -> rn_requests s !! rid = Some r ->
    crd_num_output_tokens (scheduled_cached_reqs so) !! i = Some no -> py_len (outputs_at (rn_outputs s) (crs_output r)) <= no.

(** The cached states afterwards. *)
Record follows_message (s s' : Runner) : Prop := {
  fm_new : forall d, d ∈ scheduled_new_reqs so -> exists r, rn_requests s' !! nrd_req_id d = Some r /\ is_new d r /\ outputs_at (rn_outputs s') (crs_output r) = [];
  fm_cached : forall i rid r nc nb no (in_batch : bool), cached_ids !! i = Some rid -> rn_requests s !! rid = Some r ->
    cached_fits c so (input_batch s) (rn_outputs s) i rid r nc nb no -> (in_batch = true <-> live (input_batch s) rid) ->
    exists a, rn_requests s' !! rid = Some (told nc (bool_decide (rid ∈ crd_resumed_req_ids (scheduled_cached_reqs so))) nb r <| crs_output := a |>) /\
      outputs_at (rn_outputs s') a = next_outputs c so in_batch no rid (outputs_at (rn_outputs s) (crs_output r));
  fm_other : forall id, id ∉ scheduled_ids so -> rn_requests s' !! id = if decide (id ∈ so_finished_req_ids so) then None else rn_requests s !! id;
}.

(** The pairs the loop over the cached requests runs on. *)
Lemma cached_pairs i rid : (i, rid) ∈ imap pair cached_ids <-> cached_ids !! i = Some rid.
Proof using Type.
  rewrite elem_of_lookup_imap. split; [by intros (j & x & [= -> ->] & Hx) | eauto].
Qed.

Lemma cached_pairs_snd : snd <$> imap pair cached_ids = cached_ids.
Proof using Type.
  apply list_eq. intros i. rewrite list_lookup_fmap, list_lookup_imap. by destruct (cached_ids !! i).
Qed.

(** After the removals, the cached requests are as before. *)
Lemma stays_live s s1 rid holes : index_ok (input_batch s) [] -> index_ok (input_batch s1) holes ->
  (forall p, ids_view (ib_req_ids (input_batch s1)) p
      = match ids_view (ib_req_ids (input_batch s)) p with Some id => if decide (stays so id) then Some id else None | None => None end) ->
  live (input_batch s1) rid <-> live (input_batch s) rid /\ stays so rid.
Proof using Type.
  intros Hi Hi1 Hv. rewrite !live_view. split.
  - intros [p Hp]. rewrite Hv in Hp. destruct (ids_view (ib_req_ids (input_batch s)) p) as [x|] eqn:Hx; [|done].
    case_decide; [|done]. injection Hp as ->. eauto.
  - intros [[p Hp] Hs]. exists p. rewrite Hv, Hp. by rewrite decide_True.
Qed.

Lemma store_ok_sub v reqs reqs' h next : store_ok v reqs h next -> (forall id r, reqs' !! id = Some r -> reqs !! id = Some r) -> store_ok v reqs' h next.
Proof using Type. intros [Hk Ha Hf] Hsub. split; eauto. Qed.

Lemma new_ok_frame b b' d : same_settings b b' -> same_layouts b b' -> new_ok b d -> new_ok b' d.
Proof using Type.
  intros (_ & _ & _ & Hl & Hv & _) Hla [N1 N2 N3]. split; rewrite ?Hl, ?Hv; [done | done |]. by eapply fits_layouts.
Qed.

Lemma removal_layouts b b' : removal b b' -> same_layouts b b'.
Proof using Type. intros [_ _ Ht _ _ _]. unfold same_layouts. rewrite Ht. exact (same_layouts_refl b). Qed.

(** The runner when its requests have followed the message and the batch is still to be filled. *)
Record followed (s s' : Runner) (v' : Views) (holes : list nat) (reqs_to_add : list string) : Prop := {
  fo_batch : batch_ok (rn_outputs s') (rn_requests s') (step_drafts (input_batch s)) (input_batch s') v';
  fo_index : index_ok (input_batch s') holes;
  fo_builder : builder_ok (batch_update_builder (input_batch s')) holes;
  fo_logged : logged (ids_view (ib_req_ids (input_batch s))) (info_in (rn_requests s)) (info_in (rn_requests s')) (input_batch s') holes;
  fo_store : store_ok (ib_vocab_size (input_batch s)) (rn_requests s') (rn_outputs s') (rn_next s');
  fo_live : forall id, live (input_batch s') id <-> live (input_batch s) id /\ stays so id;
  fo_settings : same_settings (input_batch s) (input_batch s');
  fo_layouts : same_layouts (input_batch s) (input_batch s');
  fo_procs : logitsprocs (input_batch s') = logitsprocs (input_batch s);
  fo_message : follows_message s s';
  fo_next : rn_next s <= rn_next s';
  fo_adds : reqs_to_add = new_ids ++ List.filter (fun rid => negb (dmem rid (ib_req_id_to_index (input_batch s')))) cached_ids;
  fo_fresh : forall id r, id ∈ new_ids -> rn_requests s' !! id = Some r -> rn_next s <= crs_output r;
  fo_room : forall d r, d ∈ scheduled_new_reqs so -> rn_requests s' !! nrd_req_id d = Some r -> crs_num_prompt_tokens r <= ib_max_model_len (input_batch s);
  fo_outputs : forall i rid r r' no, cached_ids !! i = Some rid -> rn_requests s !! rid = Some r -> rn_requests s' !! rid = Some r' ->
    crd_num_output_tokens (scheduled_cached_reqs so) !! i = Some no ->
    (crs_output r' = crs_output r /\ outputs_at (rn_outputs s') (crs_output r') = kept_outputs no (outputs_at (rn_outputs s) (crs_output r)))
    \/ (~ live (input_batch s) rid /\ rn_next s <= crs_output r');
}.

Lemma stays_cached s id : message_ok s -> live (input_batch s) id -> stays so id -> id ∈ cached_ids /\ id ∉ new_ids.
Proof using Type.
  intros Hm Hl [Hf Hs]. apply (ms_scheduled s Hm) in Hs as [Hn|Hc]; [|by destruct (ms_apart s Hm id Hc)].
  exfalso. apply Hf. by apply (ms_new_id s Hm).
Qed.

Lemma cached_stays s id : message_ok s -> id ∈ cached_ids -> stays so id.
Proof using Type. intros Hm Hc. split; [by apply (ms_apart s Hm) | by apply (ms_scheduled s Hm); right]. Qed.

(** The two loops over the message, after the removals. *)
Lemma messages_followed exact specs s v : is_last_rank c = true -> (forall id, (specs id).1 = []) -> runner_ok exact specs s v -> message_ok s ->
  exists s' v' holes adds, (s ← drop_finished so s; s ← drop_unscheduled so s;
      '(s, reqs_to_add) ← for_each add_new_request (scheduled_new_reqs so) (s, []);
      for_each (update_cached_request c so) (imap pair cached_ids) (s, reqs_to_add)) = Ok (s', adds) /\ followed s s' v' holes adds.
Proof.
  intros Hlast Hspecs Hro Hm. destruct (drop_requests_ok exact specs so s v Hro) as (s1 & holes & Hrun1 & Ho1 & Hn1 & Hreqs1 & Hok1 & Hix1 & Hbd1 & Hf1 & Hrv & Hview1).
  apply bind_Ok_inv in Hrun1 as (s0 & Hs0 & Hrun1). rewrite Hs0. cbn [mbind result_bind]. rewrite Hrun1. cbn [mbind result_bind].
  pose proof Hro as [Hok Hix Hbd Hst Hvoc Hpr]. destruct (removal_builder_ok _ _ Hbd Hrv) as [Hadd1 Hmov1].
  pose proof (rv_settings _ _ Hrv) as Hset1. pose proof (removal_layouts _ _ Hrv) as Hlay1. pose proof Hset1 as (_ & _ & Hmax1 & Hlen1 & Hvoc1 & _).
  assert (Hlive1 : forall id, live (input_batch s1) id <-> live (input_batch s) id /\ stays so id) by (intros id; by eapply stays_live).
  assert (Hst1 : store_ok (ib_vocab_size (input_batch s1)) (rn_requests s1) (rn_outputs s1) (rn_next s1)).
  { rewrite Hvoc1, Ho1, Hn1. eapply store_ok_sub; [exact Hst|]. intros id r. rewrite Hreqs1. by case_decide. }
  destruct (new_requests_ok (scheduled_new_reqs so) s1 []) as (s2 & Hrun2 & [N1 N2 N3 N4 N5 N6]).
  { destruct Hset1 as (-> & _). apply (bo_sampling _ _ _ _ _ Hok). }
  { exact Hst1. }
  { apply Hm. }
  { eapply Forall_impl; [exact (ms_new_ok s Hm)|]. intros d [Hd _]. by eapply new_ok_frame. }
  rewrite Hrun2. cbn [mbind result_bind app]. rewrite Hn1 in N4, N5, N6. rewrite Ho1 in N5.
  assert (Hold : forall id r, id ∈ cached_ids -> rn_requests s !! id = Some r -> rn_requests s2 !! id = Some r).
  { intros id r Hc Hr. destruct (ms_apart s Hm id Hc) as [Hnn Hnf]. by rewrite N3, Hreqs1, decide_False by done. }
  assert (Hout : forall id r, rn_requests s !! id = Some r -> outputs_at (rn_outputs s2) (crs_output r) = outputs_at (rn_outputs s) (crs_output r)).
  { intros id r Hr. unfold outputs_at. rewrite N5; [done|]. apply (so_known _ _ _ _ Hst id r Hr). }
  assert (Hok2 : batch_ok (rn_outputs s2) (rn_requests s2) specs (input_batch s2) v).
  { rewrite N1. eapply batch_ok_change; [exact Hok1|]. intros id r Hl Hr. apply Hlive1 in Hl as [Hl Hs]. destruct (stays_cached s id Hm Hl Hs) as [Hc _].
    rewrite Hreqs1 in Hr. case_decide; [done|]. split; [by apply Hold|]. split; [by eapply Hout | done]. }
  assert (Hfits : forall i rid r nc nb no, cached_ids !! i = Some rid -> rn_requests s !! rid = Some r ->
    cached_fits c so (input_batch s) (rn_outputs s) i rid r nc nb no -> cached_fits c so (input_batch s2) (rn_outputs s2) i rid r nc nb no).
  { intros i rid r nc nb no Hi Hr Hf. rewrite N1. eapply cached_fits_frame; [| exact Hlay1 | exact Hlen1 | by eapply Hout | exact Hf].
    rewrite Hlive1. pose proof (cached_stays s rid Hm (list_elem_of_lookup_2 _ _ _ Hi)). tauto. }
  destruct (cached_requests_ok c Hlast so (imap pair cached_ids) s2 new_ids specs v holes) as (s3 & v3 & specs3 & Hrun3 & [C1 C2 C3 C4 C5 C6] & Hok3 & Hspecs3).
  { exact Hok2. }
  { by rewrite N1. }
  { rewrite N1. exact N2. }
  { rewrite cached_pairs_snd. apply Hm. }
  { intros i rid Hin. apply cached_pairs in Hin. split; [|by intros _]. destruct (ms_cached_ok s Hm i rid Hin) as (r & nc & nb & no & Hr & _ & Hf).
    exists r, nc, nb, no. split; [apply Hold; [by eapply list_elem_of_lookup_2 | done] | by apply Hfits]. }
  rewrite Hrun3. rewrite cached_pairs_snd in *. do 4 eexists. split; [reflexivity|].
  pose proof (ip_settings _ _ C1) as Hset3. pose proof (ip_layouts _ _ C1) as Hlay3. rewrite N1 in C1, Hset3, Hlay3, C2.
  assert (Hlive3 : forall id, live (input_batch s3) id <-> live (input_batch s) id /\ stays so id) by (intros id; rewrite (in_place_live _ _ _ C1); apply Hlive1).
  assert (Hib : forall rid (in_batch : bool), rid ∈ cached_ids -> (in_batch = true <-> live (input_batch s) rid) -> (in_batch = true <-> live (input_batch s2) rid)).
  { intros rid ib Hc Hib. rewrite N1, Hlive1, Hib. pose proof (cached_stays s rid Hm Hc). tauto. }
  assert (Hself : forall i rid r nc nb no (in_batch : bool), cached_ids !! i = Some rid -> rn_requests s !! rid = Some r ->
    cached_fits c so (input_batch s) (rn_outputs s) i rid r nc nb no -> (in_batch = true <-> live (input_batch s) rid) ->
    exists a, rn_requests s3 !! rid = Some (told nc (bool_decide (rid ∈ crd_resumed_req_ids (scheduled_cached_reqs so))) nb r <| crs_output := a |>) /\
      outputs_at (rn_outputs s3) a = next_outputs c so in_batch no rid (outputs_at (rn_outputs s) (crs_output r)) /\
      ((a = crs_output r /\ outputs_at (rn_outputs s3) a = kept_outputs no (outputs_at (rn_outputs s) (crs_output r))) \/ (in_batch = false /\ rn_next s <= a))).
  { intros i rid r nc nb no ib Hi Hr Hf Hibb. pose proof (list_elem_of_lookup_2 _ _ _ Hi) as Hc.
    destruct (C4 i rid r nc nb no ib) as (a & Ha & Hoa & Hor); [by apply cached_pairs | by apply Hold | by apply Hfits | by apply Hib |].
    rewrite (Hout rid r Hr) in Hoa, Hor. exists a. split; [done|]. split; [done|]. destruct Hor as [?|[? ?]]; [by left | right; split; [done | lia]]. }
  assert (Hnew : forall d, d ∈ scheduled_new_reqs so -> exists r, rn_requests s3 !! nrd_req_id d = Some r /\ is_new d r /\ outputs_at (rn_outputs s3) (crs_output r) = [] /\
    rn_next s <= crs_output r /\ crs_num_prompt_tokens r <= ib_max_model_len (input_batch s)).
  { intros d Hd. destruct (N4 d Hd) as (r & Hr & Hnew & Hor & Hle & Hfit). exists r.
    assert (Hn : nrd_req_id d ∈ new_ids) by (apply list_elem_of_fmap; eauto).
    assert (Hnc : nrd_req_id d ∉ cached_ids) by (intros Hc; by destruct (ms_apart s Hm _ Hc)).
    rewrite C3 by done. split; [done|]. split; [done|]. split; [|by rewrite Hlen1 in Hfit]. rewrite <- Hor. unfold outputs_at. f_equal.
    apply C5; [apply (so_known _ _ _ _ N2 _ _ Hr)|]. intros x y Hx Hy. assert (Hne : x <> nrd_req_id d) by (intros ->; done). exact (so_alias _ _ _ _ N2 _ _ _ _ Hne Hy Hr). }
  assert (Hinfo : forall id, live (input_batch s3) id -> info_in (rn_requests s) id = info_in (rn_requests s3) id).
  { intros id Hl. apply Hlive3 in Hl as [Hl Hs]. destruct (stays_cached s id Hm Hl Hs) as [Hc _]. apply list_elem_of_lookup in Hc as [i Hi].
    destruct (ms_cached_ok s Hm i id Hi) as (r & nc & nb & no & Hr & _ & Hf).
    destruct (Hself i id r nc nb no true Hi Hr Hf ltac:(done)) as (a & Ha & _ & [[-> _]|[? _]]); [|done]. unfold info_in. by rewrite Hr, Ha. }
  split.
  - eapply batch_ok_change; [exact Hok3|]. intros id r Hl Hr. split; [done|]. split; [done|]. rewrite Hspecs3 by (by rewrite N1, <- (in_place_live _ _ _ C1)).
    apply Hlive3 in Hl as [Hl Hs]. destruct (stays_cached s id Hm Hl Hs) as [Hc _]. rewrite decide_True by done. unfold step_drafts.
    assert (dmem id (ib_req_id_to_index (input_batch s)) = true) as -> by (apply dmem_true; by apply (live_get _ []) in Hl). by rewrite bool_decide_eq_true_2.
  - eapply in_place_index; [exact C1 | done].
  - destruct C1 as [_ _ -> _ _ _]. done.
  - destruct C1 as [Hids _ Hbd3 _ Hset _]. split; rewrite ?Hids, ?Hbd3, ?Hadd1, ?Hmov1.
    + intros p id Hp. cbn. assert (Hl : live (input_batch s3) id) by (apply live_view; exists p; by rewrite Hids). split; [|by apply Hinfo].
      rewrite Hview1 in Hp. destruct (ids_view (ib_req_ids (input_batch s)) p) as [x|]; [|done]. by case_decide.
    + intros p Hp. destruct (ids_view (ib_req_ids (input_batch s)) p) as [x|] eqn:Hx; [left | by right]. apply (ix_holes _ _ Hix1).
      unfold ids_view in Hx, Hp. destruct (ib_req_ids (input_batch s) !! p) as [o|] eqn:Ho; [|done]. apply lookup_lt_Some in Ho. rewrite <- (rv_length _ _ Hrv) in Ho.
      apply lookup_lt_is_Some_2 in Ho as [[y|] Hy]; rewrite Hy in Hp; done.
    + by intros a ?%elem_of_nil.
    + done.
  - by rewrite <- Hvoc1.
  - exact Hlive3.
  - by eapply same_settings_trans.
  - by eapply same_layouts_trans.
  - destruct C1 as [_ _ _ -> _ _]. apply Hrv.
  - split.
    + intros d Hd. destruct (Hnew d Hd) as (r & ? & ? & ? & _). eauto.
    + intros i rid r nc nb no ib Hi Hr Hf Hibb. destruct (Hself i rid r nc nb no ib Hi Hr Hf Hibb) as (a & ? & ? & _). eauto.
    + intros id Hid. rewrite (ms_scheduled s Hm) in Hid. rewrite C3, N3 by tauto. apply Hreqs1.
  - rewrite Hn1 in *. lia.
  - f_equal. unfold returning. rewrite cached_pairs_snd, N1. by destruct C1 as [_ -> _ _ _ _].
  - intros id r Hid Hr. apply list_elem_of_fmap in Hid as (d & -> & Hd). destruct (Hnew d Hd) as (r' & Hr' & _ & _ & ? & _). rewrite Hr in Hr'. by injection Hr' as <-.
  - intros d r Hd Hr. destruct (Hnew d Hd) as (r' & Hr' & _ & _ & _ & ?). rewrite Hr in Hr'. by injection Hr' as <-.
  - intros i rid r r' no Hi Hr Hr' Hno. destruct (ms_cached_ok s Hm i rid Hi) as (r0 & nc & nb & no' & Hr0 & _ & Hf). rewrite Hr in Hr0. injection Hr0 as <-.
    pose proof (cf_outputs _ _ _ _ _ _ _ _ _ _ Hf) as Hno'. rewrite Hno in Hno'. injection Hno' as <-.
    set (ib := dmem rid (ib_req_id_to_index (input_batch s))).
    assert (Hibb : ib = true <-> live (input_batch s) rid) by (unfold ib; rewrite dmem_true; symmetry; by apply (live_get _ [])).
    destruct (Hself i rid r nc nb no ib Hi Hr Hf Hibb) as (a & Ha & _ & Hor). rewrite Hr' in Ha. injection Ha as ->. cbn.
    destruct Hor as [?|[He ?]]; [by left|]. right. split; [|done]. rewrite <- Hibb, He. done.
Qed.

(** The requests that wait can be added. *)
Lemma followed_waiting exact specs s s' v v' holes adds : runner_ok exact specs s v -> message_ok s -> followed s s' v' holes adds ->
  NoDup adds /\ Forall (waiting_ok (rn_outputs s') (rn_requests s') (step_drafts (input_batch s)) (input_batch s')) adds /\
  (forall id, id ∈ adds -> ~ live (input_batch s') id) /\ ib_num_reqs (input_batch s') + py_len adds <= ib_max_num_reqs (input_batch s') /\
  (forall id, live (input_batch s') id \/ id ∈ adds <-> id ∈ scheduled_ids so).
Proof.
  intros [Hok Hix Hbd Hst Hvoc Hpr] Hm [O1 O2 O3 O4 O5 O6 O7 O8 O9 O10 O11 O12 O13 O14 O15]. pose proof O7 as (_ & _ & Hmax & Hlen & Hv & _).
  set (idx := ib_req_id_to_index (input_batch s')) in *. set (ret := List.filter (fun rid => negb (dmem rid idx)) cached_ids) in *.
  assert (Hret : forall id, id ∈ ret <-> id ∈ cached_ids /\ ~ live (input_batch s') id).
  { intros id. unfold ret. rewrite list_elem_of_In, filter_In, <- list_elem_of_In, negb_true_iff, <- not_true_iff_false, dmem_true. by rewrite (live_get _ holes). }
  assert (Hnewlive : forall id, id ∈ new_ids -> ~ live (input_batch s') id).
  { intros id Hn Hl. apply O6 in Hl as [Hl Hs]. by destruct (stays_cached s id Hm Hl Hs). }
  assert (Hnd : NoDup adds).
  { rewrite O12. apply NoDup_app. split; [apply Hm|]. split; [|unfold ret; apply NoDup_ListNoDup, List.NoDup_filter, NoDup_ListNoDup, Hm].
    intros id Hn Hr. apply Hret in Hr as [Hc _]. by destruct (ms_apart s Hm id Hc). }
  split; [done|]. assert (Hnl : forall id, id ∈ adds -> ~ live (input_batch s') id).
  { intros id. rewrite O12, elem_of_app. intros [?|Hr]; [by apply Hnewlive | by apply Hret in Hr as [_ ?]]. }
  split.
  { apply Forall_forall. intros id Hid. pose proof (Hnl id Hid) as Hnlid. rewrite O12, elem_of_app in Hid. split.
    - assert (Hr : exists r, rn_requests s' !! id = Some r /\ tokens_fit (rn_outputs s') (ib_max_model_len (input_batch s)) r [] /\ Forall2 fits (ib_block_table (input_batch s)) (crs_block_ids r)).
      { destruct Hid as [Hn|Hr].
        - apply list_elem_of_fmap in Hn as (d & -> & Hd). destruct (fm_new _ _ O10 d Hd) as (r & Hr & Hnew & Ho). exists r. split; [done|].
          pose proof (ms_new_ok s Hm) as Hno. rewrite Forall_forall in Hno. destruct (Hno d Hd) as [[_ _ Hblk] _]. split; [|by rewrite (in_blocks _ _ Hnew)].
          unfold tokens_fit, crs_num_tokens, py_len. rewrite Ho. cbn. specialize (O14 d r Hd Hr). lia.
        - apply Hret in Hr as [Hc Hn]. apply list_elem_of_lookup in Hc as [i Hi]. destruct (ms_cached_ok s Hm i id Hi) as (r & nc & nb & no & Hr & _ & Hf).
          assert (Hnb : ~ live (input_batch s) id). { intros Hl. apply Hn, O6. split; [done|]. apply (cached_stays s id Hm). by eapply list_elem_of_lookup_2. }
          destruct (fm_cached _ _ O10 i id r nc nb no false Hi Hr Hf) as (a & Ha & Hoa); [by split|]. eexists. split; [exact Ha|].
          split; [|exact (cf_room _ _ _ _ _ _ _ _ _ _ Hf)]. pose proof (cf_tokens _ _ _ _ _ _ _ _ _ _ Hf false) as Ht. cbn in Ht.
          unfold tokens_fit, crs_num_tokens. cbn. rewrite Hoa. unfold py_len at 2. cbn. apply Ht. by split. }
      destruct Hr as (r & Hr & Hfit & Hblk). destruct (so_known _ _ _ _ O5 id r Hr) as [Kid Kreq (p & Kp & Kpok) _]. exists r, p. rewrite Hv, Hlen.
      split_and!; try done. by eapply fits_layouts.
    - unfold step_drafts. destruct (dmem id (ib_req_id_to_index (input_batch s)) && bool_decide (stays so id)) eqn:He; [|done]. exfalso.
      apply andb_true_iff in He as [Hd Hs]. apply Hnlid, O6. split; [apply (live_get _ [] id Hix); by apply dmem_true | by apply bool_decide_eq_true in Hs]. }
  split; [done|]. split.
  - assert (Hkeep : ib_num_reqs (input_batch s') + py_len ret <= py_len cached_ids).
    { assert (Hsub : dkeys idx ⊆+ List.filter (fun rid => dmem rid idx) cached_ids).
      { apply NoDup_submseteq; [apply O2|]. intros id Hid. apply list_elem_of_In, filter_In. rewrite <- list_elem_of_In, dmem_true. apply dget_is_Some in Hid. split; [|done].
        apply (live_get _ holes) in Hid; [|done]. apply O6 in Hid as [Hl Hs]. by apply (stays_cached s id Hm). }
      apply submseteq_length in Hsub. unfold dkeys in Hsub. rewrite length_fmap in Hsub. pose proof (filter_length (fun rid => dmem rid idx) cached_ids) as Hfl.
      unfold ib_num_reqs, py_len, ret. fold idx. lia. }
    rewrite O12, py_len_app, Hmax. pose proof (ms_room s Hm). lia.
  - intros id. rewrite O12, elem_of_app, (ms_scheduled s Hm). split.
    + intros [Hl|[?|Hr]]; [|by left|apply Hret in Hr as [? _]; by right]. apply O6 in Hl as [Hl Hs]. right. by apply (stays_cached s id Hm).
    + intros [?|Hc]; [right; by left|]. destruct (dmem id idx) eqn:Hd; [left; by apply (live_get _ holes), dmem_true|].
      right. right. apply Hret. split; [done|]. rewrite (live_get _ holes) by done. rewrite <- dmem_true. by rewrite not_true_iff_false.
Qed.

Lemma for_each_messages s s' adds : (s ← drop_finished so s; s ← drop_unscheduled so s;
    '(s, reqs_to_add) ← for_each add_new_request (scheduled_new_reqs so) (s, []);
    for_each (update_cached_request c so) (imap pair cached_ids) (s, reqs_to_add)) = Ok (s', adds) ->
  update_states c so s = (s ← for_each add_to_batch adds s'; s ← on_batch condense s; s ← on_batch (may_reorder_batch c so) s;
    on_batch (refresh_metadata (rn_outputs s)) s).
Proof using Type.
  intros Hrun. unfold update_states. apply bind_Ok_inv in Hrun as (s1 & E1 & Hrun). rewrite E1. cbn [mbind result_bind].
  apply bind_Ok_inv in Hrun as (s2 & E2 & Hrun). rewrite E2. cbn [mbind result_bind].
  apply bind_Ok_inv in Hrun as ([s3 a3] & E3 & Hrun). rewrite E3. cbn [mbind result_bind]. rewrite Hrun. done.
Qed.

(** The outputs of the batch's requests only grow when none are taken back. *)
Lemma outputs_kept_grow h0 s s' v' holes adds id : message_ok s -> followed s s' v' holes adds -> keeps_outputs s -> id ∈ scheduled_ids so ->
  (forall a, rn_next s <= a -> h0 !! a = None) -> (forall id r, rn_requests s !! id = Some r -> outputs_grow h0 (rn_outputs s) (crs_output r)) ->
  outputs_grow h0 (rn_outputs s') (info_in (rn_requests s') id).2.
Proof using Type.
  intros Hm Hfo Hkeep Hid Hfree Hgrow. assert (Hnone : forall a, rn_next s <= a -> outputs_grow h0 (rn_outputs s') a).
  { intros a Ha. unfold outputs_grow, outputs_at at 1. rewrite Hfree by done. unfold py_len. cbn. lia. }
  apply (ms_scheduled s Hm) in Hid as [Hn|Hc].
  - apply list_elem_of_fmap in Hn as (d & -> & Hd). destruct (fm_new _ _ (fo_message _ _ _ _ _ Hfo) d Hd) as (r & Hr & _). unfold info_in. rewrite Hr. cbn.
    apply Hnone. eapply (fo_fresh _ _ _ _ _ Hfo); [|exact Hr]. apply list_elem_of_fmap. eauto.
  - apply list_elem_of_lookup in Hc as [i Hi]. destruct (ms_cached_ok s Hm i id Hi) as (r & nc & nb & no & Hr & _ & Hf).
    set (ib := dmem id (ib_req_id_to_index (input_batch s))).
    assert (Hr' : exists r', rn_requests s' !! id = Some r').
    { destruct (decide (live (input_batch s) id)) as [Hl|Hl]; [destruct (fm_cached _ _ (fo_message _ _ _ _ _ Hfo) i id r nc nb no true Hi Hr Hf) as (a & Ha & _); [by split | eauto]|
        destruct (fm_cached _ _ (fo_message _ _ _ _ _ Hfo) i id r nc nb no false Hi Hr Hf) as (a & Ha & _); [by split | eauto]]. }
    destruct Hr' as [r' Hr']. unfold info_in. rewrite Hr'. cbn.
    pose proof (cf_outputs _ _ _ _ _ _ _ _ _ _ Hf) as Hno. destruct (fo_outputs _ _ _ _ _ Hfo i id r r' no Hi Hr Hr' Hno) as [[He Ho]|[_ Ha]]; [|by apply Hnone].
    pose proof (Hkeep i id r no Hi Hr Hno) as Hk. unfold outputs_grow. rewrite Ho, He. rewrite kept_outputs_take by (apply (cf_no _ _ _ _ _ _ _ _ _ _ Hf)).
    rewrite take_ge by (unfold py_len in Hk; lia). by apply (Hgrow id).
Qed.

Lemma followed_computed s s' v' holes adds id r : message_ok s -> followed s s' v' holes adds -> id ∈ scheduled_ids so -> rn_requests s' !! id = Some r ->
  0 <= crs_num_computed_tokens r.
Proof using Type.
  intros Hm Hfo Hid Hr. apply (ms_scheduled s Hm) in Hid as [Hn|Hc].
  - apply list_elem_of_fmap in Hn as (d & -> & Hd). destruct (fm_new _ _ (fo_message _ _ _ _ _ Hfo) d Hd) as (r' & Hr' & Hnew & _). rewrite Hr in Hr'. injection Hr' as <-.
    rewrite (in_computed _ _ Hnew). pose proof (ms_new_ok s Hm) as Hno. rewrite Forall_forall in Hno. by destruct (Hno d Hd).
  - apply list_elem_of_lookup in Hc as [i Hi]. destruct (ms_cached_ok s Hm i id Hi) as (r0 & nc & nb & no & Hr0 & Hnc & Hf).
    assert (Hex : exists a, rn_requests s' !! id = Some (told nc (bool_decide (id ∈ crd_resumed_req_ids (scheduled_cached_reqs so))) nb r0 <| crs_output := a |>)).
    { destruct (decide (live (input_batch s) id)) as [Hl|Hl]; [destruct (fm_cached _ _ (fo_message _ _ _ _ _ Hfo) i id r0 nc nb no true Hi Hr0 Hf) as (a & Ha & _); [by split | eauto]|
        destruct (fm_cached _ _ (fo_message _ _ _ _ _ Hfo) i id r0 nc nb no false Hi Hr0 Hf) as (a & Ha & _); [by split | eauto]]. }
    destruct Hex as [a Ha]. rewrite Hr in Ha. by injection Ha as ->.
Qed.
End Step.

Lemma on_batch_ok f s b b' : f b = Ok b' -> on_batch f (s <| input_batch := b |>) = Ok (s <| input_batch := b' |>).
Proof. intros Hf. unfold on_batch. change (input_batch (s <| input_batch := b |>)) with b. by rewrite Hf. Qed.

Lemma update_states_ok `{PoolingInfo} `{SetOrder} `{Pooler} c so exact specs s v :
  is_last_rank c = true -> threshold_ok c -> (forall id, (specs id).1 = []) -> runner_ok exact specs s v -> message_ok c so s ->
  (exact = true -> keeps_outputs so s) ->
  exists s' v', update_states c so s = Ok s' /\ runner_ok exact (step_drafts so (input_batch s)) s' v' /\
    (forall id, live (input_batch s') id <-> id ∈ scheduled_ids so) /\ follows_message c so s s' /\
    (forall t, reorders c = Some t -> StronglySorted Z.le (region_of (rn_requests s') t so <$> omap id (ib_req_ids (input_batch s')))).
Proof.
  intros Hlast Hthr Hspecs Hro Hm Hkeep.
  destruct (messages_followed c so exact specs s v Hlast Hspecs Hro Hm) as (s1 & v1 & holes & adds & Hrun1 & Hfo).
  rewrite (for_each_messages c so s s1 adds Hrun1). destruct (followed_waiting c so exact specs s s1 v v1 holes adds Hro Hm Hfo) as (Hnd & Hwait & Hnl & Hroom & Hall).
  pose proof Hro as [Hok Hix Hbd Hst Hvoc (h0 & Hfree & Hgrow & Hmir)]. pose proof (fo_settings _ _ _ _ _ _ _ Hfo) as (_ & _ & Hmax1 & _ & Hvoc1 & _).
  destruct (add_all_ok (rn_outputs s1) (rn_requests s1) (step_drafts so (input_batch s)) adds s1 v1 holes (ids_view (ib_req_ids (input_batch s))) (info_in (rn_requests s)))
    as (b2 & v2 & holes2 & Hrun2 & Hok2 & Hix2 & Hbd2 & Hlog2 & Hlive2 & Hset2 & Hlay2 & Hproc2); try done.
  { apply Hfo. }
  { apply Hfo. }
  { apply Hfo. }
  { apply Hfo. }
  { by rewrite Hvoc1. }
  rewrite Hrun2. cbn [mbind result_bind]. pose proof Hset2 as (_ & _ & Hmax2 & _ & Hvoc2 & _).
  assert (Hlive2' : forall id, live b2 id <-> id ∈ scheduled_ids so) by (intros id; rewrite Hlive2; apply Hall).
  destruct (condense_reorder_ok c (rn_outputs s1) (rn_requests s1) (step_drafts so (input_batch s)) so b2 v2 holes2 (ids_view (ib_req_ids (input_batch s))) (info_in (rn_requests s)) Hthr Hok2 Hix2 Hbd2 Hlog2)
    as (b3 & b4 & v4 & Hc3 & Hr4 & Hok4 & Hix4 & Hlive4 & Hset4 & Hlay4 & Hproc4 & Hlog4 & Hsort).
  { intros p Hp. unfold ids_view. rewrite lookup_ge_None_2; [done|]. pose proof (sh_max _ v (bo_shape _ _ _ _ _ Hok)) as Hmx. unfold py_len in Hmx. rewrite Hmax2, Hmax1 in Hp. lia. }
  { intros id Hl. apply Hlive2' in Hl. by apply dget_is_Some. }
  { intros id r Hl Hr. apply Hlive2' in Hl. by eapply (followed_computed c so s s1). }
  rewrite (on_batch_ok condense s1 b2 b3 Hc3). cbn [mbind result_bind]. rewrite (on_batch_ok (may_reorder_batch c so) s1 b3 b4 Hr4). cbn [mbind result_bind].
  assert (Hvis : forall p id, ids_view (ib_req_ids b4) p = Some id -> id ∈ scheduled_ids so).
  { intros p id Hp. apply Hlive2', Hlive4, live_view. eauto. }
  destruct (refresh_ok (rn_outputs s1) (rn_requests s1) (step_drafts so (input_batch s)) b4 v4 h0 exact (Z.to_nat (ib_max_num_reqs b2)) (info_in (rn_requests s)) (info_in (rn_requests s1)) (ids_view (ib_req_ids (input_batch s))) Hok4 Hix4 Hlog4)
    as (b5 & Hrun5 & Hok5 & Hix5 & Hbd5 & Hmir5 & Hids5 & Hset5 & _).
  { intros He p id Hp. eapply (outputs_kept_grow c so h0 s s1); eauto. }
  { rewrite Hproc4, Hproc2, (fo_procs _ _ _ _ _ _ _ Hfo), Hmax2, Hmax1. exact Hmir. }
  pose proof Hset4 as (_ & _ & Hmax4 & _ & Hvoc4 & _). pose proof Hset5 as (_ & _ & Hmax5 & _ & Hvoc5 & _).
  eexists _, v4. split; [exact (on_batch_ok (refresh_metadata (rn_outputs s1)) s1 b4 b5 Hrun5)|]. split; [|split; [|split]].
  - split; cbn; try done.
    + rewrite Hvoc5, Hvoc4, Hvoc2, Hvoc1. apply Hfo.
    + by rewrite Hvoc5, Hvoc4, Hvoc2, Hvoc1.
    + exists (rn_outputs s1). split; [apply (fo_store _ _ _ _ _ _ _ Hfo)|]. split; [intros _ id r _; unfold outputs_grow; lia|].
      by rewrite Hmax5, Hmax4.
  - intros id. cbn. rewrite <- Hlive2', <- Hlive4, !live_view. by rewrite Hids5.
  - destruct (fo_message _ _ _ _ _ _ _ Hfo). by split.
  - cbn. intros t Ht. rewrite Hids5. by apply Hsort.
Qed.

(** The drafts of the rows: a request that was in the batch and stays has those of the message; one that is added in this step
    has none, even if it is a running request that comes back and the message has drafts for it. *)
Lemma rows_have_drafts so exact specs (s s' : Runner) v' :
  runner_ok exact specs s' v' -> specs = step_drafts so (input_batch s) -> (forall id, live (input_batch s') id -> id ∈ scheduled_ids so) ->
  forall p id, ib_req_ids (input_batch s') !! p = Some (Some id) -> ib_spec_token_ids (input_batch s') !! p =
    Some (Some (if dmem id (ib_req_id_to_index (input_batch s)) && bool_decide (id ∉ so_finished_req_ids so) then drafts_for so id else [])).
Proof.
  intros [Hok _ _ _ _ _] -> Hlive p id Hp. destruct (bo_cells _ _ _ _ _ Hok p id Hp) as (r & _ & _ & _ & Hcell).
  rewrite (ce_spec _ _ _ _ _ _ Hcell). unfold step_drafts. assert (Hin : id ∈ scheduled_ids so) by (apply Hlive; by exists p).
  rewrite (bool_decide_ext (stays so id) (id ∉ so_finished_req_ids so)) by (unfold stays; tauto).
  by destruct (_ && _).
Qed.

(** C12: the worker mirrors the scheduler.  From a batch whose rows stand for its requests, and with a
    well-formed message, [update_states] does not fail; afterwards the batch is dense, holds exactly
    the scheduled requests, each in one row with its tokens, counters, blocks and sampling parameters (the mask of allowed
    tokens excepted, which the code does not keep with its request); a row has the message's draft tokens
    if its request was in the batch before and stays, and none if it was added in this step; the
    cached requests are as the message says; the logits processors' entries are those of the
    rows; and the rows are in the order of the regions when the backend asks for it. *)
Theorem worker_mirrors_scheduler `{PoolingInfo} `{SetOrder} `{Pooler} c so exact specs s v :
  is_last_rank c = true -> threshold_ok c -> (forall id, (specs id).1 = []) -> runner_ok exact specs s v -> message_ok c so s ->
  (exact = true -> keeps_outputs so s) ->
  exists s' v', update_states c so s = Ok s' /\ runner_ok exact (step_drafts so (input_batch s)) s' v' /\
    (forall id, live (input_batch s') id <-> id ∈ scheduled_ids so) /\ follows_message c so s s' /\
    (forall p id, ib_req_ids (input_batch s') !! p = Some (Some id) -> ib_spec_token_ids (input_batch s') !! p =
      Some (Some (if dmem id (ib_req_id_to_index (input_batch s)) && bool_decide (id ∉ so_finished_req_ids so) then drafts_for so id else []))) /\
    (forall t, reorders c = Some t -> StronglySorted Z.le (region_of (rn_requests s') t so <$> omap id (ib_req_ids (input_batch s')))).
Proof.
  intros Hlast Ht Hd Hs0 Hmsg Hk. destruct (update_states_ok c so exact specs s v Hlast Ht Hd Hs0 Hmsg Hk) as (s' & v' & Hr & Hok & Hl & Hm & Hs).
  exists s', v'. split; [done|]. split; [done|]. split; [done|]. split; [done|]. split; [|done].
  eapply rows_have_drafts; [exact Hok | done | by intros id Hid; apply Hl].
Qed.
