(* ===== verification/WorkerStart.v ===== *)
(** * The runner before the first step

    [InputBatch.__init__] and [MultiGroupBlockTable.__init__] make tables and rows that
    represent no request: the runner's invariant holds at the start. *)

From S2P Require Import Prelude PyDict PyList PyInt PyFloat Request Outputs Numpy BlockTable Sampling BatchUpdate InputBatch ReorderBatch InputBatchInv InputBatchOps ReorderProps ProcessorProps WorkerStates WorkerInv WorkerStep.
From stdpp Require Import sorting.
#[local] Open Scope Z_scope.

(** ** Empty tables *)

(** Sizes for which tables can be made. *)
Record sizes_ok (dcp : Z * Z) (block_size kernel_block_size interleave : Z) : Prop := {
  sz_kernel : 0 < kernel_block_size;
  sz_divides : (kernel_block_size | block_size);
  sz_block : 0 < block_size;
  sz_rank : 0 <= dcp.2 < dcp.1;
  sz_interleave : 0 < interleave;
  sz_inter_divides : (interleave | kernel_block_size);
}.

Lemma empty_table_holds t n : 0 <= max_num_blocks_per_req t -> bt_rows t = replicate n (zeros (max_num_blocks_per_req t)) ->
  num_blocks_per_row t = replicate n 0 -> holds t (replicate n []).
Proof.
  intros Hw Hr Hc. split_and!; [by rewrite Hr, !length_replicate | by rewrite Hc, !length_replicate|].
  intros r ids [-> Hlt]%lookup_replicate. exists (zeros (max_num_blocks_per_req t)), 0. rewrite Hr, Hc.
  split; [by apply lookup_replicate|]. split; [by apply lookup_replicate|].
  assert (Hm : map_to_kernel_blocks t [] = []) by (unfold map_to_kernel_blocks; by destruct (use_hybrid_blocks t)).
  unfold row_holds. rewrite Hm. split_and!; [|done..]. unfold py_len, zeros. rewrite length_replicate. lia.
Qed.

Lemma new_block_table_ok dcp size reqs blocks batched kernel inter : sizes_ok dcp size kernel inter -> 0 <= blocks -> 0 <= reqs ->
  exists t, new_block_table dcp size reqs blocks batched kernel inter = Ok t /\ settings_ok t /\ holds t (replicate (Z.to_nat reqs) []).
Proof.
  intros [Hk [q Hq] Hs Hr Hi Hd] Hb Hn. unfold new_block_table. destruct (Z.eqb_spec kernel size) as [->|Hne]; cbn [mbind result_bind].
  - eexists. split; [reflexivity|]. split; [split; cbn; lia || done|]. apply empty_table_holds; cbn; [lia | done..].
  - assert (Hmod : py_mod size kernel = Ok 0). { unfold py_mod. destruct (Z.eqb_spec kernel 0); [lia|]. f_equal. rewrite Hq. apply Z.mod_mul. lia. }
    assert (Hdiv : py_floordiv size kernel = Ok q). { unfold py_floordiv. destruct (Z.eqb_spec kernel 0); [lia|]. f_equal. rewrite Hq. apply Z.div_mul. lia. }
    rewrite Hmod. cbn [mbind result_bind]. rewrite Hdiv. cbn [mbind result_bind]. cbn. assert (0 < q) by nia.
    eexists. split; [reflexivity|]. split; [split; cbn; done || nia|]. apply empty_table_holds; cbn; [nia | done..].
Qed.

Lemma new_multi_group_ok dcp reqs len batched specs inter : forall sizes kernels, 0 < len -> 0 <= reqs ->
  Forall2 (fun s k => sizes_ok dcp s k inter) sizes kernels ->
  exists ts, new_multi_group dcp reqs len batched sizes kernels specs inter = Ok ts /\
    Forall2 (fun t w => settings_ok t /\ holds t w /\ py_len w = reqs) ts (replicate (length sizes) (replicate (Z.to_nat reqs) [])).
Proof.
  intros sizes kernels Hl Hn Hall. unfold new_multi_group. rewrite bool_decide_eq_true_2 by (symmetry; by eapply Forall2_length). cbn [negb].
  induction Hall as [|s k sizes kernels Hsk Hall IH]; [by exists []|]. cbn [zip_with]. destruct IH as (ts & Hts & Hok).
  pose proof Hsk as [_ _ Hs Hr _ _].
  assert (Hc : exists bl, cdiv len (s * dcp.1) = Ok bl /\ 0 <= bl).
  { unfold cdiv, py_floordiv. assert (Hx : 0 < s * dcp.1) by nia. set (x := s * dcp.1) in *. destruct (Z.eqb_spec (- x) 0); [lia|]. eexists. split; [reflexivity|].
    pose proof (Z.div_mod len (- x) ltac:(lia)). pose proof (Z.mod_neg_bound len (- x) ltac:(lia)). nia. }
  destruct Hc as (bl & Hc & Hbl). destruct (new_block_table_ok dcp s reqs (Z.max bl (1 + specs)) batched k inter Hsk ltac:(lia) Hn) as (t & Ht & Hso & Hh).
  exists (t :: ts). split.
  - apply mapM_cons_ok; [|done]. cbn. rewrite Hc. done.
  - cbn. constructor; [|done]. split_and!; [done..|]. unfold py_len. rewrite length_replicate. lia.
Qed.

(** ** The empty batch *)

(** Processors that were just made. *)
Definition fresh_processor (n : nat) (p : LogitsProcessor) : Prop :=
  match p with
  | LPMinP _ m => exists junk, m = new_min_p (Z.of_nat n) junk
  | LPLogitBias l => l = new_logit_bias
  | LPMinTokens m => m = new_min_tokens
  end.

Lemma nonzeros_replicate n : nonzeros (replicate n fzero) = 0.
Proof. induction n as [|n IH]; [done|]. cbn [replicate]. by rewrite nonzeros_cons, IH. Qed.

Lemma fresh_processor_mirrors exact n h info p : fresh_processor n p -> processor_mirrors exact n h info (fun _ => None) p.
Proof.
  assert (Hnil : forall T (Q : string -> option T -> Prop), mirror_of Q [] (fun _ => None) []).
  { intros T Q. split; [by apply NoDup_nil|]. split; [by intros z [x [=]]|]. intros q. by right. }
  destruct p as [d m|l|m]; cbn.
  - intros [junk ->]. split; [cbn; rewrite length_replicate; lia|]. split; [cbn; rewrite Nat2Z.id, nonzeros_replicate; done|].
    intros p x Hx. cbn in Hx. apply lookup_replicate in Hx as [-> _]. right. reflexivity.
  - intros ->. split; [apply Hnil | reflexivity].
  - intros -> _. split; [apply Hnil | reflexivity].
Qed.

Lemma slice_to_0 {A} (l : list A) : slice_to 0 l = [].
Proof. unfold slice_to, slice_pos. cbn. by rewrite Z.min_l by lia. Qed.

Section Start.
Context `{PoolingInfo}.

(** A batch without requests. *)
Record blank (reqs len : Z) (b : InputBatch) : Prop := {
  bl_reqs : ib_max_num_reqs b = reqs;
  bl_len : ib_max_model_len b = len;
  bl_pooling : is_pooling_model b = false;
  bl_ids : ib_req_ids b = [];
  bl_index : ib_req_id_to_index b = [];
  bl_rows : py_len (rows b) = reqs /\ Forall (row_size len) (rows b);
  bl_lists : req_output_token_ids b = [] /\ ib_spec_token_ids b = [];
  bl_sets : Forall (fun sc => sc.1 = ∅) (param_sets b);
  bl_dicts : generators b = ∅ /\ ib_bad_words_token_ids b = ∅;
  bl_mask : allowed_token_ids_mask b = None;
  bl_builder : batch_update_builder b = new_builder;
}.

Lemma blank_ok reqs len b v h reqs' specs : blank reqs len b -> 0 <= reqs -> 0 <= len ->
  Forall2 (fun t w => settings_ok t /\ holds t w /\ py_len w = reqs) (ib_block_table b) v ->
  batch_ok h reqs' specs b v /\ index_ok b [] /\ fresh_builder (batch_update_builder b).
Proof using Type.
  intros [B1 B2 B3 B4 B5 [B6 B7] [B8 B9] B10 [B11 B12] B13 B14] Hn Hl Htab. split; [|split].
  - split; [|intros i id Hi; by rewrite B4 in Hi | | | intros p id row Hp; by rewrite B4 in Hp | done].
    + split; rewrite ?B1, ?B2, ?B4, ?B8, ?B9, ?B13; try done.
      intros Hne. exfalso. apply Hne. unfold param_sets in B10. do 8 apply Forall_cons_1 in B10 as [_ B10]. by apply Forall_cons_1 in B10 as [B10 _].
    + eapply Forall_impl; [exact B10|]. intros sc Hsc id. rewrite Hsc. split; [by intros ?%elem_of_empty | intros [[i Hi] _]; by rewrite B4 in Hi].
    + intros i. rewrite B11, B12. intros [[x Hx]|[x Hx]]; by rewrite lookup_empty in Hx.
  - split; rewrite ?B4, ?B5; [by apply NoDup_nil | |].
    + intros id i. split; [done | by intros (p & _ & Hp)].
    + intros p. split; [done | by intros ?%elem_of_nil].
  - rewrite B14. by repeat split.
Qed.

Lemma blank_metadata reqs len b : blank reqs len b ->
  exists d m, set_metadata b = Ok (b <| device := d |> <| sampling_metadata := m |>).
Proof using Type.
  intros Hb. pose proof Hb as [_ _ _ B4 B5 _ _ B10 _ _ _]. unfold param_sets in B10.
  do 5 apply Forall_cons_1 in B10 as [_ B10]. apply Forall_cons_1 in B10 as [Bf B10]. apply Forall_cons_1 in B10 as [Bp B10].
  apply Forall_cons_1 in B10 as [Br B10]. apply Forall_cons_1 in B10 as [Ba _]. cbn [fst] in *.
  assert (Hnp : no_penalties b = true) by (unfold no_penalties; by rewrite !bool_decide_eq_true_2).
  assert (Hna : no_allowed_token_ids b = true) by (unfold no_allowed_token_ids; by rewrite bool_decide_eq_true_2).
  unfold set_metadata, make_sampling_metadata. rewrite Hnp, Hna. change (ib_num_reqs b) with (py_len (ib_req_id_to_index b)). rewrite B5.
  change (py_len []) with 0. rewrite slice_to_0. cbn [existsb negb orb mbind result_bind]. do 2 eexists. reflexivity.
Qed.

Lemma blank_metadata_kept reqs len b d m : blank reqs len b -> blank reqs len (b <| device := d |> <| sampling_metadata := m |>).
Proof using Type. intros []. by split. Qed.

Lemma new_input_batch_ok reqs len vocab table procs need spec junk dev : 0 <= reqs -> 0 <= len ->
  Forall2 (fun t w => settings_ok t /\ holds t w /\ py_len w = reqs) table (replicate (length table) (replicate (Z.to_nat reqs) [])) ->
  Forall (fresh_processor (Z.to_nat reqs)) procs ->
  exists b, new_input_batch reqs len vocab table procs need spec false junk dev = Ok b /\ blank reqs len b /\
    ib_vocab_size b = vocab /\ ib_block_table b = table /\ logitsprocs b = all_processors procs.
Proof using Type.
  intros Hn Hl Htab Hprocs. unfold new_input_batch. set (b0 := mkInputBatch _ _ _ _ _ _ _ _ _ _ _ _ _ _ _ _ _ _ _ _ _ _ _ _ _ _ _ _ _ _ _ _ _ _ _ _ _).
  assert (Hb0 : blank reqs len b0).
  { split; try done.
    - cbn. split; [unfold py_len; rewrite length_replicate; lia|]. apply Forall_replicate. split; cbn; unfold py_len, zeros; rewrite length_replicate; lia.
    - repeat constructor. }
  destruct (blank_metadata reqs len b0 Hb0) as (d & m & Hm). rewrite Hm. eexists. split; [reflexivity|]. split; [by apply blank_metadata_kept | done].
Qed.

(** The runner with an empty batch. *)
Definition new_runner (b : InputBatch) : Runner := mkRunner ∅ ∅ 0 ∅ b.

Lemma new_runner_ok exact specs reqs len vocab table procs need spec junk dev : 0 <= reqs -> 0 <= len -> 0 <= vocab ->
  Forall2 (fun t w => settings_ok t /\ holds t w /\ py_len w = reqs) table (replicate (length table) (replicate (Z.to_nat reqs) [])) ->
  Forall (fresh_processor (Z.to_nat reqs)) procs ->
  exists b, new_input_batch reqs len vocab table procs need spec false junk dev = Ok b /\
    runner_ok exact specs (new_runner b) (replicate (length table) (replicate (Z.to_nat reqs) [])) /\ ib_req_ids b = [].
Proof using Type.
  intros Hn Hl Hv Htab Hprocs. destruct (new_input_batch_ok reqs len vocab table procs need spec junk dev Hn Hl Htab Hprocs) as (b & Hb & Hbl & Hvoc & Htb & Hlp).
  exists b. split; [done|]. pose proof (bl_ids _ _ _ Hbl) as Hids. split; [|done]. rewrite <- Htb in *.
  destruct (blank_ok reqs len b _ ∅ ∅ specs Hbl Hn Hl Htab) as (Hok & Hix & Hbd). split; cbn; try done.
  - by rewrite Hvoc.
  - exists ∅. split; [done|]. split; [intros _ id r Hr; by rewrite lookup_empty in Hr|]. rewrite Hids, Hlp, (bl_reqs _ _ _ Hbl).
    apply Forall_forall. intros p Hp. unfold all_processors in Hp. rewrite elem_of_app, !list_elem_of_In, !filter_In, <- !list_elem_of_In in Hp.
    rewrite Forall_forall in Hprocs. apply (fresh_processor_mirrors exact (Z.to_nat reqs) ∅ (info_in ∅) p). by destruct Hp as [[Hp _]|[Hp _]]; apply Hprocs.
Qed.
End Start.

(** ** The batch on its own *)

Section BatchClaims.
Context (h : OutputStore) (reqs : Requests) (specs : string -> Drafts).

(** C24: condensing closes the holes.  [condense] on a batch whose rows represent its requests does not
    fail and gives a batch without holes whose rows represent the same requests; the moves it
    records are exactly how the rows changed, so the logits processors can follow. *)
Theorem condense_closes_holes b v holes :
  batch_ok h reqs specs b v -> index_ok b holes -> builder_ok (batch_update_builder b) holes ->
  exists b' v' ms, condense b = Ok b' /\ batch_ok h reqs specs b' v' /\ index_ok b' [] /\
    py_len (ib_req_ids b') = ib_num_reqs b /\ (forall id, live b' id <-> live b id) /\
    moved (batch_update_builder b') = moved (batch_update_builder b) ++ ms /\
    replays ms (ids_view (ib_req_ids b)) (ids_view (ib_req_ids b')).
Proof.
  intros Hok Hix Hbd. destruct (condense_ok h reqs specs b v holes Hok Hix Hbd) as (b' & v' & ms & rest & Hc & Hok' & Hix' & _ & Hrp & _ & _ & _ & Hm & _).
  exists b', v', ms. split; [done|]. split; [done|]. split; [done|].
  assert (Hlive : forall id, live b' id <-> live b id).
  { intros x. rewrite !live_view. split; intros [p Hp]; [by eapply replays_source | by eapply replays_target]. }
  split; [|done]. apply Z.eq_trans with (ib_num_reqs b').
  - unfold ib_num_reqs, py_len. rewrite (index_size b' []) by done. pose proof (holes_count (ib_req_ids b') [] ltac:(by apply NoDup_nil) (ix_holes b' [] Hix')). cbn in *. lia.
  - unfold ib_num_reqs, py_len. f_equal. rewrite <- !(length_fmap fst). apply Permutation_length, NoDup_Permutation; [apply Hix' | apply Hix|].
    intros x. change (x ∈ dkeys (ib_req_id_to_index b') <-> x ∈ dkeys (ib_req_id_to_index b)). rewrite <- !dget_is_Some.
    rewrite <- (live_get b' []), <- (live_get b holes) by done. apply Hlive.
Qed.

(** C25: decodes first.  Reordering a dense batch does not fail; it only permutes the rows, which still
    represent their requests, and afterwards requests with at most the threshold of
    scheduled tokens come first, then those with a computed context, then fresh prompts;
    the exchanges recorded are exactly how the rows changed. *)
Theorem decodes_come_first so threshold b v : batch_ok h reqs specs b v -> index_ok b [] ->
  (forall id, live b id -> is_Some (dget id (num_scheduled_tokens so))) ->
  (forall id r, live b id -> reqs !! id = Some r -> 0 <= crs_num_computed_tokens r) ->
  exists changed b' v' ms, reorder_batch_to_split_decodes_and_prefills threshold so b = Ok (changed, b') /\
    batch_ok h reqs specs b' v' /\ index_ok b' [] /\ ib_req_ids b' ≡ₚ ib_req_ids b /\
    StronglySorted Z.le (region_of reqs threshold so <$> omap id (ib_req_ids b')) /\
    moved (batch_update_builder b') = moved (batch_update_builder b) ++ ms /\
    replays ms (ids_view (ib_req_ids b)) (ids_view (ib_req_ids b')).
Proof.
  intros Hok Hix Hsched Hcomp. destruct (reorder_ok h reqs specs so threshold b v Hok Hix Hsched Hcomp) as (c & b' & Hr & Hex & Hs).
  destruct Hex as ((v' & Hok') & Hix' & Hids & _ & _ & _ & ms & Hrp & _ & Hbd). exists c, b', v', ms.
  split_and!; try done. by rewrite Hbd.
Qed.
End BatchClaims.

(** C26: logits processors follow the batch.  Given the update that logs how the rows changed (removals,
    additions, moves and exchanges) and outputs that only grow, every built-in processor's
    update succeeds, and afterwards what it keeps for a row is what belongs to the request in that
    row: its logit bias, its stop tokens while it is below its minimum length, its
    minimum probability; free rows have nothing. *)
Theorem processors_follow_batch exact n h h' info0 info f0 f2 u ps : step_logged n info0 info f0 f2 u ->
  (exact = true -> forall p id, f2 p = Some id -> outputs_grow h h' (info id).2) ->
  Forall (processor_mirrors exact n h info0 f0) ps ->
  exists ps', mapM (update_state h' u) ps = Ok ps' /\ Forall (processor_mirrors exact n h' info f2) ps'.
Proof. apply update_states_track. Qed.

(** ** Two steps of a prompt computed in chunks *)

#[local] Instance no_pooling : PoolingInfo := fun _ => false.
#[local] Instance no_pooler : Pooler := {| pooling_task := fun _ => None; apply_pooling_updates := fun _ o => o |}.
#[local] Instance by_elements : SetOrder := {| set_order := elements; set_order_perm := fun s => Permutation_refl (elements s) |}.

Definition start_config : RunnerConfig := mkRunnerConfig true false (Some 1) 1 1 None.

Definition start_table : MultiGroupBlockTable :=
  match new_multi_group (1, 0) 3 8 8 [4] [2] 0 1 with Ok ts => ts | Raise _ => [] end.

Definition no_device : DeviceColumns := mkDeviceColumns [] [] [] [] [] [] None.

Definition start_processors : list LogitsProcessor :=
  [LPMinTokens new_min_tokens; LPLogitBias new_logit_bias; LPMinP false (new_min_p 3 [])].

Definition start_params : SamplingParams := sample_params <| temperature := Some (float_of_Z 1) |> <| min_p := fdiv (float_of_Z 1) (float_of_Z 2) |>.

Definition chunk_request (id : string) (prompt : list Z) (block : Z) : NewRequestData :=
  mkNewRequestData id (Some prompt) [] (Some start_params) None [[block]] 0 None None.

(** A message without drafts, encoders and connectors. *)
Definition plain_output (new : list NewRequestData) (cached : CachedRequestData) (counts : dict string Z) (finished : gset string) : SchedulerOutput :=
  mkSchedulerOutput new cached counts 0 [] [] [] finished [] false None None.

Definition chunk_step_1 : SchedulerOutput :=
  plain_output [chunk_request "a" [11; 12; 13; 14; 15] 3; chunk_request "b" [21; 22] 5] make_empty [("a", 5); ("b", 1)] ∅.

Definition chunk_step_2 : SchedulerOutput :=
  plain_output [chunk_request "c" [31; 32; 33] 7]
    (mkCachedRequestData ["b"] ∅ [] [] [Some [[6]]] [1] [0]) [("b", 1); ("c", 3)] {["a"]}.

Definition start_runner : Runner :=
  match new_input_batch 3 8 100 start_table start_processors true false false fzero no_device with
  | Ok b => new_runner b
  | Raise _ => mkRunner ∅ ∅ 0 ∅ (mkInputBatch false false 0 0 0 false [] [] [] ∅ [] ∅ ∅ ∅ ∅ ∅ ∅ ∅ ∅ ∅ ∅ ∅ ∅ ∅ ∅ new_builder ∅ None ∅ [] [] [] no_device None ∅ None None)
  end.

Definition run_step (so : SchedulerOutput) (s : Runner) : Runner := match update_states start_config so s with Ok s => s | Raise _ => s end.

Definition no_drafts (id : string) : Drafts := ([], []).

Lemma start_table_ok : Forall2 (fun t w => settings_ok t /\ holds t w /\ py_len w = 3) start_table (replicate 1 (replicate 3 [])).
Proof.
  destruct (new_multi_group_ok (1, 0) 3 8 8 0 1 [4] [2]) as (ts & Hts & Hok); [done | done | |].
  - constructor; [|constructor]. split; try done; [by exists 2 | by exists 2].
  - unfold start_table. by rewrite Hts.
Qed.

Lemma start_runner_ok : exists v, runner_ok true no_drafts start_runner v.
Proof.
  destruct (new_runner_ok true no_drafts 3 8 100 start_table start_processors true false fzero no_device) as (b & Hb & Hok & _); try done.
  - exact start_table_ok.
  - repeat constructor. by exists [].
  - eexists. unfold start_runner. rewrite Hb. exact Hok.
Qed.

Lemma start_live id : ~ live (input_batch start_runner) id.
Proof. intros [i Hi]. by vm_compute in Hi. Qed.

Lemma start_params_ok v : params_ok v start_params.
Proof. by split. Qed.

(** What the samples need of the batch's sizes. *)
Definition sample_sizes (b : InputBatch) : Prop :=
  ib_max_model_len b = 8 /\ exists t, ib_block_table b = [t] /\ max_num_blocks_per_req t = 4 /\ blocks_per_kv_block t = 2.

Lemma sample_new_ok b id prompt block : sample_sizes b -> py_len prompt <= 8 -> new_ok b (chunk_request id prompt block).
Proof.
  intros (Hl & t & Ht & Hw & Hb) Hp. split; cbn.
  - exists start_params. split; [done | apply start_params_ok].
  - exists (py_len prompt). split; [done | by rewrite Hl].
  - rewrite Ht. repeat constructor. unfold fits. rewrite Hw, Hb. done.
Qed.

Lemma chunk_message_1 : message_ok start_config chunk_step_1 start_runner.
Proof.
  split.
  - apply (bool_decide_unpack _). reflexivity.
  - apply NoDup_nil. done.
  - intros id. cbn. rewrite elem_of_nil. tauto.
  - by intros id ?%elem_of_nil.
  - intros id _ Hl. by apply start_live in Hl.
  - repeat constructor; try done; apply sample_new_ok; try done; (split; [reflexivity|]); eexists; (split; [vm_compute; reflexivity | done]).
  - by intros i rid [=].
  - done.
Qed.

Definition middle_runner : Runner := Eval vm_compute in run_step chunk_step_1 start_runner.

Lemma chunk_message_2 : message_ok start_config chunk_step_2 middle_runner.
Proof.
  split.
  - apply (bool_decide_unpack _). reflexivity.
  - apply (bool_decide_unpack _). reflexivity.
  - intros id. change (id ∈ ["b"; "c"]%string <-> id ∈ ["c"]%string \/ id ∈ ["b"]%string). rewrite !elem_of_cons, elem_of_nil. tauto.
  - intros id ->%list_elem_of_singleton. split; apply (bool_decide_unpack _); reflexivity.
  - intros id ->%list_elem_of_singleton [[|[|p]] Hp]; vm_compute in Hp; done.
  - repeat constructor; try done; apply sample_new_ok; try done; (split; [reflexivity|]); eexists; (split; [vm_compute; reflexivity | done]).
  - intros [|[|i]] rid; [intros [= <-] | intros [=]..]. do 4 eexists. split; [vm_compute; reflexivity|]. split; [|split; try reflexivity].
    + done.
    + intros Hr. vm_compute in Hr. done.
    + intros _ new [= <-]. reflexivity.
    + repeat constructor. vm_compute. discriminate.
    + done.
    + intros ib _. destruct ib; vm_compute; discriminate.
  - done.
Qed.

Lemma start_threshold : threshold_ok start_config.
Proof. intros t _ Hd. cbn in Hd. lia. Qed.

Lemma no_drafts_none id : (no_drafts id).1 = [].
Proof. reflexivity. Qed.

Lemma first_drafts_none id : (step_drafts chunk_step_1 (input_batch start_runner) id).1 = [].
Proof. reflexivity. Qed.

Lemma chunk_keeps : true = true -> keeps_outputs chunk_step_2 middle_runner.
Proof.
  intros _ i rid r no Hi Hr Hno. destruct i as [|i]; [|done]. injection Hi as <-. injection Hno as <-. vm_compute in Hr. injection Hr as <-. vm_compute. discriminate.
Qed.

Lemma Ok_inj {A} (x y : A) : Ok x = Ok y -> x = y.
Proof. by intros [= ->]. Qed.

Lemma middle_runner_ok : exists v, update_states start_config chunk_step_1 start_runner = Ok middle_runner /\
  runner_ok true (step_drafts chunk_step_1 (input_batch start_runner)) middle_runner v.
Proof.
  destruct start_runner_ok as [v0 Hok0].
  destruct (update_states_ok start_config chunk_step_1 true no_drafts start_runner v0 eq_refl start_threshold no_drafts_none Hok0 chunk_message_1) as (s1 & v1 & Hrun1 & Hok1 & _).
  { intros _ i rid r no [=]. }
  assert (Hs1 : s1 = middle_runner) by (apply Ok_inj; rewrite <- Hrun1; vm_compute; reflexivity). subst s1. eauto.
Qed.

(** The first step puts the one token of ["b"] before the prompt of ["a"]; in the second
    ["a"] has finished, and ["c"] takes its row. *)
Lemma worker_mirrors_scheduler_witness :
  exists s1 s2 v2, update_states start_config chunk_step_1 start_runner = Ok s1 /\ update_states start_config chunk_step_2 s1 = Ok s2 /\
    ib_req_ids (input_batch s1) = [Some "b"; Some "a"]%string /\ ib_req_ids (input_batch s2) = [Some "b"; Some "c"]%string /\
    runner_ok true (step_drafts chunk_step_2 (input_batch s1)) s2 v2.
Proof.
  destruct middle_runner_ok as (v1 & Hrun1 & Hok1).
  destruct (worker_mirrors_scheduler start_config chunk_step_2 true (step_drafts chunk_step_1 (input_batch start_runner)) middle_runner v1
    eq_refl start_threshold first_drafts_none Hok1 chunk_message_2 chunk_keeps) as (s2 & v2 & Hrun2 & Hok2 & _).
  exists middle_runner, s2, v2. split; [exact Hrun1|]. split; [exact Hrun2|]. split; [reflexivity|]. split; [|exact Hok2].
  apply Ok_inj. change ((fun s => Ok (ib_req_ids (input_batch s))) s2 = Ok [Some "b"; Some "c"]%string).
  transitivity (s ← update_states start_config chunk_step_2 middle_runner; Ok (ib_req_ids (input_batch s))); [by rewrite Hrun2 | vm_compute; reflexivity].
Defined.

(** ["b"] leaves row 0 and ["a"] moves there. *)
Definition batch_with_hole : InputBatch := Eval vm_compute in
  match remove_request "b" (input_batch middle_runner) with Ok (_, b) => b | Raise _ => input_batch middle_runner end.

Definition batch_condensed : InputBatch := Eval vm_compute in
  match condense batch_with_hole with Ok b => b | Raise _ => batch_with_hole end.

Lemma condense_closes_holes_witness :
  ib_req_ids batch_with_hole = [None; Some "a"]%string /\
  exists b', condense batch_with_hole = Ok b' /\ ib_req_ids b' = [Some "a"]%string /\ moved (batch_update_builder b') = [(1, 0, UNIDIRECTIONAL)].
Proof.
  split; [reflexivity|]. destruct middle_runner_ok as (v & _ & [Hok Hix Hbd _ _ _]).
  destruct (remove_request_ok _ _ _ _ v [] "b" 0 Hok Hix (fresh_builder_ok _ Hbd) eq_refl eq_refl) as (b1 & Hb1 & Hok1 & Hix1 & Hbd1 & _).
  assert (Heq1 : Ok (Some 0, b1) = Ok (Some 0, batch_with_hole)) by (etransitivity; [symmetry; exact Hb1 | vm_compute; reflexivity]).
  injection Heq1 as ->.
  destruct (condense_closes_holes _ _ _ batch_with_hole v [0%nat] Hok1 Hix1 Hbd1) as (b' & v' & ms & Hc & _).
  assert (b' = batch_condensed) as -> by (apply Ok_inj; rewrite <- Hc; vm_compute; reflexivity).
  exists batch_condensed. split; [exact Hc|]. split; reflexivity.
Defined.

(** Now ["b"] has five tokens to compute. *)
Definition swapped_output : SchedulerOutput := plain_output [] make_empty [("a", 1); ("b", 5)] ∅.

Definition swapped_batch : InputBatch := Eval vm_compute in
  match reorder_batch_to_split_decodes_and_prefills 1 swapped_output (input_batch middle_runner) with Ok (_, b) => b | Raise _ => input_batch middle_runner end.

Lemma decodes_come_first_witness :
  exists b', reorder_batch_to_split_decodes_and_prefills 1 swapped_output (input_batch middle_runner) = Ok (true, b') /\
    ib_req_ids b' = [Some "a"; Some "b"]%string /\ moved (batch_update_builder b') = [(1, 0, SWAP)].
Proof.
  destruct middle_runner_ok as (v & _ & [Hok Hix Hbd _ _ _]).
  destruct (decodes_come_first _ _ _ swapped_output 1 _ v Hok Hix) as (ch & b' & v' & ms & Hr & _).
  - intros id [[|[|p]] Hp]; [injection Hp as <- | injection Hp as <- | done]; eauto.
  - intros id r [[|[|p]] Hp] Hreq; [injection Hp as <- | injection Hp as <- | done]; vm_compute in Hreq; injection Hreq as <-; done.
  - assert (Heq : Ok (ch, b') = Ok (true, swapped_batch)) by (rewrite <- Hr; vm_compute; reflexivity).
    injection Heq as -> ->. exists swapped_batch. split; [exact Hr|]. split; reflexivity.
Defined.

(** Two requests are added and exchanged. *)
Definition biased_params : SamplingParams := start_params <| logit_bias := Some [(5, float_of_Z 2)] |>.

Definition pair_info (id : string) : AddedInfo := if bool_decide (id = "a"%string) then (start_params, None, 0) else (biased_params, None, 1).

Definition exchanged_update : BatchUpdate :=
  mkBatchUpdate 2 [] [mkAddedRequest 0 start_params None 0; mkAddedRequest 1 biased_params None 1] [(0, 1, SWAP)].

Definition rows_of (l : list string) (p : nat) : option string := l !! p.

Lemma exchanged_logged : step_logged 3 pair_info pair_info (rows_of []) (rows_of ["b"; "a"]%string) (Some exchanged_update).
Proof.
  exists (rows_of ["a"; "b"]%string). split.
  - intros [|[|p]] id; [intros [= <-]; reflexivity.. | done].
  - intros [|[|p]] Hp; [done | done|]. right. split; [done|]. unfold last_added. cbn [bu_added exchanged_update foldl ar_index].
    destruct (Z.eqb_spec 0 (Z.of_nat (S (S p)))), (Z.eqb_spec 1 (Z.of_nat (S (S p)))); done || lia.
  - by intros z ?%elem_of_nil.
  - eapply (replays_swap 0 1); [done | reflexivity | reflexivity|]. constructor. intros [|[|p]]; done.
  - intros p Hp. split; [done|]. apply lookup_ge_None_2. cbn. lia.
  - intros a. cbn. rewrite !elem_of_cons, elem_of_nil. intros [->|[->|[]]]; [exists 0%nat | exists 1%nat]; split; done || lia.
Qed.

Definition processors_after : list LogitsProcessor := Eval vm_compute in
  match mapM (update_state {[0 := []; 1 := [9]]} (Some exchanged_update)) start_processors with Ok l => l | Raise _ => [] end.

Lemma processors_follow_batch_witness : exists ps,
  mapM (update_state {[0 := []; 1 := [9]]} (Some exchanged_update)) start_processors = Ok ps /\
  Forall (processor_mirrors true 3 {[0 := []; 1 := [9]]} pair_info (rows_of ["b"; "a"]%string)) ps /\
  exists mt lb mp, ps = [LPMinTokens mt; LPLogitBias lb; LPMinP false mp] /\ mt_logits_slice mt = ([1], [7]) /\ lb_logits_slice lb = ([0], [5]).
Proof.
  destruct (processors_follow_batch true 3 ∅ {[0 := []; 1 := [9]]} pair_info pair_info (rows_of []) (rows_of ["b"; "a"]%string) (Some exchanged_update) start_processors)
    as (ps & Hps & Hm).
  - exact exchanged_logged.
  - intros _ p id _. unfold outputs_grow, outputs_at. rewrite lookup_empty. unfold py_len. cbn. lia.
  - apply (Forall_impl (fresh_processor 3)); [|intros p Hp; by apply (fresh_processor_mirrors true 3)].
    repeat apply Forall_cons_2; [done | done | by exists [] | by apply Forall_nil_2].
  - exists ps. split; [exact Hps|]. split; [exact Hm|].
    assert (ps = processors_after) as -> by (apply Ok_inj; rewrite <- Hps; vm_compute; reflexivity).
    do 3 eexists. split; [reflexivity|]. split; reflexivity.
Defined.
