(* ===== verification/ModelInputs.v ===== *)
(** * The inputs of the model

    [_prepare_inputs] of [vllm/v1/worker/gpu_model_runner.py] with
    [_get_cumsum_and_arange], [_prepare_input_ids] and [_calc_spec_decode_metadata]: the
    batch's scheduled tokens, flattened row after row, their positions and KV-cache
    slots, the bounds of the rows, the requests whose sample is thrown away, and
    where the logits are read.  Hidden states are rows of embeddings, opaque here.
    Multi-modal rotary positions, micro-batches and the exchange between data-parallel
    ranks are left out: their results are only handed on.  The second half says what each
    stage writes: one segment per row, with positions and slots, bounds and discards. *)

From S2P Require Import Prelude PyDict PyList PyInt PyFloat Request Outputs Numpy BlockTable Sampling BatchUpdate InputBatch ReorderBatch InputBatchInv InputBatchOps ReorderProps WorkerStates.
#[local] Open Scope Z_scope.

(** ** Buffers *)

(** A host array with its copy on the device. *)
Record Buffer (A : Type) := mkBuffer { on_host : list A; on_device : list A }.
Arguments mkBuffer {A}.
Arguments on_host {A}.
Arguments on_device {A}.

(** [buf.np[s:e] = vals]. *)
Definition buf_write {A} (s e : Z) (vals : list A) (x : Buffer A) : result (Buffer A) :=
  l ← np_set_slice s e vals (on_host x); Ok (mkBuffer l (on_device x)).

(** [buf.np[s:].fill(v)]. *)
Definition buf_fill_from {A} (s : Z) (v : A) (x : Buffer A) : Buffer A :=
  let k := slice_pos s (length (on_host x)) in
  mkBuffer (take k (on_host x) ++ replicate (length (on_host x) - k) v) (on_device x).

(** [buf.copy_to_gpu(n)] and [buf.copy_to_gpu()]. *)
Definition buf_copy {A} (n : Z) (x : Buffer A) : Buffer A := mkBuffer (on_host x) (copy_to_gpu n (on_host x) (on_device x)).
Definition buf_copy_all {A} (x : Buffer A) : Buffer A := mkBuffer (on_host x) (on_host x).

Record InputBuffers := mkInputBuffers {
  input_ids : Buffer Z;
  positions : Buffer Z;
  is_token_ids : Buffer bool;
  inputs_embeds : Buffer string;
  query_start_loc : Buffer Z;
  seq_lens : Buffer Z;
  discard_request_indices : Buffer Z;
  num_discarded_requests : Z;
  num_decode_draft_tokens : Buffer Z;
}.

#[export] Instance eta_InputBuffers : Eta InputBuffers := fun x =>
  mkInputBuffers (input_ids x) (positions x) (is_token_ids x) (inputs_embeds x) (query_start_loc x) (seq_lens x)
    (discard_request_indices x) (num_discarded_requests x) (num_decode_draft_tokens x).

(** ** Arrays *)

(** [numpy.cumsum]. *)
Fixpoint cumsum_from (acc : Z) (l : list Z) : list Z :=
  match l with
  | [] => []
  | x :: l => (acc + x) :: cumsum_from (acc + x) l
  end.

Definition cumsum (l : list Z) : list Z := cumsum_from 0 l.

(** A binary operation on arrays of one length. *)
Definition np_binary (f : Z -> Z -> Z) (a b : list Z) : result (list Z) :=
  if decide (length a = length b) then Ok (zip_with f a b) else Raise ValueError.

(** [numpy.repeat] with one count per entry. *)
Definition repeat_each {A} (l : list A) (counts : list Z) : result (list A) :=
  if decide (length l = length counts) then
    if existsb (fun n => n <? 0) counts then Raise ValueError else Ok (np_repeat l counts)
  else Raise ValueError.

(** [torch.index_select]: no negative indices. *)
Definition index_select {A} (l : list A) (indices : list Z) : result (list A) :=
  mapM (fun i => if i <? 0 then Raise IndexError else or_raise IndexError (l !! Z.to_nat i)) indices.

Definition get_cumsum_and_arange (arange_np num_tokens : list Z) : result (list Z * list Z) :=
  let cu_num_tokens := cumsum num_tokens in
  total_num_tokens ← py_index cu_num_tokens (-1);
  starts ← np_binary Z.sub cu_num_tokens num_tokens;
  cumsums_offsets ← repeat_each starts num_tokens;
  arange ← np_binary Z.sub (slice_to total_num_tokens arange_np) cumsums_offsets;
  Ok (cu_num_tokens, arange).

(** ** Input ids *)

(** The requests of the step before that are in the batch: where the last token of each is in
    the flattened inputs, and its old row. *)
Definition common_requests (prev_req_id_to_index : dict string Z) (cu_num_tokens : list Z) (b : InputBatch) : result (list (Z * Z)) :=
  for_each (fun (p : string * Z) l =>
    match dget p.1 prev_req_id_to_index with
    | None => Ok l
    | Some prev_index => last ← py_index cu_num_tokens p.2; Ok (l ++ [(last - 1, prev_index)])
    end) (ib_req_id_to_index b) [].

(** [scatter_]: [x[i] = src[j]] for the pairs. *)
Definition scatter (src : list Z) (pairs : list (Z * Z)) (x : list Z) : result (list Z) :=
  for_each (fun (p : Z * Z) x => v ← py_index src p.2; py_setitem p.1 v x) pairs x.

(** The copies of the host's input ids to the device. *)
Definition copy_input_ids (enable_prompt_embeds : bool) (total_num_scheduled_tokens : Z) (x : InputBuffers) : InputBuffers :=
  let x := x <| input_ids := buf_copy total_num_scheduled_tokens (input_ids x) |> in
  if enable_prompt_embeds
  then x <| inputs_embeds := buf_copy total_num_scheduled_tokens (inputs_embeds x) |>
         <| is_token_ids := buf_copy total_num_scheduled_tokens (is_token_ids x) |>
  else x.

(** [prev]: the sampled tokens of the step before, one per row, kept on the device with
    asynchronous scheduling. *)
Definition prepare_input_ids (enable_prompt_embeds : bool) (prev : option (list Z)) (total_num_scheduled_tokens : Z)
    (cu_num_tokens : list Z) (b : InputBatch) (x : InputBuffers) : result InputBuffers :=
  match prev with
  | None => Ok (copy_input_ids enable_prompt_embeds total_num_scheduled_tokens x)
  | Some prev =>
      prev_req_id_to_index ← or_raise AssertionError (prev_req_id_to_index b);
      common ← common_requests prev_req_id_to_index cu_num_tokens b;
      let num_common_tokens := py_len common in
      let x := if num_common_tokens <? total_num_scheduled_tokens then copy_input_ids enable_prompt_embeds total_num_scheduled_tokens x else x in
      let indices_match := forallb (fun p : Z * Z => p.2 =? p.1) common in
      let max_flattened_index := foldl Z.max (-1) common.*1 in
      if num_common_tokens =? 0 then Ok x
      else if indices_match && (max_flattened_index =? num_common_tokens - 1) then
        ids ← np_set_slice 0 num_common_tokens (slice_to num_common_tokens prev) (on_device (input_ids x));
        let x := x <| input_ids := mkBuffer (on_host (input_ids x)) ids |> in
        Ok (if enable_prompt_embeds
            then x <| is_token_ids := mkBuffer (on_host (is_token_ids x)) (np_fill_to num_common_tokens true (on_device (is_token_ids x))) |>
            else x)
      else
        ids ← scatter prev common (on_device (input_ids x));
        Ok (x <| input_ids := mkBuffer (on_host (input_ids x)) ids |>)
  end.

(** ** Prompt embeddings *)

(** One request: its embeddings at the scheduled positions, as far as they go. *)
Definition copy_embeds (b : InputBatch) (in_ : nat * Z) (st : Z * Buffer string) : result (Z * Buffer string) :=
  let '(output_idx, x) := st in
  let num_sched := in_.2 in
  match req_prompt_embeds b !! Z.of_nat in_.1 with
  | None => Ok (output_idx + num_sched, x)
  | Some req_embeds =>
      if num_sched <=? 0 then Ok (output_idx + num_sched, x)
      else
        row ← py_index (rows b) (Z.of_nat in_.1);
        let start_pos := row_num_computed_tokens row in
        if py_len req_embeds <=? start_pos then Ok (output_idx + num_sched, x)
        else
          let actual_end := Z.min (start_pos + num_sched) (py_len req_embeds) in
          let actual_num_sched := actual_end - start_pos in
          x ← (if 0 <? actual_num_sched
               then buf_write output_idx (output_idx + actual_num_sched) (slice start_pos actual_end req_embeds) x
               else Ok x);
          Ok (output_idx + num_sched, x)
  end.

(** ** Speculative decoding *)

Record SpecDecodeMetadata := mkSpecDecodeMetadata {
  sd_draft_token_ids : list Z;
  sd_num_draft_tokens : list Z;
  sd_cu_num_draft_tokens : list Z;
  sd_cu_num_sampled_tokens : list Z;
  sd_target_logits_indices : list Z;
  sd_bonus_logits_indices : list Z;
  sd_logits_indices : list Z;
}.

Definition calc_spec_decode_metadata (arange_np device_input_ids num_draft_tokens cu_num_scheduled_tokens : list Z) : result SpecDecodeMetadata :=
  let num_sampled_tokens := (fun n => n + 1) <$> num_draft_tokens in
  '(cu_num_sampled_tokens, arange) ← get_cumsum_and_arange arange_np num_sampled_tokens;
  firsts ← np_binary Z.sub cu_num_scheduled_tokens num_sampled_tokens;
  repeated ← repeat_each firsts num_sampled_tokens;
  logits_indices ← np_binary Z.add repeated arange;
  let bonus_logits_indices := (fun n => n - 1) <$> cu_num_sampled_tokens in
  '(cu_num_draft_tokens, arange) ← get_cumsum_and_arange arange_np num_draft_tokens;
  firsts ← np_binary Z.sub cu_num_sampled_tokens num_sampled_tokens;
  repeated ← repeat_each firsts num_draft_tokens;
  target_logits_indices ← np_binary Z.add repeated arange;
  logits_ids ← mapM (py_index device_input_ids) logits_indices;
  draft_token_ids ← mapM (fun i => py_index logits_ids (i + 1)) target_logits_indices;
  Ok {| sd_draft_token_ids := draft_token_ids; sd_num_draft_tokens := num_draft_tokens; sd_cu_num_draft_tokens := cu_num_draft_tokens;
        sd_cu_num_sampled_tokens := cu_num_sampled_tokens; sd_target_logits_indices := target_logits_indices;
        sd_bonus_logits_indices := bonus_logits_indices; sd_logits_indices := logits_indices |}.

(** The draft tokens of each row, and the number of them for rows past their prompt. *)
Definition count_drafts (b : InputBatch) (p : string * list Z) (st : list Z * list Z) : result (list Z * list Z) :=
  let '(num_draft_tokens, num_decode_draft_tokens) := st in
  req_idx ← or_raise KeyError (dget p.1 (ib_req_id_to_index b));
  num_draft_tokens ← py_setitem req_idx (py_len p.2) num_draft_tokens;
  row ← py_index (rows b) req_idx;
  num_decode_draft_tokens ← py_setitem req_idx
    (if row_num_prompt_tokens row <=? row_num_computed_tokens row then py_len p.2 else -1) num_decode_draft_tokens;
  Ok (num_draft_tokens, num_decode_draft_tokens).

(** ** The step's inputs *)

Record InputConfig := mkInputConfig {
  ic_arange_np : list Z;
  ic_enable_prompt_embeds : bool;
  ic_lora : bool;
  ic_max_num_batched_tokens : Z;
}.

Record ModelInputs := mkModelInputs {
  mi_logits_indices : list Z;
  mi_spec_decode_metadata : option SpecDecodeMetadata;
  mi_lora : option (list Z * list Z * list LoRARequest);
}.

(** [execute_model]: the scheduled tokens in the order of the rows. *)
Definition scheduled_by_row (so : SchedulerOutput) (b : InputBatch) : result (list Z) :=
  mapM (fun o : option string => rid ← or_raise KeyError o; or_raise KeyError (dget rid (num_scheduled_tokens so))) (ib_req_ids b).

Section Inputs.
Context (c : InputConfig) (so : SchedulerOutput) (num_scheduled : list Z).

Abbreviation total := (total_num_scheduled_tokens so).

(** Tokens, positions and slots. *)
Definition write_tokens (req_indices arange : list Z) (b : InputBatch) (x : InputBuffers) : result (InputBatch * InputBuffers) :=
  computed ← mapM (fun i => row ← py_index (rows b) i; Ok (row_num_computed_tokens row)) req_indices;
  pos ← np_binary Z.add computed arange;
  positions_buf ← buf_write 0 total pos (positions x);
  let token_indices := zip_with (fun p r => p + r * ib_max_model_len b) pos req_indices in
  ids ← index_select (concat (row_token_ids <$> rows b)) token_indices;
  ids_buf ← buf_write 0 total ids (input_ids x);
  let x := x <| positions := positions_buf |> <| input_ids := ids_buf |> in
  x ← (if ic_enable_prompt_embeds c then
         flags ← index_select (concat (row_is_token_ids <$> rows b)) token_indices;
         flags_buf ← buf_write 0 total flags (is_token_ids x);
         Ok (x <| is_token_ids := flags_buf |>)
       else Ok x);
  x ← (if bool_decide (req_prompt_embeds b = ∅) then Ok x
       else '(_, embeds) ← for_each (copy_embeds b) (imap pair (take (Z.to_nat (ib_num_reqs b)) num_scheduled)) (0, inputs_embeds x);
            Ok (x <| inputs_embeds := embeds |>));
  tables ← multi_slot_mapping (zip req_indices pos) (ib_block_table b);
  Ok (b <| ib_block_table := multi_commit_slot_mapping total tables |>, x).

(** The bounds of the rows. *)
Definition write_bounds (cu_num_tokens : list Z) (b : InputBatch) (x : InputBuffers) : result InputBuffers :=
  let num_reqs := ib_num_reqs b in
  first ← py_setitem 0 0 (on_host (query_start_loc x));
  loc ← buf_write 1 (num_reqs + 1) cu_num_tokens (mkBuffer first (on_device (query_start_loc x)));
  last ← py_index cu_num_tokens (-1);
  let loc := buf_copy_all (buf_fill_from (num_reqs + 1) last loc) in
  lens ← np_binary Z.add (row_num_computed_tokens <$> slice_to num_reqs (rows b)) num_scheduled;
  lens_buf ← buf_write 0 num_reqs lens (seq_lens x);
  Ok (x <| query_start_loc := loc |> <| seq_lens := buf_copy_all (buf_fill_from num_reqs 0 lens_buf) |>).

(** The requests that are still short of their last token. *)
Definition write_discards (reqs : gmap string CachedRequestState) (h : OutputStore) (b : InputBatch) (x : InputBuffers) : result InputBuffers :=
  num_tokens ← mapM (fun o : option string => rid ← or_raise KeyError o; r ← or_raise KeyError (reqs !! rid); Ok (crs_num_tokens h r)) (ib_req_ids b);
  let lens := slice_to (ib_num_reqs b) (on_host (seq_lens x)) in
  mask ← (if decide (length lens = length num_tokens) then Ok (zip_with Z.ltb lens num_tokens) else Raise ValueError);
  let discard := fst <$> List.filter snd (imap (fun i d => (Z.of_nat i, d)) mask) in
  buf ← buf_write 0 (py_len discard) discard (discard_request_indices x);
  Ok (x <| num_discarded_requests := py_len discard |> <| discard_request_indices := buf_copy (py_len discard) buf |>).

(** Where the logits are read: without drafts after the last token of each row. *)
Definition logits_of_step (cu_num_tokens : list Z) (b : InputBatch) (x : InputBuffers) : result (list Z * option SpecDecodeMetadata * list Z * InputBuffers) :=
  let num_reqs := ib_num_reqs b in
  match scheduled_spec_decode_tokens so with
  | [] => Ok ((fun n => n - 1) <$> slice 1 (num_reqs + 1) (on_device (query_start_loc x)), None, replicate (Z.to_nat num_reqs) 1, x)
  | drafts =>
      '(num_drafts, num_decode_drafts) ← for_each (count_drafts b) drafts (zeros num_reqs, replicate (Z.to_nat num_reqs) (-1));
      md ← calc_spec_decode_metadata (ic_arange_np c) (on_device (input_ids x)) num_drafts cu_num_tokens;
      buf ← buf_write 0 num_reqs num_decode_drafts (num_decode_draft_tokens x);
      Ok (sd_logits_indices md, Some md, (fun n => n + 1) <$> num_drafts,
          x <| num_decode_draft_tokens := buf_copy_all (buf_fill_from num_reqs (-1) buf) |>)
  end.

Definition prepare_inputs (prev : option (list Z)) (s : Runner) (x : InputBuffers) : result (ModelInputs * Runner * InputBuffers) :=
  let b := input_batch s in
  _ ← py_assert (0 <? total);
  let num_reqs := ib_num_reqs b in
  _ ← py_assert (0 <? num_reqs);
  let b := b <| ib_block_table := multi_commit_block_table num_reqs (ib_block_table b) |> in
  req_indices ← repeat_each (slice_to num_reqs (ic_arange_np c)) num_scheduled;
  '(cu_num_tokens, arange) ← get_cumsum_and_arange (ic_arange_np c) num_scheduled;
  '(b, x) ← write_tokens req_indices arange b x;
  x ← write_bounds cu_num_tokens b x;
  x ← write_discards (rn_requests s) (rn_outputs s) b x;
  x ← prepare_input_ids (ic_enable_prompt_embeds c) prev total cu_num_tokens b x;
  let x := x <| positions := buf_copy total (positions x) |> in
  '(logits_indices, md, num_sampled_tokens, x) ← logits_of_step cu_num_tokens b x;
  lora ← (if ic_lora c then
            _ ← py_assert (int_sum num_sampled_tokens <=? ic_max_num_batched_tokens c);
            Ok (Some (make_lora_inputs num_scheduled num_sampled_tokens b))
          else Ok None);
  Ok ({| mi_logits_indices := logits_indices; mi_spec_decode_metadata := md; mi_lora := lora |}, s <| input_batch := b |>, x).
End Inputs.

(** ** Sums and segments *)

Lemma length_cumsum_from acc l : length (cumsum_from acc l) = length l.
Proof. revert acc. induction l; intros acc; cbn; auto. Qed.

Lemma cumsum_from_lookup acc l p : (p < length l)%nat -> cumsum_from acc l !! p = Some (acc + int_sum (take (S p) l)).
Proof.
  revert acc p. induction l as [|x l IH]; intros acc p Hp; cbn in Hp; [lia|]. destruct p as [|p].
  - cbn. f_equal. rewrite take_0. unfold int_sum. cbn. lia.
  - change (cumsum_from acc (x :: l) !! S p) with (cumsum_from (acc + x) l !! p). rewrite IH by lia. f_equal.
    rewrite (firstn_cons (S p)). change (int_sum (x :: take (S p) l)) with (x + int_sum (take (S p) l)). lia.
Qed.

(** Where each segment starts. *)
Fixpoint starts_from (acc : Z) (l : list Z) : list Z :=
  match l with
  | [] => []
  | x :: l => acc :: starts_from (acc + x) l
  end.

Lemma starts_from_sub acc l : zip_with Z.sub (cumsum_from acc l) l = starts_from acc l.
Proof. revert acc. induction l as [|x l IH]; intros acc; cbn; [done|]. f_equal; [lia | apply IH]. Qed.

Lemma length_starts_from acc l : length (starts_from acc l) = length l.
Proof. revert acc. induction l; intros acc; cbn; auto. Qed.

Lemma starts_from_lookup acc l p : (p < length l)%nat -> starts_from acc l !! p = Some (acc + int_sum (take p l)).
Proof.
  revert acc p. induction l as [|x l IH]; intros acc p Hp; cbn in Hp; [lia|]. destruct p as [|p].
  - cbn. f_equal. unfold int_sum. cbn. lia.
  - change (starts_from acc (x :: l) !! S p) with (starts_from (acc + x) l !! p). rewrite IH by lia. f_equal.
    rewrite firstn_cons. change (int_sum (x :: take p l)) with (x + int_sum (take p l)). lia.
Qed.

Lemma zip_concat {A B C} (f : A -> B -> C) ls : forall ks, Forall2 (fun l k => length l = length k) ls ks ->
  zip_with f (concat ls) (concat ks) = concat (zip_with (zip_with f) ls ks).
Proof. intros ks. induction 1 as [|l k ls ks Hlk _ IH]; cbn; [done|]. by rewrite zip_with_app by done; rewrite IH. Qed.

Lemma length_concat_segments {A} (ls : list (list A)) counts : Forall2 (fun l n => Z.of_nat (length l) = n) ls counts ->
  Z.of_nat (length (concat ls)) = int_sum counts.
Proof. induction 1 as [|l n ls counts Hl _ IH]; cbn; [done|]. rewrite length_app, Nat2Z.inj_add, Hl, IH. done. Qed.

(** The [k]th entry of the [p]th segment. *)
Lemma concat_segment {A} (ls : list (list A)) p seg k : ls !! p = Some seg -> (k < length seg)%nat ->
  concat ls !! (length (concat (take p ls)) + k)%nat = seg !! k.
Proof.
  revert p. induction ls as [|l ls IH]; intros p Hp Hk; [done|]. destruct p as [|p]; cbn in *.
  - injection Hp as ->. by rewrite lookup_app_l by lia.
  - rewrite length_app, <- Nat.add_assoc, lookup_app_r by lia. rewrite <- (IH p) by done. f_equal. lia.
Qed.

Lemma concat_lookup_inv {A} (ls : list (list A)) i x : concat ls !! i = Some x ->
  exists p seg k, ls !! p = Some seg /\ seg !! k = Some x /\ i = (length (concat (take p ls)) + k)%nat.
Proof.
  revert i. induction ls as [|l ls IH]; intros i Hi; [done|]. cbn in Hi. apply lookup_app_Some in Hi as [Hi|[Hle Hi]].
  - exists 0%nat, l, i. by split_and!.
  - destruct (IH _ Hi) as (p & seg & k & Hp & Hk & Heq). exists (S p), seg, k. split; [done|]. split; [done|]. cbn. rewrite length_app. lia.
Qed.

(** ** The scheduled places *)

(** Row and position of the tokens to compute, row after row. *)
Definition places (ncs counts : list Z) : list (Z * Z) :=
  concat (imap (fun r p => (fun q => (Z.of_nat r, q)) <$> seqZ p.1 p.2) (zip ncs counts)).

Definition places_from (r0 : nat) (ncs counts : list Z) : list (list (Z * Z)) :=
  imap (fun r p => (fun q => (Z.of_nat (r0 + r), q)) <$> seqZ p.1 p.2) (zip ncs counts).

Lemma places_from_cons r0 nc ncs n counts : places_from r0 (nc :: ncs) (n :: counts)
  = ((fun q => (Z.of_nat r0, q)) <$> seqZ nc n) :: places_from (S r0) ncs counts.
Proof.
  unfold places_from. cbn. rewrite Nat.add_0_r. f_equal. apply imap_ext. intros i x _. cbn. by rewrite Nat.add_succ_r.
Qed.

Lemma np_repeat_fst ncs : forall r0 counts, length ncs = length counts -> Forall (fun n => 0 <= n) counts ->
  np_repeat (seqZ (Z.of_nat r0) (Z.of_nat (length ncs))) counts = fst <$> concat (places_from r0 ncs counts).
Proof.
  induction ncs as [|nc ncs IH]; intros r0 [|n counts] Hlen Hpos; try done. cbn in Hlen. apply Forall_cons_1 in Hpos as [Hn Hpos].
  rewrite places_from_cons. cbn [concat length]. rewrite Nat2Z.inj_succ, seqZ_cons by lia. unfold np_repeat. cbn [zip_with concat].
  rewrite fmap_app, <- list_fmap_compose, Z.pred_succ. f_equal.
  - apply list_eq. intros i. rewrite list_lookup_fmap. destruct (decide (i < Z.to_nat n)%nat).
    + rewrite lookup_replicate_2, lookup_seqZ_lt by lia. done.
    + rewrite !lookup_ge_None_2; [done | rewrite length_seqZ; lia | rewrite length_replicate; lia].
  - replace (Z.succ (Z.of_nat r0)) with (Z.of_nat (S r0)) by lia. rewrite <- IH by (try done; lia). done.
Qed.

Lemma arange_snd ncs : forall acc r0 counts, length ncs = length counts -> Forall (fun n => 0 <= n) counts ->
  zip_with Z.add (concat (zip_with (fun nc n => replicate (Z.to_nat n) nc) ncs counts))
    (zip_with Z.sub (seqZ acc (int_sum counts)) (np_repeat (starts_from acc counts) counts))
  = snd <$> concat (places_from r0 ncs counts).
Proof.
  induction ncs as [|nc ncs IH]; intros acc r0 [|n counts] Hlen Hpos; try done. cbn in Hlen. apply Forall_cons_1 in Hpos as [Hn Hpos].
  pose proof (int_sum_nonneg counts Hpos) as Hs. rewrite places_from_cons. cbn [concat zip_with int_sum foldr starts_from].
  change (foldr Z.add 0 counts) with (int_sum counts). rewrite seqZ_app by lia. unfold np_repeat. cbn [zip_with concat].
  rewrite zip_with_app by (rewrite length_seqZ, length_replicate; lia).
  rewrite zip_with_app by (rewrite length_zip_with, length_seqZ, !length_replicate; lia).
  rewrite fmap_app, <- list_fmap_compose. f_equal; [|apply (IH (acc + n) (S r0)); [lia | done]].
  apply list_eq. intros i. rewrite !lookup_zip_with, list_lookup_fmap. destruct (decide (i < Z.to_nat n)%nat).
  - rewrite !lookup_replicate_2, !lookup_seqZ_lt by lia. cbn. f_equal. lia.
  - rewrite (lookup_ge_None_2 (replicate _ nc)) by (rewrite length_replicate; lia). by rewrite (lookup_ge_None_2 (seqZ nc n)) by (rewrite length_seqZ; lia).
Qed.

Lemma np_binary_ok f (a b : list Z) : length a = length b -> np_binary f a b = Ok (zip_with f a b).
Proof. intros Hl. unfold np_binary. by rewrite decide_True. Qed.

Lemma repeat_each_ok {A} (l : list A) counts : length l = length counts -> Forall (fun n => 0 <= n) counts ->
  repeat_each l counts = Ok (np_repeat l counts).
Proof.
  intros Hl Hpos. unfold repeat_each. rewrite decide_True by done.
  assert (existsb (fun n => n <? 0) counts = false) as ->; [|done].
  apply not_true_iff_false. rewrite existsb_exists. intros (n & Hn & Hlt). rewrite Forall_forall in Hpos. specialize (Hpos n).
  apply list_elem_of_In in Hn. apply Z.ltb_lt in Hlt. specialize (Hpos Hn). lia.
Qed.

Lemma length_np_repeat {A} (l : list A) counts : length l = length counts -> Forall (fun n => 0 <= n) counts ->
  Z.of_nat (length (np_repeat l counts)) = int_sum counts.
Proof.
  intros Hl Hpos. unfold np_repeat. apply length_concat_segments. revert l Hl.
  induction Hpos as [|n counts Hn _ IH]; intros [|x l] Hl; cbn in *; try done. constructor; [rewrite length_replicate; lia | apply IH; lia].
Qed.

Lemma slice_to_nat {A} n (l : list A) : 0 <= n -> slice_to n l = take (Z.to_nat n) l.
Proof.
  intros Hn. unfold slice_to, slice_pos. destruct (Z.ltb_spec n 0); [lia|].
  destruct (decide (n <= Z.of_nat (length l))); [by rewrite Z.min_l by lia|].
  rewrite Z.min_r, Nat2Z.id by lia. by rewrite !take_ge by lia.
Qed.

Lemma take_seqZ n limit : 0 <= n <= limit -> take (Z.to_nat n) (seqZ 0 limit) = seqZ 0 n.
Proof.
  intros Hn. apply list_eq. intros i. destruct (decide (i < Z.to_nat n)%nat).
  - by rewrite lookup_take_lt, !lookup_seqZ_lt by lia.
  - rewrite !lookup_ge_None_2; [done | rewrite length_seqZ; lia | rewrite length_take; lia].
Qed.

Lemma cumsum_last counts : counts <> [] -> py_index (cumsum counts) (-1) = Ok (int_sum counts).
Proof.
  intros Hne. assert (Hlen : (0 < length counts)%nat) by (destruct counts; cbn; [done | lia]).
  unfold cumsum, py_index. rewrite length_cumsum_from. destruct (Z.ltb_spec (-1) 0); [|lia].
  destruct (Z.ltb_spec (Z.of_nat (length counts) + -1) 0); [lia|].
  destruct (Z.leb_spec (Z.of_nat (length counts)) (Z.of_nat (length counts) + -1)); [lia|]. cbn.
  rewrite cumsum_from_lookup by lia. cbn [or_raise]. rewrite take_ge by lia. done.
Qed.

(** [_get_cumsum_and_arange] on counts: prefix sums, and each row's range. *)
Lemma get_cumsum_and_arange_ok limit counts : counts <> [] -> Forall (fun n => 0 <= n) counts -> int_sum counts <= limit ->
  get_cumsum_and_arange (seqZ 0 limit) counts
  = Ok (cumsum counts, zip_with Z.sub (seqZ 0 (int_sum counts)) (np_repeat (starts_from 0 counts) counts)).
Proof.
  intros Hne Hpos Hlim. pose proof (int_sum_nonneg counts Hpos) as Hs. unfold get_cumsum_and_arange.
  rewrite cumsum_last by done. cbn [mbind result_bind]. rewrite np_binary_ok by apply length_cumsum_from. cbn [mbind result_bind].
  unfold cumsum. rewrite starts_from_sub. rewrite repeat_each_ok by (done || apply length_starts_from). cbn [mbind result_bind].
  rewrite slice_to_nat, take_seqZ by lia. rewrite np_binary_ok; [done|]. rewrite length_seqZ.
  pose proof (length_np_repeat (starts_from 0 counts) counts (length_starts_from _ _) Hpos). lia.
Qed.

(** ** The scheduled places: what is where *)

Section Places.
Context (ncs counts : list Z).
Context (Hlen : length ncs = length counts) (Hpos : Forall (fun n => 0 <= n) counts).

Lemma places_segments : Forall2 (fun (l : list (Z * Z)) n => Z.of_nat (length l) = n) (places_from 0 ncs counts) counts.
Proof using Hlen Hpos.
  apply Forall2_same_length_lookup. unfold places_from. split; [rewrite length_imap, length_zip; lia|]. intros r l n Hl Hn.
  rewrite list_lookup_imap in Hl. destruct (zip ncs counts !! r) as [[nc n']|] eqn:Hz; [|done]. injection Hl as <-.
  apply lookup_zip_Some in Hz as [_ Hn']. cbn in Hn'. rewrite Hn in Hn'. injection Hn' as <-.
  rewrite length_fmap, length_seqZ. cbn. rewrite Forall_lookup in Hpos. specialize (Hpos _ _ Hn). lia.
Qed.

Lemma length_places : Z.of_nat (length (places ncs counts)) = int_sum counts.
Proof using Hlen Hpos. apply length_concat_segments, places_segments. Qed.

(** The [j]th scheduled token of the row [r]. *)
Lemma places_lookup (r : nat) nc n j : ncs !! r = Some nc -> counts !! r = Some n -> 0 <= j < n ->
  places ncs counts !! Z.to_nat (int_sum (take r counts) + j) = Some (Z.of_nat r, nc + j).
Proof using Hlen Hpos.
  intros Hnc Hn Hj. change (places ncs counts) with (concat (places_from 0 ncs counts)).
  set (seg := (fun q => (Z.of_nat r, q)) <$> seqZ nc n).
  assert (Hseg : places_from 0 ncs counts !! r = Some seg).
  { unfold places_from. rewrite list_lookup_imap. by rewrite lookup_zip_with, Hnc; cbn; rewrite Hn. }
  pose proof (length_concat_segments _ _ (Forall2_take _ _ _ r places_segments)) as Hst.
  assert (0 <= int_sum (take r counts)) by (apply int_sum_nonneg, Forall_take; done).
  replace (Z.to_nat (int_sum (take r counts) + j)) with (length (concat (take r (places_from 0 ncs counts))) + Z.to_nat j)%nat by lia.
  rewrite (concat_segment _ r seg) by (done || (unfold seg; rewrite length_fmap, length_seqZ; lia)).
  unfold seg. rewrite list_lookup_fmap, lookup_seqZ_lt by lia. cbn. do 2 f_equal. lia.
Qed.

Lemma places_inv k r q : places ncs counts !! k = Some (r, q) ->
  exists (r' : nat) nc n j, r = Z.of_nat r' /\ ncs !! r' = Some nc /\ counts !! r' = Some n /\ 0 <= j < n /\ q = nc + j /\
    Z.of_nat k = int_sum (take r' counts) + j.
Proof using Hlen Hpos.
  change (places ncs counts) with (concat (places_from 0 ncs counts)). intros Hk.
  apply concat_lookup_inv in Hk as (p & seg & i & Hseg & Hi & ->). pose proof (length_concat_segments _ _ (Forall2_take _ _ _ p places_segments)) as Hst.
  unfold places_from in Hseg. rewrite list_lookup_imap in Hseg. destruct (zip ncs counts !! p) as [[nc n]|] eqn:Hz; [|done]. injection Hseg as <-.
  apply lookup_zip_Some in Hz as [Hnc Hn]. cbn in Hnc, Hn. rewrite list_lookup_fmap in Hi. cbn in Hi.
  destruct (seqZ nc n !! i) as [q'|] eqn:Hq; [|done]. injection Hi as <- <-. apply lookup_seqZ in Hq as [-> Hi].
  exists p, nc, n, (Z.of_nat i). split_and!; try done; lia.
Qed.

(** The two arrays the code computes. *)
Lemma places_rows : np_repeat (seqZ 0 (Z.of_nat (length ncs))) counts = fst <$> places ncs counts.
Proof using Hlen Hpos. exact (np_repeat_fst ncs 0 counts Hlen Hpos). Qed.

Lemma places_positions : zip_with Z.add (np_repeat ncs counts) (zip_with Z.sub (seqZ 0 (int_sum counts)) (np_repeat (starts_from 0 counts) counts))
  = snd <$> places ncs counts.
Proof using Hlen Hpos. exact (arange_snd ncs 0 0 counts Hlen Hpos). Qed.
End Places.

Lemma np_repeat_fmap {A B} (f : A -> B) l counts : np_repeat (f <$> l) counts = f <$> np_repeat l counts.
Proof.
  unfold np_repeat. revert counts. induction l as [|x l IH]; intros [|n counts]; cbn; try done.
  rewrite fmap_app, fmap_replicate. f_equal. apply IH.
Qed.

Lemma mapM_fmap {A B} (f : A -> result B) (g : A -> B) l : (forall x, x ∈ l -> f x = Ok (g x)) -> mapM f l = Ok (g <$> l).
Proof.
  intros Hf. apply mapM_Ok. apply Forall2_fmap_r, Forall_Forall2_diag, Forall_forall. exact Hf.
Qed.

Lemma mapM_compose {A B C} (f : B -> result C) (g : A -> B) l : mapM f (g <$> l) = mapM (fun x => f (g x)) l.
Proof. induction l as [|x l IH]; [done|]. rewrite fmap_cons. cbn [mapM]. by rewrite IH. Qed.

Lemma mapM_total {A B} (f : A -> result B) (P : A -> B -> Prop) l : (forall x, x ∈ l -> exists y, f x = Ok y /\ P x y) ->
  exists k, mapM f l = Ok k /\ Forall2 P l k.
Proof.
  induction l as [|x l IH]; intros Hf; [by exists []|].
  destruct (Hf x) as (y & Hy & HP); [by left|]. destruct IH as (k & Hk & HPs); [intros z Hz; apply Hf; by right|].
  exists (y :: k). split; [by apply mapM_cons_ok | by constructor].
Qed.

(** ** Buffers *)

Lemma buf_write_ok {A} e (vals : list A) x : e = py_len vals -> e <= py_len (on_host x) ->
  buf_write 0 e vals x = Ok (mkBuffer (vals ++ drop (length vals) (on_host x)) (on_device x)).
Proof. intros He Hfit. unfold buf_write. by rewrite np_set_slice_to. Qed.

(** The device's entries after a copy of what was just written. *)
Lemma copy_written {A} (vals rest dev : list A) k y : vals !! k = Some y ->
  copy_to_gpu (py_len vals) (vals ++ rest) dev !! k = Some y.
Proof.
  intros Hk. apply lookup_lt_Some in Hk as Hlt. unfold copy_to_gpu, slice_pos, py_len. rewrite length_app.
  destruct (Z.ltb_spec (Z.of_nat (length vals)) 0); [lia|]. rewrite Z.min_l, Nat2Z.id, take_app_length by lia. by apply lookup_app_l_Some.
Qed.

(** ** Tokens and slots *)

(** The computed context of each row. *)
Definition contexts (b : InputBatch) : list Z := row_num_computed_tokens <$> take (length (ib_req_ids b)) (rows b).

(** Each row has tokens to compute: after its context, within its tokens and its blocks. *)
Record spans_ok (h : OutputStore) (reqs : Requests) (specs : string -> Drafts) (b : InputBatch) (counts : list Z) : Prop := {
  sp_rows : length counts = length (ib_req_ids b);
  sp_pos : Forall (fun n => 0 < n) counts;
  sp_row : forall p id r n, ib_req_ids b !! p = Some (Some id) -> reqs !! id = Some r -> counts !! p = Some n ->
    0 <= crs_num_computed_tokens r /\ crs_num_computed_tokens r + n <= crs_num_tokens h r + py_len (specs id).1 /\ Forall2 (fun t ids => crs_num_computed_tokens r + n <= py_len ids * group_block_size t) (ib_block_table b) (crs_block_ids r);
}.

(** The arrays have room for the step. *)
Record room (c : InputConfig) (counts : list Z) (b : InputBatch) (x : InputBuffers) : Prop := {
  rm_arange : exists limit, ic_arange_np c = seqZ 0 limit /\ int_sum counts <= limit;
  rm_ids : int_sum counts <= py_len (on_host (input_ids x));
  rm_positions : int_sum counts <= py_len (on_host (positions x));
  rm_flags : ic_enable_prompt_embeds c = true -> int_sum counts <= py_len (on_host (is_token_ids x));
  rm_embeds : int_sum counts <= py_len (on_host (inputs_embeds x)) \/ req_prompt_embeds b = ∅;
  rm_slots : Forall (fun t => int_sum counts <= py_len (slot_mapping t)) (ib_block_table b);
  rm_starts : py_len counts + 1 <= py_len (on_host (query_start_loc x));
  rm_lens : py_len counts <= py_len (on_host (seq_lens x));
  rm_discards : py_len counts <= py_len (on_host (discard_request_indices x));
  rm_drafts : py_len counts <= py_len (on_host (num_decode_draft_tokens x));
}.

Section Step.
Context (h : OutputStore) (reqs : Requests) (specs : string -> Drafts) (b : InputBatch) (v : Views) (counts : list Z).
Context (Hok : batch_ok h reqs specs b v) (Hix : index_ok b []) (Hsp : spans_ok h reqs specs b counts).

Lemma counts_nonneg : Forall (fun n => 0 <= n) counts.
Proof using Hsp. eapply Forall_impl; [exact (sp_pos _ _ _ _ _ Hsp)|]. cbn. lia. Qed.

Lemma length_contexts : length (contexts b) = length counts.
Proof using Hok Hsp.
  unfold contexts. rewrite length_fmap, length_take, (sp_rows _ _ _ _ _ Hsp). pose proof (sh_rows b v (bo_shape _ _ _ _ _ Hok)) as Hr.
  pose proof (sh_max b v (bo_shape _ _ _ _ _ Hok)) as Hm. unfold py_len in *. lia.
Qed.

(** The request of a row. *)
Lemma row_request (p : nat) n : counts !! p = Some n -> exists id r row, ib_req_ids b !! p = Some (Some id) /\ reqs !! id = Some r /\ cell h b v p r (specs id) /\ rows b !! p = Some row /\ row_represents h r (specs id).1 row /\ contexts b !! p = Some (crs_num_computed_tokens r).
Proof using Hok Hix Hsp.
  intros Hn. apply lookup_lt_Some in Hn as Hlt. rewrite (sp_rows _ _ _ _ _ Hsp) in Hlt. destruct (lookup_lt_is_Some_2 _ _ Hlt) as [o Ho].
  destruct (dense_lookup b p o Hix Ho) as [id ->]. destruct (bo_cells _ _ _ _ _ Hok p id Ho) as (r & Hr & _ & _ & Hc).
  destruct (ce_row _ _ _ _ _ _ Hc) as (row & Hrow & Hrep & _). exists id, r, row. split_and!; try done.
  unfold contexts. rewrite list_lookup_fmap, lookup_take_lt, Hrow by done. cbn. f_equal. apply Hrep.
Qed.

(** A scheduled place lies within the row's tokens and blocks. *)
Lemma place_request k r' q : places (contexts b) counts !! k = Some (r', q) ->
  exists (p : nat) id r row n, r' = Z.of_nat p /\ ib_req_ids b !! p = Some (Some id) /\ reqs !! id = Some r /\ counts !! p = Some n /\ cell h b v p r (specs id) /\ rows b !! p = Some row /\ row_represents h r (specs id).1 row /\ crs_num_computed_tokens r <= q < crs_num_computed_tokens r + n /\ 0 <= q < ib_max_model_len b.
Proof using Hok Hix Hsp.
  intros Hk. destruct (places_inv _ _ length_contexts counts_nonneg _ _ _ Hk) as (p & nc & n & j & -> & Hnc & Hn & Hj & -> & _).
  destruct (row_request p n Hn) as (id & r & row & Hid & Hr & Hc & Hrow & Hrep & Hcx). rewrite Hcx in Hnc. injection Hnc as <-.
  destruct (sp_row _ _ _ _ _ Hsp p id r n Hid Hr Hn) as (H1 & H2 & _). pose proof (ce_fit _ _ _ _ _ _ Hc) as Hfit. unfold tokens_fit in Hfit.
  exists p, id, r, row, n. split_and!; try done; lia.
Qed.

(** Reading one column of the rows, flattened, at the scheduled places. *)
Lemma read_column {A} (f : Row -> list A) : Forall (fun row => py_len (f row) = ib_max_model_len b) (rows b) ->
  exists l, index_select (concat (f <$> rows b)) (zip_with (fun p r => p + r * ib_max_model_len b)
      (snd <$> places (contexts b) counts) (fst <$> places (contexts b) counts)) = Ok l /\ Forall2 (fun rq y => exists row, rows b !! Z.to_nat rq.1 = Some row /\ f row !! Z.to_nat rq.2 = Some y) (places (contexts b) counts) l.
Proof using Hok Hix Hsp.
  intros Hf. set (L := ib_max_model_len b) in *.
  assert (zip_with (fun p r => p + r * L) (snd <$> places (contexts b) counts) (fst <$> places (contexts b) counts)
    = (fun rq => rq.2 + rq.1 * L) <$> places (contexts b) counts) as ->.
  { rewrite zip_with_fmap_l, zip_with_fmap_r, zip_with_diag. done. }
  unfold index_select. rewrite mapM_compose. apply mapM_total. intros [r' q] Hin. apply list_elem_of_lookup in Hin as [k Hk].
  destruct (place_request k r' q Hk) as (p & id & r & row & n & -> & _ & _ & _ & _ & Hrow & _ & _ & Hq). cbn [fst snd]. rewrite Nat2Z.id.
  rewrite Forall_lookup in Hf. pose proof (Hf _ _ Hrow) as Hlen. fold L in Hq. unfold py_len in Hlen.
  destruct (lookup_lt_is_Some_2 (f row) (Z.to_nat q)) as [y Hy]; [lia|]. exists y. split; [|eauto].
  destruct (Z.ltb_spec (q + Z.of_nat p * L) 0); [nia|].
  replace (Z.to_nat (q + Z.of_nat p * L)) with (p * Z.to_nat L + Z.to_nat q)%nat by nia.
  rewrite (concat_lookup_uniform _ _ _ (f row)); [by rewrite Hy | | by rewrite list_lookup_fmap, Hrow | lia].
  apply Forall_fmap, Forall_lookup. intros i row' Hi. specialize (Hf _ _ Hi). cbn. unfold py_len in Hf. lia.
Qed.

(** The slots of the scheduled places in one table. *)
Lemma slots_ok i t w : ib_block_table b !! i = Some t -> v !! i = Some w -> int_sum counts <= py_len (slot_mapping t) ->
  exists slots, compute_slot_mapping (places (contexts b) counts) t = Ok (t <| slot_mapping := slots ++ drop (length slots) (slot_mapping t) |>) /\ Forall2 (fun rq s => token_slot t rq.1 rq.2 = Ok s) (places (contexts b) counts) slots.
Proof using Hok Hix Hsp.
  intros Ht Hw Hfit. destruct (Forall2_lookup_lr _ _ _ _ _ _ (sh_tables _ _ (bo_shape _ _ _ _ _ Hok)) Ht Hw) as (Hs & Hh & Hn).
  destruct (mapM_total (fun rp => token_slot t rp.1 rp.2) (fun rq s => token_slot t rq.1 rq.2 = Ok s) (places (contexts b) counts)) as (slots & Hrun & Hall).
  - intros [r' q] Hin. apply list_elem_of_lookup in Hin as [k Hk].
    destruct (place_request k r' q Hk) as (p & id & r & row & n & -> & Hid & Hr & Hcn & Hc & _ & _ & Hq & Hq0).
    destruct (sp_row _ _ _ _ _ Hsp p id r n Hid Hr Hcn) as (_ & _ & Hb).
    pose proof (ce_blocks _ _ _ _ _ _ Hc) as Hbl. assert (Hbi : (fun w => w !! p) <$> v !! i = Some <$> crs_block_ids r !! i).
    { rewrite <- !list_lookup_fmap. by rewrite Hbl. }
    rewrite Hw in Hbi. destruct (crs_block_ids r !! i) as [ids|] eqn:Hids; [|done]. injection Hbi as Hbi.
    pose proof (Forall2_lookup_lr _ _ _ _ _ _ Hb Ht Hids) as Hcap. cbn in Hcap. pose proof (group_block_size_pos t Hs) as Hg.
    assert (Hlt : 0 <= q / group_block_size t < py_len ids).
    { split; [apply Z.div_pos; lia | apply Z.div_lt_upper_bound; [done | lia]]. }
    unfold py_len in Hlt. destruct (lookup_lt_is_Some_2 ids (Z.to_nat (q / group_block_size t))) as [blk Hblk]; [lia|].
    cbn [fst snd]. rewrite (token_slot_exact t w p ids q blk) by (done || lia). eauto.
  - exists slots. split; [|exact Hall]. unfold compute_slot_mapping. rewrite Hrun. cbn [mbind result_bind].
    pose proof (length_places _ _ length_contexts counts_nonneg) as Hl. apply Forall2_length in Hall as Hll.
    rewrite np_set_slice_to; [done | unfold py_len; lia | unfold py_len in *; lia].
Qed.
End Step.

(** ** Prompt embeddings *)

Section Embeds.
Context (b : InputBatch).

(** One request: its stretch of the buffer gets the embeddings it has there, the rest stays. *)
Lemma copy_embeds_step (r : nat) n o buf row : rows b !! r = Some row -> 0 <= row_num_computed_tokens row -> 0 < n -> 0 <= o ->
  o + n <= py_len (on_host buf) ->
  exists buf', copy_embeds b (r, n) (o, buf) = Ok (o + n, buf') /\ length (on_host buf') = length (on_host buf) /\
    (forall k : nat, ~ (o <= Z.of_nat k < o + n) -> on_host buf' !! k = on_host buf !! k) /\
    (forall e j y, req_prompt_embeds b !! Z.of_nat r = Some e -> 0 <= j < n -> e !! Z.to_nat (row_num_computed_tokens row + j) = Some y ->
      on_host buf' !! Z.to_nat (o + j) = Some y).
Proof.
  intros Hrow Hnc Hn Ho Hfit. unfold copy_embeds. cbn [fst snd]. destruct (req_prompt_embeds b !! Z.of_nat r) as [e|] eqn:He; [|by exists buf].
  destruct (Z.leb_spec n 0); [lia|]. rewrite (py_index_nat _ _ _ Hrow). cbn [mbind result_bind]. set (nc := row_num_computed_tokens row) in *.
  destruct (Z.leb_spec (py_len e) nc) as [Hle|Hgt].
  { exists buf. split_and!; try done. intros e' j y [= <-] Hj Hy. apply lookup_lt_Some in Hy. unfold py_len in Hle. lia. }
  set (end_ := Z.min (nc + n) (py_len e)). destruct (Z.ltb_spec 0 (end_ - nc)); [|unfold end_ in *; lia].
  assert (Hsl : slice nc end_ e = drop (Z.to_nat nc) (take (Z.to_nat end_) e)) by (apply slice_in; unfold end_; lia).
  assert (Hend : end_ <= nc + n /\ end_ <= py_len e /\ (end_ = nc + n \/ end_ = py_len e)) by (unfold end_; lia). clearbody end_.
  assert (Hlen : py_len (slice nc end_ e) = end_ - nc).
  { rewrite Hsl. unfold py_len. rewrite length_drop, length_take. unfold py_len in *. lia. }
  unfold buf_write. rewrite np_set_slice_at by (rewrite ?Hlen; lia). cbn [mbind result_bind]. eexists. split; [reflexivity|]. cbn [on_host].
  unfold py_len in *. split; [apply length_overwrite; lia|]. split.
  - intros k Hk. rewrite overwrite_lookup by lia. repeat case_decide; try done. lia.
  - intros e' j y [= <-] Hj Hy. apply lookup_lt_Some in Hy as Hlt. rewrite overwrite_lookup by lia. rewrite decide_False by lia.
    rewrite decide_True by lia. rewrite Hsl, lookup_drop.
    replace (Z.to_nat nc + (Z.to_nat (o + j) - Z.to_nat o))%nat with (Z.to_nat (nc + j)) by lia. rewrite lookup_take_lt; [done | lia].
Qed.

Lemma copy_embeds_ok l : forall r0 o buf,
  (forall (i : nat) n, l !! i = Some n -> 0 < n /\ exists row, rows b !! (r0 + i)%nat = Some row /\ 0 <= row_num_computed_tokens row) ->
  0 <= o -> o + int_sum l <= py_len (on_host buf) ->
  exists buf', for_each (copy_embeds b) (imap (fun i n => ((r0 + i)%nat, n)) l) (o, buf) = Ok (o + int_sum l, buf') /\
    (forall k : nat, Z.of_nat k < o -> on_host buf' !! k = on_host buf !! k) /\
    (forall (i : nat) n row e j y, l !! i = Some n -> rows b !! (r0 + i)%nat = Some row -> req_prompt_embeds b !! Z.of_nat (r0 + i) = Some e ->
      0 <= j < n -> e !! Z.to_nat (row_num_computed_tokens row + j) = Some y -> on_host buf' !! Z.to_nat (o + int_sum (take i l) + j) = Some y).
Proof.
  induction l as [|n l IH]; intros r0 o buf Hrows Ho Hfit.
  { exists buf. split; [cbn; do 2 f_equal; unfold int_sum; cbn; lia|]. split; [done|]. by intros i n row e j y [=]. }
  assert (Hl : Forall (fun n => 0 <= n) l).
  { apply Forall_lookup. intros i x Hi. destruct (Hrows (S i) x Hi) as [? _]. lia. }
  pose proof (int_sum_nonneg l Hl) as Hs. change (int_sum (n :: l)) with (n + int_sum l) in *.
  destruct (Hrows 0%nat n eq_refl) as (Hn & row & Hrow & Hnc).
  destruct (copy_embeds_step (r0 + 0) n o buf row Hrow Hnc Hn Ho) as (buf1 & Hstep & Hlen & Hsame & Hnew); [lia|].
  destruct (IH (S r0) (o + n) buf1) as (buf' & Hrun & Hsame' & Hnew'); [|lia | unfold py_len in *; lia|].
  { intros i x Hi. replace (S r0 + i)%nat with (r0 + S i)%nat by lia. by apply Hrows. }
  exists buf'. split.
  - cbn [imap for_each]. rewrite Hstep. cbn [mbind result_bind]. rewrite (imap_ext _ (fun i n => ((S r0 + i)%nat, n))).
    + rewrite Hrun. do 2 f_equal. lia.
    + intros i x _. cbn. f_equal. lia.
  - split; [intros k Hk; rewrite Hsame' by lia; apply Hsame; lia|]. intros i x row' e j y Hi Hrow' He Hj Hy. destruct i as [|i].
    + injection Hi as <-. rewrite Hrow in Hrow'. injection Hrow' as <-. rewrite take_0. replace (o + int_sum [] + j) with (o + j) by (unfold int_sum; cbn; lia).
      rewrite Hsame' by lia. by apply (Hnew e).
    + rewrite firstn_cons. change (int_sum (n :: take i l)) with (n + int_sum (take i l)).
      replace (o + (n + int_sum (take i l)) + j) with (o + n + int_sum (take i l) + j) by lia.
      replace (r0 + S i)%nat with (S r0 + i)%nat in * by lia. by eapply Hnew'.
Qed.
End Embeds.

(** ** The batch with other tables *)

Lemma batch_ok_tables h reqs specs b v ts : batch_ok h reqs specs b v ->
  Forall2 (fun t w => settings_ok t /\ holds t w /\ py_len w = ib_max_num_reqs b) ts v -> batch_ok h reqs specs (b <| ib_block_table := ts |>) v.
Proof.
  intros [[] Hc Hs Hst Hl Hp] Hts. split; try done. intros i id Hi. destruct (Hc i id Hi) as (r & ? & ? & ? & []).
  exists r. by split_and!.
Qed.

(** Copies to the device and the slots leave the rows of a table alone. *)
Lemma same_rows_ok n t t' w : settings_ok t /\ holds t w /\ py_len w = n -> same_layout t t' -> bt_rows t' = bt_rows t ->
  num_blocks_per_row t' = num_blocks_per_row t -> settings_ok t' /\ holds t' w /\ py_len w = n.
Proof.
  intros (Hs & (H1 & H2 & H3) & Hn) Hl Hr Hc. split; [by eapply settings_ok_layout|]. split; [|done].
  split_and!; rewrite ?Hr, ?Hc; try done. intros r ids Hv. destruct (H3 r ids Hv) as (row & count & ? & ? & Hh). exists row, count.
  split_and!; try done. unfold row_holds in *. rewrite !(map_to_kernel_blocks_layout t t') by done. by destruct Hl as (_ & _ & _ & -> & _).
Qed.

Lemma same_layout_gbs t t' : same_layout t t' -> group_block_size t' = group_block_size t.
Proof. intros (H1 & H2 & H3 & H4 & H5 & H6 & H7). unfold group_block_size, kv_block_size. by rewrite H1, H2, H5. Qed.

(** ** [write_tokens] *)

Section Written.
Context (c : InputConfig) (so : SchedulerOutput).
Context (h : OutputStore) (reqs : Requests) (specs : string -> Drafts) (b : InputBatch) (v : Views) (counts : list Z).
Context (Hok : batch_ok h reqs specs b v) (Hix : index_ok b []) (Hsp : spans_ok h reqs specs b counts).
Context (Htotal : total_num_scheduled_tokens so = int_sum counts).

Abbreviation pl := (places (contexts b) counts).

(** The entry of a column of the rows at a place. *)
Definition column_at {A} (f : Row -> list A) (rq : Z * Z) (y : A) : Prop :=
  exists row, rows b !! Z.to_nat rq.1 = Some row /\ f row !! Z.to_nat rq.2 = Some y.

(** A buffer that starts with the entries of a column at the scheduled places. *)
Definition column_in {A} (f : Row -> list A) (x : list A) : Prop := exists l rest, x = l ++ rest /\ Forall2 (column_at f) pl l.

Record tokens_in (x x' : InputBuffers) : Prop := {
  ti_positions : exists rest, on_host (positions x') = (snd <$> pl) ++ rest;
  ti_ids : column_in row_token_ids (on_host (input_ids x'));
  ti_flags : ic_enable_prompt_embeds c = true -> column_in row_is_token_ids (on_host (is_token_ids x'));
  ti_embeds : forall k rq e y, pl !! k = Some rq -> req_prompt_embeds b !! rq.1 = Some e -> e !! Z.to_nat rq.2 = Some y ->
    on_host (inputs_embeds x') !! k = Some y;
  ti_starts : query_start_loc x' = query_start_loc x;
  ti_lens : seq_lens x' = seq_lens x;
  ti_discards : discard_request_indices x' = discard_request_indices x;
  ti_drafts : num_decode_draft_tokens x' = num_decode_draft_tokens x;
}.

Definition slots_in (t t' : BlockTable) : Prop := exists slots rest,
  t' = t <| slot_mapping := slots ++ rest |> <| slot_mapping_gpu := copy_to_gpu (int_sum counts) (slots ++ rest) (slot_mapping_gpu t) |> /\
  Forall2 (fun rq s => token_slot t rq.1 rq.2 = Ok s) pl slots.

Let Hlen := length_contexts h reqs specs b v counts Hok Hsp.
Let Hpos := counts_nonneg h reqs specs b counts Hsp.

Lemma places_count : Z.of_nat (length pl) = int_sum counts.
Proof using Hok Hsp. exact (length_places _ _ Hlen Hpos). Qed.

Lemma read_contexts : mapM (fun i => row ← py_index (rows b) i; Ok (row_num_computed_tokens row)) (fst <$> pl) = Ok (np_repeat (contexts b) counts).
Proof using Hok Hix Hsp.
  set (g := fun i : Z => default 0 (contexts b !! Z.to_nat i)).
  assert (Hcx : contexts b = g <$> seqZ 0 (Z.of_nat (length (contexts b)))).
  { apply list_eq. intros i. rewrite list_lookup_fmap. destruct (contexts b !! i) as [nc|] eqn:Hi.
    - apply lookup_lt_Some in Hi as Hlt. rewrite lookup_seqZ_lt by lia. cbn. unfold g. replace (Z.to_nat (0 + Z.of_nat i)) with i by lia. by rewrite Hi.
    - apply lookup_ge_None in Hi. by rewrite lookup_ge_None_2 by (rewrite length_seqZ; lia). }
  rewrite (mapM_fmap _ g).
  - f_equal. rewrite Hcx at 2. rewrite np_repeat_fmap. by rewrite (places_rows _ _ Hlen Hpos).
  - intros i Hi. apply list_elem_of_fmap in Hi as ([r q] & -> & Hin). apply list_elem_of_lookup in Hin as [k Hk]. cbn [fst].
    destruct (places_inv _ _ Hlen Hpos _ _ _ Hk) as (p & nc & n & j & -> & Hnc & Hn & _).
    destruct (row_request h reqs specs b v counts Hok Hix Hsp p n Hn) as (id & r & row & _ & _ & _ & Hrow & Hrep & Hc).
    rewrite (py_index_nat _ _ _ Hrow). cbn [mbind result_bind]. unfold g. rewrite Nat2Z.id, Hc. cbn. f_equal. apply Hrep.
Qed.

Lemma embeds_ok x : int_sum counts <= py_len (on_host (inputs_embeds x)) \/ req_prompt_embeds b = ∅ ->
  exists x', (if bool_decide (req_prompt_embeds b = ∅) then Ok x
       else '(_, embeds) ← for_each (copy_embeds b) (imap pair (take (Z.to_nat (ib_num_reqs b)) counts)) (0, inputs_embeds x);
            Ok (x <| inputs_embeds := embeds |>)) = Ok x' /\ (exists e, x' = x <| inputs_embeds := e |>) /\
    (forall k rq e y, pl !! k = Some rq -> req_prompt_embeds b !! rq.1 = Some e -> e !! Z.to_nat rq.2 = Some y -> on_host (inputs_embeds x') !! k = Some y).
Proof using Hok Hix Hsp.
  intros Hroom. case_bool_decide as Hemp.
  { exists x. split; [done|]. split; [exists (inputs_embeds x); by destruct x|]. intros k rq e y _ He. by rewrite Hemp, lookup_empty in He. }
  destruct Hroom as [Hroom|?]; [|done].
  assert (Htake : take (Z.to_nat (ib_num_reqs b)) counts = counts).
  { apply take_ge. rewrite (no_holes_full b Hix), (sp_rows _ _ _ _ _ Hsp). unfold py_len. lia. }
  destruct (copy_embeds_ok b counts 0 0 (inputs_embeds x)) as (buf & Hrun & _ & Hnew); [|lia | done|].
  { intros i n Hi. pose proof (sp_pos _ _ _ _ _ Hsp) as Hp. rewrite Forall_lookup in Hp. split; [exact (Hp _ _ Hi)|].
    destruct (row_request h reqs specs b v counts Hok Hix Hsp i n Hi) as (id & r & row & Hid & Hr & _ & Hrow & Hrep & _).
    exists row. split; [done|]. rewrite (rr_computed _ _ _ _ Hrep). by destruct (sp_row _ _ _ _ _ Hsp i id r n Hid Hr Hi). }
  rewrite Htake. change (imap pair counts) with (imap (fun i n => ((0 + i)%nat, n)) counts). rewrite Hrun. cbn [mbind result_bind].
  eexists. split; [reflexivity|]. split; [eauto|]. intros k [r q] e y Hk He Hy.
  destruct (places_inv _ _ Hlen Hpos _ _ _ Hk) as (p & nc & n & j & -> & Hnc & Hn & Hj & -> & Hkk).
  destruct (row_request h reqs specs b v counts Hok Hix Hsp p n Hn) as (id & r & row & _ & _ & _ & Hrow & Hrep & Hc).
  rewrite Hc in Hnc. injection Hnc as <-. cbn [fst snd] in *. rewrite <- (rr_computed _ _ _ _ Hrep) in Hy.
  specialize (Hnew p n row e j y Hn Hrow He Hj Hy). replace (Z.to_nat (0 + int_sum (take p counts) + j)) with k in Hnew by lia. exact Hnew.
Qed.

Lemma tables_ok : Forall (fun t => int_sum counts <= py_len (slot_mapping t)) (ib_block_table b) ->
  exists ts, multi_slot_mapping pl (ib_block_table b) = Ok ts /\
    Forall2 slots_in (ib_block_table b) (multi_commit_slot_mapping (int_sum counts) ts).
Proof using Hok Hix Hsp.
  intros Hroom. destruct (mapM_total (compute_slot_mapping pl) (fun t t' => slots_in t (commit_slot_mapping (int_sum counts) t')) (ib_block_table b))
    as (ts & Hrun & Hall).
  - intros t Ht. apply list_elem_of_lookup in Ht as [i Ht]. rewrite Forall_lookup in Hroom.
    pose proof (sh_tables _ _ (bo_shape _ _ _ _ _ Hok)) as Htab. destruct (Forall2_lookup_l _ _ _ _ _ Htab Ht) as (w & Hw & _).
    destruct (slots_ok h reqs specs b v counts Hok Hix Hsp i t w Ht Hw (Hroom _ _ Ht)) as (slots & Hs & Hall).
    eexists. split; [exact Hs|]. do 2 eexists. split; [reflexivity | exact Hall].
  - exists ts. split; [exact Hrun|]. unfold multi_commit_slot_mapping. by apply Forall2_fmap_r.
Qed.

Lemma write_tokens_ok x : room c counts b x ->
  exists ts x', write_tokens c so counts (fst <$> pl) (zip_with Z.sub (seqZ 0 (int_sum counts)) (np_repeat (starts_from 0 counts) counts)) b x
    = Ok (b <| ib_block_table := ts |>, x') /\ tokens_in x x' /\ Forall2 slots_in (ib_block_table b) ts.
Proof using Hok Hix Hsp Htotal.
  intros [_ Hids Hps Hfl Hem Hsl _ _ _ _]. pose proof places_count as Hpl. pose proof (sh_row _ _ (bo_shape _ _ _ _ _ Hok)) as Hsize.
  unfold write_tokens. rewrite read_contexts. cbn [mbind result_bind]. rewrite np_binary_ok.
  2:{ pose proof (length_np_repeat (contexts b) counts Hlen Hpos). pose proof (length_np_repeat (starts_from 0 counts) counts (length_starts_from _ _) Hpos).
      rewrite length_zip_with, length_seqZ. lia. }
  cbn [mbind result_bind]. rewrite (places_positions _ _ Hlen Hpos). rewrite buf_write_ok by (unfold py_len in *; rewrite ?length_fmap; lia). cbn [mbind result_bind].
  destruct (read_column h reqs specs b v counts Hok Hix Hsp row_token_ids) as (ids & Hrd & Hall).
  { eapply Forall_impl; [exact Hsize|]. by intros row []. }
  rewrite Hrd. apply Forall2_length in Hall as Hl. cbn [mbind result_bind]. rewrite buf_write_ok by (unfold py_len in *; lia). cbn [mbind result_bind].
  set (x1 := x <| positions := _ |> <| input_ids := _ |>).
  assert (Hflags : exists x2, (if ic_enable_prompt_embeds c then
         flags ← index_select (concat (row_is_token_ids <$> rows b)) (zip_with (fun p r => p + r * ib_max_model_len b) (snd <$> pl) (fst <$> pl));
         flags_buf ← buf_write 0 (total_num_scheduled_tokens so) flags (is_token_ids x1);
         Ok (x1 <| is_token_ids := flags_buf |>)
       else Ok x1) = Ok x2 /\ (exists f, x2 = x1 <| is_token_ids := f |>) /\
       (ic_enable_prompt_embeds c = true -> column_in row_is_token_ids (on_host (is_token_ids x2)))).
  { destruct (ic_enable_prompt_embeds c) eqn:He; [|exists x1; split; [done|]; split; [exists (is_token_ids x1); by destruct x1 | done]].
    destruct (read_column h reqs specs b v counts Hok Hix Hsp row_is_token_ids) as (fl & Hrd2 & Hall2).
    { eapply Forall_impl; [exact Hsize|]. by intros row []. }
    rewrite Hrd2. apply Forall2_length in Hall2 as Hl2. specialize (Hfl eq_refl). cbn [mbind result_bind].
    rewrite buf_write_ok by (change (is_token_ids x1) with (is_token_ids x); unfold py_len in *; lia). cbn [mbind result_bind].
    eexists. split; [reflexivity|]. split; [eauto|]. intros _. do 2 eexists. split; [reflexivity | exact Hall2]. }
  destruct Hflags as (x2 & -> & (f & Hx2) & Hcol). cbn [mbind result_bind].
  destruct (embeds_ok x2) as (x3 & -> & (e & Hx3) & Hemb); [by rewrite Hx2|]. cbn [mbind result_bind].
  assert (Hzip : zip (fst <$> pl) (snd <$> pl) = pl) by apply zip_fst_snd. rewrite Hzip.
  destruct (tables_ok Hsl) as (ts & -> & Hts). cbn [mbind result_bind]. rewrite Htotal. do 2 eexists. split; [reflexivity|]. split; [|exact Hts].
  split; rewrite ?Hx3 in *; rewrite ?Hx2 in *; try done; cbn.
  - eauto.
  - do 2 eexists. split; [reflexivity | exact Hall].
Qed.
End Written.

(** ** The bounds of the rows *)

Lemma buf_fill_at {A} (l rest : list A) v dev :
  buf_fill_from (py_len l) v (mkBuffer (l ++ rest) dev) = mkBuffer (l ++ replicate (length rest) v) dev.
Proof.
  unfold buf_fill_from, slice_pos, py_len. cbn [on_host on_device]. rewrite length_app. destruct (Z.ltb_spec (Z.of_nat (length l)) 0); [lia|].
  rewrite Z.min_l, Nat2Z.id by lia. rewrite take_app_length. do 2 f_equal. f_equal. lia.
Qed.

(** The starts of the rows and the end, padded with the end; and the lengths, padded with zeros. *)
Record bounds_in (ncs counts : list Z) (x x' : InputBuffers) : Prop := {
  bi_starts : exists m, query_start_loc x' = let l := 0 :: cumsum counts ++ replicate m (int_sum counts) in mkBuffer l l;
  bi_lens : exists m, seq_lens x' = let l := zip_with Z.add ncs counts ++ replicate m 0 in mkBuffer l l;
  bi_rest : x' = x <| query_start_loc := query_start_loc x' |> <| seq_lens := seq_lens x' |>;
}.

Lemma write_bounds_ok counts b x : index_ok b [] -> length counts = length (ib_req_ids b) -> counts <> [] ->
  length (contexts b) = length counts ->
  py_len counts + 1 <= py_len (on_host (query_start_loc x)) -> py_len counts <= py_len (on_host (seq_lens x)) ->
  exists x', write_bounds counts (cumsum counts) b x = Ok x' /\ bounds_in (contexts b) counts x x'.
Proof.
  intros Hix Hn Hne Hcx Hroom1 Hroom2. unfold write_bounds. rewrite (no_holes_full b Hix).
  assert (Hpl : py_len (ib_req_ids b) = py_len counts) by (unfold py_len; lia). rewrite Hpl.
  destruct (on_host (query_start_loc x)) as [|y loc] eqn:Hloc; [unfold py_len in *; cbn in *; lia|].
  change (py_setitem 0 0 (y :: loc)) with (Ok (0 :: loc)). cbn [mbind result_bind].
  assert (Hcu : py_len (cumsum counts) = py_len counts) by (unfold py_len, cumsum; by rewrite length_cumsum_from).
  unfold buf_write at 2. cbn [on_host on_device]. rewrite (np_set_slice_at 1) by (rewrite ?Hcu; unfold py_len in *; cbn [length] in *; lia). cbn [mbind result_bind].
  rewrite cumsum_last by done. cbn [mbind result_bind]. change (Z.to_nat 1) with 1%nat.
  change (take 1 (0 :: loc)) with [0]. set (rest := drop (1 + length (cumsum counts)) (0 :: loc)).
  change ([0] ++ cumsum counts ++ rest) with ((0 :: cumsum counts) ++ rest).
  assert (H1 : py_len counts + 1 = py_len (0 :: cumsum counts)) by (rewrite <- Hcu; unfold py_len; cbn [length]; lia).
  rewrite H1, buf_fill_at. rewrite slice_to_nat by (unfold py_len; lia).
  assert (Hrows : row_num_computed_tokens <$> take (Z.to_nat (py_len counts)) (rows b) = contexts b).
  { unfold contexts. do 2 f_equal. unfold py_len. lia. }
  rewrite Hrows, np_binary_ok by done. cbn [mbind result_bind].
  assert (Hlz : py_len counts = py_len (zip_with Z.add (contexts b) counts)) by (unfold py_len; rewrite length_zip_with; lia).
  rewrite buf_write_ok by lia. cbn [mbind result_bind]. rewrite Hlz, buf_fill_at. eexists. split; [reflexivity|]. split; cbn.
  - eexists. reflexivity.
  - eexists. reflexivity.
  - by destruct x.
Qed.

(** ** The requests whose sample is thrown away *)

Lemma elem_of_mask mask z : z ∈ fst <$> List.filter snd (imap (fun i (d : bool) => (Z.of_nat i, d)) mask) <-> exists i : nat, z = Z.of_nat i /\ mask !! i = Some true.
Proof.
  rewrite list_elem_of_fmap. split.
  - intros ([y d] & -> & Hin). apply list_elem_of_In, filter_In in Hin as [Hin Hd]. cbn in Hd. subst d. apply list_elem_of_In, list_elem_of_lookup in Hin as [i Hi].
    rewrite list_lookup_imap in Hi. destruct (mask !! i) as [d|] eqn:Hm; [|done]. injection Hi as <- <-. eauto.
  - intros (i & -> & Hi). exists (Z.of_nat i, true). split; [done|]. apply list_elem_of_In, filter_In. split; [|done].
    apply list_elem_of_In, list_elem_of_lookup. exists i. by rewrite list_lookup_imap, Hi.
Qed.

Lemma length_mask mask : (length (fst <$> List.filter snd (imap (fun i (d : bool) => (Z.of_nat i, d)) mask)) <= length mask)%nat.
Proof. rewrite length_fmap. etransitivity; [apply List.filter_length_le|]. by rewrite length_imap. Qed.

Section Discards.
Context (h : OutputStore) (reqs : Requests) (specs : string -> Drafts) (b : InputBatch) (v : Views) (counts : list Z).
Context (Hok : batch_ok h reqs specs b v) (Hix : index_ok b []) (Hsp : spans_ok h reqs specs b counts).

(** A row that ends before the last token of its request. *)
Definition short_row (p : nat) : Prop := exists id r n, ib_req_ids b !! p = Some (Some id) /\ reqs !! id = Some r /\ counts !! p = Some n /\
  crs_num_computed_tokens r + n < crs_num_tokens h r.

Record discards_in (x x' : InputBuffers) : Prop := {
  di_rows : exists l rest rest', on_host (discard_request_indices x') = l ++ rest' /\
    on_device (discard_request_indices x') = l ++ rest /\ num_discarded_requests x' = py_len l /\
    forall z, z ∈ l <-> exists p, z = Z.of_nat p /\ short_row p;
  di_rest : x' = x <| num_discarded_requests := num_discarded_requests x' |> <| discard_request_indices := discard_request_indices x' |>;
}.

Lemma write_discards_ok x m dev : seq_lens x = mkBuffer (zip_with Z.add (contexts b) counts ++ replicate m 0) dev ->
  py_len counts <= py_len (on_host (discard_request_indices x)) ->
  exists x', write_discards reqs h b x = Ok x' /\ discards_in x x'.
Proof using Hok Hix Hsp.
  intros Hlens Hroom. pose proof (length_contexts h reqs specs b v counts Hok Hsp) as Hcx. pose proof (sp_rows _ _ _ _ _ Hsp) as Hn.
  set (totals := (fun o : option string => match o ≫= (reqs !!.) with Some r => crs_num_tokens h r | None => 0 end) <$> ib_req_ids b).
  unfold write_discards. rewrite (mapM_fmap _ (fun o : option string => match o ≫= (reqs !!.) with Some r => crs_num_tokens h r | None => 0 end)).
  2:{ intros o Ho. apply list_elem_of_lookup in Ho as [p Ho]. destruct (dense_lookup b p o Hix Ho) as [id ->].
      destruct (bo_cells _ _ _ _ _ Hok p id Ho) as (r & Hr & _). cbn. by rewrite Hr. }
  fold totals. cbn [mbind result_bind]. rewrite (no_holes_full b Hix), Hlens. cbn [on_host].
  assert (Htake : slice_to (py_len (ib_req_ids b)) (zip_with Z.add (contexts b) counts ++ replicate m 0) = zip_with Z.add (contexts b) counts).
  { rewrite slice_to_nat by (unfold py_len; lia). apply take_app_length'. unfold py_len. rewrite length_zip_with. lia. }
  rewrite Htake. assert (Hlt : length totals = length (ib_req_ids b)) by apply length_fmap.
  rewrite decide_True by (rewrite length_zip_with; lia). cbn [mbind result_bind].
  set (mask := zip_with Z.ltb (zip_with Z.add (contexts b) counts) totals). set (discard := fst <$> List.filter snd _).
  assert (Hld : (length discard <= length counts)%nat). { unfold discard. etransitivity; [apply length_mask|]. unfold mask. rewrite !length_zip_with. lia. }
  rewrite buf_write_ok by (unfold py_len in *; lia). cbn [mbind result_bind]. eexists. split; [reflexivity|].
  assert (Hmask : forall p, mask !! p = Some true <-> short_row p).
  { intros p. unfold mask, totals, short_row. rewrite !lookup_zip_with, list_lookup_fmap. split.
    - destruct (contexts b !! p) as [nc|] eqn:Hnc, (counts !! p) as [n|] eqn:Hp; try done. cbn.
      destruct (row_request h reqs specs b v counts Hok Hix Hsp p n Hp) as (id & r & row & Hid & Hr & _ & _ & _ & Hc).
      rewrite Hid. cbn. rewrite Hr. rewrite Hc in Hnc. injection Hnc as <-. intros [=Hb]. apply Z.ltb_lt in Hb. by exists id, r, n.
    - intros (id & r & n & Hid & Hr & Hp & Hb).
      destruct (row_request h reqs specs b v counts Hok Hix Hsp p n Hp) as (id' & r' & row & Hid' & Hr' & _ & _ & _ & Hc).
      rewrite Hid in Hid'. injection Hid' as <-. rewrite Hr in Hr'. injection Hr' as <-. rewrite Hc, Hp, Hid. cbn. rewrite Hr. f_equal. by apply Z.ltb_lt. }
  split; cbn; [|by destruct x]. exists discard. do 2 eexists. split; [reflexivity|]. split; [|split; [done|]].
  - unfold copy_to_gpu, slice_pos, py_len. rewrite length_app. destruct (Z.ltb_spec (Z.of_nat (length discard)) 0); [lia|].
    rewrite Z.min_l, Nat2Z.id, take_app_length by lia. reflexivity.
  - intros z. unfold discard. rewrite elem_of_mask. split; intros (p & -> & Hp); exists p; (split; [done|]); by apply Hmask.
Qed.
End Discards.
