(* ===== verification/StepInputs.v ===== *)
(** * A step's inputs and the logits it reads

    [prepare_inputs] as a whole, and the indices of speculative decoding: which logits judge
    which draft. *)

From S2P Require Import Prelude PyDict PyList PyInt PyFloat Request Outputs Numpy BlockTable Sampling BatchUpdate InputBatch ReorderBatch InputBatchInv InputBatchOps ReorderProps WorkerStates WorkerInv WorkerStep WorkerStart ModelInputs.
#[local] Open Scope Z_scope.

(** ** Reading the logits of the last tokens of each row *)

Lemma snd_places_ones F : snd <$> places F (replicate (length F) 1) = F.
Proof.
  change (places F (replicate (length F) 1)) with (concat (places_from 0 F (replicate (length F) 1))). generalize 0%nat as r0.
  induction F as [|f F IH]; intros r0; [done|]. cbn [length replicate]. rewrite places_from_cons. cbn [concat]. rewrite fmap_app, IH. done.
Qed.

Section Tails.
Context (ncs counts sampled : list Z).
Context (Hlen : length ncs = length counts) (Hls : length sampled = length counts).
Context (Hfit : Forall2 (fun k n => 0 <= k <= n) sampled counts).

Lemma sampled_nonneg : Forall (fun n => 0 <= n) sampled.
Proof using Hlen Hls Hfit. apply Forall_lookup. intros i k Hk. destruct (Forall2_lookup_l _ _ _ _ _ Hfit Hk) as (n & _ & ?). lia. Qed.

Lemma counts_nonneg_tails : Forall (fun n => 0 <= n) counts.
Proof using Hlen Hls Hfit. apply Forall_lookup. intros i n Hn. destruct (Forall2_lookup_r _ _ _ _ _ Hfit Hn) as (k & _ & ?). lia. Qed.

(** Where the last [sampled] tokens of each row are in the flattened inputs. *)
Definition tail_indices : list Z := snd <$> places (zip_with Z.sub (cumsum counts) sampled) sampled.

(** The places of these tokens. *)
Definition tails : list (Z * Z) := places (zip_with Z.sub (zip_with Z.add ncs counts) sampled) sampled.

Lemma length_firsts : length (zip_with Z.sub (cumsum counts) sampled) = length sampled.
Proof using Hlen Hls Hfit. unfold cumsum. rewrite length_zip_with, length_cumsum_from. lia. Qed.

Lemma length_ends : length (zip_with Z.sub (zip_with Z.add ncs counts) sampled) = length sampled.
Proof using Hlen Hls Hfit. rewrite !length_zip_with. lia. Qed.

(** The [j]th of them in row [p]. *)
Lemma tail_index (p : nat) n k j : counts !! p = Some n -> sampled !! p = Some k -> 0 <= j < k ->
  tail_indices !! Z.to_nat (int_sum (take p sampled) + j) = Some (int_sum (take p counts) + n - k + j).
Proof using Hlen Hls Hfit.
  intros Hn Hk Hj. unfold tail_indices. rewrite list_lookup_fmap.
  rewrite (places_lookup _ _ length_firsts sampled_nonneg p (int_sum (take p counts) + n - k) k j); [done | | done | done].
  rewrite lookup_zip_with, Hk. unfold cumsum. rewrite cumsum_from_lookup by (by apply lookup_lt_Some in Hn). cbn [mbind option_bind]. f_equal.
  rewrite (take_S_r _ _ _ Hn), int_sum_app. unfold int_sum at 2. cbn. lia.
Qed.

Lemma tail_place (p : nat) nc n k j : ncs !! p = Some nc -> counts !! p = Some n -> sampled !! p = Some k -> 0 <= j < k ->
  places ncs counts !! Z.to_nat (int_sum (take p counts) + n - k + j) = Some (Z.of_nat p, nc + n - k + j).
Proof using Hlen Hls Hfit.
  intros Hnc Hn Hk Hj. destruct (Forall2_lookup_lr _ _ _ _ _ _ Hfit Hk Hn) as [Hk0 Hkn].
  replace (int_sum (take p counts) + n - k + j) with (int_sum (take p counts) + (n - k + j)) by lia.
  rewrite (places_lookup ncs counts Hlen counts_nonneg_tails p nc n (n - k + j)) by (done || lia). do 2 f_equal. lia.
Qed.

(** The logits read are those of the last tokens, row after row. *)
Lemma tail_indices_places : Forall2 (fun rq i => 0 <= i /\ places ncs counts !! Z.to_nat i = Some rq) tails tail_indices.
Proof using Hlen Hls Hfit.
  apply Forall2_same_length_lookup. split.
  - unfold tails, tail_indices. rewrite length_fmap. apply Nat2Z.inj.
    rewrite (length_places _ _ length_ends sampled_nonneg). by rewrite (length_places _ _ length_firsts sampled_nonneg).
  - intros k [r q] i Hr Hi. destruct (places_inv _ _ length_ends sampled_nonneg _ _ _ Hr) as (p & e & m & j & -> & He & Hm & Hj & -> & Hk).
    rewrite !lookup_zip_with, Hm in He. destruct (ncs !! p) as [nc|] eqn:Hnc, (counts !! p) as [n|] eqn:Hn; try done. injection He as <-.
    pose proof (tail_index p n m j Hn Hm Hj) as Hti. replace (Z.to_nat (int_sum (take p sampled) + j)) with k in Hti by lia.
    rewrite Hi in Hti. injection Hti as ->. rewrite (tail_place p nc n m j) by done. split; [|do 2 f_equal; lia].
    destruct (Forall2_lookup_lr _ _ _ _ _ _ Hfit Hm Hn) as [Hk0 Hkn].
    pose proof (int_sum_nonneg (take p counts) (Forall_take _ _ _ counts_nonneg_tails)). lia.
Qed.
End Tails.

(** ** Speculative decoding *)

Lemma int_sum_le l k : Forall2 Z.le l k -> int_sum l <= int_sum k.
Proof. induction 1 as [|x y l k Hxy _ IH]; [done|]. unfold int_sum in *. cbn. lia. Qed.

Lemma zip_starts l : zip_with Z.sub (cumsum l) l = starts_from 0 l.
Proof. apply starts_from_sub. Qed.

(** The array that is added to the repeated firsts has their length. *)
Lemma length_aranges (firsts ks : list Z) : length firsts = length ks -> Forall (fun n => 0 <= n) ks ->
  length (np_repeat firsts ks) = length (zip_with Z.sub (seqZ 0 (int_sum ks)) (np_repeat (starts_from 0 ks) ks)).
Proof.
  intros Hl Hp. pose proof (length_np_repeat firsts ks Hl Hp). pose proof (length_np_repeat (starts_from 0 ks) ks (length_starts_from _ _) Hp).
  rewrite length_zip_with, length_seqZ. lia.
Qed.

Section Spec.
Context (ncs counts drafts : list Z) (limit : Z) (dev : list Z).
Context (Hlen : length ncs = length counts) (Hld : length drafts = length counts) (Hne : counts <> []).
Context (Hfit : Forall2 (fun d n => 0 <= d < n) drafts counts).
Context (Hlimit : int_sum counts <= limit) (Hdev : int_sum counts <= py_len dev).

Abbreviation sampled := ((fun n => n + 1) <$> drafts).

Lemma sampled_fit : Forall2 (fun k n => 0 <= k <= n) sampled counts.
Proof using Hlen Hld Hne Hfit Hlimit Hdev. apply Forall2_fmap_l. eapply Forall2_impl; [exact Hfit|]. cbn. lia. Qed.

Lemma drafts_nonneg : Forall (fun n => 0 <= n) drafts.
Proof using Hlen Hld Hne Hfit Hlimit Hdev. apply Forall_lookup. intros i k Hk. destruct (Forall2_lookup_l _ _ _ _ _ Hfit Hk) as (n & _ & ?). lia. Qed.

Lemma sum_sampled : int_sum sampled <= limit /\ int_sum drafts <= limit.
Proof using Hlen Hld Hne Hfit Hlimit Hdev.
  split; (etransitivity; [apply int_sum_le | exact Hlimit]).
  - eapply Forall2_impl; [exact sampled_fit|]. cbn. lia.
  - eapply Forall2_impl; [exact Hfit|]. cbn. lia.
Qed.

Lemma length_sampled : length sampled = length counts.
Proof using Hlen Hld Hne Hfit Hlimit Hdev. by rewrite length_fmap. Qed.

(** The index of the token in the row's segment of the sampled logits. *)
Definition targets : list Z := snd <$> places (starts_from 0 sampled) drafts.

Lemma length_target_starts : length (starts_from 0 sampled) = length drafts.
Proof using Hlen Hld Hne Hfit Hlimit Hdev. by rewrite length_starts_from, length_fmap. Qed.

Lemma target_index (p : nat) d j : drafts !! p = Some d -> 0 <= j < d ->
  targets !! Z.to_nat (int_sum (take p drafts) + j) = Some (int_sum (take p sampled) + j).
Proof using Hlen Hld Hne Hfit Hlimit Hdev.
  intros Hd Hj. unfold targets. rewrite list_lookup_fmap. rewrite (places_lookup _ _ length_target_starts drafts_nonneg p (int_sum (take p sampled)) d j); try done.
  rewrite starts_from_lookup; [done|]. rewrite length_fmap. by apply lookup_lt_Some in Hd.
Qed.

Lemma target_inv k i : targets !! k = Some i -> exists (p : nat) d j, drafts !! p = Some d /\ 0 <= j < d /\ i = int_sum (take p sampled) + j /\
  Z.of_nat k = int_sum (take p drafts) + j.
Proof using Hlen Hld Hne Hfit Hlimit Hdev.
  unfold targets. rewrite list_lookup_fmap. destruct (places (starts_from 0 sampled) drafts !! k) as [[r q]|] eqn:Hk; [|done]. intros [= <-].
  destruct (places_inv _ _ length_target_starts drafts_nonneg _ _ _ Hk) as (p & e & d & j & -> & He & Hd & Hj & -> & Hkk).
  exists p, d, j. split; [done|]. split; [done|]. split; [|lia]. cbn. rewrite starts_from_lookup in He by (rewrite length_fmap; by apply lookup_lt_Some in Hd). injection He as <-. lia.
Qed.

(** The token after the logits' one. *)
Lemma draft_at (p : nat) n d j : counts !! p = Some n -> drafts !! p = Some d -> 0 <= j <= d ->
  tail_indices counts sampled !! Z.to_nat (int_sum (take p sampled) + j) = Some (int_sum (take p counts) + n - d - 1 + j).
Proof using Hlen Hld Hne Hfit Hlimit Hdev.
  intros Hn Hd Hj. rewrite (tail_index ncs counts sampled Hlen length_sampled sampled_fit p n (d + 1) j Hn); [f_equal; lia | | lia].
  by rewrite list_lookup_fmap, Hd.
Qed.

Lemma draft_tokens_ok : exists logits_ids toks, mapM (py_index dev) (tail_indices counts sampled) = Ok logits_ids /\
  mapM (fun i => py_index logits_ids (i + 1)) targets = Ok toks /\
  forall (p : nat) n d j, counts !! p = Some n -> drafts !! p = Some d -> 0 <= j < d ->
    exists t, toks !! Z.to_nat (int_sum (take p drafts) + j) = Some t /\ dev !! Z.to_nat (int_sum (take p counts) + n - d + j) = Some t.
Proof using Hlen Hld Hne Hfit Hlimit Hdev.
  destruct (mapM_total (py_index dev) (fun i t => dev !! Z.to_nat i = Some t) (tail_indices counts sampled)) as (ids & Hids & Hall).
  { intros i Hi. pose proof (tail_indices_places ncs counts sampled Hlen length_sampled sampled_fit) as Ht. apply list_elem_of_lookup in Hi as [k Hk].
    destruct (Forall2_lookup_r _ _ _ _ _ Ht Hk) as ([r q] & _ & Hi0 & Hpl). apply lookup_lt_Some in Hpl.
    pose proof (length_places ncs counts Hlen (counts_nonneg_tails ncs counts sampled Hlen length_sampled sampled_fit)) as Hl. unfold py_len in Hdev.
    destruct (lookup_lt_is_Some_2 dev (Z.to_nat i)) as [t Ht']; [lia|]. exists t. split; [by apply py_index_Some | done]. }
  assert (Hnext : forall i, i ∈ targets -> exists t, py_index ids (i + 1) = Ok t /\ exists l, 0 <= i /\ tail_indices counts sampled !! Z.to_nat (i + 1) = Some l /\ dev !! Z.to_nat l = Some t).
  { intros i Hi. apply list_elem_of_lookup in Hi as [k Hk]. destruct (target_inv k i Hk) as (p & d & j & Hd & Hj & -> & _).
    destruct (Forall2_lookup_l _ _ _ _ _ Hfit Hd) as (n & Hn & _). pose proof (draft_at p n d (j + 1) Hn Hd ltac:(lia)) as Hat.
    replace (int_sum (take p sampled) + j + 1) with (int_sum (take p sampled) + (j + 1)) by lia.
    destruct (Forall2_lookup_l _ _ _ _ _ Hall Hat) as (t & Ht & Hdt).
    assert (0 <= int_sum (take p sampled)) by (apply int_sum_nonneg, Forall_take; exact (sampled_nonneg ncs counts sampled Hlen length_sampled sampled_fit)).
    exists t. split; [apply py_index_Some; [lia | done]|]. eexists. split_and!; [lia | exact Hat | exact Hdt]. }
  destruct (mapM_total (fun i => py_index ids (i + 1)) _ targets Hnext) as (toks & Htoks & Hall2). exists ids, toks. split; [exact Hids|]. split; [exact Htoks|].
  intros p n d j Hn Hd Hj. destruct (Forall2_lookup_l _ _ _ _ _ Hall2 (target_index p d j Hd Hj)) as (t & Ht & l & _ & Hl & Hdt).
  exists t. split; [done|]. rewrite <- Z.add_assoc in Hl. rewrite (draft_at p n d (j + 1) Hn Hd ltac:(lia)) in Hl. injection Hl as <-. rewrite <- Hdt. f_equal. lia.
Qed.

Lemma calc_spec_ok : exists md, calc_spec_decode_metadata (seqZ 0 limit) dev drafts (cumsum counts) = Ok md /\
  sd_logits_indices md = tail_indices counts sampled /\ sd_target_logits_indices md = targets /\
  sd_bonus_logits_indices md = (fun n => n - 1) <$> cumsum sampled /\
  forall (p : nat) n d j, counts !! p = Some n -> drafts !! p = Some d -> 0 <= j < d ->
    exists t, sd_draft_token_ids md !! Z.to_nat (int_sum (take p drafts) + j) = Some t /\ dev !! Z.to_nat (int_sum (take p counts) + n - d + j) = Some t.
Proof using Hlen Hld Hne Hfit Hlimit Hdev.
  assert (Hnd : drafts <> []) by (intros ->; by destruct counts). assert (Hns : sampled <> []) by by destruct drafts.
  destruct sum_sampled as [Hs1 Hs2]. pose proof (sampled_nonneg ncs counts sampled Hlen length_sampled sampled_fit) as Hsn.
  destruct draft_tokens_ok as (ids & toks & Hids & Htoks & Hat).
  unfold calc_spec_decode_metadata. rewrite (get_cumsum_and_arange_ok limit sampled) by done. cbn [mbind result_bind].
  rewrite (np_binary_ok Z.sub (cumsum counts) sampled) by (unfold cumsum; rewrite length_cumsum_from; by rewrite length_sampled). cbn [mbind result_bind].
  assert (Hlf : length (zip_with Z.sub (cumsum counts) sampled) = length sampled).
  { rewrite length_zip_with. unfold cumsum. rewrite length_cumsum_from, length_sampled. lia. }
  rewrite (repeat_each_ok (zip_with Z.sub (cumsum counts) sampled)) by done. cbn [mbind result_bind]. rewrite (np_binary_ok Z.add) by (by apply length_aranges). cbn [mbind result_bind].
  rewrite (places_positions _ _ Hlf Hsn). rewrite (get_cumsum_and_arange_ok limit drafts) by (done || exact drafts_nonneg). cbn [mbind result_bind].
  rewrite (np_binary_ok Z.sub (cumsum sampled) sampled) by (unfold cumsum; by rewrite length_cumsum_from). cbn [mbind result_bind]. rewrite zip_starts.
  rewrite (repeat_each_ok (starts_from 0 sampled) drafts) by (exact length_target_starts || exact drafts_nonneg). cbn [mbind result_bind].
  rewrite (np_binary_ok Z.add) by (apply length_aranges; [exact length_target_starts | exact drafts_nonneg]). cbn [mbind result_bind].
  rewrite (places_positions _ _ length_target_starts drafts_nonneg). fold (tail_indices counts sampled). rewrite Hids. cbn [mbind result_bind].
  fold targets. rewrite Htoks. cbn [mbind result_bind]. eexists. split; [reflexivity|]. split; [done|]. split; [done|]. split; [done|]. exact Hat.
Qed.
End Spec.

(** C17: Every draft is judged by the logits of the token before it.  With at least one token more than drafts in
    every row, the indices for speculative decoding are computed without error: the target
    logits of the [j]th of [d] drafts of a row that ends at [nc + n] are read at the token
    [nc + n - 1 - d + j] of the row, the bonus logits at its last token, and the draft
    token itself is the input token right after the one its logits are read at. *)
Theorem drafts_meet_their_logits limit dev ncs counts drafts :
  length ncs = length counts -> length drafts = length counts -> counts <> [] ->
  Forall2 (fun d n => 0 <= d < n) drafts counts -> int_sum counts <= limit -> int_sum counts <= py_len dev ->
  exists md, calc_spec_decode_metadata (seqZ 0 limit) dev drafts (cumsum counts) = Ok md /\
    forall (p : nat) nc n d j, ncs !! p = Some nc -> counts !! p = Some n -> drafts !! p = Some d -> 0 <= j <= d ->
      exists i l, (if j <? d then sd_target_logits_indices md !! Z.to_nat (int_sum (take p drafts) + j) else sd_bonus_logits_indices md !! p) = Some i /\
        sd_logits_indices md !! Z.to_nat i = Some l /\
        places ncs counts !! Z.to_nat l = Some (Z.of_nat p, nc + n - 1 - d + j) /\
        (j < d -> exists t, sd_draft_token_ids md !! Z.to_nat (int_sum (take p drafts) + j) = Some t /\ dev !! Z.to_nat (l + 1) = Some t).
Proof.
  intros Hlen Hld Hne Hfit Hlimit Hdev.
  destruct (calc_spec_ok ncs counts drafts limit dev Hlen Hld Hne Hfit Hlimit Hdev) as (md & Hrun & Hl & Ht & Hb & Htok).
  exists md. split; [done|]. intros p nc n d j Hnc Hn Hd Hj. rewrite Hl, Ht, Hb. set (sampled := (fun n => n + 1) <$> drafts).
  assert (Hs : sampled !! p = Some (d + 1)) by (unfold sampled; by rewrite list_lookup_fmap, Hd).
  pose proof (lookup_lt_Some _ _ _ Hs) as Hp.
  assert (Hends : ((fun n => n - 1) <$> cumsum sampled) !! p = Some (int_sum (take p sampled) + d)).
  { unfold cumsum. rewrite list_lookup_fmap, cumsum_from_lookup by done. cbn [fmap option_map]. rewrite (take_S_r _ _ _ Hs), int_sum_app. unfold int_sum at 2. cbn. f_equal. lia. }
  pose proof (draft_at ncs counts drafts limit dev Hlen Hld Hne Hfit Hlimit Hdev p n d j Hn Hd Hj) as Hat. fold sampled in Hat.
  pose proof (tail_place ncs counts sampled Hlen ltac:(unfold sampled; by rewrite length_fmap) (sampled_fit ncs counts drafts limit dev Hlen Hld Hne Hfit Hlimit Hdev)
    p nc n (d + 1) j Hnc Hn Hs ltac:(lia)) as Hpl.
  exists (int_sum (take p sampled) + j), (int_sum (take p counts) + n - d - 1 + j). split_and!.
  - destruct (Z.ltb_spec j d); [apply (target_index ncs counts drafts limit dev Hlen Hld Hne Hfit Hlimit Hdev p d); [done | lia] | rewrite Hends; f_equal; lia].
  - exact Hat.
  - replace (int_sum (take p counts) + n - d - 1 + j) with (int_sum (take p counts) + n - (d + 1) + j) by lia. rewrite Hpl. do 2 f_equal. lia.
  - intros Hlt. destruct (Htok p n d j Hn Hd ltac:(lia)) as (t & H1 & H2). exists t. split; [exact H1|]. rewrite <- H2. f_equal. lia.
Qed.

(** ** The drafts of the rows *)

(** The number of drafts scheduled for each row. *)
Definition draft_counts (so : SchedulerOutput) (b : InputBatch) : list Z :=
  (fun o : option string => match o with Some id => py_len (drafts_for so id) | None => 0 end) <$> ib_req_ids b.

Lemma count_drafts_ok b l : index_ok b [] -> py_len (ib_req_ids b) <= py_len (rows b) -> NoDup l.*1 -> (forall id, id ∈ l.*1 -> live b id) ->
  forall nd dd, length nd = length (ib_req_ids b) -> length dd = length (ib_req_ids b) ->
  exists nd' dd', for_each (count_drafts b) l (nd, dd) = Ok (nd', dd') /\ length nd' = length nd /\ length dd' = length dd /\
    forall (p : nat) id, ib_req_ids b !! p = Some (Some id) ->
      nd' !! p = match dget id l with Some ids => Some (py_len ids) | None => nd !! p end.
Proof.
  intros Hix Hrows. induction l as [|[id0 ids] l IH]; intros Hnd Hlive nd dd Hn Hd; [by exists nd, dd|].
  apply NoDup_cons in Hnd as [Hnotin Hnd]. destruct (Hlive id0) as [p0 Hp0]; [by left|]. pose proof (lookup_lt_Some _ _ _ Hp0) as Hlt.
  assert (Hget : dget id0 (ib_req_id_to_index b) = Some (Z.of_nat p0)) by (apply (ix_get b [] Hix); eauto).
  unfold py_len in Hrows. destruct (lookup_lt_is_Some_2 (rows b) p0 ltac:(lia)) as [row Hrow].
  assert (Hstep : count_drafts b (id0, ids) (nd, dd) = Ok (<[p0 := py_len ids]> nd,
    <[p0 := if row_num_prompt_tokens row <=? row_num_computed_tokens row then py_len ids else -1]> dd)).
  { unfold count_drafts. cbn [fst snd]. rewrite Hget. cbn [or_raise mbind result_bind].
    rewrite py_setitem_nat by lia. cbn [mbind result_bind]. rewrite (py_index_nat _ _ _ Hrow). cbn [mbind result_bind]. by rewrite py_setitem_nat by lia. }
  cbn [for_each]. rewrite Hstep. cbn [mbind result_bind].
  destruct (IH Hnd (fun id Hid => Hlive id (list_elem_of_further _ _ _ Hid)) (<[p0 := py_len ids]> nd)
    (<[p0 := if row_num_prompt_tokens row <=? row_num_computed_tokens row then py_len ids else -1]> dd)) as (nd' & dd' & Hrun & L1 & L2 & Hval).
  { by rewrite length_insert. } { by rewrite length_insert. }
  rewrite !length_insert in *. exists nd', dd'. split; [exact Hrun|]. split; [done|]. split; [done|]. intros p id Hp. rewrite (Hval p id Hp). cbn [dget].
  destruct (decide (id0 = id)) as [->|Hne].
  - assert (p = p0) as ->.
    { assert (Hg : dget id (ib_req_id_to_index b) = Some (Z.of_nat p)) by (apply (ix_get b [] Hix); eauto). rewrite Hget in Hg. injection Hg as Hg. lia. }
    assert (Hnone : dget id l = None) by (by apply dget_None). rewrite Hnone, list_lookup_insert_eq by lia.
    destruct (decide (id = id)); done.
  - assert (p <> p0) by (intros ->; rewrite Hp0 in Hp; by injection Hp). rewrite list_lookup_insert_ne by done.
    destruct (decide (id = id0)); [by subst|]. done.
Qed.

(** ** The step *)

(** The scheduler's message, the runner and the buffers fit together. *)
Record step_ready (c : InputConfig) (so : SchedulerOutput) (specs : string -> Drafts) (s : Runner) (counts : list Z) (x : InputBuffers) : Prop := {
  sy_counts : scheduled_by_row so (input_batch s) = Ok counts;
  sy_some : counts <> [];
  sy_total : total_num_scheduled_tokens so = int_sum counts;
  sy_spans : spans_ok (rn_outputs s) (rn_requests s) specs (input_batch s) counts;
  sy_room : room c counts (input_batch s) x;
  sy_draft_dict : dict_ok (scheduled_spec_decode_tokens so);
  sy_draft_rows : forall id, id ∈ dkeys (scheduled_spec_decode_tokens so) -> live (input_batch s) id;
  sy_draft_counts : Forall2 (fun d n => d < n) (draft_counts so (input_batch s)) counts;
  sy_lora : ic_lora c = true -> int_sum ((fun n => n + 1) <$> draft_counts so (input_batch s)) <= ic_max_num_batched_tokens c;
}.

(** What the model gets. *)
Record inputs_ready (c : InputConfig) (so : SchedulerOutput) (specs : string -> Drafts) (s s' : Runner) (counts : list Z) (mi : ModelInputs) (x : InputBuffers) : Prop := {
  ir_tokens : forall k rq, places (contexts (input_batch s)) counts !! k = Some rq ->
    exists (p : nat) id r, rq.1 = Z.of_nat p /\ ib_req_ids (input_batch s) !! p = Some (Some id) /\ rn_requests s !! id = Some r /\
      on_device (positions x) !! k = Some rq.2 /\
      forall t, tokens_of (rn_outputs s) r (specs id).1 !! Z.to_nat rq.2 = Some (Some t) -> on_device (input_ids x) !! k = Some t;
  ir_embeds : ic_enable_prompt_embeds c = true -> forall k (p : nat) q id r e y, places (contexts (input_batch s)) counts !! k = Some (Z.of_nat p, q) ->
    ib_req_ids (input_batch s) !! p = Some (Some id) -> rn_requests s !! id = Some r -> crs_prompt_embeds r = Some e -> e !! Z.to_nat q = Some y ->
    on_device (inputs_embeds x) !! k = Some y;
  ir_slots : Forall2 (fun t t' => bt_rows t' = bt_rows t /\ num_blocks_per_row t' = num_blocks_per_row t /\
      forall k rq, places (contexts (input_batch s)) counts !! k = Some rq ->
        exists slot, token_slot t rq.1 rq.2 = Ok slot /\ slot_mapping_gpu t' !! k = Some slot)
    (ib_block_table (input_batch s)) (ib_block_table (input_batch s'));
  ir_starts : exists m, on_device (query_start_loc x) = 0 :: cumsum counts ++ replicate m (int_sum counts);
  ir_lens : exists m, on_device (seq_lens x) = zip_with Z.add (contexts (input_batch s)) counts ++ replicate m 0;
  ir_discards : exists l rest rest', on_host (discard_request_indices x) = l ++ rest' /\
    on_device (discard_request_indices x) = l ++ rest /\ num_discarded_requests x = py_len l /\
    forall z, z ∈ l <-> exists p, z = Z.of_nat p /\ short_row (rn_outputs s) (rn_requests s) (input_batch s) counts p;
  ir_logits : Forall2 (fun rq i => 0 <= i /\ places (contexts (input_batch s)) counts !! Z.to_nat i = Some rq)
    (tails (contexts (input_batch s)) counts ((fun n => n + 1) <$> draft_counts so (input_batch s))) (mi_logits_indices mi);
  ir_batch : exists ts, s' = s <| input_batch := input_batch s <| ib_block_table := ts |> |>;
}.

Lemma index_ok_tables b holes ts : index_ok b holes -> index_ok (b <| ib_block_table := ts |>) holes.
Proof. intros []. by split. Qed.

Lemma spans_ok_tables h reqs specs b counts ts : spans_ok h reqs specs b counts -> Forall2 same_layout (ib_block_table b) ts ->
  spans_ok h reqs specs (b <| ib_block_table := ts |>) counts.
Proof.
  intros [H1 H2 H3] Hl. split; try done. intros p id r n Hid Hr Hn. destruct (H3 p id r n Hid Hr Hn) as (Ha & Hb & Hc). split; [done|]. split; [done|].
  cbn. apply Forall2_same_length_lookup. apply Forall2_length in Hl as Hll. apply Forall2_length in Hc as Hlc. split; [lia|].
  intros i t' ids Ht' Hids. destruct (Forall2_lookup_r _ _ _ _ _ Hl Ht') as (t & Ht & Hsl). rewrite (same_layout_gbs t t' Hsl).
  exact (Forall2_lookup_lr _ _ _ _ _ _ Hc Ht Hids).
Qed.

Lemma length_le_sum l : Forall (fun n => 0 < n) l -> Z.of_nat (length l) <= int_sum l.
Proof. unfold int_sum. induction 1 as [|n l Hn _ IH]; cbn in *; lia. Qed.

(** What a copy brings to the device. *)
Lemma copied {A} n (cpu gpu : list A) k y : cpu !! k = Some y -> Z.of_nat k < n -> copy_to_gpu n cpu gpu !! k = Some y.
Proof.
  intros Hk Hlt. apply lookup_lt_Some in Hk as Hl. unfold copy_to_gpu, slice_pos. destruct (Z.ltb_spec n 0); [lia|].
  rewrite lookup_app_l by (rewrite length_take; lia). by rewrite lookup_take_lt by lia.
Qed.

Lemma length_copied {A} n (cpu gpu : list A) : 0 <= n <= py_len cpu -> n <= py_len (copy_to_gpu n cpu gpu).
Proof.
  unfold py_len, copy_to_gpu, slice_pos. intros Hn. destruct (Z.ltb_spec n 0); [lia|]. rewrite length_app, length_take. lia.
Qed.

Section Logits.
Context (c : InputConfig) (so : SchedulerOutput) (b : InputBatch) (counts : list Z).
Context (Hix : index_ok b []) (Hrows : py_len (ib_req_ids b) <= py_len (rows b)).
Context (Hn : length counts = length (ib_req_ids b)) (Hne : counts <> []).
Context (Hdict : dict_ok (scheduled_spec_decode_tokens so)) (Hkeys : forall id, id ∈ dkeys (scheduled_spec_decode_tokens so) -> live b id).
Context (Hfit : Forall2 (fun d n => d < n) (draft_counts so b) counts).

Lemma draft_fit : Forall2 (fun d n => 0 <= d < n) (draft_counts so b) counts.
Proof using Hfit.
  apply Forall2_same_length_lookup. split; [exact (Forall2_length _ _ _ Hfit)|]. intros i d n Hd Hi. pose proof (Forall2_lookup_lr _ _ _ _ _ _ Hfit Hd Hi) as Hlt.
  split; [|exact Hlt]. clear Hn. unfold draft_counts in Hd. rewrite list_lookup_fmap in Hd. destruct (ib_req_ids b !! i) as [o|]; [|done]. injection Hd as <-.
  destruct o; unfold py_len; lia.
Qed.

(** Counting the drafts in a dictionary is counting them row by row. *)
Lemma counted : exists dd, for_each (count_drafts b) (scheduled_spec_decode_tokens so)
    (zeros (ib_num_reqs b), replicate (Z.to_nat (ib_num_reqs b)) (-1)) = Ok (draft_counts so b, dd) /\ length dd = length counts.
Proof using Hix Hrows Hn Hdict Hkeys.
  pose proof (no_holes_full b Hix) as Hnum. assert (Hz : Z.to_nat (ib_num_reqs b) = length (ib_req_ids b)) by (rewrite Hnum; unfold py_len; lia).
  destruct (count_drafts_ok b (scheduled_spec_decode_tokens so) Hix Hrows Hdict Hkeys (zeros (ib_num_reqs b)) (replicate (Z.to_nat (ib_num_reqs b)) (-1)))
    as (nd & dd & Hrun & L1 & L2 & Hval); [unfold zeros; by rewrite length_replicate | by rewrite length_replicate|].
  exists dd. split; [|rewrite L2, length_replicate; lia]. rewrite Hrun. do 2 f_equal. apply list_eq. intros p.
  unfold zeros in L1. rewrite length_replicate in L1. unfold draft_counts. rewrite list_lookup_fmap.
  destruct (ib_req_ids b !! p) as [o|] eqn:Ho.
  - destruct (dense_lookup b p o Hix Ho) as [id ->]. rewrite (Hval p id Ho). cbn. unfold drafts_for, dget_or.
    destruct (dget id (scheduled_spec_decode_tokens so)); [done|]. apply lookup_replicate. split; [done|]. rewrite Hz. by apply lookup_lt_Some in Ho.
  - apply lookup_ge_None in Ho. cbn. apply lookup_ge_None. lia.
Qed.

Lemma logits_ok limit x rest : ic_arange_np c = seqZ 0 limit -> int_sum counts <= limit ->
  on_device (query_start_loc x) = 0 :: cumsum counts ++ rest -> int_sum counts <= py_len (on_device (input_ids x)) ->
  py_len counts <= py_len (on_host (num_decode_draft_tokens x)) ->
  exists md x', logits_of_step c so (cumsum counts) b x
    = Ok (tail_indices counts ((fun n => n + 1) <$> draft_counts so b), md, (fun n => n + 1) <$> draft_counts so b, x') /\
    exists buf, x' = x <| num_decode_draft_tokens := buf |>.
Proof using Hix Hrows Hn Hne Hdict Hkeys Hfit.
  intros Hc Hlim Hloc Hdev Hroom. pose proof draft_fit as Hdf. apply Forall2_length in Hfit as Hld.
  pose proof (no_holes_full b Hix) as Hnum. unfold logits_of_step. destruct counted as (dd & Hcount & Hldd).
  destruct (scheduled_spec_decode_tokens so) as [|dr drs] eqn:Hs.
  - assert (Hz : draft_counts so b = replicate (length counts) 0).
    { unfold draft_counts, drafts_for, dget_or. rewrite Hs. apply list_eq. intros p. rewrite list_lookup_fmap.
      destruct (ib_req_ids b !! p) as [o|] eqn:Ho.
      - cbn. symmetry. apply lookup_replicate. apply lookup_lt_Some in Ho. split; [by destruct o | lia].
      - cbn. symmetry. apply lookup_ge_None in Ho. apply lookup_ge_None. rewrite length_replicate. lia. }
    assert (Hones : (fun n => n + 1) <$> draft_counts so b = replicate (length counts) 1) by (by rewrite Hz, fmap_replicate).
    rewrite Hones. exists None, x. split; [|exists (num_decode_draft_tokens x); by destruct x].
    assert (Hnr : Z.to_nat (ib_num_reqs b) = length counts) by (rewrite Hnum; unfold py_len; lia). rewrite Hnr. do 4 f_equal.
    assert (Hcl : length (cumsum counts) = length counts) by apply length_cumsum_from.
    rewrite slice_in by (rewrite ?Hloc, ?Hnum; unfold py_len; cbn [length]; rewrite ?length_app; lia). rewrite Hloc.
    replace (Z.to_nat (ib_num_reqs b + 1)) with (S (length (cumsum counts))) by (rewrite Hnum; unfold py_len; lia). change (Z.to_nat 1) with 1%nat. rewrite firstn_cons. cbn [drop].
    rewrite drop_0, take_app_length. unfold tail_indices.
    replace (replicate (length counts) 1) with (replicate (length (zip_with Z.sub (cumsum counts) (replicate (length counts) 1))) 1) at 2.
    + rewrite snd_places_ones. apply list_eq. intros p. rewrite list_lookup_fmap, lookup_zip_with.
      destruct (cumsum counts !! p) eqn:Hp; [|done]. cbn. apply lookup_lt_Some in Hp. by rewrite lookup_replicate_2 by lia.
    + f_equal. rewrite length_zip_with, length_replicate. lia.
  - rewrite Hcount. cbn [mbind result_bind]. rewrite Hc.
    destruct (calc_spec_ok counts counts (draft_counts so b) limit (on_device (input_ids x)) eq_refl Hld Hne Hdf Hlim Hdev) as (md & Hrun & Hl & _).
    rewrite Hrun. cbn [mbind result_bind]. rewrite buf_write_ok by (rewrite ?Hnum; unfold py_len in *; lia). cbn [mbind result_bind]. rewrite Hl.
    do 2 eexists. split; [reflexivity|]. eauto.
Qed.
End Logits.

Lemma commit_same_layout n ts : Forall2 same_layout ts (multi_commit_block_table n ts).
Proof. unfold multi_commit_block_table. induction ts as [|t ts IH]; constructor; [by split_and! | exact IH]. Qed.

(** Copies and slots leave the rows of the tables alone. *)
Lemma slots_layout b counts ts ts' : Forall2 (slots_in b counts) ts ts' ->
  Forall2 (fun t t' => same_layout t t' /\ bt_rows t' = bt_rows t /\ num_blocks_per_row t' = num_blocks_per_row t) ts ts'.
Proof. intros Hts. eapply Forall2_impl; [exact Hts|]. intros t t' (slots & rest & -> & _). by split_and!. Qed.

Lemma same_tables_ok n ts ts' v : Forall2 (fun t w => settings_ok t /\ holds t w /\ py_len w = n) ts v ->
  Forall2 (fun t t' => same_layout t t' /\ bt_rows t' = bt_rows t /\ num_blocks_per_row t' = num_blocks_per_row t) ts ts' ->
  Forall2 (fun t w => settings_ok t /\ holds t w /\ py_len w = n) ts' v.
Proof.
  intros Ht. revert ts'. induction Ht as [|t w ts v Hw _ IH]; intros ts' Hs; inversion Hs as [|? t' ? ts1 (H1 & H2 & H3) Hr]; subst; constructor.
  - by apply (same_rows_ok n t).
  - by apply IH.
Qed.

Section Run.
Context (c : InputConfig) (so : SchedulerOutput) (specs : string -> Drafts) (s : Runner) (v : Views) (counts : list Z) (x : InputBuffers).
Context (Hok : batch_ok (rn_outputs s) (rn_requests s) specs (input_batch s) v) (Hix : index_ok (input_batch s) []).
Context (Hready : step_ready c so specs s counts x).

Abbreviation b := (input_batch s).
Abbreviation pl := (places (contexts b) counts).

(** The batch while the inputs are written: its tables have been committed. *)
Definition committed : InputBatch := b <| ib_block_table := multi_commit_block_table (ib_num_reqs b) (ib_block_table b) |>.

Lemma committed_ok : batch_ok (rn_outputs s) (rn_requests s) specs committed v /\ index_ok committed [] /\
  spans_ok (rn_outputs s) (rn_requests s) specs committed counts /\ room c counts committed x.
Proof using Hok Hix Hready.
  destruct Hready as [_ _ _ Hsp [] _ _ _ _]. split; [|split; [|split]].
  - apply batch_ok_tables; [done|]. pose proof (sh_tables _ _ (bo_shape _ _ _ _ _ Hok)) as Ht. unfold multi_commit_block_table. apply Forall2_fmap_l.
    eapply Forall2_impl; [exact Ht|]. intros t w Hw. apply (same_rows_ok _ t); [exact Hw | by split_and! | done | done].
  - by apply index_ok_tables.
  - apply spans_ok_tables; [done | apply commit_same_layout].
  - split; try done. cbn. unfold multi_commit_block_table. by apply Forall_fmap.
Qed.

Lemma request_indices limit : ic_arange_np c = seqZ 0 limit -> int_sum counts <= limit ->
  repeat_each (slice_to (ib_num_reqs b) (ic_arange_np c)) counts = Ok (fst <$> pl).
Proof using Hok Hix Hready.
  intros -> Hlim. pose proof (sp_pos _ _ _ _ _ (sy_spans _ _ _ _ _ _ Hready)) as Hp. pose proof (length_le_sum counts Hp) as Hle.
  pose proof (length_contexts _ _ _ _ _ _ Hok (sy_spans _ _ _ _ _ _ Hready)) as Hcx. pose proof (counts_nonneg _ _ _ _ _ (sy_spans _ _ _ _ _ _ Hready)) as Hnn.
  assert (Hnum : ib_num_reqs b = Z.of_nat (length (contexts b))).
  { rewrite (no_holes_full b Hix), Hcx, (sp_rows _ _ _ _ _ (sy_spans _ _ _ _ _ _ Hready)). done. }
  rewrite Hnum, slice_to_nat, take_seqZ by lia. rewrite repeat_each_ok by (done || (rewrite length_seqZ; lia)). by rewrite (places_rows _ _ Hcx Hnn).
Qed.

(** The tokens of a column at the places are the requests' tokens. *)
Lemma column_tokens k p q y : pl !! k = Some (p, q) -> column_at b row_token_ids (p, q) y ->
  exists (p' : nat) id r, p = Z.of_nat p' /\ ib_req_ids b !! p' = Some (Some id) /\ rn_requests s !! id = Some r /\
    forall t, tokens_of (rn_outputs s) r (specs id).1 !! Z.to_nat q = Some (Some t) -> y = t.
Proof using Hok Hix Hready.
  intros Hk (row & Hrow & Hy). destruct (place_request _ _ _ _ _ _ Hok Hix (sy_spans _ _ _ _ _ _ Hready) k p q Hk)
    as (p' & id & r & row' & n & -> & Hid & Hr & _ & _ & Hrow' & Hrep & _). cbn [fst snd] in *. rewrite Nat2Z.id, Hrow' in Hrow. injection Hrow as ->.
  exists p', id, r. split_and!; try done. intros t Ht. pose proof (rr_tokens _ _ _ _ Hrep _ _ Ht) as Hrt. rewrite Hy in Hrt. by injection Hrt.
Qed.

(** The device's buffers at the end, from those of the stages. *)
Record copied_to (x3 x6 : InputBuffers) : Prop := {
  cp_ids : input_ids x6 = buf_copy (int_sum counts) (input_ids x3);
  cp_positions : positions x6 = buf_copy (int_sum counts) (positions x3);
  cp_embeds : ic_enable_prompt_embeds c = true -> inputs_embeds x6 = buf_copy (int_sum counts) (inputs_embeds x3);
  cp_starts : query_start_loc x6 = query_start_loc x3;
  cp_lens : seq_lens x6 = seq_lens x3;
  cp_discards : discard_request_indices x6 = discard_request_indices x3;
  cp_num : num_discarded_requests x6 = num_discarded_requests x3;
}.

Lemma inputs_assembled x1 x2 x3 x6 ts mi : tokens_in c committed counts x x1 -> Forall2 (slots_in committed counts) (ib_block_table committed) ts ->
  bounds_in (contexts b) counts x1 x2 -> discards_in (rn_outputs s) (rn_requests s) b counts x2 x3 -> copied_to x3 x6 ->
  mi_logits_indices mi = tail_indices counts ((fun n => n + 1) <$> draft_counts so b) ->
  inputs_ready c so specs s (s <| input_batch := b <| ib_block_table := ts |> |>) counts mi x6.
Proof using Hok Hix Hready.
  intros Hti Hts Hbi Hdi [Hids Hps Hem Hst Hln Hds Hnd] Hmi. pose proof (sy_spans _ _ _ _ _ _ Hready) as Hsp.
  pose proof (places_count _ _ _ _ _ _ Hok Hsp) as Hpl.
  assert (Hin3 : input_ids x3 = input_ids x1 /\ positions x3 = positions x1 /\ inputs_embeds x3 = inputs_embeds x1).
  { rewrite (di_rest _ _ _ _ _ _ Hdi), (bi_rest _ _ _ _ Hbi). done. }
  destruct Hin3 as (Hin3 & Hps3 & Hem3). destruct (ti_ids _ _ _ _ _ Hti) as (ids & rest & Hids1 & Hall). destruct (ti_positions _ _ _ _ _ Hti) as [rest' Hps1].
  change (contexts committed) with (contexts b) in *.
  assert (Hlt : forall k rq, pl !! k = Some rq -> Z.of_nat k < int_sum counts) by (intros k rq Hk; apply lookup_lt_Some in Hk; lia).
  split.
  - intros k [p q] Hk. destruct (Forall2_lookup_l _ _ _ _ _ Hall Hk) as (y & Hy & Hcol).
    destruct (column_tokens k p q y Hk Hcol) as (p' & id & r & -> & Hid & Hr & Htok). exists p', id, r. split; [done|]. split; [done|]. split; [done|].
    rewrite Hps, Hids, Hps3, Hin3. unfold buf_copy. cbn [on_device fst snd]. rewrite Hps1, Hids1. split.
    + apply copied; [|by eapply Hlt]. apply lookup_app_l_Some. by rewrite list_lookup_fmap, Hk.
    + intros t Ht. rewrite <- (Htok t Ht). apply copied; [by apply lookup_app_l_Some | by eapply Hlt].
  - intros He k p q id r e y Hk Hid Hr Hce Hy. destruct (bo_cells _ _ _ _ _ Hok p id Hid) as (r' & Hr' & _ & _ & Hc). rewrite Hr in Hr'. injection Hr' as <-.
    rewrite (Hem He), Hem3. unfold buf_copy. cbn [on_device]. apply copied; [|by eapply Hlt].
    apply (ti_embeds _ _ _ _ _ Hti k (Z.of_nat p, q) e y Hk); [exact (ce_embeds _ _ _ _ _ _ Hc e Hce) | exact Hy].
  - cbn in Hts |- *. unfold multi_commit_block_table in Hts. rewrite Forall2_fmap_l in Hts. eapply Forall2_impl; [exact Hts|].
    intros t t' (slots & rs & -> & Hsl). split; [done|]. split; [done|]. intros k rq Hk. change (contexts committed) with (contexts b) in Hsl.
    destruct (Forall2_lookup_l _ _ _ _ _ Hsl Hk) as (slot & Hslot & Htk). exists slot. split; [exact Htk|]. cbn.
    apply copied; [by apply lookup_app_l_Some | by eapply Hlt].
  - rewrite Hst, (di_rest _ _ _ _ _ _ Hdi). cbn. destruct (bi_starts _ _ _ _ Hbi) as [m ->]. by exists m.
  - rewrite Hln, (di_rest _ _ _ _ _ _ Hdi). cbn. destruct (bi_lens _ _ _ _ Hbi) as [m ->]. by exists m.
  - rewrite Hds, Hnd. exact (di_rows _ _ _ _ _ _ Hdi).
  - rewrite Hmi. pose proof (sy_draft_counts _ _ _ _ _ _ Hready) as Hd. pose proof (draft_fit so b counts Hd) as Hf.
    apply tail_indices_places; [exact (length_contexts _ _ _ _ _ _ Hok Hsp) | rewrite length_fmap; by apply Forall2_length in Hd|].
    apply Forall2_fmap_l. eapply Forall2_impl; [exact Hf|]. cbn. lia.
  - by exists ts.
Qed.

(** The batch with its slots, the bounds and the discards. *)
Lemma stages_ok ts x1 : tokens_in c committed counts x x1 -> Forall2 (slots_in committed counts) (ib_block_table committed) ts ->
  batch_ok (rn_outputs s) (rn_requests s) specs (committed <| ib_block_table := ts |>) v /\
  exists x2 x3, write_bounds counts (cumsum counts) (committed <| ib_block_table := ts |>) x1 = Ok x2 /\ bounds_in (contexts b) counts x1 x2 /\
    write_discards (rn_requests s) (rn_outputs s) (committed <| ib_block_table := ts |>) x2 = Ok x3 /\
    discards_in (rn_outputs s) (rn_requests s) b counts x2 x3.
Proof using Hok Hix Hready.
  intros Hti Hts. destruct committed_ok as (Hok0 & Hix0 & Hsp0 & _). pose proof Hready as [_ Hne _ Hsp Hroom _ _ _ _]. set (b1 := committed <| ib_block_table := ts |>).
  pose proof (sh_tables _ _ (bo_shape _ _ _ _ _ Hok0)) as Htab0. pose proof (slots_layout _ _ _ _ Hts) as Hsame.
  assert (Hok1 : batch_ok (rn_outputs s) (rn_requests s) specs b1 v) by (apply batch_ok_tables; [exact Hok0 | by eapply same_tables_ok]).
  assert (Hix1 : index_ok b1 []) by by apply index_ok_tables.
  assert (Hsp1 : spans_ok (rn_outputs s) (rn_requests s) specs b1 counts).
  { apply spans_ok_tables; [exact Hsp0|]. eapply Forall2_impl; [exact Hsame|]. by intros t t' (? & _). }
  split; [exact Hok1|]. destruct (write_bounds_ok counts b1 x1) as (x2 & Hbd & Hbi); try done.
  { exact (sp_rows _ _ _ _ _ Hsp). } { exact (length_contexts _ _ _ _ _ _ Hok Hsp). }
  { rewrite (ti_starts _ _ _ _ _ Hti). apply Hroom. } { rewrite (ti_lens _ _ _ _ _ Hti). apply Hroom. }
  destruct (bi_lens _ _ _ _ Hbi) as [m2 Hlens]. assert (Hdx : discard_request_indices x2 = discard_request_indices x).
  { rewrite (bi_rest _ _ _ _ Hbi). apply Hti. }
  destruct (write_discards_ok _ _ specs b1 v counts Hok1 Hix1 Hsp1 x2 m2 _ Hlens) as (x3 & Hd & Hdi); [rewrite Hdx; apply Hroom|].
  exists x2, x3. split; [exact Hbd|]. split; [exact Hbi|]. split; [exact Hd|]. destruct Hdi. by split.
Qed.

Lemma lora_ok bb : exists l, (if ic_lora c then
      _ ← py_assert (int_sum ((fun n => n + 1) <$> draft_counts so b) <=? ic_max_num_batched_tokens c);
      Ok (Some (make_lora_inputs counts ((fun n => n + 1) <$> draft_counts so b) bb))
    else Ok None) = Ok l.
Proof using Hready.
  pose proof (sy_lora _ _ _ _ _ _ Hready) as Hl. destruct (ic_lora c); [|eauto]. specialize (Hl eq_refl).
  destruct (Z.leb_spec (int_sum ((fun n => n + 1) <$> draft_counts so b)) (ic_max_num_batched_tokens c)); [cbn; eauto | lia].
Qed.

Lemma prepare_inputs_ok : exists mi s' x', prepare_inputs c so counts None s x = Ok (mi, s', x') /\
  inputs_ready c so specs s s' counts mi x' /\ batch_ok (rn_outputs s') (rn_requests s') specs (input_batch s') v.
Proof using Hok Hix Hready.
  destruct committed_ok as (Hok0 & Hix0 & Hsp0 & Hroom0). pose proof Hready as [Hcounts Hne Htot Hsp Hroom Hdict Hkeys Hdr Hlora].
  destruct (rm_arange _ _ _ _ Hroom) as (limit & Har & Hlim). pose proof (sp_pos _ _ _ _ _ Hsp) as Hp. pose proof (length_le_sum counts Hp) as Hle.
  pose proof (sp_rows _ _ _ _ _ Hsp) as Hn. pose proof (length_contexts _ _ _ _ _ _ Hok Hsp) as Hcx. pose proof (counts_nonneg _ _ _ _ _ Hsp) as Hnn.
  assert (Hlc : (0 < length counts)%nat) by (destruct counts; cbn; [done | lia]).
  assert (Hnum : ib_num_reqs b = py_len counts) by (rewrite (no_holes_full b Hix); unfold py_len; lia).
  unfold prepare_inputs. rewrite Htot. destruct (Z.ltb_spec 0 (int_sum counts)); [|lia]. cbn [py_assert mbind result_bind].
  destruct (Z.ltb_spec 0 (ib_num_reqs b)); [|rewrite Hnum in *; unfold py_len in *; lia]. cbn [py_assert mbind result_bind].
  rewrite (request_indices limit Har Hlim). cbn [mbind result_bind]. rewrite Har, get_cumsum_and_arange_ok by done. cbn [mbind result_bind]. fold committed.
  destruct (write_tokens_ok c so _ _ specs committed v counts Hok0 Hix0 Hsp0 Htot x Hroom0) as (ts & x1 & Hw & Hti & Hts).
  change (contexts committed) with (contexts b) in Hw. rewrite Hw. cbn [mbind result_bind]. set (b1 := committed <| ib_block_table := ts |>).
  destruct (stages_ok ts x1 Hti Hts) as (Hok1 & x2 & x3 & Hbd & Hbi & Hd & Hdi). fold b1 in Hok1, Hbd, Hd.
  assert (Hix1 : index_ok b1 []) by by apply index_ok_tables. rewrite Hbd. cbn [mbind result_bind]. rewrite Hd. cbn [mbind result_bind prepare_input_ids].
  match goal with |- context [logits_of_step _ _ _ _ ?y] => set (x5 := y) end.
  assert (Hin3 : input_ids x3 = input_ids x1) by (rewrite (di_rest _ _ _ _ _ _ Hdi), (bi_rest _ _ _ _ Hbi); done).
  assert (Hps3 : positions x3 = positions x1) by (rewrite (di_rest _ _ _ _ _ _ Hdi), (bi_rest _ _ _ _ Hbi); done).
  assert (Hst3 : query_start_loc x3 = query_start_loc x2) by (rewrite (di_rest _ _ _ _ _ _ Hdi); done).
  assert (Hln3 : seq_lens x3 = seq_lens x2) by (rewrite (di_rest _ _ _ _ _ _ Hdi); done).
  assert (Hdr3 : num_decode_draft_tokens x3 = num_decode_draft_tokens x).
  { rewrite (di_rest _ _ _ _ _ _ Hdi), (bi_rest _ _ _ _ Hbi). apply Hti. }
  assert (H5 : input_ids x5 = buf_copy (int_sum counts) (input_ids x3) /\ positions x5 = buf_copy (int_sum counts) (positions x3) /\
    (ic_enable_prompt_embeds c = true -> inputs_embeds x5 = buf_copy (int_sum counts) (inputs_embeds x3)) /\
    query_start_loc x5 = query_start_loc x3 /\ seq_lens x5 = seq_lens x3 /\ num_decode_draft_tokens x5 = num_decode_draft_tokens x3 /\
    discard_request_indices x5 = discard_request_indices x3 /\ num_discarded_requests x5 = num_discarded_requests x3).
  { unfold x5. by destruct (ic_enable_prompt_embeds c). }
  clearbody x5. destruct H5 as (Hin5 & Hps5 & Hem5 & Hst5 & Hln5 & Hdr5 & Hdi5 & Hnd5). destruct (bi_starts _ _ _ _ Hbi) as [m1 Hstarts].
  assert (Hli : int_sum counts <= py_len (on_host (input_ids x1))).
  { destruct (ti_ids _ _ _ _ _ Hti) as (ids & rest & -> & Hall). pose proof (places_count _ _ _ _ _ _ Hok Hsp) as Hpl. apply Forall2_length in Hall as Hla.
    change (contexts committed) with (contexts b) in *. unfold py_len. rewrite length_app. lia. }
  destruct (logits_ok c so b1 counts Hix1) with (limit := limit) (x := x5) (rest := replicate m1 (int_sum counts)) as (md & x6 & Hlog & buf & ->); try done.
  { pose proof (sh_rows _ _ (bo_shape _ _ _ _ _ Hok)) as H1. pose proof (sh_max _ _ (bo_shape _ _ _ _ _ Hok)) as H2. change (py_len (ib_req_ids b) <= py_len (rows b)). lia. }
  { by rewrite Hst5, Hst3, Hstarts. } { rewrite Hin5, Hin3. apply length_copied. lia. } { rewrite Hdr5, Hdr3. apply Hroom. }
  rewrite Hlog. cbn [mbind result_bind].
  change (draft_counts so b1) with (draft_counts so b). destruct (lora_ok b1) as [l ->]. cbn [mbind result_bind]. do 3 eexists. split; [reflexivity|]. split; [|exact Hok1].
  change (input_batch s <| ib_block_table := ts |>) with b1.
  apply (inputs_assembled x1 x2 x3 _ ts); done.
Qed.
End Run.

(** C13: The model computes what was scheduled.  On a runner whose batch represents its requests, with
    a message and buffers that fit, preparing the inputs succeeds: row after row, every
    scheduled token of every request stands on the device with its position and with the slots its blocks
    give it; the bounds and lengths are those of the rows; the requests whose sample is
    discarded are those the step does not bring to their last token; the logits are read
    at the last token of each row and, with drafts, at the tokens before its drafts; and
    the runner's invariant still holds. *)
Theorem inputs_are_scheduled_tokens c so exact specs s v counts x :
  runner_ok exact specs s v -> step_ready c so specs s counts x ->
  exists mi s' x', prepare_inputs c so counts None s x = Ok (mi, s', x') /\ inputs_ready c so specs s s' counts mi x' /\ runner_ok exact specs s' v.
Proof.
  intros [Hok Hix Hbd Hst Hv Hpr] Hready. destruct (prepare_inputs_ok c so specs s v counts x Hok Hix Hready) as (mi & s' & x' & Hrun & Hin & Hok').
  exists mi, s', x'. split; [done|]. split; [done|]. destruct (ir_batch _ _ _ _ _ _ _ _ Hin) as [ts ->]. split; try done. by apply index_ok_tables.
Qed.

(** ** A step of the runner of [WorkerStart]: one token of ["b"], four of ["a"] *)

Definition sample_inputs : InputBuffers :=
  let z n := mkBuffer (zeros n) (zeros n) in
  mkInputBuffers (z 8) (z 8) (mkBuffer [] []) (mkBuffer [] []) (z 4) (z 3) (z 3) 0 (z 3).

Definition sample_input_config : InputConfig := mkInputConfig (seqZ 0 8) false false 8.

Definition sized_output (counts : dict string Z) (total : Z) : SchedulerOutput :=
  mkSchedulerOutput [] make_empty counts total [] [] [] ∅ [] false None None.

Definition input_step : SchedulerOutput := sized_output [("a", 4); ("b", 1)]%string 5.

Lemma sample_step_ready : step_ready sample_input_config input_step (step_drafts chunk_step_1 (input_batch start_runner)) middle_runner [1; 4] sample_inputs.
Proof.
  split; try done.
  - split; [done | by repeat constructor|]. intros [|[|p]] id r n Hid Hr Hn; [..|done]; injection Hid as <-; injection Hn as <-; vm_compute in Hr; injection Hr as <-;
      (split; [by vm_compute|]); (split; [by vm_compute|]); apply (bool_decide_unpack _); vm_compute; exact I.
  - split; try done; [by exists 8 | by right | apply (bool_decide_unpack _); vm_compute; exact I].
  - apply dict_ok_nil.
  - intros id Hid. by apply elem_of_nil in Hid.
  - apply (bool_decide_unpack _). vm_compute. exact I.
Qed.

Definition sample_result : result (ModelInputs * Runner * InputBuffers) := Eval vm_compute in
  prepare_inputs sample_input_config input_step [1; 4] None middle_runner sample_inputs.

Lemma inputs_are_scheduled_tokens_witness : exists mi s' x',
  prepare_inputs sample_input_config input_step [1; 4] None middle_runner sample_inputs = Ok (mi, s', x') /\
  (exists v, runner_ok true (step_drafts chunk_step_1 (input_batch start_runner)) s' v) /\
  take 5 (on_device (input_ids x')) = [21; 11; 12; 13; 14] /\ take 5 (on_device (positions x')) = [0; 0; 1; 2; 3] /\
  on_device (query_start_loc x') = [0; 1; 5; 5] /\ mi_logits_indices mi = [0; 4] /\ num_discarded_requests x' = 2.
Proof.
  destruct middle_runner_ok as (v & _ & Hok).
  destruct (inputs_are_scheduled_tokens sample_input_config input_step true _ middle_runner v [1; 4] sample_inputs Hok sample_step_ready)
    as (mi & s' & x' & Hrun & _ & Hok').
  exists mi, s', x'. split; [exact Hrun|]. split; [eauto|]. clear Hok'.
  assert (Heq : Ok (mi, s', x') = sample_result) by (rewrite <- Hrun; vm_compute; reflexivity).
  unfold sample_result in Heq. injection Heq as -> _ ->. split_and!; reflexivity.
Defined.

(** The example of the code's comments. *)
Lemma drafts_meet_their_logits_witness : exists md,
  calc_spec_decode_metadata (seqZ 0 300) (seqZ 1000 300) [3; 0; 2; 0; 1] [4; 104; 107; 207; 209] = Ok md /\
  sd_logits_indices md = [0; 1; 2; 3; 103; 104; 105; 106; 206; 207; 208] /\ sd_target_logits_indices md = [0; 1; 2; 5; 6; 9] /\
  sd_bonus_logits_indices md = [3; 4; 7; 8; 10] /\ sd_draft_token_ids md = [1001; 1002; 1003; 1105; 1106; 1208].
Proof.
  destruct (drafts_meet_their_logits 300 (seqZ 1000 300) [0; 0; 7; 0; 9] [4; 100; 3; 100; 2] [3; 0; 2; 0; 1]) as (md & Hrun & _); try done.
  - by repeat constructor.
  - exists md. split; [exact Hrun|]. vm_compute in Hrun. injection Hrun as <-. split_and!; reflexivity.
Defined.

(** ** Tokens that never left the device *)

Section Async.
Context (b : InputBatch) (counts : list Z) (prev : list Z) (d : dict string Z).
Context (Hix : index_ok b []) (Hn : length counts = length (ib_req_ids b)) (Hpos : Forall (fun n => 0 < n) counts) (Hne : counts <> []).
Context (Hprev : forall id j, dget id d = Some j -> 0 <= j < py_len prev).

(** The index of the last token of a row. *)
Definition last_index (p : nat) : Z := int_sum (take (S p) counts) - 1.

Definition common : list (Z * Z) :=
  omap (fun e : string * Z => match dget e.1 d with Some j => Some (last_index (Z.to_nat e.2), j) | None => None end) (ib_req_id_to_index b).

Lemma nonneg_counts : Forall (fun n => 0 <= n) counts.
Proof using Hix Hn Hpos Hne. eapply Forall_impl; [exact Hpos|]. cbn. lia. Qed.

Lemma last_index_lt p q : (p < q)%nat -> (q < length counts)%nat -> last_index p < last_index q.
Proof using Hix Hn Hpos Hne.
  intros Hpq Hq. unfold last_index. destruct (lookup_lt_is_Some_2 counts q Hq) as [n Hqn]. rewrite (take_S_r _ _ _ Hqn), int_sum_app.
  pose proof (proj1 (Forall_lookup _ _) Hpos _ _ Hqn) as Hn0. cbn in Hn0. unfold int_sum at 3. cbn.
  assert (int_sum (take (S p) counts) <= int_sum (take q counts)); [|lia].
  rewrite <- (take_drop (S p) (take q counts)), int_sum_app, take_take, Nat.min_l by lia.
  pose proof (int_sum_nonneg (drop (S p) (take q counts)) (Forall_drop _ _ _ (Forall_take _ _ _ nonneg_counts))). lia.
Qed.

Lemma last_index_range p : (p < length counts)%nat -> 0 <= last_index p < int_sum counts.
Proof using Hix Hn Hpos Hne.
  intros Hp. unfold last_index. destruct (lookup_lt_is_Some_2 counts p Hp) as [n Hpn].
  pose proof (int_sum_nonneg _ (Forall_take _ p _ nonneg_counts)) as H1. pose proof (int_sum_nonneg _ (Forall_drop _ (S p) _ nonneg_counts)) as H2.
  pose proof (proj1 (Forall_lookup _ _) Hpos _ _ Hpn) as Hn0. cbn in Hn0.
  assert (Hs : int_sum counts = int_sum (take (S p) counts) + int_sum (drop (S p) counts)) by (by rewrite <- int_sum_app, take_drop).
  assert (Hs2 : int_sum (take (S p) counts) = int_sum (take p counts) + n).
  { rewrite (take_S_r _ _ _ Hpn), int_sum_app. unfold int_sum at 2. cbn. lia. }
  lia.
Qed.

Lemma entry_row id z : (id, z) ∈ ib_req_id_to_index b -> exists p : nat, z = Z.of_nat p /\ ib_req_ids b !! p = Some (Some id) /\ (p < length counts)%nat.
Proof using Hix Hn Hpos Hne.
  intros Hin. apply elem_of_dget in Hin; [|apply Hix]. apply (ix_get b [] Hix) in Hin as (p & -> & Hp). exists p. split_and!; try done.
  rewrite Hn. by apply lookup_lt_Some in Hp.
Qed.

Lemma common_found : common_requests d (cumsum counts) b = Ok common.
Proof using Hix Hn Hpos Hne.
  unfold common_requests, common. pose proof entry_row as Her.
  enough (Hg : forall l acc, (forall id z, (id, z) ∈ l -> exists p : nat, z = Z.of_nat p /\ (p < length counts)%nat) ->
    for_each (fun (p : string * Z) l => match dget p.1 d with
      | None => Ok l
      | Some prev_index => last ← py_index (cumsum counts) p.2; Ok (l ++ [(last - 1, prev_index)]) end) l acc
    = Ok (acc ++ omap (fun e : string * Z => match dget e.1 d with Some j => Some (last_index (Z.to_nat e.2), j) | None => None end) l)).
  { apply (Hg _ []). intros id z Hin. destruct (Her id z Hin) as (p & -> & _ & ?). eauto. }
  induction l as [|[id z] l IH]; intros acc Hl; [by rewrite app_nil_r|].
  assert (Hl' : forall id z, (id, z) ∈ l -> exists p : nat, z = Z.of_nat p /\ (p < length counts)%nat) by (intros i y Hi; apply (Hl i); by right).
  cbn [for_each omap list_omap fst snd]. destruct (dget id d) as [j|] eqn:Hd; [|by apply IH].
  destruct (Hl id z) as (p & -> & Hp); [by left|]. rewrite (py_index_nat _ p (0 + int_sum (take (S p) counts))) by (by apply cumsum_from_lookup).
  cbn [mbind result_bind]. rewrite IH by done. rewrite <- (assoc_L (++)). cbn. unfold last_index. by rewrite Nat2Z.id.
Qed.

Lemma elem_of_common i j : (i, j) ∈ common <-> exists (p : nat) id, ib_req_ids b !! p = Some (Some id) /\ dget id d = Some j /\ i = last_index p.
Proof using Hix Hn Hpos Hne.
  unfold common. rewrite list_elem_of_omap. split.
  - intros ([id z] & Hin & Heq). cbn in Heq. destruct (dget id d) as [j'|] eqn:Hd; [|done]. injection Heq as <- <-.
    destruct (entry_row id z Hin) as (p & -> & Hp & _). exists p, id. split_and!; try done. by rewrite Nat2Z.id.
  - intros (p & id & Hp & Hd & ->). exists (id, Z.of_nat p). cbn. rewrite Hd, Nat2Z.id. split; [|done].
    apply dget_elem_of. apply (ix_get b [] Hix). eauto.
Qed.

Lemma common_NoDup : NoDup common.*1.
Proof using Hix Hn Hpos Hne.
  pose proof (ix_dict b [] Hix) as Hd. pose proof entry_row as Her. unfold common. revert Hd Her. unfold dict_ok, dkeys.
  generalize (ib_req_id_to_index b) as l. induction l as [|[id z] l IH]; intros Hd Her; [by apply NoDup_nil|].
  cbn in Hd. apply NoDup_cons in Hd as [Hnotin Hd]. cbn [omap list_omap fst snd].
  assert (Her' : forall i y, (i, y) ∈ l -> exists p : nat, y = Z.of_nat p /\ ib_req_ids b !! p = Some (Some i) /\ (p < length counts)%nat) by (intros i y Hi; apply Her; by right).
  destruct (dget id d) as [j|]; [|by apply IH]. cbn. apply NoDup_cons. split; [|by apply IH].
  intros Hin. apply list_elem_of_fmap in Hin as ([i' j'] & Hi & Hin). cbn in Hi. subst i'. apply list_elem_of_omap in Hin as ([id2 z2] & Hin2 & Heq).
  cbn in Heq. destruct (dget id2 d) as [j2|]; [|done]. injection Heq as Heq _.
  destruct (Her id z) as (p & -> & Hp & Hpl); [by left|]. destruct (Her' id2 z2 Hin2) as (p2 & -> & Hp2 & Hpl2). rewrite !Nat2Z.id in Heq.
  assert (p = p2) as <-.
  { destruct (lt_eq_lt_dec p p2) as [[Hlt|?]|Hlt]; [|done|]; pose proof (last_index_lt _ _ Hlt ltac:(done)); lia. }
  rewrite Hp in Hp2. injection Hp2 as <-. apply Hnotin. apply list_elem_of_fmap. by exists (id, Z.of_nat p).
Qed.
End Async.

Lemma scatter_ok src pairs : forall x : list Z, NoDup pairs.*1 -> (forall i j, (i, j) ∈ pairs -> 0 <= i < py_len x /\ 0 <= j < py_len src) ->
  exists x', scatter src pairs x = Ok x' /\ (forall i j, (i, j) ∈ pairs -> x' !! Z.to_nat i = src !! Z.to_nat j) /\
    (forall k : nat, (Z.of_nat k) ∉ pairs.*1 -> x' !! k = x !! k).
Proof.
  unfold scatter. induction pairs as [|[i j] pairs IH]; intros x Hnd Hin.
  { exists x. split; [done|]. split; [|done]. by intros i j ?%elem_of_nil. }
  cbn in Hnd. apply NoDup_cons in Hnd as [Hni Hnd]. destruct (Hin i j) as [Hi Hj]; [by left|]. unfold py_len in *.
  destruct (lookup_lt_is_Some_2 src (Z.to_nat j)) as [v Hv]; [lia|].
  assert (Hset : py_setitem i v x = Ok (<[Z.to_nat i := v]> x)) by (apply py_setitem_in; unfold py_len; lia).
  destruct (IH (<[Z.to_nat i := v]> x) Hnd) as (x' & Hrun & Hval & Hsame).
  { intros i' j' Hin'. rewrite length_insert. apply Hin. by right. }
  exists x'. split; [cbn [for_each fst snd]; rewrite (py_index_Some _ _ _ (proj1 Hj) Hv); cbn [mbind result_bind]; rewrite Hset; exact Hrun|]. split.
  - intros i' j' Hin'. apply elem_of_cons in Hin' as [[= -> ->]|Hin']; [|by apply Hval].
    replace (x' !! Z.to_nat i) with (x' !! Z.to_nat (Z.of_nat (Z.to_nat i))) by (f_equal; lia). rewrite Nat2Z.id, Hsame.
    + by rewrite list_lookup_insert_eq by lia.
    + by rewrite Z2Nat.id by lia.
  - intros k Hk. cbn in Hk. apply not_elem_of_cons in Hk as [Hk1 Hk2]. rewrite Hsame by done. apply list_lookup_insert_ne. lia.
Qed.

(** As many different indices as there are places. *)
Lemma all_covered (l : list Z) n : NoDup l -> (forall i, i ∈ l -> 0 <= i < n) -> py_len l = n -> forall k, 0 <= k < n -> k ∈ l.
Proof.
  intros Hnd Hin Hlen k Hk. assert (Hsub : l ⊆+ seqZ 0 n).
  { apply NoDup_submseteq; [done|]. intros i Hi. apply elem_of_seqZ. specialize (Hin i Hi). lia. }
  apply submseteq_length_Permutation in Hsub; [|rewrite length_seqZ; unfold py_len in Hlen; lia].
  rewrite Hsub. apply elem_of_seqZ. lia.
Qed.

Lemma foldl_max_le l a : Forall (fun i => i <= foldl Z.max a l) l /\ a <= foldl Z.max a l.
Proof.
  revert a. induction l as [|x l IH]; intros a; cbn; [split; [constructor | lia]|]. destruct (IH (Z.max a x)) as [H1 H2].
  split; [constructor; [lia | done] | lia].
Qed.

Section Patch.
Context (b : InputBatch) (counts : list Z) (prev : list Z) (d : dict string Z).
Context (Hix : index_ok b []) (Hn : length counts = length (ib_req_ids b)) (Hpos : Forall (fun n => 0 < n) counts) (Hne : counts <> []).
Context (Hprev : forall id j, dget id d = Some j -> 0 <= j < py_len prev).

Abbreviation pairs := (common b counts d).

Lemma pair_range i j : (i, j) ∈ pairs -> 0 <= i < int_sum counts /\ 0 <= j < py_len prev.
Proof using Hix Hn Hpos Hne Hprev.
  intros Hin. apply (elem_of_common b counts d Hix Hn Hpos Hne) in Hin as (p & id & Hp & Hd & ->). split; [|by eapply Hprev].
  apply (last_index_range b counts Hix Hn Hpos Hne). rewrite Hn. by apply lookup_lt_Some in Hp.
Qed.

Lemma pairs_count : py_len pairs <= int_sum counts.
Proof using Hix Hn Hpos Hne Hprev.
  pose proof (common_NoDup b counts d Hix Hn Hpos Hne) as Hnd. assert (Hsub : pairs.*1 ⊆+ seqZ 0 (int_sum counts)).
  { apply NoDup_submseteq; [done|]. intros i Hi. apply list_elem_of_fmap in Hi as ([i' j] & -> & Hin). apply elem_of_seqZ. pose proof (pair_range _ _ Hin). cbn. lia. }
  apply submseteq_length in Hsub. rewrite length_fmap, length_seqZ in Hsub. pose proof (int_sum_nonneg counts (nonneg_counts b counts Hix Hn Hpos Hne)). unfold py_len. lia.
Qed.

(** The copy of one slice is the same as the scatter. *)
Lemma slice_is_scatter dev : int_sum counts <= py_len dev -> py_len pairs <> 0 -> forallb (fun p : Z * Z => p.2 =? p.1) pairs = true ->
  foldl Z.max (-1) pairs.*1 = py_len pairs - 1 ->
  exists x', np_set_slice 0 (py_len pairs) (slice_to (py_len pairs) prev) dev = Ok x' /\
    (forall i j, (i, j) ∈ pairs -> x' !! Z.to_nat i = prev !! Z.to_nat j) /\ (forall k : nat, (Z.of_nat k) ∉ pairs.*1 -> x' !! k = dev !! k).
Proof using Hix Hn Hpos Hne Hprev.
  intros Hdev Hm Hmatch Hmax. pose proof (common_NoDup b counts d Hix Hn Hpos Hne) as Hnd. pose proof pairs_count as Hc.
  set (m := py_len pairs) in *. destruct (foldl_max_le pairs.*1 (-1)) as [Hle _]. rewrite Forall_forall in Hle.
  assert (Hsame : forall i j, (i, j) ∈ pairs -> j = i).
  { intros i j Hin. rewrite forallb_forall in Hmatch. specialize (Hmatch (i, j)). cbn in Hmatch. apply Z.eqb_eq, Hmatch. by apply list_elem_of_In. }
  assert (Hall : forall k, 0 <= k < m -> k ∈ pairs.*1).
  { apply all_covered; [done | | unfold m, py_len; by rewrite length_fmap]. intros i Hi. specialize (Hle i Hi). rewrite Hmax in Hle.
    apply list_elem_of_fmap in Hi as ([i' j] & -> & Hin). pose proof (pair_range _ _ Hin). cbn in *. lia. }
  assert (Hpm : m <= py_len prev).
  { assert (Hm1 : m - 1 ∈ pairs.*1) by (apply Hall; unfold m, py_len in *; lia). apply list_elem_of_fmap in Hm1 as ([i j] & Hi & Hin). cbn in Hi. subst i.
    pose proof (pair_range _ _ Hin). pose proof (Hsame _ _ Hin). lia. }
  assert (Hm0 : 0 <= m) by (unfold m, py_len; lia). rewrite slice_to_nat by done.
  assert (Hlen : py_len (take (Z.to_nat m) prev) = m) by (unfold py_len in *; rewrite length_take; lia).
  rewrite np_set_slice_to by (rewrite ?Hlen; lia). eexists. split; [reflexivity|]. split.
  - intros i j Hin. pose proof (pair_range _ _ Hin) as [Hi Hj]. pose proof (Hsame _ _ Hin) as ->.
    assert (Him : i < m). { specialize (Hle i). rewrite Hmax in Hle. enough (i <= m - 1) by lia. apply Hle. apply list_elem_of_fmap. by exists (i, i). }
    unfold py_len in *. rewrite lookup_app_l by lia. apply lookup_take_lt. lia.
  - intros k Hk. assert (Hkm : ~ Z.of_nat k < m) by (intros Hlt; apply Hk, Hall; lia). unfold py_len in *.
    rewrite lookup_app_r by lia. rewrite lookup_drop. f_equal. lia.
Qed.

Lemma input_ids_copied embeds x : input_ids (copy_input_ids embeds (int_sum counts) x) = buf_copy (int_sum counts) (input_ids x).
Proof. by destruct embeds. Qed.

(** Before the patches, every index that no request of the step before ends at has the host's token. *)
Lemma before_patches embeds x : int_sum counts <= py_len (on_host (input_ids x)) -> int_sum counts <= py_len (on_device (input_ids x)) ->
  let x0 := if py_len pairs <? int_sum counts then copy_input_ids embeds (int_sum counts) x else x in
  int_sum counts <= py_len (on_device (input_ids x0)) /\
  forall k : nat, Z.of_nat k < int_sum counts -> (Z.of_nat k) ∉ pairs.*1 -> on_device (input_ids x0) !! k = on_host (input_ids x) !! k.
Proof using Hix Hn Hpos Hne Hprev.
  intros Hhost Hdev. cbn zeta. destruct (Z.ltb_spec (py_len pairs) (int_sum counts)) as [Hlt|Hge].
  - rewrite input_ids_copied. unfold buf_copy. cbn [on_device]. assert (0 <= py_len pairs) by (unfold py_len; lia). split; [apply length_copied; lia|]. intros k Hk _.
    destruct (lookup_lt_is_Some_2 (on_host (input_ids x)) k) as [y Hy]; [unfold py_len in *; lia|]. rewrite Hy. by apply copied.
  - split; [done|]. intros k Hk Hnot. exfalso. apply Hnot. pose proof pairs_count as Hc.
    apply (all_covered pairs.*1 (int_sum counts)); [exact (common_NoDup b counts d Hix Hn Hpos Hne) | | unfold py_len in *; rewrite length_fmap; lia | lia].
    intros i Hi. apply list_elem_of_fmap in Hi as ([i' j] & -> & Hin). by destruct (pair_range _ _ Hin).
Qed.

(** The three ways to patch. *)
Lemma patches (embeds : bool) (x0 : InputBuffers) : int_sum counts <= py_len (on_device (input_ids x0)) ->
  exists x' ids, (if py_len pairs =? 0 then Ok x0
      else if forallb (fun p : Z * Z => p.2 =? p.1) pairs && (foldl Z.max (-1) pairs.*1 =? py_len pairs - 1) then
        ids ← np_set_slice 0 (py_len pairs) (slice_to (py_len pairs) prev) (on_device (input_ids x0));
        let x := x0 <| input_ids := mkBuffer (on_host (input_ids x0)) ids |> in
        Ok (if embeds then x <| is_token_ids := mkBuffer (on_host (is_token_ids x)) (np_fill_to (py_len pairs) true (on_device (is_token_ids x))) |> else x)
      else ids ← scatter prev pairs (on_device (input_ids x0)); Ok (x0 <| input_ids := mkBuffer (on_host (input_ids x0)) ids |>)) = Ok x' /\
    on_device (input_ids x') = ids /\ (forall i j, (i, j) ∈ pairs -> ids !! Z.to_nat i = prev !! Z.to_nat j) /\
    (forall k : nat, (Z.of_nat k) ∉ pairs.*1 -> ids !! k = on_device (input_ids x0) !! k).
Proof using Hix Hn Hpos Hne Hprev.
  intros Hl0. destruct (Z.eqb_spec (py_len pairs) 0) as [Hz|Hnz].
  { exists x0, (on_device (input_ids x0)). split; [done|]. split; [done|]. split; [|done]. intros i j Hin. destruct pairs; [by apply elem_of_nil in Hin | done]. }
  destruct (forallb _ pairs && _) eqn:Hfast.
  - apply andb_true_iff in Hfast as [Hm Hmax]. apply Z.eqb_eq in Hmax.
    destruct (slice_is_scatter (on_device (input_ids x0)) Hl0 Hnz Hm Hmax) as (ids & Hrun & Hv & Hs). rewrite Hrun.
    cbn [mbind result_bind]. do 2 eexists. split; [reflexivity|]. split; [by destruct embeds|]. by split.
  - destruct (scatter_ok prev pairs (on_device (input_ids x0)) (common_NoDup b counts d Hix Hn Hpos Hne)) as (ids & Hrun & Hv & Hs).
    { intros i j Hin. destruct (pair_range i j Hin). lia. }
    rewrite Hrun. cbn [mbind result_bind]. do 2 eexists. split; [reflexivity|]. split; [reflexivity|]. by split.
Qed.
End Patch.

(** C18: With asynchronous scheduling the last tokens come from the device.  The requests of the step before that are
    still in the batch get the tokens sampled for them, each at the last index of its
    row; every other index gets the host's token.  It holds alike when nothing is copied from the host,
    when the tokens are copied as one slice, and when they are scattered. *)
Theorem sampled_tokens_are_patched embeds prev d b counts x :
  index_ok b [] -> length counts = length (ib_req_ids b) -> Forall (fun n => 0 < n) counts -> counts <> [] ->
  prev_req_id_to_index b = Some d -> (forall id j, dget id d = Some j -> 0 <= j < py_len prev) ->
  int_sum counts <= py_len (on_host (input_ids x)) -> int_sum counts <= py_len (on_device (input_ids x)) ->
  exists x', prepare_input_ids embeds (Some prev) (int_sum counts) (cumsum counts) b x = Ok x' /\
    (forall (p : nat) id j, ib_req_ids b !! p = Some (Some id) -> dget id d = Some j ->
      on_device (input_ids x') !! Z.to_nat (last_index counts p) = prev !! Z.to_nat j) /\
    (forall (k : nat), Z.of_nat k < int_sum counts ->
      (forall (p : nat) id, ib_req_ids b !! p = Some (Some id) -> is_Some (dget id d) -> Z.of_nat k <> last_index counts p) ->
      on_device (input_ids x') !! k = on_host (input_ids x) !! k).
Proof.
  intros Hix Hn Hpos Hne Hd Hprev Hhost Hdev. pose proof (elem_of_common b counts d Hix Hn Hpos Hne) as Hel.
  unfold prepare_input_ids. rewrite Hd. cbn [or_raise mbind result_bind]. rewrite (common_found b counts d Hix Hn Hpos Hne). cbn [mbind result_bind].
  pose proof (before_patches b counts prev d Hix Hn Hpos Hne Hprev embeds x Hhost Hdev) as Hbefore. cbn zeta in Hbefore. destruct Hbefore as [Hl0 Hsame0].
  destruct (patches b counts prev d Hix Hn Hpos Hne Hprev embeds _ Hl0) as (x' & ids & Hrun & <- & Hval & Hsame).
  exists x'. split; [exact Hrun|]. split.
  - intros p id j Hp Hj. apply Hval, Hel. eauto.
  - intros k Hk Hno. assert (Hnot : (Z.of_nat k) ∉ (common b counts d).*1).
    { intros Hin. apply list_elem_of_fmap in Hin as ([i j] & Hi & Hin). cbn in Hi. subst i. apply Hel in Hin as (p & id & Hp & Hj & Heq). by apply (Hno p id Hp). }
    rewrite Hsame by done. by apply Hsame0.
Qed.

(** Row 0 goes on from the step before, where it was row 1; row 1 is new. *)
Definition async_batch : InputBatch := input_batch middle_runner <| prev_req_id_to_index := Some [("gone", 0); ("b", 1)]%string |>.
Definition async_inputs : InputBuffers := sample_inputs <| input_ids := mkBuffer [1; 2; 3; 4; 5; 0; 0; 0] (zeros 8) |>.

Lemma sampled_tokens_are_patched_witness : exists x',
  prepare_input_ids false (Some [70; 71]) 5 [1; 5] async_batch async_inputs = Ok x' /\ on_device (input_ids x') = [71; 2; 3; 4; 5; 0; 0; 0] /\
  on_device (input_ids x') !! 0%nat = [70; 71] !! 1%nat.
Proof.
  destruct middle_runner_ok as (v & _ & [_ Hix _ _ _ _]).
  destruct (sampled_tokens_are_patched false [70; 71] [("gone", 0); ("b", 1)]%string async_batch [1; 4] async_inputs) as (x' & Hrun & Hp & _); try done.
  - destruct Hix. by split.
  - by repeat constructor.
  - intros id j Hj. cbn in Hj. repeat case_decide; try done; injection Hj as <-; done.
  - exists x'. split; [exact Hrun|]. split; [|exact (Hp 0%nat "b"%string 1 eq_refl eq_refl)].
    vm_compute in Hrun. injection Hrun as <-. reflexivity.
Defined.
