(* ===== verification/Bookkeeping.v ===== *)
(** * After sampling

    The end of a step in [vllm/v1/worker/gpu_model_runner.py]: [_bookkeeping_sync] writes
    the sampled tokens into the batch and the requests' outputs and keeps the hidden
    states of the requests flagged in the step before; [sample_tokens] flags the next ones; the
    scorer's methods read the hidden states and keep a history per trace.  Hidden states are
    lists of opaque rows, one per input token, and the trained network is a parameter.  Log
    probabilities, the offsets of random generators, the proposer of drafts and
    connectors are left out. *)

From S2P Require Import Prelude PyDict PyList PyInt PyFloat GambitConfig Request Outputs Numpy BlockTable Sampling BatchUpdate InputBatch ReorderBatch InputBatchInv InputBatchOps ReorderProps ProcessorProps WorkerStates WorkerInv WorkerStep WorkerStart ModelInputs StepInputs.
#[local] Open Scope Z_scope.

(** The trained network followed by the sigmoid: a score per row. *)
Class StepScorer := { run_scorer : list opaque -> list float }.

(** What the runner keeps for the scorer.  The histories are lists that are appended to in place: the dictionary refers to them by
    their index in [histories], where every list the runner has made is kept, so that two traces may refer to the same list. *)
Record HiddenStates := mkHiddenStates {
  gambit_config : GambitConfig;
  capture_next_forward : gset string;
  last_hidden_states : dict string (list opaque);
  all_hidden_states : dict string nat;
  histories : list (list (list opaque));
  step_scorer_loaded : bool;
  is_sequence_scorer : bool;
}.

#[export] Instance eta_HiddenStates : Eta HiddenStates := fun k =>
  mkHiddenStates (gambit_config k) (capture_next_forward k) (last_hidden_states k) (all_hidden_states k) (histories k) (step_scorer_loaded k)
    (is_sequence_scorer k).

(** ** The sampled tokens *)

Definition PLACEHOLDER_TOKEN_ID : Z := -1.

(** [RejectionSampler.parse_output]. *)
Definition parse_output (output_token_ids : list (list Z)) (vocab_size : Z) : list (list Z) :=
  List.filter (fun t => negb (t =? PLACEHOLDER_TOKEN_ID) && (t <? vocab_size)) <$> output_token_ids.

(** The sampled tokens, one row per request and as many columns. *)
Record SamplerOutput := mkSamplerOutput {
  sampled_rows : list (list Z);
  max_gen_len : Z;
}.

(** What bookkeeping hands on. *)
Record SampledStep := mkSampledStep {
  ss_req_ids : list (option string);
  ss_req_id_to_index : dict string Z;
  ss_valid : list (list Z);
  ss_invalid : list Z;
  ss_prev_sampled : option (list Z);
}.

(** The valid tokens of each request, without asynchronous scheduling. *)
Definition valid_sampled (vocab_size : Z) (discard : list Z) (out : SamplerOutput) : result (list (list Z)) :=
  let valid := if max_gen_len out =? 1 then sampled_rows out else parse_output (sampled_rows out) vocab_size in
  for_each (fun i valid => py_setitem i [] valid) discard valid.

(** With it the tokens stay on the device, and the rows of this step are remembered. *)
Definition remember_rows (invalid : list Z) (b : InputBatch) : result (dict string Z) :=
  for_each (fun (io : nat * option string) d =>
    if bool_decide (Z.of_nat io.1 ∈ invalid) then Ok d
    else rid ← or_raise KeyError io.2; Ok (dset rid (Z.of_nat io.1) d)) (imap pair (ib_req_ids b)) [].

(** The tokens of one request, at the end of its row and of its outputs. *)
Definition write_samples (start_idx end_idx : Z) (sampled_ids : list Z) (row : Row) : result Row :=
  toks ← np_set_slice start_idx end_idx sampled_ids (row_token_ids row);
  Ok (row <| row_token_ids := toks |> <| row_is_token_ids := np_fill_slice start_idx end_idx true (row_is_token_ids row) |>
          <| row_num_tokens_no_spec := end_idx |> <| row_num_tokens := end_idx |>).

Definition record_row (max_model_len : Z) (req_idx : nat) (sampled_ids : list Z) (s : Runner) : result Runner :=
  match sampled_ids with
  | [] => Ok s
  | _ =>
      row ← py_index (rows (input_batch s)) (Z.of_nat req_idx);
      let start_idx := row_num_tokens_no_spec row in
      let end_idx := start_idx + py_len sampled_ids in
      _ ← py_assert (end_idx <=? max_model_len);
      s ← on_batch (update_row (Z.of_nat req_idx) (write_samples start_idx end_idx sampled_ids)) s;
      o ← py_index (ib_req_ids (input_batch s)) (Z.of_nat req_idx);
      req_id ← or_raise KeyError o;
      req_state ← or_raise KeyError (rn_requests s !! req_id);
      Ok (s <| rn_outputs := <[crs_output req_state := outputs_at (rn_outputs s) (crs_output req_state) ++ sampled_ids]> (rn_outputs s) |>)
  end.

Definition record_samples (max_model_len : Z) (samples : list (list Z)) (s : Runner) : result Runner :=
  for_each (fun (iv : nat * list Z) s => record_row max_model_len iv.1 iv.2 s) (imap pair samples) s.

(** ** Hidden states *)

(** The rows of the flagged requests that were scheduled. *)
Definition capture_request (so : SchedulerOutput) (flagged : gset string) (hidden_states : list opaque) (o : option string)
    (st : dict string (list opaque) * gset string * Z) : dict string (list opaque) * gset string * Z :=
  let '(cached, captured, offset) := st in
  let count := match o with Some rid => dget_or rid 0 (num_scheduled_tokens so) | None => 0 end in
  if count <=? 0 then (cached, captured, offset)
  else
    match o with
    | Some rid =>
        if bool_decide (rid ∈ flagged)
        then (dset rid (slice offset (offset + count) hidden_states) cached, {[rid]} ∪ captured, offset + count)
        else (cached, captured, offset + count)
    | None => (cached, captured, offset)
    end.

(** [None]: the hidden states are not a tensor. *)
Definition capture_hidden_states (so : SchedulerOutput) (req_ids : list (option string)) (hidden_states : option (list opaque)) (k : HiddenStates) : HiddenStates :=
  match hidden_states with
  | None => k
  | Some hidden =>
      if bool_decide (capture_next_forward k = ∅) || negb (enable (gambit_config k)) then k
      else
        let '(cached, captured, _) := foldl (fun st o => capture_request so (capture_next_forward k) hidden o st) ([], ∅, 0) req_ids in
        let k := match cached with [] => k | _ => k <| last_hidden_states := cached |> end in
        k <| capture_next_forward := capture_next_forward k ∖ captured |>
  end.

Definition bookkeeping_sync (c : RunnerConfig) (max_model_len : Z) (so : SchedulerOutput) (out : SamplerOutput) (hidden_states : option (list opaque))
    (x : InputBuffers) (s : Runner) (k : HiddenStates) : result (SampledStep * Runner * HiddenStates) :=
  let discard := slice_to (num_discarded_requests x) (on_host (discard_request_indices x)) in
  let b := input_batch s in
  let req_ids_output_copy := ib_req_ids b in
  let req_id_to_index_output_copy := ib_req_id_to_index b in
  '(valid, invalid, prev, s) ←
    (if negb (use_async_scheduling c) then
       valid ← valid_sampled (ib_vocab_size b) discard out; Ok (valid, [], None, s)
     else
       _ ← py_assert (max_gen_len out =? 1);
       index ← remember_rows discard b;
       Ok ([], discard, Some (concat (sampled_rows out)), s <| input_batch := b <| prev_req_id_to_index := Some index |> |>));
  let samples := if use_async_scheduling c
    then imap (fun i (_ : list Z) => if bool_decide (Z.of_nat i ∈ invalid) then [] else [-1]) (sampled_rows out)
    else valid in
  s ← record_samples max_model_len samples s;
  let k := capture_hidden_states so (ib_req_ids (input_batch s)) hidden_states k in
  Ok ({| ss_req_ids := req_ids_output_copy; ss_req_id_to_index := req_id_to_index_output_copy; ss_valid := valid; ss_invalid := invalid;
         ss_prev_sampled := prev |}, s, k).

(** The requests whose hidden states the next step keeps: all with a scoring stride, otherwise
    those with a token that ends a paragraph. *)
Definition trigger_req_ids (g : GambitConfig) (st : SampledStep) : list string :=
  if 0 <? scoring_stride g then dkeys (ss_req_id_to_index st)
  else
    fst <$> List.filter (fun p : string * Z =>
      if py_len (ss_valid st) <=? p.2 then false
      else
        match double_new_line_tokenID g with
        | None => false
        | Some boundary_ids => existsb (fun t => bool_decide (t ∈ boundary_ids)) (default [] (ss_valid st !! Z.to_nat p.2))
        end) (ss_req_id_to_index st).

Definition flag_next_captures (st : SampledStep) (k : HiddenStates) : HiddenStates :=
  if enable (gambit_config k) && negb (bool_decide (ss_valid st = []))
  then k <| capture_next_forward := capture_next_forward k ∪ list_to_set (trigger_req_ids (gambit_config k) st) |>
  else k.

(** The part of [sample_tokens] from bookkeeping to the flags. *)
Definition sample_tokens (c : RunnerConfig) (max_model_len : Z) (so : SchedulerOutput) (out : SamplerOutput) (hidden_states : option (list opaque))
    (x : InputBuffers) (s : Runner) (k : HiddenStates) : result (SampledStep * Runner * HiddenStates) :=
  '(st, s, k) ← bookkeeping_sync c max_model_len so out hidden_states x s k;
  Ok (st, s, flag_next_captures st k).

(** ** The scorer *)

Definition get_hidden_states_by_req (req_ids : list string) (k : HiddenStates) : dict string (list opaque) :=
  foldl (fun res rid => match dget rid (last_hidden_states k) with Some t => dset rid t res | None => res end) [] req_ids.

Section Scorer.
Context `{StepScorer}.

(** [setdefault(rid, [])]: the list of a request, a new one if it has none. *)
Definition history_ref (rid : string) (k : HiddenStates) : nat * HiddenStates :=
  match dget rid (all_hidden_states k) with
  | Some a => (a, k)
  | None => let a := length (histories k) in
            (a, k <| all_hidden_states := dset rid a (all_hidden_states k) |> <| histories := histories k ++ [[]] |>)
  end.

(** The sequence scorer sees everything the trace has shown so far, and scores its end. *)
Definition score_request (rid : string) (t : list opaque) (k : HiddenStates) : result (list float * HiddenStates) :=
  if is_sequence_scorer k then
    let '(hist, k) := history_ref rid k in
    let k := k <| histories := alter (fun l => l ++ [t]) hist (histories k) |> in
    score ← py_index (run_scorer (concat (default [] (histories k !! hist)))) (-1);
    Ok ([score], k)
  else Ok (run_scorer t, k).

Definition step_scorer_evaluate (req_ids : list string) (k : HiddenStates) : result (dict string (list float) * HiddenStates) :=
  let hs := get_hidden_states_by_req req_ids k in
  if negb (step_scorer_loaded k) then Raise RuntimeError
  else
    for_each (fun (p : string * list opaque) st =>
      '(scores, k) ← score_request p.1 p.2 st.2; Ok (dset p.1 scores st.1, k)) hs ([], k).

(** With the last row, for mining. *)
Definition step_scorer_evaluate_with_hidden_states (req_ids : list string) (k : HiddenStates)
    : result (dict string (list float * opaque) * HiddenStates) :=
  let hs := get_hidden_states_by_req req_ids k in
  if negb (step_scorer_loaded k) then Raise RuntimeError
  else
    for_each (fun (p : string * list opaque) st =>
      '(scores, k) ← score_request p.1 p.2 st.2; latest ← py_index p.2 (-1); Ok (dset p.1 (scores, latest) st.1, k)) hs ([], k).
End Scorer.

(** [d[child] = list(d[parent])]: the branch gets a list of its own. *)
Definition copy_history (p : string * string) (k : HiddenStates) : HiddenStates :=
  match dget p.1 (all_hidden_states k) with
  | Some a => k <| all_hidden_states := dset p.2 (length (histories k)) (all_hidden_states k) |>
                <| histories := histories k ++ [default [] (histories k !! a)] |>
  | None => k
  end.

Definition sync_sequence_histories (clear_ids : list string) (copy_pairs : list (string * string)) (k : HiddenStates) : HiddenStates :=
  if negb (is_sequence_scorer k) then k
  else
    let k := k <| all_hidden_states := foldl (fun d rid => ddel rid d) (all_hidden_states k) clear_ids |> in
    foldl (fun k p => copy_history p k) k copy_pairs.

Definition enable_hidden_states_capture (k : HiddenStates) : HiddenStates := k <| gambit_config := gambit_config k <| enable := true |> |>.

Definition disable_hidden_states_capture (k : HiddenStates) : HiddenStates :=
  k <| gambit_config := gambit_config k <| enable := false |> |> <| capture_next_forward := ∅ |> <| last_hidden_states := [] |>.

Definition clear_hidden_states (k : HiddenStates) : HiddenStates := k <| last_hidden_states := [] |>.

Definition get_hidden_states_debug_info (k : HiddenStates) : Z * Z :=
  ((if enable (gambit_config k) then 1 else 0), py_len (last_hidden_states k)).

(** ** Recording one row *)

(** The tokens recorded for a request: those of its row. *)
Definition sample_of (b : InputBatch) (samples : list (list Z)) (id : string) : list Z :=
  match dget id (ib_req_id_to_index b) with Some z => default [] (samples !! Z.to_nat z) | None => [] end.

(** Recorded tokens end the row's drafts. *)
Definition drafts_left (b : InputBatch) (samples : list (list Z)) (specs : string -> Drafts) (id : string) : Drafts :=
  match sample_of b samples id with [] => specs id | _ => ([], (specs id).2) end.

Lemma length_np_fill {A} s e (v : A) row : py_len (np_fill_slice s e v row) = py_len row.
Proof. unfold py_len. by rewrite length_np_fill_slice. Qed.

(** The tokens after a request's own. *)
Lemma write_samples_ok h h' L r spec sp row : request_ok r -> row_represents h r spec row -> row_size L row ->
  outputs_at h' (crs_output r) = outputs_at h (crs_output r) ++ sp -> crs_num_tokens h r + py_len sp <= L ->
  exists row', write_samples (row_num_tokens_no_spec row) (row_num_tokens_no_spec row + py_len sp) sp row = Ok row' /\
    row_size L row' /\ row_represents h' r [] row' /\ same_params row row'.
Proof.
  intros Hr [H1 H2 H3 H4 H5 H6] [Hs1 Hs2] Ho Hfit. unfold write_samples. pose proof (request_ok_nonneg r Hr) as Hn0.
  assert (Hnn : 0 <= row_num_tokens_no_spec row) by (rewrite H3; unfold crs_num_tokens, py_len; lia).
  rewrite np_set_slice_at by (done || lia). cbn [mbind result_bind]. eexists. split; [reflexivity|].
  assert (Hnum : crs_num_tokens h' r = crs_num_tokens h r + py_len sp) by (unfold crs_num_tokens; rewrite Ho, py_len_app; lia).
  unfold py_len in *. split; [split; cbn; unfold py_len; [rewrite length_overwrite; lia | by rewrite length_np_fill_slice]|]. split; [|by split_and!].
  split; cbn; try done.
  - by rewrite H3, Hnum.
  - rewrite H3, Hnum. unfold py_len. cbn. lia.
  - intros k t Hk. rewrite overwrite_lookup by lia.
    assert (Hsplit : tokens_of h' r [] = tokens_of h r [] ++ (Some <$> sp)) by (unfold tokens_of; cbn; by rewrite !app_nil_r, Ho, fmap_app, (assoc_L (++))).
    rewrite Hsplit in Hk. pose proof (length_tokens_of h r [] Hr) as Hl0. unfold py_len in Hl0. cbn in Hl0.
    case_decide as Hlt.
    + rewrite lookup_app_l in Hk by lia. apply H5. unfold tokens_of in *. cbn in Hk. rewrite app_nil_r in Hk. rewrite (assoc_L (++)). by apply lookup_app_l_Some.
    + rewrite lookup_app_r in Hk by lia. rewrite list_lookup_fmap in Hk. replace (length (tokens_of h r [])) with (Z.to_nat (row_num_tokens_no_spec row)) in Hk by lia.
      destruct (sp !! (k - Z.to_nat (row_num_tokens_no_spec row))%nat) as [y|] eqn:Hy; [|done]. cbn in Hk. injection Hk as ->.
      rewrite decide_True; [done|]. apply lookup_lt_Some in Hy. lia.
Qed.

(** What recording leaves alone. *)
Record recorded (specs : string -> Drafts) (samples : list (list Z)) (v : Views) (s s' : Runner) : Prop := {
  rc_batch : batch_ok (rn_outputs s') (rn_requests s') (drafts_left (input_batch s) samples specs) (input_batch s') v;
  rc_place : in_place (input_batch s) (input_batch s');
  rc_requests : rn_requests s' = rn_requests s;
  rc_next : rn_next s' = rn_next s;
  rc_cache : rn_encoder_cache s' = rn_encoder_cache s;
  rc_prev : prev_req_id_to_index (input_batch s') = prev_req_id_to_index (input_batch s);
  rc_outputs : forall id r, rn_requests s !! id = Some r ->
    outputs_at (rn_outputs s') (crs_output r) = outputs_at (rn_outputs s) (crs_output r) ++ sample_of (input_batch s) samples id;
  rc_fresh : forall a, (forall id r, rn_requests s !! id = Some r -> crs_output r <> a) -> rn_outputs s' !! a = rn_outputs s !! a;
}.

Section Record.
Context (max_model_len : Z) (v : Views) (vocab : Z).

Lemma record_row_ok specs s p id r sp : batch_ok (rn_outputs s) (rn_requests s) specs (input_batch s) v -> index_ok (input_batch s) [] ->
  store_ok vocab (rn_requests s) (rn_outputs s) (rn_next s) -> ib_req_ids (input_batch s) !! p = Some (Some id) -> rn_requests s !! id = Some r ->
  sp <> [] -> crs_num_tokens (rn_outputs s) r + py_len sp <= Z.min max_model_len (ib_max_model_len (input_batch s)) ->
  exists s', record_row max_model_len p sp s = Ok s' /\ in_place (input_batch s) (input_batch s') /\
    rn_requests s' = rn_requests s /\ rn_next s' = rn_next s /\ rn_encoder_cache s' = rn_encoder_cache s /\ prev_req_id_to_index (input_batch s') = prev_req_id_to_index (input_batch s) /\
    rn_outputs s' = <[crs_output r := outputs_at (rn_outputs s) (crs_output r) ++ sp]> (rn_outputs s) /\
    batch_ok (rn_outputs s') (rn_requests s') (fun x => if decide (x = id) then ([], (specs id).2) else specs x) (input_batch s') v.
Proof.
  intros Hok Hix Hst Hp Hr Hne Hfit. pose proof Hok as [Hsh Hcells _ _ _ _]. destruct (Hcells p id Hp) as (r0 & Hr0 & Hid & Hsp & Hc). rewrite Hr in Hr0. injection Hr0 as <-.
  pose proof Hc as [C1 C2 C3 C4 (row & Hrow & Hrep & Hpar) C6 C7 C8 C9]. pose proof (Forall_lookup_1 _ _ _ _ (sh_row _ v Hsh) Hrow) as Hsize.
  set (h' := <[crs_output r := outputs_at (rn_outputs s) (crs_output r) ++ sp]> (rn_outputs s)).
  assert (Ho : outputs_at h' (crs_output r) = outputs_at (rn_outputs s) (crs_output r) ++ sp) by (unfold h', outputs_at at 1; by rewrite lookup_insert_eq).
  destruct (write_samples_ok (rn_outputs s) h' (ib_max_model_len (input_batch s)) r _ sp row C1 Hrep Hsize Ho ltac:(lia)) as (row' & Hw & Hsize' & Hrep' & Hpar').
  assert (Hrun : record_row max_model_len p sp s = (_ ← py_assert (row_num_tokens_no_spec row + py_len sp <=? max_model_len);
    s ← on_batch (update_row (Z.of_nat p) (write_samples (row_num_tokens_no_spec row) (row_num_tokens_no_spec row + py_len sp) sp)) s;
    o ← py_index (ib_req_ids (input_batch s)) (Z.of_nat p); req_id ← or_raise KeyError o; req_state ← or_raise KeyError (rn_requests s !! req_id);
    Ok (s <| rn_outputs := <[crs_output req_state := outputs_at (rn_outputs s) (crs_output req_state) ++ sp]> (rn_outputs s) |>))).
  { unfold record_row. destruct sp as [|t sp]; [done|]. by rewrite (py_index_nat _ _ _ Hrow). }
  assert (Hle : (row_num_tokens_no_spec row + py_len sp <=? max_model_len) = true) by (rewrite (rr_no_spec _ _ _ _ Hrep); apply Z.leb_le; lia).
  rewrite Hrun, Hle. cbn [py_assert mbind result_bind].
  unfold on_batch. rewrite (update_row_ok _ p _ row row' Hrow Hw). cbn [mbind result_bind].
  set (b' := input_batch s <| rows := _ |>). change (ib_req_ids (input_batch (s <| input_batch := b' |>))) with (ib_req_ids (input_batch s)).
  rewrite (py_index_nat _ _ _ Hp). cbn [or_raise mbind result_bind]. change (rn_requests (s <| input_batch := b' |>)) with (rn_requests s). rewrite Hr. cbn [or_raise mbind result_bind].
  eexists. split; [reflexivity|]. split; [split; try done; exact (same_layouts_refl (input_batch s))|].
  split; [done|]. split; [done|]. split; [done|]. split; [done|]. split; [done|]. cbn [rn_outputs rn_requests input_batch]. change (rn_outputs (s <| input_batch := b' |>)) with (rn_outputs s). fold h'.
  assert (Hb' : b' = with_row p row' (ib_block_table (input_batch s)) (specs id).2 (input_batch s)).
  { unfold b', with_row. cbn. rewrite (list_insert_id _ p (Some (specs id).2)) by exact C4. by destruct (input_batch s). }
  rewrite Hb'. apply (with_row_ok (rn_outputs s) h' (rn_requests s) (rn_requests s) specs _ (input_batch s) v v p id row' _ ([], (specs id).2) r Hok); try done.
  - intros q x Hq Hqp ->. apply Hqp. assert (H1 : dget id (ib_req_id_to_index (input_batch s)) = Some (Z.of_nat p)) by (apply (ix_get _ [] Hix); eauto).
    assert (H2 : dget id (ib_req_id_to_index (input_batch s)) = Some (Z.of_nat q)) by (apply (ix_get _ [] Hix); eauto). rewrite H1 in H2. injection H2 as H2. lia.
  - exact (sh_tables _ _ Hsh).
  - by rewrite decide_True.
  - intros r1 Hr1. rewrite Hr in Hr1. injection Hr1 as <-. split; [done|]. exact (rr_lora _ _ _ _ Hrep').
  - split; try done.
    + unfold tokens_fit. cbn. unfold crs_num_tokens in *. rewrite Ho, py_len_app. change (py_len ([] : list Z)) with 0. lia.
    + cbn. by apply list_lookup_insert_eq, (lookup_lt_Some _ _ _ C4).
    + exists row'. split; [by apply list_lookup_insert_eq, (lookup_lt_Some _ _ _ Hrow)|]. split; [done|]. intros pp Hpp. eapply params_in_same; [by apply Hpar | done].
  - intros x y Hne' Hy. split; [done|]. split; [|by rewrite decide_False].
    unfold h', outputs_at. rewrite lookup_insert_ne; [done|]. exact (so_alias _ _ _ _ Hst id x r y ltac:(done) Hr Hy).
Qed.

(** ** Recording all rows *)

Lemma sample_of_row b samples p id : index_ok b [] -> ib_req_ids b !! p = Some (Some id) -> sample_of b samples id = default [] (samples !! p).
Proof.
  intros Hix Hp. unfold sample_of. assert (Hg : dget id (ib_req_id_to_index b) = Some (Z.of_nat p)) by (apply (ix_get _ [] Hix); eauto).
  by rewrite Hg, Nat2Z.id.
Qed.

Lemma sample_of_absent b samples id : index_ok b [] -> ~ live b id -> sample_of b samples id = [].
Proof.
  intros Hix Hl. unfold sample_of. destruct (dget id (ib_req_id_to_index b)) as [z|] eqn:Hg; [|done].
  apply (ix_get _ [] Hix) in Hg as (p & _ & Hp). exfalso. apply Hl. by exists p.
Qed.

Lemma sample_of_place b b' samples id : in_place b b' -> sample_of b' samples id = sample_of b samples id.
Proof. intros Hp. unfold sample_of. by rewrite (ip_index _ _ Hp). Qed.

(** One more row. *)
Lemma sample_of_snoc b samples sp id : index_ok b [] -> ib_req_ids b !! length samples = Some (Some id) ->
  sample_of b samples id = [] /\ forall x, sample_of b (samples ++ [sp]) x = if decide (x = id) then sp else sample_of b samples x.
Proof.
  intros Hix Ho. split; [by rewrite (sample_of_row _ _ _ _ Hix Ho), lookup_ge_None_2|]. intros x. case_decide as Hx.
  - subst x. by rewrite (sample_of_row _ _ _ _ Hix Ho), lookup_app_r, Nat.sub_diag.
  - destruct (decide (live b x)) as [[p Hp]|Hn]; [|by rewrite !sample_of_absent]. rewrite !(sample_of_row _ _ _ _ Hix Hp).
    destruct (decide (p < length samples)%nat); [by rewrite lookup_app_l|].
    assert (p <> length samples) by (intros ->; rewrite Ho in Hp; by injection Hp). rewrite !lookup_ge_None_2; [done | lia | rewrite length_app; cbn; lia].
Qed.

Lemma record_samples_ok specs s samples : batch_ok (rn_outputs s) (rn_requests s) specs (input_batch s) v -> index_ok (input_batch s) [] ->
  store_ok vocab (rn_requests s) (rn_outputs s) (rn_next s) -> (length samples <= length (ib_req_ids (input_batch s)))%nat ->
  (forall id r, live (input_batch s) id -> rn_requests s !! id = Some r -> sample_of (input_batch s) samples id <> [] ->
    crs_num_tokens (rn_outputs s) r + py_len (sample_of (input_batch s) samples id) <= Z.min max_model_len (ib_max_model_len (input_batch s))) ->
  exists s', record_samples max_model_len samples s = Ok s' /\ recorded specs samples v s s' /\ store_ok vocab (rn_requests s') (rn_outputs s') (rn_next s').
Proof.
  intros Hok Hix Hst. induction samples as [|sp samples IH] using rev_ind; intros Hlen Hfit.
  { exists s. split; [done|]. split; [|done]. assert (Hnil : forall id, sample_of (input_batch s) [] id = []) by (intros id; unfold sample_of; by destruct (dget id _)).
    split; auto using in_place_refl; [|intros id r _; by rewrite Hnil, app_nil_r].
    eapply batch_ok_change; [exact Hok|]. intros id r _ Hr. split; [done|]. split; [done|]. unfold drafts_left. by rewrite Hnil. }
  rewrite length_app in Hlen. cbn in Hlen.
  destruct (lookup_lt_is_Some_2 (ib_req_ids (input_batch s)) (length samples) ltac:(lia)) as [o Ho]. destruct (dense_lookup _ _ _ Hix Ho) as [id ->].
  destruct (sample_of_snoc _ _ sp id Hix Ho) as [Hbefore Hsnoc].
  assert (Hother : forall x, x <> id -> sample_of (input_batch s) (samples ++ [sp]) x = sample_of (input_batch s) samples x)
    by (intros x Hx; by rewrite Hsnoc, decide_False).
  assert (Hself : sample_of (input_batch s) (samples ++ [sp]) id = sp) by (by rewrite Hsnoc, decide_True).
  destruct IH as (s1 & Hrun1 & [B1 P1 Q1 N1 E1 V1 O1 F1] & Hst1); [lia | |].
  { intros x r Hl Hr Hne. destruct (decide (x = id)) as [->|Hx]; [by rewrite Hbefore in Hne|]. rewrite <- Hother by done. apply Hfit; [done | done | by rewrite Hother]. }
  unfold record_samples in *. rewrite imap_app, for_each_app, Hrun1. cbn [mbind result_bind imap for_each fst snd]. rewrite Nat.add_0_r.
  destruct (bo_cells _ _ _ _ _ Hok _ _ Ho) as (r & Hr & _).
  destruct (decide (sp = [])) as [->|Hne].
  { exists s1. split; [done|]. split; [|done]. assert (Hsame : forall x, sample_of (input_batch s) (samples ++ [[]]) x = sample_of (input_batch s) samples x).
    { intros x. destruct (decide (x = id)) as [->|]; [by rewrite Hself, Hbefore | by apply Hother]. }
    split; try done; [|intros x y Hy; rewrite Hsame; by apply O1].
    eapply batch_ok_change; [exact B1|]. intros x y _ Hy. split; [done|]. split; [done|]. unfold drafts_left. by rewrite Hsame. }
  assert (Ho1 : ib_req_ids (input_batch s1) !! length samples = Some (Some id)) by (by rewrite (ip_ids _ _ P1)).
  assert (Hout1 : outputs_at (rn_outputs s1) (crs_output r) = outputs_at (rn_outputs s) (crs_output r)) by (by rewrite (O1 id r Hr), Hbefore, app_nil_r).
  destruct (record_row_ok (drafts_left (input_batch s) samples specs) s1 (length samples) id r sp B1 (in_place_index _ _ _ P1 Hix) Hst1 Ho1) as (s' & Hrun & P2 & Q2 & N2 & E2 & V2 & Hh & B2);
    [by rewrite Q1 | done | |].
  { assert (Hml : ib_max_model_len (input_batch s1) = ib_max_model_len (input_batch s)) by (by destruct (ip_settings _ _ P1) as (_ & _ & _ & ? & _)).
    rewrite Hml. unfold crs_num_tokens. rewrite Hout1. specialize (Hfit id r). rewrite Hself in Hfit. apply Hfit; [by eexists | done | done]. }
  exists s'. rewrite Hrun. cbn [mbind result_bind]. split; [done|].
  assert (Hkn : forall x y, rn_requests s !! x = Some y -> x <> id -> crs_output y <> crs_output r) by (intros x y Hy Hx; exact (so_alias _ _ _ _ Hst x id y r Hx Hy Hr)).
  split; [split|].
  - eapply batch_ok_change; [exact B2|]. intros x y _ Hy. split; [done|]. split; [done|]. unfold drafts_left. case_decide as Hx.
    + subst x. rewrite Hself, Hbefore. by destruct sp.
    + by rewrite Hother.
  - by eapply in_place_trans.
  - congruence. - congruence. - congruence. - congruence.
  - intros x y Hy. rewrite Hh. unfold outputs_at at 1. destruct (decide (x = id)) as [->|Hx].
    + rewrite Hr in Hy. injection Hy as <-. rewrite lookup_insert_eq. cbn. by rewrite Hout1, Hself.
    + rewrite lookup_insert_ne by (by apply not_eq_sym, (Hkn x y Hy)). rewrite Hother by done. exact (O1 x y Hy).
  - intros a Ha. rewrite Hh, lookup_insert_ne by (by apply (Ha id)). by apply F1.
  - rewrite Q2, N2. destruct Hst1 as [K A F]. split; [done | done |]. intros a Ha. rewrite Hh, lookup_insert_ne; [by apply F|].
    pose proof (kn_output _ _ _ _ (K id r ltac:(by rewrite Q1))). lia.
Qed.
End Record.

(** ** The tokens that count *)

(** The tokens a step adds for each row. *)
Definition new_tokens (async : bool) (vocab_size : Z) (discard : list Z) (out : SamplerOutput) : list (list Z) :=
  imap (fun i row =>
    if bool_decide (Z.of_nat i ∈ discard) then []
    else if async then [-1]
    else if max_gen_len out =? 1 then row
    else List.filter (fun t => negb (t =? PLACEHOLDER_TOKEN_ID) && (t <? vocab_size)) row) (sampled_rows out).

Lemma clear_rows discard : forall valid : list (list Z), (forall z, z ∈ discard -> 0 <= z < py_len valid) ->
  for_each (fun i valid => py_setitem i [] valid) discard valid
  = Ok (imap (fun i row => if bool_decide (Z.of_nat i ∈ discard) then [] else row) valid).
Proof.
  induction discard as [|z discard IH]; intros valid Hin.
  - f_equal. apply list_eq. intros i. rewrite list_lookup_imap. destruct (valid !! i); [|done]. cbn. by rewrite bool_decide_eq_false_2 by (by intros ?%elem_of_nil).
  - destruct (Hin z) as [Hz0 Hz]; [by left|]. cbn [for_each]. rewrite py_setitem_in by done. cbn [mbind result_bind].
    rewrite IH by (intros y Hy; unfold py_len; rewrite length_insert; apply Hin; by right). f_equal. apply list_eq. intros i. rewrite !list_lookup_imap.
    destruct (decide (i = Z.to_nat z)) as [->|Hne].
    + unfold py_len in Hz. rewrite list_lookup_insert_eq by lia. destruct (lookup_lt_is_Some_2 valid (Z.to_nat z)) as [row Hrow]; [lia|]. rewrite Hrow. cbn.
      rewrite Z2Nat.id by done. rewrite (bool_decide_eq_true_2 (z ∈ z :: discard)) by (by left). by case_bool_decide.
    + rewrite list_lookup_insert_ne by done. destruct (valid !! i); [|done]. cbn. f_equal.
      rewrite (bool_decide_ext (Z.of_nat i ∈ z :: discard) (Z.of_nat i ∈ discard)); [done|]. rewrite elem_of_cons. split; [intros [Heq|?]; [lia | done] | by right].
Qed.

Lemma valid_sampled_ok vocab_size discard out : (forall z, z ∈ discard -> 0 <= z < py_len (sampled_rows out)) ->
  valid_sampled vocab_size discard out = Ok (new_tokens false vocab_size discard out).
Proof.
  intros Hin. unfold valid_sampled, new_tokens, parse_output. destruct (max_gen_len out =? 1); [by rewrite clear_rows|].
  rewrite clear_rows by (unfold py_len; by rewrite length_fmap). f_equal. apply list_eq. intros i. rewrite !list_lookup_imap, list_lookup_fmap. by destruct (sampled_rows out !! i).
Qed.

Lemma lookup_snoc_iff {A} (l : list A) x p y : (l ++ [x]) !! p = Some y <-> l !! p = Some y \/ (p = length l /\ y = x).
Proof.
  destruct (decide (p < length l)%nat) as [Hp|Hp].
  - rewrite lookup_app_l by done. split; [by left | intros [?|[-> _]]; [done | lia]].
  - rewrite lookup_app_r by lia. split; [|intros [Hy|[-> ->]]; [apply lookup_lt_Some in Hy; lia | by rewrite Nat.sub_diag]].
    intros Hy. apply lookup_lt_Some in Hy as Hl. cbn in Hl. assert (p = length l) as -> by lia. rewrite Nat.sub_diag in Hy. injection Hy as <-. by right.
Qed.

Lemma remember_rows_ok invalid b : index_ok b [] -> exists d, remember_rows invalid b = Ok d /\
  forall id z, dget id d = Some z <-> exists p : nat, z = Z.of_nat p /\ ib_req_ids b !! p = Some (Some id) /\ z ∉ invalid.
Proof.
  intros Hix. unfold remember_rows. assert (Huniq : forall p q id, ib_req_ids b !! p = Some (Some id) -> ib_req_ids b !! q = Some (Some id) -> p = q).
  { intros p q id Hp Hq. assert (H1 : dget id (ib_req_id_to_index b) = Some (Z.of_nat p)) by (apply (ix_get _ [] Hix); eauto).
    assert (H2 : dget id (ib_req_id_to_index b) = Some (Z.of_nat q)) by (apply (ix_get _ [] Hix); eauto). rewrite H1 in H2. injection H2 as H2. lia. }
  assert (Hdense : forall o, o ∈ ib_req_ids b -> exists id, o = Some id).
  { intros o Ho. apply list_elem_of_lookup in Ho as [p Ho]. by eapply dense_lookup. }
  revert Huniq Hdense. generalize (ib_req_ids b). clear b Hix. induction l as [|o l IH] using rev_ind; intros Huniq Hdense.
  { exists []. split; [done|]. intros id z. split; [done|]. by intros (p & _ & Hp & _). }
  destruct IH as (d & Hrun & Hd).
  { intros p q id Hp Hq. apply (Huniq p q id); by apply lookup_app_l_Some. } { intros x Hx. apply Hdense, elem_of_app. by left. }
  destruct (Hdense o) as [id ->]; [apply elem_of_app; right; by left|].
  rewrite imap_app, for_each_app, Hrun. cbn [mbind result_bind imap for_each fst snd]. rewrite Nat.add_0_r.
  assert (Hlast : (l ++ [Some id]) !! length l = Some (Some id)) by (by rewrite lookup_app_r, Nat.sub_diag).
  assert (Hold : forall p x, l !! p = Some (Some x) -> x <> id).
  { intros p x Hp ->. assert (p = length l) by (apply (Huniq _ _ id); [by apply lookup_app_l_Some | done]). apply lookup_lt_Some in Hp. lia. }
  assert (Hnew : forall x p, (l ++ [Some id]) !! p = Some (Some x) <-> l !! p = Some (Some x) \/ (p = length l /\ x = id)).
  { intros x p. rewrite lookup_snoc_iff. split; [intros [?|[? [= ->]]]; auto | intros [?|[? ->]]; auto]. }
  case_bool_decide as Hinv.
  - exists d. split; [done|]. intros x z. rewrite Hd. split; intros (p & -> & Hp & Hz).
    + exists p. split; [done|]. split; [apply Hnew; by left | done].
    + exists p. split; [done|]. split; [|done]. apply Hnew in Hp as [Hp|[-> ->]]; done.
  - eexists. split; [reflexivity|]. intros x z. destruct (decide (x = id)) as [->|Hx].
    + rewrite dget_dset_eq. split.
      * intros [= <-]. exists (length l). split; [done|]. split; [done | done].
      * intros (p & -> & Hp & _). apply Hnew in Hp as [Hp|[-> _]]; [by destruct (Hold p id Hp) | done].
    + rewrite dget_dset_ne by done. rewrite Hd. split; intros (p & -> & Hp & Hz); (exists p; split; [done|]; split; [|done]).
      * apply Hnew. by left.
      * apply Hnew in Hp as [Hp|[_ ->]]; done.
Qed.

Lemma batch_ok_remember h reqs specs b v d : batch_ok h reqs specs b v -> batch_ok h reqs specs (b <| prev_req_id_to_index := d |>) v.
Proof.
  intros [[] Hc Hs Hst Hl Hp]. split; try done. intros i id Hi. destruct (Hc i id Hi) as (r & ? & ? & ? & []). exists r. by split_and!.
Qed.

(** The invariant after recording. *)
Lemma runner_ok_recorded exact specs samples s s' v : runner_ok exact specs s v -> recorded specs samples v s s' ->
  store_ok (ib_vocab_size (input_batch s)) (rn_requests s') (rn_outputs s') (rn_next s') ->
  runner_ok exact (drafts_left (input_batch s) samples specs) s' v.
Proof.
  intros [Hok Hix Hbd Hst Hv (h0 & Hf & Hg & Hm)] [B P Q N E _ O F] Hst'. pose proof (ip_settings _ _ P) as (_ & _ & Hmax & _ & Hvoc & _). split; try done.
  - by eapply in_place_index.
  - by rewrite (ip_builder _ _ P).
  - by rewrite Hvoc.
  - by rewrite Hvoc.
  - exists h0. rewrite N, Q, Hmax, (ip_ids _ _ P), (ip_procs _ _ P). split; [done|]. split; [|done]. intros He id r Hr. specialize (Hg He id r Hr).
    unfold outputs_grow in *. rewrite (O id r Hr), py_len_app. unfold py_len in *. lia.
Qed.

Section Bookkeeping.
Context (c : RunnerConfig) (max_model_len : Z) (so : SchedulerOutput) (out : SamplerOutput) (hidden : option (list opaque)).
Context (exact : bool) (specs : string -> Drafts) (v : Views) (s : Runner) (x : InputBuffers) (k : HiddenStates).

(** The rows whose sample is thrown away. *)
Definition discarded : list Z := slice_to (num_discarded_requests x) (on_host (discard_request_indices x)).

(** The tokens of the step. *)
Definition step_tokens : list (list Z) := new_tokens (use_async_scheduling c) (ib_vocab_size (input_batch s)) discarded out.

(** One sample per row, bad rows within the batch, and room for the new tokens. *)
Record sampled_ok : Prop := {
  sa_rows : length (sampled_rows out) = length (ib_req_ids (input_batch s));
  sa_width : use_async_scheduling c = true -> max_gen_len out = 1;
  sa_discard : forall z, z ∈ discarded -> 0 <= z < py_len (sampled_rows out);
  sa_room : forall id r, live (input_batch s) id -> rn_requests s !! id = Some r -> sample_of (input_batch s) step_tokens id <> [] ->
    crs_num_tokens (rn_outputs s) r + py_len (sample_of (input_batch s) step_tokens id) <= Z.min max_model_len (ib_max_model_len (input_batch s));
}.

Context (Hok : runner_ok exact specs s v) (Hs : sampled_ok).

Lemma length_step_tokens : length step_tokens = length (ib_req_ids (input_batch s)).
Proof using Hs. unfold step_tokens, new_tokens. rewrite length_imap. apply Hs. Qed.

Lemma recording_ok d : exists s', record_samples max_model_len step_tokens (s <| input_batch := input_batch s <| prev_req_id_to_index := d |> |>) = Ok s' /\
  runner_ok exact (drafts_left (input_batch s) step_tokens specs) s' v /\ rn_requests s' = rn_requests s /\
  ib_req_ids (input_batch s') = ib_req_ids (input_batch s) /\ prev_req_id_to_index (input_batch s') = d /\
  forall id r, rn_requests s !! id = Some r ->
    outputs_at (rn_outputs s') (crs_output r) = outputs_at (rn_outputs s) (crs_output r) ++ sample_of (input_batch s) step_tokens id.
Proof using Hok Hs.
  set (s1 := s <| input_batch := input_batch s <| prev_req_id_to_index := d |> |>).
  assert (Hok1 : runner_ok exact specs s1 v).
  { destruct Hok as [H1 H2 H3 H4 H5 H6]. split; try done; [by apply batch_ok_remember | destruct H2; by split]. }
  destruct (record_samples_ok max_model_len v (ib_vocab_size (input_batch s)) specs s1 step_tokens) as (s' & Hrun & Hrec & Hst').
  - exact (ro_batch _ _ _ _ Hok1).
  - exact (ro_index _ _ _ _ Hok1).
  - exact (ro_store _ _ _ _ Hok1).
  - rewrite length_step_tokens. reflexivity.
  - exact (sa_room Hs).
  - exists s'. split; [exact Hrun|]. split; [exact (runner_ok_recorded exact specs _ s1 s' v Hok1 Hrec Hst')|]. split; [exact (rc_requests _ _ _ _ _ Hrec)|].
    split; [exact (ip_ids _ _ (rc_place _ _ _ _ _ Hrec))|]. split; [exact (rc_prev _ _ _ _ _ Hrec) | exact (rc_outputs _ _ _ _ _ Hrec)].
Qed.

(** What the step hands on. *)
Definition handed_on (st : SampledStep) (s' : Runner) : Prop :=
  ss_req_ids st = ib_req_ids (input_batch s) /\ ss_req_id_to_index st = ib_req_id_to_index (input_batch s) /\
  if use_async_scheduling c
  then ss_valid st = [] /\ ss_invalid st = discarded /\ ss_prev_sampled st = Some (concat (sampled_rows out)) /\
    exists d, prev_req_id_to_index (input_batch s') = Some d /\
      forall id z, dget id d = Some z <-> exists p : nat, z = Z.of_nat p /\ ib_req_ids (input_batch s) !! p = Some (Some id) /\ z ∉ discarded
  else ss_valid st = step_tokens /\ ss_invalid st = [] /\ ss_prev_sampled st = None.

Lemma bookkeeping_ok : exists st s', bookkeeping_sync c max_model_len so out hidden x s k
    = Ok (st, s', capture_hidden_states so (ib_req_ids (input_batch s)) hidden k) /\
  runner_ok exact (drafts_left (input_batch s) step_tokens specs) s' v /\ rn_requests s' = rn_requests s /\ handed_on st s' /\
  forall id r, rn_requests s !! id = Some r ->
    outputs_at (rn_outputs s') (crs_output r) = outputs_at (rn_outputs s) (crs_output r) ++ sample_of (input_batch s) step_tokens id.
Proof using Hok Hs.
  destruct Hs as [_ Hwidth Hdis _]. unfold bookkeeping_sync, handed_on. fold discarded. destruct (use_async_scheduling c) eqn:Ha; cbn [negb].
  - rewrite Hwidth by done. cbn [Z.eqb Pos.eqb py_assert mbind result_bind].
    destruct (remember_rows_ok discarded _ (ro_index _ _ _ _ Hok)) as (d & -> & Hd). cbn [mbind result_bind].
    assert (Hsam : imap (fun i (_ : list Z) => if bool_decide (Z.of_nat i ∈ discarded) then [] else [-1]) (sampled_rows out) = step_tokens)
      by (unfold step_tokens; by rewrite Ha).
    rewrite Hsam. destruct (recording_ok (Some d)) as (s' & Hrun & Hok' & Hreq & Hids & Hprev & Hout).
    rewrite Hrun. cbn [mbind result_bind]. rewrite Hids. eexists _, s'. split; [reflexivity|]. split; [exact Hok'|]. split; [exact Hreq|]. split; [|exact Hout].
    split; [done|]. split; [done|]. split; [done|]. split; [done|]. split; [done|]. by exists d.
  - assert (Hst : new_tokens false (ib_vocab_size (input_batch s)) discarded out = step_tokens) by (unfold step_tokens; by rewrite Ha).
    rewrite valid_sampled_ok by exact Hdis. rewrite Hst. cbn [mbind result_bind].
    assert (Hsame : s = s <| input_batch := input_batch s <| prev_req_id_to_index := prev_req_id_to_index (input_batch s) |> |>) by (destruct s as [? ? ? ? b]; by destruct b).
    destruct (recording_ok (prev_req_id_to_index (input_batch s))) as (s' & Hrun & Hok' & Hreq & Hids & _ & Hout). rewrite <- Hsame in Hrun.
    rewrite Hrun. cbn [mbind result_bind]. rewrite Hids. eexists _, s'. split; [reflexivity|]. split; [exact Hok'|]. split; [exact Hreq|]. by split.
Qed.
End Bookkeeping.

(** C14: Sampled tokens reach their requests.  On a runner whose batch represents its requests, bookkeeping does not fail when every
    row has a sample that fits: the outputs of every request grow by exactly its
    row's tokens (none for a discarded row; without asynchronous scheduling the tokens that were
    accepted, with it a placeholder) and no other request's change; the batch represents the
    requests with these outputs, recorded rows have no drafts left, and with asynchronous
    scheduling the rows that count are remembered for the next step. *)
Theorem samples_reach_requests c max_model_len so out hidden exact specs v s x k :
  runner_ok exact specs s v -> sampled_ok c max_model_len out s x ->
  exists st s' k', bookkeeping_sync c max_model_len so out hidden x s k = Ok (st, s', k') /\
    runner_ok exact (drafts_left (input_batch s) (step_tokens c out s x) specs) s' v /\ rn_requests s' = rn_requests s /\ handed_on c out s x st s' /\
    forall id r, rn_requests s !! id = Some r ->
      outputs_at (rn_outputs s') (crs_output r) = outputs_at (rn_outputs s) (crs_output r) ++ sample_of (input_batch s) (step_tokens c out s x) id.
Proof.
  intros Hok Hs. destruct (bookkeeping_ok c max_model_len so out hidden exact specs v s x k Hok Hs) as (st & s' & Hrun & H1 & H2 & H3 & H4).
  by exists st, s', (capture_hidden_states so (ib_req_ids (input_batch s)) hidden k).
Qed.

(** ** Hidden states *)

Section Capture.
Context (so : SchedulerOutput) (flagged : gset string) (hidden : list opaque).

Definition count_of (id : string) : Z := dget_or id 0 (num_scheduled_tokens so).

(** What the loop has after the requests [ids]. *)
Record capturing (ids : list string) (st : dict string (list opaque) * gset string * Z) : Prop := {
  cg_cached : forall id seg, dget id st.1.1 = Some seg <-> exists p : nat, ids !! p = Some id /\ id ∈ flagged /\
    seg = slice (int_sum (take p (count_of <$> ids))) (int_sum (take (S p) (count_of <$> ids))) hidden;
  cg_captured : forall id, id ∈ st.1.2 <-> id ∈ ids /\ id ∈ flagged;
  cg_offset : st.2 = int_sum (count_of <$> ids);
}.

Lemma capture_loop ids : NoDup ids -> (forall id, id ∈ ids -> 0 < count_of id) ->
  capturing ids (foldl (fun st o => capture_request so flagged hidden o st) ([], ∅, 0) (Some <$> ids)).
Proof.
  induction ids as [|id ids IH] using rev_ind; intros Hnd Hpos.
  { split; cbn; [|intros x; rewrite elem_of_empty, elem_of_nil; tauto | done]. intros x seg. split; [done|]. by intros (p & Hp & _). }
  apply NoDup_app in Hnd as (Hnd & Hnot & _). assert (Hid : id ∉ ids) by (intros Hin; apply (Hnot id Hin); by left).
  rewrite fmap_app, foldl_app. cbn [fmap list_fmap foldl].
  destruct (foldl _ _ (Some <$> ids)) as [[cached captured] offset].
  destruct (IH Hnd (fun x Hx => Hpos x (proj2 (elem_of_app _ _ _) (or_introl Hx)))) as [C1 C2 C3]. cbn [fst snd] in *.
  assert (Hn : 0 < count_of id) by (apply Hpos, elem_of_app; right; by left). unfold capture_request. fold (count_of id). destruct (Z.leb_spec (count_of id) 0); [lia|].
  assert (Hoff : int_sum (count_of <$> (ids ++ [id])) = offset + count_of id) by (rewrite fmap_app, int_sum_app, C3; unfold int_sum; cbn; lia).
  assert (Hold : forall p, (p < length ids)%nat -> int_sum (take p (count_of <$> (ids ++ [id]))) = int_sum (take p (count_of <$> ids)) /\
    int_sum (take (S p) (count_of <$> (ids ++ [id]))) = int_sum (take (S p) (count_of <$> ids))).
  { intros p Hp. rewrite fmap_app, !take_app_le by (rewrite length_fmap; lia). done. }
  assert (Hend : int_sum (take (length ids) (count_of <$> (ids ++ [id]))) = offset /\ int_sum (take (S (length ids)) (count_of <$> (ids ++ [id]))) = offset + count_of id).
  { split; [|rewrite take_ge, Hoff by (rewrite length_fmap, length_app; cbn; lia); done].
    rewrite fmap_app, take_app_length' by (by rewrite length_fmap). by rewrite C3. }
  assert (Hcached : forall x seg, x <> id -> (dget x cached = Some seg <-> exists p : nat, (ids ++ [id]) !! p = Some x /\ x ∈ flagged /\
    seg = slice (int_sum (take p (count_of <$> (ids ++ [id])))) (int_sum (take (S p) (count_of <$> (ids ++ [id])))) hidden)).
  { intros x seg Hx. rewrite C1. split; intros (p & Hp & Hf & ->); exists p.
    - destruct (Hold p (lookup_lt_Some _ _ _ Hp)) as [-> ->]. split; [apply lookup_snoc_iff; by left | done].
    - apply lookup_snoc_iff in Hp as [Hp|[_ ->]]; [|done]. by destruct (Hold p (lookup_lt_Some _ _ _ Hp)) as [-> ->]. }
  assert (Hnone : dget id cached = None).
  { destruct (dget id cached) as [seg|] eqn:Hg; [|done]. apply C1 in Hg as (p & Hp & _). destruct Hid. by eapply list_elem_of_lookup_2. }
  case_bool_decide as Hfl; split; cbn [fst snd]; try (by rewrite Hoff).
  - intros x seg. destruct (decide (x = id)) as [->|Hx]; [|rewrite dget_dset_ne by done; by apply Hcached].
    rewrite dget_dset_eq. split.
    + intros [= <-]. exists (length ids). destruct Hend as [-> ->]. split; [apply lookup_snoc_iff; by right | done].
    + intros (p & Hp & _ & ->). apply lookup_snoc_iff in Hp as [Hp|[-> _]]; [by apply list_elem_of_lookup_2 in Hp|]. by destruct Hend as [-> ->].
  - intros x. rewrite elem_of_union, elem_of_singleton, C2, elem_of_app, list_elem_of_singleton. split; [intros [->|[? ?]]; auto | intros [[?| ->] ?]; auto].
  - intros x seg. destruct (decide (x = id)) as [->|Hx]; [|by apply Hcached]. rewrite Hnone. split; [done|]. by intros (p & _ & ? & _).
  - intros x. rewrite C2, elem_of_app, list_elem_of_singleton. split; [intros [? ?]; auto | intros [[?| ->] ?]; [auto | done]].
Qed.
End Capture.

Section Kept.
Context (so : SchedulerOutput) (b : InputBatch) (counts ncs : list Z) (hidden : list opaque) (k : HiddenStates).
Context (Hix : index_ok b []) (Hcounts : scheduled_by_row so b = Ok counts) (Hpos : Forall (fun n => 0 < n) counts).
Context (Hncs : length ncs = length counts) (Hhid : int_sum counts <= py_len hidden) (Hen : enable (gambit_config k) = true).

Abbreviation ids := (omap id (ib_req_ids b)).
Abbreviation flagged := (capture_next_forward k).
Abbreviation k' := (capture_hidden_states so (ib_req_ids b) (Some hidden) k).

Lemma counts_of_ids : counts = count_of so <$> ids.
Proof using Hix Hcounts Hpos Hncs Hhid Hen.
  clear Hpos Hncs Hhid. unfold scheduled_by_row in Hcounts. apply mapM_Ok in Hcounts. rewrite (dense_ids b Hix) in Hcounts. apply Forall2_fmap_l in Hcounts.
  induction Hcounts as [|x n l ns Hx _ IH]; [done|]. rewrite fmap_cons. f_equal; [|exact IH]. cbn in Hx. unfold count_of, dget_or.
  destruct (dget x (num_scheduled_tokens so)); [by injection Hx | done].
Qed.

Lemma elem_of_ids x : x ∈ ids <-> live b x.
Proof using Hix Hcounts Hpos Hncs Hhid Hen.
  unfold live. split.
  - intros Hin. assert (Hs : Some x ∈ ib_req_ids b) by (rewrite (dense_ids b Hix); by apply list_elem_of_fmap_2). by apply list_elem_of_lookup in Hs.
  - intros [p Hp]. apply list_elem_of_omap. exists (Some x). split; [by eapply list_elem_of_lookup_2 | done].
Qed.

Lemma ids_lookup p x : ids !! p = Some x <-> ib_req_ids b !! p = Some (Some x).
Proof using Hix Hcounts Hpos Hncs Hhid Hen.
  rewrite (dense_ids b Hix) at 2. rewrite list_lookup_fmap. destruct (ids !! p); cbn; split; intros [= ->]; done.
Qed.

Lemma ids_NoDup : NoDup ids.
Proof using Hix Hcounts Hpos Hncs Hhid Hen.
  apply NoDup_alt. intros p q x Hp Hq. apply ids_lookup in Hp, Hq.
  assert (H1 : dget x (ib_req_id_to_index b) = Some (Z.of_nat p)) by (apply (ix_get _ [] Hix); eauto).
  assert (H2 : dget x (ib_req_id_to_index b) = Some (Z.of_nat q)) by (apply (ix_get _ [] Hix); eauto). rewrite H1 in H2. injection H2 as H2. lia.
Qed.

Lemma captured_all : exists st, k' = (let k1 := match st.1.1 with [] => k | _ => k <| last_hidden_states := st.1.1 |> end in
    k1 <| capture_next_forward := capture_next_forward k1 ∖ st.1.2 |>) /\ capturing so flagged hidden ids st.
Proof using Hix Hcounts Hpos Hncs Hhid Hen.
  assert (Hloop : capturing so flagged hidden ids (foldl (fun st o => capture_request so flagged hidden o st) ([], ∅, 0) (ib_req_ids b))).
  { pose proof (capture_loop so flagged hidden ids ids_NoDup) as Hl. rewrite <- (dense_ids b Hix) in Hl. apply Hl. intros x Hx. apply list_elem_of_lookup in Hx as [p Hp].
    apply (proj1 (Forall_lookup _ _) Hpos p). rewrite counts_of_ids, list_lookup_fmap, Hp. done. }
  unfold capture_hidden_states. rewrite Hen. cbn [negb orb]. rewrite orb_false_r. case_bool_decide as Hf.
  - exists ([], ∅, int_sum (count_of so <$> ids)). split; [cbn; rewrite difference_empty_L; by destruct k|].
    split; cbn; [|intros x; rewrite Hf, !elem_of_empty; tauto | done]. intros x seg. split; [done|]. intros (p & _ & Hin & _). rewrite Hf in Hin. by apply elem_of_empty in Hin.
  - destruct (foldl _ _ (ib_req_ids b)) as [[cached captured] offset]. by exists (cached, captured, offset).
Qed.

(** The rows of a flagged request. *)
Lemma captured_rows (p : nat) x nc n : ib_req_ids b !! p = Some (Some x) -> ncs !! p = Some nc -> counts !! p = Some n -> x ∈ flagged ->
  exists seg, dget x (last_hidden_states k') = Some seg /\ py_len seg = n /\
    forall q j, places ncs counts !! q = Some (Z.of_nat p, nc + j) -> seg !! Z.to_nat j = hidden !! q.
Proof using Hix Hcounts Hpos Hncs Hhid Hen.
  intros Hp Hnc Hn Hf. destruct captured_all as (st & -> & [C1 C2 C3]). pose proof counts_of_ids as Hc.
  assert (Hnn : Forall (fun n => 0 <= n) counts) by (eapply Forall_impl; [exact Hpos|]; cbn; lia).
  set (a := int_sum (take p counts)). assert (Hsum : int_sum (take (S p) counts) = a + n) by (rewrite (take_S_r _ _ _ Hn), int_sum_app; unfold int_sum at 2; cbn; lia).
  assert (Ha : 0 <= a) by (apply int_sum_nonneg, Forall_take; done). assert (Hn0 : 0 < n) by exact (proj1 (Forall_lookup _ _) Hpos _ _ Hn).
  assert (Htot : a + n <= int_sum counts).
  { assert (Hall : int_sum counts = int_sum (take (S p) counts) + int_sum (drop (S p) counts)) by (by rewrite <- int_sum_app, take_drop).
    pose proof (int_sum_nonneg _ (Forall_drop _ (S p) _ Hnn)). lia. }
  assert (Hget : dget x st.1.1 = Some (slice a (a + n) hidden)).
  { apply C1. exists p. split; [by apply ids_lookup|]. split; [done|]. rewrite <- Hc. fold a. by rewrite Hsum. }
  exists (slice a (a + n) hidden). split; [destruct st as [[[|e cached] captured] offset]; [done | exact Hget]|].
  rewrite slice_in by lia. split; [unfold py_len in *; rewrite length_drop, length_take; lia|].
  intros q j Hq. destruct (places_inv ncs counts Hncs Hnn _ _ _ Hq) as (p' & nc' & n' & j' & Hpp & Hnc' & Hn' & Hj & Hjj & Hk).
  assert (p' = p) as -> by lia. rewrite Hnc in Hnc'. injection Hnc' as <-. rewrite Hn in Hn'. injection Hn' as <-. assert (j' = j) as -> by lia.
  rewrite lookup_drop, lookup_take_lt by lia. f_equal. unfold a. lia.
Qed.

Lemma captured_flags x : x ∈ capture_next_forward k' <-> x ∈ flagged /\ ~ live b x.
Proof using Hix Hcounts Hpos Hncs Hhid Hen.
  destruct captured_all as (st & -> & [C1 C2 C3]). assert (Hk : forall cached : dict string (list opaque), capture_next_forward (match cached with [] => k | _ => k <| last_hidden_states := cached |> end) = flagged) by (by intros []).
  cbn [capture_next_forward]. cbn zeta. change (x ∈ capture_next_forward (match st.1.1 with [] => k | _ => k <| last_hidden_states := st.1.1 |> end) ∖ st.1.2 <-> x ∈ flagged /\ ~ live b x).
  rewrite Hk, elem_of_difference, C2, elem_of_ids. tauto.
Qed.

(** Who is not captured has no hidden states, unless nobody is. *)
Lemma captured_others x y : ~ (live b x /\ x ∈ flagged) -> live b y -> y ∈ flagged -> dget x (last_hidden_states k') = None.
Proof using Hix Hcounts Hpos Hncs Hhid Hen.
  intros Hx [p Hp] Hy. destruct captured_all as (st & -> & [C1 C2 C3]).
  assert (Hny : dget y st.1.1 <> None). { intros Hn. enough (dget y st.1.1 = Some (slice (int_sum (take p (count_of so <$> ids))) (int_sum (take (S p) (count_of so <$> ids))) hidden)) by congruence.
    apply C1. exists p. split; [by apply ids_lookup | done]. }
  assert (Hnx : dget x st.1.1 = None).
  { destruct (dget x st.1.1) as [seg|] eqn:Hg; [|done]. apply C1 in Hg as (q & Hq & Hf & _). destruct Hx. split; [|done]. apply elem_of_ids. by eapply list_elem_of_lookup_2. }
  destruct st as [[[|e cached] captured] offset]; [done | exact Hnx].
Qed.
End Kept.

(** The requests flagged after a step. *)
Lemma flags_ok st b k x : index_ok b [] -> ss_req_id_to_index st = ib_req_id_to_index b -> ss_valid st <> [] -> enable (gambit_config k) = true ->
  (x ∈ capture_next_forward (flag_next_captures st k) <-> x ∈ capture_next_forward k \/
    (live b x /\ (0 < scoring_stride (gambit_config k) \/
      exists boundary t, double_new_line_tokenID (gambit_config k) = Some boundary /\ t ∈ boundary /\ t ∈ sample_of b (ss_valid st) x))).
Proof.
  intros Hix Hst Hne Hen. unfold flag_next_captures. rewrite Hen, bool_decide_eq_false_2 by done. cbn [negb andb].
  change (x ∈ capture_next_forward k ∪ list_to_set (trigger_req_ids (gambit_config k) st) <-> x ∈ capture_next_forward k \/
    (live b x /\ (0 < scoring_stride (gambit_config k) \/
      exists boundary t, double_new_line_tokenID (gambit_config k) = Some boundary /\ t ∈ boundary /\ t ∈ sample_of b (ss_valid st) x))).
  rewrite elem_of_union, elem_of_list_to_set. apply or_iff_compat_l. unfold trigger_req_ids. rewrite Hst.
  assert (Hlive : forall z, (x, z) ∈ ib_req_id_to_index b -> live b x /\ dget x (ib_req_id_to_index b) = Some z).
  { intros z Hz. assert (Hg : dget x (ib_req_id_to_index b) = Some z) by (apply elem_of_dget; [apply Hix | done]). split; [|done].
    apply (ix_get b [] Hix) in Hg as (p & _ & Hp). by exists p. }
  assert (Hback : live b x -> exists p : nat, (x, Z.of_nat p) ∈ ib_req_id_to_index b /\ ib_req_ids b !! p = Some (Some x)).
  { intros [p Hp]. exists p. split; [|done]. apply dget_elem_of, (ix_get b [] Hix). eauto. }
  destruct (Z.ltb_spec 0 (scoring_stride (gambit_config k))).
  - unfold dkeys. rewrite list_elem_of_fmap. split.
    + intros ([y z] & -> & Hz). split; [by eapply Hlive | by left].
    + intros [Hl _]. destruct (Hback Hl) as (p & Hp & _). by eexists (x, _).
  - rewrite list_elem_of_fmap. split.
    + intros ([y z] & -> & Hin). apply list_elem_of_In, filter_In in Hin as [Hin Hc]. apply list_elem_of_In in Hin. cbn [fst snd] in *.
      destruct (Hlive z Hin) as [Hl Hg]. split; [done|]. right. destruct (Z.leb_spec (py_len (ss_valid st)) z); [done|].
      destruct (double_new_line_tokenID (gambit_config k)) as [bs|]; [|done]. apply existsb_exists in Hc as (t & Ht & Hb). apply bool_decide_eq_true in Hb.
      exists bs, t. split; [done|]. split; [done|]. unfold sample_of. rewrite Hg. by apply list_elem_of_In.
    + intros [Hl [Hlt|(bs & t & Hb & Htb & Ht)]]; [lia|]. destruct (Hback Hl) as (p & Hin & Hp). exists (x, Z.of_nat p). split; [done|].
      rewrite (sample_of_row b _ p x Hix Hp) in Ht. destruct (ss_valid st !! p) as [row|] eqn:Hrow; [|by apply elem_of_nil in Ht]. cbn in Ht.
      apply list_elem_of_In, filter_In. split; [by apply list_elem_of_In|]. cbn [snd]. apply lookup_lt_Some in Hrow as Hlt.
      destruct (Z.leb_spec (py_len (ss_valid st)) (Z.of_nat p)); [unfold py_len in *; lia|]. rewrite Hb, Nat2Z.id, Hrow. cbn.
      apply existsb_exists. exists t. split; [by apply list_elem_of_In | by apply bool_decide_eq_true].
Qed.

Lemma capture_config so ids hidden k : gambit_config (capture_hidden_states so ids hidden k) = gambit_config k.
Proof. unfold capture_hidden_states. destruct hidden; [|done]. destruct (_ || _); [done|]. by destruct (foldl _ _ _) as [[[|? ?] captured] offset]. Qed.

(** C15: The hidden states kept for scoring are the requests' own.  A step of [sample_tokens] does not fail, and what is flagged
    after it is what was flagged before and not served in it and, only without asynchronous scheduling, the requests of the
    batch that sampled a token that ends a paragraph (all of them with a scoring stride); with asynchronous scheduling
    nothing new is ever flagged.  The next forward pass keeps for every flagged request in its batch
    the rows of exactly the tokens that it computes for it, so the row of the token that was sampled
    is among them; what was kept before is replaced, and flags stay only for requests that were not in
    the batch. *)
Theorem boundary_states_are_kept c max_model_len so out hidden exact specs v s x k so' b' counts ncs hidden' :
  runner_ok exact specs s v -> sampled_ok c max_model_len out s x -> enable (gambit_config k) = true ->
  index_ok b' [] -> scheduled_by_row so' b' = Ok counts -> Forall (fun n => 0 < n) counts -> length ncs = length counts -> int_sum counts <= py_len hidden' ->
  exists st s' k1, sample_tokens c max_model_len so out hidden x s k = Ok (st, s', k1) /\
  let k2 := capture_hidden_states so' (ib_req_ids b') (Some hidden') k1 in
  (forall y, y ∈ capture_next_forward k1 <-> y ∈ capture_next_forward (capture_hidden_states so (ib_req_ids (input_batch s)) hidden k) \/
    (use_async_scheduling c = false /\ live (input_batch s) y /\ (0 < scoring_stride (gambit_config k) \/
      exists boundary t, double_new_line_tokenID (gambit_config k) = Some boundary /\ t ∈ boundary /\
        t ∈ sample_of (input_batch s) (step_tokens c out s x) y))) /\
  (forall (p : nat) y nc n, ib_req_ids b' !! p = Some (Some y) -> ncs !! p = Some nc -> counts !! p = Some n -> y ∈ capture_next_forward k1 ->
    exists seg, dget y (last_hidden_states k2) = Some seg /\ py_len seg = n /\
      forall q j, places ncs counts !! q = Some (Z.of_nat p, nc + j) -> seg !! Z.to_nat j = hidden' !! q) /\
  (forall y z, ~ (live b' y /\ y ∈ capture_next_forward k1) -> live b' z -> z ∈ capture_next_forward k1 -> dget y (last_hidden_states k2) = None) /\
  (forall y, y ∈ capture_next_forward k2 <-> y ∈ capture_next_forward k1 /\ ~ live b' y).
Proof.
  intros Hok Hs Hen Hix' Hc Hp Hn Hh. destruct (bookkeeping_ok c max_model_len so out hidden exact specs v s x k Hok Hs) as (st & s' & Hrun & _ & _ & (_ & Hst & Hgiven) & _).
  set (k0 := capture_hidden_states so _ hidden k) in *. exists st, s', (flag_next_captures st k0).
  split; [unfold sample_tokens; by rewrite Hrun|]. cbv zeta.
  assert (Hen0 : gambit_config k0 = gambit_config k) by apply capture_config.
  assert (Hen1 : enable (gambit_config (flag_next_captures st k0)) = true) by (unfold flag_next_captures; rewrite <- Hen0 in Hen; by destruct (_ && _)).
  split; [|split; [|split]].
  - intros y. destruct (use_async_scheduling c) eqn:Ha.
    + destruct Hgiven as [Hv _]. unfold flag_next_captures. rewrite Hv, bool_decide_eq_true_2, andb_false_r by done. split; [by left | by intros [?|[? _]]].
    + destruct Hgiven as [Hv _]. destruct (decide (ss_valid st = [])) as [Hnil|Hnil].
      * unfold flag_next_captures. rewrite Hnil, bool_decide_eq_true_2, andb_false_r by done. split; [by left|]. intros [?|(_ & [q Hq] & _)]; [done|].
        apply lookup_lt_Some in Hq. rewrite <- (length_step_tokens c max_model_len out s x Hs), <- Hv, Hnil in Hq. cbn in Hq. lia.
      * rewrite (flags_ok st (input_batch s) k0 y (ro_index _ _ _ _ Hok) Hst Hnil) by (by rewrite Hen0). rewrite Hen0, Hv. tauto.
  - intros q y nc n. exact (captured_rows so' b' counts ncs hidden' _ Hix' Hc Hp Hn Hh Hen1 q y nc n).
  - exact (captured_others so' b' counts ncs hidden' _ Hix' Hc Hp Hn Hh Hen1).
  - exact (captured_flags so' b' counts ncs hidden' _ Hix' Hc Hp Hn Hh Hen1).
Qed.

(** ** Scores *)

Lemma get_hidden_ok req_ids k : dict_ok (get_hidden_states_by_req req_ids k) /\
  forall x, dget x (get_hidden_states_by_req req_ids k) = if decide (x ∈ req_ids) then dget x (last_hidden_states k) else None.
Proof.
  unfold get_hidden_states_by_req. induction req_ids as [|y l [IH1 IH2]] using rev_ind.
  { split; [apply dict_ok_nil|]. intros x. by rewrite decide_False by (by intros ?%elem_of_nil). }
  rewrite foldl_app. cbn [foldl]. split; [destruct (dget y (last_hidden_states k)); [by apply dict_ok_dset | done]|].
  intros x. destruct (decide (x = y)) as [->|Hne].
  - rewrite (decide_True (P := y ∈ l ++ [y])) by (apply elem_of_app; right; by left).
    destruct (dget y (last_hidden_states k)) as [t|] eqn:Hy; [by rewrite dget_dset_eq|]. rewrite IH2. by case_decide.
  - assert (Hin : x ∈ l ++ [y] <-> x ∈ l) by (rewrite elem_of_app, list_elem_of_singleton; tauto).
    transitivity (if decide (x ∈ l) then dget x (last_hidden_states k) else None).
    + destruct (dget y (last_hidden_states k)); [rewrite dget_dset_ne by done|]; apply IH2.
    + destruct (decide (x ∈ l)), (decide (x ∈ l ++ [y])); tauto || done.
Qed.

(** The history of a trace. *)
Definition history (k : HiddenStates) (x : string) : option (list (list opaque)) := dget x (all_hidden_states k) ≫= fun a => histories k !! a.

(** No two traces share a list. *)
Record histories_ok (k : HiddenStates) : Prop := {
  hs_dict : dict_ok (all_hidden_states k);
  hs_known : forall x a, dget x (all_hidden_states k) = Some a -> (a < length (histories k))%nat;
  hs_own : forall x y a, dget x (all_hidden_states k) = Some a -> dget y (all_hidden_states k) = Some a -> x = y;
}.

(** What scoring and copying leave alone. *)
Definition same_scorer (k k' : HiddenStates) : Prop :=
  is_sequence_scorer k' = is_sequence_scorer k /\ step_scorer_loaded k' = step_scorer_loaded k /\ last_hidden_states k' = last_hidden_states k.

(** A list of its own for one trace. *)
Lemma new_history_ok x l k : histories_ok k ->
  let k' := k <| all_hidden_states := dset x (length (histories k)) (all_hidden_states k) |> <| histories := histories k ++ [l] |> in
  histories_ok k' /\ forall y, history k' y = if decide (y = x) then Some l else history k y.
Proof.
  intros [h1 h2 h3] k'. split.
  - split; cbn; [by apply dict_ok_dset|..].
    + intros y a. rewrite dget_dset, length_app. cbn. case_decide; [intros [= <-]; lia | intros Ha%h2; lia].
    + intros y z a. rewrite !dget_dset. repeat case_decide; subst; try done.
      * intros [= <-] Hz%h2. lia.
      * intros Hy%h2 [= <-]. lia.
      * apply h3.
  - intros y. unfold history. cbn. rewrite dget_dset. case_decide as Hy; cbn; [by rewrite lookup_app_r, Nat.sub_diag by done|].
    destruct (dget y (all_hidden_states k)) as [a|] eqn:Ha; [|done]. cbn. apply lookup_app_l. by eapply h2.
Qed.

(** Appending to the list of one trace. *)
Lemma append_history_ok x a t k : histories_ok k -> dget x (all_hidden_states k) = Some a ->
  let k' := k <| histories := alter (fun l => l ++ [t]) a (histories k) |> in
  histories_ok k' /\ history k' x = (fun l => l ++ [t]) <$> history k x /\ forall y, y <> x -> history k' y = history k y.
Proof.
  intros [h1 h2 h3] Ha k'. split; [|split].
  - split; cbn; [done | | done]. intros y b Hy. rewrite length_alter. by eapply h2.
  - unfold history. cbn. rewrite Ha. cbn. apply list_lookup_alter_eq.
  - intros y Hy. unfold history. cbn. destruct (dget y (all_hidden_states k)) as [b|] eqn:Hb; [|done]. cbn.
    apply list_lookup_alter_ne. intros ->. by apply Hy, (h3 _ _ b).
Qed.

Section Histories.
Context `{StepScorer}.
Context (Hscore : forall l, length (run_scorer l) = length l).

(** The score of the last row of a history. *)
Definition end_score (hist : list (list opaque)) (score : float) : Prop := last (run_scorer (concat hist)) = Some score.

Lemma end_score_exists hist t : t <> [] -> exists score, py_index (run_scorer (concat (hist ++ [t]))) (-1) = Ok score /\ end_score (hist ++ [t]) score.
Proof using Hscore.
  intros Ht. pose proof (Hscore (concat (hist ++ [t]))) as Hlen. unfold end_score.
  assert (Hne : concat (hist ++ [t]) <> []). { rewrite concat_app. cbn. rewrite app_nil_r. intros Happ. by apply app_eq_nil in Happ as [_ ?]. }
  destruct (run_scorer (concat (hist ++ [t]))) as [|x l _] using rev_ind; [cbn in Hlen; by destruct (concat (hist ++ [t]))|].
  exists x. by rewrite py_index_last, last_snoc.
Qed.

Lemma score_request_ok rid t k : is_sequence_scorer k = true -> histories_ok k -> t <> [] ->
  let hist := default [] (history k rid) ++ [t] in
  exists score k', score_request rid t k = Ok ([score], k') /\ end_score hist score /\ histories_ok k' /\ same_scorer k k' /\
    history k' rid = Some hist /\ forall x, x <> rid -> history k' x = history k x.
Proof using Hscore.
  intros Hk Hok Ht hist. unfold score_request. rewrite Hk. destruct (end_score_exists (default [] (history k rid)) t Ht) as (score & Hs & He).
  assert (Href : exists a k1, history_ref rid k = (a, k1) /\ histories_ok k1 /\ same_scorer k k1 /\ dget rid (all_hidden_states k1) = Some a /\
    history k1 rid = Some (default [] (history k rid)) /\ forall x, x <> rid -> history k1 x = history k x).
  { unfold history_ref. destruct (dget rid (all_hidden_states k)) as [a|] eqn:Ha.
    - exists a, k. split; [done|]. split; [done|]. split; [done|]. split; [done|]. split; [|done].
      unfold history. rewrite Ha. cbn. by destruct (lookup_lt_is_Some_2 _ _ (hs_known _ Hok _ _ Ha)) as [l ->].
    - destruct (new_history_ok rid [] k Hok) as [Hok1 Hh]. cbn zeta. set (k1 := k <| all_hidden_states := _ |> <| histories := _ |>) in *.
      exists (length (histories k)), k1. split; [done|]. split; [exact Hok1|]. split; [done|].
      split; [apply dget_dset_eq|]. rewrite Hh, decide_True by done. split; [unfold history; by rewrite Ha|].
      intros x Hx. by rewrite Hh, decide_False. }
  destruct Href as (a & k1 & -> & Hok1 & Hsame & Ha & Hh1 & Hrest). cbn zeta beta iota.
  destruct (append_history_ok rid a t k1 Hok1 Ha) as (Hok2 & Hh2 & Hrest2). set (k2 := k1 <| histories := _ |>) in *.
  rewrite Hh1 in Hh2. change (history k2 rid = Some hist) in Hh2.
  assert (Hlist : default [] (histories k2 !! a) = hist).
  { assert (Hlook : history k2 rid = histories k2 !! a) by (unfold history; change (all_hidden_states k2) with (all_hidden_states k1); by rewrite Ha).
    by rewrite <- Hlook, Hh2. }
  rewrite Hlist. fold hist in Hs. rewrite Hs. cbn [mbind result_bind]. exists score, k2. split; [done|]. split; [done|]. split; [done|].
  split; [exact Hsame|]. split; [done|]. intros x Hx. by rewrite Hrest2, Hrest.
Qed.

Lemma scores_loop (hs : dict string (list opaque)) : forall res k, dict_ok hs -> Forall (fun p => p.2 <> []) hs -> is_sequence_scorer k = true -> histories_ok k ->
  exists res' k', for_each (fun (p : string * list opaque) st => '(scores, k) ← score_request p.1 p.2 st.2; Ok (dset p.1 scores st.1, k)) hs (res, k) = Ok (res', k') /\
    histories_ok k' /\ same_scorer k k' /\ forall x, match dget x hs with
      | Some t => let hist := default [] (history k x) ++ [t] in
          history k' x = Some hist /\ exists score, dget x res' = Some [score] /\ end_score hist score
      | None => history k' x = history k x /\ dget x res' = dget x res
      end.
Proof using Hscore.
  induction hs as [|[y t] hs IH]; intros res k Hd Hne Hk Hok; [by exists res, k|].
  apply NoDup_cons in Hd as [Hnot Hd]. apply Forall_cons in Hne as [Ht Hne]. cbn in Ht.
  destruct (score_request_ok y t k Hk Hok Ht) as (score & k1 & Hrun & Hend & Hok1 & (q1 & q2 & q3) & Hy & Hrest). cbn zeta in *.
  destruct (IH (dset y [score] res) k1 Hd Hne ltac:(congruence) Hok1) as (res' & k' & Hrun' & Hok' & (w1 & w2 & w3) & Hval).
  exists res', k'. split; [eapply for_each_cons_ok; [|exact Hrun']; cbn [fst snd]; by rewrite Hrun|]. split; [done|].
  split; [unfold same_scorer; split_and!; congruence|]. intros x. specialize (Hval x). cbn [dget]. destruct (decide (x = y)) as [->|Hx].
  - assert (Hn : dget y hs = None) by (by apply dget_None). rewrite Hn, dget_dset_eq in Hval. destruct Hval as [e1 e2].
    split; [by rewrite e1|]. by exists score.
  - rewrite Hrest, dget_dset_ne in Hval by done. exact Hval.
Qed.
End Histories.

Lemma clear_ok clear k : histories_ok k -> let k' := k <| all_hidden_states := foldl (fun d rid => ddel rid d) (all_hidden_states k) clear |> in
  histories_ok k' /\ forall x, history k' x = if decide (x ∈ clear) then None else history k x.
Proof.
  intros [h1 h2 h3] k'. assert (Hloop : forall d : dict string nat, dict_ok d -> dict_ok (foldl (fun d rid => ddel rid d) d clear) /\
    forall x, dget x (foldl (fun d rid => ddel rid d) d clear) = if decide (x ∈ clear) then None else dget x d).
  { clear. induction clear as [|y l IH]; intros d Hd; cbn [foldl].
    { split; [done|]. intros x. by rewrite decide_False by (by intros ?%elem_of_nil). }
    destruct (IH (ddel y d)) as [H1 H2]; [by apply dict_ok_ddel|]. split; [done|]. intros x. rewrite H2.
    destruct (decide (x = y)) as [->|Hne].
    - rewrite (decide_True (P := y ∈ y :: l)) by (by left). case_decide; [done|]. by apply dget_ddel_eq.
    - rewrite dget_ddel_ne by done. destruct (decide (x ∈ l)); [rewrite decide_True by (by right); done|]. rewrite decide_False; [done|]. by intros [?|?]%elem_of_cons. }
  destruct (Hloop _ h1) as [Hd Hget]. split.
  - split; cbn; [done|..].
    + intros x a. rewrite Hget. case_decide; [done | apply h2].
    + intros x y a. rewrite !Hget. repeat case_decide; try done. apply h3.
  - intros x. unfold history. cbn. rewrite Hget. by case_decide.
Qed.

Lemma copy_ok p c k : histories_ok k -> histories_ok (copy_history (p, c) k) /\ same_scorer k (copy_history (p, c) k) /\
  forall x, history (copy_history (p, c) k) x = if decide (x = c) then match history k p with Some h => Some h | None => history k c end else history k x.
Proof.
  intros Hok. unfold copy_history. cbn [fst snd]. destruct (dget p (all_hidden_states k)) as [a|] eqn:Ha.
  - destruct (lookup_lt_is_Some_2 _ _ (hs_known _ Hok _ _ Ha)) as [l Hl]. destruct (new_history_ok c (default [] (histories k !! a)) k Hok) as [H1 H2].
    split; [done|]. split; [done|]. intros x. rewrite H2. case_decide; [|done]. unfold history. rewrite Ha. cbn. by rewrite Hl.
  - split; [done|]. split; [done|]. intros x. case_decide as Hx; [|done]. subst x. unfold history at 2. by rewrite Ha.
Qed.

Lemma copies_ok pairs : forall k, histories_ok k -> NoDup pairs.*2 -> (forall p, p ∈ pairs.*1 -> p ∉ pairs.*2) ->
  let k' := foldl (fun k p => copy_history p k) k pairs in
  histories_ok k' /\ same_scorer k k' /\
  (forall p c, (p, c) ∈ pairs -> history k' c = match history k p with Some h => Some h | None => history k c end) /\
  (forall x, x ∉ pairs.*2 -> history k' x = history k x).
Proof.
  induction pairs as [|[p c] pairs IH]; intros k Hok Hnd Hpc; cbn [foldl].
  { split; [done|]. split; [done|]. split; [by intros p c ?%elem_of_nil | done]. }
  cbn in Hnd. apply NoDup_cons in Hnd as [Hc Hnd]. assert (Hpc' : forall q, q ∈ pairs.*1 -> q ∉ pairs.*2) by (intros q Hq Hq2; apply (Hpc q); [by right | by right]).
  assert (Hpn : p ∉ c :: pairs.*2) by (apply (Hpc p); by left). apply not_elem_of_cons in Hpn as [Hpc1 Hpc2].
  destruct (copy_ok p c k Hok) as (Hok1 & (s1 & s2 & s3) & Hh1). destruct (IH _ Hok1 Hnd Hpc') as (H0 & (w1 & w2 & w3) & H1 & H2). cbn zeta in *.
  split; [done|]. split; [unfold same_scorer; split_and!; congruence|]. split.
  - intros q e Hin. apply elem_of_cons in Hin as [[= -> ->]|Hin]; [by rewrite H2, Hh1, decide_True|].
    rewrite (H1 q e Hin). assert (Hq : q ∈ pairs.*1) by (apply list_elem_of_fmap; by exists (q, e)). assert (He : e ∈ pairs.*2) by (apply list_elem_of_fmap; by exists (q, e)).
    rewrite !Hh1, !decide_False; [done | intros ->; by apply Hc |]. intros ->. apply (Hpc c); [by right | by left].
  - intros x Hx. apply not_elem_of_cons in Hx as [Hx1 Hx2]. by rewrite H2, Hh1, decide_False.
Qed.

(** The rows to score for a request, if it is asked for and has some. *)
Definition new_rows (req_ids : list string) (k : HiddenStates) (x : string) : option (list opaque) :=
  if decide (x ∈ req_ids) then dget x (last_hidden_states k) else None.

(** C16: A branch is scored on its parent's trace and its own.  Histories are lists that are appended to in place, and no two traces
    share one, before and after.  When histories are dropped and those of parents copied to their branches (no branch
    twice, and no parent among the branches of the same call), a branch starts with its parent's history, unless the parent is
    dropped in the same call or has none: then it keeps what it had; everybody else keeps the own history unless it
    is dropped.  Scoring then does not fail: who is asked for and has new rows gets them appended to the own history, and
    as score the network's at the end of that history; nobody else's history changes, so the rows of a branch
    never reach its parent. *)
Theorem branch_scored_on_whole_trace `{StepScorer} req_ids clear_ids copy_pairs k :
  (forall l, length (run_scorer l) = length l) -> is_sequence_scorer k = true -> step_scorer_loaded k = true -> histories_ok k ->
  (forall x t, dget x (last_hidden_states k) = Some t -> t <> []) -> NoDup copy_pairs.*2 -> (forall p, p ∈ copy_pairs.*1 -> p ∉ copy_pairs.*2) ->
  let k1 := sync_sequence_histories clear_ids copy_pairs k in
  let kept x := if decide (x ∈ clear_ids) then None else history k x in
  (forall parent child, (parent, child) ∈ copy_pairs -> history k1 child = match kept parent with Some hist => Some hist | None => kept child end) /\
  (forall x, x ∉ copy_pairs.*2 -> history k1 x = kept x) /\
  exists res k2, step_scorer_evaluate req_ids k1 = Ok (res, k2) /\ histories_ok k2 /\
    forall x, match new_rows req_ids k x with
      | Some t => let hist := default [] (history k1 x) ++ [t] in
          history k2 x = Some hist /\ exists score, dget x res = Some [score] /\ end_score hist score
      | None => history k2 x = history k1 x /\ dget x res = None
      end.
Proof.
  intros Hscore Hseq Hload Hok Hne Hnd Hpc k1 kept. destruct (clear_ok clear_ids k Hok) as [Hok0 Hclear]. cbn zeta in *.
  set (k0 := k <| all_hidden_states := _ |>) in *. destruct (copies_ok copy_pairs k0 Hok0 Hnd Hpc) as (Hok1 & (e1 & e2 & e3) & Hcopy & Hrest). cbn zeta in *.
  assert (Hk1 : k1 = foldl (fun k p => copy_history p k) k0 copy_pairs) by (unfold k1, sync_sequence_histories; by rewrite Hseq).
  rewrite <- Hk1 in *. destruct (get_hidden_ok req_ids k1) as [Hgd Hget]. rewrite e3 in Hget. split; [|split].
  - intros parent child Hin. by rewrite (Hcopy parent child Hin), !Hclear.
  - intros x Hx. rewrite Hrest by done. apply Hclear.
  - destruct (scores_loop Hscore (get_hidden_states_by_req req_ids k1) [] k1 Hgd) as (res & k2 & Hrun & Hok2 & _ & Hval); [|by rewrite e1|done|].
    { apply Forall_forall. intros [x t] Hin. apply elem_of_dget in Hin; [|done]. rewrite Hget in Hin. case_decide; [by eapply Hne | done]. }
    exists res, k2. split; [unfold step_scorer_evaluate; rewrite e2; change (step_scorer_loaded k0) with (step_scorer_loaded k); by rewrite Hload|].
    split; [done|]. intros x. specialize (Hval x). rewrite Hget in Hval. exact Hval.
Qed.

(** ** Two steps of the runner of [WorkerStart] *)

(** ["b"] has its sample; ["a"] is still short of its prompt's end. *)
Definition sampled_inputs : InputBuffers :=
  sample_inputs <| discard_request_indices := mkBuffer [1; 0; 0] [1; 0; 0] |> <| num_discarded_requests := 1 |>.

Definition first_samples : SamplerOutput := mkSamplerOutput [[30]; [31]] 1.

Definition paragraph_states : HiddenStates :=
  mkHiddenStates (default_config <| enable := true |> <| double_new_line_tokenID := Some [30] |>) ∅ [] [] [] true true.

Lemma first_samples_ok : sampled_ok start_config 8 first_samples middle_runner sampled_inputs.
Proof.
  split; [done | done | |].
  - intros z. change (z ∈ [1] -> 0 <= z < 2). intros ->%list_elem_of_singleton. lia.
  - intros id r [[|[|p]] Hp] Hr; [injection Hp as <- | injection Hp as <- | done]; vm_compute in Hr; injection Hr as <-; intros _; vm_compute; discriminate.
Qed.

Lemma samples_reach_requests_witness : exists st s' k',
  bookkeeping_sync start_config 8 input_step first_samples (Some ["h0"; "h1"; "h2"; "h3"; "h4"]%string) sampled_inputs middle_runner paragraph_states = Ok (st, s', k') /\
  (exists specs v, runner_ok true specs s' v) /\ ss_valid st = [[30]; []].
Proof.
  destruct middle_runner_ok as (v & _ & Hok).
  destruct (samples_reach_requests start_config 8 input_step first_samples (Some ["h0"; "h1"; "h2"; "h3"; "h4"]%string) true _ v middle_runner sampled_inputs paragraph_states Hok)
    as (st & s' & k' & Hrun & Hok' & _ & (_ & _ & Hst & _) & _); [exact first_samples_ok|].
  exists st, s', k'. split; [exact Hrun|]. split; [eauto|]. rewrite Hst. vm_compute. reflexivity.
Defined.

(** The next pass computes the sampled token of ["b"] and the last one of ["a"]'s prompt. *)
Definition second_output : SchedulerOutput := sized_output [("b", 1); ("a", 1)]%string 2.

Lemma boundary_states_are_kept_witness : exists st s' k1,
  sample_tokens start_config 8 input_step first_samples (Some ["h0"; "h1"; "h2"; "h3"; "h4"]%string) sampled_inputs middle_runner paragraph_states = Ok (st, s', k1) /\
  "b"%string ∈ capture_next_forward k1 /\ exists seg, dget "b"%string (last_hidden_states
    (capture_hidden_states second_output [Some "b"; Some "a"]%string (Some ["of 30"; "of 15"]%string) k1)) = Some seg /\ py_len seg = 1.
Proof.
  destruct middle_runner_ok as (v & _ & Hok).
  destruct (boundary_states_are_kept start_config 8 input_step first_samples (Some ["h0"; "h1"; "h2"; "h3"; "h4"]%string) true _ v middle_runner sampled_inputs
    paragraph_states second_output (input_batch middle_runner) [1; 1] [2; 4] ["of 30"; "of 15"]%string Hok first_samples_ok)
    as (st & s' & k1 & Hrun & Hf & Hkept & _); try done.
  - exact (ro_index _ _ _ _ Hok).
  - by repeat constructor.
  - assert (Hb : "b"%string ∈ capture_next_forward k1).
    { apply Hf. right. split; [done|]. split; [by exists 0%nat|]. right. exists [30], 30. split; [done|]. split; apply (bool_decide_unpack _); vm_compute; exact I. }
    exists st, s', k1. split; [exact Hrun|]. split; [exact Hb|].
    destruct (Hkept 0%nat "b"%string 2 1) as (seg & Hseg & Hlen & _); [done | done | done | exact Hb|]. exists seg. split; [exact Hseg | exact Hlen].
Defined.

(** A network that scores nothing: one for every row. *)
#[local] Instance even_scorer : StepScorer := {| run_scorer := fun l => (fun _ => float_of_Z 1) <$> l |}.

Definition branched_states : HiddenStates := mkHiddenStates default_config ∅ [("child", ["new"]); ("parent", ["own"])]%string
  [("pruned", 0%nat); ("parent", 1%nat)]%string [[["x"]]; [["a"; "b"]; ["c"]]]%string true true.

Lemma branched_histories : histories_ok branched_states.
Proof.
  split.
  - apply (bool_decide_unpack _). vm_compute. exact I.
  - intros x a Ha. cbn in Ha |- *. repeat case_decide; try done; injection Ha as <-; lia.
  - intros x y a Hx Hy. cbn in Hx, Hy. repeat case_decide; simplify_eq; done.
Qed.

Lemma branch_scored_on_whole_trace_witness : exists res k2,
  step_scorer_evaluate ["child"]%string (sync_sequence_histories ["pruned"]%string [("parent", "child")]%string branched_states) = Ok (res, k2) /\
  history k2 "child"%string = Some [["a"; "b"]; ["c"]; ["new"]]%string /\
  history k2 "parent"%string = Some [["a"; "b"]; ["c"]]%string /\ history k2 "pruned"%string = None.
Proof.
  destruct (branch_scored_on_whole_trace ["child"]%string ["pruned"]%string [("parent", "child")]%string branched_states)
    as (_ & Hkeep & res & k2 & Hrun & _ & Hval); try done.
  - intros l. apply length_fmap.
  - apply branched_histories.
  - intros x t Ht. cbn in Ht. repeat case_decide; try done; by injection Ht as <-.
  - by repeat constructor; apply not_elem_of_nil.
  - intros p ->%list_elem_of_singleton. by intros ?%list_elem_of_singleton.
  - exists res, k2. split; [exact Hrun|]. split; [|split].
    + destruct (Hval "child"%string) as [H1 _]. exact H1.
    + destruct (Hval "parent"%string) as [H1 _]. rewrite H1. exact (Hkeep "parent"%string ltac:(by intros ?%list_elem_of_singleton)).
    + destruct (Hval "pruned"%string) as [H1 _]. rewrite H1. exact (Hkeep "pruned"%string ltac:(by intros ?%list_elem_of_singleton)).
Defined.
